(* ===== verification/_CoqProject ===== *)
-Q . S2P
Prelude.v
Numbers.v
IpAddress.v
Json.v
Lines.v
Containers.v
QrCode.v
ServerConfig.v
ProtocolConfigs.v
ServersRepository.v
TunnelCoreState.v
TunnelCore.v
TunnelCoreInv.v
TunnelCoreSession.v
TunnelCoreIsolation.v
TunnelCoreFacts.v
Installer.v
InstallerFacts.v
UpdateController.v
InterfaceConfig.v
InterfaceConfigFacts.v
Daemon.v
DaemonFacts.v
DaemonTheorems.v
LocalSocket.v
LocalSocketFacts.v
LocalSocketTheorems.v
SplitTunneling.v
SplitTunnelingFacts.v
SplitTunnelingTheorems.v
SecureSettings.v
SecureSettingsFacts.v
SecureSettingsTheorems.v
Netfilter.v
LinuxFirewall.v
LinuxFirewallFacts.v
LinuxFirewallShape.v
KillSwitch.v
WireguardLinux.v
KillSwitchFacts.v
KillSwitchTheorems.v
WireguardLinuxTheorems.v
VpnConnection.v
VpnConnectionFacts.v
VpnConnectionInv.v
VpnConnectionTheorems.v
Obfuscation.v
ObfuscationTheorems.v
Router.v
RouterTheorems.v
Import.v
ImportFacts.v
ImportTheorems.v
Connecting.v
ConnectingFacts.v
ConnectingTheorems.v
