(* ===== verification/Prelude.v ===== *)
(** * TunnelCore VPN: a verification library of the client

    TunnelCore VPN is a Qt client for WireGuard, AmneziaWG, OpenVPN and Xray tunnels.  It
    is written in C++ (with QML pages and small Kotlin and Swift parts per platform); its
    Windows installer is scripted in JavaScript; the [.ts] files of the repository are Qt
    Linguist catalogues, that is data.  This library models the parts that decide what
    the client does with an account, with the user's servers, with network ranges, with
    tunnel parameters and with installers.

    ** The parts and where they are modelled

    - [Prelude] (this file): record update, tactics, machine integers, strings.
    - [Json]: [QJsonValue], [QJsonArray], [QJsonObject]; the text format is the class
      [JsonText] with the round trip as its law, and [json_text_model] meets it.
    - [IpAddress]: [client/mozilla/shared/ipaddress.{h,cpp}].  [IPAddress] is a record of address
      and prefix; constructors, masks, [contains], [subnets] and [excludeAddresses] keep their
      names.  The client uses it to turn "all but these ranges" into AllowedIPs.
    - [ServerConfig]: [client/core/utils/serverConfigUtils.{h,cpp}], the kind of a stored
      server, with the parts of the server models it probes.
    - [ProtocolConfigs]: [client/core/models/protocols/awgProtocolConfig.{h,cpp}] and
      [wireGuardProtocolConfig.{h,cpp}], one Module per structure, and the keys of
      [core/utils/constants/configKeys.h] they use.
    - [ServersRepository]: [client/core/repositories/secureServersRepository.{h,cpp}], the
      server list in memory and in the settings.  It calls [ServerConfig] and [Json].
    - [TunnelCoreState], [TunnelCore]: [client/ui/controllers/tunnelCoreController.{h,cpp}],
      the account: sign-in, session, subscriptions, countries, routing rules, purchases and
      the delivery of configurations.  [ctl] holds the members of the class; one definition
      per function; the lambda a request carries is a constructor of the continuations,
      handled by [success] and [failure]; [step] delivers one event.
    - [TunnelCoreInv], [TunnelCoreSession], [TunnelCoreIsolation], [TunnelCoreFacts]: the
      theorems on it.
    - [UpdateController]: [client/core/controllers/updateController.{h,cpp}], the check for
      an update, the streamed download, its verification and the start of the installer.
    - [Installer], [InstallerFacts]: [deploy/installer/qif/controlscript.js] (Module
      [Control]) and [componentscript.js] (Module [Component]), in a monad whose state has
      the JavaScript globals and the history of questions and effects.
    - [Lines], [Numbers]: cutting a stream of bytes at line feeds; numbers as decimal texts.
    - [InterfaceConfig], [InterfaceConfigFacts]: [client/daemon/interfaceconfig.{h,cpp}], a
      tunnel as the daemon sees it, its JSON and the text WireGuard reads.
    - [Daemon], [DaemonFacts], [DaemonTheorems]: [client/daemon/daemon.{h,cpp}] and the default
      of [wireguardutils.h], the privileged part that brings tunnels up, switches them and takes
      them down.  It calls the platform's utilities, which are interfaces: the history records
      each call with its answer.
    - [LocalSocket], [LocalSocketFacts], [LocalSocketTheorems]: the socket between the two,
      [client/mozilla/localsocketcontroller.{h,cpp}] (Module [Client]) and
      [client/daemon/daemonlocalserverconnection.cpp] (Module [Server]).  The client writes a
      request made of a [ProtocolConfigs] structure; the server parses it with [Daemon] and
      runs [Daemon].
    - [SplitTunneling], [SplitTunnelingFacts], [SplitTunnelingTheorems]: which traffic uses the
      tunnel.  Module [Settings] has the entries of
      [client/core/repositories/secureAppSettingsRepository.cpp] that hold it; [Sites], [Apps] and
      [Dns] are [ipSplitTunnelingController.cpp], [appSplitTunnelingController.cpp] and
      [allowedDnsController.cpp] of [client/core/controllers]; [Connection] is
      [appendKillSwitchConfig] and [appendSplitTunnelingConfig] of [client/vpnConnection.cpp].
      [Sites.applyRouting] is the function [coreController.cpp] gives to the account
      controller: the rules [TunnelCore] receives become the site list, [Connection] adds that
      list to the configuration, [LocalSocket] sends it and [Daemon] brings it up.
    - [SecureSettings], [SecureSettingsFacts], [SecureSettingsTheorems]:
      [client/secureQSettings.{h,cpp}] and [common/crypto/cryptoUtils.cpp], the file of settings
      with its cache, its encrypted entries, the keys in the system's keychain, backup and
      restore.  The keychain, OpenSSL and the stream format are the class [Vault].
    - [Netfilter]: the programs [iptables] and [ip6tables] as an interface, what their manual page
      promises ([documented], [wf_netfilter]), and the walk of a packet through the chains.
    - [LinuxFirewall], [LinuxFirewallFacts], [LinuxFirewallShape]:
      [client/platforms/linux/daemon/linuxfirewall.{h,cpp}], the anchors of the firewall; the two
      shapes its filter tables are in ([absent], [laid_out]).
    - [KillSwitch], [KillSwitchFacts], [KillSwitchTheorems]:
      [service/server/killswitch.{h,cpp}] as compiled for Linux.  It keeps the strict mode in
      [SecureSettings] and switches the anchors of [LinuxFirewall].
    - [WireguardLinux], [WireguardLinuxTheorems]: [wireguardutilslinux.{h,cpp}] and
      [linuxroutemonitor.{h,cpp}] of [client/platforms/linux/daemon], the utilities [Daemon] calls
      on Linux: the tunnel process and its socket, netlink messages, the rules of a tunnel.
    - [VpnConnection], [VpnConnectionFacts], [VpnConnectionInv], [VpnConnectionTheorems]:
      [client/vpnConnection.{h,cpp}] with [vpnProtocol.{h,cpp}] and [wireGuardProtocol.{h,cpp}] of
      [client/core/protocols]: the states of the connection and of its protocol.  The protocol owns
      the client's end of [LocalSocket], whose outputs are its signals; the configuration is
      completed by [SplitTunneling.Connection].
    - [Obfuscation], [ObfuscationTheorems]: [client/core/utils/tunnelCoreObfuscation.h], the
      packets that look like DNS, and the functions of [connectionController.cpp] that put them
      into a configuration of [ProtocolConfigs].
    - [Router], [RouterTheorems]: [service/server/router_linux.{h,cpp}], the part of the service
      that [VpnConnection] calls for its routes ([serve]), against the table of the kernel.
    - [Containers], [QrCode]: the names of containers; series of QR codes
      ([client/core/utils/qrCodeUtils.cpp]) with Base64 and [QDataStream].
    - [Import], [ImportFacts], [ImportTheorems]:
      [client/core/controllers/selfhosted/importController.{h,cpp}] and
      [client/ui/controllers/importUiController.cpp], from a text, a file or scanned codes to a
      server of [ServersRepository].  The page of the account gives it what [TunnelCore] delivers
      ([importTunnelCoreConfig], [activateTunnelCoreProfile]); what it stores is read back with the
      structures of [ProtocolConfigs].
    - [Connecting], [ConnectingFacts], [ConnectingTheorems]: from the default server of
      [ServersRepository] to [VpnConnection]: the server models ([client/core/models/selfhosted],
      [models/api], [containerConfig.cpp], [protocolConfig.cpp]) as far as a connection reads them,
      [client/core/controllers/connectionController.cpp],
      [client/ui/controllers/connectionUiController.cpp] and the validation between them
      ([coreSignalHandlers.cpp]).  The page and the connection run in two threads: [application]
      has the queue of requests and the queue of states, and [app_step] their deliveries in any
      order with all other events.

    ** How the code becomes definitions

    A function that changes its object takes the state and returns it; what leaves the
    object (signals, requests, processes, messages) is a list of outputs in the order of
    the code.  An asynchronous request stays in the state with the continuation its reply
    is handled with, and the events of a run may come in any order, so that a theorem about
    all reachable states covers every interleaving of replies, user actions and timers.
    Library code is a field of a class ([JsonText], [CompactText], [HostText], [Platform],
    [World], [UpdateWorld], [Vault], [Netfilter], [WgHost], [VpnWorld], [Chance], [RouterHost],
    [QrSymbols], [ImportWorld], [OtherProtocols], [EventLoop], the environment of [Installer]):
    dates, URLs, digests, identifiers, addresses as text, files, the answers of the system and of
    the installer framework.  What the file of settings gives back for a value when it is read
    anew ([reread] of [Vault]), what freed memory holds ([after_free] of [WgHost]) and what a
    nested event loop runs while the connection waits for the service ([meanwhile] of
    [EventLoop]) are such fields too.  No law is assumed of these but the fields of the classes,
    the records of what their documentation promises ([wf_vault], [wf_netfilter], [wf_host])
    and the ones named in the statements (the order of a [std::sort], a [QHash] iterated in some order); each
    theorem with a hypothesis has a witness at a concrete instance.

    Integers are [Z] with the width written out where it matters: IPv4 addresses and masks
    modulo 2^32, IPv6 byte by byte, [int] and [qint64] conversions that fail out of range,
    [quint32] counters, [int] sums that are undefined on overflow.  Strings are byte
    strings; case mapping and white space are those of ASCII, as the keys, codes and
    versions the code compares are.  One reading of the clock serves a whole handler.
    Logging is left out, and translated texts are their sources.

    ** Fuel

    [excludeAddresses] halves a network at most 128 times (the longest prefix), which
    [excludeAddresses_exact] shows to be enough for masked networks, and no fuel is enough for some
    that are not ([exclude_unnormalised_diverges]).  The streamed download runs on the number of
    bytes available; [drain_streams_all] shows it takes them all.  The installer's message loop
    runs on the number of answers "Retry", and [message_loop_ends] shows that it ends when these
    do.  [nextAvailableServerName] tries as many numbers as there are servers, plus one, and always
    finds a free one.  Reading from the socket runs on the number of bytes and pieces, and
    [server_loop_lines] and [client_loop_lines] show that this handles every line; [activate] of
    the daemon calls itself at most once, since it has removed the connections before
    ([activate_unfold]).  Replacing and splitting in a text run on the length of the text, of which
    each round takes at least one character.  A packet is followed through as many nested chains as
    a table has, and four more ([jumps]), which is enough since chains do not call themselves; the
    client's own take four: [OUTPUT], the root chain, the chain of an anchor and its rules
    ([client_decision]).  A series of QR codes is cut on the length of its data ([joined_pieces]
    shows that no byte is left), the expressions of an OpenVPN text are searched on the length of
    the text.  The session counter is a [quint32]: the theorems on stale replies hold for runs of
    fewer than 2^32 events, in which it cannot come round.

    ** What the theorems show

    - Networks: excluding ranges yields exactly the addresses outside them; membership,
      masks and halves are correct.
    - Server list: every operation refines an operation on an ordered list of servers, keeps
      the representation well formed (ids without duplicates, a default that exists), and
      what is saved is what is loaded; a rejected edit changes nothing; new names are fresh.
    - Account: the access token is sent to the service's own address only; at most one
      background refresh of a cache key runs; the busy flag is set only while a reply or a
      purchase is awaited; a controller that is signed out holds no
      name, subscription, configuration or country of the account; a reply of an
      earlier session changes nothing; every chain of replies ends; the subscription shown
      is the longest one; remaining days are rounded up; split tunnelling of a country only
      adds direct rules for its networks; the cache of the rules reads back; unchanged rules
      are applied once.
    - Updates: an installer is started only when the bytes the controller wrote have the announced
      size and digest and the announced version is newer; the file is not verified again when it
      is started.
    - Installer: an old installation is removed only when seen on disk and the user agreed; the
      application is started without the installer's rights; what is installed can be undone.
    - Protocol configurations: JSON round trips, comparison of servers, parameter checks.
    - Interface text: its lines are the settings of the configuration; a line feed in a
      parameter that is not validated adds settings of its own.
    - Daemon: the routes around the tunnel are exactly those the connections exclude; a failed
      activation is rolled back when its exclusion routes can be deleted; a deactivation leaves
      nothing; handshakes are reported; a switch keeps ranges it should remove.
    - Socket: commands arrive whole and in order however the bytes are cut; the interface the
      daemon activates is the one of the account; retries end; requests for logs are answered
      once; a bare IPv6 address takes its whole /32.
    - Split tunnelling: the list a controller shows is the one the settings hold; an exported list
      imports to itself; a name that resolves after the list was switched goes to the wrong list;
      the account's direct rules replace the list, and those for addresses are what the next
      connection that can split excludes; and the chosen policy reaches the interface the daemon
      activates.
    - Settings: the file with its cache and its encryption refines a plain map, up to what the
      format gives back after a restart; where encryption is required the server list and the
      token get into the file as ciphertext only; a backup restores what it took; a file that
      is converted while the keychain yields no key stays in clear for good.
    - Kill switch on Linux: the chains of the client are all there or none of them, whatever other
      programs do to theirs, whose rules are never touched; the verdict on every packet is the
      one the configuration promises, so that with a tunnel for everything nothing leaves
      outside it but what is listed and what a rule of another program before the client's jump
      lets out; with the same exception strict mode lets only loopback out; switching off leaves
      the tables of the other programs and nothing else; a tunnel comes up filtered.
    - Routes and peers on Linux: netlink messages are complete and within their buffer, a deletion
      names the route that was added as long as interface and gateway stay the same, but removing a
      range adds it again; the peers reported are the peers returned.
    - Connection: shown as connected means that the daemon said so last, unless the connection is
      changed while it waits for the service (a disconnection in that moment is overwritten);
      connecting sends one activation of the right configuration; a reconnection stays with its
      configuration and waits for the daemon, but a failed one is never reported; a disconnection
      leaves no protocol and tells a daemon whose first status has come to deactivate, but one
      before that leaves the activation standing; the lookups of sites route each new address and
      flush the DNS cache once.
    - Packets that look like DNS: each is read as one complete query for a name of the chosen
      family, whatever is drawn; the family of an account does not change; the static packets are
      never fallen back to.
    - Import: what the account delivers becomes the default server with every setting of the text
      in its place; there is never a second server of the account; a WireGuard text is read as
      written; QR codes scanned in any order give back what was drawn; every listed command of a
      plain OpenVPN text that runs a script is shown, but one that is followed by a tabulator is
      not, nor are those of any but the last container or of a scanned object.
    - Routes of the service: once a connection has ended, with the service there and its sockets
      opening, every route it added is gone and every other one is there; without a socket they
      are forgotten and stay, and a late answer of the resolver adds one.
    - Connecting: the text the account delivers, imported and connected by the button, is the
      activation the daemon is asked for, setting by setting; in every interleaving of the two
      threads the button shows "connected" only for a connection that is; a configuration is
      prepared for exactly the servers whose container has a protocol, but the tray does not ask
      first and crashes on the others; an error takes the page back to "Disconnected".

    ** What is not modelled

    The resolvers and the remote objects of the service, the kill switch and the utilities of
    Windows and macOS, the set-up of the daemon's listening socket, the tunnel processes
    themselves, the protocols other than that of WireGuard (any behaviour of theirs is allowed in
    [VpnConnection]), other processes that write the downloaded installer, what is delivered in the
    second the connection waits for a service that is not there, platform code in Kotlin, Swift and
    Objective-C, QML pages and item models, the installation of servers over SSH, the remaining
    protocol structures and the share links.  The readers of share links are parameters of
    [Import]; what a connection takes from the configurations of the other protocols is a parameter
    of [Connecting], and a server model is read there but not written back.  The first candidates
    to follow are the rest of the application settings and of the server models, the share links
    and the other protocol structures.*)

From Stdlib Require Export ZArith Lia Bool Ascii.
From stdpp Require Export base strings list gmap pretty.
Open Scope string_scope.
Open Scope list_scope.

(** ** Record update

    [r <| f := v |>] is [r] with its field [f] set to [v].  A record opts in by
    an [Eta] instance that rebuilds it from its projections; the setter of a
    projection is then found by abstracting that projection in the instance. *)

Class Eta (R : Type) := eta : R -> R.

Class Upd {R T} (p : R -> T) := setter : T -> R -> R.

Definition upd {R T} (p : R -> T) {u : Upd p} : T -> R -> R := u.
Arguments upd {R T} p {u} / _ _.

Ltac derive_upd p :=
  match goal with
  | |- @Upd ?R ?T _ =>
      let e := eval hnf in (@eta R _) in
      match eval pattern p in e with
      | ?F _ => let t := eval cbv beta in (fun v : T => F (fun _ => v)) in exact t
      end
  end.

#[export] Hint Extern 0 (Upd ?p) => derive_upd p : typeclass_instances.

Declare Scope tunnel_scope.
Delimit Scope tunnel_scope with tunnel.
Open Scope tunnel_scope.

Notation "r <| f := v |>" := (upd f v r)
  (at level 1, left associativity, f at level 9, v at level 200) : tunnel_scope.

(** ** Tactics *)

(** Destruct the scrutinee of every [if] and [match] of the goal, keeping the
    equations, and close the contradictory branches. *)
Ltac split_cases :=
  repeat (case_match; simplify_eq/=; try done).

(** Turn the boolean tests of the code into propositions. *)
Ltac bprop :=
  repeat match goal with
  | H : _ && _ = true |- _ => apply andb_true_iff in H as [? ?]
  | H : _ || _ = false |- _ => apply orb_false_iff in H as [? ?]
  | H : negb _ = true |- _ => apply negb_true_iff in H
  | H : negb _ = false |- _ => apply negb_false_iff in H
  | H : String.eqb _ _ = true |- _ => apply String.eqb_eq in H
  | H : String.eqb _ _ = false |- _ => apply String.eqb_neq in H
  | H : Z.eqb _ _ = true |- _ => apply Z.eqb_eq in H
  | H : Z.eqb _ _ = false |- _ => apply Z.eqb_neq in H
  | H : Z.ltb _ _ = true |- _ => apply Z.ltb_lt in H
  | H : Z.ltb _ _ = false |- _ => apply Z.ltb_ge in H
  | H : Z.leb _ _ = true |- _ => apply Z.leb_le in H
  | H : Z.leb _ _ = false |- _ => apply Z.leb_gt in H
  | H : bool_decide _ = true |- _ => apply bool_decide_eq_true in H
  | H : bool_decide _ = false |- _ => apply bool_decide_eq_false in H
  end.

(** ** Machine integers *)

Definition int32_min : Z := - 2 ^ 31.
Definition int32_max : Z := 2 ^ 31 - 1.
Definition int64_min : Z := - 2 ^ 63.
Definition int64_max : Z := 2 ^ 63 - 1.

(** Whether [z] is a value of C++ [int] (32 bits) or of [qint64]. *)
Definition in_int32 (z : Z) : bool := (int32_min <=? z)%Z && (z <=? int32_max)%Z.
Definition in_int64 (z : Z) : bool := (int64_min <=? z)%Z && (z <=? int64_max)%Z.

(** [unsigned int] arithmetic wraps modulo 2^32. *)
Definition wrap32 (z : Z) : Z := (z mod 2 ^ 32)%Z.

Lemma wrap32_range z : (0 <= wrap32 z < 2 ^ 32)%Z.
Proof. apply Z.mod_pos_bound. lia. Qed.

(** ** Strings

    A [QString] or a JavaScript string is a Rocq [string].  Case mapping and
    white space are those of ASCII; a unit above 127 is left alone. *)

Definition str_empty (s : string) : bool :=
  match s with EmptyString => true | _ => false end.

Lemma str_empty_true s : str_empty s = true <-> s = "".
Proof. by destruct s. Qed.

Lemma str_empty_false s : str_empty s = false <-> s <> "".
Proof. by destruct s. Qed.

Definition is_space (c : ascii) : bool :=
  let n := N_of_ascii c in ((9 <=? n) && (n <=? 13) || (n =? 32))%N.

Definition is_digit (c : ascii) : bool :=
  let n := N_of_ascii c in ((48 <=? n) && (n <=? 57))%N.

Definition lower_char (c : ascii) : ascii :=
  let n := N_of_ascii c in
  if ((65 <=? n) && (n <=? 90))%N then ascii_of_N (n + 32) else c.

Definition upper_char (c : ascii) : ascii :=
  let n := N_of_ascii c in
  if ((97 <=? n) && (n <=? 122))%N then ascii_of_N (n - 32) else c.

Fixpoint str_map (f : ascii -> ascii) (s : string) : string :=
  match s with
  | EmptyString => EmptyString
  | String c r => String (f c) (str_map f r)
  end.

Fixpoint str_forall (p : ascii -> bool) (s : string) : bool :=
  match s with
  | EmptyString => true
  | String c r => p c && str_forall p r
  end.

Fixpoint str_has (c : ascii) (s : string) : bool :=
  match s with
  | EmptyString => false
  | String d r => Ascii.eqb c d || str_has c r
  end.

(** [QString::toLower] and [QString::toUpper]. *)
Definition to_lower : string -> string := str_map lower_char.
Definition to_upper : string -> string := str_map upper_char.

Fixpoint drop_spaces (s : string) : string :=
  match s with
  | String c r => if is_space c then drop_spaces r else s
  | EmptyString => EmptyString
  end.

Fixpoint drop_trailing_spaces (s : string) : string :=
  match s with
  | EmptyString => EmptyString
  | String c r =>
      match drop_trailing_spaces r with
      | EmptyString => if is_space c then EmptyString else String c EmptyString
      | r' => String c r'
      end
  end.

(** [QString::trimmed]. *)
Definition trimmed (s : string) : string := drop_trailing_spaces (drop_spaces s).

(** [QString::startsWith] and [QString::contains]. *)
Definition starts_with (p s : string) : bool := String.prefix p s.

Fixpoint str_contains (needle s : string) : bool :=
  String.prefix needle s ||
  match s with EmptyString => false | String _ r => str_contains needle r end.

(** Case-insensitive comparison ([Qt::CaseInsensitive]). *)
Definition ci_eqb (a b : string) : bool := String.eqb (to_lower a) (to_lower b).

(** The characters a C++ literal writes as escapes. *)
Definition chr (n : N) : string := String (ascii_of_N n) EmptyString.
Definition LF : ascii := ascii_of_N 10.
Definition CR : ascii := ascii_of_N 13.

(** Decimal digits of a string, most significant first; [None] when it is empty or
    holds anything else. *)
Fixpoint digits_acc (acc : Z) (s : string) : option Z :=
  match s with
  | EmptyString => Some acc
  | String c r =>
      if is_digit c then digits_acc (acc * 10 + (Z.of_N (N_of_ascii c) - 48))%Z r else None
  end.

Definition digits (s : string) : option Z :=
  match s with EmptyString => None | _ => digits_acc 0 s end.

(** [QString::toLongLong(&ok)] in base 10: surrounding white space is ignored, a sign is
    allowed, and a value that does not fit makes the conversion fail. *)
Definition to_long_long (s : string) : option Z :=
  let z := match trimmed s with
           | String "-" r => Z.opp <$> digits r
           | String "+" r => digits r
           | t => digits t
           end in
  z ≫= fun v => if in_int64 v then Some v else None.

(** *** Lemmas on strings *)

Lemma drop_trailing_spaces_head c r :
  is_space c = false ->
  exists r', drop_trailing_spaces (String c r) = String c r'.
Proof. intros H. simpl. destruct (drop_trailing_spaces r); rewrite ?H; eauto. Qed.

Lemma drop_spaces_head s :
  drop_spaces s = "" \/ exists c r, drop_spaces s = String c r /\ is_space c = false.
Proof.
  induction s as [|c s IH]; simpl; [by left|].
  destruct (is_space c) eqn:E; [done|]. right; eauto.
Qed.

Lemma drop_trailing_spaces_idem s :
  drop_trailing_spaces (drop_trailing_spaces s) = drop_trailing_spaces s.
Proof.
  induction s as [|c s IH]; simpl; [done|].
  destruct (drop_trailing_spaces s) as [|d r] eqn:E.
  - destruct (is_space c) eqn:Hc; simpl; by rewrite ?Hc.
  - cbn [drop_trailing_spaces] in *. by rewrite IH.
Qed.

(** Trimming is idempotent. *)
Lemma trimmed_idem s : trimmed (trimmed s) = trimmed s.
Proof.
  unfold trimmed.
  destruct (drop_spaces_head s) as [-> | (c & r & -> & Hc)]; [done|].
  destruct (drop_trailing_spaces_head c r Hc) as [r' Hr'].
  rewrite Hr'. simpl drop_spaces. rewrite Hc. rewrite <- Hr'.
  apply drop_trailing_spaces_idem.
Qed.

Lemma lower_char_idem c : lower_char (lower_char c) = lower_char c.
Proof. by destruct c as [[] [] [] [] [] [] [] []]. Qed.

Lemma lower_char_space c : is_space (lower_char c) = is_space c.
Proof. by destruct c as [[] [] [] [] [] [] [] []]. Qed.

Lemma upper_char_idem c : upper_char (upper_char c) = upper_char c.
Proof. by destruct c as [[] [] [] [] [] [] [] []]. Qed.

Lemma upper_char_space c : is_space (upper_char c) = is_space c.
Proof. by destruct c as [[] [] [] [] [] [] [] []]. Qed.

Lemma str_map_idem f s : (forall c, f (f c) = f c) -> str_map f (str_map f s) = str_map f s.
Proof. intros Hf. induction s as [|c s IH]; simpl; [done|]. by rewrite Hf, IH. Qed.

(** A mapping that keeps white space commutes with trimming. *)
Lemma trimmed_map f s :
  (forall c, is_space (f c) = is_space c) -> trimmed (str_map f s) = str_map f (trimmed s).
Proof.
  intros Hf. unfold trimmed. induction s as [|c s IH]; simpl; [done|].
  rewrite Hf. destruct (is_space c) eqn:E; [done|]. clear IH. simpl. rewrite Hf, E.
  assert (Hd : forall r, drop_trailing_spaces (str_map f r) = str_map f (drop_trailing_spaces r)).
  { induction r as [|d r IH]; simpl; [done|]. rewrite IH.
    destruct (drop_trailing_spaces r); simpl; [|done]. rewrite Hf. by destruct (is_space d). }
  rewrite Hd. by destruct (drop_trailing_spaces s).
Qed.

(** Trimming and lowering, and trimming and raising, are idempotent. *)
Lemma lower_trimmed_idem s : to_lower (trimmed (to_lower (trimmed s))) = to_lower (trimmed s).
Proof.
  unfold to_lower. rewrite (trimmed_map _ _ lower_char_space), trimmed_idem.
  apply str_map_idem, lower_char_idem.
Qed.

Lemma upper_trimmed_idem s : to_upper (trimmed (to_upper (trimmed s))) = to_upper (trimmed s).
Proof.
  unfold to_upper. rewrite (trimmed_map _ _ upper_char_space), trimmed_idem.
  apply str_map_idem, upper_char_idem.
Qed.

Lemma str_has_app c s1 s2 : str_has c (s1 ++ s2) = str_has c s1 || str_has c s2.
Proof.
  induction s1 as [|d s1 IH]; simpl; [done|]. by rewrite IH, orb_assoc.
Qed.

Lemma string_app_cons c s t : String c s +:+ t = String c (s +:+ t).
Proof. done. Qed.

Lemma string_app_nil_r s : s +:+ "" = s.
Proof. induction s as [|c s IH]; [done|]. by rewrite string_app_cons, IH. Qed.

Lemma string_app_assoc a b c : (a +:+ b) +:+ c = a +:+ (b +:+ c).
Proof. induction a as [|x a IH]; [done|]. by rewrite !string_app_cons, IH. Qed.

Lemma string_length_app a b : String.length (a +:+ b) = String.length a + String.length b.
Proof. induction a as [|c a IH]; [done|]. rewrite string_app_cons. simpl. by rewrite IH. Qed.

Lemma prefix_app p s : String.prefix p (p +:+ s) = true.
Proof.
  induction p as [|c p IH]; [by destruct s|].
  rewrite string_app_cons. simpl. by destruct (ascii_dec c c).
Qed.

Lemma string_app_inj_l a b c : a +:+ b = a +:+ c -> b = c.
Proof. induction a as [|x a IH]; [done|]. rewrite !string_app_cons. intros [= H]. auto. Qed.

Create HintDb tunnel.
Create Rewrite HintDb tunnel.
#[export] Hint Rewrite trimmed_idem string_app_nil_r str_has_app prefix_app : tunnel.
#[export] Hint Resolve prefix_app : tunnel.
