(* ===== verification/Numbers.v ===== *)
(** * Numbers as decimal texts

    What [QString::number] writes is what [QString::toLongLong] and [toInt] read. *)

From S2P Require Import Prelude.

Lemma digits_go (x : N) s : (0 < x)%N -> digits_acc 0 (pretty_N_go x s) = digits_acc (Z.of_N x) s.
Proof.
  revert s. induction (N.lt_wf_0 x) as [x _ IH]. intros s Hx. rewrite pretty_N_go_step by done.
  assert (forall acc y, (y < 10)%N -> digits_acc acc (String (pretty_N_char y) s) =
    digits_acc (acc * 10 + Z.of_N y) s) as Hc.
  { intros acc y Hy. assert (y = 0 \/ y = 1 \/ y = 2 \/ y = 3 \/ y = 4 \/ y = 5 \/ y = 6 \/ y = 7 \/ y = 8 \/ y = 9)%N
      as Hy' by lia. by destruct_or! Hy'; subst. }
  pose proof (N.mod_lt x 10 ltac:(done)) as Hm. pose proof (N.div_mod x 10 ltac:(done)) as Hd.
  destruct (decide (0 < x `div` 10)%N) as [Hq|Hq].
  - rewrite IH by (done || by apply N.div_lt). rewrite Hc by done. f_equal.
    clear -Hd. revert Hd. generalize (x `div` 10)%N as q, (x `mod` 10)%N as r. intros q r ->. lia.
  - assert (x `div` 10 = 0)%N as E by lia. rewrite E, pretty_N_go_0, Hc by done. f_equal.
    rewrite E in Hd. clear -Hd. revert Hd. generalize (x `mod` 10)%N as r. intros r ->. lia.
Qed.

Lemma pretty_digits (z : Z) :
  (0 <= z)%Z -> digits_acc 0 (pretty z) = Some z /\ str_forall is_digit (pretty z) = true /\ pretty z <> "".
Proof.
  intros Hz.
  assert (forall x s, str_forall is_digit s = true -> str_forall is_digit (pretty_N_go x s) = true) as Hall.
  { intros x. induction (N.lt_wf_0 x) as [x _ IH]. intros s Hs. destruct (decide (0 < x)%N).
    - rewrite pretty_N_go_step by done. apply IH; [by apply N.div_lt|]. cbn [str_forall]. rewrite Hs, andb_true_r.
      unfold pretty_N_char. by repeat case_match.
    - replace x with 0%N by lia. by rewrite pretty_N_go_0. }
  assert (forall p, pretty_N_go (Npos p) "" <> "") as Hne.
  { intros p E. pose proof (digits_go (Npos p) "" ltac:(done)) as H. rewrite E in H. by cbn in H. }
  destruct z as [|p|p]; [done| |done].
  change (pretty (Zpos p)) with (pretty_N_go (Npos p) "").
  split_and!; [by rewrite digits_go|by apply Hall|apply Hne].
Qed.

Lemma digit_not_space c : is_digit c = true -> is_space c = false.
Proof. by destruct c as [[] [] [] [] [] [] [] []]. Qed.

Lemma trimmed_solid s : str_forall (fun c => negb (is_space c)) s = true -> trimmed s = s.
Proof.
  intros H. unfold trimmed. assert (drop_spaces s = s) as ->.
  { destruct s as [|c s]; [done|]. cbn in *. bprop. by destruct (is_space c). }
  induction s as [|c s IH]; [done|]. cbn in *. bprop. rewrite IH by done.
  destruct s; [by destruct (is_space c)|done].
Qed.

Lemma to_long_long_pretty z : (0 <= z <= int64_max)%Z -> to_long_long (pretty z) = Some z.
Proof.
  intros Hz. destruct (pretty_digits z) as (Hd & Ha & Hne); [lia|]. unfold to_long_long.
  rewrite trimmed_solid.
  2:{ clear -Ha. induction (pretty z) as [|c s IH]; [done|]. cbn in *. bprop.
      rewrite digit_not_space by done. cbn. by apply IH. }
  destruct (pretty z) as [|c r] eqn:E; [done|].
  assert (is_digit c = true) as Hc by (cbn in Ha; bprop; done).
  assert (match String c r with
          | String "-" r => Z.opp <$> digits r | String "+" r => digits r | t => digits t end
          = digits (String c r)) as ->.
  { destruct c as [[] [] [] [] [] [] [] []]; try done. }
  cbn [digits]. rewrite Hd. cbn. unfold in_int64, int64_min. 
  assert ((- 2 ^ 63 <=? z)%Z && (z <=? int64_max)%Z = true) as -> by lia. done.
Qed.

(** [QString::toInt]: 0 when the text is not an [int]. *)
Definition toInt (s : string) : Z :=
  match to_long_long s with Some v => if in_int32 v then v else 0%Z | None => 0%Z end.

Lemma toInt_range s : in_int32 (toInt s) = true.
Proof. unfold toInt. destruct (to_long_long s) as [v|]; [|done]. by destruct (in_int32 v) eqn:E. Qed.

Lemma toInt_pretty z : (0 <= z <= int32_max)%Z -> toInt (pretty z) = z.
Proof.
  intros Hz. unfold toInt. rewrite to_long_long_pretty by (unfold int32_max, int64_max in *; lia).
  unfold in_int32, int32_min. unfold int32_max in *. by assert ((- 2 ^ 31 <=? z)%Z && (z <=? 2 ^ 31 - 1)%Z = true) as -> by lia.
Qed.
