(* ===== verification/IpAddress.v ===== *)
(** * IP networks: [client/mozilla/shared/ipaddress.{h,cpp}]

    The class [IPAddress] (an address and a prefix length) that the client uses to
    turn "everything except these ranges" into the list of AllowedIPs it hands to
    WireGuard.  An IPv4 address is a 32-bit number, an IPv6 address the 16 bytes of
    [Q_IPV6ADDR], most significant first; the operations below work on bytes where
    the C++ does.  [Q_ASSERT] is a no-op, as in a release build. *)

From S2P Require Import Prelude.
From stdpp Require Import list_numbers.
Local Open Scope Z_scope.

(** ** Data *)

(** [QHostAddress]: no address, [toIPv4Address()] or [toIPv6Address()]. *)
Inductive QHostAddress :=
  | NullAddress
  | V4 (a : Z)
  | V6 (c : list Z).

(** [QAbstractSocket::NetworkLayerProtocol]. *)
Inductive NetworkLayerProtocol := IPv4Protocol | IPv6Protocol | UnknownProtocol.

#[export] Instance QHostAddress_eq_dec : EqDecision QHostAddress.
Proof. solve_decision. Defined.

#[export] Instance NetworkLayerProtocol_eq_dec : EqDecision NetworkLayerProtocol.
Proof. solve_decision. Defined.

Definition protocol (a : QHostAddress) : NetworkLayerProtocol :=
  match a with
  | NullAddress => UnknownProtocol
  | V4 _ => IPv4Protocol
  | V6 _ => IPv6Protocol
  end.

Record IPAddress := mkIP { m_address : QHostAddress; m_prefixLength : Z }.

#[export] Instance IPAddress_eq_dec : EqDecision IPAddress.
Proof. solve_decision. Defined.

(** ** Constructors *)

Section Constructors.
(** [QHostAddress(const QString &)] and [QHostAddress::parseSubnet]. *)
Variable parseAddress : string -> QHostAddress.
Variable parseSubnet : string -> QHostAddress * Z.

Definition IPAddress_fromString (ip : string) : IPAddress :=
  let '(a, p) :=
    if str_contains "/" ip then parseSubnet ip else (parseAddress ip, 999999) in
  let p :=
    match protocol a with
    | IPv4Protocol => if 32 <=? p then 32 else p
    | IPv6Protocol => if 128 <=? p then 128 else p
    | UnknownProtocol => p
    end in
  mkIP a p.
End Constructors.

Definition IPAddress_fromHost (address : QHostAddress) : IPAddress :=
  mkIP address (match protocol address with IPv4Protocol => 32 | _ => 128 end).

Definition type (ip : IPAddress) : NetworkLayerProtocol := protocol (m_address ip).

(** ** Masks *)

Definition bytes_of (n : nat) (b : Z) : list Z := replicate n b.

Definition netmask (ip : IPAddress) : QHostAddress :=
  let p := m_prefixLength ip in
  match m_address ip with
  | V6 _ =>
      let raw := bytes_of (Z.to_nat (p / 8)) 255 ++ bytes_of (16 - Z.to_nat (p / 8)) 0 in
      V6 (if p mod 8 =? 0 then raw
          else <[Z.to_nat (p / 8) := Z.lxor 255 (Z.shiftr 255 (p mod 8))]> raw)
  | V4 _ =>
      V4 (if p <? 32 then Z.lxor 4294967295 (Z.shiftr 4294967295 p) else 4294967295)
  | NullAddress => NullAddress
  end.

Definition hostmask (ip : IPAddress) : QHostAddress :=
  let p := m_prefixLength ip in
  match m_address ip with
  | V6 _ =>
      let offset := Z.to_nat ((p + 7) / 8) in
      let raw := bytes_of offset 0 ++ bytes_of (16 - offset) 255 in
      V6 (if p mod 8 =? 0 then raw
          else <[Z.to_nat (p / 8) := Z.shiftr 255 (p mod 8)]> raw)
  | V4 _ => V4 (if p <? 32 then Z.shiftr 4294967295 p else 0)
  | NullAddress => NullAddress
  end.

Definition broadcastAddress (ip : IPAddress) : QHostAddress :=
  let p := m_prefixLength ip in
  match m_address ip with
  | V6 c =>
      let offset := Z.to_nat ((p + 7) / 8) in
      let raw := take offset c ++ bytes_of (16 - offset) 255 in
      V6 (if p mod 8 =? 0 then raw
          else alter (fun b => Z.lor b (Z.shiftr 255 (p mod 8))) (Z.to_nat (p / 8)) raw)
  | V4 a => V4 (if p <? 32 then Z.lor a (Z.shiftr 4294967295 p) else a)
  | NullAddress => NullAddress
  end.

(** ** Membership *)

(** The IPv6 branch of [contains]: [memcmp] on the whole bytes of the prefix, then the
    remaining bits of the next byte. *)
Definition contains6 (p : Z) (a b : list Z) : bool :=
  let bytes := Z.to_nat (p / 8) in
  bool_decide (take bytes a = take bytes b) &&
  (if p mod 8 =? 0 then true
   else Z.shiftr (Z.lxor (nth bytes a 0) (nth bytes b 0)) (8 - p mod 8) =? 0).

Definition contains (self : IPAddress) (address : QHostAddress) : bool :=
  let p := m_prefixLength self in
  if negb (bool_decide (protocol address = protocol (m_address self))) then false
  else if p =? 0 then true
  else match m_address self, address with
       | V6 a, V6 b => contains6 p a b
       | V4 a, V4 b =>
           let diff := Z.lxor a b in
           (if p <? 32 then Z.shiftr diff (32 - p) else diff) =? 0
       | _, _ => false
       end.

Definition overlaps (self other : IPAddress) : bool :=
  if m_prefixLength self <? m_prefixLength other
  then contains self (m_address other)
  else contains other (m_address self).

Definition subnetOf (self other : IPAddress) : bool :=
  if negb (bool_decide (protocol (m_address other) = protocol (m_address self))) then false
  else if m_prefixLength self <? m_prefixLength other then false
  else contains other (m_address self).

(** ** Halves of a network *)

Definition subnets (self : IPAddress) : list IPAddress :=
  let p := m_prefixLength self in
  match m_address self with
  | V4 raw =>
      if 32 <=? p then [self]
      else [mkIP (V4 raw) (p + 1); mkIP (V4 (Z.lor raw (Z.shiftr 2147483648 p))) (p + 1)]
  | V6 raw =>
      if 128 <=? p then [self]
      else [mkIP (V6 raw) (p + 1);
            mkIP (V6 (alter (fun b => Z.lor b (Z.shiftr 128 (p mod 8))) (Z.to_nat (p / 8)) raw))
                 (p + 1)]
  | NullAddress =>
      (* the assertion on the protocol does not stop a release build, and
         [toIPv6Address] of no address is all zeroes *)
      if 128 <=? p then [self]
      else [mkIP (V6 (bytes_of 16 0)) (p + 1);
            mkIP (V6 (alter (fun b => Z.lor b (Z.shiftr 128 (p mod 8))) (Z.to_nat (p / 8))
                        (bytes_of 16 0))) (p + 1)]
  end.

(** ** Exclusion *)

(** How a run of the exclusion loop ends: with a list, by reading [sn[1]] of a
    one-element list, or not within the given number of iterations. *)
Inductive run (A : Type) := Ret (a : A) | OutOfRange | NoFuel.
Arguments Ret {A} a.
Arguments OutOfRange {A}.
Arguments NoFuel {A}.

Definition run_bind {A B} (m : run A) (f : A -> run B) : run B :=
  match m with Ret a => f a | OutOfRange => OutOfRange | NoFuel => NoFuel end.

(** The [while] of [IPAddress::excludeAddresses(const IPAddress &)]; [sn] is the
    current pair of halves. *)
Fixpoint exclude_loop (fuel : nat) (ip : IPAddress) (sn result : list IPAddress)
  : run (list IPAddress) :=
  match fuel with
  | O => NoFuel
  | S fuel =>
      match sn with
      | s0 :: s1 :: _ =>
          if negb (bool_decide (s0 = ip)) && negb (bool_decide (s1 = ip)) then
            if subnetOf ip s0 then exclude_loop fuel ip (subnets s0) (result ++ [s1])
            else if subnetOf ip s1 then exclude_loop fuel ip (subnets s1) (result ++ [s0])
            else exclude_loop fuel ip sn result
          else if bool_decide (s0 = ip) then Ret (result ++ [s1])
          else if bool_decide (s1 = ip) then Ret (result ++ [s0])
          else Ret result
      | _ => OutOfRange
      end
  end.

Definition excludeAddress (fuel : nat) (self ip : IPAddress) : run (list IPAddress) :=
  exclude_loop fuel ip (subnets self) [].

(** One pass of the outer loop of the static [excludeAddresses]: every range of
    [results] against one [exclude]. *)
Fixpoint exclude_pass (fuel : nat) (exclude : IPAddress) (results : list IPAddress)
  : run (list IPAddress) :=
  match results with
  | [] => Ret []
  | ip :: rest =>
      let range :=
        if negb (overlaps ip exclude) then Ret [ip]
        else if subnetOf exclude ip && negb (bool_decide (exclude = ip))
             then excludeAddress fuel ip exclude
             else Ret [] in
      run_bind range (fun l => run_bind (exclude_pass fuel exclude rest) (fun l' => Ret (l ++ l')))
  end.

Fixpoint excludeAddresses (fuel : nat) (sourceList excludeList : list IPAddress)
  : run (list IPAddress) :=
  match excludeList with
  | [] => Ret sourceList
  | e :: es => run_bind (exclude_pass fuel e sourceList) (fun r => excludeAddresses fuel r es)
  end.

(** ** Reference view

    An address as a number of its family's width. *)

Fixpoint be (c : list Z) : Z :=
  match c with
  | [] => 0
  | b :: r => b * 2 ^ (8 * Z.of_nat (length r)) + be r
  end.

Definition width (a : QHostAddress) : Z :=
  match a with V6 _ => 128 | _ => 32 end.

Definition val (a : QHostAddress) : Z :=
  match a with V4 x => x | V6 c => be c | NullAddress => 0 end.

Definition byte_ok (b : Z) : Prop := 0 <= b < 256.

(** A proper IPv4 or IPv6 address. *)
Definition addr_ok (a : QHostAddress) : Prop :=
  match a with
  | NullAddress => False
  | V4 x => 0 <= x < 2 ^ 32
  | V6 c => length c = 16%nat /\ Forall byte_ok c
  end.

Definition ip_ok (ip : IPAddress) : Prop :=
  addr_ok (m_address ip) /\ 0 <= m_prefixLength ip <= width (m_address ip).

(** Number of addresses of a network, and whether its host bits are all zero. *)
Definition net_size (ip : IPAddress) : Z := 2 ^ (width (m_address ip) - m_prefixLength ip).

Definition canonical (ip : IPAddress) : Prop :=
  ip_ok ip /\ val (m_address ip) mod net_size ip = 0.

(** [x] belongs to the network [ip]: same family, same network part. *)
Definition in_net (ip : IPAddress) (x : QHostAddress) : Prop :=
  protocol x = protocol (m_address ip) /\
  val x / net_size ip = val (m_address ip) / net_size ip.

Definition covered (l : list IPAddress) (x : QHostAddress) : Prop :=
  exists n, n ∈ l /\ in_net n x.

(** ** Numbers and bytes *)

Lemma radix_unique x y u v P :
  0 <= u < P -> 0 <= v < P -> x * P + u = y * P + v -> x = y /\ u = v.
Proof. intros. assert (x = y) by nia. subst. lia. Qed.

Lemma be_bound c : Forall byte_ok c -> 0 <= be c < 2 ^ (8 * Z.of_nat (length c)).
Proof.
  induction 1 as [|b r Hb _ IH]; simpl be; [simpl; lia|].
  unfold byte_ok in Hb. simpl length.
  replace (8 * Z.of_nat (S (length r))) with (8 + 8 * Z.of_nat (length r)) by lia.
  rewrite Z.pow_add_r by lia. change (2 ^ 8) with 256. nia.
Qed.

Lemma be_cons_div_lo x c m :
  0 <= m <= 8 * Z.of_nat (length c) ->
  be (x :: c) / 2 ^ m = x * 2 ^ (8 * Z.of_nat (length c) - m) + be c / 2 ^ m.
Proof.
  intros Hm. simpl be.
  replace (8 * Z.of_nat (length c)) with ((8 * Z.of_nat (length c) - m) + m) at 1 by lia.
  rewrite Z.pow_add_r, Z.mul_assoc by lia.
  apply Z.div_add_l. pose proof (Z.pow_pos_nonneg 2 m). lia.
Qed.

Lemma be_cons_div_hi x c m :
  Forall byte_ok c -> 8 * Z.of_nat (length c) <= m ->
  be (x :: c) / 2 ^ m = x / 2 ^ (m - 8 * Z.of_nat (length c)).
Proof.
  intros Hc Hm. apply be_bound in Hc. simpl be.
  replace m with (8 * Z.of_nat (length c) + (m - 8 * Z.of_nat (length c))) at 1 by lia.
  rewrite Z.pow_add_r, <- Z.div_div by (try apply Z.pow_pos_nonneg; lia).
  pose proof (Z.pow_pos_nonneg 2 (8 * Z.of_nat (length c))).
  by rewrite Z.div_add_l, (Z.div_small (be c)), Z.add_0_r by lia.
Qed.

Lemma be_inj a b :
  Forall byte_ok a -> Forall byte_ok b -> length a = length b -> be a = be b -> a = b.
Proof.
  intros Ha. revert b.
  induction Ha as [|x a Hx Ha IH]; intros b Hb Hl He; destruct b as [|y b]; try done.
  inversion_clear Hb as [|? ? Hy Hb']. injection Hl as Hl.
  pose proof (be_bound a Ha). pose proof (be_bound b Hb').
  simpl be in He. rewrite Hl in *. unfold byte_ok in *.
  destruct (radix_unique _ _ _ _ _ H H0 He) as [-> ?]. f_equal. by apply IH.
Qed.

(** The byte loop over a prefix, one byte at a time. *)
Lemma prefix_index p : 8 <= p ->
  Z.to_nat (p / 8) = S (Z.to_nat ((p - 8) / 8)) /\ p mod 8 = (p - 8) mod 8.
Proof.
  intros Hp.
  assert (p / 8 = (p - 8) / 8 + 1) as -> by (rewrite <- Z.div_add by lia; f_equal; lia).
  pose proof (Z.div_pos (p - 8) 8). split; [lia|].
  rewrite <- (Z.mod_add p (-1) 8) by lia. f_equal; lia.
Qed.

Lemma contains6_cons p x y a b :
  8 <= p ->
  contains6 p (x :: a) (y :: b) = bool_decide (x = y) && contains6 (p - 8) a b.
Proof.
  intros Hp. unfold contains6. destruct (prefix_index p Hp) as [-> ->].
  cbn [take nth]. rewrite andb_assoc, <- bool_decide_and. f_equal.
  apply bool_decide_ext. split; [by intros [= -> ->]|by intros [-> ->]].
Qed.

Lemma contains6_small p x y a b :
  0 <= p < 8 ->
  contains6 p (x :: a) (y :: b) =
  (p =? 0) || (Z.shiftr (Z.lxor x y) (8 - p) =? 0).
Proof.
  intros Hp. unfold contains6.
  rewrite Z.div_small, Z.mod_small by lia. simpl. by destruct (p =? 0).
Qed.

Lemma shiftr_lxor_zero x y k :
  0 <= k -> (Z.shiftr (Z.lxor x y) k =? 0) = bool_decide (x / 2 ^ k = y / 2 ^ k).
Proof.
  intros Hk. rewrite Z.shiftr_lxor, !Z.shiftr_div_pow2 by lia.
  destruct (Z.eqb_spec (Z.lxor (x / 2 ^ k) (y / 2 ^ k)) 0) as [E|E];
    case_bool_decide as E'; try done.
  - by apply Z.lxor_eq in E.
  - rewrite E', Z.lxor_nilpotent in E. done.
Qed.

Lemma contains6_spec p a b :
  Forall byte_ok a -> Forall byte_ok b -> length a = length b ->
  0 <= p <= 8 * Z.of_nat (length a) ->
  contains6 p a b = true <->
  be a / 2 ^ (8 * Z.of_nat (length a) - p) = be b / 2 ^ (8 * Z.of_nat (length a) - p).
Proof.
  intros Ha. revert b p.
  induction Ha as [|x a Hx Ha IH]; intros b p Hb Hl Hp; destruct b as [|y b]; try done.
  { by replace p with 0 by (simpl in Hp; lia). }
  inversion_clear Hb as [|? ? Hy Hb']. injection Hl as Hl.
  cbn [length] in *. destruct (decide (8 <= p)) as [Hp8|Hp8].
  - rewrite contains6_cons by lia. rewrite andb_true_iff, bool_decide_eq_true.
    rewrite IH by (done || lia).
    rewrite !be_cons_div_lo by lia.
    replace (8 * Z.of_nat (S (length a)) - p) with (8 * Z.of_nat (length a) - (p - 8)) by lia.
    rewrite <- Hl. pose proof (be_bound a Ha). pose proof (be_bound b Hb').
    set (m := 8 * Z.of_nat (length a) - (p - 8)).
    replace (8 * Z.of_nat (length a) - m) with (p - 8) by lia.
    assert (Hs : 2 ^ (8 * Z.of_nat (length a)) = 2 ^ (p - 8) * 2 ^ m)
      by (rewrite <- Z.pow_add_r by lia; f_equal; lia).
    assert (0 <= be a / 2 ^ m < 2 ^ (p - 8)).
    { split; [apply Z.div_pos; lia|apply Z.div_lt_upper_bound; lia]. }
    assert (0 <= be b / 2 ^ m < 2 ^ (p - 8)).
    { split; [apply Z.div_pos; lia|apply Z.div_lt_upper_bound; rewrite <- ?Hl in *; lia]. }
    split; [by intros [-> ->]|]. intros Heq. by apply radix_unique in Heq.
  - rewrite contains6_small by lia.
    rewrite !be_cons_div_hi, <- Hl by (done || lia).
    replace (8 * Z.of_nat (S (length a)) - p - 8 * Z.of_nat (length a)) with (8 - p) by lia.
    rewrite shiftr_lxor_zero, orb_true_iff, bool_decide_eq_true by lia.
    unfold byte_ok in *. split; [|by right]. intros [H|H]; [|done].
    apply Z.eqb_eq in H as ->. simpl. rewrite !Z.div_small; lia.
Qed.

(** [contains] decides membership in the network. *)
Lemma contains_in_net ip x :
  ip_ok ip -> addr_ok x -> contains ip x = true <-> in_net ip x.
Proof.
  destruct ip as [a p]. unfold ip_ok, in_net, net_size, contains. simpl.
  intros [Ha Hp] Hx. destruct (decide (protocol x = protocol a)) as [E|E].
  2: { rewrite bool_decide_eq_false_2 by done. simpl. by split; [|intros [? _]]. }
  rewrite bool_decide_eq_true_2 by done. simpl.
  destruct a as [|a|a], x as [|x|x]; try done; simpl in *.
  - destruct (Z.eqb_spec p 0) as [->|Hp0].
    { split; [|done]. rewrite !Z.div_small by lia; done. }
    transitivity ((Z.shiftr (Z.lxor a x) (32 - p) =? 0) = true).
    { destruct (Z.ltb_spec p 32); [done|]. by replace (32 - p) with 0 by lia. }
    rewrite shiftr_lxor_zero, bool_decide_eq_true by lia.
    by split; [intros ->|intros [_ ->]].
  - destruct Ha as [Hla Ha], Hx as [Hlx Hx].
    pose proof (contains6_spec p a x) as Hspec. rewrite Hla, Hlx in Hspec.
    change (8 * Z.of_nat 16) with 128 in Hspec.
    destruct (Z.eqb_spec p 0) as [->|Hp0].
    + split; [|done]. pose proof (be_bound a Ha). pose proof (be_bound x Hx).
      rewrite Hla, Hlx in *. rewrite !Z.div_small by lia; done.
    + rewrite Hspec by (done || lia). by split; [intros ->|intros [_ ->]].
Qed.

(** ** Setting the next bit of a prefix *)

Lemma shiftr_pow2 n k : 0 <= k <= n -> Z.shiftr (2 ^ n) k = 2 ^ (n - k).
Proof. intros. rewrite Z.shiftr_div_pow2 by lia. symmetry. apply Z.pow_sub_r; lia. Qed.

Lemma lor_next_bit a k : 0 <= k -> a mod 2 ^ (k + 1) = 0 -> Z.lor a (2 ^ k) = a + 2 ^ k.
Proof.
  intros Hk Ha.
  assert (Z.land a (2 ^ k) = 0) as Hland.
  { apply Z.bits_inj'. intros i Hi. rewrite Z.land_spec, Z.pow2_bits_eqb, Z.bits_0 by lia.
    destruct (Z.eqb_spec k i) as [<-|]; [|apply andb_false_r].
    rewrite andb_true_r, <- (Z.mod_pow2_bits_low a (k + 1)), Ha by lia. apply Z.bits_0. }
  rewrite Z.add_nocarry_lxor by done. symmetry. by apply Z.lxor_lor.
Qed.

Lemma lor_byte_bound x k : byte_ok x -> 0 <= k < 8 -> byte_ok (Z.lor x (2 ^ k)).
Proof.
  unfold byte_ok. intros Hx Hk.
  assert (0 <= Z.lor x (2 ^ k)) by (apply Z.lor_nonneg; split; [lia|apply Z.pow_nonneg; lia]).
  split; [done|]. change 256 with (2 ^ 8).
  destruct (decide (Z.lor x (2 ^ k) = 0)) as [->|]; [lia|].
  apply Z.log2_lt_pow2; [lia|]. rewrite Z.log2_lor, Z.log2_pow2 by (try apply Z.pow_nonneg; lia).
  destruct (decide (x = 0)) as [->|]; [simpl; lia|].
  assert (Z.log2 x < 8) by (apply Z.log2_lt_pow2; lia). lia.
Qed.

Definition set_prefix_bit (p : Z) (c : list Z) : list Z :=
  alter (fun b => Z.lor b (Z.shiftr 128 (p mod 8))) (Z.to_nat (p / 8)) c.

Lemma set_prefix_bit_small p x c :
  0 <= p < 8 -> set_prefix_bit p (x :: c) = Z.lor x (2 ^ (7 - p)) :: c.
Proof.
  intros. unfold set_prefix_bit. rewrite Z.div_small, Z.mod_small by lia.
  change 128 with (2 ^ 7). by rewrite shiftr_pow2 by lia.
Qed.

Lemma set_prefix_bit_cons p x c :
  8 <= p -> set_prefix_bit p (x :: c) = x :: set_prefix_bit (p - 8) c.
Proof. intros. unfold set_prefix_bit. by destruct (prefix_index p) as [-> ->]. Qed.

Lemma set_prefix_bit_ok p c :
  0 <= p -> Forall byte_ok c ->
  length (set_prefix_bit p c) = length c /\ Forall byte_ok (set_prefix_bit p c).
Proof.
  intros Hp Hc. split; [apply length_alter|]. revert p Hp.
  induction Hc as [|x c Hx Hc IH]; intros p Hp; [constructor|].
  destruct (decide (8 <= p)).
  - rewrite set_prefix_bit_cons by done. constructor; [done|]. apply IH. lia.
  - rewrite set_prefix_bit_small by lia. constructor; [|done]. apply lor_byte_bound; [done|lia].
Qed.

Lemma be_set_prefix_bit p c :
  Forall byte_ok c -> 0 <= p < 8 * Z.of_nat (length c) ->
  be c mod 2 ^ (8 * Z.of_nat (length c) - p) = 0 ->
  be (set_prefix_bit p c) = be c + 2 ^ (8 * Z.of_nat (length c) - p - 1).
Proof.
  intros Hc. revert p. induction Hc as [|x c Hx Hc IH]; intros p Hp Hm; [simpl in Hp; lia|].
  cbn [length] in *. pose proof (be_bound c Hc) as Hb.
  set (n := 8 * Z.of_nat (length c)) in *.
  replace (8 * Z.of_nat (S (length c))) with (n + 8) in * by lia.
  destruct (decide (8 <= p)) as [H8|H8].
  - rewrite set_prefix_bit_cons by done. cbn [be].
    destruct (set_prefix_bit_ok (p - 8) c ltac:(lia) Hc) as [-> _].
    rewrite IH; [fold n; replace (n + 8 - p - 1) with (n - (p - 8) - 1) by lia; lia|lia|].
    fold n. replace (n - (p - 8)) with (n + 8 - p) by lia.
    cbn [be] in Hm. fold n in Hm.
    replace n with ((p - 8) + (n + 8 - p)) in Hm at 1 by lia.
    rewrite Z.pow_add_r, Z.mul_assoc, (Z.add_comm _ (be c)), Z.mod_add in Hm by lia. done.
  - rewrite set_prefix_bit_small by lia. cbn [be] in *. fold n in Hm |- *.
    assert (x mod 2 ^ (8 - p) = 0) as Hx0.
    { replace (n + 8 - p) with (n + (8 - p)) in Hm by lia.
      rewrite Z.pow_add_r, Z.rem_mul_r in Hm by (try apply Z.pow_pos_nonneg; lia).
      rewrite (Z.add_comm _ (be c)), Z.mod_add, (Z.mod_small (be c)) in Hm by lia.
      rewrite Z.div_add, Z.div_small in Hm by lia.
      rewrite Z.add_0_l in Hm.
      assert (0 < 2 ^ n) by (apply Z.pow_pos_nonneg; lia).
      assert (0 <= x mod 2 ^ (8 - p)) by (apply Z.mod_pos_bound, Z.pow_pos_nonneg; lia).
      nia. }
    rewrite lor_next_bit by (lia || (replace (7 - p + 1) with (8 - p) by lia; done)).
    replace (n + 8 - p - 1) with ((7 - p) + n) by lia. rewrite Z.pow_add_r by lia. ring.
Qed.

(** ** Networks as intervals *)

Lemma addr_ok_bound a : addr_ok a -> 0 <= val a < 2 ^ width a.
Proof.
  destruct a as [|a|c]; simpl; [done|done|]. intros [Hl Hc].
  pose proof (be_bound c Hc) as H. by rewrite Hl in H.
Qed.

Lemma protocol_width a b :
  addr_ok a -> addr_ok b -> protocol a = protocol b -> width a = width b.
Proof. by destruct a, b. Qed.

Lemma val_inj a b : addr_ok a -> addr_ok b -> protocol a = protocol b -> val a = val b -> a = b.
Proof.
  destruct a as [|a|a], b as [|b|b]; simpl; try done; [by intros _ _ _ ->|].
  intros [Hla Ha] [Hlb Hb] _ He. f_equal. apply be_inj; [done|done|congruence|done].
Qed.

Lemma net_size_pos ip : ip_ok ip -> 0 < net_size ip.
Proof. intros [_ Hp]. apply Z.pow_pos_nonneg; lia. Qed.

Lemma in_net_interval ip x :
  canonical ip -> addr_ok x ->
  in_net ip x <-> protocol x = protocol (m_address ip) /\
                  val (m_address ip) <= val x < val (m_address ip) + net_size ip.
Proof.
  intros [Hok Hc] Hx. pose proof (net_size_pos _ Hok) as Hs. unfold in_net.
  set (s := net_size ip) in *. set (a := val (m_address ip)) in *.
  pose proof (Z.div_mod a s). pose proof (Z.div_mod (val x) s).
  pose proof (Z.mod_pos_bound (val x) s).
  split; intros [? Hi]; (split; [done|]); [nia|].
  symmetry. apply (Z.div_unique_pos _ _ _ (val x - a)); nia.
Qed.

(** The halves of a network that is not a single address. *)
Lemma subnets_halves ip :
  canonical ip -> m_prefixLength ip < width (m_address ip) ->
  exists lo hi, subnets ip = [lo; hi] /\ canonical lo /\ canonical hi /\
    protocol (m_address lo) = protocol (m_address ip) /\
    protocol (m_address hi) = protocol (m_address ip) /\
    m_prefixLength lo = m_prefixLength ip + 1 /\ m_prefixLength hi = m_prefixLength ip + 1 /\
    val (m_address lo) = val (m_address ip) /\
    val (m_address hi) = val (m_address ip) + net_size lo /\
    net_size lo = net_size hi /\ net_size ip = 2 * net_size lo.
Proof.
  destruct ip as [a p]. intros [[Ha Hp] Hc] Hlt.
  unfold net_size, subnets in *. cbn [m_address m_prefixLength] in *.
  assert (Hsz : 2 ^ (width a - p) = 2 * 2 ^ (width a - (p + 1))).
  { rewrite <- Z.pow_succ_r by lia. f_equal. lia. }
  assert (Hpos : 0 < 2 ^ (width a - (p + 1))) by (apply Z.pow_pos_nonneg; lia).
  pose proof (addr_ok_bound a Ha) as Hb.
  assert (Hlo : val a mod 2 ^ (width a - (p + 1)) = 0).
  { apply Z.mod_divide; [lia|]. apply Z.mod_divide in Hc; [|lia].
    etransitivity; [|done]. rewrite Hsz. apply Z.divide_factor_r. }
  assert (Hhi : (val a + 2 ^ (width a - (p + 1))) mod 2 ^ (width a - (p + 1)) = 0).
  { by rewrite <- (Z.mul_1_l (2 ^ _)) at 1; rewrite Z.mod_add by lia. }
  assert (Htop : val a + 2 ^ (width a - (p + 1)) < 2 ^ width a).
  { apply Z.mod_divide in Hc as [k Hk]; [|lia].
    assert (2 ^ width a = 2 ^ p * 2 ^ (width a - p)) by (rewrite <- Z.pow_add_r by lia; f_equal; lia).
    assert (k < 2 ^ p) by nia. nia. }
  destruct a as [|a|c]; cbn [width val protocol] in *; [done| |].
  - destruct (Z.leb_spec 32 p); [lia|].
    change 2147483648 with (2 ^ 31). rewrite shiftr_pow2 by lia.
    replace (31 - p) with (32 - (p + 1)) in * by lia.
    rewrite lor_next_bit by (lia || (replace (32 - (p + 1) + 1) with (32 - p) by lia; done)).
    do 2 eexists. split; [done|]. repeat split; simpl; try done; lia.
  - destruct Ha as [Hl Hby]. destruct (Z.leb_spec 128 p); [lia|].
    fold (set_prefix_bit p c).
    destruct (set_prefix_bit_ok p c ltac:(lia) Hby) as [Hl' Hby'].
    pose proof (be_set_prefix_bit p c Hby) as Hbe. rewrite Hl in Hbe.
    change (8 * Z.of_nat 16) with 128 in Hbe. specialize (Hbe ltac:(lia) Hc).
    replace (128 - p - 1) with (128 - (p + 1)) in Hbe by lia.
    do 2 eexists. split; [done|].
    repeat split; simpl; try done; try lia; rewrite ?Hbe; done || lia.
Qed.

Lemma ip_ext a b :
  ip_ok a -> ip_ok b -> protocol (m_address a) = protocol (m_address b) ->
  val (m_address a) = val (m_address b) -> m_prefixLength a = m_prefixLength b -> a = b.
Proof.
  destruct a as [a p], b as [b q]; simpl. intros [Ha _] [Hb _] Hpr Hv ->.
  f_equal. by apply val_inj.
Qed.

Lemma subnetOf_spec a b :
  ip_ok a -> ip_ok b ->
  subnetOf a b = true <-> m_prefixLength b <= m_prefixLength a /\ in_net b (m_address a).
Proof.
  intros [Ha ?] Hb. unfold subnetOf.
  case_bool_decide as Hpr; simpl.
  - destruct (Z.ltb_spec (m_prefixLength a) (m_prefixLength b)); [lia|].
    rewrite contains_in_net by done. tauto.
  - split; [done|]. intros [_ [? _]]. congruence.
Qed.

(** ** The exclusion loop *)

Lemma covered_nil x : covered [] x <-> False.
Proof. split; [|done]. by intros (? & ?%not_elem_of_nil & _). Qed.

Lemma covered_cons n l x : covered (n :: l) x <-> in_net n x \/ covered l x.
Proof.
  unfold covered. setoid_rewrite elem_of_cons. split.
  - intros (? & [->|?] & ?); eauto.
  - intros [?|(? & ? & ?)]; eauto.
 Qed.

Lemma covered_app l l' x : covered (l ++ l') x <-> covered l x \/ covered l' x.
Proof.
  unfold covered. setoid_rewrite elem_of_app. split.
  - intros (? & [?|?] & ?); eauto.
  - intros [(? & ? & ?)|(? & ? & ?)]; eauto.
 Qed.

(** A network splits into its halves. *)
Definition splits (cur lo hi : IPAddress) : Prop :=
  canonical lo /\ canonical hi /\
  forall x, addr_ok x ->
    (in_net cur x <-> in_net lo x \/ in_net hi x) /\ ~ (in_net lo x /\ in_net hi x).

Lemma halves_split cur :
  canonical cur -> m_prefixLength cur < width (m_address cur) ->
  exists lo hi, subnets cur = [lo; hi] /\ splits cur lo hi /\
    m_prefixLength lo = m_prefixLength cur + 1 /\ m_prefixLength hi = m_prefixLength cur + 1 /\
    (forall e, canonical e -> in_net cur (m_address e) ->
       m_prefixLength e = m_prefixLength cur + 1 -> e = lo \/ e = hi).
Proof.
  intros Hcur Hp.
  destruct (subnets_halves cur Hcur Hp)
    as (lo & hi & Hsn & Hlo & Hhi & Hplo & Hphi & Hqlo & Hqhi & Hvlo & Hvhi & Hs1 & Hs2).
  pose proof (net_size_pos lo (proj1 Hlo)) as Hpos.
  exists lo, hi. split; [done|]. split; [|do 2 (split; [done|])].
  - split; [done|]. split; [done|]. intros x Hx.
    rewrite !in_net_interval, Hplo, Hphi, Hvlo, Hvhi, <- Hs1 by done.
    split; [split; [intros [-> ?]|intros [[-> ?]|[-> ?]]]; try (split; [done|lia])|lia].
    destruct (decide (val x < val (m_address cur) + net_size lo)); [left|right]; (split; [done|lia]).
  - intros e He Hin Hpe. apply in_net_interval in Hin as [Hpr Hin]; [|done|apply He].
    assert (Hse : net_size e = net_size lo).
    { unfold net_size. f_equal. rewrite Hqlo, Hpe. f_equal.
      apply protocol_width; [apply He|apply Hlo|congruence]. }
    destruct He as [Heok Hem], Hcur as [Hcok Hcm]. rewrite Hse in Hem. rewrite Hs2 in *.
    apply Z.mod_divide in Hem as [k Hk]; [|lia]. apply Z.mod_divide in Hcm as [j Hj]; [|lia].
    assert (k = 2 * j \/ k = 2 * j + 1) as [->| ->] by nia; [left|right];
      (apply ip_ext; [done|apply Hlo || apply Hhi|congruence|lia|lia]).
Qed.

Lemma inner_width cur e :
  ip_ok cur -> ip_ok e -> in_net cur (m_address e) -> width (m_address e) = width (m_address cur).
Proof. intros Hc He [Hpr _]. apply protocol_width; [apply He|apply Hc|done]. Qed.

(** Addresses of one network agree on any coarser network part. *)
Lemma coarser_part h e x :
  ip_ok h -> ip_ok e -> m_prefixLength h <= m_prefixLength e ->
  protocol (m_address e) = protocol (m_address h) ->
  in_net e x -> val x / net_size h = val (m_address e) / net_size h.
Proof.
  intros Hh He Hp Hpr [Hprx Hx].
  assert (Hw : width (m_address e) = width (m_address h)).
  { apply protocol_width; [apply He|apply Hh|done]. }
  pose proof (net_size_pos e He). destruct He as [_ He], Hh as [_ Hh].
  assert (net_size h = net_size e * 2 ^ (m_prefixLength e - m_prefixLength h)) as ->.
  { unfold net_size. rewrite Hw, <- Z.pow_add_r by lia. f_equal. lia. }
  assert (0 < 2 ^ (m_prefixLength e - m_prefixLength h)) by (apply Z.pow_pos_nonneg; lia).
  rewrite <- !Z.div_div by lia. by rewrite Hx.
Qed.

(** A network inside another holds only addresses of that one. *)
Lemma inner_incl h e x :
  ip_ok h -> ip_ok e -> m_prefixLength h <= m_prefixLength e ->
  in_net h (m_address e) -> in_net e x -> in_net h x.
Proof.
  intros Hh He Hp [Hpr Hin] Hx. split; [destruct Hx; congruence|].
  rewrite <- Hin. by apply coarser_part.
Qed.

(** Two networks that share an address are nested. *)
Lemma shared_nested h e x :
  ip_ok h -> ip_ok e -> m_prefixLength h <= m_prefixLength e ->
  in_net h x -> in_net e x -> in_net h (m_address e).
Proof.
  intros Hh He Hp [Hprh Hxh] Hxe. pose proof Hxe as [Hpre _].
  split; [congruence|]. rewrite <- Hxh. symmetry. apply coarser_part; [done..|congruence|done].
Qed.

(** One descent of the loop: the half [k] that does not hold [e] is kept whole. *)
Lemma covered_step cur h k e l :
  (forall x, addr_ok x ->
    (in_net cur x <-> in_net h x \/ in_net k x) /\ ~ (in_net h x /\ in_net k x)) ->
  (forall x, addr_ok x -> in_net e x -> in_net h x) ->
  (forall x, addr_ok x -> covered l x <-> in_net h x /\ ~ in_net e x) ->
  forall x, addr_ok x -> covered (k :: l) x <-> in_net cur x /\ ~ in_net e x.
Proof.
  intros Hs Hsub Hl x Hok. specialize (Hs x Hok). specialize (Hl x Hok).
  specialize (Hsub x Hok). rewrite covered_cons. tauto.
Qed.

Lemma exclude_loop_correct n : forall fuel cur e result,
  canonical cur -> canonical e -> in_net cur (m_address e) ->
  m_prefixLength e = m_prefixLength cur + Z.of_nat (S n) -> (n < fuel)%nat ->
  exists l, exclude_loop fuel e (subnets cur) result = Ret (result ++ l) /\
    length l = S n /\ Forall canonical l /\
    (forall x, addr_ok x -> covered l x <-> in_net cur x /\ ~ in_net e x).
Proof.
  induction n as [|n IH]; intros fuel cur e result Hcur He Hin Hp Hf;
    (destruct fuel as [|fuel]; [lia|]);
    pose proof (inner_width cur e (proj1 Hcur) (proj1 He) Hin) as Hw;
    pose proof (proj1 He) as [Headdr Hpe];
    destruct (halves_split cur Hcur ltac:(lia))
      as (lo & hi & Hsn & (Hlo & Hhi & Hx) & Hplo & Hphi & Heq);
    rewrite Hsn; cbn [exclude_loop].
  - destruct (Heq e He Hin ltac:(lia)) as [-> | ->].
    + rewrite (bool_decide_eq_true_2 (lo = lo)) by done. simpl.
      exists [hi]. rewrite Forall_singleton. do 3 (split; [done|]). intros x Hok.
      destruct (Hx x Hok). rewrite covered_cons, covered_nil. tauto.
    + rewrite (bool_decide_eq_true_2 (hi = hi)), andb_false_r by done. simpl.
      case_bool_decide as E.
      * exfalso. subst. destruct (Hx (m_address hi) (proj1 (proj1 Hhi))). tauto.
      * exists [lo]. rewrite Forall_singleton. do 3 (split; [done|]). intros x Hok.
        destruct (Hx x Hok). rewrite covered_cons, covered_nil. tauto.
  - rewrite !bool_decide_eq_false_2 by (intros ->; lia). simpl.
    destruct (subnetOf e lo) eqn:Elo; [|destruct (subnetOf e hi) eqn:Ehi].
    + apply subnetOf_spec in Elo as [_ Elo]; [|apply He|apply Hlo].
      destruct (IH fuel lo e (result ++ [hi]) Hlo He Elo ltac:(lia) ltac:(lia))
        as (l & -> & Hlen & Hcan & Hcov).
      exists (hi :: l). rewrite <- app_assoc. split; [done|]. split; [simpl; lia|].
      split; [by constructor|]. apply (covered_step cur lo hi e l); [done| |done].
      intros x _. apply inner_incl; [apply Hlo|apply He|lia|done].
    + apply subnetOf_spec in Ehi as [_ Ehi]; [|apply He|apply Hhi].
      destruct (IH fuel hi e (result ++ [lo]) Hhi He Ehi ltac:(lia) ltac:(lia))
        as (l & -> & Hlen & Hcan & Hcov).
      exists (lo :: l). rewrite <- app_assoc. split; [done|]. split; [simpl; lia|].
      split; [by constructor|]. apply (covered_step cur hi lo e l); [| |done].
      * intros x Hok. destruct (Hx x Hok). tauto.
      * intros x _. apply inner_incl; [apply Hhi|apply He|lia|done].
    + exfalso. apply not_true_iff_false in Elo, Ehi.
      rewrite subnetOf_spec in Elo, Ehi by (apply He || apply Hlo || apply Hhi).
      destruct (proj1 (proj1 (Hx _ Headdr)) Hin); [apply Elo|apply Ehi]; (split; [lia|done]).
Qed.

(** Iterations that are always enough: one per bit of the longest prefix. *)
Definition exclude_fuel : nat := 128.

Lemma excludeAddress_correct fuel ip e :
  canonical ip -> canonical e -> subnetOf e ip = true -> e <> ip -> (exclude_fuel <= fuel)%nat ->
  exists l, excludeAddress fuel ip e = Ret l /\
    Z.of_nat (length l) = m_prefixLength e - m_prefixLength ip /\ Forall canonical l /\
    (forall x, addr_ok x -> covered l x <-> in_net ip x /\ ~ in_net e x).
Proof.
  intros Hip He Hsub Hne Hf.
  apply subnetOf_spec in Hsub as [Hp Hin]; [|apply He|apply Hip].
  assert (Hw : width (m_address e) = width (m_address ip)).
  { apply protocol_width; [apply He|apply Hip|apply Hin]. }
  assert (m_prefixLength ip <> m_prefixLength e) as Hpne.
  { intros Hpe. apply Hne. apply in_net_interval in Hin as [Hpr Hin]; [|done|apply He].
    apply ip_ext; [apply He|apply Hip|done| |done].
    destruct Hip as [Hipok Him], He as [Heok Hem].
    assert (net_size e = net_size ip) as Hse by (unfold net_size; congruence).
    pose proof (net_size_pos ip Hipok). rewrite Hse in Hem.
    apply Z.mod_divide in Hem as [k Hk]; [|lia]. apply Z.mod_divide in Him as [j Hj]; [|lia].
    assert (k = j) by nia. lia. }
  pose proof (proj2 (proj1 He)). pose proof (proj2 (proj1 Hip)).
  assert (width (m_address e) <= 128) by (destruct (m_address e); simpl; lia).
  destruct (exclude_loop_correct (Z.to_nat (m_prefixLength e - m_prefixLength ip - 1))
              fuel ip e [] Hip He Hin) as (l & Hrun & Hlen & Hcan & Hcov);
    [lia|unfold exclude_fuel in Hf; lia|].
  exists l. unfold excludeAddress. rewrite Hrun, Hlen. repeat split; try apply Hcov; (done || lia).
Qed.

Lemma overlaps_false_disjoint ip e x :
  ip_ok ip -> ip_ok e -> overlaps ip e = false -> in_net ip x -> ~ in_net e x.
Proof.
  intros Hip He Ho Hx Hxe. unfold overlaps in Ho.
  destruct (Z.ltb_spec (m_prefixLength ip) (m_prefixLength e));
    apply not_true_iff_false in Ho; apply Ho; apply contains_in_net; try (apply He || apply Hip).
  - by apply (shared_nested ip e x); [..|lia| |].
  - by apply (shared_nested e ip x).
Qed.

(** One pass against one excluded network. *)
Lemma exclude_pass_correct fuel e l :
  canonical e -> Forall canonical l -> (exclude_fuel <= fuel)%nat ->
  exists l', exclude_pass fuel e l = Ret l' /\ Forall canonical l' /\
    (forall x, addr_ok x -> covered l' x <-> covered l x /\ ~ in_net e x).
Proof.
  intros He Hl Hf. induction Hl as [|ip l Hip Hl (l' & Hrun & Hcan & Hcov)].
  { exists []. do 2 (split; [done|]). intros x _. rewrite covered_nil. tauto. }
  cbn [exclude_pass]. rewrite Hrun. clear Hrun.
  set (range := if negb (overlaps ip e) then _ else _).
  enough (exists r, range = Ret r /\ Forall canonical r /\
    forall x, addr_ok x -> covered r x <-> in_net ip x /\ ~ in_net e x) as (r & -> & Hr & Hrc).
  { exists (r ++ l'). split; [done|]. split; [by apply Forall_app|]. intros x Hok.
    rewrite covered_app, covered_cons, Hrc, Hcov by done. tauto. }
  unfold range. destruct (overlaps ip e) eqn:Ho; simpl.
  2: { exists [ip]. split; [done|]. split; [by apply Forall_singleton|]. intros x Hok.
       rewrite covered_cons, covered_nil.
       pose proof (overlaps_false_disjoint ip e x (proj1 Hip) (proj1 He) Ho). tauto. }
  destruct (subnetOf e ip && negb (bool_decide (e = ip))) eqn:Hs.
  - bprop. destruct (excludeAddress_correct fuel ip e) as (r & ? & _ & ? & ?); eauto.
  - exists []. split; [done|]. split; [done|]. intros x Hok. rewrite covered_nil.
    split; [done|]. intros [Hx Hnx]. apply Hnx. clear Hnx.
    apply andb_false_iff in Hs as [Hs|Hs]; [|bprop; by subst].
    unfold overlaps in Ho. destruct (Z.ltb_spec (m_prefixLength ip) (m_prefixLength e)) as [Hlt|Hge].
    + apply not_true_iff_false in Hs. destruct Hs. apply subnetOf_spec; [apply He|apply Hip|].
      split; [lia|]. apply contains_in_net in Ho; [done|apply Hip|apply He].
    + apply contains_in_net in Ho; [|apply He|apply Hip].
      apply (inner_incl e ip x); [apply He|apply Hip|lia|done|done].
Qed.

(** ** Masks and the last address *)

Lemma lor_ones a m :
  0 <= m -> Z.lor a (Z.ones m) = a / 2 ^ m * 2 ^ m + (2 ^ m - 1).
Proof.
  intros Hm. rewrite <- Z.shiftr_div_pow2, <- Z.shiftl_mul_pow2 by lia.
  replace (2 ^ m - 1) with (Z.ones m) by (rewrite Z.ones_equiv; lia).
  set (b := Z.shiftl (Z.shiftr a m) m).
  assert (Hb : Z.land b (Z.ones m) = 0).
  { rewrite Z.land_ones by lia. unfold b. rewrite Z.shiftl_mul_pow2 by lia.
    apply Z.mod_mul. lia. }
  rewrite Z.add_nocarry_lxor, Z.lxor_lor by done.
  apply Z.bits_inj'. intros i Hi. rewrite !Z.lor_spec, Z.testbit_ones_nonneg by lia.
  destruct (Z.ltb_spec i m); [by rewrite !orb_true_r|]. rewrite !orb_false_r.
  unfold b. rewrite Z.shiftl_spec, Z.shiftr_spec by lia. f_equal. lia.
Qed.

Lemma be_replicate_255 n : be (replicate n 255) = 2 ^ (8 * Z.of_nat n) - 1.
Proof.
  induction n as [|n IH]; [done|]. cbn [replicate be]. rewrite length_replicate, IH.
  replace (8 * Z.of_nat (S n)) with (8 + 8 * Z.of_nat n) by lia.
  rewrite Z.pow_add_r by lia. change (2 ^ 8) with 256. lia.
Qed.

Definition fill_host (p : Z) (c : list Z) : list Z :=
  let offset := Z.to_nat ((p + 7) / 8) in
  let raw := take offset c ++ bytes_of (length c - offset) 255 in
  if p mod 8 =? 0 then raw
  else alter (fun b => Z.lor b (Z.shiftr 255 (p mod 8))) (Z.to_nat (p / 8)) raw.

Lemma fill_host_small p x c :
  0 <= p < 8 ->
  fill_host p (x :: c) =
  (if p =? 0 then 255 else Z.lor x (Z.ones (8 - p))) :: replicate (length c) 255.
Proof.
  intros Hp. unfold fill_host, bytes_of. rewrite (Z.div_small p), Z.mod_small by lia.
  destruct (Z.eqb_spec p 0) as [->|Hp0]; [done|].
  replace ((p + 7) / 8) with 1 by (apply Z.div_unique_pos with (p - 1); lia).
  change (Z.to_nat 1) with 1%nat. change (Z.to_nat 0) with 0%nat.
  cbn [take length Nat.sub app alter list_alter]. rewrite Nat.sub_0_r. f_equal. f_equal.
  change 255 with (2 ^ 8 - 1).
  rewrite Z.shiftr_div_pow2 by lia. rewrite Z.ones_equiv.
  symmetry. apply Z.div_unique_pos with (2 ^ p - 1).
  - split; [|lia]. pose proof (Z.pow_pos_nonneg 2 p). lia.
  - rewrite <- Z.sub_1_r. assert (2 ^ 8 = 2 ^ p * 2 ^ (8 - p)) as ->
      by (rewrite <- Z.pow_add_r by lia; f_equal; lia). ring.
Qed.

Lemma fill_host_cons p x c :
  8 <= p -> fill_host p (x :: c) = x :: fill_host (p - 8) c.
Proof.
  intros Hp. unfold fill_host. destruct (prefix_index p Hp) as [-> ->].
  destruct (prefix_index (p + 7)) as [-> _]; [lia|].
  replace (p + 7 - 8) with (p - 8 + 7) by lia. simpl. by destruct (_ =? 0).
Qed.

Lemma fill_host_length p c : length (fill_host p c) = length c.
Proof.
  unfold fill_host, bytes_of.
  destruct (_ =? 0); rewrite ?length_alter, length_app, length_take, length_replicate; lia.
Qed.

Lemma be_fill_host p c :
  Forall byte_ok c -> 0 <= p <= 8 * Z.of_nat (length c) ->
  let s := 2 ^ (8 * Z.of_nat (length c) - p) in be (fill_host p c) = be c / s * s + (s - 1).
Proof.
  intros Hc. revert p. induction Hc as [|x c Hx Hc IH]; intros p Hp; cbv zeta.
  { replace p with 0 by (simpl in Hp; lia). done. }
  cbn [length] in *. set (n := 8 * Z.of_nat (length c)) in *.
  assert (Hn : 0 < 2 ^ n) by (apply Z.pow_pos_nonneg; lia).
  replace (8 * Z.of_nat (S (length c))) with (n + 8) in * by lia.
  destruct (decide (8 <= p)) as [H8|H8].
  - rewrite fill_host_cons, be_cons_div_lo by (fold n; lia). cbn [be].
    rewrite fill_host_length, IH by lia. fold n. cbv zeta.
    replace (n - (p - 8)) with (n + 8 - p) by lia.
    assert (2 ^ n = 2 ^ (n - (n + 8 - p)) * 2 ^ (n + 8 - p)) as ->
      by (rewrite <- Z.pow_add_r by lia; f_equal; lia). ring.
  - rewrite fill_host_small, be_cons_div_hi by (done || fold n; lia). cbn [be].
    rewrite length_replicate, be_replicate_255. fold n.
    replace (n + 8 - p - n) with (8 - p) by lia.
    replace (n + 8 - p) with ((8 - p) + n) by lia. rewrite Z.pow_add_r by lia.
    destruct (Z.eqb_spec p 0) as [->|Hp0].
    + change (2 ^ (8 - 0)) with 256. unfold byte_ok in Hx. rewrite Z.div_small by lia. lia.
    + rewrite lor_ones by lia. ring.
Qed.

(** The masks as numbers, checked for each prefix length. *)
Definition mask4_ok (p : Z) : bool :=
  let ip := mkIP (V4 0) p in
  (val (netmask ip) =? 2 ^ 32 - 2 ^ (32 - p)) && (val (hostmask ip) =? 2 ^ (32 - p) - 1) &&
  ((32 <=? p) || (Z.shiftr 4294967295 p =? Z.ones (32 - p))).

Definition mask6_ok (p : Z) : bool :=
  let ip := mkIP (V6 []) p in
  (val (netmask ip) =? 2 ^ 128 - 2 ^ (128 - p)) && (val (hostmask ip) =? 2 ^ (128 - p) - 1).

Lemma forallb_seqZ (f : Z -> bool) n p :
  forallb f (seqZ 0 n) = true -> 0 <= p < n -> f p = true.
Proof.
  intros H Hp. rewrite forallb_forall in H. apply H, list_elem_of_In, elem_of_seqZ. lia.
Qed.

Lemma mask4_correct p : 0 <= p <= 32 -> mask4_ok p = true.
Proof. intros. apply (forallb_seqZ mask4_ok 33); [vm_compute; reflexivity|lia]. Qed.

Lemma mask6_correct p : 0 <= p <= 128 -> mask6_ok p = true.
Proof. intros. apply (forallb_seqZ mask6_ok 129); [vm_compute; reflexivity|lia]. Qed.

Lemma broadcast4_val a p :
  0 <= p <= 32 ->
  (if p <? 32 then Z.lor a (Z.shiftr 4294967295 p) else a)
  = a / 2 ^ (32 - p) * 2 ^ (32 - p) + (2 ^ (32 - p) - 1).
Proof.
  intros Hp. pose proof (mask4_correct p Hp) as Hm. unfold mask4_ok in Hm. bprop.
  destruct (Z.ltb_spec p 32).
  - destruct (Z.leb_spec 32 p); [lia|]. simpl orb in *. bprop.
    match goal with H : Z.shiftr _ _ = _ |- _ => rewrite H end. apply lor_ones. lia.
  - replace (32 - p) with 0 by lia. rewrite Z.div_1_r. lia.
Qed.

(** ** The loop on a network with host bits set *)

(** Once the halves are longer than the excluded prefix the state never changes. *)
Lemma exclude_loop_stuck fuel e s0 s1 result :
  m_prefixLength e < m_prefixLength s0 -> m_prefixLength e < m_prefixLength s1 ->
  exclude_loop fuel e [s0; s1] result = NoFuel.
Proof.
  intros H0 H1. induction fuel as [|fuel IH]; [done|]. cbn [exclude_loop].
  rewrite !bool_decide_eq_false_2 by (intros ->; lia). simpl. unfold subnetOf.
  destruct (negb _); destruct (negb _); try done;
  (destruct (Z.ltb_spec (m_prefixLength e) (m_prefixLength s0)); [|lia]);
  (destruct (Z.ltb_spec (m_prefixLength e) (m_prefixLength s1)); [done|lia]).
Qed.

Lemma exclude_loop_diverges fuel : forall cur e result,
  canonical cur -> ip_ok e -> ~ canonical e ->
  m_prefixLength cur <= m_prefixLength e -> in_net cur (m_address e) ->
  exclude_loop fuel e (subnets cur) result = NoFuel.
Proof.
  induction fuel as [|fuel IH]; intros cur e result Hcur He Hnc Hp Hin; [done|].
  pose proof (inner_width cur e (proj1 Hcur) He Hin) as Hw.
  assert (m_prefixLength e < width (m_address e)) as Hlt.
  { destruct (decide (m_prefixLength e < width (m_address e))) as [|Hge]; [done|].
    destruct Hnc. split; [done|]. unfold net_size.
    replace (width (m_address e) - m_prefixLength e) with 0 by (destruct He; lia).
    apply Z.mod_1_r. }
  destruct (halves_split cur Hcur ltac:(lia))
    as (lo & hi & -> & (Hlo & Hhi & Hx) & Hplo & Hphi & _).
  destruct (decide (m_prefixLength cur = m_prefixLength e)) as [Heq|Hne].
  { apply exclude_loop_stuck; lia. }
  cbn [exclude_loop]. rewrite !bool_decide_eq_false_2 by (intros ->; done). simpl.
  destruct (subnetOf e lo) eqn:Elo; [|destruct (subnetOf e hi) eqn:Ehi].
  - apply subnetOf_spec in Elo as [_ Elo]; [|done|apply Hlo]. apply IH; (done || lia).
  - apply subnetOf_spec in Ehi as [_ Ehi]; [|done|apply Hhi]. apply IH; (done || lia).
  - exfalso. apply not_true_iff_false in Elo, Ehi.
    rewrite subnetOf_spec in Elo, Ehi by (apply Hlo || apply Hhi || done).
    destruct (proj1 (proj1 (Hx _ (proj1 He))) Hin); [apply Elo|apply Ehi]; (split; [lia|done]).
Qed.

(** ** Theorems *)

(** Decide the concrete side conditions of the witnesses. *)
Ltac solve_canonical :=
  repeat (first [ apply Forall_cons; split | apply Forall_nil | split ]);
  cbn; unfold byte_ok; try lia; try reflexivity; try done.

(** [contains] answers exactly the membership question, for IPv4 and byte by byte for
    IPv6: the address is of the network's family and agrees with it on the prefix. *)
Theorem contains_decides_membership ip x :
  ip_ok ip -> addr_ok x -> contains ip x = true <-> in_net ip x.
Proof. apply contains_in_net. Qed.

(** the masks and the last address of a network are the textbook ones, also where the
    code assembles them byte by byte: netmask and hostmask are complementary numbers and
    the broadcast address is the largest address of the network. *)
Theorem masks_correct ip :
  ip_ok ip ->
  val (netmask ip) = 2 ^ width (m_address ip) - net_size ip /\
  val (hostmask ip) = net_size ip - 1 /\
  val (broadcastAddress ip) = val (m_address ip) / net_size ip * net_size ip + (net_size ip - 1).
Proof.
  destruct ip as [[|a|c] p]; intros [Ha Hp]; [done| |]; unfold net_size;
    cbn [m_address m_prefixLength width] in *.
  - pose proof (mask4_correct p Hp) as Hm. unfold mask4_ok in Hm. bprop.
    split; [done|]. split; [done|]. apply (broadcast4_val a p Hp).
  - pose proof (mask6_correct p Hp) as Hm. unfold mask6_ok in Hm. bprop. destruct Ha as [Hl Hc].
    split; [done|]. split; [done|].
    pose proof (be_fill_host p c Hc) as Hb. unfold fill_host in Hb. rewrite Hl in Hb.
    by apply Hb.
Qed.

Lemma masks_correct_witness :
  val (broadcastAddress (mkIP (V4 3232235776) 24)) = 3232236031.
Proof.
  destruct (masks_correct (mkIP (V4 3232235776) 24)) as (_ & _ & H); [solve_canonical|].
  rewrite H. reflexivity.
Defined.

Lemma contains_decides_membership_witness :
  in_net (mkIP (V6 (32 :: 1 :: replicate 14 0)) 32) (V6 (32 :: 1 :: 0 :: 0 :: replicate 12 7)).
Proof.
  apply (contains_decides_membership (mkIP (V6 (32 :: 1 :: replicate 14 0)) 32)
           (V6 (32 :: 1 :: 0 :: 0 :: replicate 12 7))); [solve_canonical..|reflexivity].
Defined.

(** a network that is more than one address has exactly two halves, canonical and one
    bit longer, that partition its addresses. *)
Theorem subnets_partition ip :
  canonical ip -> m_prefixLength ip < width (m_address ip) ->
  exists lo hi, subnets ip = [lo; hi] /\ canonical lo /\ canonical hi /\
    m_prefixLength lo = m_prefixLength ip + 1 /\ m_prefixLength hi = m_prefixLength ip + 1 /\
    forall x, addr_ok x ->
      (in_net ip x <-> in_net lo x \/ in_net hi x) /\ ~ (in_net lo x /\ in_net hi x).
Proof.
  intros Hc Hp. destruct (halves_split ip Hc Hp) as (lo & hi & ? & (? & ? & ?) & ? & ? & _).
  by exists lo, hi.
Qed.

Lemma subnets_partition_witness :
  exists lo hi, subnets (mkIP (V4 167772160) 8) = [lo; hi] /\ canonical lo /\ canonical hi.
Proof.
  destruct (subnets_partition (mkIP (V4 167772160) 8)) as (lo & hi & ? & ? & ? & _);
    [solve_canonical|cbn; lia|]. by exists lo, hi.
Defined.

(** C1: excluding a list of networks from a list of networks leaves exactly the addresses
    that are in the first and in none of the second; the loops end within [exclude_fuel]
    halvings per network and never read past the pair of halves. *)
Theorem excludeAddresses_exact fuel src excl :
  Forall canonical src -> Forall canonical excl -> (exclude_fuel <= fuel)%nat ->
  exists l, excludeAddresses fuel src excl = Ret l /\ Forall canonical l /\
    (forall x, addr_ok x -> covered l x <-> covered src x /\ ~ covered excl x).
Proof.
  intros Hsrc Hex Hf. revert src Hsrc.
  induction Hex as [|e es He _ IH]; intros src Hsrc; cbn [excludeAddresses].
  { exists src. do 2 (split; [done|]). intros x _. rewrite covered_nil. tauto. }
  destruct (exclude_pass_correct fuel e src He Hsrc Hf) as (l & -> & Hl & Hlc). cbn [run_bind].
  destruct (IH l Hl) as (l' & -> & Hl' & Hlc'). exists l'. do 2 (split; [done|]). intros x Hok.
  rewrite Hlc', Hlc, covered_cons by done. tauto.
Qed.

Lemma excludeAddresses_exact_witness :
  exists l, excludeAddresses exclude_fuel [mkIP (V4 0) 0; mkIP (V6 (replicate 16 0)) 0]
              [mkIP (V4 3232235520) 16; mkIP (V6 (254 :: 128 :: replicate 14 0)) 10] = Ret l /\
    length l = 26%nat /\ ~ covered l (V4 3232235777).
Proof.
  destruct (excludeAddresses_exact exclude_fuel [mkIP (V4 0) 0; mkIP (V6 (replicate 16 0)) 0]
              [mkIP (V4 3232235520) 16; mkIP (V6 (254 :: 128 :: replicate 14 0)) 10])
    as (l & Hrun & _ & Hcov); [solve_canonical|solve_canonical|reflexivity || lia|].
  exists l. split; [done|]. split.
  - vm_compute in Hrun. by injection Hrun as <-.
  - rewrite Hcov by solve_canonical. intros [_ Hn]. apply Hn.
    exists (mkIP (V4 3232235520) 16). split; [by left|]. by split.
Defined.

(** The single-network loop does not end when the excluded range has host bits set (an
    address that is not its network's first): no number of iterations is enough.  Callers
    must pass normalised ranges, as [QHostAddress::parseSubnet] does. *)
Theorem exclude_unnormalised_diverges fuel ip e :
  canonical ip -> ip_ok e -> val (m_address e) mod net_size e <> 0 -> subnetOf e ip = true ->
  excludeAddress fuel ip e = NoFuel.
Proof.
  intros Hip He Hnc Hsub. apply subnetOf_spec in Hsub as [Hp Hin]; [|done|apply Hip].
  apply exclude_loop_diverges; [done|done| |done|done]. by intros [_ ?].
Qed.

Lemma exclude_unnormalised_diverges_witness :
  excludeAddress 1000 (mkIP (V4 167772160) 8) (mkIP (V4 167838211) 16) = NoFuel.
Proof.
  apply exclude_unnormalised_diverges;
    [solve_canonical|solve_canonical|vm_compute; discriminate|reflexivity].
Defined.
