(* ===== verification/Json.v ===== *)
(** * JSON values as the client uses them

    [QJsonValue], [QJsonArray] and [QJsonObject] are the language in which every part
    of the client stores and exchanges data, so they are modelled here once.  An
    object keeps its keys sorted, as [QJsonObject] does.  The text format
    ([QJsonDocument::toJson] and [fromJson]) is library code: it is the interface
    [JsonText], with the round trip the client relies on as its only law. *)

From S2P Require Import Prelude.
From stdpp Require Import countable.

(** ** Values *)

Unset Elimination Schemes.

(** [JInt] is a whole number, [JReal n d] the number [n/d] that is not whole. *)
Inductive json :=
  | JNull
  | JBool (b : bool)
  | JInt (z : Z)
  | JReal (n : Z) (d : positive)
  | JStr (s : string)
  | JArr (l : list json)
  | JObj (o : list (string * json)).

Set Elimination Schemes.

Abbreviation obj := (list (string * json)).

Section JsonInd.
Variable P : json -> Prop.
Hypothesis HNull : P JNull.
Hypothesis HBool : forall b, P (JBool b).
Hypothesis HInt : forall z, P (JInt z).
Hypothesis HReal : forall n d, P (JReal n d).
Hypothesis HStr : forall s, P (JStr s).
Hypothesis HArr : forall l, Forall P l -> P (JArr l).
Hypothesis HObj : forall o : obj, Forall (fun kv => P kv.2) o -> P (JObj o).

Fixpoint json_ind (j : json) : P j :=
  match j with
  | JNull => HNull
  | JBool b => HBool b
  | JInt z => HInt z
  | JReal n d => HReal n d
  | JStr s => HStr s
  | JArr l =>
      HArr l ((fix go (l : list json) : Forall P l :=
        match l with
        | [] => Forall_nil_2 _
        | x :: r => Forall_cons_2 _ _ _ (json_ind x) (go r)
        end) l)
  | JObj o =>
      HObj o ((fix go (o : obj) : Forall (fun kv => P kv.2) o :=
        match o with
        | [] => Forall_nil_2 _
        | kv :: r => Forall_cons_2 (fun kv => P kv.2) kv r (json_ind kv.2) (go r)
        end) o)
  end.
End JsonInd.

(** ** Objects *)

(** [QJsonObject::value]; [None] is the undefined value. *)
Fixpoint ofind (k : string) (o : obj) : option json :=
  match o with
  | [] => None
  | (k', v) :: r => if String.eqb k k' then Some v else ofind k r
  end.

(** [QJsonObject::insert] and [obj[k] = v]. *)
Fixpoint oset (k : string) (v : json) (o : obj) : obj :=
  match o with
  | [] => [(k, v)]
  | (k', v') :: r =>
      if String.eqb k k' then (k, v) :: r
      else if String.ltb k k' then (k, v) :: (k', v') :: r
      else (k', v') :: oset k v r
  end.

(** [QJsonObject::remove]. *)
Fixpoint oremove (k : string) (o : obj) : obj :=
  match o with
  | [] => []
  | (k', v) :: r => if String.eqb k k' then oremove k r else (k', v) :: oremove k r
  end.

Definition ocontains (k : string) (o : obj) : bool :=
  match ofind k o with Some _ => true | None => false end.

(** A literal [QJsonObject{{k, v}, ...}]. *)
Definition oof (l : list (string * json)) : obj :=
  fold_left (fun o kv => oset kv.1 kv.2 o) l [].

(** ** Conversions of a possibly undefined value *)

Definition to_string (v : option json) : string :=
  match v with Some (JStr s) => s | _ => "" end.

Definition to_bool (v : option json) : bool :=
  match v with Some (JBool b) => b | _ => false end.

(** [QJsonValue::toInt(def)]: the default also when the number is not an [int]. *)
Definition to_int (def : Z) (v : option json) : Z :=
  match v with Some (JInt z) => if in_int32 z then z else def | _ => def end.

Definition to_array (v : option json) : list json :=
  match v with Some (JArr l) => l | _ => [] end.

Definition to_object (v : option json) : obj :=
  match v with Some (JObj o) => o | _ => [] end.

Definition is_array (v : option json) : bool :=
  match v with Some (JArr _) => true | _ => false end.

Definition is_object (v : option json) : bool :=
  match v with Some (JObj _) => true | _ => false end.

Definition is_bool (v : option json) : bool :=
  match v with Some (JBool _) => true | _ => false end.

(** [static_cast<qint64>(value.toDouble())]: towards zero. *)
Definition to_qint64 (v : option json) : Z :=
  match v with
  | Some (JInt z) => z
  | Some (JReal n d) => Z.quot n (Zpos d)
  | _ => 0%Z
  end.

(** [value.toVariant().toLongLong(&ok)]: numbers are rounded half away from zero, strings
    parsed, booleans are 0 or 1; [None] is [ok == false]. *)
Definition to_longlong (v : option json) : option Z :=
  match v with
  | Some (JInt z) => if in_int64 z then Some z else None
  | Some (JReal n d) =>
      let r := (Z.sgn n * ((2 * Z.abs n + Zpos d) / (2 * Zpos d)))%Z in
      if in_int64 r then Some r else None
  | Some (JStr s) => to_long_long s
  | Some (JBool b) => Some (if b then 1 else 0)%Z
  | _ => None
  end.

(** ** Lookups after updates *)

Lemma ofind_oset_eq k v o : ofind k (oset k v o) = Some v.
Proof.
  induction o as [|[k' v'] o IH]; simpl; [by rewrite String.eqb_refl|].
  destruct (String.eqb k k') eqn:E; simpl; [by rewrite String.eqb_refl|].
  destruct (String.ltb k k'); simpl; [by rewrite String.eqb_refl|]. by rewrite E.
Qed.

Lemma ofind_oset_ne k k' v o : k <> k' -> ofind k (oset k' v o) = ofind k o.
Proof.
  intros Hne. apply String.eqb_neq in Hne.
  induction o as [|[a w] o IH]; simpl; [by rewrite Hne|].
  destruct (String.eqb k' a) eqn:E; simpl.
  - apply String.eqb_eq in E as <-. by rewrite Hne.
  - destruct (String.ltb k' a); simpl; [by rewrite Hne|]. by rewrite IH.
Qed.

Lemma ofind_oset k k' v o :
  ofind k (oset k' v o) = if String.eqb k k' then Some v else ofind k o.
Proof.
  destruct (String.eqb_spec k k') as [->|Hne]; [apply ofind_oset_eq|by apply ofind_oset_ne].
Qed.

Lemma ofind_oremove k k' o :
  ofind k (oremove k' o) = if String.eqb k k' then None else ofind k o.
Proof.
  induction o as [|[a w] o IH]; simpl; [by destruct (String.eqb k k')|].
  destruct (String.eqb_spec k' a) as [->|Ha]; simpl; rewrite IH.
  - by destruct (String.eqb k a).
  - destruct (String.eqb_spec k a) as [->|]; [|done].
    destruct (String.eqb_spec a k') as [->|]; done.
Qed.

Lemma oremove_idem k o : oremove k (oremove k o) = oremove k o.
Proof.
  induction o as [|[a w] o IH]; simpl; [done|].
  destruct (String.eqb k a) eqn:E; simpl; [done|]. by rewrite E, IH.
Qed.

Lemma oremove_oset k v o : oremove k (oset k v o) = oremove k o.
Proof.
  induction o as [|[a w] o IH]; simpl; [by rewrite String.eqb_refl|].
  destruct (String.eqb k a) eqn:E; simpl; [by rewrite String.eqb_refl|].
  destruct (String.ltb k a); simpl; [by rewrite String.eqb_refl, E|]. by rewrite E, IH.
Qed.

#[export] Hint Rewrite ofind_oset ofind_oremove oremove_idem oremove_oset : tunnel.

(** ** Text *)

(** [QJsonDocument::toJson] of a value and [QJsonDocument::fromJson] of a text; the law is
    the documented one, that a document read back is the document written. *)
Class JsonText := {
  json_print : json -> string;
  json_parse : string -> option json;
  json_parse_print : forall j, json_parse (json_print j) = Some j;
  json_print_nonempty : forall j, json_print j <> ""
}.

(** The document's object, empty when there is none ([QJsonDocument::object]), and the
    document's array. *)
Definition doc_object (d : option json) : obj := to_object d.
Definition doc_array (d : option json) : list json := to_array d.

(** ** A model of the interface

    JSON values are countable, so some text format with the law exists: the one below
    (binary numerals of the code of a value) shows that [JsonText] can be met, and runs. *)

Definition leaf : Type := option (bool + (Z + (Z * positive + string))).

Fixpoint json_tree (j : json) : gen_tree leaf :=
  match j with
  | JNull => GenLeaf None
  | JBool b => GenLeaf (Some (inl b))
  | JInt z => GenLeaf (Some (inr (inl z)))
  | JReal n d => GenLeaf (Some (inr (inr (inl (n, d)))))
  | JStr s => GenLeaf (Some (inr (inr (inr s))))
  | JArr l => GenNode 0 (map json_tree l)
  | JObj o =>
      GenNode 1 (map (fun '(k, v) =>
        GenNode 2 [GenLeaf (Some (inr (inr (inr k)))); json_tree v]) o)
  end.

Fixpoint tree_json (t : gen_tree leaf) : json :=
  match t with
  | GenLeaf None => JNull
  | GenLeaf (Some (inl b)) => JBool b
  | GenLeaf (Some (inr (inl z))) => JInt z
  | GenLeaf (Some (inr (inr (inl (n, d))))) => JReal n d
  | GenLeaf (Some (inr (inr (inr s)))) => JStr s
  | GenNode 0 l => JArr (map tree_json l)
  | GenNode _ l =>
      JObj (map (fun t =>
        match t with
        | GenNode _ [GenLeaf (Some (inr (inr (inr k)))); v] => (k, tree_json v)
        | _ => ("", JNull)
        end) l)
  end.

Lemma tree_json_tree j : tree_json (json_tree j) = j.
Proof.
  induction j as [| | | | |l IH|o IH] using json_ind; simpl; try done; f_equal.
  - induction IH as [|x r Hx _ IHr]; simpl; congruence.
  - induction IH as [|[k v] r Hx _ IHr]; simpl in *; congruence.
Qed.

#[export] Instance json_eq_dec : EqDecision json.
Proof.
  refine (fun a b => cast_if (decide (json_tree a = json_tree b)));
    [abstract (rewrite <- (tree_json_tree a), <- (tree_json_tree b); congruence)|congruence].
Defined.

#[export] Instance json_countable : Countable json := inj_countable' json_tree tree_json tree_json_tree.

Fixpoint bits_string (p : positive) : string :=
  match p with
  | xH => "1"
  | xO p => String "0" (bits_string p)
  | xI p => String "2" (bits_string p)
  end.

Fixpoint string_bits (s : string) : option positive :=
  match s with
  | "1" => Some xH
  | String "0" r => xO <$> string_bits r
  | String "2" r => xI <$> string_bits r
  | _ => None
  end.

Lemma string_bits_string p : string_bits (bits_string p) = Some p.
Proof. induction p as [p IH|p IH|]; simpl; rewrite ?IH; done. Qed.

Definition json_text_model : JsonText.
Proof.
  refine {| json_print j := bits_string (encode j);
            json_parse s := string_bits s ≫= decode |}.
  - intros j. rewrite string_bits_string. simpl. apply decode_encode.
  - intros j. by destruct (encode j).
Defined.
