(* ===== verification/Lines.v ===== *)
(** * Lines of text

    Both ends of the daemon's socket cut what they receive at line feeds, and WireGuard's
    configuration is written line by line.  This file has the cutting of a buffer
    ([indexOf] of a line feed, [left], [remove]) and what it needs to be right: the lines do not
    depend on the pieces the text arrived in. *)

From S2P Require Import Prelude.

(** The text before the first line feed and the text after it; [None] when there is none. *)
Fixpoint take_line (s : string) : option (string * string) :=
  match s with
  | EmptyString => None
  | String c r =>
      if Ascii.eqb c LF then Some ("", r)
      else match take_line r with
           | Some (l, rest) => Some (String c l, rest)
           | None => None
           end
  end.

(** All complete lines of a buffer and what is left of it; [fuel] bounds their number. *)
Fixpoint cut (fuel : nat) (s : string) : list string * string :=
  match fuel with
  | O => ([], s)
  | S fuel =>
      match take_line s with
      | Some (l, rest) => let '(ls, r) := cut fuel rest in (l :: ls, r)
      | None => ([], s)
      end
  end.

Definition cut_all (s : string) : list string * string := cut (String.length s) s.

Definition nl : string := String LF "".

(** Each line followed by a line feed. *)
Fixpoint unlines (ls : list string) : string :=
  match ls with
  | [] => ""
  | l :: r => l +:+ nl +:+ unlines r
  end.

(** A text that is one line: it holds no line feed. *)
Definition one_line (s : string) : bool := negb (str_has LF s).

Lemma one_line_app a b : one_line (a +:+ b) = one_line a && one_line b.
Proof. unfold one_line. by rewrite str_has_app, negb_orb. Qed.

Lemma take_line_none s : take_line s = None <-> one_line s = true.
Proof.
  unfold one_line. induction s as [|c s IH]; [done|]. cbn [take_line str_has].
  rewrite (Ascii.eqb_sym c LF). destruct (Ascii.eqb LF c); cbn [orb negb]; [done|].
  rewrite <- IH. destruct (take_line s) as [[]|]; split; congruence.
Qed.

Lemma take_line_app l r : one_line l = true -> take_line (l +:+ nl +:+ r) = Some (l, r).
Proof.
  unfold one_line. induction l as [|c l IH]; [done|]. intros H. cbn [str_has] in H.
  rewrite string_app_cons. cbn [take_line]. rewrite (Ascii.eqb_sym c LF).
  destruct (Ascii.eqb LF c); [done|]. by rewrite IH.
Qed.

Lemma take_line_some s l r :
  take_line s = Some (l, r) -> s = l +:+ nl +:+ r /\ one_line l = true.
Proof.
  revert l r. induction s as [|c s IH]; intros l r H; [done|]. cbn [take_line] in H.
  destruct (Ascii.eqb c LF) eqn:E; simplify_eq/=.
  - by apply Ascii.eqb_eq in E as ->.
  - destruct (take_line s) as [[l' r']|] eqn:Es; simplify_eq.
    destruct (IH l' r eq_refl) as [-> Hl]. split; [by rewrite string_app_cons|].
    unfold one_line in *. cbn [str_has]. by rewrite (Ascii.eqb_sym LF c), E.
Qed.

Lemma take_line_length s l r :
  take_line s = Some (l, r) -> String.length r < String.length s.
Proof.
  intros [-> _]%take_line_some. rewrite !string_length_app. simpl. lia.
Qed.

(** Enough fuel is enough. *)
Lemma cut_fuel n m s : String.length s <= n -> String.length s <= m -> cut n s = cut m s.
Proof.
  revert m s. induction n as [|n IH]; intros m s Hn Hm.
  - destruct s; [by destruct m|simpl in Hn; lia].
  - destruct m as [|m]; [destruct s; [done|simpl in Hm; lia]|]. cbn [cut].
    destruct (take_line s) as [[l r]|] eqn:E; [|done]. apply take_line_length in E.
    by rewrite (IH m r) by lia.
Qed.

Lemma cut_all_line s l r :
  take_line s = Some (l, r) -> cut_all s = (l :: (cut_all r).1, (cut_all r).2).
Proof.
  intros E. pose proof (take_line_length _ _ _ E). unfold cut_all.
  destruct (String.length s) as [|n] eqn:En; [lia|]. cbn [cut]. rewrite E.
  rewrite (cut_fuel n (String.length r)) by lia. by destruct (cut _ r).
Qed.

Lemma cut_all_none s : take_line s = None -> cut_all s = ([], s).
Proof. intros E. unfold cut_all. destruct (String.length s); [done|]. simpl. by rewrite E. Qed.

(** A property of all texts follows from that of the rest after the first line. *)
Lemma lines_ind (P : string -> Prop) :
  (forall s, take_line s = None -> P s) ->
  (forall s l r, take_line s = Some (l, r) -> P r -> P s) -> forall s, P s.
Proof.
  intros H0 H1 s. remember (String.length s) as n eqn:En. revert s En.
  induction (lt_wf n) as [n _ IH]. intros s ->.
  destruct (take_line s) as [[l r]|] eqn:E; [|auto].
  eapply H1; [done|]. eapply IH; [|done]. by apply take_line_length in E.
Qed.

(** Cutting loses nothing, and what is left holds no complete line. *)
Lemma cut_all_spec s :
  s = unlines (cut_all s).1 +:+ (cut_all s).2 /\
  one_line (cut_all s).2 = true /\ Forall (fun l => one_line l = true) (cut_all s).1.
Proof.
  induction s as [s E|s l r E IH] using lines_ind.
  - rewrite (cut_all_none s E). simpl. split_and!; [done| |constructor]. by apply take_line_none.
  - rewrite (cut_all_line s l r E). simpl. destruct IH as (Hr & Ho & Hf).
    apply take_line_some in E as [Es Hl]. split_and!; [|done|by constructor].
    rewrite Es. rewrite Hr at 1. by rewrite !string_app_assoc.
Qed.

(** The lines of a text do not depend on the pieces it arrives in. *)
Lemma cut_all_app a b :
  cut_all (a +:+ b) =
  ((cut_all a).1 ++ (cut_all ((cut_all a).2 +:+ b)).1, (cut_all ((cut_all a).2 +:+ b)).2).
Proof.
  induction a as [a E|a l r E IH] using lines_ind.
  - rewrite (cut_all_none a E). simpl. by destruct (cut_all (a +:+ b)).
  - rewrite (cut_all_line a l r E). cbn [fst snd].
    assert (Eab : take_line (a +:+ b) = Some (l, r +:+ b)).
    { apply take_line_some in E as [-> Hl]. rewrite !string_app_assoc. by apply take_line_app. }
    rewrite (cut_all_line _ _ _ Eab), IH. by destruct (cut_all _).
Qed.

Lemma cut_all_unlines ls rest :
  Forall (fun l => one_line l = true) ls ->
  cut_all (unlines ls +:+ rest) = (ls ++ (cut_all rest).1, (cut_all rest).2).
Proof.
  induction 1 as [|l ls Hl _ IH]; [exact (surjective_pairing (cut_all rest))|]. cbn [unlines].
  rewrite !string_app_assoc. rewrite (cut_all_line _ l (unlines ls +:+ rest)).
  - by rewrite IH.
  - by apply take_line_app.
Qed.

(** [QString::split(c)]: the pieces between the separators, one more than there are. *)
Fixpoint split_char (sep : ascii) (s : string) : list string :=
  match s with
  | EmptyString => [""]
  | String c r =>
      if Ascii.eqb c sep then "" :: split_char sep r
      else match split_char sep r with
           | [] => [String c ""]
           | x :: l => String c x :: l
           end
  end.

(** A text that arrived in pieces. *)
Definition bytes (pieces : list string) : string := foldr (fun a b => a +:+ b) "" pieces.

Lemma bytes_app a b : bytes (a ++ b) = bytes a +:+ bytes b.
Proof. unfold bytes. induction a as [|x a IH]; cbn; [done|]. by rewrite IH, string_app_assoc. Qed.

Lemma drop_trailing_app a b b' :
  drop_trailing_spaces b = b' -> b' <> "" -> drop_trailing_spaces (a +:+ b) = a +:+ b'.
Proof.
  intros Hb Hne. induction a as [|c a IH]; [done|]. rewrite !string_app_cons. cbn [drop_trailing_spaces].
  rewrite IH. destruct a; [by destruct b'|done].
Qed.

Lemma split_unlines ls t :
  forallb one_line ls = true -> split_char LF (unlines ls +:+ t) = ls ++ split_char LF t.
Proof.
  induction ls as [|l ls IH]; intros H; [done|]. cbn [forallb] in H. apply andb_true_iff in H as [Hl H].
  cbn [unlines]. rewrite !string_app_assoc. unfold one_line in Hl. apply negb_true_iff in Hl.
  induction l as [|c l IHl].
  { cbn [split_char app]. change ("" +:+ nl +:+ unlines ls +:+ t) with (String LF (unlines ls +:+ t)).
    cbn [split_char]. rewrite Ascii.eqb_refl. by rewrite IH. }
  cbn [str_has] in Hl. destruct (Ascii.eqb LF c) eqn:E; [done|].
  rewrite string_app_cons. cbn [split_char]. rewrite (Ascii.eqb_sym c), E, IHl by done. done.
Qed.

Lemma unlines_app a b : unlines (a ++ b) = unlines a +:+ unlines b.
Proof. induction a as [|x a IH]; [done|]. cbn [app unlines]. by rewrite IH, !string_app_assoc. Qed.
