(* ===== verification/Containers.v ===== *)
(** * Containers

    [client/core/utils/containerEnum.h] and the names of
    [client/core/utils/containers/containerUtils.cpp] and
    [client/core/protocols/protocolUtils.cpp] for the containers whose protocol configuration an
    import touches. *)

From S2P Require Import Prelude.

Inductive DockerContainer :=
  | None_ | Awg | Awg2 | WireGuard | OpenVpn | Cloak | ShadowSocks | Ipsec | Xray | SSXray
  | TorWebSite | Dns_ | Sftp | Socks5Proxy | MtProxy | Telemt | TProxy.

#[export] Instance DockerContainer_eq_dec : EqDecision DockerContainer.
Proof. solve_decision. Defined.

Definition isAwgContainer (c : DockerContainer) : bool :=
  bool_decide (c = Awg) || bool_decide (c = Awg2).

(** The values of the enumeration in order. *)
Definition allContainers : list DockerContainer :=
  [None_; Awg; Awg2; WireGuard; OpenVpn; Cloak; ShadowSocks; Ipsec; Xray; SSXray;
   TorWebSite; Dns_; Sftp; Socks5Proxy; MtProxy; Telemt; TProxy].

(** [QMetaEnum::valueToKey]. *)
Definition containerKey (c : DockerContainer) : string :=
  match c with
  | None_ => "None" | Awg => "Awg" | Awg2 => "Awg2" | WireGuard => "WireGuard" | OpenVpn => "OpenVpn"
  | Cloak => "Cloak" | ShadowSocks => "ShadowSocks" | Ipsec => "Ipsec" | Xray => "Xray"
  | SSXray => "SSXray" | TorWebSite => "TorWebSite" | Dns_ => "Dns" | Sftp => "Sftp"
  | Socks5Proxy => "Socks5Proxy" | MtProxy => "MtProxy" | Telemt => "Telemt" | TProxy => "TProxy"
  end.

Definition containerToString (c : DockerContainer) : string :=
  match c with
  | None_ => "none"
  | Cloak => "amnezia-openvpn-cloak"
  | Awg => "amnezia-awg"
  | Awg2 => "amnezia-awg2"
  | _ => "amnezia-" +:+ to_lower (containerKey c)
  end.

Definition containerFromString (container : string) : DockerContainer :=
  default None_ (List.find (fun c => String.eqb container (containerToString c)) allContainers).

Lemma containerFromString_toString c : containerFromString (containerToString c) = c.
Proof. by destruct c. Qed.
