(* ===== verification/QrCode.v ===== *)
(** * Configurations as series of QR codes

    [client/core/utils/qrCodeUtils.cpp] cuts a configuration into pieces and draws each as a QR
    code; [ImportController] ([client/core/controllers/selfhosted/importController.cpp]) reads
    them back in the order they are scanned.  This file has the formats in between, which Qt
    documents: the URL-safe Base64 of [QByteArray], the big-endian [QDataStream] (its format
    before extended sizes), and the series itself.  Drawing a symbol and reading it with a camera
    are library code, the class [QrSymbols].  A byte is an [ascii], a byte array a [string]. *)

From S2P Require Import Prelude.

(** ** Bytes *)

Definition byte_of (z : Z) : ascii := ascii_of_N (Z.to_N (z mod 256)).
Definition value_of (c : ascii) : Z := Z.of_N (N_of_ascii c).

(** [QByteArray::left] and [QByteArray::mid]. *)
Fixpoint left_bytes (n : nat) (s : string) : string :=
  match n, s with
  | S n, String c r => String c (left_bytes n r)
  | _, _ => ""
  end.

Fixpoint drop_bytes (n : nat) (s : string) : string :=
  match n, s with
  | S n, String _ r => drop_bytes n r
  | _, _ => s
  end.

(** ** Base64, [Base64UrlEncoding | OmitTrailingEquals] *)

Definition alphabet : string := "ABCDEFGHIJKLMNOPQRSTUVWXYZabcdefghijklmnopqrstuvwxyz0123456789-_".

Definition base64_char (d : Z) : ascii := default "A"%char (String.get (Z.to_nat d) alphabet).

(** [QByteArray::toBase64]: three bytes are four characters, a shorter last group is written
    without filling. *)
Fixpoint toBase64 (s : string) : string :=
  match s with
  | String a (String b (String c r)) =>
      let '(a, b, c) := (value_of a, value_of b, value_of c) in
      String (base64_char (a / 4)) (String (base64_char (a mod 4 * 16 + b / 16))
        (String (base64_char (b mod 16 * 4 + c / 64)) (String (base64_char (c mod 64)) (toBase64 r))))
  | String a (String b "") =>
      let '(a, b) := (value_of a, value_of b) in
      String (base64_char (a / 4)) (String (base64_char (a mod 4 * 16 + b / 16))
        (String (base64_char (b mod 16 * 4)) ""))
  | String a "" =>
      let a := value_of a in
      String (base64_char (a / 4)) (String (base64_char (a mod 4 * 16)) "")
  | "" => ""
  end.

(** The six bits of a character; [None] for one that is not of the alphabet. *)
Definition base64_value (c : ascii) : option Z :=
  let n := value_of c in
  if (65 <=? n)%Z && (n <=? 90)%Z then Some (n - 65)%Z
  else if (97 <=? n)%Z && (n <=? 122)%Z then Some (n - 97 + 26)%Z
  else if (48 <=? n)%Z && (n <=? 57)%Z then Some (n - 48 + 52)%Z
  else if (n =? 45)%Z then Some 62%Z
  else if (n =? 95)%Z then Some 63%Z
  else None.

(** [QByteArray::fromBase64]: [buf] holds the last [nbits] bits that do not make a byte yet;
    other characters are skipped. *)
Fixpoint base64_read (buf nbits : Z) (s : string) : string :=
  match s with
  | "" => ""
  | String c r =>
      match base64_value c with
      | None => base64_read buf nbits r
      | Some d =>
          let buf := (buf * 64 + d)%Z in
          let nbits := (nbits + 6)%Z in
          if (8 <=? nbits)%Z
          then String (byte_of (buf / 2 ^ (nbits - 8))) (base64_read (buf mod 2 ^ (nbits - 8)) (nbits - 8) r)
          else base64_read buf nbits r
      end
  end.

Definition fromBase64 (s : string) : string := base64_read 0 0 s.

(** ** [QDataStream] *)

(** A big-endian number of [n] bytes. *)
Fixpoint put_number (n : nat) (z : Z) : string :=
  match n with
  | O => ""
  | S n => String (byte_of (z / 256 ^ Z.of_nat n)) (put_number n z)
  end.

Fixpoint get_number (n : nat) (acc : Z) (s : string) : option (Z * string) :=
  match n, s with
  | O, _ => Some (acc, s)
  | S n, String c r => get_number n (acc * 256 + value_of c)%Z r
  | S _, "" => None
  end.

(** [s >> i] of an unsigned number; a stream that ends early gives 0 and stays at its end. *)
Definition read_number (n : nat) (s : string) : Z * string := default (0%Z, "") (get_number n 0 s).

(** [s << QByteArray] and [s >> QByteArray]: the length, with [0xffffffff] for the null array, and
    the bytes; a stream that ends early gives the empty array. *)
Definition put_bytes (b : string) : string := put_number 4 (Z.of_nat (String.length b)) +:+ b.

Definition read_bytes (s : string) : string :=
  let '(len, s) := read_number 4 s in
  if (len =? 2 ^ 32 - 1)%Z then ""
  else if (Z.of_nat (String.length s) <? len)%Z then ""
  else left_bytes (Z.to_nat len) s.

(** ** The series *)

Definition qrMagicCode : Z := 1984.

(** Bytes of a configuration in one symbol. *)
Definition chunk_size : nat := 850.

(** Drawing and scanning.  A symbol of the largest version holds 2953 bytes at the lowest
    error correction, and is read as the text it was drawn from; a longer text is the exception
    [data_too_long]. *)
Definition symbol_capacity : nat := 2953.

Class QrSymbols := {
  image : Type;
  encodeText : string -> option image;
  scan : image -> string;
  encodeText_fits : forall t, (String.length t <= symbol_capacity)%nat ->
    exists i, encodeText t = Some i /\ scan i = t
}.

Section Series.
Context `{QrSymbols}.

Definition chunk_text (count id : Z) (piece : string) : string :=
  toBase64 (put_number 2 qrMagicCode +:+ put_number 1 count +:+ put_number 1 id +:+ put_bytes piece).

(** The loop over [i]: [id] is [i / k], [rest] the data from [i] on. *)
Fixpoint series_from (fuel : nat) (count id : Z) (rest : string) : option (list image) :=
  match fuel with
  | O => Some []
  | S fuel =>
      match rest with
      | "" => Some []
      | _ =>
          match encodeText (chunk_text count id (left_bytes chunk_size rest)) with
          | None => None
          | Some qr => cons qr <$> series_from fuel count (id + 1) (drop_bytes chunk_size rest)
          end
      end
  end.

(** [std::ceil(data.size() / k)]. *)
Definition chunks_count (data : string) : Z :=
  ((Z.of_nat (String.length data) + Z.of_nat chunk_size - 1) / Z.of_nat chunk_size)%Z.

(** [None] is the library's exception.  The counter is one byte: a series of more than 255
    pieces, whose count does not fit, is outside what C++ defines and gives [None] too. *)
Definition generateQrCodeImageSeries (data : string) : option (list image) :=
  if (255 <? chunks_count data)%Z then None
  else series_from (String.length data) (chunks_count data) 0 data.
End Series.

(** ** Lemmas *)

Lemma value_range c : (0 <= value_of c < 256)%Z.
Proof. by destruct c as [[] [] [] [] [] [] [] []]. Qed.

Lemma byte_of_value c : byte_of (value_of c) = c.
Proof. by destruct c as [[] [] [] [] [] [] [] []]. Qed.

Lemma value_of_byte z : value_of (byte_of z) = (z mod 256)%Z.
Proof.
  unfold value_of, byte_of. pose proof (Z.mod_pos_bound z 256 ltac:(lia)).
  rewrite N_ascii_embedding by lia. lia.
Qed.

Lemma base64_read_back d : (0 <= d < 64)%Z -> base64_value (base64_char d) = Some d.
Proof.
  intros Hd. assert (Hall : forallb (fun n => bool_decide (base64_value (base64_char (Z.of_nat n))
    = Some (Z.of_nat n))) (seq 0 64) = true) by (vm_compute; reflexivity).
  rewrite forallb_forall in Hall. specialize (Hall (Z.to_nat d)).
  rewrite Z2Nat.id in Hall by lia. apply (bool_decide_eq_true_1 _), Hall, in_seq. lia.
Qed.

(** A character takes six bits in. *)
Lemma base64_step d buf nbits r : (0 <= d < 64)%Z ->
  base64_read buf nbits (String (base64_char d) r) =
  if (8 <=? nbits + 6)%Z
  then String (byte_of ((buf * 64 + d) / 2 ^ (nbits + 6 - 8)))
         (base64_read ((buf * 64 + d) mod 2 ^ (nbits + 6 - 8)) (nbits + 6 - 8) r)
  else base64_read (buf * 64 + d) (nbits + 6) r.
Proof. intros Hd. cbn [base64_read]. by rewrite base64_read_back. Qed.

(** Strings, three bytes at a time. *)
Lemma three_ind (P : string -> Prop) :
  P "" -> (forall a, P (String a "")) -> (forall a b, P (String a (String b ""))) ->
  (forall a b c r, P r -> P (String a (String b (String c r)))) -> forall s, P s.
Proof.
  intros H0 H1 H2 H3 s.
  assert (Hall : forall n s, (String.length s <= n)%nat -> P s); [|by apply (Hall _ s (le_n _))].
  induction n as [|n IH]; intros [|a [|b [|c r]]] Hl; auto; cbn in Hl; [lia..|].
  apply H3, IH. lia.
Qed.

Ltac div_lia := Z.to_euclidean_division_equations; lia.

Lemma byte_eq z c : z = value_of c -> byte_of z = c.
Proof. intros ->. apply byte_of_value. Qed.

Lemma string_cons_eq c d r s : c = d -> r = s -> String c r = String d s.
Proof. congruence. Qed.

(** The four steps of the decoder: with nothing left over, with six, four and two bits left. *)
Lemma base64_step0 d r : (0 <= d < 64)%Z -> base64_read 0 0 (String (base64_char d) r) = base64_read d 6 r.
Proof. intros Hd. by rewrite base64_step. Qed.

Lemma base64_step6 d buf r : (0 <= d < 64)%Z ->
  base64_read buf 6 (String (base64_char d) r) =
  String (byte_of ((buf * 64 + d) / 16)) (base64_read ((buf * 64 + d) mod 16) 4 r).
Proof. intros Hd. by rewrite base64_step. Qed.

Lemma base64_step4 d buf r : (0 <= d < 64)%Z ->
  base64_read buf 4 (String (base64_char d) r) =
  String (byte_of ((buf * 64 + d) / 4)) (base64_read ((buf * 64 + d) mod 4) 2 r).
Proof. intros Hd. by rewrite base64_step. Qed.

Lemma base64_step2 d buf r : (0 <= d < 64)%Z ->
  base64_read buf 2 (String (base64_char d) r) = String (byte_of (buf * 64 + d)) (base64_read 0 0 r).
Proof.
  intros Hd. rewrite base64_step by done. cbn [Z.leb Z.compare Z.add Pos.add Pos.compare Pos.compare_cont].
  change (2 ^ (2 + 6 - 8))%Z with 1%Z. by rewrite Z.div_1_r, Z.mod_1_r.
Qed.

(** What is encoded is what is decoded. *)
Lemma fromBase64_toBase64 s : fromBase64 (toBase64 s) = s.
Proof.
  unfold fromBase64. induction s as [| a | a b | a b c r IH] using three_ind; [done|..];
    pose proof (value_range a); try pose proof (value_range b); try pose proof (value_range c);
    cbn [toBase64]; rewrite base64_step0, base64_step6 by div_lia;
    rewrite ?base64_step4 by div_lia; rewrite ?base64_step2 by div_lia; rewrite ?IH;
    repeat (apply string_cons_eq; [apply byte_eq; div_lia|]); done.
Qed.

Lemma toBase64_length s : (String.length (toBase64 s) * 3 <= String.length s * 4 + 5)%nat.
Proof.
  induction s as [| a | a b | a b c r IH] using three_ind; cbn [toBase64 String.length]; lia.
Qed.

Lemma put_number_length n z : String.length (put_number n z) = n.
Proof. induction n as [|n IH]; cbn [put_number String.length]; congruence. Qed.

Lemma get_put_number n : forall acc z r, (0 <= z)%Z ->
  get_number n acc (put_number n z +:+ r) = Some (acc * 256 ^ Z.of_nat n + z mod 256 ^ Z.of_nat n, r)%Z.
Proof.
  induction n as [|n IH]; intros acc z r Hz; cbn [put_number get_number].
  - rewrite Z.mod_1_r, Z.mul_1_r, Z.add_0_r. done.
  - rewrite string_app_cons, IH by done. do 2 f_equal. rewrite value_of_byte, Nat2Z.inj_succ, Z.pow_succ_r by lia.
    set (q := (256 ^ Z.of_nat n)%Z). assert (0 < q)%Z by (apply Z.pow_pos_nonneg; lia).
    rewrite (Z.mul_comm 256 q), (Z.rem_mul_r z q 256) by lia. lia.
Qed.

Lemma read_put_number n z r : (0 <= z < 256 ^ Z.of_nat n)%Z -> read_number n (put_number n z +:+ r) = (z, r).
Proof.
  intros Hz. unfold read_number. rewrite get_put_number by lia. cbn. f_equal. rewrite Z.mod_small by done. lia.
Qed.

Lemma left_bytes_all s : left_bytes (String.length s) s = s.
Proof. induction s as [|c s IH]; cbn; congruence. Qed.

Lemma left_drop n : forall s, left_bytes n s +:+ drop_bytes n s = s.
Proof. induction n as [|n IH]; intros [|c s]; try done. cbn [left_bytes drop_bytes]. by rewrite string_app_cons, IH. Qed.

Lemma left_bytes_length n s : String.length (left_bytes n s) = Nat.min n (String.length s).
Proof. revert s. induction n as [|n IH]; intros [|c s]; cbn; [done..|]. by rewrite IH. Qed.

Lemma drop_bytes_length n s : String.length (drop_bytes n s) = (String.length s - n)%nat.
Proof. revert s. induction n as [|n IH]; intros [|c s]; cbn; [done..|]. by rewrite IH. Qed.

Lemma read_put_bytes b : (Z.of_nat (String.length b) < 2 ^ 32 - 1)%Z -> read_bytes (put_bytes b) = b.
Proof.
  intros Hb. unfold read_bytes, put_bytes. rewrite read_put_number by (change (256 ^ Z.of_nat 4)%Z with (2 ^ 32)%Z; lia).
  destruct (Z.eqb_spec (Z.of_nat (String.length b)) (2 ^ 32 - 1)); [lia|]. rewrite Z.ltb_irrefl, Nat2Z.id.
  apply left_bytes_all.
Qed.

(** *** The pieces of a series *)

Fixpoint pieces (fuel : nat) (rest : string) : list string :=
  match fuel with
  | O => []
  | S fuel =>
      match rest with
      | "" => []
      | _ => left_bytes chunk_size rest :: pieces fuel (drop_bytes chunk_size rest)
      end
  end.

Definition pieces_of (data : string) : list string := pieces (String.length data) data.

(** All pieces in order are the data. *)
Definition joined (l : list string) : string := foldr (fun a b => a +:+ b) "" l.

Lemma joined_pieces fuel : forall rest, (String.length rest <= fuel)%nat -> joined (pieces fuel rest) = rest.
Proof.
  induction fuel as [|fuel IH]; intros [|c s] Hl; [done|cbn in Hl; lia|done|]. cbn [pieces joined foldr].
  fold (joined (pieces fuel (drop_bytes chunk_size (String c s)))). rewrite IH; [apply left_drop|].
  rewrite drop_bytes_length. cbn in Hl |- *. unfold chunk_size. lia.
Qed.

Lemma pieces_count fuel : forall rest, (String.length rest <= fuel)%nat ->
  Z.of_nat (length (pieces fuel rest)) = chunks_count rest.
Proof.
  unfold chunks_count. induction fuel as [|fuel IH]; intros [|c s] Hl; [done|cbn in Hl; lia|done|].
  cbn [pieces length]. assert (Hd := drop_bytes_length chunk_size (String c s)).
  rewrite Nat2Z.inj_succ, IH by (rewrite Hd; cbn in Hl |- *; unfold chunk_size; lia).
  rewrite Hd. cbn [String.length] in *. generalize (String.length s). intros n.
  change (Z.of_nat chunk_size) with 850%Z. unfold chunk_size.
  destruct (Nat.le_gt_cases 850 (S n)); div_lia.
Qed.

Lemma pieces_short fuel : forall rest p, p ∈ pieces fuel rest -> (String.length p <= chunk_size)%nat.
Proof.
  induction fuel as [|fuel IH]; intros [|c s] p; cbn [pieces]; try by intros ?%not_elem_of_nil.
  intros [->|Hp]%elem_of_cons; [rewrite left_bytes_length; lia|by eapply IH].
Qed.

Lemma chunk_text_fits count id p : (String.length p <= chunk_size)%nat ->
  (String.length (chunk_text count id p) <= symbol_capacity)%nat.
Proof.
  intros Hp. unfold chunk_text. etransitivity; [|exact (le_n symbol_capacity)].
  set (s := _ +:+ _). pose proof (toBase64_length s) as Hl.
  assert (Hs : String.length s = (8 + String.length p)%nat).
  { unfold s, put_bytes. by rewrite !string_length_app, !put_number_length. }
  unfold chunk_size, symbol_capacity in *. lia.
Qed.

(** The texts of a series, read from its images. *)
Lemma series_texts `{QrSymbols} count fuel : forall id rest,
  exists l, series_from fuel count id rest = Some l /\
    scan <$> l = imap (fun i p => chunk_text count (id + Z.of_nat i) p) (pieces fuel rest).
Proof.
  induction fuel as [|fuel IH]; intros id rest; cbn [series_from pieces]; [by exists []|].
  destruct rest as [|c s]; [by exists []|].
  destruct (encodeText_fits (chunk_text count id (left_bytes chunk_size (String c s)))) as (i & -> & Hi).
  { apply chunk_text_fits. rewrite left_bytes_length. lia. }
  destruct (IH (id + 1)%Z (drop_bytes chunk_size (String c s))) as (l & -> & Hl).
  exists (i :: l). split; [done|]. rewrite fmap_cons, Hi, Hl, imap_cons, Z.add_0_r. f_equal.
  apply imap_ext. intros k p _. cbn. f_equal. lia.
Qed.

(** The fields of a chunk. *)
Lemma chunk_fields count id p : (0 <= count < 256)%Z -> (0 <= id < 256)%Z -> (String.length p <= chunk_size)%nat ->
  let s := fromBase64 (chunk_text count id p) in
  let '(magic, s) := read_number 2 s in
  let '(n, s) := read_number 1 s in
  let '(i, s) := read_number 1 s in
  magic = qrMagicCode /\ n = count /\ i = id /\ read_bytes s = p.
Proof.
  intros Hc Hi Hp. unfold chunk_text. rewrite fromBase64_toBase64. cbv zeta.
  rewrite read_put_number by done. rewrite read_put_number by (cbn; lia). rewrite read_put_number by (cbn; lia).
  rewrite read_put_bytes by (unfold chunk_size in Hp; lia). done.
Qed.
