(* ===== verification/ServerConfig.v ===== *)
(** * Kinds of stored server configurations

    [client/core/utils/serverConfigUtils.{h,cpp}]: which of the client's server kinds a
    stored JSON object is, with the parts of the server models it probes
    ([client/core/models/selfhosted/*], [client/core/models/api/*]). *)

From S2P Require Import Prelude Json.

(** ** Keys ([core/utils/constants/configKeys.h], [apiKeys.h]) *)

Module Key.
Definition hostName := "hostName".
Definition userName := "userName".
Definition password := "password".
Definition port := "port".
Definition description := "description".
Definition name := "name".
Definition configVersion := "config_version".
Definition containers := "containers".
Definition container := "container".
Definition isThirdPartyConfig := "isThirdPartyConfig".
Definition storageServerId := "storageServerId".
Definition apiEndpoint := "api_endpoint".
Definition apiConfig := "api_config".
Definition serviceType := "service_type".
End Key.

(** ** Enumerations *)

Inductive ConfigType :=
  | AmneziaFreeV2 | AmneziaFreeV3 | AmneziaPremiumV1 | AmneziaPremiumV2
  | SelfHosted | ExternalPremium | SelfHostedAdmin | SelfHostedUser | Native | Invalid.

#[export] Instance ConfigType_eq_dec : EqDecision ConfigType.
Proof. solve_decision. Defined.

(** [ConfigSource::Telegram] and [ConfigSource::AmneziaGateway]. *)
Definition Telegram : Z := 1.
Definition AmneziaGateway : Z := 2.

(** ** Probes of the stored object *)

(** A container object: every member but ["container"] is a protocol object. *)
Definition hasThirdPartyConfig (o : obj) : bool :=
  existsb (fun val =>
    existsb (fun '(k, v) =>
      negb (String.eqb k Key.container) &&
      let protocolObj := to_object (Some v) in
      ocontains Key.isThirdPartyConfig protocolObj &&
      to_bool (ofind Key.isThirdPartyConfig protocolObj))
    (to_object (Some val)))
  (to_array (ofind Key.containers o)).

(** [SelfHostedAdminServerConfig::fromJson(o).hasCredentials()]. *)
Definition adminProbe_hasCredentials (o : obj) : bool :=
  let userName := to_string (ofind Key.userName o) in
  let password := to_string (ofind Key.password o) in
  let port := if ocontains Key.port o then to_int 0 (ofind Key.port o) else 0%Z in
  negb (str_empty userName) && negb (str_empty password) && (0 <? port)%Z.

(** [serverConfigUtils::isServerFromApi]. *)
Definition isServerFromApi (o : obj) : bool :=
  let v := to_int 0 (ofind Key.configVersion o) in
  (v =? Telegram)%Z || (v =? AmneziaGateway)%Z.

Section Endpoints.
(** The build's [FREE_V2_ENDPOINT] and [PREM_V1_ENDPOINT]. *)
Variables freeV2Endpoint premiumV1Endpoint : string.

(** The gateway case of the switch; [None] is its [break]. *)
Definition gatewayType (o : obj) : option ConfigType :=
  let serviceTypeStr := to_string (ofind Key.serviceType (to_object (ofind Key.apiConfig o))) in
  if String.eqb serviceTypeStr "amnezia-premium" then Some AmneziaPremiumV2
  else if String.eqb serviceTypeStr "amnezia-free" then Some AmneziaFreeV3
  else if String.eqb serviceTypeStr "external-premium" then Some ExternalPremium
  else None.

(** The Telegram case falls through to the gateway case. *)
Definition telegramType (o : obj) : option ConfigType :=
  let apiEndpointValue := to_string (ofind Key.apiEndpoint o) in
  if str_contains premiumV1Endpoint apiEndpointValue then Some AmneziaPremiumV1
  else if str_contains freeV2Endpoint apiEndpointValue then Some AmneziaFreeV2
  else gatewayType o.

Definition configTypeFromJson (o : obj) : ConfigType :=
  let configVersion := to_int 0 (ofind Key.configVersion o) in
  let api :=
    if (configVersion =? Telegram)%Z then telegramType o
    else if (configVersion =? AmneziaGateway)%Z then gatewayType o
    else None in
  match api with
  | Some t => t
  | None =>
      if hasThirdPartyConfig o then Native
      else if adminProbe_hasCredentials o then SelfHostedAdmin else SelfHostedUser
  end.
End Endpoints.

Definition isLegacyApiSubscription (t : ConfigType) : bool :=
  match t with AmneziaPremiumV1 | AmneziaFreeV2 => true | _ => false end.

Definition isApiV2Subscription (t : ConfigType) : bool :=
  match t with AmneziaPremiumV2 | AmneziaFreeV3 | ExternalPremium => true | _ => false end.

(** ** Display names

    What [fromJson] of each server model leaves in [displayName]. *)

Definition orElse (a b : string) : string := if str_empty a then b else a.

(** Self-hosted (administrator, user) and native servers. *)
Definition displayName_hosted (o : obj) : string :=
  orElse (to_string (ofind Key.description o)) (to_string (ofind Key.hostName o)).

(** [ApiV2ServerConfig]: the name, or the description. *)
Definition displayName_apiV2 (o : obj) : string :=
  orElse (to_string (ofind Key.name o)) (to_string (ofind Key.description o)).

(** [LegacyApiServerConfig]: its [fromJson] does not read a name. *)
Definition displayName_legacy (o : obj) : string :=
  to_string (ofind Key.description o).

(** ** Lemmas *)

Lemma configType_not_Invalid f p o : configTypeFromJson f p o <> Invalid.
Proof.
  unfold configTypeFromJson, telegramType, gatewayType. by repeat case_match; simplify_eq.
Qed.
