(* ===== verification/ProtocolConfigs.v ===== *)
(** * Protocol configurations: WireGuard and AmneziaWG

    [client/core/models/protocols/wireGuardProtocolConfig] and [awgProtocolConfig]: the
    parameters of a tunnel on the server's and on the client's side, how they are
    stored as JSON (the client's part as a text inside the object, under
    [last_config]), and the checks the settings page makes on the obfuscation
    parameters.  The keys are those of [core/utils/constants/configKeys.h].

    The theorems: reading back what was written gives the same configuration, with a
    client port that is not positive read as 0; two AmneziaWG servers have equal
    settings exactly when they differ in nothing but the four fields the comparison
    leaves out, and are then of the same protocol version; the checks on headers and
    packet sizes report exactly the coincidences. *)

From S2P Require Import Prelude Json.

(** ** The keys ([namespace configKey]) *)

Module configKey.
Definition hostName : string := "hostName".
Definition port : string := "port".
Definition transportProto : string := "transport_proto".
Definition clientPrivKey : string := "client_priv_key".
Definition clientPubKey : string := "client_pub_key".
Definition serverPubKey : string := "server_pub_key".
Definition pskKey : string := "psk_key".
Definition mtu : string := "mtu".
Definition allowedIps : string := "allowed_ips".
Definition persistentKeepAlive : string := "persistent_keep_alive".
Definition clientIp : string := "client_ip".
Definition subnetAddress : string := "subnet_address".
Definition subnetMask : string := "subnet_mask".
Definition subnetCidr : string := "subnet_cidr".
Definition lastConfig : string := "last_config".
Definition protocolVersion : string := "protocol_version".
Definition isThirdPartyConfig : string := "isThirdPartyConfig".
Definition isObfuscationEnabled : string := "isObfuscationEnabled".
Definition clientId : string := "clientId".
Definition config : string := "config".
Definition junkPacketCount : string := "Jc".
Definition junkPacketMinSize : string := "Jmin".
Definition junkPacketMaxSize : string := "Jmax".
Definition initPacketJunkSize : string := "S1".
Definition responsePacketJunkSize : string := "S2".
Definition cookieReplyPacketJunkSize : string := "S3".
Definition transportPacketJunkSize : string := "S4".
Definition initPacketMagicHeader : string := "H1".
Definition responsePacketMagicHeader : string := "H2".
Definition underloadPacketMagicHeader : string := "H3".
Definition transportPacketMagicHeader : string := "H4".
Definition specialJunk1 : string := "I1".
Definition specialJunk2 : string := "I2".
Definition specialJunk3 : string := "I3".
Definition specialJunk4 : string := "I4".
Definition specialJunk5 : string := "I5".
Definition headerProtectionKey : string := "HeaderProtectionKey".
Definition contentPaddingAddition : string := "ContentPaddingAddition".
Definition rekeyAfterTime : string := "RekeyAfterTime".
Definition rekeyTimeout : string := "RekeyTimeout".
Definition rejectAfterTime : string := "RejectAfterTime".
Definition keepaliveTimeout : string := "KeepaliveTimeout".
Definition maxHandshakeAttempts : string := "MaxHandshakeAttempts".
Definition randomTrailers : string := "RandomTrailers".
Definition disableCookies : string := "DisableCookies".

(** [configKey::awgProtocolKeys]. *)
Definition awgProtocolKeys : list string :=
  [junkPacketCount; junkPacketMinSize; junkPacketMaxSize; initPacketJunkSize;
   responsePacketJunkSize; cookieReplyPacketJunkSize; transportPacketJunkSize;
   initPacketMagicHeader; responsePacketMagicHeader; underloadPacketMagicHeader;
   transportPacketMagicHeader; specialJunk1; specialJunk2; specialJunk3; specialJunk4;
   specialJunk5; headerProtectionKey; contentPaddingAddition; rekeyAfterTime; rekeyTimeout;
   rejectAfterTime; keepaliveTimeout; maxHandshakeAttempts; randomTrailers; disableCookies].
End configKey.

(** ** Writing an object field by field

    The [toJson] functions are sequences of guarded assignments [obj[k] = v]; a
    [write] is one of them, with the guard it has in the source. *)

Inductive write :=
  | PutStr (k s : string)              (* if (!s.isEmpty()) obj[k] = s; *)
  | PutAlways (k s : string)           (* obj[k] = s; *)
  | PutPort (k : string) (p : Z)       (* if (p > 0) obj[k] = p; *)
  | PutList (k : string) (l : list string)   (* if (!l.isEmpty()) obj[k] = array of l; *)
  | PutFlag (k : string) (b : bool).   (* if (b) obj[k] = b; *)

Definition write_key (w : write) : string :=
  match w with
  | PutStr k _ | PutAlways k _ | PutPort k _ | PutList k _ | PutFlag k _ => k
  end.

(** The value assigned, [None] when the guard fails. *)
Definition write_value (w : write) : option json :=
  match w with
  | PutStr _ s => if str_empty s then None else Some (JStr s)
  | PutAlways _ s => Some (JStr s)
  | PutPort _ p => if (0 <? p)%Z then Some (JInt p) else None
  | PutList _ l => match l with [] => None | _ => Some (JArr (map JStr l)) end
  | PutFlag _ b => if b then Some (JBool b) else None
  end.

Definition run_write (o : obj) (w : write) : obj :=
  match write_value w with Some v => oset (write_key w) v o | None => o end.

Definition run_writes (ws : list write) : obj := fold_left run_write ws [].

(** [for (const QJsonValue& val : value.toArray()) list.append(val.toString());] *)
Definition to_strings (v : option json) : list string :=
  map (fun val => to_string (Some val)) (to_array v).

(** What a [write] is read back as. *)
Lemma ofind_run_write k o w :
  ofind k (run_write o w) =
  if String.eqb k (write_key w) then
    match write_value w with Some v => Some v | None => ofind k o end
  else ofind k o.
Proof.
  unfold run_write. destruct (write_value w); [apply ofind_oset|by destruct (String.eqb _ _)].
Qed.

Lemma ofind_run_writes_other k ws o :
  k ∉ map write_key ws -> ofind k (fold_left run_write ws o) = ofind k o.
Proof.
  revert o. induction ws as [|w ws IH]; simpl; intros o Hk; [done|].
  apply not_elem_of_cons in Hk as [Hne Hk]. rewrite IH by done.
  rewrite ofind_run_write. by apply String.eqb_neq in Hne as ->.
Qed.

Lemma ofind_run_writes ws w :
  NoDup (map write_key ws) -> w ∈ ws -> ofind (write_key w) (run_writes ws) = write_value w.
Proof.
  unfold run_writes. intros Hnd Hin. cut (ofind (write_key w) ([] : obj) = None); [|done].
  generalize ([] : obj). revert Hnd Hin.
  induction ws as [|a ws IH]; simpl; intros Hnd Hin o Ho; [by apply elem_of_nil in Hin|].
  apply NoDup_cons in Hnd as [Ha Hnd]. apply elem_of_cons in Hin as [<-|Hin].
  - rewrite ofind_run_writes_other by done. rewrite ofind_run_write, String.eqb_refl.
    by destruct (write_value w).
  - apply IH; [done..|]. rewrite ofind_run_write.
    destruct (String.eqb_spec (write_key w) (write_key a)) as [E|]; [|done].
    destruct Ha. rewrite <- E. by apply list_elem_of_fmap_2.
Qed.

Lemma to_string_written s : to_string (if str_empty s then None else Some (JStr s)) = s.
Proof. by destruct s. Qed.

Lemma to_bool_written (b : bool) : to_bool (if b then Some (JBool b) else None) = b.
Proof. by destruct b. Qed.

Lemma to_strings_written l :
  to_strings (match l with [] => None | _ => Some (JArr (map JStr l)) end) = l.
Proof.
  destruct l as [|x l]; [done|]. unfold to_strings. simpl. f_equal.
  induction l as [|y l IH]; simpl; congruence.
Qed.

(** A port that is not positive is not written, and read back as 0. *)
Lemma to_int_written p :
  in_int32 p = true -> to_int 0 (if (0 <? p)%Z then Some (JInt p) else None) = Z.max 0 p.
Proof. intros Hp. destruct (Z.ltb_spec 0 p); simpl; [rewrite Hp|]; lia. Qed.

(** Decide a closed goal. *)
Ltac fresh_key := apply (bool_decide_unpack _); vm_compute; exact I.

(** Read one field back: find its [write] in the sequence and undo its guard. *)
Ltac read_field :=
  match goal with
  | |- ?f (ofind ?k (run_writes ?ws)) = ?v =>
      let rec find l :=
        lazymatch l with
        | ?w :: ?r =>
            tryif (let k' := eval cbv in (write_key w) in let k0 := eval cbv in k in
                   constr_eq k' k0)
            then (transitivity (f (write_value w));
                  [apply (f_equal f); refine (ofind_run_writes ws w _ _);
                   [ fresh_key
                   | repeat first [apply list_elem_of_here | apply list_elem_of_further] ] |])
            else find r
        end in
      find ws; cbn [write_value];
      solve [reflexivity | apply to_string_written | apply to_bool_written
            | apply to_strings_written | by apply to_int_written]
  end.

(** ** The version of a set of parameters

    [hasAwg3Markers] and [awgVersionOf] are templates over the server's and the
    client's structure; the class lists the fields they use. *)

Class AwgConfig (T : Type) := {
  get_cookieReplyPacketJunkSize : T -> string;
  get_transportPacketJunkSize : T -> string;
  get_initPacketMagicHeader : T -> string;
  get_responsePacketMagicHeader : T -> string;
  get_underloadPacketMagicHeader : T -> string;
  get_transportPacketMagicHeader : T -> string;
  get_specialJunk1 : T -> string;
  get_specialJunk2 : T -> string;
  get_specialJunk3 : T -> string;
  get_specialJunk4 : T -> string;
  get_specialJunk5 : T -> string;
  get_headerProtectionKey : T -> string;
  get_contentPaddingAddition : T -> string;
  get_rekeyAfterTime : T -> string;
  get_rekeyTimeout : T -> string;
  get_rejectAfterTime : T -> string;
  get_keepaliveTimeout : T -> string;
  get_maxHandshakeAttempts : T -> string;
  get_randomTrailers : T -> string;
  get_disableCookies : T -> string
}.

Definition hasValue (value : string) : bool := negb (str_empty (trimmed value)).

(** [AwgProtocolConfig::isToggleEnabled]. *)
Definition isToggleEnabled (value : string) : bool :=
  let trimmedValue := trimmed value in
  negb (str_empty trimmedValue) && negb (ci_eqb trimmedValue "off").

Definition awgV1_5 : string := "1.5".
Definition awgV2 : string := "2".
Definition awgV3 : string := "3.1".

Section Version.
Context {T : Type} `{AwgConfig T}.

Definition hasAwg3Markers (config : T) : bool :=
  let awg3Params := [get_headerProtectionKey config; get_contentPaddingAddition config;
                     get_rekeyAfterTime config; get_rekeyTimeout config;
                     get_rejectAfterTime config; get_keepaliveTimeout config;
                     get_maxHandshakeAttempts config] in
  if existsb hasValue awg3Params then true
  else isToggleEnabled (get_randomTrailers config) || isToggleEnabled (get_disableCookies config).

Definition awgVersionOf (config : T) : string :=
  if hasAwg3Markers config then awgV3
  else
    let junkSizes := [get_cookieReplyPacketJunkSize config; get_transportPacketJunkSize config] in
    let magicHeaders := [get_initPacketMagicHeader config; get_responsePacketMagicHeader config;
                         get_underloadPacketMagicHeader config;
                         get_transportPacketMagicHeader config] in
    let hasJunkSizes := existsb hasValue junkSizes in
    let hasHeaderRanges := existsb (str_has "-") magicHeaders in
    if hasJunkSizes || hasHeaderRanges then awgV2
    else
      let specialJunk := [get_specialJunk1 config; get_specialJunk2 config;
                          get_specialJunk3 config; get_specialJunk4 config;
                          get_specialJunk5 config] in
      if existsb hasValue specialJunk then awgV1_5 else "".
End Version.

(** ** [AwgServerConfig] *)

Module AwgServerConfig.
Record AwgServerConfig := {
  port : string;
  transportProto : string;
  protocolVersion : string;
  subnetAddress : string;
  subnetCidr : string;
  junkPacketCount : string;
  junkPacketMinSize : string;
  junkPacketMaxSize : string;
  initPacketJunkSize : string;
  responsePacketJunkSize : string;
  cookieReplyPacketJunkSize : string;
  transportPacketJunkSize : string;
  initPacketMagicHeader : string;
  responsePacketMagicHeader : string;
  underloadPacketMagicHeader : string;
  transportPacketMagicHeader : string;
  specialJunk1 : string;
  specialJunk2 : string;
  specialJunk3 : string;
  specialJunk4 : string;
  specialJunk5 : string;
  headerProtectionKey : string;
  contentPaddingAddition : string;
  rekeyAfterTime : string;
  rekeyTimeout : string;
  rejectAfterTime : string;
  keepaliveTimeout : string;
  maxHandshakeAttempts : string;
  randomTrailers : string;
  disableCookies : string;
  isThirdPartyConfig : bool
}.

#[global] Instance AwgServerConfig_awg : AwgConfig AwgServerConfig :=
  {| get_cookieReplyPacketJunkSize := cookieReplyPacketJunkSize; get_transportPacketJunkSize :=
     transportPacketJunkSize; get_initPacketMagicHeader := initPacketMagicHeader;
     get_responsePacketMagicHeader := responsePacketMagicHeader; get_underloadPacketMagicHeader
     := underloadPacketMagicHeader; get_transportPacketMagicHeader :=
     transportPacketMagicHeader; get_specialJunk1 := specialJunk1; get_specialJunk2 :=
     specialJunk2; get_specialJunk3 := specialJunk3; get_specialJunk4 := specialJunk4;
     get_specialJunk5 := specialJunk5; get_headerProtectionKey := headerProtectionKey;
     get_contentPaddingAddition := contentPaddingAddition; get_rekeyAfterTime := rekeyAfterTime;
     get_rekeyTimeout := rekeyTimeout; get_rejectAfterTime := rejectAfterTime;
     get_keepaliveTimeout := keepaliveTimeout; get_maxHandshakeAttempts := maxHandshakeAttempts;
     get_randomTrailers := randomTrailers; get_disableCookies := disableCookies |}.

Definition toJson (c : AwgServerConfig) : obj := run_writes
  [ PutStr configKey.port (c.(port));
     PutStr configKey.transportProto (c.(transportProto));
     PutStr configKey.protocolVersion (c.(protocolVersion));
     PutStr configKey.subnetAddress (c.(subnetAddress));
     PutStr configKey.subnetCidr (c.(subnetCidr));
     PutStr configKey.junkPacketCount (c.(junkPacketCount));
     PutStr configKey.junkPacketMinSize (c.(junkPacketMinSize));
     PutStr configKey.junkPacketMaxSize (c.(junkPacketMaxSize));
     PutStr configKey.initPacketJunkSize (c.(initPacketJunkSize));
     PutStr configKey.responsePacketJunkSize (c.(responsePacketJunkSize));
     PutStr configKey.cookieReplyPacketJunkSize (c.(cookieReplyPacketJunkSize));
     PutStr configKey.transportPacketJunkSize (c.(transportPacketJunkSize));
     PutStr configKey.initPacketMagicHeader (c.(initPacketMagicHeader));
     PutStr configKey.responsePacketMagicHeader (c.(responsePacketMagicHeader));
     PutStr configKey.underloadPacketMagicHeader (c.(underloadPacketMagicHeader));
     PutStr configKey.transportPacketMagicHeader (c.(transportPacketMagicHeader));
     PutAlways configKey.specialJunk1 (c.(specialJunk1));
     PutAlways configKey.specialJunk2 (c.(specialJunk2));
     PutAlways configKey.specialJunk3 (c.(specialJunk3));
     PutAlways configKey.specialJunk4 (c.(specialJunk4));
     PutAlways configKey.specialJunk5 (c.(specialJunk5));
     PutStr configKey.headerProtectionKey (c.(headerProtectionKey));
     PutStr configKey.contentPaddingAddition (c.(contentPaddingAddition));
     PutStr configKey.rekeyAfterTime (c.(rekeyAfterTime));
     PutStr configKey.rekeyTimeout (c.(rekeyTimeout));
     PutStr configKey.rejectAfterTime (c.(rejectAfterTime));
     PutStr configKey.keepaliveTimeout (c.(keepaliveTimeout));
     PutStr configKey.maxHandshakeAttempts (c.(maxHandshakeAttempts));
     PutStr configKey.randomTrailers (c.(randomTrailers));
     PutStr configKey.disableCookies (c.(disableCookies));
     PutFlag configKey.isThirdPartyConfig (c.(isThirdPartyConfig)) ].

Definition fromJson (json : obj) : AwgServerConfig :=
  {| port := to_string (ofind configKey.port json);
     transportProto := to_string (ofind configKey.transportProto json);
     protocolVersion := to_string (ofind configKey.protocolVersion json);
     subnetAddress := to_string (ofind configKey.subnetAddress json);
     subnetCidr := to_string (ofind configKey.subnetCidr json);
     junkPacketCount := to_string (ofind configKey.junkPacketCount json);
     junkPacketMinSize := to_string (ofind configKey.junkPacketMinSize json);
     junkPacketMaxSize := to_string (ofind configKey.junkPacketMaxSize json);
     initPacketJunkSize := to_string (ofind configKey.initPacketJunkSize json);
     responsePacketJunkSize := to_string (ofind configKey.responsePacketJunkSize json);
     cookieReplyPacketJunkSize := to_string (ofind configKey.cookieReplyPacketJunkSize json);
     transportPacketJunkSize := to_string (ofind configKey.transportPacketJunkSize json);
     initPacketMagicHeader := to_string (ofind configKey.initPacketMagicHeader json);
     responsePacketMagicHeader := to_string (ofind configKey.responsePacketMagicHeader json);
     underloadPacketMagicHeader := to_string (ofind configKey.underloadPacketMagicHeader json);
     transportPacketMagicHeader := to_string (ofind configKey.transportPacketMagicHeader json);
     specialJunk1 := to_string (ofind configKey.specialJunk1 json);
     specialJunk2 := to_string (ofind configKey.specialJunk2 json);
     specialJunk3 := to_string (ofind configKey.specialJunk3 json);
     specialJunk4 := to_string (ofind configKey.specialJunk4 json);
     specialJunk5 := to_string (ofind configKey.specialJunk5 json);
     headerProtectionKey := to_string (ofind configKey.headerProtectionKey json);
     contentPaddingAddition := to_string (ofind configKey.contentPaddingAddition json);
     rekeyAfterTime := to_string (ofind configKey.rekeyAfterTime json);
     rekeyTimeout := to_string (ofind configKey.rekeyTimeout json);
     rejectAfterTime := to_string (ofind configKey.rejectAfterTime json);
     keepaliveTimeout := to_string (ofind configKey.keepaliveTimeout json);
     maxHandshakeAttempts := to_string (ofind configKey.maxHandshakeAttempts json);
     randomTrailers := to_string (ofind configKey.randomTrailers json);
     disableCookies := to_string (ofind configKey.disableCookies json);
     isThirdPartyConfig := to_bool (ofind configKey.isThirdPartyConfig json) |}.

(** The negation of the disjunction of the source, comparison by comparison. *)
Definition hasEqualServerSettings (c other : AwgServerConfig) : bool :=
  let differ (f : AwgServerConfig -> string) := negb (String.eqb (f c) (f other)) in
  negb (differ subnetAddress || differ port ||
        differ junkPacketCount ||
        differ junkPacketMinSize || differ junkPacketMaxSize ||
        differ initPacketJunkSize || differ responsePacketJunkSize ||
        differ initPacketMagicHeader ||
        differ responsePacketMagicHeader ||
        differ underloadPacketMagicHeader ||
        differ transportPacketMagicHeader ||
        differ specialJunk1 || differ specialJunk2 ||
        differ specialJunk3 || differ specialJunk4 ||
        differ specialJunk5 ||
        differ cookieReplyPacketJunkSize ||
        differ transportPacketJunkSize ||
        differ headerProtectionKey ||
        differ contentPaddingAddition ||
        differ rekeyAfterTime || differ rekeyTimeout ||
        differ rejectAfterTime || differ keepaliveTimeout ||
        differ maxHandshakeAttempts ||
        differ randomTrailers || differ disableCookies).

Definition hasAwg3Params (c : AwgServerConfig) : bool := hasAwg3Markers c.

Lemma awg_server_read_back c : fromJson (toJson c) = c.
Proof.
  destruct c. unfold fromJson, toJson. f_equal; read_field.
Qed.

(** Reading depends on the keys of the structure only. *)
Lemma awg_server_ext json json' :
  (forall k, k <> configKey.lastConfig -> ofind k json = ofind k json') ->
  fromJson json = fromJson json'.
Proof. intros H. unfold fromJson. rewrite !H by done. done. Qed.
End AwgServerConfig.

(** ** [AwgClientConfig] *)

Module AwgClientConfig.
Record AwgClientConfig := {
  nativeConfig : string;
  hostName : string;
  port : Z;
  clientIp : string;
  clientPrivateKey : string;
  clientPublicKey : string;
  serverPublicKey : string;
  presharedKey : string;
  clientId : string;
  allowedIps : list string;
  persistentKeepAlive : string;
  mtu : string;
  junkPacketCount : string;
  junkPacketMinSize : string;
  junkPacketMaxSize : string;
  initPacketJunkSize : string;
  responsePacketJunkSize : string;
  cookieReplyPacketJunkSize : string;
  transportPacketJunkSize : string;
  initPacketMagicHeader : string;
  responsePacketMagicHeader : string;
  underloadPacketMagicHeader : string;
  transportPacketMagicHeader : string;
  specialJunk1 : string;
  specialJunk2 : string;
  specialJunk3 : string;
  specialJunk4 : string;
  specialJunk5 : string;
  headerProtectionKey : string;
  contentPaddingAddition : string;
  rekeyAfterTime : string;
  rekeyTimeout : string;
  rejectAfterTime : string;
  keepaliveTimeout : string;
  maxHandshakeAttempts : string;
  randomTrailers : string;
  disableCookies : string
}.

#[global] Instance AwgClientConfig_eta : Eta AwgClientConfig := fun c =>
  {| nativeConfig := nativeConfig c; hostName := hostName c; port := port c; clientIp :=
     clientIp c; clientPrivateKey := clientPrivateKey c; clientPublicKey := clientPublicKey c;
     serverPublicKey := serverPublicKey c; presharedKey := presharedKey c; clientId := clientId
     c; allowedIps := allowedIps c; persistentKeepAlive := persistentKeepAlive c; mtu := mtu c;
     junkPacketCount := junkPacketCount c; junkPacketMinSize := junkPacketMinSize c;
     junkPacketMaxSize := junkPacketMaxSize c; initPacketJunkSize := initPacketJunkSize c;
     responsePacketJunkSize := responsePacketJunkSize c; cookieReplyPacketJunkSize :=
     cookieReplyPacketJunkSize c; transportPacketJunkSize := transportPacketJunkSize c;
     initPacketMagicHeader := initPacketMagicHeader c; responsePacketMagicHeader :=
     responsePacketMagicHeader c; underloadPacketMagicHeader := underloadPacketMagicHeader c;
     transportPacketMagicHeader := transportPacketMagicHeader c; specialJunk1 := specialJunk1 c;
     specialJunk2 := specialJunk2 c; specialJunk3 := specialJunk3 c; specialJunk4 :=
     specialJunk4 c; specialJunk5 := specialJunk5 c; headerProtectionKey := headerProtectionKey
     c; contentPaddingAddition := contentPaddingAddition c; rekeyAfterTime := rekeyAfterTime c;
     rekeyTimeout := rekeyTimeout c; rejectAfterTime := rejectAfterTime c; keepaliveTimeout :=
     keepaliveTimeout c; maxHandshakeAttempts := maxHandshakeAttempts c; randomTrailers :=
     randomTrailers c; disableCookies := disableCookies c |}.

#[global] Instance AwgClientConfig_awg : AwgConfig AwgClientConfig :=
  {| get_cookieReplyPacketJunkSize := cookieReplyPacketJunkSize; get_transportPacketJunkSize :=
     transportPacketJunkSize; get_initPacketMagicHeader := initPacketMagicHeader;
     get_responsePacketMagicHeader := responsePacketMagicHeader; get_underloadPacketMagicHeader
     := underloadPacketMagicHeader; get_transportPacketMagicHeader :=
     transportPacketMagicHeader; get_specialJunk1 := specialJunk1; get_specialJunk2 :=
     specialJunk2; get_specialJunk3 := specialJunk3; get_specialJunk4 := specialJunk4;
     get_specialJunk5 := specialJunk5; get_headerProtectionKey := headerProtectionKey;
     get_contentPaddingAddition := contentPaddingAddition; get_rekeyAfterTime := rekeyAfterTime;
     get_rekeyTimeout := rekeyTimeout; get_rejectAfterTime := rejectAfterTime;
     get_keepaliveTimeout := keepaliveTimeout; get_maxHandshakeAttempts := maxHandshakeAttempts;
     get_randomTrailers := randomTrailers; get_disableCookies := disableCookies |}.

(** The assignments of [toJson]. *)
Definition fields (c : AwgClientConfig) : list write :=
  [ PutStr configKey.config (c.(nativeConfig));
     PutStr configKey.hostName (c.(hostName));
     PutPort configKey.port (c.(port));
     PutStr configKey.clientIp (c.(clientIp));
     PutStr configKey.clientPrivKey (c.(clientPrivateKey));
     PutStr configKey.clientPubKey (c.(clientPublicKey));
     PutStr configKey.serverPubKey (c.(serverPublicKey));
     PutStr configKey.pskKey (c.(presharedKey));
     PutStr configKey.clientId (c.(clientId));
     PutList configKey.allowedIps (c.(allowedIps));
     PutStr configKey.persistentKeepAlive (c.(persistentKeepAlive));
     PutStr configKey.mtu (c.(mtu));
     PutStr configKey.junkPacketCount (c.(junkPacketCount));
     PutStr configKey.junkPacketMinSize (c.(junkPacketMinSize));
     PutStr configKey.junkPacketMaxSize (c.(junkPacketMaxSize));
     PutStr configKey.initPacketJunkSize (c.(initPacketJunkSize));
     PutStr configKey.responsePacketJunkSize (c.(responsePacketJunkSize));
     PutStr configKey.cookieReplyPacketJunkSize (c.(cookieReplyPacketJunkSize));
     PutStr configKey.transportPacketJunkSize (c.(transportPacketJunkSize));
     PutStr configKey.initPacketMagicHeader (c.(initPacketMagicHeader));
     PutStr configKey.responsePacketMagicHeader (c.(responsePacketMagicHeader));
     PutStr configKey.underloadPacketMagicHeader (c.(underloadPacketMagicHeader));
     PutStr configKey.transportPacketMagicHeader (c.(transportPacketMagicHeader));
     PutStr configKey.specialJunk1 (c.(specialJunk1));
     PutStr configKey.specialJunk2 (c.(specialJunk2));
     PutStr configKey.specialJunk3 (c.(specialJunk3));
     PutStr configKey.specialJunk4 (c.(specialJunk4));
     PutStr configKey.specialJunk5 (c.(specialJunk5));
     PutStr configKey.headerProtectionKey (c.(headerProtectionKey));
     PutStr configKey.contentPaddingAddition (c.(contentPaddingAddition));
     PutStr configKey.rekeyAfterTime (c.(rekeyAfterTime));
     PutStr configKey.rekeyTimeout (c.(rekeyTimeout));
     PutStr configKey.rejectAfterTime (c.(rejectAfterTime));
     PutStr configKey.keepaliveTimeout (c.(keepaliveTimeout));
     PutStr configKey.maxHandshakeAttempts (c.(maxHandshakeAttempts));
     PutStr configKey.randomTrailers (c.(randomTrailers));
     PutStr configKey.disableCookies (c.(disableCookies)) ].

Definition toJson (c : AwgClientConfig) : obj := run_writes (fields c).

Definition fromJson (json : obj) : AwgClientConfig :=
  {| nativeConfig := to_string (ofind configKey.config json);
     hostName := to_string (ofind configKey.hostName json);
     port := to_int 0 (ofind configKey.port json);
     clientIp := to_string (ofind configKey.clientIp json);
     clientPrivateKey := to_string (ofind configKey.clientPrivKey json);
     clientPublicKey := to_string (ofind configKey.clientPubKey json);
     serverPublicKey := to_string (ofind configKey.serverPubKey json);
     presharedKey := to_string (ofind configKey.pskKey json);
     clientId := to_string (ofind configKey.clientId json);
     allowedIps := to_strings (ofind configKey.allowedIps json);
     persistentKeepAlive := to_string (ofind configKey.persistentKeepAlive json);
     mtu := to_string (ofind configKey.mtu json);
     junkPacketCount := to_string (ofind configKey.junkPacketCount json);
     junkPacketMinSize := to_string (ofind configKey.junkPacketMinSize json);
     junkPacketMaxSize := to_string (ofind configKey.junkPacketMaxSize json);
     initPacketJunkSize := to_string (ofind configKey.initPacketJunkSize json);
     responsePacketJunkSize := to_string (ofind configKey.responsePacketJunkSize json);
     cookieReplyPacketJunkSize := to_string (ofind configKey.cookieReplyPacketJunkSize json);
     transportPacketJunkSize := to_string (ofind configKey.transportPacketJunkSize json);
     initPacketMagicHeader := to_string (ofind configKey.initPacketMagicHeader json);
     responsePacketMagicHeader := to_string (ofind configKey.responsePacketMagicHeader json);
     underloadPacketMagicHeader := to_string (ofind configKey.underloadPacketMagicHeader json);
     transportPacketMagicHeader := to_string (ofind configKey.transportPacketMagicHeader json);
     specialJunk1 := to_string (ofind configKey.specialJunk1 json);
     specialJunk2 := to_string (ofind configKey.specialJunk2 json);
     specialJunk3 := to_string (ofind configKey.specialJunk3 json);
     specialJunk4 := to_string (ofind configKey.specialJunk4 json);
     specialJunk5 := to_string (ofind configKey.specialJunk5 json);
     headerProtectionKey := to_string (ofind configKey.headerProtectionKey json);
     contentPaddingAddition := to_string (ofind configKey.contentPaddingAddition json);
     rekeyAfterTime := to_string (ofind configKey.rekeyAfterTime json);
     rekeyTimeout := to_string (ofind configKey.rekeyTimeout json);
     rejectAfterTime := to_string (ofind configKey.rejectAfterTime json);
     keepaliveTimeout := to_string (ofind configKey.keepaliveTimeout json);
     maxHandshakeAttempts := to_string (ofind configKey.maxHandshakeAttempts json);
     randomTrailers := to_string (ofind configKey.randomTrailers json);
     disableCookies := to_string (ofind configKey.disableCookies json) |}.

(** A port that is not positive is read back as 0. *)
Definition stored (c : AwgClientConfig) : AwgClientConfig := c <| port := Z.max 0 c.(port) |>.

Lemma awg_client_read_back c : in_int32 (port c) = true -> fromJson (toJson c) = stored c.
Proof.
  intros Hp. destruct c. unfold fromJson, toJson, fields, stored, upd, setter. cbn in Hp.
  f_equal; read_field.
Qed.

Lemma awg_client_lookup c w :
  w ∈ fields c -> ofind (write_key w) (toJson c) = write_value w.
Proof. apply ofind_run_writes. unfold fields. fresh_key. Qed.
End AwgClientConfig.

(** ** [AwgProtocolConfig] *)

Module AwgProtocolConfig.
Record AwgProtocolConfig := {
  serverConfig : AwgServerConfig.AwgServerConfig;
  clientConfig : option AwgClientConfig.AwgClientConfig
}.

#[global] Instance AwgProtocolConfig_eta : Eta AwgProtocolConfig := fun c =>
  {| serverConfig := serverConfig c; clientConfig := clientConfig c |}.

Section Text.
Context `{JsonText}.

Definition toJson (c : AwgProtocolConfig) : obj :=
  let obj := AwgServerConfig.toJson (serverConfig c) in
  match clientConfig c with
  | Some client =>
      let clientJson := AwgClientConfig.toJson client in
      oset configKey.lastConfig (JStr (json_print (JObj clientJson))) obj
  | None => obj
  end.

Definition fromJson (json : obj) : AwgProtocolConfig :=
  let server := AwgServerConfig.fromJson json in
  let lastConfigStr := to_string (ofind configKey.lastConfig json) in
  {| serverConfig := server;
     clientConfig :=
       if str_empty lastConfigStr then None
       else match json_parse lastConfigStr with
            | Some (JObj o) => Some (AwgClientConfig.fromJson o)
            | _ => None
            end |}.
End Text.

Definition serverProtocolVersion (c : AwgProtocolConfig) : string := awgVersionOf (serverConfig c).

Definition clientProtocolVersion (c : AwgProtocolConfig) : string :=
  match clientConfig c with Some client => awgVersionOf client | None => "" end.

(** [tr] is the translation of a text of the interface. *)
Definition protocolVersionString (tr : string -> string) (version : string) : string :=
  if String.eqb version awgV3 then tr " (version 3.1)"
  else if String.eqb version awgV2 then tr " (version 2)"
  else if String.eqb version awgV1_5 then tr " (version 1.5)"
  else "".

Definition hasClientConfig (c : AwgProtocolConfig) : bool :=
  match clientConfig c with Some _ => true | None => false end.

Definition setClientConfig (config : AwgClientConfig.AwgClientConfig) (c : AwgProtocolConfig) :=
  c <| clientConfig := Some config |>.

Definition clearClientConfig (c : AwgProtocolConfig) := c <| clientConfig := None |>.

(** The loop over the four headers: the number of filled ones and the set of them. *)
Definition isHeadersEqual (h1 h2 h3 h4 : string) : bool :=
  let '(filledHeaders, uniqueHeaders) :=
    fold_left (fun '(filledHeaders, uniqueHeaders) header =>
                 if str_empty (trimmed header) then (filledHeaders, uniqueHeaders)
                 else (S filledHeaders, {[ header ]} ∪ uniqueHeaders))
              [h1; h2; h3; h4] (0, ∅ : gset string) in
  negb (Nat.eqb (size uniqueHeaders) filledHeaders).

Definition messageInitiationSize : Z := 148.
Definition messageResponseSize : Z := 92.
Definition messageCookieReplySize : Z := 64.
Definition messageTransportSize : Z := 32.

(** [int] addition; [None] where it overflows, which C++ leaves undefined. *)
Definition add_int (a b : Z) : option Z :=
  if in_int32 (a + b) then Some (a + b)%Z else None.

Definition isPacketSizeEqual (s1 s2 s3 s4 : Z) : option bool :=
  initSize ← add_int messageInitiationSize s1;
  responseSize ← add_int messageResponseSize s2;
  cookieSize ← add_int messageCookieReplySize s3;
  transportSize ← add_int messageTransportSize s4;
  Some ((initSize =? responseSize) || (initSize =? cookieSize) || (initSize =? transportSize)
        || (responseSize =? cookieSize) || (responseSize =? transportSize)
        || (cookieSize =? transportSize))%Z.
End AwgProtocolConfig.

(** ** [WireGuardServerConfig] *)

Module WireGuardServerConfig.
Record WireGuardServerConfig := {
  port : string;
  transportProto : string;
  subnetAddress : string;
  subnetMask : string;
  subnetCidr : string;
  isThirdPartyConfig : bool
}.

Definition toJson (c : WireGuardServerConfig) : obj := run_writes
  [ PutStr configKey.port (c.(port));
     PutStr configKey.transportProto (c.(transportProto));
     PutStr configKey.subnetAddress (c.(subnetAddress));
     PutStr configKey.subnetMask (c.(subnetMask));
     PutStr configKey.subnetCidr (c.(subnetCidr));
     PutFlag configKey.isThirdPartyConfig (c.(isThirdPartyConfig)) ].

Definition fromJson (json : obj) : WireGuardServerConfig :=
  {| port := to_string (ofind configKey.port json);
     transportProto := to_string (ofind configKey.transportProto json);
     subnetAddress := to_string (ofind configKey.subnetAddress json);
     subnetMask := to_string (ofind configKey.subnetMask json);
     subnetCidr := to_string (ofind configKey.subnetCidr json);
     isThirdPartyConfig := to_bool (ofind configKey.isThirdPartyConfig json) |}.

Definition hasEqualServerSettings (c other : WireGuardServerConfig) : bool :=
  String.eqb (subnetAddress c) (subnetAddress other) && String.eqb (port c) (port other).

Lemma wg_server_read_back c : fromJson (toJson c) = c.
Proof. destruct c. unfold fromJson, toJson. f_equal; read_field. Qed.

(** Reading depends on the keys of the structure only. *)
Lemma wg_server_ext json json' :
  (forall k, k <> configKey.lastConfig -> ofind k json = ofind k json') ->
  fromJson json = fromJson json'.
Proof. intros H. unfold fromJson. rewrite !H by done. done. Qed.
End WireGuardServerConfig.

(** ** [WireGuardClientConfig] *)

Module WireGuardClientConfig.
Record WireGuardClientConfig := {
  nativeConfig : string;
  hostName : string;
  port : Z;
  clientIp : string;
  clientPrivateKey : string;
  clientPublicKey : string;
  serverPublicKey : string;
  presharedKey : string;
  clientId : string;
  allowedIps : list string;
  persistentKeepAlive : string;
  mtu : string;
  awgParams : gmap string string;
  isObfuscationEnabled : bool
}.

#[global] Instance WireGuardClientConfig_eta : Eta WireGuardClientConfig := fun c =>
  {| nativeConfig := nativeConfig c; hostName := hostName c; port := port c; clientIp :=
     clientIp c; clientPrivateKey := clientPrivateKey c; clientPublicKey := clientPublicKey c;
     serverPublicKey := serverPublicKey c; presharedKey := presharedKey c; clientId := clientId
     c; allowedIps := allowedIps c; persistentKeepAlive := persistentKeepAlive c; mtu := mtu c;
     awgParams := awgParams c; isObfuscationEnabled := isObfuscationEnabled c |}.

(** The loop over [awgParams]; its keys are distinct, so their order does not matter to
    the object. *)
Definition put_param (k v : string) (o : obj) : obj :=
  if str_empty v then o else oset k (JStr v) o.

(** The assignments before that loop. *)
Definition fields (c : WireGuardClientConfig) : list write :=
  [ PutStr configKey.config (c.(nativeConfig));
     PutStr configKey.hostName (c.(hostName));
     PutPort configKey.port (c.(port));
     PutStr configKey.clientIp (c.(clientIp));
     PutStr configKey.clientPrivKey (c.(clientPrivateKey));
     PutStr configKey.clientPubKey (c.(clientPublicKey));
     PutStr configKey.serverPubKey (c.(serverPublicKey));
     PutStr configKey.pskKey (c.(presharedKey));
     PutStr configKey.clientId (c.(clientId));
     PutList configKey.allowedIps (c.(allowedIps));
     PutStr configKey.persistentKeepAlive (c.(persistentKeepAlive));
     PutStr configKey.mtu (c.(mtu)) ].

Definition toJson (c : WireGuardClientConfig) : obj :=
  let obj := run_writes (fields c) in
  let obj := map_fold put_param obj (awgParams c) in
  run_write obj (PutFlag configKey.isObfuscationEnabled (isObfuscationEnabled c)).

(** The loop over [awgProtocolKeys()]. *)
Definition read_params (json : obj) : gmap string string :=
  fold_left (fun awgParams key =>
               let value := to_string (ofind key json) in
               if str_empty value then awgParams else <[key := value]> awgParams)
            configKey.awgProtocolKeys ∅.

Definition fromJson (json : obj) : WireGuardClientConfig :=
  {| nativeConfig := to_string (ofind configKey.config json);
     hostName := to_string (ofind configKey.hostName json);
     port := to_int 0 (ofind configKey.port json);
     clientIp := to_string (ofind configKey.clientIp json);
     clientPrivateKey := to_string (ofind configKey.clientPrivKey json);
     clientPublicKey := to_string (ofind configKey.clientPubKey json);
     serverPublicKey := to_string (ofind configKey.serverPubKey json);
     presharedKey := to_string (ofind configKey.pskKey json);
     clientId := to_string (ofind configKey.clientId json);
     allowedIps := to_strings (ofind configKey.allowedIps json);
     persistentKeepAlive := to_string (ofind configKey.persistentKeepAlive json);
     mtu := to_string (ofind configKey.mtu json);
     awgParams := read_params json;
     isObfuscationEnabled := to_bool (ofind configKey.isObfuscationEnabled json) |}.
End WireGuardClientConfig.

(** ** [WireGuardProtocolConfig] *)

Module WireGuardProtocolConfig.
Record WireGuardProtocolConfig := {
  serverConfig : WireGuardServerConfig.WireGuardServerConfig;
  clientConfig : option WireGuardClientConfig.WireGuardClientConfig
}.

#[global] Instance WireGuardProtocolConfig_eta : Eta WireGuardProtocolConfig := fun c =>
  {| serverConfig := serverConfig c; clientConfig := clientConfig c |}.

Section Text.
Context `{JsonText}.

Definition toJson (c : WireGuardProtocolConfig) : obj :=
  let obj := WireGuardServerConfig.toJson (serverConfig c) in
  match clientConfig c with
  | Some client =>
      let clientJson := WireGuardClientConfig.toJson client in
      oset configKey.lastConfig (JStr (json_print (JObj clientJson))) obj
  | None => obj
  end.

Definition fromJson (json : obj) : WireGuardProtocolConfig :=
  let server := WireGuardServerConfig.fromJson json in
  let lastConfigStr := to_string (ofind configKey.lastConfig json) in
  {| serverConfig := server;
     clientConfig :=
       if str_empty lastConfigStr then None
       else match json_parse lastConfigStr with
            | Some (JObj o) => Some (WireGuardClientConfig.fromJson o)
            | _ => None
            end |}.
End Text.

Definition hasClientConfig (c : WireGuardProtocolConfig) : bool :=
  match clientConfig c with Some _ => true | None => false end.

Definition setClientConfig (config : WireGuardClientConfig.WireGuardClientConfig)
    (c : WireGuardProtocolConfig) := c <| clientConfig := Some config |>.

Definition clearClientConfig (c : WireGuardProtocolConfig) := c <| clientConfig := None |>.
End WireGuardProtocolConfig.

(** ** The parameters of a WireGuard client *)

Module WireGuardParams.
Import WireGuardClientConfig.

(** The parameters are AmneziaWG's: none of their keys is a key of another field. *)
Definition params_known (c : WireGuardClientConfig) : bool :=
  forallb (fun kv => bool_decide (kv.1 ∈ configKey.awgProtocolKeys)) (map_to_list (awgParams c)).

(** What is kept of a client configuration: a port that is not positive becomes 0, and
    empty parameters are dropped. *)
Definition stored (c : WireGuardClientConfig) : WireGuardClientConfig :=
  c <| port := Z.max 0 c.(port) |>
    <| awgParams := filter (fun kv => kv.2 <> "") c.(awgParams) |>.

Lemma params_known_lookup c k v :
  params_known c = true -> awgParams c !! k = Some v -> k ∈ configKey.awgProtocolKeys.
Proof.
  unfold params_known. intros Hf Hk. rewrite forallb_forall in Hf.
  apply elem_of_map_to_list in Hk. apply list_elem_of_In in Hk.
  exact (bool_decide_eq_true_1 _ (Hf _ Hk)).
Qed.

Lemma ofind_put_params k m o :
  ofind k (map_fold put_param o m) =
  match m !! k with
  | Some v => if str_empty v then ofind k o else Some (JStr v)
  | None => ofind k o
  end.
Proof.
  apply (map_fold_weak_ind (fun o' m => ofind k o' =
    match m !! k with
    | Some v => if str_empty v then ofind k o else Some (JStr v)
    | None => ofind k o
    end)); [by rewrite lookup_empty|].
  intros i v m' o' Hi IH. unfold put_param.
  destruct (decide (i = k)) as [->|Hne].
  - rewrite lookup_insert_eq. rewrite Hi in IH.
    destruct (str_empty v); [done|apply ofind_oset_eq].
  - rewrite lookup_insert_ne by done. rewrite <- IH.
    destruct (str_empty v); [done|by apply ofind_oset_ne].
Qed.

Lemma lookup_read_params json k :
  read_params json !! k =
  if bool_decide (k ∈ configKey.awgProtocolKeys) && negb (str_empty (to_string (ofind k json)))
  then Some (to_string (ofind k json)) else None.
Proof.
  unfold read_params. generalize configKey.awgProtocolKeys. intros ks.
  cut (forall m : gmap string string,
    fold_left (fun m key => if str_empty (to_string (ofind key json)) then m
                            else <[key := to_string (ofind key json)]> m) ks m !! k =
    if bool_decide (k ∈ ks) && negb (str_empty (to_string (ofind k json)))
    then Some (to_string (ofind k json)) else m !! k).
  { intros Hc. by rewrite Hc, lookup_empty. }
  induction ks as [|a ks IH]; intros m; simpl; [done|]. rewrite IH.
  destruct (decide (k = a)) as [->|Hne].
  - rewrite (bool_decide_eq_true_2 (a ∈ a :: ks)) by (by left).
    destruct (str_empty (to_string (ofind a json))); simpl; [by rewrite andb_false_r|].
    rewrite lookup_insert_eq. by destruct (bool_decide _).
  - rewrite (bool_decide_ext (k ∈ a :: ks) (k ∈ ks)) by (rewrite elem_of_cons; tauto).
    destruct (str_empty (to_string (ofind a json))); [done|]. by rewrite lookup_insert_ne.
Qed.

(** The keys the parameters do not touch. *)
Lemma ofind_other_key c k o :
  params_known c = true -> k ∉ configKey.awgProtocolKeys ->
  ofind k (map_fold put_param o (awgParams c)) = ofind k o.
Proof.
  intros Hp Hk. rewrite ofind_put_params. destruct (awgParams c !! k) eqn:E; [|done].
  by destruct Hk; eapply params_known_lookup.
Qed.

Lemma run_flag_other k k' b o : k <> k' -> ofind k (run_write o (PutFlag k' b)) = ofind k o.
Proof. intros Hne. rewrite ofind_run_write. cbn [write_key]. by apply String.eqb_neq in Hne as ->. Qed.

Lemma fields_disjoint c k :
  k ∈ configKey.awgProtocolKeys -> k ∉ map write_key (fields c).
Proof.
  intros Hk. assert (Hf : forallb (fun k => bool_decide (k ∉ map write_key (fields c)))
                            configKey.awgProtocolKeys = true) by (vm_compute; reflexivity).
  rewrite forallb_forall in Hf. apply list_elem_of_In in Hk.
  exact (bool_decide_eq_true_1 _ (Hf _ Hk)).
Qed.

Lemma params_read_back c :
  params_known c = true ->
  read_params (toJson c) = filter (fun kv => kv.2 <> "") (awgParams c).
Proof.
  intros Hp. apply map_eq. intros k. rewrite lookup_read_params.
  destruct (decide (k ∈ configKey.awgProtocolKeys)) as [Hk|Hk].
  - rewrite bool_decide_eq_true_2 by done. unfold toJson. rewrite run_flag_other; cycle 1.
    { intros ->. revert Hk. fresh_key. }
    rewrite ofind_put_params. unfold run_writes. rewrite ofind_run_writes_other; cycle 1.
    { exact (fields_disjoint c k Hk). }
    destruct (awgParams c !! k) as [v|] eqn:E; simpl.
    + destruct v as [|x v]; simpl; symmetry.
      * apply map_lookup_filter_None. right. intros w Hw. rewrite E in Hw. injection Hw as <-. simpl. tauto.
      * by apply map_lookup_filter_Some.
    + symmetry. apply map_lookup_filter_None. by left.
  - rewrite bool_decide_eq_false_2 by done. symmetry. apply map_lookup_filter_None. left.
    destruct (awgParams c !! k) eqn:E; [|done]. by destruct Hk; eapply params_known_lookup.
Qed.

Lemma ofind_field c k :
  params_known c = true ->
  bool_decide ((k ∉ configKey.awgProtocolKeys) /\ k <> configKey.isObfuscationEnabled) = true ->
  ofind k (toJson c) = ofind k (run_writes (fields c)).
Proof.
  intros Hp [Hk Ho]%bool_decide_eq_true_1. unfold toJson.
  rewrite run_flag_other by done. by apply ofind_other_key.
Qed.

Lemma ofind_obfuscation c :
  params_known c = true ->
  ofind configKey.isObfuscationEnabled (toJson c) =
  if isObfuscationEnabled c then Some (JBool true) else None.
Proof.
  intros Hp. unfold toJson. rewrite ofind_run_write, String.eqb_refl. simpl write_value.
  destruct (isObfuscationEnabled c); [done|]. rewrite ofind_other_key by (done || fresh_key).
  unfold run_writes. by rewrite ofind_run_writes_other by fresh_key.
Qed.

Lemma wg_client_read_back c :
  in_int32 (port c) = true -> params_known c = true -> fromJson (toJson c) = stored c.
Proof.
  intros Hi Hp. unfold fromJson. rewrite (params_read_back c Hp), (ofind_obfuscation c Hp).
  rewrite !(ofind_field c) by (done || by vm_compute).
  destruct c. unfold stored, upd, setter, fields. cbn in Hi.
  f_equal; first [read_field | by destruct isObfuscationEnabled0 | done].
Qed.
End WireGuardParams.

(** ** The text under [last_config] *)

Lemma last_config_read_back `{JsonText} {A} (read : obj -> A) (o client : obj) :
  (let lastConfigStr :=
     to_string (ofind configKey.lastConfig (oset configKey.lastConfig
       (JStr (json_print (JObj client))) o)) in
   if str_empty lastConfigStr then None
   else match json_parse lastConfigStr with
        | Some (JObj o) => Some (read o)
        | _ => None
        end) = Some (read client).
Proof.
  rewrite ofind_oset_eq. cbn [to_string]. rewrite json_parse_print.
  destruct (str_empty _) eqn:E; [|done]. apply str_empty_true in E.
  by destruct (json_print_nonempty (JObj client)).
Qed.

Section RoundTrip.
Context `{JsonText}.

(** The ports are C++ [int]s. *)
Definition awg_port_int (c : AwgProtocolConfig.AwgProtocolConfig) : bool :=
  match AwgProtocolConfig.clientConfig c with
  | Some client => in_int32 (AwgClientConfig.port client)
  | None => true
  end.

Definition awg_stored (c : AwgProtocolConfig.AwgProtocolConfig) :=
  c <| AwgProtocolConfig.clientConfig :=
         AwgClientConfig.stored <$> AwgProtocolConfig.clientConfig c |>.

(** An AmneziaWG protocol configuration read back from the JSON it was written to is the
    same configuration, server and client part, all parameters included; the only
    thing lost is a client port that is not positive, which is read as 0. *)
Theorem awg_config_roundtrip c :
  awg_port_int c = true ->
  AwgProtocolConfig.fromJson (AwgProtocolConfig.toJson c) = awg_stored c.
Proof.
  unfold awg_port_int, awg_stored, AwgProtocolConfig.fromJson, AwgProtocolConfig.toJson.
  destruct c as [server [client|]]; intros Hp; unfold upd, setter; cbn in Hp;
    cbn [AwgProtocolConfig.serverConfig AwgProtocolConfig.clientConfig fmap option_fmap option_map];
    f_equal.
  - rewrite (AwgServerConfig.awg_server_ext _ (AwgServerConfig.toJson server)).
    + apply AwgServerConfig.awg_server_read_back.
    + intros k Hk. by apply ofind_oset_ne.
  - rewrite <- (AwgClientConfig.awg_client_read_back client Hp).
    exact (last_config_read_back AwgClientConfig.fromJson _ _).
  - apply AwgServerConfig.awg_server_read_back.
  - unfold AwgServerConfig.toJson, run_writes. by rewrite ofind_run_writes_other by fresh_key.
Qed.

Definition wg_client_ok (c : WireGuardProtocolConfig.WireGuardProtocolConfig) : bool :=
  match WireGuardProtocolConfig.clientConfig c with
  | Some client => in_int32 (WireGuardClientConfig.port client)
                   && WireGuardParams.params_known client
  | None => true
  end.

Definition wg_stored (c : WireGuardProtocolConfig.WireGuardProtocolConfig) :=
  c <| WireGuardProtocolConfig.clientConfig :=
         WireGuardParams.stored <$> WireGuardProtocolConfig.clientConfig c |>.

(** A WireGuard protocol configuration whose extra parameters are AmneziaWG's is read back
    from its JSON unchanged, the map of parameters included, except that empty
    parameters are dropped and a client port that is not positive becomes 0. *)
Theorem wireguard_config_roundtrip c :
  wg_client_ok c = true ->
  WireGuardProtocolConfig.fromJson (WireGuardProtocolConfig.toJson c) = wg_stored c.
Proof.
  unfold wg_client_ok, wg_stored, WireGuardProtocolConfig.fromJson, WireGuardProtocolConfig.toJson.
  destruct c as [server [client|]]; intros Hp; unfold upd, setter; cbn in Hp;
    cbn [WireGuardProtocolConfig.serverConfig WireGuardProtocolConfig.clientConfig fmap option_fmap option_map];
    f_equal.
  - rewrite (WireGuardServerConfig.wg_server_ext _ (WireGuardServerConfig.toJson server)).
    + apply WireGuardServerConfig.wg_server_read_back.
    + intros k Hk. by apply ofind_oset_ne.
  - bprop. rewrite <- (WireGuardParams.wg_client_read_back client) by done.
    exact (last_config_read_back WireGuardClientConfig.fromJson _ _).
  - apply WireGuardServerConfig.wg_server_read_back.
  - unfold WireGuardServerConfig.toJson, run_writes.
    by rewrite ofind_run_writes_other by fresh_key.
Qed.
End RoundTrip.

(** ** Comparisons and checks *)

(** [c] with the fields the comparison of servers leaves out taken from [d]. *)
Definition with_ignored (c d : AwgServerConfig.AwgServerConfig) : AwgServerConfig.AwgServerConfig :=
  {| AwgServerConfig.port := AwgServerConfig.port c;
     AwgServerConfig.transportProto := AwgServerConfig.transportProto d;
     AwgServerConfig.protocolVersion := AwgServerConfig.protocolVersion d;
     AwgServerConfig.subnetAddress := AwgServerConfig.subnetAddress c;
     AwgServerConfig.subnetCidr := AwgServerConfig.subnetCidr d;
     AwgServerConfig.junkPacketCount := AwgServerConfig.junkPacketCount c;
     AwgServerConfig.junkPacketMinSize := AwgServerConfig.junkPacketMinSize c;
     AwgServerConfig.junkPacketMaxSize := AwgServerConfig.junkPacketMaxSize c;
     AwgServerConfig.initPacketJunkSize := AwgServerConfig.initPacketJunkSize c;
     AwgServerConfig.responsePacketJunkSize := AwgServerConfig.responsePacketJunkSize c;
     AwgServerConfig.cookieReplyPacketJunkSize := AwgServerConfig.cookieReplyPacketJunkSize c;
     AwgServerConfig.transportPacketJunkSize := AwgServerConfig.transportPacketJunkSize c;
     AwgServerConfig.initPacketMagicHeader := AwgServerConfig.initPacketMagicHeader c;
     AwgServerConfig.responsePacketMagicHeader := AwgServerConfig.responsePacketMagicHeader c;
     AwgServerConfig.underloadPacketMagicHeader := AwgServerConfig.underloadPacketMagicHeader c;
     AwgServerConfig.transportPacketMagicHeader := AwgServerConfig.transportPacketMagicHeader c;
     AwgServerConfig.specialJunk1 := AwgServerConfig.specialJunk1 c;
     AwgServerConfig.specialJunk2 := AwgServerConfig.specialJunk2 c;
     AwgServerConfig.specialJunk3 := AwgServerConfig.specialJunk3 c;
     AwgServerConfig.specialJunk4 := AwgServerConfig.specialJunk4 c;
     AwgServerConfig.specialJunk5 := AwgServerConfig.specialJunk5 c;
     AwgServerConfig.headerProtectionKey := AwgServerConfig.headerProtectionKey c;
     AwgServerConfig.contentPaddingAddition := AwgServerConfig.contentPaddingAddition c;
     AwgServerConfig.rekeyAfterTime := AwgServerConfig.rekeyAfterTime c;
     AwgServerConfig.rekeyTimeout := AwgServerConfig.rekeyTimeout c;
     AwgServerConfig.rejectAfterTime := AwgServerConfig.rejectAfterTime c;
     AwgServerConfig.keepaliveTimeout := AwgServerConfig.keepaliveTimeout c;
     AwgServerConfig.maxHandshakeAttempts := AwgServerConfig.maxHandshakeAttempts c;
     AwgServerConfig.randomTrailers := AwgServerConfig.randomTrailers c;
     AwgServerConfig.disableCookies := AwgServerConfig.disableCookies c;
     AwgServerConfig.isThirdPartyConfig := AwgServerConfig.isThirdPartyConfig d |}.

Lemma equal_settings_agree c d :
  AwgServerConfig.hasEqualServerSettings c d = true -> with_ignored c d = d.
Proof.
  unfold AwgServerConfig.hasEqualServerSettings. cbv zeta beta. intros Heq. bprop.
  destruct c, d. cbn in *. by subst.
Qed.

Lemma agree_equal_settings c d :
  AwgServerConfig.hasEqualServerSettings c (with_ignored c d) = true.
Proof.
  unfold AwgServerConfig.hasEqualServerSettings, with_ignored. cbn.
  by rewrite !String.eqb_refl.
Qed.

(** Two AmneziaWG servers have equal settings exactly when they agree on everything but the
    transport protocol, the recorded version, the prefix length and the third-party
    mark; the version of the protocol their parameters need is then the same, whatever
    version is recorded. *)
Theorem equal_settings_spec c d :
  (AwgServerConfig.hasEqualServerSettings c d = true <-> with_ignored c d = d) /\
  (AwgServerConfig.hasEqualServerSettings c d = true ->
   awgVersionOf c = awgVersionOf d /\
   AwgServerConfig.hasAwg3Params c = AwgServerConfig.hasAwg3Params d).
Proof.
  assert (E : AwgServerConfig.hasEqualServerSettings c d = true <-> with_ignored c d = d).
  { split; [apply equal_settings_agree|]. intros <-. apply agree_equal_settings. }
  split; [exact E|]. intros Heq%E. rewrite <- Heq. by destruct c, d.
Qed.

Lemma headers_fold hs n (u : gset string) :
  fold_left (fun '(n, u) h => if str_empty (trimmed h) then (n, u) else (S n, {[h]} ∪ u)) hs (n, u) =
  (length (filter (fun h => trimmed h <> "") hs) + n,
   list_to_set (filter (fun h => trimmed h <> "") hs) ∪ u).
Proof.
  revert n u. induction hs as [|h hs IH]; intros n u; simpl; [by rewrite union_empty_l_L|].
  destruct (str_empty (trimmed h)) eqn:E.
  - apply str_empty_true in E. rewrite filter_cons_False by (rewrite E; tauto). apply IH.
  - apply str_empty_false in E. rewrite filter_cons_True by done. rewrite IH. simpl.
    f_equal; [lia|set_solver].
Qed.

Lemma size_list_to_set_NoDup (l : list string) :
  size (list_to_set l : gset string) = length l <-> NoDup l.
Proof.
  split; [|apply size_list_to_set]. induction l as [|x l IH]; simpl; intros Hs; [constructor|].
  assert (Hle : forall l : list string, size (list_to_set l : gset string) <= length l).
  { intros m. induction m as [|y m IHm]; simpl; [by rewrite ?size_empty|].
    rewrite size_union_alt, size_singleton.
    assert (size (list_to_set m ∖ {[y]} : gset string) <= size (list_to_set m : gset string))
      by (apply subseteq_size; set_solver). lia. }
  destruct (decide (x ∈ l)) as [Hx|Hx].
  - replace ({[x]} ∪ list_to_set l : gset string) with (list_to_set l : gset string) in Hs by set_solver.
    specialize (Hle l). lia.
  - constructor; [done|]. apply IH. rewrite size_union in Hs by set_solver.
    rewrite size_singleton in Hs. lia.
Qed.

Lemma sizes_distinct (a b c d : Z) :
  ((a =? b) || (a =? c) || (a =? d) || (b =? c) || (b =? d) || (c =? d))%Z =
  negb (bool_decide (NoDup [a; b; c; d])).
Proof.
  repeat match goal with
  | |- context [(?x =? ?y)%Z] => destruct (Z.eqb_spec x y); cbn [orb]
  end; symmetry; [apply negb_true_iff, bool_decide_eq_false_2; subst;
    rewrite !NoDup_cons, !elem_of_cons; tauto..|].
  apply negb_false_iff, bool_decide_eq_true_2.
  repeat (constructor; [rewrite ?elem_of_cons, elem_of_nil; tauto|]). constructor.
Qed.

(** The settings page is told of equal headers exactly when two of the headers that are not
    blank are the same text, and of equal packet sizes exactly when two of the four
    sizes (fixed part plus junk) coincide, provided the sums are [int]s, as they are
    for every junk size of a datagram. *)
Theorem awg_coincidences h1 h2 h3 h4 s1 s2 s3 s4 :
  (AwgProtocolConfig.isHeadersEqual h1 h2 h3 h4 = false <->
   NoDup (filter (fun h => trimmed h <> "") [h1; h2; h3; h4])) /\
  (Forall (fun s => 0 <= s <= 65535)%Z [s1; s2; s3; s4] ->
   AwgProtocolConfig.isPacketSizeEqual s1 s2 s3 s4 =
   Some (negb (bool_decide (NoDup [148 + s1; 92 + s2; 64 + s3; 32 + s4]%Z)))).
Proof.
  split.
  - unfold AwgProtocolConfig.isHeadersEqual. rewrite headers_fold.
    rewrite negb_false_iff, Nat.eqb_eq, union_empty_r_L, Nat.add_0_r.
    apply size_list_to_set_NoDup.
  - intros Hs. decompose_Forall_hyps. unfold AwgProtocolConfig.isPacketSizeEqual.
    assert (Hadd : forall a s, (0 <= a <= 148)%Z -> (0 <= s <= 65535)%Z ->
                     AwgProtocolConfig.add_int a s = Some (a + s)%Z).
    { intros a s Ha Hs. unfold AwgProtocolConfig.add_int.
      replace (in_int32 (a + s)) with true; [done|]. symmetry.
      apply andb_true_iff; split; apply Z.leb_le; unfold int32_min, int32_max; lia. }
    rewrite !Hadd by (done || lia). simpl. f_equal. apply sizes_distinct.
Qed.

(** ** The theorems at work *)

Definition sample_awg_client : AwgClientConfig.AwgClientConfig :=
  AwgClientConfig.fromJson
    (oof [("hostName", JStr "10.8.1.1"); ("port", JInt 51820); ("client_ip", JStr "10.8.1.2/32");
          ("allowed_ips", JArr [JStr "0.0.0.0/0"; JStr "::/0"]); ("Jc", JStr "4");
          ("H1", JStr "1-5"); ("mtu", JStr "1376")]).

Definition sample_awg : AwgProtocolConfig.AwgProtocolConfig :=
  {| AwgProtocolConfig.serverConfig :=
       AwgServerConfig.fromJson (oof [("port", JStr "51820"); ("I1", JStr "<b 0x01>")]);
     AwgProtocolConfig.clientConfig := Some sample_awg_client |}.

Lemma awg_config_roundtrip_witness :
  awg_port_int sample_awg = true /\
  @AwgProtocolConfig.fromJson json_text_model
    (@AwgProtocolConfig.toJson json_text_model sample_awg) = awg_stored sample_awg.
Proof.
  split; [by vm_compute|]. apply (@awg_config_roundtrip json_text_model). by vm_compute.
Defined.

Definition sample_wg : WireGuardProtocolConfig.WireGuardProtocolConfig :=
  {| WireGuardProtocolConfig.serverConfig :=
       WireGuardServerConfig.fromJson (oof [("port", JStr "51820"); ("subnet_address", JStr "10.8.1.0")]);
     WireGuardProtocolConfig.clientConfig :=
       Some (WireGuardClientConfig.fromJson
         (oof [("hostName", JStr "10.8.1.1"); ("port", JInt 51820); ("Jc", JStr "4");
               ("H1", JStr "1"); ("isObfuscationEnabled", JBool true)])) |}.

Lemma wireguard_config_roundtrip_witness :
  wg_client_ok sample_wg = true /\
  @WireGuardProtocolConfig.fromJson json_text_model
    (@WireGuardProtocolConfig.toJson json_text_model sample_wg) = wg_stored sample_wg.
Proof.
  split; [by vm_compute|]. apply (@wireguard_config_roundtrip json_text_model). by vm_compute.
Defined.

Lemma equal_settings_spec_witness :
  let c := AwgProtocolConfig.serverConfig sample_awg in
  AwgServerConfig.hasEqualServerSettings c c = true /\ awgVersionOf c = awgV1_5.
Proof.
  pose proof (proj1 (equal_settings_spec (AwgProtocolConfig.serverConfig sample_awg)
                (AwgProtocolConfig.serverConfig sample_awg))) as E.
  split; [apply E|]; by vm_compute.
Defined.

Lemma awg_coincidences_witness :
  AwgProtocolConfig.isPacketSizeEqual 0 56 0 0 = Some true.
Proof.
  rewrite (proj2 (awg_coincidences "1" "2" "3" "4" 0 56 0 0)); [by vm_compute|].
  repeat constructor; lia.
Defined.
