(* ===== verification/ServersRepository.v ===== *)
(** * The server list: [client/core/repositories/secureServersRepository.{h,cpp}]

    The repository keeps the user's servers in memory (a hash from server id to its JSON,
    and the ids in display order), the id of the default server, and mirrors both in the
    application settings.  The settings are the three keys the repository uses; signals are
    recorded in the order they are emitted. *)

From S2P Require Import Prelude Json ServerConfig.

(** ** State *)

(** The keys of [SecureQSettings] the repository reads and writes. *)
Record settings := mkSettings {
  st_serversList : string;         (* "Servers/serversList" *)
  st_defaultServerId : string;     (* "Servers/defaultServerId" *)
  st_defaultServerIndex : Z        (* "Servers/defaultServerIndex", 0 when absent *)
}.

#[export] Instance eta_settings : Eta settings := fun r =>
  mkSettings (st_serversList r) (st_defaultServerId r) (st_defaultServerIndex r).

Inductive signal :=
  | serverAdded (id : string)
  | serverEdited (id : string)
  | serverRemoved (id : string) (removedIndex : nat)
  | defaultServerChanged (id : string).

Record repo := mkRepo {
  m_settings : settings;
  m_serverJsonById : gmap string obj;
  m_orderedServerIds : list string;
  m_defaultServerId : string;
  m_uuids : nat;                   (* identifiers generated so far *)
  m_signals : list signal
}.

#[export] Instance eta_repo : Eta repo := fun r =>
  mkRepo (m_settings r) (m_serverJsonById r) (m_orderedServerIds r) (m_defaultServerId r)
         (m_uuids r) (m_signals r).

Definition emit (s : signal) (r : repo) : repo := r <| m_signals := m_signals r ++ [s] |>.

(** [QList::indexOf]; [None] is -1. *)
Fixpoint index_of (x : string) (l : list string) : option nat :=
  match l with
  | [] => None
  | y :: l => if String.eqb x y then Some O else S <$> index_of x l
  end.

(** ** Identifiers inside the stored JSON *)

Definition readStorageServerId (json : obj) : string :=
  trimmed (to_string (ofind Key.storageServerId json)).

Definition withoutStorageServerId (json : obj) : obj := oremove Key.storageServerId json.

Definition embedStorageServerId (serverId : string) (payload : obj) : obj :=
  oset Key.storageServerId (JStr serverId) payload.

Section Repository.
Context {JT : JsonText}.
(** The n-th identifier [QUuid::createUuid] gives. *)
Variable uuid : nat -> string.
(** The build's endpoints ([configTypeFromJson]). *)
Variables freeV2Endpoint premiumV1Endpoint : string.

Abbreviation kindOf := (configTypeFromJson freeV2Endpoint premiumV1Endpoint).

Definition has (r : repo) (id : string) : bool :=
  match m_serverJsonById r !! id with Some _ => true | None => false end.

Definition normalizedOrGeneratedServerId (candidateId : string) (r : repo) : repo * string :=
  let t := trimmed candidateId in
  if negb (str_empty t) && negb (has r t) then (r, t)
  else (r <| m_uuids := S (m_uuids r) |>, uuid (m_uuids r)).

Definition clearServerStateMaps (r : repo) : repo :=
  r <| m_serverJsonById := ∅ |> <| m_orderedServerIds := [] |>.

(** ** Default server *)

Definition updateDefaultServerFromStorage (r : repo) : repo :=
  let storedDefaultId := st_defaultServerId (m_settings r) in
  if negb (str_empty storedDefaultId) && has r storedDefaultId
  then r <| m_defaultServerId := storedDefaultId |>
  else
    let storedDefaultIndex := st_defaultServerIndex (m_settings r) in
    match (if (0 <=? storedDefaultIndex)%Z
           then m_orderedServerIds r !! Z.to_nat storedDefaultIndex else None) with
    | Some id => r <| m_defaultServerId := id |>
    | None =>
        match m_orderedServerIds r with
        | id :: _ => r <| m_defaultServerId := id |>
        | [] => r <| m_defaultServerId := "" |>
        end
    end.

Definition persistDefaultServerFields (r : repo) : repo :=
  let r :=
    match m_orderedServerIds r with
    | [] => r <| m_defaultServerId := "" |>
    | first :: _ =>
        if bool_decide (m_defaultServerId r ∈ m_orderedServerIds r) then r
        else r <| m_defaultServerId := first |>
    end in
  r <| m_settings := (m_settings r) <| st_defaultServerId := m_defaultServerId r |> |>.

(** ** Storage *)

(** One iteration of the loop of [loadFromStorage]. *)
Definition load_one (r : repo) (v : json) : repo :=
  let json := to_object (Some v) in
  let candidateId := readStorageServerId json in
  let '(r, serverId) := normalizedOrGeneratedServerId candidateId r in
  let strippedJson := withoutStorageServerId json in
  let kind := kindOf strippedJson in
  if has r serverId || bool_decide (kind = Invalid) then r
  else r <| m_serverJsonById :=
              <[serverId := embedStorageServerId serverId strippedJson]> (m_serverJsonById r) |>
         <| m_orderedServerIds := m_orderedServerIds r ++ [serverId] |>.

Definition loadFromStorage (r : repo) : repo :=
  let r := clearServerStateMaps r in
  let serversArray := doc_array (json_parse (st_serversList (m_settings r))) in
  updateDefaultServerFromStorage (fold_left load_one serversArray r).

(** The array [syncToStorage] writes. *)
Definition serversArray (r : repo) : list json :=
  omap (fun id : string => JObj <$> (m_serverJsonById r !! id)) (m_orderedServerIds r).

Definition syncToStorage (r : repo) : repo :=
  persistDefaultServerFields
    (r <| m_settings := (m_settings r) <| st_serversList := json_print (JArr (serversArray r)) |> |>).

(** The constructor. *)
Definition SecureServersRepository (s : settings) : repo :=
  persistDefaultServerFields (loadFromStorage (mkRepo s ∅ [] "" 0 [])).

Definition invalidateCache (r : repo) : repo := loadFromStorage r.

Definition clearServers (r : repo) : repo :=
  syncToStorage ((clearServerStateMaps r) <| m_defaultServerId := "" |>).

(** ** Queries *)

Definition serversCount (r : repo) : nat := length (m_orderedServerIds r).

Definition indexOfServerId (r : repo) (id : string) : option nat :=
  index_of id (m_orderedServerIds r).

Definition serverIdAt (r : repo) (index : Z) : string :=
  if (index <? 0)%Z then "" else default "" (m_orderedServerIds r !! Z.to_nat index).

Definition defaultServerIndex (r : repo) : nat :=
  match m_orderedServerIds r with
  | [] => O
  | l => default O (index_of (m_defaultServerId r) l)
  end.

Definition serverKind (r : repo) (id : string) : ConfigType :=
  match m_serverJsonById r !! id with
  | None => Invalid
  | Some json => kindOf (withoutStorageServerId json)
  end.

(** The accessors of one kind ([selfHostedAdminConfig], [nativeConfig], [apiV2Config], ...):
    the stripped object, if the server is of that kind. *)
Definition configOfKind (p : ConfigType -> bool) (r : repo) (id : string) : option obj :=
  match m_serverJsonById r !! id with
  | None => None
  | Some json =>
      let strippedJson := withoutStorageServerId json in
      if p (kindOf strippedJson) then Some strippedJson else None
  end.

Definition isKind (k : ConfigType) (t : ConfigType) : bool := bool_decide (t = k).

Definition storedServerDisplayName (r : repo) (id : string) : string :=
  match serverKind r id with
  | SelfHostedAdmin => from_option displayName_hosted "" (configOfKind (isKind SelfHostedAdmin) r id)
  | SelfHostedUser => from_option displayName_hosted "" (configOfKind (isKind SelfHostedUser) r id)
  | Native => from_option displayName_hosted "" (configOfKind (isKind Native) r id)
  | AmneziaPremiumV2 | AmneziaFreeV3 | ExternalPremium =>
      from_option displayName_apiV2 "" (configOfKind isApiV2Subscription r id)
  | AmneziaPremiumV1 | AmneziaFreeV2 =>
      from_option displayName_legacy "" (configOfKind isLegacyApiSubscription r id)
  | SelfHosted | Invalid => ""
  end.

Definition candidateName (i : nat) : string := "Server " +:+ pretty (N.of_nat i).

(** The [do ... while] of [nextAvailableServerName]. *)
Fixpoint next_name (fuel i : nat) (usedNames : gset string) : option string :=
  match fuel with
  | O => None
  | S fuel =>
      let i := S i in
      if bool_decide (candidateName i ∈ usedNames) then next_name fuel i usedNames
      else Some (candidateName i)
  end.

Definition usedNames (r : repo) : gset string :=
  list_to_set (filter (fun s => str_empty s = false)
                      (storedServerDisplayName r <$> m_orderedServerIds r)).

Definition nextAvailableServerName (fuel : nat) (r : repo) : option string :=
  next_name fuel 0 (usedNames r).

(** ** Updates *)

Definition addServer (serverId : string) (serverJson : obj) (kind : ConfigType) (r : repo)
  : repo * string :=
  let '(r, id) := normalizedOrGeneratedServerId serverId r in
  if has r id || bool_decide (kind = Invalid) then (r, id)
  else
    let strippedJson := withoutStorageServerId serverJson in
    if negb (bool_decide (kindOf strippedJson = kind)) then (r, id)
    else
      let r := r <| m_serverJsonById :=
                      <[id := embedStorageServerId id strippedJson]> (m_serverJsonById r) |>
                 <| m_orderedServerIds := m_orderedServerIds r ++ [id] |> in
      let r := if str_empty (m_defaultServerId r) then r <| m_defaultServerId := id |> else r in
      (emit (serverAdded id) (syncToStorage r), id).

Definition editServer (serverId : string) (serverJson : obj) (kind : ConfigType) (r : repo) : repo :=
  match indexOfServerId r serverId with
  | None => r
  | Some _ =>
      if bool_decide (kind = Invalid) then r
      else match m_serverJsonById r !! serverId with
      | None => r
      | Some oldJson =>
          let oldKind := kindOf (withoutStorageServerId oldJson) in
          let r := r <| m_serverJsonById := delete serverId (m_serverJsonById r) |> in
          let strippedNew := withoutStorageServerId serverJson in
          if negb (bool_decide (kindOf strippedNew = kind)) then
            let strippedOld := withoutStorageServerId oldJson in
            if negb (bool_decide (oldKind = Invalid)) && bool_decide (kindOf strippedOld = oldKind)
            then r <| m_serverJsonById :=
                        <[serverId := embedStorageServerId serverId strippedOld]> (m_serverJsonById r) |>
            else r
          else
            emit (serverEdited serverId)
              (syncToStorage
                 (r <| m_serverJsonById :=
                         <[serverId := embedStorageServerId serverId strippedNew]>
                           (m_serverJsonById r) |>))
      end
  end.

(** The default server once [serverId] has left position [removedIndex]. *)
Definition chooseDefaultAfterRemoval (serverId : string) (removedIndex : nat) (r : repo) : repo :=
  match m_orderedServerIds r with
  | [] => r <| m_defaultServerId := "" |>
  | first :: _ =>
      if String.eqb (m_defaultServerId r) serverId then
        let fallbackIndex := Nat.min removedIndex (length (m_orderedServerIds r) - 1) in
        r <| m_defaultServerId := default "" (m_orderedServerIds r !! fallbackIndex) |>
      else if bool_decide (m_defaultServerId r ∈ m_orderedServerIds r) then r
      else r <| m_defaultServerId := first |>
  end.

Definition removeServer (serverId : string) (r : repo) : repo :=
  match indexOfServerId r serverId with
  | None => r
  | Some removedIndex =>
      if negb (has r serverId) then r
      else
        let previousDefaultId := m_defaultServerId r in
        let previousDefaultIndex := defaultServerIndex r in
        let r := r <| m_serverJsonById := delete serverId (m_serverJsonById r) |>
                   <| m_orderedServerIds := delete removedIndex (m_orderedServerIds r) |> in
        let r := chooseDefaultAfterRemoval serverId removedIndex r in
        let newDefaultIndex := defaultServerIndex r in
        let r :=
          if negb (String.eqb previousDefaultId (m_defaultServerId r))
             || negb (Nat.eqb previousDefaultIndex newDefaultIndex)
          then emit (defaultServerChanged (m_defaultServerId r)) r else r in
        emit (serverRemoved serverId removedIndex) (syncToStorage r)
  end.

Definition setDefaultServer (serverId : string) (r : repo) : repo :=
  match m_orderedServerIds r with
  | [] => r
  | _ =>
      if negb (has r serverId) then r
      else match indexOfServerId r serverId with
      | None => r
      | Some _ =>
          if String.eqb (m_defaultServerId r) serverId then r
          else
            let r := persistDefaultServerFields (r <| m_defaultServerId := serverId |>) in
            emit (defaultServerChanged (m_defaultServerId r)) r
      end
  end.
End Repository.

(** ** Lemmas on positions *)

Lemma index_of_Some x l i : index_of x l = Some i -> l !! i = Some x.
Proof.
  revert i. induction l as [|y l IH]; intros i; simpl; [done|].
  destruct (String.eqb_spec x y) as [->|]; [by intros [= <-]|].
  destruct (index_of x l); simpl; [|done]. intros [= <-]. by apply IH.
Qed.

Lemma index_of_None x l : index_of x l = None <-> x ∉ l.
Proof.
  induction l as [|y l IH]; simpl.
  - split; [|done]. by intros _ ?%not_elem_of_nil.
  - rewrite not_elem_of_cons. destruct (String.eqb_spec x y) as [->|]; [naive_solver|].
    rewrite fmap_None, IH. naive_solver.
Qed.

Lemma index_of_is_Some x l : x ∈ l -> exists i, index_of x l = Some i.
Proof.
  intros Hx. destruct (index_of x l) eqn:E; [eauto|]. by apply index_of_None in E.
Qed.

Lemma delete_position (l : list string) i x :
  NoDup l -> l !! i = Some x -> delete i l = filter (fun y => y <> x) l.
Proof.
  revert i. induction l as [|y l IH]; intros i Hnd Hi; [done|].
  apply NoDup_cons in Hnd as [Hy Hnd]. destruct i as [|i]; simpl in *.
  - injection Hi as ->. rewrite filter_cons_False by naive_solver.
    symmetry.
    clear IH Hnd. induction l as [|z l IH]; [done|]. apply not_elem_of_cons in Hy as [? Hy].
    rewrite filter_cons_True by congruence. f_equal. by apply IH.
  - change (y :: delete i l = filter (fun y => y <> x) (y :: l)).
    rewrite filter_cons_True, IH with (i := i); [done|done|done|].
    intros ->. apply Hy. by apply list_elem_of_lookup_2 in Hi.
Qed.

(** ** Invariant *)

(** The ids in display order are exactly the keys of the hash, without repetition, each
    trimmed and not empty; every stored object carries the id it is stored under. *)
Record core (r : repo) : Prop := {
  core_nodup : NoDup (m_orderedServerIds r);
  core_dom : forall id, id ∈ m_orderedServerIds r <-> is_Some (m_serverJsonById r !! id);
  core_ids : forall id, id ∈ m_orderedServerIds r -> id <> "" /\ trimmed id = id;
  core_json : forall id j, m_serverJsonById r !! id = Some j ->
    j = embedStorageServerId id (withoutStorageServerId j)
}.

(** The default server is one of the servers, and empty only when there is none. *)
Definition default_ok (r : repo) : Prop :=
  match m_orderedServerIds r with
  | [] => m_defaultServerId r = ""
  | _ => m_defaultServerId r ∈ m_orderedServerIds r
  end.

Definition inv (r : repo) : Prop := core r /\ default_ok r.

Lemma strip_embed id o :
  withoutStorageServerId (embedStorageServerId id (withoutStorageServerId o))
  = withoutStorageServerId o.
Proof.
  unfold withoutStorageServerId, embedStorageServerId. by rewrite oremove_oset, oremove_idem.
Qed.

Lemma read_embed id o : trimmed id = id -> readStorageServerId (embedStorageServerId id o) = id.
Proof.
  intros Ht. unfold readStorageServerId, embedStorageServerId. by rewrite ofind_oset_eq.
Qed.

Lemma has_true r id : has r id = true <-> is_Some (m_serverJsonById r !! id).
Proof. unfold has. destruct (m_serverJsonById r !! id); split; try done; by intros [? ?]. Qed.

Lemma has_false r id : has r id = false <-> m_serverJsonById r !! id = None.
Proof. unfold has. by destruct (m_serverJsonById r !! id). Qed.

Lemma core_ext r r' :
  m_serverJsonById r' = m_serverJsonById r -> m_orderedServerIds r' = m_orderedServerIds r ->
  core r -> core r'.
Proof. intros Hm Ho []. constructor; by rewrite ?Hm, ?Ho. Qed.

Lemma core_insert r id o :
  core r -> m_serverJsonById r !! id = None -> id <> "" -> trimmed id = id ->
  core (r <| m_serverJsonById :=
              <[id := embedStorageServerId id (withoutStorageServerId o)]> (m_serverJsonById r) |>
          <| m_orderedServerIds := m_orderedServerIds r ++ [id] |>).
Proof.
  intros [Hnd Hdom Hids Hj] Hid Hne Ht. simpl. constructor; simpl.
  - apply NoDup_app. split; [done|]. split; [|apply NoDup_singleton].
    intros x Hx ->%list_elem_of_singleton. apply Hdom in Hx as [? ?]. congruence.
  - intros x. rewrite elem_of_app, list_elem_of_singleton, Hdom.
    destruct (decide (x = id)) as [->|Hx].
    + rewrite lookup_insert_eq. naive_solver.
    + rewrite lookup_insert_ne by done. naive_solver.
  - intros x [Hx| ->%list_elem_of_singleton]%elem_of_app; auto.
  - intros x j. destruct (decide (x = id)) as [->|Hx].
    + rewrite lookup_insert_eq. intros [= <-]. by rewrite strip_embed.
    + rewrite lookup_insert_ne by done. apply Hj.
Qed.

Lemma core_replace r id o :
  core r -> is_Some (m_serverJsonById r !! id) ->
  core (r <| m_serverJsonById :=
              <[id := embedStorageServerId id (withoutStorageServerId o)]> (m_serverJsonById r) |>).
Proof.
  intros [Hnd Hdom Hids Hj] Hid. simpl. constructor; simpl; [done| |done|].
  - intros x. rewrite Hdom. destruct (decide (x = id)) as [->|Hx].
    + rewrite lookup_insert_eq. naive_solver.
    + by rewrite lookup_insert_ne by done.
  - intros x j. destruct (decide (x = id)) as [->|Hx].
    + rewrite lookup_insert_eq. intros [= <-]. by rewrite strip_embed.
    + rewrite lookup_insert_ne by done. apply Hj.
Qed.

Lemma core_delete r id i :
  core r -> m_orderedServerIds r !! i = Some id ->
  core (r <| m_serverJsonById := delete id (m_serverJsonById r) |>
          <| m_orderedServerIds := delete i (m_orderedServerIds r) |>).
Proof.
  intros [Hnd Hdom Hids Hj] Hi. simpl. rewrite (delete_position _ _ _ Hnd Hi).
  constructor; simpl.
  - by apply NoDup_filter.
  - intros x. rewrite list_elem_of_filter, Hdom. destruct (decide (x = id)) as [->|Hx].
    + rewrite lookup_delete_eq, is_Some_alt. naive_solver.
    + rewrite lookup_delete_ne by done. naive_solver.
  - intros x [_ Hx]%list_elem_of_filter. auto.
  - intros x j [_ Hx]%lookup_delete_Some. by apply Hj.
Qed.

Section RepositoryFacts.
Context {JT : JsonText}.
Variable uuid : nat -> string.
Variables freeV2Endpoint premiumV1Endpoint : string.
(** A generated identifier is a non-empty text without surrounding white space. *)
Hypothesis uuid_text : forall n, uuid n <> "" /\ trimmed (uuid n) = uuid n.

Abbreviation kindOf := (configTypeFromJson freeV2Endpoint premiumV1Endpoint).
Abbreviation doLoad := (loadFromStorage uuid freeV2Endpoint premiumV1Endpoint).
Abbreviation doLoadOne := (load_one uuid freeV2Endpoint premiumV1Endpoint).
Abbreviation doAdd := (addServer uuid freeV2Endpoint premiumV1Endpoint).
Abbreviation doEdit := (editServer freeV2Endpoint premiumV1Endpoint).
Abbreviation doInit := (SecureServersRepository uuid freeV2Endpoint premiumV1Endpoint).

(** *** Identifiers *)

Lemma normalized_id c r r' id :
  normalizedOrGeneratedServerId uuid c r = (r', id) ->
  id <> "" /\ trimmed id = id /\
  m_serverJsonById r' = m_serverJsonById r /\ m_orderedServerIds r' = m_orderedServerIds r /\
  m_defaultServerId r' = m_defaultServerId r /\ m_settings r' = m_settings r /\
  m_signals r' = m_signals r.
Proof.
  unfold normalizedOrGeneratedServerId.
  destruct (negb _ && negb _) eqn:E; intros [= <- <-]; simpl.
  - bprop. rewrite trimmed_idem. by rewrite <- str_empty_false.
  - by destruct (uuid_text (m_uuids r)).
Qed.

(** *** The default server after the housekeeping *)

Lemma persist_core r : core r -> inv (persistDefaultServerFields r).
Proof.
  intros Hc. unfold persistDefaultServerFields. split.
  - apply (core_ext r); [..|done]; by repeat case_match.
  - unfold default_ok. destruct (m_orderedServerIds r) as [|x l] eqn:E; simpl; rewrite ?E; [done|].
    case_bool_decide; simpl; rewrite ?E; [done|by left].
Qed.

Lemma persist_id r :
  default_ok r ->
  persistDefaultServerFields r =
  r <| m_settings := (m_settings r) <| st_defaultServerId := m_defaultServerId r |> |>.
Proof.
  unfold default_ok, persistDefaultServerFields. destruct r as [s m o d u sg]; simpl.
  destruct o as [|x l]; [by intros ->|]. intros Hd.
  by rewrite bool_decide_eq_true_2 by done.
Qed.

Lemma sync_inv r : core r -> inv (syncToStorage r).
Proof. intros Hc. apply persist_core. by apply (core_ext r). Qed.

Lemma emit_inv s r : inv r -> inv (emit s r).
Proof. intros [Hc Hd]. split; [by apply (core_ext r)|done]. Qed.

Lemma update_default_inv r : core r -> inv (updateDefaultServerFromStorage r).
Proof.
  intros Hc. unfold updateDefaultServerFromStorage. split.
  { apply (core_ext r); [..|done]; repeat case_match; done. }
  unfold default_ok. destruct (negb _ && has r _) eqn:E; simpl.
  { bprop. destruct (m_orderedServerIds r) eqn:Eo; [|rewrite <- Eo; by apply Hc, has_true].
    apply has_true, Hc in H0. by rewrite Eo in H0; apply not_elem_of_nil in H0. }
  destruct (if (0 <=? _)%Z then _ else _) as [d|] eqn:Ei; simpl.
  - destruct (0 <=? _)%Z; [|done]. apply list_elem_of_lookup_2 in Ei.
    by destruct (m_orderedServerIds r); [apply not_elem_of_nil in Ei|].
  - destruct (m_orderedServerIds r) eqn:Eo; simpl; rewrite ?Eo; [done|by left].
Qed.

(** *** Preservation *)

Lemma load_one_core r v : core r -> core (doLoadOne r v).
Proof.
  intros Hc. unfold load_one.
  destruct (normalizedOrGeneratedServerId _ _ _) as [r' id] eqn:E.
  apply normalized_id in E as (Hne & Ht & Hm & Ho & _).
  assert (Hc' : core r') by by apply (core_ext r).
  destruct (has r' id || _) eqn:Eb; [done|]. bprop. apply core_insert; [done| |done|done].
  by apply has_false.
Qed.

Lemma load_inv r : inv (doLoad r).
Proof.
  unfold loadFromStorage. apply update_default_inv.
  set (l := doc_array _). clearbody l.
  assert (Hc : core (clearServerStateMaps r)).
  { constructor; simpl; [apply NoDup_nil_2| | |].
    - intros id. rewrite lookup_empty, is_Some_alt.
      split; [by intros ?%not_elem_of_nil|done].
    - by intros id ?%not_elem_of_nil.
    - intros id j. by rewrite lookup_empty. }
  revert Hc. generalize (clearServerStateMaps r).
  induction l as [|v l IH]; intros r0 Hc; simpl; [done|]. apply IH. by apply load_one_core.
Qed.

Lemma add_inv sid o kind r : inv r -> inv (doAdd sid o kind r).1.
Proof.
  intros [Hc Hd]. unfold addServer.
  destruct (normalizedOrGeneratedServerId _ _ _) as [r' id] eqn:E.
  apply normalized_id in E as (Hne & Ht & Hm & Ho & Hdf & _).
  assert (Hi' : inv r').
  { split; [by apply (core_ext r)|]. unfold default_ok. by rewrite Ho, Hdf. }
  destruct (has r' id || _) eqn:Eb; [done|]. case_match; [done|]. bprop. simpl.
  apply emit_inv, sync_inv. pose proof (core_insert r' id o (proj1 Hi')) as Hin.
  eapply core_ext; [..|apply Hin; [by apply has_false|done|done]]; by repeat case_match.
Qed.

Lemma edit_inv sid o kind r : inv r -> inv (doEdit sid o kind r).
Proof.
  intros [Hc Hd]. unfold editServer.
  destruct (indexOfServerId r sid) as [i|]; [|done].
  case_bool_decide; [done|]. destruct (m_serverJsonById r !! sid) as [old|] eqn:Eold; [|done].
  assert (Hsome : is_Some (m_serverJsonById r !! sid)) by eauto.
  case_match; simpl.
  - rewrite bool_decide_eq_false_2 by apply configType_not_Invalid.
    rewrite bool_decide_eq_true_2 by done. simpl. rewrite insert_delete_eq.
    split; [|done]. by apply (core_replace r sid old).
  - rewrite insert_delete_eq. apply emit_inv, sync_inv. by apply (core_replace r sid o).
Qed.

Lemma remove_inv sid r : inv r -> inv (removeServer sid r).
Proof.
  intros [Hc Hd]. unfold removeServer.
  destruct (indexOfServerId r sid) as [i|] eqn:Ei; [|done]. case_match; [done|].
  apply index_of_Some in Ei. pose proof (core_delete r sid i Hc Ei) as Hdel.
  apply emit_inv, sync_inv. eapply core_ext; [..|exact Hdel]; unfold chooseDefaultAfterRemoval;
    by repeat case_match.
Qed.

Lemma set_default_inv sid r : inv r -> inv (setDefaultServer sid r).
Proof.
  intros [Hc Hd]. unfold setDefaultServer. repeat (case_match; [done|]); try done.
  repeat case_match; try done. apply emit_inv, persist_core. by apply (core_ext r).
Qed.

Lemma clear_inv r : inv (clearServers r).
Proof.
  apply sync_inv. constructor; simpl; [apply NoDup_nil_2| | |].
  - intros id. rewrite lookup_empty, is_Some_alt. split; [by intros ?%not_elem_of_nil|done].
  - by intros id ?%not_elem_of_nil.
  - intros id j. by rewrite lookup_empty.
Qed.

(** *** Runs *)

(** Every state the program can bring the repository to. *)
Inductive reach : repo -> Prop :=
  | reach_init s : reach (doInit s)
  | reach_add sid o kind r : reach r -> reach (doAdd sid o kind r).1
  | reach_edit sid o kind r : reach r -> reach (doEdit sid o kind r)
  | reach_remove sid r : reach r -> reach (removeServer sid r)
  | reach_setDefault sid r : reach r -> reach (setDefaultServer sid r)
  | reach_clear r : reach r -> reach (clearServers r)
  | reach_invalidate r : reach r -> reach (invalidateCache uuid freeV2Endpoint premiumV1Endpoint r).

Lemma reach_inv r : reach r -> inv r.
Proof.
  induction 1; auto using add_inv, edit_inv, remove_inv, set_default_inv, clear_inv, load_inv.
  apply persist_core. apply load_inv.
Qed.

(** *** Storage *)

(** The settings hold what the memory holds. *)
Definition synced (r : repo) : Prop :=
  st_serversList (m_settings r) = json_print (JArr (serversArray r)) /\
  st_defaultServerId (m_settings r) = m_defaultServerId r.

Lemma sync_synced r : synced (syncToStorage r).
Proof.
  unfold synced, syncToStorage, persistDefaultServerFields, serversArray. simpl.
  destruct (m_orderedServerIds r) as [|x l] eqn:E; simpl; rewrite ?E; [done|].
  case_bool_decide; simpl; by rewrite ?E.
Qed.

Lemma emit_synced s r : synced r -> synced (emit s r).
Proof. done. Qed.

(** Loading back a list that was written: the loop rebuilds it entry by entry. *)
Lemma load_back (m : gmap string obj) ids r0 :
  NoDup ids ->
  (forall id, id ∈ ids -> id <> "" /\ trimmed id = id /\
     exists j, m !! id = Some j /\ j = embedStorageServerId id (withoutStorageServerId j)) ->
  (forall id, id ∈ ids -> m_serverJsonById r0 !! id = None) ->
  let r1 := fold_left doLoadOne (omap (fun id : string => JObj <$> (m !! id)) ids) r0 in
  m_orderedServerIds r1 = m_orderedServerIds r0 ++ ids /\
  m_settings r1 = m_settings r0 /\ m_defaultServerId r1 = m_defaultServerId r0 /\
  (forall id, m_serverJsonById r1 !! id =
     if decide (id ∈ ids) then m !! id else m_serverJsonById r0 !! id).
Proof.
  intros Hnd Hm Hnew. revert r0 Hnew.
  induction Hnd as [|id ids Hid Hnd IH]; intros r0 Hnew; cbv zeta.
  { simpl. by rewrite app_nil_r. }
  destruct (Hm id) as (Hne & Ht & j & Hj & Hemb); [by left|].
  set (r1 := r0 <| m_serverJsonById := <[id := j]> (m_serverJsonById r0) |>
                <| m_orderedServerIds := m_orderedServerIds r0 ++ [id] |>).
  assert (Hone : doLoadOne r0 (JObj j) = r1).
  { unfold load_one, normalizedOrGeneratedServerId. cbn [to_object].
    rewrite Hemb, read_embed, Ht by done.
    assert (Hh : has r0 id = false) by (apply has_false, Hnew; by left).
    rewrite (proj2 (str_empty_false id)), Hh by done. cbn [negb andb]. rewrite Hh.
    rewrite bool_decide_eq_false_2 by apply configType_not_Invalid.
    cbn [orb]. by rewrite strip_embed, <- Hemb. }
  cbn [omap list_omap]. rewrite Hj. cbn [fmap option_fmap option_map fold_left]. rewrite Hone.
  destruct (IH (fun x Hx => Hm x (list_elem_of_further _ _ _ Hx)) r1) as (Ho & Hs & Hd & Hl).
  { intros x Hx. unfold r1. simpl. rewrite lookup_insert_ne by set_solver.
    apply Hnew. by right. }
  rewrite Ho, Hs, Hd. unfold r1. simpl. rewrite <- app_assoc. repeat split.
  intros x. rewrite Hl. unfold r1. simpl. destruct (decide (x = id)) as [->|Hx].
  - rewrite decide_False by done. rewrite lookup_insert_eq.
    by rewrite decide_True by by left.
  - rewrite lookup_insert_ne by done.
    rewrite (decide_ext (x ∈ id :: ids) (x ∈ ids)); [done|]. rewrite elem_of_cons. tauto.
Qed.

Lemma reload_same r :
  inv r -> synced r ->
  let r' := doLoad r in
  m_serverJsonById r' = m_serverJsonById r /\ m_orderedServerIds r' = m_orderedServerIds r /\
  m_defaultServerId r' = m_defaultServerId r /\ m_settings r' = m_settings r.
Proof.
  intros [Hc Hd] [Hl Hs]. cbv zeta. unfold loadFromStorage. simpl.
  rewrite Hl, json_parse_print. cbn [doc_array to_array].
  destruct (load_back (m_serverJsonById r) (m_orderedServerIds r) (clearServerStateMaps r))
    as (Ho & Hst & _ & Hmap).
  { apply Hc. }
  { intros id Hid. destruct (core_ids r Hc id Hid) as [? ?]. split; [done|]. split; [done|].
    apply Hc in Hid as [j Hj]. exists j. split; [done|]. by apply Hc. }
  { intros id _. apply lookup_empty. }
  unfold serversArray. set (r1 := fold_left _ _ _) in *. simpl in Ho, Hst.
  assert (Hm1 : m_serverJsonById r1 = m_serverJsonById r).
  { apply map_eq. intros id. rewrite Hmap. destruct (decide (id ∈ _)) as [|Hn]; [done|].
    simpl. rewrite lookup_empty. symmetry. apply eq_None_not_Some. by rewrite <- (core_dom r Hc). }
  unfold updateDefaultServerFromStorage, default_ok, has in *. rewrite Hst, Hs, Hm1, Ho.
  destruct (m_orderedServerIds r) as [|x l] eqn:El.
  - rewrite Hd. cbn [str_empty negb andb].
    destruct (0 <=? _)%Z; simpl; by rewrite ?Hm1, ?Ho, ?Hst.
  - rewrite <- El in Hd.
    assert (m_defaultServerId r <> "") by by apply (core_ids r Hc).
    apply Hc in Hd as [j Hj]. rewrite Hj, (proj2 (str_empty_false _)) by done.
    simpl. by rewrite Hm1, Ho, Hst.
Qed.

(** *** The list the user sees *)

(** What the repository promises its clients: an ordered list of named payloads and a
    chosen one. *)
Record view := mkView { entries : list (string * obj); chosen : string }.

Definition entry_of (m : gmap string obj) (id : string) : string * obj :=
  (id, from_option withoutStorageServerId [] (m !! id)).

Definition abs (r : repo) : view :=
  mkView (entry_of (m_serverJsonById r) <$> m_orderedServerIds r) (m_defaultServerId r).

Definition spec_add (id : string) (payload : obj) (v : view) : view :=
  mkView (entries v ++ [(id, payload)])
         (match entries v with [] => id | _ => chosen v end).

Definition spec_edit (id : string) (payload : obj) (v : view) : view :=
  mkView ((fun e => if String.eqb e.1 id then (id, payload) else e) <$> entries v) (chosen v).

(** Removing the chosen server chooses the one that takes its place in the list, or the
    new last one. *)
Definition spec_remove (id : string) (v : view) : view :=
  let rest := filter (fun e => e.1 <> id) (entries v) in
  let pos := default O (index_of id (fst <$> entries v)) in
  mkView rest
    (if String.eqb (chosen v) id
     then default "" ((fst <$> rest) !! Nat.min pos (length rest - 1)) else chosen v).

Lemma abs_sync r : default_ok r -> abs (syncToStorage r) = abs r.
Proof. intros Hd. unfold syncToStorage. by rewrite persist_id. Qed.

Lemma entry_of_insert_ne m id o (l : list string) :
  id ∉ l -> (entry_of (<[id := o]> m) <$> l) = (entry_of m <$> l).
Proof.
  intros Hid. apply list_fmap_ext. intros i x Hx.
  unfold entry_of. rewrite lookup_insert_ne; [done|]. intros <-.
  apply Hid. by apply list_elem_of_lookup_2 in Hx.
Qed.

Lemma fst_entries m (l : list string) : fst <$> (entry_of m <$> l) = l.
Proof. rewrite <- list_fmap_compose. apply list_fmap_id. Qed.

Lemma add_refines sid o kind r :
  inv r ->
  let '(r', id) := doAdd sid o kind r in
  abs r' = if negb (has r id) && bool_decide (kindOf (withoutStorageServerId o) = kind)
           then spec_add id (withoutStorageServerId o) (abs r) else abs r.
Proof.
  intros [Hc Hd]. unfold addServer.
  destruct (normalizedOrGeneratedServerId _ _ _) as [r0 id] eqn:E.
  apply normalized_id in E as (Hne & Ht & Hm & Ho & Hdf & _).
  assert (Hh : has r0 id = has r id) by (unfold has; by rewrite Hm). rewrite Hh.
  assert (Habs : abs r0 = abs r) by (unfold abs; by rewrite Hm, Ho, Hdf).
  destruct (has r id) eqn:Eh; simpl; [by rewrite Eh|].
  case_bool_decide as Ek; subst.
  { rewrite Eh, bool_decide_eq_false_2 by apply configType_not_Invalid. done. }
  case_bool_decide as Ek'; simpl; rewrite Eh; simpl.
  2: done.
  change (abs (emit ?s ?x)) with (abs x). rewrite abs_sync.
  - assert (Hid : id ∉ m_orderedServerIds r)
      by (rewrite (core_dom r Hc); apply has_false in Eh; rewrite Eh; by intros [? ?]).
    unfold abs, spec_add. unfold default_ok in Hd.
    destruct (str_empty (m_defaultServerId r0)) eqn:Es; simpl;
      rewrite Hm, Ho, fmap_app, entry_of_insert_ne by done; simpl; f_equal.
    1,3: f_equal; unfold entry_of; rewrite lookup_insert_eq; simpl; by rewrite strip_embed.
    all: rewrite Hdf in *.
    + apply str_empty_true in Es. destruct (m_orderedServerIds r) eqn:El; [done|].
      rewrite <- El in Hd. by apply (core_ids r Hc) in Hd as [? _].
    + apply str_empty_false in Es. by destruct (m_orderedServerIds r).
  - unfold default_ok in *. destruct (str_empty (m_defaultServerId r0)) eqn:Es; simpl; rewrite Ho.
    + destruct (m_orderedServerIds r ++ [id]) eqn:El; [by apply app_eq_nil in El as [_ ?]|].
      rewrite <- El, elem_of_app. right. by apply list_elem_of_singleton.
    + rewrite Hdf in *. apply str_empty_false in Es.
      destruct (m_orderedServerIds r) as [|x l]; [done|]. apply elem_of_app. by left.
Qed.

Lemma has_listed r id : core r -> has r id = bool_decide (id ∈ m_orderedServerIds r).
Proof.
  intros Hc. unfold has. symmetry. destruct (m_serverJsonById r !! id) eqn:E;
    [apply bool_decide_eq_true_2|apply bool_decide_eq_false_2]; rewrite (core_dom r Hc), E;
    [by eexists|by intros []].
Qed.

(** The id a new server gets: the one asked for, when it is one and not taken. *)
Definition spec_id (fresh sid : string) (taken : list string) : string :=
  if negb (str_empty (trimmed sid)) && negb (bool_decide (trimmed sid ∈ taken)) then trimmed sid else fresh.

Lemma add_id sid o kind r :
  inv r -> (doAdd sid o kind r).2 = spec_id (uuid (m_uuids r)) sid (m_orderedServerIds r).
Proof.
  intros [Hc _]. unfold addServer, normalizedOrGeneratedServerId, spec_id.
  rewrite <- (has_listed r (trimmed sid) Hc).
  destruct (_ && _); cbn [fst snd]; repeat case_match; done.
Qed.

Lemma edit_refines sid o kind r :
  inv r ->
  abs (doEdit sid o kind r) =
  if bool_decide (sid ∈ m_orderedServerIds r) && bool_decide (kindOf (withoutStorageServerId o) = kind)
  then spec_edit sid (withoutStorageServerId o) (abs r) else abs r.
Proof.
  intros [Hc Hd]. unfold editServer, indexOfServerId.
  destruct (index_of sid (m_orderedServerIds r)) as [i|] eqn:Ei.
  2: { by apply index_of_None in Ei; rewrite bool_decide_eq_false_2. }
  apply index_of_Some, list_elem_of_lookup_2 in Ei.
  rewrite (bool_decide_eq_true_2 (sid ∈ _)) by done. simpl.
  case_bool_decide as Ek.
  { subst. by rewrite bool_decide_eq_false_2 by apply configType_not_Invalid. }
  apply Hc in Ei as [old Hold]. rewrite Hold.
  case_bool_decide as Ek'; simpl.
  - rewrite insert_delete_eq. change (abs (emit ?s ?x)) with (abs x). rewrite abs_sync by done.
    unfold abs, spec_edit. simpl. f_equal. rewrite <- list_fmap_compose.
    apply list_fmap_ext. intros k x Hx. unfold entry_of. simpl.
    destruct (String.eqb_spec x sid) as [->|]; [|by rewrite lookup_insert_ne].
    rewrite lookup_insert_eq. simpl. by rewrite strip_embed.
  - rewrite bool_decide_eq_false_2 by apply configType_not_Invalid.
    rewrite bool_decide_eq_true_2 by done. simpl. rewrite insert_delete_eq.
    rewrite <- (core_json r Hc sid old Hold). unfold abs. simpl. by rewrite insert_id.
Qed.

Lemma filter_entries m (l : list string) id :
  filter (fun e => e.1 <> id) (entry_of m <$> l) = entry_of m <$> filter (fun x => x <> id) l.
Proof.
  induction l as [|x l IH]; [done|]. rewrite fmap_cons. simpl.
  destruct (decide (x = id)) as [->|Hx].
  - by rewrite !filter_cons_False by naive_solver.
  - rewrite !filter_cons_True by done. by rewrite fmap_cons, IH.
Qed.

Lemma entry_of_delete m id (l : list string) :
  entry_of (delete id m) <$> filter (fun x => x <> id) l
  = entry_of m <$> filter (fun x => x <> id) l.
Proof.
  apply list_fmap_ext. intros i x Hx%list_elem_of_lookup_2.
  apply list_elem_of_filter in Hx as [Hx _]. unfold entry_of. by rewrite lookup_delete_ne.
Qed.

(** The default the code chooses is the one of the specification. *)
Lemma chooseDefault_spec sid i r :
  let rest := m_orderedServerIds r in
  (m_defaultServerId r <> sid -> m_defaultServerId r ∈ rest) ->
  let r' := chooseDefaultAfterRemoval sid i r in
  m_defaultServerId r' =
    (if String.eqb (m_defaultServerId r) sid
     then default "" (rest !! Nat.min i (length rest - 1)) else m_defaultServerId r) /\
  m_orderedServerIds r' = rest /\ m_serverJsonById r' = m_serverJsonById r /\ default_ok r'.
Proof.
  cbv zeta. intros Hd. unfold chooseDefaultAfterRemoval, default_ok.
  destruct (m_orderedServerIds r) as [|x l] eqn:E; simpl; rewrite ?E.
  { destruct (String.eqb_spec (m_defaultServerId r) sid) as [_|Hne]; [done|].
    by apply Hd, not_elem_of_nil in Hne. }
  destruct (String.eqb_spec (m_defaultServerId r) sid) as [_|Hne]; simpl; rewrite ?E; simpl.
  - do 3 (split; [done|]). rewrite Nat.sub_0_r.
    destruct (lookup_lt_is_Some_2 (x :: l) (Nat.min i (length l))) as [y Hy]; [simpl; lia|].
    rewrite Hy. by apply list_elem_of_lookup_2 in Hy.
  - rewrite bool_decide_eq_true_2 by auto. rewrite E. auto.
Qed.

Lemma remove_refines sid r :
  inv r ->
  abs (removeServer sid r) =
  if bool_decide (sid ∈ m_orderedServerIds r) then spec_remove sid (abs r) else abs r.
Proof.
  intros [Hc Hd]. unfold removeServer, indexOfServerId.
  destruct (index_of sid (m_orderedServerIds r)) as [i|] eqn:Ei.
  2: { by apply index_of_None in Ei; rewrite bool_decide_eq_false_2. }
  pose proof (index_of_Some _ _ _ Ei) as Hi.
  assert (Hin : sid ∈ m_orderedServerIds r) by by apply list_elem_of_lookup_2 in Hi.
  rewrite bool_decide_eq_true_2 by done.
  rewrite (proj2 (has_true r sid)) by by apply Hc. cbn [negb].
  change (abs (emit ?s ?x)) with (abs x).
  set (r1 := r <| m_serverJsonById := _ |> <| m_orderedServerIds := _ |>).
  destruct (chooseDefault_spec sid i r1) as (Hdef & Hord & Hmap & Hok).
  { intros Hne. unfold r1 in *. simpl in *.
    rewrite (delete_position _ _ _ (core_nodup r Hc) Hi). apply list_elem_of_filter.
    split; [done|]. unfold default_ok in Hd.
    by destruct (m_orderedServerIds r); [apply not_elem_of_nil in Hin|]. }
  set (r2 := chooseDefaultAfterRemoval sid i r1) in *.
  rewrite abs_sync by (destruct (negb _ || negb _); done).
  assert (Habs : forall b : bool, abs (if b then emit (defaultServerChanged (m_defaultServerId r2)) r2
                                       else r2) = abs r2) by by intros [].
  rewrite Habs. unfold abs, spec_remove. cbn [entries chosen].
  rewrite Hdef, Hord, Hmap, fst_entries, Ei, filter_entries, fst_entries, length_fmap.
  unfold r1. simpl. rewrite (delete_position _ _ _ (core_nodup r Hc) Hi). by rewrite entry_of_delete.
Qed.
End RepositoryFacts.

(** *** A free name *)

Lemma candidateName_inj i j : candidateName i = candidateName j -> i = j.
Proof.
  unfold candidateName. intros H%string_app_inj_l. apply (inj pretty) in H. lia.
Qed.

(** The loop tries [i+1], [i+2], ...; running out of fuel means all of them were taken. *)
Lemma next_name_spec fuel i used :
  match next_name fuel i used with
  | Some n => (n ∉ used) /\ exists k, n = candidateName k
  | None => forall k, (i < k <= i + fuel)%nat -> candidateName k ∈ used
  end.
Proof.
  revert i. induction fuel as [|fuel IH]; intros i; simpl; [lia|].
  case_bool_decide as E; [|by eauto].
  specialize (IH (S i)). destruct (next_name fuel (S i) used); [done|].
  intros k Hk. destruct (decide (k = S i)) as [->|]; [done|]. apply IH. lia.
Qed.

Lemma all_names_taken n (used : gset string) :
  (forall k, (0 < k <= n)%nat -> candidateName k ∈ used) -> (n <= size used)%nat.
Proof.
  intros H. set (l := candidateName <$> seq 1 n).
  assert (Hnd : NoDup l).
  { apply NoDup_fmap_2; [intros a b; apply candidateName_inj|apply NoDup_seq]. }
  assert (Hn : size (list_to_set l : gset string) = n).
  { rewrite size_list_to_set by done. unfold l. by rewrite length_fmap, length_seq. }
  rewrite <- Hn. apply subseteq_size. intros x [k [-> Hk%elem_of_seq]]%elem_of_list_to_set%list_elem_of_fmap.
  apply H. lia.
Qed.

Lemma size_list_to_set_le (l : list string) : (size (list_to_set l : gset string) <= length l)%nat.
Proof.
  induction l as [|x l IH]; [done|]. rewrite list_to_set_cons, size_union_alt, size_singleton.
  assert (size ((list_to_set l : gset string) ∖ {[x]}) <= size (list_to_set l : gset string))%nat
    by (apply subseteq_size; set_solver). simpl. lia.
Qed.

Lemma usedNames_size f p r :
  (size (usedNames f p r) <= serversCount r)%nat.
Proof.
  unfold usedNames, serversCount. etransitivity; [apply size_list_to_set_le|].
  etransitivity; [apply length_filter|]. by rewrite length_fmap.
Qed.

(** ** Theorems *)

(** C21: in every state the program can reach from any stored settings, the ids in display
    order are exactly the servers held, without repetition, each under its own trimmed id,
    and the default server is one of them (empty only when there is none). *)
Theorem repository_invariant {JT : JsonText} uuid f p r :
  (forall n, uuid n <> "" /\ trimmed (uuid n) = uuid n) ->
  reach uuid f p r -> inv r.
Proof. intros Hu. apply (reach_inv uuid f p Hu). Qed.

(** C32: what is saved is what is loaded: after [syncToStorage] a reload from the settings
    gives back the same servers, the same order and the same default server. *)
Theorem save_load_roundtrip {JT : JsonText} uuid f p r :
  (forall n, uuid n <> "" /\ trimmed (uuid n) = uuid n) ->
  inv r ->
  let r' := loadFromStorage uuid f p (syncToStorage r) in
  m_serverJsonById r' = m_serverJsonById r /\ m_orderedServerIds r' = m_orderedServerIds r /\
  m_defaultServerId r' = m_defaultServerId r.
Proof.
  intros Hu [Hc Hd]. cbv zeta.
  destruct (reload_same uuid f p Hu (syncToStorage r) (sync_inv r Hc) (sync_synced r))
    as (Hm & Ho & Hdf & _).
  rewrite Hm, Ho, Hdf. unfold syncToStorage. by rewrite persist_id by done.
Qed.

(** C20: the repository implements an ordered list with a chosen element.  Adding appends
    (and chooses the first server) under the id asked for, trimmed, when it is not empty and
    not taken, and under a fresh identifier otherwise, so an id already present does not stop
    it; editing replaces the payload in place; removing deletes and, if the chosen server
    goes, chooses its successor in the list or the new last one.  A payload of another kind
    than announced changes nothing, and neither does a fresh identifier that is taken. *)
Theorem repository_refines_list {JT : JsonText} uuid f p sid o kind r :
  (forall n, uuid n <> "" /\ trimmed (uuid n) = uuid n) ->
  inv r ->
  (let '(r', id) := addServer uuid f p sid o kind r in
   id = spec_id (uuid (m_uuids r)) sid (fst <$> entries (abs r)) /\
   abs r' = if negb (bool_decide (id ∈ fst <$> entries (abs r))) &&
               bool_decide (configTypeFromJson f p (withoutStorageServerId o) = kind)
            then spec_add id (withoutStorageServerId o) (abs r) else abs r) /\
  abs (editServer f p sid o kind r) =
    (if bool_decide (sid ∈ m_orderedServerIds r) &&
        bool_decide (configTypeFromJson f p (withoutStorageServerId o) = kind)
     then spec_edit sid (withoutStorageServerId o) (abs r) else abs r) /\
  abs (removeServer sid r) =
    (if bool_decide (sid ∈ m_orderedServerIds r) then spec_remove sid (abs r) else abs r).
Proof.
  intros Hu Hi. split.
  - pose proof (add_refines uuid f p Hu sid o kind r Hi) as Ha. pose proof (add_id uuid f p sid o kind r Hi) as Hid.
    destruct (addServer uuid f p sid o kind r) as [r' id]. cbn [snd] in Hid.
    assert (fst <$> entries (abs r) = m_orderedServerIds r) as E by apply fst_entries.
    rewrite E. split; [exact Hid|]. rewrite Ha, (has_listed r id) by apply Hi. done.
  - split; [by eapply edit_refines|by eapply remove_refines].
Qed.

(** an edit whose payload is not of the announced kind leaves the whole state, settings
    and signals included, as it was, although the code first deletes the entry. *)
Theorem rejected_edit_is_noop {JT : JsonText} f p sid o kind r :
  inv r -> configTypeFromJson f p (withoutStorageServerId o) <> kind ->
  editServer f p sid o kind r = r.
Proof.
  intros [Hc Hd] Hk. unfold editServer. destruct (indexOfServerId r sid); [|done].
  case_bool_decide; [done|]. destruct (m_serverJsonById r !! sid) as [old|] eqn:Ho; [|done].
  rewrite (bool_decide_eq_false_2 (_ = kind)) by done. simpl.
  rewrite bool_decide_eq_false_2 by apply configType_not_Invalid.
  rewrite bool_decide_eq_true_2 by done. simpl.
  rewrite insert_delete_eq, <- (core_json r Hc sid old Ho), insert_id by done. by destruct r.
Qed.

(** the search for a free server name always ends, after at most one try more than there
    are servers, with a name "Server k" that no server uses. *)
Theorem nextAvailableServerName_fresh f p r :
  exists n k, nextAvailableServerName f p (S (serversCount r)) r = Some n /\
    (n ∉ usedNames f p r) /\ n = candidateName k.
Proof.
  unfold nextAvailableServerName.
  pose proof (next_name_spec (S (serversCount r)) 0 (usedNames f p r)) as H.
  destruct (next_name _ _ _) as [n|]; [naive_solver|].
  pose proof (all_names_taken (S (serversCount r)) (usedNames f p r)) as Hall.
  pose proof (usedNames_size f p r). exfalso.
  assert (S (serversCount r) <= size (usedNames f p r))%nat by (apply Hall; intros; apply H; lia).
  lia.
Qed.

(** *** Witnesses *)

Definition sample_uuid : nat -> string := fun _ => "2f1d".

Lemma sample_uuid_text n : sample_uuid n <> "" /\ trimmed (sample_uuid n) = sample_uuid n.
Proof. by split. Qed.

Definition sample_server (host : string) : obj := oof [(Key.hostName, JStr host)].

(** Two servers added to an empty repository. *)
Definition sample_repo : repo :=
  let r0 := @SecureServersRepository json_text_model sample_uuid "free" "prem" (mkSettings "" "" 0) in
  let r1 := (@addServer json_text_model sample_uuid "free" "prem" " a " (sample_server "h1")
               SelfHostedUser r0).1 in
  (@addServer json_text_model sample_uuid "free" "prem" "" (sample_server "h2") SelfHostedUser r1).1.

Lemma sample_reach : @reach json_text_model sample_uuid "free" "prem" sample_repo.
Proof. unfold sample_repo. repeat constructor. Qed.

Lemma sample_inv : inv sample_repo.
Proof. apply (@reach_inv json_text_model sample_uuid "free" "prem" sample_uuid_text), sample_reach. Qed.

Lemma repository_invariant_witness :
  inv sample_repo /\ m_orderedServerIds sample_repo = ["a"; "2f1d"] /\ m_defaultServerId sample_repo = "a".
Proof.
  split; [|vm_compute; done].
  apply (@repository_invariant json_text_model sample_uuid "free" "prem");
    [exact sample_uuid_text|exact sample_reach].
Defined.

Lemma save_load_roundtrip_witness :
  m_orderedServerIds (@loadFromStorage json_text_model sample_uuid "free" "prem"
                        (@syncToStorage json_text_model sample_repo)) = ["a"; "2f1d"].
Proof.
  destruct (@save_load_roundtrip json_text_model sample_uuid "free" "prem" sample_repo
              sample_uuid_text sample_inv) as (_ & -> & _).
  vm_compute. reflexivity.
Defined.

Definition other_uuid : nat -> string := fun _ => "77aa".

Lemma other_uuid_text n : other_uuid n <> "" /\ trimmed (other_uuid n) = other_uuid n.
Proof. by split. Qed.

Lemma repository_refines_list_witness :
  chosen (abs (@removeServer json_text_model "a" sample_repo)) = "2f1d" /\
  (@addServer json_text_model other_uuid "free" "prem" "a" (sample_server "h3") SelfHostedUser
     sample_repo).2 = "77aa".
Proof.
  destruct (@repository_refines_list json_text_model other_uuid "free" "prem" "a" (sample_server "h3")
              SelfHostedUser sample_repo other_uuid_text sample_inv) as (Ha & _ & E).
  split; [rewrite E; vm_compute; reflexivity|].
  destruct (addServer other_uuid _ _ _ _ _ _) as [r' id]. destruct Ha as [E' _]. cbn [snd]. rewrite E'.
  vm_compute. reflexivity.
Defined.

Lemma rejected_edit_is_noop_witness :
  @editServer json_text_model "free" "prem" "a" (sample_server "h3") SelfHostedAdmin sample_repo
  = sample_repo.
Proof. apply rejected_edit_is_noop; [exact sample_inv|vm_compute; discriminate]. Defined.
