(* ===== verification/TunnelCoreState.v ===== *)
(** * The account controller: data

    [client/ui/controllers/tunnelCoreController.{h,cpp}] signs the user in to the TunnelCore
    service, keeps the session, the subscriptions, the VPN countries and the routing rules, and
    delivers VPN configurations.  It is driven by the user interface and by the replies of the
    network; every request carries the continuation its reply is handled with.  This file has
    the state, the requests in flight (continuations as data) and the outputs. *)

From S2P Require Import Prelude Json.

(** ** The world the controller runs in *)

Inductive OS := Android | IOS | Windows | MacOS | Linux | OtherOS.

#[export] Instance OS_eq_dec : EqDecision OS.
Proof. solve_decision. Defined.

(** Library code the controller calls and the platform it was built for.  Dates are
    milliseconds since the epoch (UTC). *)
Class World := {
  world_text :: JsonText;
  os : OS;
  iso_ms : string -> option Z;         (* QDateTime::fromString(_, Qt::ISODateWithMs).toUTC() *)
  iso : string -> option Z;            (* QDateTime::fromString(_, Qt::ISODate).toUTC() *)
  date_string : option Z -> string;    (* toString(Qt::ISODate), "" when invalid *)
  date_string_ms : Z -> string;        (* toString(Qt::ISODateWithMs) *)
  sha256_hex : string -> string;       (* QCryptographicHash::hash(_, Sha256).toHex() *)
  url_scheme : string -> string;
  url_host : string -> string;
  url_userInfo : string -> string;
  url_add_query : string -> string -> string -> string;   (* path, key, value *)
  to_uint_ok : string -> bool;         (* QString::toUInt(&ok) *)
  uuid_parse : string -> option string;    (* QUuid(_).toString(WithoutBraces), None if null *)
  uuid_new : nat -> string;            (* the n-th QUuid::createUuid() *)
  real_string : Z -> positive -> string;   (* QVariant(double).toString() *)
  country_name : string -> option string;  (* translated QLocale territory name of a code *)
  open_url_ok : string -> bool;        (* QDesktopServices::openUrl *)
  notifier_present : bool;             (* NotificationHandler::instanceOrNull() *)
  apply_routing : nat -> obj -> option string
      (* the n-th call of TunnelCoreSessionStorage::applyRouting; None is success, Some its
         error message *)
}.

(** Which callbacks of [TunnelCoreSessionStorage] were supplied. *)
Record callbacks := mkCallbacks {
  cb_load : bool; cb_save : bool; cb_clear : bool; cb_applyRouting : bool;
  cb_loadGeo : bool; cb_saveGeo : bool; cb_loadCache : bool; cb_saveCache : bool;
  cb_loadDevice : bool; cb_saveDevice : bool
}.

(** What the callbacks read and write. *)
Record store := mkStore {
  stored_session : option (string * string * bool * bool);
  stored_geo : string;
  stored_cache : gmap string obj;
  stored_device : string
}.

#[export] Instance eta_store : Eta store := fun s =>
  mkStore (stored_session s) (stored_geo s) (stored_cache s) (stored_device s).

(** ** Requests in flight *)

(** The continuation a request was sent with: the two lambdas passed to [request]. *)
Inductive kont :=
  | KRegisterDevice (emitSignedIn : bool)
  | KAuthenticate (path : string) (emailAccount : bool)
  | KLinkTelegram
  | KRevoke
  | KDeleteRequest
  | KRevokeAll
  | KMe
  | KCountrySelection
  | KGeoCountries
  | KCountryRouting (country cacheKey : string)
  | KDefaultRouting (cacheKey : string)
  | KConfigs
  | KSelectCountry
  | KConfig (suggestedFileName : string)
  | KBilling
  | KAppleConfirm (transactionId : string).

(** The three kinds of reply: of [request], of the download in [deliverConfig], and of
    [refreshRoutingCacheInBackground]. *)
Inductive job :=
  | Api (post : bool) (k : kont)
  | Download (fileName mode profile : string)
  | Background (cacheKey country : string).

Record pending := mkPending { p_id : nat; p_generation : Z; p_job : job }.

(** A finished [QNetworkReply]: [error() != NoError], the HTTP status (0 when there is none)
    and the body. *)
Record reply := mkReply { r_error : bool; r_status : Z; r_body : string }.

(** ** Outputs *)

Inductive output :=
  | Changed
  | SignedIn
  | ConfigReady (data fileName mode profile : string)
  | Send (id : nat) (url : string) (authorization : option string) (body : option obj)
  | Abort (id : nat)
  | SaveSession (token username : string) (emailAccount telegramLinked : bool)
  | ClearStored
  | ApplyRouting (routing : obj)
  | Notify (message : string)
  | OpenUrl (url : string)
  | PurchaseProduct (productId : string)
  | FinishTransaction (transactionId : string).

(** ** The controller *)

Record ctl := mkCtl {
  m_callbacks : callbacks;
  m_store : store;
  m_now : Z;                          (* QDateTime::currentDateTimeUtc() *)
  m_uuids : nat;                      (* identifiers generated so far *)
  m_applied : nat;                    (* calls of applyRouting so far *)
  m_pending : list pending;           (* replies not finished yet *)
  m_nextId : nat;
  m_purchases : nat;                  (* App Store purchases not reported yet *)
  m_out : list output;
  m_reply : option nat;
  m_token : string;
  m_username : string;
  m_error : string;
  m_subscriptions : list json;
  m_configs : list json;
  m_vpnCountries : list json;
  m_vpnCountryMode : string;
  m_selectedVpnCountry : string;
  m_effectiveVpnCountry : string;
  m_pendingConfigId : Z;
  m_selectedConfigId : Z;
  m_geoRoutingCountries : list (string * string);   (* code, name *)
  m_geoRoutingCountry : string;
  m_routingCache : gmap string obj;
  m_routingRefreshInFlight : gset string;
  m_lastAppliedRoutingCacheKey : string;
  m_lastAppliedRoutingRevision : string;
  m_deviceId : string;
  m_busy : bool;
  m_emailAccount : bool;
  m_telegramLinked : bool;
  m_accountDeletionRequested : bool;
  m_subscriptionKnown : bool;
  m_subscriptionAutoRenew : bool;
  m_subscriptionExpiresAt : option Z;
  m_lastSubscriptionNotificationKey : string;
  m_generation : Z
}.

#[export] Instance eta_ctl : Eta ctl := fun s =>
  mkCtl (m_callbacks s) (m_store s) (m_now s) (m_uuids s) (m_applied s) (m_pending s) (m_nextId s)
    (m_purchases s) (m_out s) (m_reply s) (m_token s) (m_username s) (m_error s)
    (m_subscriptions s) (m_configs s) (m_vpnCountries s) (m_vpnCountryMode s)
    (m_selectedVpnCountry s) (m_effectiveVpnCountry s) (m_pendingConfigId s)
    (m_selectedConfigId s) (m_geoRoutingCountries s) (m_geoRoutingCountry s)
    (m_routingCache s) (m_routingRefreshInFlight s) (m_lastAppliedRoutingCacheKey s)
    (m_lastAppliedRoutingRevision s) (m_deviceId s) (m_busy s) (m_emailAccount s)
    (m_telegramLinked s) (m_accountDeletionRequested s) (m_subscriptionKnown s)
    (m_subscriptionAutoRenew s) (m_subscriptionExpiresAt s)
    (m_lastSubscriptionNotificationKey s) (m_generation s).

(** Calls in sequence: [s |>> f |>> g] is [g (f s)]. *)
Notation "s |>> f" := (f s) (at level 61, left associativity, only parsing) : tunnel_scope.

(** Emit a signal or call out. *)
Definition out (o : output) (s : ctl) : ctl := s <| m_out := m_out s ++ [o] |>.

(** Constants of the file. *)
Definition apiBase : string := "https://tlsdmd.isgood.host/api/vpn/v1/".
Definition routingCacheRefreshIntervalSecs : Z := 6 * 60 * 60.
Definition routingCacheTimestampKey : string := "_tunnelcore_cached_at".

(** A cast of a 64-bit value to [int]. *)
Definition cast_int (z : Z) : Z := (wrap32 (z + 2 ^ 31) - 2 ^ 31)%Z.

(** [QDateTime::secsTo]. *)
Definition secsTo (from to : Z) : Z := Z.quot (to - from) 1000.

(** [QVariant::toString] of a JSON value. *)
Definition variant_string `{World} (v : option json) : string :=
  match v with
  | Some (JStr s) => s
  | Some (JInt z) => pretty z
  | Some (JReal n d) => real_string n d
  | Some (JBool b) => if b then "true" else "false"
  | _ => ""
  end.

(** A text with a carriage return or a line feed in it cannot be a header value. *)
Definition has_newline (s : string) : bool := str_has CR s || str_has LF s.

(** ** A sample world

    A platform on which every function of [World] is computable, for concrete runs: dates
    are decimal milliseconds (or the numeral of [date_string_ms]), a URL with the https scheme has the host ["node"]. *)
Definition sample_world (platform : OS) : World := {|
  world_text := json_text_model;
  os := platform;
  iso_ms s := match string_bits s with Some p => decode p | None => digits s end;
  iso s := None;
  date_string t := match t with Some z => pretty z | None => "" end;
  date_string_ms z := bits_string (encode z);
  sha256_hex s := "hash:" +:+ s;
  url_scheme s := if starts_with "https://" s then "https" else "";
  url_host s := if starts_with "https://" s then "node" else "";
  url_userInfo s := "";
  url_add_query path k v := path +:+ "?" +:+ k +:+ "=" +:+ v;
  to_uint_ok s := match digits s with Some _ => true | None => false end;
  uuid_parse s := if str_empty s then None else Some s;
  uuid_new n := "device-" +:+ pretty n;
  real_string n d := pretty n;
  country_name code := None;
  open_url_ok url := true;
  notifier_present := true;
  apply_routing n routing := None
|}.

Definition sample_callbacks : callbacks :=
  mkCallbacks true true true true true true true true true true.

(** A stored session of the user [name]. *)
Definition sample_store (name : string) : store :=
  mkStore (Some ("token-of-" +:+ name, name, false, true)) "" ∅ "device-0".

(** A successful reply with the given members, and a failed one. *)
Definition sample_reply `{JsonText} (members : obj) : reply :=
  mkReply false 200 (json_print (JObj (("ok", JBool true) :: members))).
