(* ===== verification/TunnelCore.v ===== *)
(** * The account controller: operations

    One definition per function of [client/ui/controllers/tunnelCoreController.cpp], in its
    order, on the state of [TunnelCoreState].  A lambda passed to [request] is a case of
    [success] or [failure] at the end of the file; [step] delivers one event of the user
    interface, the network, the App Store or the clock.  Translated messages are their
    source texts; logging is left out; one reading of the clock serves a whole handler. *)

From S2P Require Import Prelude Json TunnelCoreState.

Section Controller.
Context `{World}.

(** ** Subscriptions *)

Definition normalizeObfuscationPolicy (object : obj) : string * string :=
  let mode := to_lower (trimmed (to_string (ofind "mode" object))) in
  let mode := if String.eqb mode "client_dynamic" then mode else "static" in
  let profile := to_lower (trimmed (to_string (ofind "profile" object))) in
  let profile := if String.eqb mode "client_dynamic" && str_empty profile then "auto" else profile in
  (mode, profile).

(** A date in one of the two ISO formats. *)
Definition parse_date (raw : string) : option Z :=
  match iso_ms raw with Some t => Some t | None => iso raw end.

Definition subscriptionExpiry (subscription : obj) : option Z :=
  parse_date (variant_string (ofind "expires_at" subscription)).

(** [expiry.isValid() && (!latest.isValid() || expiry > latest)] *)
Definition later (expiry latest : option Z) : bool :=
  match expiry, latest with
  | Some e, Some l => (l <? e)%Z
  | Some _, None => true
  | None, _ => false
  end.

Definition is_nil {A} (l : list A) : bool := match l with [] => true | _ => false end.

(** [primarySubscription()]: the loop over [m_subscriptions] with its two locals. *)
Definition primary_loop (l : list json) (acc : obj * option Z) : obj * option Z :=
  fold_left (fun '(primary, latestExpiry) value =>
    let subscription := to_object (Some value) in
    let expiry := subscriptionExpiry subscription in
    if is_nil primary || later expiry latestExpiry then (subscription, expiry)
    else (primary, latestExpiry)) l acc.

Definition primarySubscription (s : ctl) : obj := (primary_loop (m_subscriptions s) ([], None)).1.

Definition usesAppleBilling : bool := match os with IOS => true | _ => false end.

Definition externalRenewalLinkAllowed : bool :=
  match os with Android | Windows => false | _ => true end.

Definition authenticated (s : ctl) : bool := negb (str_empty (m_token s)).

Definition subscriptionExpired (s : ctl) : bool :=
  if negb (authenticated s) || negb (m_subscriptionKnown s) then false
  else match m_subscriptionExpiresAt s with
       | None => true
       | Some t => (t <=? m_now s)%Z
       end.

Definition subscriptionDaysRemaining (s : ctl) : Z :=
  match m_subscriptionExpiresAt s with
  | None => 0
  | Some t =>
      let seconds := secsTo (m_now s) t in
      if (seconds <=? 0)%Z then 0 else cast_int (Z.quot (seconds + 86399) 86400)
  end.

Definition subscriptionWarningVisible (s : ctl) : bool :=
  if negb (authenticated s) || negb (m_subscriptionKnown s) || m_subscriptionAutoRenew s then false
  else subscriptionExpired s || (subscriptionDaysRemaining s <=? 7)%Z.

Definition subscriptionStatusText (s : ctl) : string :=
  if negb (m_subscriptionKnown s) then ""
  else if subscriptionExpired s then
    "VPN subscription is inactive. Renew it to keep using TunnelCore VPN."
  else
    let days := subscriptionDaysRemaining s in
    if (days <=? 0)%Z then "Your VPN subscription expires today."
    else if (days =? 1)%Z then "Your VPN subscription expires tomorrow."
    else "Your VPN subscription expires in " +:+ pretty days +:+ " days.".

(** The reminder stage of [maybeNotifySubscription]. *)
Definition reminderStage (s : ctl) : string :=
  if subscriptionExpired s then "expired"
  else if (subscriptionDaysRemaining s <=? 1)%Z then "1d"
  else if (subscriptionDaysRemaining s <=? 3)%Z then "3d"
  else "7d".

Definition maybeNotifySubscription (s : ctl) : ctl :=
  if negb (subscriptionWarningVisible s) then s
  else
    let key := date_string (m_subscriptionExpiresAt s) +:+ ":" +:+ reminderStage s in
    if String.eqb key (m_lastSubscriptionNotificationKey s) then s
    else
      let message := subscriptionStatusText s in
      let notified := out (Notify message) s in
      match os with
      | Android => notified <| m_lastSubscriptionNotificationKey := key |>
      | _ =>
          if notifier_present then notified <| m_lastSubscriptionNotificationKey := key |> else s
      end.

Definition updateSubscriptionState (accountObject : obj) (s : ctl) : ctl :=
  let entitlement := to_object (ofind "entitlement" accountObject) in
  let autoRenew := to_bool (ofind "auto_renew" entitlement) in
  let expires :=
    if to_bool (ofind "active" entitlement)
    then parse_date (to_string (ofind "expires_at" entitlement)) else None in
  let s := s <| m_subscriptionKnown := true |>
             <| m_subscriptionAutoRenew := if is_nil entitlement then false else autoRenew |>
             <| m_subscriptionExpiresAt := if is_nil entitlement then None else expires |> in
  let s :=
    match m_subscriptionExpiresAt s with
    | Some _ => s
    | None =>
        s <| m_subscriptionExpiresAt :=
          fold_left (fun best value =>
            let expiry := subscriptionExpiry (to_object (Some value)) in
            if later expiry best then expiry else best) (m_subscriptions s) None |>
    end in
  maybeNotifySubscription s.

(** ** Errors and requests *)

Definition fail (message : string) (s : ctl) : ctl :=
  out Changed (s <| m_busy := false |> <| m_pendingConfigId := 0%Z |> <| m_error := message |>).

Definition clearError (s : ctl) : ctl := out Changed (s <| m_error := "" |>).

(** Hand a request to the network manager; its reply is [m_nextId]. *)
Definition send (url : string) (auth : option string) (body : option obj) (j : job) (s : ctl) : ctl :=
  out (Send (m_nextId s) url auth body)
    (s <| m_pending := m_pending s ++ [mkPending (m_nextId s) (m_generation s) j] |>
       <| m_nextId := S (m_nextId s) |>).

Definition request (path : string) (body : obj) (k : kont) (post authenticatedRequest : bool)
    (s : ctl) : ctl :=
  let s := out Changed (s <| m_busy := true |> <| m_error := "" |>) in
  let auth := if negb post || authenticatedRequest then Some ("Bearer " +:+ m_token s) else None in
  let id := m_nextId s in
  (send (apiBase +:+ path) auth (if post then Some body else None) (Api post k) s)
    <| m_reply := Some id |>.

(** A [GET] and an authenticated [POST]. *)
Definition get (path : string) (k : kont) : ctl -> ctl := request path [] k false false.
Definition post_auth (path : string) (body : obj) (k : kont) : ctl -> ctl :=
  request path body k true true.

Definition saveSession (s : ctl) : ctl :=
  if cb_save (m_callbacks s) then
    out (SaveSession (m_token s) (m_username s) (m_emailAccount s) (m_telegramLinked s))
      (s <| m_store := (m_store s) <| stored_session :=
           Some (m_token s, m_username s, m_emailAccount s, m_telegramLinked s) |> |>)
  else s.

(** [m_sessionStorage.clear()], when there is one. *)
Definition clearStored (s : ctl) : ctl :=
  if cb_clear (m_callbacks s) then
    out ClearStored (s <| m_store := (m_store s) <| stored_session := None |> |>)
  else s.

Definition ensureDeviceId (s : ctl) : string * ctl :=
  if str_empty (m_deviceId s) then
    let id := uuid_new (m_uuids s) in
    let s := s <| m_deviceId := id |> <| m_uuids := S (m_uuids s) |> in
    (id, if cb_saveDevice (m_callbacks s)
         then s <| m_store := (m_store s) <| stored_device := id |> |> else s)
  else (m_deviceId s, s).

Definition deviceRequestPath (path : string) (s : ctl) : string :=
  if str_empty (m_deviceId s) then path else url_add_query path "device_id" (m_deviceId s).

Definition routingPlatform : string :=
  match os with
  | Android => "android" | IOS => "ios" | Windows => "windows"
  | MacOS => "macos" | Linux => "linux" | OtherOS => "other"
  end.

Definition registerDevice (emitSignedIn : bool) (s : ctl) : ctl :=
  let '(id, s) := ensureDeviceId s in
  post_auth "devices/register/" (oof [("device_id", JStr id); ("platform", JStr routingPlatform)])
    (KRegisterDevice emitSignedIn) s.

(** ** Sessions *)

(** [m_reply->abort()]: the reply finishes at once, and its handler sees a generation that
    is not its own. *)
Definition abort_reply (s : ctl) : ctl :=
  match m_reply s with
  | None => s
  | Some id =>
      out (Abort id)
        (s <| m_pending := filter (fun p => p_id p <> id) (m_pending s) |> <| m_reply := None |>)
  end.

(** The members [clearSession] resets. *)
Definition forgetAccount (s : ctl) : ctl :=
  s <| m_token := "" |> <| m_username := "" |> <| m_subscriptions := [] |>
    <| m_configs := [] |> <| m_vpnCountries := [] |> <| m_vpnCountryMode := "auto" |>
    <| m_selectedVpnCountry := "" |> <| m_effectiveVpnCountry := "" |>
    <| m_pendingConfigId := 0%Z |> <| m_error := "" |> <| m_selectedConfigId := 0%Z |>
    <| m_busy := false |> <| m_emailAccount := false |> <| m_telegramLinked := false |>
    <| m_accountDeletionRequested := false |> <| m_subscriptionKnown := false |>
    <| m_subscriptionAutoRenew := false |> <| m_subscriptionExpiresAt := None |>
    <| m_lastSubscriptionNotificationKey := "" |> <| m_lastAppliedRoutingCacheKey := "" |>
    <| m_lastAppliedRoutingRevision := "" |>.

Definition clearSession (s : ctl) : ctl :=
  let s := s <| m_generation := wrap32 (m_generation s + 1) |> in
  let s := abort_reply s in
  let s := forgetAccount s in
  out Changed (clearStored s).

Definition sessionEnded (s : ctl) : ctl :=
  fail "Your session has ended. Sign in again." (clearSession s).

Definition authenticate (path : string) (credentials : obj) (emailAccount : bool) : ctl -> ctl :=
  request path credentials (KAuthenticate path emailAccount) true false.

Definition login (username password : string) (s : ctl) : ctl :=
  if m_busy s || authenticated s then s
  else if str_empty (trimmed username) || str_empty password
  then fail "Enter the username and password from the bot." s
  else authenticate "auth/login/"
         (oof [("username", JStr (trimmed username)); ("password", JStr password)]) false s.

(** [normalizedCode.size() != 6 || !isNumber] *)
Definition bad_code (normalizedCode : string) : bool :=
  negb (String.length normalizedCode =? 6)%nat || negb (to_uint_ok normalizedCode).

Definition loginCode (code : string) (s : ctl) : ctl :=
  if m_busy s || authenticated s then s
  else
    let normalizedCode := trimmed code in
    if bad_code normalizedCode then fail "Enter the six-digit code from the bot." s
    else authenticate "auth/code/exchange/" (oof [("code", JStr normalizedCode)]) false s.

Definition emailForm (path email password : string) (s : ctl) : ctl :=
  if m_busy s || authenticated s then s
  else
    let normalizedEmail := to_lower (trimmed email) in
    if str_empty normalizedEmail || str_empty password
    then fail "Enter your email and password." s
    else authenticate path (oof [("email", JStr normalizedEmail); ("password", JStr password)]) true s.

Definition loginEmail (email password : string) : ctl -> ctl :=
  emailForm "auth/login/" email password.

Definition registerEmail (email password : string) : ctl -> ctl :=
  emailForm "auth/register/" email password.

Definition linkTelegram (code : string) (s : ctl) : ctl :=
  if m_busy s || negb (authenticated s) || negb (m_emailAccount s) then s
  else
    let normalizedCode := trimmed code in
    if bad_code normalizedCode then fail "Enter the six-digit code from the bot." s
    else post_auth "auth/telegram/link/" (oof [("code", JStr normalizedCode)]) KLinkTelegram s.

Definition logout (s : ctl) : ctl :=
  if negb (authenticated s) then clearSession s
  else if str_empty (m_deviceId s)
  then fail "Could not sign out because this device is not registered." s
  else post_auth "devices/revoke/" (oof [("device_id", JStr (m_deviceId s))]) KRevoke s.

Definition requestAccountDeletion (s : ctl) : ctl :=
  if m_busy s || negb (authenticated s) || m_accountDeletionRequested s then s
  else post_auth "account/delete-request/" [] KDeleteRequest s.

Definition logoutAll (s : ctl) : ctl :=
  if negb (authenticated s) then clearSession s
  else post_auth "devices/revoke-all/" [] KRevokeAll s.

(** ** Configurations *)

Definition deliverConfig (data fileName obfuscationMode obfuscationProfile : string)
    (s : ctl) : ctl :=
  if negb (String.eqb (url_scheme data) "https")
  then out (ConfigReady data fileName obfuscationMode obfuscationProfile) s
  else if str_empty (url_host data) || negb (str_empty (url_userInfo data))
  then fail "The server returned an invalid configuration URL." s
  else
    let s := out Changed (s <| m_busy := true |> <| m_error := "" |>) in
    let id := m_nextId s in
    (send data None None (Download fileName obfuscationMode obfuscationProfile) s)
      <| m_reply := Some id |>.

Definition selectConfig (index : Z) (s : ctl) : ctl :=
  if m_busy s || negb (authenticated s) || (index <? 0)%Z
     || (Z.of_nat (length (m_configs s)) <=? index)%Z then s
  else
    let config := to_object (m_configs s !! Z.to_nat index) in
    let data := trimmed (variant_string (ofind "config" config)) in
    let listedFileName := trimmed (variant_string (ofind "filename" config)) in
    let listedName := trimmed (variant_string (ofind "name" config)) in
    let suggestedFileName := if str_empty listedFileName then listedName else listedFileName in
    let listedPolicy := normalizeObfuscationPolicy (to_object (ofind "obfuscation" config)) in
    if negb (str_empty data)
    then deliverConfig data suggestedFileName listedPolicy.1 listedPolicy.2 s
    else
      match to_longlong (ofind "id" config) with
      | Some configId =>
          if (configId <=? 0)%Z then fail "The server returned invalid configuration data." s
          else get (deviceRequestPath ("configs/" +:+ pretty configId +:+ "/") s)
                 (KConfig suggestedFileName) s
      | None => fail "The server returned invalid configuration data." s
      end.

(** The identifier of a listed configuration, [None] when it is not valid. *)
Definition config_id (config : json) : option Z := to_longlong (ofind "id" (to_object (Some config))).

(** The first index of [l] whose element passes the test. *)
Fixpoint config_index (test : json -> bool) (l : list json) : option Z :=
  match l with
  | [] => None
  | c :: r => if test c then Some 0%Z else Z.succ <$> config_index test r
  end.

Definition selectCurrentConfig (s : ctl) : ctl :=
  if m_busy s || negb (authenticated s) then s
  else
    match config_index (fun c => (0 <? m_selectedConfigId s)%Z
                             && (default 0 (config_id c) =? m_selectedConfigId s)%Z)
            (m_configs s) with
    | Some i => selectConfig i s
    | None =>
        if (m_selectedConfigId s <=? 0)%Z && (length (m_configs s) =? 1)%nat
        then selectConfig 0 s
        else fail "No configuration is available for the selected VPN location. Refresh and try again." s
    end.

(** The success lambda of [refreshConfigs]. *)
Definition configsReceived (object : obj) (s : ctl) : ctl :=
  if negb (is_array (ofind "configs" object))
  then fail "The server returned an invalid configuration list." s
  else
    let s := s <| m_configs := to_array (ofind "configs" object) |> in
    if (m_pendingConfigId s <=? 0)%Z then s
    else
      let configId := m_pendingConfigId s in
      let s := s <| m_pendingConfigId := 0%Z |> in
      match config_index (fun c => bool_decide (config_id c = Some configId)) (m_configs s) with
      | Some i => selectConfig i s
      | None => fail "The server returned invalid configuration data." s
      end.

Definition refreshConfigs (s : ctl) : ctl := get (deviceRequestPath "configs/" s) KConfigs s.

(** The success lambda of [selectConfig]. *)
Definition configReceived (suggestedFileName : string) (object : obj) (s : ctl) : ctl :=
  let downloadedConfig := trimmed (to_string (ofind "config" object)) in
  if str_empty downloadedConfig then fail "The server returned an empty VPN configuration." s
  else
    let fileName := trimmed (to_string (ofind "filename" object)) in
    let fileName := if str_empty fileName then trimmed (to_string (ofind "name" object)) else fileName in
    let fileName := if str_empty fileName then suggestedFileName else fileName in
    let policy := normalizeObfuscationPolicy (to_object (ofind "obfuscation" object)) in
    deliverConfig downloadedConfig fileName policy.1 policy.2 s.

(** ** Countries *)

(** [applyVpnCountrySelection]: whether the answer was valid, and the new state. *)
Definition applyVpnCountrySelection (object : obj) (s : ctl) : bool * ctl :=
  match ofind "selection" object with
  | Some (JObj selection) =>
      match ofind "countries" selection with
      | Some (JArr countries) =>
          let mode := to_lower (trimmed (to_string (ofind "mode" selection))) in
          if negb (String.eqb mode "auto") && negb (String.eqb mode "country") then (false, s)
          else
            (true,
             s <| m_vpnCountries := countries |> <| m_vpnCountryMode := mode |>
               <| m_selectedVpnCountry := to_upper (trimmed (to_string (ofind "country" selection))) |>
               <| m_effectiveVpnCountry :=
                    to_upper (trimmed (to_string (ofind "effective_country" selection))) |>
               <| m_selectedConfigId := default 0%Z (to_longlong (ofind "config_id" selection)) |>)
      | _ => (false, s)
      end
  | _ => (false, s)
  end.

Definition vpnCountryDisplayName (countryCode : string) : string :=
  let code := to_upper (trimmed countryCode) in
  if str_empty code then ""
  else match country_name code with
       | None => code
       | Some name => if str_empty name then code else name
       end.

(** ** Routing *)

Definition routingCacheKey (countryCode : string) : string :=
  let country := to_upper (trimmed countryCode) in
  if str_empty country then "default:" +:+ routingPlatform
  else "country:" +:+ country +:+ ":" +:+ routingPlatform.

Definition cachedRouting (cacheKey : string) (s : ctl) : obj * ctl :=
  match m_routingCache s !! cacheKey with
  | Some cached => (cached, s)
  | None =>
      if negb (cb_loadCache (m_callbacks s)) then ([], s)
      else
        let stored := default [] (stored_cache (m_store s) !! cacheKey) in
        if negb (is_array (ofind "rules" stored)) then ([], s)
        else (stored, s <| m_routingCache := <[cacheKey := stored]> (m_routingCache s) |>)
  end.

Definition storeRoutingCache (cacheKey : string) (routing : obj) (s : ctl) : ctl :=
  if negb (is_array (ofind "rules" routing)) then s
  else
    let stored := oset routingCacheTimestampKey (JStr (date_string_ms (m_now s))) routing in
    let s := s <| m_routingCache := <[cacheKey := stored]> (m_routingCache s) |> in
    if cb_saveCache (m_callbacks s)
    then s <| m_store := (m_store s) <| stored_cache :=
                <[cacheKey := stored]> (stored_cache (m_store s)) |> |>
    else s.

Definition routingCacheIsFresh (routing : obj) (s : ctl) : bool :=
  match parse_date (to_string (ofind routingCacheTimestampKey routing)) with
  | None => false
  | Some cachedAt =>
      let age := secsTo cachedAt (m_now s) in
      (0 <=? age)%Z && (age <? routingCacheRefreshIntervalSecs)%Z
  end.

Definition routingRevision (routing : obj) : string :=
  let version := trimmed (to_string (ofind "version" routing)) in
  if negb (str_empty version) then version
  else sha256_hex (json_print (JObj (oremove routingCacheTimestampKey routing))).

(** The rule appended for one IPv4 subnet of a country. *)
Definition directRule (subnet : string) : json :=
  JObj (oof [("type", JStr "ip"); ("value", JStr subnet); ("route", JStr "direct"); ("priority", JInt 0)]).

Definition countryRules (ipv4 : list json) : list json :=
  omap (fun value =>
    let subnet := trimmed (to_string (Some value)) in
    if str_empty subnet then None else Some (directRule subnet)) ipv4.

(** An undefined value inserted in an object leaves the key out. *)
Definition oset_value (k : string) (v : option json) (o : obj) : obj :=
  match v with Some j => oset k j o | None => oremove k o end.

(** [normalizeRoutingResponse]: the error message, or the routing. *)
Definition normalizeRoutingResponse (countryCode : string) (object : obj) : string + obj :=
  let country := to_upper (trimmed countryCode) in
  if str_empty country then
    if is_array (ofind "rules" object) then inr object
    else inl "The server returned an invalid VPN routing rule list."
  else if negb (String.eqb (to_string (ofind "mode" object)) "country_direct")
          || negb (String.eqb (to_string (ofind "default_route" object)) "vpn")
          || negb (String.eqb (to_string (ofind "country_route" object)) "direct")
          || negb (is_array (ofind "ipv4" object))
  then inl "The server returned invalid country routing data."
  else
    inr (oset "rules" (JArr (countryRules (to_array (ofind "ipv4" object))))
        (oset "country" (JStr country)
        (oset "platform" (JStr routingPlatform)
        (oset_value "version" (ofind "version" object)
        (oset "ok" (JBool true) []))))).

Definition applyRouting (cacheKey : string) (routing : obj) (reportError : bool) (s : ctl)
    : bool * ctl :=
  if negb (is_array (ofind "rules" routing)) then
    (false, if reportError then fail "The server returned an invalid VPN routing rule list." s else s)
  else
    let revision := routingRevision routing in
    if String.eqb cacheKey (m_lastAppliedRoutingCacheKey s)
       && String.eqb revision (m_lastAppliedRoutingRevision s)
    then (true, s)
    else
      let applied s := s <| m_lastAppliedRoutingCacheKey := cacheKey |>
                         <| m_lastAppliedRoutingRevision := revision |> in
      if cb_applyRouting (m_callbacks s) then
        let s' := out (ApplyRouting routing) (s <| m_applied := S (m_applied s) |>) in
        match apply_routing (m_applied s) routing with
        | None => (true, applied s')
        | Some errorMessage =>
            (false, if reportError
                    then fail (if str_empty errorMessage
                               then "Could not apply the VPN routing rules." else errorMessage) s'
                    else s')
        end
      else (true, applied s).

Definition refreshRoutingCacheInBackground (cacheKey countryCode : string) (s : ctl) : ctl :=
  if negb (authenticated s) || bool_decide (cacheKey ∈ m_routingRefreshInFlight s) then s
  else
    let country := to_upper (trimmed countryCode) in
    let path := if str_empty country then "routing/?platform=" +:+ routingPlatform
                else "routing/countries/" +:+ country +:+ "/" in
    (send (apiBase +:+ path) (Some ("Bearer " +:+ m_token s)) None (Background cacheKey country) s)
      <| m_routingRefreshInFlight := {[cacheKey]} ∪ m_routingRefreshInFlight s |>.

(** The lambda [applyAndContinue] of [refreshRouting]. *)
Definition applyAndContinue (cacheKey : string) (routing : obj) (s : ctl) : ctl :=
  let s := storeRoutingCache cacheKey routing s in
  match applyRouting cacheKey routing true s with
  | (false, s) => s
  | (true, s) => refreshConfigs s
  end.

Definition refreshRouting (s : ctl) : ctl :=
  let country := to_upper (trimmed (m_geoRoutingCountry s)) in
  let cacheKey := routingCacheKey country in
  let '(cached, s) := cachedRouting cacheKey s in
  if negb (is_nil cached) && is_array (ofind "rules" cached) then
    match applyRouting cacheKey cached true s with
    | (false, s) => s
    | (true, s) =>
        let fresh := routingCacheIsFresh cached s in
        let s := refreshConfigs s in
        if fresh then s else refreshRoutingCacheInBackground cacheKey country s
    end
  else if negb (str_empty country)
  then get ("routing/countries/" +:+ country +:+ "/") (KCountryRouting country cacheKey) s
  else get ("routing/?platform=" +:+ routingPlatform) (KDefaultRouting cacheKey) s.

(** The success lambdas of [refreshRouting]. *)
Definition routingReceived (country cacheKey : string) (object : obj) (s : ctl) : ctl :=
  match normalizeRoutingResponse country object with
  | inl errorMessage => fail errorMessage s
  | inr routing => applyAndContinue cacheKey routing s
  end.

Definition refreshGeoRoutingCountries (s : ctl) : ctl := get "routing/countries/" KGeoCountries s.

(** Whether a code is one of the offered split-tunneling countries. *)
Definition geoAvailable (code : string) (s : ctl) : bool :=
  existsb (fun item => String.eqb item.1 code) (m_geoRoutingCountries s).

(** [m_sessionStorage.saveGeoRoutingCountry(code)], when there is one. *)
Definition saveGeo (code : string) (s : ctl) : ctl :=
  if cb_saveGeo (m_callbacks s) then s <| m_store := (m_store s) <| stored_geo := code |> |> else s.

Definition geoCountriesOf (values : list json) : list (string * string) :=
  omap (fun value =>
    let code := to_upper (trimmed (to_string (Some value))) in
    if (String.length code =? 2)%nat then Some (code, vpnCountryDisplayName code) else None) values.

(** The success lambda of [refreshGeoRoutingCountries]. *)
Definition geoCountriesReceived (object : obj) (s : ctl) : ctl :=
  match ofind "countries" object with
  | Some (JArr values) =>
      let s := s <| m_geoRoutingCountries := geoCountriesOf values |> in
      let s :=
        if negb (str_empty (m_geoRoutingCountry s)) && negb (geoAvailable (m_geoRoutingCountry s) s)
        then saveGeo "" (s <| m_geoRoutingCountry := "" |>) else s in
      refreshRouting s
  | _ => fail "The server returned an invalid split-tunneling country list." s
  end.

Definition selectGeoRoutingCountry (countryCode : string) (s : ctl) : ctl :=
  if m_busy s || negb (authenticated s) then s
  else
    let normalized := to_upper (trimmed countryCode) in
    if String.eqb normalized (m_geoRoutingCountry s) then s
    else if negb (str_empty normalized) && negb (geoAvailable normalized s)
    then fail "The selected split-tunneling country is unavailable." s
    else
      let s := saveGeo normalized (s <| m_geoRoutingCountry := normalized |>) in
      refreshRouting (out Changed s).

Definition selectVpnCountry (countryCode : string) (s : ctl) : ctl :=
  if m_busy s || negb (authenticated s) then s
  else
    let normalized := to_upper (trimmed countryCode) in
    let autoMode := str_empty normalized || String.eqb normalized "AUTO" in
    if (autoMode && String.eqb (m_vpnCountryMode s) "auto")
       || (negb autoMode && String.eqb (m_vpnCountryMode s) "country"
           && String.eqb (m_selectedVpnCountry s) normalized) then s
    else
      let '(deviceId, s) := ensureDeviceId s in
      let body := oset "device_id" (JStr deviceId) [] in
      let body := if autoMode then oset "mode" (JStr "auto") body
                  else oset "country" (JStr normalized) (oset "mode" (JStr "country") body) in
      post_auth "country-selection/" body KSelectCountry s.

(** The success lambda of [selectVpnCountry]. *)
Definition countrySelected (object : obj) (s : ctl) : ctl :=
  match applyVpnCountrySelection object s with
  | (false, s) => fail "The server returned invalid VPN country data." s
  | (true, s) =>
      let pendingId :=
        match to_longlong (ofind "config_id" (to_object (ofind "selection" object))) with
        | Some configId => if (0 <? configId)%Z then configId else 0%Z
        | None => 0%Z
        end in
      refreshRouting (s <| m_pendingConfigId := pendingId |> <| m_configs := [] |>)
  end.

Definition selectedProfileKey (s : ctl) : string :=
  if negb (authenticated s) || (m_selectedConfigId s <=? 0)%Z || str_empty (m_effectiveVpnCountry s)
  then ""
  else json_print (JArr [JStr (m_username s); JStr (pretty (m_selectedConfigId s));
                         JStr (m_effectiveVpnCountry s)]).

(** ** Account data *)

Definition refresh (s : ctl) : ctl :=
  if m_busy s || negb (authenticated s) then s
  else get "me/" KMe (s <| m_configs := [] |> <| m_subscriptions := [] |>).

(** The success lambda of [refresh]. *)
Definition meReceived (object : obj) (s : ctl) : ctl :=
  if negb (is_array (ofind "subscriptions" object))
  then fail "The server returned an invalid subscription list." s
  else
    let s := match ofind "telegram_linked" object with
             | Some (JBool b) => saveSession (s <| m_telegramLinked := b |>)
             | _ => s
             end in
    let s := match ofind "deletion_requested" object with
             | Some (JBool b) => s <| m_accountDeletionRequested := b |>
             | _ => s
             end in
    let s := s <| m_subscriptions := to_array (ofind "subscriptions" object) |> in
    let s := updateSubscriptionState object s in
    get (deviceRequestPath "country-selection/" s) KCountrySelection s.

(** The success lambda of [authenticate]. *)
Definition authenticated_reply (emailAccount : bool) (object : obj) (s : ctl) : ctl :=
  let token := to_string (ofind "access_token" object) in
  let user := to_object (ofind "user" object) in
  let accountUsername := to_string (ofind "username" user) in
  let email := to_string (ofind "email" user) in
  let username := if emailAccount && negb (str_empty email) then email else accountUsername in
  if str_empty token || has_newline token || str_empty username
     || negb (ci_eqb (to_string (ofind "token_type" object)) "Bearer")
  then fail "The server returned an invalid authentication response." s
  else
    registerDevice true
      (saveSession (s <| m_token := token |> <| m_username := username |>
                      <| m_emailAccount := emailAccount |>
                      <| m_telegramLinked := to_bool (ofind "telegram_linked" object) |>)).

(** ** Billing *)

(** The product of the first [app_store] method. *)
Fixpoint appStoreProduct (methods : list json) : string :=
  match methods with
  | [] => ""
  | m :: r =>
      let method := to_object (Some m) in
      if String.eqb (to_string (ofind "type" method)) "app_store"
      then trimmed (to_string (ofind "product_id" method)) else appStoreProduct r
  end.

Definition billingReceived (object : obj) (s : ctl) : ctl :=
  let billing := to_object (ofind "billing" object) in
  let productId := appStoreProduct (to_array (ofind "methods" billing)) in
  if str_empty productId
  then fail "App Store renewal is not configured for this subscription." s
  else
    out (PurchaseProduct productId)
      ((out Changed (s <| m_busy := true |> <| m_error := "" |>))
         <| m_purchases := S (m_purchases s) |>).

Definition renewSubscription (s : ctl) : ctl :=
  if m_busy s || negb (authenticated s) then s
  else
    match os with
    | Android | Windows => s
    | IOS => get "billing/?platform=ios" KBilling s
    | _ =>
        let botUrl := if m_emailAccount s && negb (m_telegramLinked s)
                      then "https://t.me/tunnelcoree_bot"
                      else "https://t.me/tunnelcoree_bot?start=renew_vpn" in
        let s := out (OpenUrl botUrl) s in
        if open_url_ok botUrl then s else fail "Could not open the TunnelCore bot." s
    end.

Inductive StorePurchaseFailure := Cancelled | PurchasePending | OtherFailure.

Record purchase := mkPurchase {
  pu_success : bool; pu_transactionId : string; pu_productId : string;
  pu_originalTransactionId : string; pu_environment : string; pu_errorString : string;
  pu_failureReason : StorePurchaseFailure
}.

(** The lambda passed to [purchaseProduct]. *)
Definition purchaseFinished (r : purchase) (s : ctl) : ctl :=
  let s := s <| m_purchases := pred (m_purchases s) |> <| m_busy := false |> in
  if negb (pu_success r) then
    match pu_failureReason r with
    | Cancelled => out Changed s
    | PurchasePending => fail "The App Store purchase is pending approval." s
    | OtherFailure =>
        fail (if str_empty (pu_errorString r) then "Could not complete the App Store purchase."
              else "Could not complete the App Store purchase: " +:+ pu_errorString r) s
    end
  else
    post_auth "billing/apple/confirm/"
      (oof [("transaction_id", JStr (pu_transactionId r)); ("product_id", JStr (pu_productId r));
            ("original_transaction_id", JStr (pu_originalTransactionId r));
            ("environment", JStr (pu_environment r))])
      (KAppleConfirm (pu_transactionId r)) s.

(** ** The lambdas passed to [request] *)

(** The success lambda of [registerDevice]. *)
Definition deviceRegistered (emitSignedIn : bool) (object : obj) (s : ctl) : ctl :=
  let device := to_object (ofind "device" object) in
  if negb (String.eqb (to_string (ofind "device_id" device)) (m_deviceId s))
  then fail "The server returned invalid device registration data." s
  else refresh (if emitSignedIn then out SignedIn s else s).

(** The success lambda of [linkTelegram]. *)
Definition telegramAttached (s : ctl) : ctl :=
  refresh (saveSession (s <| m_telegramLinked := true |>)).

(** The success lambda of [requestAccountDeletion]. *)
Definition deletionAccepted (object : obj) (s : ctl) : ctl :=
  if negb (String.eqb (to_string (ofind "status" object)) "pending")
  then fail "Could not confirm the account deletion request. Contact support." s
  else s <| m_accountDeletionRequested := true |>.

(** The success lambda of [refresh] (country selection). *)
Definition countrySelectionReceived (object : obj) (s : ctl) : ctl :=
  match applyVpnCountrySelection object s with
  | (false, s) => fail "The server returned an invalid VPN country list." s
  | (true, s) => refreshGeoRoutingCountries s
  end.

(** The success lambda of [renewSubscription] (confirmation). *)
Definition appleConfirmed (transactionId : string) (s : ctl) : ctl :=
  refresh ((out (FinishTransaction transactionId) s) <| m_lastSubscriptionNotificationKey := "" |>).

(** The success lambda of each request. *)
Definition success (k : kont) (object : obj) (s : ctl) : ctl :=
  match k with
  | KRegisterDevice emitSignedIn => deviceRegistered emitSignedIn object s
  | KAuthenticate _ emailAccount => authenticated_reply emailAccount object s
  | KLinkTelegram => telegramAttached s
  | KRevoke | KRevokeAll => clearSession s
  | KDeleteRequest => deletionAccepted object s
  | KMe => meReceived object s
  | KCountrySelection => countrySelectionReceived object s
  | KGeoCountries => geoCountriesReceived object s
  | KCountryRouting country cacheKey => routingReceived country cacheKey object s
  | KDefaultRouting cacheKey => routingReceived "" cacheKey object s
  | KConfigs => configsReceived object s
  | KSelectCountry => countrySelected object s
  | KConfig suggestedFileName => configReceived suggestedFileName object s
  | KBilling => billingReceived object s
  | KAppleConfirm transactionId => appleConfirmed transactionId s
  end.

(** The failure lambda of [registerDevice]. *)
Definition registerDeviceFailed (emitSignedIn : bool) (status : Z) (object : obj) (s : ctl) : ctl :=
  let apiError := to_string (ofind "error" object) in
  let signed s := if emitSignedIn then out SignedIn s else s in
  if (status =? 401)%Z then sessionEnded s
  else if (status =? 409)%Z && String.eqb apiError "device_limit_reached" then
    fail "The device limit for this subscription has been reached. Remove another device and try again." (signed s)
  else if (status =? 409)%Z && String.eqb apiError "vpn_subscription_required" then
    fail "An active VPN subscription is required to register this device."
      (maybeNotifySubscription
         ((signed s) <| m_subscriptionKnown := true |> <| m_subscriptionAutoRenew := false |>
                     <| m_subscriptionExpiresAt := None |>))
  else if (status =? 503)%Z && String.eqb apiError "vpn_node_unavailable" then
    fail "No VPN server is currently available for this device. Try again later." s
  else if (status =? 502)%Z && String.eqb apiError "device_provisioning_failed" then
    fail "Could not prepare a VPN configuration for this device. Try again later." s
  else fail "Could not register this device. Try again." s.

(** The failure lambda of [authenticate]. *)
Definition authenticateFailed (path : string) (status : Z) (object : obj) (s : ctl) : ctl :=
  let apiError := to_string (ofind "error" object) in
  if String.eqb path "auth/register/" then
    if (status =? 409)%Z && String.eqb apiError "email_already_registered" then
      fail "An account with this email already exists. Sign in instead." s
    else if (status =? 400)%Z && String.eqb apiError "password_invalid" then
      fail "The password does not meet the security requirements." s
    else if (status =? 400)%Z && String.eqb apiError "email_and_password_required" then
      fail "Enter a valid email and password." s
    else fail "Could not create the account. Try again." s
  else if (status =? 400)%Z && String.eqb apiError "email_and_password_required" then
    fail "Enter a valid email and password." s
  else if (status =? 400)%Z && String.eqb apiError "username_and_password_required" then
    fail "The server rejected the login details. Check the sign-in method and API version." s
  else if (status =? 401)%Z then fail "The login details or password are incorrect." s
  else fail "Could not connect to TunnelCore. Check your connection and try again." s.

(** The failure lambda of [linkTelegram]. *)
Definition linkTelegramFailed (status : Z) (object : obj) (s : ctl) : ctl :=
  let apiError := to_string (ofind "error" object) in
  if (status =? 401)%Z && String.eqb apiError "invalid_or_expired_code" then
    fail "The Telegram code is invalid or has expired. Request a new code in the bot." s
  else if (status =? 401)%Z && String.eqb apiError "unauthorized" then sessionEnded s
  else if (status =? 403)%Z && String.eqb apiError "email_account_required" then
    fail "Telegram can only be linked to an email account." s
  else if (status =? 409)%Z && String.eqb apiError "telegram_link_not_found" then
    fail "No Telegram account was found for this code." s
  else if (status =? 409)%Z && String.eqb apiError "telegram_account_already_linked" then
    fail "This Telegram account is already linked to another email account." s
  else fail "Could not link the Telegram account. Try again." s.

(** The failure lambda of [logout]. *)
Definition revokeFailed (status : Z) (object : obj) (s : ctl) : ctl :=
  let apiError := to_string (ofind "error" object) in
  if (status =? 401)%Z then sessionEnded s
  else if (status =? 404)%Z && String.eqb apiError "device_not_found" then clearSession s
  else fail "Could not sign out and release this device. Check your connection and try again." s.

(** The failure lambda of [requestAccountDeletion]. *)
Definition deleteRequestFailed (status : Z) (_ : obj) (s : ctl) : ctl :=
  if (status =? 401)%Z then sessionEnded s
  else fail "Could not submit the account deletion request. Try again or use the website." s.

(** The failure lambda of [logoutAll]. *)
Definition revokeAllFailed (status : Z) (_ : obj) (s : ctl) : ctl :=
  if (status =? 401)%Z then sessionEnded s
  else fail "Could not sign out on all devices. Check your connection and try again." s.

(** The failure lambda of [refresh] (country selection). *)
Definition countrySelectionFailed (status : Z) (object : obj) (s : ctl) : ctl :=
  if (status =? 404)%Z && String.eqb (to_string (ofind "error" object)) "device_not_found"
  then registerDevice false s
  else if (status =? 404)%Z then
    refreshGeoRoutingCountries
      (s <| m_vpnCountries := [] |> <| m_vpnCountryMode := "auto" |>
         <| m_selectedVpnCountry := "" |> <| m_effectiveVpnCountry := "" |>
         <| m_selectedConfigId := 0%Z |>)
  else if (status =? 401)%Z then sessionEnded s
  else fail "Could not load the VPN country list." s.

(** The failure lambda of [refreshGeoRoutingCountries]. *)
Definition geoCountriesFailed (status : Z) (_ : obj) (s : ctl) : ctl :=
  if (status =? 404)%Z then
    refreshRouting (s <| m_geoRoutingCountries := [] |> <| m_geoRoutingCountry := "" |>)
  else if (status =? 401)%Z then sessionEnded s
  else fail "Could not load the split-tunneling country list." s.

(** The failure lambda of [refreshRouting] (country). *)
Definition countryRoutingFailed (status : Z) (object : obj) (s : ctl) : ctl :=
  let apiError := to_string (ofind "error" object) in
  if (status =? 401)%Z then sessionEnded s
  else if (status =? 404)%Z || String.eqb apiError "country_disabled" then
    fail "This split-tunneling country is no longer available." s
  else if (status =? 503)%Z || String.eqb apiError "geoip_unavailable" then
    fail "Country routing data is temporarily unavailable." s
  else fail "Could not load country routing data." s.

(** The failure lambda of [refreshRouting] (default). *)
Definition defaultRoutingFailed (status : Z) (_ : obj) (s : ctl) : ctl :=
  if (status =? 404)%Z then refreshConfigs s
  else if (status =? 401)%Z then sessionEnded s
  else fail "Could not load the VPN routing rules." s.

(** The failure lambda of [selectVpnCountry]. *)
Definition selectCountryFailed (status : Z) (object : obj) (s : ctl) : ctl :=
  let apiError := to_string (ofind "error" object) in
  if (status =? 401)%Z then sessionEnded s
  else if (status =? 409)%Z || String.eqb apiError "country_unavailable" then
    fail "This VPN country is temporarily unavailable. Choose another country or Automatic." s
  else if (status =? 502)%Z || String.eqb apiError "peer_migration_failed" then
    fail "Could not move your VPN connection to the selected country. Try again later." s
  else if (status =? 400)%Z || String.eqb apiError "invalid_country_code" then
    fail "The selected VPN country is invalid." s
  else fail "Could not change the VPN country. Try again." s.

(** The failure lambda of [selectConfig]. *)
Definition configFailed (status : Z) (object : obj) (s : ctl) : ctl :=
  let apiError := to_string (ofind "error" object) in
  if (status =? 401)%Z then sessionEnded s
  else if (status =? 404)%Z || String.eqb apiError "config_not_found" then
    fail "This configuration has already been retrieved or is no longer available. Refresh the list." s
  else if (status =? 502)%Z || String.eqb apiError "config_unavailable" then
    fail "Could not retrieve the configuration from the VPN server. Try again later." s
  else fail "Could not download the VPN configuration." s.

(** The failure lambda of [renewSubscription] (confirmation). *)
Definition appleConfirmFailed (status : Z) (object : obj) (s : ctl) : ctl :=
  let apiError := to_string (ofind "error" object) in
  if (status =? 401)%Z then sessionEnded s
  else if (status =? 503)%Z then fail "App Store renewal is temporarily unavailable." s
  else if negb (str_empty apiError) then
    fail "The App Store purchase could not be verified by TunnelCore." s
  else fail "Could not confirm the App Store purchase. Try again." s.

(** The failure lambda of each request; [None] when it was sent without one. *)
Definition failure (k : kont) : option (Z -> obj -> ctl -> ctl) :=
  match k with
  | KMe | KConfigs | KBilling => None
  | KRegisterDevice emitSignedIn => Some (registerDeviceFailed emitSignedIn)
  | KAuthenticate path _ => Some (authenticateFailed path)
  | KLinkTelegram => Some linkTelegramFailed
  | KRevoke => Some revokeFailed
  | KDeleteRequest => Some deleteRequestFailed
  | KRevokeAll => Some revokeAllFailed
  | KCountrySelection => Some countrySelectionFailed
  | KGeoCountries => Some geoCountriesFailed
  | KCountryRouting _ _ => Some countryRoutingFailed
  | KDefaultRouting _ => Some defaultRoutingFailed
  | KSelectCountry => Some selectCountryFailed
  | KConfig _ => Some configFailed
  | KAppleConfirm _ => Some appleConfirmFailed
  end.

(** ** Finished replies *)

(** A document that is an object with [ok] set. *)
Definition okObject (body : string) : option obj :=
  match json_parse body with
  | Some (JObj o) => if to_bool (ofind "ok" o) then Some o else None
  | _ => None
  end.

(** The [finished] handler of [request], the generation already checked. *)
Definition apiFinished (post : bool) (k : kont) (r : reply) (s : ctl) : ctl :=
  let s := s <| m_reply := None |> in
  let status := r_status r in
  let successfulStatus := (200 <=? status)%Z && (status <? 300)%Z in
  let rest :=
    if (status =? 401)%Z then
      if post then fail "The login details or password are incorrect." s
      else fail "Your session has ended. Sign in again." (clearSession s)
    else if post && (status =? 400)%Z then
      let error := to_string (ofind "error" (doc_object (json_parse (r_body r)))) in
      if String.eqb error "email_and_password_required"
      then fail "Enter a valid email and password." s
      else if String.eqb error "username_and_password_required"
      then fail "The server rejected the login details. Check the sign-in method and API version." s
      else fail "The server rejected the login details." s
    else if r_error r || negb successfulStatus
    then fail "Could not connect to TunnelCore. Check your connection and try again." s
    else
      match okObject (r_body r) with
      | None => fail "The server returned an invalid response." s
      | Some object => out Changed (success k object (s <| m_busy := false |>))
      end in
  match failure k with
  | Some handler =>
      if negb successfulStatus && (0 <? status)%Z
      then handler status (doc_object (json_parse (r_body r))) (s <| m_busy := false |>)
      else rest
  | None => rest
  end.

(** The [finished] handler of [deliverConfig], the generation already checked. *)
Definition downloadFinished (fileName mode profile : string) (r : reply) (s : ctl) : ctl :=
  let s := s <| m_reply := None |> in
  if r_error r || negb (r_status r =? 200)%Z
  then fail "Could not download the configuration. Get a new configuration from the bot and refresh the list." s
  else out (ConfigReady (r_body r) fileName mode profile) (out Changed (s <| m_busy := false |>)).

(** The [finished] handler of [refreshRoutingCacheInBackground], the generation already
    checked. *)
Definition backgroundFinished (cacheKey country : string) (r : reply) (s : ctl) : ctl :=
  if r_error r || (r_status r <? 200)%Z || (300 <=? r_status r)%Z then s
  else
    match okObject (r_body r) with
    | None => s
    | Some object =>
        match normalizeRoutingResponse country object with
        | inl _ => s
        | inr routing => storeRoutingCache cacheKey routing (cachedRouting cacheKey s).2
        end
    end.

Definition finished (p : pending) (r : reply) (s : ctl) : ctl :=
  let s := match p_job p with
           | Background cacheKey _ =>
               s <| m_routingRefreshInFlight := m_routingRefreshInFlight s ∖ {[cacheKey]} |>
           | _ => s
           end in
  if negb (p_generation p =? m_generation s)%Z then s
  else match p_job p with
       | Api post k => apiFinished post k r s
       | Download fileName mode profile => downloadFinished fileName mode profile r s
       | Background cacheKey country => backgroundFinished cacheKey country r s
       end.

(** ** Construction *)

(** A new object: the member initialisers of the class. *)
Definition fresh (cb : callbacks) (st : store) (now : Z) : ctl :=
  mkCtl cb st now 0 0 [] 0 0 [] None "" "" "" [] [] [] "auto" "" "" 0 0 [] "" ∅ ∅ "" "" ""
    false false false false false false None "" 0.

(** The constructor. *)
Definition TunnelCoreController (cb : callbacks) (st : store) (now : Z) : ctl :=
  let s := fresh cb st now in
  let s := if cb_loadGeo cb
           then s <| m_geoRoutingCountry := to_upper (trimmed (stored_geo st)) |> else s in
  let s := if cb_loadDevice cb
           then match uuid_parse (trimmed (stored_device st)) with
                | Some uuid => s <| m_deviceId := uuid |>
                | None => s
                end
           else s in
  if negb (cb_load cb) then s
  else
    let '(token, username, emailAccount, telegramLinked) :=
      default ("", "", false, false) (stored_session st) in
    if str_empty token || has_newline token || str_empty username then clearStored s
    else
      registerDevice false
        (s <| m_token := token |> <| m_username := username |> <| m_emailAccount := emailAccount |>
           <| m_telegramLinked := telegramLinked |>).

(** ** Events *)

Inductive event :=
  | ELogin (username password : string)
  | ELoginCode (code : string)
  | ELoginEmail (email password : string)
  | ERegisterEmail (email password : string)
  | ELinkTelegram (code : string)
  | EClearError
  | ELogout
  | ELogoutAll
  | ERequestAccountDeletion
  | ERefresh
  | ESelectConfig (index : Z)
  | ESelectCurrentConfig
  | ESelectVpnCountry (code : string)
  | ESelectGeoRoutingCountry (code : string)
  | ERenewSubscription
  | EReply (id : nat) (r : reply)
  | EPurchase (r : purchase)
  | EClock (now : Z).

(** One turn of the event loop.  A reply finishes once; a purchase is reported once. *)
Definition step (e : event) (s : ctl) : ctl :=
  match e with
  | ELogin u p => login u p s
  | ELoginCode c => loginCode c s
  | ELoginEmail m p => loginEmail m p s
  | ERegisterEmail m p => registerEmail m p s
  | ELinkTelegram c => linkTelegram c s
  | EClearError => clearError s
  | ELogout => logout s
  | ELogoutAll => logoutAll s
  | ERequestAccountDeletion => requestAccountDeletion s
  | ERefresh => refresh s
  | ESelectConfig i => selectConfig i s
  | ESelectCurrentConfig => selectCurrentConfig s
  | ESelectVpnCountry c => selectVpnCountry c s
  | ESelectGeoRoutingCountry c => selectGeoRoutingCountry c s
  | ERenewSubscription => renewSubscription s
  | EReply id r =>
      match list_find (fun p => p_id p = id) (m_pending s) with
      | None => s
      | Some (i, p) => finished p r (s <| m_pending := delete i (m_pending s) |>)
      end
  | EPurchase r => if (m_purchases s =? 0)%nat then s else purchaseFinished r s
  | EClock now => s <| m_now := now |>
  end.

(** The states a controller can be in: built from some storage, then any events. *)
Inductive reachable : ctl -> Prop :=
  | reachable_new cb st now : reachable (TunnelCoreController cb st now)
  | reachable_step e s : reachable s -> reachable (step e s).

Definition run (es : list event) (s : ctl) : ctl := fold_left (fun s e => step e s) es s.

End Controller.
