(* ===== verification/TunnelCoreInv.v ===== *)
(** * The account controller: invariants of its event loop

    [inv] holds in every reachable state: it ties the session, the replies in flight, the
    busy flag and the set of background refreshes together, and says what is sent where. *)

From S2P Require Import Prelude Json TunnelCoreState TunnelCore.

(** A reply the user waits for: of [request] or of [deliverConfig]. *)
Definition foreground (p : pending) : bool :=
  match p_job p with Background _ _ => false | _ => true end.

Definition background_key (p : pending) : option string :=
  match p_job p with Background key _ => Some key | _ => None end.

(** Unfold the lambdas of the requests. *)
Ltac unfold_handlers :=
  unfold deviceRegistered, telegramAttached, deletionAccepted, countrySelectionReceived, appleConfirmed,
    registerDeviceFailed, authenticateFailed, linkTelegramFailed, revokeFailed, deleteRequestFailed,
    revokeAllFailed, countrySelectionFailed, geoCountriesFailed, countryRoutingFailed,
    defaultRoutingFailed, selectCountryFailed, configFailed, appleConfirmFailed.

(** *** Lemmas on the replies in flight *)

Lemma keys_cons p (l : list pending) :
  omap background_key (p :: l) =
  match background_key p with Some key => key :: omap background_key l | None => omap background_key l end.
Proof. done. Qed.

Lemma keys_Permutation (l l' : list pending) :
  l ≡ₚ l' -> omap background_key l ≡ₚ omap background_key l'.
Proof.
  induction 1; rewrite ?keys_cons; [done| | |by etrans].
  - destruct (background_key x); [by f_equiv|done].
  - destruct (background_key x), (background_key y); [apply Permutation_swap|done..].
Qed.

Lemma keys_without p (l l' : list pending) key :
  l ≡ₚ p :: l' -> NoDup (omap background_key l) ->
  key ∈ omap background_key l' <-> key ∈ omap background_key l /\ background_key p <> Some key.
Proof.
  intros Hp%keys_Permutation. rewrite Hp, keys_cons.
  destruct (background_key p) as [k|]; [|naive_solver].
  intros [Hn _]%NoDup_cons. rewrite elem_of_cons. split; [|naive_solver].
  intros Hin. split; [by right|]. by intros [= ->].
Qed.

Lemma keys_filter_foreground (P : pending -> Prop) `{!forall p, Decision (P p)} (l : list pending) :
  (forall p, p ∈ l -> ~ P p -> foreground p = true) ->
  omap background_key (filter P l) = omap background_key l.
Proof.
  induction l as [|p l IH]; intros Hf; [done|]. rewrite filter_cons.
  assert (IH' := IH (fun q Hq => Hf q (list_elem_of_further _ _ _ Hq))).
  rewrite (keys_cons p l).
  destruct (decide (P p)) as [HP|HP]; rewrite ?keys_cons, IH'; [done|].
  specialize (Hf p (list_elem_of_here _ _) HP). unfold foreground in Hf.
  unfold background_key at 2. simpl. by destruct (p_job p).
Qed.

Lemma NoDup_ids_filter (P : pending -> Prop) `{!forall p, Decision (P p)} (l : list pending) :
  NoDup (p_id <$> l) -> NoDup (p_id <$> filter P l).
Proof.
  induction l as [|p l IH]; [done|]. rewrite filter_cons. simpl.
  intros [Hn Hd]%NoDup_cons. destruct (decide (P p)); simpl; [|auto].
  apply NoDup_cons. split; [|auto].
  intros (q & Hq & [_ Hin]%list_elem_of_filter)%list_elem_of_fmap.
  apply Hn. rewrite Hq. by apply list_elem_of_fmap_2.
Qed.

Lemma ids_unique (l : list pending) p q :
  NoDup (p_id <$> l) -> p ∈ l -> q ∈ l -> p_id p = p_id q -> p = q.
Proof.
  induction l as [|x l IH]; simpl; [by intros _ ?%not_elem_of_nil|].
  intros [Hn Hd]%NoDup_cons Hp Hq He.
  apply elem_of_cons in Hp as [->|Hp], Hq as [->|Hq]; [done| | |auto].
  - destruct Hn. rewrite He. by apply list_elem_of_fmap_2.
  - destruct Hn. rewrite <- He. by apply list_elem_of_fmap_2.
Qed.

Section Invariant.
Context `{World}.

(** What may leave the device: the account token only to the TunnelCore service and in a
    header that is one line, anything else without it, and a download by plain https. *)
Definition ok_output (o : output) : Prop :=
  match o with
  | Send _ url (Some auth) _ =>
      starts_with apiBase url = true /\
      exists token, auth = "Bearer " +:+ token /\ has_newline token = false
  | Send _ url None body =>
      starts_with apiBase url = true \/
      (body = None /\ url_scheme url = "https" /\ url_host url <> "" /\ url_userInfo url = "")
  | _ => True
  end.

(** A reply of the session that is running. *)
Definition current (generation : Z) (p : pending) : Prop :=
  foreground p = true /\ p_generation p = generation.

Record inv_on (token username : string) (pend : list pending) (nextId purchases : nat)
    (rep : option nat) (busy : bool) (generation : Z) (inFlight : gset string)
    (outs : list output) : Prop := {
  inv_token : has_newline token = false;
  inv_session : token = "" <-> username = "";
  inv_ids : Forall (fun p => p_id p < nextId) pend;
  inv_nodup : NoDup (p_id <$> pend);
  inv_reply : forall id, rep = Some id -> exists p, p ∈ pend /\ p_id p = id /\ current generation p;
  inv_busy : busy = true -> 0 < purchases \/ exists p, p ∈ pend /\ current generation p;
  inv_flight : forall key, key ∈ inFlight <-> key ∈ omap background_key pend;
  inv_keys : NoDup (omap background_key pend);
  inv_out : Forall ok_output outs;
  inv_generation : (0 <= generation < 2 ^ 32)%Z
}.

Definition inv (s : ctl) : Prop :=
  inv_on (m_token s) (m_username s) (m_pending s) (m_nextId s) (m_purchases s) (m_reply s)
    (m_busy s) (m_generation s) (m_routingRefreshInFlight s) (m_out s).

(** ** Primitives *)

Lemma inv_emit o s :
  inv s -> ok_output o -> inv (out o s).
Proof. intros [] ?. constructor; simpl; try done. by apply Forall_app_2; [|repeat constructor]. Qed.

Lemma inv_idle s : inv s -> inv (s <| m_busy := false |>).
Proof. intros []. constructor; simpl; done. Qed.

Lemma inv_fail_busy m s : inv (s <| m_busy := false |>) -> inv (fail m s).
Proof. intros Hi. apply inv_emit; [|done]. exact Hi. Qed.

Lemma inv_fail m s : inv s -> inv (fail m s).
Proof. intros Hi. by apply inv_fail_busy, inv_idle. Qed.

Lemma inv_noreply s : inv s -> inv (s <| m_reply := None |>).
Proof. intros []. constructor; simpl; done. Qed.

(** A request the user waits for. *)
Lemma inv_send_foreground url auth body j s :
  inv s -> (forall key c, j <> Background key c) -> ok_output (Send (m_nextId s) url auth body) ->
  inv ((send url auth body j (out Changed (s <| m_busy := true |> <| m_error := "" |>)))
         <| m_reply := Some (m_nextId s) |>).
Proof.
  intros Hi Hj Ho. destruct Hi as [].
  assert (Hk : background_key (mkPending (m_nextId s) (m_generation s) j) = None)
    by (unfold background_key; simpl; destruct j; [done..|by destruct (Hj cacheKey country)]).
  assert (Hc : current (m_generation s) (mkPending (m_nextId s) (m_generation s) j))
    by (split; [|done]; unfold foreground; simpl; destruct j; [done..|by destruct (Hj cacheKey country)]).
  unfold send. constructor; simpl; try done.
  - apply Forall_app_2; [|repeat constructor; simpl; lia].
    eapply Forall_impl; [done|]. simpl. lia.
  - rewrite fmap_app. apply NoDup_app. split_and!; [done| |apply NoDup_singleton].
    intros i (p & -> & Hp)%list_elem_of_fmap Hn.
    apply list_elem_of_singleton in Hn. simpl in Hn.
    rewrite Forall_forall in inv_ids0. specialize (inv_ids0 _ Hp). simpl in *. lia.
  - intros id [= <-]. eexists. split_and!; [apply elem_of_app; right; by left|done|done].
  - intros _. right. eexists. split; [apply elem_of_app; right; by left|done].
  - intros key. rewrite omap_app, inv_flight0, elem_of_app. simpl. rewrite Hk.
    split; [by left|]. by intros [?|?%not_elem_of_nil].
  - rewrite omap_app. simpl. rewrite Hk, app_nil_r. done.
  - apply Forall_app_2; [|repeat constructor; done]. by apply Forall_app_2; [|repeat constructor].
Qed.

Lemma inv_request path body k post auth s : inv s -> inv (request path body k post auth s).
Proof.
  intros Hi. apply (inv_send_foreground _ _ _ _ s Hi); [done|].
  destruct (negb post || auth); simpl.
  - split; [apply prefix_app|]. exists (m_token s). split; [done|]. by destruct Hi.
  - left. apply prefix_app.
Qed.

Lemma inv_get path k s : inv s -> inv (get path k s).
Proof. exact (inv_request _ _ _ _ _ s). Qed.

Lemma inv_post_auth path body k s : inv s -> inv (post_auth path body k s).
Proof. exact (inv_request _ _ _ _ _ s). Qed.

Lemma inv_authenticate path c e s : inv s -> inv (authenticate path c e s).
Proof. exact (inv_request _ _ _ _ _ s). Qed.

(** ** Ending the session *)

Lemma inv_clearStored s : inv s -> inv (clearStored s).
Proof. intros Hi. unfold clearStored. destruct (cb_clear _); [|done]. by apply inv_emit. Qed.

Lemma inv_saveSession s : inv s -> inv (saveSession s).
Proof. intros Hi. unfold saveSession. destruct (cb_save _); [|done]. by apply inv_emit. Qed.

(** Aborting the reply the user waits for removes no background refresh. *)
Lemma inv_abort s g : inv (s <| m_busy := false |>) -> (0 <= g < 2 ^ 32)%Z ->
  inv ((abort_reply (s <| m_generation := g |>)) <| m_busy := false |>).
Proof.
  intros [] Hg. unfold abort_reply. simpl in *. destruct (m_reply s) as [id|] eqn:Er;
    [|constructor; simpl; try done; by rewrite Er].
  assert (Hk : omap background_key (filter (fun p => p_id p <> id) (m_pending s)) =
               omap background_key (m_pending s)).
  { apply keys_filter_foreground. intros p Hp Hid.
    destruct (inv_reply0 _ eq_refl) as (q & Hq & Hqi & Hf & _).
    by rewrite (ids_unique _ _ _ inv_nodup0 Hp Hq) by (rewrite Hqi; by apply dec_stable). }
  constructor; simpl; try done.
  - rewrite Forall_forall in *. intros p [_ Hp]%list_elem_of_filter. auto.
  - by apply NoDup_ids_filter.
  - intros key. by rewrite Hk.
  - by rewrite Hk.
  - by apply Forall_app_2; [|repeat constructor].
Qed.

Lemma inv_clearSession_busy s : inv (s <| m_busy := false |>) -> inv (clearSession s).
Proof.
  intros Hi. apply inv_emit; [|done]. apply inv_clearStored.
  pose proof (inv_abort s _ Hi (wrap32_range (m_generation s + 1))) as [].
  constructor; done.
Qed.

Lemma inv_clearSession s : inv s -> inv (clearSession s).
Proof. intros Hi. by apply inv_clearSession_busy, inv_idle. Qed.

(** ** Background refreshes *)

Lemma inv_background key country s :
  inv s -> inv (refreshRoutingCacheInBackground key country s).
Proof.
  intros Hi. unfold refreshRoutingCacheInBackground.
  destruct (negb (authenticated s) || _) eqn:E; [done|]. bprop.
  destruct Hi as []. rewrite inv_flight0 in *.
  unfold send. constructor; simpl; try done.
  - apply Forall_app_2; [|repeat constructor; simpl; lia].
    eapply Forall_impl; [done|]. simpl. lia.
  - rewrite fmap_app. apply NoDup_app. split_and!; [done| |apply NoDup_singleton].
    intros i (p & -> & Hp)%list_elem_of_fmap Hn. apply list_elem_of_singleton in Hn. simpl in Hn.
    rewrite Forall_forall in inv_ids0. specialize (inv_ids0 _ Hp). simpl in *. lia.
  - intros id Hid. destruct (inv_reply0 id Hid) as (p & Hp & ?).
    exists p. split; [apply elem_of_app; by left|done].
  - intros Hb. destruct (inv_busy0 Hb) as [?|(p & Hp & ?)]; [by left|right].
    exists p. split; [apply elem_of_app; by left|done].
  - intros key'. rewrite omap_app, elem_of_union, elem_of_app, elem_of_singleton, inv_flight0.
    simpl. rewrite list_elem_of_singleton. tauto.
  - rewrite omap_app. apply NoDup_app. split_and!; [done| |apply NoDup_singleton].
    simpl. intros key' Hk ->%list_elem_of_singleton. done.
  - apply Forall_app_2; [done|]. constructor; [|constructor]. split.
    + destruct (str_empty _); apply prefix_app.
    + exists (m_token s). done.
Qed.

(** ** Operations *)

(** [inv] depends on these fields only. *)
Lemma inv_ext s s' :
  (m_token s, m_username s, m_pending s, m_nextId s, m_purchases s) =
  (m_token s', m_username s', m_pending s', m_nextId s', m_purchases s') ->
  (m_reply s, m_busy s, m_generation s, m_routingRefreshInFlight s, m_out s) =
  (m_reply s', m_busy s', m_generation s', m_routingRefreshInFlight s', m_out s') ->
  inv s -> inv s'.
Proof. intros [= E1 E2 E3 E4 E5] [= F1 F2 F3 F4 F5]. unfold inv. congruence. Qed.

(** Peel one operation off the state. *)
Ltac inv_step :=
  lazymatch goal with
  | Hi : inv ?s |- inv ?s => exact Hi
  | |- inv (let _ := _ in _) => cbv zeta
  | |- inv (upd m_busy false _) => refine (inv_idle _ _)
  | |- inv (upd m_reply None _) => refine (inv_noreply _ _)
  | |- inv (upd _ _ ?s) => refine (inv_ext s _ eq_refl eq_refl _)
  | |- inv (fail _ _) => refine (inv_fail _ _ _)
  | |- inv (get _ _ _) => refine (inv_get _ _ _ _)
  | |- inv (post_auth _ _ _ _) => refine (inv_post_auth _ _ _ _ _)
  | |- inv (authenticate _ _ _ _) => refine (inv_authenticate _ _ _ _ _)
  | |- inv (clearSession _) => refine (inv_clearSession _ _)
  | |- inv (saveSession _) => refine (inv_saveSession _ _)
  | |- inv (out _ _) => refine (inv_emit _ _ _ _); [|exact I]
  | _ => case_match
  end.

Ltac inv_solve := cbv zeta; repeat inv_step.

Tactic Notation "op_unfold" reference(f) := intros; unfold f; inv_solve.

Lemma inv_maybeNotify s : inv s -> inv (maybeNotifySubscription s).
Proof. op_unfold maybeNotifySubscription. Qed.

Lemma inv_updateSubscription o s : inv s -> inv (updateSubscriptionState o s).
Proof. intros Hi. apply inv_maybeNotify. inv_solve. Qed.

Lemma inv_ensureDeviceId s : inv s -> inv (ensureDeviceId s).2.
Proof. intros Hi. unfold ensureDeviceId. destruct (str_empty _); cbn [snd]; inv_solve. Qed.

Lemma inv_registerDevice b s : inv s -> inv (registerDevice b s).
Proof.
  intros Hi%inv_ensureDeviceId. unfold registerDevice.
  destruct (ensureDeviceId s) as [id s']. by apply inv_post_auth.
Qed.

Lemma inv_sessionEnded s : inv s -> inv (sessionEnded s).
Proof. op_unfold sessionEnded. Qed.

Lemma inv_deliver d f m p s : inv s -> inv (deliverConfig d f m p s).
Proof.
  intros Hi. unfold deliverConfig.
  destruct (String.eqb (url_scheme d) "https") eqn:Es; simpl; [|by apply inv_emit].
  destruct (_ || _) eqn:E; [by apply inv_fail|]. bprop.
  apply inv_send_foreground; [done|done|]. right. split_and!; [done|done| |].
  - by apply str_empty_false.
  - by apply str_empty_true.
Qed.

Lemma inv_selectConfig i s : inv s -> inv (selectConfig i s).
Proof.
  intros Hi. unfold selectConfig. destruct (_ || _); [done|].
  destruct (negb _); [by apply inv_deliver|]. inv_solve.
Qed.

Lemma inv_selectCurrent s : inv s -> inv (selectCurrentConfig s).
Proof.
  intros Hi. unfold selectCurrentConfig. destruct (_ || _); [done|].
  destruct (config_index _ _); [by apply inv_selectConfig|].
  destruct (_ && _); [by apply inv_selectConfig|]. by apply inv_fail.
Qed.

Lemma inv_configs o s : inv s -> inv (configsReceived o s).
Proof.
  intros Hi. unfold configsReceived. destruct (negb _); [by apply inv_fail|].
  destruct (_ <=? _)%Z; [inv_solve|].
  destruct (config_index _ _); [apply inv_selectConfig|apply inv_fail]; inv_solve.
Qed.

Lemma inv_config f o s : inv s -> inv (configReceived f o s).
Proof.
  intros Hi. unfold configReceived. destruct (str_empty (trimmed _)); [by apply inv_fail|].
  by apply inv_deliver.
Qed.

Lemma inv_countrySelection o s : inv s -> inv (applyVpnCountrySelection o s).2.
Proof.
  intros Hi. unfold applyVpnCountrySelection.
  destruct (ofind "selection" o) as [[]|]; try done.
  destruct (ofind "countries" _) as [[]|]; try done. destruct (_ && _); [done|]. cbn [snd]. inv_solve.
Qed.

Lemma inv_cachedRouting k s : inv s -> inv (cachedRouting k s).2.
Proof.
  intros Hi. unfold cachedRouting. destruct (_ !! _); [done|]. destruct (negb _); [done|].
  destruct (negb _); [done|]. cbn [snd]. inv_solve.
Qed.

Lemma inv_storeRouting k r s : inv s -> inv (storeRoutingCache k r s).
Proof. op_unfold storeRoutingCache. Qed.

Lemma inv_applyRouting k r b s : inv s -> inv (applyRouting k r b s).2.
Proof.
  intros Hi. unfold applyRouting. destruct (negb _); [cbn [snd]; inv_solve|].
  destruct (_ && _); [done|]. destruct (cb_applyRouting _); [|cbn [snd]; inv_solve].
  destruct (apply_routing _ _); cbn [snd]; inv_solve.
Qed.

Lemma inv_refreshConfigs s : inv s -> inv (refreshConfigs s).
Proof. op_unfold refreshConfigs. Qed.

Lemma inv_applyAndContinue k r s : inv s -> inv (applyAndContinue k r s).
Proof.
  intros Hi. unfold applyAndContinue.
  pose proof (inv_applyRouting k r true _ (inv_storeRouting k r s Hi)) as Ha.
  destruct (applyRouting _ _ _ _) as [[] s']; simpl in Ha; [|done]. by apply inv_refreshConfigs.
Qed.

Lemma inv_refreshRouting s : inv s -> inv (refreshRouting s).
Proof.
  intros Hi. unfold refreshRouting. set (key := routingCacheKey _).
  pose proof (inv_cachedRouting key s Hi) as Hc.
  destruct (cachedRouting key s) as [c s1]; simpl in Hc.
  destruct (_ && _); [|inv_solve].
  pose proof (inv_applyRouting key c true _ Hc) as Ha.
  destruct (applyRouting _ _ _ _) as [[] s2]; simpl in Ha; [|done].
  destruct (routingCacheIsFresh _ _); [|apply inv_background]; by apply inv_refreshConfigs.
Qed.

Lemma inv_saveGeo c s : inv s -> inv (saveGeo c s).
Proof. op_unfold saveGeo. Qed.

Lemma inv_geoCountries o s : inv s -> inv (geoCountriesReceived o s).
Proof.
  intros Hi. unfold geoCountriesReceived.
  destruct (ofind "countries" o) as [[]|]; try by apply inv_fail.
  apply inv_refreshRouting. destruct (_ && _); [apply inv_saveGeo|]; inv_solve.
Qed.

Lemma inv_selectGeo c s : inv s -> inv (selectGeoRoutingCountry c s).
Proof.
  intros Hi. unfold selectGeoRoutingCountry. destruct (_ || _); [done|].
  destruct (String.eqb _ _); [done|]. destruct (_ && _); [by apply inv_fail|].
  apply inv_refreshRouting, inv_emit; [|done]. apply inv_saveGeo. inv_solve.
Qed.

Lemma inv_selectCountry c s : inv s -> inv (selectVpnCountry c s).
Proof.
  intros Hi. unfold selectVpnCountry. destruct (_ || _); [done|]. destruct (_ || _); [done|].
  pose proof (inv_ensureDeviceId s Hi) as He.
  destruct (ensureDeviceId s) as [id s']. by apply inv_post_auth.
Qed.

Lemma inv_countrySelected o s : inv s -> inv (countrySelected o s).
Proof.
  intros Hi. unfold countrySelected. pose proof (inv_countrySelection o s Hi) as Hc.
  destruct (applyVpnCountrySelection o s) as [[] s']; simpl in Hc; [|by apply inv_fail].
  apply inv_refreshRouting. inv_solve.
Qed.

Lemma inv_refresh s : inv s -> inv (refresh s).
Proof. op_unfold refresh. Qed.

Lemma inv_me o s : inv s -> inv (meReceived o s).
Proof.
  intros Hi. unfold meReceived. destruct (negb _); [by apply inv_fail|].
  apply inv_get, inv_updateSubscription. inv_solve.
Qed.

Lemma inv_authenticated e o s : inv s -> inv (authenticated_reply e o s).
Proof.
  intros Hi. unfold authenticated_reply. set (user := if e && _ then _ else _).
  destruct (_ || _) eqn:E; [by apply inv_fail|]. bprop.
  apply inv_registerDevice, inv_saveSession. destruct Hi.
  repeat match goal with Hs : str_empty _ = false |- _ => apply str_empty_false in Hs end.
  by constructor.
Qed.

Lemma inv_billing o s : inv s -> inv (billingReceived o s).
Proof.
  intros Hi. unfold billingReceived. destruct (str_empty _); [by apply inv_fail|].
  apply inv_emit; [|done]. destruct Hi. constructor; simpl; try done.
  - left. lia.
  - by apply Forall_app_2; [|repeat constructor].
Qed.

Lemma inv_renew s : inv s -> inv (renewSubscription s).
Proof. intros. unfold renewSubscription. destruct (_ || _); [done|]. inv_solve. Qed.

Lemma inv_purchase r s : inv s -> inv (purchaseFinished r s).
Proof.
  intros Hi. unfold purchaseFinished.
  assert (inv (s <| m_purchases := pred (m_purchases s) |> <| m_busy := false |>))
    by (destruct Hi; by constructor).
  destruct (negb _); [|by apply inv_post_auth]. inv_solve.
Qed.




Lemma inv_success k o s : inv s -> inv (success k o s).
Proof.
  intros Hi. destruct k; cbn [success]; unfold_handlers.
  - destruct (negb _); [by apply inv_fail|]. apply inv_refresh. inv_solve.
  - by apply inv_authenticated.
  - apply inv_refresh. inv_solve.
  - by apply inv_clearSession.
  - inv_solve.
  - by apply inv_clearSession.
  - by apply inv_me.
  - pose proof (inv_countrySelection o s Hi) as Hc.
    destruct (applyVpnCountrySelection o s) as [[] s']; [by apply inv_get|by apply inv_fail].
  - by apply inv_geoCountries.
  - unfold routingReceived. destruct (normalizeRoutingResponse _ _); [by apply inv_fail|].
    by apply inv_applyAndContinue.
  - unfold routingReceived. destruct (normalizeRoutingResponse _ _); [by apply inv_fail|].
    by apply inv_applyAndContinue.
  - by apply inv_configs.
  - by apply inv_countrySelected.
  - by apply inv_config.
  - by apply inv_billing.
  - apply inv_refresh. inv_solve.
Qed.

Ltac inv_ops :=
  repeat lazymatch goal with
  | |- inv (sessionEnded _) => refine (inv_sessionEnded _ _)
  | |- inv (registerDevice _ _) => refine (inv_registerDevice _ _ _)
  | |- inv (refreshRouting _) => refine (inv_refreshRouting _ _)
  | |- inv (refreshConfigs _) => refine (inv_refreshConfigs _ _)
  | |- inv (refreshGeoRoutingCountries _) => refine (inv_get _ _ _ _)
  | |- inv (maybeNotifySubscription _) => refine (inv_maybeNotify _ _)
  | _ => inv_step
  end.

Lemma inv_failure k handler status o s :
  failure k = Some handler -> inv s -> inv (handler status o s).
Proof.
  intros Hf Hi. destruct k; unfold failure in Hf; try discriminate Hf; apply (inj Some) in Hf as <-;
    unfold_handlers;
    cbv zeta beta; inv_ops.
Qed.

(** The state in which the [finished] handler of [p] starts, with what the handler does
    first when the reply is of the running session. *)
Definition taken (i : nat) (p : pending) (s : ctl) : ctl :=
  s <| m_pending := delete i (m_pending s) |>
    <| m_routingRefreshInFlight := match p_job p with
         | Background key _ => m_routingRefreshInFlight s ∖ {[key]}
         | _ => m_routingRefreshInFlight s end |>.

Lemma inv_taken i p s (now : bool) :
  inv s -> m_pending s !! i = Some p -> (current (m_generation s) p -> now = true) ->
  inv ((taken i p s) <| m_busy := if now then false else m_busy s |>
                     <| m_reply := if now then None else m_reply s |>).
Proof.
  intros [] Hl%delete_Permutation Hnow.
  assert (Hstay : forall q, now = false -> q ∈ m_pending s -> current (m_generation s) q ->
                       q ∈ delete i (m_pending s)).
  { intros q Hn Hq Hc. rewrite Hl, elem_of_cons in Hq. destruct Hq as [->|]; [|done].
    specialize (Hnow Hc). congruence. }
  constructor; simpl; try done.
  - rewrite Hl in inv_ids0. by apply Forall_cons in inv_ids0 as [].
  - rewrite Hl in inv_nodup0. by apply NoDup_cons in inv_nodup0 as [].
  - destruct now; [done|]. intros id Hid. destruct (inv_reply0 id Hid) as (q & ? & ? & ?).
    exists q. auto.
  - destruct now; [done|]. intros Hb. destruct (inv_busy0 Hb) as [?|(q & ? & ?)]; [by left|right].
    exists q. auto.
  - intros key. rewrite (keys_without _ _ _ key Hl inv_keys0), <- inv_flight0.
    unfold background_key. destruct (p_job p); [naive_solver..|].
    rewrite elem_of_difference, elem_of_singleton. naive_solver.
  - pose proof (keys_Permutation _ _ Hl) as Hp. rewrite keys_cons in Hp. rewrite Hp in inv_keys0.
    destruct (background_key p); [by apply NoDup_cons in inv_keys0 as []|done].
Qed.

Lemma inv_apiFinished post k r s :
  inv (s <| m_busy := false |> <| m_reply := None |>) -> inv (apiFinished post k r s).
Proof.
  intros Hi. unfold apiFinished.
  set (s1 := s <| m_reply := None |>).
  assert (H1 : inv (s1 <| m_busy := false |>)) by exact (inv_ext _ _ eq_refl eq_refl Hi).
  assert (Hf : forall m, inv (fail m s1)) by (intros; by apply inv_fail_busy).
  destruct (failure k) as [handler|] eqn:Ek; cbv zeta;
    repeat first [ apply Hf | case_match ];
    first [ by apply (inv_failure k) | apply inv_fail, inv_clearSession_busy, H1
          | apply inv_emit; [|exact I]; by apply inv_success ].
Qed.

Lemma inv_downloadFinished f m p r s :
  inv (s <| m_busy := false |> <| m_reply := None |>) -> inv (downloadFinished f m p r s).
Proof.
  intros Hi. unfold downloadFinished. cbv zeta. destruct (_ || _).
  - apply inv_fail_busy. exact (inv_ext _ _ eq_refl eq_refl Hi).
  - apply inv_emit; [|done]. apply inv_emit; [|done]. exact (inv_ext _ _ eq_refl eq_refl Hi).
Qed.

Lemma inv_backgroundFinished k c r s : inv s -> inv (backgroundFinished k c r s).
Proof.
  intros Hi. unfold backgroundFinished. destruct (_ || _); [done|].
  destruct (okObject _); [|done]. destruct (normalizeRoutingResponse _ _); [done|].
  by apply inv_storeRouting, inv_cachedRouting.
Qed.

(** The handler starts in the state [taken]. *)
Lemma finished_taken i p r s :
  finished p r (s <| m_pending := delete i (m_pending s) |>) =
  if negb (p_generation p =? m_generation s)%Z then taken i p s
  else match p_job p with
       | Api post k => apiFinished post k r (taken i p s)
       | Download f m pr => downloadFinished f m pr r (taken i p s)
       | Background k c => backgroundFinished k c r (taken i p s)
       end.
Proof. unfold finished, taken. destruct (p_job p); reflexivity. Qed.

Lemma inv_finished i p r s :
  inv s -> m_pending s !! i = Some p ->
  inv (finished p r (s <| m_pending := delete i (m_pending s) |>)).
Proof.
  intros Hi Hl. rewrite finished_taken.
  destruct (p_generation p =? m_generation s)%Z eqn:E; bprop; cbn [negb].
  - destruct (p_job p) eqn:Ej.
    + apply inv_apiFinished. exact (inv_taken i p s true Hi Hl (fun _ => eq_refl)).
    + apply inv_downloadFinished. exact (inv_taken i p s true Hi Hl (fun _ => eq_refl)).
    + apply inv_backgroundFinished. refine (inv_ext _ _ eq_refl eq_refl (inv_taken i p s false Hi Hl _)).
      intros [Hf _]. unfold foreground in Hf. by rewrite Ej in Hf.
  - refine (inv_ext _ _ eq_refl eq_refl (inv_taken i p s false Hi Hl _)). by intros [_ ?].
Qed.

Lemma inv_step_event e s : inv s -> inv (step e s).
Proof.
  intros Hi. destruct e; unfold step.
  - unfold login. inv_solve.
  - unfold loginCode. inv_solve.
  - unfold loginEmail, emailForm. inv_solve.
  - unfold registerEmail, emailForm. inv_solve.
  - unfold linkTelegram. inv_solve.
  - unfold clearError. inv_solve.
  - unfold logout. inv_solve.
  - unfold logoutAll. inv_solve.
  - unfold requestAccountDeletion. inv_solve.
  - by apply inv_refresh.
  - by apply inv_selectConfig.
  - by apply inv_selectCurrent.
  - by apply inv_selectCountry.
  - by apply inv_selectGeo.
  - by apply inv_renew.
  - destruct (list_find _ _) as [[i p]|] eqn:E; [|done].
    apply list_find_Some in E as (Hl & _ & _). by apply inv_finished.
  - destruct (_ =? _)%nat; [done|]. by apply inv_purchase.
  - inv_solve.
Qed.

Lemma inv_fresh cb st now : inv (fresh cb st now).
Proof. constructor; simpl; try done; try constructor; try set_solver; lia. Qed.

Lemma inv_constructor cb st now : inv (TunnelCoreController cb st now).
Proof.
  unfold TunnelCoreController. cbv zeta. pose proof (inv_fresh cb st now) as Hi.
  set (s0 := fresh cb st now) in *. clearbody s0.
  set (s1 := if cb_loadGeo cb then _ else _). assert (H1 : inv s1) by (subst s1; inv_solve).
  clearbody s1. set (s2 := if cb_loadDevice cb then _ else _).
  assert (H2 : inv s2) by (subst s2; inv_solve). clearbody s2.
  destruct (negb _); [done|]. destruct (default _ _) as [[[token user] em] tg].
  destruct (_ || _) eqn:E; [by apply inv_clearStored|]. bprop.
  repeat match goal with Hs : str_empty _ = false |- _ => apply str_empty_false in Hs end.
  apply inv_registerDevice. destruct H2. by constructor.
Qed.

Lemma reachable_inv s : reachable s -> inv s.
Proof. induction 1; [apply inv_constructor|by apply inv_step_event]. Qed.

End Invariant.

(** ** Theorems *)

Section Theorems.
Context `{World}.

(** C2: The account token goes to the TunnelCore service only: every request that carries an
    Authorization header has a URL under the API base, its header is one line of the form
    [Bearer token], and a request to any other host is a plain https download without header,
    body or user information. *)
Theorem token_only_to_service s id url auth body :
  reachable s -> Send id url auth body ∈ m_out s ->
  match auth with
  | Some header => starts_with apiBase url = true /\
                   exists token, header = "Bearer " +:+ token /\ has_newline token = false
  | None => starts_with apiBase url = true \/
            (body = None /\ url_scheme url = "https" /\ url_host url <> "" /\ url_userInfo url = "")
  end.
Proof.
  intros [_ _ _ _ _ _ _ _ Ho _]%reachable_inv Hin. rewrite Forall_forall in Ho.
  specialize (Ho _ Hin). by destruct auth.
Qed.

(** A session is a token that can be a header value together with a user name: the
    controller never has one without the other. *)
Theorem session_wellformed s :
  reachable s ->
  has_newline (m_token s) = false /\ (authenticated s = true <-> m_username s <> "").
Proof.
  intros [Ht Hs _ _ _ _ _ _ _ _]%reachable_inv. split; [done|].
  unfold authenticated. rewrite negb_true_iff, str_empty_false. naive_solver.
Qed.

(** The controller is never stuck busy: while the busy flag is set, a reply of the running
    session that the user waits for has not arrived yet, or an App Store purchase is open. *)
Theorem busy_is_awaited s :
  reachable s -> m_busy s = true ->
  0 < m_purchases s \/
  exists p, p ∈ m_pending s /\ foreground p = true /\ p_generation p = m_generation s.
Proof. intros [_ _ _ _ _ Hb _ _ _ _]%reachable_inv. exact Hb. Qed.

(** The set of background refreshes in flight is exactly the set of cache keys of the
    background replies not finished yet, and there is never more than one for a key. *)
Theorem background_refresh_unique s :
  reachable s ->
  NoDup (omap background_key (m_pending s)) /\
  forall key, key ∈ m_routingRefreshInFlight s <-> key ∈ omap background_key (m_pending s).
Proof. by intros [_ _ _ _ _ _ Hf Hk _ _]%reachable_inv. Qed.

End Theorems.

(** ** Concrete runs *)

Lemma token_only_to_service_witness :
  let W := sample_world Linux in
  exists token, "Bearer token-of-ann" = "Bearer " +:+ token /\ has_newline token = false.
Proof.
  intros W.
  apply (token_only_to_service (TunnelCoreController sample_callbacks (sample_store "ann") 0) 0
           "https://tlsdmd.isgood.host/api/vpn/v1/devices/register/" (Some "Bearer token-of-ann")
           (Some (oof [("device_id", JStr "device-0"); ("platform", JStr "linux")])));
    [apply reachable_new|].
  apply list_elem_of_lookup_2 with (i := 1). vm_compute. reflexivity.
Defined.

Lemma session_wellformed_witness :
  let W := sample_world Linux in
  has_newline (m_token (TunnelCoreController sample_callbacks (sample_store "ann") 0)) = false.
Proof. intros W. apply session_wellformed, reachable_new. Defined.

Lemma busy_is_awaited_witness :
  let W := sample_world Linux in
  let s := TunnelCoreController sample_callbacks (sample_store "ann") 0 in
  0 < m_purchases s \/
  exists p, p ∈ m_pending s /\ foreground p = true /\ p_generation p = m_generation s.
Proof. intros W s. apply busy_is_awaited; [apply reachable_new|vm_compute; reflexivity]. Defined.

Lemma background_refresh_unique_witness :
  let W := sample_world Linux in
  NoDup (omap background_key (m_pending (TunnelCoreController sample_callbacks (sample_store "ann") 0))).
Proof. intros W. apply background_refresh_unique, reachable_new. Defined.
