(* ===== verification/TunnelCoreSession.v ===== *)
(** * The account controller: sessions, stale replies and progress

    What one handler does to the replies in flight: [extends w s s'] says that it keeps the
    session and only adds requests of the running session, of weight [w] at most.  From it
    follow the isolation of sessions from each other and the end of every chain of replies. *)

From S2P Require Import Prelude Json TunnelCoreState TunnelCore TunnelCoreInv.

(** How many replies can follow one another from a request on, the request included.  Only
    replies the user waits for count. *)
Definition kont_weight (k : kont) : nat :=
  match k with
  | KAuthenticate _ _ => 9
  | KRegisterDevice _ | KLinkTelegram | KAppleConfirm _ => 8
  | KMe => 7
  | KCountrySelection => 6
  | KGeoCountries | KSelectCountry => 5
  | KCountryRouting _ _ | KDefaultRouting _ => 4
  | KConfigs => 3
  | KConfig _ => 2
  | KRevoke | KDeleteRequest | KRevokeAll | KBilling => 1
  end.

Definition weight (p : pending) : nat :=
  match p_job p with
  | Api _ k => kont_weight k
  | Download _ _ _ => 1
  | Background _ _ => 0
  end.

Definition total (l : list pending) : nat := sum_list (weight <$> l).

(** The replies the user may still have to wait for. *)
Definition load (s : ctl) : nat := total (m_pending s).

Lemma total_cons p l : total (p :: l) = weight p + total l.
Proof. done. Qed.

Lemma total_app l1 l2 : total (l1 ++ l2) = total l1 + total l2.
Proof. induction l1 as [|p l1 IH]; [done|]. simpl app. rewrite !total_cons, IH. lia. Qed.

Lemma total_Permutation l1 l2 : l1 ≡ₚ l2 -> total l1 = total l2.
Proof. induction 1; rewrite ?total_cons; lia. Qed.

Lemma total_filter (P : pending -> Prop) `{!forall p, Decision (P p)} l : total (filter P l) <= total l.
Proof.
  induction l as [|p l IH]; [done|]. rewrite filter_cons.
  destruct (decide _); rewrite ?total_cons; lia.
Qed.

Record extends (w : nat) (s s' : ctl) : Prop := {
  ext_token : m_token s <> "" -> m_token s' <> "";
  ext_generation : m_generation s' = m_generation s;
  ext_pending : exists l, m_pending s' = m_pending s ++ l /\ total l <= w /\
                          Forall (fun p => p_generation p = m_generation s) l
}.

Section Extends.
Context `{World}.

(** A handler that keeps the session fields and the replies. *)
Lemma ext_same w s s' s'' :
  m_token s'' = m_token s' -> m_generation s'' = m_generation s' -> m_pending s'' = m_pending s' ->
  extends w s s' -> extends w s s''.
Proof. intros E1 E2 E3 []. constructor; rewrite ?E1, ?E2, ?E3; done. Qed.

Lemma ext_refl w s : extends w s s.
Proof. constructor; [done..|]. exists []. rewrite app_nil_r. split_and!; [done|apply Nat.le_0_l|done]. Qed.

Lemma ext_trans w1 w2 s1 s2 s3 : extends w1 s1 s2 -> extends w2 s2 s3 -> extends (w1 + w2) s1 s3.
Proof.
  intros [T1 G1 (l1 & P1 & W1 & F1)] [T2 G2 (l2 & P2 & W2 & F2)]. constructor; [auto|congruence|].
  exists (l1 ++ l2). rewrite P2, P1, <- app_assoc, total_app. split_and!; [done|lia|].
  rewrite G1 in F2. by apply Forall_app.
Qed.

Lemma ext_weaken w w' s s' : extends w s s' -> w <= w' -> extends w' s s'.
Proof.
  intros [T G (l & P & W & F)] Hw. constructor; [done..|]. exists l. split_and!; [done|lia|done].
Qed.

(** A request at the end. *)
Lemma ext_send w w' j url auth body s s' :
  extends w s s' -> w + weight (mkPending 0 0 j) <= w' -> extends w' s (send url auth body j s').
Proof.
  intros [T G (l & P & W & F)] Hw. constructor; [done..|].
  exists (l ++ [mkPending (m_nextId s') (m_generation s') j]). unfold send. cbn [m_pending out upd].
  simpl. rewrite P, <- app_assoc, total_app. split_and!; [done| |].
  - rewrite total_cons. unfold weight, total in *. simpl in *. lia.
  - apply Forall_app_2; [done|]. by repeat constructor.
Qed.

(** Forget a field that does not matter. *)
Ltac ext_frame :=
  lazymatch goal with
  | |- extends _ _ (upd _ _ ?x) => refine (ext_same _ _ x _ _ _ _ _); [reflexivity..|]
  | |- extends _ _ (out _ ?x) => refine (ext_same _ _ x _ _ _ _ _); [reflexivity..|]
  | |- extends _ _ (fail _ ?x) => refine (ext_same _ _ x _ _ _ _ _); [reflexivity..|]
  end.

Lemma ext_request w w' path body k post auth s s' :
  extends w s s' -> w + kont_weight k <= w' -> extends w' s (request path body k post auth s').
Proof.
  intros He Hw. unfold request. cbv zeta. ext_frame. eapply ext_send; [|exact Hw].
  by repeat ext_frame.
Qed.

(** An operation after others: [extends_after f w] is [extends w s (f s)] for every [s]. *)
Definition adds (w : nat) (f : ctl -> ctl) : Prop := forall s, extends w s (f s).

Lemma ext_after w1 w2 w f s s' :
  adds w2 f -> extends w1 s s' -> w1 + w2 <= w -> extends w s (f s').
Proof. intros Hf He Hw. eapply ext_weaken; [|exact Hw]. eapply ext_trans; [done|apply Hf]. Qed.

Lemma adds_same f :
  (forall s, m_token (f s) = m_token s) -> (forall s, m_generation (f s) = m_generation s) ->
  (forall s, m_pending (f s) = m_pending s) -> adds 0 f.
Proof. intros Ht Hg Hp s. eapply ext_same; [apply Ht|apply Hg|apply Hp|apply ext_refl]. Qed.

(** ** Operations that send nothing *)

Ltac same_solve := apply adds_same; intros; repeat case_match; reflexivity.

Lemma adds_saveSession : adds 0 saveSession.
Proof. unfold saveSession. same_solve. Qed.

Lemma adds_maybeNotify : adds 0 maybeNotifySubscription.
Proof. unfold maybeNotifySubscription. same_solve. Qed.

Lemma adds_updateSubscription o : adds 0 (updateSubscriptionState o).
Proof.
  intros s. unfold updateSubscriptionState. cbv zeta. eapply (ext_after 0 0); [apply adds_maybeNotify| |done].
  case_match; repeat ext_frame; apply ext_refl.
Qed.

Lemma adds_ensureDeviceId : adds 0 (fun s => (ensureDeviceId s).2).
Proof. unfold ensureDeviceId. same_solve. Qed.

Lemma adds_countrySelection o : adds 0 (fun s => (applyVpnCountrySelection o s).2).
Proof. unfold applyVpnCountrySelection. same_solve. Qed.

Lemma adds_cachedRouting k : adds 0 (fun s => (cachedRouting k s).2).
Proof. unfold cachedRouting. same_solve. Qed.

Lemma adds_storeRouting k r : adds 0 (storeRoutingCache k r).
Proof. unfold storeRoutingCache. same_solve. Qed.

Lemma adds_applyRouting k r b : adds 0 (fun s => (applyRouting k r b s).2).
Proof. unfold applyRouting. same_solve. Qed.

Lemma adds_saveGeo c : adds 0 (saveGeo c).
Proof. unfold saveGeo. same_solve. Qed.

Lemma adds_fail m : adds 0 (fail m).
Proof. by apply adds_same. Qed.

Lemma adds_billing o : adds 0 (billingReceived o).
Proof. unfold billingReceived. same_solve. Qed.

(** ** Operations that send requests *)

Lemma ext_get w path k s s' :
  extends 0 s s' -> kont_weight k <= w -> extends w s (get path k s').
Proof. exact (ext_request 0 w path [] k false false s s'). Qed.

Lemma ext_post_auth w path body k s s' :
  extends 0 s s' -> kont_weight k <= w -> extends w s (post_auth path body k s').
Proof. exact (ext_request 0 w path body k true true s s'). Qed.

Ltac ext_step :=
  lazymatch goal with
  | |- extends _ ?s ?s => exact (ext_refl _ s)
  | |- extends _ _ (let _ := _ in _) => cbv zeta
  | |- extends _ _ (upd _ _ _) => ext_frame
  | |- extends _ _ (out _ _) => ext_frame
  | |- extends _ _ (fail _ _) => ext_frame
  | |- extends _ _ (get _ _ _) => refine (ext_get _ _ _ _ _ _ _); [|simpl; lia]
  | |- extends _ _ (post_auth _ _ _ _) => refine (ext_post_auth _ _ _ _ _ _ _ _); [|simpl; lia]
  | |- extends _ _ (saveSession _) => eapply (ext_after 0); [apply adds_saveSession| |simpl; lia]
  | _ => case_match
  end.

Ltac ext_solve := cbv zeta; repeat ext_step.

(** [after lem] peels an operation that has its own lemma. *)
Ltac after lem := eapply (ext_after 0); [apply lem| |simpl; lia].

Lemma adds_registerDevice b : adds 8 (registerDevice b).
Proof.
  intros s. unfold registerDevice. pose proof (adds_ensureDeviceId s) as He. cbv beta in He.
  destruct (ensureDeviceId s) as [id s']. cbn [snd] in He.
  refine (ext_post_auth _ _ _ _ _ _ He _). simpl. lia.
Qed.

Lemma adds_deliver d f m p : adds 1 (deliverConfig d f m p).
Proof.
  intros s. unfold deliverConfig. destruct (negb _); [ext_solve|].
  destruct (_ || _); [ext_solve|]. cbv zeta. ext_frame.
  apply (ext_send 0); [|done]. ext_solve.
Qed.

Lemma adds_selectConfig i : adds 2 (selectConfig i).
Proof.
  intros s. unfold selectConfig. destruct (_ || _); [apply ext_refl|]. cbv zeta.
  destruct (negb _); [|ext_solve]. after adds_deliver. apply ext_refl.
Qed.

Lemma adds_configs o : adds 2 (configsReceived o).
Proof.
  intros s. unfold configsReceived. destruct (negb _); [ext_solve|]. cbv zeta.
  destruct (_ <=? _)%Z; [ext_solve|]. destruct (config_index _ _); [|ext_solve].
  after adds_selectConfig. ext_solve.
Qed.

Lemma adds_config f o : adds 1 (configReceived f o).
Proof.
  intros s. unfold configReceived. destruct (str_empty (trimmed _)); [ext_solve|].
  after adds_deliver. apply ext_refl.
Qed.

Lemma adds_refreshConfigs : adds 3 refreshConfigs.
Proof. intros s. unfold refreshConfigs. ext_solve. Qed.

Lemma adds_background k c : adds 0 (refreshRoutingCacheInBackground k c).
Proof.
  intros s. unfold refreshRoutingCacheInBackground. destruct (_ || _); [apply ext_refl|].
  cbv zeta. ext_frame. apply (ext_send 0); [apply ext_refl|done].
Qed.

Lemma adds_applyAndContinue k r : adds 3 (applyAndContinue k r).
Proof.
  intros s. unfold applyAndContinue. cbv zeta.
  pose proof (adds_storeRouting k r s) as H1. set (s1 := storeRoutingCache k r s) in *.
  pose proof (adds_applyRouting k r true s1) as H2. cbv beta in H2.
  destruct (applyRouting k r true s1) as [[] s2]; cbn [snd] in H2;
    pose proof (ext_trans _ _ _ _ _ H1 H2) as H3.
  - after adds_refreshConfigs. exact H3.
  - by eapply ext_weaken; [|apply Nat.le_0_l].
Qed.

Lemma adds_refreshRouting : adds 4 refreshRouting.
Proof.
  intros s. unfold refreshRouting. cbv zeta. set (key := routingCacheKey _).
  pose proof (adds_cachedRouting key s) as H1. cbv beta in H1.
  destruct (cachedRouting key s) as [c s1]; cbn [snd] in H1.
  destruct (_ && _).
  - pose proof (adds_applyRouting key c true s1) as H2. cbv beta in H2.
    destruct (applyRouting key c true s1) as [[] s2]; cbn [snd] in H2;
      pose proof (ext_trans _ _ _ _ _ H1 H2) as H3;
      [|by eapply ext_weaken; [|apply Nat.le_0_l]].
    assert (H4 : extends 3 s (refreshConfigs s2)) by (after adds_refreshConfigs; exact H3).
    destruct (routingCacheIsFresh _ _); [eapply ext_weaken; [exact H4|lia]|].
    eapply ext_after; [apply adds_background|exact H4|lia].
  - destruct (negb _); (refine (ext_get _ _ _ _ _ H1 _); simpl; lia).
Qed.

Lemma adds_routing c k o : adds 3 (routingReceived c k o).
Proof.
  intros s. unfold routingReceived. destruct (normalizeRoutingResponse _ _); [ext_solve|].
  apply adds_applyAndContinue.
Qed.

Lemma adds_geoCountries o : adds 4 (geoCountriesReceived o).
Proof.
  intros s. unfold geoCountriesReceived.
  destruct (ofind "countries" o) as [[]|]; try by ext_solve. cbv zeta.
  after adds_refreshRouting. destruct (_ && _); [after adds_saveGeo|]; ext_solve.
Qed.

Lemma adds_countrySelected o : adds 4 (countrySelected o).
Proof.
  intros s. unfold countrySelected. pose proof (adds_countrySelection o s) as H1. cbv beta in H1.
  destruct (applyVpnCountrySelection o s) as [[] s1]; cbn [snd] in H1.
  - after adds_refreshRouting. by repeat ext_frame.
  - ext_frame. by eapply ext_weaken; [|apply Nat.le_0_l].
Qed.

Lemma adds_refresh : adds 7 refresh.
Proof. intros s. unfold refresh. ext_solve. Qed.

Lemma adds_me o : adds 6 (meReceived o).
Proof.
  intros s. unfold meReceived. destruct (negb _); [ext_solve|]. cbv zeta.
  refine (ext_get _ _ _ _ _ _ _); [|simpl; lia]. after adds_updateSubscription. ext_solve.
Qed.

Lemma adds_authenticated e o : adds 8 (authenticated_reply e o).
Proof.
  intros s. unfold authenticated_reply. cbv zeta. destruct (_ || _) eqn:E; [ext_solve|].
  bprop. after adds_registerDevice. after adds_saveSession.
  constructor; [by intros _; apply str_empty_false|done|].
  exists []. rewrite app_nil_r. by split_and!; [|apply Nat.le_0_l|].
Qed.

(** Only a sign-out ends the session. *)
Definition ends_session (k : kont) : bool :=
  match k with KRevoke | KRevokeAll => true | _ => false end.

Lemma adds_success k o : ends_session k = false -> adds (pred (kont_weight k)) (success k o).
Proof.
  intros Hk s. destruct k; try discriminate Hk; cbn [success kont_weight pred]; unfold_handlers.
  - destruct (negb _); [ext_solve|]. after adds_refresh. ext_solve.
  - apply adds_authenticated.
  - after adds_refresh. ext_solve.
  - ext_solve.
  - apply adds_me.
  - pose proof (adds_countrySelection o s) as H1. cbv beta in H1.
    destruct (applyVpnCountrySelection o s) as [[] s1]; cbn [snd] in H1.
    + refine (ext_get _ _ _ _ _ H1 _). simpl. lia.
    + ext_frame. by eapply ext_weaken; [|apply Nat.le_0_l].
  - apply adds_geoCountries.
  - apply adds_routing.
  - apply adds_routing.
  - apply adds_configs.
  - apply adds_countrySelected.
  - apply adds_config.
  - apply adds_billing.
  - after adds_refresh. ext_solve.
Qed.

(** ** Signing out *)

(** The fields [clearSession] empties, apart from the error and the busy flag, which requests
    made while nobody is signed in set again. *)
Definition signed_out (s : ctl) : Prop :=
  (m_token s, m_username s, m_subscriptions s, m_configs s, m_vpnCountries s, m_vpnCountryMode s) =
    ("", "", [], [], [], "auto") /\
  (m_selectedVpnCountry s, m_effectiveVpnCountry s, m_pendingConfigId s, m_selectedConfigId s) =
    ("", "", 0%Z, 0%Z) /\
  (m_emailAccount s, m_telegramLinked s, m_accountDeletionRequested s, m_subscriptionKnown s,
   m_subscriptionAutoRenew s, m_subscriptionExpiresAt s) = (false, false, false, false, false, None) /\
  (m_lastSubscriptionNotificationKey s, m_lastAppliedRoutingCacheKey s, m_lastAppliedRoutingRevision s) =
    ("", "", "").

Record cleared (s s' : ctl) : Prop := {
  cl_out : signed_out s';
  cl_generation : m_generation s' = wrap32 (m_generation s + 1);
  cl_pending : forall p, p ∈ m_pending s' -> p ∈ m_pending s;
  cl_total : load s' <= load s
}.

Lemma forgetAccount_out s : signed_out (forgetAccount s).
Proof. repeat split. Qed.

Lemma clearStored_out s : signed_out s -> signed_out (clearStored s).
Proof. unfold clearStored. by destruct (cb_clear _). Qed.

Lemma clearStored_keeps s :
  m_generation (clearStored s) = m_generation s /\ m_pending (clearStored s) = m_pending s.
Proof. unfold clearStored. by destruct (cb_clear _). Qed.

Lemma abort_reply_keeps s :
  m_generation (abort_reply s) = m_generation s /\
  (forall p, p ∈ m_pending (abort_reply s) -> p ∈ m_pending s) /\
  load (abort_reply s) <= load s.
Proof.
  unfold abort_reply, load. destruct (m_reply s); [|done]. split_and!; simpl; [done| |apply total_filter].
  by intros p [_ ?]%list_elem_of_filter.
Qed.

Lemma forgetAccount_keeps s :
  m_generation (forgetAccount s) = m_generation s /\ m_pending (forgetAccount s) = m_pending s.
Proof. done. Qed.

Lemma cleared_fail m s s' : cleared s s' -> cleared s (fail m s').
Proof.
  intros [(E1 & E2 & E3 & E4) ? ? ?]. constructor; [|done..].
  split_and!; [exact E1| |exact E3|exact E4]. injection E2. intros. simpl. congruence.
Qed.

Lemma cleared_out o s s' : cleared s s' -> cleared s (out o s').
Proof. intros []. by constructor. Qed.

Lemma cleared_clearSession s : cleared s (clearSession s).
Proof.
  unfold clearSession. cbv zeta. apply cleared_out.
  destruct (abort_reply_keeps (s <| m_generation := wrap32 (m_generation s + 1) |>)) as (G1 & P1 & L1).
  revert G1 P1 L1. generalize (abort_reply (s <| m_generation := wrap32 (m_generation s + 1) |>)).
  intros s2 G1 P1 L1.
  destruct (forgetAccount_keeps s2) as [G2 P2]. pose proof (forgetAccount_out s2) as O2.
  revert G2 P2 O2. generalize (forgetAccount s2). intros s3 G2 P2 O2.
  destruct (clearStored_keeps s3) as [G3 P3]. pose proof (clearStored_out _ O2) as O3.
  constructor; [exact O3|rewrite G3, G2; exact G1|rewrite P3, P2; exact P1|].
  unfold load in *. rewrite P3, P2. exact L1.
Qed.

(** What a handler can do: keep the session and send requests, or end it. *)
Definition outcome (w : nat) (s s' : ctl) : Prop := extends w s s' \/ cleared s s'.

(** The one reply after which a chain starts again. *)
Definition device_lost (k : kont) (status : Z) (object : obj) : bool :=
  match k with
  | KCountrySelection =>
      (status =? 404)%Z && String.eqb (to_string (ofind "error" object)) "device_not_found"
  | _ => false
  end.

Ltac outcome_leaf :=
  lazymatch goal with
  | |- outcome _ _ (sessionEnded _) => right; apply cleared_fail, cleared_clearSession
  | |- outcome _ _ (clearSession _) => right; apply cleared_clearSession
  | |- outcome _ _ (refreshRouting _) => left; after adds_refreshRouting; ext_solve
  | |- outcome _ _ (refreshConfigs _) => left; after adds_refreshConfigs; ext_solve
  | |- outcome _ _ (refreshGeoRoutingCountries _) =>
      left; refine (ext_get _ _ _ _ _ _ _); [ext_solve|simpl; lia]
  | |- outcome _ _ (fail _ (maybeNotifySubscription _)) =>
      left; ext_frame; after adds_maybeNotify; ext_solve
  | |- outcome _ _ (fail _ _) => left; ext_solve
  | _ => case_match
  end.

Lemma failure_outcome k handler status o s :
  failure k = Some handler -> device_lost k status o = false ->
  outcome (pred (kont_weight k)) s (handler status o s).
Proof.
  intros Hf Hd. destruct k; unfold failure in Hf; try discriminate Hf; apply (inj Some) in Hf as <-;
    unfold_handlers;
    cbv zeta beta; cbn [kont_weight pred]; cbn [device_lost] in Hd; rewrite ?Hd;
    repeat outcome_leaf.
Qed.

Lemma success_outcome k o s : outcome (pred (kont_weight k)) s (success k o s).
Proof.
  destruct (ends_session k) eqn:E; [|left; by apply adds_success].
  right. destruct k; try discriminate E; apply cleared_clearSession.
Qed.

Lemma outcome_weaken w w' s s' : outcome w s s' -> w <= w' -> outcome w' s s'.
Proof. intros [?|?] ?; [left; by eapply ext_weaken|by right]. Qed.

(** Fields that do not matter before and after a handler. *)
Lemma outcome_before w s s1 s' :
  m_token s1 = m_token s -> m_generation s1 = m_generation s -> m_pending s1 = m_pending s ->
  outcome w s1 s' -> outcome w s s'.
Proof.
  intros E1 E2 E3 [[T G P]|[]]; [left; constructor|right; constructor]; unfold load in *;
    rewrite <- ?E1, <- ?E2, <- ?E3; done.
Qed.

Lemma outcome_out w o s s' : outcome w s s' -> outcome w s (out o s').
Proof. intros [?|?]; [left; by ext_frame|right; by apply cleared_out]. Qed.

Lemma apiFinished_outcome post k r s :
  device_lost k (r_status r) (doc_object (json_parse (r_body r))) = false ->
  outcome (pred (kont_weight k)) s (apiFinished post k r s).
Proof.
  intros Hd. unfold apiFinished. cbv zeta. set (s1 := s <| m_reply := None |>).
  refine (outcome_before _ s s1 _ eq_refl eq_refl eq_refl _).
  assert (H2 : forall s', outcome (pred (kont_weight k)) (s1 <| m_busy := false |>) s' ->
                     outcome (pred (kont_weight k)) s1 s')
    by (intros s' Ho; refine (outcome_before _ _ _ _ _ _ _ Ho); reflexivity).
  clearbody s1. destruct (failure k) as [handler|] eqn:Ek;
    repeat lazymatch goal with
    | |- outcome _ _ (fail _ (clearSession _)) => right; apply cleared_fail, cleared_clearSession
    | |- outcome _ _ (fail _ _) => left; ext_solve
    | |- outcome _ _ (out _ (success _ _ _)) => apply outcome_out, H2, success_outcome
    | |- outcome _ _ (handler _ _ _) => apply H2, (failure_outcome k); [exact Ek|exact Hd]
    | _ => case_match
    end.
Qed.

(** The weights of the replies left when one is taken. *)
Lemma load_taken i p s : m_pending s !! i = Some p -> load s = weight p + load (taken i p s).
Proof. intros Hl%delete_Permutation. unfold load. by rewrite (total_Permutation _ _ Hl). Qed.

(** A finished reply: ignored when it is not of the running session. *)
Lemma finished_outcome i p r s :
  (forall post k, p_job p = Api post k ->
     device_lost k (r_status r) (doc_object (json_parse (r_body r))) = false) ->
  outcome (pred (weight p)) (taken i p s) (finished p r (s <| m_pending := delete i (m_pending s) |>)).
Proof.
  intros Hd. rewrite finished_taken. destruct (negb _); [left; apply ext_refl|].
  unfold weight. destruct (p_job p) as [post k|f m pr|k c].
  - apply apiFinished_outcome. by apply (Hd post).
  - left. generalize (taken i p s). intros s1. unfold downloadFinished. cbv zeta.
    destruct (_ || _); ext_solve.
  - left. unfold backgroundFinished. destruct (_ || _); [apply ext_refl|].
    destruct (okObject _); [|apply ext_refl]. destruct (normalizeRoutingResponse _ _); [apply ext_refl|].
    after adds_storeRouting. apply adds_cachedRouting.
Qed.

Lemma outcome_load w s s' : outcome w s s' -> load s' <= load s + w.
Proof.
  intros [[_ _ (l & P & W & _)]|[]]; [|lia]. unfold load. rewrite P, total_app. lia.
Qed.

(** ** Events *)

Definition is_reply (e : event) : bool := match e with EReply _ _ => true | _ => false end.

Lemma adds_authenticate path c e : adds 9 (authenticate path c e).
Proof. intros s. exact (ext_request 0 9 path c (KAuthenticate path e) true false s s (ext_refl 0 s) (le_n 9)). Qed.

Lemma adds_selectCurrent : adds 2 selectCurrentConfig.
Proof.
  intros s. unfold selectCurrentConfig. destruct (_ || _); [apply ext_refl|].
  destruct (config_index _ _); [apply adds_selectConfig|].
  destruct (_ && _); [apply adds_selectConfig|]. ext_solve.
Qed.

Lemma adds_selectCountry c : adds 5 (selectVpnCountry c).
Proof.
  intros s. unfold selectVpnCountry. cbv zeta. destruct (_ || _); [apply ext_refl|].
  destruct (_ || _); [apply ext_refl|]. pose proof (adds_ensureDeviceId s) as He. cbv beta in He.
  destruct (ensureDeviceId s) as [id s']; cbn [snd] in He.
  refine (ext_post_auth _ _ _ _ _ _ He _). simpl. lia.
Qed.

Lemma adds_selectGeo c : adds 4 (selectGeoRoutingCountry c).
Proof.
  intros s. unfold selectGeoRoutingCountry. cbv zeta. destruct (_ || _); [apply ext_refl|].
  destruct (String.eqb _ _); [apply ext_refl|]. destruct (_ && _); [ext_solve|].
  after adds_refreshRouting. ext_frame. after adds_saveGeo. ext_solve.
Qed.

Lemma adds_renew : adds 1 renewSubscription.
Proof. intros s. unfold renewSubscription. cbv zeta. destruct (_ || _); [apply ext_refl|]. ext_solve. Qed.

Lemma adds_purchase r : adds 8 (purchaseFinished r).
Proof. intros s. unfold purchaseFinished. ext_solve. Qed.

(** A form that may sign in. *)
Ltac sign_in :=
  cbv zeta; repeat lazymatch goal with
  | |- extends _ _ (authenticate _ _ _ _) => apply adds_authenticate
  | _ => ext_step
  end.

Lemma step_outcome e s : is_reply e = false -> outcome 9 s (step e s).
Proof.
  intros He. destruct e; try discriminate He; unfold step.
  - left. unfold login. sign_in.
  - left. unfold loginCode. sign_in.
  - left. unfold loginEmail, emailForm. sign_in.
  - left. unfold registerEmail, emailForm. sign_in.
  - left. unfold linkTelegram. ext_solve.
  - left. unfold clearError. ext_solve.
  - unfold logout. destruct (negb _); [right; apply cleared_clearSession|]. left. ext_solve.
  - unfold logoutAll. destruct (negb _); [right; apply cleared_clearSession|]. left. ext_solve.
  - left. unfold requestAccountDeletion. ext_solve.
  - left. eapply ext_weaken; [apply adds_refresh|lia].
  - left. eapply ext_weaken; [apply adds_selectConfig|lia].
  - left. eapply ext_weaken; [apply adds_selectCurrent|lia].
  - left. eapply ext_weaken; [apply adds_selectCountry|lia].
  - left. eapply ext_weaken; [apply adds_selectGeo|lia].
  - left. eapply ext_weaken; [apply adds_renew|lia].
  - left. destruct (_ =? _)%nat; [apply ext_refl|]. eapply ext_weaken; [apply adds_purchase|lia].
  - left. ext_solve.
Qed.

(** [n] replies the user waits for arrive, none of them the answer that the device is not
    known any more. *)
Inductive replied : nat -> ctl -> ctl -> Prop :=
  | replied_none s : replied 0 s s
  | replied_one n s s' p r :
      p ∈ m_pending s -> foreground p = true ->
      (forall post k, p_job p = Api post k ->
         device_lost k (r_status r) (doc_object (json_parse (r_body r))) = false) ->
      replied n (step (EReply (p_id p) r) s) s' -> replied (S n) s s'.

Lemma find_pending s p :
  inv s -> p ∈ m_pending s ->
  exists i, m_pending s !! i = Some p /\ list_find (fun q => p_id q = p_id p) (m_pending s) = Some (i, p).
Proof.
  intros Hi Hp. destruct (list_find_elem_of (fun q => p_id q = p_id p) _ _ Hp eq_refl) as [[i q] Hf].
  pose proof Hf as (Hl & Hq & _)%list_find_Some. exists i.
  assert (q = p) as ->; [|done]. destruct Hi.
  apply (ids_unique (m_pending s)); [done|by eapply list_elem_of_lookup_2|done..].
Qed.

Lemma foreground_weight p : foreground p = true -> 0 < weight p.
Proof. unfold foreground, weight. destruct (p_job p) as [? []| |]; simpl; by lia. Qed.

Lemma replied_load n s s' : inv s -> replied n s s' -> inv s' /\ n + load s' <= load s.
Proof.
  intros Hi Hr. induction Hr as [s|n s s' p r Hp Hf Hd Hr IH]; [by split|].
  destruct (IH (inv_step_event _ _ Hi)) as [Hi' IH']. split; [done|].
  destruct (find_pending s p Hi Hp) as (i & Hl & He).
  revert IH'. unfold step. rewrite He. intros IH'.
  pose proof (outcome_load _ _ _ (finished_outcome i p r s Hd)) as Ho.
  rewrite (load_taken i p s Hl). pose proof (foreground_weight p Hf). lia.
Qed.

Lemma load_foreground s p : p ∈ m_pending s -> foreground p = true -> 0 < load s.
Proof.
  intros Hp Hf. apply list_elem_of_lookup in Hp as [i Hl]. rewrite (load_taken i p s Hl).
  pose proof (foreground_weight p Hf). lia.
Qed.

(** C36: Every chain of replies ends: from a controller that waits for nothing, one action of
    the user, the App Store or the clock is followed by at most nine replies the user has to
    wait for, unless the service keeps answering that the device is unknown; and when none is
    left the controller is not busy, except while an App Store purchase is open. *)
Theorem chains_end e s s' n :
  reachable s -> load s = 0 -> is_reply e = false -> replied n (step e s) s' ->
  n <= 9 /\ n + load s' <= 9 /\ (load s' = 0 -> m_busy s' = true -> 0 < m_purchases s').
Proof.
  intros Hs%reachable_inv Hl He Hr.
  destruct (replied_load _ _ _ (inv_step_event e s Hs) Hr) as [Hi Hn].
  pose proof (outcome_load _ _ _ (step_outcome e s He)). split_and!; [lia..|].
  intros Hz Hb. destruct Hi as [_ _ _ _ _ Hbusy _ _ _ _]. destruct (Hbusy Hb) as [?|(p & Hp & Hf & _)]; [done|].
  pose proof (load_foreground s' p Hp Hf). lia.
Qed.

End Extends.

(** ** A concrete run *)

Lemma chains_end_witness :
  let W := sample_world Linux in
  let s := step (ELoginCode " 123456 ") (TunnelCoreController sample_callbacks (mkStore None "" ∅ "") 0) in
  let s' := step (EReply 0 (mkReply true 401 "")) s in
  1 <= 9 /\ 1 + load s' <= 9 /\ (load s' = 0 -> m_busy s' = true -> 0 < m_purchases s').
Proof.
  intros W s s'. apply (chains_end (ELoginCode " 123456 ")
    (TunnelCoreController sample_callbacks (mkStore None "" ∅ "") 0));
    [apply reachable_new|vm_compute; reflexivity|reflexivity|].
  apply (replied_one 0 s s' (mkPending 0 0 (Api true (KAuthenticate "auth/code/exchange/" false)))
           (mkReply true 401 "")); [|reflexivity| |].
  - apply list_elem_of_lookup_2 with (i := 0). vm_compute. reflexivity.
  - intros post k [= <- <-]. reflexivity.
  - apply replied_none.
Defined.
