(* ===== verification/TunnelCoreIsolation.v ===== *)
(** * The account controller: isolation of sessions

    A controller nobody is signed in to holds nothing of an account, and a reply that was
    asked for in an earlier session changes nothing. *)

From S2P Require Import Prelude Json TunnelCoreState TunnelCore TunnelCoreInv TunnelCoreSession.

Section Isolation.
Context `{World}.

(** ** Isolation of sessions *)

(** The requests that can be running while nobody is signed in. *)
Definition sign_in_job (j : job) : Prop :=
  match j with Api _ (KAuthenticate _ _) | Api _ (KAppleConfirm _) => True | _ => False end.

(** After [n] events of a controller whose generation has not wrapped: replies are of the
    running session or older, and a controller nobody is signed in to holds nothing of an
    account and waits for sign-in requests only. *)
Record session (n : Z) (s : ctl) : Prop := {
  ses_generation : (0 <= m_generation s <= n)%Z;
  ses_pending : Forall (fun p => p_generation p <= m_generation s)%Z (m_pending s);
  ses_out : m_token s = "" ->
            signed_out s /\
            Forall (fun p => p_generation p = m_generation s -> sign_in_job (p_job p)) (m_pending s)
}.

Lemma session_mono n n' s : session n s -> (n <= n')%Z -> session n' s.
Proof. intros [] ?. constructor; [lia|done..]. Qed.

Lemma session_cleared n s s' :
  session n s -> (n + 1 < 2 ^ 32)%Z -> cleared s s' -> session (n + 1) s'.
Proof.
  intros [G P _] Hn [O G' P' _].
  assert (Hg : m_generation s' = (m_generation s + 1)%Z)
    by (rewrite G'; unfold wrap32; apply Z.mod_small; lia).
  rewrite Forall_forall in P.
  constructor; [lia| |].
  - rewrite Forall_forall. intros p Hp%P'%P. lia.
  - intros _. split; [done|]. rewrite Forall_forall. intros p Hp%P'%P ?. lia.
Qed.

Lemma session_extends n w s s' :
  session n s -> m_token s <> "" -> extends w s s' -> session n s'.
Proof.
  intros [G P _] Ht [T G' (l & P' & _ & F)]. constructor; rewrite G'; [done| |by intros ?%T].
  rewrite P'. apply Forall_app_2; [done|]. eapply Forall_impl; [done|]. simpl. lia.
Qed.

Lemma session_outcome n w s s' :
  session n s -> (n + 1 < 2 ^ 32)%Z -> m_token s <> "" -> outcome w s s' -> session (n + 1) s'.
Proof.
  intros Hs Hn Ht [He|Hc]; [|by eapply session_cleared].
  eapply session_mono; [by eapply session_extends|lia].
Qed.

(** ** While nobody is signed in *)

Record hushed (s s' : ctl) : Prop := {
  hu_out : signed_out s';
  hu_generation : m_generation s' = m_generation s;
  hu_pending : exists l, m_pending s' = m_pending s ++ l /\
    Forall (fun p => p_generation p = m_generation s /\ sign_in_job (p_job p)) l
}.

Lemma session_hushed n s s' : session n s -> m_token s = "" -> hushed s s' -> session n s'.
Proof.
  intros [G P O] Ht [Ho G' (l & P' & F)]. destruct (O Ht) as [_ O'].
  constructor; rewrite G', ?P'; [done| |].
  - apply Forall_app_2; [done|]. eapply Forall_impl; [done|]. simpl. lia.
  - intros _. split; [done|]. apply Forall_app_2; [done|]. eapply Forall_impl; [done|]. naive_solver.
Qed.

Lemma hushed_refl s : signed_out s -> hushed s s.
Proof. intros. constructor; [done..|]. exists []. by rewrite app_nil_r. Qed.

Lemma hushed_fail m s : signed_out s -> hushed s (fail m s).
Proof.
  intros (E1 & E2 & E3 & E4). constructor; [|done|exists []; by rewrite app_nil_r].
  split_and!; [exact E1| |exact E3|exact E4]. injection E2. intros. simpl. congruence.
Qed.

Lemma hushed_request path body k post auth s :
  signed_out s -> sign_in_job (Api post k) -> hushed s (request path body k post auth s).
Proof.
  intros Ho Hk. constructor; [exact Ho|done|].
  exists [mkPending (m_nextId s) (m_generation s) (Api post k)]. split; [done|]. by repeat constructor.
Qed.

Lemma signed_out_token s : signed_out s -> m_token s = "".
Proof. intros [E _]. by injection E. Qed.

Lemma signed_out_authenticated s : signed_out s -> authenticated s = false.
Proof. intros Ho. unfold authenticated. by rewrite (signed_out_token s Ho). Qed.

Lemma hushed_authenticate path c e s : signed_out s -> hushed s (authenticate path c e s).
Proof. intros Ho. exact (hushed_request path c (KAuthenticate path e) true false s Ho I). Qed.

Lemma hushed_out o s : signed_out s -> hushed s (out o s).
Proof. intros Ho. constructor; [exact Ho|done|exists []; by rewrite app_nil_r]. Qed.

(** An operation for a signed-in user. *)
Ltac guarded Ha := rewrite Ha; destruct (m_busy _); by apply hushed_refl.

Ltac hush :=
  repeat lazymatch goal with
  | |- hushed ?s ?s => by apply hushed_refl
  | |- hushed _ (fail _ _) => by apply hushed_fail
  | |- hushed _ (authenticate _ _ _ _) => by apply hushed_authenticate
  | _ => case_match
  end.

Lemma hushed_step e s :
  signed_out s -> is_reply e = false -> hushed s (step e s) \/ cleared s (step e s).
Proof.
  intros Ho He. pose proof (signed_out_authenticated s Ho) as Ha.
  destruct e; try discriminate He; unfold step.
  - left. unfold login. hush.
  - left. unfold loginCode. hush.
  - left. unfold loginEmail, emailForm. hush.
  - left. unfold registerEmail, emailForm. hush.
  - left. unfold linkTelegram. guarded Ha.
  - left. unfold clearError. constructor; [exact Ho|done|exists []; by rewrite app_nil_r].
  - right. unfold logout. rewrite Ha. apply cleared_clearSession.
  - right. unfold logoutAll. rewrite Ha. apply cleared_clearSession.
  - left. unfold requestAccountDeletion. guarded Ha.
  - left. unfold refresh. guarded Ha.
  - left. unfold selectConfig. guarded Ha.
  - left. unfold selectCurrentConfig. guarded Ha.
  - left. unfold selectVpnCountry. guarded Ha.
  - left. unfold selectGeoRoutingCountry. guarded Ha.
  - left. unfold renewSubscription. guarded Ha.
  - left. destruct (_ =? _)%nat; [hush|]. unfold purchaseFinished.
    set (s1 := s <| m_purchases := _ |> <| m_busy := false |>).
    assert (O1 : signed_out s1) by exact Ho.
    assert (Hb : forall s', hushed s1 s' -> hushed s s') by (intros s' []; by constructor).
    apply Hb. destruct (negb _).
    + destruct (pu_failureReason r); [by apply hushed_out|by apply hushed_fail..].
    + exact (hushed_request _ _ (KAppleConfirm _) true true s1 O1 I).
  - left. constructor; [exact Ho|done|exists []; by rewrite app_nil_r].
Qed.

(** ** Replies *)

Lemma apiFinished_some post k r s : exists w, outcome w s (apiFinished post k r s).
Proof.
  destruct (device_lost k (r_status r) (doc_object (json_parse (r_body r)))) eqn:E;
    [|eexists; by apply apiFinished_outcome].
  destruct k; try discriminate E. exists 8. cbn [device_lost] in E.
  pose proof E as [Hs _]%andb_true_iff. apply Z.eqb_eq in Hs.
  unfold apiFinished, failure. unfold_handlers. cbv zeta beta. rewrite E, Hs. cbn [negb andb Z.leb Z.ltb].
  left. refine (ext_after 0 8 8 _ s (s <| m_reply := None |> <| m_busy := false |>)
                  (adds_registerDevice false) _ _); [|lia].
  constructor; [done..|]. exists []. by rewrite app_nil_r.
Qed.

Lemma finished_some i p r s :
  exists w, outcome w (taken i p s) (finished p r (s <| m_pending := delete i (m_pending s) |>)).
Proof.
  destruct (p_job p) as [post k|f m pr|key c] eqn:Ej.
  - rewrite finished_taken, Ej. destruct (negb _); [exists 0; left; apply ext_refl|].
    apply apiFinished_some.
  - eexists. apply finished_outcome. intros ? ?. by rewrite Ej.
  - eexists. apply finished_outcome. intros ? ?. by rewrite Ej.
Qed.

Lemma session_taken n i p s : session n s -> m_pending s !! i = Some p -> session n (taken i p s).
Proof.
  intros [G P O] Hl%delete_Permutation.
  constructor; [exact G| |]; unfold taken; simpl.
  - rewrite Hl in P. by apply Forall_cons in P as [].
  - intros [Ho F]%O. split; [exact Ho|]. rewrite Hl in F. by apply Forall_cons in F as [].
Qed.

(** The failure handler of a sign-in request reports the error, or ends the session. *)
Lemma sign_in_failure k handler status o s :
  sign_in_job (Api true k) -> failure k = Some handler -> signed_out s ->
  hushed s (handler status o s) \/ cleared s (handler status o s).
Proof.
  intros Hk Hf Ho. destruct k; try done; unfold failure in Hf; apply (inj Some) in Hf as <-;
    unfold_handlers;
    cbv zeta beta; repeat lazymatch goal with
    | |- _ \/ cleared _ (sessionEnded _) => right; apply cleared_fail, cleared_clearSession
    | |- hushed _ (fail _ _) \/ _ => left; by apply hushed_fail
    | _ => case_match
    end.
Qed.

(** A successful sign-in starts a session. *)
Lemma sign_in_success n k o s :
  sign_in_job (Api true k) -> session n s -> signed_out s -> session n (success k o s).
Proof.
  intros Hk Hs Ho. pose proof (signed_out_token s Ho) as Ht. destruct k; try done; cbn [success]; unfold_handlers.
  - unfold authenticated_reply. cbv zeta. destruct (_ || _) eqn:E.
    + eapply session_hushed; [done..|by apply hushed_fail].
    + bprop. match goal with Hn : str_empty (to_string _) = false |- _ => apply str_empty_false in Hn end.
      assert (Hr : forall s1, m_token s1 <> "" -> m_generation s1 = m_generation s ->
                         m_pending s1 = m_pending s -> session n (registerDevice true (saveSession s1))).
      { intros s1 T1 G1 P1.
        assert (session n s1) by (destruct Hs; constructor; rewrite ?G1, ?P1; done).
        eapply session_extends; [by eapply session_extends; [| |apply adds_saveSession]| |
                                 apply adds_registerDevice].
        by apply adds_saveSession. }
      by apply Hr.
  - unfold refresh. set (s1 := _ <| m_lastSubscriptionNotificationKey := "" |>).
    assert (O1 : signed_out s1)
      by (destruct Ho as (E1 & E2 & E3 & E4); split_and!; [exact E1|exact E2|exact E3|];
          injection E4; intros; simpl; congruence).
    rewrite (signed_out_authenticated s1 O1). rewrite orb_true_r.
    eapply session_hushed; [done..|]. constructor; [done..|]. exists []. by rewrite app_nil_r.
Qed.

Lemma sign_in_reply n post k r s :
  sign_in_job (Api post k) -> session n s -> (n + 1 < 2 ^ 32)%Z -> signed_out s ->
  session (n + 1) (apiFinished post k r s).
Proof.
  intros Hk Hs Hn Ho. unfold apiFinished. cbv zeta. set (s1 := s <| m_reply := None |>).
  assert (S1 : session n s1) by (destruct Hs; by constructor).
  assert (O1 : signed_out s1) by exact Ho. clearbody s1. clear s Hs Ho.
  assert (Ht : m_token s1 = "") by by apply signed_out_token.
  assert (S2 : session n (s1 <| m_busy := false |>)) by (destruct S1; by constructor).
  assert (Hh : forall s', hushed s1 s' -> session (n + 1) s')
    by (intros; eapply session_mono; [eapply session_hushed; [exact S1|done|done]|lia]).
  assert (Hc : forall s', cleared s1 s' -> session (n + 1) s') by (intros; eapply session_cleared; [exact S1|done|done]).
  destruct (failure k) as [handler|] eqn:Ek;
    repeat lazymatch goal with
    | |- session _ (fail _ (clearSession _)) => apply Hc, cleared_fail, cleared_clearSession
    | |- session _ (fail _ _) => by apply Hh, hushed_fail
    | |- session _ (out _ (success _ ?ob _)) =>
        assert (S3 : session n (success k ob (s1 <| m_busy := false |>))) by (by apply sign_in_success);
        apply session_mono with (n := n); [destruct S3; by constructor|lia]
    | |- session _ (handler _ _ _) =>
        destruct (sign_in_failure k handler (r_status r) (doc_object (json_parse (r_body r)))
                    (s1 <| m_busy := false |>)) as [Hx|Hx]; [done..| |];
        [apply Hh; destruct Hx; by constructor|apply Hc; destruct Hx; by constructor]
    | _ => case_match
    end.
Qed.

(** ** Runs *)

Lemma session_step n e s : session n s -> (n + 1 < 2 ^ 32)%Z -> session (n + 1) (step e s).
Proof.
  intros Hs Hn. destruct (is_reply e) eqn:He.
  - destruct e as [| | | | | | | | | | | | | | |id r| |]; try discriminate He. unfold step.
    destruct (list_find _ _) as [[i p]|] eqn:Ef; [|eapply session_mono; [done|lia]].
    apply list_find_Some in Ef as (Hl & _ & _).
    pose proof (session_taken n i p s Hs Hl) as Ht.
    destruct (decide (m_token s = "")) as [E|E].
    + destruct Hs as [G P O]. destruct (O E) as [Ho F]. rewrite finished_taken.
      destruct (p_generation p =? m_generation s)%Z eqn:Eg; cbn [negb];
        [|eapply session_mono; [done|lia]].
      apply Z.eqb_eq in Eg. rewrite Forall_forall in F.
      specialize (F p (list_elem_of_lookup_2 _ _ _ Hl) Eg).
      destruct (p_job p) as [post k|f m pr|key c]; try done. by apply sign_in_reply.
    + destruct (finished_some i p r s) as [w Hw]. by eapply session_outcome.
  - destruct (decide (m_token s = "")) as [E|E].
    + pose proof Hs as [_ _ O]. destruct (O E) as [Ho _].
      destruct (hushed_step e s Ho He) as [Hh|Hc]; [|by eapply session_cleared].
      eapply session_mono; [by eapply session_hushed|lia].
    + eapply session_outcome; [done..|]. by apply step_outcome.
Qed.

Lemma session_constructor cb st now : session 0 (TunnelCoreController cb st now).
Proof.
  unfold TunnelCoreController. cbv zeta.
  set (s1 := if cb_loadGeo cb then _ else _). set (s2 := if cb_loadDevice cb then _ else _).
  assert (H1 : signed_out s1 /\ m_generation s1 = 0%Z /\ m_pending s1 = [])
    by (subst s1; destruct (cb_loadGeo cb); by repeat split).
  clearbody s1.
  assert (H2 : signed_out s2 /\ m_generation s2 = 0%Z /\ m_pending s2 = []).
  { subst s2. destruct (cb_loadDevice cb); [|exact H1]. destruct (uuid_parse _); exact H1. }
  clearbody s2. destruct H2 as (Ho & Hg & Hp).
  assert (Hs : session 0 s2) by (constructor; rewrite ?Hg, ?Hp; [lia|done|by split]).
  destruct (negb _); [done|]. destruct (default _ _) as [[[token user] em] tg].
  destruct (_ || _) eqn:E.
  - pose proof (clearStored_keeps s2) as [G3 P3]. pose proof (clearStored_out s2 Ho) as O3.
    destruct Hs. constructor; rewrite ?G3, ?P3, ?Hg, ?Hp; [lia|done|by split].
  - bprop. apply session_extends with (w := 8) (s := s2 <| m_token := token |>
      <| m_username := user |> <| m_emailAccount := em |> <| m_telegramLinked := tg |>);
      [|by apply str_empty_false|apply adds_registerDevice].
    destruct Hs. constructor; [done..|]. intros Ht. by apply str_empty_false in Ht.
Qed.

Lemma session_run es n s :
  session n s -> (n + Z.of_nat (length es) < 2 ^ 32)%Z ->
  session (n + Z.of_nat (length es)) (run es s).
Proof.
  revert n s. induction es as [|e es IH]; intros n s Hs Hn; simpl in *.
  - eapply session_mono; [done|lia].
  - replace (n + Z.of_nat (S (length es)))%Z with (n + 1 + Z.of_nat (length es))%Z by lia.
    apply IH; [|lia]. apply session_step; [done|lia].
Qed.

(** The generation grows when a session ends, and never falls. *)
Lemma step_generation n e s :
  session n s -> (n + 1 < 2 ^ 32)%Z ->
  (m_generation s <= m_generation (step e s))%Z /\
  (m_token s <> "" -> m_token (step e s) = "" -> m_generation s < m_generation (step e s))%Z.
Proof.
  intros Hs Hn.
  assert (exists w s0, outcome w s0 (step e s) /\ m_generation s0 = m_generation s /\ m_token s0 = m_token s)
    as (w & s0 & Ho & Hg & Ht).
  { destruct (is_reply e) eqn:He; [|exists 9, s; split; [by apply step_outcome|done]].
    destruct e as [| | | | | | | | | | | | | | |id r| |]; try discriminate He. unfold step.
    destruct (list_find _ _) as [[i p]|] eqn:Ef; [|exists 0, s; split; [left; apply ext_refl|done]].
    destruct (finished_some i p r s) as [w Hw]. by exists w, (taken i p s). }
  rewrite <- Hg, <- Ht. destruct Ho as [[T G _]|[_ G _ _]].
  - rewrite G. split; [lia|]. intros ?%T ?. done.
  - destruct Hs as [G' _ _]. rewrite G. unfold wrap32. rewrite Z.mod_small by lia. lia.
Qed.

Lemma run_generation es n s :
  session n s -> (n + Z.of_nat (length es) < 2 ^ 32)%Z ->
  (m_generation s <= m_generation (run es s))%Z /\
  (m_token s <> "" -> m_token (run es s) = "" -> m_generation s < m_generation (run es s))%Z.
Proof.
  revert n s. induction es as [|e es IH]; intros n s Hs Hn; simpl in *; [split; [lia|done]|].
  destruct (step_generation n e s Hs) as [H1 H2]; [lia|].
  destruct (IH (n + 1)%Z (step e s)) as [H3 H4]; [apply session_step; [done|lia]|lia|].
  split; [lia|]. intros Ht Hr. destruct (decide (m_token (step e s) = "")) as [E|E].
  - specialize (H2 Ht E). lia.
  - specialize (H4 E Hr). lia.
Qed.

Lemma run_app es1 es2 s : run (es1 ++ es2) s = run es2 (run es1 s).
Proof. apply fold_left_app. Qed.

Lemma reachable_run es s : reachable s -> reachable (run es s).
Proof. revert s. induction es as [|e es IH]; intros s Hs; [done|]. by apply IH, reachable_step. Qed.

(** C35: A controller nobody is signed in to holds no data of an account: whatever happened
    before, in fewer than 2^32 events, when the token is empty then the user name, the
    subscriptions, the configurations, the VPN countries, the chosen and the effective VPN
    country, the pending and the selected configuration, the facts about the account (email,
    Telegram, deletion asked for, subscription known, renewed, expiry) and the keys of the last
    notification and of the last applied routing are empty too, and the country mode is
    automatic.  The geo-routing countries and the chosen one, the cache of routing rules, the
    error shown and the open purchases are not of this kind: signing out keeps them, or they
    come back while nobody is signed in. *)
Theorem signed_out_holds_nothing cb st now es :
  (Z.of_nat (length es) < 2 ^ 32)%Z ->
  authenticated (run es (TunnelCoreController cb st now)) = false ->
  signed_out (run es (TunnelCoreController cb st now)).
Proof.
  intros Hn Ha. destruct (session_run es 0 _ (session_constructor cb st now)) as [_ _ O]; [done|].
  apply O. unfold authenticated in Ha. bprop. by apply str_empty_true.
Qed.

(** C3: Sessions are isolated: once the user was signed out, a reply that was asked for
    before changes nothing, in whatever session it arrives; it only stops being awaited. *)
Theorem stale_reply_ignored cb st now es1 es2 es3 p r :
  (Z.of_nat (length es1 + length es2 + length es3) < 2 ^ 32)%Z ->
  let s1 := run es1 (TunnelCoreController cb st now) in
  let s2 := run es2 s1 in
  let s3 := run es3 s2 in
  authenticated s1 = true -> p ∈ m_pending s1 ->
  authenticated s2 = false -> p ∈ m_pending s3 ->
  exists i, m_pending s3 !! i = Some p /\ step (EReply (p_id p) r) s3 = taken i p s3.
Proof.
  intros Hn s1 s2 s3 Ha1 Hp1 Ha2 Hp3.
  assert (S1 := session_run es1 0 _ (session_constructor cb st now) ltac:(lia)). fold s1 in S1.
  assert (S2 := session_run es2 _ _ S1 ltac:(lia)). fold s2 in S2.
  destruct (run_generation es2 _ s1 S1) as [_ Hlt]; [lia|].
  destruct (run_generation es3 _ s2 S2) as [Hle _]; [lia|].
  unfold authenticated in Ha1, Ha2. bprop. apply str_empty_false in Ha1. apply str_empty_true in Ha2.
  specialize (Hlt Ha1 Ha2).
  destruct S1 as [_ P1 _]. rewrite Forall_forall in P1. specialize (P1 p Hp1).
  assert (Hi : inv s3) by (apply reachable_inv; repeat apply reachable_run; constructor).
  destruct (find_pending s3 p Hi Hp3) as (i & Hl & Hf). exists i. split; [done|].
  unfold step. rewrite Hf, finished_taken.
  rewrite (proj2 (Z.eqb_neq (p_generation p) (m_generation s3))); [done|].
  change (run es3 s2) with s3 in Hle. change (run es2 s1) with s2 in Hlt. lia.
Qed.

End Isolation.

(** ** Concrete runs *)

#[local] Existing Instance json_text_model.

Definition sample_run : list event := [ELogout; EReply 1 (sample_reply [])].

Lemma signed_out_holds_nothing_witness :
  let W := sample_world Linux in
  signed_out (run sample_run (TunnelCoreController sample_callbacks (sample_store "ann") 0)).
Proof.
  intros W. apply signed_out_holds_nothing; [vm_compute; reflexivity|vm_compute; reflexivity].
Defined.

Lemma stale_reply_ignored_witness :
  let W := sample_world Linux in
  let s := run [ELogin "bob" "secret"] (run sample_run
             (run [] (TunnelCoreController sample_callbacks (sample_store "ann") 0))) in
  exists i, m_pending s !! i = Some (mkPending 0 0 (Api true (KRegisterDevice false))) /\
            step (EReply 0 (sample_reply [])) s =
            taken i (mkPending 0 0 (Api true (KRegisterDevice false))) s.
Proof.
  intros W s.
  apply (stale_reply_ignored sample_callbacks (sample_store "ann") 0 [] sample_run
           [ELogin "bob" "secret"] (mkPending 0 0 (Api true (KRegisterDevice false))) (sample_reply []));
    [vm_compute; reflexivity|vm_compute; reflexivity| |vm_compute; reflexivity|];
    (apply list_elem_of_lookup_2 with (i := 0); vm_compute; reflexivity).
Defined.
