(* ===== verification/TunnelCoreFacts.v ===== *)
(** * The account controller: what its operations compute

    Subscriptions and reminders, the routing rules and their cache, and the choice of a
    configuration. *)

From S2P Require Import Prelude Json TunnelCoreState TunnelCore.

Section Subscriptions.
Context `{World}.

(** An empty text is no date. *)
Hypothesis empty_no_date : parse_date "" = None.

(** The later of two dates. *)
Definition latest (a b : option Z) : option Z := if later b a then b else a.

Definition expiries (l : list json) : list (option Z) :=
  map (fun v => subscriptionExpiry (to_object (Some v))) l.

Lemma latest_spec a b :
  (forall x, a = Some x -> exists z, latest a b = Some z /\ (x <= z)%Z) /\
  (forall x, b = Some x -> exists z, latest a b = Some z /\ (x <= z)%Z) /\
  (latest a b = a \/ latest a b = b).
Proof.
  unfold latest, later. destruct a as [x|], b as [y|]; simpl;
    [destruct (x <? y)%Z eqn:E; bprop|..]; split_and!; try (intros ? [= <-]; eexists; split; [done|lia]);
    try done; auto.
Qed.

Lemma expiry_empty : subscriptionExpiry [] = None.
Proof. exact empty_no_date. Qed.

Lemma primary_loop_cons v l p e :
  primary_loop (v :: l) (p, e) =
  let q := to_object (Some v) in
  primary_loop l (if is_nil p || later (subscriptionExpiry q) e then (q, subscriptionExpiry q) else (p, e)).
Proof. done. Qed.

(** The two locals of the loop agree: the date is the one of the subscription. *)
Lemma primary_loop_latest l p e :
  subscriptionExpiry p = e ->
  subscriptionExpiry (primary_loop l (p, e)).1 = (primary_loop l (p, e)).2 /\
  (primary_loop l (p, e)).2 = fold_left latest (expiries l) e.
Proof.
  revert p e. induction l as [|v l IH]; intros p e He; [by split|]. cbn [expiries map fold_left].
  rewrite primary_loop_cons. cbv zeta. set (q := to_object (Some v)). unfold latest at 2.
  destruct (later (subscriptionExpiry q) e) eqn:El.
  - rewrite orb_true_r. by apply IH.
  - rewrite orb_false_r. destruct p as [|kv p]; cbn [is_nil]; [|by apply IH].
    assert (e = None) as -> by (rewrite <- He; apply expiry_empty).
    destruct (subscriptionExpiry q) eqn:Eq; [discriminate El|]. by apply IH.
Qed.

Lemma latest_fold l e x :
  (e = Some x \/ Some x ∈ l) -> exists z, fold_left latest l e = Some z /\ (x <= z)%Z.
Proof.
  revert e x. induction l as [|a l IH]; intros e x; simpl.
  - intros [->|?%not_elem_of_nil]; [|done]. by exists x.
  - destruct (latest_spec e a) as (H1 & H2 & _). intros [He|Hin].
    + destruct (H1 x He) as (z & Hz & ?). destruct (IH _ z (or_introl Hz)) as (z' & ? & ?).
      exists z'. split; [done|lia].
    + apply elem_of_cons in Hin as [Ha|Hin]; [|by apply IH; right].
      destruct (H2 x (eq_sym Ha)) as (z & Hz & ?). destruct (IH _ z (or_introl Hz)) as (z' & ? & ?).
      exists z'. split; [done|lia].
Qed.

Lemma primary_loop_member l p e :
  (primary_loop l (p, e)).1 = p \/ exists v, v ∈ l /\ (primary_loop l (p, e)).1 = to_object (Some v).
Proof.
  revert p e. induction l as [|v l IH]; intros p e; [by left|].
  rewrite primary_loop_cons. cbv zeta. case_match.
  - destruct (IH (to_object (Some v)) (subscriptionExpiry (to_object (Some v)))) as [->|(w & Hw & ->)];
      right; [exists v|exists w]; split; try done; [by left|by right].
  - destruct (IH p e) as [->|(w & Hw & ->)]; [by left|]. right. exists w. split; [by right|done].
Qed.

Lemma fallback_fold l e :
  fold_left (fun best value =>
    let expiry := subscriptionExpiry (to_object (Some value)) in
    if later expiry best then expiry else best) l e = fold_left latest (expiries l) e.
Proof. revert e. induction l as [|v l IH]; intros e; simpl; [done|]. apply IH. Qed.

(** The primary subscription is one of the account's and no other lasts longer; and when
    the service sends no active entitlement, the expiry date the controller works with is the
    date of that same subscription. *)
Theorem primary_subscription_latest s accountObject :
  (forall v e, v ∈ m_subscriptions s -> subscriptionExpiry (to_object (Some v)) = Some e ->
     exists e', subscriptionExpiry (primarySubscription s) = Some e' /\ (e <= e')%Z) /\
  (primarySubscription s = [] \/
   exists v, v ∈ m_subscriptions s /\ primarySubscription s = to_object (Some v)) /\
  (to_bool (ofind "active" (to_object (ofind "entitlement" accountObject))) = false ->
   m_subscriptionExpiresAt (updateSubscriptionState accountObject s) =
   subscriptionExpiry (primarySubscription s)).
Proof.
  unfold primarySubscription.
  destruct (primary_loop_latest (m_subscriptions s) [] None expiry_empty) as [H1 H2]. split_and!.
  - intros v e Hv He. rewrite H1, H2. apply latest_fold. right. rewrite <- He.
    apply list_elem_of_In. unfold expiries. apply in_map_iff. exists v.
    split; [done|by apply list_elem_of_In].
  - apply primary_loop_member.
  - intros Ha. rewrite H1, H2, <- fallback_fold. unfold updateSubscriptionState. rewrite Ha.
    cbv zeta. simpl. destruct (is_nil _); simpl; unfold maybeNotifySubscription;
      repeat case_match; reflexivity.
Qed.

End Subscriptions.

Section Reminders.
Context `{World}.

Lemma secsTo_pos a b : (0 < secsTo a b)%Z -> (a < b)%Z.
Proof.
  unfold secsTo. intros Hp. destruct (Z_lt_le_dec a b); [done|].
  assert (Z.quot (b - a) 1000 <= 0)%Z; [|lia].
  rewrite <- (Z.opp_involutive (b - a)), Z.quot_opp_l by lia.
  pose proof (Z.quot_pos (- (b - a)) 1000). lia.
Qed.

Lemma cast_int_id z : (0 <= z < 2 ^ 31)%Z -> cast_int z = z.
Proof. intros. unfold cast_int, wrap32. rewrite Z.mod_small; lia. Qed.

(** The days are the seconds rounded up. *)
Lemma ceiling_days n : (0 < n)%Z ->
  let d := Z.quot (n + 86399) 86400 in ((d - 1) * 86400 < n <= d * 86400)%Z.
Proof.
  intros Hn d. subst d. rewrite Z.quot_div_nonneg by lia.
  pose proof (Z.div_mod (n + 86399) 86400). pose proof (Z.mod_pos_bound (n + 86399) 86400). lia.
Qed.

(** The number of days shown is the time left rounded up to whole days; a subscription that
    has run out has no day left and is the only one reported inactive; and the warning is
    visible exactly when the subscription has run out or at most seven days are left. *)
Theorem days_remaining_spec s t :
  authenticated s = true -> m_subscriptionKnown s = true -> m_subscriptionAutoRenew s = false ->
  m_subscriptionExpiresAt s = Some t -> (secsTo (m_now s) t <= 7 * 365 * 86400)%Z ->
  let days := subscriptionDaysRemaining s in
  let seconds := secsTo (m_now s) t in
  ((0 < seconds)%Z -> ((days - 1) * 86400 < seconds <= days * 86400)%Z) /\
  ((seconds <= 0)%Z -> days = 0%Z) /\
  (subscriptionExpired s = true <-> (t <= m_now s)%Z) /\
  (subscriptionExpired s = true -> days = 0%Z) /\
  (subscriptionWarningVisible s = true <-> (t <= m_now s \/ seconds <= 7 * 86400)%Z).
Proof.
  intros Ha Hk Hr He Hb days seconds.
  assert (Hx : subscriptionExpired s = (t <=? m_now s)%Z)
    by (unfold subscriptionExpired; by rewrite Ha, Hk, He).
  assert (Hd1 : (seconds <= 0)%Z -> days = 0%Z).
  { intros. unfold days, subscriptionDaysRemaining. rewrite He. fold seconds.
    by rewrite (proj2 (Z.leb_le _ _)). }
  assert (Hd2 : (0 < seconds)%Z -> ((days - 1) * 86400 < seconds <= days * 86400)%Z).
  { intros Hs. unfold days, subscriptionDaysRemaining. rewrite He. fold seconds.
    rewrite (proj2 (Z.leb_gt _ _)) by done. pose proof (ceiling_days seconds Hs) as Hc. cbv zeta in Hc.
    rewrite cast_int_id by (fold seconds in Hb; lia). exact Hc. }
  assert (Hpos := secsTo_pos (m_now s) t). fold seconds in Hpos.
  rewrite Hx. split_and!; [done|done|apply Z.leb_le|intros ?%Z.leb_le; apply Hd1; lia|].
  unfold subscriptionWarningVisible. rewrite Ha, Hk, Hr, Hx. cbn [negb orb]. fold days.
  rewrite orb_true_iff, !Z.leb_le.
  destruct (Z_lt_le_dec 0 seconds) as [Hs|Hs]; [specialize (Hd2 Hs)|specialize (Hd1 Hs)]; lia.
Qed.

(** A reminder is shown once: asking again in the same state shows nothing and changes
    nothing. *)
Theorem reminder_shown_once s :
  maybeNotifySubscription (maybeNotifySubscription s) = maybeNotifySubscription s.
Proof.
  assert (Hk : forall m,
    let s' := (out (Notify m) s) <| m_lastSubscriptionNotificationKey :=
                date_string (m_subscriptionExpiresAt s) +:+ ":" +:+ reminderStage s |> in
    maybeNotifySubscription s' = s').
  { intros m s'. unfold maybeNotifySubscription.
    destruct (negb (subscriptionWarningVisible s')); [done|]. cbv zeta.
    change (m_subscriptionExpiresAt s') with (m_subscriptionExpiresAt s).
    change (reminderStage s') with (reminderStage s). 
    change (m_lastSubscriptionNotificationKey s') with
      (date_string (m_subscriptionExpiresAt s) +:+ ":" +:+ reminderStage s).
    by rewrite String.eqb_refl. }
  unfold maybeNotifySubscription at 2 3.
  destruct (negb _) eqn:E1; [unfold maybeNotifySubscription; by rewrite E1|]. cbv zeta.
  destruct (String.eqb _ _) eqn:E2;
    [unfold maybeNotifySubscription; cbv zeta; by rewrite E1, E2|].
  destruct os eqn:Eo; [apply Hk|..];
    (destruct notifier_present eqn:En; [apply Hk|unfold maybeNotifySubscription; cbv zeta; by rewrite E1, E2, Eo, En]).
Qed.

(** The obfuscation policy handed on is one of the two the client knows, a dynamic one
    always names a profile, and normalising a normalised policy changes nothing. *)
Theorem obfuscation_policy_normal object :
  let policy := normalizeObfuscationPolicy object in
  (policy.1 = "static" \/ (policy.1 = "client_dynamic" /\ policy.2 <> "")) /\
  normalizeObfuscationPolicy (oof [("mode", JStr policy.1); ("profile", JStr policy.2)]) = policy.
Proof.
  unfold normalizeObfuscationPolicy. cbv zeta.
  set (mode := to_lower (trimmed (to_string (ofind "mode" object)))).
  set (profile := to_lower (trimmed (to_string (ofind "profile" object)))).
  assert (Hp : to_lower (trimmed profile) = profile) by apply lower_trimmed_idem.
  destruct (String.eqb mode "client_dynamic") eqn:E.
  - apply String.eqb_eq in E as ->. cbn [fst snd String.eqb Ascii.eqb Bool.eqb andb].
    destruct (str_empty profile) eqn:Ep; cbn [fst snd].
    + split; [by right|reflexivity].
    + split; [right; split; [done|by apply str_empty_false]|].
      simpl. rewrite Hp, Ep. done.
  - split; [by left|]. simpl. by rewrite Hp.
Qed.

End Reminders.

Section Routing.
Context `{World}.

(** For a split-tunneling country the rules that are applied are exactly one [direct] rule
    for each non-empty IPv4 network the service lists; anything but a [country_direct] answer
    with VPN as the default route is refused, so no rule can move other traffic out of the
    tunnel. *)
Theorem country_rules_direct country object routing :
  to_upper (trimmed country) <> "" -> normalizeRoutingResponse country object = inr routing ->
  to_string (ofind "default_route" object) = "vpn" /\
  to_string (ofind "country" routing) = to_upper (trimmed country) /\
  is_array (ofind "rules" routing) = true /\
  (forall rule, rule ∈ to_array (ofind "rules" routing) <->
     exists v, v ∈ to_array (ofind "ipv4" object) /\ trimmed (to_string (Some v)) <> "" /\
               rule = directRule (trimmed (to_string (Some v)))) /\
  (forall rule, rule ∈ to_array (ofind "rules" routing) ->
     to_string (ofind "route" (to_object (Some rule))) = "direct").
Proof.
  intros Hc Hn. unfold normalizeRoutingResponse in Hn. cbv zeta in Hn.
  rewrite (proj2 (str_empty_false _) Hc) in Hn.
  destruct (_ || _) eqn:E; [discriminate Hn|]. apply (inj inr) in Hn as <-. bprop.
  assert (Hr : forall rule, rule ∈ countryRules (to_array (ofind "ipv4" object)) <->
     exists v, v ∈ to_array (ofind "ipv4" object) /\ trimmed (to_string (Some v)) <> "" /\
               rule = directRule (trimmed (to_string (Some v)))).
  { intros rule. unfold countryRules. rewrite list_elem_of_omap. cbv zeta. split.
    - intros (v & Hv & Hs). exists v. destruct (str_empty _) eqn:Es; [done|].
      apply str_empty_false in Es. by injection Hs as <-.
    - intros (v & Hv & Hs & ->). exists v. by rewrite (proj2 (str_empty_false _) Hs). }
  rewrite !ofind_oset. simpl. split_and!; [done..|].
  intros rule (v & _ & _ & ->)%Hr. reflexivity.
Qed.

(** The revision does not depend on the time stamp. *)
Lemma routingRevision_stamp v routing :
  routingRevision (oset routingCacheTimestampKey v routing) = routingRevision routing.
Proof. unfold routingRevision. by rewrite ofind_oset, oremove_oset. Qed.

(** Routing rules survive the cache: what is stored is found again with the same rules and
    the same revision, by this controller and by one started later on the same storage, and it
    counts as fresh when no time has passed. *)
Theorem routing_cache_roundtrip key routing s s2 :
  (forall now, iso_ms (date_string_ms now) = Some now) ->
  is_array (ofind "rules" routing) = true ->
  cb_saveCache (m_callbacks s) = true ->
  let s1 := storeRoutingCache key routing s in
  m_store s2 = m_store s1 -> m_routingCache s2 = ∅ -> cb_loadCache (m_callbacks s2) = true ->
  exists stored,
    (cachedRouting key s1).1 = stored /\ (cachedRouting key s2).1 = stored /\
    ofind "rules" stored = ofind "rules" routing /\
    routingRevision stored = routingRevision routing /\
    routingCacheIsFresh stored s1 = true.
Proof.
  intros Hdate Hrules Hsave s1 Hst Hc Hload.
  exists (oset routingCacheTimestampKey (JStr (date_string_ms (m_now s))) routing).
  assert (Hfind : ofind "rules" (oset routingCacheTimestampKey (JStr (date_string_ms (m_now s))) routing) =
                  ofind "rules" routing) by (by rewrite ofind_oset).
  assert (H1 : m_routingCache s1 !! key =
               Some (oset routingCacheTimestampKey (JStr (date_string_ms (m_now s))) routing) /\
               stored_cache (m_store s1) !! key =
               Some (oset routingCacheTimestampKey (JStr (date_string_ms (m_now s))) routing) /\
               m_now s1 = m_now s).
  { subst s1. unfold storeRoutingCache. rewrite Hrules. cbv zeta. cbn [negb].
    change (cb_saveCache (m_callbacks (s <| m_routingCache := _ |>))) with (cb_saveCache (m_callbacks s)).
    rewrite Hsave. simpl. by rewrite !lookup_insert_eq. }
  destruct H1 as (H1 & H2 & H3). split_and!.
  - unfold cachedRouting. by rewrite H1.
  - unfold cachedRouting. rewrite Hc, lookup_empty, Hload, Hst, H2. cbv zeta.
    cbn [negb from_option id]. by rewrite Hfind, Hrules.
  - done.
  - apply routingRevision_stamp.
  - unfold routingCacheIsFresh. rewrite ofind_oset, String.eqb_refl. cbn [to_string].
    unfold parse_date. rewrite Hdate, H3. unfold secsTo. by rewrite Z.sub_diag.
Qed.

(** Routing rules that were just applied are not applied again: with the same cache key and
    an unchanged revision a second application succeeds and does nothing. *)
Theorem routing_applied_once key routing routing' b b' s s' :
  applyRouting key routing b s = (true, s') ->
  is_array (ofind "rules" routing') = true -> routingRevision routing' = routingRevision routing ->
  applyRouting key routing' b' s' = (true, s').
Proof.
  intros Ha Hr Hv.
  assert (m_lastAppliedRoutingCacheKey s' = key /\ m_lastAppliedRoutingRevision s' = routingRevision routing)
    as [Hk Hrev].
  { unfold applyRouting in Ha. destruct (negb _); [discriminate Ha|]. cbv zeta in Ha.
    destruct (_ && _) eqn:E.
    - injection Ha as <-. bprop. done.
    - destruct (cb_applyRouting _); [destruct (apply_routing _ _)|]; simplify_eq/=; done. }
  unfold applyRouting. rewrite Hr, Hv, Hk, Hrev, !String.eqb_refl. done.
Qed.

End Routing.

Section Configurations.
Context `{World}.

Lemma config_index_Some test l i :
  config_index test l = Some i ->
  (0 <= i)%Z /\ exists c, l !! Z.to_nat i = Some c /\ test c = true.
Proof.
  revert i. induction l as [|c l IH]; intros i; simpl; [done|].
  destruct (test c) eqn:E.
  - intros [= <-]. split; [done|]. by exists c.
  - destruct (config_index test l) as [j|]; [|done]. intros [= <-].
    destruct (IH j eq_refl) as (H0 & d & Hd & Ht).
    split; [lia|]. exists d. by rewrite Z2Nat.inj_succ.
Qed.

Lemma config_index_None test l : config_index test l = None -> Forall (fun c => test c = false) l.
Proof.
  induction l as [|c l IH]; simpl; [done|]. destruct (test c) eqn:E; [done|].
  destruct (config_index test l); [done|]. auto.
Qed.

(** Connecting never picks an unrelated server: when the selected location has a
    configuration, that one is used; when the service sends no selection, a single listed
    configuration is used; in every other case nothing is requested and the user is told. *)
Theorem current_config_related s :
  m_busy s = false -> authenticated s = true ->
  (exists i c, selectCurrentConfig s = selectConfig i s /\ m_configs s !! Z.to_nat i = Some c /\
               ((0 < m_selectedConfigId s)%Z /\ config_id c = Some (m_selectedConfigId s) \/
                (m_selectedConfigId s <= 0)%Z /\ m_configs s = [c])) \/
  (selectCurrentConfig s =
     fail "No configuration is available for the selected VPN location. Refresh and try again." s /\
   (forall c, c ∈ m_configs s -> (0 < m_selectedConfigId s)%Z -> config_id c <> Some (m_selectedConfigId s))).
Proof.
  intros Hb Ha. unfold selectCurrentConfig. rewrite Hb, Ha. cbn [negb orb].
  destruct (config_index _ _) as [i|] eqn:E.
  - left. apply config_index_Some in E as (Hi & c & Hc & Ht). exists i, c. split_and!; [done..|]. left.
    bprop. split; [done|]. destruct (config_id c); simpl in *; [congruence|lia].
  - apply config_index_None in E. rewrite Forall_forall in E.
    destruct (_ && _) eqn:E1.
    + left. bprop. apply Nat.eqb_eq in H1. destruct (m_configs s) as [|c []] eqn:Ec; try done.
      exists 0%Z, c. auto.
    + right. split; [done|]. intros c Hc Hs Hid. specialize (E c Hc). rewrite Hid in E. simpl in E.
      rewrite Z.eqb_refl, andb_true_r in E. bprop. lia.
Qed.

End Configurations.

(** ** Concrete runs *)

#[local] Existing Instance json_text_model.

Definition sample_subscription (expires : string) : json :=
  JObj (oof [("expires_at", JStr expires); ("name", JStr expires)]).

(** A signed-in controller with two subscriptions and two configurations. *)
Definition sample_state : ctl :=
  (fresh sample_callbacks (sample_store "ann") 1000)
    <| m_token := "t" |> <| m_username := "ann" |> <| m_subscriptionKnown := true |>
    <| m_subscriptionExpiresAt := Some 86402000%Z |>
    <| m_subscriptions := [sample_subscription "5000"; sample_subscription "9000"] |>
    <| m_configs := [JObj [("id", JInt 7)]; JObj [("id", JInt 8)]] |>
    <| m_selectedConfigId := 8%Z |>.

Lemma primary_subscription_latest_witness :
  let W := sample_world Linux in
  exists e', subscriptionExpiry (primarySubscription sample_state) = Some e' /\ (5000 <= e')%Z.
Proof.
  intros W. apply (@primary_subscription_latest W eq_refl sample_state []) with (v := sample_subscription "5000").
  - apply list_elem_of_lookup_2 with (i := 0). reflexivity.
  - vm_compute. reflexivity.
Defined.

Lemma days_remaining_spec_witness :
  let W := sample_world Linux in
  (subscriptionWarningVisible sample_state = true <->
     (86402000 <= 1000 \/ secsTo 1000 86402000 <= 7 * 86400)%Z) /\
  subscriptionDaysRemaining sample_state = 2%Z.
Proof.
  intros W. split; [|vm_compute; reflexivity].
  apply (days_remaining_spec sample_state 86402000);
    [vm_compute; reflexivity|reflexivity|reflexivity|reflexivity|vm_compute; discriminate].
Defined.

Definition sample_country_answer : obj :=
  oof [("mode", JStr "country_direct"); ("default_route", JStr "vpn"); ("country_route", JStr "direct");
       ("ipv4", JArr [JStr " 10.0.0.0/8 "; JStr ""; JStr "11.0.0.0/8"]); ("version", JStr "7")].

Lemma country_rules_direct_witness :
  let W := sample_world Linux in
  exists routing, normalizeRoutingResponse "de" sample_country_answer = inr routing /\
    length (to_array (ofind "rules" routing)) = 2 /\
    forall rule, rule ∈ to_array (ofind "rules" routing) ->
      to_string (ofind "route" (to_object (Some rule))) = "direct".
Proof.
  intros W. eexists. split_and!; [reflexivity|reflexivity|].
  apply (country_rules_direct "de" sample_country_answer); [discriminate|reflexivity].
Defined.

Definition sample_routing : obj := [("rules", JArr [])].

Lemma sample_dates now : iso_ms (World := sample_world Linux) (date_string_ms (World := sample_world Linux) now) = Some now.
Proof. simpl. rewrite string_bits_string. apply decode_encode. Qed.

Lemma routing_cache_roundtrip_witness :
  let W := sample_world Linux in
  let s1 := storeRoutingCache "default:linux" sample_routing sample_state in
  exists stored,
    (cachedRouting "default:linux" s1).1 = stored /\
    (cachedRouting "default:linux" (fresh sample_callbacks (m_store s1) 0)).1 = stored /\
    ofind "rules" stored = ofind "rules" sample_routing /\
    routingRevision stored = routingRevision sample_routing /\
    routingCacheIsFresh stored s1 = true.
Proof.
  intros W s1. apply routing_cache_roundtrip; [exact sample_dates|reflexivity..].
Defined.

Lemma routing_applied_once_witness :
  let W := sample_world Linux in
  let s' := (applyRouting "default:linux" sample_routing true sample_state).2 in
  applyRouting "default:linux" (oset routingCacheTimestampKey (JStr "9") sample_routing) false s' = (true, s').
Proof.
  intros W s'. apply (routing_applied_once "default:linux" sample_routing _ true false sample_state s');
    [reflexivity|reflexivity|vm_compute; reflexivity].
Defined.

Lemma current_config_related_witness :
  let W := sample_world Linux in
  (exists i c, selectCurrentConfig sample_state = selectConfig i sample_state /\
     m_configs sample_state !! Z.to_nat i = Some c /\
     ((0 < 8)%Z /\ config_id c = Some 8%Z \/ (8 <= 0)%Z /\ m_configs sample_state = [c])) \/
  (selectCurrentConfig sample_state =
     fail "No configuration is available for the selected VPN location. Refresh and try again." sample_state /\
   (forall c, c ∈ m_configs sample_state -> (0 < 8)%Z -> config_id c <> Some 8%Z)).
Proof. intros W. apply (current_config_related sample_state); reflexivity. Defined.

(** ** A purchase that outlives its session

    Replies carry the generation of their session, the callback of an App Store purchase does
    not: when another user has signed in meanwhile, the transaction is confirmed with that
    user's token. *)

Definition purchase_run : list event :=
  [ EReply 0 (sample_reply [("device", JObj [("device_id", JStr "device-0")])]);
    EReply 1 (mkReply true 0 "");
    ERenewSubscription;
    EReply 2 (sample_reply [("billing", JObj [("methods",
      JArr [JObj [("product_id", JStr "vpn.month"); ("type", JStr "app_store")]])])]);
    ELogout;
    EReply 3 (sample_reply []);
    ELogin "bob" "secret";
    EReply 4 (sample_reply [("access_token", JStr "token-of-bob"); ("token_type", JStr "Bearer");
                            ("user", JObj [("username", JStr "bob")])]);
    EPurchase (mkPurchase true "transaction-of-ann" "vpn.month" "" "" "" OtherFailure) ].

(** A purchase that outlives its session is confirmed by the next account: one user starts
    an App Store purchase and signs out, another signs in, and the confirmation of the first
    user's transaction is sent with the second user's token. *)
Theorem purchase_confirmed_by_next_account :
  let W := sample_world IOS in
  let s := run purchase_run (TunnelCoreController sample_callbacks (sample_store "ann") 0) in
  exists body,
    last (m_out s) = Some (Send 6 (apiBase +:+ "billing/apple/confirm/") (Some "Bearer token-of-bob") (Some body)) /\
    to_string (ofind "transaction_id" body) = "transaction-of-ann".
Proof. intros W s. eexists. split; vm_compute; reflexivity. Qed.
