(* ===== verification/Installer.v ===== *)
(** * The installer scripts

    [deploy/installer/qif/controlscript.js] and [componentscript.js] run inside the Qt
    Installer Framework.  They are modelled in a small monad: the state is the JavaScript
    globals, the installer's values and the history of everything asked and done; every
    answer of the outside (a file that exists, the result of a process, a message box) is a
    function of that history, so that the world may change between two questions.  A method
    call on [undefined] raises a [TypeError]. *)

From S2P Require Import Prelude.

(** ** The installer's side *)

Inductive mode := ModeInstaller | ModeUninstaller | ModeUpdater | ModePackageManager.

#[export] Instance mode_eq_dec : EqDecision mode.
Proof. solve_decision. Defined.

Inductive answer_button := Ok | Cancel | Retry | Abort | Yes | No.

#[export] Instance answer_eq_dec : EqDecision answer_button.
Proof. solve_decision. Defined.

Inductive gui_button := NextButton | FinishButton | CancelButton | CommitButton.

Inductive page :=
  | IntroductionPage | TargetDirectory | ComponentSelection | LicenseCheck | StartMenuSelection
  | StartMenuDirectoryPage | ReadyForInstallation | PerformInstallation | FinishedPage.

(** Everything the scripts ask for or do, with the answer they got. *)
Inductive effect :=
  | FileExists (path : option string) (found : bool)
  | Execute (command : string) (args : list string) (result : option (string * Z))
  | ExecuteDetached (command : string) (args : list string) (directory : string)
  | Ask (id title text : string) (answer : answer_button)
  | SetPageVisible (p : page) (visible : bool)
  | Click (b : gui_button)
  | SetCancelled
  | SetAutomaticAnswer (id : string) (answer : answer_button)
  | AutoAcceptMessageBoxes
  | ConnectInstallationFinished
  | Sleep (ms : Z)
  | SetLineEdit (text : string)
  | ReconnectBrowseButton
  | HideWidget (name : string)
  | FindPath (name : string) (directories : list string) (found : string)
  | GainAdminRights (granted : bool)
  | DropAdminRights
  | DefaultOperations
  | AddOperation (elevated : bool) (name : string) (args : list string).

(** The outside world, each answer depending on the history so far. *)
Record env := mkEnv {
  the_mode : mode;
  file_exists : list effect -> option string -> bool;
  run_process : list effect -> string -> list string -> option (string * Z);
  message_box : list effect -> string -> answer_button;
  target_page : list effect -> option string;      (* text of the target directory page *)
  current_page : list effect -> bool;              (* gui.currentPageWidget() !== null *)
  find_path : list effect -> string -> list string -> string;
  admin_rights : list effect -> bool;
  status_success : list effect -> bool;            (* installer.status === QInstaller.Success *)
  kernelType : string;
  cpuArchitecture : string;
  desktop_location : string
}.

Existing Class env.

(** The globals of the scripts, the installer's values and the history. *)
Record js := mkJs {
  values : gmap string string;
  history : list effect;
  requestToQuitFromApp : bool;
  updaterCompleted : Z;
  desktopAppProcessRunning : bool;
  appInstalledUninstallerPath : option string;
  appInstalledUninstallerPath_x86 : option string
}.

#[export] Instance eta_js : Eta js := fun s =>
  mkJs (values s) (history s) (requestToQuitFromApp s) (updaterCompleted s)
    (desktopAppProcessRunning s) (appInstalledUninstallerPath s) (appInstalledUninstallerPath_x86 s).

Definition initial (v : gmap string string) : js := mkJs v [] false 0 false None None.

(** ** The monad *)

Inductive exn := TypeError | OutOfFuel.

Definition prog (A : Type) : Type := js -> (exn + A) * js.

#[export] Instance prog_ret : MRet prog := fun A a s => (inr a, s).
#[export] Instance prog_bind : MBind prog := fun A B f m s =>
  match m s with
  | (inl e, s') => (inl e, s')
  | (inr a, s') => f a s'
  end.

Definition throw {A} (e : exn) : prog A := fun s => (inl e, s).

Definition gets {A} (f : js -> A) : prog A := fun s => (inr (f s), s).
Definition modify (f : js -> js) : prog unit := fun s => (inr tt, f s).
Definition emit (e : effect) : prog unit :=
  modify (fun s => s <| history := history s ++ [e] |>).

(** Ask the world and record the answer. *)
Definition ask {A} (q : list effect -> A) (record : A -> effect) : prog A := fun s =>
  let a := q (history s) in (inr a, s <| history := history s ++ [record a] |>).

Section Scripts.
Context {E : env}.

(** [installer.value] and [installer.setValue]. *)
Definition value (k : string) : prog string := gets (fun s => default "" (values s !! k)).
Definition setValue (k v : string) : prog unit :=
  modify (fun s => s <| values := <[k := v]> (values s) |>).

Definition fileExists (p : option string) : prog bool :=
  ask (fun h => file_exists E h p) (FileExists p).
Definition execute (command : string) (args : list string) : prog (option (string * Z)) :=
  ask (fun h => run_process E h command args) (Execute command args).
Definition messageBox (id title text : string) : prog answer_button :=
  ask (fun h => message_box E h id) (Ask id title text).
Definition findPath (name : string) (dirs : list string) : prog string :=
  ask (fun h => find_path E h name dirs) (FindPath name dirs).
Definition clickButton (b : gui_button) : prog unit := emit (Click b).
Definition setDefaultPageVisible (p : page) (v : bool) : prog unit := emit (SetPageVisible p v).
Definition setCancelled : prog unit := emit SetCancelled.
Definition isInstaller : bool := bool_decide (the_mode E = ModeInstaller).
Definition isUninstaller : bool := bool_decide (the_mode E = ModeUninstaller).
Definition isUpdater : bool := bool_decide (the_mode E = ModeUpdater).

(** [Number(text)] of a decimal integer; [None] is [NaN].  The scripts read process
    identifiers with it. *)
Definition js_number (text : string) : option Z :=
  match trimmed text with
  | EmptyString => Some 0%Z
  | String "-" r => Z.opp <$> digits r
  | String "+" r => digits r
  | t => digits t
  end.

(** The text up to the first line feed: [text.split(/\n+/)[0]] of a trimmed text. *)
Fixpoint first_line (s : string) : string :=
  match s with
  | EmptyString => EmptyString
  | String c r => if Ascii.eqb c LF then EmptyString else String c (first_line r)
  end.

(** [s.indexOf(t, from) !== -1], a negative start counting as 0. *)
Definition indexOf_found (s t : string) (from : Z) : bool :=
  str_contains t (String.substring (Z.to_nat from) (String.length s) s).

End Scripts.

(** ** controlscript.js *)

Module Control.
Section ControlScript.
Context {E : env}.

Definition appName : prog string := value "Name".

Definition os_is (name : string) : prog bool :=
  os ← value "os"; mret (String.eqb os name).

Definition runningOnWindows : prog bool := os_is "win".
Definition runningOnMacOS : prog bool := os_is "mac".
Definition runningOnLinux : prog bool :=
  linux ← os_is "linux"; if (linux : bool) then mret true else os_is "x11".

Definition appExecutableFileName : prog string :=
  windows ← runningOnWindows; name ← appName;
  mret (if (windows : bool) then name +:+ ".exe" else name).

Definition setPaths (path : option string) : prog unit :=
  modify (fun s => s <| appInstalledUninstallerPath := path |>).

(** The assignments of [appInstalled]. *)
Definition setUninstallerPaths : prog unit :=
  windows ← runningOnWindows;
  if (windows : bool) then
    root ← value "RootDir";
    setPaths (Some (root +:+ "Program Files/TunnelCore VPN/maintenancetool.exe")) ;;
    modify (fun s => s <| appInstalledUninstallerPath_x86 :=
      Some (root +:+ "Program Files (x86)/TunnelCore VPN/maintenancetool.exe") |>)
  else
    mac ← runningOnMacOS;
    if (mac : bool) then
      name ← appName;
      setPaths (Some ("/Applications/" +:+ name +:+ ".app/maintenancetool.app/Contents/MacOS/maintenancetool"))
    else
      linux ← runningOnLinux;
      if (linux : bool) then
        name ← appName; setPaths (Some ("/opt/" +:+ name +:+ "/maintenancetool"))
      else mret tt.

Definition appInstalled : prog bool :=
  setUninstallerPaths ;;
  path ← gets appInstalledUninstallerPath;
  found ← fileExists path;
  if (found : bool) then mret true
  else path86 ← gets appInstalledUninstallerPath_x86; fileExists path86.

Definition legacyTunnelCoreInstalled : prog bool :=
  windows ← runningOnWindows;
  if negb windows then mret false
  else
    root ← value "RootDir";
    found ← fileExists (Some (root +:+ "Program Files/TunnelCore VPN/AmneziaVPN-service.exe"));
    if (found : bool) then mret true
    else fileExists (Some (root +:+ "Program Files (x86)/TunnelCore VPN/AmneziaVPN-service.exe")).

Definition endsWith (str suffix : string) : bool :=
  indexOf_found str suffix (Z.of_nat (String.length str) - Z.of_nat (String.length suffix)).

(** [sleep]: a busy wait on the clock. *)
Definition sleep (milliseconds : Z) : prog unit := emit (Sleep milliseconds).

Definition raiseInstallerWindow : prog unit :=
  mac ← runningOnMacOS;
  if negb mac then mret tt
  else
    name ← appName;
    result ← execute "/bin/bash" ["-c"; "ps -A | grep -m1 '" +:+ name +:+ "' | awk '{print $1}'"];
    match js_number (match result with Some (text, _) => text | None => "undefined" end) with
    | Some pid =>
        if (0 <? pid)%Z then
          execute "osascript"
            ["-e"; "tell application " +:+ chr 34 +:+ "System Events" +:+ chr 34 +:+ " " +:+
                   chr 10 +:+ "      set frontmost of the first process whose unix id is " +:+
                   pretty pid +:+ " to true " +:+ chr 10 +:+ "      end tell" +:+
                   chr 10 +:+ "       "] ;; mret tt
        else mret tt
    | None => mret tt
    end.

Definition checkProcessIsRunning (arg : string) : prog bool :=
  result ← execute "/bin/bash" ["-c"; arg];
  match result with
  | None => throw TypeError
  | Some (text, _) =>
      mret (match js_number (first_line (trimmed text)) with
            | Some n => (2 <=? n)%Z
            | None => false
            end)
  end.

Definition appProcessIsRunning : prog bool :=
  windows ← runningOnWindows;
  if (windows : bool) then
    result ← execute "tasklist" [];
    match result with
    | Some (text, 0%Z) => name ← appExecutableFileName; mret (str_contains name text)
    | _ => mret false
    end
  else
    name ← appName; checkProcessIsRunning ("pgrep -x '" +:+ name +:+ "'").

Definition requestToQuit : prog unit :=
  modify (fun s => s <| requestToQuitFromApp := true |>) ;;
  setDefaultPageVisible IntroductionPage false ;;
  setDefaultPageVisible TargetDirectory false ;;
  setDefaultPageVisible ComponentSelection false ;;
  setDefaultPageVisible LicenseCheck false ;;
  setDefaultPageVisible StartMenuSelection false ;;
  setDefaultPageVisible ReadyForInstallation false ;;
  setDefaultPageVisible PerformInstallation false ;;
  setDefaultPageVisible FinishedPage false ;;
  clickButton NextButton ;; clickButton FinishButton ;; clickButton CancelButton ;;
  windows ← runningOnWindows;
  if (windows : bool) then setCancelled else mret tt.

(** *** Page callbacks *)

Definition PerformInstallationPageCallback : prog unit := clickButton NextButton.
Definition LicenseAgreementPageCallback : prog unit := clickButton NextButton.
Definition StartMenuDirectoryPageCallback : prog unit := clickButton NextButton.
Definition ComponentSelectionPageCallback : prog unit := clickButton NextButton.

Definition FinishedPageCallback : prog unit :=
  running ← gets desktopAppProcessRunning;
  if (running : bool) then clickButton FinishButton
  else if isUpdater then emit AutoAcceptMessageBoxes ;; clickButton FinishButton
  else mret tt.

Definition RestartPageCallback : prog unit :=
  modify (fun s => s <| updaterCompleted := 1%Z |>) ;; clickButton FinishButton.

Definition ReadyForInstallationPageCallback : prog unit :=
  if isUpdater then clickButton CommitButton else mret tt.

Definition TargetDirectoryPageCallback : prog unit :=
  widget ← gets (fun s => target_page E (history s));
  match widget with
  | Some _ => emit ReconnectBrowseButton ;; clickButton NextButton
  | None => mret tt
  end.

Definition IntroductionPageCallback : prog unit :=
  widget ← gets (fun s => current_page E (history s));
  completed ← gets updaterCompleted;
  if isUpdater && (completed =? 1)%Z then clickButton FinishButton ;; clickButton CancelButton
  else
    (if isUninstaller && (widget : bool) then
       emit (HideWidget "PackageManagerRadioButton") ;; emit (HideWidget "UpdaterRadioButton")
     else mret tt) ;;
    (if isUpdater then clickButton NextButton else mret tt).

Definition onBrowseButtonClicked : prog unit :=
  widget ← gets (fun s => target_page E (history s));
  match widget with
  | None => mret tt
  | Some text =>
      windows ← runningOnWindows;
      if (windows : bool) then
        name ← appName;
        setValue "TargetDir" (if endsWith text name then text else text +:+ "\" +:+ name) ;;
        dir ← value "TargetDir"; emit (SetLineEdit dir)
      else mret tt
  end.

Definition onNextButtonClicked : prog unit :=
  widget ← gets (fun s => target_page E (history s));
  match widget with
  | Some text => setValue "APP_BUNDLE_TARGET_DIR" text
  | None => mret tt
  end.

(** *** Waiting for the application to be closed *)

(** The loop of the updater: at most [n] looks. *)
Fixpoint pollProcess (n : nat) : prog unit :=
  match n with
  | O => mret tt
  | S n =>
      running ← appProcessIsRunning;
      modify (fun s => s <| desktopAppProcessRunning := running |>) ;;
      if (running : bool) then pollProcess n else mret tt
  end.

(** The recursion ends when the application is closed or the user gives up; [fuel] bounds
    the number of times the user presses Retry. *)
Fixpoint isDesktopAppProcessRunningMessageLoop (fuel : nat) : prog unit :=
  quit ← gets requestToQuitFromApp;
  if (quit : bool) then mret tt
  else
    (if isUpdater then pollProcess 400 else mret tt) ;;
    running ← appProcessIsRunning;
    modify (fun s => s <| desktopAppProcessRunning := running |>) ;;
    if (running : bool) then
      name ← appName;
      result ← messageBox "QMessageBox" (name +:+ " installer")
        (name +:+ " is active. Close the app and press " +:+ chr 34 +:+ "Retry" +:+ chr 34 +:+
         " button to continue installation. Press " +:+ chr 34 +:+ "Abort" +:+ chr 34 +:+
         " button to abort the installer and exit.");
      if bool_decide (result = Retry) then
        match fuel with
        | O => throw OutOfFuel
        | S fuel => isDesktopAppProcessRunningMessageLoop fuel
        end
      else modify (fun s => s <| requestToQuitFromApp := true |>)
    else mret tt.

(** *** The constructor *)

(** The wait for the old installation to disappear: at most [n] times 100 ms. *)
Fixpoint waitForRemoval (n : nat) : prog unit :=
  match n with
  | O => mret tt
  | S n =>
      sleep 100 ;;
      path ← gets appInstalledUninstallerPath;
      found ← fileExists path;
      if (found : bool) then waitForRemoval n else mret tt
  end.

(** [if (installer.fileExists(path)) resultArray = installer.execute(path)] *)
Definition runUninstaller (path : option string) (result : option (string * Z))
    : prog (option (string * Z)) :=
  found ← fileExists path;
  if (found : bool) then execute (default "undefined" path) [] else mret result.

(** The removal of the old installation; [false] when it was aborted. *)
Definition removeOldInstallation : prog bool :=
  installed ← appInstalled;
  ok ← (if (installed : bool) then
          path86 ← gets appInstalledUninstallerPath_x86;
          result ← runUninstaller path86 None;
          path ← gets appInstalledUninstallerPath;
          result ← runUninstaller path result;
          match result with
          | Some (_, 0%Z) => waitForRemoval 300 ;; mret true
          | _ => setCancelled ;; mret false
          end
        else mret true : prog bool);
  if (ok : bool) then raiseInstallerWindow ;; mret true else mret false.

(** The branch of a first installation. *)
Definition startInstaller (fuel : nat) : prog unit :=
  setDefaultPageVisible ComponentSelection false ;;
  setDefaultPageVisible TargetDirectory false ;;
  setDefaultPageVisible StartMenuDirectoryPage false ;;
  setDefaultPageVisible LicenseCheck false ;;
  isDesktopAppProcessRunningMessageLoop fuel ;;
  quit ← gets requestToQuitFromApp;
  if (quit : bool) then requestToQuit
  else
    mac ← runningOnMacOS;
    (if (mac : bool) then emit (SetAutomaticAnswer "OverwriteTargetDirectory" Yes) else mret tt) ;;
    legacy ← legacyTunnelCoreInstalled;
    if (legacy : bool) then
      messageBox "legacy.tunnelcore" "TunnelCore VPN"
        "An older TunnelCore installation uses Amnezia service identifiers. To protect Amnezia VPN, automatic removal is disabled. Please uninstall the older TunnelCore version before installing this one." ;;
      setCancelled
    else
      installed ← appInstalled;
      if (installed : bool) then
        name ← appName;
        answer ← messageBox "os.information" name
          "The application is already installed. We need to remove the old installation first. Do you wish to proceed?";
        if bool_decide (answer = Ok) then removeOldInstallation ;; mret tt
        else setCancelled
      else mret tt.

Definition Controller (fuel : nat) : prog unit :=
  (if isInstaller || isUpdater then appInstalled ;; mret tt else mret tt) ;;
  windows ← runningOnWindows;
  (if (windows : bool) then setValue "AllUsers" "true" else mret tt) ;;
  if isInstaller then startInstaller fuel
  else if isUninstaller then
    isDesktopAppProcessRunningMessageLoop fuel ;;
    quit ← gets requestToQuitFromApp;
    if (quit : bool) then requestToQuit else mret tt
  else if isUpdater then
    emit (SetAutomaticAnswer "cancelInstallation" No) ;; emit ConnectInstallationFinished
  else mret tt.

End ControlScript.
End Control.

(** ** componentscript.js *)

Module Component.

(** The signals of the component and of the installer: [component.loaded],
    [installer.installationFinished], [installer.finishButtonClicked]. *)
Inductive component_signal := loaded | installation_finished | finishButtonClicked.

Section ComponentScript.
Context {E : env}.

Definition appName : prog string := value "Name".
Definition displayName : string := "TunnelCore VPN".
Definition serviceName : string := "TunnelCoreVPN-service".

Definition runningOnWindows : bool := String.eqb (kernelType E) "winnt".
Definition runningOnMacOS : bool := String.eqb (kernelType E) "darwin".
Definition runningOnLinux : bool := String.eqb (kernelType E) "linux".

Definition appExecutableFileName : prog string :=
  if runningOnWindows then mret "TunnelCoreVPN.exe" else appName.

Definition vcRuntimeIsInstalled : prog bool :=
  root ← value "RootDir";
  found ← findPath "msvcp140.dll" [root +:+ "\Windows\System32\"];
  mret (negb (str_empty found)).

Definition installationFinishedPageIsShown : prog unit :=
  success ← gets (fun s => status_success E (history s));
  if isInstaller && (success : bool) then clickButton FinishButton else mret tt.

(** [text.replace(/\//g, '\\')] *)
Definition backslashes : string -> string :=
  str_map (fun c => if Ascii.eqb c "/" then "\"%char else c).

Definition addOperation (name : string) (args : list string) : prog unit :=
  emit (AddOperation false name args).
Definition addElevatedOperation (name : string) (args : list string) : prog unit :=
  emit (AddOperation true name args).

(** The runtime library: only when it is missing and the package brings it along. *)
Definition installRuntime : prog unit :=
  installed ← vcRuntimeIsInstalled;
  if negb installed then
    let vcRedistFileName :=
      if str_contains "64" (cpuArchitecture E) then "vc_redist.x64.exe" else "vc_redist.x86.exe" in
    target ← value "TargetDir";
    found ← findPath vcRedistFileName [backslashes target];
    if negb (str_empty found) then
      addElevatedOperation "Execute"
        ["@TargetDir@\" +:+ vcRedistFileName; "/install"; "/quiet"; "/norestart"; "/log"; "vc_redist.log"]
    else mret tt
  else mret tt.

Definition createOperations : prog unit :=
  emit DefaultOperations ;;
  if runningOnWindows then
    name ← appExecutableFileName;
    addOperation "CreateShortcut"
      ["@TargetDir@/" +:+ name; desktop_location E +:+ "/" +:+ displayName +:+ ".lnk";
       "workingDirectory=@TargetDir@"; "iconPath=@TargetDir@\TunnelCoreVPN.ico"; "iconId=0"] ;;
    menu ← value "AllUsersStartMenuProgramsPath";
    addElevatedOperation "CreateShortcut"
      ["@TargetDir@/" +:+ name; menu +:+ "/" +:+ displayName +:+ ".lnk";
       "workingDirectory=@TargetDir@"; "iconPath=@TargetDir@\TunnelCoreVPN.ico"; "iconId=0"] ;;
    installRuntime ;;
    target ← value "TargetDir";
    let pu_path := backslashes target +:+ "\" in
    addElevatedOperation "Execute"
      ["sc"; "create"; serviceName; "binpath="; pu_path +:+ serviceName +:+ ".exe";
       "DisplayName="; displayName +:+ " Service"; "start="; "auto"; "depend="; "BFE/nsi";
       "UNDOEXECUTE"; "cmd"; "/c"; pu_path +:+ "post_uninstall.cmd"] ;;
    addElevatedOperation "Execute" ["cmd"; "/c"; pu_path +:+ "post_install.cmd"]
  else if runningOnMacOS then
    addElevatedOperation "Execute"
      ["@TargetDir@/post_install.sh"; "UNDOEXECUTE"; "@TargetDir@/post_uninstall.sh"]
  else if runningOnLinux then
    addElevatedOperation "Execute"
      ["bash"; "@TargetDir@/post_install.sh"; "UNDOEXECUTE"; "bash"; "@TargetDir@/post_uninstall.sh"]
  else mret tt.

(** The command that starts the application, with the service settings on Windows. *)
Definition launchCommand : prog string :=
  if runningOnWindows then
    name ← appExecutableFileName;
    execute "net" ["start"; serviceName] ;;
    execute "sc" ["failure"; serviceName; "reset="; "100"; "actions=";
                  "restart/2000/restart/2000/restart/2000"] ;;
    mret ("@TargetDir@/" +:+ name)
  else if runningOnMacOS then
    name ← appName; mret ("/Applications/" +:+ name +:+ ".app/Contents/MacOS/" +:+ name)
  else if runningOnLinux then name ← appName; mret ("@TargetDir@/bin/" +:+ name)
  else mret "".

Definition installationFinished : prog unit :=
  success ← gets (fun s => status_success E (history s));
  if (success : bool) && (isInstaller || isUpdater) then
    granted ← ask (admin_rights E) GainAdminRights;
    if negb granted then mret tt
    else
      command ← launchCommand;
      emit DropAdminRights ;;
      target ← value "TargetDir";
      emit (ExecuteDetached command [] target)
  else mret tt.

Definition componentLoaded : prog unit := mret tt.

(** The constructor [Component] connects each signal to its handler. *)
Definition Component (e : component_signal) : prog unit :=
  match e with
  | loaded => componentLoaded
  | installation_finished => installationFinishedPageIsShown
  | finishButtonClicked => installationFinished
  end.

End ComponentScript.
End Component.
