(* ===== verification/InstallerFacts.v ===== *)
(** * The installer scripts: theorems

    What the control script removes and when, that its loops end, and what the component
    script registers and starts. *)

From S2P Require Import Prelude Installer.

(** ** Uninstalling *)

Section Uninstall.
Context {E : env}.
Variable v : gmap string string.

Definition legacy_path (directory : string) : string :=
  default "" (v !! "RootDir") +:+ directory +:+ "/TunnelCore VPN/AmneziaVPN-service.exe".

(** What must have happened before an uninstaller runs: it was seen, the user agreed, and on
    Windows no service of the old kind was there. *)
Definition may_run (before : list effect) (command : string) : Prop :=
  FileExists (Some command) true ∈ before /\
  (exists title text, Ask "os.information" title text Ok ∈ before) /\
  (String.eqb (default "" (v !! "os")) "win" = true ->
   FileExists (Some (legacy_path "Program Files")) false ∈ before /\
   FileExists (Some (legacy_path "Program Files (x86)")) false ∈ before).

Definition ok_effect (before : list effect) (e : effect) : Prop :=
  match e with
  | Execute command _ _ => str_contains "maintenancetool" command = true -> may_run before command
  | _ => True
  end.

Definition ok_history (h : list effect) : Prop :=
  forall before e after, h = before ++ e :: after -> ok_effect before e.

Lemma ok_snoc h e : ok_history h -> ok_effect h e -> ok_history (h ++ [e]).
Proof.
  intros Hh He before e' after Heq. destruct after as [|x after _] using rev_ind.
  - apply app_inj_tail in Heq as [<- <-]. done.
  - rewrite app_comm_cons, app_assoc in Heq. apply app_inj_tail in Heq as [-> _]. by eapply Hh.
Qed.

(** The invariant of the script: a good history, and the values it reads unchanged. *)
Definition good (s : js) : Prop :=
  ok_history (history s) /\
  values s !! "os" = v !! "os" /\ values s !! "RootDir" = v !! "RootDir".

(** [keeps P m Q]: from a good state with [P], [m] leads to a good state, with [Q] of the
    value when it returns one. *)
Definition keeps {A} (P : list effect -> Prop) (m : prog A) (Q : A -> list effect -> Prop) : Prop :=
  forall s, good s -> P (history s) ->
  let '(r, s') := m s in
  good s' /\ match r with inr a => Q a (history s') | inl _ => True end.

Lemma keeps_ret {A} (P : list effect -> Prop) (a : A) (Q : A -> list effect -> Prop) :
  (forall h, P h -> Q a h) -> keeps P (mret a) Q.
Proof. intros HQ s Hs HP. simpl. auto. Qed.

Lemma keeps_throw {A} P e (Q : A -> list effect -> Prop) : keeps P (throw e) Q.
Proof. intros s Hs HP. simpl. auto. Qed.

Lemma keeps_bind {A B} P (m : prog A) R (f : A -> prog B) Q :
  keeps P m R -> (forall a, keeps (R a) (f a) Q) -> keeps P (m ≫= f) Q.
Proof.
  intros Hm Hf s Hs HP. specialize (Hm s Hs HP). unfold mbind, prog_bind.
  destruct (m s) as [[e|a] s1]; [by destruct Hm|]. destruct Hm as [Hs1 HR]. by apply Hf.
Qed.

Lemma keeps_gets {A} P (f : js -> A) : keeps P (gets f) (fun _ => P).
Proof. intros s Hs HP. simpl. auto. Qed.

Lemma keeps_modify P f :
  (forall s, history (f s) = history s /\ values (f s) !! "os" = values s !! "os" /\
             values (f s) !! "RootDir" = values s !! "RootDir") ->
  keeps P (modify f) (fun _ => P).
Proof.
  intros Hf s (H1 & H2 & H3) HP. destruct (Hf s) as (F1 & F2 & F3). simpl. unfold good.
  by rewrite F1, F2, F3.
Qed.

(** A question: what is known before stays known, and the answer is on record. *)
Lemma keeps_ask {A} P (q : list effect -> A) (record : A -> effect) :
  (forall h, P h -> ok_effect h (record (q h))) -> (forall h e, P h -> P (h ++ [e])) ->
  keeps P (ask q record) (fun a h => P h /\ record a ∈ h).
Proof.
  intros Hok Hmono s (H1 & H2 & H3) HP. simpl. split_and!; [|auto|].
  - split_and!; [|done..]. simpl. by apply ok_snoc; [|apply Hok].
  - apply elem_of_app. right. by left.
Qed.

Lemma keeps_emit P e :
  (forall h, ok_effect h e) -> (forall h e, P h -> P (h ++ [e])) -> keeps P (emit e) (fun _ => P).
Proof.
  intros Hok Hmono s (H1 & H2 & H3) HP. simpl. split; [|auto].
  split_and!; [|done..]. simpl. by apply ok_snoc; [|apply Hok].
Qed.

Lemma keeps_weaken {A} P P' (m : prog A) Q Q' :
  keeps P m Q -> (forall h, P' h -> P h) -> (forall a h, Q a h -> Q' a h) -> keeps P' m Q'.
Proof.
  intros Hm HP HQ s Hs HP'. specialize (Hm s Hs (HP _ HP')).
  destruct (m s) as [[e|a] s']; [done|]. destruct Hm. auto.
Qed.

Lemma keeps_post {A} P (m : prog A) Q Q' :
  keeps P m Q -> (forall a h, Q a h -> Q' a h) -> keeps P m Q'.
Proof. intros Hm HQ. by eapply keeps_weaken. Qed.

(** *** Programs that run no uninstaller *)

Definition mono (P : list effect -> Prop) : Prop := forall h e, P h -> P (h ++ [e]).

Lemma keeps_execute P c args :
  mono P -> str_contains "maintenancetool" c = false -> keeps P (execute c args) (fun _ => P).
Proof.
  intros HP Hc. eapply keeps_weaken; [apply keeps_ask|done|by intros ? ? []]; [|exact HP].
  intros h _. simpl. by rewrite Hc.
Qed.

Lemma keeps_fileExists P p : mono P -> keeps P (fileExists p) (fun b h => P h /\ FileExists p b ∈ h).
Proof. intros HP. by apply keeps_ask. Qed.

Lemma keeps_messageBox P i t x :
  mono P -> keeps P (messageBox i t x) (fun b h => P h /\ Ask i t x b ∈ h).
Proof. intros HP. by apply keeps_ask. Qed.

Lemma keeps_value P k : keeps P (value k) (fun _ => P).
Proof. apply keeps_gets. Qed.

Lemma keeps_root P :
  keeps P (value "RootDir") (fun r h => P h /\ r = default "" (v !! "RootDir")).
Proof. intros s (H1 & H2 & H3) HP. simpl. by rewrite H3. Qed.

Lemma keeps_os P name :
  keeps P (Control.os_is name) (fun b h => P h /\ b = String.eqb (default "" (v !! "os")) name).
Proof. intros s (H1 & H2 & H3) HP. simpl. by rewrite H2. Qed.

(** Walk through a program, keeping [P]. *)
Ltac keep :=
  repeat lazymatch goal with
  | |- keeps _ (mret _) _ => apply keeps_ret; auto
  | |- keeps _ (throw _) _ => apply keeps_throw
  | |- keeps ?P (_ ≫= _) _ => apply (keeps_bind P _ (fun _ => P)); [|intros ?]
  | |- keeps _ (value _) _ => apply keeps_value
  | |- keeps _ (gets _) _ => apply keeps_gets
  | |- keeps _ (modify _) _ => apply keeps_modify; by intros
  | |- keeps _ (emit _) _ => apply keeps_emit; [done|assumption]
  | |- keeps _ (fileExists _) _ =>
      eapply keeps_post; [by apply keeps_fileExists|by intros ? ? []]
  | |- keeps _ (messageBox _ _ _) _ =>
      eapply keeps_post; [by apply keeps_messageBox|by intros ? ? []]
  | |- keeps _ (execute _ _) _ => apply keeps_execute; [assumption|reflexivity]
  | _ => assumption || case_match
  end.

Lemma keeps_os_is P n : mono P -> keeps P (Control.os_is n) (fun _ => P).
Proof. intros HP. unfold Control.os_is. keep. Qed.

Lemma keeps_linux P : mono P -> keeps P Control.runningOnLinux (fun _ => P).
Proof.
  intros HP. unfold Control.runningOnLinux. pose proof (keeps_os_is P "linux" HP).
  pose proof (keeps_os_is P "x11" HP). keep.
Qed.

Lemma keeps_setPaths P : mono P -> keeps P Control.setUninstallerPaths (fun _ => P).
Proof.
  intros HP. unfold Control.setUninstallerPaths, Control.setPaths, Control.appName,
    Control.runningOnWindows, Control.runningOnMacOS.
  pose proof (keeps_os_is P "win" HP). pose proof (keeps_os_is P "mac" HP).
  pose proof (keeps_linux P HP). keep.
Qed.

Lemma keeps_appInstalled P : mono P -> keeps P Control.appInstalled (fun _ => P).
Proof. intros HP. unfold Control.appInstalled. pose proof (keeps_setPaths P HP). keep. Qed.

Lemma keeps_running P : mono P -> keeps P Control.appProcessIsRunning (fun _ => P).
Proof.
  intros HP. unfold Control.appProcessIsRunning, Control.appExecutableFileName,
    Control.checkProcessIsRunning, Control.appName, Control.runningOnWindows.
  pose proof (keeps_os_is P "win" HP). keep.
Qed.

Lemma keeps_poll P n : mono P -> keeps P (Control.pollProcess n) (fun _ => P).
Proof.
  intros HP. pose proof (keeps_running P HP). induction n as [|n IH]; cbn [Control.pollProcess]; keep.
Qed.

Lemma keeps_loop P fuel :
  mono P -> keeps P (Control.isDesktopAppProcessRunningMessageLoop fuel) (fun _ => P).
Proof.
  intros HP. pose proof (keeps_running P HP). pose proof (keeps_poll P 400 HP).
  induction fuel as [|fuel IH]; cbn [Control.isDesktopAppProcessRunningMessageLoop];
    unfold Control.appName; keep.
Qed.

Lemma keeps_quit P : mono P -> keeps P Control.requestToQuit (fun _ => P).
Proof.
  intros HP. unfold Control.requestToQuit, setDefaultPageVisible, clickButton, setCancelled,
    Control.runningOnWindows. pose proof (keeps_os_is P "win" HP). keep.
Qed.

Lemma keeps_wait P n : mono P -> keeps P (Control.waitForRemoval n) (fun _ => P).
Proof.
  intros HP. induction n as [|n IH]; cbn [Control.waitForRemoval]; unfold Control.sleep; keep.
Qed.

Lemma keeps_raise P : mono P -> keeps P Control.raiseInstallerWindow (fun _ => P).
Proof.
  intros HP. unfold Control.raiseInstallerWindow, Control.appName, Control.runningOnMacOS.
  pose proof (keeps_os_is P "mac" HP). keep.
Qed.

(** *** The removal *)

Definition agreed (h : list effect) : Prop :=
  exists title text, Ask "os.information" title text Ok ∈ h.

Definition no_legacy (h : list effect) : Prop :=
  String.eqb (default "" (v !! "os")) "win" = true ->
  FileExists (Some (legacy_path "Program Files")) false ∈ h /\
  FileExists (Some (legacy_path "Program Files (x86)")) false ∈ h.

Definition cleared_to_remove (h : list effect) : Prop := agreed h /\ no_legacy h.

Lemma mono_no_legacy : mono no_legacy.
Proof. intros h e Hn Hw. destruct (Hn Hw). split; apply elem_of_app; by left. Qed.

Lemma mono_elem e0 : mono (fun h => e0 ∈ h).
Proof. intros h e He. apply elem_of_app. by left. Qed.

Lemma mono_and P Q : mono P -> mono Q -> mono (fun h => P h /\ Q h).
Proof. intros HP HQ h e []. auto. Qed.

Lemma mono_cleared : mono cleared_to_remove.
Proof.
  apply mono_and; [|apply mono_no_legacy]. intros h e (t & x & Ha). exists t, x.
  apply elem_of_app. by left.
Qed.

Lemma keeps_runUninstaller p r :
  keeps cleared_to_remove (Control.runUninstaller p r) (fun _ => cleared_to_remove).
Proof.
  unfold Control.runUninstaller.
  eapply keeps_bind; [apply keeps_fileExists, mono_cleared|]. intros [].
  - eapply keeps_weaken; [apply keeps_ask with
      (P := fun h => cleared_to_remove h /\ FileExists p true ∈ h)|done|by intros ? ? [[]]].
    + intros h [[Ha Hn] Hf]. simpl. intros Hc. destruct p as [p|]; [|discriminate Hc]. by split_and!.
    + apply mono_and; [apply mono_cleared|apply mono_elem].
  - apply keeps_ret. by intros ? [].
Qed.

Lemma keeps_remove :
  keeps cleared_to_remove Control.removeOldInstallation (fun _ => cleared_to_remove).
Proof.
  unfold Control.removeOldInstallation, setCancelled.
  pose proof mono_cleared as HP. pose proof (keeps_appInstalled _ HP).
  pose proof (keeps_raise _ HP). pose proof (keeps_wait _ 300 HP).
  pose proof keeps_runUninstaller as Hr.
  keep; try apply Hr.
Qed.

Lemma keeps_legacy P :
  mono P -> keeps P Control.legacyTunnelCoreInstalled (fun b h => P h /\ (b = false -> no_legacy h)).
Proof.
  intros HP. unfold Control.legacyTunnelCoreInstalled, Control.runningOnWindows.
  eapply keeps_bind; [apply keeps_os|]. intros w. destruct w; cbn [negb].
  - eapply keeps_bind; [apply keeps_root|]. intros r.
    eapply keeps_bind;
      [apply keeps_fileExists; unfold mono; cbv beta; intros h e [[? ?] ?]; auto|].
    intros []; [apply keeps_ret; by intros h [[[]]]|].
    eapply keeps_post; [apply keeps_fileExists|].
    + unfold mono. cbv beta. intros h e [[[? ?] ?] Hf]. split; [auto|]. apply elem_of_app. by left.
    + intros b h [[[[? Hw] ->] H1] H2]. split; [done|]. intros -> _. by split.
  - apply keeps_ret. intros h [? Hw]. split; [done|]. intros _ Hw'. congruence.
Qed.

Lemma keeps_start fuel : keeps (fun _ => True) (Control.startInstaller fuel) (fun _ _ => True).
Proof.
  unfold Control.startInstaller, setDefaultPageVisible, setCancelled, Control.runningOnMacOS, Control.appName.
  assert (HT : mono (fun _ => True)) by by intros h e.
  pose proof (keeps_os_is _ "mac" HT). pose proof (keeps_quit _ HT). pose proof (keeps_loop _ fuel HT).
  do 5 (apply (keeps_bind (fun _ => True) _ (fun _ _ => True)); [keep|intros _]).
  apply (keeps_bind (fun _ => True) _ (fun _ _ => True)); [keep|intros quit].
  destruct quit; [keep|]. do 2 (apply (keeps_bind (fun _ => True) _ (fun _ _ => True)); [keep|intros ?]).
  eapply keeps_bind; [by apply keeps_legacy|]. intros [].
  { eapply keeps_weaken; [apply (keeps_bind (fun _ => True) _ (fun _ _ => True)); [keep|intros; keep]|done|done]. }
  eapply keeps_weaken with (P := no_legacy) (Q := fun _ _ => True); [|by intros h [_ Hn]; auto|done].
  eapply keeps_bind; [apply keeps_appInstalled, mono_no_legacy|]. intros []; [|by apply keeps_ret].
  eapply keeps_bind; [apply keeps_value|]. intros name.
  eapply keeps_bind; [apply keeps_messageBox, mono_no_legacy|]. intros answer.
  destruct (bool_decide (answer = Ok)) eqn:Ea; bprop.
  - subst answer. eapply keeps_bind.
    + eapply keeps_weaken; [apply keeps_remove| |intros ? ? Hx; exact Hx].
      intros h [Hn Ha]. split; [|done]. by do 2 eexists.
    + intros b. by apply keeps_ret.
  - eapply keeps_weaken; [apply (keeps_emit (fun _ => True)); by intros|done|done].
Qed.

Lemma keeps_Controller fuel : keeps (fun _ => True) (Control.Controller fuel) (fun _ _ => True).
Proof.
  unfold Control.Controller, Control.runningOnWindows, setValue.
  assert (HT : mono (fun _ => True)) by by intros h e.
  pose proof (keeps_os_is _ "win" HT). pose proof (keeps_quit _ HT). pose proof (keeps_loop _ fuel HT).
  pose proof (keeps_appInstalled _ HT). pose proof (keeps_start fuel).
  keep.
  apply keeps_modify. intros s. split; [done|]. cbn [values upd]. simpl.
  by rewrite !lookup_insert_ne.
Qed.

(** C37: The old installation is removed only when it is safe: whatever the world answers, an
    uninstaller is started only after it was seen on disk and the user agreed, and on Windows
    only after both places of the old Amnezia-named service were looked at and it was in
    neither. *)
Theorem uninstall_guarded fuel before command args result after :
  history (Control.Controller fuel (initial v)).2 = before ++ Execute command args result :: after ->
  str_contains "maintenancetool" command = true ->
  FileExists (Some command) true ∈ before /\
  (exists title text, Ask "os.information" title text Ok ∈ before) /\
  (String.eqb (default "" (v !! "os")) "win" = true ->
   FileExists (Some (legacy_path "Program Files")) false ∈ before /\
   FileExists (Some (legacy_path "Program Files (x86)")) false ∈ before).
Proof.
  intros Hh Hc. pose proof (keeps_Controller fuel (initial v)) as Hk.
  destruct (Control.Controller fuel (initial v)) as [r s']. simpl in Hh.
  destruct Hk as [(Hok & _ & _) _]; [|done|].
  - split_and!; [|done..]. intros b e a Hb. by destruct b.
  - exact (Hok _ _ _ Hh Hc).
Qed.

End Uninstall.

(** ** The message loop *)

Section Loop.
Context {E : env}.

(** How often the user was asked to close the application. *)
Definition close_question (e : effect) : bool :=
  match e with Ask id _ _ _ => String.eqb id "QMessageBox" | _ => false end.

Definition asked (h : list effect) : nat := length (List.filter close_question h).

Lemma asked_app h1 h2 : asked (h1 ++ h2) = asked h1 + asked h2.
Proof. unfold asked. by rewrite List.filter_app, length_app. Qed.

(** A program that does not ask the user to close the application. *)
Definition silent {A} (m : prog A) : Prop := forall s,
  asked (history (m s).2) = asked (history s) /\
  requestToQuitFromApp (m s).2 = requestToQuitFromApp s /\ (m s).1 <> inl OutOfFuel.

Lemma silent_ret {A} (a : A) : silent (mret a).
Proof. by intros s. Qed.

Lemma silent_gets {A} (f : js -> A) : silent (gets f).
Proof. by intros s. Qed.

Lemma silent_type_error {A} : silent (@throw A TypeError).
Proof. by intros s. Qed.

Lemma silent_running b : silent (modify (fun s => s <| desktopAppProcessRunning := b |>)).
Proof. by intros s. Qed.

Lemma silent_execute c args : silent (execute c args).
Proof. intros s. split_and!; [|done..]. cbn [execute ask snd history upd]. simpl. by rewrite asked_app, Nat.add_0_r. Qed.

Lemma silent_bind {A B} (m : prog A) (f : A -> prog B) :
  silent m -> (forall a, silent (f a)) -> silent (m ≫= f).
Proof.
  intros Hm Hf s. unfold mbind, prog_bind. destruct (Hm s) as (H1 & H2 & H3).
  destruct (m s) as [[e|a] s1]; cbn [fst snd] in *.
  - split_and!; [done..|]. congruence.
  - destruct (Hf a s1) as (F1 & F2 & F3). by rewrite F1, F2, H1, H2.
Qed.

Ltac hush_prog :=
  repeat lazymatch goal with
  | |- silent (_ ≫= _) => apply silent_bind; [|intros ?]
  | |- silent (mret _) => apply silent_ret
  | |- silent (gets _) => apply silent_gets
  | |- silent (execute _ _) => apply silent_execute
  | |- silent (throw TypeError) => apply silent_type_error
  | |- silent (modify _) => apply silent_running
  | _ => assumption || case_match
  end.

Lemma silent_process : silent Control.appProcessIsRunning.
Proof.
  unfold Control.appProcessIsRunning, Control.runningOnWindows, Control.os_is, Control.appName,
    Control.checkProcessIsRunning, Control.appExecutableFileName, Control.runningOnWindows, Control.os_is,
    Control.appName, value. hush_prog.
Qed.

Lemma silent_poll n : silent (Control.pollProcess n).
Proof.
  pose proof silent_process. induction n as [|n IH]; cbn [Control.pollProcess]; hush_prog.
Qed.

(** One round of the loop, up to the question. *)
Definition look : prog bool :=
  (if isUpdater then Control.pollProcess 400 else mret tt) ;;
  running ← Control.appProcessIsRunning;
  modify (fun s => s <| desktopAppProcessRunning := running |>) ;;
  gets desktopAppProcessRunning.

Lemma silent_look : silent look.
Proof. pose proof silent_process. pose proof (silent_poll 400). unfold look. hush_prog. Qed.

Lemma look_running s b s' : look s = (inr b, s') -> desktopAppProcessRunning s' = b.
Proof.
  unfold look. generalize (if isUpdater then Control.pollProcess 400 else mret tt : prog unit).
  intros first. unfold mbind, prog_bind. destruct (first s) as [[e|u] s1]; [done|].
  destruct (Control.appProcessIsRunning s1) as [[e|r] s2]; [done|]. by intros [= <- <-].
Qed.

(** The loop in terms of its rounds. *)
Lemma loop_round fuel s :
  Control.isDesktopAppProcessRunningMessageLoop fuel s =
  if requestToQuitFromApp s then (inr tt, s)
  else match look s with
       | (inl e, s') => (inl e, s')
       | (inr false, s') => (inr tt, s')
       | (inr true, s') =>
           let name := default "" (values s' !! "Name") in
           let s2 := s' <| history := history s' ++
             [Ask "QMessageBox" (name +:+ " installer")
               (name +:+ " is active. Close the app and press " +:+ chr 34 +:+ "Retry" +:+ chr 34 +:+
                " button to continue installation. Press " +:+ chr 34 +:+ "Abort" +:+ chr 34 +:+
                " button to abort the installer and exit.") (message_box E (history s') "QMessageBox")] |> in
           if bool_decide (message_box E (history s') "QMessageBox" = Retry) then
             match fuel with
             | O => (inl OutOfFuel, s2)
             | S fuel => Control.isDesktopAppProcessRunningMessageLoop fuel s2
             end
           else (inr tt, s2 <| requestToQuitFromApp := true |>)
       end.
Proof.
  destruct fuel; cbn [Control.isDesktopAppProcessRunningMessageLoop]; unfold look;
    generalize (if isUpdater then Control.pollProcess 400 else mret tt : prog unit);
    intros first; unfold mbind, prog_bind; cbn [gets];
    (destruct (requestToQuitFromApp s); [done|]);
    (destruct (first s) as [[e|u] s1]; [done|]);
    (destruct (Control.appProcessIsRunning s1) as [[e|r] s2]; [done|]);
    cbn [modify gets]; (destruct r; [|done]);
    unfold Control.appName, value, gets, messageBox, ask; cbv beta zeta;
    (destruct (bool_decide _); [done|done]).
Qed.

(** C39: The loop that waits for the application to be closed ends: if the user gives up after
    [n] questions, [n] repetitions are enough, and it leaves either with the application
    closed or with the request to quit set; it fails only where the process list itself could
    not be read. *)
Theorem message_loop_ends n s :
  (forall h, n <= asked h -> message_box E h "QMessageBox" <> Retry) ->
  let '(r, s') := Control.isDesktopAppProcessRunningMessageLoop (n - asked (history s)) s in
  r <> inl OutOfFuel /\
  (r = inr tt -> desktopAppProcessRunning s' = false \/ requestToQuitFromApp s' = true).
Proof.
  intros Hpatience. remember (n - asked (history s)) as fuel eqn:Ef.
  assert (Hle : n <= fuel + asked (history s)) by lia. clear Ef. revert s Hle.
  induction fuel as [|fuel IH]; intros s Hle; rewrite loop_round;
    (destruct (requestToQuitFromApp s) eqn:Eq; [by auto|]);
    destruct (silent_look s) as (L1 & L2 & L3); pose proof (look_running s) as Lr;
    (destruct (look s) as [[e|[]] s1]; cbn [fst snd] in *;
       [split; [congruence|done]| |specialize (Lr _ _ eq_refl); by auto]);
    cbv zeta; (destruct (bool_decide _) eqn:Er; [|by split; [|right]]); bprop.
  - destruct (Hpatience (history s1)); [lia|done].
  - apply IH. cbn [history upd]. simpl. rewrite asked_app, L1. cbn. lia.
Qed.

End Loop.

(** ** Strings of the scripts *)

Lemma substring_split n m s :
  n <= String.length s -> String.length s <= n + m ->
  exists p, String.length p = n /\ s = p +:+ String.substring n m s.
Proof.
  revert n m. induction s as [|c s IH]; intros n m Hn Hm; simpl in *.
  - assert (n = 0) as -> by lia. exists "". by destruct m.
  - destruct n as [|n].
    + exists "". split; [done|]. destruct m as [|m]; [lia|].
      change (String c s = String c (String.substring 0 m s)). f_equal.
      destruct (IH 0 m) as (p & Hp & Hs); [lia..|]. destruct p; [exact Hs|discriminate Hp].
    + destruct (IH n m) as (p & Hp & Hs); [lia..|]. exists (String c p). simpl.
      split; [by rewrite Hp|]. rewrite string_app_cons. by f_equal.
Qed.

Lemma substring_app p t m : String.length t <= m -> String.substring (String.length p) m (p +:+ t) = t.
Proof.
  intros Hm. induction p as [|c p IH]; [|by rewrite string_app_cons].
  change ("" +:+ t) with t. simpl String.length. clear - Hm. revert m Hm.
  induction t as [|c t IH]; intros m Hm; [by destruct m|].
  simpl in *. destruct m as [|m]; [lia|]. simpl. by rewrite IH by lia.
Qed.

Lemma prefix_spec t s : String.prefix t s = true -> exists b, s = t +:+ b.
Proof.
  revert s. induction t as [|c t IH]; intros s; [by exists s|].
  destruct s as [|d s]; simpl; [done|]. destruct (ascii_dec c d) as [<-|]; [|done].
  intros (b & ->)%IH. by exists b.
Qed.

Lemma contains_spec t s : str_contains t s = true -> exists a b, s = a +:+ t +:+ b.
Proof.
  induction s as [|c s IH]; cbn [str_contains]; intros [Hp|Hc]%orb_true_iff.
  - apply prefix_spec in Hp as (b & ->). by exists "", b.
  - done.
  - apply prefix_spec in Hp as (b & ->). by exists "", b.
  - destruct (IH Hc) as (a & b & ->). by exists (String c a), b.
Qed.

Lemma contains_self t : str_contains t t = true.
Proof.
  assert (Hp : String.prefix t t = true) by (rewrite <- (string_app_nil_r t) at 2; apply prefix_app).
  by destruct t; cbn [str_contains]; rewrite Hp.
Qed.

Lemma endsWith_spec s t : Control.endsWith s t = true <-> exists p, s = p +:+ t.
Proof.
  unfold Control.endsWith, indexOf_found.
  set (n := Z.to_nat (Z.of_nat (String.length s) - Z.of_nat (String.length t))). split.
  - intros (a & b & Hs)%contains_spec.
    destruct (substring_split n (String.length s) s) as (p & Hp & Hsp); [lia..|].
    rewrite Hs in Hsp. pose proof (f_equal String.length Hsp) as Hl.
    rewrite !string_length_app in Hl.
    destruct b as [|c b]; [|simpl in Hl; lia]. rewrite string_app_nil_r in Hsp.
    exists (p +:+ a). by rewrite string_app_assoc.
  - intros (p & ->). subst n. rewrite string_length_app.
    replace (Z.to_nat _) with (String.length p) by lia.
    rewrite substring_app by lia. apply contains_self.
Qed.

Section Component.
Context {E : env}.

(** On Windows the directory that is chosen always ends in the application's name: a
    directory that already does is kept, any other gets it appended, and what is stored is
    what is shown. *)
Theorem browse_target_named s text :
  values s !! "os" = Some "win" -> target_page E (history s) = Some text ->
  let name := default "" (values s !! "Name") in
  let s' := (Control.onBrowseButtonClicked s).2 in
  exists dir, values s' !! "TargetDir" = Some dir /\ history s' = history s ++ [SetLineEdit dir] /\
    (exists p, dir = p +:+ name) /\ ((exists p, text = p +:+ name) -> dir = text).
Proof.
  intros Hos Ht name s'.
  exists (if Control.endsWith text name then text else text +:+ "\" +:+ name).
  assert (Hs' : s' = (s <| values := <["TargetDir" := if Control.endsWith text name then text
                                else text +:+ "\" +:+ name]> (values s) |>)
                     <| history := history s ++ [SetLineEdit (if Control.endsWith text name then text
                                else text +:+ "\" +:+ name)] |>).
  { subst s' name. unfold Control.onBrowseButtonClicked, Control.runningOnWindows, Control.os_is,
      Control.appName, value, setValue, gets, modify, emit, mbind, prog_bind, mret, prog_ret, modify.
    rewrite Ht, Hos. cbn. by rewrite lookup_insert_eq. }
  rewrite Hs'. cbn. rewrite lookup_insert_eq. split_and!; [done|done| |].
  - destruct (Control.endsWith text name) eqn:Ee; [by apply endsWith_spec|].
    exists (text +:+ "\"). by rewrite string_app_assoc.
  - intros He%endsWith_spec. by rewrite He.
Qed.

(** What [installationFinished] adds to the history. *)
Lemma launch_trace s :
  exists pre command, 
    (Component.launchCommand s).1 = inr command /\
    history (Component.launchCommand s).2 = history s ++ pre /\
    values (Component.launchCommand s).2 = values s /\
    Forall (fun e => match e with Execute _ _ _ => True | _ => False end) pre.
Proof.
  unfold Component.launchCommand, Component.appExecutableFileName, Component.appName, execute, ask,
    value, gets, mbind, prog_bind, mret, prog_ret.
  destruct Component.runningOnWindows; cbn.
  - rewrite <- app_assoc. do 2 eexists. split_and!; [done|done|done|by repeat constructor].
  - exists []. rewrite app_nil_r.
    destruct Component.runningOnMacOS; cbn; [|destruct Component.runningOnLinux; cbn];
      eexists; by split_and!.
Qed.

Lemma finish_drops_rights s :
  exists new, history (Component.installationFinished s).2 = history s ++ new /\
    (forall c args dir, ExecuteDetached c args dir ∈ new ->
       status_success E (history s) = true /\ (the_mode E = ModeInstaller \/ the_mode E = ModeUpdater) /\
       exists pre, new = GainAdminRights true :: pre ++ [DropAdminRights; ExecuteDetached c args dir] /\
                   Forall (fun e => match e with Execute _ _ _ => True | _ => False end) pre) /\
    (GainAdminRights true ∈ new -> DropAdminRights ∈ new).
Proof.
  unfold Component.installationFinished, mbind at 1, prog_bind at 1. cbn [gets].
  destruct (status_success E (history s)) eqn:Es; cbn [andb];
    [|exists []; split_and!; [by rewrite app_nil_r|by intros ? ? ? ?%not_elem_of_nil|by intros ?%not_elem_of_nil]].
  destruct (isInstaller || isUpdater) eqn:Em;
    [|exists []; split_and!; [by rewrite app_nil_r|by intros ? ? ? ?%not_elem_of_nil|by intros ?%not_elem_of_nil]].
  assert (Hm : the_mode E = ModeInstaller \/ the_mode E = ModeUpdater)
    by (unfold isInstaller, isUpdater in Em; apply orb_true_iff in Em as [?|?]; bprop; auto).
  unfold mbind at 1, prog_bind at 1, ask. cbv zeta.
  destruct (admin_rights E (history s)) eqn:Ea; cbn [negb].
  - set (s1 := s <| history := history s ++ [GainAdminRights true] |>).
    destruct (launch_trace s1) as (pre & command & L1 & L2 & L3 & L4).
    unfold mbind at 1, prog_bind at 1. destruct (Component.launchCommand s1) as [r s2]; cbn [fst snd] in *.
    subst r. exists (GainAdminRights true :: pre ++ [DropAdminRights; ExecuteDetached command [] (default "" (values s2 !! "TargetDir"))]).
    split_and!.
    + unfold emit, modify, value, gets, mbind, prog_bind. cbn. rewrite L2. cbn. by rewrite <- !app_assoc.
    + intros c args dir [?|[Hp|Hd]%elem_of_app]%elem_of_cons; [done| |].
      * rewrite Forall_forall in L4. by apply L4 in Hp.
      * apply elem_of_cons in Hd as [?|Hd]; [done|]. apply list_elem_of_singleton in Hd as [= -> -> ->].
        split_and!; [done|done|]. by exists pre.
    + intros _. apply elem_of_cons. right. apply elem_of_app. right. by left.
  - exists [GainAdminRights false]. split_and!; [done| |].
    + by intros ? ? ? ?%list_elem_of_singleton.
    + by intros ?%list_elem_of_singleton.
Qed.

(** The application is started with the user's rights: it is launched only after a
    successful installation or update for which administrator rights were granted, as the very
    last step, and immediately after those rights were dropped; whenever rights were granted
    they are dropped.  This holds of every signal the component
    is connected to. *)
Theorem launch_drops_rights e s :
  exists new, history (Component.Component e s).2 = history s ++ new /\
    (forall c args dir, ExecuteDetached c args dir ∈ new ->
       status_success E (history s) = true /\ (the_mode E = ModeInstaller \/ the_mode E = ModeUpdater) /\
       exists pre, new = GainAdminRights true :: pre ++ [DropAdminRights; ExecuteDetached c args dir] /\
                   Forall (fun e => match e with Execute _ _ _ => True | _ => False end) pre) /\
    (GainAdminRights true ∈ new -> DropAdminRights ∈ new).
Proof.
  destruct e; cbn [Component.Component]; [| |apply finish_drops_rights].
  - exists []. split_and!; [by rewrite app_nil_r|by intros ? ? ? ?%not_elem_of_nil|by intros ?%not_elem_of_nil].
  - unfold Component.installationFinishedPageIsShown, mbind, prog_bind, gets.
    destruct (isInstaller && status_success E (history s)).
    + eexists [_]. split_and!; [reflexivity| |];
        [by intros ? ? ? ?%list_elem_of_singleton|by intros ?%list_elem_of_singleton].
    + exists []. split_and!; [by rewrite app_nil_r|by intros ? ? ? ?%not_elem_of_nil|by intros ?%not_elem_of_nil].
Qed.

End Component.

(** ** Operations *)

Section Operations.
Context {E : env}.

(** An operation that is undone by a script when the application is removed. *)
Definition has_undo (e : effect) : bool :=
  match e with
  | AddOperation true "Execute" args => existsb (String.eqb "UNDOEXECUTE") args
  | _ => false
  end.

Definition runs_redistributable (e : effect) : bool :=
  match e with
  | AddOperation _ _ (command :: _) =>
      String.eqb command "@TargetDir@\vc_redist.x64.exe" || String.eqb command "@TargetDir@\vc_redist.x86.exe"
  | _ => false
  end.

(** [m] returns [a] and adds [l] to the history. *)
Definition traced {A} (m : prog A) (s : js) (a : A) (l : list effect) : Prop :=
  exists s', m s = (inr a, s') /\ history s' = history s ++ l /\ values s' = values s.

Definition redistributable_justified (l : list effect) : Prop :=
  List.filter runs_redistributable l <> [] ->
  (exists dirs, FindPath "msvcp140.dll" dirs "" ∈ l) /\
  exists name dirs found, FindPath name dirs found ∈ l /\ found <> "" /\
    (name = "vc_redist.x64.exe" \/ name = "vc_redist.x86.exe").

Lemma runtime_trace s :
  exists l, traced Component.installRuntime s tt l /\ List.filter has_undo l = [] /\
    (forall name args, AddOperation false name args ∉ l) /\ redistributable_justified l.
Proof.
  unfold Component.installRuntime, Component.vcRuntimeIsInstalled, findPath, ask, value, gets, traced,
    mbind, prog_bind, mret, prog_ret. cbn.
  destruct (find_path E (history s) "msvcp140.dll" _) as [|c f] eqn:Ef; cbn; rewrite ?Ef; cbn.
  2: { eexists. split_and!; [by eexists|done| |done].
       intros name args [?|?%not_elem_of_nil]%elem_of_cons; done. }
  set (redist := if str_contains "64" (cpuArchitecture E) then "vc_redist.x64.exe" else "vc_redist.x86.exe").
  assert (Hr : redist = "vc_redist.x64.exe" \/ redist = "vc_redist.x86.exe")
    by (subst redist; destruct (str_contains _ _); auto).
  clearbody redist.
  destruct (find_path E _ redist _) as [|c f] eqn:Ef2; cbn;
    (eexists; split; [eexists; split_and!; [done|cbn; by rewrite <- ?app_assoc|done]|]; split_and!); [done| |done|done| |].
  - intros name args [?|[?|?%not_elem_of_nil]%elem_of_cons]%elem_of_cons; done.
  - intros name args [?|[?|[?|?%not_elem_of_nil]%elem_of_cons]%elem_of_cons]%elem_of_cons; done.
  - intros _. split; [eexists; by left|]. exists redist. do 2 eexists.
    split; [right; by left|]. by split.
Qed.

Definition shortcut (elevated : bool) (place : string) : effect :=
  AddOperation elevated "CreateShortcut"
    ["@TargetDir@/TunnelCoreVPN.exe"; place +:+ "/TunnelCore VPN.lnk"; "workingDirectory=@TargetDir@";
     "iconPath=@TargetDir@\TunnelCoreVPN.ico"; "iconId=0"].

(** The operations on Windows, with [dir] the target directory. *)
Definition service_operations (dir : string) : list effect :=
  let pu := Component.backslashes dir +:+ "\" in
  [AddOperation true "Execute"
     ["sc"; "create"; "TunnelCoreVPN-service"; "binpath="; pu +:+ "TunnelCoreVPN-service" +:+ ".exe";
      "DisplayName="; "TunnelCore VPN Service"; "start="; "auto"; "depend="; "BFE/nsi";
      "UNDOEXECUTE"; "cmd"; "/c"; pu +:+ "post_uninstall.cmd"];
   AddOperation true "Execute" ["cmd"; "/c"; pu +:+ "post_install.cmd"]].

Lemma create_windows s :
  Component.runningOnWindows = true ->
  exists l, traced Component.createOperations s tt
    (DefaultOperations :: shortcut false (desktop_location E) ::
     shortcut true (default "" (values s !! "AllUsersStartMenuProgramsPath")) ::
     l ++ service_operations (default "" (values s !! "TargetDir"))) /\
    List.filter has_undo l = [] /\ (forall name args, AddOperation false name args ∉ l) /\
    redistributable_justified l.
Proof.
  intros Hw.
  set (s2 := s <| history := ((history s ++ [DefaultOperations]) ++ [shortcut false (desktop_location E)]) ++
       [shortcut true (default "" (values s !! "AllUsersStartMenuProgramsPath"))] |>).
  destruct (runtime_trace s2) as (l & (s3 & E3 & H3 & V3) & Hl). exists l. split; [|done].
  assert (Hrun : Component.createOperations s =
    match Component.installRuntime s2 with
    | (inl e, s3) => (inl e, s3)
    | (inr _, s3) =>
        (inr tt, s3 <| history := (history s3 ++ take 1 (service_operations (default "" (values s3 !! "TargetDir")))) ++
                        drop 1 (service_operations (default "" (values s3 !! "TargetDir"))) |>)
    end).
  { unfold Component.createOperations, Component.appExecutableFileName, Component.addOperation,
      Component.addElevatedOperation. rewrite Hw. unfold mbind, prog_bind, mret, prog_ret, emit, modify,
      value, gets. cbv beta iota. reflexivity. }
  rewrite E3 in Hrun. eexists. split; [exact Hrun|]. split; [|exact V3].
  cbn [history upd]. simpl history. rewrite H3, V3. simpl. by rewrite <- !app_assoc.
Qed.

(** A path below a directory is not the word that separates the undo command. *)
Lemma path_not_undo d f : String.eqb "UNDOEXECUTE" ((d +:+ "\") +:+ f) = false.
Proof.
  apply String.eqb_neq. intros He. apply (f_equal (str_has "\"%char)) in He.
  rewrite !str_has_app in He. simpl in He. by rewrite orb_true_r in He.
Qed.

Lemma service_undo dir : length (List.filter has_undo (service_operations dir)) = 1.
Proof.
  unfold service_operations. cbv zeta. set (d := Component.backslashes dir). clearbody d.
  cbn [List.filter has_undo]. cbn [existsb]. rewrite !path_not_undo. reflexivity.
Qed.

(** What is installed can be removed: on each supported system exactly one of the added
    operations carries an undo script, every added operation but the desktop shortcut runs
    elevated, and the Visual C++ redistributable is run only when the runtime is missing and
    the package brings it along. *)
Theorem operations_reversible s :
  let s' := (Component.createOperations s).2 in
  (Component.createOperations s).1 = inr tt /\
  exists l, history s' = history s ++ DefaultOperations :: l /\
    (kernelType E ∈ ["winnt"; "darwin"; "linux"] -> length (List.filter has_undo l) = 1) /\
    (forall name args, AddOperation false name args ∈ l -> name = "CreateShortcut") /\
    (List.filter runs_redistributable l <> [] ->
       (exists dirs, FindPath "msvcp140.dll" dirs "" ∈ l) /\
       exists name dirs found, FindPath name dirs found ∈ l /\ found <> "" /\
         (name = "vc_redist.x64.exe" \/ name = "vc_redist.x86.exe")).
Proof.
  intros s'. subst s'. destruct Component.runningOnWindows eqn:Ew.
  - destruct (create_windows s Ew) as (l & (s3 & E3 & H3 & V3) & L4 & L5 & L6). rewrite E3.
    cbn [fst snd]. split; [done|]. eexists. split; [exact H3|]. split_and!.
    + intros _. cbn [List.filter has_undo shortcut]. rewrite List.filter_app, L4. apply service_undo.
    + intros name args Hin. do 2 (apply elem_of_cons in Hin as [Hin|Hin]; [by injection Hin|]).
      apply elem_of_app in Hin as [Hin|Hin]; [by apply L5 in Hin|].
      do 2 (apply elem_of_cons in Hin as [Hin|Hin]; [done|]). by apply not_elem_of_nil in Hin.
    + intros Hne. destruct L6 as ((dirs & H1) & name & dirs2 & found & H2 & Hx).
      * intros He. apply Hne. cbn. by rewrite List.filter_app, He.
      * split; [exists dirs|exists name, dirs2, found; split; [|done]];
          do 2 apply elem_of_cons, or_intror; apply elem_of_app; by left.
  - unfold Component.createOperations, Component.addElevatedOperation, emit, modify, mbind, prog_bind.
    rewrite Ew. unfold Component.runningOnWindows in Ew. apply String.eqb_neq in Ew.
    destruct Component.runningOnMacOS eqn:Em; [|destruct Component.runningOnLinux eqn:El]; cbn;
      (split; [done|]).
    + eexists. split; [by rewrite <- app_assoc|]. split_and!; [done| |done].
      by intros name args ?%list_elem_of_singleton.
    + eexists. split; [by rewrite <- app_assoc|]. split_and!; [done| |done].
      by intros name args ?%list_elem_of_singleton.
    + exists []. split_and!; [done| |by intros ? ? ?%not_elem_of_nil|done].
      unfold Component.runningOnMacOS in Em. unfold Component.runningOnLinux in El. bprop.
      rewrite !elem_of_cons. intros [?|[?|[?|?%not_elem_of_nil]]]; done.
Qed.

End Operations.

(** ** Concrete runs *)

Definition main_tool : string := "C:/Program Files/TunnelCore VPN/maintenancetool.exe".
Definition x86_tool : string := "C:/Program Files (x86)/TunnelCore VPN/maintenancetool.exe".

Definition finished_removal (path : string) (h : list effect) : bool :=
  existsb (fun e => match e with
                    | Execute c _ (Some (_, 0%Z)) => String.eqb c path
                    | _ => false
                    end) h.

(** A Windows machine on which both old installations are present; the uninstaller of the
    32-bit one returns [code]. *)
Definition sample_env (code : Z) : env := {|
  the_mode := ModeInstaller;
  file_exists h p :=
    match p with
    | Some path => (String.eqb path main_tool || String.eqb path x86_tool) && negb (finished_removal path h)
    | None => false
    end;
  run_process h c args := Some ("", if String.eqb c x86_tool then code else 0%Z);
  message_box h id := if String.eqb id "os.information" then Ok else Abort;
  target_page h := Some "D:\Apps";
  current_page h := true;
  find_path h name dirs := "";
  admin_rights h := true;
  status_success h := true;
  kernelType := "winnt";
  cpuArchitecture := "x86_64";
  desktop_location := "C:/Desktop"
|}.

Definition sample_values : gmap string string :=
  <["os" := "win"]> (<["RootDir" := "C:/"]> (<["Name" := "TunnelCoreVPN"]> ∅)).

Definition sample_history (code : Z) : list effect :=
  history (Control.Controller (E := sample_env code) 0 (initial sample_values)).2.

Lemma uninstall_guarded_witness :
  FileExists (Some main_tool) true ∈ take 14 (sample_history 0) /\
  sample_history 0 !! 14 = Some (Execute main_tool [] (Some ("", 0%Z))).
Proof.
  split; [|vm_compute; reflexivity].
  apply (uninstall_guarded (E := sample_env 0) sample_values 0 (take 14 (sample_history 0)) main_tool []
           (Some ("", 0%Z)) (drop 15 (sample_history 0)));
    vm_compute; reflexivity.
Defined.

Lemma message_loop_ends_witness :
  let E := sample_env 0 in
  let '(r, s') := Control.isDesktopAppProcessRunningMessageLoop (0 - asked []) (initial sample_values) in
  r <> inl OutOfFuel /\
  (r = inr tt -> desktopAppProcessRunning s' = false \/ requestToQuitFromApp s' = true).
Proof. intros E. apply (message_loop_ends 0 (initial sample_values)). intros h _. discriminate. Defined.

Lemma browse_target_named_witness :
  let E := sample_env 0 in
  exists dir, values (Control.onBrowseButtonClicked (initial sample_values)).2 !! "TargetDir" = Some dir /\
    exists p, dir = p +:+ "TunnelCoreVPN".
Proof.
  intros E. destruct (browse_target_named (initial sample_values) "D:\Apps") as (dir & H1 & _ & H2 & _);
    [vm_compute; reflexivity|reflexivity|]. by exists dir.
Defined.

(** When both the 64-bit and the 32-bit installation are present and the removal of the
    32-bit one is aborted (its uninstaller returns 1), the installer goes on all the same: the
    exit code is overwritten by that of the second uninstaller. *)
Theorem aborted_x86_removal_ignored :
  (Control.Controller (E := sample_env 1) 0 (initial sample_values)).1 = inr tt /\
  Execute x86_tool [] (Some ("", 1%Z)) ∈ sample_history 1 /\
  existsb (fun e => match e with SetCancelled => true | _ => false end) (sample_history 1) = false.
Proof.
  split_and!; [vm_compute; reflexivity| |vm_compute; reflexivity].
  apply list_elem_of_lookup_2 with (i := 12). vm_compute. reflexivity.
Qed.
