(* ===== verification/UpdateController.v ===== *)
(** * The update controller

    [client/core/controllers/updateController.{h,cpp}] asks the update service for a newer
    release, checks what it is told, downloads the installer, verifies it and runs it.  The
    state keeps the replies in flight and the downloads with what they have written; the
    committed installer file is the content it has, which only the controller changes: other
    processes that write the file between the verification and the start are not events of the
    model ([changed_installer_runs] says what the controller would do).  Running a process,
    files that cannot be written and URL parsing are the outside. *)

From S2P Require Import Prelude Json.

(** ** The outside *)

Inductive platform :=
  | WindowsDesktop | MacDesktop | LinuxDesktop | MacStore | AppleStore | AndroidPlay | AndroidApk.

#[export] Instance platform_eq_dec : EqDecision platform.
Proof. solve_decision. Defined.

Class UpdateWorld := {
  update_text :: JsonText;
  target : platform;
  APP_VERSION : string;
  store_fallback : string;                 (* APP_IOS_STORE_URL_FALLBACK *)
  android_package : string;                (* APP_ANDROID_PACKAGE *)
  u_scheme : string -> string;
  u_host : string -> string;
  u_path : string -> string;
  u_query : string -> string;
  u_fragment : string -> string;
  u_isEmpty : string -> bool;
  u_string : string -> string;             (* QUrl(_).toString() *)
  sha256 : string -> string                (* hex digest of the bytes added *)
}.

(** ** Versions *)

(** [$] of a pattern also matches before a final line feed. *)
Fixpoint drop_final_newline (s : string) : string :=
  match s with
  | EmptyString => EmptyString
  | String c EmptyString => if Ascii.eqb c LF then EmptyString else s
  | String c r => String c (drop_final_newline r)
  end.

(** The pieces between dots. *)
Fixpoint split_dots (s : string) : list string :=
  match s with
  | EmptyString => [""]
  | String c r =>
      if Ascii.eqb c "." then "" :: split_dots r
      else match split_dots r with
           | [] => [String c ""]
           | x :: l => String c x :: l
           end
  end.

Definition number_segment (s : string) : bool := negb (str_empty s) && str_forall is_digit s.

(** The pattern [^\d+\.\d+\.\d+(?:\.\d+)?$]. *)
Definition validVersion (version : string) : bool :=
  let segments := split_dots (drop_final_newline version) in
  ((length segments =? 3)%nat || (length segments =? 4)%nat) && forallb number_segment segments.

(** [QVersionNumber::fromString]: the leading numbers that fit an [int]. *)
Fixpoint leading_digits (s : string) : string :=
  match s with
  | String c r => if is_digit c then String c (leading_digits r) else ""
  | EmptyString => ""
  end.

Fixpoint version_segments (l : list string) : list Z :=
  match l with
  | [] => []
  | x :: r =>
      match digits (leading_digits x) with
      | Some z =>
          if in_int32 z then
            if String.eqb (leading_digits x) x then z :: version_segments r else [z]
          else []
      | None => []
      end
  end.

Definition version_of (s : string) : list Z := version_segments (split_dots s).

(** [QVersionNumber::compare]. *)
Fixpoint version_compare (a b : list Z) : Z :=
  match a, b with
  | [], [] => 0
  | [], y :: _ => if (y <? 0)%Z then 1 else -1
  | x :: _, [] => if (x <? 0)%Z then -1 else 1
  | x :: a, y :: b => if (x =? y)%Z then version_compare a b else (x - y)%Z
  end.

(** The pattern [^[0-9a-f]{64}$]. *)
Definition is_hex (c : ascii) : bool :=
  is_digit c || (let n := N_of_ascii c in (97 <=? n)%N && (n <=? 102)%N).

Definition hash_pattern (s : string) : bool :=
  let t := drop_final_newline s in (String.length t =? 64)%nat && str_forall is_hex t.

(** ** State *)

Inductive State := Idle | Downloading | ReadyToInstall | DownloadError.

#[export] Instance State_eq_dec : EqDecision State.
Proof. solve_decision. Defined.

(** A download in flight: what was written to the [QSaveFile], what was hashed, the count of
    bytes, and whether a write of the file failed (its [commit] then fails too). *)
Record download := mkDownload {
  d_id : nat; d_file : string; d_digest : string; d_bytes : Z; d_failed : bool
}.

#[export] Instance eta_download : Eta download := fun d =>
  mkDownload (d_id d) (d_file d) (d_digest d) (d_bytes d) (d_failed d).

Inductive signal :=
  | updateFound | updateNotFound | updateCheckFailed | updateStateChanged | updateCheckRunningChanged
  | RequestMetadata (channel : string)
  | RequestInstaller (url : string)
  | OpenPage (url : string)
  | RunInstaller (content : string).

Record upd_ctl := mkUpd {
  m_version : string;
  m_releaseDate : string;
  m_description : string;
  m_tags : list string;
  m_newFeatures : list string;
  m_improvements : list string;
  m_bugFixes : list string;
  m_downloadUrl : string;
  m_expectedSha256 : string;
  m_expectedSize : Z;
  m_releasePageUrl : string;
  m_mandatory : bool;
  m_updateState : State;
  m_updateCheckRunning : bool;
  u_checks : nat;                     (* update checks not answered yet *)
  u_downloads : list download;
  u_nextId : nat;
  u_installer : string;               (* content of kInstallerLocalPath *)
  u_out : list signal
}.

#[export] Instance eta_upd : Eta upd_ctl := fun s =>
  mkUpd (m_version s) (m_releaseDate s) (m_description s) (m_tags s) (m_newFeatures s)
    (m_improvements s) (m_bugFixes s) (m_downloadUrl s) (m_expectedSha256 s) (m_expectedSize s)
    (m_releasePageUrl s) (m_mandatory s) (m_updateState s) (m_updateCheckRunning s) (u_checks s)
    (u_downloads s) (u_nextId s) (u_installer s) (u_out s).

(** A new controller; [disk] is what lies at the path of the installer. *)
Definition UpdateController (disk : string) : upd_ctl :=
  mkUpd "" "" "" [] [] [] [] "" "" 0 "" false Idle false 0 [] 0 disk [].

Definition signal_out (o : signal) (s : upd_ctl) : upd_ctl := s <| u_out := u_out s ++ [o] |>.

Section Update.
Context `{UpdateWorld}.

Definition desktop : bool :=
  match target with WindowsDesktop | MacDesktop | LinuxDesktop => true | _ => false end.

Definition installerRemoteFileName (version : string) : string :=
  "TunnelCoreVPN_" +:+ version +:+
  match target with
  | WindowsDesktop => "_windows_x64.exe"
  | MacDesktop => "_macos_x64.pkg"
  | _ => "_linux_x64.run"
  end.

Definition platformChannel : string :=
  match target with
  | AndroidPlay => "android-play" | AndroidApk => "android-apk" | AppleStore => "ios"
  | MacStore => "macos-store" | MacDesktop => "macos" | WindowsDesktop => "windows"
  | LinuxDesktop => "linux"
  end.

Definition tunnelCoreReleasePage (url : string) : bool :=
  String.eqb (u_scheme url) "https" && String.eqb (u_host url) "github.com"
  && starts_with "/VnextDevelopment/tunnelcore-vpn/releases/tag/" (u_path url)
  && str_empty (u_query url) && str_empty (u_fragment url).

Definition stringListFromJsonValue (value : option json) : list string :=
  omap (fun item => let text := to_string (Some item) in if str_empty text then None else Some text)
    (to_array value).

Definition isStoreUpdate : bool :=
  match target with AppleStore | MacStore | AndroidPlay => true | _ => false end.

Definition setUpdateState (state : State) (s : upd_ctl) : upd_ctl :=
  if bool_decide (m_updateState s = state) then s
  else signal_out updateStateChanged (s <| m_updateState := state |>).

Definition setUpdateCheckRunning (running : bool) (s : upd_ctl) : upd_ctl :=
  if Bool.eqb (m_updateCheckRunning s) running then s
  else signal_out updateCheckRunningChanged (s <| m_updateCheckRunning := running |>).

Definition checkForUpdates (s : upd_ctl) : upd_ctl :=
  if m_updateCheckRunning s then s
  else
    signal_out (RequestMetadata platformChannel)
      ((setUpdateCheckRunning true s) <| u_checks := S (u_checks s) |>).

(** The page the metadata name is the one of this release. *)
Definition releasePageRejected (releasePage version : string) : bool :=
  if isStoreUpdate then
    negb (String.eqb (u_scheme releasePage) "https")
    || negb (String.eqb (u_host releasePage)
               (match target with AndroidPlay => "play.google.com" | _ => "apps.apple.com" end))
  else
    negb (tunnelCoreReleasePage releasePage)
    || negb (String.eqb (u_path releasePage)
               ("/VnextDevelopment/tunnelcore-vpn/releases/tag/v" +:+ version)).

(** The installer the metadata name is a branded asset with a digest. *)
Definition installerRejected (downloadUrl sha version : string) (size : Z) : bool :=
  negb (String.eqb (u_scheme downloadUrl) "https")
  || negb (String.eqb (u_host downloadUrl) "github.com")
  || negb (String.eqb (u_path downloadUrl)
             ("/VnextDevelopment/tunnelcore-vpn/releases/download/v" +:+ version +:+ "/" +:+
              installerRemoteFileName version))
  || negb (str_empty (u_query downloadUrl)) || negb (str_empty (u_fragment downloadUrl))
  || negb (hash_pattern sha) || (size <? 1)%Z || (850000000 <? size)%Z.

(** The version is one, and newer than this application. *)
Definition notNewer (version : string) : bool :=
  negb (validVersion version)
  || (version_compare (version_of version) (version_of APP_VERSION) <=? 0)%Z.

(** The [finished] handler of the update check, with the reply's error flag, status and
    body. *)
Definition checkFinished (error : bool) (status : Z) (body : string) (s : upd_ctl) : upd_ctl :=
  let s := setUpdateCheckRunning false (s <| u_checks := pred (u_checks s) |>) in
  if error || negb (status =? 200)%Z then signal_out updateCheckFailed s
  else
    match json_parse body with
    | Some (JObj data) =>
        if negb (to_bool (ofind "updateAvailable" data))
        then signal_out updateNotFound (setUpdateState Idle s)
        else
          let version := to_string (ofind "updateVersion" data) in
          if notNewer version then signal_out updateNotFound s
          else
            let releasePage := to_string (ofind "releasePageUrl" data) in
            if releasePageRejected releasePage version then signal_out updateCheckFailed s
            else
              let downloadUrl := to_string (ofind "downloadUrl" data) in
              let sha := to_lower (to_string (ofind "sha256" data)) in
              let size := to_qint64 (ofind "downloadSize" data) in
              if desktop && installerRejected downloadUrl sha version size
              then signal_out updateCheckFailed s
              else
                signal_out updateFound
                  (setUpdateState Idle
                     (s <| m_version := version |>
                        <| m_releaseDate := to_string (ofind "releaseDate" data) |>
                        <| m_description := to_string (ofind "updateDescription" data) |>
                        <| m_tags := stringListFromJsonValue (ofind "updateTags" data) |>
                        <| m_newFeatures := stringListFromJsonValue (ofind "newFeatures" data) |>
                        <| m_improvements := stringListFromJsonValue (ofind "improvements" data) |>
                        <| m_bugFixes := stringListFromJsonValue (ofind "bugFixes" data) |>
                        <| m_downloadUrl := downloadUrl |>
                        <| m_expectedSha256 := sha |>
                        <| m_expectedSize := size |>
                        <| m_releasePageUrl := u_string releasePage |>
                        <| m_mandatory := to_bool (ofind "mandatory" data) |>))
    | _ => signal_out updateCheckFailed s
    end.

Definition appleStorePage (url : string) : bool :=
  String.eqb (u_scheme url) "https" && String.eqb (u_host url) "apps.apple.com".

Definition openStorePage (s : upd_ctl) : upd_ctl :=
  let url := m_releasePageUrl s in
  match target with
  | AppleStore | MacStore =>
      let url := if appleStorePage url then url else store_fallback in
      if appleStorePage url then signal_out (OpenPage url) s else s
  | AndroidPlay | AndroidApk =>
      signal_out (OpenPage (if String.eqb (u_scheme url) "https" && String.eqb (u_host url) "play.google.com"
                            then url
                            else "https://play.google.com/store/apps/details?id=" +:+ android_package)) s
  | _ => s
  end.

Definition composeDownloadUrl (s : upd_ctl) : string := if desktop then m_downloadUrl s else "".

(** [downloadInstaller]; [writable] is whether the file could be opened. *)
Definition downloadInstaller (writable : bool) (s : upd_ctl) : upd_ctl :=
  if negb desktop then s
  else if bool_decide (m_updateState s = Downloading) then s
  else
    let url := composeDownloadUrl s in
    if u_isEmpty url || negb (String.length (m_expectedSha256 s) =? 64)%nat || (m_expectedSize s <? 1)%Z
    then setUpdateState DownloadError s
    else if negb writable then setUpdateState DownloadError s
    else
      let s := setUpdateState Downloading s in
      signal_out (RequestInstaller url)
        (s <| u_downloads := u_downloads s ++ [mkDownload (u_nextId s) "" "" 0 false] |>
           <| u_nextId := S (u_nextId s) |>).

Definition startUpdate (writable : bool) (s : upd_ctl) : upd_ctl :=
  if isStoreUpdate then openStorePage s
  else match target with
       | AndroidApk =>
           if tunnelCoreReleasePage (m_releasePageUrl s) then signal_out (OpenPage (m_releasePageUrl s)) s
           else setUpdateState DownloadError s
       | _ => downloadInstaller writable s
       end.

Definition chunk_size : nat := 64 * 1024.

(** [drain]: the bytes that have arrived, in chunks; the flag is [true] when [reply->abort()]
    was called.  [writes] is whether a write of the file succeeds. *)
Fixpoint drain (fuel : nat) (expectedSize : Z) (writes : string -> bool) (available : string)
    (d : download) : bool * download :=
  match fuel, available with
  | O, _ => (false, d)
  | _, EmptyString => (false, d)
  | S fuel, _ =>
      let chunk := String.substring 0 chunk_size available in
      let rest := String.substring chunk_size (String.length available) available in
      let d := d <| d_bytes := (d_bytes d + Z.of_nat (String.length chunk))%Z |> in
      if (expectedSize <? d_bytes d)%Z then (true, d)
      else if negb (writes chunk) then (true, d <| d_failed := true |>)
      else
        drain fuel expectedSize writes rest
          (d <| d_file := d_file d +:+ chunk |> <| d_digest := d_digest d +:+ chunk |>)
  end.

(** All that is available: a chunk is never empty, so as many rounds as bytes are enough. *)
Definition drainAll (s : upd_ctl) (writes : string -> bool) (available : string) (d : download)
    : bool * download :=
  drain (String.length available) (m_expectedSize s) writes available d.

(** The [finished] handler of the download, after its last [drain]; [commits] is whether a
    file all of whose writes succeeded can be committed. *)
Definition downloadFinished (error : bool) (status : Z) (commits : bool) (d : download) (s : upd_ctl)
    : upd_ctl :=
  let s := s <| u_downloads := filter (fun x => d_id x <> d_id d) (u_downloads s) |> in
  let valid := negb error && (status =? 200)%Z && (d_bytes d =? m_expectedSize s)%Z
               && String.eqb (sha256 (d_digest d)) (m_expectedSha256 s) in
  if negb valid || negb (commits && negb (d_failed d)) then setUpdateState DownloadError s
  else setUpdateState ReadyToInstall (s <| u_installer := d_file d |>).

(** [readyRead]: an abort finishes the reply at once, with an error. *)
Definition dataArrived (writes : string -> bool) (available : string) (d : download) (s : upd_ctl)
    : upd_ctl :=
  match drainAll s writes available d with
  | (false, d') =>
      s <| u_downloads := map (fun x => if (d_id x =? d_id d)%nat then d' else x) (u_downloads s) |>
  | (true, d') => downloadFinished true 0 false d' s
  end.

(** [finished]: the rest is drained first; aborting a finished reply has no effect. *)
Definition replyFinished (writes : string -> bool) (available : string) (error : bool) (status : Z)
    (commits : bool) (d : download) (s : upd_ctl) : upd_ctl :=
  downloadFinished error status commits (drainAll s writes available d).2 s.

Definition installUpdate (s : upd_ctl) : upd_ctl :=
  if negb desktop then s
  else if negb (bool_decide (m_updateState s = ReadyToInstall)) then s
  else signal_out (RunInstaller (u_installer s)) s.

(** ** Events *)

Inductive update_event :=
  | CheckForUpdates
  | StartUpdate (writable : bool)
  | InstallUpdate
  | CheckReply (error : bool) (status : Z) (body : string)
  | Data (id : nat) (writes : string -> bool) (available : string)
  | Finished (id : nat) (writes : string -> bool) (available : string) (error : bool) (status : Z)
      (commits : bool).

Definition find_download (id : nat) (s : upd_ctl) : option download :=
  snd <$> list_find (fun d => d_id d = id) (u_downloads s).

Definition update_step (e : update_event) (s : upd_ctl) : upd_ctl :=
  match e with
  | CheckForUpdates => checkForUpdates s
  | StartUpdate w => startUpdate w s
  | InstallUpdate => installUpdate s
  | CheckReply error status body =>
      if (u_checks s =? 0)%nat then s else checkFinished error status body s
  | Data id writes available =>
      match find_download id s with Some d => dataArrived writes available d s | None => s end
  | Finished id writes available error status commits =>
      match find_download id s with
      | Some d => replyFinished writes available error status commits d s
      | None => s
      end
  end.

Inductive update_reachable : upd_ctl -> Prop :=
  | update_new disk : update_reachable (UpdateController disk)
  | update_next e s : update_reachable s -> update_reachable (update_step e s).

End Update.

(** ** Downloads *)

Section Downloads.
Context `{UpdateWorld}.

(** What is hashed is what is written, and it is counted. *)
Record sound (d : download) : Prop := {
  so_digest : d_digest d = d_file d;
  so_bytes : d_bytes d = Z.of_nat (String.length (d_file d));
  so_failed : d_failed d = false
}.

Lemma substring_zero s : String.substring 0 0 s = "".
Proof. by destruct s. Qed.

(** A text is its first [n] characters and the rest. *)
Lemma substring_halves n s :
  String.substring 0 n s +:+ String.substring n (String.length s) s = s.
Proof.
  assert (Hall : forall r m, String.length r <= m -> String.substring 0 m r = r).
  { induction r as [|c r IH]; intros m Hm; [by destruct m|]. simpl in *.
    destruct m as [|m]; [lia|]. simpl. by rewrite IH by lia. }
  assert (Hgen : forall m, String.length s <= n + m ->
             String.substring 0 n s +:+ String.substring n m s = s); [|apply Hgen; lia].
  revert n. induction s as [|c s IH]; intros n m Hm.
  - by destruct n, m.
  - destruct n as [|n]; [rewrite substring_zero; by apply Hall|].
    cbn [String.substring]. rewrite string_app_cons. f_equal. apply IH. simpl in Hm. lia.
Qed.

Lemma substring_rest_shorter n s :
  0 < n -> s <> "" -> String.length (String.substring n (String.length s) s) < String.length s.
Proof.
  intros Hn Hs. destruct s as [|c s]; [done|]. destruct n as [|n]; [lia|].
  pose proof (f_equal String.length (substring_halves (S n) (String c s))) as Hl.
  rewrite string_length_app in Hl. cbn [String.substring String.length] in *. lia.
Qed.

Lemma drain_spec fuel size writes available d :
  String.length available <= fuel -> sound d ->
  let '(aborted, d') := drain fuel size writes available d in
  d_id d' = d_id d /\
  (aborted = false ->
     sound d' /\ d_file d' = d_file d +:+ available /\ (available <> "" -> (d_bytes d' <= size)%Z)) /\
  (aborted = true -> (size < d_bytes d')%Z \/ d_failed d' = true) /\
  ((forall c, writes c = true) -> aborted = true ->
     (size < d_bytes d + Z.of_nat (String.length available))%Z).
Proof.
  revert available d. induction fuel as [|fuel IH]; intros available d Hf Hd.
  - destruct available; [|simpl in Hf; lia]. cbn. rewrite string_app_nil_r. by split_and!.
  - destruct available as [|c available]; [cbn; rewrite string_app_nil_r; by split_and!|].
    cbn [drain]. set (all := String c available) in *.
    pose proof (substring_halves chunk_size all) as Hall.
    pose proof (substring_rest_shorter chunk_size all ltac:(unfold chunk_size; lia) ltac:(done)) as Hlt.
    set (chunk := String.substring 0 chunk_size all) in *.
    set (rest := String.substring chunk_size (String.length all) all) in *.
    assert (Hlen : String.length all = String.length chunk + String.length rest)
      by (rewrite <- Hall; apply string_length_app).
    clearbody chunk rest all. cbn [d_bytes upd]. simpl d_bytes.
    destruct (size <? d_bytes d + _)%Z eqn:E1; bprop.
    + split_and!; [done|done|by left|]. intros _ _. lia.
    + destruct (writes chunk) eqn:Ew; cbn [negb].
      2: { split_and!; [done|done|by right|]. intros Hw. congruence. }
      match goal with |- context [drain fuel size writes rest ?x] => set (d1 := x) end.
      assert (Hd1 : sound d1).
      { destruct Hd as [D1 D2 D3]. constructor; cbn; [by rewrite D1| |done].
        rewrite D2, string_length_app. lia. }
      specialize (IH rest d1 ltac:(lia) Hd1).
      destruct (drain fuel size writes rest d1) as [ab d2]. destruct IH as (I1 & I2 & I3 & I4).
      split_and!; [done| |done|].
      * intros Hab. destruct (I2 Hab) as (S2 & F2 & B2). split_and!; [done| |].
        -- rewrite F2. cbn. by rewrite string_app_assoc, Hall.
        -- intros _. destruct rest; [|by apply B2].
           destruct S2 as [_ B _]. rewrite B, F2, string_app_nil_r. cbn.
           destruct Hd as [_ D2 _]. rewrite string_length_app. lia.
      * intros Hw Hab. specialize (I4 Hw Hab). cbn in I4. lia.
Qed.

Lemma drain_complete fuel size writes available d :
  String.length available <= fuel -> sound d -> (forall c, writes c = true) ->
  (d_bytes d + Z.of_nat (String.length available) <= size)%Z ->
  (drain fuel size writes available d).1 = false.
Proof.
  intros Hf Hd Hw Hs. pose proof (drain_spec fuel size writes available d Hf Hd) as Hd'.
  destruct (drain _ _ _ _ _) as [[] d']; [|done]. destruct Hd' as (_ & _ & _ & H4).
  specialize (H4 Hw eq_refl). lia.
Qed.

(** ** What is announced, and what is ready *)

(** The metadata describe a newer release and a branded installer with a digest. *)
Definition trusted (s : upd_ctl) : Prop :=
  notNewer (m_version s) = false /\
  installerRejected (m_downloadUrl s) (m_expectedSha256 s) (m_version s) (m_expectedSize s) = false.

(** The file on disk is the announced one. *)
Definition verified (s : upd_ctl) : Prop :=
  sha256 (u_installer s) = m_expectedSha256 s /\
  Z.of_nat (String.length (u_installer s)) = m_expectedSize s.

Record upd_inv (s : upd_ctl) : Prop := {
  ui_downloads : Forall sound (u_downloads s);
  ui_store : desktop = false -> u_downloads s = [] /\ m_updateState s <> ReadyToInstall;
  ui_trusted : desktop = true ->
               trusted s \/ (m_expectedSize s = 0%Z /\ u_downloads s = [] /\ m_updateState s <> ReadyToInstall);
  ui_ready : m_updateState s = ReadyToInstall -> verified s
}.

Lemma inv_signal o s : upd_inv s -> upd_inv (signal_out o s).
Proof. intros []. by constructor. Qed.

Lemma inv_running b s : upd_inv s -> upd_inv (setUpdateCheckRunning b s).
Proof. intros Hi. unfold setUpdateCheckRunning. destruct (Bool.eqb _ _); [done|]. destruct Hi. by constructor. Qed.

(** Leaving [ReadyToInstall] is always safe. *)
Lemma inv_state st s : st <> ReadyToInstall -> upd_inv s -> upd_inv (setUpdateState st s).
Proof.
  intros Hst Hi. unfold setUpdateState. destruct (bool_decide _); [done|].
  destruct Hi as [D S T R]. constructor; cbn; [done| | |done].
  - intros Hd. by destruct (S Hd).
  - intros Hd. destruct (T Hd) as [?|(? & ? & ?)]; [by left|by right].
Qed.

Lemma inv_check e st b s : upd_inv s -> upd_inv (checkFinished e st b s).
Proof.
  intros Hi. unfold checkFinished. cbv zeta.
  set (s1 := setUpdateCheckRunning false _).
  assert (H1 : upd_inv s1) by (apply inv_running; destruct Hi; by constructor). clearbody s1.
  destruct (_ || _); [by apply inv_signal|].
  destruct (json_parse b) as [[]|]; try by apply inv_signal.
  destruct (negb _); [by apply inv_signal, inv_state|].
  destruct (notNewer _) eqn:En; [by apply inv_signal|].
  destruct (releasePageRejected _ _); [by apply inv_signal|].
  destruct (desktop && _) eqn:Ed; [by apply inv_signal|]. apply inv_signal.
  set (s2 := s1 <| m_version := _ |> <| m_releaseDate := _ |> <| m_description := _ |> <| m_tags := _ |>
       <| m_newFeatures := _ |> <| m_improvements := _ |> <| m_bugFixes := _ |> <| m_downloadUrl := _ |>
       <| m_expectedSha256 := _ |> <| m_expectedSize := _ |> <| m_releasePageUrl := _ |> <| m_mandatory := _ |>).
  destruct H1 as [D S T R].
  assert (Hidle : upd_inv (s2 <| m_updateState := Idle |>)).
  { constructor; cbn; [done| | |done].
    - intros Hd. by destruct (S Hd).
    - intros Hd. left. rewrite Hd in Ed. by split. }
  unfold setUpdateState. destruct (bool_decide (m_updateState s2 = Idle)) eqn:E; bprop.
  - destruct Hidle as [D' S' T' R']. constructor; [exact D'| | |by rewrite E].
    + intros Hd. destruct (S' Hd). by rewrite E.
    + intros Hd. destruct (T' Hd) as [Ht|(? & ? & ?)]; [left; exact Ht|right; by rewrite E].
  - by apply inv_signal.
Qed.

Lemma inv_download w s : upd_inv s -> upd_inv (downloadInstaller w s).
Proof.
  intros Hi. unfold downloadInstaller. destruct desktop eqn:Ed; cbn [negb]; [|done].
  destruct (bool_decide _); [done|]. cbv zeta. destruct (_ || _) eqn:E; [by apply inv_state|].
  destruct (negb w); [by apply inv_state|]. bprop. apply inv_signal.
  assert (Ht : trusted s) by (destruct Hi as [_ _ T _]; destruct (T Ed) as [?|(? & _)]; [done|lia]).
  assert (Ht' : trusted (setUpdateState Downloading s))
    by (unfold setUpdateState; destruct (bool_decide _); exact Ht).
  pose proof (inv_state Downloading s ltac:(done) Hi) as [D S T R].
  constructor; cbn; [|congruence|by left|exact R].
  apply Forall_app_2; [done|]. by repeat constructor.
Qed.

Lemma inv_start w s : upd_inv s -> upd_inv (startUpdate w s).
Proof.
  intros Hi. unfold startUpdate, openStorePage. pose proof (inv_download w s Hi).
  destruct isStoreUpdate, target; cbv zeta; repeat case_match; try done;
    first [by apply inv_signal|by apply inv_state].
Qed.

(** A finished download: only a complete, matching one becomes the installer. *)
Lemma inv_finish e st c d s :
  upd_inv s -> u_downloads s <> [] ->
  ((d_bytes d =? m_expectedSize s)%Z = true -> d_failed d = false -> sound d) ->
  upd_inv (downloadFinished e st c d s).
Proof.
  intros Hi Hne Hd. unfold downloadFinished. cbv zeta.
  set (s1 := s <| u_downloads := filter _ (u_downloads s) |>).
  assert (Hdesk : desktop = true /\ trusted s).
  { destruct Hi as [_ S T _]. destruct desktop eqn:Ed; [|by destruct (S eq_refl)].
    split; [done|]. destruct (T eq_refl) as [?|(_ & ? & _)]; done. }
  destruct Hdesk as [Ed Ht].
  assert (H1 : upd_inv s1).
  { destruct Hi as [D S T R]. constructor; cbn; [|congruence|by left|exact R].
    rewrite Forall_forall in *. intros x [_ Hx]%list_elem_of_filter. auto. }
  destruct (_ || _) eqn:E; [by apply inv_state|]. bprop.
  assert (Hs : sound d) by (apply Hd; [by apply Z.eqb_eq|done]).
  assert (Hv : verified (s1 <| u_installer := d_file d |>)).
  { destruct Hs as [S1 S2 _]. rewrite S1 in *. split; cbn; [done|]. by rewrite <- S2. }
  unfold setUpdateState. destruct H1 as [D S T R].
  destruct (bool_decide _); (constructor; cbn; [done|congruence|by left|intros _; exact Hv]).
Qed.

Lemma find_download_sound id d s :
  upd_inv s -> find_download id s = Some d -> sound d /\ d_id d = id /\ u_downloads s <> [].
Proof.
  intros [D _ _ _]. unfold find_download. destruct (list_find _ _) as [[i x]|] eqn:E; [|done].
  intros [= ->]. apply list_find_Some in E as (Hl & Hid & _). rewrite Forall_forall in D.
  split_and!; [by eapply D, list_elem_of_lookup_2|done|]. by intros Hn; rewrite Hn in Hl.
Qed.

Lemma inv_data wr av d s :
  upd_inv s -> sound d -> u_downloads s <> [] -> upd_inv (dataArrived wr av d s).
Proof.
  intros Hi Hd Hne. unfold dataArrived, drainAll.
  pose proof (drain_spec (String.length av) (m_expectedSize s) wr av d (le_n _) Hd) as Hsp.
  destruct (drain _ _ _ _ _) as [[] d'].
  - destruct Hsp as (_ & _ & Hbad & _). apply inv_finish; [done|done|].
    intros Hb%Z.eqb_eq Hf. destruct (Hbad eq_refl); [lia|congruence].
  - destruct Hsp as (_ & Hok & _). destruct (Hok eq_refl) as (S' & _).
    destruct Hi as [D S T R]. constructor; cbn.
    + apply Forall_map. eapply Forall_impl; [done|]. intros x Hx. cbn. by destruct (_ =? _)%nat.
    + intros Hdk. by destruct (S Hdk).
    + intros Hdk. destruct (T Hdk) as [?|(_ & ? & _)]; [by left|done].
    + exact R.
Qed.

Lemma inv_reply_finished wr av e st c d s :
  upd_inv s -> sound d -> u_downloads s <> [] -> upd_inv (replyFinished wr av e st c d s).
Proof.
  intros Hi Hd Hne. unfold replyFinished, drainAll.
  pose proof (drain_spec (String.length av) (m_expectedSize s) wr av d (le_n _) Hd) as Hsp.
  destruct (drain _ _ _ _ _) as [ab d']. cbn [snd]. destruct Hsp as (_ & Hok & Hbad & _).
  apply inv_finish; [done|done|]. intros Hb%Z.eqb_eq Hf. destruct ab; [|by destruct (Hok eq_refl)].
  destruct (Hbad eq_refl); [lia|congruence].
Qed.

Lemma inv_update_step e s : upd_inv s -> upd_inv (update_step e s).
Proof.
  intros Hi. destruct e; cbn [update_step].
  - unfold checkForUpdates. destruct (m_updateCheckRunning s); [done|]. apply inv_signal.
    pose proof (inv_running true s Hi) as []. by constructor.
  - by apply inv_start.
  - unfold installUpdate. destruct (negb _); [done|]. destruct (negb _); [done|]. by apply inv_signal.
  - destruct (_ =? _)%nat; [done|]. by apply inv_check.
  - destruct (find_download id s) as [d|] eqn:E; [|done].
    destruct (find_download_sound id d s Hi E) as (? & _ & ?). by apply inv_data.
  - destruct (find_download id s) as [d|] eqn:E; [|done].
    destruct (find_download_sound id d s Hi E) as (? & _ & ?). by apply inv_reply_finished.
Qed.

Lemma update_reachable_inv s : update_reachable s -> upd_inv s.
Proof.
  induction 1; [|by apply inv_update_step].
  constructor; cbn; [constructor|done| |done]. intros _. by right.
Qed.

(** C4: Nothing unverified is ever run: whenever the controller starts an installer, the file it
    starts has exactly the announced size and SHA-256 digest, and the announcement named a
    valid version newer than this one and the branded asset of that version under the
    project's GitHub releases, of at most 850 MB; in every other state it starts nothing.  The
    file is the one the controller committed: no other process changes it in between. *)
Theorem installer_verified s :
  update_reachable s ->
  installUpdate s = s \/
  (installUpdate s = signal_out (RunInstaller (u_installer s)) s /\
   sha256 (u_installer s) = m_expectedSha256 s /\ hash_pattern (m_expectedSha256 s) = true /\
   Z.of_nat (String.length (u_installer s)) = m_expectedSize s /\ (1 <= m_expectedSize s <= 850000000)%Z /\
   validVersion (m_version s) = true /\
   (0 < version_compare (version_of (m_version s)) (version_of APP_VERSION))%Z /\
   u_scheme (m_downloadUrl s) = "https" /\ u_host (m_downloadUrl s) = "github.com" /\
   u_path (m_downloadUrl s) =
     "/VnextDevelopment/tunnelcore-vpn/releases/download/v" +:+ m_version s +:+ "/" +:+
     installerRemoteFileName (m_version s)).
Proof.
  intros [_ _ T R]%update_reachable_inv. unfold installUpdate.
  destruct desktop eqn:Ed; cbn [negb]; [|by left].
  destruct (bool_decide (m_updateState s = ReadyToInstall)) eqn:E; cbn [negb]; [|by left]. bprop. right.
  destruct (R E) as [V1 V2]. destruct (T eq_refl) as [[N I]|(_ & _ & ?)]; [|done].
  unfold notNewer in N. unfold installerRejected in I. bprop. by split_and!.
Qed.

(** The file is not verified again when it is started: had another process replaced it since
    the download, whatever it holds then would be run. *)
Theorem changed_installer_runs s content :
  desktop = true -> m_updateState s = ReadyToInstall ->
  installUpdate (s <| u_installer := content |>) =
  signal_out (RunInstaller content) (s <| u_installer := content |>).
Proof. intros Hd Hr. unfold installUpdate. rewrite Hd. cbn. by rewrite Hr. Qed.

(** An update is announced to the user only for a newer version: a reply that makes the
    controller report one carries a well-formed version greater than the application's own,
    and any other reply leaves version, address, digest and size as they were. *)
Theorem never_downgrades error status body s :
  let s' := checkFinished error status body s in
  (m_version s' = m_version s /\ m_downloadUrl s' = m_downloadUrl s /\
   m_expectedSha256 s' = m_expectedSha256 s /\ m_expectedSize s' = m_expectedSize s) \/
  (validVersion (m_version s') = true /\
   (0 < version_compare (version_of (m_version s')) (version_of APP_VERSION))%Z /\
   m_updateState s' = Idle /\ last (u_out s') = Some updateFound).
Proof.
  cbv zeta. unfold checkFinished. cbv zeta.
  set (s1 := setUpdateCheckRunning false _).
  assert (H1 : m_version s1 = m_version s /\ m_downloadUrl s1 = m_downloadUrl s /\
               m_expectedSha256 s1 = m_expectedSha256 s /\ m_expectedSize s1 = m_expectedSize s)
    by (subst s1; unfold setUpdateCheckRunning; by destruct (Bool.eqb _ _)).
  clearbody s1. destruct (_ || _); [by left|].
  destruct (json_parse body) as [[]|]; try by left.
  destruct (negb _); [left; unfold setUpdateState; by destruct (bool_decide _)|].
  destruct (notNewer _) eqn:En; [by left|].
  destruct (releasePageRejected _ _); [by left|]. destruct (desktop && _); [by left|]. right.
  unfold notNewer in En. bprop. unfold setUpdateState, signal_out.
  destruct (bool_decide _) eqn:Eb; bprop; cbn; rewrite last_snoc; by split_and!.
Qed.

(** The download is streamed without loss: whatever the chunks, as long as every write
    succeeds the bytes that arrive are appended to the file and to the digest unchanged; the
    reply is aborted exactly when they would exceed the announced size. *)
Theorem drain_streams_all size writes available d :
  sound d -> (forall c, writes c = true) -> (d_bytes d <= size)%Z ->
  let '(aborted, d') := drain (String.length available) size writes available d in
  (aborted = false <-> (d_bytes d + Z.of_nat (String.length available) <= size)%Z) /\
  (aborted = false -> d_file d' = d_file d +:+ available /\ d_digest d' = d_digest d +:+ available).
Proof.
  intros Hd Hw Hb.
  pose proof (drain_complete (String.length available) size writes available d (le_n _) Hd Hw) as Hc.
  pose proof (drain_spec (String.length available) size writes available d (le_n _) Hd) as Hs.
  destruct (drain _ _ _ _ _) as [ab d']. cbn in Hc. destruct Hs as (_ & Hok & _ & _). split.
  - split; [|done]. intros ->. destruct (Hok eq_refl) as ([_ B _] & F & Hsz).
    destruct Hd as [_ D2 _]. rewrite D2, <- Nat2Z.inj_add, <- string_length_app, <- F.
    destruct available as [|c available]; [|rewrite <- B; by apply Hsz].
    rewrite F, string_app_nil_r. lia.
  - intros ->. destruct (Hok eq_refl) as ([S1 _ _] & F & _). destruct Hd as [D1 _ _].
    by rewrite S1, F, D1.
Qed.

End Downloads.

(** ** A concrete run *)

Definition sample_digest : string := "0123456789abcdef0123456789abcdef0123456789abcdef0123456789abcdef".

Definition sample_update_world : UpdateWorld := {|
  update_text := json_text_model;
  target := LinuxDesktop;
  APP_VERSION := "1.9.10";
  store_fallback := "";
  android_package := "";
  u_scheme url := if starts_with "https://" url then "https" else "";
  u_host url := if starts_with "https://github.com/" url then "github.com" else "";
  u_path url := String.substring 18 (String.length url) url;
  u_query url := "";
  u_fragment url := "";
  u_isEmpty := str_empty;
  u_string url := url;
  sha256 content := sample_digest
|}.

Definition sample_metadata : obj :=
  oof [("updateAvailable", JBool true); ("updateVersion", JStr "1.10.0");
       ("releasePageUrl", JStr "https://github.com/VnextDevelopment/tunnelcore-vpn/releases/tag/v1.10.0");
       ("downloadUrl", JStr "https://github.com/VnextDevelopment/tunnelcore-vpn/releases/download/v1.10.0/TunnelCoreVPN_1.10.0_linux_x64.run");
       ("sha256", JStr sample_digest); ("downloadSize", JInt 5)].

Definition sample_update_run : list update_event :=
  let _ := sample_update_world in
  [CheckForUpdates; CheckReply false 200 (json_print (JObj sample_metadata)); StartUpdate true;
   Data 0 (fun _ => true) "ELF"; Finished 0 (fun _ => true) "!!" false 200 true].

Definition sample_ready : upd_ctl :=
  let _ := sample_update_world in
  fold_left (fun s e => update_step e s) sample_update_run (UpdateController "").

Lemma sample_ready_reachable : let _ := sample_update_world in update_reachable sample_ready.
Proof. cbv zeta. unfold sample_ready, sample_update_run. cbv zeta. cbn [fold_left]. do 5 apply update_next. apply update_new. Qed.

Lemma installer_verified_witness :
  let W := sample_update_world in
  installUpdate sample_ready = signal_out (RunInstaller "ELF!!") sample_ready /\
  (installUpdate sample_ready = sample_ready \/
   (installUpdate sample_ready = signal_out (RunInstaller (u_installer sample_ready)) sample_ready /\
    sha256 (u_installer sample_ready) = m_expectedSha256 sample_ready /\
    hash_pattern (m_expectedSha256 sample_ready) = true /\
    Z.of_nat (String.length (u_installer sample_ready)) = m_expectedSize sample_ready /\
    (1 <= m_expectedSize sample_ready <= 850000000)%Z /\
    validVersion (m_version sample_ready) = true /\
    (0 < version_compare (version_of (m_version sample_ready)) (version_of APP_VERSION))%Z /\
    u_scheme (m_downloadUrl sample_ready) = "https" /\ u_host (m_downloadUrl sample_ready) = "github.com" /\
    u_path (m_downloadUrl sample_ready) =
      "/VnextDevelopment/tunnelcore-vpn/releases/download/v" +:+ m_version sample_ready +:+ "/" +:+
      installerRemoteFileName (m_version sample_ready))).
Proof.
  intros W. split; [vm_compute; reflexivity|].
  apply installer_verified. exact sample_ready_reachable.
Defined.

Lemma drain_streams_all_witness :
  let W := sample_update_world in
  let '(aborted, d') := drain 3 5 (fun _ => true) "ELF" (mkDownload 0 "" "" 0 false) in
  (aborted = false <-> (0 + 3 <= 5)%Z) /\
  (aborted = false -> d_file d' = "" +:+ "ELF" /\ d_digest d' = "" +:+ "ELF").
Proof.
  intros W. apply (drain_streams_all 5 (fun _ => true) "ELF" (mkDownload 0 "" "" 0 false));
    [by constructor|done|done].
Defined.
