(* ===== verification/InterfaceConfig.v ===== *)
(** * The configuration of a tunnel interface

    [client/daemon/interfaceconfig.{h,cpp}]: what the daemon is told about a tunnel, its JSON
    and the text WireGuard reads on Windows.  Texts of addresses are the library's
    ([QHostAddress]); a [QString] whose being null matters is an option. *)

From S2P Require Import Prelude Json IpAddress Lines.

(** [QHostAddress(const QString &)], [QHostAddress::parseSubnet] and [toString()]. *)
Class HostText := {
  parseAddress : string -> QHostAddress;
  parseSubnet : string -> QHostAddress * Z;
  addressText : QHostAddress -> string
}.

(** A [QString] that may be null; compared with [==] a null one is the empty one. *)
Abbreviation QString := (option string).
Definition qs (s : QString) : string := default "" s.

(** [obj.value(k).toString()]: null unless the value is a string. *)
Definition to_qstring (v : option json) : QString :=
  match v with Some (JStr s) => Some s | _ => None end.

Inductive HopType := SingleHop | MultiHopEntry | MultiHopExit.

#[export] Instance HopType_eq_dec : EqDecision HopType.
Proof. solve_decision. Defined.

(** [QMetaEnum::valueToKey]. *)
Definition hop_key (h : HopType) : string :=
  match h with
  | SingleHop => "SingleHop"
  | MultiHopEntry => "MultiHopEntry"
  | MultiHopExit => "MultiHopExit"
  end.

Record InterfaceConfig := mkConfig {
  m_hopType : HopType;
  m_privateKey : string;
  m_deviceIpv4Address : QString;
  m_deviceIpv6Address : QString;
  m_serverIpv4Gateway : string;
  m_serverIpv6Gateway : string;
  m_serverPublicKey : string;
  m_serverIpv4AddrIn : QString;
  m_serverPskKey : QString;
  m_serverIpv6AddrIn : QString;
  m_primaryDnsServer : string;
  m_secondaryDnsServer : string;
  m_serverPort : Z;
  m_deviceMTU : Z;
  m_persistentKeepalive : string;
  m_allowedIPAddressRanges : list IPAddress;
  m_excludedAddresses : list string;
  m_vpnDisabledApps : list string;
  m_allowedDnsServers : list string;
  m_killSwitchEnabled : bool;
  m_junkPacketCount : string;
  m_junkPacketMinSize : string;
  m_junkPacketMaxSize : string;
  m_initPacketJunkSize : string;
  m_responsePacketJunkSize : string;
  m_cookieReplyPacketJunkSize : string;
  m_transportPacketJunkSize : string;
  m_initPacketMagicHeader : string;
  m_responsePacketMagicHeader : string;
  m_underloadPacketMagicHeader : string;
  m_transportPacketMagicHeader : string;
  m_specialJunk : list (string * string);
  m_headerProtectionKey : string;
  m_contentPaddingAddition : string;
  m_rekeyAfterTime : string;
  m_rekeyTimeout : string;
  m_rejectAfterTime : string;
  m_keepaliveTimeout : string;
  m_maxHandshakeAttempts : string;
  m_randomTrailers : string;
  m_disableCookies : string
}.

(** ** JSON *)

Section Text.
Context `{HostText}.

(** [IPAddress::toString]. *)
Definition ip_text (ip : IPAddress) : string :=
  addressText (m_address ip) +:+ "/" +:+ pretty (m_prefixLength ip).

Definition range_json (i : IPAddress) : json :=
  JObj (oof [("address", JStr (addressText (m_address i)));
             ("range", JInt (m_prefixLength i));
             ("isIpv6", JBool (bool_decide (type i = IPv6Protocol)))]).

Definition resolves_names (h : HopType) : bool :=
  bool_decide (h = MultiHopExit) || bool_decide (h = SingleHop).

Definition toJson (c : InterfaceConfig) : obj :=
  let json := oof [("hopType", JStr (hop_key (m_hopType c)));
                   ("privateKey", JStr (m_privateKey c));
                   ("deviceIpv4Address", JStr (qs (m_deviceIpv4Address c)));
                   ("deviceIpv6Address", JStr (qs (m_deviceIpv6Address c)));
                   ("serverPublicKey", JStr (m_serverPublicKey c));
                   ("serverPskKey", JStr (qs (m_serverPskKey c)));
                   ("serverIpv4AddrIn", JStr (qs (m_serverIpv4AddrIn c)));
                   ("serverIpv6AddrIn", JStr (qs (m_serverIpv6AddrIn c)));
                   ("serverPort", JInt (m_serverPort c));
                   ("deviceMTU", JInt (m_deviceMTU c))] in
  let json := if str_empty (m_persistentKeepalive c) then json
              else oset "persistentKeepalive" (JStr (m_persistentKeepalive c)) json in
  let json :=
    if resolves_names (m_hopType c) then
      oset "secondaryDnsServer" (JStr (m_secondaryDnsServer c))
        (oset "primaryDnsServer" (JStr (m_primaryDnsServer c))
          (oset "serverIpv6Gateway" (JStr (m_serverIpv6Gateway c))
            (oset "serverIpv4Gateway" (JStr (m_serverIpv4Gateway c)) json)))
    else json in
  let json := oset "allowedIPAddressRanges"
                (JArr (map range_json (m_allowedIPAddressRanges c))) json in
  let json := oset "excludedAddresses" (JArr (map JStr (m_excludedAddresses c))) json in
  let json := oset "allowedDnsServers" (JArr (map JStr (m_allowedDnsServers c))) json in
  oset "vpnDisabledApps" (JArr (map JStr (m_vpnDisabledApps c))) json.

(** ** The text of a tunnel *)

(** [QStringList::join(", ")]. *)
Fixpoint comma_join (l : list string) : string :=
  match l with
  | [] => ""
  | [x] => x
  | x :: r => x +:+ ", " +:+ comma_join r
  end.

Definition setting (key value : string) : string := key +:+ " = " +:+ value.

(** A line written only when the value is not empty. *)
Definition opt_line (key value : string) : list string :=
  if str_empty value then [] else [setting key value].

(** The macro [VALIDATE]: a value that would end its line makes the whole text empty. *)
Definition validated (c : InterfaceConfig) : bool :=
  forallb one_line
    [m_privateKey c; qs (m_deviceIpv4Address c); qs (m_deviceIpv6Address c);
     m_serverIpv4Gateway c; m_serverIpv6Gateway c; m_serverPublicKey c;
     qs (m_serverIpv4AddrIn c); qs (m_serverIpv6AddrIn c)].

Definition addresses (c : InterfaceConfig) : list string :=
  omap id [m_deviceIpv4Address c; m_deviceIpv6Address c].

Definition dnsServers (c : InterfaceConfig) : list string :=
  [m_primaryDnsServer c]
  ++ (if str_empty (m_secondaryDnsServer c) then [] else [m_secondaryDnsServer c])
  ++ (if String.eqb (m_primaryDnsServer c) (m_serverIpv4Gateway c)
      then [m_serverIpv6Gateway c] else []).

(** The parameters of AmneziaWG in the order they are written; [m_specialJunk] is a [QMap]. *)
Definition parameters (c : InterfaceConfig) : list (string * string) :=
  [("Jc", m_junkPacketCount c); ("JMin", m_junkPacketMinSize c);
    ("JMax", m_junkPacketMaxSize c); ("S1", m_initPacketJunkSize c);
    ("S2", m_responsePacketJunkSize c); ("S3", m_cookieReplyPacketJunkSize c);
    ("S4", m_transportPacketJunkSize c); ("H1", m_initPacketMagicHeader c);
    ("H2", m_responsePacketMagicHeader c); ("H3", m_underloadPacketMagicHeader c);
    ("H4", m_transportPacketMagicHeader c)]
  ++ m_specialJunk c
  ++ [("HeaderProtectionKey", m_headerProtectionKey c);
    ("ContentPaddingAddition", m_contentPaddingAddition c);
    ("RekeyAfterTime", m_rekeyAfterTime c); ("RekeyTimeout", m_rekeyTimeout c);
    ("RejectAfterTime", m_rejectAfterTime c); ("KeepaliveTimeout", m_keepaliveTimeout c);
    ("MaxHandshakeAttempts", m_maxHandshakeAttempts c); ("RandomTrailers", m_randomTrailers c);
    ("DisableCookies", m_disableCookies c)].

(** The section [Interface]. *)
Definition interface_lines (extra : list (string * string)) (c : InterfaceConfig) : list string :=
  ["[Interface]"; setting "PrivateKey" (m_privateKey c);
   setting "Address" (comma_join (addresses c))]
  ++ (if (m_deviceMTU c =? 0)%Z then [] else [setting "MTU" (pretty (m_deviceMTU c))])
  ++ (if str_empty (m_primaryDnsServer c) then []
      else [setting "DNS" (comma_join (dnsServers c))])
  ++ concat (map (fun kv => opt_line kv.1 kv.2) (parameters c))
  ++ map (fun kv => setting kv.1 kv.2) extra.

(** The section [Peer], after an empty line. *)
Definition peer_lines (c : InterfaceConfig) : list string :=
  [""; "[Peer]"; setting "PublicKey" (m_serverPublicKey c);
   setting "Endpoint" (qs (m_serverIpv4AddrIn c) +:+ ":" +:+ pretty (m_serverPort c));
   setting "AllowedIPs" (comma_join (map ip_text (m_allowedIPAddressRanges c)))]
  ++ opt_line "PersistentKeepalive" (m_persistentKeepalive c).

(** [toWgConf]; [QMap]s are lists in the order of their keys. *)
Definition toWgConf (extra : list (string * string)) (c : InterfaceConfig) : string :=
  if negb (validated c) then ""
  else match addresses c with
       | [] => ""
       | _ => unlines (interface_lines extra c ++ peer_lines c)
       end.
End Text.

(** [awgBoolToUapi]. *)
Definition awgBoolToUapi (value : string) : string :=
  let v := to_lower (trimmed value) in
  if String.eqb v "on" || String.eqb v "1" || String.eqb v "true" || String.eqb v "t"
     || String.eqb v "yes" then "1" else "0".
