(* ===== verification/InterfaceConfigFacts.v ===== *)
(** * The configuration of a tunnel interface: theorems

    The text [toWgConf] writes is read line by line: its lines are exactly the settings of the
    configuration when no value holds a line feed.  [VALIDATE] makes sure of it for eight of the
    values only. *)

From S2P Require Import Prelude Json IpAddress Lines InterfaceConfig.

(** The lines WireGuard reads of a text. *)
Definition lines_of (s : string) : list string := (cut_all s).1.

Lemma cut_closed l : (cut_all (l +:+ nl)).2 = "".
Proof.
  rewrite cut_all_app. cbn [snd]. destruct (cut_all_spec l) as (_ & Hl & _).
  rewrite cut_all_line with (l := (cut_all l).2) (r := ""); [done|].
  rewrite <- (string_app_nil_r nl). by apply take_line_app.
Qed.

(** A line of the writer may be several of the reader. *)
Lemma lines_of_unlines ls :
  cut_all (unlines ls) = (concat (map (fun l => lines_of (l +:+ nl)) ls), "").
Proof.
  induction ls as [|l ls IH]; [done|]. cbn [unlines map concat].
  rewrite <- string_app_assoc, cut_all_app, cut_closed. change ("" +:+ ?x) with x. by rewrite IH.
Qed.

(** A value with a line feed gives a line of its own to what follows it. *)
Lemma value_gives_line key x y ls :
  one_line y = true -> setting key (x +:+ nl +:+ y) ∈ ls -> y ∈ lines_of (unlines ls).
Proof.
  intros Hy Hin. unfold lines_of. rewrite lines_of_unlines. cbn [fst].
  apply list_elem_of_In, in_concat. eexists. split.
  { apply in_map. by apply list_elem_of_In. }
  apply list_elem_of_In. unfold lines_of, setting.
  replace ((key +:+ " = " +:+ x +:+ nl +:+ y) +:+ nl)
    with (((key +:+ " = " +:+ x) +:+ nl) +:+ y +:+ nl) by (by rewrite !string_app_assoc).
  rewrite cut_all_app. cbn [fst].
  rewrite cut_closed. change ("" +:+ ?t) with t. apply elem_of_app. right.
  rewrite (cut_all_line (y +:+ nl) y "").
  - apply list_elem_of_here.
  - rewrite <- (string_app_nil_r nl). by apply take_line_app.
Qed.

Lemma one_line_pretty (z : Z) : one_line (pretty z) = true.
Proof.
  assert (Hgo : forall n s, one_line s = true -> one_line (pretty_N_go n s) = true).
  { intros n. induction (N.lt_wf_0 n) as [n _ IH]. intros s Hs.
    destruct (decide (0 < n)%N) as [Hn|Hn].
    - rewrite pretty_N_go_step by done. apply IH; [by apply N.div_lt|].
      unfold one_line in *. cbn [str_has]. rewrite negb_orb, Hs. 
      unfold pretty_N_char. by repeat case_match.
    - replace n with 0%N by lia. by rewrite pretty_N_go_0. }
  assert (HN : forall n : N, one_line (pretty n) = true).
  { intros n. unfold pretty, pretty_N. case_decide; [done|]. by apply Hgo. }
  destruct z as [|p|p]; [done|apply (HN (Npos p))|].
  exact (HN (Npos p)).
Qed.

Lemma one_line_comma l : forallb one_line l = true -> one_line (comma_join l) = true.
Proof.
  induction l as [|x [|y l] IH]; [done|by cbn; rewrite andb_true_r|].
  change (one_line x && forallb one_line (y :: l) = true ->
          one_line (x +:+ ", " +:+ comma_join (y :: l)) = true).
  intros [Hx Hl]%andb_true_iff. by rewrite !one_line_app, Hx, IH.
Qed.

Lemma concat_map_singleton {A B} (f : A -> B) l : concat (map (fun x => [f x]) l) = map f l.
Proof. induction l as [|x l IH]; cbn; [done|]. by rewrite IH. Qed.

Section Text.
Context `{HostText}.

(** The values that are written but not validated. *)
Definition unvalidated (extra : list (string * string)) (c : InterfaceConfig) : list string :=
  [m_primaryDnsServer c; m_secondaryDnsServer c; m_persistentKeepalive c]
  ++ map fst (parameters c) ++ map snd (parameters c) ++ map fst extra ++ map snd extra.

Lemma one_line_setting k v : one_line k = true -> one_line v = true -> one_line (setting k v) = true.
Proof. intros Hk Hv. unfold setting. by rewrite !one_line_app, Hk, Hv. Qed.

Lemma one_line_opt k v :
  one_line k = true -> one_line v = true -> Forall (fun l => one_line l = true) (opt_line k v).
Proof.
  intros Hk Hv. unfold opt_line. destruct (str_empty v); [constructor|].
  apply Forall_singleton. by apply one_line_setting.
Qed.

Lemma one_line_all l : forallb one_line l = true <-> Forall (fun s => one_line s = true) l.
Proof. rewrite forallb_forall, List.Forall_forall. done. Qed.

Lemma one_line_settings (f : string -> string -> list string) (l : list (string * string)) :
  (forall k v, one_line k = true -> one_line v = true -> Forall (fun s => one_line s = true) (f k v)) ->
  forallb one_line (map fst l) = true -> forallb one_line (map snd l) = true ->
  Forall (fun s => one_line s = true) (concat (map (fun kv => f kv.1 kv.2) l)).
Proof.
  intros Hf. induction l as [|[k v] l IH]; cbn; [constructor|]. rewrite !andb_true_iff.
  intros [Hk Hks] [Hv Hvs]. apply Forall_app. auto.
Qed.

Lemma validated_lines c : validated c = true ->
  Forall (fun s => one_line s = true)
    [m_privateKey c; qs (m_deviceIpv4Address c); qs (m_deviceIpv6Address c);
     m_serverIpv4Gateway c; m_serverIpv6Gateway c; m_serverPublicKey c;
     qs (m_serverIpv4AddrIn c); qs (m_serverIpv6AddrIn c)].
Proof. apply one_line_all. Qed.

Lemma one_line_addresses c : validated c = true -> forallb one_line (addresses c) = true.
Proof.
  intros Hc%validated_lines. rewrite !Forall_cons in Hc. destruct Hc as (_ & H4 & H6 & _).
  unfold addresses. destruct (m_deviceIpv4Address c), (m_deviceIpv6Address c); cbn in *;
    by rewrite ?H4, ?H6.
Qed.

Lemma one_line_dns extra c :
  validated c = true -> forallb one_line (unvalidated extra c) = true ->
  forallb one_line (dnsServers c) = true.
Proof.
  intros Hc%validated_lines Hu. rewrite !Forall_cons in Hc.
  destruct Hc as (_ & _ & _ & _ & Hg & _).
  unfold unvalidated in Hu. cbn [app forallb] in Hu. rewrite !andb_true_iff in Hu.
  destruct Hu as (Hp & Hs & _). unfold dnsServers. rewrite !forallb_app. cbn [forallb].
  rewrite Hp. by destruct (str_empty _), (String.eqb _ _); cbn; rewrite ?Hs, ?Hg.
Qed.

Lemma one_line_ranges l :
  (forall a, one_line (addressText a) = true) -> forallb one_line (map ip_text l) = true.
Proof.
  intros Ht. induction l as [|ip l IH]; [done|]. cbn [map forallb]. rewrite IH. unfold ip_text.
  by rewrite !one_line_app, Ht, one_line_pretty.
Qed.

Lemma one_line_interface extra c :
  validated c = true -> forallb one_line (unvalidated extra c) = true ->
  Forall (fun l => one_line l = true) (interface_lines extra c).
Proof.
  intros Hc Hu. pose proof (one_line_addresses c Hc) as Ha. pose proof (one_line_dns extra c Hc Hu) as Hd.
  apply validated_lines in Hc. rewrite !Forall_cons in Hc. destruct Hc as (Hk & _).
  unfold unvalidated in Hu. rewrite !forallb_app, !andb_true_iff in Hu.
  destruct Hu as (_ & H1 & H2 & H3 & H4).
  unfold interface_lines. rewrite !Forall_app. split_and!.
  - repeat constructor; apply one_line_setting; try done. by apply one_line_comma.
  - destruct (m_deviceMTU c =? 0)%Z; [constructor|]. apply Forall_singleton, one_line_setting;
      [done|apply one_line_pretty].
  - destruct (str_empty _); [constructor|]. apply Forall_singleton, one_line_setting; [done|].
    by apply one_line_comma.
  - apply (one_line_settings opt_line); [apply one_line_opt|done|done].
  - rewrite <- (concat_map_singleton (fun kv => setting kv.1 kv.2) extra).
    apply (one_line_settings (fun k v => [setting k v])); [|done|done].
    intros k v Hk' Hv. apply Forall_singleton. by apply one_line_setting.
Qed.

Lemma one_line_peer extra c :
  (forall a, one_line (addressText a) = true) ->
  validated c = true -> forallb one_line (unvalidated extra c) = true ->
  Forall (fun l => one_line l = true) (peer_lines c).
Proof.
  intros Ht Hc%validated_lines Hu. rewrite !Forall_cons in Hc.
  destruct Hc as (_ & _ & _ & _ & _ & Hp & He & _).
  unfold unvalidated in Hu. cbn [app forallb] in Hu. rewrite !andb_true_iff in Hu.
  destruct Hu as (_ & _ & Hk & _).
  unfold peer_lines. apply Forall_app_2; [|by apply one_line_opt].
  repeat constructor; apply one_line_setting; try done.
  - by rewrite !one_line_app, He, one_line_pretty.
  - by apply one_line_comma, one_line_ranges.
Qed.

(** the text of a tunnel says what the configuration says.  When no value that is written
    holds a line feed, the lines WireGuard reads of [toWgConf] are exactly the settings of the
    interface and of the peer, in order; when one of the eight validated values holds one, or
    there is no device address, the text is empty. *)
Theorem wg_conf_lines extra c :
  (forall a, one_line (addressText a) = true) ->
  forallb one_line (unvalidated extra c) = true ->
  cut_all (toWgConf extra c) =
    (if validated c && negb (bool_decide (addresses c = []))
     then interface_lines extra c ++ peer_lines c else [], "").
Proof.
  intros Ht Hu. unfold toWgConf. destruct (validated c) eqn:Hc; [|done]. cbn [negb andb].
  destruct (addresses c) eqn:Ea; [done|]. rewrite bool_decide_false by done. cbn [negb].
  rewrite <- (string_app_nil_r (unlines _)), cut_all_unlines.
  - change (cut_all "") with (@nil string, ""). cbn [fst snd]. by rewrite app_nil_r.
  - apply Forall_app_2; [by apply one_line_interface|by eapply one_line_peer].
Qed.

(** a parameter can add settings.  [VALIDATE] does not cover the parameters of AmneziaWG (nor
    the DNS servers): what follows a line feed in one of them is read as a setting of its own. *)
Theorem wg_conf_injection extra c key x y :
  validated c = true -> addresses c <> [] -> one_line y = true ->
  (key, x +:+ nl +:+ y) ∈ parameters c ->
  y ∈ lines_of (toWgConf extra c).
Proof.
  intros Hc Ha Hy Hin. unfold toWgConf. rewrite Hc. cbn [negb].
  destruct (addresses c) eqn:Ea; [done|]. apply (value_gives_line key x y); [done|].
  apply elem_of_app. left. unfold interface_lines. rewrite !elem_of_app. do 3 right. left.
  apply list_elem_of_In, in_concat. exists (opt_line key (x +:+ nl +:+ y)). split.
  - apply list_elem_of_In in Hin. exact (in_map (fun kv => opt_line kv.1 kv.2) _ _ Hin).
  - unfold opt_line. destruct (str_empty (x +:+ nl +:+ y)) eqn:E; [|by left].
    apply str_empty_true in E. by destruct x.
Qed.
End Text.

(** ** The theorems at work *)

Definition sample_text : HostText :=
  {| parseAddress _ := NullAddress; parseSubnet _ := (NullAddress, -1)%Z;
     addressText _ := "0.0.0.0" |}.

(** A tunnel of everything, with the given number of junk packets. *)
Definition sample_interface (junk : string) : InterfaceConfig :=
  mkConfig SingleHop "private" (Some "10.8.1.2/32") None "192.0.2.1" "" "peer" (Some "192.0.2.1")
    (Some "") None "1.1.1.1" "1.0.0.1" 51820 1376 "25" [mkIP (V4 0) 0] [] [] [] false
    junk "" "" "" "" "" "" "1-5" "" "" "" [("I1", "<b 0x01>")] "" "" "" "" "" "" "" "" "".

Lemma wg_conf_lines_witness :
  cut_all (@toWgConf sample_text [] (sample_interface "4")) =
  (["[Interface]"; "PrivateKey = private"; "Address = 10.8.1.2/32"; "MTU = 1376";
    "DNS = 1.1.1.1, 1.0.0.1"; "Jc = 4"; "H1 = 1-5"; "I1 = <b 0x01>"; ""; "[Peer]";
    "PublicKey = peer"; "Endpoint = 192.0.2.1:51820"; "AllowedIPs = 0.0.0.0/0";
    "PersistentKeepalive = 25"], "").
Proof.
  rewrite (@wg_conf_lines sample_text [] (sample_interface "4") (fun _ => eq_refl) eq_refl).
  vm_compute. reflexivity.
Defined.

Lemma wg_conf_injection_witness :
  "PreUp = command" ∈
    lines_of (@toWgConf sample_text [] (sample_interface ("4" +:+ nl +:+ "PreUp = command"))).
Proof.
  apply (@wg_conf_injection sample_text [] _ "Jc" "4" "PreUp = command"); try done.
  apply list_elem_of_here.
Defined.
