(* ===== verification/Daemon.v ===== *)
(** * The daemon

    [client/daemon/daemon.{h,cpp}] runs with the rights of the system and brings tunnels up,
    switches them and takes them down, through the platform's [WireguardUtils], [IPUtils] and
    [DnsUtils].  These are interfaces (pure virtual classes), so their answers are the
    outside: every call is recorded with its answer, and an answer may depend on everything
    that happened before.  Signals are recorded in the same history.  A scope guard runs its
    clean-up exactly when the function it guards returns [false].  Logging is left out. *)

From S2P Require Import Prelude Json IpAddress Lines InterfaceConfig.
From stdpp Require Import sorting.

(** ** The outside *)

Inductive Op := Up | Down | Switch.

(** [WireguardUtils::PeerStatus]. *)
Record PeerStatus := mkPeer {
  m_pubkey : string; m_handshake : Z; m_rxBytes : Z; m_txBytes : Z }.

Inductive call :=
  | InterfaceExists
  | AddInterface (c : InterfaceConfig)
  | DeleteInterface
  | UpdatePeer (c : InterfaceConfig)
  | DeletePeer (c : InterfaceConfig)
  | UpdateRoutePrefix (ip : IPAddress)
  | DeleteRoutePrefix (ip : IPAddress)
  | AddExclusionRoute (ip : IPAddress)
  | AddExclusionRoutes (ips : list IPAddress)
  | DeleteExclusionRoute (ip : IPAddress)
  | AddInterfaceIPs (c : InterfaceConfig)
  | SetMTUAndUp (c : InterfaceConfig)
  | UpdateResolvers (ifname : string) (resolvers : list QHostAddress)
  | RestoreResolvers
  | PrepareActivation (c : InterfaceConfig)
  | Run (op : Op) (c : InterfaceConfig).

Inductive signal :=
  | connected (pubkey : string)
  | activationFailure
  | disconnected.

Inductive event := Called (c : call) (answer : bool) | Emitted (sg : signal).

#[export] Instance QHostAddress_countable : Countable QHostAddress.
Proof.
  refine (inj_countable'
    (fun a => match a with NullAddress => inl tt | V4 a => inr (inl a) | V6 c => inr (inr c) end)
    (fun x => match x with inl _ => NullAddress | inr (inl a) => V4 a | inr (inr c) => V6 c end) _).
  by intros [].
Defined.

#[export] Instance IPAddress_countable : Countable IPAddress.
Proof.
  refine (inj_countable' (fun ip => (m_address ip, m_prefixLength ip)) (fun x => mkIP x.1 x.2) _).
  by intros [].
Defined.

(** Decreasing prefix length: the order [parseConfig] sorts by. *)
Definition longer_first (a b : IPAddress) : Prop := (m_prefixLength b <= m_prefixLength a)%Z.

(** What differs between platforms, what the library decides ([std::sort] leaves equal
    elements in any order, [QHash] iterates in any order) and the answers of the system. *)
Class Platform := {
  platform_text :: HostText;
  q_os_windows : bool;
  supportIPUtils : bool;
  batchedExclusions : bool;      (* WireguardUtils::addExclusionRoutes is overridden *)
  interfaceName : string;
  dateText : option Z -> string;                 (* QDateTime::toString(), None is invalid *)
  keyToValue : string -> option HopType;         (* QMetaEnum::keyToValue *)
  keyToValue_key : forall h, keyToValue (hop_key h) = Some h;
  std_sort : list IPAddress -> list IPAddress;   (* by decreasing prefix length *)
  std_sort_perm : forall l, std_sort l ≡ₚ l;
  std_sort_sorted : forall l, Sorted longer_first (std_sort l);
  hash_order : gmap IPAddress Z -> list (IPAddress * Z);
  hash_order_perm : forall m, hash_order m ≡ₚ map_to_list m;
  answer : list event -> call -> bool;
  peerStatus : list event -> list PeerStatus
}.

(** ** Parsing a configuration *)

Section Parse.
Context `{Platform}.

Definition is_string (v : option json) : bool :=
  match v with Some (JStr _) => true | _ => false end.

Definition is_double (v : option json) : bool :=
  match v with Some (JInt _) | Some (JReal _ _) => true | _ => false end.

(** [int] from a [double]: truncated; what x86 gives when it does not fit. *)
Definition double_to_int (v : option json) : Z :=
  let z := to_qint64 v in if in_int32 z then z else int32_min.

(** [QString::toInt()]: 0 when the text is not an [int]. *)
Definition str_to_int (s : string) : Z :=
  match to_long_long s with Some z => if in_int32 z then z else 0%Z | None => 0%Z end.

(** [QVariant(QString).toBool()]. *)
Definition variant_bool (s : string) : bool :=
  let l := to_lower s in
  negb (str_empty l || String.eqb l "0" || String.eqb l "false").

(** The elements of an array that are all strings. *)
Fixpoint strings_of (l : list json) : option (list string) :=
  match l with
  | [] => Some []
  | JStr s :: r => match strings_of r with Some t => Some (s :: t) | None => None end
  | _ => None
  end.

(** [parseStringList] on an empty list; [None] is the return value [false]. *)
Definition parseStringList (obj : obj) (name : string) : option (list string) :=
  match ofind name obj with
  | None => Some []
  | Some (JArr array) => strings_of array
  | Some _ => None
  end.

(** One element of [allowedIPAddressRanges]. *)
Definition parse_range (i : json) : option IPAddress :=
  match i with
  | JObj ipObj =>
      if negb (is_string (ofind "address" ipObj)) then None
      else if negb (is_double (ofind "range" ipObj)) then None
      else if negb (is_bool (ofind "isIpv6" ipObj)) then None
      else Some (mkIP (parseAddress (to_string (ofind "address" ipObj)))
                      (to_int 0 (ofind "range" ipObj)))
  | _ => None
  end.

Fixpoint parse_ranges (l : list json) : option (list IPAddress) :=
  match l with
  | [] => Some []
  | i :: r =>
      match parse_range i with
      | Some ip => match parse_ranges r with Some t => Some (ip :: t) | None => None end
      | None => None
      end
  end.

(** A string that may be missing but not be of another type; [None] is the return
    value [false]. *)
Definition optional_string (obj : obj) (name : string) : option string :=
  match ofind name obj with
  | None => Some ""
  | Some (JStr s) => Some s
  | Some _ => None
  end.

Definition parse_mtu (obj : obj) : Z :=
  let mtu := str_to_int (to_string (ofind "deviceMTU" obj)) in
  if negb (ocontains "deviceMTU" obj) || (mtu =? 0)%Z then 1420%Z
  else if q_os_windows && (mtu <? 1280)%Z then 1280%Z else mtu.

Definition parse_hop (obj : obj) : option HopType :=
  match ofind "hopType" obj with
  | None => Some SingleHop
  | Some (JStr s) => keyToValue s
  | Some _ => None
  end.

(** The entries [I1] to [I5] that are defined. *)
Definition special_junk (obj : obj) : list (string * string) :=
  omap (fun k => match ofind k obj with Some v => Some (k, to_string (Some v)) | None => None end)
    ["I1"; "I2"; "I3"; "I4"; "I5"].

(** [parseConfig]; [None] is the return value [false]. *)
Definition parseConfig (obj : obj) : option InterfaceConfig :=
  if negb (is_string (ofind "privateKey" obj)) then None
  else if negb (is_string (ofind "serverPublicKey" obj)) then None
  else if negb (is_double (ofind "serverPort" obj)) then None
  else
    let v4 := to_qstring (ofind "deviceIpv4Address" obj) in
    let v6 := to_qstring (ofind "deviceIpv6Address" obj) in
    let in4 := to_qstring (ofind "serverIpv4AddrIn" obj) in
    let in6 := to_qstring (ofind "serverIpv6AddrIn" obj) in
    match v4, v6, in4, in6 with
    | None, None, _, _ => None
    | _, _, None, None => None
    | _, _, _, _ =>
        primaryDnsServer ← optional_string obj "primaryDnsServer";
        secondaryDnsServer ← optional_string obj "secondaryDnsServer";
        hopType ← parse_hop obj;
        array ← (match ofind "allowedIPAddressRanges" obj with
                 | Some (JArr array) => Some array
                 | _ => None
                 end);
        ranges ← parse_ranges array;
        excludedAddresses ← parseStringList obj "excludedAddresses";
        vpnDisabledApps ← parseStringList obj "vpnDisabledApps";
        allowedDnsServers ← parseStringList obj "allowedDnsServers";
        Some {| m_hopType := hopType;
                m_privateKey := to_string (ofind "privateKey" obj);
                m_deviceIpv4Address := v4;
                m_deviceIpv6Address := v6;
                m_serverIpv4Gateway := to_string (ofind "serverIpv4Gateway" obj);
                m_serverIpv6Gateway := to_string (ofind "serverIpv6Gateway" obj);
                m_serverPublicKey := to_string (ofind "serverPublicKey" obj);
                m_serverIpv4AddrIn := in4;
                m_serverPskKey := to_qstring (ofind "serverPskKey" obj);
                m_serverIpv6AddrIn := in6;
                m_primaryDnsServer := primaryDnsServer;
                m_secondaryDnsServer := secondaryDnsServer;
                m_serverPort := double_to_int (ofind "serverPort" obj);
                m_deviceMTU := parse_mtu obj;
                m_persistentKeepalive := to_string (ofind "persistentKeepalive" obj);
                m_allowedIPAddressRanges := std_sort ranges;
                m_excludedAddresses := excludedAddresses;
                m_vpnDisabledApps := vpnDisabledApps;
                m_allowedDnsServers := allowedDnsServers;
                m_killSwitchEnabled := variant_bool (to_string (ofind "killSwitchOption" obj));
                m_junkPacketCount := to_string (ofind "Jc" obj);
                m_junkPacketMinSize := to_string (ofind "Jmin" obj);
                m_junkPacketMaxSize := to_string (ofind "Jmax" obj);
                m_initPacketJunkSize := to_string (ofind "S1" obj);
                m_responsePacketJunkSize := to_string (ofind "S2" obj);
                m_cookieReplyPacketJunkSize := to_string (ofind "S3" obj);
                m_transportPacketJunkSize := to_string (ofind "S4" obj);
                m_initPacketMagicHeader := to_string (ofind "H1" obj);
                m_responsePacketMagicHeader := to_string (ofind "H2" obj);
                m_underloadPacketMagicHeader := to_string (ofind "H3" obj);
                m_transportPacketMagicHeader := to_string (ofind "H4" obj);
                m_specialJunk := special_junk obj;
                m_headerProtectionKey := to_string (ofind "HeaderProtectionKey" obj);
                m_contentPaddingAddition := to_string (ofind "ContentPaddingAddition" obj);
                m_rekeyAfterTime := to_string (ofind "RekeyAfterTime" obj);
                m_rekeyTimeout := to_string (ofind "RekeyTimeout" obj);
                m_rejectAfterTime := to_string (ofind "RejectAfterTime" obj);
                m_keepaliveTimeout := to_string (ofind "KeepaliveTimeout" obj);
                m_maxHandshakeAttempts := to_string (ofind "MaxHandshakeAttempts" obj);
                m_randomTrailers := to_string (ofind "RandomTrailers" obj);
                m_disableCookies := to_string (ofind "DisableCookies" obj) |}
    end.
End Parse.

(** ** State *)

(** [m_date] is [None] while it is not valid. *)
Record ConnectionState := mkConnection { m_date : option Z; m_config : InterfaceConfig }.

Record daemon := mkDaemon {
  m_connections : list (HopType * ConnectionState);   (* QMap, in the order of the keys *)
  m_excludedAddrSet : gmap IPAddress Z;
  m_handshakeTimer : bool;
  d_history : list event
}.

#[export] Instance eta_daemon : Eta daemon := fun s =>
  mkDaemon (m_connections s) (m_excludedAddrSet s) (m_handshakeTimer s) (d_history s).

Definition new_daemon : daemon := mkDaemon [] ∅ false [].

Definition hop_index (h : HopType) : nat :=
  match h with SingleHop => 0 | MultiHopEntry => 1 | MultiHopExit => 2 end.

(** [QMap::value] and [QMap::insert]. *)
Fixpoint qfind (h : HopType) (m : list (HopType * ConnectionState)) : option ConnectionState :=
  match m with
  | [] => None
  | (k, v) :: r => if bool_decide (h = k) then Some v else qfind h r
  end.

Fixpoint qset (h : HopType) (v : ConnectionState) (m : list (HopType * ConnectionState)) :=
  match m with
  | [] => [(h, v)]
  | (k, w) :: r =>
      if bool_decide (h = k) then (h, v) :: r
      else if (hop_index h <? hop_index k)%nat then (h, v) :: (k, w) :: r
      else (k, w) :: qset h v r
  end.

(** ** Effects *)

Definition act (A : Type) : Type := daemon -> A * daemon.

#[export] Instance act_ret : MRet act := fun A a s => (a, s).
#[export] Instance act_bind : MBind act := fun A B f m s => let '(a, s') := m s in f a s'.

Definition modify (f : daemon -> daemon) : act unit := fun s => (tt, f s).
Definition gets {A} (f : daemon -> A) : act A := fun s => (f s, s).
Definition emit (sg : signal) : act unit :=
  modify (fun s => s <| d_history := d_history s ++ [Emitted sg] |>).

(** [if (!m) return false; k] *)
Definition require (m : act bool) (k : act bool) : act bool :=
  ok ← m; if (ok : bool) then k else mret false.
Notation "'need' m ;; k" := (require m k) (at level 100, m at next level, right associativity)
  : tunnel_scope.

(** A scope guard that is dismissed where [body] returns [true]. *)
Definition guarded (cleanup : act unit) (body : act bool) : act bool :=
  r ← body; if (r : bool) then mret true else cleanup ;; mret false.

(** A loop that ignores results, and one that returns [false] at the first failure. *)
Fixpoint each {A B} (f : A -> act B) (l : list A) : act unit :=
  match l with [] => mret tt | x :: r => f x ;; each f r end.

Fixpoint all_of {A} (f : A -> act bool) (l : list A) : act bool :=
  match l with [] => mret true | x :: r => require (f x) (all_of f r) end.

Section Daemon.
Context `{Platform}.

Definition ask (c : call) : act bool := fun s =>
  let b := answer (d_history s) c in (b, s <| d_history := d_history s ++ [Called c b] |>).

(** ** Exclusion routes *)

(** [IPAddress(const QString &)]. *)
Definition excluded_prefix (address : string) : IPAddress :=
  IPAddress_fromString parseAddress parseSubnet address.

(** [WireguardUtils::addExclusionRoutes]: the loop of the base class, which takes back what
    it added when a route fails, or the platform's own. *)
Fixpoint add_each (addedPrefixes prefixes : list IPAddress) : act bool :=
  match prefixes with
  | [] => mret true
  | prefix :: rest =>
      ok ← ask (AddExclusionRoute prefix);
      if (ok : bool) then add_each (addedPrefixes ++ [prefix]) rest
      else each (fun p => ask (DeleteExclusionRoute p)) addedPrefixes ;; mret false
  end.

Definition wgutils_addExclusionRoutes (prefixes : list IPAddress) : act bool :=
  if batchedExclusions then ask (AddExclusionRoutes prefixes) else add_each [] prefixes.

(** [m[k] += n] on a hash whose missing values are 0. *)
Definition hash_add (k : IPAddress) (n : Z) (m : gmap IPAddress Z) : gmap IPAddress Z :=
  <[k := (default 0 (m !! k) + n)%Z]> m.

(** The requested prefixes with their multiplicity. *)
Definition requested (addresses : list string) : gmap IPAddress Z :=
  fold_left (fun m a => hash_add (excluded_prefix a) 1 m) addresses ∅.

Definition addExclusionRoutes (addresses : list string) : act bool :=
  let requestedPrefixes := hash_order (requested addresses) in
  present ← gets m_excludedAddrSet;
  let newPrefixes := filter (fun ip => present !! ip = None) (map fst requestedPrefixes) in
  need wgutils_addExclusionRoutes newPrefixes ;;
  modify (fun s => s <| m_excludedAddrSet :=
    fold_left (fun m '(k, n) => hash_add k n m) requestedPrefixes (m_excludedAddrSet s) |>) ;;
  mret true.

(** [addExclusionRoute], the single-prefix variant. *)
Definition addExclusionRoute (prefix : IPAddress) : act bool :=
  set ← gets m_excludedAddrSet;
  match set !! prefix with
  | Some n => modify (fun s => s <| m_excludedAddrSet := <[prefix := (n + 1)%Z]> set |>) ;; mret true
  | None =>
      need ask (AddExclusionRoute prefix) ;;
      modify (fun s => s <| m_excludedAddrSet := <[prefix := 1%Z]> (m_excludedAddrSet s) |>) ;;
      mret true
  end.

(** [operator[]] on a missing prefix inserts it with 0. *)
Definition delExclusionRoute (prefix : IPAddress) : act bool :=
  modify (fun s => s <| m_excludedAddrSet := hash_add prefix 0 (m_excludedAddrSet s) |>) ;;
  n ← gets (fun s => default 0%Z (m_excludedAddrSet s !! prefix));
  if (1 <? n)%Z then
    modify (fun s => s <| m_excludedAddrSet := <[prefix := (n - 1)%Z]> (m_excludedAddrSet s) |>) ;;
    mret true
  else
    need ask (DeleteExclusionRoute prefix) ;;
    modify (fun s => s <| m_excludedAddrSet := delete prefix (m_excludedAddrSet s) |>) ;;
    mret true.

(** The guard of [activate] and [switchServer]. *)
Definition rollback_exclusions (addresses : list string) : act unit :=
  each (fun a => delExclusionRoute (excluded_prefix a)) addresses.

(** ** Activation *)

Definition maybeUpdateResolvers (config : InterfaceConfig) : act bool :=
  if resolves_names (m_hopType config) then
    let resolvers :=
      [parseAddress (m_primaryDnsServer config)]
      ++ (if str_empty (m_secondaryDnsServer config) then []
          else [parseAddress (m_secondaryDnsServer config)])
      ++ (if String.eqb (m_primaryDnsServer config) (m_serverIpv4Gateway config)
          then [parseAddress (m_serverIpv6Gateway config)] else []) in
    need ask (UpdateResolvers interfaceName resolvers) ;; mret true
  else mret true.

Definition supportServerSwitching (config : InterfaceConfig) (s : daemon) : bool :=
  match qfind (m_hopType config) (m_connections s) with
  | None => false
  | Some state =>
      let current := m_config state in
      String.eqb (m_privateKey current) (m_privateKey config) &&
      String.eqb (qs (m_deviceIpv4Address current)) (qs (m_deviceIpv4Address config)) &&
      String.eqb (qs (m_deviceIpv6Address current)) (qs (m_deviceIpv6Address config)) &&
      String.eqb (m_serverIpv4Gateway current) (m_serverIpv4Gateway config) &&
      String.eqb (m_serverIpv6Gateway current) (m_serverIpv6Gateway config)
  end.

(** The routes of the new peer; at the first failure those that were not the old peer's are
    taken back and the old peer is restored. *)
Fixpoint switch_routes (config lastConfig : InterfaceConfig) (updatedPrefixes ips : list IPAddress)
    : act bool :=
  match ips with
  | [] => mret true
  | ip :: rest =>
      ok ← ask (UpdateRoutePrefix ip);
      if (ok : bool) then switch_routes config lastConfig (updatedPrefixes ++ [ip]) rest
      else
        each (fun p => ask (DeleteRoutePrefix p))
          (filter (fun p => p ∉ m_allowedIPAddressRanges lastConfig) updatedPrefixes) ;;
        ask (UpdatePeer lastConfig) ;;
        mret false
  end.

Definition connect_state (config : InterfaceConfig) : act unit :=
  modify (fun s => s <| m_connections :=
    qset (m_hopType config) (mkConnection None config) (m_connections s) |>).

Definition start_handshake_timer : act unit := modify (fun s => s <| m_handshakeTimer := true |>).

Definition switchServer (config : InterfaceConfig) : act bool :=
  last ← gets (fun s => qfind (m_hopType config) (m_connections s));
  match last with
  | None => mret false      (* Q_ASSERT: the connection exists *)
  | Some state =>
      let lastConfig := m_config state in
      need addExclusionRoutes (m_excludedAddresses config) ;;
      need guarded (rollback_exclusions (m_excludedAddresses config))
             (need ask (UpdatePeer config) ;;
              switch_routes config lastConfig [] (m_allowedIPAddressRanges config)) ;;
      each (fun i => delExclusionRoute (IPAddress_fromHost (parseAddress i)))
        (m_excludedAddresses lastConfig) ;;
      each (fun ip => ask (DeleteRoutePrefix ip))
        (filter (fun ip => ip ∉ m_allowedIPAddressRanges config)
           (m_allowedIPAddressRanges lastConfig)) ;;
      need (if String.eqb (m_serverPublicKey config) (m_serverPublicKey lastConfig)
            then mret true else ask (DeletePeer lastConfig)) ;;
      connect_state config ;;
      mret true
  end.

Definition deactivate (emitSignals : bool) : act bool :=
  connections ← gets m_connections;
  need (match connections with
        | [] => mret true
        | (_, state) :: _ => ask (Run Down (m_config state))
        end) ;;
  (if emitSignals then emit disconnected else mret tt) ;;
  ask RestoreResolvers ;;
  each (fun '(_, state) =>
          each (fun ip => ask (DeleteRoutePrefix ip)) (m_allowedIPAddressRanges (m_config state)) ;;
          ask (DeletePeer (m_config state))) connections ;;
  excluded ← gets m_excludedAddrSet;
  each (fun '(prefix, _) => ask (DeleteExclusionRoute prefix)) (hash_order excluded) ;;
  modify (fun s => s <| m_excludedAddrSet := ∅ |> <| m_connections := [] |>) ;;
  ask DeleteInterface.

(** The interface, its addresses and its peer; the part of [activate] after the test for an
    existing connection. *)
Definition bring_up (config : InterfaceConfig) : act bool :=
  ask (PrepareActivation config) ;;
  exists_ ← ask InterfaceExists;
  need (if (exists_ : bool) then mret true else ask (AddInterface config)) ;;
  need (if supportIPUtils
        then (need ask (AddInterfaceIPs config) ;; ask (SetMTUAndUp config))
        else mret true) ;;
  need addExclusionRoutes (m_excludedAddresses config) ;;
  guarded (rollback_exclusions (m_excludedAddresses config))
    (need ask (UpdatePeer config) ;;
     need maybeUpdateResolvers config ;;
     need all_of (fun ip => ask (UpdateRoutePrefix ip)) (m_allowedIPAddressRanges config) ;;
     need ask (Run Up config) ;;
     connect_state config ;;
     start_handshake_timer ;;
     mret true).

(** Server switching. *)
Definition switch_over (config : InterfaceConfig) : act bool :=
  need switchServer config ;;
  need ask RestoreResolvers ;;
  need maybeUpdateResolvers config ;;
  need ask (Run Switch config) ;;
  connect_state config ;;
  start_handshake_timer ;;
  mret true.

(** The body of [activate]; [again] is its call of itself. *)
Definition activate_body (again : act bool) (config : InterfaceConfig) : act bool :=
  guarded (emit activationFailure) (fun s =>
    match qfind (m_hopType config) (m_connections s) with
    | Some _ =>
        if supportServerSwitching config s then switch_over config s
        else (need deactivate false ;; again) s
    | None => bring_up config s
    end).

(** The call of itself is made after [deactivate] has removed all connections, so that it
    does not call itself again: two levels are enough ([activate_unfold]). *)
Definition activate (config : InterfaceConfig) : act bool :=
  activate_body (activate_body (mret false) config) config.

(** ** Status and handshakes *)

Definition getStatus (s : daemon) : obj * daemon :=
  let '(exists_, s) := ask InterfaceExists s in
  match m_connections s with
  | (_, connection) :: _ =>
      if negb exists_ then (oof [("connected", JBool false)], s)
      else
        match List.find (fun status => String.eqb (m_pubkey status)
                           (m_serverPublicKey (m_config connection)))
                (peerStatus (d_history s)) with
        | Some status =>
            (oof [("connected", JBool true);
                  ("serverIpv4Gateway", JStr (m_serverIpv4Gateway (m_config connection)));
                  ("deviceIpv4Address", JStr (qs (m_deviceIpv4Address (m_config connection))));
                  ("date", JStr (dateText (m_date connection)));
                  ("txBytes", JInt (m_txBytes status));
                  ("rxBytes", JInt (m_rxBytes status))], s)
        | None => (oof [("connected", JBool false)], s)
        end
  | [] => (oof [("connected", JBool false)], s)
  end.

(** The loop over the peers for one connection: its date, and what is emitted. *)
Definition poll_peers (pubkey : string) (peers : list PeerStatus) (date : option Z)
    : option Z * list event :=
  fold_left (fun '(date, out) status =>
    if negb (String.eqb pubkey (m_pubkey status)) then (date, out)
    else if (m_handshake status =? 0)%Z then (date, out)
    else (Some (m_handshake status), out ++ [Emitted (connected (m_pubkey status))]))
    peers (date, []).

(** The loop over the connections: the new connections, what is emitted, and the number that
    still wait for a handshake. *)
Fixpoint poll (peers : list PeerStatus) (m : list (HopType * ConnectionState))
    : list (HopType * ConnectionState) * list event * nat :=
  match m with
  | [] => ([], [], 0)
  | (h, c) :: r =>
      let '(r', out', pending') := poll peers r in
      match m_date c with
      | Some _ => ((h, c) :: r', out', pending')
      | None =>
          let '(date, out) := poll_peers (m_serverPublicKey (m_config c)) peers None in
          ((h, mkConnection date (m_config c)) :: r', out ++ out',
           match date with Some _ => pending' | None => S pending' end)
      end
  end.

(** [checkHandshake], called by the single-shot timer. *)
Definition checkHandshake (s : daemon) : daemon :=
  let '(m, out, pendingHandshakes) := poll (peerStatus (d_history s)) (m_connections s) in
  s <| m_connections := m |>
    <| d_history := d_history s ++ out |>
    <| m_handshakeTimer := (0 <? pendingHandshakes)%nat |>.

(** ** Runs *)

Inductive daemon_event :=
  | Activate (config : InterfaceConfig)
  | Deactivate (emitSignals : bool)
  | Timeout
  | Status.

Definition daemon_step (e : daemon_event) (s : daemon) : daemon :=
  match e with
  | Activate config => (activate config s).2
  | Deactivate b => (deactivate b s).2
  | Timeout => if m_handshakeTimer s then checkHandshake s else s
  | Status => (getStatus s).2
  end.

Definition daemon_run (es : list daemon_event) : daemon :=
  fold_left (fun s e => daemon_step e s) es new_daemon.
End Daemon.
