(* ===== verification/DaemonFacts.v ===== *)
(** * The daemon: what it leaves in the system

    [shows s c m t] describes a state by its connections, its counted exclusions and its
    timer, and says that the routes that bypass the tunnel are the counted ones.  Every
    operation is specified by how it changes [c], [m] and [t]. *)

From S2P Require Import Prelude Json IpAddress Lines InterfaceConfig Daemon.
From stdpp Require Import sorting.

(** ** The routes in the system *)

(** The prefixes routed around the tunnel after a history of calls. *)
Definition route_effect (X : gset IPAddress) (e : event) : gset IPAddress :=
  match e with
  | Called (AddExclusionRoute p) true => {[p]} ∪ X
  | Called (AddExclusionRoutes l) true => list_to_set l ∪ X
  | Called (DeleteExclusionRoute p) true => X ∖ {[p]}
  | _ => X
  end.

Definition installed (h : list event) : gset IPAddress := fold_left route_effect h ∅.

Arguments installed : simpl never.
#[local] Arguments ask : simpl never.

Lemma installed_snoc h e : installed (h ++ [e]) = route_effect (installed h) e.
Proof. unfold installed. by rewrite fold_left_app. Qed.

(** ** Counters *)

(** Counters are at least 1. *)
Definition counts_ok (m : gmap IPAddress Z) : Prop := map_Forall (fun _ n => (1 <= n)%Z) m.

Definition cnt (m : gmap IPAddress Z) (p : IPAddress) : Z := default 0%Z (m !! p).

(** How often a prefix occurs in a list. *)
Definition occ (l : list IPAddress) (p : IPAddress) : Z :=
  Z.of_nat (length (filter (fun q => q = p) l)).

Lemma occ_cons q l p : occ (q :: l) p = ((if decide (q = p) then 1 else 0) + occ l p)%Z.
Proof. unfold occ. rewrite filter_cons. destruct (decide (q = p)); simpl; lia. Qed.

Lemma occ_nonneg l p : (0 <= occ l p)%Z.
Proof. unfold occ. lia. Qed.

Lemma occ_app l k p : occ (l ++ k) p = (occ l p + occ k p)%Z.
Proof. unfold occ. rewrite filter_app, length_app. lia. Qed.

Lemma occ_pos l p : (1 <= occ l p)%Z <-> p ∈ l.
Proof.
  induction l as [|q l IH]; [split; [done|by intros ?%not_elem_of_nil]|].
  rewrite occ_cons, elem_of_cons. pose proof (occ_nonneg l p).
  destruct (decide (q = p)) as [->|]; [split; [by left|lia]|].
  rewrite Z.add_0_l, IH. split; [by right|by intros [?|?]].
Qed.

Lemma cnt_nonneg m p : counts_ok m -> (0 <= cnt m p)%Z.
Proof.
  intros Hm. unfold cnt. destruct (m !! p) eqn:E; simpl; [|lia].
  pose proof (Hm _ _ E). simpl in *. lia.
Qed.

(** Well-formed counters are determined by their values. *)
Lemma cnt_ext m1 m2 :
  counts_ok m1 -> counts_ok m2 -> (forall p, cnt m1 p = cnt m2 p) -> m1 = m2.
Proof.
  intros H1 H2 Hc. apply map_eq. intros p. specialize (Hc p). unfold cnt in Hc.
  destruct (m1 !! p) eqn:E1, (m2 !! p) eqn:E2; simpl in Hc; [by subst| | |done].
  - pose proof (H1 _ _ E1). simpl in *. lia.
  - pose proof (H2 _ _ E2). simpl in *. lia.
Qed.

Lemma dom_cnt m p : counts_ok m -> p ∈ dom m <-> (1 <= cnt m p)%Z.
Proof.
  intros Hm. rewrite elem_of_dom. unfold cnt. destruct (m !! p) eqn:E; simpl.
  - pose proof (Hm _ _ E). simpl in *. naive_solver.
  - split; [by intros []|lia].
Qed.

(** One reference less; the last one removes the prefix. *)
Definition dec (p : IPAddress) (m : gmap IPAddress Z) : gmap IPAddress Z :=
  match m !! p with
  | Some n => if (1 <? n)%Z then <[p := (n - 1)%Z]> m else delete p m
  | None => m
  end.

Lemma dec_ok p m : counts_ok m -> counts_ok (dec p m).
Proof.
  intros Hm. unfold dec. destruct (m !! p) as [n|] eqn:E; [|done].
  destruct (Z.ltb_spec 1 n); [|by apply map_Forall_delete].
  apply map_Forall_insert_2; [lia|done].
Qed.

Lemma cnt_dec p m q :
  counts_ok m -> cnt (dec p m) q = if decide (p = q) then Z.max 0 (cnt m q - 1) else cnt m q.
Proof.
  intros Hm. unfold dec, cnt. destruct (decide (p = q)) as [->|Hne].
  - destruct (m !! q) as [n|] eqn:E; [|by rewrite E]. pose proof (Hm _ _ E). simpl in *.
    destruct (Z.ltb_spec 1 n); [rewrite lookup_insert_eq|rewrite lookup_delete_eq]; simpl; lia.
  - destruct (m !! p) as [n|]; [|done].
    destruct (1 <? n)%Z; [by rewrite lookup_insert_ne|by rewrite lookup_delete_ne].
Qed.

Definition dec_all (l : list IPAddress) (m : gmap IPAddress Z) : gmap IPAddress Z :=
  fold_left (fun m p => dec p m) l m.

Lemma dec_all_ok l m : counts_ok m -> counts_ok (dec_all l m).
Proof. revert m. induction l as [|p l IH]; simpl; intros m Hm; [done|]. by apply IH, dec_ok. Qed.

Lemma cnt_dec_all l m q :
  counts_ok m -> (occ l q <= cnt m q)%Z -> cnt (dec_all l m) q = (cnt m q - occ l q)%Z.
Proof.
  revert m. induction l as [|p l IH]; simpl; intros m Hm Hle; [unfold occ; simpl; lia|].
  rewrite occ_cons in *. pose proof (occ_nonneg l q).
  rewrite IH by (try apply dec_ok; rewrite ?cnt_dec by done; try done; destruct (decide (p = q)); lia).
  rewrite cnt_dec by done. destruct (decide (p = q)); lia.
Qed.

(** ** Adding the requested prefixes *)

Lemma cnt_hash_add k n m q :
  cnt (hash_add k n m) q = (cnt m q + if decide (k = q) then n else 0)%Z.
Proof.
  unfold hash_add, cnt. destruct (decide (k = q)) as [->|].
  - by rewrite lookup_insert_eq.
  - rewrite lookup_insert_ne by done. lia.
Qed.

Lemma hash_add_ok k n m : counts_ok m -> (1 <= n)%Z -> counts_ok (hash_add k n m).
Proof.
  intros Hm Hn. apply map_Forall_insert_2; [|done]. pose proof (cnt_nonneg m k Hm).
  unfold cnt in *. lia.
Qed.

Section Facts.
Context `{Platform}.

Definition prefixes (addresses : list string) : list IPAddress := map excluded_prefix addresses.

Lemma requested_fold l m :
  counts_ok m ->
  counts_ok (fold_left (fun m a => hash_add (excluded_prefix a) 1 m) l m) /\
  forall p, cnt (fold_left (fun m a => hash_add (excluded_prefix a) 1 m) l m) p
            = (cnt m p + occ (prefixes l) p)%Z.
Proof.
  revert m. induction l as [|a l IH]; simpl; intros m Hm.
  - split; [done|]. intros p. unfold occ. simpl. lia.
  - destruct (IH _ (hash_add_ok (excluded_prefix a) 1 m Hm ltac:(lia))) as [H1 H2].
    split; [done|]. intros p. rewrite H2, cnt_hash_add, occ_cons. lia.
Qed.

Lemma requested_spec l :
  counts_ok (requested l) /\ forall p, cnt (requested l) p = occ (prefixes l) p.
Proof.
  destruct (requested_fold l ∅ (map_Forall_empty _)) as [H1 H2]. split; [done|].
  intros p. unfold requested. rewrite H2. unfold cnt. by rewrite lookup_empty.
Qed.

(** The sum of the entries of a list of counters for one prefix. *)
Definition tally (l : list (IPAddress * Z)) (p : IPAddress) : Z :=
  foldr (fun kn z => ((if decide (kn.1 = p) then kn.2 else 0) + z)%Z) 0%Z l.

Lemma tally_perm l k p : l ≡ₚ k -> tally l p = tally k p.
Proof. induction 1; simpl; lia. Qed.

Lemma tally_map m p : tally (map_to_list m) p = cnt m p.
Proof.
  induction m as [|k n m Hk IH] using map_ind.
  - rewrite map_to_list_empty. unfold cnt. by rewrite lookup_empty.
  - rewrite (tally_perm _ _ p (map_to_list_insert m k n Hk)). simpl. rewrite IH. unfold cnt.
    destruct (decide (k = p)) as [->|].
    + rewrite lookup_insert_eq, Hk. simpl. lia.
    + rewrite lookup_insert_ne by done. lia.
Qed.

Lemma add_fold l m :
  counts_ok m -> Forall (fun kn => (1 <= kn.2)%Z) l ->
  let m' := fold_left (fun m '(k, n) => hash_add k n m) l m in
  counts_ok m' /\ forall p, cnt m' p = (cnt m p + tally l p)%Z.
Proof.
  intros Hm Hl. revert m Hm. induction Hl as [|[k n] l Hn _ IH]; simpl; intros m Hm.
  - split; [done|]. intros. lia.
  - destruct (IH _ (hash_add_ok k n m Hm Hn)) as [H1 H2]. split; [done|].
    intros p. rewrite H2, cnt_hash_add. lia.
Qed.

(** The counters after [addExclusionRoutes] has succeeded. *)
Definition add_all (l : list string) (m : gmap IPAddress Z) : gmap IPAddress Z :=
  fold_left (fun m '(k, n) => hash_add k n m) (hash_order (requested l)) m.

Lemma add_all_spec l m :
  counts_ok m ->
  counts_ok (add_all l m) /\ forall p, cnt (add_all l m) p = (cnt m p + occ (prefixes l) p)%Z.
Proof.
  intros Hm. destruct (requested_spec l) as [Hr Hc].
  assert (Hf : Forall (fun kn => (1 <= kn.2)%Z) (hash_order (requested l))).
  { rewrite hash_order_perm. apply Forall_forall. intros [k n] Hk%elem_of_map_to_list.
    exact (Hr _ _ Hk). }
  destruct (add_fold _ m Hm Hf) as [H1 H2]. split; [done|]. intros p. unfold add_all.
  rewrite H2, (tally_perm _ _ p (hash_order_perm _)), tally_map. by rewrite Hc.
Qed.

Lemma dom_add_all l m :
  counts_ok m -> dom (add_all l m) = list_to_set (prefixes l) ∪ dom m.
Proof.
  intros Hm. destruct (add_all_spec l m Hm) as [Ha Hc]. apply set_eq. intros p.
  rewrite elem_of_union, elem_of_list_to_set, !dom_cnt, Hc, <- occ_pos by done.
  pose proof (occ_nonneg (prefixes l) p). pose proof (cnt_nonneg m p Hm). lia.
Qed.

(** Taking back what was added gives the counters there were. *)
Lemma dec_add_all l m : counts_ok m -> dec_all (prefixes l) (add_all l m) = m.
Proof.
  intros Hm. destruct (add_all_spec l m Hm) as [Ha Hc].
  apply cnt_ext; [by apply dec_all_ok|done|]. intros p. pose proof (cnt_nonneg m p Hm).
  rewrite cnt_dec_all; [rewrite Hc; lia|done|rewrite Hc; lia].
Qed.

Lemma requested_keys l p : p ∈ map fst (hash_order (requested l)) <-> p ∈ prefixes l.
Proof.
  destruct (requested_spec l) as [Hok Hc]. rewrite <- (occ_pos (prefixes l)), <- Hc, <- dom_cnt by done.
  rewrite (fmap_Permutation fst _ _ (hash_order_perm (requested l))).
  rewrite list_elem_of_fmap, elem_of_dom. split.
  - intros ([k n] & -> & Hk%elem_of_map_to_list). by exists n.
  - intros [n Hn]. exists (p, n). split; [done|]. by apply elem_of_map_to_list.
Qed.

(** ** States *)

Record shows (s : daemon) (c : list (HopType * ConnectionState)) (m : gmap IPAddress Z) (t : bool)
  : Prop := {
  shows_connections : m_connections s = c;
  shows_excluded : m_excludedAddrSet s = m;
  shows_timer : m_handshakeTimer s = t;
  shows_installed : installed (d_history s) = dom m;
  shows_counts : counts_ok m
}.

(** A call that is not about exclusion routes, and operations made of such calls. *)
Definition neutral (c : call) : bool :=
  match c with
  | AddExclusionRoute _ | AddExclusionRoutes _ | DeleteExclusionRoute _ => false
  | _ => true
  end.

Definition keeps {A} (f : act A) : Prop :=
  forall s c m t, shows s c m t -> shows (f s).2 c m t.

Lemma undisturbed_ret {A} (a : A) : keeps (mret a).
Proof. by intros s c m t Hs. Qed.

Lemma undisturbed_gets {A} (g : daemon -> A) : keeps (gets g).
Proof. by intros s c m t Hs. Qed.

Lemma undisturbed_bind {A B} (f : act A) (k : A -> act B) :
  keeps f -> (forall a, keeps (k a)) -> keeps (mbind k f).
Proof.
  intros Hf Hk s c m t Hs. specialize (Hf s c m t Hs).
  unfold mbind, act_bind. destruct (f s) as [a s']. by apply Hk.
Qed.

Lemma shows_snoc s c m t e :
  shows s c m t -> route_effect (dom m) e = dom m ->
  shows (s <| d_history := d_history s ++ [e] |>) c m t.
Proof.
  intros [H1 H2 H3 H4 H5] He. constructor; [done..| |done]. simpl.
  by rewrite installed_snoc, H4.
Qed.

Lemma undisturbed_ask c : neutral c = true -> keeps (ask c).
Proof.
  intros Hc s c' m t Hs. apply shows_snoc; [done|].
  by destruct c, (answer (d_history s) _).
Qed.

Lemma undisturbed_emit sg : keeps (emit sg).
Proof. intros s c m t Hs. by apply shows_snoc. Qed.

Lemma undisturbed_require f k : keeps f -> keeps k -> keeps (require f k).
Proof. intros Hf Hk. apply undisturbed_bind; [done|]. intros []; [done|apply undisturbed_ret]. Qed.

Lemma undisturbed_guarded f k : keeps f -> keeps k -> keeps (guarded f k).
Proof.
  intros Hf Hk. apply undisturbed_bind; [done|]. intros []; [apply undisturbed_ret|].
  apply undisturbed_bind; [done|]. intros. apply undisturbed_ret.
Qed.

Lemma undisturbed_each {A B} (f : A -> act B) l : (forall x, keeps (f x)) -> keeps (each f l).
Proof.
  intros Hf. induction l as [|x l IH]; [apply undisturbed_ret|]. simpl. apply undisturbed_bind; [apply Hf|done].
Qed.

Lemma undisturbed_all_of {A} (f : A -> act bool) l : (forall x, keeps (f x)) -> keeps (all_of f l).
Proof.
  intros Hf. induction l as [|x l IH]; [apply undisturbed_ret|]. simpl. by apply undisturbed_require; [apply Hf|].
Qed.

Ltac keeps := repeat lazymatch goal with
  | |- keeps (mret _) => apply undisturbed_ret
  | |- keeps (gets _) => apply undisturbed_gets
  | |- keeps (emit _) => apply undisturbed_emit
  | |- keeps (ask _) => apply undisturbed_ask; reflexivity
  | |- keeps (require _ _) => apply undisturbed_require
  | |- keeps (each _ _) => apply undisturbed_each; intros ?
  | |- keeps (all_of _ _) => apply undisturbed_all_of; intros ?
  | |- keeps (mbind _ _) => apply undisturbed_bind; [|intros ?]
  | |- keeps (match _ with _ => _ end) => case_match
  end.

Lemma undisturbed_resolvers config : keeps (maybeUpdateResolvers config).
Proof. unfold maybeUpdateResolvers. keeps. Qed.

Lemma undisturbed_switch_routes config last l k : keeps (switch_routes config last l k).
Proof. revert l. induction k as [|ip k IH]; intros l; simpl; keeps. apply IH. Qed.

(** ** Exclusion routes, when the system can always delete a route *)

Section Deletes.
Hypothesis deletes_succeed : forall h p, answer h (DeleteExclusionRoute p) = true.

Lemma ask_delete s p :
  ask (DeleteExclusionRoute p) s =
  (true, s <| d_history := d_history s ++ [Called (DeleteExclusionRoute p) true] |>).
Proof. unfold ask. by rewrite deletes_succeed. Qed.

Lemma shows_del p s c m t :
  shows s c m t -> shows (delExclusionRoute p s).2 c (dec p m) t.
Proof.
  intros [H1 H2 H3 H4 H5]. pose proof (dec_ok p m H5) as Hok. revert Hok. unfold dec.
  unfold delExclusionRoute, mbind, act_bind, modify, gets, require, mret, act_ret, mbind, act_bind.
  cbv beta iota zeta. unfold upd, setter. cbn. rewrite H2. unfold hash_add.
  rewrite lookup_insert_eq. cbn. rewrite Z.add_0_r.
  destruct (m !! p) as [n|] eqn:E; cbn.
  - destruct (Z.ltb_spec 1 n); intros Hok; cbn.
    + rewrite insert_insert_eq. constructor; [done..| |done]. cbn.
      rewrite H4, dom_insert_L. assert (p ∈ dom m) by (by apply elem_of_dom; exists n). set_solver.
    + rewrite ask_delete. cbn. rewrite delete_insert_eq. constructor; [done..| |done]. cbn.
      by rewrite installed_snoc, H4, dom_delete_L.
  - intros Hok. rewrite ask_delete. cbn. rewrite delete_insert_eq, delete_id by done.
    constructor; [done..| |done]. cbn. rewrite installed_snoc, H4. cbn.
    apply not_elem_of_dom in E. set_solver.
Qed.

Lemma shows_del_all (f : string -> IPAddress) l s c m t :
  shows s c m t ->
  shows (each (fun a => delExclusionRoute (f a)) l s).2 c (dec_all (map f l) m) t.
Proof.
  revert s m. induction l as [|a l IH]; intros s m Hs; [done|]. cbn [each map dec_all fold_left].
  apply (shows_del (f a)) in Hs. unfold mbind, act_bind.
  destruct (delExclusionRoute (f a) s) as [b s']. by apply IH.
Qed.

(** Only the history differs. *)
Definition framed (s s' : daemon) : Prop :=
  m_connections s' = m_connections s /\ m_excludedAddrSet s' = m_excludedAddrSet s /\
  m_handshakeTimer s' = m_handshakeTimer s.

Lemma framed_trans s1 s2 s3 : framed s1 s2 -> framed s2 s3 -> framed s1 s3.
Proof. unfold framed. intuition congruence. Qed.

Lemma framed_ask c s : framed s (ask c s).2.
Proof. done. Qed.

Lemma delete_each l s :
  let s' := (each (fun p => ask (DeleteExclusionRoute p)) l s).2 in
  framed s s' /\ installed (d_history s') = installed (d_history s) ∖ list_to_set l.
Proof.
  revert s. induction l as [|p l IH]; intros s; cbn [each list_to_set].
  - split; [done|]. cbn. set_solver.
  - unfold mbind, act_bind. rewrite ask_delete.
    destruct (IH (s <| d_history := d_history s ++ [Called (DeleteExclusionRoute p) true] |>))
      as [H1 H2].
    split; [exact H1|]. rewrite H2. cbn. rewrite installed_snoc. cbn. set_solver.
Qed.

Lemma add_each_spec l added s X :
  installed (d_history s) = list_to_set added ∪ X -> list_to_set added ∪ list_to_set l ## X ->
  let '(b, s') := add_each added l s in
  framed s s' /\
  installed (d_history s') = if b then list_to_set l ∪ (list_to_set added ∪ X) else X.
Proof.
  revert added s. induction l as [|p l IH]; intros added s Hi Hd; cbn [add_each].
  - split; [done|]. cbn. rewrite Hi. set_solver.
  - unfold mbind at 1, act_bind at 1, ask. destruct (answer _ _) eqn:Ea.
    + set (s1 := s <| d_history := _ |>). specialize (IH (added ++ [p]) s1).
      assert (H1 : installed (d_history s1) = list_to_set (added ++ [p]) ∪ X).
      { unfold s1. cbn. rewrite installed_snoc, Hi. cbn. set_solver. }
      specialize (IH H1 ltac:(set_solver)). destruct (add_each (added ++ [p]) l s1) as [b s'].
      destruct IH as [Hf He]. split; [exact Hf|]. rewrite He. destruct b; [set_solver|done].
    + set (s1 := s <| d_history := _ |>). destruct (delete_each added s1) as [Hf He].
      unfold mbind, act_bind. fold (@ask H). destruct (each _ added s1) as [u s']. cbn in *.
      split; [exact Hf|]. rewrite He. unfold s1. cbn. rewrite installed_snoc, Hi. cbn. set_solver.
Qed.

Lemma wgutils_add_spec l s X :
  installed (d_history s) = X -> list_to_set l ## X ->
  let '(b, s') := wgutils_addExclusionRoutes l s in
  framed s s' /\ installed (d_history s') = if b then list_to_set l ∪ X else X.
Proof.
  intros Hi Hd. unfold wgutils_addExclusionRoutes. destruct batchedExclusions.
  - unfold ask. split; [done|]. cbn. rewrite installed_snoc, Hi. by destruct (answer _ _).
  - pose proof (add_each_spec l [] s X) as Hadd. cbn in Hadd.
    rewrite !union_empty_l_L in Hadd. specialize (Hadd Hi Hd).
    by destruct (add_each [] l s) as [b s'].
Qed.

Lemma shows_add l s c m t :
  shows s c m t ->
  let '(b, s') := addExclusionRoutes l s in shows s' c (if b then add_all l m else m) t.
Proof.
  intros [H1 H2 H3 H4 H5]. unfold addExclusionRoutes, mbind at 1, act_bind at 1, gets.
  set (new := filter _ _).
  pose proof (wgutils_add_spec new s (dom m) H4) as Hw.
  assert (Hnew : forall p, p ∈ new <-> p ∈ prefixes l /\ p ∉ dom m).
  { intros p. unfold new. rewrite list_elem_of_filter, requested_keys, H2, not_elem_of_dom. tauto. }
  specialize (Hw ltac:(set_solver)). unfold require, mbind at 1, act_bind at 1.
  destruct (wgutils_addExclusionRoutes new s) as [[] s']; destruct Hw as [(F1 & F2 & F3) Hi];
    cbn; constructor; cbn; try (congruence || done).
  - by rewrite F2, H2.
  - rewrite Hi, dom_add_all by done. apply set_eq. intros p.
    rewrite !elem_of_union, !elem_of_list_to_set, Hnew.
    destruct (decide (p ∈ dom m)); tauto.
  - by apply add_all_spec.
Qed.

(** The guard of [activate] and [switchServer] takes back exactly what was added. *)
Lemma shows_rollback l s c m t :
  shows s c (add_all l m) t -> counts_ok m -> shows (rollback_exclusions l s).2 c m t.
Proof.
  intros Hs Hm. apply (shows_del_all excluded_prefix l) in Hs. unfold rollback_exclusions.
  fold (prefixes l) in Hs. by rewrite (dec_add_all l m Hm) in Hs.
Qed.

(** ** Specifications of the operations that return a boolean *)

Definition shot : Type := list (HopType * ConnectionState) * gmap IPAddress Z * bool.

Definition shown (s : daemon) (v : shot) : Prop := shows s v.1.1 v.1.2 v.2.

(** From states described by [v], [f] ends in [yes] when it returns [true] and in [no]
    otherwise. *)
Definition gives (f : act bool) (v yes no : shot) : Prop :=
  forall s, shown s v -> let '(b, s') := f s in shown s' (if b then yes else no).

Lemma gives_keeps f v : keeps f -> gives f v v v.
Proof.
  intros Hf s Hs. specialize (Hf s _ _ _ Hs). by destruct (f s) as [[] s'].
Qed.

Lemma gives_require f k v v1 v2 v0 :
  gives f v v1 v0 -> gives k v1 v2 v0 -> gives (require f k) v v2 v0.
Proof.
  intros Hf Hk s Hs. specialize (Hf s Hs). unfold require, mbind, act_bind.
  destruct (f s) as [[] s']; [by apply Hk|done].
Qed.

Lemma gives_bind {A} (f : act A) k v v1 v0 :
  keeps f -> (forall a, gives (k a) v v1 v0) -> gives (mbind k f) v v1 v0.
Proof.
  intros Hf Hk s Hs. specialize (Hf s _ _ _ Hs). unfold mbind, act_bind.
  destruct (f s) as [a s']. by apply Hk.
Qed.

Lemma gives_then (f : act unit) k v v' v1 v0 :
  (forall s, shown s v -> shown (f s).2 v') -> gives k v' v1 v0 ->
  gives (f ;; k) v v1 v0.
Proof.
  intros Hf Hk s Hs. specialize (Hf s Hs). unfold mbind, act_bind. destruct (f s) as [a s'].
  by apply Hk.
Qed.

Lemma gives_true v v0 : gives (mret true) v v v0.
Proof. by intros s Hs. Qed.

Lemma gives_add l c m t :
  gives (addExclusionRoutes l) (c, m, t) (c, add_all l m, t) (c, m, t).
Proof.
  intros s Hs. pose proof (shows_add l s c m t Hs) as Ha.
  by destruct (addExclusionRoutes l s) as [[] s'].
Qed.

Lemma gives_rollback l body c m t v1 :
  counts_ok m ->
  gives body (c, add_all l m, t) v1 (c, add_all l m, t) ->
  gives (guarded (rollback_exclusions l) body) (c, add_all l m, t) v1 (c, m, t).
Proof.
  intros Hm Hb s Hs. specialize (Hb s Hs). unfold guarded, mbind at 1, act_bind at 1.
  destruct (body s) as [[] s']; [done|]. pose proof (shows_rollback l s' c m t Hb Hm) as Hr.
  unfold mbind, act_bind. by destruct (rollback_exclusions l s') as [u s2].
Qed.

Definition joined (config : InterfaceConfig) (c : list (HopType * ConnectionState)) :=
  qset (m_hopType config) (mkConnection None config) c.

Lemma shown_connect config c m t s :
  shown s (c, m, t) -> shown (connect_state config s).2 (joined config c, m, t).
Proof. intros [H1 H2 H3 H4 H5]. constructor; cbn in *; try done. by rewrite H1. Qed.

Lemma shown_timer c m t s :
  shown s (c, m, t) -> shown (start_handshake_timer s).2 (c, m, true).
Proof. intros [H1 H2 H3 H4 H5]. by constructor. Qed.

Lemma gives_connected config c m t v0 :
  gives (connect_state config ;; start_handshake_timer ;; mret true)
    (c, m, t) (joined config c, m, true) v0.
Proof.
  eapply gives_then; [apply shown_connect|]. eapply gives_then; [apply shown_timer|].
  apply gives_true.
Qed.

Ltac needs := first
  [ eapply gives_require; [apply gives_keeps; solve [keeps | apply undisturbed_resolvers]|]
  | apply gives_bind; [solve [keeps]|intros ?] ].

(** A new connection: it is recorded with its exclusions, or nothing has changed. *)
Lemma bring_up_spec config c m t :
  counts_ok m ->
  gives (bring_up config) (c, m, t)
    (joined config c, add_all (m_excludedAddresses config) m, true) (c, m, t).
Proof.
  intros Hm. unfold bring_up. do 4 needs.
  eapply gives_require; [apply gives_add|]. apply gives_rollback; [done|].
  do 4 needs. apply gives_connected.
Qed.

(** What a connection excludes. *)
Definition excludes (state : ConnectionState) : list IPAddress :=
  prefixes (m_excludedAddresses (m_config state)).

(** [switchServer] finds the old exclusions by [QHostAddress(i)]. *)
Definition old_prefixes (state : ConnectionState) : list IPAddress :=
  map (fun i => IPAddress_fromHost (parseAddress i)) (m_excludedAddresses (m_config state)).

Lemma deleted_all m : dom m ∖ list_to_set (map fst (hash_order m)) = (∅ : gset IPAddress).
Proof.
  apply set_eq. intros p. rewrite elem_of_difference, elem_of_list_to_set, elem_of_dom.
  rewrite (fmap_Permutation fst _ _ (hash_order_perm m)), list_elem_of_fmap.
  split; [|by intros ?%elem_of_empty]. intros [[n Hn] Hno]. destruct Hno. exists (p, n).
  split; [done|]. by apply elem_of_map_to_list.
Qed.

Lemma each_pair (l : list (IPAddress * Z)) :
  each (fun '(prefix, _) => ask (DeleteExclusionRoute prefix)) l =
  each (fun p => ask (DeleteExclusionRoute p)) (map fst l).
Proof. induction l as [|[p n] l IH]; cbn; [done|]. by rewrite IH. Qed.

Lemma undisturbed_cleanup connections :
  keeps (each (fun '((_, state) : HopType * ConnectionState) =>
          (each (fun ip => ask (DeleteRoutePrefix ip)) (m_allowedIPAddressRanges (m_config state)) ;;
           ask (DeletePeer (m_config state))) : act bool) connections).
Proof. apply undisturbed_each. intros [h state]. keeps. Qed.

(** The end of [deactivate]: the exclusions are removed and everything is forgotten. *)
Lemma forget_spec s c m t :
  shown s (c, m, t) ->
  let '(_, s') :=
    (excluded ← gets m_excludedAddrSet;
     each (fun '(prefix, _) => ask (DeleteExclusionRoute prefix)) (hash_order excluded) ;;
     modify (fun s => s <| m_excludedAddrSet := ∅ |> <| m_connections := [] |>) ;;
     ask DeleteInterface : act bool) s in
  shown s' ([], ∅, t).
Proof.
  intros [H1 H2 H3 H4 H5]. unfold mbind, act_bind, gets. rewrite each_pair.
  destruct (delete_each (map fst (hash_order (m_excludedAddrSet s))) s) as [(F1 & F2 & F3) Hi].
  destruct (each _ _ s) as [u s1]. cbn [snd] in *. rewrite H2 in Hi. cbn in H4.
  rewrite H4, deleted_all in Hi. unfold modify, ask. cbv beta iota zeta.
  constructor; cbn; try done; [congruence|]. rewrite installed_snoc, Hi. cbn.
  by rewrite dom_empty_L.
Qed.

(** Step over an operation that keeps what is shown. *)
Lemma after_bind {A B} (f : act A) (k : A -> act B) s v (P : B -> daemon -> Prop) :
  keeps f -> shown s v ->
  (forall a s1, shown s1 v -> let '(r, s') := k a s1 in P r s') ->
  let '(r, s') := mbind k f s in P r s'.
Proof.
  intros Hf Hs Hk. specialize (Hf s _ _ _ Hs). unfold mbind, act_bind.
  destruct (f s) as [a s1]. by apply Hk.
Qed.

(** [deactivate] either stops at once, or forgets all connections and leaves no route. *)
Lemma deactivate_spec b s c m t :
  shown s (c, m, t) ->
  let '(r, s') := deactivate b s in
  (r = false /\ shown s' (c, m, t)) \/ shown s' ([], ∅, t).
Proof.
  intros Hs. unfold deactivate, require. unfold mbind at 1, act_bind at 1, gets at 1.
  apply (after_bind _ _ s (c, m, t)); [keeps|done|]. intros [] s1 H1; [|by left].
  apply (after_bind _ _ s1 (c, m, t)); [keeps|done|]. intros _ s2 H2.
  apply (after_bind _ _ s2 (c, m, t)); [keeps|done|]. intros _ s3 H3.
  apply (after_bind _ _ s3 (c, m, t)); [apply undisturbed_cleanup|done|]. intros _ s4 H4.
  pose proof (forget_spec s4 c m t H4) as Hf. match goal with |- let '(_, _) := ?X in _ => destruct X as [r s'] end.
  by right.
Qed.

(** ** Reachable states show the routes they count *)

Definition sane (s : daemon) : Prop := exists v, shown s v.

Definition safe {A} (f : act A) : Prop := forall s, sane s -> sane (f s).2.

Lemma safe_keeps {A} (f : act A) : keeps f -> safe f.
Proof. intros Hf s [v Hs]. exists v. by apply Hf. Qed.

Lemma safe_bind {A B} (f : act A) (k : A -> act B) :
  safe f -> (forall a, safe (k a)) -> safe (mbind k f).
Proof.
  intros Hf Hk s Hs. specialize (Hf s Hs). unfold mbind, act_bind. destruct (f s) as [a s'].
  by apply Hk.
Qed.

Lemma safe_require f k : safe f -> safe k -> safe (require f k).
Proof.
  intros Hf Hk. apply safe_bind; [done|]. intros []; [done|apply safe_keeps, undisturbed_ret].
Qed.

Lemma safe_guarded f k : safe f -> safe k -> safe (guarded f k).
Proof.
  intros Hf Hk. apply safe_bind; [done|]. intros []; [apply safe_keeps, undisturbed_ret|].
  apply safe_bind; [done|]. intros. apply safe_keeps, undisturbed_ret.
Qed.

Lemma safe_each {A B} (f : A -> act B) l : (forall x, safe (f x)) -> safe (each f l).
Proof.
  intros Hf. induction l as [|x l IH]; [apply safe_keeps, undisturbed_ret|].
  apply safe_bind; [apply Hf|done].
Qed.

Lemma safe_add l : safe (addExclusionRoutes l).
Proof.
  intros s [[[c m] t] Hs]. pose proof (shows_add l s c m t Hs) as Ha.
  destruct (addExclusionRoutes l s) as [b s'].
  exists (c, if b then add_all l m else m, t). exact Ha.
Qed.

Lemma safe_del p : safe (delExclusionRoute p).
Proof. intros s [[[c m] t] Hs]. exists (c, dec p m, t). by apply shows_del. Qed.

Lemma safe_connect config : safe (connect_state config).
Proof. intros s [[[c m] t] Hs]. eexists. by apply shown_connect. Qed.

Lemma safe_timer : safe start_handshake_timer.
Proof. intros s [[[c m] t] Hs]. eexists. by eapply shown_timer. Qed.

Lemma safe_deactivate b : safe (deactivate b).
Proof.
  intros s [[[c m] t] Hs]. pose proof (deactivate_spec b s c m t Hs) as Hd.
  destruct (deactivate b s) as [r s']. destruct Hd as [[_ ?]|?]; by eexists.
Qed.

Ltac safes := repeat lazymatch goal with
  | |- safe (addExclusionRoutes _) => apply safe_add
  | |- safe (delExclusionRoute _) => apply safe_del
  | |- safe (connect_state _) => apply safe_connect
  | |- safe start_handshake_timer => apply safe_timer
  | |- safe (maybeUpdateResolvers _) => apply safe_keeps, undisturbed_resolvers
  | |- safe (switch_routes _ _ _ _) => apply safe_keeps, undisturbed_switch_routes
  | |- safe (require _ _) => apply safe_require
  | |- safe (guarded _ _) => apply safe_guarded
  | |- safe (each _ _) => apply safe_each; intros ?
  | |- safe (mbind _ _) => apply safe_bind; [|intros ?]
  | |- safe (match _ with _ => _ end) => case_match
  | |- safe _ => apply safe_keeps; solve [keeps]
  end.

Lemma safe_switch config : safe (switch_over config).
Proof. unfold switch_over, switchServer, rollback_exclusions. safes. Qed.

Lemma safe_bring_up config : safe (bring_up config).
Proof. unfold bring_up, rollback_exclusions. safes. Qed.

Lemma safe_activate_body again config : safe again -> safe (activate_body again config).
Proof.
  intros Ha. apply safe_guarded; [safes|]. intros s Hs.
  destruct (qfind _ _); [destruct (supportServerSwitching config s)|].
  - by apply safe_switch.
  - apply safe_require; [apply safe_deactivate|done|done].
  - by apply safe_bring_up.
Qed.

Lemma safe_activate config : safe (activate config).
Proof. apply safe_activate_body, safe_activate_body. apply safe_keeps, undisturbed_ret. Qed.

(** ** Counting *)

(** The connections in the order of a [QMap]. *)
Definition ordered (c : list (HopType * ConnectionState)) : Prop :=
  StronglySorted (fun a b => hop_index a.1 < hop_index b.1) c.

(** Everything the connections exclude, with repetitions. *)
Definition all_excluded (c : list (HopType * ConnectionState)) : list IPAddress :=
  concat (map (fun hc => excludes hc.2) c).

Lemma hop_index_inj h k : hop_index h = hop_index k -> h = k.
Proof. by destruct h, k. Qed.

Lemma Forall_qset (P : HopType * ConnectionState -> Prop) h v c :
  P (h, v) -> Forall P c -> Forall P (qset h v c).
Proof.
  intros Hv. induction 1 as [|[k w] c Hw Hc IH]; cbn [qset]; [by repeat constructor|].
  destruct (bool_decide _); [by constructor|].
  destruct (hop_index h <? hop_index k)%nat; by repeat constructor.
Qed.

Lemma qset_ordered h v c : ordered c -> ordered (qset h v c).
Proof.
  unfold ordered. induction 1 as [|[k w] c Hs IH Hk]; cbn [qset]; [by repeat constructor|].
  destruct (bool_decide (h = k)) eqn:E; bprop; [subst; by constructor|].
  destruct (Nat.ltb_spec (hop_index h) (hop_index k)).
  - constructor; [by constructor|]. constructor; [done|].
    eapply Forall_impl; [exact Hk|]. intros [k' w'] ?. cbn in *. lia.
  - constructor; [done|]. apply Forall_qset; [|done]. cbn.
    assert (hop_index h <> hop_index k) by (by intros ?%hop_index_inj). lia.
Qed.

(** Setting a connection replaces what the old one of its kind excluded. *)
Lemma qset_occ h v c p :
  ordered c ->
  occ (all_excluded (qset h v c)) p =
  (occ (all_excluded c) p - match qfind h c with Some old => occ (excludes old) p | None => 0 end
   + occ (excludes v) p)%Z.
Proof.
  unfold all_excluded. induction 1 as [|[k w] c Hs IH Hk]; cbn [qset qfind map concat snd].
  - rewrite app_nil_r. unfold occ at 2. cbn. lia.
  - destruct (bool_decide (h = k)) eqn:E; cbn [map concat snd]; [rewrite !occ_app; lia|].
    destruct (Nat.ltb_spec (hop_index h) (hop_index k)); cbn [map concat snd];
      rewrite !occ_app; [|rewrite IH; lia].
    assert (Hn : qfind h c = None).
    { clear -Hk H0. induction Hk as [|[k' w'] c Hk' _ IH]; cbn in *; [done|].
      rewrite bool_decide_eq_false_2; [done|]. intros ->. lia. }
    rewrite Hn. lia.
Qed.

Lemma qfind_occ h c old p :
  qfind h c = Some old -> (occ (excludes old) p <= occ (all_excluded c) p)%Z.
Proof.
  unfold all_excluded. induction c as [|[k w] c IH]; cbn; [done|]. rewrite occ_app.
  pose proof (occ_nonneg (excludes w) p).
  destruct (bool_decide (h = k)); intros E; simplify_eq.
  - pose proof (occ_nonneg (concat (map (fun hc => excludes hc.2) c)) p). lia.
  - specialize (IH E). lia.
Qed.

(** Excluded addresses that [QHostAddress] reads as [IPAddress] does: single hosts. *)
Definition plain (config : InterfaceConfig) : bool :=
  forallb (fun i => bool_decide (excluded_prefix i = IPAddress_fromHost (parseAddress i)))
    (m_excludedAddresses config).

Lemma plain_prefixes state :
  plain (m_config state) = true -> old_prefixes state = excludes state.
Proof.
  unfold plain, old_prefixes, excludes, prefixes. rewrite forallb_forall. intros Hf.
  apply map_ext_in. intros i Hi. specialize (Hf i Hi). by bprop.
Qed.

Section Peers.
Hypothesis peers_deleted : forall h c, answer h (DeletePeer c) = true.

Lemma gives_sure f v v0 : keeps f -> (forall s, (f s).1 = true) -> gives f v v v0.
Proof.
  intros Hf Ht s Hs. specialize (Hf s _ _ _ Hs). specialize (Ht s).
  destruct (f s) as [[] s']; done.
Qed.

Lemma switchServer_spec config state c m t :
  counts_ok m -> qfind (m_hopType config) c = Some state ->
  gives (switchServer config) (c, m, t)
    (joined config c, dec_all (old_prefixes state) (add_all (m_excludedAddresses config) m), t)
    (c, m, t).
Proof.
  intros Hm Hq s Hs. unfold switchServer, mbind at 1, act_bind at 1, gets.
  rewrite (shows_connections _ _ _ _ Hs). cbn [fst]. rewrite Hq. revert s Hs.
  eapply gives_require; [apply gives_add|].
  eapply gives_require; [apply gives_rollback; [done|]|].
  { needs. apply gives_keeps, undisturbed_switch_routes. }
  apply (gives_then _ _ _ (c, dec_all (old_prefixes state) (add_all (m_excludedAddresses config) m), t)).
  { intros s Hs. exact (shows_del_all (fun i => IPAddress_fromHost (parseAddress i)) _ _ _ _ _ Hs). }
  apply gives_bind; [keeps|intros _].
  eapply gives_require.
  { apply gives_sure; [keeps|]. intros s. destruct (String.eqb _ _); [done|]. apply peers_deleted. }
  eapply gives_then; [apply shown_connect|]. apply gives_true.
Qed.

(** The counters count what the connections exclude. *)
Record tallied (v : shot) : Prop := {
  tallied_ordered : ordered v.1.1;
  tallied_plain : Forall (fun hc => plain (m_config hc.2) = true) v.1.1;
  tallied_counts : forall p, cnt v.1.2 p = occ (all_excluded v.1.1) p
}.

Definition balanced (s : daemon) : Prop := exists v, shown s v /\ tallied v.

Lemma tallied_timer c m t t' : tallied (c, m, t) -> tallied (c, m, t').
Proof. by intros []. Qed.

Lemma qfind_qset h v c : qfind h (qset h v c) = Some v.
Proof.
  induction c as [|[k w] c IH]; cbn [qset qfind]; [by rewrite bool_decide_eq_true_2|].
  destruct (bool_decide (h = k)) eqn:E; cbn [qfind]; [by rewrite bool_decide_eq_true_2|].
  destruct (_ <? _)%nat; cbn [qfind]; [by rewrite bool_decide_eq_true_2|]. by rewrite E.
Qed.

(** A new connection, one that replaces another, and one recorded again. *)
Lemma tallied_join config c m t m' t' :
  tallied (c, m, t) -> plain config = true ->
  (forall p, cnt m' p =
     (cnt m p - match qfind (m_hopType config) c with
                | Some old => occ (excludes old) p | None => 0 end
      + occ (prefixes (m_excludedAddresses config)) p)%Z) ->
  tallied (joined config c, m', t').
Proof.
  intros [Ho Hp Hc] Hpl Hm. cbn [fst snd] in *. constructor; cbn [fst snd].
  - by apply qset_ordered.
  - by apply Forall_qset.
  - intros p. unfold joined. rewrite qset_occ by done. rewrite Hm, Hc. done.
Qed.

Lemma shown_counts s v : shown s v -> counts_ok v.1.2.
Proof. by intros []. Qed.

Lemma balanced_bring_up config s :
  balanced s -> plain config = true -> qfind (m_hopType config) (m_connections s) = None ->
  balanced (bring_up config s).2.
Proof.
  intros ([[c m] t] & Hs & Ht) Hp Hq. pose proof (shown_counts _ _ Hs) as Hm. cbn in Hm.
  pose proof (bring_up_spec config c m t Hm s Hs) as Hb.
  destruct (bring_up config s) as [[] s']; eexists; (split; [exact Hb|]); [|done].
  apply (tallied_join config c m t); [done..|]. rewrite (shows_connections _ _ _ _ Hs) in Hq.
  cbn in Hq. rewrite Hq. intros p. rewrite (proj2 (add_all_spec _ m Hm)). lia.
Qed.

Lemma tallied_switch config state c m t :
  counts_ok m -> tallied (c, m, t) -> plain config = true ->
  qfind (m_hopType config) c = Some state ->
  tallied (joined config c,
           dec_all (old_prefixes state) (add_all (m_excludedAddresses config) m), t).
Proof.
  intros Hm Ht Hp Hq. apply (tallied_join config c m t); [done..|]. rewrite Hq. intros p.
  destruct (add_all_spec (m_excludedAddresses config) m Hm) as [Ha Hc].
  assert (Hpl : plain (m_config state) = true).
  { pose proof (tallied_plain _ Ht) as Hf. cbn in Hf. clear -Hf Hq.
    induction Hf as [|[k w] c Hw _ IH]; cbn in *; [done|]. destruct (bool_decide _); naive_solver. }
  rewrite (plain_prefixes _ Hpl).
  pose proof (qfind_occ _ _ _ p Hq) as Hle.
  assert (Hcm : cnt m p = occ (all_excluded c) p) by exact (tallied_counts _ Ht p).
  pose proof (occ_nonneg (prefixes (m_excludedAddresses config)) p).
  rewrite cnt_dec_all by (try done; rewrite Hc; lia). rewrite Hc. lia.
Qed.

Lemma balanced_keeps {A} (f : act A) s : keeps f -> balanced s -> balanced (f s).2.
Proof. intros Hf (v & Hs & Ht). exists v. split; [by apply Hf|done]. Qed.

(** After [switchServer] the new configuration is recorded; recording it again changes
    nothing. *)
Lemma balanced_again config s :
  balanced s -> plain config = true ->
  qfind (m_hopType config) (m_connections s) = Some (mkConnection None config) ->
  balanced (connect_state config s).2.
Proof.
  intros ([[c m] t] & Hs & Ht) Hp Hq. eexists. split; [by apply shown_connect|].
  rewrite (shows_connections _ _ _ _ Hs) in Hq. cbn in Hq.
  apply (tallied_join config c m t); [done..|]. intros p. rewrite Hq. unfold excludes. cbn. lia.
Qed.

Lemma balanced_timer s : balanced s -> balanced (start_handshake_timer s).2.
Proof.
  intros ([[c m] t] & Hs & Ht). eexists. split; [by eapply shown_timer|]. by eapply tallied_timer.
Qed.

(** The rest of a switch, when the new configuration is recorded already. *)
Lemma balanced_switched config s :
  balanced s -> plain config = true ->
  qfind (m_hopType config) (m_connections s) = Some (mkConnection None config) ->
  balanced ((need ask RestoreResolvers ;; need maybeUpdateResolvers config ;;
             need ask (Run Switch config) ;;
             connect_state config ;; start_handshake_timer ;; mret true) s).2.
Proof.
  intros Hb Hp Hq.
  assert (Hstep : forall (f k : act bool) s, keeps f ->
    balanced s -> qfind (m_hopType config) (m_connections s) = Some (mkConnection None config) ->
    (forall s', balanced s' ->
       qfind (m_hopType config) (m_connections s') = Some (mkConnection None config) ->
       balanced (k s').2) -> balanced (require f k s).2).
  { clear -Hp. intros f k s Hf Hb Hq Hk. unfold require, mbind, act_bind.
    pose proof (balanced_keeps f s Hf Hb) as Hb'. destruct Hb as (v & Hs & _).
    pose proof (Hf s _ _ _ Hs) as Hs'. destruct (f s) as [[] s']; [|done]. cbn [snd] in Hs'. apply Hk; [done|].
    by rewrite (shows_connections _ _ _ _ Hs'), <- (shows_connections _ _ _ _ Hs). }
  apply Hstep; [keeps|done..|]. intros s1 H1 Q1.
  apply Hstep; [apply undisturbed_resolvers|done..|]. intros s2 H2 Q2.
  apply Hstep; [keeps|done..|]. intros s3 H3 Q3.
  apply (balanced_timer (connect_state config s3).2). by apply balanced_again.
Qed.

Lemma balanced_switch config s :
  balanced s -> plain config = true -> is_Some (qfind (m_hopType config) (m_connections s)) ->
  balanced (switch_over config s).2.
Proof.
  intros ([[c m] t] & Hs & Ht) Hp [state Hq]. pose proof (shown_counts _ _ Hs) as Hm. cbn in Hm.
  rewrite (shows_connections _ _ _ _ Hs) in Hq. cbn in Hq.
  pose proof (switchServer_spec config state c m t Hm Hq s Hs) as Hw.
  unfold switch_over, require at 1, mbind at 1, act_bind at 1.
  destruct (switchServer config s) as [[] s']; [|by eexists].
  apply balanced_switched; [|done|].
  - eexists. split; [exact Hw|]. by apply tallied_switch.
  - rewrite (shows_connections _ _ _ _ Hw). apply qfind_qset.
Qed.

Lemma balanced_deactivate b s : balanced s -> balanced (deactivate b s).2.
Proof.
  intros ([[c m] t] & Hs & Ht). pose proof (deactivate_spec b s c m t Hs) as Hd.
  destruct (deactivate b s) as [r s']. destruct Hd as [[_ ?]|Hd]; [by eexists|].
  exists ([], ∅, t). split; [done|]. constructor; cbn; [constructor..|].
  intros p. unfold cnt. by rewrite lookup_empty.
Qed.

Lemma balanced_activate_body again config s :
  (forall s, balanced s -> balanced (again s).2) -> balanced s -> plain config = true ->
  balanced (activate_body again config s).2.
Proof.
  intros Ha Hb Hp. unfold activate_body, guarded, mbind at 1, act_bind at 1.
  match goal with |- context [let '(_, _) := ?X in _] => assert (Hx : balanced X.2) end.
  { destruct (qfind (m_hopType config) (m_connections s)) eqn:Eq.
    - destruct (supportServerSwitching config s).
      + apply balanced_switch; [done..|]. by rewrite Eq.
      + unfold require, mbind, act_bind. pose proof (balanced_deactivate false s Hb) as Hd.
        destruct (deactivate false s) as [[] s']; [by apply Ha|done].
    - by apply balanced_bring_up. }
  match goal with |- context [let '(_, _) := ?X in _] => destruct X as [[] s'] end; [done|].
  exact (balanced_keeps (emit activationFailure) s' (undisturbed_emit _) Hx).
Qed.

Lemma balanced_activate config s :
  balanced s -> plain config = true -> balanced (activate config s).2.
Proof. intros Hb Hp. by repeat (apply balanced_activate_body; try done; intros ? ?). Qed.
End Peers.
End Deletes.
End Facts.
