(* ===== verification/DaemonTheorems.v ===== *)
(** * The daemon: theorems

    Which routes bypass the tunnel, what a failed activation and a deactivation leave behind,
    and how handshakes are reported; over every sequence of requests and timeouts and every
    behaviour of the system. *)

From S2P Require Import Prelude Json IpAddress Lines InterfaceConfig Daemon DaemonFacts.
From stdpp Require Import sorting.

Section Poll.
Context `{Platform}.

(** ** Handshakes *)

Definition pending_connections (m : list (HopType * ConnectionState)) : nat :=
  length (filter (fun hc => m_date hc.2 = None) m).

(** Whether a peer with this key has completed a handshake. *)
Definition shaken (pubkey : string) (peers : list PeerStatus) : bool :=
  existsb (fun st => String.eqb pubkey (m_pubkey st) && negb (m_handshake st =? 0)%Z) peers.

Lemma poll_peers_spec pubkey peers date0 out0 :
  let '(date, out) :=
    fold_left (fun '(date, out) status =>
      if negb (String.eqb pubkey (m_pubkey status)) then (date, out)
      else if (m_handshake status =? 0)%Z then (date, out)
      else (Some (m_handshake status), out ++ [Emitted (connected (m_pubkey status))]))
      peers (date0, out0) in
  (if shaken pubkey peers then is_Some date else date = date0) /\
  exists new, out = out0 ++ new /\ Forall (fun e => e = Emitted (connected pubkey)) new /\
    (new <> [] <-> shaken pubkey peers = true).
Proof.
  revert date0 out0. induction peers as [|st peers IH]; intros date0 out0; cbn [fold_left].
  - split; [done|]. exists []. by rewrite app_nil_r.
  - unfold shaken. cbn [existsb]. fold (shaken pubkey peers).
    destruct (String.eqb_spec pubkey (m_pubkey st)) as [Ek|]; cbn [negb andb orb]; [|apply IH].
    destruct (m_handshake st =? 0)%Z eqn:Eh; cbn [negb orb]; [apply IH|].
    specialize (IH (Some (m_handshake st)) (out0 ++ [Emitted (connected (m_pubkey st))])).
    destruct (fold_left _ _ _) as [date out]. destruct IH as [Hd (new & -> & Hf & _)].
    split; [destruct (shaken pubkey peers); [done|by rewrite Hd]|].
    exists (Emitted (connected (m_pubkey st)) :: new). rewrite <- app_assoc. split_and!; [done| |done].
    constructor; [by rewrite Ek|done].
Qed.

(** The announcements of one connection and of the others. *)
Lemma announced h c m peers new out' :
  m_date c = None ->
  Forall (fun e => e = Emitted (connected (m_serverPublicKey (m_config c)))) new ->
  (new <> [] <-> shaken (m_serverPublicKey (m_config c)) peers = true) ->
  (forall e, e ∈ out' <-> exists hc : HopType * ConnectionState, hc ∈ m /\ m_date hc.2 = None /\
     shaken (m_serverPublicKey (m_config hc.2)) peers = true /\
     e = Emitted (connected (m_serverPublicKey (m_config hc.2)))) ->
  forall e, e ∈ new ++ out' <-> exists hc, hc ∈ (h, c) :: m /\ m_date hc.2 = None /\
     shaken (m_serverPublicKey (m_config hc.2)) peers = true /\
     e = Emitted (connected (m_serverPublicKey (m_config hc.2))).
Proof.
  intros Hc Hf Hn Ho e. rewrite elem_of_app, Ho. rewrite Forall_forall in Hf. split.
  - intros [He|(hc & ? & ?)]; [|exists hc; by rewrite elem_of_cons; auto].
    exists (h, c). rewrite elem_of_cons. split_and!; [by left|done| |by apply Hf].
    apply Hn. intros ->. by apply not_elem_of_nil in He.
  - intros (hc & [->|Hin]%elem_of_cons & Hd & Hs & ->); [left|right; by exists hc].
    apply Hn in Hs. destruct new as [|x new]; [done|]. cbn. rewrite (Hf x) by (by left). by left.
Qed.

(** What one poll does: connections keep their configurations; exactly those that waited and
    whose peer has completed a handshake get a date and are announced. *)
Lemma poll_spec peers m :
  let '(m', out, n) := poll peers m in
  map (fun hc => (hc.1, m_config hc.2)) m' = map (fun hc => (hc.1, m_config hc.2)) m /\
  n = pending_connections m' /\
  Forall2 (fun hc hc' => match m_date hc.2 with
     | Some _ => hc' = hc
     | None => is_Some (m_date hc'.2) <-> shaken (m_serverPublicKey (m_config hc.2)) peers = true
     end) m m' /\
  (forall e, e ∈ out <-> exists hc, hc ∈ m /\ m_date hc.2 = None /\
     shaken (m_serverPublicKey (m_config hc.2)) peers = true /\
     e = Emitted (connected (m_serverPublicKey (m_config hc.2)))).
Proof.
  induction m as [|[h c] m IH]; cbn [poll].
  - split_and!; [done..|constructor|]. intros e. split; [by intros ?%not_elem_of_nil|].
    by intros (? & ?%not_elem_of_nil & _).
  - destruct (poll peers m) as [[m' out'] n']. destruct IH as (H1 & H2 & H3 & H4).
    destruct (m_date c) eqn:Ed.
    + split_and!; [by cbn; rewrite H1| |constructor; [by cbn; rewrite Ed|done]|].
      * unfold pending_connections. rewrite filter_cons_False by (cbn; by rewrite Ed). done.
      * intros e. rewrite H4. setoid_rewrite elem_of_cons. split; [naive_solver|].
        intros (hc & [->|?] & Hd & ?); [cbn in Hd; congruence|naive_solver].
    + unfold poll_peers. pose proof (poll_peers_spec (m_serverPublicKey (m_config c)) peers None []) as Hp.
      destruct (fold_left _ _ _) as [date out]. destruct Hp as [Hd (new & -> & Hf & Hn)].
      cbn [app]. split_and!; [by cbn; rewrite H1| |constructor; [|done]|].
      * unfold pending_connections. rewrite filter_cons. cbn.
        destruct date; cbn; [|by rewrite H2]. by rewrite decide_False by done.
      * cbn. rewrite Ed. destruct (shaken _ peers); [naive_solver|]. rewrite Hd.
        split; [by intros []|done].
      * apply announced; done.
Qed.

Lemma installed_app h out :
  Forall (fun e => exists sg, e = Emitted sg) out -> installed (h ++ out) = installed h.
Proof.
  intros Hf. revert h. induction Hf as [|e out [sg ->] _ IH]; intros h; [by rewrite app_nil_r|].
  rewrite cons_middle, app_assoc, IH. by rewrite installed_snoc.
Qed.

(** A timeout changes dates only. *)
Lemma shown_handshake s c m t :
  shown s (c, m, t) ->
  exists c' t', shown (checkHandshake s) (c', m, t') /\
    map (fun hc => (hc.1, m_config hc.2)) c' = map (fun hc => (hc.1, m_config hc.2)) c.
Proof.
  intros [H1 H2 H3 H4 H5]. cbn [fst snd] in *. unfold checkHandshake. rewrite H1.
  pose proof (poll_spec (peerStatus (d_history s)) c) as Hp.
  destruct (poll _ c) as [[c' out] n]. destruct Hp as (Hm & _ & _ & Ho).
  exists c', (0 <? n)%nat. split; [|done]. constructor; cbn; try done.
  rewrite installed_app; [done|]. apply Forall_forall. intros e (hc & _ & _ & _ & ->)%Ho. eauto.
Qed.

Lemma shown_status s v : shown s v -> shown (getStatus s).2 v.
Proof.
  intros Hs. pose proof (undisturbed_ask InterfaceExists eq_refl s _ _ _ Hs) as Ha.
  unfold getStatus. destruct (ask InterfaceExists s) as [b s']. cbn [snd] in Ha.
  destruct (m_connections s') as [|[h c] r]; [done|]. destruct b; cbn; [|done].
  by destruct (List.find _ _).
Qed.
End Poll.

(** ** Runs *)

Section Runs.
Context `{Platform}.
Hypothesis deletes_succeed : forall h p, answer h (DeleteExclusionRoute p) = true.

Lemma sane_step e s : sane s -> sane (daemon_step e s).
Proof.
  intros Hs. destruct e as [config|b| |]; cbn [daemon_step].
  - by apply safe_activate.
  - by apply safe_deactivate.
  - destruct (m_handshakeTimer s); [|done]. destruct Hs as [[[c m] t] Hs].
    destruct (shown_handshake s c m t Hs) as (c' & t' & Hc & _). by eexists.
  - destruct Hs as [v Hs]. exists v. by apply shown_status.
Qed.

Lemma shown_new : shown new_daemon ([], ∅, false).
Proof. by constructor. Qed.

Lemma run_ind (P : daemon -> Prop) (ok : daemon_event -> Prop) es :
  P new_daemon -> (forall e s, ok e -> P s -> P (daemon_step e s)) -> Forall ok es ->
  P (daemon_run es).
Proof.
  intros H0 Hs. unfold daemon_run. revert H0. generalize new_daemon.
  intros s H0 Hf. revert s H0. induction Hf as [|e es He _ IH]; intros s H0; [done|]. by apply IH, Hs.
Qed.

Lemma sane_run es : sane (daemon_run es).
Proof.
  apply (run_ind sane (fun _ => True)); [by eexists; apply shown_new| |by apply Forall_true].
  intros e s _. apply sane_step.
Qed.

Section Plain.
Hypothesis peers_deleted : forall h c, answer h (DeletePeer c) = true.

(** Requests whose exclusions are single hosts. *)
Definition plain_event (e : daemon_event) : bool :=
  match e with Activate config => plain config | _ => true end.

Lemma all_excluded_configs c c' :
  map (fun hc => (hc.1, m_config hc.2)) c' = map (fun hc => (hc.1, m_config hc.2)) c ->
  all_excluded c' = all_excluded c.
Proof.
  intros E. unfold all_excluded. f_equal. apply (f_equal (map (fun x : HopType * InterfaceConfig =>
    prefixes (m_excludedAddresses x.2)))) in E. by rewrite !map_map in E.
Qed.

Lemma ordered_keys c :
  ordered c <-> StronglySorted lt (map (fun hc => hop_index hc.1) c).
Proof.
  unfold ordered. induction c as [|x c IH]; cbn; [by split; constructor|]. split.
  - intros [Hs Hf]%StronglySorted_inv. constructor; [by apply IH|]. exact (proj2 (Forall_fmap (fun hc => hop_index hc.1) _ c) Hf).
  - intros [Hs Hf]%StronglySorted_inv. constructor; [by apply IH|]. exact (proj1 (Forall_fmap (fun hc => hop_index hc.1) _ c) Hf).
Qed.

Lemma tallied_configs c c' m t t' :
  map (fun hc => (hc.1, m_config hc.2)) c' = map (fun hc => (hc.1, m_config hc.2)) c ->
  tallied (c, m, t) -> tallied (c', m, t').
Proof.
  intros E [Ho Hp Hc]. cbn [fst snd] in *. constructor; cbn [fst snd].
  - apply ordered_keys. apply ordered_keys in Ho.
    apply (f_equal (map (fun x : HopType * InterfaceConfig => hop_index x.1))) in E.
    rewrite !map_map in E. cbn in E. by rewrite E.
  - assert (Hf : Forall (fun x => plain x.2 = true) (map (fun hc => (hc.1, m_config hc.2)) c))
      by exact (proj2 (Forall_fmap (fun hc => (hc.1, m_config hc.2)) _ c) Hp).
    rewrite <- E in Hf.
    exact (proj1 (Forall_fmap (fun hc => (hc.1, m_config hc.2)) _ c') Hf).
  - by rewrite (all_excluded_configs c c' E).
Qed.

Lemma balanced_step e s : plain_event e = true -> balanced s -> balanced (daemon_step e s).
Proof.
  intros He Hs. destruct e as [config|b| |]; cbn [daemon_step].
  - by apply balanced_activate.
  - by apply balanced_deactivate.
  - destruct (m_handshakeTimer s); [|done]. destruct Hs as ([[c m] t] & Hs & Ht).
    destruct (shown_handshake s c m t Hs) as (c' & t' & Hc & E). eexists. split; [exact Hc|].
    by eapply tallied_configs.
  - destruct Hs as (v & Hs & Ht). exists v. split; [by apply shown_status|done].
Qed.

Lemma balanced_run es : Forall (fun e => plain_event e = true) es -> balanced (daemon_run es).
Proof.
  apply (run_ind balanced (fun e => plain_event e = true)).
  - exists ([], ∅, false). split; [apply shown_new|]. constructor; cbn; [constructor..|].
    intros p. unfold cnt. by rewrite lookup_empty.
  - apply balanced_step.
Qed.
End Plain.
End Runs.

(** ** Signals *)

Section Signals.
Context `{Platform}.

Definition no_failure (e : event) : Prop := e <> Emitted activationFailure.

(** [f] only adds events that are not the failure signal. *)
Definition quiet {A} (f : act A) : Prop :=
  forall s, exists new, d_history (f s).2 = d_history s ++ new /\ Forall no_failure new.

Lemma quiet_same {A} (f : act A) : (forall s, d_history (f s).2 = d_history s) -> quiet f.
Proof. intros Hf s. exists []. rewrite Hf, app_nil_r. split; [done|constructor]. Qed.

Lemma quiet_ask c : quiet (ask c).
Proof. intros s. eexists. split; [done|]. by repeat constructor. Qed.

Lemma quiet_emit sg : sg <> activationFailure -> quiet (emit sg).
Proof.
  intros Hs s. eexists. split; [done|]. repeat constructor. by intros [= ->].
Qed.

Lemma quiet_bind {A B} (f : act A) (k : A -> act B) :
  quiet f -> (forall a, quiet (k a)) -> quiet (mbind k f).
Proof.
  intros Hf Hk s. destruct (Hf s) as (n1 & H1 & F1). unfold mbind, act_bind.
  destruct (f s) as [a s']. destruct (Hk a s') as (n2 & H2 & F2). cbn [snd] in *.
  exists (n1 ++ n2). rewrite H2, H1, app_assoc. split; [done|]. by apply Forall_app.
Qed.

Lemma quiet_each {A B} (f : A -> act B) l : (forall x, quiet (f x)) -> quiet (each f l).
Proof.
  intros Hf. induction l as [|x l IH]; [by apply quiet_same|]. apply quiet_bind; [apply Hf|done].
Qed.

Lemma quiet_require f k : quiet f -> quiet k -> quiet (require f k).
Proof. intros Hf Hk. apply quiet_bind; [done|]. intros []; [done|by apply quiet_same]. Qed.

Lemma quiet_all_of {A} (f : A -> act bool) l : (forall x, quiet (f x)) -> quiet (all_of f l).
Proof.
  intros Hf. induction l as [|x l IH]; [by apply quiet_same|]. apply quiet_require; [apply Hf|done].
Qed.

Lemma quiet_guarded f k : quiet f -> quiet k -> quiet (guarded f k).
Proof.
  intros Hf Hk. apply quiet_bind; [done|]. intros []; [by apply quiet_same|].
  apply quiet_bind; [done|]. intros. by apply quiet_same.
Qed.

Ltac quiets := repeat lazymatch goal with
  | |- quiet (ask _) => apply quiet_ask
  | |- quiet (emit _) => apply quiet_emit; done
  | |- quiet (require _ _) => apply quiet_require
  | |- quiet (guarded _ _) => apply quiet_guarded
  | |- quiet (each _ _) => apply quiet_each; intros ?
  | |- quiet (all_of _ _) => apply quiet_all_of; intros ?
  | |- quiet (mbind _ _) => apply quiet_bind; [|intros ?]
  | |- quiet (match _ with _ => _ end) => case_match
  | |- quiet _ => first [ by apply quiet_same | fail 1 ]
  end.

Lemma quiet_add_each l added : quiet (add_each added l).
Proof. revert added. induction l as [|p l IH]; intros added; cbn [add_each]; quiets. apply IH. Qed.

Lemma quiet_add l : quiet (addExclusionRoutes l).
Proof.
  unfold addExclusionRoutes, wgutils_addExclusionRoutes.
  apply quiet_bind; [by apply quiet_same|]. intros m. apply quiet_require; [|quiets].
  destruct batchedExclusions; [quiets|apply quiet_add_each].
Qed.

Lemma quiet_del p : quiet (delExclusionRoute p).
Proof. unfold delExclusionRoute. quiets. Qed.

Lemma quiet_switch_routes config last k l : quiet (switch_routes config last l k).
Proof. revert l. induction k as [|ip k IH]; intros l; cbn [switch_routes]; quiets. apply IH. Qed.

Lemma quiet_resolvers config : quiet (maybeUpdateResolvers config).
Proof. unfold maybeUpdateResolvers. quiets. Qed.

Lemma quiet_rollback l : quiet (rollback_exclusions l).
Proof. apply quiet_each. intros. apply quiet_del. Qed.

Ltac quiet_ops := repeat first
  [ progress quiets | apply quiet_add | apply quiet_del | apply quiet_switch_routes
  | apply quiet_resolvers | apply quiet_rollback ].

Lemma quiet_bring_up config : quiet (bring_up config).
Proof. unfold bring_up. quiet_ops. Qed.

Lemma quiet_switch_over config : quiet (switch_over config).
Proof. unfold switch_over, switchServer. quiet_ops. Qed.

Lemma quiet_deactivate b : quiet (deactivate b).
Proof. unfold deactivate. quiet_ops. Qed.

(** An activation that reports its outcome: nothing on success, the failure signal as its last
    event otherwise. *)
Definition reports (f : act bool) : Prop := forall s,
  exists new, d_history (f s).2 = d_history s ++ new /\
    if (f s).1 then Forall no_failure new else last new = Some (Emitted activationFailure).

Lemma guarded_failure (f : act bool) s :
  guarded (emit activationFailure) f s =
  if (f s).1 then f s
  else (false, (f s).2 <| d_history := d_history (f s).2 ++ [Emitted activationFailure] |>).
Proof. unfold guarded, mbind, act_bind. by destruct (f s) as [[] s']. Qed.

(** The failure guard around a body whose successes are silent. *)
Lemma reports_guarded (f : act bool) :
  (forall s, exists new, d_history (f s).2 = d_history s ++ new /\
     ((f s).1 = true -> Forall no_failure new)) ->
  reports (guarded (emit activationFailure) f).
Proof.
  intros Hf s. rewrite guarded_failure. destruct (Hf s) as (new & Hn & Ht).
  destruct (f s) as [[] s']; cbn [fst snd] in *; [by eexists; split; [exact Hn|apply Ht]|].
  exists (new ++ [Emitted activationFailure]). cbn. rewrite Hn, app_assoc.
  split; [done|]. by rewrite last_snoc.
Qed.

Lemma reports_body again config :
  (forall s, exists new, d_history (again s).2 = d_history s ++ new /\
     ((again s).1 = true -> Forall no_failure new)) ->
  reports (activate_body again config).
Proof.
  intros Ha. apply reports_guarded. intros s.
  destruct (qfind _ _); [destruct (supportServerSwitching config s)|].
  - destruct (quiet_switch_over config s) as (new & ? & ?). eauto.
  - destruct (quiet_deactivate false s) as (n1 & H1 & F1). unfold require, mbind, act_bind.
    destruct (deactivate false s) as [[] s']; cbn [fst snd] in *; [|by eauto].
    destruct (Ha s') as (n2 & H2 & F2). exists (n1 ++ n2). rewrite H2, H1, app_assoc.
    split; [done|]. intros Ht. apply Forall_app. auto.
  - destruct (quiet_bring_up config s) as (new & ? & ?). eauto.
Qed.

Lemma reports_activate config : reports (activate config).
Proof.
  apply reports_body. intros s.
  destruct (reports_body (mret false : act bool) config) with (s := s) as (new & Hn & Ht).
  { intros s'. exists []. by rewrite app_nil_r. }
  exists new. split; [done|]. intros E. by rewrite E in Ht.
Qed.

(** [activate] calls itself at most once: the definition meets the recursive equation of the
    code. *)
Lemma bind_post {A B} (Q : B * daemon -> Prop) (f : act A) (k : A -> act B) :
  (forall a s, Q (k a s)) -> forall s, Q (mbind k f s).
Proof. intros Hk s. unfold mbind, act_bind. destruct (f s). apply Hk. Qed.

Lemma deactivate_empties b s : (deactivate b s).1 = true -> m_connections (deactivate b s).2 = [].
Proof.
  revert s. unfold deactivate, require.
  pose (Q := fun r : bool * daemon => r.1 = true -> m_connections r.2 = []).
  apply (bind_post Q). intros c. apply (bind_post Q). intros [] s; [|done]. revert s.
  do 5 (apply (bind_post Q); intros ?). intros s.
  unfold mbind, act_bind, modify, ask. cbn. done.
Qed.

Lemma deactivate_last b s :
  (deactivate b s).1 = true ->
  last (d_history (deactivate b s).2) = Some (Called DeleteInterface true).
Proof.
  revert s. unfold deactivate, require.
  pose (Q := fun r : bool * daemon => r.1 = true ->
    last (d_history r.2) = Some (Called DeleteInterface true)).
  apply (bind_post Q). intros c. apply (bind_post Q). intros [] s; [|done]. revert s.
  do 6 (apply (bind_post Q); intros ?). intros s. unfold Q, ask. cbn. intros ->.
  by rewrite last_snoc.
Qed.

Lemma activate_unfold config s : activate config s = activate_body (activate config) config s.
Proof.
  unfold activate at 1. unfold activate_body at 1 3. rewrite !guarded_failure.
  match goal with |- (if ?f.1 then _ else _) = (if ?g.1 then _ else _) => assert (E : f = g) end;
    [|by rewrite E].
  destruct (qfind (m_hopType config) (m_connections s)); [|done].
  destruct (supportServerSwitching config s); [done|]. unfold require, mbind, act_bind.
  pose proof (deactivate_empties false s) as Hd. destruct (deactivate false s) as [[] s']; [|done].
  cbn [fst snd] in Hd. unfold activate, activate_body. rewrite !guarded_failure.
  by rewrite (Hd eq_refl).
Qed.
End Signals.

(** ** Successful activations *)

Section Success.
Context `{Platform}.

(** What holds at the end of a chain whose every failure returns [false]. *)
Lemma require_post (Q : bool * daemon -> Prop) f k :
  (forall s, Q (false, s)) -> (forall s, Q (k s)) -> forall s, Q (require f k s).
Proof. intros H0 Hk s. apply (bind_post Q). intros [] s'; [apply Hk|apply H0]. Qed.

Lemma guarded_post (Q : bool * daemon -> Prop) f k :
  (forall s, Q (false, s)) -> (forall s, Q (k s)) -> forall s, Q (guarded f k s).
Proof.
  intros H0 Hk s. unfold guarded, mbind, act_bind. specialize (Hk s).
  destruct (k s) as [[] s']; [exact Hk|]. destruct (f s'). apply H0.
Qed.

Definition polls (config : InterfaceConfig) (r : bool * daemon) : Prop :=
  r.1 = true -> m_handshakeTimer r.2 = true /\
    qfind (m_hopType config) (m_connections r.2) = Some (mkConnection None config).

Lemma connected_polls config s :
  polls config ((connect_state config ;; start_handshake_timer ;; mret true) s).
Proof. intros _. cbn. split; [done|]. apply qfind_qset. Qed.

Lemma bring_up_polls config s : polls config (bring_up config s).
Proof.
  revert s. unfold bring_up. do 2 (apply (bind_post (polls config)); intros ?).
  do 3 (apply (require_post (polls config)); [by intros|]).
  apply (guarded_post (polls config)); [by intros|].
  do 4 (apply (require_post (polls config)); [by intros|]). apply connected_polls.
Qed.

Lemma switch_over_polls config s : polls config (switch_over config s).
Proof.
  revert s. unfold switch_over. do 4 (apply (require_post (polls config)); [by intros|]).
  apply connected_polls.
Qed.

Lemma body_polls again config :
  (forall s, polls config (again s)) -> forall s, polls config (activate_body again config s).
Proof.
  intros Ha. apply (guarded_post (polls config)); [by intros|]. intros s.
  destruct (qfind _ _); [destruct (supportServerSwitching config s)|].
  - apply switch_over_polls.
  - by apply (require_post (polls config)).
  - apply bring_up_polls.
Qed.

Lemma activate_polls config s : polls config (activate config s).
Proof. by apply body_polls, body_polls. Qed.

Lemma Forall2_configs (R : HopType * ConnectionState -> HopType * ConnectionState -> Prop) c c' :
  map (fun hc => (hc.1, m_config hc.2)) c' = map (fun hc => (hc.1, m_config hc.2)) c ->
  Forall2 R c c' ->
  Forall2 (fun hc hc' => hc'.1 = hc.1 /\ m_config hc'.2 = m_config hc.2 /\ R hc hc') c c'.
Proof.
  intros E Hf. induction Hf as [|x y c c' Hx _ IH]; [constructor|].
  cbn in E. injection E as E1 E2 E. constructor; auto.
Qed.
End Success.

(** ** Ranges and switches *)

Section Ranges.
Context `{Platform}.
Hypothesis deletes_succeed : forall h p, answer h (DeleteExclusionRoute p) = true.
Hypothesis peers_deleted : forall h c, answer h (DeletePeer c) = true.

(** The prefixes [switchServer] looks up are those of single hosts. *)
Lemma old_prefixes_long state p : p ∈ old_prefixes state -> (32 <= m_prefixLength p)%Z.
Proof.
  unfold old_prefixes. intros (i & -> & _)%list_elem_of_fmap. cbn.
  by destruct (protocol (parseAddress i)).
Qed.

Lemma range_stays config state m p :
  counts_ok m -> (m_prefixLength p < 32)%Z -> p ∈ dom m ->
  p ∈ dom (dec_all (old_prefixes state) (add_all (m_excludedAddresses config) m)).
Proof.
  intros Hm Hlen Hin. destruct (add_all_spec (m_excludedAddresses config) m Hm) as [Ha Hc].
  apply dom_cnt in Hin; [|done]. apply dom_cnt; [by apply dec_all_ok|].
  assert (Hz : occ (old_prefixes state) p = 0%Z).
  { pose proof (occ_nonneg (old_prefixes state) p).
    destruct (decide (1 <= occ (old_prefixes state) p)%Z) as [Ho|]; [|lia].
    apply occ_pos, old_prefixes_long in Ho. lia. }
  pose proof (occ_nonneg (prefixes (m_excludedAddresses config)) p).
  rewrite cnt_dec_all; [rewrite Hc; lia|done|rewrite Hc; lia].
Qed.

Lemma switch_over_routes config state c m t s p :
  shown s (c, m, t) -> qfind (m_hopType config) c = Some state ->
  (m_prefixLength p < 32)%Z -> p ∈ installed (d_history s) ->
  p ∈ installed (d_history (switch_over config s).2).
Proof.
  intros Hs Hq Hlen Hin. pose proof (shown_counts _ _ Hs) as Hm. cbn [fst snd] in Hm.
  rewrite (shows_installed _ _ _ _ Hs) in Hin. cbn [fst snd] in Hin.
  pose proof (switchServer_spec deletes_succeed peers_deleted config state c m t Hm Hq s Hs) as Hw.
  unfold switch_over, require at 1, mbind at 1, act_bind at 1.
  destruct (switchServer config s) as [[] s1]; [|cbn [snd mret act_ret]; by rewrite (shows_installed _ _ _ _ Hw)].
  pose proof (range_stays config state m p Hm Hlen Hin) as Hst.
  assert (Hrest : gives (need ask RestoreResolvers ;; need maybeUpdateResolvers config ;;
     need ask (Run Switch config) ;;
     connect_state config ;; start_handshake_timer ;; mret true)
     (joined config c, dec_all (old_prefixes state) (add_all (m_excludedAddresses config) m), t)
     (joined config (joined config c),
      dec_all (old_prefixes state) (add_all (m_excludedAddresses config) m), true)
     (joined config c, dec_all (old_prefixes state) (add_all (m_excludedAddresses config) m), t)).
  { do 2 (eapply gives_require;
      [apply gives_keeps; first [by apply undisturbed_ask | apply undisturbed_resolvers]|]).
    eapply gives_require; [apply gives_keeps; by apply undisturbed_ask|]. apply gives_connected. }
  specialize (Hrest s1 Hw).
  match goal with |- context [(?f s1).2] => destruct (f s1) as [[] s2] end;
    cbn [snd]; by rewrite (shows_installed _ _ _ _ Hrest).
Qed.
End Ranges.

(** ** Theorems *)

Section Theorems.
Context `{Platform}.

(** C8: The routes that bypass the tunnel are exactly those the active connections ask for.
    Whatever requests, failures and timeouts came before, as long as the system can delete
    routes and peers and the excluded addresses are single hosts, each excluded prefix is
    counted as often as the connections exclude it, and the prefixes routed around the tunnel
    are those excluded by some connection, none more and none less. *)
Theorem bypass_routes_exact es :
  (forall h p, answer h (DeleteExclusionRoute p) = true) ->
  (forall h c, answer h (DeletePeer c) = true) ->
  Forall (fun e => plain_event e = true) es ->
  let s := daemon_run es in
  installed (d_history s) = list_to_set (all_excluded (m_connections s)) /\
  forall p, cnt (m_excludedAddrSet s) p = occ (all_excluded (m_connections s)) p.
Proof.
  intros Hd Hp Hes. destruct (balanced_run Hd Hp es Hes) as ([[c m] t] & [H1 H2 H3 H4 H5] & [_ _ Hc]).
  cbn [fst snd] in *. cbv zeta. rewrite H1, H2, H4. split; [|exact Hc].
  apply set_eq. intros p. rewrite (dom_cnt m p H5), Hc, occ_pos, elem_of_list_to_set. done.
Qed.

(** A tunnel that was taken down leaves nothing behind: after any history, when
    [deactivate] returns [true], there is no connection, no counted exclusion and no route that
    bypasses a tunnel any more, and the last thing done was the successful removal of the
    interface. *)
Theorem deactivate_leaves_nothing es b s' :
  (forall h p, answer h (DeleteExclusionRoute p) = true) ->
  deactivate b (daemon_run es) = (true, s') ->
  m_connections s' = [] /\ m_excludedAddrSet s' = ∅ /\ installed (d_history s') = ∅ /\
  last (d_history s') = Some (Called DeleteInterface true).
Proof.
  intros Hd E. destruct (sane_run Hd es) as [[[c m] t] Hs].
  pose proof (deactivate_spec Hd b _ c m t Hs) as Hx. rewrite E in Hx.
  destruct Hx as [[? _]|[H1 H2 H3 H4 _]]; [done|]. cbn [fst snd] in *.
  rewrite H4, dom_empty_L. split_and!; [done..|].
  pose proof (deactivate_last b (daemon_run es)) as Hl. rewrite E in Hl. by apply Hl.
Qed.

(** C10: An activation that fails has no effect on what is connected or excluded, on a system
    where every deletion of an exclusion route succeeds (the daemon keeps an entry whose route
    it could not delete).  When no tunnel of the kind exists and [activate] returns [false], the
    connections, the counted exclusions, the routes that bypass the tunnel and the timer are as
    before; and in every case [activationFailure] is emitted, as the last event, exactly when
    [activate] returns [false]. *)
Theorem failed_activation_rolled_back es config :
  (forall h p, answer h (DeleteExclusionRoute p) = true) ->
  let s := daemon_run es in
  let '(b, s') := activate config s in
  (exists new, d_history s' = d_history s ++ new /\
     if b then Emitted activationFailure ∉ new
     else last new = Some (Emitted activationFailure)) /\
  (qfind (m_hopType config) (m_connections s) = None -> b = false ->
   m_connections s' = m_connections s /\ m_excludedAddrSet s' = m_excludedAddrSet s /\
   installed (d_history s') = installed (d_history s) /\
   m_handshakeTimer s' = m_handshakeTimer s).
Proof.
  intros Hd s. pose proof (reports_activate config s) as (new & Hn & Hr).
  assert (Hroll : qfind (m_hopType config) (m_connections s) = None ->
    (activate config s).1 = false -> forall v, shown s v -> shown (activate config s).2 v).
  { intros Hq Hb [[c m] t] Hs. revert Hb. rewrite activate_unfold. unfold activate_body.
    rewrite guarded_failure, Hq.
    pose proof (bring_up_spec Hd config c m t (shown_counts _ _ Hs) s Hs) as Hu.
    destruct (bring_up config s) as [[] s1]; [done|]. intros _.
    exact (undisturbed_emit activationFailure s1 _ _ _ Hu). }
  destruct (activate config s) as [b s']. cbn [fst snd] in *. split.
  - exists new. split; [done|]. destruct b; [|done]. intros Hin. rewrite Forall_forall in Hr.
    by apply Hr in Hin.
  - intros Hq Hb. destruct (sane_run Hd es) as [v Hs]. pose proof (Hroll Hq Hb v Hs) as Hs'.
    destruct Hs as [A1 A2 A3 A4 _], Hs' as [B1 B2 B3 B4 _]. fold s in A1, A2, A3, A4.
    by rewrite A1, A2, A3, A4.
Qed.

(** The connections a poll leaves waiting. *)
Definition waiting (s : daemon) : list (HopType * ConnectionState) :=
  filter (fun hc => m_date hc.2 = None) (m_connections s).

(** Handshakes are polled and reported.  A successful activation starts the timer and records
    the connection without a date; each time the timer fires, [connected] is emitted for
    exactly those keys whose connection was waiting and whose peer has completed a
    handshake, exactly these connections get a date, no configuration changes, and the timer is
    started again exactly when some connection still waits. *)
Theorem handshakes_reported config s :
  ((activate config s).1 = true ->
   m_handshakeTimer (activate config s).2 = true /\
   qfind (m_hopType config) (m_connections (activate config s).2) = Some (mkConnection None config)) /\
  (let s' := checkHandshake s in
   let peers := peerStatus (d_history s) in
   (m_handshakeTimer s' = true <-> waiting s' <> []) /\
   Forall2 (fun hc hc' => hc'.1 = hc.1 /\ m_config hc'.2 = m_config hc.2 /\
     match m_date hc.2 with
     | Some _ => hc' = hc
     | None => is_Some (m_date hc'.2) <-> shaken (m_serverPublicKey (m_config hc.2)) peers = true
     end) (m_connections s) (m_connections s') /\
   exists out, d_history s' = d_history s ++ out /\
     forall e, e ∈ out <-> exists hc, hc ∈ waiting s /\
       shaken (m_serverPublicKey (m_config hc.2)) peers = true /\
       e = Emitted (connected (m_serverPublicKey (m_config hc.2)))).
Proof.
  split; [apply activate_polls|]. cbv zeta. unfold checkHandshake.
  pose proof (poll_spec (peerStatus (d_history s)) (m_connections s)) as Hp.
  destruct (poll _ _) as [[m' out] n]. destruct Hp as (H1 & H2 & H3 & H4).
  unfold upd, setter. cbn [m_handshakeTimer m_connections d_history]. split_and!.
  - unfold waiting. cbn [m_connections]. rewrite Nat.ltb_lt, H2. unfold pending_connections.
    destruct (filter _ m'); cbn; split; [lia|done|done|lia].
  - apply (Forall2_configs _ _ _ H1 H3).
  - exists out. split; [done|]. intros e. rewrite H4. unfold waiting.
    setoid_rewrite list_elem_of_filter. naive_solver.
Qed.

(** Switching servers never removes an excluded range.  [switchServer] looks the old
    exclusions up by [QHostAddress(i)], which has the prefix length of a single host, so a
    range (a prefix shorter than 32 bits) that bypasses the tunnel before a switch still
    bypasses it afterwards, also when the new configuration does not exclude it. *)
Theorem switch_keeps_old_ranges es config p :
  (forall h p, answer h (DeleteExclusionRoute p) = true) ->
  (forall h c, answer h (DeletePeer c) = true) ->
  let s := daemon_run es in
  supportServerSwitching config s = true ->
  (m_prefixLength p < 32)%Z ->
  p ∈ installed (d_history s) ->
  p ∈ installed (d_history (activate config s).2).
Proof.
  intros Hd Hp s Hsw Hlen Hin. destruct (sane_run Hd es) as [[[c m] t] Hs]. fold s in Hs.
  rewrite activate_unfold. unfold activate_body. rewrite guarded_failure.
  assert (Hq : is_Some (qfind (m_hopType config) (m_connections s))).
  { unfold supportServerSwitching in Hsw. by destruct (qfind _ _). }
  destruct Hq as [state Hq]. rewrite Hq, Hsw.
  pose proof (switch_over_routes Hd Hp config state c m t s p Hs) as Hr.
  rewrite (shows_connections _ _ _ _ Hs) in Hq. specialize (Hr Hq Hlen Hin).
  destruct (switch_over config s) as [[] s']; [exact Hr|]. cbn in *.
  by rewrite installed_snoc.
Qed.
End Theorems.

(** ** The theorems at work *)

(** Dotted quads, ranges of them, and one IPv6 address; other texts are not read. *)
Definition sample_parse (s : string) : QHostAddress :=
  if String.eqb s "2001:db8::1" then V6 [32; 1; 13; 184; 0; 0; 0; 0; 0; 0; 0; 0; 0; 0; 0; 1]%Z
  else match map digits (split_char "." s) with
  | [Some a; Some b; Some c; Some d] => V4 (a * 2 ^ 24 + b * 2 ^ 16 + c * 2 ^ 8 + d)
  | _ => NullAddress
  end.

Definition sample_subnet (s : string) : QHostAddress * Z :=
  match split_char "/" s with
  | [a; p] => match digits p with Some n => (sample_parse a, n) | None => (NullAddress, -1)%Z end
  | _ => (NullAddress, -1)%Z
  end.

#[export] Instance longer_first_dec : RelDecision longer_first.
Proof. unfold longer_first. intros a b. apply _. Defined.

#[export] Instance longer_first_total : Total longer_first.
Proof. intros a b. unfold longer_first. lia. Qed.

(** A system in which the calls of [ok] succeed and the peer "peer" has answered. *)
Definition sample_system (ok : call -> bool) : Platform.
Proof.
  refine {| platform_text := {| parseAddress := sample_parse; parseSubnet := sample_subnet;
                                addressText _ := "" |};
            q_os_windows := false; supportIPUtils := true; batchedExclusions := false;
            interfaceName := "amn0"; dateText _ := "";
            keyToValue k := List.find (fun h => String.eqb k (hop_key h))
                              [SingleHop; MultiHopEntry; MultiHopExit];
            std_sort := merge_sort longer_first;
            hash_order := map_to_list;
            answer _ c := ok c;
            peerStatus _ := [mkPeer "peer" 1700000000000 10 20] |}.
  - by intros [].
  - apply merge_sort_Permutation.
  - intros l. apply (Sorted_merge_sort longer_first).
  - done.
Defined.

(** Every call succeeds; and one in which tunnels cannot be started. *)
Definition sample_platform : Platform := sample_system (fun _ => true).
Definition failing_platform : Platform :=
  sample_system (fun c => match c with Run Up _ => false | _ => true end).

(** A configuration with the given exclusions, as [parseConfig] reads it. *)
Definition sample_json (excluded : list string) : obj :=
  oof [("privateKey", JStr "key"); ("serverPublicKey", JStr "peer"); ("serverPort", JInt 51820);
       ("deviceIpv4Address", JStr "10.8.1.2/32"); ("serverIpv4AddrIn", JStr "192.0.2.1");
       ("allowedIPAddressRanges",
        JArr [JObj (oof [("address", JStr "0.0.0.0"); ("range", JInt 0); ("isIpv6", JBool false)])]);
       ("excludedAddresses", JArr (map JStr excluded))].

Definition sample_config (excluded : list string) : InterfaceConfig :=
  match @parseConfig sample_platform (sample_json excluded) with
  | Some c => c
  | None => mkConfig SingleHop "" None None "" "" "" None None None "" "" 0 0 "" [] [] [] [] false
              "" "" "" "" "" "" "" "" "" "" "" [] "" "" "" "" "" "" "" "" ""
  end.

Definition sample_events : list daemon_event :=
  [Activate (sample_config ["192.0.2.1"; "198.51.100.7"]); Timeout;
   Activate (sample_config ["198.51.100.7"]); Status].

Lemma bypass_routes_exact_witness :
  Forall (fun e => @plain_event sample_platform e = true) sample_events /\
  let s := @daemon_run sample_platform sample_events in
  installed (d_history s) = list_to_set (@all_excluded sample_platform (m_connections s)).
Proof.
  assert (Hp : Forall (fun e => @plain_event sample_platform e = true) sample_events)
    by (repeat constructor).
  split; [exact Hp|].
  exact (proj1 (@bypass_routes_exact sample_platform sample_events (fun _ _ => eq_refl)
                  (fun _ _ => eq_refl) Hp)).
Defined.

Lemma deactivate_leaves_nothing_witness :
  let s' := (@deactivate sample_platform true (@daemon_run sample_platform sample_events)).2 in
  m_connections s' = [] /\ installed (d_history s') = ∅.
Proof.
  destruct (@deactivate_leaves_nothing sample_platform sample_events true
    (@deactivate sample_platform true (@daemon_run sample_platform sample_events)).2)
    as (H1 & _ & H3 & _).
  - done.
  - vm_compute. reflexivity.
  - exact (conj H1 H3).
Defined.

Lemma failed_activation_rolled_back_witness :
  let s' := (@activate failing_platform (sample_config ["192.0.2.1"]) new_daemon).2 in
  m_excludedAddrSet s' = ∅ /\ installed (d_history s') = ∅ /\
  last (d_history s') = Some (Emitted activationFailure).
Proof.
  pose proof (@failed_activation_rolled_back failing_platform [] (sample_config ["192.0.2.1"])
    (fun _ _ => eq_refl)) as Hf. cbv zeta in Hf. change (@daemon_run _ []) with new_daemon in Hf.
  assert (Hb : (@activate failing_platform (sample_config ["192.0.2.1"]) new_daemon).1 = false)
    by (vm_compute; reflexivity).
  destruct (@activate failing_platform (sample_config ["192.0.2.1"]) new_daemon) as [b s'].
  cbn in Hb |- *. subst b. destruct Hf as [(new & E & Hn) Hr].
  destruct (Hr eq_refl eq_refl) as (_ & H2 & H3 & _). cbn in E, H3. by rewrite E in *.
Defined.

Lemma handshakes_reported_witness :
  m_handshakeTimer (@activate sample_platform (sample_config []) new_daemon).2 = true.
Proof.
  apply (proj1 (@handshakes_reported sample_platform (sample_config []) new_daemon)).
  vm_compute. reflexivity.
Defined.

(** A range excluded by the first configuration, and a second one that excludes nothing. *)
Lemma switch_keeps_old_ranges_witness :
  let s := @daemon_run sample_platform [Activate (sample_config ["10.0.0.0/8"])] in
  @all_excluded sample_platform (m_connections (@activate sample_platform (sample_config []) s).2) = [] /\
  mkIP (V4 167772160) 8 ∈ installed (d_history (@activate sample_platform (sample_config []) s).2).
Proof.
  split; [vm_compute; reflexivity|].
  apply (@switch_keeps_old_ranges sample_platform [Activate (sample_config ["10.0.0.0/8"])]
           (sample_config []) (mkIP (V4 167772160) 8)); try done.
Defined.
