(* ===== verification/LocalSocket.v ===== *)
(** * The socket between the client and the daemon

    [client/daemon/daemonlocalserverconnection.cpp] (Module [Server]) and
    [client/mozilla/localsocketcontroller.{h,cpp}] (Module [Client]) exchange JSON objects, one
    per line.  The compact text of an object is one line without white space around it, which is
    what the class [CompactText] says of [QJsonDocument::toJson(Compact)].  What is written and
    emitted is recorded in order; logging is left out. *)

From S2P Require Import Prelude Json IpAddress Lines InterfaceConfig Daemon ProtocolConfigs.

Class CompactText := {
  compact_text :: JsonText;
  compact_one_line : forall j, one_line (json_print j) = true;
  compact_trimmed : forall j, trimmed (json_print j) = json_print j
}.

(** [write]: the text of the object and a line feed. *)
Definition frame `{CompactText} (o : obj) : string := json_print (JObj o) +:+ nl.

(** ** The daemon's end *)

Module Server.

Record server := mkServer {
  m_buffer : string;
  m_daemon : daemon;
  written : list obj
}.

#[global] Instance eta_server : Eta server := fun s =>
  mkServer (m_buffer s) (m_daemon s) (written s).

Section Connection.
Context `{CompactText} `{Platform}.

Definition write (o : obj) (s : server) : server := s <| written := written s ++ [o] |>.

(** The slots [connected] and [disconnected]. *)
Definition connected (pubkey : string) : obj :=
  oof [("type", JStr "connected"); ("pubkey", JStr pubkey)].
Definition disconnected : obj := oof [("type", JStr "disconnected")].

(** What the slots write for the signals of a piece of the daemon's history;
    [activationFailure] is not connected to this object. *)
Definition slots (es : list event) : list obj :=
  omap (fun e => match e with
                 | Emitted (Daemon.connected k) => Some (connected k)
                 | Emitted Daemon.disconnected => Some disconnected
                 | _ => None
                 end) es.

(** An operation of the daemon, with the slots its signals run. *)
Definition on_daemon {A} (f : act A) (s : server) : A * server :=
  let '(a, d) := f (m_daemon s) in
  (a, s <| m_daemon := d |>
        <| written := written s ++ slots (drop (length (d_history (m_daemon s))) (d_history d)) |>).

(** [parseCommand] on the object of the line. *)
Definition handle (obj : obj) (s : server) : server :=
  match ofind "type" obj with
  | Some (JStr type) =>
      if String.eqb type "logs" then
        write (oof [("type", JStr "logs"); ("logs", JStr "")]) s
      else if String.eqb type "activate" then
        match parseConfig obj with
        | None => write disconnected s
        | Some config =>
            let '(ok, s) := on_daemon (activate config) s in
            if ok then s else write disconnected s
        end
      else if String.eqb type "deactivate" then (on_daemon (deactivate true) s).2
      else if String.eqb type "status" then
        let '(o, s) := on_daemon getStatus s in write (oset "type" (JStr "status") o) s
      else s      (* cleanlogs does nothing; any other command is ignored *)
  | _ => s
  end.

Definition parseCommand (data : string) (s : server) : server :=
  match json_parse data with
  | Some (JObj obj) => handle obj s
  | _ => s
  end.

(** The [while] loop of [readData]; [input] is what the calls of [readAll] return. *)
Fixpoint read_loop (fuel : nat) (input : list string) (s : server) : server :=
  match fuel with
  | O => s
  | S fuel =>
      match take_line (m_buffer s) with
      | None =>
          match input with
          | String c r :: rest =>
              read_loop fuel rest (s <| m_buffer := m_buffer s +:+ String c r |>)
          | _ => s
          end
      | Some (line, rest) =>
          let s := s <| m_buffer := rest |> in
          let command := trimmed line in
          if str_empty command then read_loop fuel input s
          else read_loop fuel input (parseCommand command s)
      end
  end.

(** Each turn takes a line or a piece of input: as many turns as there are bytes and pieces are
    enough ([server_reads_lines]). *)
Definition readData (input : list string) (s : server) : server :=
  read_loop (S (String.length (m_buffer s) + String.length (bytes input) + length input)) input s.

End Connection.
End Server.

(** ** The client's end *)

Module Client.

Inductive DaemonState := eUnknown | eInitializing | eReady | eDisconnected.

#[global] Instance DaemonState_eq_dec : EqDecision DaemonState.
Proof. solve_decision. Defined.

(** What leaves the object. [LogCallback] is a call of the function registered by the request
    with that number. *)
Inductive output :=
  | Write (o : obj)
  | ConnectToServer (path : string)
  | Initialized (status connected : bool) (date : option Z)
  | Connected (pubkey : string)
  | Disconnected
  | StatusUpdated (serverIpv4Gateway deviceIpv4Address : string) (txBytes rxBytes : json)
  | LogCallback (request : nat) (logs : string).

Record client := mkClient {
  m_daemonState : DaemonState;
  m_buffer : string;
  m_deviceIpv4 : string;
  m_logCallback : option nat;
  m_initializingRetry : Z;             (* uint32_t *)
  m_initializingTimer : bool;
  m_requests : nat;                    (* how many log requests there were *)
  outputs : list output
}.

#[global] Instance eta_client : Eta client := fun s =>
  mkClient (m_daemonState s) (m_buffer s) (m_deviceIpv4 s) (m_logCallback s)
    (m_initializingRetry s) (m_initializingTimer s) (m_requests s) (outputs s).

Definition new_client : client := mkClient eUnknown "" "" None 0 false 0 [].

Definition out (o : output) (s : client) : client := s <| outputs := outputs s ++ [o] |>.

Definition MAX_CONNECTION_RETRY : Z := 10.

Section Controller.
Context `{CompactText}.
(** [QFileInfo::exists("/var/run/amneziavpn/daemon.socket")], the platform, and
    [QDateTime::fromString]. *)
Variable windows var_socket : bool.
Variable date_of : string -> option Z.

Definition write (o : obj) : client -> client := out (Write o).

Definition disconnectInternal (s : client) : client :=
  out Disconnected (s <| m_daemonState := eReady |> <| m_initializingRetry := 0%Z |>
                      <| m_initializingTimer := false |>).

(** The retry counter is compared before it is incremented. *)
Definition errorOccurred (s : client) : client :=
  if bool_decide (m_daemonState s = eInitializing) then
    let retry := m_initializingRetry s in
    let s := s <| m_initializingRetry := wrap32 (retry + 1) |> in
    if (retry <? MAX_CONNECTION_RETRY)%Z then s <| m_initializingTimer := true |>
    else disconnectInternal (out (Initialized false false None) s)
  else disconnectInternal s.

Definition path : string :=
  if windows then "\\.\pipe\amneziavpn"
  else if var_socket then "/var/run/amneziavpn/daemon.socket"
  else "/tmp/amneziavpn.socket".

Definition initializeInternal (s : client) : client :=
  out (ConnectToServer path) (s <| m_daemonState := eInitializing |>).

Definition initialize (s : client) : client :=
  initializeInternal (s <| m_initializingRetry := 0%Z |>).

(** The single-shot timer. *)
Definition timeout (s : client) : client :=
  if m_initializingTimer s then initializeInternal (s <| m_initializingTimer := false |>) else s.

Definition checkStatus (s : client) : client :=
  if bool_decide (m_daemonState s = eReady) || bool_decide (m_daemonState s = eInitializing)
  then write (oof [("type", JStr "status")]) s else s.

Definition daemonConnected : client -> client := checkStatus.

(** C [atoi] as the library of Linux has it: [strtol], which stops at the bounds of a [long] of 64
    bits, and a conversion to an [int] of 32. *)
Fixpoint leading_digits (acc : Z) (s : string) : Z :=
  match s with
  | EmptyString => acc
  | String c r =>
      if is_digit c then leading_digits (acc * 10 + (Z.of_N (N_of_ascii c) - 48))%Z r else acc
  end.

Definition strtol (s : string) : Z :=
  let z := match drop_spaces s with
           | String "-" r => Z.opp (leading_digits 0 r)
           | String "+" r => leading_digits 0 r
           | t => leading_digits 0 t
           end in
  Z.max int64_min (Z.min int64_max z).

Definition atoi (s : string) : Z := ((strtol s + 2 ^ 31) mod 2 ^ 32 - 2 ^ 31)%Z.

(** One entry of [allowedIPAddressRanges] from a text with or without a prefix length. *)
Definition range_of (ipRange : string) : json :=
  match split_char "/" ipRange with
  | address :: prefix :: _ =>
      JObj (oof [("address", JStr address); ("range", JInt (atoi prefix)); ("isIpv6", JBool false)])
  | _ => JObj (oof [("address", JStr ipRange); ("range", JInt 32); ("isIpv6", JBool false)])
  end.

Definition whole_internet : list json :=
  [JObj (oof [("address", JStr "0.0.0.0"); ("range", JInt 0); ("isIpv6", JBool false)]);
   JObj (oof [("address", JStr "::"); ("range", JInt 0); ("isIpv6", JBool true)])].

Definition texts (l : list json) : list string := map (fun v => to_string (Some v)) l.

Definition allowed_ranges (plainAllowedIP : list json) (splitTunnelType : Z)
    (splitTunnelSites : list json) : list json :=
  if negb (bool_decide (plainAllowedIP = [JStr "0.0.0.0/0"; JStr "::/0"]))
     && negb (bool_decide (plainAllowedIP = []))
  then map range_of (texts plainAllowedIP)
  else (if (splitTunnelType =? 0)%Z || (splitTunnelType =? 2)%Z then whole_internet else [])
       ++ (if (splitTunnelType =? 1)%Z then map range_of (texts splitTunnelSites) else []).

(** A sequence of [json.insert(key, value)]; inserting an undefined value removes the key, and
    [QJsonArray::append] of one appends null. *)
Definition assigns (l : list (string * option json)) : obj :=
  fold_left (fun o kv => match kv.2 with
                         | Some v => oset kv.1 v o
                         | None => oremove kv.1 o
                         end) l [].

Definition amneziaDnsIp : string := "172.29.172.254".

(** A parameter is passed on when it is a non-empty string. *)
Definition awg_value (v : option json) : option json :=
  match v with Some (JStr (String _ _)) => v | _ => None end.

(** The insertions of [activate]; one under a condition that fails is one of an undefined
    value, since every key is inserted at most once. *)
Definition insertions (rawConfig : obj) : list (string * option json) :=
  let protocolName := to_string (ofind "protocol" rawConfig) in
  let splitTunnelType := to_int 0 (ofind "splitTunnelType" rawConfig) in
  let splitTunnelSites := to_array (ofind "splitTunnelSites" rawConfig) in
  let splitTunnelApps := to_array (ofind "splitTunnelApps" rawConfig) in
  let allowedDns := to_array (ofind "allowedDnsServers" rawConfig) in
  let wgConfig := to_object (ofind (protocolName +:+ "_config_data") rawConfig) in
    ([("type", Some (JStr "activate"));
      ("privateKey", ofind configKey.clientPrivKey wgConfig);
      ("deviceIpv4Address", ofind configKey.clientIp wgConfig);
      ("deviceIpv6Address", Some (JStr "fd58:baa6:dead::1"));
      ("serverPublicKey", ofind configKey.serverPubKey wgConfig);
      ("serverPskKey", ofind configKey.pskKey wgConfig);
      ("serverIpv4AddrIn", ofind configKey.hostName wgConfig);
      ("deviceMTU", ofind configKey.mtu wgConfig);
      ("serverPort", Some (JInt (to_int 0 (ofind configKey.port wgConfig))));
      ("serverIpv4Gateway", ofind configKey.hostName wgConfig);
      ("persistentKeepalive",
       if ocontains configKey.persistentKeepAlive wgConfig
       then Some (JStr (to_string (ofind configKey.persistentKeepAlive wgConfig))) else None);
      ("primaryDnsServer", ofind "dns1" rawConfig);
      ("secondaryDnsServer",
       if negb (str_contains amneziaDnsIp (to_string (ofind "dns1" rawConfig)))
       then ofind "dns2" rawConfig else None);
      ("allowedIPAddressRanges",
       Some (JArr (allowed_ranges (to_array (ofind configKey.allowedIps wgConfig))
                     splitTunnelType splitTunnelSites)));
      ("excludedAddresses",
       Some (JArr (default JNull (ofind configKey.hostName wgConfig)
                   :: if (splitTunnelType =? 2)%Z then map JStr (texts splitTunnelSites) else [])));
      ("vpnDisabledApps", Some (JArr splitTunnelApps));
      ("allowedDnsServers", Some (JArr allowedDns));
      ("killSwitchOption", ofind "killSwitchOption" rawConfig)]
     ++ map (fun key => (key, awg_value (ofind key wgConfig))) configKey.awgProtocolKeys).

(** The object [activate] writes. *)
Definition activation (rawConfig : obj) : obj := assigns (insertions rawConfig).

Definition activate (rawConfig : obj) (s : client) : client :=
  let protocolName := to_string (ofind "protocol" rawConfig) in
  let wgConfig := to_object (ofind (protocolName +:+ "_config_data") rawConfig) in
  write (activation rawConfig)
    (s <| m_deviceIpv4 := to_string (ofind configKey.clientIp wgConfig) |>).

Definition deactivate (s : client) : client :=
  if negb (bool_decide (m_daemonState s = eReady)) then out Disconnected s
  else out Disconnected (write (oof [("type", JStr "deactivate")]) s).

(** Call the registered function, if there is one, and forget it. *)
Definition call_back (logs : string) (s : client) : client :=
  match m_logCallback s with
  | Some request => (out (LogCallback request logs) s) <| m_logCallback := None |>
  | None => s
  end.

Definition getBackendLogs (s : client) : client :=
  let s := call_back "" s in
  let request := m_requests s in
  let s := s <| m_requests := S request |> in
  if negb (bool_decide (m_daemonState s = eReady)) then out (LogCallback request "") s
  else write (oof [("type", JStr "logs")]) (s <| m_logCallback := Some request |>).

Definition cleanupBackendLogs (s : client) : client :=
  let s := call_back "" s in
  if negb (bool_decide (m_daemonState s = eReady)) then s
  else write (oof [("type", JStr "cleanlogs")]) s.

(** The first reply while initializing. *)
Definition first_status (obj : obj) (s : client) : client :=
  match ofind "connected" obj with
  | Some (JBool isConnected) =>
      if isConnected then
        match ofind "date" obj with
        | Some (JStr date) =>
            match date_of date with
            | Some d => out (Initialized true true (Some d)) s
            | None => s
            end
        | _ => s
        end
      else out (Initialized true false None) s
  | _ => s
  end.

(** [parseCommand] on the object of the line.  A [backendFailure] is only logged. *)
Definition handle (obj : obj) (s : client) : client :=
  match ofind "type" obj with
  | Some (JStr type) =>
      if bool_decide (m_daemonState s = eInitializing) && String.eqb type "status"
      then first_status obj (s <| m_daemonState := eReady |>)
      else if negb (bool_decide (m_daemonState s = eReady)) then s
      else if String.eqb type "status" then
        match ofind "serverIpv4Gateway" obj, ofind "deviceIpv4Address" obj,
              ofind "txBytes" obj, ofind "rxBytes" obj with
        | Some (JStr gateway), Some (JStr device), Some tx, Some rx =>
            if is_double (Some tx) && is_double (Some rx)
            then out (StatusUpdated gateway device tx rx) s else s
        | _, _, _, _ => s
        end
      else if String.eqb type "disconnected" then disconnectInternal s
      else if String.eqb type "connected" then
        match ofind "pubkey" obj with
        | Some (JStr pubkey) =>
            let s := checkStatus s in
            out (Connected pubkey)
              (out (StatusUpdated "" (m_deviceIpv4 s) (JInt 0) (JInt 0)) s)
        | _ => s
        end
      else if String.eqb type "logs" then
        match ofind "logs" obj with
        | Some (JStr logs) => call_back (str_map (fun c => if Ascii.eqb c "|" then LF else c) logs) s
        | _ => call_back "" s
        end
      else s
  | _ => s
  end.

Definition parseCommand (command : string) (s : client) : client :=
  match json_parse command with
  | Some (JObj obj) => handle obj s
  | _ => s
  end.

Fixpoint read_loop (fuel : nat) (s : client) : client :=
  match fuel with
  | O => s
  | S fuel =>
      match take_line (m_buffer s) with
      | None => s
      | Some (line, rest) =>
          let s := s <| m_buffer := rest |> in
          let command := trimmed line in
          if str_empty command then read_loop fuel s else read_loop fuel (parseCommand command s)
      end
  end.

(** [readData]; [input] is what [readAll] returns. *)
Definition readData (input : string) (s : client) : client :=
  let s := s <| m_buffer := m_buffer s +:+ input |> in
  read_loop (S (String.length (m_buffer s))) s.

(** ** Runs *)

Inductive client_event :=
  | Initialize | SocketConnected | SocketError | Timer | Input (bytes : string)
  | DoActivate (rawConfig : obj) | DoDeactivate | DoStatus | GetLogs | CleanLogs.

Definition client_step (e : client_event) : client -> client :=
  match e with
  | Initialize => initialize
  | SocketConnected => daemonConnected
  | SocketError => errorOccurred
  | Timer => timeout
  | Input bytes => readData bytes
  | DoActivate rawConfig => activate rawConfig
  | DoDeactivate => deactivate
  | DoStatus => checkStatus
  | GetLogs => getBackendLogs
  | CleanLogs => cleanupBackendLogs
  end.

Definition client_run (es : list client_event) : client :=
  fold_left (fun s e => client_step e s) es new_client.
End Controller.
End Client.
