(* ===== verification/LocalSocketFacts.v ===== *)
(** * The socket between the client and the daemon: theorems

    Lemmas on reading lines at both ends, and on the keys of a request to activate: what the
    daemon reads of it is what the client was given ([parse_activation]). *)

From S2P Require Import Prelude Json IpAddress Lines InterfaceConfig Daemon ProtocolConfigs.
From S2P Require Import LocalSocket.

(** ** Lines *)

Section Framing.
Context `{CompactText} `{Platform}.

(** What a line that is not blank does. *)
Definition server_line (line : string) (s : Server.server) : Server.server :=
  if str_empty (trimmed line) then s else Server.parseCommand (trimmed line) s.

Lemma server_line_buffer line b s :
  server_line line (s <| Server.m_buffer := b |>) = (server_line line s) <| Server.m_buffer := b |>.
Proof.
  unfold server_line. destruct (str_empty _); [done|]. unfold Server.parseCommand.
  destruct (json_parse _) as [[| | | | | |o]|]; try done. destruct s as [b0 d w].
  unfold Server.handle, Server.on_daemon, Server.write. unfold upd, setter. cbn.
  destruct (ofind "type" o) as [[]|]; try done.
  repeat (case_match; simplify_eq/=; try done).
Qed.

Definition server_lines (ls : list string) (s : Server.server) : Server.server :=
  fold_left (fun s l => server_line l s) ls s.

Lemma server_lines_buffer ls b s :
  server_lines ls (s <| Server.m_buffer := b |>) = (server_lines ls s) <| Server.m_buffer := b |>.
Proof.
  revert s. induction ls as [|l ls IH]; intros s; [done|]. cbn [server_lines fold_left].
  by rewrite server_line_buffer, IH.
Qed.

Lemma server_buffer_id s : s <| Server.m_buffer := Server.m_buffer s |> = s.
Proof. by destruct s. Qed.

(** The loop handles the complete lines of the buffer and the input, in order, and keeps the
    rest. *)
Lemma server_loop_lines fuel input s :
  Forall (fun piece => piece <> "") input ->
  String.length (Server.m_buffer s) + String.length (bytes input) + length input < fuel ->
  Server.read_loop fuel input s =
  (server_lines (cut_all (Server.m_buffer s +:+ bytes input)).1 s)
    <| Server.m_buffer := (cut_all (Server.m_buffer s +:+ bytes input)).2 |>.
Proof.
  revert input s. induction fuel as [|fuel IH]; intros input s Hin Hf; [lia|].
  cbn [Server.read_loop]. destruct (take_line (Server.m_buffer s)) as [[line rest]|] eqn:E.
  - pose proof (take_line_length _ _ _ E) as Hlen.
    assert (Ecat : take_line (Server.m_buffer s +:+ bytes input) = Some (line, rest +:+ bytes input)).
    { apply take_line_some in E as [-> Hl]. rewrite !string_app_assoc. by apply take_line_app. }
    rewrite (cut_all_line _ _ _ Ecat). cbn [fst snd fold_left].
    transitivity (Server.read_loop fuel input (server_line line (s <| Server.m_buffer := rest |>))).
    { unfold server_line. by destruct (str_empty (trimmed line)). }
    rewrite server_line_buffer, IH by (done || (cbn; lia)).
    change (Server.m_buffer (_ <| Server.m_buffer := rest |>)) with rest.
    by rewrite server_lines_buffer.
  - destruct input as [|piece input].
    + cbn [bytes foldr]. rewrite string_app_nil_r, (cut_all_none _ E). cbn [fst snd fold_left].
      by rewrite server_buffer_id.
    + inversion Hin as [|? ? Hp Hin']; subst. destruct piece as [|x r]; [done|].
      cbn [bytes foldr length] in Hf. rewrite string_length_app in Hf.
      rewrite IH; change (Server.m_buffer (s <| Server.m_buffer := ?b |>)) with b;
        [|done|rewrite string_length_app; unfold bytes; lia].
      rewrite server_lines_buffer. cbn [bytes foldr]. by rewrite !string_app_assoc.
Qed.

Definition server_receive (calls : list (list string)) (s : Server.server) : Server.server :=
  fold_left (fun s input => Server.readData input s) calls s.

Lemma server_reads_lines input s :
  Forall (fun piece => piece <> "") input ->
  Server.readData input s =
  (server_lines (cut_all (Server.m_buffer s +:+ bytes input)).1 s)
    <| Server.m_buffer := (cut_all (Server.m_buffer s +:+ bytes input)).2 |>.
Proof. intros Hi. apply server_loop_lines; [done|lia]. Qed.

Lemma server_receives_lines calls s :
  Forall (Forall (fun piece => piece <> "")) calls -> one_line (Server.m_buffer s) = true ->
  server_receive calls s =
  (server_lines (cut_all (Server.m_buffer s +:+ bytes (concat calls))).1 s)
    <| Server.m_buffer := (cut_all (Server.m_buffer s +:+ bytes (concat calls))).2 |>.
Proof.
  intros Hc. revert s. induction Hc as [|input calls Hi _ IH]; intros s Hs.
  - cbn. rewrite string_app_nil_r, (cut_all_none (Server.m_buffer s)) by (by apply take_line_none).
    by destruct s.
  - change (server_receive (input :: calls) s) with
      (server_receive calls (Server.readData input s)).
    rewrite (server_reads_lines input s Hi), IH;
      change (Server.m_buffer (_ <| Server.m_buffer := ?b |>)) with b; [|by apply cut_all_spec].
    cbn [concat]. rewrite (bytes_app input), <- (string_app_assoc (Server.m_buffer s)).
    rewrite (cut_all_app (Server.m_buffer s +:+ bytes input)). cbn [fst snd].
    rewrite server_lines_buffer. unfold server_lines at 3. by rewrite fold_left_app.
Qed.

(** The lines of commands. *)
Lemma server_lines_commands msgs s :
  server_lines (map (fun o => json_print (JObj o)) msgs) s =
  fold_left (fun s o => Server.handle o s) msgs s.
Proof.
  revert s. induction msgs as [|o msgs IH]; intros s; [done|]. cbn [map server_lines fold_left].
  rewrite <- IH. f_equal. unfold server_line, Server.parseCommand.
  rewrite compact_trimmed, json_parse_print.
  destruct (str_empty _) eqn:E; [|done]. apply str_empty_true in E.
  by destruct (json_print_nonempty (JObj o)).
Qed.

Lemma cut_commands (msgs : list obj) partial :
  one_line partial = true ->
  cut_all (unlines (map (fun o => json_print (JObj o)) msgs) +:+ partial) =
  (map (fun o => json_print (JObj o)) msgs, partial).
Proof.
  intros Hp. rewrite cut_all_unlines.
  - rewrite (cut_all_none partial) by (by apply take_line_none). cbn. by rewrite app_nil_r.
  - apply Forall_forall. intros l (o & -> & _)%list_elem_of_fmap. apply compact_one_line.
Qed.
End Framing.

(** ** The client's end *)

Section ClientFraming.
Context `{CompactText} (date_of : string -> option Z).

Definition client_line (line : string) (s : Client.client) : Client.client :=
  if str_empty (trimmed line) then s else Client.parseCommand date_of (trimmed line) s.

Lemma client_line_buffer line b s :
  client_line line (s <| Client.m_buffer := b |>) = (client_line line s) <| Client.m_buffer := b |>.
Proof.
  unfold client_line. destruct (str_empty _); [done|]. unfold Client.parseCommand.
  destruct (json_parse _) as [[| | | | | |o]|]; try done. destruct s as [b0 d w].
  unfold Client.handle, Client.first_status, Client.checkStatus, Client.disconnectInternal,
    Client.call_back, Client.write, Client.out. unfold upd, setter. cbn.
  destruct (ofind "type" o) as [[]|]; try done.
  repeat (case_match; simplify_eq/=; try done).
Qed.

Definition client_lines (ls : list string) (s : Client.client) : Client.client :=
  fold_left (fun s l => client_line l s) ls s.

Lemma client_lines_buffer ls b s :
  client_lines ls (s <| Client.m_buffer := b |>) = (client_lines ls s) <| Client.m_buffer := b |>.
Proof.
  revert s. induction ls as [|l ls IH]; intros s; [done|]. cbn [client_lines fold_left].
  by rewrite client_line_buffer, IH.
Qed.

Lemma client_loop_lines fuel s :
  String.length (Client.m_buffer s) < fuel ->
  Client.read_loop date_of fuel s =
  (client_lines (cut_all (Client.m_buffer s)).1 s)
    <| Client.m_buffer := (cut_all (Client.m_buffer s)).2 |>.
Proof.
  revert s. induction fuel as [|fuel IH]; intros s Hf; [lia|].
  cbn [Client.read_loop]. destruct (take_line (Client.m_buffer s)) as [[line rest]|] eqn:E.
  - pose proof (take_line_length _ _ _ E) as Hlen.
    rewrite (cut_all_line _ _ _ E). cbn [fst snd client_lines fold_left].
    transitivity (Client.read_loop date_of fuel (client_line line (s <| Client.m_buffer := rest |>))).
    { unfold client_line. by destruct (str_empty (trimmed line)). }
    rewrite client_line_buffer, IH by (cbn; lia).
    change (Client.m_buffer (_ <| Client.m_buffer := rest |>)) with rest.
    by rewrite client_lines_buffer.
  - rewrite (cut_all_none _ E). by destruct s.
Qed.

Definition client_receive (pieces : list string) (s : Client.client) : Client.client :=
  fold_left (fun s input => Client.readData date_of input s) pieces s.

Lemma client_reads_lines input s :
  Client.readData date_of input s =
  (client_lines (cut_all (Client.m_buffer s +:+ input)).1 s)
    <| Client.m_buffer := (cut_all (Client.m_buffer s +:+ input)).2 |>.
Proof.
  unfold Client.readData. cbv zeta. rewrite client_loop_lines by lia.
  change (Client.m_buffer (_ <| Client.m_buffer := ?b |>)) with b. by rewrite client_lines_buffer.
Qed.

Lemma client_receives_lines pieces s :
  one_line (Client.m_buffer s) = true ->
  client_receive pieces s =
  (client_lines (cut_all (Client.m_buffer s +:+ bytes pieces)).1 s)
    <| Client.m_buffer := (cut_all (Client.m_buffer s +:+ bytes pieces)).2 |>.
Proof.
  revert s. induction pieces as [|input pieces IH]; intros s Hs.
  - cbn. rewrite string_app_nil_r, (cut_all_none (Client.m_buffer s)) by (by apply take_line_none).
    by destruct s.
  - change (client_receive (input :: pieces) s) with
      (client_receive pieces (Client.readData date_of input s)).
    rewrite client_reads_lines, IH;
      change (Client.m_buffer (_ <| Client.m_buffer := ?b |>)) with b; [|by apply cut_all_spec].
    cbn [bytes foldr]. rewrite <- (string_app_assoc (Client.m_buffer s)).
    rewrite (cut_all_app (Client.m_buffer s +:+ input)). cbn [fst snd].
    rewrite client_lines_buffer. unfold client_lines at 3. by rewrite fold_left_app.
Qed.

Lemma client_lines_commands msgs s :
  client_lines (map (fun o => json_print (JObj o)) msgs) s =
  fold_left (fun s o => Client.handle date_of o s) msgs s.
Proof.
  revert s. induction msgs as [|o msgs IH]; intros s; [done|]. cbn [map client_lines fold_left].
  rewrite <- IH. f_equal. unfold client_line, Client.parseCommand.
  rewrite compact_trimmed, json_parse_print.
  destruct (str_empty _) eqn:E; [|done]. apply str_empty_true in E.
  by destruct (json_print_nonempty (JObj o)).
Qed.
End ClientFraming.

(** ** What the client writes *)

Section Arrival.

Lemma assigns_other k l o :
  k ∉ map fst l ->
  ofind k (fold_left (fun o (kv : string * option json) =>
    match kv.2 with Some v => oset kv.1 v o | None => oremove kv.1 o end) l o) = ofind k o.
Proof.
  revert o. induction l as [|[a v] l IH]; cbn; intros o Hk; [done|].
  apply not_elem_of_cons in Hk as [Hne Hk]. rewrite IH by done.
  apply String.eqb_neq in Hne. destruct v; [rewrite ofind_oset|rewrite ofind_oremove]; by rewrite Hne.
Qed.

(** A key that is inserted once has the inserted value. *)
Lemma ofind_assigns k v l :
  NoDup (map fst l) -> (k, v) ∈ l -> ofind k (Client.assigns l) = v.
Proof.
  unfold Client.assigns. generalize ([] : obj). induction l as [|[a w] l IH]; intros o Hnd Hin.
  - by apply elem_of_nil in Hin.
  - cbn in Hnd. apply NoDup_cons in Hnd as [Ha Hnd]. cbn [fold_left].
    apply elem_of_cons in Hin as [[= -> ->]|Hin]; [|by apply IH].
    rewrite assigns_other by done. cbn. destruct w; [apply ofind_oset_eq|].
    by rewrite ofind_oremove, String.eqb_refl.
Qed.

Lemma insertions_NoDup raw : NoDup (map fst (Client.insertions raw)).
Proof. unfold Client.insertions. fresh_key. Qed.

Lemma ofind_activation raw k v :
  (k, v) ∈ Client.insertions raw -> ofind k (Client.activation raw) = v.
Proof. intros Hin. apply ofind_assigns; [apply insertions_NoDup|done]. Qed.

(** A key that is not inserted. *)
Lemma ofind_activation_none raw k :
  bool_decide (k ∉ map fst (Client.insertions raw)) = true ->
  ofind k (Client.activation raw) = None.
Proof.
  intros Hk%bool_decide_eq_true_1. unfold Client.activation, Client.assigns.
  by rewrite assigns_other.
Qed.

Ltac here := repeat first [apply list_elem_of_here | apply list_elem_of_further].

Section Tunnel.
Context `{Platform}.
Variable raw : obj.
Variable c : AwgClientConfig.AwgClientConfig.
Hypothesis raw_client :
  to_object (ofind (to_string (ofind "protocol" raw) +:+ "_config_data") raw) = AwgClientConfig.toJson c.

Lemma ofind_awg key x :
  key ∈ configKey.awgProtocolKeys -> PutStr key x ∈ AwgClientConfig.fields c ->
  ofind key (Client.activation raw) = if str_empty x then None else Some (JStr x).
Proof.
  intros Hk Hw. apply ofind_activation. unfold Client.insertions. rewrite raw_client.
  apply elem_of_app. right. apply list_elem_of_fmap. exists key. split; [|done].
  f_equal. rewrite (AwgClientConfig.awg_client_lookup c _ Hw : ofind key _ = _). cbn.
  by destruct x.
Qed.

(** What is read of one text of the client configuration under another key. *)
Lemma ofind_passed k key x :
  (k, ofind key (AwgClientConfig.toJson c)) ∈ Client.insertions raw ->
  PutStr key x ∈ AwgClientConfig.fields c ->
  ofind k (Client.activation raw) = if str_empty x then None else Some (JStr x).
Proof.
  intros Hk Hw. rewrite (ofind_activation _ _ _ Hk).
  by rewrite (AwgClientConfig.awg_client_lookup c _ Hw : ofind key _ = _).
Qed.

Definition all_strings (l : list json) : bool := forallb (fun v => is_string (Some v)) l.

Lemma strings_of_texts l : all_strings l = true -> strings_of l = Some (Client.texts l).
Proof.
  induction l as [|[] l IH]; cbn; intros Hl; try done. by rewrite IH.
Qed.

Definition missing_or_string (v : option json) : bool :=
  match v with None | Some (JStr _) => true | _ => false end.

(** What a request must hold for the daemon to accept it. *)
Definition activatable : bool :=
  negb (str_empty (AwgClientConfig.clientPrivateKey c)) &&
  negb (str_empty (AwgClientConfig.serverPublicKey c)) &&
  negb (str_empty (AwgClientConfig.hostName c)) &&
  in_int32 (AwgClientConfig.port c) &&
  missing_or_string (ofind "dns1" raw) && missing_or_string (ofind "dns2" raw) &&
  all_strings (to_array (ofind "splitTunnelApps" raw)) &&
  all_strings (to_array (ofind "allowedDnsServers" raw)).

(** A range from its text: without a prefix length it is 32, whatever the family. *)
Definition ip_of (ipRange : string) : IPAddress :=
  match split_char "/" ipRange with
  | address :: prefix :: _ => mkIP (parseAddress address) (to_int 0 (Some (JInt (Client.atoi prefix))))
  | _ => mkIP (parseAddress ipRange) 32
  end.

(** The networks of the tunnel: those of the configuration when it restricts them, otherwise
    everything, or the sites when only these use the tunnel. *)
Definition tunnel_ranges : list IPAddress :=
  let allowed := map JStr (AwgClientConfig.allowedIps c) in
  let split := to_int 0 (ofind "splitTunnelType" raw) in
  if negb (bool_decide (allowed = [JStr "0.0.0.0/0"; JStr "::/0"])) && negb (bool_decide (allowed = []))
  then map ip_of (AwgClientConfig.allowedIps c)
  else (if (split =? 0)%Z || (split =? 2)%Z
        then [mkIP (parseAddress "0.0.0.0") 0; mkIP (parseAddress "::") 0] else [])
       ++ (if (split =? 1)%Z
           then map ip_of (Client.texts (to_array (ofind "splitTunnelSites" raw))) else []).

Definition tunnel_mtu : Z :=
  let mtu := str_to_int (AwgClientConfig.mtu c) in
  if (mtu =? 0)%Z then 1420%Z
  else if q_os_windows && (mtu <? 1280)%Z then 1280%Z else mtu.

(** The interface the request is about. *)
Definition interface_of : InterfaceConfig :=
  let sites := Client.texts (to_array (ofind "splitTunnelSites" raw)) in
  {| m_hopType := SingleHop;
     m_privateKey := AwgClientConfig.clientPrivateKey c;
     m_deviceIpv4Address := if str_empty (AwgClientConfig.clientIp c) then None
                            else Some (AwgClientConfig.clientIp c);
     m_deviceIpv6Address := Some "fd58:baa6:dead::1";
     m_serverIpv4Gateway := AwgClientConfig.hostName c;
     m_serverIpv6Gateway := "";
     m_serverPublicKey := AwgClientConfig.serverPublicKey c;
     m_serverIpv4AddrIn := Some (AwgClientConfig.hostName c);
     m_serverPskKey := if str_empty (AwgClientConfig.presharedKey c) then None
                       else Some (AwgClientConfig.presharedKey c);
     m_serverIpv6AddrIn := None;
     m_primaryDnsServer := to_string (ofind "dns1" raw);
     m_secondaryDnsServer :=
       if str_contains Client.amneziaDnsIp (to_string (ofind "dns1" raw)) then ""
       else to_string (ofind "dns2" raw);
     m_serverPort := Z.max 0 (AwgClientConfig.port c);
     m_deviceMTU := tunnel_mtu;
     m_persistentKeepalive := AwgClientConfig.persistentKeepAlive c;
     m_allowedIPAddressRanges := std_sort tunnel_ranges;
     m_excludedAddresses := AwgClientConfig.hostName c ::
       (if (to_int 0 (ofind "splitTunnelType" raw) =? 2)%Z then sites else []);
     m_vpnDisabledApps := Client.texts (to_array (ofind "splitTunnelApps" raw));
     m_allowedDnsServers := Client.texts (to_array (ofind "allowedDnsServers" raw));
     m_killSwitchEnabled := variant_bool (to_string (ofind "killSwitchOption" raw));
     m_junkPacketCount := AwgClientConfig.junkPacketCount c;
     m_junkPacketMinSize := AwgClientConfig.junkPacketMinSize c;
     m_junkPacketMaxSize := AwgClientConfig.junkPacketMaxSize c;
     m_initPacketJunkSize := AwgClientConfig.initPacketJunkSize c;
     m_responsePacketJunkSize := AwgClientConfig.responsePacketJunkSize c;
     m_cookieReplyPacketJunkSize := AwgClientConfig.cookieReplyPacketJunkSize c;
     m_transportPacketJunkSize := AwgClientConfig.transportPacketJunkSize c;
     m_initPacketMagicHeader := AwgClientConfig.initPacketMagicHeader c;
     m_responsePacketMagicHeader := AwgClientConfig.responsePacketMagicHeader c;
     m_underloadPacketMagicHeader := AwgClientConfig.underloadPacketMagicHeader c;
     m_transportPacketMagicHeader := AwgClientConfig.transportPacketMagicHeader c;
     m_specialJunk := filter (fun kv => kv.2 <> "")
       [("I1", AwgClientConfig.specialJunk1 c); ("I2", AwgClientConfig.specialJunk2 c);
        ("I3", AwgClientConfig.specialJunk3 c); ("I4", AwgClientConfig.specialJunk4 c);
        ("I5", AwgClientConfig.specialJunk5 c)];
     m_headerProtectionKey := AwgClientConfig.headerProtectionKey c;
     m_contentPaddingAddition := AwgClientConfig.contentPaddingAddition c;
     m_rekeyAfterTime := AwgClientConfig.rekeyAfterTime c;
     m_rekeyTimeout := AwgClientConfig.rekeyTimeout c;
     m_rejectAfterTime := AwgClientConfig.rejectAfterTime c;
     m_keepaliveTimeout := AwgClientConfig.keepaliveTimeout c;
     m_maxHandshakeAttempts := AwgClientConfig.maxHandshakeAttempts c;
     m_randomTrailers := AwgClientConfig.randomTrailers c;
     m_disableCookies := AwgClientConfig.disableCookies c |}.

Lemma parse_range_of s : parse_range (Client.range_of s) = Some (ip_of s).
Proof.
  unfold Client.range_of, ip_of. by destruct (split_char "/" s) as [|a [|p l]].
Qed.

Lemma parse_ranges_map l : parse_ranges (map Client.range_of l) = Some (map ip_of l).
Proof. induction l as [|s l IH]; cbn [map parse_ranges]; [done|]. by rewrite parse_range_of, IH. Qed.

Lemma texts_strings l : Client.texts (map JStr l) = l.
Proof. unfold Client.texts. rewrite map_map. cbn. apply map_id. Qed.

Lemma wg_allowed : to_array (ofind configKey.allowedIps (AwgClientConfig.toJson c)) =
  map JStr (AwgClientConfig.allowedIps c).
Proof.
  rewrite (AwgClientConfig.awg_client_lookup c (PutList configKey.allowedIps (AwgClientConfig.allowedIps c))
    ltac:(unfold AwgClientConfig.fields; here) : ofind configKey.allowedIps _ = _).
  cbn. by destruct (AwgClientConfig.allowedIps c).
Qed.

Lemma parse_allowed :
  parse_ranges (Client.allowed_ranges (map JStr (AwgClientConfig.allowedIps c))
    (to_int 0 (ofind "splitTunnelType" raw)) (to_array (ofind "splitTunnelSites" raw))) =
  Some tunnel_ranges.
Proof.
  unfold Client.allowed_ranges, tunnel_ranges.
  destruct (_ && _); [by rewrite texts_strings, parse_ranges_map|].
  destruct (Z.eqb_spec (to_int 0 (ofind "splitTunnelType" raw)) 1) as [->|]; cbn [Z.eqb orb].
  - exact (parse_ranges_map _).
  - rewrite !app_nil_r. by destruct (_ || _).
Qed.

Lemma optional_text s : to_string (if str_empty s then None else Some (JStr s)) = s.
Proof. by destruct s. Qed.

Lemma read_awg key x :
  bool_decide (key ∈ configKey.awgProtocolKeys) = true -> PutStr key x ∈ AwgClientConfig.fields c ->
  to_string (ofind key (Client.activation raw)) = x.
Proof. intros Hk%bool_decide_eq_true_1 Hw. rewrite (ofind_awg _ _ Hk Hw). apply optional_text. Qed.

Lemma read_passed k key x :
  (k, ofind key (AwgClientConfig.toJson c)) ∈ Client.insertions raw ->
  PutStr key x ∈ AwgClientConfig.fields c ->
  to_string (ofind k (Client.activation raw)) = x.
Proof. intros Hk Hw. rewrite (ofind_passed _ _ _ Hk Hw). apply optional_text. Qed.

Lemma passed_text k key x :
  (k, ofind key (AwgClientConfig.toJson c)) ∈ Client.insertions raw ->
  PutStr key x ∈ AwgClientConfig.fields c -> negb (str_empty x) = true ->
  ofind k (Client.activation raw) = Some (JStr x).
Proof. intros Hk Hw Hx. rewrite (ofind_passed _ _ _ Hk Hw). by destruct (str_empty x). Qed.

Lemma read_keepalive :
  to_string (ofind "persistentKeepalive" (Client.activation raw)) = AwgClientConfig.persistentKeepAlive c.
Proof.
  erewrite ofind_activation by (unfold Client.insertions; rewrite raw_client; here).
  unfold ocontains.
  rewrite (AwgClientConfig.awg_client_lookup c
    (PutStr configKey.persistentKeepAlive (AwgClientConfig.persistentKeepAlive c))
    ltac:(unfold AwgClientConfig.fields; here) : ofind configKey.persistentKeepAlive _ = _).
  cbn. by destruct (AwgClientConfig.persistentKeepAlive c).
Qed.

Lemma read_port :
  in_int32 (AwgClientConfig.port c) = true ->
  ofind "serverPort" (Client.activation raw) = Some (JInt (Z.max 0 (AwgClientConfig.port c))).
Proof.
  intros Hp. erewrite ofind_activation by (unfold Client.insertions; rewrite raw_client; here).
  rewrite (AwgClientConfig.awg_client_lookup c (PutPort configKey.port (AwgClientConfig.port c))
    ltac:(unfold AwgClientConfig.fields; here) : ofind configKey.port _ = _).
  cbn. destruct (Z.ltb_spec 0 (AwgClientConfig.port c)); cbn; [rewrite Hp|]; do 2 f_equal; lia.
Qed.

Lemma read_mtu : parse_mtu (Client.activation raw) = tunnel_mtu.
Proof.
  unfold parse_mtu, tunnel_mtu. unfold ocontains.
  rewrite (ofind_passed "deviceMTU" configKey.mtu (AwgClientConfig.mtu c)).
  - by destruct (AwgClientConfig.mtu c).
  - unfold Client.insertions. rewrite raw_client. here.
  - unfold AwgClientConfig.fields. here.
Qed.

Lemma read_junk : special_junk (Client.activation raw) =
  filter (fun kv => kv.2 <> "")
    [("I1", AwgClientConfig.specialJunk1 c); ("I2", AwgClientConfig.specialJunk2 c);
     ("I3", AwgClientConfig.specialJunk3 c); ("I4", AwgClientConfig.specialJunk4 c);
     ("I5", AwgClientConfig.specialJunk5 c)].
Proof.
  unfold special_junk. cbn [omap list_omap].
  repeat match goal with
  | |- context [ofind ?k (Client.activation raw)] =>
      rewrite (ofind_awg k _ ltac:(by apply (bool_decide_eq_true_1 (k ∈ configKey.awgProtocolKeys)))
        ltac:(unfold AwgClientConfig.fields; here))
  end.
  destruct (AwgClientConfig.specialJunk1 c), (AwgClientConfig.specialJunk2 c),
    (AwgClientConfig.specialJunk3 c), (AwgClientConfig.specialJunk4 c),
    (AwgClientConfig.specialJunk5 c); reflexivity.
Qed.

Lemma optional_present obj name :
  missing_or_string (ofind name obj) = true ->
  optional_string obj name = Some (to_string (ofind name obj)).
Proof. unfold optional_string. by destruct (ofind name obj) as [[]|]. Qed.

Lemma read_list k l :
  (k, Some (JArr l)) ∈ Client.insertions raw -> all_strings l = true ->
  parseStringList (Client.activation raw) k = Some (Client.texts l).
Proof.
  intros Hk Hl. unfold parseStringList. rewrite (ofind_activation _ _ _ Hk).
  by apply strings_of_texts.
Qed.

Lemma all_strings_map l : all_strings (map JStr l) = true.
Proof. induction l; [done|]. exact IHl. Qed.

Lemma read_excluded :
  negb (str_empty (AwgClientConfig.hostName c)) = true ->
  parseStringList (Client.activation raw) "excludedAddresses" =
  Some (m_excludedAddresses interface_of).
Proof.
  intros Hh. unfold parseStringList.
  erewrite ofind_activation by (unfold Client.insertions; rewrite raw_client; here).
  rewrite (AwgClientConfig.awg_client_lookup c (PutStr configKey.hostName (AwgClientConfig.hostName c))
    ltac:(unfold AwgClientConfig.fields; here) : ofind configKey.hostName _ = _).
  cbn [write_value]. destruct (str_empty (AwgClientConfig.hostName c)); [done|].
  cbn [default strings_of m_excludedAddresses interface_of].
  destruct (Z.eqb (to_int 0 (ofind "splitTunnelType" raw)) 2); [|done].
  by rewrite (strings_of_texts _ (all_strings_map _)), texts_strings.
Qed.

Lemma read_dns :
  missing_or_string (ofind "dns1" raw) = true -> missing_or_string (ofind "dns2" raw) = true ->
  optional_string (Client.activation raw) "primaryDnsServer" =
    Some (m_primaryDnsServer interface_of) /\
  optional_string (Client.activation raw) "secondaryDnsServer" =
    Some (m_secondaryDnsServer interface_of).
Proof.
  intros H1 H2.
  assert (E1 : ofind "primaryDnsServer" (Client.activation raw) = ofind "dns1" raw)
    by (apply ofind_activation; unfold Client.insertions; here).
  assert (E2 : ofind "secondaryDnsServer" (Client.activation raw) =
    if negb (str_contains Client.amneziaDnsIp (to_string (ofind "dns1" raw)))
    then ofind "dns2" raw else None)
    by (apply ofind_activation; unfold Client.insertions; here).
  cbn [m_primaryDnsServer m_secondaryDnsServer interface_of].
  split; rewrite optional_present; rewrite ?E1, ?E2; try done;
    by destruct (str_contains _ _).
Qed.

Lemma read_ranges :
  exists l, ofind "allowedIPAddressRanges" (Client.activation raw) = Some (JArr l) /\
            parse_ranges l = Some tunnel_ranges.
Proof.
  eexists. split; [apply ofind_activation; unfold Client.insertions; rewrite raw_client; here|].
  rewrite wg_allowed. apply parse_allowed.
Qed.

Lemma read_kill_switch :
  ofind "killSwitchOption" (Client.activation raw) = ofind "killSwitchOption" raw.
Proof. apply ofind_activation. unfold Client.insertions. here. Qed.

Lemma read_double z : in_int32 z = true -> double_to_int (Some (JInt (Z.max 0 z))) = Z.max 0 z.
Proof.
  unfold double_to_int. cbn [to_qint64]. intros Hz.
  assert (in_int32 (Z.max 0 z) = true) as ->; [|done].
  unfold in_int32, int32_min, int32_max in *. lia.
Qed.

Ltac passed := unfold Client.insertions; rewrite raw_client; here.
Ltac field := unfold AwgClientConfig.fields; here.

(** An object with the values of the request is parsed as the interface. *)
Lemma parse_interface (o : obj) l :
  ofind "privateKey" o = Some (JStr (AwgClientConfig.clientPrivateKey c)) ->
  ofind "serverPublicKey" o = Some (JStr (AwgClientConfig.serverPublicKey c)) ->
  ofind "serverIpv4AddrIn" o = Some (JStr (AwgClientConfig.hostName c)) ->
  ofind "serverIpv4Gateway" o = Some (JStr (AwgClientConfig.hostName c)) ->
  ofind "deviceIpv4Address" o =
    (if str_empty (AwgClientConfig.clientIp c) then None else Some (JStr (AwgClientConfig.clientIp c))) ->
  ofind "deviceIpv6Address" o = Some (JStr "fd58:baa6:dead::1") ->
  ofind "serverIpv6AddrIn" o = None -> ofind "serverIpv6Gateway" o = None ->
  ofind "hopType" o = None ->
  ofind "serverPort" o = Some (JInt (Z.max 0 (AwgClientConfig.port c))) ->
  in_int32 (AwgClientConfig.port c) = true ->
  optional_string o "primaryDnsServer" = Some (m_primaryDnsServer interface_of) ->
  optional_string o "secondaryDnsServer" = Some (m_secondaryDnsServer interface_of) ->
  ofind "allowedIPAddressRanges" o = Some (JArr l) -> parse_ranges l = Some tunnel_ranges ->
  parseStringList o "excludedAddresses" = Some (m_excludedAddresses interface_of) ->
  parseStringList o "vpnDisabledApps" = Some (m_vpnDisabledApps interface_of) ->
  parseStringList o "allowedDnsServers" = Some (m_allowedDnsServers interface_of) ->
  ofind "serverPskKey" o =
    (if str_empty (AwgClientConfig.presharedKey c) then None
     else Some (JStr (AwgClientConfig.presharedKey c))) ->
  to_string (ofind "persistentKeepalive" o) = AwgClientConfig.persistentKeepAlive c ->
  parse_mtu o = tunnel_mtu -> special_junk o = m_specialJunk interface_of ->
  ofind "killSwitchOption" o = ofind "killSwitchOption" raw ->
  (forall key x, bool_decide (key ∈ configKey.awgProtocolKeys) = true ->
     PutStr key x ∈ AwgClientConfig.fields c -> to_string (ofind key o) = x) ->
  parseConfig o = Some interface_of.
Proof.
  intros E1 E2 E3 E4 E5 E6 E7 E8 E9 E10 Hport E11 E12 E13 Er E14 E15 E16 E17 E18 E19 E20 E21 Hawg.
  unfold parseConfig, parse_hop.
  rewrite E1, E2, E3, E4, E5, E6, E7, E8, E9, E10, E11, E12, E13.
  cbn [is_string is_double negb to_qstring option_bind mbind]. rewrite Er.
  cbn [option_bind mbind]. rewrite E14, E15, E16. cbn [option_bind mbind].
  rewrite E17, E18, E19, E20, E21, read_double by done.
  repeat match goal with
  | |- context [to_string (ofind ?k o)] => rewrite (Hawg k _ eq_refl ltac:(field))
  end.
  unfold interface_of.
  by destruct (str_empty (AwgClientConfig.clientIp c)), (str_empty (AwgClientConfig.presharedKey c)).
Qed.

(** The request the controller writes for a configuration with keys, a host and a port that is
    an [int] is parsed as exactly the interface of the configuration and the settings. *)
Lemma parse_activation :
  activatable = true ->
  parseConfig (Client.activation raw) = Some interface_of.
Proof.
  unfold activatable. rewrite !andb_true_iff.
  intros [[[[[[[Hpriv Hpub] Hhost] Hport] Hdns1] Hdns2] Happs] Hdns].
  destruct (read_dns Hdns1 Hdns2) as [Ep Es]. destruct read_ranges as (l & El & Er).
  apply (parse_interface _ l).
  - apply (passed_text _ configKey.clientPrivKey); [passed|field|done].
  - apply (passed_text _ configKey.serverPubKey); [passed|field|done].
  - apply (passed_text _ configKey.hostName); [passed|field|done].
  - apply (passed_text _ configKey.hostName); [passed|field|done].
  - apply (ofind_passed _ configKey.clientIp); [passed|field].
  - apply ofind_activation. passed.
  - by apply ofind_activation_none.
  - by apply ofind_activation_none.
  - by apply ofind_activation_none.
  - by apply read_port.
  - exact Hport.
  - exact Ep.
  - exact Es.
  - exact El.
  - exact Er.
  - by apply read_excluded.
  - apply read_list; [passed|done].
  - apply read_list; [passed|done].
  - apply (ofind_passed _ configKey.pskKey); [passed|field].
  - exact read_keepalive.
  - exact read_mtu.
  - exact read_junk.
  - exact read_kill_switch.
  - exact read_awg.
Qed.

End Tunnel.
End Arrival.
