(* ===== verification/LocalSocketTheorems.v ===== *)
(** * The socket between the client and the daemon: theorems

    Commands arrive whole and in order however the bytes are cut, from the request of the client
    to the activation of the daemon; the client stops retrying; a request for logs is answered
    exactly once. *)

From S2P Require Import Prelude Json IpAddress Lines InterfaceConfig Daemon DaemonFacts.
From S2P Require Import DaemonTheorems.
From S2P Require Import ProtocolConfigs LocalSocket LocalSocketFacts.

(** ** Delivery *)

Section Delivery.
Context `{CompactText} `{Platform}.

Lemma bytes_frames msgs :
  bytes (map frame msgs) = unlines (map (fun o => json_print (JObj o)) msgs).
Proof.
  induction msgs as [|o msgs IH]; [done|]. cbn [map bytes foldr unlines].
  unfold bytes in IH. rewrite IH. unfold frame. by rewrite string_app_assoc.
Qed.

Lemma server_delivery calls msgs partial s :
  Forall (Forall (fun piece => piece <> "")) calls ->
  Server.m_buffer s = "" -> one_line partial = true ->
  bytes (concat calls) = bytes (map frame msgs) +:+ partial ->
  server_receive calls s =
  (fold_left (fun s o => Server.handle o s) msgs s) <| Server.m_buffer := partial |>.
Proof.
  intros Hc Hs Hp E. rewrite server_receives_lines by (done || by rewrite Hs).
  change ("" +:+ ?b) with b. rewrite Hs. change ("" +:+ ?b) with b.
  rewrite E, bytes_frames, cut_commands by done.
  cbn [fst snd]. by rewrite server_lines_commands.
Qed.

Lemma client_delivery date_of pieces msgs partial s :
  Client.m_buffer s = "" -> one_line partial = true ->
  bytes pieces = bytes (map frame msgs) +:+ partial ->
  client_receive date_of pieces s =
  (fold_left (fun s o => Client.handle date_of o s) msgs s) <| Client.m_buffer := partial |>.
Proof.
  intros Hs Hp E. rewrite client_receives_lines by (by rewrite Hs).
  rewrite Hs. change ("" +:+ ?b) with b. rewrite E, bytes_frames, cut_commands by done.
  cbn [fst snd]. by rewrite client_lines_commands.
Qed.

(** C23: commands survive the stream.  Whatever pieces the bytes of a sequence of commands arrive
    in, and whatever calls of [readData] and [readAll] they are spread over, either end handles
    exactly these commands, in order, and keeps the bytes of the command that is not complete
    yet. *)
Theorem commands_delivered date_of calls pieces msgs partial s t :
  Forall (Forall (fun piece => piece <> "")) calls ->
  Server.m_buffer s = "" -> Client.m_buffer t = "" -> one_line partial = true ->
  bytes (concat calls) = bytes (map frame msgs) +:+ partial ->
  bytes pieces = bytes (map frame msgs) +:+ partial ->
  server_receive calls s =
    (fold_left (fun s o => Server.handle o s) msgs s) <| Server.m_buffer := partial |> /\
  client_receive date_of pieces t =
    (fold_left (fun t o => Client.handle date_of o t) msgs t) <| Client.m_buffer := partial |>.
Proof. intros. split; [by apply server_delivery|by apply client_delivery]. Qed.

(** The commands the client wrote. *)
Definition writes (os : list Client.output) : list obj :=
  omap (fun o => match o with Client.Write m => Some m | _ => None end) os.

Lemma ofind_type raw : ofind "type" (Client.activation raw) = Some (JStr "activate").
Proof. apply ofind_activation. unfold Client.insertions. apply list_elem_of_here. Qed.

(** C22: from the account to the interface.  When the client activates a configuration of
    AmneziaWG and the daemon reads what it wrote, in whatever pieces, the daemon activates
    exactly the interface of that configuration, and answers [disconnected] when that fails. *)
Theorem activation_end_to_end raw c calls s t :
  to_object (ofind (to_string (ofind "protocol" raw) +:+ "_config_data") raw) =
    AwgClientConfig.toJson c ->
  activatable raw c = true ->
  Forall (Forall (fun piece => piece <> "")) calls ->
  Server.m_buffer s = "" -> Client.outputs t = [] ->
  bytes (concat calls) = bytes (map frame (writes (Client.outputs (Client.activate raw t)))) ->
  server_receive calls s =
    (let '(ok, s') := Server.on_daemon (Daemon.activate (interface_of raw c)) s in
     if ok then s' else Server.write Server.disconnected s').
Proof.
  intros Hraw Ha Hc Hs Ht Hb. unfold Client.activate, Client.write, Client.out in Hb.
  change (Client.outputs (_ <| Client.outputs := ?x |>)) with x in Hb.
  change (Client.outputs (_ <| Client.m_deviceIpv4 := _ |>)) with (Client.outputs t) in Hb.
  rewrite Ht in Hb. cbn [app writes omap list_omap] in Hb.
  rewrite (server_delivery calls [Client.activation raw] "" s) by
    (done || by rewrite string_app_nil_r).
  cbn [fold_left]. unfold Server.handle. rewrite ofind_type.
  change (String.eqb "activate" "logs") with false.
  change (String.eqb "activate" "activate") with true. cbv iota.
  rewrite (parse_activation raw c Hraw Ha).
  unfold Server.on_daemon. destruct (Daemon.activate _ _) as [[] d];
    destruct s; cbn in Hs; subst; reflexivity.
Qed.
End Delivery.

(** ** Retries and log requests *)

Section Controller.
Context `{CompactText} (windows var_socket : bool) (date_of : string -> option Z).

Abbreviation step := (Client.client_step windows var_socket date_of).
Abbreviation steps := (fold_left (fun s e => step e s)).
Abbreviation run := (Client.client_run windows var_socket date_of).
Abbreviation path := (Client.path windows var_socket).

(** A property of the state that handling a command keeps is kept by reading. *)
Lemma reading_keeps (P : Client.client -> Prop) :
  (forall o s, P s -> P (Client.handle date_of o s)) ->
  (forall b s, P s -> P (s <| Client.m_buffer := b |>)) ->
  forall input s, P s -> P (Client.readData date_of input s).
Proof.
  intros Hh Hb input s Hs. rewrite client_reads_lines. apply Hb.
  generalize (cut_all (Client.m_buffer s +:+ input)).1. intros ls. revert s Hs.
  induction ls as [|l ls IH]; intros s Hs; [exact Hs|]. cbn [client_lines fold_left].
  apply IH. unfold client_line, Client.parseCommand.
  destruct (str_empty _); [done|]. destruct (json_parse _) as [[]|]; auto.
Qed.

Definition retry_ok (s : Client.client) : Prop := (0 <= Client.m_initializingRetry s <= 10)%Z.

Lemma handle_retry o s : retry_ok s -> retry_ok (Client.handle date_of o s).
Proof.
  unfold retry_ok, Client.handle, Client.first_status, Client.checkStatus,
    Client.disconnectInternal, Client.call_back, Client.write, Client.out.
  intros Hs. repeat (case_match; cbn in *; try done; try lia).
Qed.

Lemma step_retry e s : retry_ok s -> retry_ok (step e s).
Proof.
  intros Hs. destruct e; cbn [Client.client_step].
  1-4, 6-10: unfold retry_ok, Client.initialize, Client.initializeInternal, Client.daemonConnected,
    Client.checkStatus, Client.errorOccurred, Client.timeout, Client.disconnectInternal,
    Client.activate, Client.deactivate, Client.getBackendLogs, Client.cleanupBackendLogs,
    Client.call_back, Client.write, Client.out, Client.MAX_CONNECTION_RETRY, wrap32 in *;
    repeat (case_match; cbn in *; try done; try lia).
  - cbn. lia.
  - rewrite Z.mod_small; lia.
  - exact Hs.
  - by apply reading_keeps; [apply handle_retry| |].
Qed.

Lemma run_retry es : retry_ok (run es).
Proof.
  unfold Client.client_run. assert (H0 : retry_ok Client.new_client) by (cbv; split; congruence).
  revert H0. generalize Client.new_client. induction es as [|e es IH]; [done|].
  intros s Hs. apply IH, step_retry, Hs.
Qed.

(** One failed attempt, and the next one when the timer fires. *)
Lemma round_retries s :
  Client.m_daemonState s = Client.eInitializing -> (0 <= Client.m_initializingRetry s < 10)%Z ->
  steps [Client.SocketError; Client.Timer] s =
  s <| Client.m_initializingRetry := (Client.m_initializingRetry s + 1)%Z |>
    <| Client.m_initializingTimer := false |>
    <| Client.outputs := Client.outputs s ++ [Client.ConnectToServer path] |>.
Proof.
  intros Hs Hr. destruct s as [st b d cb r t n os]; cbn in Hs, Hr; subst st.
  cbn [fold_left Client.client_step]. unfold Client.errorOccurred.
  rewrite bool_decide_true by done. cbn [Client.m_initializingRetry].
  replace (r <? Client.MAX_CONNECTION_RETRY)%Z with true
    by (symmetry; apply Z.ltb_lt; unfold Client.MAX_CONNECTION_RETRY; lia).
  unfold wrap32. rewrite Z.mod_small by lia. reflexivity.
Qed.

Lemma retries_until n s :
  Client.m_daemonState s = Client.eInitializing -> (0 <= Client.m_initializingRetry s)%Z ->
  (Client.m_initializingRetry s + Z.of_nat n = 10)%Z ->
  let s' := steps (concat (replicate n [Client.SocketError; Client.Timer]) ++ [Client.SocketError]) s in
  Client.outputs s' = Client.outputs s ++ replicate n (Client.ConnectToServer path)
                      ++ [Client.Initialized false false None; Client.Disconnected] /\
  Client.m_daemonState s' = Client.eReady /\ Client.m_initializingRetry s' = 0%Z /\
  Client.m_initializingTimer s' = false.
Proof.
  revert s. induction n as [|n IH]; intros s Hs Hr Hn.
  - destruct s as [st b d cb r t m os]; cbn in Hs, Hr, Hn; subst st.
    assert (r = 10%Z) by lia. subst r.
    repeat split. exact (eq_sym (app_assoc os [_] [_])).
  - cbn [replicate concat]. rewrite <- app_assoc, fold_left_app.
    rewrite round_retries by (done || lia).
    destruct s as [st b d cb r t m os]; cbn in Hs, Hr, Hn; subst st.
    match goal with |- context [fold_left _ _ ?x] => specialize (IH x) end.
    cbn in IH. destruct IH as (E & IH); [done|cbn; lia|cbn; lia|].
    split; [|exact IH]. cbn in E |- *. rewrite E, <- app_assoc. reflexivity.
Qed.

(** The client gives up.  The retry counter is at most 10 in every state; from any state in
    which the client is connecting, if every attempt fails, it makes exactly the attempts that
    are left of ten, reports the failure once, and stops its timer.  It is then in the state
    [eReady], the state in which commands are written. *)
Theorem retries_bounded es :
  let s := run es in
  (0 <= Client.m_initializingRetry s <= 10)%Z /\
  (Client.m_daemonState s = Client.eInitializing ->
   let left := Z.to_nat (10 - Client.m_initializingRetry s) in
   let s' := run (es ++ concat (replicate left [Client.SocketError; Client.Timer])
                     ++ [Client.SocketError]) in
   Client.outputs s' = Client.outputs s ++ replicate left (Client.ConnectToServer path)
                       ++ [Client.Initialized false false None; Client.Disconnected] /\
   Client.m_daemonState s' = Client.eReady /\ Client.m_initializingRetry s' = 0%Z /\
   Client.m_initializingTimer s' = false).
Proof.
  cbv zeta. pose proof (run_retry es) as Hr. split; [exact Hr|]. intros Hs.
  unfold Client.client_run. rewrite fold_left_app. apply retries_until; [done|apply Hr|].
  unfold retry_ok in Hr. unfold Client.client_run in *. lia.
Qed.

(** How often the function of request [n] has been called. *)
Definition calls_of (n : nat) (os : list Client.output) : nat :=
  length (List.filter (fun o => match o with Client.LogCallback m _ => Nat.eqb m n | _ => false end) os).

(** The calls made and the one that is still owed. *)
Definition tally (n : nat) (s : Client.client) : nat :=
  calls_of n (Client.outputs s) + (if bool_decide (Client.m_logCallback s = Some n) then 1 else 0).

Lemma calls_of_snoc n os o :
  calls_of n (os ++ [o]) = calls_of n os + calls_of n [o].
Proof. unfold calls_of. by rewrite List.filter_app, length_app. Qed.

(** An operation that neither registers a request nor changes what is called or owed. *)
Definition logs_kept (s s' : Client.client) : Prop :=
  (forall n, tally n s' = tally n s) /\ Client.m_requests s' = Client.m_requests s.

Lemma logs_kept_refl s : logs_kept s s.
Proof. done. Qed.

Lemma logs_kept_trans s1 s2 s3 : logs_kept s1 s2 -> logs_kept s2 s3 -> logs_kept s1 s3.
Proof. intros [H1 E1] [H2 E2]. split; [intros n; by rewrite H2|by rewrite E2]. Qed.

Lemma logs_kept_out o s s' :
  (forall n, calls_of n [o] = 0) -> logs_kept s s' -> logs_kept s (Client.out o s').
Proof.
  intros Ho [Hs E]. split; [|exact E]. intros n. rewrite <- Hs. unfold tally, Client.out.
  cbn [Client.outputs Client.m_logCallback].
  change (Client.outputs (_ <| Client.outputs := ?x |>)) with x. rewrite calls_of_snoc, Ho.
  rewrite Nat.add_0_r. reflexivity.
Qed.

(** The function is called and forgotten. *)
Lemma logs_kept_call logs s : logs_kept s (Client.call_back logs s).
Proof.
  split; [|by unfold Client.call_back; destruct (Client.m_logCallback s)].
  intros n. unfold Client.call_back. destruct (Client.m_logCallback s) as [m|] eqn:E; [|done].
  unfold tally. rewrite E. unfold Client.out.
  change (Client.outputs (_ <| Client.m_logCallback := _ |>)) with
    (Client.outputs s ++ [Client.LogCallback m logs]).
  change (Client.m_logCallback (_ <| Client.m_logCallback := None |>)) with (@None nat).
  rewrite calls_of_snoc. unfold calls_of at 2. cbn [List.filter].
  rewrite (bool_decide_false (None = Some n)) by done.
  destruct (Nat.eqb_spec m n) as [->|Hne].
  - rewrite bool_decide_true by done. cbn [length]. lia.
  - rewrite bool_decide_false by congruence. cbn [length]. lia.
Qed.

Ltac kept := repeat first
  [ apply logs_kept_refl
  | apply logs_kept_out; [by intros|]
  | apply logs_kept_call
  | progress case_match
  | (split; [by intros|reflexivity]) ].

Lemma handle_logs o s : logs_kept s (Client.handle date_of o s).
Proof.
  unfold Client.handle, Client.first_status, Client.checkStatus,
    Client.disconnectInternal, Client.write. cbv zeta.
  destruct (ofind "type" o) as [[]|]; kept.
Qed.

Lemma reading_logs input s : logs_kept s (Client.readData date_of input s).
Proof.
  apply (reading_keeps (logs_kept s)); [| |apply logs_kept_refl].
  - intros o s' Hs. eapply logs_kept_trans; [exact Hs|apply handle_logs].
  - intros b s' Hs. eapply logs_kept_trans; [exact Hs|]. split; done.
Qed.

Lemma cleanup_logs s : logs_kept s (Client.cleanupBackendLogs s).
Proof.
  unfold Client.cleanupBackendLogs. cbv zeta. eapply logs_kept_trans; [apply (logs_kept_call "")|].
  unfold Client.write. kept.
Qed.

Lemma step_logs e s : e = Client.GetLogs \/ logs_kept s (step e s).
Proof.
  destruct e; [right..| |right]; cbn [Client.client_step];
    [..|by left|apply cleanup_logs].
  all: try apply reading_logs.
  all: unfold Client.initialize, Client.initializeInternal, Client.daemonConnected,
    Client.checkStatus, Client.errorOccurred, Client.timeout, Client.disconnectInternal,
    Client.activate, Client.deactivate, Client.write; cbv zeta; kept.
Qed.

(** A request adds one call that is made or owed, for its own number. *)
Lemma get_logs n s :
  tally n (Client.getBackendLogs s) =
    tally n s + (if bool_decide (n = Client.m_requests s) then 1 else 0) /\
  Client.m_requests (Client.getBackendLogs s) = S (Client.m_requests s).
Proof.
  unfold Client.getBackendLogs. destruct (logs_kept_call "" s) as [Hk Er].
  rewrite <- (Hk n), <- Er. cbv zeta.
  assert (En : Client.m_logCallback (Client.call_back "" s) = None)
    by (unfold Client.call_back; by destruct (Client.m_logCallback s) eqn:E).
  destruct (Client.call_back "" s) as [st b d cb r t m os]. cbn in En. subst cb.
  unfold tally, Client.write, Client.out.
  destruct (bool_decide (st = Client.eReady)) eqn:Est; cbn -[calls_of];
    rewrite Est; cbn -[calls_of]; (split; [|done]); rewrite calls_of_snoc;
    rewrite (bool_decide_false (None = Some n)) by done; unfold calls_of at 2; cbn [List.filter].
  - rewrite (bool_decide_ext (Some m = Some n) (n = m)) by (split; congruence). cbn [length]. lia.
  - rewrite (bool_decide_ext (n = m) (m = n)) by (split; congruence).
    destruct (Nat.eqb_spec m n).
    + rewrite bool_decide_true by done. cbn [length]. lia.
    + rewrite bool_decide_false by done. cbn [length]. lia.
Qed.

(** no request for the daemon's logs is lost or answered twice.  In every run, the function
    of each request made so far has been called exactly once, or has not been called and is the
    one that is registered; the function of a request not made yet has not been called. *)
Theorem log_requests_answered_once es n :
  let s := run es in
  calls_of n (Client.outputs s)
    + (if bool_decide (Client.m_logCallback s = Some n) then 1 else 0) =
  (if bool_decide (n < Client.m_requests s) then 1 else 0).
Proof.
  change (tally n (run es) = if bool_decide (n < Client.m_requests (run es)) then 1 else 0).
  unfold Client.client_run.
  assert (H0 : tally n Client.new_client =
    if bool_decide (n < Client.m_requests Client.new_client) then 1 else 0).
  { rewrite bool_decide_false by (cbn; lia). reflexivity. }
  revert H0. generalize Client.new_client. induction es as [|e es IH]; intros s Hs; [exact Hs|].
  apply IH. destruct (step_logs e s) as [->|[Hk ->]]; [|by rewrite Hk].
  cbn [Client.client_step]. destruct (get_logs n s) as [Ht Hr]. rewrite Ht, Hs, Hr.
  repeat case_bool_decide; lia.
Qed.
End Controller.

(** ** A bare address *)

Lemma split_bare sep s : str_has sep s = false -> split_char sep s = [s].
Proof.
  induction s as [|c s IH]; [done|]. cbn [str_has split_char]. rewrite orb_false_iff.
  intros [Hc Hs]. rewrite (Ascii.eqb_sym c sep), Hc, IH by done. done.
Qed.

Lemma contains_char sep s : str_contains (String sep "") s = str_has sep s.
Proof.
  induction s as [|c s IH]; [done|]. cbn [str_contains str_has]. rewrite IH. f_equal.
  cbn [String.prefix]. destruct (ascii_dec sep c) as [->|Hne].
  - by rewrite Ascii.eqb_refl; destruct s.
  - by apply Ascii.eqb_neq in Hne as ->.
Qed.

(** an IPv6 address without a prefix length takes its whole /32 into the tunnel.  The client
    gives 32 to every address of AllowedIPs that has no prefix length, and the daemon keeps it:
    the tunnel then takes every IPv6 address that agrees in four bytes, where
    [IPAddress(const QString&)] reads the same text as the address alone. *)
Theorem bare_ipv6_widened `{Platform} raw c site a :
  to_object (ofind (to_string (ofind "protocol" raw) +:+ "_config_data") raw) =
    AwgClientConfig.toJson c ->
  activatable raw c = true ->
  AwgClientConfig.allowedIps c = [site] -> str_has "/" site = false ->
  parseAddress site = V6 a ->
  exists config net, parseConfig (Client.activation raw) = Some config /\
    m_allowedIPAddressRanges config = [net] /\
    (forall b, take 4 b = take 4 a -> contains net (V6 b) = true) /\
    IPAddress_fromString parseAddress parseSubnet site = mkIP (V6 a) 128.
Proof.
  intros Hraw Ha Hs Hbare Hp.
  exists (interface_of raw c), (mkIP (V6 a) 32). repeat split.
  - by apply parse_activation.
  - cbn [m_allowedIPAddressRanges interface_of]. unfold tunnel_ranges. rewrite Hs.
    replace (negb _ && negb _) with true.
    2: { rewrite !bool_decide_false; [done|by intros [=]|by intros [=]]. }
    cbn [map]. unfold ip_of. rewrite split_bare, Hp by done.
    apply Permutation_singleton_r. by rewrite std_sort_perm.
  - intros b Hb. unfold contains. cbn [m_prefixLength m_address protocol].
    rewrite bool_decide_true by done. unfold contains6. cbn [negb].
    change (32 =? 0)%Z with false. change (Z.to_nat (32 / 8)) with 4. cbv iota.
    rewrite bool_decide_true by done. reflexivity.
  - unfold IPAddress_fromString. rewrite contains_char, Hbare, Hp. reflexivity.
Qed.

(** ** The theorems at work *)

Lemma bits_no_space p : str_has LF (bits_string p) = false /\ trimmed (bits_string p) = bits_string p.
Proof.
  split; [by induction p|].
  assert (E : drop_spaces (bits_string p) = bits_string p) by (by destruct p).
  unfold trimmed. rewrite E. clear E. induction p as [p IH|p IH|]; [| |done];
    cbn [bits_string drop_trailing_spaces]; rewrite IH; by destruct (bits_string p).
Qed.

(** The texts of [json_text_model] are digits. *)
Definition compact_model : CompactText.
Proof.
  refine {| compact_text := json_text_model |}; intros j; cbn [json_print json_text_model].
  - unfold one_line. by rewrite (proj1 (bits_no_space _)).
  - apply bits_no_space.
Defined.

Definition status_request : obj := oof [("type", JStr "status")].
Definition logs_request : obj := oof [("type", JStr "logs")].

Definition sample_server : Server.server := Server.mkServer "" new_daemon [].

(** Two commands and the beginning of a third, cut in the middle of each. *)
Definition sample_stream : string :=
  @frame compact_model status_request +:+ @frame compact_model logs_request +:+ "20".

Definition sample_pieces : list string :=
  let n := String.length (@frame compact_model status_request) in
  [String.substring 0 (n - 7) sample_stream; String.substring (n - 7) 30 sample_stream;
   String.substring (n + 23) (String.length sample_stream) sample_stream].

Lemma commands_delivered_witness :
  bytes sample_pieces = sample_stream /\
  @server_receive compact_model sample_platform (map (fun p => [p]) sample_pieces) sample_server =
    (fold_left (fun s o => @Server.handle sample_platform o s) [status_request; logs_request]
       sample_server) <| Server.m_buffer := "20" |>.
Proof.
  assert (E : bytes sample_pieces = sample_stream) by (vm_compute; reflexivity).
  split; [exact E|].
  apply (@commands_delivered compact_model sample_platform (fun _ => None)
    (map (fun p => [p]) sample_pieces) sample_pieces [status_request; logs_request] "20"
    sample_server Client.new_client); try reflexivity.
  - apply Forall_forall. intros l (p & -> & Hp)%list_elem_of_fmap. apply Forall_singleton.
    assert (Hn : Forall (fun p => p <> "") sample_pieces) by (vm_compute; repeat constructor; done).
    rewrite Forall_forall in Hn. by apply Hn.
Defined.

(** An account: keys, a host and one site excluded from the tunnel. *)
Definition sample_wg (allowed : list string) : AwgClientConfig.AwgClientConfig :=
  AwgClientConfig.fromJson
    (oof [("hostName", JStr "192.0.2.1"); ("port", JInt 51820); ("client_ip", JStr "10.8.1.2/32");
          ("client_priv_key", JStr "private"); ("server_pub_key", JStr "peer");
          ("allowed_ips", JArr (map JStr allowed)); ("Jc", JStr "4"); ("H1", JStr "1-5");
          ("mtu", JStr "1376")]).

Definition sample_raw (allowed : list string) : obj :=
  oof [("protocol", JStr "awg"); ("awg_config_data", JObj (AwgClientConfig.toJson (sample_wg allowed)));
       ("dns1", JStr "1.1.1.1"); ("dns2", JStr "1.0.0.1"); ("splitTunnelType", JInt 2);
       ("splitTunnelSites", JArr [JStr "198.51.100.0/24"]); ("killSwitchOption", JStr "true")].

Definition sample_request : string :=
  @frame compact_model (Client.activation (sample_raw ["0.0.0.0/0"; "::/0"])).

Lemma activation_end_to_end_witness :
  let s := @server_receive compact_model sample_platform [[sample_request]] sample_server in
  installed (d_history (Server.m_daemon s)) =
    {[mkIP (V4 3221225985) 32; mkIP (V4 3325256704) 24]}.
Proof.
  cbv zeta.
  rewrite (@activation_end_to_end compact_model sample_platform (sample_raw ["0.0.0.0/0"; "::/0"])
    (sample_wg ["0.0.0.0/0"; "::/0"]) [[sample_request]] sample_server Client.new_client);
    try (vm_compute; reflexivity).
  repeat constructor. unfold sample_request, frame. by destruct (json_print _).
Defined.

Lemma retries_bounded_witness :
  let es := [Client.Initialize; Client.SocketError; Client.Timer] in
  Client.m_initializingRetry (@Client.client_run compact_model false true (fun _ => None) es) = 1%Z /\
  Client.m_daemonState (@Client.client_run compact_model false true (fun _ => None)
    (es ++ concat (replicate 9 [Client.SocketError; Client.Timer]) ++ [Client.SocketError]))
    = Client.eReady.
Proof.
  split; [reflexivity|].
  apply (proj2 (@retries_bounded compact_model false true (fun _ => None)
    [Client.Initialize; Client.SocketError; Client.Timer])). reflexivity.
Defined.

Lemma bare_ipv6_widened_witness :
  exists config net,
    @parseConfig sample_platform (Client.activation (sample_raw ["2001:db8::1"])) = Some config /\
    m_allowedIPAddressRanges config = [net] /\
    contains net (V6 [32; 1; 13; 184; 255; 255; 0; 0; 0; 0; 0; 0; 0; 0; 0; 9]%Z) = true.
Proof.
  destruct (@bare_ipv6_widened sample_platform (sample_raw ["2001:db8::1"]) (sample_wg ["2001:db8::1"])
    "2001:db8::1" [32; 1; 13; 184; 0; 0; 0; 0; 0; 0; 0; 0; 0; 0; 0; 1]%Z) as (config & net & H1 & H2 & H3 & _);
    try (vm_compute; reflexivity).
  exists config, net. split; [exact H1|]. split; [exact H2|]. apply H3. reflexivity.
Defined.
