(* ===== verification/SplitTunneling.v ===== *)
(** * Split tunnelling

    Which traffic uses the tunnel.  The user's site lists live in the settings
    ([client/core/repositories/secureAppSettingsRepository.cpp], Module [Settings]); three
    controllers edit them, the list of applications and the list of allowed DNS servers
    ([client/core/controllers/ipSplitTunnelingController.cpp], Module [Sites],
    [appSplitTunnelingController.cpp], Module [Apps], [allowedDnsController.cpp], Module [Dns]);
    the routing rules of the account replace them ([applyRouting] of
    [client/core/controllers/coreController.cpp]); and connecting adds them to the
    configuration the tunnel is started with ([client/vpnConnection.cpp], Module
    [Connection]).

    The settings are the values written last; that [SecureQSettings] keeps these, encrypted
    entries included, is [settings_refine_map] of [SecureSettingsTheorems].  A [QMap] is a list in the order of its keys. *)

From S2P Require Import Prelude Json IpAddress Lines InterfaceConfig ProtocolConfigs.

(** ** Library *)

Section QMap.
Context {A : Type}.

Fixpoint mfind (k : string) (m : list (string * A)) : option A :=
  match m with
  | [] => None
  | (k', v) :: r => if String.eqb k k' then Some v else mfind k r
  end.

Fixpoint minsert (k : string) (v : A) (m : list (string * A)) : list (string * A) :=
  match m with
  | [] => [(k, v)]
  | (k', v') :: r =>
      if String.eqb k k' then (k, v) :: r
      else if String.ltb k k' then (k, v) :: (k', v') :: r
      else (k', v') :: minsert k v r
  end.

Fixpoint mremove (k : string) (m : list (string * A)) : list (string * A) :=
  match m with
  | [] => []
  | (k', v) :: r => if String.eqb k k' then mremove k r else (k', v) :: mremove k r
  end.

Definition mcontains (k : string) (m : list (string * A)) : bool :=
  match mfind k m with Some _ => true | None => false end.
End QMap.

(** [QVariant], as far as the settings use it. *)
Unset Elimination Schemes.
Inductive variant :=
  | VNull
  | VBool (b : bool)
  | VInt (z : Z)
  | VStr (s : string)
  | VStrings (l : list string)
  | VList (l : list variant)
  | VMap (m : list (string * variant))
  | VJson (a : list json)
  | VBytes (b : string)
  | VReal (n : Z) (d : positive).
Set Elimination Schemes.

(** [QVariant::toString]; the text of a number that is not whole is left out, no setting holds
    one. *)
Definition variant_text (v : variant) : string :=
  match v with
  | VStr s | VBytes s => s
  | VInt z => pretty z
  | VBool b => if b then "true" else "false"
  | _ => ""
  end.

Definition toMap (v : variant) : list (string * variant) :=
  match v with VMap m => m | _ => [] end.

(** A single text is a list of one. *)
Definition toStringList (v : variant) : list string :=
  match v with
  | VStrings l => l
  | VList l => map variant_text l
  | VStr s => [s]
  | _ => []
  end.

Definition text_to_int (s : string) : option Z :=
  match to_long_long s with Some z => if in_int32 z then Some z else None | None => None end.

Definition toInt (v : variant) : Z :=
  match v with
  | VInt z => z
  | VBool b => if b then 1%Z else 0%Z
  | VStr s | VBytes s => default 0%Z (text_to_int s)
  | VReal n d => (Z.sgn n * ((2 * Z.abs n + Zpos d) / (2 * Zpos d)))%Z
  | _ => 0%Z
  end.

Definition toBool (v : variant) : bool :=
  match v with
  | VBool b => b
  | VInt z | VReal z _ => negb (z =? 0)%Z
  | VStr s | VBytes s => let l := to_lower s in
              negb (str_empty l || String.eqb l "0" || String.eqb l "false")
  | _ => false
  end.

(** [QJsonValue::fromVariant] and [QJsonValue::toVariant]. *)
Fixpoint from_variant (v : variant) : json :=
  match v with
  | VNull => JNull
  | VBool b => JBool b
  | VInt z => JInt z
  | VReal n d => JReal n d
  | VStr s | VBytes s => JStr s
  | VStrings l => JArr (map JStr l)
  | VList l => JArr (map from_variant l)
  | VMap m => JObj (map (fun kv => (kv.1, from_variant kv.2)) m)
  | VJson a => JArr a
  end.

Fixpoint to_variant (j : json) : variant :=
  match j with
  | JNull => VNull
  | JBool b => VBool b
  | JInt z => VInt z
  | JReal n d => VReal n d
  | JStr s => VStr s
  | JArr l => VList (map to_variant l)
  | JObj o => VMap (map (fun kv => (kv.1, to_variant kv.2)) o)
  end.

Definition toJsonArray (v : variant) : list json :=
  match v with
  | VJson a => a
  | VStrings l => map JStr l
  | VList l => map from_variant l
  | _ => []
  end.

(** [QStringList::removeDuplicates] keeps the first of equal elements. *)
Fixpoint keep_first (seen l : list string) : list string :=
  match l with
  | [] => []
  | x :: r => if bool_decide (x ∈ seen) then keep_first seen r else x :: keep_first (x :: seen) r
  end.
Definition removeDuplicates : list string -> list string := keep_first [].

Definition removeEmpty : list string -> list string := filter (fun s => s <> "").

(** [if (!ip.isEmpty() && !list.contains(ip)) list.append(ip);] for each. *)
Definition merge_ips (ips : list string) (l : list string) : list string :=
  fold_left (fun acc ip =>
    if negb (str_empty ip) && negb (bool_decide (ip ∈ acc)) then acc ++ [ip] else acc) ips l.

(** [RouteMode] and [AppsRouteMode] are read from an integer without a check. *)
Abbreviation RouteMode := Z (only parsing).
Definition VpnAllSites : RouteMode := 0%Z.
Definition VpnOnlyForwardSites : RouteMode := 1%Z.
Definition VpnAllExceptSites : RouteMode := 2%Z.
Abbreviation AppsRouteMode := Z (only parsing).
Definition VpnAllApps : AppsRouteMode := 0%Z.
Definition VpnOnlyForwardApps : AppsRouteMode := 1%Z.
Definition VpnAllExceptApps : AppsRouteMode := 2%Z.

Record InstalledAppInfo := mkApp { appName : string; packageName : string; appPath : string }.

(** ** The repository *)

Module Settings.

Inductive signal :=
  | sitesChanged (mode : RouteMode)
  | routeModeChanged (mode : RouteMode)
  | sitesSplitTunnelingEnabledChanged (enabled : bool)
  | appsChanged (mode : AppsRouteMode)
  | appsRouteModeChanged (mode : AppsRouteMode)
  | appsSplitTunnelingEnabledChanged (enabled : bool)
  | allowedDnsServersChanged (servers : list string).

Record settings := mkSettings { conf : gmap string variant; emitted : list signal }.

#[global] Instance eta_settings : Eta settings := fun s => mkSettings (conf s) (emitted s).

Definition value (key : string) (def : variant) (s : settings) : variant :=
  default def (conf s !! key).
Definition setValue (key : string) (v : variant) (s : settings) : settings :=
  s <| conf := <[key := v]> (conf s) |>.
Definition emit (g : signal) (s : settings) : settings := s <| emitted := emitted s ++ [g] |>.

Definition routeModeString (mode : RouteMode) : string :=
  if (mode =? VpnAllSites)%Z then "AllSites"
  else if (mode =? VpnOnlyForwardSites)%Z then "ForwardSites"
  else if (mode =? VpnAllExceptSites)%Z then "ExceptSites" else "".

Definition routeMode (s : settings) : RouteMode := toInt (value "Conf/routeMode" (VInt 0) s).

Definition setRouteMode (mode : RouteMode) (s : settings) : settings :=
  emit (routeModeChanged mode) (setValue "Conf/routeMode" (VInt mode) s).

Definition vpnSites (mode : RouteMode) (s : settings) : list (string * variant) :=
  toMap (value ("Conf/" +:+ routeModeString mode) VNull s).

Definition siteIpList (v : variant) : list string :=
  removeDuplicates (removeEmpty (toStringList v)).

Definition setVpnSites (mode : RouteMode) (sites : list (string * variant)) : settings -> settings :=
  setValue ("Conf/" +:+ routeModeString mode) (VMap sites).

(** The flag [changed] of the source is set exactly when an address is appended. *)
Definition addVpnSite (mode : RouteMode) (site : string) (ips : list string) (s : settings)
    : bool * settings :=
  let sites := vpnSites mode s in
  let siteExisted := mcontains site sites in
  if siteExisted && bool_decide (ips = []) then (false, s)
  else
    let before := siteIpList (default VNull (mfind site sites)) in
    let mergedIps := merge_ips ips before in
    let changed := negb siteExisted || negb (bool_decide (mergedIps = before)) in
    if negb changed then (false, s)
    else (true, emit (sitesChanged mode)
                  (setVpnSites mode (minsert site (VStrings mergedIps) sites) s)).

Definition addVpnSites (mode : RouteMode) (sites : list (string * list string)) (s : settings)
    : settings :=
  let allSites := fold_left (fun all '(site, ips) =>
      minsert site (VStrings (merge_ips ips (siteIpList (default VNull (mfind site all))))) all)
    sites (vpnSites mode s) in
  emit (sitesChanged mode) (setVpnSites mode allSites s).

(** The values written are lists of texts; a stored value that is not equal to one is of
    another type. *)
Definition same_sites (stored : list (string * variant)) (sites : list (string * list string)) : bool :=
  bool_decide (map fst stored = map fst sites) &&
  forallb (fun '(v, l) => match v with VStrings l' => bool_decide (l' = l) | _ => false end)
    (combine (map snd stored) (map snd sites)).

Definition replaceVpnSites (mode : RouteMode) (sites : list (string * list string)) (s : settings)
    : settings :=
  let replacement := map (fun '(k, ips) => (k, removeDuplicates (removeEmpty ips))) sites in
  if same_sites (vpnSites mode s) replacement then s
  else emit (sitesChanged mode)
         (setVpnSites mode (map (fun '(k, ips) => (k, VStrings ips)) replacement) s).

Definition removeVpnSite (mode : RouteMode) (site : string) (s : settings) : settings :=
  let sites := vpnSites mode s in
  if negb (mcontains site sites) then s
  else emit (sitesChanged mode) (setVpnSites mode (mremove site sites) s).

Definition removeAllVpnSites (mode : RouteMode) (s : settings) : settings :=
  emit (sitesChanged mode) (setVpnSites mode [] s).

Definition isSitesSplitTunnelingEnabled (s : settings) : bool :=
  toBool (value "Conf/sitesSplitTunnelingEnabled" (VBool false) s).

Definition setSitesSplitTunnelingEnabled (enabled : bool) (s : settings) : settings :=
  emit (sitesSplitTunnelingEnabledChanged enabled)
    (setValue "Conf/sitesSplitTunnelingEnabled" (VBool enabled) s).

Definition appsRouteModeString (mode : AppsRouteMode) : string :=
  if (mode =? VpnAllApps)%Z then "AllApps"
  else if (mode =? VpnOnlyForwardApps)%Z then "ForwardApps"
  else if (mode =? VpnAllExceptApps)%Z then "ExceptApps" else "".

Definition appsRouteMode (s : settings) : AppsRouteMode :=
  toInt (value "Conf/appsRouteMode" (VInt 0) s).

Definition setAppsRouteMode (mode : AppsRouteMode) (s : settings) : settings :=
  emit (appsRouteModeChanged mode) (setValue "Conf/appsRouteMode" (VInt mode) s).

Definition app_of_json (v : json) : InstalledAppInfo :=
  let o := to_object (Some v) in
  mkApp (to_string (ofind "appName" o)) (to_string (ofind "packageName" o))
    (to_string (ofind "appPath" o)).

Definition app_to_json (app : InstalledAppInfo) : json :=
  JObj (oof [("appName", JStr (appName app)); ("packageName", JStr (packageName app));
             ("appPath", JStr (appPath app))]).

Definition vpnApps (mode : AppsRouteMode) (s : settings) : list InstalledAppInfo :=
  map app_of_json (toJsonArray (value ("Conf/" +:+ appsRouteModeString mode) VNull s)).

Definition setVpnApps (mode : AppsRouteMode) (apps : list InstalledAppInfo) (s : settings)
    : settings :=
  emit (appsChanged mode)
    (setValue ("Conf/" +:+ appsRouteModeString mode) (VJson (map app_to_json apps)) s).

Definition isAppsSplitTunnelingEnabled (s : settings) : bool := false.

(** The argument is not used: a preference of an earlier version is cleared. *)
Definition setAppsSplitTunnelingEnabled (enabled : bool) (s : settings) : settings :=
  if toBool (value "Conf/appsSplitTunnelingEnabled" (VBool false) s) then
    emit (appsSplitTunnelingEnabledChanged false)
      (setValue "Conf/appsSplitTunnelingEnabled" (VBool false) s)
  else s.

Definition getAllowedDnsServers (s : settings) : list string :=
  toStringList (value "Conf/allowedDnsServers" VNull s).

Definition setAllowedDnsServers (servers : list string) (s : settings) : settings :=
  emit (allowedDnsServersChanged servers) (setValue "Conf/allowedDnsServers" (VStrings servers) s).

Definition isKillSwitchEnabled (s : settings) : bool :=
  toBool (value "Conf/killSwitchEnabled" (VBool true) s).
End Settings.

(** ** Names of sites *)

Fixpoint str_drop (n : nat) (s : string) : string :=
  match n, s with
  | S n, String _ r => str_drop n r
  | _, _ => s
  end.

(** [s.replace(needle, "")]: every turn takes a character, so that the length is enough fuel. *)
Fixpoint remove_all (fuel : nat) (needle s : string) : string :=
  match fuel, s with
  | S fuel, String c r =>
      if String.prefix needle s then remove_all fuel needle (str_drop (String.length needle) s)
      else String c (remove_all fuel needle r)
  | _, _ => s
  end.

Definition without (needle s : string) : string := remove_all (String.length s) needle s.

(** A decimal number without leading zeros, at most [bound]. *)
Definition number_upto (bound : Z) (s : string) : bool :=
  match digits s with
  | Some n => (n <=? bound)%Z && String.eqb (pretty n) s
  | None => false
  end.

Definition dotted_quad (s : string) : bool :=
  match split_char "." s with
  | [a; b; c; d] =>
      number_upto 255 a && number_upto 255 b && number_upto 255 c && number_upto 255 d
  | _ => false
  end.

(** [ipAddressWithSubnetRegExp().exactMatch]: four numbers up to 255 with dots between them,
    and optionally a slash and a number up to 32. *)
Definition ipAddressWithSubnet (s : string) : bool :=
  match split_char "/" s with
  | [a] => dotted_quad a
  | [a; p] => dotted_quad a && number_upto 32 p
  | _ => false
  end.

Fixpoint count_char (c : ascii) (s : string) : nat :=
  match s with
  | EmptyString => 0
  | String d r => (if Ascii.eqb c d then 1 else 0) + count_char c r
  end.

Definition checkIPv4Format `{HostText} (ip : string) : bool :=
  negb (str_empty ip) && Nat.eqb (count_char "." ip) 3 &&
  bool_decide (protocol (parseAddress ip) = IPv4Protocol).

Definition checkIpSubnetFormat `{HostText} (ip : string) : bool :=
  if negb (str_contains "/" ip) then checkIPv4Format ip
  else match split_char "/" ip with
       | [a; p] =>
           match text_to_int p with
           | Some subnet => (0 <=? subnet)%Z && (subnet <=? 32)%Z && checkIPv4Format a
           | None => false
           end
       | _ => false
       end.

(** ** The controller of site lists *)

Module Sites.
Import Settings.

Record sites_ctl := mkSites {
  m_appSettingsRepository : settings;
  m_currentRouteMode : RouteMode;
  m_sites : list (string * list string);
  lookups : list string                     (* the calls of QHostInfo::lookupHost *)
}.

#[global] Instance eta_sites : Eta sites_ctl := fun s =>
  mkSites (m_appSettingsRepository s) (m_currentRouteMode s) (m_sites s) (lookups s).

(** A call of the repository. *)
Definition on_settings (f : settings -> settings) (s : sites_ctl) : sites_ctl :=
  s <| m_appSettingsRepository := f (m_appSettingsRepository s) |>.

Definition fillSites (s : sites_ctl) : sites_ctl :=
  s <| m_sites := map (fun '(k, v) => (k, siteIpList v))
                    (vpnSites (m_currentRouteMode s) (m_appSettingsRepository s)) |>.

Definition IpSplitTunnelingController (repo : settings) : sites_ctl :=
  let mode := routeMode repo in
  fillSites (if (mode =? VpnAllSites)%Z
             then mkSites (setRouteMode VpnOnlyForwardSites repo) VpnOnlyForwardSites [] []
             else mkSites repo mode [] []).

(** [m_sites[i].second] of the first entry with this name, extended. *)
Fixpoint extend (hostname : string) (ips : list string) (l : list (string * list string))
    : list (string * list string) :=
  match l with
  | [] => []
  | (k, v) :: r =>
      if String.eqb k hostname then (k, merge_ips ips v) :: r else (k, v) :: extend hostname ips r
  end.

Definition addSiteInternal (hostname : string) (ips : list string) (s : sites_ctl)
    : bool * sites_ctl :=
  let mode := m_currentRouteMode s in
  if mcontains hostname (vpnSites mode (m_appSettingsRepository s)) && bool_decide (ips = [])
  then (false, s)
  else
    let store := on_settings (fun r => (addVpnSite mode hostname ips r).2) in
    match mfind hostname (m_sites s) with
    | Some v =>
        let s := s <| m_sites := extend hostname ips (m_sites s) |> in
        if bool_decide (merge_ips ips v = v) then (false, s) else (true, store s)
    | None => (true, store (s <| m_sites := m_sites s ++ [(hostname, ips)] |>))
    end.

Definition addSites (sites : list (string * list string)) (replaceExisting : bool) (s : sites_ctl)
    : sites_ctl :=
  let mode := m_currentRouteMode s in
  if replaceExisting then
    on_settings (replaceVpnSites mode sites)
      (s <| m_sites := map (fun '(k, ips) => (k, removeDuplicates (removeEmpty ips))) sites |>)
  else
    on_settings (addVpnSites mode sites)
      (s <| m_sites := fold_left (fun l '(hostname, ips) =>
              if mcontains hostname l then extend hostname ips l else l ++ [(hostname, ips)])
            sites (m_sites s) |>).

Definition normalizeHostname (hostname : string) : string :=
  let normalized := without "ftp://" (without "http://" (without "https://" hostname)) in
  if ipAddressWithSubnet normalized then normalized
  else default "" (head (removeEmpty (split_char "/" normalized))).

Definition validateHostname (hostname : string) : bool :=
  negb (str_empty hostname) && (str_contains "." hostname || ipAddressWithSubnet hostname).

Definition processSite (hostname : string) (ips : list string) (s : sites_ctl) : sites_ctl :=
  (addSiteInternal hostname ips s).2.

Definition addSite (hostname : string) (s : sites_ctl) : bool * sites_ctl :=
  let normalizedHostname := normalizeHostname hostname in
  if negb (validateHostname normalizedHostname) then (false, s)
  else if ipAddressWithSubnet normalizedHostname then (true, processSite normalizedHostname [] s)
  else
    let '(added, s) := addSiteInternal normalizedHostname [] s in
    if added then (true, s <| lookups := lookups s ++ [normalizedHostname] |>) else (false, s).

(** [m_sites.removeAt(i)] at the first entry with this name. *)
Fixpoint drop_site (hostname : string) (l : list (string * list string))
    : list (string * list string) :=
  match l with
  | [] => []
  | (k, v) :: r => if String.eqb k hostname then r else (k, v) :: drop_site hostname r
  end.

Definition removeSite (hostname : string) (s : sites_ctl) : bool * sites_ctl :=
  if mcontains hostname (m_sites s) then
    (true, on_settings (removeVpnSite (m_currentRouteMode s) hostname)
             (s <| m_sites := drop_site hostname (m_sites s) |>))
  else (false, s).

Definition removeSites (s : sites_ctl) : sites_ctl :=
  on_settings (removeAllVpnSites (m_currentRouteMode s)) (s <| m_sites := [] |>).

Definition setRouteMode (routeMode : RouteMode) (s : sites_ctl) : sites_ctl :=
  on_settings (Settings.setRouteMode routeMode)
    (fillSites (s <| m_currentRouteMode := routeMode |>)).

Definition toggleSplitTunneling (enabled : bool) : sites_ctl -> sites_ctl :=
  on_settings (setSitesSplitTunnelingEnabled enabled).

Definition isSplitTunnelingEnabled (s : sites_ctl) : bool :=
  isSitesSplitTunnelingEnabled (m_appSettingsRepository s).

Definition processSiteAfterResolve (hostname : string) (ips : list string) (s : sites_ctl)
    : sites_ctl :=
  on_settings (fun r => (addVpnSite (m_currentRouteMode s) hostname ips r).2)
    (s <| m_sites := extend hostname ips (m_sites s) |>).

Section Resolve.
Context `{HostText}.

(** The slot that a finished lookup calls. *)
Definition onHostResolved (hostname : string) (addresses : list QHostAddress) (s : sites_ctl)
    : sites_ctl :=
  let allIpv4 := removeDuplicates
    (map addressText (filter (fun a => protocol a = IPv4Protocol) addresses)) in
  match allIpv4 with
  | [] => s
  | _ => processSiteAfterResolve hostname allIpv4 s
  end.
End Resolve.

(** *** Import and export *)

Section Transfer.
Context `{JsonText}.

Inductive import_error := ParseFailed | NotAnArray.

(** One element of an imported list; [None] when its name is not valid. *)
Definition imported_site (v : json) : option (string * list string) :=
  let jsonObject := to_object (Some v) in
  let singleIp := to_string (ofind "ip" jsonObject) in
  let ips := map (fun v => to_string (Some v)) (to_array (ofind "ips" jsonObject))
             ++ (if str_empty singleIp then [] else [singleIp]) in
  let normalizedHostname := normalizeHostname (to_string (ofind "hostname" jsonObject)) in
  if validateHostname normalizedHostname
  then Some (normalizedHostname, removeDuplicates (removeEmpty ips)) else None.

Definition imported_sites (jsonArray : list json) : list (string * list string) :=
  fold_left (fun sites v => match imported_site v with
                            | Some (k, ips) => minsert k ips sites
                            | None => sites
                            end) jsonArray [].

Definition importSitesFromJson (jsonData : string) (replaceExisting : bool) (s : sites_ctl)
    : (import_error + unit) * sites_ctl :=
  match json_parse jsonData with
  | None => (inl ParseFailed, s)
  | Some (JArr jsonArray) => (inr tt, addSites (imported_sites jsonArray) replaceExisting s)
  | Some _ => (inl NotAnArray, s)
  end.

Definition exported_site (site : string * list string) : json :=
  JObj (oof [("hostname", JStr site.1); ("ips", JArr (map JStr site.2));
             ("ip", JStr (default "" (head site.2)))]).

Definition exportSitesToJson (s : sites_ctl) : string :=
  json_print (JArr (map exported_site (m_sites s))).
End Transfer.

(** *** The routing rules of the account *)

Inductive rules_error := InvalidList | InvalidRule | UnsupportedRule | MixedRules.

(** The sites of the rules that bypass the tunnel and of those that use it. *)
Fixpoint sorted_rules (rules : list json) (directSites vpnSites : list (string * list string))
    : rules_error + list (string * list string) * list (string * list string) :=
  match rules with
  | [] => inr (directSites, vpnSites)
  | JObj rule :: rest =>
      let field k := to_lower (trimmed (to_string (ofind k rule))) in
      let type := field "type" in
      let route := field "route" in
      let ruleValue := field "value" in
      if negb (String.eqb type "domain") && negb (String.eqb type "ip")
         || negb (String.eqb route "direct") && negb (String.eqb route "vpn")
         || str_empty ruleValue
      then inl UnsupportedRule
      else if String.eqb route "direct"
      then sorted_rules rest (minsert ruleValue [] directSites) vpnSites
      else sorted_rules rest directSites (minsert ruleValue [] vpnSites)
  | _ => inl InvalidRule
  end.

(** Are these the stored sites? *)
Definition stored_alike (stored : list (string * variant)) (sites : list (string * list string)) : bool :=
  Nat.eqb (length stored) (length sites) &&
  forallb (fun '(k, ips) =>
    match mfind k stored with
    | Some v => bool_decide (siteIpList v = ips)
    | None => false
    end) sites.

Definition applyRouting (routing : obj) (s : sites_ctl) : (rules_error + unit) * sites_ctl :=
  match ofind "rules" routing with
  | Some (JArr rules) =>
      match sorted_rules rules [] [] with
      | inl e => (inl e, s)
      | inr (directSites, vpnSites_) =>
          match directSites, vpnSites_ with
          | _ :: _, _ :: _ => (inl MixedRules, s)
          | [], [] =>
              (inr tt, if isSplitTunnelingEnabled s then toggleSplitTunneling false s else s)
          | _, _ =>
              let mode := match directSites with
                          | _ :: _ => VpnAllExceptSites
                          | [] => VpnOnlyForwardSites
                          end in
              let sites := match directSites with _ :: _ => directSites | [] => vpnSites_ end in
              let sameSites := stored_alike (vpnSites mode (m_appSettingsRepository s)) sites in
              let sameMode := (m_currentRouteMode s =? mode)%Z in
              let alreadyEnabled := isSplitTunnelingEnabled s in
              if sameMode && sameSites && alreadyEnabled then (inr tt, s)
              else
                let s := if negb sameMode then setRouteMode mode s else s in
                let s := if negb sameSites then addSites sites true s else s in
                let s := if negb alreadyEnabled then toggleSplitTunneling true s else s in
                (inr tt, s)
          end
      end
  | _ => (inl InvalidList, s)
  end.
End Sites.

(** ** The controllers of applications and of DNS servers *)

Module Apps.
Import Settings.

Record apps_ctl := mkApps {
  m_appSettingsRepository : settings;
  m_currentRouteMode : AppsRouteMode;
  m_apps : list InstalledAppInfo
}.

#[global] Instance eta_apps : Eta apps_ctl := fun s =>
  mkApps (m_appSettingsRepository s) (m_currentRouteMode s) (m_apps s).

(** [InstalledAppInfo::operator==]. *)
Definition app_eqb (app other : InstalledAppInfo) : bool :=
  if negb (str_empty (packageName app)) then String.eqb (packageName app) (packageName other)
  else String.eqb (appPath app) (appPath other).

Definition AppSplitTunnelingController (repo : settings) : apps_ctl :=
  let repo := setAppsSplitTunnelingEnabled false repo in
  let mode := appsRouteMode repo in
  if (mode =? VpnAllApps)%Z
  then mkApps (setAppsRouteMode VpnAllExceptApps repo) VpnAllExceptApps
         (vpnApps VpnAllExceptApps repo)
  else mkApps repo mode (vpnApps mode repo).

Definition store (s : apps_ctl) : apps_ctl :=
  s <| m_appSettingsRepository :=
         setVpnApps (m_currentRouteMode s) (m_apps s) (m_appSettingsRepository s) |>.

Definition addApp (appInfo : InstalledAppInfo) (s : apps_ctl) : bool * apps_ctl :=
  if existsb (fun app => app_eqb app appInfo) (m_apps s) then (false, s)
  else (true, store (s <| m_apps := m_apps s ++ [appInfo] |>)).

Definition removeApp (index : Z) (s : apps_ctl) : apps_ctl :=
  if (index <? 0)%Z || (Z.of_nat (length (m_apps s)) <=? index)%Z then s
  else store (s <| m_apps := delete (Z.to_nat index) (m_apps s) |>).

Definition clearAppsList (s : apps_ctl) : apps_ctl := store (s <| m_apps := [] |>).

Definition setRouteMode (routeMode : AppsRouteMode) (s : apps_ctl) : apps_ctl :=
  mkApps (setAppsRouteMode routeMode (m_appSettingsRepository s)) routeMode
    (vpnApps routeMode (m_appSettingsRepository s)).

Definition toggleSplitTunneling (enabled : bool) (s : apps_ctl) : apps_ctl :=
  s <| m_appSettingsRepository := setAppsSplitTunnelingEnabled false (m_appSettingsRepository s) |>.

Definition isSplitTunnelingEnabled (s : apps_ctl) : bool :=
  isAppsSplitTunnelingEnabled (m_appSettingsRepository s).
End Apps.

Module Dns.
Import Settings.

Record dns_ctl := mkDns { m_appSettingsRepository : settings; m_dnsServers : list string }.

#[global] Instance eta_dns : Eta dns_ctl := fun s => mkDns (m_appSettingsRepository s) (m_dnsServers s).

Definition AllowedDnsController (repo : settings) : dns_ctl := mkDns repo (getAllowedDnsServers repo).

Definition store (s : dns_ctl) : dns_ctl :=
  s <| m_appSettingsRepository := setAllowedDnsServers (m_dnsServers s) (m_appSettingsRepository s) |>.

Definition addDns (ip : string) (s : dns_ctl) : bool * dns_ctl :=
  if bool_decide (ip ∈ m_dnsServers s) then (false, s)
  else (true, store (s <| m_dnsServers := m_dnsServers s ++ [ip] |>)).

Definition addDnsList (dnsServers : list string) (replaceExisting : bool) (s : dns_ctl) : dns_ctl :=
  store (s <| m_dnsServers :=
    fold_left (fun l ip => if bool_decide (ip ∈ l) then l else l ++ [ip]) dnsServers
      (if replaceExisting then [] else m_dnsServers s) |>).

Definition removeDns (index : Z) (s : dns_ctl) : dns_ctl :=
  if (index <? 0)%Z || (Z.of_nat (length (m_dnsServers s)) <=? index)%Z then s
  else store (s <| m_dnsServers := delete (Z.to_nat index) (m_dnsServers s) |>).
End Dns.

(** ** Connecting *)

Module Connection.
Import Settings.

(** [QString::split(const QString &)]. *)
Fixpoint split_on (fuel : nat) (sep s : string) : list string :=
  match fuel, s with
  | S fuel, String c r =>
      if String.prefix sep s then "" :: split_on fuel sep (str_drop (String.length sep) s)
      else match split_on fuel sep r with
           | x :: l => String c x :: l
           | [] => [String c ""]
           end
  | _, _ => [s]
  end.

Definition split_text (sep s : string) : list string := split_on (String.length s) sep s.

(** The value of a key in a WireGuard file: the first line [key = value]. *)
Definition native_value (key config : string) : option string :=
  let values := omap (fun line =>
      match split_char "=" line with
      | first :: second :: rest =>
          if String.eqb (trimmed first) key
          then Some (trimmed (String.concat "=" (second :: rest))) else None
      | _ => None
      end) (split_char LF config) in
  head values.

Section Config.
Context `{HostText}.

Definition appendKillSwitchConfig (s : settings) (config : obj) : obj :=
  oset "allowedDnsServers" (JArr (map JStr (getAllowedDnsServers s)))
    (oset "killSwitchOption" (JStr (if isKillSwitchEnabled s then "true" else "false")) config).

(** The networks of the tunnel from the forms older configurations have. *)
Definition with_allowed_ips (configData : obj) : obj :=
  match ofind configKey.allowedIps configData with
  | Some (JStr ips) => oset configKey.allowedIps (JArr (map JStr (split_text ", " ips))) configData
  | None =>
      match native_value "AllowedIPs" (to_string (ofind configKey.config configData)) with
      | Some ips =>
          oset configKey.allowedIps
            (JArr (map (fun ip => JStr (trimmed ip)) (removeEmpty (split_char "," ips)))) configData
      | None => configData
      end
  | _ => configData
  end.

Definition with_keep_alive (configData : obj) : obj :=
  match ofind configKey.persistentKeepAlive configData with
  | None =>
      match native_value "PersistentKeepalive" (to_string (ofind configKey.config configData)) with
      | Some v => oset configKey.persistentKeepAlive (JStr v) configData
      | None => configData
      end
  | _ => configData
  end.

Definition whole (configData : obj) : bool :=
  let allowed := to_array (ofind configKey.allowedIps configData) in
  bool_decide (JStr "0.0.0.0/0" ∈ allowed) && bool_decide (JStr "::/0" ∈ allowed).

(** The old forms are rewritten in the configuration only when something was found. *)
Definition upgraded (config : obj) : obj * bool :=
  let protocolName := to_string (ofind "protocol" config) in
  if String.eqb protocolName "awg" || String.eqb protocolName "wireguard" then
    let key := protocolName +:+ "_config_data" in
    let configData := to_object (ofind key config) in
    let configData' := with_keep_alive (with_allowed_ips configData) in
    (if bool_decide (configData' = configData) then config else oset key (JObj configData') config,
     whole configData')
  else (config, true).

(** The addresses among the sites: a site that is one, otherwise those it was resolved to. *)
Definition site_addresses (sites : list (string * variant)) : list string :=
  removeDuplicates (concat (map (fun '(k, v) =>
    if checkIpSubnetFormat k then [k]
    else filter (fun ip => checkIpSubnetFormat ip = true) (siteIpList v)) sites)).

(** Route mode and sites of the tunnel. *)
Definition split_sites (s : settings) (allowSiteBasedSplitTunneling : bool) (config : obj)
    : RouteMode * list string :=
  if isSitesSplitTunnelingEnabled s then
    let mode := routeMode s in
    if allowSiteBasedSplitTunneling then
      match site_addresses (vpnSites mode s) with
      | [] => (VpnAllSites, [])
      | sites =>
          (mode, sites ++ (if (mode =? VpnOnlyForwardSites)%Z
                           then [to_string (ofind "dns1" config); to_string (ofind "dns2" config)]
                           else []))
      end
    else (mode, [])
  else (VpnAllSites, []).

Definition split_apps (s : settings) : AppsRouteMode * list string :=
  if isAppsSplitTunnelingEnabled s then
    let mode := appsRouteMode s in
    match map (fun app => if str_empty (appPath app) then packageName app else appPath app)
            (vpnApps mode s) with
    | [] => (VpnAllApps, [])
    | apps => (mode, apps)
    end
  else (VpnAllApps, []).

Definition appendSplitTunnelingConfig (s : settings) (config : obj) : obj :=
  let '(config, allowSiteBasedSplitTunneling) := upgraded config in
  let '(routeMode, sites) := split_sites s allowSiteBasedSplitTunneling config in
  let '(appsRouteMode, apps) := split_apps s in
  oset "splitTunnelApps" (JArr (map JStr apps))
    (oset "appSplitTunnelType" (JInt appsRouteMode)
      (oset "splitTunnelSites" (JArr (map JStr sites))
        (oset "splitTunnelType" (JInt routeMode) config))).

(** The configuration [connectToVpn] starts a tunnel with, on a desktop system. *)
Definition connectToVpn_config (s : settings) (vpnConfiguration : obj) : obj :=
  appendSplitTunnelingConfig s (appendKillSwitchConfig s vpnConfiguration).
End Config.
End Connection.
