(* ===== verification/SplitTunnelingFacts.v ===== *)
(** * Split tunnelling: theorems

    The list a controller holds is the list in the settings; what is exported is imported again;
    a late answer of the resolver is filed under whatever mode is current; and the site lists and
    the routing rules of the account reach the interface the daemon is told to set up. *)

From S2P Require Import Prelude Json IpAddress Lines InterfaceConfig Daemon ProtocolConfigs.
From S2P Require Import LocalSocket LocalSocketFacts LocalSocketTheorems DaemonTheorems.
From S2P Require Import SplitTunneling.
From stdpp Require Import sorting.

(** ** Maps *)

Definition before (a b : string) : Prop := String.ltb a b = true.

Lemma before_iff a b : before a b <-> String.compare a b = Lt.
Proof. unfold before, String.ltb. destruct (String.compare a b); split; congruence. Qed.

Lemma compare_trans a b c :
  String.compare a b = Lt -> String.compare b c = Lt -> String.compare a c = Lt.
Proof.
  revert b c. induction a as [|x a IH]; intros [|y b] [|z c]; cbn; try done.
  unfold Ascii.compare.
  destruct (N.compare_spec (N_of_ascii x) (N_of_ascii y)) as [E|E|E]; [|intros _|done];
    (destruct (N.compare_spec (N_of_ascii y) (N_of_ascii z)) as [F|F|F]; [|intros|done]).
  - rewrite E, F, N.compare_refl. apply IH.
  - assert (N.compare (N_of_ascii x) (N_of_ascii z) = Lt) as -> by (apply N.compare_lt_iff; lia). done.
  - intros _. assert (N.compare (N_of_ascii x) (N_of_ascii z) = Lt) as -> by (apply N.compare_lt_iff; lia). done.
  - assert (N.compare (N_of_ascii x) (N_of_ascii z) = Lt) as -> by (apply N.compare_lt_iff; lia). done.
Qed.

Lemma compare_refl a : String.compare a a = Eq.
Proof. induction a as [|x a IH]; cbn; [done|]. unfold Ascii.compare. by rewrite N.compare_refl. Qed.

#[local] Instance before_trans : Transitive before.
Proof. intros a b c. rewrite !before_iff. apply compare_trans. Qed.

Lemma before_irrefl a : ~ before a a.
Proof. by rewrite before_iff, compare_refl. Qed.

Lemma before_total a b : String.eqb a b = false -> String.ltb a b = false -> before b a.
Proof.
  intros Hne%String.eqb_neq Hlt. apply before_iff. unfold String.ltb in Hlt.
  rewrite String.compare_antisym. destruct (String.compare a b) eqn:E; [|done|done].
  by apply String.compare_eq_iff in E.
Qed.

(** The keys of a [QMap] increase. *)
Definition ordered {A} (m : list (string * A)) : Prop := StronglySorted before (map fst m).

Section QMapFacts.
Context {A : Type}.
Implicit Types m : list (string * A).

Lemma mfind_minsert k v m k' :
  mfind k' (minsert k v m) = if String.eqb k' k then Some v else mfind k' m.
Proof.
  induction m as [|[a w] m IH]; cbn; [done|].
  destruct (String.eqb_spec k a) as [<-|Hne]; cbn; [by destruct (String.eqb k' k)|].
  destruct (String.ltb k a); cbn; [done|]. rewrite IH.
  destruct (String.eqb_spec k' a) as [->|]; [|done]. destruct (String.eqb_spec a k); [congruence|done].
Qed.

Lemma mfind_mremove k m k' :
  mfind k' (mremove k m) = if String.eqb k' k then None else mfind k' m.
Proof.
  induction m as [|[a w] m IH]; cbn; [by destruct (String.eqb k' k)|].
  destruct (String.eqb_spec k a) as [<-|Hne]; cbn; rewrite IH.
  - by destruct (String.eqb k' k).
  - destruct (String.eqb_spec k' a) as [->|]; [|done]. destruct (String.eqb_spec a k); [congruence|done].
Qed.

Lemma mfind_app k m m' : mfind k (m ++ m') = match mfind k m with Some v => Some v | None => mfind k m' end.
Proof. induction m as [|[a w] m IH]; cbn; [done|]. by destruct (String.eqb k a). Qed.

Lemma mfind_None k m : mfind k m = None <-> k ∉ map fst m.
Proof.
  induction m as [|[a w] m IH]; cbn; [split; [by intros _ ?%elem_of_nil|done]|].
  rewrite not_elem_of_cons, <- IH. destruct (String.eqb_spec k a); split; [done|by intros []|done|tauto].
Qed.

Lemma mfind_Some k m : is_Some (mfind k m) <-> k ∈ map fst m.
Proof.
  pose proof (mfind_None k m) as HN. destruct (mfind k m) eqn:E.
  - split; [intros _|eauto]. destruct (decide (k ∈ map fst m)) as [|Hn]; [done|].
    by apply HN in Hn.
  - split; [by intros []|]. intros Hk. by apply HN in Hk.
Qed.

Lemma ordered_cons k v m :
  ordered ((k, v) :: m) <-> ordered m /\ Forall (before k) (map fst m).
Proof. unfold ordered. cbn. split; [by inversion 1|intros []; by constructor]. Qed.

Lemma mfind_elem k v m : NoDup (map fst m) -> (k, v) ∈ m -> mfind k m = Some v.
Proof.
  induction m as [|[a w] m IH]; cbn; [by intros _ ?%elem_of_nil|]. intros [Ha Hm]%NoDup_cons.
  intros [[= -> ->]|Hin]%elem_of_cons; [by rewrite String.eqb_refl|].
  destruct (String.eqb_spec k a) as [->|]; [|auto]. destruct Ha.
  apply list_elem_of_fmap. by exists (a, v).
Qed.

Lemma mremove_absent k m : k ∉ map fst m -> mremove k m = m.
Proof.
  induction m as [|[a w] m IH]; cbn; [done|]. rewrite not_elem_of_cons. intros [Hne Hk].
  apply String.eqb_neq in Hne as ->. by rewrite IH.
Qed.

Lemma minsert_keys k v m x : x ∈ map fst (minsert k v m) <-> x = k \/ x ∈ map fst m.
Proof.
  rewrite <- !mfind_Some, mfind_minsert. destruct (String.eqb_spec x k) as [->|].
  - split; [by left|eauto].
  - split; [by right|]. by intros [].
Qed.

Lemma minsert_ordered k v m : ordered m -> ordered (minsert k v m).
Proof.
  induction m as [|[a w] m IH]; cbn; [intros _; repeat constructor|].
  rewrite ordered_cons. intros [Hm Ha].
  destruct (String.eqb k a) eqn:E; [apply String.eqb_eq in E as ->; by apply ordered_cons|].
  destruct (String.ltb k a) eqn:El; apply ordered_cons.
  - split; [by apply ordered_cons|]. cbn. constructor; [done|].
    eapply Forall_impl; [exact Ha|]. intros x. by apply before_trans.
  - split; [auto|]. rewrite Forall_forall. intros x [->|Hx]%minsert_keys.
    + by apply before_total.
    + rewrite Forall_forall in Ha. by apply Ha.
Qed.

Lemma mremove_ordered k m : ordered m -> ordered (mremove k m).
Proof.
  induction m as [|[a w] m IH]; cbn; [done|]. rewrite ordered_cons. intros [Hm Ha].
  destruct (String.eqb k a); [auto|]. apply ordered_cons. split; [auto|].
  rewrite Forall_forall in *. intros x Hx. apply Ha. apply mfind_Some in Hx as [v Hv].
  rewrite mfind_mremove in Hv. destruct (String.eqb x k); [done|]. apply mfind_Some. eauto.
Qed.

Lemma ordered_NoDup m : ordered m -> NoDup (map fst m).
Proof.
  induction m as [|[a w] m IH]; cbn; [constructor|]. rewrite ordered_cons. intros [Hm Ha].
  constructor; [|auto]. intros Hin. rewrite Forall_forall in Ha. by apply (before_irrefl a), Ha.
Qed.
End QMapFacts.

Lemma mfind_map {A B} (f : A -> B) k (m : list (string * A)) :
  mfind k (map (fun '(k, v) => (k, f v)) m) = f <$> mfind k m.
Proof. induction m as [|[a w] m IH]; cbn; [done|]. by destruct (String.eqb k a). Qed.

Lemma keys_map {A B} (f : A -> B) (m : list (string * A)) :
  map fst (map (fun '(k, v) => (k, f v)) m) = map fst m.
Proof. induction m as [|[a w] m IH]; cbn; [done|]. by rewrite IH. Qed.

(** ** Lists of addresses *)

(** No empty text and no duplicates. *)
Definition clean (l : list string) : Prop := NoDup l /\ "" ∉ l.

Lemma elem_of_keep_first seen l x : x ∈ keep_first seen l <-> x ∈ l /\ x ∉ seen.
Proof.
  revert seen. induction l as [|y l IH]; cbn; intros seen; [rewrite !elem_of_nil; tauto|].
  case_bool_decide as Hy; rewrite ?elem_of_cons, IH, ?elem_of_cons.
  - split; [tauto|]. intros [[->|] ?]; tauto.
  - split; [intros [->|[? ?]]; tauto|]. intros [[->|Hx] Hs]; [by left|].
    destruct (decide (x = y)) as [->|]; [by left|right; tauto].
Qed.

Lemma NoDup_keep_first seen l : NoDup (keep_first seen l).
Proof.
  revert seen. induction l as [|y l IH]; cbn; intros seen; [constructor|].
  case_bool_decide; [auto|]. constructor; [|auto].
  rewrite elem_of_keep_first, elem_of_cons. tauto.
Qed.

Lemma elem_of_removeDuplicates l x : x ∈ removeDuplicates l <-> x ∈ l.
Proof. unfold removeDuplicates. rewrite elem_of_keep_first, elem_of_nil. tauto. Qed.

Lemma keep_first_id seen l : NoDup l -> (forall x, x ∈ l -> x ∉ seen) -> keep_first seen l = l.
Proof.
  intros Hl. revert seen. induction Hl as [|y l Hy Hl IH]; cbn; intros seen Hs; [done|].
  rewrite bool_decide_false by (apply Hs; by left). f_equal. apply IH.
  intros x Hx. rewrite not_elem_of_cons. split; [by intros ->|]. apply Hs. by right.
Qed.

Lemma keep_first_seen seen l : (forall x, x ∈ l -> x ∈ seen) -> keep_first seen l = [].
Proof.
  induction l as [|x l IH]; cbn; intros Hs; [done|]. rewrite bool_decide_true by (apply Hs; by left).
  apply IH. intros y Hy. apply Hs. by right.
Qed.

Lemma keep_first_app seen l l' :
  (forall x, x ∈ l' -> x ∈ l \/ x ∈ seen) -> keep_first seen (l ++ l') = keep_first seen l.
Proof.
  revert seen. induction l as [|y l IH]; cbn [app keep_first]; intros seen Hs.
  - apply keep_first_seen. intros x Hx. destruct (Hs x Hx) as [Hn|]; [by apply elem_of_nil in Hn|done].
  - assert (Hy : forall x, x ∈ l' -> x = y \/ x ∈ l \/ x ∈ seen)
      by (intros x Hx; destruct (Hs x Hx) as [[->|]%elem_of_cons|]; auto).
    case_bool_decide; [|f_equal]; apply IH; intros x Hx; rewrite ?elem_of_cons;
      destruct (Hy x Hx) as [->|[]]; auto.
Qed.

Lemma clean_normal l : clean (removeDuplicates (removeEmpty l)).
Proof.
  split; [apply NoDup_keep_first|]. rewrite elem_of_removeDuplicates. unfold removeEmpty.
  rewrite list_elem_of_filter. by intros [? _].
Qed.

Lemma removeEmpty_id l : "" ∉ l -> removeEmpty l = l.
Proof.
  unfold removeEmpty. induction l as [|x l IH]; [done|]. rewrite not_elem_of_cons. intros [Hx Hl].
  rewrite filter_cons, IH by done. by destruct (decide (x <> "")).
Qed.

Lemma normal_clean l : clean l -> removeDuplicates (removeEmpty l) = l.
Proof.
  intros [Hn He]. rewrite removeEmpty_id by done. apply keep_first_id; [done|].
  intros x _. apply not_elem_of_nil.
Qed.

Lemma merge_ips_clean ips l : clean l -> clean (merge_ips ips l).
Proof.
  unfold merge_ips. revert l. induction ips as [|ip ips IH]; intros l Hl; [done|]. cbn [fold_left].
  destruct (str_empty ip) eqn:Ee; [auto|]. destruct (bool_decide (ip ∈ l)) eqn:Ei; [auto|].
  cbn [negb andb]. apply IH. apply bool_decide_eq_false in Ei. apply str_empty_false in Ee.
  destruct Hl as [Hn He]. split.
  - apply NoDup_app. split_and!; [done| |apply NoDup_singleton].
    by intros x Hx ->%list_elem_of_singleton.
  - rewrite elem_of_app, list_elem_of_singleton. by intros [|].
Qed.

Lemma merge_disjoint ips l :
  clean ips -> (forall x, x ∈ ips -> x ∉ l) -> merge_ips ips l = l ++ ips.
Proof.
  intros [Hn He]. unfold merge_ips. revert l.
  induction Hn as [|ip ips Hip Hn IH]; cbn [fold_left]; intros l Hd; [by rewrite app_nil_r|].
  rewrite not_elem_of_cons in He. destruct He as [Hne He].
  assert (str_empty ip = false) as -> by (by apply str_empty_false).
  rewrite bool_decide_false by (apply Hd; by left). cbn [negb andb].
  rewrite IH by (done || (intros x Hx; rewrite elem_of_app, list_elem_of_singleton;
    intros [?| ->]; [eapply Hd; [by right|done]|done])).
  by rewrite <- app_assoc.
Qed.

Lemma merge_nil ips : clean ips -> merge_ips ips [] = ips.
Proof. intros Hc. by rewrite merge_disjoint by (done || (intros; apply not_elem_of_nil)). Qed.

Lemma clean_nil : clean [].
Proof. split; [constructor|apply not_elem_of_nil]. Qed.

#[export] Hint Resolve clean_nil clean_normal merge_ips_clean : tunnel.

Lemma siteIpList_clean v : clean (Settings.siteIpList v).
Proof. apply clean_normal. Qed.

Lemma siteIpList_strings l : clean l -> Settings.siteIpList (VStrings l) = l.
Proof. apply normal_clean. Qed.
#[export] Hint Resolve siteIpList_clean : tunnel.

(** ** The settings *)

Import Settings.

Definition sites_key (mode : Z) : string := "Conf/" +:+ routeModeString mode.

Lemma sites_key_cases mode :
  sites_key mode ∈ ["Conf/AllSites"; "Conf/ForwardSites"; "Conf/ExceptSites"; "Conf/"].
Proof.
  unfold sites_key, routeModeString. rewrite !elem_of_cons. repeat case_match; cbn; tauto.
Qed.

(** A key that is not one of a site list. *)
Definition other_key (key : string) : bool :=
  bool_decide (key ∉ ["Conf/AllSites"; "Conf/ForwardSites"; "Conf/ExceptSites"; "Conf/"]).

Lemma vpnSites_other mode key v s :
  other_key key = true -> vpnSites mode (setValue key v s) = vpnSites mode s.
Proof.
  intros Hk%bool_decide_eq_true_1. unfold vpnSites, value, setValue. cbn.
  rewrite lookup_insert_ne; [done|]. intros E. apply Hk. rewrite E. apply (sites_key_cases mode).
Qed.

Lemma vpnSites_set mode m s : vpnSites mode (setVpnSites mode m s) = m.
Proof. unfold vpnSites, setVpnSites, value, setValue. cbn. by rewrite lookup_insert_eq. Qed.

Lemma vpnSites_set_any mode mode' m s :
  vpnSites mode (setVpnSites mode' m s) = m \/ vpnSites mode (setVpnSites mode' m s) = vpnSites mode s.
Proof.
  destruct (decide (routeModeString mode = routeModeString mode')) as [E|E].
  - left. rewrite <- (vpnSites_set mode' m s) at 2. unfold vpnSites. by rewrite E.
  - right. unfold vpnSites, setVpnSites, value, setValue. cbn. rewrite lookup_insert_ne; [done|].
    intros E'. by apply (inj (String.append "Conf/")) in E'.
Qed.

Lemma vpnSites_emit mode g s : vpnSites mode (emit g s) = vpnSites mode s.
Proof. done. Qed.

(** Every stored site list has increasing keys, as a [QMap] has. *)
Definition wf_settings (s : settings) : Prop := forall mode, ordered (vpnSites mode s).

Lemma wf_set mode m s : wf_settings s -> ordered m -> wf_settings (setVpnSites mode m s).
Proof. intros Hs Hm mode'. by destruct (vpnSites_set_any mode' mode m s) as [-> | ->]. Qed.

Lemma wf_emit g s : wf_settings s -> wf_settings (emit g s).
Proof. done. Qed.

Lemma wf_other key v s : other_key key = true -> wf_settings s -> wf_settings (setValue key v s).
Proof. intros Hk Hs mode. by rewrite vpnSites_other. Qed.
#[export] Hint Resolve wf_set wf_emit wf_other minsert_ordered mremove_ordered : tunnel.

(** What [addVpnSite] leaves: a new site, or the addresses of a stored one extended. *)
Lemma addVpnSite_spec mode site ips s :
  wf_settings s ->
  let s' := (addVpnSite mode site ips s).2 in
  wf_settings s' /\
  forall k, siteIpList <$> mfind k (vpnSites mode s') =
    if String.eqb k site
    then Some (merge_ips ips (siteIpList (default VNull (mfind site (vpnSites mode s)))))
    else siteIpList <$> mfind k (vpnSites mode s).
Proof.
  intros Hw. unfold addVpnSite. cbv zeta. unfold mcontains.
  set (old := siteIpList (default VNull (mfind site (vpnSites mode s)))).
  assert (Hnew : forall s0, s0 = emit (sitesChanged mode) (setVpnSites mode
      (minsert site (VStrings (merge_ips ips old)) (vpnSites mode s)) s) ->
    wf_settings s0 /\ forall k, siteIpList <$> mfind k (vpnSites mode s0) =
      if String.eqb k site then Some (merge_ips ips old)
      else siteIpList <$> mfind k (vpnSites mode s)).
  { intros s0 ->. split; [apply wf_emit, wf_set; auto using minsert_ordered|]. intros k.
    rewrite vpnSites_emit, vpnSites_set, mfind_minsert. destruct (String.eqb k site); [|done].
    change (siteIpList <$> Some ?v) with (Some (siteIpList v)).
    rewrite siteIpList_strings; [done|]. apply merge_ips_clean, siteIpList_clean. }
  destruct (mfind site (vpnSites mode s)) as [v|] eqn:E; cbn [andb orb negb default] in *;
    [|by apply Hnew].
  assert (Hsame : merge_ips ips old = old -> wf_settings s /\
    forall k, siteIpList <$> mfind k (vpnSites mode s) =
      if String.eqb k site then Some (merge_ips ips old)
      else siteIpList <$> mfind k (vpnSites mode s)).
  { intros Em. split; [done|]. intros k. destruct (String.eqb_spec k site) as [->|]; [|done].
    by rewrite E, Em. }
  case_bool_decide as Hi; [apply Hsame; by subst ips|].
  case_bool_decide as Hm; cbn [negb]; [by apply Hsame|by apply Hnew].
Qed.

(** ** The controller mirrors the settings *)

Import Sites.

Lemma mfind_extend h ips l k :
  mfind k (extend h ips l) = if String.eqb k h then merge_ips ips <$> mfind h l else mfind k l.
Proof.
  induction l as [|[a v] l IH]; cbn; [by destruct (String.eqb k h)|].
  destruct (String.eqb_spec a h) as [->|Hne]; cbn.
  - rewrite String.eqb_refl. by destruct (String.eqb k h).
  - rewrite IH. destruct (String.eqb_spec k a) as [->|].
    + destruct (String.eqb_spec a h); [congruence|done].
    + destruct (String.eqb_spec h a); [congruence|done].
Qed.

Lemma keys_extend h ips l : map fst (extend h ips l) = map fst l.
Proof.
  induction l as [|[a v] l IH]; cbn; [done|]. destruct (String.eqb a h); cbn; [done|]. by rewrite IH.
Qed.

Lemma mfind_drop_site h l k :
  NoDup (map fst l) -> mfind k (drop_site h l) = if String.eqb k h then None else mfind k l.
Proof.
  induction l as [|[a v] l IH]; cbn; [by destruct (String.eqb k h)|]. intros [Ha Hl]%NoDup_cons.
  destruct (String.eqb_spec a h) as [Eh|Hne]; cbn.
  - rewrite <- Eh. destruct (String.eqb_spec k a) as [Ek|]; [|done]. rewrite Ek. by apply mfind_None.
  - rewrite IH by done. destruct (String.eqb_spec k a) as [Ek|]; [|done].
    rewrite Ek. by destruct (String.eqb_spec a h).
Qed.

Lemma drop_site_sublist h l : sublist (map fst (drop_site h l)) (map fst l).
Proof.
  induction l as [|[a v] l IH]; cbn; [done|]. destruct (String.eqb a h); cbn.
  - by apply sublist_cons.
  - by apply sublist_skip.
Qed.

(** The names of the list are distinct, and it has the stored sites with their addresses. *)
Record mirror (s : sites_ctl) : Prop := {
  mirror_wf : wf_settings (m_appSettingsRepository s);
  mirror_names : NoDup (map fst (m_sites s));
  mirror_sites : forall k, mfind k (m_sites s) =
    siteIpList <$> mfind k (vpnSites (m_currentRouteMode s) (m_appSettingsRepository s))
}.

Lemma mirror_fill s : wf_settings (m_appSettingsRepository s) -> mirror (fillSites s).
Proof.
  intros Hw. destruct s as [r m l q]. cbn in Hw. split; cbn.
  - done.
  - rewrite keys_map. apply ordered_NoDup, Hw.
  - intros k. apply mfind_map.
Qed.

Lemma mirror_init repo : wf_settings repo -> mirror (IpSplitTunnelingController repo).
Proof.
  intros Hw. unfold IpSplitTunnelingController. cbv zeta. apply mirror_fill.
  destruct (Z.eqb (Settings.routeMode repo) VpnAllSites); cbn; [|done].
  by apply wf_emit, wf_other.
Qed.

Lemma mirror_setRouteMode mode s : mirror s -> mirror (setRouteMode mode s).
Proof.
  intros [Hw _ _]. unfold setRouteMode, on_settings.
  destruct (mirror_fill (s <| m_currentRouteMode := mode |>)) as [H1 H2 H3]; [done|].
  split; cbn in *; [by apply wf_emit, wf_other|done|]. intros k. rewrite H3.
  unfold Settings.setRouteMode. rewrite vpnSites_emit, vpnSites_other by done. done.
Qed.

Lemma mirror_toggle b s : mirror s -> mirror (toggleSplitTunneling b s).
Proof.
  intros [H1 H2 H3]. split; cbn; [by apply wf_emit, wf_other|done|]. intros k. rewrite H3.
  unfold setSitesSplitTunnelingEnabled. by rewrite vpnSites_emit, vpnSites_other.
Qed.

Lemma mirror_known h s : mirror s ->
  mcontains h (vpnSites (m_currentRouteMode s) (m_appSettingsRepository s)) = mcontains h (m_sites s).
Proof. intros [_ _ H3]. unfold mcontains. rewrite H3. by destruct (mfind h (vpnSites _ _)). Qed.

Lemma mirror_extend h ips s :
  mirror s -> is_Some (mfind h (m_sites s)) ->
  mirror (on_settings (fun r => (addVpnSite (m_currentRouteMode s) h ips r).2)
            (s <| m_sites := extend h ips (m_sites s) |>)).
Proof.
  intros [H1 H2 H3] [v Hv]. destruct s as [r m l q]. cbn in *.
  destruct (addVpnSite_spec m h ips r H1) as [Hw Ha].
  split; cbn; [done|by rewrite keys_extend|]. intros k. rewrite Ha, mfind_extend, <- H3.
  destruct (String.eqb k h); [|done]. rewrite Hv. cbn. do 2 f_equal.
  specialize (H3 h). rewrite Hv in H3. destruct (mfind h (vpnSites m r)); [by injection H3|done].
Qed.

Lemma mirror_append h ips s :
  mirror s -> mfind h (m_sites s) = None -> clean ips ->
  mirror (on_settings (fun r => (addVpnSite (m_currentRouteMode s) h ips r).2)
            (s <| m_sites := m_sites s ++ [(h, ips)] |>)).
Proof.
  intros [H1 H2 H3] Hh Hc. destruct s as [r m l q]. cbn in *.
  destruct (addVpnSite_spec m h ips r H1) as [Hw Ha].
  split; cbn; [done| |].
  - rewrite map_app. cbn. apply NoDup_app. split_and!; [done| |apply NoDup_singleton].
    intros x Hx ->%list_elem_of_singleton. by apply mfind_None in Hh.
  - intros k. rewrite Ha, mfind_app, <- H3. cbn. destruct (String.eqb_spec k h) as [->|].
    + rewrite Hh. specialize (H3 h). rewrite Hh in H3.
      destruct (mfind h (vpnSites m r)); [done|]. cbn. by rewrite merge_nil.
    + by destruct (mfind k l).
Qed.

Lemma mirror_same h ips v s :
  mirror s -> mfind h (m_sites s) = Some v -> merge_ips ips v = v ->
  mirror (s <| m_sites := extend h ips (m_sites s) |>).
Proof.
  intros [H1 H2 H3] Hv Em. split; cbn; [done|by rewrite keys_extend|]. intros k.
  rewrite mfind_extend, <- H3. destruct (String.eqb_spec k h) as [->|]; [|done].
  rewrite Hv. cbn. by rewrite Em.
Qed.

Lemma mirror_addSiteInternal h ips s : mirror s -> clean ips -> mirror (addSiteInternal h ips s).2.
Proof.
  intros Hs Hc. unfold addSiteInternal. cbv zeta.
  destruct (_ && _); [done|]. destruct (mfind h (m_sites s)) as [v|] eqn:E.
  - case_bool_decide as Em; [by eapply mirror_same|]. by apply mirror_extend; [|rewrite E; eauto].
  - by apply mirror_append.
Qed.

Lemma mirror_lookups q s : mirror s -> mirror (s <| lookups := q |>).
Proof. intros [H1 H2 H3]. by split. Qed.

Lemma mirror_addSite h s : mirror s -> mirror (addSite h s).2.
Proof.
  intros Hs. unfold addSite, processSite. cbv zeta. destruct (negb _); [done|].
  destruct (ipAddressWithSubnet _); [apply mirror_addSiteInternal; auto with tunnel|].
  pose proof (mirror_addSiteInternal (normalizeHostname h) [] s Hs clean_nil) as Ha.
  destruct (addSiteInternal _ _ _) as [[] s']; [by apply mirror_lookups|done].
Qed.

Lemma mirror_removeSite h s : mirror s -> mirror (removeSite h s).2.
Proof.
  intros Hs. unfold removeSite. destruct (mcontains h (m_sites s)) eqn:E; [|done].
  rewrite <- (mirror_known h s Hs) in E. destruct Hs as [H1 H2 H3]. destruct s as [r m l q].
  assert (Er : removeVpnSite m h r = emit (sitesChanged m) (setVpnSites m (mremove h (vpnSites m r)) r)).
  { unfold removeVpnSite. cbv zeta. cbn [m_currentRouteMode m_appSettingsRepository] in E.
    by rewrite E. }
  cbn in H1, H2, H3. split; cbn; rewrite ?Er.
  - by apply wf_emit, wf_set, mremove_ordered.
  - eapply sublist_NoDup; [done|apply drop_site_sublist].
  - intros k. rewrite vpnSites_emit, vpnSites_set, mfind_mremove, mfind_drop_site, H3 by done.
    by destruct (String.eqb k h).
Qed.

Lemma mirror_removeSites s : mirror s -> mirror (removeSites s).
Proof.
  intros [H1 H2 H3]. unfold removeSites, removeAllVpnSites. split; cbn.
  - apply wf_emit, wf_set; [done|constructor].
  - constructor.
  - intros k. by rewrite vpnSites_emit, vpnSites_set.
Qed.

Lemma same_sites_eq stored sites :
  same_sites stored sites = true -> stored = map (fun '(k, ips) => (k, VStrings ips)) sites.
Proof.
  unfold same_sites. rewrite andb_true_iff, bool_decide_eq_true. revert sites.
  induction stored as [|[k v] stored IH]; intros [|[k' ips] sites]; cbn; try (by intros [[=] _]).
  intros [[= -> Ek] [Hv Hr]%andb_true_iff]. destruct v; try done.
  apply bool_decide_eq_true in Hv as ->. f_equal. by apply IH.
Qed.

Lemma replaceVpnSites_spec mode sites s :
  wf_settings s -> ordered sites ->
  let s' := replaceVpnSites mode sites s in
  wf_settings s' /\
  vpnSites mode s' =
    map (fun '(k, ips) => (k, VStrings (removeDuplicates (removeEmpty ips)))) sites.
Proof.
  intros Hw Ho. unfold replaceVpnSites. cbv zeta.
  set (norm := fun ips => removeDuplicates (removeEmpty ips)).
  change (map (fun '(k, ips) => (k, removeDuplicates (removeEmpty ips))) sites)
    with (map (fun '(k, ips) => (k, norm ips)) sites).
  assert (E : map (fun '(k, ips) => (k, VStrings ips)) (map (fun '(k, ips) => (k, norm ips)) sites) =
    map (fun '(k, ips) => (k, VStrings (norm ips))) sites).
  { clear Ho. induction sites as [|[k ips] sites IH]; cbn; [done|]. by rewrite IH. }
  destruct (same_sites _ _) eqn:Es.
  - split; [done|]. by rewrite (same_sites_eq _ _ Es).
  - rewrite E, vpnSites_emit, vpnSites_set. split; [|done]. apply wf_emit, wf_set; [done|].
    unfold ordered. by rewrite (keys_map (fun ips => VStrings (norm ips))).
Qed.

Definition clean_sites (sites : list (string * list string)) : Prop :=
  Forall (fun kv => clean kv.2) sites.

Lemma addSites_fold sites l all :
  clean_sites sites -> NoDup (map fst l) -> ordered all ->
  (forall k, mfind k l = siteIpList <$> mfind k all) ->
  let l' := fold_left (fun l '(hostname, ips) =>
    if mcontains hostname l then extend hostname ips l else l ++ [(hostname, ips)]) sites l in
  let all' := fold_left (fun all '(site, ips) =>
    minsert site (VStrings (merge_ips ips (siteIpList (default VNull (mfind site all))))) all) sites all in
  NoDup (map fst l') /\ ordered all' /\ forall k, mfind k l' = siteIpList <$> mfind k all'.
Proof.
  intros Hc. revert l all. induction Hc as [|[h ips] sites Hips _ IH]; intros l all Hl Ha Hm; [done|].
  cbn [fold_left snd] in *. apply IH.
  - unfold mcontains. destruct (mfind h l) eqn:E; [by rewrite keys_extend|].
    rewrite map_app. cbn. apply NoDup_app. split_and!; [done| |apply NoDup_singleton].
    intros x Hx ->%list_elem_of_singleton. by apply mfind_None in E.
  - by apply minsert_ordered.
  - intros k. rewrite mfind_minsert. pose proof (Hm h) as Hh. unfold mcontains.
    destruct (mfind h l) as [v|] eqn:E.
    + rewrite mfind_extend, E. destruct (String.eqb k h); [|done].
      destruct (mfind h all); [injection Hh as ->|done].
      change (siteIpList <$> Some ?v) with (Some (siteIpList v)). cbn [default].
      rewrite siteIpList_strings by auto with tunnel. done.
    + rewrite mfind_app. destruct (mfind h all); [done|]. cbn [mfind].
      destruct (String.eqb_spec k h) as [->|].
      * rewrite E. change (siteIpList <$> Some ?v) with (Some (siteIpList v)).
        rewrite siteIpList_strings by auto with tunnel. cbn. by rewrite merge_nil.
      * rewrite Hm. by destruct (mfind k all).
Qed.

Lemma clean_minsert k ips sites :
  clean ips -> clean_sites sites -> clean_sites (minsert k ips sites).
Proof.
  intros Hips Hc. induction Hc as [|[a w] acc Hw Hacc IH]; cbn.
  - by apply Forall_singleton.
  - destruct (String.eqb k a); [by constructor|].
    destruct (String.ltb k a); constructor; try done. by constructor.
Qed.

Lemma extend_absent h ips l : mfind h l = None -> extend h ips l = l.
Proof.
  induction l as [|[a v] l IH]; cbn; [done|].
  rewrite String.eqb_sym. destruct (String.eqb a h); [done|]. intros Hl. by rewrite IH.
Qed.

Lemma elem_of_merge_ips ips l x : x ∈ merge_ips ips l <-> x ∈ l \/ x ∈ ips /\ x <> "".
Proof.
  unfold merge_ips. revert l. induction ips as [|ip ips IH]; intros l; cbn [fold_left].
  - rewrite elem_of_nil. tauto.
  - rewrite IH, elem_of_cons. destruct (str_empty ip) eqn:Ee; cbn [negb andb].
    + apply str_empty_true in Ee as ->. split; [tauto|]. intros [?|[[->|?] ?]]; tauto.
    + apply str_empty_false in Ee. destruct (bool_decide (ip ∈ l)) eqn:Ei; cbn [negb].
      * apply bool_decide_eq_true in Ei. split; [tauto|]. intros [?|[[->|?] ?]]; tauto.
      * rewrite elem_of_app, list_elem_of_singleton.
        split; [intros [[?| ->]|]; tauto|intros [?|[[->|?] ?]]; tauto].
Qed.

Lemma mirror_addSites sites b s :
  mirror s -> ordered sites -> (b = false -> clean_sites sites) -> mirror (addSites sites b s).
Proof.
  intros [H1 H2 H3] Ho Hc. destruct s as [r m l q]. cbn in H1, H2, H3. unfold addSites. destruct b.
  - destruct (replaceVpnSites_spec m sites r H1 Ho) as [Hw Es]. split; cbn.
    + exact Hw.
    + rewrite (keys_map (fun ips => removeDuplicates (removeEmpty ips))). by apply ordered_NoDup.
    + intros k. rewrite Es, (mfind_map (fun ips => VStrings (removeDuplicates (removeEmpty ips)))),
        (mfind_map (fun ips => removeDuplicates (removeEmpty ips))).
      destruct (mfind k sites); [|done]. cbn. f_equal. symmetry. apply siteIpList_strings, clean_normal.
  - destruct (addSites_fold sites l (vpnSites m r) (Hc eq_refl) H2 (H1 m) H3) as (Hl & Ha & Hm).
    split; cbn; [|done|].
    + unfold addVpnSites. by apply wf_emit, wf_set.
    + intros k. unfold addVpnSites. rewrite vpnSites_emit, vpnSites_set. apply Hm.
Qed.

(** ** Export and import *)

Lemma prefix_has c p s : String.prefix p s = true -> str_has c p = true -> str_has c s = true.
Proof.
  revert s. induction p as [|x p IH]; intros s; [done|]. destruct s as [|y s]; [done|]. cbn.
  destruct (ascii_dec x y) as [->|]; [|done]. intros Hp. destruct (Ascii.eqb c y); [done|]. by apply IH.
Qed.

Lemma without_absent c needle s :
  str_has c needle = true -> str_has c s = false -> without needle s = s.
Proof.
  intros Hn Hs. unfold without. generalize (String.length s). intros fuel. revert s Hs.
  induction fuel as [|fuel IH]; intros s Hs; [done|]. destruct s as [|d s]; [done|]. cbn [remove_all].
  destruct (String.prefix needle (String d s)) eqn:E.
  - by rewrite (prefix_has c _ _ E Hn) in Hs.
  - rewrite IH; [done|]. cbn in Hs. by destruct (Ascii.eqb c d).
Qed.

Lemma has_pieces c sep s :
  c <> sep -> Forall (fun p => str_has c p = false) (split_char sep s) -> str_has c s = false.
Proof.
  intros Hc. induction s as [|d s IH]; [done|]. cbn [split_char str_has].
  destruct (Ascii.eqb_spec d sep) as [->|Hd].
  - intros [_ Hf]%Forall_cons. apply Ascii.eqb_neq in Hc as ->. by apply IH.
  - destruct (split_char sep s) as [|x l]; intros [Hx Hl]%Forall_cons; cbn [str_has] in Hx;
      apply orb_false_iff in Hx as [-> Hx]; cbn [orb]; apply IH; by constructor.
Qed.

Lemma split_pieces sep s p : p ∈ split_char sep s -> str_has sep p = false.
Proof.
  revert p. induction s as [|c s IH]; intros p; cbn [split_char].
  - by intros ->%list_elem_of_singleton.
  - destruct (Ascii.eqb_spec c sep) as [->|Hd].
    + intros [->|Hp]%elem_of_cons; [done|auto].
    + destruct (split_char sep s) as [|x l] eqn:E.
      * intros ->%list_elem_of_singleton. cbn. by destruct (Ascii.eqb_spec sep c).
      * intros [->|Hp]%elem_of_cons; [|apply IH; by right]. cbn.
        destruct (Ascii.eqb_spec sep c); [congruence|]. apply IH. by left.
Qed.

Lemma digits_no_colon s n : digits s = Some n -> str_has ":" s = false.
Proof.
  unfold digits. destruct s as [|c s]; [done|]. generalize (String c s), 0%Z. clear.
  intros s. induction s as [|c s IH]; intros acc; [done|]. cbn [digits_acc str_has].
  destruct (is_digit c) eqn:Ed; [|done]. intros Hr. rewrite (IH _ Hr), orb_false_r.
  destruct (Ascii.eqb_spec ":" c) as [<-|]; [by vm_compute in Ed|done].
Qed.

Lemma number_no_colon b s : number_upto b s = true -> str_has ":" s = false.
Proof. unfold number_upto. destruct (digits s) eqn:E; [|done]. intros _. by eapply digits_no_colon. Qed.

Lemma quad_no_colon s : dotted_quad s = true -> str_has ":" s = false.
Proof.
  unfold dotted_quad. intros Hq. apply (has_pieces ":" "."); [done|].
  destruct (split_char "." s) as [|a [|b [|c [|d [|]]]]]; try done.
  rewrite !andb_true_iff in Hq. destruct Hq as [[[Ha Hb] Hc] Hd].
  repeat constructor; by eapply number_no_colon.
Qed.

Lemma subnet_no_colon s : ipAddressWithSubnet s = true -> str_has ":" s = false.
Proof.
  unfold ipAddressWithSubnet. intros Hq. apply (has_pieces ":" "/"); [done|].
  destruct (split_char "/" s) as [|a [|p [|]]]; try done.
  - repeat constructor. by apply quad_no_colon.
  - apply andb_true_iff in Hq as [Ha Hp].
    repeat constructor; [by apply quad_no_colon|by eapply number_no_colon].
Qed.

(** Normalising a name again does not change it. *)
Lemma normalize_idem h : normalizeHostname (normalizeHostname h) = normalizeHostname h.
Proof.
  set (n := normalizeHostname h).
  assert (Hn : ipAddressWithSubnet n = true \/ str_has "/" n = false).
  { subst n. unfold normalizeHostname. cbv zeta.
    generalize (without "ftp://" (without "http://" (without "https://" h))). intros w.
    destruct (ipAddressWithSubnet w) eqn:E; [by left|right].
    destruct (removeEmpty _) as [|x l] eqn:Er; [done|]. cbn.
    assert (Hx : x ∈ x :: l) by (by left). rewrite <- Er in Hx. unfold removeEmpty in Hx.
    apply list_elem_of_filter in Hx as [_ Hx]. by eapply split_pieces. }
  clearbody n. clear h.
  assert (Hw : without "ftp://" (without "http://" (without "https://" n)) = n).
  { destruct Hn as [Hn%subnet_no_colon|Hn];
      [set (c := ":"%char) in Hn|set (c := "/"%char) in Hn];
      rewrite (without_absent c "https://" n), (without_absent c "http://" n),
        (without_absent c "ftp://" n); done. }
  unfold normalizeHostname. cbv zeta. rewrite Hw. destruct (ipAddressWithSubnet n) eqn:E; [done|].
  destruct Hn as [|Hn]; [congruence|]. rewrite (split_bare "/" n Hn). unfold removeEmpty.
  rewrite filter_cons, filter_nil. destruct (decide (n <> "")) as [|Hn0]; [done|].
  by apply dec_stable in Hn0 as ->.
Qed.

(** A name an import accepts and leaves as it is. *)
Definition good_name (name : string) : Prop :=
  normalizeHostname name = name /\ validateHostname name = true.

Lemma normalized_good h : validateHostname (normalizeHostname h) = true -> good_name (normalizeHostname h).
Proof. split; [apply normalize_idem|done]. Qed.

Section Runs.
Context `{HostText} `{JsonText}.

Lemma imported_ordered l acc :
  ordered acc -> clean_sites acc ->
  let sites := fold_left (fun sites v => match imported_site v with
                            | Some (k, ips) => minsert k ips sites | None => sites end) l acc in
  ordered sites /\ clean_sites sites.
Proof.
  revert acc. induction l as [|v l IH]; intros acc Ho Hc; [done|]. cbn [fold_left].
  destruct (imported_site v) as [[k ips]|] eqn:E; [|by apply IH]. apply IH; [by apply minsert_ordered|].
  unfold imported_site in E. cbv zeta in E. destruct (validateHostname _); [|done].
  injection E as <- <-. apply clean_minsert; [apply clean_normal|done].
Qed.

Lemma imported_sites_ok l : ordered (imported_sites l) /\ clean_sites (imported_sites l).
Proof. apply imported_ordered; constructor. Qed.

Lemma mirror_import data b s : mirror s -> mirror (importSitesFromJson data b s).2.
Proof.
  intros Hs. unfold importSitesFromJson. destruct (json_parse data) as [[]|]; try done. cbn [snd].
  destruct (imported_sites_ok l). by apply mirror_addSites.
Qed.

Lemma sorted_rules_ordered rules direct vpn d v :
  ordered direct -> ordered vpn -> sorted_rules rules direct vpn = inr (d, v) ->
  ordered d /\ ordered v.
Proof.
  revert direct vpn. induction rules as [|r rules IH]; intros direct vpn Hd Hv; cbn.
  - intros [= <- <-]. done.
  - destruct r; try done. destruct (_ || _); [done|].
    destruct (String.eqb _ "direct"); intros E; (eapply IH; [| |exact E]); auto using minsert_ordered.
Qed.

Lemma mirror_applyRouting routing s : mirror s -> mirror (applyRouting routing s).2.
Proof.
  intros Hs. unfold applyRouting. destruct (ofind "rules" routing) as [[]|]; try done.
  destruct (sorted_rules l [] []) as [|[d v]] eqn:E; [done|].
  apply sorted_rules_ordered in E as [Hd Hv]; [|constructor..].
  assert (Hset : forall mode sites, ordered sites -> mirror (
    let sameSites := stored_alike (vpnSites mode (m_appSettingsRepository s)) sites in
    let sameMode := (m_currentRouteMode s =? mode)%Z in
    let s' := if negb sameMode then setRouteMode mode s else s in
    let s' := if negb sameSites then addSites sites true s' else s' in
    if negb (isSplitTunnelingEnabled s) then toggleSplitTunneling true s' else s')).
  { intros mode sites Ho. cbv zeta.
    assert (Hm : mirror (if negb (m_currentRouteMode s =? mode)%Z then setRouteMode mode s else s))
      by (destruct (Z.eqb _ _); cbn [negb]; auto using mirror_setRouteMode).
    assert (Ha : forall s', mirror s' -> mirror (if negb (stored_alike
      (vpnSites mode (m_appSettingsRepository s)) sites) then addSites sites true s' else s'))
      by (intros s' ?; destruct (stored_alike _ _); [done|by apply mirror_addSites]).
    destruct (negb (isSplitTunnelingEnabled s)); [apply mirror_toggle|]; auto. }
  destruct d as [|d0 d], v as [|v0 v]; cbn [snd]; try done.
  - destruct (isSplitTunnelingEnabled s); [by apply mirror_toggle|done].
  - cbv zeta. destruct (_ && _); [done|]. by apply Hset.
  - cbv zeta. destruct (_ && _); [done|]. by apply Hset.
Qed.

(** *** Round trip *)

Lemma exported_imported site :
  good_name site.1 -> clean site.2 -> imported_site (exported_site site) = Some site.
Proof.
  destruct site as [k ips]. cbn [fst snd]. intros [Hn Hv] Hc. unfold imported_site, exported_site.
  cbn [fst snd to_object].
  change (ofind "ip" _) with (Some (JStr (default "" (head ips)))).
  change (ofind "ips" _) with (Some (JArr (map JStr ips))).
  change (ofind "hostname" _) with (Some (JStr k)).
  cbn [to_string to_array]. rewrite Hn, Hv. do 2 f_equal. rewrite map_map. cbn [to_string].
  rewrite map_id. destruct ips as [|x ips]; [done|].
  change (default "" (head (x :: ips))) with x. destruct Hc as [Hnd He].
  assert (str_empty x = false) as ->.
  { apply str_empty_false. intros ->. apply He. by left. }
  unfold removeEmpty. rewrite filter_app. fold (removeEmpty (x :: ips)). rewrite removeEmpty_id by done.
  rewrite filter_cons, filter_nil. destruct (decide (x <> "")); [|].
  - unfold removeDuplicates. rewrite keep_first_app.
    + apply keep_first_id; [done|]. intros; apply not_elem_of_nil.
    + intros y ->%list_elem_of_singleton. left. by left.
  - rewrite app_nil_r. apply keep_first_id; [done|]. intros; apply not_elem_of_nil.
Qed.

Lemma imported_exported l acc k :
  Forall (fun site => good_name site.1 /\ clean site.2) l -> NoDup (map fst l) ->
  mfind k (fold_left (fun sites v => match imported_site v with
             | Some (k, ips) => minsert k ips sites | None => sites end) (map exported_site l) acc) =
  match mfind k l with Some v => Some v | None => mfind k acc end.
Proof.
  intros Hl. revert acc. induction Hl as [|site l [Hg Hc] _ IH]; intros acc Hnd; [done|].
  cbn [map fold_left]. rewrite exported_imported by done. destruct site as [h ips].
  cbn [map fst] in Hnd. apply NoDup_cons in Hnd as [Hh Hnd]. rewrite IH, mfind_minsert by done. cbn.
  destruct (String.eqb_spec k h) as [Ek|]; [|done]. rewrite Ek. by apply mfind_None in Hh as ->.
Qed.

(** A site list survives being exported and imported.  When its names are ones an import
    accepts, importing the text of an export in place of any list succeeds, and the list and the
    settings then have exactly the exported sites with their addresses. *)
Theorem export_import_roundtrip s t :
  mirror s -> mirror t -> Forall (fun site => good_name site.1) (m_sites s) ->
  let '(r, t') := importSitesFromJson (exportSitesToJson s) true t in
  r = inr tt /\ m_currentRouteMode t' = m_currentRouteMode t /\
  forall k, mfind k (m_sites t') = mfind k (m_sites s) /\
    siteIpList <$> mfind k (vpnSites (m_currentRouteMode t') (m_appSettingsRepository t')) =
    mfind k (m_sites s).
Proof.
  intros Hs Ht Hg. pose proof (mirror_import (exportSitesToJson s) true t Ht) as Hm.
  unfold importSitesFromJson, exportSitesToJson in *. rewrite json_parse_print in *. cbn [snd] in Hm.
  split; [done|]. split; [done|]. intros k. rewrite <- (mirror_sites _ Hm).
  assert (E : mfind k (m_sites (addSites (imported_sites (map exported_site (m_sites s))) true t)) =
    mfind k (m_sites s)); [|done].
  cbn. rewrite (mfind_map (fun ips => removeDuplicates (removeEmpty ips))).
  assert (Hc : Forall (fun site => good_name site.1 /\ clean site.2) (m_sites s)).
  { apply Forall_and. split; [done|]. apply Forall_forall. intros [h ips] Hin. cbn.
    assert (Hf : mfind h (m_sites s) = Some ips) by (apply mfind_elem; [apply mirror_names, Hs|done]).
    rewrite (mirror_sites _ Hs) in Hf. apply fmap_Some in Hf as (v & _ & ->). apply siteIpList_clean. }
  unfold imported_sites. rewrite imported_exported by (done || apply mirror_names, Hs).
  destruct (mfind k (m_sites s)) as [ips|] eqn:E; [|done]. cbn. f_equal. apply normal_clean.
  rewrite (mirror_sites _ Hs) in E. apply fmap_Some in E as (v & _ & ->). apply siteIpList_clean.
Qed.

(** *** Runs *)

Inductive site_event :=
  | AddSite (hostname : string)
  | AddSites (sites : list (string * list string)) (replaceExisting : bool)
  | RemoveSite (hostname : string)
  | RemoveSites
  | SetRouteMode (mode : Z)
  | Toggle (enabled : bool)
  | Import (data : string) (replaceExisting : bool)
  | Apply (routing : obj)
  | Resolved (hostname : string) (addresses : list QHostAddress).

Definition site_step (e : site_event) (s : sites_ctl) : sites_ctl :=
  match e with
  | AddSite h => (addSite h s).2
  | AddSites sites b => addSites sites b s
  | RemoveSite h => (removeSite h s).2
  | RemoveSites => removeSites s
  | SetRouteMode mode => setRouteMode mode s
  | Toggle b => toggleSplitTunneling b s
  | Import data b => (importSitesFromJson data b s).2
  | Apply routing => (applyRouting routing s).2
  | Resolved h addresses => onHostResolved h addresses s
  end.

Definition site_run (es : list site_event) (s : sites_ctl) : sites_ctl :=
  fold_left (fun s e => site_step e s) es s.

(** A list that is handed over is a [QMap], without empty or repeated addresses unless it
    replaces the present one; the resolver answers while the name is on the list. *)
Definition event_ok (e : site_event) (s : sites_ctl) : Prop :=
  match e with
  | AddSites sites b => ordered sites /\ (b = false -> clean_sites sites)
  | Resolved h _ => is_Some (mfind h (m_sites s))
  | _ => True
  end.

Fixpoint events_ok (es : list site_event) (s : sites_ctl) : Prop :=
  match es with
  | [] => True
  | e :: es => event_ok e s /\ events_ok es (site_step e s)
  end.

Lemma mirror_step e s : mirror s -> event_ok e s -> mirror (site_step e s).
Proof.
  intros Hs He. destruct e; cbn in *.
  - by apply mirror_addSite.
  - destruct He. by apply mirror_addSites.
  - by apply mirror_removeSite.
  - by apply mirror_removeSites.
  - by apply mirror_setRouteMode.
  - by apply mirror_toggle.
  - by apply mirror_import.
  - by apply mirror_applyRouting.
  - unfold onHostResolved. case_match eqn:E; [done|]. by apply mirror_extend.
Qed.

(** what the user sees is what is stored.  From any well-formed settings, through additions,
    removals, imports, changes of mode and the routing rules of the account, the list the
    controller holds has the names of the stored list of the current mode, each once and with
    the stored addresses, provided the resolver answers while the name is on the list. *)
Theorem sites_mirror_settings repo es :
  wf_settings repo -> events_ok es (IpSplitTunnelingController repo) ->
  let s := site_run es (IpSplitTunnelingController repo) in
  NoDup (map fst (m_sites s)) /\
  forall k, mfind k (m_sites s) =
    siteIpList <$> mfind k (vpnSites (m_currentRouteMode s) (m_appSettingsRepository s)).
Proof.
  intros Hw He s. assert (Hm : mirror s); [|by destruct Hm]. subst s.
  generalize (mirror_init repo Hw). revert He. generalize (IpSplitTunnelingController repo).
  induction es as [|e es IH]; intros s He Hs; [done|]. destruct He as [He Hes].
  apply IH; [done|]. by apply mirror_step.
Qed.

(** a late answer is filed in the wrong list.  When the resolver answers for a name that is
    not on the current list (it was removed meanwhile, or the mode was changed, so that the list
    means the opposite), the name and its addresses are stored in the list of the current mode,
    and the list the user sees does not show it. *)
Theorem late_lookup_misfiled h addresses s :
  mirror s -> mfind h (m_sites s) = None ->
  (exists a, a ∈ addresses /\ protocol a = IPv4Protocol) ->
  let s' := onHostResolved h addresses s in
  m_sites s' = m_sites s /\
  exists v, mfind h (vpnSites (m_currentRouteMode s) (m_appSettingsRepository s')) = Some v /\
    forall a, a ∈ addresses -> protocol a = IPv4Protocol -> addressText a <> "" ->
      addressText a ∈ siteIpList v.
Proof.
  intros Hs Hh (a & Ha & Hp). cbv zeta. unfold onHostResolved.
  set (texts := removeDuplicates (map addressText (filter (fun a => protocol a = IPv4Protocol) addresses))).
  assert (Ht : forall a, a ∈ addresses -> protocol a = IPv4Protocol -> addressText a ∈ texts).
  { intros b Hb Hpb. apply elem_of_removeDuplicates, list_elem_of_fmap. exists b. split; [done|].
    by apply list_elem_of_filter. }
  destruct texts as [|t texts'] eqn:Et.
  { specialize (Ht a Ha Hp). by apply elem_of_nil in Ht. }
  rewrite <- Et in *. clear Et t texts'. unfold processSiteAfterResolve. destruct s as [r m l q].
  destruct Hs as [H1 H2 H3]. cbn in *.
  destruct (addVpnSite_spec m h texts r H1) as [_ Hspec]. specialize (Hspec h).
  rewrite String.eqb_refl in Hspec. split; [by apply extend_absent|].
  destruct (mfind h (vpnSites m (addVpnSite m h texts r).2)) as [v|]; [|done].
  exists v. split; [done|]. injection Hspec as ->. intros b Hb Hpb Hne.
  apply elem_of_merge_ips. right. auto.
Qed.
End Runs.
