(* ===== verification/SplitTunnelingTheorems.v ===== *)
(** * Split tunnelling: what reaches the tunnel

    The routing rules of the account become site lists, and the site lists become the networks
    and the bypasses of the interface the daemon sets up. *)

From S2P Require Import Prelude Json IpAddress Lines InterfaceConfig Daemon ProtocolConfigs.
From S2P Require Import DaemonTheorems LocalSocket LocalSocketFacts LocalSocketTheorems.
From S2P Require Import SplitTunneling SplitTunnelingFacts.
Import Settings Sites.

(** ** Settings that are not site lists *)

Lemma conf_set key mode m s :
  other_key key = true -> conf (setVpnSites mode m s) !! key = conf s !! key.
Proof.
  intros Hk%bool_decide_eq_true_1. cbn. rewrite lookup_insert_ne; [done|]. intros E. apply Hk.
  rewrite <- E. apply (sites_key_cases mode).
Qed.

Lemma conf_addVpnSite key mode site ips s :
  other_key key = true -> conf (addVpnSite mode site ips s).2 !! key = conf s !! key.
Proof.
  intros Hk. unfold addVpnSite. cbv zeta. destruct (_ && _); [done|]. destruct (negb _); [done|].
  by apply conf_set.
Qed.

Lemma conf_replace key mode sites s :
  other_key key = true -> conf (replaceVpnSites mode sites s) !! key = conf s !! key.
Proof.
  intros Hk. unfold replaceVpnSites. cbv zeta. destruct (same_sites _ _); [done|]. by apply conf_set.
Qed.

Lemma conf_remove key mode site s :
  other_key key = true -> conf (removeVpnSite mode site s) !! key = conf s !! key.
Proof.
  intros Hk. unfold removeVpnSite. cbv zeta. destruct (negb _); [done|]. by apply conf_set.
Qed.

(** What [addSites] keeps. *)
Lemma conf_addSites key sites b s :
  other_key key = true ->
  conf (m_appSettingsRepository (addSites sites b s)) !! key = conf (m_appSettingsRepository s) !! key.
Proof.
  intros Hk. unfold addSites, on_settings. destruct b; cbn; [by apply conf_replace|].
  unfold addVpnSites. by apply conf_set.
Qed.

Lemma conf_addSiteInternal key h ips s :
  other_key key = true ->
  conf (m_appSettingsRepository (addSiteInternal h ips s).2) !! key =
  conf (m_appSettingsRepository s) !! key.
Proof.
  intros Hk. unfold addSiteInternal, on_settings. cbv zeta. destruct (_ && _); [done|].
  destruct (mfind _ _); [destruct (bool_decide _); [done|]|]; by apply conf_addVpnSite.
Qed.

Lemma routeMode_conf s s' :
  conf s' !! "Conf/routeMode" = conf s !! "Conf/routeMode" -> Settings.routeMode s' = Settings.routeMode s.
Proof. intros E. unfold Settings.routeMode, value. by rewrite E. Qed.

Lemma enabled_conf s s' :
  conf s' !! "Conf/sitesSplitTunnelingEnabled" = conf s !! "Conf/sitesSplitTunnelingEnabled" ->
  isSitesSplitTunnelingEnabled s' = isSitesSplitTunnelingEnabled s.
Proof. intros E. unfold isSitesSplitTunnelingEnabled, value. by rewrite E. Qed.

(** The controller and the settings agree on the mode. *)
Definition agrees (s : sites_ctl) : Prop :=
  Settings.routeMode (m_appSettingsRepository s) = m_currentRouteMode s.

Lemma agrees_set mode s : agrees (setRouteMode mode s).
Proof. unfold agrees, Settings.routeMode, value. cbn. by rewrite lookup_insert_eq. Qed.

Lemma agrees_kept s s' :
  agrees s -> m_currentRouteMode s' = m_currentRouteMode s ->
  conf (m_appSettingsRepository s') !! "Conf/routeMode" =
    conf (m_appSettingsRepository s) !! "Conf/routeMode" -> agrees s'.
Proof. intros Hs Em Ec. unfold agrees. by rewrite Em, (routeMode_conf _ _ Ec). Qed.

Lemma agrees_init repo : agrees (IpSplitTunnelingController repo).
Proof.
  unfold agrees, IpSplitTunnelingController. cbv zeta.
  destruct (Z.eqb (Settings.routeMode repo) VpnAllSites); cbn; [|done].
  unfold Settings.routeMode, value. cbn. by rewrite lookup_insert_eq.
Qed.

(** ** Addresses of sites *)

Section Policy.
Context `{HostText}.

Lemma elem_of_site_addresses m x :
  x ∈ Connection.site_addresses m <->
  exists k v, (k, v) ∈ m /\
    (checkIpSubnetFormat k = true /\ x = k \/
     checkIpSubnetFormat k = false /\ checkIpSubnetFormat x = true /\ x ∈ siteIpList v).
Proof.
  unfold Connection.site_addresses. rewrite elem_of_removeDuplicates.
  induction m as [|[k v] m IH]; cbn [map concat].
  - rewrite elem_of_nil. split; [done|]. by intros (? & ? & ?%elem_of_nil & _).
  - rewrite elem_of_app, IH. split.
    + intros [Hx|(k' & v' & Hin & Hx)]; [|exists k', v'; split; [by right|done]].
      exists k, v. split; [by left|]. destruct (checkIpSubnetFormat k).
      * apply list_elem_of_singleton in Hx. auto.
      * apply list_elem_of_filter in Hx as []. auto.
    + intros (k' & v' & [[= -> ->]|Hin]%elem_of_cons & Hx); [|right; eauto]. left.
      destruct (checkIpSubnetFormat k); destruct Hx as [[? ->]|(? & ? & ?)]; try done.
      * apply list_elem_of_singleton. done.
      * by apply list_elem_of_filter.
Qed.

(** The value of a rule that sends a site around the tunnel. *)
Definition direct_rule (v : json) : option string :=
  match v with
  | JObj rule =>
      let field k := to_lower (trimmed (to_string (ofind k rule))) in
      if (String.eqb (field "type") "domain" || String.eqb (field "type") "ip")
         && String.eqb (field "route") "direct" && negb (str_empty (field "value"))
      then Some (field "value") else None
  | _ => None
  end.

Lemma sorted_direct rules d vpn :
  Forall (fun r => is_Some (direct_rule r)) rules ->
  exists d', sorted_rules rules d vpn = inr (d', vpn) /\
    (ordered d -> ordered d') /\
    (Forall (fun kv => kv.2 = []) d -> Forall (fun kv => kv.2 = []) d') /\
    forall k, k ∈ map fst d' <-> k ∈ map fst d \/ Some k ∈ map direct_rule rules.
Proof.
  intros Hr. revert d. induction Hr as [|r rules [x Hx] _ IH]; intros d.
  - exists d. split_and!; [done..|]. intros k. cbn. rewrite elem_of_nil. tauto.
  - destruct r as [| | | | | |rule]; try done. cbn [direct_rule] in Hx. cbv zeta in Hx.
    cbn [sorted_rules]. cbv zeta.
    pose (field := fun k => to_lower (trimmed (to_string (ofind k rule)))).
    change (to_lower (trimmed (to_string (ofind ?k rule)))) with (field k) in Hx |- *.
    destruct (String.eqb (field "type") "domain" || String.eqb (field "type") "ip") eqn:Et; [|done].
    destruct (String.eqb (field "route") "direct") eqn:Er; [|done].
    destruct (str_empty (field "value")) eqn:Ev; [done|]. cbn [negb andb orb] in *.
    injection Hx as <-. rewrite <- negb_orb, Et. cbn [negb andb orb].
    destruct (IH (minsert (field "value") [] d)) as (d' & E & H1 & H2 & H3).
    exists d'. split_and!; [done|auto using minsert_ordered| |].
    + intros Hd. apply H2. clear -Hd. induction Hd as [|[a w] d Hw Hd IH]; cbn.
      * by apply Forall_singleton.
      * destruct (String.eqb _ a); [by constructor|].
        destruct (String.ltb _ a); constructor; try done. by constructor.
    + intros k. rewrite H3, minsert_keys. cbn [map]. rewrite elem_of_cons. cbn [direct_rule]. cbv zeta.
      change (to_lower (trimmed (to_string (ofind ?k rule)))) with (field k).
      rewrite Et, Er, Ev. cbn [negb andb].
      assert (Some k = Some (field "value") <-> k = field "value") by (split; congruence). tauto.
Qed.

(** The stored list has exactly these names, none with an address. *)
Definition bare_list (names : string -> Prop) (m : list (string * variant)) : Prop :=
  (forall k v, (k, v) ∈ m -> names k /\ siteIpList v = []) /\
  (forall k, names k -> k ∈ map fst m).

Lemma bare_alike stored sites :
  ordered stored -> ordered sites -> Forall (fun kv => kv.2 = []) sites ->
  stored_alike stored sites = true -> bare_list (fun k => k ∈ map fst sites) stored.
Proof.
  intros Ho Hs Hn. unfold stored_alike. rewrite andb_true_iff, Nat.eqb_eq, forallb_forall.
  intros [Hlen Hall].
  assert (Hsub : forall k, k ∈ map fst sites -> exists v, mfind k stored = Some v /\ siteIpList v = []).
  { intros k ([k' ips] & -> & Hin)%list_elem_of_fmap. apply list_elem_of_In in Hin as Hin'.
    specialize (Hall _ Hin'). cbn in Hall. rewrite Forall_forall in Hn. apply Hn in Hin. cbn in Hin. subst.
    cbn. destruct (mfind k' stored) as [v|]; [|done]. apply bool_decide_eq_true in Hall. eauto. }
  assert (Hp : map fst sites ≡ₚ map fst stored).
  { apply submseteq_length_Permutation.
    - apply NoDup_submseteq; [by apply ordered_NoDup|]. intros k (v & Hv & _)%Hsub.
      apply mfind_Some. eauto.
    - rewrite !length_map. lia. }
  split.
  - intros k v Hin. assert (Hk : k ∈ map fst sites).
    { rewrite Hp. apply list_elem_of_fmap. by exists (k, v). }
    split; [done|]. destruct (Hsub k Hk) as (w & Hw & Hi).
    rewrite (mfind_elem k v) in Hw by (by apply ordered_NoDup || done). by injection Hw as ->.
  - intros k Hk. by rewrite <- Hp.
Qed.

Lemma bare_replaced sites :
  Forall (fun kv => kv.2 = []) sites ->
  bare_list (fun k => k ∈ map fst sites)
    (map (fun '(k, ips) => (k, VStrings (removeDuplicates (removeEmpty ips)))) sites).
Proof.
  intros Hn. split.
  - intros k v ([k' ips] & [= -> ->] & Hin)%list_elem_of_fmap. rewrite Forall_forall in Hn.
    apply Hn in Hin as Hi. cbn in Hi. subst. split; [|done]. apply list_elem_of_fmap.
    by exists (k', []).
  - intros k Hk. by rewrite (keys_map (fun ips => VStrings (removeDuplicates (removeEmpty ips)))).
Qed.

Lemma vpnSites_setRouteMode mode mode' s :
  vpnSites mode (m_appSettingsRepository (setRouteMode mode' s)) = vpnSites mode (m_appSettingsRepository s).
Proof. cbn. unfold Settings.setRouteMode. by rewrite vpnSites_emit, vpnSites_other. Qed.

(** What applying rules that all bypass the tunnel leaves in the settings. *)
Lemma apply_direct rules routing s :
  mirror s -> agrees s -> ofind "rules" routing = Some (JArr rules) -> rules <> [] ->
  Forall (fun r => is_Some (direct_rule r)) rules ->
  let '(r, s') := applyRouting routing s in
  let repo := m_appSettingsRepository s' in
  r = inr tt /\ isSitesSplitTunnelingEnabled repo = true /\
  Settings.routeMode repo = VpnAllExceptSites /\
  bare_list (fun k => Some k ∈ map direct_rule rules) (vpnSites VpnAllExceptSites repo).
Proof.
  intros Hm Ha Hrules Hne Hd. unfold applyRouting. rewrite Hrules.
  destruct (sorted_direct rules [] [] Hd) as (d & -> & Ho & Hn & Hk).
  specialize (Ho ltac:(constructor)). specialize (Hn ltac:(constructor)).
  assert (Hk' : forall k, k ∈ map fst d <-> Some k ∈ map direct_rule rules)
    by (intros k; rewrite Hk; cbn; rewrite elem_of_nil; tauto).
  assert (Hdne : d <> []).
  { intros ->. destruct rules as [|r0 rules]; [done|]. apply Forall_cons in Hd as [[x Hx] _].
    apply (not_elem_of_nil x), Hk'. cbn. rewrite Hx. by left. }
  destruct d as [|d0 d']; [done|]. set (d := d0 :: d') in *. clearbody d. clear d0 d' Hk Hdne.
  cbv zeta. set (alike := stored_alike _ d).
  set (s1 := if negb (m_currentRouteMode s =? VpnAllExceptSites)%Z
             then setRouteMode VpnAllExceptSites s else s).
  set (s2 := if negb alike then addSites d true s1 else s1).
  assert (E : (if (m_currentRouteMode s =? VpnAllExceptSites)%Z && alike && isSplitTunnelingEnabled s
               then (@inr rules_error _ tt, s)
               else (inr tt, if negb (isSplitTunnelingEnabled s) then toggleSplitTunneling true s2 else s2)) =
              (inr tt, if negb (isSplitTunnelingEnabled s) then toggleSplitTunneling true s2 else s2)).
  { subst s2 s1. by destruct (Z.eqb _ _), alike, (isSplitTunnelingEnabled s). }
  rewrite E. clear E. cbv iota.
  assert (H1 : mirror s1 /\ agrees s1 /\ m_currentRouteMode s1 = VpnAllExceptSites /\
    vpnSites VpnAllExceptSites (m_appSettingsRepository s1) =
      vpnSites VpnAllExceptSites (m_appSettingsRepository s) /\
    isSplitTunnelingEnabled s1 = isSplitTunnelingEnabled s).
  { subst s1. destruct (Z.eqb_spec (m_currentRouteMode s) VpnAllExceptSites); cbn [negb]; [done|].
    split_and!; [by apply mirror_setRouteMode|apply agrees_set|done|apply vpnSites_setRouteMode|].
    apply enabled_conf. cbn. by rewrite lookup_insert_ne. }
  clearbody s1. destruct H1 as (Hm1 & Ha1 & Hmode & Hv1 & He1).
  assert (H2 : Settings.routeMode (m_appSettingsRepository s2) = VpnAllExceptSites /\
    isSplitTunnelingEnabled s2 = isSplitTunnelingEnabled s /\
    bare_list (fun k => k ∈ map fst d) (vpnSites VpnAllExceptSites (m_appSettingsRepository s2))).
  { subst s2. destruct alike eqn:El; cbn [negb].
    - split_and!; [by rewrite Ha1|done|]. rewrite Hv1. apply bare_alike; try done. apply Hm.
    - split_and!.
      + rewrite (routeMode_conf (m_appSettingsRepository s1)) by (by apply conf_addSites). by rewrite Ha1.
      + rewrite <- He1. apply enabled_conf. by apply conf_addSites.
      + unfold addSites, on_settings. cbn [m_appSettingsRepository]. rewrite Hmode.
        destruct (replaceVpnSites_spec VpnAllExceptSites d (m_appSettingsRepository s1)) as [_ Er];
          [apply Hm1|done|].
        change (m_appSettingsRepository (_ <| m_appSettingsRepository := ?x |>)) with x.
        change (m_appSettingsRepository (s1 <| m_sites := _ |>)) with (m_appSettingsRepository s1).
        rewrite Er. by apply bare_replaced. }
  clearbody s2. destruct H2 as (Hr2 & He2 & Hb2).
  assert (Hb : bare_list (fun k => Some k ∈ map direct_rule rules)
    (vpnSites VpnAllExceptSites (m_appSettingsRepository s2))).
  { destruct Hb2 as [Hb1 Hb2]. split.
    - intros k v Hin. destruct (Hb1 k v Hin). split; [by apply Hk'|done].
    - intros k Hk. by apply Hb2, Hk'. }
  split; [done|]. destruct (isSplitTunnelingEnabled s) eqn:Ee; cbn [negb]; [done|].
  split_and!.
  - unfold isSitesSplitTunnelingEnabled, value. cbn. by rewrite lookup_insert_eq.
  - rewrite <- Hr2. apply routeMode_conf. cbn. by rewrite lookup_insert_ne.
  - cbn. unfold setSitesSplitTunnelingEnabled. by rewrite vpnSites_emit, vpnSites_other.
Qed.

Lemma elem_of_bare names m x :
  bare_list names m -> x ∈ Connection.site_addresses m <-> checkIpSubnetFormat x = true /\ names x.
Proof.
  intros [Hb1 Hb2]. rewrite elem_of_site_addresses. split.
  - intros (k & v & Hin & [[Hc ->]|(_ & _ & Hx)]).
    + split; [done|]. by apply (Hb1 k v).
    + destruct (Hb1 k v Hin) as [_ E]. rewrite E in Hx. by apply elem_of_nil in Hx.
  - intros [Hc Hx]. apply Hb2, list_elem_of_fmap in Hx as ([k v] & -> & Hin). exists k, v. auto.
Qed.

Context `{JsonText}.

Lemma agrees_applyRouting routing s : agrees s -> agrees (applyRouting routing s).2.
Proof.
  intros Hs. unfold applyRouting. destruct (ofind "rules" routing) as [[]|]; try done.
  destruct (sorted_rules l [] []) as [|[d v]]; [done|].
  assert (Ht : forall b s, agrees s -> agrees (toggleSplitTunneling b s)).
  { intros b s0 Hs0. eapply agrees_kept; [exact Hs0|done|]. cbn. by rewrite lookup_insert_ne. }
  assert (Ha : forall sites s, agrees s -> agrees (addSites sites true s)).
  { intros sites s0 Hs0. eapply agrees_kept; [exact Hs0|done|]. by apply conf_addSites. }
  assert (Hg : forall mode sites b c e, agrees (
    let s' := if negb b then setRouteMode mode s else s in
    let s' := if negb c then addSites sites true s' else s' in
    if negb e then toggleSplitTunneling true s' else s')).
  { intros mode sites [] [] []; cbn [negb]; auto using agrees_set. }
  destruct d as [|d0 d], v as [|v0 v]; cbn [snd]; try done.
  - destruct (isSplitTunnelingEnabled s); auto.
  - cbv zeta. destruct (_ && _); [done|]. apply Hg.
  - cbv zeta. destruct (_ && _); [done|]. apply Hg.
Qed.

Lemma agrees_step e s : agrees s -> agrees (site_step e s).
Proof.
  intros Hs. assert (Hi : forall h ips, agrees (addSiteInternal h ips s).2).
  { intros h ips. eapply agrees_kept; [exact Hs| |by apply conf_addSiteInternal].
    unfold addSiteInternal. cbv zeta. repeat case_match; done. }
  destruct e as [h|sites b|h| |mode|b|data b|routing|h addresses]; cbn [site_step].
  - unfold addSite, processSite. cbv zeta. destruct (negb _); [done|].
    destruct (ipAddressWithSubnet _); [apply Hi|]. specialize (Hi (normalizeHostname h) []).
    by destruct (addSiteInternal _ _ _) as [[] s'].
  - eapply agrees_kept; [exact Hs|by destruct b|]. by apply conf_addSites.
  - unfold removeSite. destruct (mcontains _ _); [|done].
    eapply agrees_kept; [exact Hs|done|]. by apply conf_remove.
  - eapply agrees_kept; [exact Hs|done|].
    exact (conf_set "Conf/routeMode" (m_currentRouteMode s) [] (m_appSettingsRepository s) eq_refl).
  - apply agrees_set.
  - eapply agrees_kept; [exact Hs|done|]. cbn. by rewrite lookup_insert_ne.
  - unfold importSitesFromJson. destruct (json_parse data) as [[]|]; try done.
    eapply agrees_kept; [exact Hs|by destruct b|]. by apply conf_addSites.
  - by apply agrees_applyRouting.
  - unfold onHostResolved, processSiteAfterResolve. case_match; [done|].
    eapply agrees_kept; [exact Hs|done|]. by apply conf_addVpnSite.
Qed.

Lemma site_run_ok repo es :
  wf_settings repo -> events_ok es (IpSplitTunnelingController repo) ->
  mirror (site_run es (IpSplitTunnelingController repo)) /\
  agrees (site_run es (IpSplitTunnelingController repo)).
Proof.
  intros Hw He. generalize (mirror_init repo Hw) (agrees_init repo). revert He.
  generalize (IpSplitTunnelingController repo).
  induction es as [|e es IH]; intros s He Hs Ha; [done|]. destruct He as [He Hes].
  apply IH; [done|by apply mirror_step|by apply agrees_step].
Qed.

End Policy.

(** ** From the settings to the interface *)

Section Interface.
Context `{Platform}.
Variable s : settings.
Variable raw0 : obj.
Variable c : AwgClientConfig.AwgClientConfig.
Hypothesis protocol_awg : to_string (ofind "protocol" raw0) = "awg".
Hypothesis raw_client : to_object (ofind "awg_config_data" raw0) = AwgClientConfig.toJson c.
Hypothesis whole_tunnel : AwgClientConfig.allowedIps c = ["0.0.0.0/0"; "::/0"].
Hypothesis keep_alive : AwgClientConfig.persistentKeepAlive c <> "".

Ltac find_key := repeat (rewrite ofind_oset; cbn [String.eqb Ascii.eqb Bool.eqb]).

Lemma client_allowed : ofind configKey.allowedIps (AwgClientConfig.toJson c) =
  Some (JArr [JStr "0.0.0.0/0"; JStr "::/0"]).
Proof.
  rewrite (AwgClientConfig.awg_client_lookup c (PutList configKey.allowedIps (AwgClientConfig.allowedIps c))
    ltac:(unfold AwgClientConfig.fields; repeat first [apply list_elem_of_here | apply list_elem_of_further])
    : ofind configKey.allowedIps _ = _).
  cbn [write_value]. by rewrite whole_tunnel.
Qed.

Lemma client_keep_alive : ofind configKey.persistentKeepAlive (AwgClientConfig.toJson c) =
  Some (JStr (AwgClientConfig.persistentKeepAlive c)).
Proof.
  rewrite (AwgClientConfig.awg_client_lookup c
    (PutStr configKey.persistentKeepAlive (AwgClientConfig.persistentKeepAlive c))
    ltac:(unfold AwgClientConfig.fields; repeat first [apply list_elem_of_here | apply list_elem_of_further])
    : ofind configKey.persistentKeepAlive _ = _).
  cbn [write_value]. by destruct (AwgClientConfig.persistentKeepAlive c).
Qed.

Definition base : obj := Connection.appendKillSwitchConfig s raw0.

Lemma base_find k :
  String.eqb k "allowedDnsServers" = false -> String.eqb k "killSwitchOption" = false ->
  ofind k base = ofind k raw0.
Proof.
  intros H1 H2. unfold base, Connection.appendKillSwitchConfig. by rewrite !ofind_oset, H1, H2.
Qed.

Lemma upgraded_base : Connection.upgraded base = (base, true).
Proof.
  unfold Connection.upgraded. cbv zeta. rewrite (base_find "protocol"), protocol_awg by done.
  change (String.eqb "awg" "awg" || _) with true. cbv iota.
  change ("awg" +:+ "_config_data") with "awg_config_data".
  rewrite (base_find "awg_config_data"), raw_client by done.
  assert (E : Connection.with_keep_alive (Connection.with_allowed_ips (AwgClientConfig.toJson c)) =
    AwgClientConfig.toJson c).
  { unfold Connection.with_allowed_ips. rewrite client_allowed.
    unfold Connection.with_keep_alive. by rewrite client_keep_alive. }
  rewrite E, bool_decide_true by done. unfold Connection.whole. rewrite client_allowed. reflexivity.
Qed.

Definition site_list : list string := Connection.site_addresses (vpnSites (Settings.routeMode s) s).
Definition split_on : bool := isSitesSplitTunnelingEnabled s && negb (bool_decide (site_list = [])).
Definition started : obj := Connection.connectToVpn_config s raw0.

Lemma started_split :
  Connection.split_sites s true base =
  if split_on then
    (Settings.routeMode s, site_list ++
       (if (Settings.routeMode s =? VpnOnlyForwardSites)%Z
        then [to_string (ofind "dns1" raw0); to_string (ofind "dns2" raw0)] else []))
  else (VpnAllSites, []).
Proof.
  unfold Connection.split_sites, split_on, site_list.
  rewrite (base_find "dns1"), (base_find "dns2") by done.
  destruct (isSitesSplitTunnelingEnabled s); [|done]. cbn [andb].
  by destruct (Connection.site_addresses _) as [|x l].
Qed.

(** The keys of the started configuration. *)
Lemma started_find k :
  ofind k started =
  if String.eqb k "splitTunnelApps" then Some (JArr [])
  else if String.eqb k "appSplitTunnelType" then Some (JInt VpnAllApps)
  else if String.eqb k "splitTunnelSites"
  then Some (JArr (map JStr (Connection.split_sites s true base).2))
  else if String.eqb k "splitTunnelType" then Some (JInt (Connection.split_sites s true base).1)
  else ofind k base.
Proof.
  unfold started, Connection.connectToVpn_config, Connection.appendSplitTunnelingConfig.
  fold base. rewrite upgraded_base. destruct (Connection.split_sites s true base) as [mode sites].
  change (Connection.split_apps s) with (VpnAllApps, @nil string). cbn [fst snd].
  by rewrite !ofind_oset.
Qed.

Lemma started_raw k :
  forallb (fun x => negb (String.eqb k x)) ["splitTunnelApps"; "appSplitTunnelType";
    "splitTunnelSites"; "splitTunnelType"; "allowedDnsServers"; "killSwitchOption"] = true ->
  ofind k started = ofind k raw0.
Proof.
  cbn [forallb]. rewrite !andb_true_iff, !negb_true_iff. intros (H1 & H2 & H3 & H4 & H5 & H6 & _).
  rewrite started_find, H1, H2, H3, H4. by apply base_find.
Qed.

Lemma started_type :
  (0 <= Settings.routeMode s <= 2)%Z ->
  to_int 0 (ofind "splitTunnelType" started) = if split_on then Settings.routeMode s else 0%Z.
Proof.
  intros Hm. rewrite started_find. cbn [String.eqb Ascii.eqb Bool.eqb]. rewrite started_split.
  destruct split_on; [|done]. cbn [fst to_int].
  assert (in_int32 (Settings.routeMode s) = true) as ->; [|done].
  unfold in_int32, int32_min, int32_max. lia.
Qed.

Lemma started_sites :
  Client.texts (to_array (ofind "splitTunnelSites" started)) =
  if split_on then site_list ++
    (if (Settings.routeMode s =? VpnOnlyForwardSites)%Z
     then [to_string (ofind "dns1" raw0); to_string (ofind "dns2" raw0)] else [])
  else [].
Proof.
  rewrite started_find. cbn [String.eqb Ascii.eqb Bool.eqb to_array]. rewrite texts_strings, started_split.
  by destruct split_on.
Qed.

End Interface.

(** ** The theorems at work *)

Definition dotted (a : QHostAddress) : string :=
  match a with
  | V4 n => pretty (n / 2 ^ 24)%Z +:+ "." +:+ pretty (n / 2 ^ 16 mod 256)%Z +:+ "." +:+
            pretty (n / 2 ^ 8 mod 256)%Z +:+ "." +:+ pretty (n mod 256)%Z
  | _ => ""
  end.

Definition site_text : HostText :=
  {| parseAddress := sample_parse; parseSubnet := sample_subnet; addressText := dotted |}.

Definition empty_settings : settings := mkSettings ∅ [].

Lemma empty_wf : wf_settings empty_settings.
Proof.
  intros mode. unfold vpnSites, value. cbn. rewrite lookup_empty. constructor.
Qed.

Definition sample_site_events : list site_event :=
  [AddSite "https://example.com/start"; AddSite "10.0.0.0/8";
   Resolved "example.com" [V4 3325256711; V6 []]; SetRouteMode 2; AddSite "192.0.2.7"].

Lemma sites_mirror_settings_witness :
  let s := @site_run site_text json_text_model sample_site_events
             (IpSplitTunnelingController empty_settings) in
  m_sites s = [("192.0.2.7", [])] /\
  (forall k, mfind k (m_sites s) =
    siteIpList <$> mfind k (vpnSites (m_currentRouteMode s) (m_appSettingsRepository s))).
Proof.
  cbv zeta. split; [vm_compute; reflexivity|].
  apply (@sites_mirror_settings site_text json_text_model empty_settings sample_site_events empty_wf).
  cbn [events_ok sample_site_events event_ok]. split_and!; try exact I.
  exists []. vm_compute. reflexivity.
Defined.

(** The site was to use the tunnel; when its name is resolved, the list of the sites that bypass
    the tunnel is current. *)
Definition before_answer : sites_ctl :=
  @site_run site_text json_text_model [AddSite "example.com"; SetRouteMode 2]
    (IpSplitTunnelingController empty_settings).

Lemma before_answer_mirror : mirror before_answer.
Proof.
  exact (proj1 (@site_run_ok site_text json_text_model empty_settings
    [AddSite "example.com"; SetRouteMode 2] empty_wf (conj I (conj I I)))).
Qed.

Lemma late_lookup_misfiled_witness :
  lookups before_answer = ["example.com"] /\
  exists v, mfind "example.com" (vpnSites VpnAllExceptSites (m_appSettingsRepository
      (@onHostResolved site_text "example.com" [V4 3325256711] before_answer))) = Some v /\
    "198.51.100.7" ∈ siteIpList v.
Proof.
  split; [vm_compute; reflexivity|].
  destruct (@late_lookup_misfiled site_text "example.com" [V4 3325256711] before_answer
    before_answer_mirror) as (_ & v & Hv & Hin).
  - vm_compute. reflexivity.
  - exists (V4 3325256711). split; [by left|reflexivity].
  - exists v. split; [exact Hv|]. apply (Hin (V4 3325256711)); [by left|reflexivity|].
    vm_compute. discriminate.
Defined.

Lemma export_import_roundtrip_witness :
  let s := @site_run site_text json_text_model [AddSite "example.com"; AddSite "10.0.0.0/8"]
             (IpSplitTunnelingController empty_settings) in
  (@importSitesFromJson json_text_model (@exportSitesToJson json_text_model s) true before_answer).1
    = inr tt.
Proof.
  cbv zeta. set (s := site_run _ _).
  assert (Hs : mirror s) by exact (proj1 (@site_run_ok site_text json_text_model empty_settings
    [AddSite "example.com"; AddSite "10.0.0.0/8"] empty_wf (conj I (conj I I)))).
  pose proof (@export_import_roundtrip json_text_model s before_answer Hs before_answer_mirror) as Hr.
  destruct (importSitesFromJson _ _ _) as [r t']. cbn. apply Hr.
  vm_compute. repeat constructor.
Defined.

(** Two rules: one network, one name. *)
Definition sample_rule (type value : string) : json :=
  JObj (oof [("type", JStr type); ("route", JStr "direct"); ("value", JStr value)]).

Definition sample_routing : obj :=
  oof [("rules", JArr [sample_rule "ip" "198.51.100.0/24"; sample_rule "domain" "example.com"])].


(** An account that covers everything, and the sites of the rules. *)
Definition whole_account : AwgClientConfig.AwgClientConfig :=
  AwgClientConfig.fromJson
    (oof [("hostName", JStr "192.0.2.1"); ("port", JInt 51820); ("client_ip", JStr "10.8.1.2/32");
          ("client_priv_key", JStr "private"); ("server_pub_key", JStr "peer");
          ("allowed_ips", JArr [JStr "0.0.0.0/0"; JStr "::/0"]);
          ("persistent_keep_alive", JStr "25")]).

Definition whole_config : obj :=
  oof [("protocol", JStr "awg"); ("awg_config_data", JObj (AwgClientConfig.toJson whole_account));
       ("dns1", JStr "1.1.1.1"); ("dns2", JStr "1.0.0.1")].

