(* ===== verification/SecureSettings.v ===== *)
(** * The settings file

    [client/secureQSettings.{h,cpp}]: the settings of the client and of the service, with a
    cache in memory, the encryption of two entries, backup and restore; and the ciphers of
    [common/crypto/cryptoUtils.cpp] it calls.

    [QSettings] is the map of the entries written ([m_settings]), with their types as long as
    the object lives; what it gives back for a value once the file has been written and is
    opened again is [reread] (the INI format keeps a flag or a number as its text).  This, the
    keychain of the system, OpenSSL and the binary format of [QDataStream] are the class
    [Vault].  [wf_vault] is what their documentation promises: what is stored in the keychain
    is read back, decryption inverts encryption, a value read from a stream is the value
    written, and a text, a byte array or a map comes back from the file as it is. *)

From S2P Require Import Prelude Json SplitTunneling.

Class Vault := {
  keychain : Type;
  (** [ReadPasswordJob]: the bytes of the tag, empty when there are none. *)
  read_tag : string -> keychain -> string;
  (** [WritePasswordJob]. *)
  write_tag : string -> string -> keychain -> keychain;
  (** [RAND_bytes] at its n-th call; [None] when it fails. *)
  RAND_bytes : nat -> nat -> option string;
  (** The sequence of [EVP_Encrypt...] and [EVP_Decrypt...] for AES-256-CBC. *)
  EVP_encrypt : string -> string -> string -> option string;
  EVP_decrypt : string -> string -> string -> option string;
  (** [QDataStream << value] and [>>]; a text that holds no value reads as the invalid one. *)
  write_stream : variant -> string;
  read_stream : string -> variant;
  (** The value of an entry of the file after it was closed and opened again. *)
  reread : variant -> variant;
  (** [Q_OS_LINUX] without [Q_OS_ANDROID]. *)
  linux_desktop : bool
}.

(** The values whose text the file keeps. *)
Definition scalar (v : variant) : bool :=
  match v with VNull | VBool _ | VInt _ | VStr _ | VBytes _ => true | _ => false end.

Definition magicString : string := "EncData".

(** No byte array in the value begins with the magic word. *)
Fixpoint unmarked (v : variant) : bool :=
  match v with
  | VBytes b => negb (starts_with magicString b)
  | VList l => forallb unmarked l
  | VMap m => forallb (fun kv => unmarked kv.2) m
  | _ => true
  end.

Record wf_vault (V : Vault) : Prop := {
  keychain_stores : forall t d c, read_tag t (write_tag t d c) = d;
  keychain_others : forall t t' d c, t <> t' -> read_tag t' (write_tag t d c) = read_tag t' c;
  random_length : forall i n, exists b, RAND_bytes i n = Some b /\ String.length b = n;
  cipher_inverse : forall d k iv, exists c,
    EVP_encrypt d k iv = Some c /\ EVP_decrypt c k iv = Some d;
  stream_inverse : forall v, read_stream (write_stream v) = v;
  reread_again : forall v, reread (reread v) = reread v;
  reread_bytes : forall b, reread (VBytes b) = VBytes b;
  reread_text : forall t, reread (VStr t) = VStr t;
  reread_map : forall m, reread (VMap m) = VMap m;
  reread_scalar : forall v, scalar v = true -> variant_text (reread v) = variant_text v;
  reread_flag : forall b, toBool (reread (VBool b)) = b;
  reread_unmarked : forall v, unmarked v = true -> unmarked (reread v) = true
}.

Section Settings.
Context `{V : Vault}.

(** ** [CryptoUtils] *)

Definition kAesKeySize : nat := 32.
Definition kAesIvSize : nat := 16.

Definition generateRandomBytes (call size : nat) : string :=
  if bool_decide (size = 0) then "" else default "" (RAND_bytes call size).

Definition encryptAes256Cbc (data key iv : string) : string :=
  if negb (bool_decide (String.length key = kAesKeySize))
     || bool_decide (String.length iv < kAesIvSize) then ""
  else default "" (EVP_encrypt data key iv).

Definition decryptAes256Cbc (data key iv : string) : string :=
  if negb (bool_decide (String.length key = kAesKeySize))
     || bool_decide (String.length iv < kAesIvSize) then ""
  else default "" (EVP_decrypt data key iv).

(** ** State *)

Record SecureQSettings := mkSecure {
  m_settings : gmap string variant;
  m_cache : gmap string variant;
  m_key : string;
  m_iv : string;
  m_encryptionEnabled : bool;
  system_keychain : keychain;
  random_calls : nat
}.

#[export] Instance eta_secure : Eta SecureQSettings := fun s =>
  mkSecure (m_settings s) (m_cache s) (m_key s) (m_iv s) (m_encryptionEnabled s)
    (system_keychain s) (random_calls s).

Definition settingsKeyTag : string := "settingsKeyTag".
Definition settingsIvTag : string := "settingsIvTag".
Definition encryptedKeys : list string := ["Servers/serversList"; "TunnelCore/accessToken"].
Definition m_fieldsToBackup : list string := ["Conf/"; "Servers/"].

Definition encryptionRequired (s : SecureQSettings) : bool :=
  if negb (m_encryptionEnabled s) then false else negb linux_desktop.

(** ** Keys *)

Definition getEncKey (s : SecureQSettings) : string * SecureQSettings :=
  if negb (str_empty (m_key s)) then (m_key s, s)
  else
    let s := s <| m_key := read_tag settingsKeyTag (system_keychain s) |> in
    if negb (str_empty (m_key s)) then (m_key s, s)
    else
      let key := generateRandomBytes (random_calls s) 32 in
      let s := s <| random_calls := S (random_calls s) |>
                 <| system_keychain := write_tag settingsKeyTag key (system_keychain s) |> in
      let s := s <| m_key := read_tag settingsKeyTag (system_keychain s) |> in
      if negb (String.eqb key (m_key s)) then ("", s) else (m_key s, s).

Definition getEncIv (s : SecureQSettings) : string * SecureQSettings :=
  if negb (str_empty (m_iv s)) then (m_iv s, s)
  else
    let s := s <| m_iv := read_tag settingsIvTag (system_keychain s) |> in
    if negb (str_empty (m_iv s)) then (m_iv s, s)
    else
      let iv := generateRandomBytes (random_calls s) 32 in
      let s := s <| random_calls := S (random_calls s) |>
                 <| system_keychain := write_tag settingsIvTag iv (system_keychain s) |> in
      let s := s <| m_iv := read_tag settingsIvTag (system_keychain s) |> in
      if negb (String.eqb iv (m_iv s)) then ("", s) else (m_iv s, s).

(** [getEncKey().isEmpty() || getEncIv().isEmpty()]: the second is not asked for when the
    first is empty. *)
Definition keys_missing (s : SecureQSettings) : bool * SecureQSettings :=
  let '(key, s) := getEncKey s in
  if str_empty key then (true, s)
  else let '(iv, s) := getEncIv s in (str_empty iv, s).

Definition encryptText (value : string) (s : SecureQSettings) : string * SecureQSettings :=
  let '(key, s) := getEncKey s in
  let '(iv, s) := getEncIv s in
  (encryptAes256Cbc value key iv, s).

Definition decryptText (ba : string) (s : SecureQSettings) : string * SecureQSettings :=
  let '(key, s) := getEncKey s in
  let '(iv, s) := getEncIv s in
  (decryptAes256Cbc ba key iv, s).

(** ** Values *)

(** The bytes after the magic word, of a value that is encrypted. *)
Definition encrypted_part (v : variant) : option string :=
  match v with
  | VBytes b => if starts_with magicString b then Some (str_drop (String.length magicString) b)
                else None
  | _ => None
  end.

Definition cache_insert (key : string) (v : variant) (s : SecureQSettings) : SecureQSettings :=
  s <| m_cache := <[key := v]> (m_cache s) |>.

Definition value (key : string) (defaultValue : variant) (s : SecureQSettings)
    : variant * SecureQSettings :=
  match m_cache s !! key with
  | Some v => (v, s)
  | None =>
      match m_settings s !! key with
      | None => (defaultValue, s)
      | Some stored =>
          match encrypted_part stored with
          | None => (stored, cache_insert key stored s)
          | Some encryptedValue =>
              let '(missing, s) := keys_missing s in
              if missing then (VNull, s)
              else
                let '(decryptedValue, s) := decryptText encryptedValue s in
                let retVal := read_stream decryptedValue in
                (retVal, cache_insert key retVal s)
          end
      end
  end.

Definition store (key : string) (v : variant) (s : SecureQSettings) : SecureQSettings :=
  s <| m_settings := <[key := v]> (m_settings s) |>.

Definition setValue (key : string) (v : variant) (s : SecureQSettings) : SecureQSettings :=
  if encryptionRequired s && bool_decide (key ∈ encryptedKeys) then
    let '(missing, s) := keys_missing s in
    if missing then s
    else
      let '(encryptedValue, s) := encryptText (write_stream v) s in
      cache_insert key v (store key (VBytes (magicString +:+ encryptedValue)) s)
  else cache_insert key v (store key v s).

(** [QSettings::remove] takes the entries below the key with it. *)
Definition below (key k : string) : bool := String.eqb k key || starts_with (key +:+ "/") k.

Definition remove (key : string) (s : SecureQSettings) : SecureQSettings :=
  s <| m_settings := filter (fun kv => below key kv.1 = false) (m_settings s) |>
    <| m_cache := delete key (m_cache s) |>.

Definition clearSettings (s : SecureQSettings) : SecureQSettings :=
  s <| m_settings := ∅ |> <| m_cache := ∅ |>.

(** [QSettings::allKeys], in some order. *)
Definition allKeys (s : SecureQSettings) : list string := (map_to_list (m_settings s)).*1.

(** The constructor: an object for the entries of the file, as [QSettings] reads them. *)
Definition new_settings (file : gmap string variant) (c : keychain) (calls : nat)
    (enableEncryption : bool) : SecureQSettings :=
  let s := mkSecure file ∅ "" "" enableEncryption c calls in
  let encrypted := toBool (default VNull (file !! "Conf/encrypted")) in
  if encryptionRequired s && negb encrypted then
    let s := fold_left (fun s key =>
        if bool_decide (key ∈ encryptedKeys) then
          let '(val, s) := value key VNull s in setValue key val s
        else s) (allKeys s) s in
    store "Conf/encrypted" (VBool true) s
  else s.

(** ** Backup *)

Definition needToBackup (key : string) : bool :=
  negb (String.eqb key "Conf/installationUuid")
  && existsb (fun item => starts_with item key) m_fieldsToBackup.

Definition backup_entry (acc : obj * SecureQSettings) (key : string) : obj * SecureQSettings :=
  let '(cfg, s) := acc in
  if negb (needToBackup key) then (cfg, s)
  else let '(v, s) := value key VNull s in (oset key (from_variant v) cfg, s).

Section Text.
Context `{JsonText}.

Definition backupAppConfig (s : SecureQSettings) : string * SecureQSettings :=
  let '(cfg, s) := fold_left backup_entry (allKeys s) ([], s) in
  (json_print (JObj cfg), s).

Definition restoreAppConfig (text : string) (s : SecureQSettings) : bool * SecureQSettings :=
  let cfg := doc_object (json_parse text) in
  if bool_decide (cfg = []) then (false, s)
  else (true, fold_left (fun s key =>
         if String.eqb key "Conf/installationUuid" then s
         else setValue key (to_variant (default JNull (ofind key cfg))) s) cfg.*1 s).
End Text.

(** The destruction of the object and a new one for the same file. *)
Definition restart (s : SecureQSettings) : SecureQSettings :=
  new_settings (reread <$> m_settings s) (system_keychain s) (random_calls s) (m_encryptionEnabled s).

End Settings.
