(* ===== verification/SecureSettingsFacts.v ===== *)
(** * The settings file: what it holds

    Lemmas on [SecureSettings].  [contents] is what an object without a cache would answer for
    each entry; [good] says that the cache agrees with it and that what is encrypted can be
    read. *)

From S2P Require Import Prelude Json SplitTunneling SecureSettings.

Lemma str_drop_app a b : str_drop (String.length a) (a +:+ b) = b.
Proof. induction a as [|c a IH]; [by destruct b|]. rewrite string_app_cons. apply IH. Qed.

Lemma unmarked_plain v : unmarked v = true -> encrypted_part v = None.
Proof. destruct v; try done. cbn. by destruct (starts_with magicString b). Qed.

Lemma to_variant_unmarked j : unmarked (to_variant j) = true.
Proof.
  induction j as [| | | | |l IH|o IH] using json_ind; try done; cbn.
  - induction IH as [|x r Hx _ IHr]; [done|]. cbn. by rewrite Hx.
  - induction IH as [|[k x] r Hx _ IHr]; [done|]. cbn in *. by rewrite Hx.
Qed.

(** The entries of a configuration that is restored. *)
Definition map_restore (cfg : obj) (m : gmap string variant) : gmap string variant :=
  fold_left (fun m key =>
    if String.eqb key "Conf/installationUuid" then m
    else <[key := to_variant (default JNull (ofind key cfg))]> m) cfg.*1 m.

Lemma ofind_elem k (o : obj) : is_Some (ofind k o) <-> k ∈ o.*1.
Proof.
  induction o as [|[k' v] o IH]; [split; [by intros []|set_solver]|].
  cbn [ofind fmap list_fmap fst]. destruct (String.eqb_spec k k') as [->|Hne].
  - split; [set_solver|]. by eexists.
  - rewrite IH. set_solver.
Qed.

Lemma map_restore_lookup cfg m k :
  map_restore cfg m !! k =
  if String.eqb k "Conf/installationUuid" then m !! k
  else match ofind k cfg with Some j => Some (to_variant j) | None => m !! k end.
Proof.
  unfold map_restore. pose proof (ofind_elem k cfg) as He.
  assert (forall keys (m : gmap string variant),
    fold_left (fun m key => if String.eqb key "Conf/installationUuid" then m
       else <[key := to_variant (default JNull (ofind key cfg))]> m) keys m !! k =
    if negb (String.eqb k "Conf/installationUuid") && bool_decide (k ∈ keys)
    then Some (to_variant (default JNull (ofind k cfg))) else m !! k) as Hf.
  { induction keys as [|key keys IH]; intros m'.
    { cbn. by rewrite andb_false_r. }
    cbn [fold_left]. rewrite IH. destruct (decide (k = key)) as [->|Hne].
    - rewrite (bool_decide_true (key ∈ key :: keys)) by set_solver.
      destruct (String.eqb key _); cbn; [done|].
      destruct (bool_decide _); [done|]. by rewrite lookup_insert_eq.
    - rewrite (bool_decide_ext (k ∈ key :: keys) (k ∈ keys)) by set_solver.
      destruct (_ && _); [done|]. destruct (String.eqb key _); [done|].
      by rewrite lookup_insert_ne. }
  rewrite Hf. destruct (String.eqb k _); [done|]. cbn.
  destruct (ofind k cfg) as [j|]; [by rewrite bool_decide_true by (apply He; by eexists)|].
  rewrite bool_decide_false; [done|]. intros Hk%He. by destruct Hk.
Qed.

Section Facts.
Context `{V : Vault}.

Definition decoded (c : keychain) (v : variant) : variant :=
  match encrypted_part v with
  | None => v
  | Some e => read_stream (decryptAes256Cbc e (read_tag settingsKeyTag c) (read_tag settingsIvTag c))
  end.

Definition contents (s : SecureQSettings) : gmap string variant :=
  decoded (system_keychain s) <$> m_settings s.

(** The keys of the keychain, when it has them, have the sizes the cipher asks for. *)
Record good_keys (c : keychain) : Prop := {
  key_size : read_tag settingsKeyTag c = "" \/ String.length (read_tag settingsKeyTag c) = 32;
  iv_size : read_tag settingsIvTag c = "" \/ String.length (read_tag settingsIvTag c) = 32
}.

Definition readable (c : keychain) (v : variant) : Prop :=
  encrypted_part v <> None -> read_tag settingsKeyTag c <> "" /\ read_tag settingsIvTag c <> "".

Record good (s : SecureQSettings) : Prop := {
  good_chain : good_keys (system_keychain s);
  good_key : m_key s = "" \/ m_key s = read_tag settingsKeyTag (system_keychain s);
  good_iv : m_iv s = "" \/ m_iv s = read_tag settingsIvTag (system_keychain s);
  good_file : map_Forall (fun _ => readable (system_keychain s)) (m_settings s);
  good_plain : map_Forall (fun k v => k ∉ encryptedKeys -> encrypted_part v = None) (m_settings s);
  good_cache : m_cache s ⊆ contents s
}.

(** What reading the keys leaves alone. *)
Record same_entries (s s' : SecureQSettings) : Prop := {
  same_file : m_settings s' = m_settings s;
  same_cache : m_cache s' = m_cache s;
  same_enabled : m_encryptionEnabled s' = m_encryptionEnabled s
}.

#[export] Instance same_entries_trans : Transitive same_entries.
Proof. intros a b c [H1 H2 H3] [K1 K2 K3]. split; congruence. Qed.

#[export] Instance same_entries_refl : Reflexive same_entries.
Proof. by split. Qed.

(** *** What needs no law *)

Lemma getEncKey_same s : same_entries s (getEncKey s).2.
Proof. unfold getEncKey. cbn. repeat case_match; by split. Qed.

Lemma getEncIv_same s : same_entries s (getEncIv s).2.
Proof. unfold getEncIv. cbn. repeat case_match; by split. Qed.

Lemma two_keys_same {A} (f : string -> string -> A) s :
  same_entries s (let '(key, s) := getEncKey s in let '(iv, s) := getEncIv s in (f key iv, s)).2.
Proof.
  pose proof (getEncKey_same s) as H1. destruct (getEncKey s) as [k s1].
  pose proof (getEncIv_same s1) as H2. destruct (getEncIv s1) as [iv s2]. by etrans.
Qed.

Lemma keys_missing_same s : same_entries s (keys_missing s).2.
Proof.
  unfold keys_missing. pose proof (getEncKey_same s) as H1. destruct (getEncKey s) as [k s1].
  destruct (str_empty k); [done|].
  pose proof (getEncIv_same s1) as H2. destruct (getEncIv s1) as [iv s2]. by etrans.
Qed.

(** Reading changes the cache at its key only, and nothing else that is stored. *)
Lemma value_frame k d s :
  let s' := (value k d s).2 in
  m_settings s' = m_settings s /\ m_encryptionEnabled s' = m_encryptionEnabled s /\
  (forall k', k' <> k -> m_cache s' !! k' = m_cache s !! k').
Proof.
  unfold value. destruct (m_cache s !! k); [done|]. destruct (m_settings s !! k) as [w|]; [|done].
  destruct (encrypted_part w) as [e|].
  2:{ cbn. split_and!; try done. intros k' Hk. by rewrite lookup_insert_ne. }
  pose proof (keys_missing_same s) as [E1 E2 E3]. destruct (keys_missing s) as [[] s1]; cbn in *.
  { by rewrite E2. }
  pose proof (two_keys_same (decryptAes256Cbc e) s1) as [F1 F2 F3]. unfold decryptText.
  destruct (getEncKey s1) as [key s2]. destruct (getEncIv s2) as [iv s3]. cbn in *.
  split_and!; [congruence..|]. intros k' Hk. rewrite lookup_insert_ne by done. congruence.
Qed.

Lemma setValue_frame k v s :
  let s' := setValue k v s in
  m_encryptionEnabled s' = m_encryptionEnabled s /\
  (forall k', k' <> k -> m_cache s' !! k' = m_cache s !! k' /\
                         m_settings s' !! k' = m_settings s !! k').
Proof.
  unfold setValue. destruct (_ && _).
  2:{ cbn. split; [done|]. intros k' Hk. by rewrite !lookup_insert_ne. }
  pose proof (keys_missing_same s) as [E1 E2 E3]. destruct (keys_missing s) as [[] s1]; cbn in *.
  { rewrite E1, E2, E3. done. }
  pose proof (two_keys_same (encryptAes256Cbc (write_stream v)) s1) as [F1 F2 F3]. unfold encryptText.
  destruct (getEncKey s1) as [key s2]. destruct (getEncIv s2) as [iv s3]. cbn in *.
  split; [congruence|]. intros k' Hk. rewrite !lookup_insert_ne by done. split; congruence.
Qed.

(** *** What is written *)

Definition encrypts (k : string) (s : SecureQSettings) : bool :=
  encryptionRequired s && bool_decide (k ∈ encryptedKeys).

(** The entry of a secret. *)
Definition sealed (v : variant) (key iv : string) : variant :=
  VBytes (magicString +:+ encryptAes256Cbc (write_stream v) key iv).

Lemma getEncKey_got s : (getEncKey s).1 <> "" -> m_key (getEncKey s).2 = (getEncKey s).1.
Proof. unfold getEncKey. cbn. repeat case_match; done. Qed.

Lemma getEncIv_got s :
  m_key (getEncIv s).2 = m_key s /\ ((getEncIv s).1 <> "" -> m_iv (getEncIv s).2 = (getEncIv s).1).
Proof. unfold getEncIv. cbn. repeat case_match; done. Qed.

Lemma keys_got s :
  (keys_missing s).1 = false -> m_key (keys_missing s).2 <> "" /\ m_iv (keys_missing s).2 <> "".
Proof.
  unfold keys_missing. pose proof (getEncKey_got s) as Hk. destruct (getEncKey s) as [k s1].
  cbn in Hk. destruct (str_empty k) eqn:Ek; [done|]. apply str_empty_false in Ek.
  destruct (getEncIv_got s1) as [Hk' Hi]. destruct (getEncIv s1) as [iv s2]. cbn in *.
  intros Ei. apply str_empty_false in Ei. rewrite Hk', Hi, Hk by done. done.
Qed.

Lemma have_keys s :
  m_key s <> "" -> m_iv s <> "" -> getEncKey s = (m_key s, s) /\ getEncIv s = (m_iv s, s).
Proof.
  intros Hk%str_empty_false Hi%str_empty_false. unfold getEncKey, getEncIv. by rewrite Hk, Hi.
Qed.

(** A secret is written encrypted, or not at all when there are no keys; other entries as they
    are. *)
Lemma setValue_file k v s :
  let s' := setValue k v s in
  if encrypts k s then
    (if (keys_missing s).1 then m_settings s' = m_settings s
     else m_key s' <> "" /\ m_iv s' <> "" /\
          m_settings s' = <[k := sealed v (m_key s') (m_iv s')]> (m_settings s))
  else m_settings s' = <[k := v]> (m_settings s).
Proof.
  cbv zeta. unfold setValue. fold (encrypts k s). destruct (encrypts k s); [|done].
  pose proof (keys_missing_same s) as [E _ _]. pose proof (keys_got s) as Hg.
  destruct (keys_missing s) as [[] s1]; cbn in *; [done|].
  destruct (Hg eq_refl) as [Hk Hi]. unfold encryptText. destruct (have_keys s1 Hk Hi) as [-> ->].
  cbn. by rewrite E.
Qed.

Hypothesis Hv : wf_vault V.

Lemma random_bytes_ok i : String.length (generateRandomBytes i 32) = 32.
Proof.
  unfold generateRandomBytes. rewrite bool_decide_false by done.
  destruct (random_length _ Hv i 32) as (b & -> & Hb). done.
Qed.

(** A change of the keychain that keeps the keys that are there keeps the contents. *)
Lemma decoded_chain c c' v :
  readable c v ->
  (read_tag settingsKeyTag c <> "" -> read_tag settingsKeyTag c' = read_tag settingsKeyTag c) ->
  (read_tag settingsIvTag c <> "" -> read_tag settingsIvTag c' = read_tag settingsIvTag c) ->
  decoded c' v = decoded c v /\ readable c' v.
Proof.
  intros Hr Hk Hi. unfold decoded, readable in *.
  destruct (encrypted_part v) as [e|]; [|done].
  destruct Hr as [Hk' Hi']; [done|]. by rewrite Hk, Hi.
Qed.

Lemma good_chain_change s s' :
  good s -> same_entries s s' -> good_keys (system_keychain s') ->
  (m_key s' = "" \/ m_key s' = read_tag settingsKeyTag (system_keychain s')) ->
  (m_iv s' = "" \/ m_iv s' = read_tag settingsIvTag (system_keychain s')) ->
  (read_tag settingsKeyTag (system_keychain s) <> "" ->
     read_tag settingsKeyTag (system_keychain s') = read_tag settingsKeyTag (system_keychain s)) ->
  (read_tag settingsIvTag (system_keychain s) <> "" ->
     read_tag settingsIvTag (system_keychain s') = read_tag settingsIvTag (system_keychain s)) ->
  good s' /\ contents s' = contents s.
Proof.
  intros [Hc _ _ Hf Hpl Hca] [Ef Ec _] Hg Hk Hi Kk Ki.
  assert (contents s' = contents s) as E.
  { unfold contents. rewrite Ef. apply map_fmap_ext. intros k v Hkv.
    by apply decoded_chain; [apply (Hf k v)|..]. }
  split; [|done]. split; try done.
  - rewrite Ef. intros k v Hkv.
    by apply (decoded_chain (system_keychain s)); [apply (Hf k v)|..].
  - by rewrite Ef.
  - by rewrite E, Ec.
Qed.

Lemma tags_differ : settingsKeyTag <> settingsIvTag.
Proof. done. Qed.

Lemma tags_differ' : settingsIvTag <> settingsKeyTag.
Proof. done. Qed.

Lemma getEncKey_ok s :
  good s ->
  let '(key, s') := getEncKey s in
  good s' /\ contents s' = contents s /\ same_entries s s' /\
  String.length key = 32 /\ key = read_tag settingsKeyTag (system_keychain s') /\
  m_key s' = key /\
  read_tag settingsIvTag (system_keychain s') = read_tag settingsIvTag (system_keychain s).
Proof.
  intros G. pose proof G as [[Hks His] Hk Hi _ _ _]. unfold getEncKey.
  destruct (str_empty (m_key s)) eqn:E1; cbn [negb]; bprop.
  2:{ apply str_empty_false in E1. destruct Hk as [|Hk]; [done|].
      destruct Hks as [Hz|Hks]; [congruence|]. rewrite Hk. split_and!; try done. }
  cbn. destruct (str_empty (read_tag settingsKeyTag _)) eqn:E2; cbn [negb].
  2:{ apply str_empty_false in E2. destruct Hks as [|Hks]; [done|].
      edestruct good_chain_change with (s' := s <| m_key := read_tag settingsKeyTag (system_keychain s) |>)
        as [G' E]; [exact G|by split|exact (good_chain _ G)|by right|exact Hi|done..|].
      split_and!; try done. }
  apply str_empty_true in E2. cbn.
  rewrite (keychain_stores _ Hv), String.eqb_refl. cbn [negb].
  pose proof (random_bytes_ok (random_calls s)) as Hl.
  edestruct good_chain_change with (s := s) (s' := s
     <| random_calls := S (random_calls s) |>
     <| system_keychain := write_tag settingsKeyTag (generateRandomBytes (random_calls s) 32) (system_keychain s) |>
     <| m_key := generateRandomBytes (random_calls s) 32 |>) as [G' E];
    [exact G|by split| | | | | |]; cbn.
  - split; rewrite ?(keychain_stores _ Hv), ?(keychain_others _ Hv _ _ _ _ tags_differ); [by right|done].
  - rewrite (keychain_stores _ Hv). by right.
  - by rewrite (keychain_others _ Hv _ _ _ _ tags_differ).
  - by rewrite E2.
  - by rewrite (keychain_others _ Hv _ _ _ _ tags_differ).
  - split_and!; try done; [by rewrite (keychain_stores _ Hv)|by apply (keychain_others _ Hv), tags_differ].
Qed.
Lemma getEncIv_ok s :
  good s ->
  let '(iv, s') := getEncIv s in
  good s' /\ contents s' = contents s /\ same_entries s s' /\
  String.length iv = 32 /\ iv = read_tag settingsIvTag (system_keychain s') /\
  m_iv s' = iv /\ m_key s' = m_key s /\
  read_tag settingsKeyTag (system_keychain s') = read_tag settingsKeyTag (system_keychain s).
Proof.
  intros G. pose proof G as [[His Hks] Hi Hk _ _ _]. unfold getEncIv.
  destruct (str_empty (m_iv s)) eqn:E1; cbn [negb]; bprop.
  2:{ apply str_empty_false in E1. destruct Hk as [|Hk]; [done|].
      destruct Hks as [Hz|Hks]; [congruence|]. rewrite Hk. split_and!; try done. }
  cbn. destruct (str_empty (read_tag settingsIvTag _)) eqn:E2; cbn [negb].
  2:{ apply str_empty_false in E2. destruct Hks as [|Hks]; [done|].
      edestruct good_chain_change with (s' := s <| m_iv := read_tag settingsIvTag (system_keychain s) |>)
        as [G' E]; [exact G|by split|exact (good_chain _ G)|exact Hi|by right|done..|].
      split_and!; try done. }
  apply str_empty_true in E2. cbn.
  rewrite (keychain_stores _ Hv), String.eqb_refl. cbn [negb].
  pose proof (random_bytes_ok (random_calls s)) as Hl.
  edestruct good_chain_change with (s := s) (s' := s
     <| random_calls := S (random_calls s) |>
     <| system_keychain := write_tag settingsIvTag (generateRandomBytes (random_calls s) 32) (system_keychain s) |>
     <| m_iv := generateRandomBytes (random_calls s) 32 |>) as [G' E];
    [exact G|by split| | | | | |]; cbn.
  - split; rewrite ?(keychain_stores _ Hv), ?(keychain_others _ Hv _ _ _ _ tags_differ'); [done|by right].
  - by rewrite (keychain_others _ Hv _ _ _ _ tags_differ').
  - rewrite (keychain_stores _ Hv). by right.
  - by rewrite (keychain_others _ Hv _ _ _ _ tags_differ').
  - by rewrite E2.
  - split_and!; try done; [by rewrite (keychain_stores _ Hv)|by apply (keychain_others _ Hv), tags_differ'].
Qed.

(** Both keys, as [value] and [setValue] ask for them; the state then has them. *)
Definition keyed (s : SecureQSettings) : Prop :=
  String.length (m_key s) = 32 /\ m_key s = read_tag settingsKeyTag (system_keychain s) /\
  String.length (m_iv s) = 32 /\ m_iv s = read_tag settingsIvTag (system_keychain s).

Lemma keys_missing_ok s :
  good s ->
  let '(missing, s') := keys_missing s in
  missing = false /\ good s' /\ contents s' = contents s /\ same_entries s s' /\ keyed s'.
Proof.
  intros G. unfold keys_missing, keyed. pose proof (getEncKey_ok s G) as HK.
  destruct (getEncKey s) as [k s1]. destruct HK as (G1 & E1 & S1 & L1 & K1 & M1 & _).
  assert (str_empty k = false) as -> by (by destruct k).
  pose proof (getEncIv_ok s1 G1) as HI.
  destruct (getEncIv s1) as [iv s2]. destruct HI as (G2 & E2 & S2 & L2 & I2 & M2 & N2 & R2).
  assert (str_empty iv = false) as -> by (by destruct iv).
  split_and!; try done; [congruence|by etrans|congruence..].
Qed.

Lemma nonempty_length (t : string) n : String.length t = S n -> str_empty t = false.
Proof. by destruct t. Qed.

Lemma keyed_keys s : keyed s -> getEncKey s = (m_key s, s) /\ getEncIv s = (m_iv s, s).
Proof.
  intros (Lk & _ & Li & _). unfold getEncKey, getEncIv.
  by rewrite (nonempty_length _ _ Lk), (nonempty_length _ _ Li).
Qed.

Lemma encryptText_ok d s :
  keyed s ->
  exists e, encryptText d s = (e, s) /\
    decryptAes256Cbc e (read_tag settingsKeyTag (system_keychain s))
      (read_tag settingsIvTag (system_keychain s)) = d.
Proof.
  intros Hs. destruct (keyed_keys s Hs) as [EK EI]. destruct Hs as (Lk & Ek & Li & Ei).
  unfold encryptText, encryptAes256Cbc, decryptAes256Cbc, kAesKeySize, kAesIvSize.
  rewrite EK, EI, <- Ek, <- Ei, Lk, Li. cbn.
  destruct (cipher_inverse _ Hv d (m_key s) (m_iv s)) as (c & -> & Hc). cbn.
  exists c. by rewrite Hc.
Qed.

Lemma decryptText_ok e s :
  keyed s ->
  decryptText e s = (decryptAes256Cbc e (read_tag settingsKeyTag (system_keychain s))
      (read_tag settingsIvTag (system_keychain s)), s).
Proof.
  intros Hs. unfold decryptText. destruct (keyed_keys s Hs) as [-> ->].
  destruct Hs as (_ & <- & _ & <-). done.
Qed.

(** ** The operations *)

Lemma good_insert_cache k v s :
  good s -> contents s !! k = Some v -> good (cache_insert k v s).
Proof.
  intros [? ? ? ? ? Hc] Hk. split; try done.
  change (<[k := v]> (m_cache s) ⊆ contents s). by apply insert_subseteq_l.
Qed.

Lemma value_ok k d s :
  good s ->
  let '(v, s') := value k d s in
  v = default d (contents s !! k) /\ good s' /\ contents s' = contents s /\
  m_settings s' = m_settings s /\ m_encryptionEnabled s' = m_encryptionEnabled s.
Proof.
  intros G. unfold value. destruct (m_cache s !! k) as [v|] eqn:Ec.
  { cbv iota beta. by rewrite (lookup_weaken _ _ _ _ Ec (good_cache _ G)). }
  destruct (m_settings s !! k) as [w|] eqn:Ef.
  2:{ unfold contents. cbv iota beta. by rewrite lookup_fmap, Ef. }
  assert (contents s !! k = Some (decoded (system_keychain s) w)) as Hk
    by (unfold contents; by rewrite lookup_fmap, Ef).
  destruct (encrypted_part w) as [e|] eqn:Ew.
  2:{ cbv iota beta. rewrite Hk. unfold decoded in *. rewrite Ew in *.
      split_and!; try done. by apply good_insert_cache. }
  pose proof (keys_missing_ok s G) as HK. destruct (keys_missing s) as [b s1].
  destruct HK as (-> & G1 & E1 & [Ef1 _ Ee1] & K1). cbv iota beta.
  rewrite (decryptText_ok e s1 K1). cbv iota beta. rewrite <- E1.
  assert (contents s1 !! k = Some (decoded (system_keychain s1) w)) as Hk1
    by (unfold contents; by rewrite lookup_fmap, Ef1, Ef).
  rewrite Hk1. unfold decoded in Hk1 |- *. rewrite Ew in Hk1 |- *.
  split_and!; try done. by apply good_insert_cache.
Qed.

Lemma good_store k v w s :
  good s -> readable (system_keychain s) w -> decoded (system_keychain s) w = v ->
  (k ∉ encryptedKeys -> encrypted_part w = None) ->
  good (cache_insert k v (store k w s)) /\
  contents (cache_insert k v (store k w s)) = <[k := v]> (contents s).
Proof.
  intros [Hc Hk Hi Hf Hpl Hca] Hr Hd Hw.
  assert (contents (cache_insert k v (store k w s)) = <[k := v]> (contents s)) as E.
  { unfold contents. cbn. by rewrite fmap_insert, Hd. }
  split; [|done]. split; try done.
  - by apply map_Forall_insert_2.
  - by apply map_Forall_insert_2.
  - rewrite E. change (<[k := v]> (m_cache s) ⊆ <[k := v]> (contents s)). by apply insert_mono.
Qed.

Lemma setValue_ok k v s :
  good s -> encrypts k s = true \/ encrypted_part v = None ->
  good (setValue k v s) /\ contents (setValue k v s) = <[k := v]> (contents s) /\
  m_encryptionEnabled (setValue k v s) = m_encryptionEnabled s.
Proof.
  intros G Hp. unfold setValue. fold (encrypts k s). destruct (encrypts k s) eqn:Ek.
  - pose proof (keys_missing_ok s G) as HK. destruct (keys_missing s) as [b s1].
    destruct HK as (-> & G1 & E1 & S1 & K1).
    destruct (encryptText_ok (write_stream v) s1 K1) as (e & -> & Hd).
    rewrite <- (same_enabled _ _ S1), <- E1.
    assert (encrypted_part (VBytes (magicString +:+ e)) = Some e) as He.
    { unfold encrypted_part, starts_with. by rewrite prefix_app, str_drop_app. }
    destruct (good_store k v (VBytes (magicString +:+ e)) s1 G1) as [G2 E2].
    + intros _. destruct K1 as (Lk & <- & Li & <-). split; by intros Hz; rewrite Hz in *.
    + unfold decoded. rewrite He, Hd. apply (stream_inverse _ Hv).
    + unfold encrypts in Ek. bprop. done.
    + done.
  - destruct Hp as [|Hp]; [done|].
    destruct (good_store k v v s G) as [G2 E2]; [unfold readable; by rewrite Hp|unfold decoded; by rewrite Hp|done|done].
Qed.

Lemma remove_ok k s :
  good s -> (forall k', starts_with (k +:+ "/") k' = true -> contents s !! k' = None) ->
  good (remove k s) /\ contents (remove k s) = delete k (contents s) /\
  m_encryptionEnabled (remove k s) = m_encryptionEnabled s.
Proof.
  intros G Hb.
  assert (filter (fun kv => below k kv.1 = false) (m_settings s) = delete k (m_settings s)) as Ef.
  { apply map_eq. intros k'. rewrite map_lookup_filter. unfold below.
    destruct (decide (k = k')) as [<-|Hne].
    - rewrite lookup_delete_eq. destruct (m_settings s !! k); cbn; [|done].
      rewrite option_guard_False; [done|]. cbn. by rewrite String.eqb_refl.
    - rewrite lookup_delete_ne by done. specialize (Hb k'). unfold contents in Hb.
      rewrite lookup_fmap, fmap_None in Hb.
      destruct (m_settings s !! k'); cbn; [|done].
      destruct (starts_with (k +:+ "/") k') eqn:Es; [by specialize (Hb eq_refl)|].
      rewrite option_guard_True; [done|]. apply orb_false_iff. split; [|done].
      apply String.eqb_neq. congruence. }
  destruct G as [Hc Hk Hi Hf Hpl Hca].
  assert (contents (remove k s) = delete k (contents s)) as E.
  { unfold contents, remove. cbn. by rewrite Ef, fmap_delete. }
  split_and!; [|done|done]. split; try done.
  - unfold remove. cbn. rewrite Ef. by apply map_Forall_delete.
  - unfold remove. cbn. rewrite Ef. by apply map_Forall_delete.
  - rewrite E. change (delete k (m_cache s) ⊆ delete k (contents s)). by apply delete_mono.
Qed.

Lemma clear_ok s : good s -> good (clearSettings s) /\ contents (clearSettings s) = ∅.
Proof. intros []. split; [split|]; done. Qed.
End Facts.
