(* ===== verification/SecureSettingsTheorems.v ===== *)
(** * The settings file: theorems

    The settings behave as a map from keys to the values written last, also across restarts;
    secrets do not reach the file in clear; a backup carries the settings over. *)

From S2P Require Import Prelude Json SplitTunneling SecureSettings SecureSettingsFacts.

Section Runs.
Context `{V : Vault} `{JsonText}.

Inductive settings_event :=
  | Read (key : string) (defaultValue : variant)
  | Set_ (key : string) (v : variant)
  | Remove_ (key : string)
  | Clear
  | Restore (text : string)
  | Restart.

(** The answer of a reading, and the state after the event. *)
Definition settings_step (e : settings_event) (s : SecureQSettings)
    : option variant * SecureQSettings :=
  match e with
  | Read key d => let '(v, s) := value key d s in (Some v, s)
  | Set_ key v => (None, setValue key v s)
  | Remove_ key => (None, remove key s)
  | Clear => (None, clearSettings s)
  | Restore text => (None, (restoreAppConfig text s).2)
  | Restart => (None, restart s)
  end.

Fixpoint settings_run (es : list settings_event) (s : SecureQSettings)
    : list (option variant) * SecureQSettings :=
  match es with
  | [] => ([], s)
  | e :: es =>
      let '(a, s) := settings_step e s in
      let '(l, s) := settings_run es s in (a :: l, s)
  end.

(** What a start makes of the entries: it marks the file as converted once. *)
Definition map_start (encrypts : bool) (m : gmap string variant) : gmap string variant :=
  if encrypts && negb (toBool (default VNull (m !! "Conf/encrypted")))
  then <["Conf/encrypted" := VBool true]> m else m.

(** The specification: a map, which a restart leaves alone. *)
Definition map_step (e : settings_event) (m : gmap string variant)
    : option variant * gmap string variant :=
  match e with
  | Read key d => (Some (default d (m !! key)), m)
  | Set_ key v => (None, <[key := v]> m)
  | Remove_ key => (None, delete key m)
  | Clear => (None, ∅)
  | Restore text => (None, map_restore (doc_object (json_parse text)) m)
  | Restart => (None, m)
  end.

Fixpoint map_run (es : list settings_event) (m : gmap string variant) : list (option variant) :=
  match es with
  | [] => []
  | e :: es => let '(a, m) := map_step e m in a :: map_run es m
  end.

(** The mark of the conversion is the object's own entry. *)
Definition mark : string := "Conf/encrypted".

(** No byte array that is written begins with the magic word, an entry that is removed has no
    entries below it, and nobody asks for the mark. *)
Definition event_ok (e : settings_event) (m : gmap string variant) : Prop :=
  match e with
  | Read key _ => key <> mark
  | Set_ _ v => unmarked v = true
  | Remove_ key => forall k, starts_with (key +:+ "/") k = true -> k <> mark /\ m !! k = None
  | _ => True
  end.

Fixpoint events_allowed (es : list settings_event) (m : gmap string variant) : Prop :=
  match es with
  | [] => True
  | e :: es => event_ok e m /\ events_allowed es (map_step e m).2
  end.

(** The answer [a] where [b] was written: [b] itself, or what the file gives back for it, which
    is the same text, byte array or map, and of a flag or a number a value of the same text. *)
Record answers (a b : variant) : Prop := {
  a_value : a = b \/ a = reread b;
  a_text : scalar b = true -> variant_text a = variant_text b;
  a_flag : forall x, b = VBool x -> toBool a = x;
  a_exact : match b with VStr _ | VBytes _ | VMap _ => a = b | _ => True end
}.

#[export] Instance answers_refl : Reflexive answers.
Proof. intros v. split; [by left|done|by intros ? ->|by destruct v]. Qed.

Definition encrypting (s : SecureQSettings) : bool := encryptionRequired s.

Lemma encrypting_enabled s s' :
  m_encryptionEnabled s' = m_encryptionEnabled s -> encrypting s' = encrypting s.
Proof. unfold encrypting, encryptionRequired. by intros ->. Qed.

(** Folds of operations that keep an invariant keep it. *)
Lemma fold_left_inv {A B} (P : A -> Prop) (f : A -> B -> A) (l : list B) a :
  P a -> (forall a b, P a -> P (f a b)) -> P (fold_left f l a).
Proof. revert a. induction l as [|b l IH]; intros a Ha Hf; cbn; auto. Qed.

Section Laws.
Hypothesis Hv : wf_vault V.

Definition fresh_object (s : SecureQSettings) : SecureQSettings :=
  mkSecure (m_settings s) ∅ "" "" (m_encryptionEnabled s) (system_keychain s) (random_calls s).

Lemma fresh_good s : good s -> good (fresh_object s).
Proof. intros []. split; try done; [by left|by left|apply map_empty_subseteq]. Qed.

(** The conversion of one entry leaves what the file holds as it is. *)
Lemma convert_ok key s w :
  good s -> encrypting s = true -> key ∈ encryptedKeys -> contents s !! key = Some w ->
  let s' := let '(val, s) := value key VNull s in setValue key val s in
  good s' /\ contents s' = contents s /\ encrypting s' = true /\
  m_cache s' !! "Conf/encrypted" = m_cache s !! "Conf/encrypted".
Proof.
  intros G He Hk Hw. pose proof (value_ok Hv key VNull s G) as Hval.
  pose proof (value_frame key VNull s) as (_ & _ & Hc).
  destruct (value key VNull s) as [v s1]. cbn in Hc.
  destruct Hval as (-> & G1 & E1 & _ & Ee). rewrite Hw. cbn [default from_option id]. cbv beta iota zeta.
  apply encrypting_enabled in Ee. rewrite He in Ee.
  destruct (setValue_ok Hv key w s1 G1) as (G2 & E2 & Ee2).
  { left. unfold encrypts. unfold encrypting in Ee. rewrite Ee. by rewrite bool_decide_true. }
  pose proof (setValue_frame key w s1) as (_ & Hc2).
  assert ("Conf/encrypted" <> key) as Hne.
  { intros <-. unfold encryptedKeys in Hk. set_solver. }
  split_and!; [done| |by rewrite (encrypting_enabled _ _ Ee2)|].
  - rewrite E2, E1. by apply insert_id.
  - destruct (Hc2 _ Hne) as [-> _]. by apply Hc.
Qed.

Lemma convert_all_ok keys s :
  good s -> encrypting s = true -> (forall k, k ∈ keys -> is_Some (contents s !! k)) ->
  let s' := fold_left (fun s key =>
        if bool_decide (key ∈ encryptedKeys) then
          let '(val, s) := value key VNull s in setValue key val s
        else s) keys s in
  good s' /\ contents s' = contents s /\ encrypting s' = true /\
  m_cache s' !! "Conf/encrypted" = m_cache s !! "Conf/encrypted".
Proof.
  revert s. induction keys as [|k keys IH]; intros s G He Hk; [done|]. cbn [fold_left].
  destruct (bool_decide (k ∈ encryptedKeys)) eqn:Ek.
  - bprop. destruct (Hk k) as [w Hw]; [set_solver|].
    destruct (convert_ok k s w G He Ek Hw) as (G1 & E1 & He1 & Hc1).
    destruct (IH _ G1 He1) as (G2 & E2 & He2 & Hc2).
    { intros k' Hk'. rewrite E1. apply Hk. set_solver. }
    split_and!; [done|by rewrite E2|done|by rewrite Hc2].
  - apply IH; [done..|]. set_solver.
Qed.

Lemma answers_reread a b : answers a b -> answers (reread a) b.
Proof.
  intros [Ha _ _ _].
  assert (reread a = reread b) as -> by (destruct Ha as [->| ->]; [done|apply (reread_again _ Hv)]).
  split; [by right|apply (reread_scalar _ Hv)|intros x ->; apply (reread_flag _ Hv)|].
  destruct b; try done; [apply (reread_text _ Hv)|apply (reread_map _ Hv)|apply (reread_bytes _ Hv)].
Qed.

(** The file as it is opened again. *)
Definition reopened (s : SecureQSettings) : SecureQSettings :=
  (fresh_object s) <| m_settings := reread <$> m_settings s |>.

(** The entries that are not encrypted hold no marked byte array. *)
Definition clear_entries (file : gmap string variant) : Prop :=
  map_Forall (fun _ v => encrypted_part v = None -> unmarked v = true) file.

Lemma reread_encrypted v e : encrypted_part v = Some e -> reread v = v.
Proof. destruct v; try done. intros _. apply (reread_bytes _ Hv). Qed.

Lemma reread_clear v :
  (encrypted_part v = None -> unmarked v = true) ->
  encrypted_part (reread v) = encrypted_part v /\ (encrypted_part v = None -> unmarked (reread v) = true).
Proof.
  intros Hc. destruct (encrypted_part v) as [e|] eqn:E.
  - by rewrite (reread_encrypted v e E), E.
  - assert (unmarked (reread v) = true) as Hu by (by apply (reread_unmarked _ Hv), Hc).
    split; [by apply unmarked_plain|done].
Qed.

Lemma reopened_good s :
  good s -> clear_entries (m_settings s) ->
  good (reopened s) /\ clear_entries (m_settings (reopened s)) /\
  forall k, contents (reopened s) !! k = contents s !! k \/
            contents (reopened s) !! k = reread <$> contents s !! k.
Proof.
  intros [Hc _ _ Hf Hp _] Hcl. unfold reopened.
  split_and!.
  - split; try done; [by left|by left|..|apply map_empty_subseteq]; cbn;
      intros k v (w & <- & Hw)%lookup_fmap_Some;
      destruct (reread_clear w (Hcl _ _ Hw)) as [E _]; unfold readable; rewrite E; [by apply (Hf k)|by apply (Hp k)].
  - cbn. intros k v (w & <- & Hw)%lookup_fmap_Some.
    destruct (reread_clear w (Hcl _ _ Hw)) as [E Hu]. by rewrite E.
  - intros k. unfold contents. cbn. rewrite !lookup_fmap. destruct (m_settings s !! k) as [w|] eqn:E; [|by left].
    cbn. unfold decoded. destruct (reread_clear w (Hcl _ _ E)) as [-> _].
    destruct (encrypted_part w); [by left|by right].
Qed.

(** A new object for a file. *)
Lemma start_ok s :
  good s ->
  let s' := new_settings (m_settings s) (system_keychain s) (random_calls s) (m_encryptionEnabled s) in
  good s' /\ contents s' = map_start (encrypting s) (contents s) /\ encrypting s' = encrypting s.
Proof.
  intros G. apply fresh_good in G as G0. cbv zeta. unfold new_settings.
  fold (fresh_object s). change (encryptionRequired (fresh_object s)) with (encrypting s).
  destruct G as [_ _ _ _ Hp _].
  assert (forall d, default d (m_settings s !! "Conf/encrypted")
                    = default d (contents s !! "Conf/encrypted")) as Hce.
  { intros d. unfold contents. rewrite lookup_fmap.
    destruct (m_settings s !! "Conf/encrypted") as [w|] eqn:E; [|done]. cbn. unfold decoded.
    rewrite (Hp _ _ E); [done|]. unfold encryptedKeys. set_solver. }
  unfold map_start. rewrite Hce.
  destruct (encrypting s && negb (toBool _)) eqn:E; [|done].
  apply andb_true_iff in E as [He _].
  destruct (convert_all_ok (allKeys (fresh_object s)) (fresh_object s) G0 He)
    as (G1 & E1 & He1 & Hc1).
  { intros k Hk. unfold allKeys in Hk. apply list_elem_of_fmap in Hk as ([k' v] & -> & Hk).
    apply elem_of_map_to_list in Hk. unfold contents. cbn [fst]. rewrite lookup_fmap, Hk. by eexists. }
  change (contents (fresh_object s)) with (contents s) in E1.
  set (s1 := fold_left _ _ _) in *. split_and!; [|by rewrite <- E1; unfold contents; cbn; rewrite fmap_insert|by rewrite He].
  destruct G1 as [? ? ? Hf Hp1 Hca]. split; try done; cbn.
  - by apply map_Forall_insert_2.
  - by apply map_Forall_insert_2.
  - unfold contents. cbn. rewrite fmap_insert. apply insert_subseteq_r; [done|]. exact Hca.
Qed.

(** *** The clear entries *)

Lemma setValue_clear k v s :
  clear_entries (m_settings s) -> encrypts k s = true \/ unmarked v = true ->
  clear_entries (m_settings (setValue k v s)).
Proof.
  intros Hc Hk. pose proof (setValue_file k v s) as E. cbv zeta in E. destruct (encrypts k s).
  - destruct (keys_missing s).1; [by rewrite E|]. destruct E as (_ & _ & ->).
    apply map_Forall_insert_2; [|done].
    unfold sealed, encrypted_part, starts_with. by rewrite prefix_app.
  - destruct Hk as [|Hu]; [done|]. rewrite E. by apply map_Forall_insert_2.
Qed.

Lemma start_clear file c n b :
  clear_entries file -> clear_entries (m_settings (new_settings file c n b)).
Proof.
  intros Hc. unfold new_settings. set (s := mkSecure _ _ _ _ _ _ _).
  destruct (encryptionRequired s && _) eqn:Er; [|done]. apply andb_true_iff in Er as [Er _].
  match goal with |- context [fold_left ?f ?l s] => assert
    ((fun s => encrypting s = true /\ clear_entries (m_settings s)) (fold_left f l s)) as [_ H2] end.
  { apply fold_left_inv; [done|]. intros s' k [H1 H2].
    destruct (bool_decide (k ∈ encryptedKeys)) eqn:Ek; [|done].
    destruct (value_frame k VNull s') as (Ef & Ee & _). destruct (value k VNull s') as [v s1]. cbn in *.
    apply encrypting_enabled in Ee. rewrite H1 in Ee. rewrite <- Ef in H2.
    destruct (setValue_frame k v s1) as [E2 _]. split; [by rewrite (encrypting_enabled _ _ E2)|].
    apply setValue_clear; [done|]. left. unfold encrypts. unfold encrypting in Ee. by rewrite Ee, Ek. }
  cbn. by apply map_Forall_insert_2.
Qed.

Lemma restore_clear text s :
  clear_entries (m_settings s) -> clear_entries (m_settings (restoreAppConfig text s).2).
Proof.
  intros Hc. unfold restoreAppConfig. destruct (bool_decide _); [done|]. cbn [snd].
  apply (fold_left_inv (fun s => clear_entries (m_settings s))); [done|]. intros s' k Hs.
  destruct (String.eqb _ _); [done|]. apply setValue_clear; [done|]. right. apply to_variant_unmarked.
Qed.

Lemma step_clear e s m :
  event_ok e m -> clear_entries (m_settings s) -> clear_entries (m_settings (settings_step e s).2).
Proof.
  intros Ho Hc. destruct e as [k d|k v|k| |text|]; cbn [settings_step snd event_ok] in *.
  - destruct (value_frame k d s) as (Ef & _). destruct (value k d s). cbn in *. by rewrite Ef.
  - apply setValue_clear; [done|by right].
  - intros k' v Hk. cbn in Hk. apply map_lookup_filter_Some in Hk as [Hk _]. by apply (Hc k').
  - cbn. apply map_Forall_empty.
  - by apply restore_clear.
  - apply start_clear. intros k v (w & <- & Hw)%lookup_fmap_Some.
    destruct (reread_clear w (Hc _ _ Hw)) as [E Hu]. by rewrite E.
Qed.

Lemma restore_fold_ok cfg keys s :
  good s ->
  let s' := fold_left (fun s key =>
         if String.eqb key "Conf/installationUuid" then s
         else setValue key (to_variant (default JNull (ofind key cfg))) s) keys s in
  good s' /\ encrypting s' = encrypting s /\
  contents s' = fold_left (fun m key =>
    if String.eqb key "Conf/installationUuid" then m
    else <[key := to_variant (default JNull (ofind key cfg))]> m) keys (contents s).
Proof.
  revert s. induction keys as [|k keys IH]; intros s G; [done|]. cbn [fold_left].
  destruct (String.eqb k _); [by apply IH|].
  destruct (setValue_ok Hv k (to_variant (default JNull (ofind k cfg))) s G) as (G1 & E1 & Ee).
  { right. apply unmarked_plain, to_variant_unmarked. }
  destruct (IH _ G1) as (G2 & He & E2). rewrite E1 in E2.
  split_and!; [done|by rewrite He, (encrypting_enabled _ _ Ee)|done].
Qed.

Lemma restore_ok text s :
  good s ->
  let s' := (restoreAppConfig text s).2 in
  good s' /\ encrypting s' = encrypting s /\
  contents s' = map_restore (doc_object (json_parse text)) (contents s).
Proof.
  intros G. unfold restoreAppConfig, map_restore. destruct (bool_decide _) eqn:E.
  - bprop. by rewrite E.
  - by apply restore_fold_ok.
Qed.

(** *** The map *)

Section Relation.
Variable R : variant -> variant -> Prop.
Context `{!Reflexive R}.

Definition agrees (s : SecureQSettings) (m : gmap string variant) : Prop :=
  forall k, k <> mark -> option_Forall2 R (contents s !! k) (m !! k).

Lemma agrees_same s s' m : contents s' = contents s -> agrees s m -> agrees s' m.
Proof. unfold agrees. by intros ->. Qed.

Lemma agrees_insert s s' m k v :
  contents s' = <[k := v]> (contents s) -> agrees s m -> agrees s' (<[k := v]> m).
Proof.
  intros E Ha k' Hk. rewrite E. destruct (decide (k = k')) as [->|Hne].
  - rewrite !lookup_insert_eq. by constructor.
  - rewrite !lookup_insert_ne by done. by apply Ha.
Qed.

Lemma agrees_restore cfg s s' m :
  contents s' = map_restore cfg (contents s) -> agrees s m -> agrees s' (map_restore cfg m).
Proof.
  intros E Ha k Hk. rewrite E, !map_restore_lookup. destruct (String.eqb _ _); [by apply Ha|].
  destruct (ofind k cfg); [by constructor|by apply Ha].
Qed.

(** Opening the file again: the entries come back as they are or as the file gives them. *)
Lemma agrees_restart s m :
  (forall a b, R a b -> R (reread a) b) -> good s -> clear_entries (m_settings s) -> agrees s m ->
  good (restart s) /\ agrees (restart s) m.
Proof.
  intros HR G Hc Ha. destruct (reopened_good s G Hc) as (G' & Hc' & E).
  destruct (start_ok (reopened s) G') as (G2 & E2 & _). cbv zeta in *. cbn in G2, E2.
  fold (restart s) in G2, E2. split; [exact G2|]. intros k Hk. specialize (Ha k Hk).
  assert (option_Forall2 R (contents (reopened s) !! k) (m !! k)) as Ha'.
  { destruct (E k) as [->| ->]; [done|]. destruct Ha; constructor. by apply HR. }
  rewrite E2. unfold map_start. destruct (_ && _); [|done]. by rewrite lookup_insert_ne.
Qed.

(** One event of the file and of the map. *)
Lemma step_ok e s m :
  (e = Restart -> forall a b, R a b -> R (reread a) b) ->
  good s -> clear_entries (m_settings s) -> agrees s m -> event_ok e m ->
  let '(a, s') := settings_step e s in
  option_Forall2 R a (map_step e m).1 /\ good s' /\ agrees s' (map_step e m).2.
Proof.
  intros HR G Hc Ha Ho. destruct e as [k d|k v|k| |text|]; cbn [settings_step map_step fst snd event_ok] in *.
  - pose proof (value_ok Hv k d s G) as Hval. destruct (value k d s) as [v s'].
    destruct Hval as (-> & G' & E & _). split_and!; [|done|by eapply agrees_same].
    constructor. by destruct (Ha k Ho); cbn.
  - destruct (setValue_ok Hv k v s G) as (G' & E & _); [right; by apply unmarked_plain|].
    split_and!; [constructor|done|by eapply agrees_insert].
  - destruct (remove_ok k s G) as (G' & E & _).
    { intros k' Hk'. destruct (Ho k' Hk') as [Hm Hn]. specialize (Ha k' Hm). rewrite Hn in Ha. by inversion Ha. }
    split_and!; [constructor|done|]. intros k' Hk'. rewrite E. destruct (decide (k = k')) as [->|Hne].
    + rewrite !lookup_delete_eq. constructor.
    + rewrite !lookup_delete_ne by done. by apply Ha.
  - destruct (clear_ok s G) as [G' E]. split_and!; [constructor|done|]. intros k _. rewrite E. constructor.
  - destruct (restore_ok text s G) as (G' & _ & E). split_and!; [constructor|done|by eapply agrees_restore].
  - destruct (agrees_restart s m (HR eq_refl) G Hc Ha). split_and!; [constructor|done..].
Qed.

Lemma run_ok es s m :
  (Restart ∈ es -> forall a b, R a b -> R (reread a) b) ->
  good s -> clear_entries (m_settings s) -> agrees s m -> events_allowed es m ->
  Forall2 (option_Forall2 R) (settings_run es s).1 (map_run es m).
Proof.
  revert s m. induction es as [|e es IH]; intros s m HR G Hc Ha Ho; [constructor|]. destruct Ho as [Ho Hos].
  cbn [settings_run map_run]. pose proof (step_clear e s m Ho Hc) as Hc1.
  assert (e = Restart -> forall a b, R a b -> R (reread a) b) as HR1 by (intros ->; apply HR; set_solver).
  pose proof (step_ok e s m HR1 G Hc Ha Ho) as Hs.
  destruct (settings_step e s) as [a s1]. destruct Hs as (Hx & G1 & H1). cbn [snd] in Hc1.
  assert (Restart ∈ es -> forall a b, R a b -> R (reread a) b) as HR2 by (intros Hin; apply HR; set_solver).
  specialize (IH s1 _ HR2 G1 Hc1 H1 Hos).
  destruct (map_step e m) as [b m']. destruct (settings_run es s1) as [l s2]. by constructor.
Qed.
End Relation.
End Laws.

(** A file the keychain can read: the secrets are encrypted with its keys or in clear, nothing
    else begins with the magic word. *)
Definition wf_file (c : keychain) (file : gmap string variant) : Prop :=
  good_keys c /\ clear_entries file /\
  map_Forall (fun k v => readable c v /\ (k ∉ encryptedKeys -> encrypted_part v = None)) file.

Lemma file_good c file n b : wf_file c file -> good (mkSecure file ∅ "" "" b c n).
Proof.
  intros (Hc & _ & Hf).
  split; try done; [by left|by left|..|apply map_empty_subseteq]; intros k v Hkv; by apply (Hf k v).
Qed.

Lemma option_eq_Forall2 {A} (a b : list (option A)) : Forall2 (option_Forall2 eq) a b -> a = b.
Proof. induction 1 as [|x y l l' Hxy _ IH]; [done|]. subst. by destruct Hxy; subst. Qed.

(** C7: The settings are a map.  For every sequence of readings, writings, removals, clearings,
    restores and restarts of the application, each reading answers the value written last, or the
    default: the cache, the encryption and the conversion of an older file are not seen.  Until
    the first restart the answer is exactly that value; after one it is the value or what the
    file format gives back for it - a text, a byte array and a map unchanged, a flag or a number
    perhaps as its text.  This is for a keychain that keeps its keys, a generator that yields
    bytes and a cipher that inverts ([wf_vault]), for values without a byte array that begins with the
    magic word, for removals of entries without entries below them, and for all entries but the
    mark of the conversion. *)
Theorem settings_refine_map file c n enableEncryption es :
  wf_vault V -> wf_file c file -> events_allowed es (decoded c <$> file) ->
  let got := (settings_run es (new_settings file c n enableEncryption)).1 in
  let expected := map_run es (decoded c <$> file) in
  Forall2 (option_Forall2 answers) got expected /\ (Restart ∉ es -> got = expected).
Proof.
  intros Hv Hf Ho. cbv zeta. pose proof (file_good c file n enableEncryption Hf) as G.
  destruct (start_ok Hv _ G) as (G' & E & _). cbn in G', E. destruct Hf as (_ & Hc & _).
  pose proof (start_clear file c n enableEncryption Hc) as Hc'.
  assert (forall R, Reflexive R -> agrees R (new_settings file c n enableEncryption) (decoded c <$> file)) as Ha.
  { intros R HR k Hk. rewrite E. unfold map_start. change (contents (mkSecure file _ _ _ _ c _)) with (decoded c <$> file).
    destruct (_ && _); rewrite ?lookup_insert_ne by done; destruct ((decoded c <$> file) !! k); by constructor. }
  split.
  - apply run_ok; [done|apply _| |done..|apply Ha, _|done]. intros _. apply answers_reread. done.
  - intros Hn. apply option_eq_Forall2.
    apply run_ok; [done|apply _|done|done..|apply Ha, _|done].
Qed.

(** ** Secrets *)

(** The entries of the secrets are ciphertexts, made with keys that are there. *)
Definition hidden (file : gmap string variant) : Prop :=
  forall k v, k ∈ encryptedKeys -> file !! k = Some v ->
    exists x key iv, key <> "" /\ iv <> "" /\ v = sealed x key iv.

Lemma hidden_reread file :
  (forall b, reread (VBytes b) = VBytes b) -> hidden file -> hidden (reread <$> file).
Proof.
  intros Hr Hh k v Hk (w & <- & Hw)%lookup_fmap_Some.
  destruct (Hh k w Hk Hw) as (x & key & iv & H1 & H2 & ->). exists x, key, iv.
  split_and!; [done..|]. apply Hr.
Qed.

Lemma setValue_hidden k v s :
  encrypting s = true -> hidden (m_settings s) -> hidden (m_settings (setValue k v s)).
Proof.
  intros He Hh k' w Hk Hw. destruct (decide (k' = k)) as [->|Hne].
  2:{ destruct (setValue_frame k v s) as [_ Hf]. destruct (Hf k' Hne) as [_ Hf'].
      rewrite Hf' in Hw. by apply (Hh k'). }
  pose proof (setValue_file k v s) as E. cbv zeta in E.
  assert (encrypts k s = true) as Ek by (unfold encrypts; unfold encrypting in He; by rewrite He, bool_decide_true).
  rewrite Ek in E. destruct (keys_missing s).1; [rewrite E in Hw; by apply (Hh k)|].
  destruct E as (H1 & H2 & E). rewrite E in Hw.
  rewrite lookup_insert_eq in Hw. injection Hw as <-. exists v, (m_key (setValue k v s)), (m_iv (setValue k v s)). done.
Qed.

Lemma value_setValue_hidden k s :
  encrypting s = true -> hidden (m_settings s) ->
  let s' := let '(val, s) := value k VNull s in setValue k val s in
  encrypting s' = true /\ hidden (m_settings s').
Proof.
  intros He Hh. destruct (value_frame k VNull s) as (Ef & Ee & _).
  destruct (value k VNull s) as [v s1]. cbn in *.
  apply encrypting_enabled in Ee. rewrite He in Ee. rewrite <- Ef in Hh.
  split; [|by apply setValue_hidden].
  destruct (setValue_frame k v s1) as [E2 _]. by rewrite (encrypting_enabled _ _ E2).
Qed.

Lemma new_settings_hidden file c n :
  linux_desktop = false -> hidden file ->
  encrypting (new_settings file c n true) = true /\ hidden (m_settings (new_settings file c n true)).
Proof.
  intros Hl Hh. unfold new_settings.
  set (s := mkSecure _ _ _ _ _ _ _).
  assert (encrypting s = true) as He.
  { unfold encrypting, encryptionRequired. cbn. by rewrite Hl. }
  destruct (_ && _); [|done].
  match goal with |- context [fold_left ?f ?l s] => assert
    ((fun s => encrypting s = true /\ hidden (m_settings s)) (fold_left f l s)) as [H1 H2] end.
  { apply fold_left_inv; [done|]. intros s' k [H1 H2].
    destruct (bool_decide _); [by apply value_setValue_hidden|done]. }
  split; [done|]. intros k v Hk. cbn. rewrite lookup_insert_ne; [by apply H2|].
  intros <-. unfold encryptedKeys in Hk. set_solver.
Qed.

Lemma step_hidden e s :
  (forall b, reread (VBytes b) = VBytes b) -> linux_desktop = false -> encrypting s = true -> hidden (m_settings s) ->
  encrypting (settings_step e s).2 = true /\ hidden (m_settings (settings_step e s).2).
Proof.
  intros Hr Hl He Hh. destruct e as [k d|k v|k| |text|]; cbn [settings_step].
  - destruct (value_frame k d s) as (Ef & Ee & _). destruct (value k d s) as [v s1]. cbn in *.
    rewrite (encrypting_enabled _ _ Ee), Ef. done.
  - cbn. destruct (setValue_frame k v s) as [E2 _].
    split; [by rewrite (encrypting_enabled _ _ E2)|by apply setValue_hidden].
  - split; [done|]. intros k' v Hk. cbn. rewrite map_lookup_filter.
    intros (w & Hw & Hg)%bind_Some. apply (Hh k'); [done|].
    destruct (decide (below k k' = false)); [|by rewrite option_guard_False in Hg].
    by rewrite option_guard_True in Hg; simplify_eq/=.
  - split; [done|]. intros k v _. cbn. by rewrite lookup_empty.
  - cbn. unfold restoreAppConfig. destruct (bool_decide _); [done|]. cbn.
    apply (fold_left_inv (fun s => encrypting s = true /\ hidden (m_settings s))); [done|].
    intros s' k [H1 H2]. destruct (String.eqb _ _); [done|].
    match goal with |- context [setValue k ?v s'] => destruct (setValue_frame k v s') as [E2 _] end.
    split; [by rewrite (encrypting_enabled _ _ E2)|by apply setValue_hidden].
  - cbn. unfold restart. assert (m_encryptionEnabled s = true) as ->.
    { unfold encrypting, encryptionRequired in He. by destruct (m_encryptionEnabled s). }
    by apply new_settings_hidden, hidden_reread.
Qed.

(** C33: Where encryption is required and the file that is opened has no secret in clear (a fresh
    one, for instance), the server list and the access token never reach the file in clear,
    whatever is written, restored or removed, however often the application restarts, and
    whatever the keychain and the cipher answer: at every moment an entry of theirs is absent
    or is the magic word followed by what AES-256-CBC made of a serialised value, with a key
    and a vector that are not empty.  Writing a secret puts the ciphertext of the value
    written, made with the object's keys, into its entry and changes no other; exactly when the
    keychain yields no keys it changes nothing. *)
Theorem secrets_stay_encrypted file c n es :
  (forall b, reread (VBytes b) = VBytes b) -> linux_desktop = false -> hidden file ->
  let s := (settings_run es (new_settings file c n true)).2 in
  hidden (m_settings s) /\
  forall k v, k ∈ encryptedKeys -> let s' := setValue k v s in
    if (keys_missing s).1 then m_settings s' = m_settings s
    else m_key s' <> "" /\ m_iv s' <> "" /\
      m_settings s' = <[k := VBytes (magicString +:+
        encryptAes256Cbc (write_stream v) (m_key s') (m_iv s'))]> (m_settings s).
Proof.
  intros Hr Hl Hh. cbv zeta. destruct (new_settings_hidden file c n Hl Hh) as [He Hs].
  assert (encrypting (settings_run es (new_settings file c n true)).2 = true /\
    hidden (m_settings (settings_run es (new_settings file c n true)).2)) as [He' Hs'].
  { revert He Hs. generalize (new_settings file c n true) as s.
    induction es as [|e es IH]; intros s He Hs; [done|].
    destruct (step_hidden e s Hr Hl He Hs) as [He1 Hs1]. cbn [settings_run].
    destruct (settings_step e s) as [a s1]. specialize (IH s1 He1 Hs1).
    by destruct (settings_run es s1). }
  split; [done|]. intros k v Hk. pose proof (setValue_file k v (settings_run es (new_settings file c n true)).2) as E. cbv zeta in E.
  unfold encrypts in E. unfold encrypting in He'. rewrite He', bool_decide_true in E by done. exact E.
Qed.
End Runs.

(** ** A locked keychain *)

Section Locked.
Context `{V : Vault}.
Hypothesis locked : forall c, read_tag settingsKeyTag c = "".

Lemma getEncKey_locked s : m_key s = "" -> (getEncKey s).1 = "" /\ m_key (getEncKey s).2 = "".
Proof.
  intros Hk. unfold getEncKey. rewrite Hk. cbn. rewrite !locked. cbn. by destruct (negb _).
Qed.

Lemma keys_missing_locked s :
  m_key s = "" -> (keys_missing s).1 = true /\ m_key (keys_missing s).2 = "".
Proof.
  intros Hk. unfold keys_missing. destruct (getEncKey_locked s Hk) as [H1 H2].
  destruct (getEncKey s) as [k s1]. cbn in *. by rewrite H1.
Qed.

Lemma value_locked k d s : m_key s = "" -> m_key (value k d s).2 = "".
Proof.
  intros Hk. unfold value. destruct (m_cache s !! k); [done|].
  destruct (m_settings s !! k) as [w|]; [|done]. destruct (encrypted_part w); [|done].
  destruct (keys_missing_locked s Hk) as [H1 H2]. destruct (keys_missing s) as [b s1].
  cbn in *. by subst.
Qed.

Lemma setValue_locked k v s :
  m_key s = "" -> encryptionRequired s = true -> k ∈ encryptedKeys ->
  m_settings (setValue k v s) = m_settings s /\ m_key (setValue k v s) = "".
Proof.
  intros Hk Hr Hke. unfold setValue. rewrite Hr, bool_decide_true by done. cbn [andb].
  destruct (keys_missing_locked s Hk) as [H1 H2]. pose proof (keys_missing_same s) as [E _ _].
  destruct (keys_missing s) as [b s1]. cbn in *. by subst.
Qed.
End Locked.

(** When an older file is opened while the keychain yields no key, its secrets stay in clear and
    the file is marked as converted all the same: no later start encrypts them. *)
Theorem failed_conversion_keeps_clear (V1 V2 : Vault) file (c1 : @keychain V1) (c2 : @keychain V2) n1 n2 k w :
  (forall c, @read_tag V1 settingsKeyTag c = "") -> @linux_desktop V1 = false ->
  toBool (default VNull (file !! "Conf/encrypted")) = false ->
  k ∈ encryptedKeys -> file !! k = Some w ->
  wf_vault V2 ->
  let file' := m_settings (@new_settings V1 file c1 n1 true) in
  let file'' := @reread V2 <$> file' in
  file' !! k = Some w /\ m_settings (@new_settings V2 file'' c2 n2 true) = file''.
Proof.
  intros Hlock Hl Hm Hk Hw Hv2. cbv zeta.
  assert (m_settings (@new_settings V1 file c1 n1 true)
          = <["Conf/encrypted" := VBool true]> file) as ->.
  { unfold new_settings. set (s := mkSecure _ _ _ _ _ _ _). rewrite Hm.
    assert (encryptionRequired s = true) as Hr by (unfold encryptionRequired; cbn; by rewrite Hl).
    rewrite Hr. cbn [negb andb]. unfold store. cbn. f_equal.
    match goal with |- m_settings (fold_left ?f ?l s) = _ => assert
      ((fun s => m_key s = "" /\ encryptionRequired s = true /\ m_settings s = file) (fold_left f l s))
      as (_ & _ & ?); [|done] end.
    apply fold_left_inv; [done|]. intros s' k' (K1 & K2 & K3).
    destruct (bool_decide (k' ∈ encryptedKeys)) eqn:Ek; [|done]. bprop.
    pose proof (value_locked Hlock k' VNull s' K1) as Kv.
    destruct (value_frame k' VNull s') as (Ef & Ee & _).
    destruct (value k' VNull s') as [v s1]. cbn in *.
    assert (encryptionRequired s1 = true) as K2' by (unfold encryptionRequired in *; by rewrite Ee).
    destruct (setValue_locked Hlock k' v s1 Kv K2' Ek) as [S1 S2].
    destruct (setValue_frame k' v s1) as [S3 _].
    split_and!; [done| |congruence]. unfold encryptionRequired in *. by rewrite S3. }
  split.
  - rewrite lookup_insert_ne; [done|]. intros <-. unfold encryptedKeys in Hk. set_solver.
  - unfold new_settings. cbn. rewrite lookup_fmap, lookup_insert_eq. cbn.
    by rewrite (reread_flag _ Hv2), andb_false_r.
Qed.

(** ** Backup *)

(** What the readers of the settings make of a value that went through a backup. *)
Definition restored (v : variant) : variant := to_variant (from_variant v).

(** A JSON array and a byte array change their type. *)
Definition keeps_type (v : variant) : bool :=
  match v with VJson _ | VBytes _ => false | _ => true end.

Definition reads_alike (v v' : variant) : Prop :=
  toBool v' = toBool v /\ toInt v' = toInt v /\ variant_text v' = variant_text v /\
  (keeps_type v -> toStringList v' = toStringList v) /\
  (toMap v').*1 = (toMap v).*1 /\
  (forall k, keeps_type (default VNull (mfind k (toMap v))) ->
     Settings.siteIpList (default VNull (mfind k (toMap v'))) =
     Settings.siteIpList (default VNull (mfind k (toMap v)))).

Lemma restored_text v : variant_text (restored v) = variant_text v.
Proof. by destruct v. Qed.

Lemma restored_strings v : keeps_type v -> toStringList (restored v) = toStringList v.
Proof.
  destruct v as [| | | |l|l| | | |]; intros Hn; cbn in Hn; try done; unfold restored.
  - cbn [from_variant to_variant toStringList]. rewrite !map_map. apply map_id.
  - cbn [from_variant to_variant toStringList]. rewrite !map_map. apply map_ext, restored_text.
Qed.

Lemma restored_map v : toMap (restored v) = (fun kv => (kv.1, restored kv.2)) <$> toMap v.
Proof. destruct v; try done. cbn. by rewrite map_map. Qed.

Lemma mfind_restored k (m : list (string * variant)) :
  mfind k ((fun kv => (kv.1, restored kv.2)) <$> m) = restored <$> mfind k m.
Proof.
  induction m as [|[k' v] m IH]; [done|]. cbn. by destruct (String.eqb k k').
Qed.

Lemma restored_alike v : reads_alike v (restored v).
Proof.
  unfold reads_alike. split_and!; [by destruct v|by destruct v|apply restored_text|
    apply restored_strings| |].
  - rewrite restored_map, <- list_fmap_compose. by apply list_fmap_ext.
  - intros k Hk. rewrite restored_map, mfind_restored. unfold Settings.siteIpList.
    destruct (mfind k (toMap v)) as [w|]; [|done]. cbn in *. by rewrite restored_strings.
Qed.

Lemma backup_fold_ok `{V : Vault} (Hv : wf_vault V) keys cfg s :
  good s ->
  let '(cfg', s') := fold_left backup_entry keys (cfg, s) in
  good s' /\ contents s' = contents s /\
  forall k, ofind k cfg' = if bool_decide (k ∈ keys) && needToBackup k
                           then Some (from_variant (default VNull (contents s !! k)))
                           else ofind k cfg.
Proof.
  revert cfg s. induction keys as [|key keys IH]; intros cfg s G; [done|].
  cbn [fold_left]. unfold backup_entry at 2. destruct (needToBackup key) eqn:En; cbn [negb].
  - pose proof (value_ok Hv key VNull s G) as Hval. destruct (value key VNull s) as [v s1].
    destruct Hval as (-> & G1 & E1 & _). specialize (IH (oset key (from_variant (default VNull (contents s !! key))) cfg) s1 G1).
    destruct (fold_left _ _ _) as [cfg' s']. destruct IH as (G2 & E2 & Hf). rewrite E1 in Hf, E2.
    split_and!; [done..|]. intros k. rewrite Hf, ofind_oset.
    destruct (String.eqb_spec k key) as [->|Hne].
    + rewrite (bool_decide_true (key ∈ key :: keys)) by set_solver. rewrite En.
      by destruct (bool_decide (key ∈ keys)).
    + rewrite (bool_decide_ext (k ∈ key :: keys) (k ∈ keys)) by set_solver. done.
  - specialize (IH cfg s G). destruct (fold_left _ _ _) as [cfg' s']. destruct IH as (G2 & E2 & Hf).
    split_and!; [done..|]. intros k. rewrite Hf. destruct (decide (k = key)) as [->|Hne].
    + by rewrite En, !andb_false_r.
    + rewrite (bool_decide_ext (k ∈ key :: keys) (k ∈ keys)) by set_solver. done.
Qed.

(** C34: A backup carries the settings over to another installation: every entry of the source that
    is backed up reads there as it does here (as a flag, a number, a text, a list of texts, a list
    of sites with their addresses), and every other entry of the target keeps its value, the
    identifier of the installation among them. *)
Theorem backup_carries_settings (V1 V2 : Vault) `{JsonText} (s1 : @SecureQSettings V1)
    (s2 : @SecureQSettings V2) :
  wf_vault V1 -> wf_vault V2 -> good s1 -> good s2 ->
  (exists k, needToBackup k = true /\ is_Some (contents s1 !! k)) ->
  let '(ok, s2') := restoreAppConfig (backupAppConfig s1).1 s2 in
  ok = true /\
  forall k d, let v' := (value k d s2').1 in
    match contents s1 !! k with
    | Some v => if needToBackup k then reads_alike v v' else v' = (value k d s2).1
    | None => v' = (value k d s2).1
    end.
Proof.
  intros Hv1 Hv2 G1 G2 (k0 & Hn0 & v0 & Hk0).
  pose proof (backup_fold_ok Hv1 (allKeys s1) [] s1 G1) as Hb. unfold backupAppConfig.
  destruct (fold_left backup_entry (allKeys s1) ([], s1)) as [cfg s1']. destruct Hb as (_ & _ & Hf).
  assert (forall k, k ∈ allKeys s1 <-> is_Some (contents s1 !! k)) as Hdom.
  { intros k. unfold allKeys, contents. rewrite lookup_fmap, fmap_is_Some, list_elem_of_fmap. split.
    - intros ([k' v] & -> & Hk%elem_of_map_to_list). by exists v.
    - intros [v Hv]. exists (k, v). by rewrite elem_of_map_to_list. }
  assert (cfg <> []) as Hne.
  { intros ->. specialize (Hf k0). rewrite Hn0, bool_decide_true in Hf; [done|].
    apply Hdom. by eexists. }
  cbn [fst]. pose proof (restore_ok Hv2 (json_print (JObj cfg)) s2 G2) as (G2' & _ & E2).
  unfold restoreAppConfig in *. rewrite json_parse_print in *. cbn [doc_object to_object] in *.
  rewrite bool_decide_false in * by done. cbn [snd] in *. split; [done|]. intros k d. cbv zeta.
  pose proof (value_ok Hv2 k d _ G2') as Hval'. pose proof (value_ok Hv2 k d _ G2) as Hval.
  destruct (value k d s2) as [w sw]. destruct Hval as [-> _].
  destruct (value k d (fold_left _ _ _)) as [w' sw']. destruct Hval' as [-> _].
  rewrite E2, map_restore_lookup. cbn [fst].
  specialize (Hf k). destruct (contents s1 !! k) as [v|] eqn:Ek.
  - rewrite bool_decide_true in Hf by (apply Hdom; by eexists). cbn [andb] in Hf.
    destruct (needToBackup k) eqn:En.
    + rewrite Hf. unfold needToBackup in En. apply andb_true_iff in En as [En _].
      apply negb_true_iff in En. rewrite En. apply restored_alike.
    + rewrite Hf. by destruct (String.eqb _ _).
  - rewrite bool_decide_false in Hf by (rewrite Hdom; intros []; congruence).
    rewrite Hf. by destruct (String.eqb _ _).
Qed.

(** ** A vault *)

Section VariantInd.
Variable P : variant -> Prop.
Hypothesis HList : forall l, Forall P l -> P (VList l).
Hypothesis HMap : forall m : list (string * variant), Forall (fun kv => P kv.2) m -> P (VMap m).
Hypothesis HLeaf : forall v, (match v with VList _ | VMap _ => False | _ => True end) -> P v.

Fixpoint variant_ind (v : variant) : P v :=
  match v with
  | VList l =>
      HList l ((fix go (l : list variant) : Forall P l :=
        match l with
        | [] => Forall_nil_2 _
        | x :: r => Forall_cons_2 _ _ _ (variant_ind x) (go r)
        end) l)
  | VMap m =>
      HMap m ((fix go (m : list (string * variant)) : Forall (fun kv => P kv.2) m :=
        match m with
        | [] => Forall_nil_2 _
        | kv :: r => Forall_cons_2 (fun kv => P kv.2) kv r (variant_ind kv.2) (go r)
        end) m)
  | v => HLeaf v I
  end.
End VariantInd.

(** A format of values: JSON with a tag for the types JSON does not tell apart. *)
Fixpoint tagged (v : variant) : json :=
  match v with
  | VNull => JNull
  | VBool b => JBool b
  | VInt z => JInt z
  | VReal n d => JReal n d
  | VStr s => JStr s
  | VStrings l => JArr (JInt 0 :: map JStr l)
  | VList l => JArr (JInt 1 :: map tagged l)
  | VMap m => JObj (map (fun kv => (kv.1, tagged kv.2)) m)
  | VJson a => JArr (JInt 2 :: a)
  | VBytes b => JArr [JInt 3; JStr b]
  end.

Fixpoint untagged (j : json) : variant :=
  match j with
  | JNull => VNull
  | JBool b => VBool b
  | JInt z => VInt z
  | JReal n d => VReal n d
  | JStr s => VStr s
  | JArr (JInt 0 :: l) => VStrings (map (fun j => to_string (Some j)) l)
  | JArr (JInt 1 :: l) => VList (map untagged l)
  | JArr (JInt 2 :: a) => VJson a
  | JArr [JInt 3; JStr b] => VBytes b
  | JArr _ => VNull
  | JObj o => VMap (map (fun kv => (kv.1, untagged kv.2)) o)
  end.

Lemma untagged_tagged v : untagged (tagged v) = v.
Proof.
  induction v as [l IH|m IH|v Hv] using variant_ind.
  - cbn. f_equal. rewrite map_map. induction IH as [|x r Hx _ IHr]; cbn; congruence.
  - cbn. f_equal. rewrite map_map. induction IH as [|[k x] r Hx _ IHr]; cbn in *; congruence.
  - destruct v; try done. cbn. f_equal. rewrite map_map. apply map_id.
Qed.

Definition toy_vault (linux : bool) : Vault := {|
  keychain := gmap string string;
  read_tag t c := default "" (c !! t);
  write_tag t d c := <[t := d]> c;
  RAND_bytes i n := Some (String.concat "" (replicate n "k"));
  EVP_encrypt d k iv := Some (String "#" d);
  EVP_decrypt c k iv := match c with String "#" d => Some d | _ => None end;
  write_stream v := @json_print json_text_model (tagged v);
  read_stream b := default VNull (untagged <$> @json_parse json_text_model b);
  reread v := match v with
              | VBool _ | VInt _ => VStr (variant_text v)
              | VStrings [] => VNull
              | VStrings [t] => VStr t
              | _ => v
              end;
  linux_desktop := linux
|}.

Lemma concat_replicate n : String.length (String.concat "" (replicate n "k")) = n.
Proof.
  induction n as [|[|n] IH]; [done..|]. cbn [replicate String.concat] in *.
  rewrite !string_length_app. cbn [String.length]. cbn [replicate] in IH. by rewrite IH.
Qed.

Lemma toy_vault_wf linux : wf_vault (toy_vault linux).
Proof.
  split.
  - intros t d c. cbn. by rewrite lookup_insert_eq.
  - intros t t' d c Ht. cbn. by rewrite lookup_insert_ne.
  - intros i n. eexists. split; [done|]. apply concat_replicate.
  - intros d k iv. by eexists.
  - intros v. change (default VNull (untagged <$>
      @json_parse json_text_model (@json_print json_text_model (tagged v))) = v).
    rewrite json_parse_print. apply untagged_tagged.
  - by intros [| | | |[|? []]| | | | |].
  - done.
  - done.
  - done.
  - by intros [].
  - by intros [].
  - by intros [| | | |[|? []]| | | | |].
Qed.

Definition old_file : gmap string variant :=
  {[ "Servers/serversList" := VStr "servers"; "Conf/routeMode" := VInt 2 ]}.

Lemma old_file_wf linux : @wf_file (toy_vault linux) ∅ old_file.
Proof.
  split; [split; by left|].
  split; [intros k v Hkv|intros k v Hkv; split; [|intros _]].
  all: unfold old_file in Hkv; apply lookup_insert_Some in Hkv as [[<- <-]|[_ Hkv]]; [done|].
  all: by apply lookup_singleton_Some in Hkv as [<- <-].
Qed.

(** A run over an older file: conversion, a restart, a restored backup. *)
Definition sample_run : list settings_event :=
  [Read "Servers/serversList" VNull; Set_ "TunnelCore/accessToken" (VStr "token"); Restart;
   Read "TunnelCore/accessToken" VNull; Remove_ "TunnelCore/accessToken";
   Read "TunnelCore/accessToken" (VStr "none"); Restart; Read "Conf/routeMode" (VInt 0)].

Lemma none_below key (m : gmap string variant) :
  forallb (fun kv => negb (starts_with (key +:+ "/") kv.1)) (map_to_list m) = true ->
  forall k, starts_with (key +:+ "/") k = true -> m !! k = None.
Proof.
  intros Hm k Hk. destruct (m !! k) as [v|] eqn:E; [|done].
  rewrite forallb_forall in Hm. apply elem_of_map_to_list, list_elem_of_In in E.
  specialize (Hm _ E). cbn [fst] in Hm. by rewrite Hk in Hm.
Qed.

Lemma settings_refine_map_witness :
  let got := (@settings_run (toy_vault false) json_text_model sample_run
     (@new_settings (toy_vault false) old_file ∅ 0 true)).1 in
  got = [Some (VStr "servers"); None; None; Some (VStr "token"); None; Some (VStr "none"); None;
         Some (VStr "2")] /\
  Forall2 (option_Forall2 (@answers (toy_vault false))) got
    [Some (VStr "servers"); None; None; Some (VStr "token"); None; Some (VStr "none"); None; Some (VInt 2)].
Proof.
  cbv zeta. split; [vm_compute; reflexivity|].
  destruct (@settings_refine_map (toy_vault false) json_text_model old_file ∅ 0 true sample_run
    (toy_vault_wf false) (old_file_wf false)) as [H _].
  { cbn [events_allowed sample_run event_ok map_step snd]. split_and!; try done.
    intros k Hk. split; [by intros ->|]. revert k Hk. apply none_below. vm_compute. reflexivity. }
  vm_compute (map_run sample_run _) in H. exact H.
Defined.

Lemma secrets_stay_encrypted_witness :
  let s := (@settings_run (toy_vault false) json_text_model sample_run
     (@new_settings (toy_vault false) ∅ ∅ 0 true)).2 in
  is_Some (m_settings s !! "Conf/encrypted") /\ @hidden (toy_vault false) (m_settings s) /\
  m_settings (setValue "TunnelCore/accessToken" (VStr "token") s) !! "TunnelCore/accessToken" =
    Some (VBytes (magicString +:+ String "#" (@write_stream (toy_vault false) (VStr "token")))).
Proof.
  cbv zeta. split; [vm_compute; by eexists|].
  destruct (@secrets_stay_encrypted (toy_vault false) json_text_model ∅ ∅ 0 sample_run) as [H1 H2]; [done..|].
  split; [exact H1|].
  pose proof (H2 "TunnelCore/accessToken" (VStr "token") ltac:(unfold encryptedKeys; set_solver)) as H.
  cbv zeta in H. match type of H with context [keys_missing ?s] =>
    assert ((keys_missing s).1 = false) as E by (vm_compute; reflexivity); rewrite E in H end.
  destruct H as (_ & _ & ->). rewrite lookup_insert_eq. vm_compute. reflexivity.
Defined.

(** A keychain that stores nothing. *)
Definition locked_vault : Vault := {|
  keychain := unit; read_tag _ _ := ""; write_tag _ _ c := c;
  RAND_bytes := @RAND_bytes (toy_vault false); EVP_encrypt := @EVP_encrypt (toy_vault false);
  EVP_decrypt := @EVP_decrypt (toy_vault false); write_stream := @write_stream (toy_vault false);
  read_stream := @read_stream (toy_vault false); reread := @reread (toy_vault false);
  linux_desktop := false |}.

Lemma failed_conversion_keeps_clear_witness :
  let file' := m_settings (@new_settings locked_vault old_file tt 0 true) in
  let file'' := @reread (toy_vault false) <$> file' in
  file' !! "Servers/serversList" = Some (VStr "servers") /\
  m_settings (@new_settings (toy_vault false) file'' ∅ 0 true) = file''.
Proof.
  apply (failed_conversion_keeps_clear locked_vault (toy_vault false)); try done.
  - unfold encryptedKeys. set_solver.
  - apply toy_vault_wf.
Defined.

(** Two installations: Windows, with a site list, and Linux, with an identifier of its own. *)
Definition installation_1 : @SecureQSettings (toy_vault false) :=
  @setValue (toy_vault false) "Conf/ExceptSites" (VMap [("example.com", VStrings ["198.51.100.7"])])
    (@new_settings (toy_vault false) ∅ ∅ 0 true).
Definition installation_2 : @SecureQSettings (toy_vault true) :=
  @setValue (toy_vault true) "Conf/installationUuid" (VStr "uuid")
    (@new_settings (toy_vault true) ∅ ∅ 0 true).

Lemma empty_good V c : good_keys c -> good (@mkSecure V ∅ ∅ "" "" true c 0).
Proof. intros Hc. split; try done; by left. Qed.

Lemma installed_good linux k v :
  encrypted_part v = None -> good (@setValue (toy_vault linux) k v (@new_settings (toy_vault linux) ∅ ∅ 0 true)).
Proof.
  intros Hv. apply setValue_ok; [apply toy_vault_wf| |by right].
  destruct (@start_ok (toy_vault linux) (toy_vault_wf linux)
    (@mkSecure (toy_vault linux) ∅ ∅ "" "" true ∅ 0)) as [G _]; [|exact G].
  apply empty_good. split; by left.
Qed.

Lemma backup_carries_settings_witness :
  let s2' := (restoreAppConfig (H := json_text_model)
                (backupAppConfig (H := json_text_model) installation_1).1 installation_2).2 in
  (value "Conf/installationUuid" VNull s2').1 = VStr "uuid" /\
  reads_alike (VMap [("example.com", VStrings ["198.51.100.7"])])
    (value "Conf/ExceptSites" VNull s2').1.
Proof.
  pose proof (@backup_carries_settings (toy_vault false) (toy_vault true) json_text_model
    installation_1 installation_2 (toy_vault_wf false) (toy_vault_wf true)
    (installed_good false "Conf/ExceptSites" (VMap [("example.com", VStrings ["198.51.100.7"])]) eq_refl)
    (installed_good true "Conf/installationUuid" (VStr "uuid") eq_refl)) as Hb.
  assert (exists k, needToBackup k = true /\ is_Some (contents installation_1 !! k)) as Hk.
  { exists "Conf/ExceptSites". split; [done|]. vm_compute. by eexists. }
  specialize (Hb Hk). cbv zeta. destruct (restoreAppConfig _ _) as [ok s2']. cbn [snd].
  destruct Hb as [_ Hb]. split.
  - specialize (Hb "Conf/installationUuid" VNull). vm_compute (contents installation_1 !! _) in Hb.
    cbv zeta iota in Hb. rewrite Hb. vm_compute. reflexivity.
  - specialize (Hb "Conf/ExceptSites" VNull). vm_compute (contents installation_1 !! _) in Hb.
    exact Hb.
Defined.
