(* ===== verification/Netfilter.v ===== *)
(** * The packet filter of Linux, as the client uses it

    [LinuxFirewall] runs the programs [iptables] and [ip6tables].  They and the kernel's filter
    are the class [Netfilter]: its state is seen through the chains of a table, and
    [wf_netfilter] says that a command does what its manual page documents ([documented]).  The
    arguments of the programs are structured: a rule has the matches the client uses. *)

From S2P Require Import Prelude IpAddress.

(** The program that is run, and the tables. *)
Inductive version := iptables_4 | iptables_6.
Inductive table := kFilterTable | kNatTable | kRawTable | kMangleTable.

#[export] Instance version_eq_dec : EqDecision version.
Proof. solve_decision. Defined.
#[export] Instance table_eq_dec : EqDecision table.
Proof. solve_decision. Defined.

(** ** Rules *)

Inductive target :=
  | ACCEPT
  | REJECT
  | MASQUERADE
  | MARK (mark : string)
  | Jump (chain : string).

(** [-o], possibly negated, [-p], [-d], [--sport], [--dport], [-m mark --mark],
    [-m cgroup --cgroup] and [-j]. *)
Record rule := mkRule {
  r_out : option (bool * string);
  r_proto : option string;
  r_dst : option string;
  r_sport : option Z;
  r_dport : option Z;
  r_mark : option Z;
  r_cgroup : option string;
  r_target : target
}.

#[export] Instance eta_rule : Eta rule := fun r =>
  mkRule (r_out r) (r_proto r) (r_dst r) (r_sport r) (r_dport r) (r_mark r) (r_cgroup r) (r_target r).

#[export] Instance target_eq_dec : EqDecision target.
Proof. solve_decision. Defined.
#[export] Instance rule_eq_dec : EqDecision rule.
Proof. solve_decision. Defined.

(** A rule with a target and no match. *)
Definition plain (t : target) : rule := mkRule None None None None None None None t.

Abbreviation chains := (gmap string (list rule)).

(** ** Commands *)

Inductive command :=
  | New_chain (c : string)              (* -N *)
  | Flush_chain (c : string)            (* -F *)
  | Delete_chain (c : string)           (* -X *)
  | List_chain (c : string)             (* -L *)
  | Append_rule (c : string) (r : rule) (* -A *)
  | Insert_rule (c : string) (r : rule) (* -I *)
  | Check_rule (c : string) (r : rule)  (* -C *)
  | Delete_rule (c : string) (r : rule) (* -D *)
  | Delete_number (c : string) (n : nat)(* -D with a number, from 1 *)
  | Replace_rule (c : string) (n : nat) (r : rule).  (* -R *)

Definition builtin_chains : list string := ["INPUT"; "OUTPUT"; "FORWARD"; "PREROUTING"; "POSTROUTING"].

Definition jumps_to (c : string) (rules : list rule) : bool :=
  existsb (fun r => bool_decide (r_target r = Jump c)) rules.

Definition referenced (c : string) (m : chains) : bool :=
  existsb (fun '(_, rules) => jumps_to c rules) (map_to_list m).

(** The first rule equal to [r] taken out. *)
Fixpoint remove_first (r : rule) (rules : list rule) : list rule :=
  match rules with
  | [] => []
  | x :: rest => if bool_decide (x = r) then rest else x :: remove_first r rest
  end.

Section Documented.
(** Whether the text after [-d] names addresses. *)
Variable accepts : string -> bool.

Definition rule_ok (r : rule) (m : chains) : bool :=
  match r_target r with Jump c => bool_decide (is_Some (m !! c)) | _ => true end
  && match r_dst r with Some d => accepts d | None => true end.

(** The exit status (whether it is 0) and the chains afterwards, as the manual page has it. *)
Definition documented (cmd : command) (m : chains) : bool * chains :=
  match cmd with
  | New_chain c =>
      if bool_decide (is_Some (m !! c)) || (29 <=? String.length c)%nat then (false, m)
      else (true, <[c := []]> m)
  | Flush_chain c =>
      match m !! c with Some _ => (true, <[c := []]> m) | None => (false, m) end
  | Delete_chain c =>
      match m !! c with
      | Some [] => if referenced c m || bool_decide (c ∈ builtin_chains) then (false, m)
                   else (true, delete c m)
      | _ => (false, m)
      end
  | List_chain c => (bool_decide (is_Some (m !! c)), m)
  | Append_rule c r =>
      match m !! c with
      | Some rules => if rule_ok r m then (true, <[c := rules ++ [r]]> m) else (false, m)
      | None => (false, m)
      end
  | Insert_rule c r =>
      match m !! c with
      | Some rules => if rule_ok r m then (true, <[c := r :: rules]> m) else (false, m)
      | None => (false, m)
      end
  | Check_rule c r =>
      (match m !! c with Some rules => bool_decide (r ∈ rules) | None => false end, m)
  | Delete_rule c r =>
      match m !! c with
      | Some rules =>
          if bool_decide (r ∈ rules) then (true, <[c := remove_first r rules]> m) else (false, m)
      | None => (false, m)
      end
  | Delete_number c n =>
      match m !! c with
      | Some rules =>
          if (1 <=? n)%nat && (n <=? length rules)%nat
          then (true, <[c := delete (n - 1)%nat rules]> m) else (false, m)
      | None => (false, m)
      end
  | Replace_rule c n r =>
      match m !! c with
      | Some rules =>
          if (1 <=? n)%nat && (n <=? length rules)%nat && rule_ok r m
          then (true, <[c := <[(n - 1)%nat := r]> rules]> m) else (false, m)
      | None => (false, m)
      end
  end.
End Documented.

(** ** The interface *)

(** A packet that leaves the machine. *)
Record packet := mkPacket {
  p_out : string;
  p_proto : string;
  p_dst : QHostAddress;
  p_sport : Z;
  p_dport : Z;
  p_mark : Z
}.

Class Netfilter := {
  nf : Type;
  chains_of : nf -> version -> table -> chains;
  iptables : version -> table -> command -> nf -> bool * nf;
  (** The targets [-L --line-numbers] prints, in order. *)
  listing : version -> table -> string -> nf -> list target;
  (** The addresses the text after [-d] names. *)
  dst_accepts : version -> string -> bool;
  dst_matches : version -> string -> QHostAddress -> bool;
  (** [/sys/fs/cgroup/net_cls] exists. *)
  net_cls : bool
}.

Definition lan_4 : list string :=
  ["10.0.0.0/8"; "169.254.0.0/16"; "172.16.0.0/12"; "192.168.0.0/16"; "224.0.0.0/4";
   "255.255.255.255/32"].
Definition lan_6 : list string := ["fc00::/7"; "fe80::/10"; "ff00::/8"].

Record wf_netfilter (N : Netfilter) : Prop := {
  iptables_status : forall v t c s,
    (iptables v t c s).1 = (documented (dst_accepts v) c (chains_of s v t)).1;
  iptables_chains : forall v t c s v' t',
    chains_of (iptables v t c s).2 v' t' =
    if bool_decide (v' = v /\ t' = t) then (documented (dst_accepts v) c (chains_of s v t)).2
    else chains_of s v' t';
  listing_targets : forall v t c s,
    listing v t c s = map r_target (default [] (chains_of s v t !! c));
  (** The literals of the source are addresses. *)
  literals_4 : Forall (fun d => dst_accepts iptables_4 d = true) ("255.255.255.255" :: lan_4);
  literals_6 : Forall (fun d => dst_accepts iptables_6 d = true) lan_6
}.

(** ** The decision on a packet *)

Inductive verdict := Accepted | Rejected.

Section Verdict.
Context `{Netfilter}.
Variable v : version.

(** A name that ends in [+] stands for all interfaces that begin with it. *)
Fixpoint iface_matches (name iface : string) : bool :=
  match name with
  | String "+" EmptyString => true
  | EmptyString => str_empty iface
  | String c r =>
      match iface with String c' r' => Ascii.eqb c c' && iface_matches r r' | EmptyString => false end
  end.

Definition opt_test {A} (o : option A) (f : A -> bool) : bool :=
  match o with Some a => f a | None => true end.

(** Packets of the client's own control group are of no interest here: no rule of the filter
    table asks for it. *)
Definition rule_matches (r : rule) (p : packet) : bool :=
  opt_test (r_out r) (fun '(neg, name) => xorb neg (iface_matches name (p_out p)))
  && opt_test (r_proto r) (fun x => String.eqb x (p_proto p))
  && opt_test (r_dst r) (fun d => dst_matches v d (p_dst p))
  && opt_test (r_sport r) (fun z => (z =? p_sport p)%Z)
  && opt_test (r_dport r) (fun z => (z =? p_dport p)%Z)
  && opt_test (r_mark r) (fun z => (z =? p_mark p)%Z)
  && opt_test (r_cgroup r) (fun _ => false).

(** The rules of a chain are tried in order; a jump tries the other chain and comes back when
    that decides nothing.  [depth] bounds the jumps: the client's chains need four. *)
Fixpoint walk (depth : nat) (m : chains) (p : packet) (rules : list rule) : option verdict :=
  match depth with
  | O => None
  | S depth =>
      (fix go rules :=
         match rules with
         | [] => None
         | r :: rest =>
             if rule_matches r p then
               match r_target r with
               | ACCEPT => Some Accepted
               | REJECT => Some Rejected
               | Jump c => match walk depth m p (default [] (m !! c)) with
                           | Some d => Some d
                           | None => go rest
                           end
               | _ => go rest
               end
             else go rest
         end) rules
  end.
End Verdict.
