(* ===== verification/LinuxFirewall.v ===== *)
(** * The firewall of the service on Linux

    [client/platforms/linux/daemon/linuxfirewall.{h,cpp}]: named groups of rules (anchors) that
    are installed once and switched on and off.  Each anchor has a chain that stays in the root
    chain, and a chain with its rules the former jumps to while the anchor is on.

    The shell scripts of the source are written out as the commands they run. *)

From S2P Require Import Prelude IpAddress Netfilter.

(** ** State *)

(** Shell commands that do not concern the packet filter. *)
Inductive shell :=
  | AddRoutingTable
  | MakeCGroup
  | AddMarkRule
  | DeleteMarkRule
  | FlushMarkTable
  | FlushRouteCache.

Inductive callback := setupTrafficSplitting_ | teardownTrafficSplitting_.

Section Firewall.
Context `{N : Netfilter}.

Record firewall := mkFirewall {
  filters : nf;
  anchorCallbacks : list (string * callback);
  shell_runs : list shell
}.

#[export] Instance eta_firewall : Eta firewall := fun s =>
  mkFirewall (filters s) (anchorCallbacks s) (shell_runs s).

Definition fw (A : Type) : Type := firewall -> A * firewall.

#[export] Instance fw_ret : MRet fw := fun A a s => (a, s).
#[export] Instance fw_bind : MBind fw := fun A B f m s => let '(a, s) := m s in f a s.

Definition run_shell (c : shell) : fw unit :=
  fun s => (tt, s <| shell_runs := shell_runs s ++ [c] |>).

(** One run of [iptables] or [ip6tables]; [true] is exit status 0. *)
Definition ipt (v : version) (t : table) (c : command) : fw bool :=
  fun s => let '(ok, n) := iptables v t c (filters s) in (ok, s <| filters := n |>).

Definition list_targets (v : version) (t : table) (c : string) : fw (list target) :=
  fun s => (listing v t c (filters s), s).

Fixpoint each {A} (f : A -> fw unit) (l : list A) : fw unit :=
  match l with [] => mret tt | x :: r => _ ← f x; each f r end.

(** ** Chains *)

Inductive IPVersion := IPv4 | IPv6 | Both.

Definition getCommand (ip : IPVersion) : version :=
  match ip with IPv6 => iptables_6 | _ => iptables_4 end.

(** The functions call themselves for both versions when asked to. *)
Definition for_versions (ip : IPVersion) (f : version -> fw bool) : fw bool :=
  match ip with
  | Both => r4 ← f iptables_4; r6 ← f iptables_6; mret (r4 && r6)
  | _ => f (getCommand ip)
  end.

Definition for_versions_ (ip : IPVersion) (f : version -> fw unit) : fw unit :=
  match ip with
  | Both => _ ← f iptables_4; f iptables_6
  | _ => f (getCommand ip)
  end.

Definition kOutputChain : string := "OUTPUT".
Definition kPostRoutingChain : string := "POSTROUTING".
Definition kPreRoutingChain : string := "PREROUTING".
Definition kRootChain : string := "amnvpn.anchors".
Definition anchorChain (anchor : string) : string := "amnvpn.a." +:+ anchor.
Definition actualChain (anchor : string) : string := "amnvpn." +:+ anchor.

(** [-N chain || -F chain]. *)
Definition createChain (ip : IPVersion) (chain : string) (t : table) : fw bool :=
  for_versions ip (fun v =>
    ok ← ipt v t (New_chain chain);
    if (ok : bool) then mret true else ipt v t (Flush_chain chain)).

(** [if -L chain; then -F chain && -X chain; fi]. *)
Definition deleteChain (ip : IPVersion) (chain : string) (t : table) : fw bool :=
  for_versions ip (fun v =>
    ok ← ipt v t (List_chain chain);
    if (ok : bool) then
      flushed ← ipt v t (Flush_chain chain);
      if (flushed : bool) then ipt v t (Delete_chain chain) else mret false
    else mret true).

(** The number from 1 of the first rule after the first one that has the target. *)
Definition later_number (x : target) (l : list target) : option nat :=
  match l with
  | [] => None
  | _ :: r => (fun p => p.1 + 2)%nat <$> list_find (fun y => y = x) r
  end.

Definition linkChain (ip : IPVersion) (chain parent : string) (mustBeFirst : bool) (t : table)
    : fw bool :=
  for_versions ip (fun v =>
    if mustBeFirst then
      l ← list_targets v t parent;
      if bool_decide (head l = Some (Jump chain)) then mret true
      else
        ok ← ipt v t (Insert_rule parent (plain (Jump chain)));
        if (ok : bool) then
          l ← list_targets v t parent;
          match later_number (Jump chain) l with
          | Some n => ipt v t (Delete_number parent n)
          | None => mret true
          end
        else mret false
    else
      ok ← ipt v t (Check_rule parent (plain (Jump chain)));
      if (ok : bool) then mret true else ipt v t (Append_rule parent (plain (Jump chain)))).

Definition unlinkChain (ip : IPVersion) (chain parent : string) (t : table) : fw bool :=
  for_versions ip (fun v =>
    ok ← ipt v t (Check_rule parent (plain (Jump chain)));
    if (ok : bool) then ipt v t (Delete_rule parent (plain (Jump chain))) else mret true).

Definition ensureRootAnchorPriority (ip : IPVersion) : fw unit :=
  _ ← linkChain ip kRootChain kOutputChain true kFilterTable; mret tt.

(** ** Traffic splitting *)

Definition setupTrafficSplitting : fw unit :=
  if negb net_cls then mret tt
  else _ ← run_shell AddRoutingTable; _ ← run_shell MakeCGroup; run_shell AddMarkRule.

Definition teardownTrafficSplitting : fw unit :=
  _ ← run_shell DeleteMarkRule; _ ← run_shell FlushMarkTable; run_shell FlushRouteCache.

Definition call_back (f : callback) : fw unit :=
  match f with
  | setupTrafficSplitting_ => setupTrafficSplitting
  | teardownTrafficSplitting_ => teardownTrafficSplitting
  end.

(** ** Anchors *)

Definition table_name (t : table) : string :=
  match t with
  | kFilterTable => "filter" | kNatTable => "nat" | kRawTable => "raw" | kMangleTable => "mangle"
  end.
Definition enabledKey (t : table) (anchor : string) : string :=
  "enabled:" +:+ table_name t +:+ ":" +:+ anchor.
Definition disabledKey (t : table) (anchor : string) : string :=
  "disabled:" +:+ table_name t +:+ ":" +:+ anchor.

Definition callback_of (key : string) (l : list (string * callback)) : option callback :=
  (fun p => p.2.2) <$> list_find (fun kv => kv.1 = key) l.

Definition register (key : string) (f : option callback) : fw unit := fun s =>
  match f, callback_of key (anchorCallbacks s) with
  | Some f, None => (tt, s <| anchorCallbacks := anchorCallbacks s ++ [(key, f)] |>)
  | _, _ => (tt, s)
  end.

Definition installAnchor (ip : IPVersion) (anchor : string) (rules : list rule) (t : table)
    (enableFunc disableFunc : option callback) : fw unit :=
  for_versions_ ip (fun v =>
    let one := match v with iptables_4 => IPv4 | iptables_6 => IPv6 end in
    _ ← createChain one (anchorChain anchor) t;
    _ ← linkChain one (anchorChain anchor) kRootChain false t;
    _ ← register (enabledKey t anchor) enableFunc;
    _ ← register (disabledKey t anchor) disableFunc;
    _ ← createChain one (actualChain anchor) t;
    each (fun r => _ ← ipt v t (Append_rule (actualChain anchor) r); mret tt) rules).

Definition uninstallAnchor (ip : IPVersion) (anchor : string) (t : table) : fw unit :=
  for_versions_ ip (fun v =>
    let one := match v with iptables_4 => IPv4 | iptables_6 => IPv6 end in
    _ ← unlinkChain one (anchorChain anchor) kRootChain t;
    _ ← deleteChain one (anchorChain anchor) t;
    _ ← deleteChain one (actualChain anchor) t; mret tt).

Definition enableAnchor (ip : IPVersion) (anchor : string) (t : table) : fw unit :=
  for_versions_ ip (fun v =>
    let r := plain (Jump (actualChain anchor)) in
    on ← ipt v t (Check_rule (anchorChain anchor) r);
    if (on : bool) then mret tt
    else _ ← ipt v t (Append_rule (anchorChain anchor) r); mret tt).

Definition disableAnchor (ip : IPVersion) (anchor : string) (t : table) : fw unit :=
  for_versions_ ip (fun v =>
    on ← ipt v t (Check_rule (anchorChain anchor) (plain (Jump (actualChain anchor))));
    if negb on then mret tt
    else _ ← ipt v t (Flush_chain (anchorChain anchor)); mret tt).

Definition replaceAnchor (ip : IPVersion) (anchor : string) (newRule : rule) (t : table) : fw unit :=
  for_versions_ ip (fun v => _ ← ipt v t (Replace_rule (actualChain anchor) 1 newRule); mret tt).

(** For [Both] the program is [iptables], as [getCommand] has it. *)
Definition isAnchorEnabled (ip : IPVersion) (anchor : string) (t : table) : fw bool :=
  ipt (getCommand ip) t (Check_rule (anchorChain anchor) (plain (Jump (actualChain anchor)))).

(** [if (anchorCallbacks.contains(key)) anchorCallbacks[key]();]. *)
Definition call_registered (key : string) : fw unit := fun s =>
  match callback_of key (anchorCallbacks s) with
  | Some f => call_back f s
  | None => (tt, s)
  end.

Definition setAnchorEnabled (ip : IPVersion) (anchor : string) (enabled : bool) (t : table) : fw unit :=
  _ ← (if enabled then enableAnchor ip anchor t else disableAnchor ip anchor t);
  call_registered (if enabled then enabledKey t anchor else disabledKey t anchor).

(** ** The rules *)

Definition xrayTrafficMark : Z := 130.   (* 0x82 *)

Definition accept_out (iface : string) : rule := (plain ACCEPT) <| r_out := Some (false, iface) |>.
Definition accept_dst (d : string) : rule := (plain ACCEPT) <| r_dst := Some d |>.
Definition reject_dst (d : string) : rule := (plain REJECT) <| r_dst := Some d |>.
Definition reject_port (proto : string) (port : Z) : rule :=
  (plain REJECT) <| r_proto := Some proto |> <| r_dport := Some port |>.
Definition dhcp (d : string) (sport dport : Z) : rule :=
  (plain ACCEPT) <| r_proto := Some "udp" |> <| r_dst := Some d |> <| r_sport := Some sport |>
    <| r_dport := Some dport |>.
Definition accept_dns (iface server proto : string) : rule :=
  (accept_out iface) <| r_dst := Some server |> <| r_proto := Some proto |> <| r_dport := Some 53%Z |>.
Definition tag_packets : rule :=
  (plain (MARK "0x3211")) <| r_cgroup := Some "0x567" |>.

Definition tunnel_ifaces : list string := ["amn0+"; "tun0+"; "tun2+"].

(** The calls of [installAnchor] for the filter table, in the order of [install]. *)
Definition filter_anchors : list (IPVersion * string * list rule) :=
  [(Both, "000.allowLoopback", [accept_out "lo+"]);
   (IPv4, "320.allowDNS", []);
   (Both, "310.blockDNS", [reject_port "udp" 53; reject_port "tcp" 53]);
   (IPv4, "300.allowLAN", map accept_dst lan_4);
   (IPv6, "300.allowLAN", map accept_dst lan_6);
   (IPv4, "290.allowDHCP", [dhcp "255.255.255.255" 68 67]);
   (IPv6, "290.allowDHCP", [dhcp "ff00::/8" 546 547]);
   (IPv6, "250.blockIPv6", [(plain REJECT) <| r_out := Some (true, "lo+") |>]);
   (Both, "200.allowVPN", map accept_out tunnel_ifaces);
   (Both, "130.allowMarkedXray", [(plain ACCEPT) <| r_mark := Some xrayTrafficMark |>]);
   (IPv4, "120.blockNets", []);
   (IPv4, "110.allowNets", []);
   (Both, "400.allowPIA", []);
   (Both, "100.blockAll", [plain REJECT])].

(** The calls of [uninstallAnchor] for the filter table. *)
Definition uninstalled_anchors : list (IPVersion * string) :=
  [(Both, "000.allowLoopback"); (Both, "400.allowPIA"); (IPv4, "320.allowDNS");
   (Both, "310.blockDNS"); (Both, "300.allowLAN"); (Both, "290.allowDHCP");
   (IPv6, "250.blockIPv6"); (Both, "200.allowVPN"); (IPv4, "120.blockNets");
   (Both, "130.allowMarkedXray"); (IPv4, "110.allowNets"); (Both, "100.blockAll")].

Definition uninstall : fw unit :=
  _ ← unlinkChain Both kRootChain kOutputChain kFilterTable;
  _ ← deleteChain Both kRootChain kFilterTable;
  _ ← unlinkChain Both kRootChain kPreRoutingChain kRawTable;
  _ ← deleteChain Both kRootChain kRawTable;
  _ ← unlinkChain Both kRootChain kPostRoutingChain kNatTable;
  _ ← deleteChain Both kRootChain kNatTable;
  _ ← unlinkChain Both kRootChain kOutputChain kMangleTable;
  _ ← deleteChain Both kRootChain kMangleTable;
  _ ← each (fun '(ip, anchor) => uninstallAnchor ip anchor kFilterTable) uninstalled_anchors;
  _ ← uninstallAnchor Both "100.transIp" kNatTable;
  _ ← uninstallAnchor Both "100.tagPkts" kMangleTable;
  _ ← uninstallAnchor Both "100.vpnTunOnly" kRawTable;
  teardownTrafficSplitting.

Definition install : fw unit :=
  _ ← uninstall;
  _ ← createChain Both kRootChain kFilterTable;
  _ ← createChain Both kRootChain kRawTable;
  _ ← createChain Both kRootChain kNatTable;
  _ ← createChain Both kRootChain kMangleTable;
  _ ← each (fun '(ip, anchor, rules) => installAnchor ip anchor rules kFilterTable None None)
        filter_anchors;
  _ ← installAnchor Both "100.transIp" [plain MASQUERADE] kNatTable None None;
  _ ← installAnchor Both "100.tagPkts" [tag_packets] kMangleTable
        (Some setupTrafficSplitting_) (Some teardownTrafficSplitting_);
  _ ← installAnchor Both "100.vpnTunOnly" [plain ACCEPT] kRawTable None None;
  _ ← linkChain Both kRootChain kOutputChain true kFilterTable;
  _ ← linkChain Both kRootChain kPostRoutingChain true kNatTable;
  _ ← linkChain Both kRootChain kOutputChain true kMangleTable;
  _ ← linkChain Both kRootChain kPreRoutingChain true kRawTable;
  setupTrafficSplitting.

Definition isInstalled : fw bool :=
  ipt iptables_4 kFilterTable (Check_rule kOutputChain (plain (Jump kRootChain))).

(** ** Updates *)

Definition refill (chain : string) (rules : list rule) : fw unit :=
  _ ← ipt iptables_4 kFilterTable (Flush_chain chain);
  each (fun r => _ ← ipt iptables_4 kFilterTable (Append_rule chain r); mret tt) rules.

Definition dns_rules (servers : list string) : list rule :=
  flat_map (fun server => flat_map (fun iface =>
    [accept_dns iface server "udp"; accept_dns iface server "tcp"]) tunnel_ifaces) servers.

Definition updateDNSServers (servers : list string) : fw unit :=
  refill (actualChain "320.allowDNS") (dns_rules servers).
Definition updateAllowNets (servers : list string) : fw unit :=
  refill (actualChain "110.allowNets") (map accept_dst servers).
Definition updateBlockNets (servers : list string) : fw unit :=
  refill (actualChain "120.blockNets") (map reject_dst servers).
End Firewall.
