(* ===== verification/LinuxFirewallFacts.v ===== *)
(** * The firewall of the service on Linux: its chains

    Lemmas on [LinuxFirewall].  What a function does to the filter table of one version is a
    function of the chains of that table ([effect]); [absent] and [laid_out] are the two shapes
    the table is in. *)

From S2P Require Import Prelude IpAddress Netfilter LinuxFirewall.

(** ** Effects on the filter table *)

Section Effects.
Context `{N : Netfilter}.
Hypothesis Hn : wf_netfilter N.

Definition view (v : version) (s : firewall) : chains := chains_of (filters s) v kFilterTable.

Definition effect {A} (m : fw A) (g : version -> chains -> chains) : Prop :=
  forall s v, view v (m s).2 = g v (view v s).

(** Where a function asked for [ip] acts. *)
Definition covers (ip : IPVersion) (v : version) : bool :=
  match ip, v with Both, _ | IPv4, iptables_4 | IPv6, iptables_6 => true | _, _ => false end.

Definition on_version (ip : IPVersion) (f : version -> chains -> chains) (v : version) (m : chains)
    : chains := if covers ip v then f v m else m.

Lemma effect_ext {A} (m : fw A) g g' :
  (forall v c, g v c = g' v c) -> effect m g -> effect m g'.
Proof. intros Hg H s v. by rewrite H, Hg. Qed.

Lemma effect_bind {A B} (m : fw A) (k : A -> fw B) g g' :
  effect m g -> (forall a, effect (k a) g') -> effect (m ≫= k) (fun v c => g' v (g v c)).
Proof.
  intros H1 H2 s v. unfold mbind, fw_bind. specialize (H1 s v). destruct (m s) as [a s1].
  cbn in *. by rewrite H2, H1.
Qed.

Lemma effect_ret {A} (a : A) : effect (mret a) (fun _ c => c).
Proof. by intros s v. Qed.

Lemma effect_bind_id {A B} (m : fw A) (k : A -> fw B) g' :
  effect m (fun _ c => c) -> (forall a, effect (k a) g') -> effect (m ≫= k) g'.
Proof. apply effect_bind. Qed.

Lemma effect_bind_last {A B} (m : fw A) (k : A -> fw B) g :
  effect m g -> (forall a, effect (k a) (fun _ c => c)) -> effect (m ≫= k) g.
Proof. intros H1 H2. exact (effect_bind m k g _ H1 H2). Qed.

Lemma effect_each {A} (f : A -> fw unit) g l :
  (forall a, effect (f a) (g a)) ->
  effect (each f l) (fun v c => fold_left (fun c a => g a v c) l c).
Proof.
  intros Hf. induction l as [|x l IH]; [apply effect_ret|]. cbn [each fold_left].
  exact (effect_bind (f x) _ (g x) _ (Hf x) (fun _ => IH)).
Qed.

Lemma ipt_view v t c s v' :
  view v' (ipt v t c s).2 =
  if bool_decide (v' = v /\ kFilterTable = t) then (documented (dst_accepts v) c (view v s)).2
  else view v' s.
Proof.
  unfold ipt, view. pose proof (iptables_chains _ Hn v t c (filters s) v' kFilterTable) as H.
  destruct (iptables v t c (filters s)) as [ok n]. cbn in *. rewrite H.
  destruct (bool_decide _) eqn:E; [|done]. bprop. by destruct E as [_ <-].
Qed.

Lemma ipt_status v c s :
  (ipt v kFilterTable c s).1 = (documented (dst_accepts v) c (view v s)).1.
Proof.
  unfold ipt, view. pose proof (iptables_status _ Hn v kFilterTable c (filters s)) as H.
  by destruct (iptables v kFilterTable c (filters s)).
Qed.

Lemma effect_ipt_other v t c : t <> kFilterTable -> effect (ipt v t c) (fun _ m => m).
Proof. intros Ht s v'. rewrite ipt_view, bool_decide_false; [done|]. by intros [_ <-]. Qed.

(** The commands of one version, on its chains. *)
Definition doc (v : version) (c : command) (m : chains) : bool * chains :=
  documented (dst_accepts v) c m.

(** A program that runs commands of one version only: its result and what it does. *)
Definition local {A} (v : version) (m : fw A) (b : chains -> A * chains) : Prop :=
  forall s, (m s).1 = (b (view v s)).1 /\ view v (m s).2 = (b (view v s)).2 /\
            forall v', v' <> v -> view v' (m s).2 = view v' s.

Lemma local_bind {A B} v (m : fw A) (k : A -> fw B) b b' :
  local v m b -> (forall a, local v (k a) (b' a)) ->
  local v (m ≫= k) (fun c => let '(a, c) := b c in b' a c).
Proof.
  intros H1 H2 s. unfold mbind, fw_bind. specialize (H1 s). destruct (m s) as [a s1].
  destruct (b (view v s)) as [a' c1]. cbn in H1. destruct H1 as (<- & <- & H1).
  destruct (H2 a s1) as (K1 & K2 & K3). split_and!; [done..|].
  intros v' Hv'. rewrite K3 by done. by apply H1.
Qed.

Lemma local_ret {A} v (a : A) : local v (mret a) (fun c => (a, c)).
Proof. by intros s. Qed.

Lemma local_ipt v c : local v (ipt v kFilterTable c) (doc v c).
Proof.
  intros s. split_and!.
  - apply ipt_status.
  - rewrite ipt_view, bool_decide_true by done. done.
  - intros v' Hv'. rewrite ipt_view, bool_decide_false; [done|]. by intros [-> _].
Qed.

Lemma local_list v c :
  local v (list_targets v kFilterTable c) (fun m => (map r_target (default [] (m !! c)), m)).
Proof. intros s. split_and!; [apply (listing_targets _ Hn)|done..]. Qed.

Lemma local_register v key f : local v (register key f) (fun m => (tt, m)).
Proof. intros s. unfold register. by destruct f, (callback_of key (anchorCallbacks s)). Qed.

Lemma local_each {A} v (f : A -> fw unit) g l :
  (forall a, local v (f a) (fun c => (tt, g a c))) ->
  local v (each f l) (fun c => (tt, fold_left (fun c a => g a c) l c)).
Proof.
  intros Hf. induction l as [|x l IH]; [apply local_ret|].
  exact (local_bind v (f x) _ _ _ (Hf x) (fun _ => IH)).
Qed.

Lemma local_ext {A} v (m : fw A) b b' : (forall c, b c = b' c) -> local v m b -> local v m b'.
Proof. intros Hb H s. by rewrite <- Hb. Qed.

Lemma local_effect {A} v (m : fw A) b g :
  local v m b -> (forall c, (b c).2 = g c) ->
  effect m (fun v' c => if bool_decide (v' = v) then g c else c).
Proof.
  intros H Hg s v'. destruct (H s) as (_ & H2 & H3). destruct (bool_decide (v' = v)) eqn:E; bprop.
  - subst. by rewrite H2.
  - by apply H3.
Qed.

Lemma effect_versions ip (f : version -> fw bool) g :
  (forall v, effect (f v) (fun v' m => if bool_decide (v' = v) then g v m else m)) ->
  effect (for_versions ip f) (on_version ip g).
Proof.
  intros Hf. unfold on_version. destruct ip; cbn [for_versions getCommand].
  - eapply effect_ext, Hf. by intros [].
  - eapply effect_ext, Hf. by intros [].
  - eapply effect_ext; [|apply effect_bind; [apply Hf|intros a; apply effect_bind_last; [apply Hf|]]].
    + by intros [].
    + intros b. apply effect_ret.
Qed.

Lemma effect_versions_ ip (f : version -> fw unit) g :
  (forall v, effect (f v) (fun v' m => if bool_decide (v' = v) then g v m else m)) ->
  effect (for_versions_ ip f) (on_version ip g).
Proof.
  intros Hf. unfold on_version. destruct ip; cbn [for_versions_ getCommand].
  - eapply effect_ext, Hf. by intros [].
  - eapply effect_ext, Hf. by intros [].
  - eapply effect_ext; [|apply effect_bind; [apply Hf|intros a; apply Hf]]. by intros [].
Qed.


(** Programs built of the above, as functions on the chains. *)
Definition b_create (v : version) (c : string) (m : chains) : bool * chains :=
  let '(ok, m) := doc v (New_chain c) m in if (ok : bool) then (true, m) else doc v (Flush_chain c) m.

Definition b_delete (v : version) (c : string) (m : chains) : bool * chains :=
  let '(ok, m) := doc v (List_chain c) m in
  if (ok : bool) then
    let '(flushed, m) := doc v (Flush_chain c) m in
    if (flushed : bool) then doc v (Delete_chain c) m else (false, m)
  else (true, m).

Definition b_link (v : version) (c parent : string) (mustBeFirst : bool) (m : chains)
    : bool * chains :=
  if mustBeFirst then
    let l := map r_target (default [] (m !! parent)) in
    if bool_decide (head l = Some (Jump c)) then (true, m)
    else
      let '(ok, m) := doc v (Insert_rule parent (plain (Jump c))) m in
      if (ok : bool) then
        match later_number (Jump c) (map r_target (default [] (m !! parent))) with
        | Some n => doc v (Delete_number parent n) m
        | None => (true, m)
        end
      else (false, m)
  else
    let '(ok, m) := doc v (Check_rule parent (plain (Jump c))) m in
    if (ok : bool) then (true, m) else doc v (Append_rule parent (plain (Jump c))) m.

Definition b_unlink (v : version) (c parent : string) (m : chains) : bool * chains :=
  let '(ok, m) := doc v (Check_rule parent (plain (Jump c))) m in
  if (ok : bool) then doc v (Delete_rule parent (plain (Jump c))) m else (true, m).

Definition b_enable (v : version) (a : string) (m : chains) : chains :=
  let r := plain (Jump (actualChain a)) in
  let '(on, m) := doc v (Check_rule (anchorChain a) r) m in
  if (on : bool) then m else (doc v (Append_rule (anchorChain a) r) m).2.

Definition b_disable (v : version) (a : string) (m : chains) : chains :=
  let '(on, m) := doc v (Check_rule (anchorChain a) (plain (Jump (actualChain a)))) m in
  if negb on then m else (doc v (Flush_chain (anchorChain a)) m).2.

Definition b_fill (v : version) (c : string) (rules : list rule) (m : chains) : chains :=
  fold_left (fun m r => (doc v (Append_rule c r) m).2) rules m.

Definition b_anchor (v : version) (a : string) (rules : list rule) (m : chains) : chains :=
  b_fill v (actualChain a) rules
    (b_create v (actualChain a)
       (b_link v (anchorChain a) kRootChain false (b_create v (anchorChain a) m).2).2).2.

Definition b_unanchor (v : version) (a : string) (m : chains) : chains :=
  (b_delete v (actualChain a)
     (b_delete v (anchorChain a) (b_unlink v (anchorChain a) kRootChain m).2).2).2.

Lemma local_if {A} v (a : bool) (m m' : fw A) b b' :
  local v m b -> local v m' b' -> local v (if a then m else m') (fun c => if a then b c else b' c).
Proof. by destruct a. Qed.

Lemma local_bind' {A B} v (m : fw A) (k : A -> fw B) b b' g :
  local v m b -> (forall a, local v (k a) (b' a)) ->
  (forall c, (let '(a, c) := b c in b' a c) = g c) -> local v (m ≫= k) g.
Proof. intros H1 H2 H3. eapply local_ext; [exact H3|by apply local_bind]. Qed.

Lemma one_version (v : version) (f : version -> fw bool) :
  for_versions (match v with iptables_4 => IPv4 | iptables_6 => IPv6 end) f = f v.
Proof. by destruct v. Qed.

Lemma create_local v c :
  local v (ok ← ipt v kFilterTable (New_chain c);
           if (ok : bool) then mret true else ipt v kFilterTable (Flush_chain c)) (b_create v c).
Proof.
  apply local_bind; [apply local_ipt|]. intros a. apply local_if; [apply local_ret|apply local_ipt].
Qed.

Lemma delete_local v c :
  local v (ok ← ipt v kFilterTable (List_chain c);
    if (ok : bool) then
      flushed ← ipt v kFilterTable (Flush_chain c);
      if (flushed : bool) then ipt v kFilterTable (Delete_chain c) else mret false
    else mret true) (b_delete v c).
Proof.
  apply local_bind; [apply local_ipt|]. intros a. apply local_if; [|apply local_ret].
  apply local_bind; [apply local_ipt|]. intros b. apply local_if; [apply local_ipt|apply local_ret].
Qed.

Lemma link_local v c parent (first : bool) :
  local v (if (first : bool) then
      l ← list_targets v kFilterTable parent;
      if bool_decide (head l = Some (Jump c)) then mret true
      else
        ok ← ipt v kFilterTable (Insert_rule parent (plain (Jump c)));
        if (ok : bool) then
          l ← list_targets v kFilterTable parent;
          match later_number (Jump c) l with
          | Some n => ipt v kFilterTable (Delete_number parent n)
          | None => mret true
          end
        else mret false
    else
      ok ← ipt v kFilterTable (Check_rule parent (plain (Jump c)));
      if (ok : bool) then mret true else ipt v kFilterTable (Append_rule parent (plain (Jump c))))
    (b_link v c parent first).
Proof.
  unfold b_link. apply local_if.
  - eapply local_ext; [|apply (local_bind v _ _ _ (fun l m =>
        if bool_decide (head l = Some (Jump c)) then (true, m)
        else let '(ok, m) := doc v (Insert_rule parent (plain (Jump c))) m in
             if (ok : bool) then
               match later_number (Jump c) (map r_target (default [] (m !! parent))) with
               | Some n => doc v (Delete_number parent n) m
               | None => (true, m)
               end
             else (false, m)) (local_list v parent))]; [done|].
    intros l. apply local_if; [apply local_ret|].
    apply local_bind; [apply local_ipt|]. intros ok. apply local_if; [|apply local_ret].
    eapply local_ext; [|apply (local_bind v _ _ _ (fun (l : list target) m =>
        match later_number (Jump c) l with
        | Some n => doc v (Delete_number parent n) m
        | None => (true, m)
        end) (local_list v parent))]; [done|].
    intros l'. destruct (later_number (Jump c) l'); [apply local_ipt|apply local_ret].
  - apply local_bind; [apply local_ipt|]. intros ok. apply local_if; [apply local_ret|apply local_ipt].
Qed.

Lemma unlink_local v c parent :
  local v (ok ← ipt v kFilterTable (Check_rule parent (plain (Jump c)));
    if (ok : bool) then ipt v kFilterTable (Delete_rule parent (plain (Jump c))) else mret true)
    (b_unlink v c parent).
Proof.
  apply local_bind; [apply local_ipt|]. intros a. apply local_if; [apply local_ipt|apply local_ret].
Qed.

Lemma append_local v c r :
  local v (_ ← ipt v kFilterTable (Append_rule c r); mret tt)
    (fun m => (tt, (doc v (Append_rule c r) m).2)).
Proof.
  eapply local_bind'; [apply local_ipt|intros a; apply local_ret|].
  intros m. by destruct (doc _ _ _).
Qed.

Lemma fill_local v c rules :
  local v (each (fun r => _ ← ipt v kFilterTable (Append_rule c r); mret tt) rules)
    (fun m => (tt, b_fill v c rules m)).
Proof. apply (local_each v _ (fun r m => (doc v (Append_rule c r) m).2)). intros r. apply append_local. Qed.

Lemma createChain_effect ip c :
  effect (createChain ip c kFilterTable) (on_version ip (fun v m => (b_create v c m).2)).
Proof. apply effect_versions. intros v. by apply (local_effect v _ _ _ (create_local v c)). Qed.

Lemma deleteChain_effect ip c :
  effect (deleteChain ip c kFilterTable) (on_version ip (fun v m => (b_delete v c m).2)).
Proof. apply effect_versions. intros v. by apply (local_effect v _ _ _ (delete_local v c)). Qed.

Lemma linkChain_effect ip c parent first :
  effect (linkChain ip c parent first kFilterTable)
    (on_version ip (fun v m => (b_link v c parent first m).2)).
Proof. apply effect_versions. intros v. by apply (local_effect v _ _ _ (link_local v c parent first)). Qed.

Lemma unlinkChain_effect ip c parent :
  effect (unlinkChain ip c parent kFilterTable)
    (on_version ip (fun v m => (b_unlink v c parent m).2)).
Proof. apply effect_versions. intros v. by apply (local_effect v _ _ _ (unlink_local v c parent)). Qed.

Lemma installAnchor_effect ip a rules f g :
  effect (installAnchor ip a rules kFilterTable f g) (on_version ip (fun v => b_anchor v a rules)).
Proof.
  apply effect_versions_. intros v. cbv zeta. unfold createChain, linkChain. rewrite !one_version.
  eapply local_effect.
  - apply local_bind; [apply create_local|intros ?].
    apply local_bind; [apply (link_local v _ _ false)|intros ?].
    apply local_bind; [apply local_register|intros ?].
    apply local_bind; [apply local_register|intros ?].
    apply local_bind; [apply create_local|intros ?]. apply fill_local.
  - intros m. unfold b_anchor. destruct (b_create v (anchorChain a) m) as [x1 m1]. cbn [snd].
    destruct (b_link _ _ _ _ m1) as [x2 m2]. cbn [snd].
    by destruct (b_create v (actualChain a) m2).
Qed.

Lemma uninstallAnchor_effect ip a :
  effect (uninstallAnchor ip a kFilterTable) (on_version ip (fun v => b_unanchor v a)).
Proof.
  apply effect_versions_. intros v. cbv zeta. unfold deleteChain, unlinkChain. rewrite !one_version.
  eapply local_effect.
  - apply local_bind; [apply unlink_local|intros ?].
    apply local_bind; [apply delete_local|intros ?].
    apply local_bind; [apply delete_local|intros ?]. apply local_ret.
  - intros m. unfold b_unanchor. destruct (b_unlink _ _ _ m) as [x1 m1]. cbn [snd].
    destruct (b_delete _ _ m1) as [x2 m2]. cbn [snd]. by destruct (b_delete _ _ m2).
Qed.

Lemma enableAnchor_effect ip a :
  effect (enableAnchor ip a kFilterTable) (on_version ip (fun v => b_enable v a)).
Proof.
  apply effect_versions_. intros v. cbv zeta. eapply local_effect.
  - apply local_bind; [apply local_ipt|intros on]. apply local_if; [apply local_ret|apply append_local].
  - intros m. unfold b_enable. destruct (doc _ _ m) as [[] m1]; done.
Qed.

Lemma disableAnchor_effect ip a :
  effect (disableAnchor ip a kFilterTable) (on_version ip (fun v => b_disable v a)).
Proof.
  apply effect_versions_. intros v. cbv zeta. eapply local_effect.
  - apply local_bind; [apply local_ipt|intros on]. apply local_if; [apply local_ret|].
    apply local_bind; [apply local_ipt|intros ?]. apply local_ret.
  - intros m. unfold b_disable. destruct (doc _ _ m) as [[] m1]; cbn [negb]; [|done].
    by destruct (doc _ (Flush_chain _) m1).
Qed.

Lemma refill_effect c rules :
  effect (refill c rules)
    (on_version IPv4 (fun v m => b_fill v c rules (doc v (Flush_chain c) m).2)).
Proof.
  unfold refill, on_version. eapply effect_ext.
  2:{ eapply (local_effect iptables_4); [|reflexivity].
      apply local_bind; [apply local_ipt|intros ?]. apply fill_local. }
  intros [] m; [|done]. rewrite bool_decide_true by done. cbn [covers]. by destruct (doc iptables_4 (Flush_chain c) m).
Qed.

(** *** What does not concern the filter table *)

Definition idle {A} (m : fw A) : Prop := effect m (fun _ c => c).

Lemma idle_shell c : idle (run_shell c).
Proof. by intros s v. Qed.

Lemma idle_bind {A B} (m : fw A) (k : A -> fw B) :
  idle m -> (forall a, idle (k a)) -> idle (m ≫= k).
Proof. intros H1 H2. exact (effect_bind m k _ _ H1 H2). Qed.

Lemma idle_setup : idle setupTrafficSplitting.
Proof.
  unfold setupTrafficSplitting. destruct (negb net_cls); [by intros s v|].
  repeat (apply idle_bind; [apply idle_shell|intros _]). apply idle_shell.
Qed.

Lemma idle_teardown : idle teardownTrafficSplitting.
Proof. repeat (apply idle_bind; [apply idle_shell|intros _]). apply idle_shell. Qed.

Lemma idle_registered key : idle (call_registered key).
Proof.
  intros s v. unfold call_registered. destruct (callback_of key (anchorCallbacks s)) as [[]|];
    [apply idle_setup|apply idle_teardown|done].
Qed.

Lemma setAnchorEnabled_effect ip a b :
  effect (setAnchorEnabled ip a b kFilterTable)
    (on_version ip (fun v => if b then b_enable v a else b_disable v a)).
Proof.
  unfold setAnchorEnabled. apply effect_bind_last; [|intros _; apply idle_registered].
  destruct b; [apply enableAnchor_effect|apply disableAnchor_effect].
Qed.
End Effects.
