(* ===== verification/LinuxFirewallShape.v ===== *)
(** * The firewall of the service on Linux: the shape of its chains

    The filter table of a version is in one of two shapes: the client has no chain in it
    ([absent]), or all of them are laid out under the root chain, each anchor on or off
    ([laid_out]).  Chains of other programs are left alone. *)

From S2P Require Import Prelude IpAddress Netfilter LinuxFirewall LinuxFirewallFacts.

(** ** Names *)

Definition ours (c : string) : bool := starts_with "amnvpn." c.

(** The anchors' names begin with a digit. *)
Definition named (a : string) : bool := match a with String c _ => is_digit c | _ => false end.

Lemma anchorChain_inj a b : anchorChain a = anchorChain b -> a = b.
Proof. apply string_app_inj_l. Qed.
Lemma actualChain_inj a b : actualChain a = actualChain b -> a = b.
Proof. apply string_app_inj_l. Qed.

Lemma anchor_not_actual a b : named b -> anchorChain a <> actualChain b.
Proof.
  intros Hb E. assert ("amnvpn." +:+ ("a." +:+ a) = "amnvpn." +:+ b) as Eb by exact E.
  apply string_app_inj_l in Eb. by subst b.
Qed.
Lemma root_not_anchor a : kRootChain <> anchorChain a.
Proof. done. Qed.
Lemma root_not_actual a : named a -> kRootChain <> actualChain a.
Proof.
  intros Ha E. assert ("amnvpn." +:+ "anchors" = "amnvpn." +:+ a) as Ea by exact E.
  apply string_app_inj_l in Ea. by subst a.
Qed.

Lemma anchor_not_root a : anchorChain a <> kRootChain.
Proof. intros E. by apply (root_not_anchor a). Qed.

Lemma ours_anchor a : ours (anchorChain a).
Proof.
  unfold ours, starts_with. change (anchorChain a) with ("amnvpn." +:+ ("a." +:+ a)).
  by rewrite prefix_app.
Qed.
Lemma ours_actual a : ours (actualChain a).
Proof. unfold ours, starts_with, actualChain. by rewrite prefix_app. Qed.
#[local] Hint Resolve ours_anchor ours_actual root_not_anchor anchor_not_root : core.

(** Rules that do not jump to the client's chains. *)
Definition no_jump (rules : list rule) : Prop :=
  forall r c, r ∈ rules -> r_target r = Jump c -> ours c = false.

Definition flat (rules : list rule) : Prop :=
  Forall (fun r => match r_target r with Jump _ => False | _ => True end) rules.

Lemma flat_no_jump rules : flat rules -> no_jump rules.
Proof.
  intros Hf r c Hr Ht. unfold flat in Hf. rewrite Forall_forall in Hf. specialize (Hf r Hr).
  by rewrite Ht in Hf.
Qed.

Lemma no_jump_nil : no_jump [].
Proof. intros r c Hr. set_solver. Qed.

Lemma no_jump_app l l' : no_jump l -> no_jump l' -> no_jump (l ++ l').
Proof. intros H1 H2 r c Hr. apply elem_of_app in Hr as [Hr|Hr]; [by apply H1|by apply H2]. Qed.

Lemma jumps_to_elem c rules : jumps_to c rules = true <-> exists r, r ∈ rules /\ r_target r = Jump c.
Proof.
  unfold jumps_to. rewrite existsb_exists. split.
  - intros (r & Hr & E). bprop. exists r. by rewrite list_elem_of_In.
  - intros (r & Hr & E). exists r. rewrite <- list_elem_of_In. by rewrite bool_decide_true.
Qed.

Lemma no_jump_jumps rules c : no_jump rules -> ours c -> jumps_to c rules = false.
Proof.
  intros Hj Hc. destruct (jumps_to c rules) eqn:E; [|done].
  apply jumps_to_elem in E as (r & Hr & Ht). specialize (Hj r c Hr Ht). by rewrite Hj in Hc.
Qed.

Section Shape.
Context `{N : Netfilter}.
Variable v : version.

(** ** Single commands *)

Lemma b_delete_spec c (m : chains) :
  c ∉ builtin_chains ->
  (forall c' rules, c' <> c -> m !! c' = Some rules -> jumps_to c rules = false) ->
  (b_delete v c m).2 = delete c m.
Proof.
  intros Hb Hj. unfold b_delete, doc. cbn [documented]. destruct (m !! c) as [rules|] eqn:E.
  - rewrite bool_decide_true by done. rewrite lookup_insert_eq.
    assert (referenced c (<[c := []]> m) = false) as ->.
    { unfold referenced. destruct (existsb _ _) eqn:Ex; [|done].
      apply existsb_exists in Ex as ([c' l] & Hin & Hjm). apply list_elem_of_In, elem_of_map_to_list in Hin.
      destruct (decide (c = c')) as [<-|Hne].
      - rewrite lookup_insert_eq in Hin. by simplify_eq/=.
      - rewrite lookup_insert_ne in Hin by done. by rewrite (Hj c' l) in Hjm. }
    rewrite bool_decide_false by done. cbn. by rewrite delete_insert_eq.
  - rewrite bool_decide_false by (intros []; congruence). cbn. by rewrite delete_id.
Qed.

Definition fillable (r : rule) : bool :=
  match r_target r with Jump _ => false | _ => true end
  && match r_dst r with Some d => dst_accepts v d | None => true end.

Lemma b_fill_spec c rules (m : chains) l :
  Forall (fun r => match r_target r with Jump _ => False | _ => True end) rules ->
  m !! c = Some l ->
  b_fill v c rules m = <[c := l ++ filter (fun r => fillable r = true) rules]> m.
Proof.
  unfold b_fill. revert m l. induction rules as [|r rules IH]; intros m l Hr Hm; cbn [fold_left].
  - by rewrite filter_nil, app_nil_r, insert_id.
  - apply Forall_cons in Hr as [Ht Hr]. unfold doc at 2. cbn [documented]. rewrite Hm, filter_cons.
    assert (rule_ok (dst_accepts v) r m = fillable r) as ->.
    { unfold rule_ok, fillable. by destruct (r_target r). }
    destruct (fillable r) eqn:Ef; cbn [snd].
    + rewrite decide_True by done. rewrite (IH _ (l ++ [r]) Hr) by (by rewrite lookup_insert_eq).
      rewrite insert_insert_eq. by rewrite <- app_assoc.
    + rewrite decide_False by congruence. by apply IH.
Qed.

(** ** Nothing of the client, or only remains of anchors *)

Record leftover (L : list string) (m : chains) : Prop := {
  lo_output : is_Some (m !! kOutputChain);
  lo_root : m !! kRootChain = None;
  lo_ours : forall c, ours c -> is_Some (m !! c) ->
              exists a, a ∈ L /\ (c = anchorChain a \/ c = actualChain a);
  lo_anchor : forall a rules, a ∈ L -> m !! anchorChain a = Some rules ->
                forall r c, r ∈ rules -> r_target r = Jump c -> c = actualChain a;
  lo_actual : forall a rules, a ∈ L -> m !! actualChain a = Some rules -> no_jump rules;
  lo_foreign : forall c rules, ours c = false -> m !! c = Some rules -> no_jump rules
}.

Definition absent (m : chains) : Prop := leftover [] m.

Lemma ours_not_builtin c : ours c -> c ∉ builtin_chains.
Proof. intros Ho Hb. unfold builtin_chains in Hb. set_unfold. naive_solver. Qed.

(** Who may jump to a chain of an anchor. *)
Lemma leftover_jumps L m c c' rules :
  leftover L m -> Forall (fun a => named a) L -> ours c' -> m !! c = Some rules ->
  jumps_to c' rules = true -> exists a, a ∈ L /\ c = anchorChain a /\ c' = actualChain a.
Proof.
  intros H HL Hc' Hm (r & Hr & Ht)%jumps_to_elem. destruct (ours c) eqn:Ec.
  - destruct (lo_ours _ _ H c) as (a & Ha & [-> | ->]); [by rewrite Ec|by eexists|..].
    + exists a. split_and!; [done..|]. by eapply (lo_anchor _ _ H a).
    + pose proof (lo_actual _ _ H a rules Ha Hm r c' Hr Ht) as Ho. by rewrite Ho in Hc'.
  - pose proof (lo_foreign _ _ H c rules Ec Hm r c' Hr Ht) as Ho. by rewrite Ho in Hc'.
Qed.

Lemma b_unanchor_spec L m a :
  leftover L m -> Forall (fun a => named a) L -> named a ->
  b_unanchor v a m = delete (actualChain a) (delete (anchorChain a) m).
Proof.
  intros H HL Ha. unfold b_unanchor.
  assert ((b_unlink v (anchorChain a) kRootChain m).2 = m) as ->.
  { unfold b_unlink, doc. cbn [documented]. by rewrite (lo_root _ _ H). }
  assert ((b_delete v (anchorChain a) m).2 = delete (anchorChain a) m) as ->.
  { apply b_delete_spec; [by apply ours_not_builtin|]. intros c' rules _ Hm.
    destruct (jumps_to _ _) eqn:E; [|done].
    apply (leftover_jumps L m c') in E as (b & Hb & _ & E); [|done..].
    rewrite Forall_forall in HL. exfalso. by eapply anchor_not_actual, E; apply HL. }
  apply b_delete_spec; [by apply ours_not_builtin|]. intros c' rules _ Hm.
  apply lookup_delete_Some in Hm as [Hne Hm]. destruct (jumps_to _ _) eqn:E; [|done].
  apply (leftover_jumps L m c') in E as (b & Hb & -> & E); [|done..].
  apply actualChain_inj in E as ->. done.
Qed.

Lemma leftover_unanchor L m a :
  leftover L m -> Forall (fun a => named a) L -> named a ->
  leftover (filter (fun b => b <> a) L) (b_unanchor v a m).
Proof.
  intros H HL Ha. rewrite (b_unanchor_spec L m a H HL Ha).
  assert (forall c, ours c = false -> delete (actualChain a) (delete (anchorChain a) m) !! c = m !! c) as Hf.
  { intros c Hc. rewrite !lookup_delete_ne; [done|intros <-..].
    - pose proof (ours_anchor a) as Ho. by rewrite Hc in Ho.
    - pose proof (ours_actual a) as Ho. by rewrite Hc in Ho. }
  assert (forall c rules, delete (actualChain a) (delete (anchorChain a) m) !! c = Some rules ->
     c <> actualChain a /\ c <> anchorChain a /\ m !! c = Some rules) as Hs.
  { intros c rules. rewrite !lookup_delete_Some. naive_solver. }
  split.
  - rewrite Hf by done. apply (lo_output _ _ H).
  - destruct (_ !! kRootChain) as [rules|] eqn:E; [|done].
    apply Hs in E as (_ & _ & E). by rewrite (lo_root _ _ H) in E.
  - intros c Hc [rules (H1 & H2 & Hm)%Hs]. destruct (lo_ours _ _ H c Hc) as (b & Hb & E); [by eexists|].
    exists b. split; [|done]. apply list_elem_of_filter. split; [|done]. intros ->. by destruct E.
  - intros b rules [_ Hb]%list_elem_of_filter (_ & _ & Hm)%Hs. by eapply lo_anchor.
  - intros b rules [_ Hb]%list_elem_of_filter (_ & _ & Hm)%Hs. by eapply lo_actual.
  - intros c rules Hc. rewrite Hf by done. by apply (lo_foreign _ _ H).
Qed.

(** The removal of a list of anchors. *)
Definition unanchor_all (us : list (IPVersion * string)) (m : chains) : chains :=
  fold_left (fun m '(ip, a) => on_version ip (fun v => b_unanchor v a) v m) us m.

Lemma leftover_all us L m :
  leftover L m -> Forall (fun a => named a) L -> Forall (fun u => named u.2) us ->
  leftover (fold_left (fun L '(ip, a) => if covers ip v then filter (fun b => b <> a) L else L) us L)
    (unanchor_all us m).
Proof.
  unfold unanchor_all, on_version. revert L m.
  induction us as [|[ip a] us IH]; intros L m H HL Hu; [done|]. cbn [fold_left].
  apply Forall_cons in Hu as [Ha Hu]. destruct (covers ip v); [|by apply IH].
  apply IH; [by apply leftover_unanchor| |done]. rewrite Forall_forall in HL |- *.
  intros b [_ Hb]%list_elem_of_filter. by apply HL.
Qed.

(** ** All of the client's chains *)

(** The anchors of this version, in the order they are tried, and the rules they come with. *)
Definition installed_here : list (IPVersion * string * list rule) :=
  filter (fun x => covers x.1.1 v = true) filter_anchors.
Definition names : list string := map (fun x => x.1.2) installed_here.
Definition first_rules (a : string) : list rule :=
  match list_find (fun x => x.1.2 = a) installed_here with Some (_, x) => x.2 | None => [] end.

(** Which anchors are on, and the rules of each. *)
Record policy := mkPolicy { on : string -> bool; body : string -> list rule }.

Definition jump (c : string) : rule := plain (Jump c).

Lemma jump_inj c c' : r_target (jump c) = Jump c' -> c' = c.
Proof. by intros [= ->]. Qed.

Definition accounted (L : list string) (m : chains) : Prop :=
  forall c, ours c -> is_Some (m !! c) ->
    c = kRootChain \/ exists a, a ∈ L /\ (c = anchorChain a \/ c = actualChain a).

Record laid_out (P : policy) (m : chains) : Prop := {
  l_output : exists pre rest, m !! kOutputChain = Some (pre ++ jump kRootChain :: rest) /\
               no_jump pre /\ no_jump rest;
  l_root : m !! kRootChain = Some (map (fun a => jump (anchorChain a)) names);
  l_anchor : forall a, a ∈ names ->
    m !! anchorChain a = Some (if on P a then [jump (actualChain a)] else []);
  l_actual : forall a, a ∈ names -> m !! actualChain a = Some (body P a);
  l_body : forall a, a ∈ names -> flat (body P a);
  l_ours : accounted names m;
  l_foreign : forall c rules, ours c = false -> c <> kOutputChain -> m !! c = Some rules -> no_jump rules
}.

Lemma remove_first_app r l l' : r ∉ l -> remove_first r (l ++ r :: l') = l ++ l'.
Proof.
  induction l as [|x l IH]; intros Hr; cbn.
  - by rewrite bool_decide_true.
  - rewrite bool_decide_false by set_solver. rewrite IH; [done|set_solver].
Qed.

Lemma no_jump_root l : no_jump l -> jump kRootChain ∉ l.
Proof. intros Hl Hr. by specialize (Hl _ kRootChain Hr eq_refl). Qed.

Lemma names_named : Forall (fun a => named a) names.
Proof. unfold names, installed_here. destruct v; vm_compute; repeat constructor. Qed.

Lemma uninstall_laid_out P m :
  laid_out P m ->
  leftover names (b_delete v kRootChain (b_unlink v kRootChain kOutputChain m).2).2.
Proof.
  intros H. destruct (l_output _ _ H) as (pre & rest & Ho & Hpre & Hrest).
  assert ((b_unlink v kRootChain kOutputChain m).2 = <[kOutputChain := pre ++ rest]> m) as ->.
  { unfold b_unlink, doc. cbn [documented]. rewrite Ho, !bool_decide_true by set_solver. cbn [snd].
    rewrite remove_first_app by (by apply no_jump_root). done. }
  set (m1 := <[kOutputChain := pre ++ rest]> m).
  assert (forall c, c <> kOutputChain -> m1 !! c = m !! c) as Hm1
    by (intros c Hc; by apply lookup_insert_ne).
  assert (m1 !! kOutputChain = Some (pre ++ rest)) as Hm1o by apply lookup_insert_eq.
  pose proof names_named as HN. rewrite Forall_forall in HN.
  assert (forall c, ours c -> c <> kOutputChain) as Hoo by (by intros c Hc ->).
  rewrite b_delete_spec.
  3:{ intros c rules Hne Hm. destruct (jumps_to kRootChain rules) eqn:E; [|done].
      apply jumps_to_elem in E as (r & Hr & Ht). exfalso.
      destruct (decide (c = kOutputChain)) as [->|Hc].
      { rewrite Hm1o in Hm. simplify_eq. by specialize (no_jump_app _ _ Hpre Hrest r _ Hr Ht). }
      rewrite Hm1 in Hm by done. destruct (ours c) eqn:Ec.
      2:{ by specialize (l_foreign _ _ H c rules Ec Hc Hm r _ Hr Ht). }
      destruct (l_ours _ _ H c) as [->|(a & Ha & [-> | ->])]; [by rewrite Ec|by eexists|done|..].
      - rewrite (l_anchor _ _ H a Ha) in Hm. destruct (on P a); simplify_eq; [|set_solver].
        apply list_elem_of_singleton in Hr as ->. apply jump_inj in Ht.
        by eapply root_not_actual, Ht; apply HN.
      - rewrite (l_actual _ _ H a Ha) in Hm. simplify_eq.
        by specialize (flat_no_jump _ (l_body _ _ H a Ha) r _ Hr Ht). }
  2:{ by apply ours_not_builtin. }
  assert (forall c, ours c -> c <> kRootChain -> delete kRootChain m1 !! c = m !! c) as Hdel.
  { intros c Hc Hne. rewrite lookup_delete_ne by done. apply Hm1. by apply Hoo. }
  split.
  - rewrite lookup_delete_ne by done. by rewrite Hm1o.
  - by rewrite lookup_delete_eq.
  - intros c Hc [rules Hm]. apply lookup_delete_Some in Hm as [Hne Hm].
    rewrite Hm1 in Hm by (by apply Hoo).
    destruct (l_ours _ _ H c Hc) as [->|?]; [by eexists|done|done].
  - intros a rules Ha Hm r c Hr Ht. rewrite Hdel, (l_anchor _ _ H a Ha) in Hm by done.
    destruct (on P a); simplify_eq; [|set_solver].
    apply list_elem_of_singleton in Hr as ->. by apply jump_inj in Ht.
  - intros a rules Ha Hm. rewrite Hdel, (l_actual _ _ H a Ha) in Hm; [|done|].
    + simplify_eq. by apply flat_no_jump, (l_body _ _ H).
    + intros E. symmetry in E. by eapply root_not_actual, E; apply HN.
  - intros c rules Hc. rewrite lookup_delete_ne by (by intros <-).
    destruct (decide (c = kOutputChain)) as [->|Hne].
    + rewrite Hm1o. intros [= <-]. by apply no_jump_app.
    + rewrite Hm1 by done. by apply (l_foreign _ _ H).
Qed.

Lemma uninstall_absent m :
  absent m -> (b_delete v kRootChain (b_unlink v kRootChain kOutputChain m).2).2 = m.
Proof.
  intros H. destruct (lo_output _ _ H) as [rules Ho].
  assert ((b_unlink v kRootChain kOutputChain m).2 = m) as ->.
  { unfold b_unlink, doc. cbn [documented]. rewrite Ho, bool_decide_false; [done|].
    apply no_jump_root. by apply (lo_foreign _ _ H kOutputChain). }
  unfold b_delete, doc. cbn [documented]. rewrite (lo_root _ _ H).
  rewrite bool_decide_false; [done|]. by intros [].
Qed.

Lemma all_anchors_uninstalled :
  fold_left (fun L '(ip, a) => if covers ip v then filter (fun b => b <> a) L else L)
    uninstalled_anchors names = [] /\
  fold_left (fun L '(ip, a) => if covers ip v then filter (fun b => b <> a) L else L)
    uninstalled_anchors [] = [].
Proof. unfold names, installed_here. destruct v; split; vm_compute; reflexivity. Qed.

Lemma uninstalled_named : Forall (fun u : IPVersion * string => named u.2) uninstalled_anchors.
Proof. repeat constructor. Qed.

Definition b_uninstall (m : chains) : chains :=
  unanchor_all uninstalled_anchors
    (b_delete v kRootChain (b_unlink v kRootChain kOutputChain m).2).2.

(** Whatever was on, nothing of the client remains, and the other chains are as they were. *)
Lemma b_uninstall_absent m :
  absent m \/ (exists P, laid_out P m) -> absent (b_uninstall m).
Proof.
  destruct all_anchors_uninstalled as [E1 E2]. unfold b_uninstall. intros [H|[P H]].
  - rewrite uninstall_absent by done.
    pose proof (leftover_all uninstalled_anchors [] m H (Forall_nil_2 _) uninstalled_named) as Hl.
    by rewrite E2 in Hl.
  - apply uninstall_laid_out in H.
    pose proof (leftover_all uninstalled_anchors names _ H names_named uninstalled_named) as Hl.
    by rewrite E1 in Hl.
Qed.

(** ** Installation *)

Record partial (L : list string) (B : string -> list rule) (m : chains) : Prop := {
  p_output : is_Some (m !! kOutputChain);
  p_root : m !! kRootChain = Some (map (fun a => jump (anchorChain a)) L);
  p_anchor : forall a, a ∈ L -> m !! anchorChain a = Some [];
  p_actual : forall a, a ∈ L -> m !! actualChain a = Some (B a);
  p_ours : accounted L m;
  p_foreign : forall c rules, ours c = false -> m !! c = Some rules -> no_jump rules
}.

(** A chain that is not there yet and whose name is short enough is made. *)
Lemma b_create_spec c (m : chains) :
  m !! c = None -> String.length c < 29 -> (b_create v c m).2 = <[c := []]> m.
Proof.
  intros Hm Hl. unfold b_create, doc. cbn [documented]. rewrite Hm.
  rewrite bool_decide_false by (by intros []).
  assert ((29 <=? String.length c)%nat = false) as -> by (by apply Nat.leb_gt). done.
Qed.

Definition anchor_ok (a : string) (rules : list rule) : Prop :=
  named a /\ String.length a < 20 /\ Forall (fun r => fillable r = true) rules.

Lemma anchorChain_length a : String.length a < 20 -> String.length (anchorChain a) < 29.
Proof. unfold anchorChain. rewrite string_length_app. cbn. lia. Qed.
Lemma actualChain_length a : String.length a < 20 -> String.length (actualChain a) < 29.
Proof. unfold actualChain. rewrite string_length_app. cbn. lia. Qed.

Lemma fillable_all rules :
  Forall (fun r => fillable r = true) rules ->
  filter (fun r => fillable r = true) rules = rules /\
  Forall (fun r => match r_target r with Jump _ => False | _ => True end) rules.
Proof.
  intros Hr. split.
  { induction Hr as [|r rules Hx _ IH]; [done|]. by rewrite filter_cons, decide_True, IH. }
  eapply Forall_impl; [exact Hr|].
  intros r. cbn. unfold fillable. by destruct (r_target r).
Qed.

Lemma partial_anchor L B m a rules :
  partial L B m -> Forall (fun a => named a) L -> a ∉ L -> anchor_ok a rules ->
  partial (L ++ [a]) (fun b => if String.eqb b a then rules else B b) (b_anchor v a rules m).
Proof.
  intros H HL Ha (Hn & Hlen & Hr). destruct (fillable_all rules Hr) as [Hfl Hnj].
  rewrite Forall_forall in HL.
  assert (m !! anchorChain a = None) as Hm1.
  { destruct (m !! anchorChain a) eqn:E; [|done].
    destruct (p_ours _ _ _ H (anchorChain a)) as [|(b & Hb & [E'|E'])]; [done|by eexists|done|..].
    - by apply anchorChain_inj in E' as ->.
    - exfalso. by eapply anchor_not_actual, E'; apply HL. }
  assert (m !! actualChain a = None) as Hm2.
  { destruct (m !! actualChain a) eqn:E; [|done].
    destruct (p_ours _ _ _ H (actualChain a)) as [E'|(b & Hb & [E'|E'])]; [done|by eexists|..].
    - exfalso. by eapply root_not_actual.
    - exfalso. by eapply anchor_not_actual, eq_sym.
    - by apply actualChain_inj in E' as ->. }
  assert (b_anchor v a rules m =
    <[actualChain a := rules]> (<[kRootChain := map (fun a => jump (anchorChain a)) (L ++ [a])]>
      (<[anchorChain a := []]> m))) as ->.
  { unfold b_anchor. rewrite (b_create_spec (anchorChain a) m Hm1) by (by apply anchorChain_length).
    assert ((b_link v (anchorChain a) kRootChain false (<[anchorChain a := []]> m)).2
      = <[kRootChain := map (fun a => jump (anchorChain a)) (L ++ [a])]> (<[anchorChain a := []]> m)) as ->.
    { unfold b_link, doc. cbn [documented]. rewrite lookup_insert_ne by done.
      rewrite (p_root _ _ _ H). rewrite bool_decide_false.
      - unfold rule_ok. cbn [r_target plain r_dst]. rewrite lookup_insert_eq.
        rewrite bool_decide_true by done. cbn [andb snd]. by rewrite map_app.
      - intros (b & E & Hb)%list_elem_of_fmap. apply (f_equal r_target) in E.
        change (r_target (jump (anchorChain a)) = Jump (anchorChain b)) in E.
        apply jump_inj, anchorChain_inj in E. by subst. }
    rewrite b_create_spec; [|rewrite !lookup_insert_ne; try done|by apply actualChain_length].
    2:{ intros E. by eapply anchor_not_actual, E. }
    2:{ intros E. by eapply root_not_actual. }
    rewrite (b_fill_spec _ _ _ []) by (done || apply lookup_insert_eq).
    by rewrite Hfl, insert_insert_eq. }
  set (m' := <[actualChain a := rules]> _).
  assert (forall c, c <> actualChain a -> c <> kRootChain -> c <> anchorChain a -> m' !! c = m !! c) as Ho.
  { intros c H1 H2 H3. unfold m'. by rewrite !lookup_insert_ne. }
  assert (kRootChain <> actualChain a) as Hra by (by apply root_not_actual).
  assert (anchorChain a <> actualChain a) as Haa by (by apply anchor_not_actual).
  split.
  - rewrite Ho by done. apply (p_output _ _ _ H).
  - unfold m'. rewrite lookup_insert_ne by done. by rewrite lookup_insert_eq.
  - intros b [Hb| ->%list_elem_of_singleton]%elem_of_app.
    + rewrite Ho; [by apply (p_anchor _ _ _ H)|by apply anchor_not_actual|done|].
      intros ->%anchorChain_inj. done.
    + unfold m'. rewrite !lookup_insert_ne by done. by rewrite lookup_insert_eq.
  - intros b Hb. destruct (String.eqb_spec b a) as [->|Hne].
    { unfold m'. by rewrite lookup_insert_eq. }
    apply elem_of_app in Hb as [Hb| ->%list_elem_of_singleton]; [|done].
    rewrite Ho; [by apply (p_actual _ _ _ H)|by intros E%actualChain_inj|..].
    + intros E. symmetry in E. eapply root_not_actual, E. by apply HL.
    + intros E. symmetry in E. eapply anchor_not_actual, E. by apply HL.
  - intros c Hc Hs. destruct (decide (c = kRootChain)) as [|Hcr]; [by left|right].
    destruct (decide (c = anchorChain a)) as [|Hca]; [exists a; set_solver|].
    destruct (decide (c = actualChain a)) as [|Hct]; [exists a; set_solver|].
    rewrite Ho in Hs by done. destruct (p_ours _ _ _ H c Hc Hs) as [|(b & Hb & E)]; [done|].
    exists b. set_solver.
  - intros c rules' Hc. rewrite Ho; [by apply (p_foreign _ _ _ H)|..].
    + intros ->. pose proof (ours_actual a) as Hx. by rewrite Hc in Hx.
    + by intros ->.
    + intros ->. pose proof (ours_anchor a) as Hx. by rewrite Hc in Hx.
Qed.

Definition anchor_all (xs : list (IPVersion * string * list rule)) (m : chains) : chains :=
  fold_left (fun m x => on_version x.1.1 (fun v => b_anchor v x.1.2 x.2) v m) xs m.

Definition here (xs : list (IPVersion * string * list rule)) : list (IPVersion * string * list rule) :=
  filter (fun x => covers x.1.1 v = true) xs.

Lemma partial_all xs L B m :
  partial L B m -> Forall (fun a => named a) L ->
  Forall (fun x => anchor_ok x.1.2 x.2) (here xs) ->
  NoDup (L ++ map (fun x => x.1.2) (here xs)) ->
  exists B', partial (L ++ map (fun x => x.1.2) (here xs)) B' (anchor_all xs m) /\
    (forall a, a ∈ L -> B' a = B a) /\ (forall x, x ∈ here xs -> B' x.1.2 = x.2).
Proof.
  revert L B m. induction xs as [|[[ip a] rules] xs IH]; intros L B m H HL Hok Hnd.
  { exists B. unfold here. rewrite filter_nil, app_nil_r. split_and!; [done..|]. set_solver. }
  unfold anchor_all. cbn [fold_left fst snd]. unfold on_version at 2.
  revert Hok Hnd. unfold here. rewrite filter_cons. cbn [fst snd]. fold (here xs).
  destruct (covers ip v).
  2:{ rewrite decide_False by done. intros Hok Hnd. by apply IH. }
  rewrite decide_True by done. cbn [map fst snd]. intros Hok Hnd.
  apply Forall_cons in Hok as [Ha Hok].
  assert (a ∉ L) as HaL.
  { intros Hin. apply NoDup_app in Hnd as (_ & Hd & _). apply (Hd a Hin). set_solver. }
  pose proof (partial_anchor L B m a rules H HL HaL Ha) as H1.
  rewrite cons_middle, app_assoc in Hnd |- *.
  destruct (IH (L ++ [a]) _ _ H1) as (B' & HB & HB1 & HB2); [|done|done|].
  { apply Forall_app. split; [done|]. apply Forall_singleton. apply Ha. }
  exists B'. split_and!; [done|..].
  - intros b Hb. rewrite HB1 by set_solver.
    destruct (String.eqb_spec b a) as [->|]; [done|done].
  - intros x [-> | Hx]%elem_of_cons; [|by apply HB2]. cbn. rewrite HB1 by set_solver.
    by rewrite String.eqb_refl.
Qed.

End Shape.

Section Install.
Context `{N : Netfilter}.
Hypothesis Hn : wf_netfilter N.

Lemma literal_4 d : d ∈ "255.255.255.255" :: lan_4 -> dst_accepts iptables_4 d = true.
Proof. intros Hd. pose proof (literals_4 _ Hn) as H. rewrite Forall_forall in H. by apply H. Qed.
Lemma literal_6 d : d ∈ lan_6 -> dst_accepts iptables_6 d = true.
Proof. intros Hd. pose proof (literals_6 _ Hn) as H. rewrite Forall_forall in H. by apply H. Qed.

Ltac literal := cbn; rewrite ?andb_true_r;
  first [done | apply literal_4; unfold lan_4; set_solver | apply literal_6; unfold lan_6; set_solver].

Lemma anchors_ok v : Forall (fun x => anchor_ok v x.1.2 x.2) (installed_here v).
Proof.
  unfold installed_here.
  destruct v; match goal with |- Forall _ ?l => let l' := eval vm_compute in l in change l with l' end;
    repeat (apply Forall_cons; split; [split_and!; [done|cbn; lia|repeat (apply Forall_cons; split; [literal|]); apply Forall_nil_2]|]);
    apply Forall_nil_2.
Qed.

Lemma names_nodup v : NoDup (names v).
Proof. apply (bool_decide_unpack _). destruct v; vm_compute; done. Qed.

Lemma later_number_spec x y l l' :
  x ∉ l -> later_number x (y :: l ++ x :: l') = Some (length l + 2)%nat.
Proof.
  intros Hx. unfold later_number.
  assert (list_find (fun z => z = x) (l ++ x :: l') = Some (length l, x)) as ->; [|done].
  apply list_find_Some. split_and!; [by apply list_lookup_middle|done|].
  intros j z Hj Hlt ->. rewrite lookup_app_l in Hj by done. by apply Hx, (list_elem_of_lookup_2 _ j).
Qed.

Lemma later_number_none x y l : x ∉ l -> later_number x (y :: l) = None.
Proof.
  intros Hx. unfold later_number. rewrite (proj2 (list_find_None _ _)); [done|].
  apply Forall_forall. by intros z Hz ->.
Qed.

(** The root chain goes to the top of its parent, once. *)
Lemma link_first_spec v (m : chains) pre rest :
  m !! kOutputChain = Some (pre ++ jump kRootChain :: rest) -> no_jump pre -> no_jump rest ->
  is_Some (m !! kRootChain) ->
  (b_link v kRootChain kOutputChain true m).2 =
    <[kOutputChain := jump kRootChain :: pre ++ rest]> m.
Proof.
  intros Ho Hpre Hrest Hr. unfold b_link. rewrite Ho. cbn [default from_option id].
  destruct pre as [|r pre].
  { cbn [app map head]. rewrite bool_decide_true by done. cbn. by rewrite insert_id. }
  assert (r_target r <> Jump kRootChain) as Hrt.
  { intros E. by specialize (Hpre r _ ltac:(set_solver) E). }
  rewrite bool_decide_false by (cbn; intros [= E]; done).
  unfold doc. cbn [documented]. rewrite Ho. unfold rule_ok at 1. cbn [r_target plain r_dst].
  rewrite bool_decide_true by done. cbn [andb].
  rewrite lookup_insert_eq. cbn [default from_option id].
  assert (map r_target (plain (Jump kRootChain) :: (r :: pre) ++ jump kRootChain :: rest)
    = Jump kRootChain :: map r_target (r :: pre) ++ Jump kRootChain :: map r_target rest) as ->
    by (cbn [map]; by rewrite map_app).
  rewrite later_number_spec.
  2:{ intros (r' & E & Hr')%list_elem_of_fmap. by specialize (Hpre r' _ Hr' (eq_sym E)). }
  rewrite length_map.
  assert ((1 <=? length (r :: pre) + 2)%nat = true) as -> by (apply Nat.leb_le; lia).
  assert ((length (r :: pre) + 2 <=? length (plain (Jump kRootChain) :: (r :: pre) ++ jump kRootChain :: rest))%nat = true) as ->
    by (apply Nat.leb_le; cbn; rewrite length_app; cbn; lia).
  cbn [andb snd]. rewrite insert_insert_eq. do 2 f_equal.
  replace (length (r :: pre) + 2 - 1)%nat with (S (length (r :: pre))) by lia.
  exact (f_equal (cons _) (delete_middle (r :: pre) rest (jump kRootChain))).
Qed.

Lemma link_new_spec v (m : chains) rules :
  m !! kOutputChain = Some rules -> no_jump rules -> is_Some (m !! kRootChain) ->
  (b_link v kRootChain kOutputChain true m).2 = <[kOutputChain := jump kRootChain :: rules]> m.
Proof.
  intros Ho Hnj Hr. unfold b_link. rewrite Ho. cbn [default from_option id].
  assert (Jump kRootChain ∉ map r_target rules) as Hni.
  { intros (r & E & Hx)%list_elem_of_fmap. by specialize (Hnj r _ Hx (eq_sym E)). }
  rewrite bool_decide_false.
  2:{ destruct rules; cbn; [done|]. intros [= E]. apply Hni. cbn. rewrite E. set_solver. }
  unfold doc. cbn [documented]. rewrite Ho. unfold rule_ok. cbn [r_target plain r_dst].
  rewrite bool_decide_true by done. cbn [andb]. rewrite lookup_insert_eq.
  cbn [default from_option id map]. by rewrite later_number_none.
Qed.

Definition b_install (v : version) (m : chains) : chains :=
  (b_link v kRootChain kOutputChain true
     (anchor_all v filter_anchors (b_create v kRootChain (b_uninstall v m)).2)).2.

Definition fresh_policy (v : version) : policy := mkPolicy (fun _ => false) (first_rules v).

Lemma first_rules_in v a :
  a ∈ names v -> exists x, x ∈ installed_here v /\ x.1.2 = a /\ first_rules v a = x.2.
Proof.
  unfold names, first_rules. intros (y & -> & Hy)%list_elem_of_fmap.
  destruct (list_find_elem_of (fun x => x.1.2 = y.1.2) _ y Hy eq_refl) as [[i x] E].
  rewrite E. apply list_find_Some in E as (Hi & E & _).
  exists x. split_and!; [by eapply list_elem_of_lookup_2|done|done].
Qed.

Lemma install_laid_out v m :
  absent m \/ (exists P, laid_out v P m) ->
  laid_out v (fresh_policy v) (b_install v m) /\
  head (default [] (b_install v m !! kOutputChain)) = Some (jump kRootChain).
Proof.
  intros H. apply (b_uninstall_absent v) in H. unfold b_install.
  set (m0 := b_uninstall v m) in *.
  rewrite (b_create_spec v kRootChain m0 (lo_root _ _ H)) by (cbn; lia).
  set (m1 := <[kRootChain := []]> m0).
  assert (partial [] (fun _ => []) m1) as Hp.
  { split; try set_solver.
    - unfold m1. rewrite lookup_insert_ne by done. apply (lo_output _ _ H).
    - apply lookup_insert_eq.
    - intros c Hc Hs. destruct (decide (c = kRootChain)) as [->|Hne]; [by left|].
      unfold m1 in Hs. rewrite lookup_insert_ne in Hs by done.
      destruct (lo_ours _ _ H c Hc Hs) as (a & Ha & _). set_solver.
    - intros c rules Hc. unfold m1. rewrite lookup_insert_ne by (by intros <-).
      by apply (lo_foreign _ _ H). }
  destruct (partial_all v filter_anchors [] _ m1 Hp (Forall_nil_2 _) (anchors_ok v) (names_nodup v))
    as (B & HB & _ & Hrules).
  cbn [app] in HB. change (map _ (here v filter_anchors)) with (names v) in HB.
  set (m2 := anchor_all v filter_anchors m1) in *. destruct (p_output _ _ _ HB) as [rules Ho].
  assert (no_jump rules) as Hnj by (by apply (p_foreign _ _ _ HB kOutputChain)).
  rewrite (link_new_spec v m2 rules Ho Hnj) by (rewrite (p_root _ _ _ HB); by eexists).
  assert (forall c, ours c -> <[kOutputChain := jump kRootChain :: rules]> m2 !! c = m2 !! c) as Hc.
  { intros c Hc. apply lookup_insert_ne. by intros <-. }
  split; [|by rewrite lookup_insert_eq]. split.
  - exists [], rules. rewrite lookup_insert_eq. split_and!; [done|apply no_jump_nil|done].
  - rewrite Hc by done. apply (p_root _ _ _ HB).
  - intros a Ha. rewrite Hc by apply ours_anchor. by apply (p_anchor _ _ _ HB).
  - intros a Ha. rewrite Hc by apply ours_actual. rewrite (p_actual _ _ _ HB a Ha). cbn. f_equal.
    destruct (first_rules_in v a Ha) as (x & Hx & <- & ->). by apply Hrules.
  - intros a Ha. cbn. destruct (first_rules_in v a Ha) as (x & Hx & _ & ->).
    pose proof (anchors_ok v) as Hok. rewrite Forall_forall in Hok.
    destruct (Hok x Hx) as (_ & _ & Hf). by apply (fillable_all v).
  - intros c Hc' Hs. rewrite Hc in Hs by done. by apply (p_ours _ _ _ HB).
  - intros c rules' Hc' Hne. rewrite lookup_insert_ne by done. by apply (p_foreign _ _ _ HB).
Qed.

(** ** Switching and filling *)

Definition switch (a : string) (b : bool) (P : policy) : policy :=
  mkPolicy (fun x => if String.eqb x a then b else on P x) (body P).
Definition fill_body (a : string) (rules : list rule) (P : policy) : policy :=
  mkPolicy (on P) (fun x => if String.eqb x a then rules else body P x).

(** Only a chain of one anchor changes. *)
Lemma laid_out_anchor v P m a b :
  laid_out v P m -> a ∈ names v ->
  laid_out v (switch a b P)
    (<[anchorChain a := if b then [jump (actualChain a)] else []]> m).
Proof.
  intros H Ha. pose proof (names_named v) as HN. rewrite Forall_forall in HN.
  destruct (l_output _ _ _ H) as (pre & rest & Ho & H1 & H2). split; cbn [on body switch].
  - exists pre, rest. rewrite lookup_insert_ne; [done|]. by intros E.
  - rewrite lookup_insert_ne by apply anchor_not_root. apply (l_root _ _ _ H).
  - intros x Hx. destruct (String.eqb_spec x a) as [->|Hne]; [by rewrite lookup_insert_eq|].
    rewrite lookup_insert_ne by (by intros E%anchorChain_inj). by apply (l_anchor _ _ _ H).
  - intros x Hx. rewrite lookup_insert_ne by (apply anchor_not_actual; by apply HN).
    by apply (l_actual _ _ _ H).
  - apply (l_body _ _ _ H).
  - intros c Hc Hs. destruct (decide (c = anchorChain a)) as [->|Hne]; [right; exists a; by eauto|].
    rewrite lookup_insert_ne in Hs by done. by apply (l_ours _ _ _ H).
  - intros c rules Hc Hne. rewrite lookup_insert_ne; [by apply (l_foreign _ _ _ H)|].
    intros <-. pose proof (ours_anchor a) as Hx. by rewrite Hc in Hx.
Qed.

Lemma laid_out_body v P m a rules :
  laid_out v P m -> a ∈ names v -> flat rules ->
  laid_out v (fill_body a rules P) (<[actualChain a := rules]> m).
Proof.
  intros H Ha Hnj. pose proof (names_named v) as HN. rewrite Forall_forall in HN.
  destruct (l_output _ _ _ H) as (pre & rest & Ho & H1 & H2). split; cbn [on body fill_body].
  - exists pre, rest. rewrite lookup_insert_ne; [done|]. by intros E.
  - rewrite lookup_insert_ne; [apply (l_root _ _ _ H)|]. intros E. symmetry in E.
    eapply root_not_actual, E. by apply HN.
  - intros x Hx. rewrite lookup_insert_ne; [by apply (l_anchor _ _ _ H)|].
    intros E. symmetry in E. eapply anchor_not_actual, E. by apply HN.
  - intros x Hx. destruct (String.eqb_spec x a) as [->|Hne]; [by rewrite lookup_insert_eq|].
    rewrite lookup_insert_ne by (by intros E%actualChain_inj). by apply (l_actual _ _ _ H).
  - intros x Hx. destruct (String.eqb_spec x a) as [->|Hne]; [done|]. by apply (l_body _ _ _ H).
  - intros c Hc Hs. destruct (decide (c = actualChain a)) as [->|Hne]; [right; exists a; by eauto|].
    rewrite lookup_insert_ne in Hs by done. by apply (l_ours _ _ _ H).
  - intros c rules' Hc Hne. rewrite lookup_insert_ne; [by apply (l_foreign _ _ _ H)|].
    intros <-. pose proof (ours_actual a) as Hx. by rewrite Hc in Hx.
Qed.

Lemma enable_laid_out v P m a :
  laid_out v P m -> a ∈ names v -> laid_out v (switch a true P) (b_enable v a m).
Proof.
  intros H Ha. assert (b_enable v a m = <[anchorChain a := [jump (actualChain a)]]> m) as ->;
    [|by apply (laid_out_anchor v P m a true)].
  unfold b_enable, doc. cbn [documented]. pose proof (l_anchor _ _ _ H a Ha) as E. rewrite E.
  destruct (on P a).
  - rewrite bool_decide_true by (apply list_elem_of_singleton; done). by rewrite insert_id.
  - rewrite bool_decide_false by set_solver. unfold rule_ok. cbn [r_target plain r_dst].
    rewrite (l_actual _ _ _ H a Ha). by rewrite bool_decide_true.
Qed.

Lemma disable_laid_out v P m a :
  laid_out v P m -> a ∈ names v -> laid_out v (switch a false P) (b_disable v a m).
Proof.
  intros H Ha. assert (b_disable v a m = <[anchorChain a := []]> m) as ->;
    [|by apply (laid_out_anchor v P m a false)].
  unfold b_disable, doc. cbn [documented]. pose proof (l_anchor _ _ _ H a Ha) as E. rewrite E.
  destruct (on P a).
  - by rewrite bool_decide_true by (apply list_elem_of_singleton; done).
  - rewrite bool_decide_false by set_solver. cbn. by rewrite insert_id.
Qed.

Lemma refill_laid_out v P m a rules :
  laid_out v P m -> a ∈ names v ->
  flat rules ->
  laid_out v (fill_body a (filter (fun r => fillable v r = true) rules) P)
    (b_fill v (actualChain a) rules (doc v (Flush_chain (actualChain a)) m).2).
Proof.
  intros H Ha Hr. unfold doc. cbn [documented]. rewrite (l_actual _ _ _ H a Ha). cbn [snd].
  rewrite (b_fill_spec v _ _ _ []) by (done || apply lookup_insert_eq).
  rewrite insert_insert_eq. apply laid_out_body; [done..|].
  unfold flat in *. rewrite Forall_forall in Hr |- *. intros r [_ Hin]%list_elem_of_filter. by apply Hr.
Qed.

(** Without the chains, nothing happens. *)
Lemma absent_none m c : absent m -> ours c -> m !! c = None.
Proof.
  intros H Hc. destruct (m !! c) eqn:E; [|done].
  destruct (lo_ours _ _ H c Hc) as (a & Ha & _); [by eexists|]. set_solver.
Qed.

Lemma enable_absent v m a : absent m -> b_enable v a m = m.
Proof.
  intros H. unfold b_enable, doc. cbn [documented]. by rewrite (absent_none m _ H (ours_anchor a)).
Qed.
Lemma disable_absent v m a : absent m -> b_disable v a m = m.
Proof.
  intros H. unfold b_disable, doc. cbn [documented]. by rewrite (absent_none m _ H (ours_anchor a)).
Qed.
Lemma refill_absent v m a rules :
  absent m -> b_fill v (actualChain a) rules (doc v (Flush_chain (actualChain a)) m).2 = m.
Proof.
  intros H. unfold doc. cbn [documented]. pose proof (absent_none m _ H (ours_actual a)) as E.
  rewrite E. cbn [snd]. unfold b_fill, doc. cbn [documented].
  induction rules as [|r rules IH]; [done|]. cbn [fold_left]. by rewrite E.
Qed.
End Install.
