(* ===== verification/KillSwitch.v ===== *)
(** * The kill switch of the service on Linux

    [service/server/killswitch.{h,cpp}], as compiled for Linux: it decides which anchors of
    [LinuxFirewall] are on, from the configuration of a connection and from the setting that
    traffic outside a tunnel is not allowed (the strict mode). *)

From S2P Require Import Prelude Json Lines IpAddress SplitTunneling SecureSettings LocalSocket.
From S2P Require Import Netfilter LinuxFirewall.

(** ** Addresses *)

Definition digits_upto (n : nat) (s : string) : bool :=
  (1 <=? String.length s)%nat && (String.length s <=? n)%nat && str_forall is_digit s.

(** A final line feed is before the end of the text for the pattern. *)
Fixpoint without_final_lf (s : string) : string :=
  match s with
  | EmptyString => EmptyString
  | String c EmptyString => if Ascii.eqb c LF then EmptyString else s
  | String c r => String c (without_final_lf r)
  end.

(** [(\d{1,3}\.){3}\d{1,3}(/\d{1,2})?]. *)
Definition ip_or_cidr_pattern (value : string) : bool :=
  let t := without_final_lf value in
  match split_char "/" t with
  | addr :: rest =>
      (length (split_char "." addr) =? 4)%nat && forallb (digits_upto 3) (split_char "." addr)
      && match rest with [] => true | [prefix] => digits_upto 2 prefix | _ => false end
  | [] => false
  end.

Definition in_range (max : Z) (text : string) : bool :=
  match text_to_int text with Some z => (0 <=? z)%Z && (z <=? max)%Z | None => false end.

Definition isValidIpOrCidr (value : string) : bool :=
  if negb (ip_or_cidr_pattern value) then false
  else
    let parts := split_char "/" value in
    forallb (in_range 255) (split_char "." (default "" (head parts)))
    && (if str_contains "/" value then in_range 32 (default "" (parts !! 1)) else true).

Section KillSwitch.
Context `{N : Netfilter} `{V : Vault}.

Record KillSwitch := mkKillSwitch {
  the_firewall : firewall;
  m_allowedRanges : list string;
  m_appSettigns : SecureQSettings
}.

#[export] Instance eta_kill : Eta KillSwitch := fun s =>
  mkKillSwitch (the_firewall s) (m_allowedRanges s) (m_appSettigns s).

Definition on_firewall {A} (m : fw A) (s : KillSwitch) : A * KillSwitch :=
  let '(a, f) := m (the_firewall s) in (a, s <| the_firewall := f |>).

Definition isStrictKillSwitchEnabled (s : KillSwitch) : bool * KillSwitch :=
  let '(v, settings) := value "Conf/strictKillSwitchEnabled" (VBool false) (m_appSettigns s) in
  (toBool v, s <| m_appSettigns := settings |>).

Definition set (ip : IPVersion) (anchor : string) (enabled : bool) : fw unit :=
  setAnchorEnabled ip anchor enabled kFilterTable.

(** ** Off *)

Definition all_blocked : fw unit :=
  _ ← set Both "000.allowLoopback" true;
  _ ← set Both "100.blockAll" true;
  _ ← set IPv4 "110.allowNets" false;
  _ ← set IPv4 "120.blockNets" false;
  _ ← set Both "130.allowMarkedXray" false;
  _ ← set IPv4 "200.allowVPN" false;
  _ ← set IPv6 "250.blockIPv6" true;
  _ ← set Both "290.allowDHCP" false;
  _ ← set Both "300.allowLAN" false;
  _ ← set IPv4 "310.blockDNS" false;
  _ ← set IPv4 "320.allowDNS" false;
  set Both "400.allowPIA" false.

Definition all_open : fw unit :=
  _ ← set Both "000.allowLoopback" true;
  _ ← set Both "100.blockAll" false;
  _ ← set IPv4 "110.allowNets" false;
  _ ← set IPv4 "120.blockNets" false;
  _ ← set Both "130.allowMarkedXray" false;
  _ ← set IPv4 "200.allowVPN" false;
  _ ← set IPv6 "250.blockIPv6" false;
  _ ← set Both "290.allowDHCP" true;
  _ ← set Both "300.allowLAN" true;
  _ ← set IPv4 "310.blockDNS" false;
  _ ← set IPv4 "320.allowDNS" true;
  _ ← set Both "400.allowPIA" false;
  uninstall.

Definition disableKillSwitch (s : KillSwitch) : bool * KillSwitch :=
  let '(strict, s) := isStrictKillSwitchEnabled s in
  let '(_, s) := on_firewall (if strict then all_blocked else all_open) s in
  (true, s <| m_allowedRanges := [] |>).

Definition ensure_installed : fw unit :=
  installed ← isInstalled;
  if negb installed then install else mret tt.

Definition disableAllTraffic (s : KillSwitch) : bool * KillSwitch :=
  let '(_, s) := on_firewall (
    _ ← ensure_installed;
    _ ← set Both "100.blockAll" true;
    _ ← set Both "130.allowMarkedXray" false;
    _ ← set Both "000.allowLoopback" true;
    set IPv6 "250.blockIPv6" true) s in
  (true, s <| m_allowedRanges := [] |>).

(** ** Start and settings *)

(** [init] makes the settings object; [file] and [c] are what it finds. *)
Definition init (file : gmap string variant) (c : keychain) (calls : nat) (f : firewall)
    : bool * KillSwitch :=
  let s := mkKillSwitch f [] (new_settings file c calls true) in
  let '(strict, s) := isStrictKillSwitchEnabled s in
  if strict then disableAllTraffic s else (true, s).

Definition refresh (enabled : bool) (s : KillSwitch) : bool * KillSwitch :=
  let s := s <| m_appSettigns :=
               setValue "Conf/strictKillSwitchEnabled" (VBool enabled) (m_appSettigns s) |> in
  let '(strict, s) := isStrictKillSwitchEnabled s in
  if strict then disableAllTraffic s else disableKillSwitch s.

(** ** Allowed ranges *)

Definition resetAllowedRange (ranges : list string) (s : KillSwitch) : bool * KillSwitch :=
  if negb (forallb isValidIpOrCidr ranges) then (false, s)
  else
    let s := s <| m_allowedRanges := ranges |> in
    let '(_, s) := on_firewall (
      _ ← set IPv4 "110.allowNets" true;
      updateAllowNets (m_allowedRanges s)) s in
    (true, s).

Definition addAllowedRange (ranges : list string) (s : KillSwitch) : bool * KillSwitch :=
  if negb (forallb isValidIpOrCidr ranges) then (false, s)
  else
    let s := s <| m_allowedRanges := merge_ips ranges (m_allowedRanges s) |> in
    resetAllowedRange (m_allowedRanges s) s.

(** ** On *)

Definition enablePeerTraffic (configStr : obj) (s : KillSwitch) : bool * KillSwitch := (true, s).

(** What [enableKillSwitch] reads from the configuration. *)
Record kill_config := mkKillConfig {
  k_dns1 : string;
  k_dns2 : string;
  k_allowedDnsServers : list string;
  k_blockAll : bool;
  k_allowNets : bool;
  k_blockNets : bool;
  k_allowMarkedXray : bool;
  k_allownets : list string;
  k_blocknets : list string
}.

(** The loop over [allowedDnsServers] stops at the first value that is not a text. *)
Fixpoint valid_texts (l : list json) : list string :=
  match l with
  | JStr d :: r => if isValidIpOrCidr d then d :: valid_texts r else valid_texts r
  | _ => []
  end.

Definition read_config (configStr : obj) : kill_config :=
  let splitTunnelType := to_int 0 (ofind "splitTunnelType" configStr) in
  let splitTunnelSites := map (fun v => to_string (Some v)) (to_array (ofind "splitTunnelSites" configStr)) in
  let vpnServer := to_string (ofind "vpnServer" configStr) in
  let dns1 := to_string (ofind "dns1" configStr) in
  let dns2 := if str_contains Client.amneziaDnsIp dns1 then "" else to_string (ofind "dns2" configStr) in
  let dns := valid_texts (to_array (ofind "allowedDnsServers" configStr)) in
  if (splitTunnelType =? 0)%Z then
    mkKillConfig dns1 dns2 dns true true false true [vpnServer] []
  else if (splitTunnelType =? 1)%Z then
    mkKillConfig dns1 dns2 dns false false true true [] splitTunnelSites
  else if (splitTunnelType =? 2)%Z then
    mkKillConfig dns1 dns2 dns true true false false (vpnServer :: splitTunnelSites) []
  else mkKillConfig dns1 dns2 dns false false false false [] [].

Definition config_valid (k : kill_config) : bool :=
  (str_empty (k_dns1 k) || isValidIpOrCidr (k_dns1 k))
  && (str_empty (k_dns2 k) || isValidIpOrCidr (k_dns2 k))
  && forallb isValidIpOrCidr (k_allownets k) && forallb isValidIpOrCidr (k_blocknets k).

Definition dns_servers (k : kill_config) : list string :=
  (if str_empty (k_dns1 k) then [] else [k_dns1 k])
  ++ (if str_empty (k_dns2 k) then [] else [k_dns2 k])
  ++ ["127.0.0.1"; "127.0.0.53"] ++ k_allowedDnsServers k.

(** [k_allowMarkedXray] is computed and not used: the anchor is switched on. *)
Definition apply_kill_switch (k : kill_config) : fw unit :=
  _ ← ensure_installed;
  _ ← set Both "000.allowLoopback" true;
  _ ← set Both "100.blockAll" (k_blockAll k);
  _ ← set IPv4 "110.allowNets" (k_allowNets k);
  _ ← updateAllowNets (k_allownets k);
  _ ← set IPv4 "120.blockNets" (k_blockNets k);
  _ ← updateBlockNets (k_blocknets k);
  _ ← set Both "130.allowMarkedXray" true;
  _ ← set IPv4 "200.allowVPN" true;
  _ ← set IPv6 "250.blockIPv6" true;
  _ ← set Both "290.allowDHCP" true;
  _ ← set Both "300.allowLAN" true;
  _ ← set IPv4 "310.blockDNS" true;
  _ ← updateDNSServers (dns_servers k);
  _ ← set IPv4 "320.allowDNS" true;
  set Both "400.allowPIA" true.

Definition enableKillSwitch (configStr : obj) (vpnAdapterIndex : Z) (s : KillSwitch)
    : bool * KillSwitch :=
  let k := read_config configStr in
  if negb (config_valid k) then (false, s)
  else let '(_, s) := on_firewall (apply_kill_switch k) s in (true, s).
End KillSwitch.
