(* ===== verification/WireguardLinux.v ===== *)
(** * The tunnel of the service on Linux

    [client/platforms/linux/daemon/wireguardutilslinux.{h,cpp}] and
    [linuxroutemonitor.{h,cpp}]: the implementation for Linux of the [WireguardUtils] the daemon
    calls.  It starts [amneziawg-go], configures it over its socket (UAPI), adds and removes
    routes over netlink, and sets up the firewall.

    The process, its socket and the kernel are the class [WgHost]; what is asked of them is
    recorded, and their answers may depend on all that was asked before.  Logging is left out. *)

From S2P Require Import Prelude Json Lines IpAddress InterfaceConfig Daemon SecureSettings.
From S2P Require Import Netfilter LinuxFirewall KillSwitch.

(** ** Netlink *)

(** [struct nlmsghdr] with the [struct rtmsg] and the attributes that follow it. *)
Record nlmsghdr := mkNlmsg {
  nlmsg_len : Z;
  nlmsg_type : Z;
  nlmsg_flags : Z;
  nlmsg_pid : Z;
  nlmsg_seq : Z;
  rtm_family : Z;
  rtm_dst_len : Z;
  rtm_table : Z;
  rtm_protocol : Z;
  rtm_scope : Z;
  rtm_type : Z;
  rtattrs : list (Z * list Z)
}.

#[export] Instance eta_nlmsghdr : Eta nlmsghdr := fun m =>
  mkNlmsg (nlmsg_len m) (nlmsg_type m) (nlmsg_flags m) (nlmsg_pid m) (nlmsg_seq m) (rtm_family m)
    (rtm_dst_len m) (rtm_table m) (rtm_protocol m) (rtm_scope m) (rtm_type m) (rtattrs m).

(** The constants and macros of the kernel's headers. *)
Definition RTM_NEWROUTE : Z := 24.
Definition RTM_DELROUTE : Z := 25.
Definition NLM_F_REQUEST : Z := 1.
Definition NLM_F_ACK : Z := 4.
Definition NLM_F_REPLACE : Z := 256.
Definition NLM_F_CREATE : Z := 1024.
Definition RTN_UNICAST : Z := 1.
Definition RTN_THROW : Z := 9.
Definition RTA_DST : Z := 1.
Definition RTA_OIF : Z := 4.
Definition RTA_GATEWAY : Z := 5.
Definition RTA_PRIORITY : Z := 6.
Definition AF_INET : Z := 2.
Definition AF_INET6 : Z := 10.
Definition RTPROT_BOOT : Z := 3.
Definition EINVAL : Z := 22.
Definition align4 (n : Z) : Z := ((n + 3) / 4 * 4)%Z.
Definition RTA_SPACE (n : Z) : Z := align4 (4 + n).
Definition NLMSG_LENGTH (n : Z) : Z := (16 + n)%Z.
Definition NLMSG_SPACE (n : Z) : Z := align4 (NLMSG_LENGTH n).

(** The size of [struct rtmsg]. *)
Definition sizeof_rtmsg : Z := 12.

Definition rtm_max_size : Z := (sizeof_rtmsg + 2 * RTA_SPACE 4 + RTA_SPACE 16)%Z.

(** An attribute the buffer has no room for is left out. *)
Definition nlmsg_append_attr (maxlen attrtype : Z) (attrdata : list Z) (nlmsg : nlmsghdr) : nlmsghdr :=
  let newlen := (align4 (nlmsg_len nlmsg) + RTA_SPACE (Z.of_nat (length attrdata)))%Z in
  if (newlen <=? maxlen)%Z
  then nlmsg <| rtattrs := rtattrs nlmsg ++ [(attrtype, attrdata)] |> <| nlmsg_len := newlen |>
  else nlmsg.

(** The bytes of an [uint32_t] in memory. *)
Definition le32 (value : Z) : list Z :=
  map (fun i => Z.land (Z.shiftr value (8 * i)) 255) [0; 1; 2; 3]%Z.

Definition nlmsg_append_attr32 (maxlen attrtype value : Z) : nlmsghdr -> nlmsghdr :=
  nlmsg_append_attr maxlen attrtype (le32 value).

(** ** The outside *)

Inductive deed :=
  | TunnelStarted (ok : bool)
  | TunnelNamed (ok : bool)
  | TunnelKilled
  | TunnelTerminated
  | UapiSent (message : string) (reply : option string)
  | RouteSent (m : nlmsghdr) (result : Z).

(** [QProcess::ProcessState]. *)
Inductive ProcessState := NotRunning | Starting | Running.

#[export] Instance ProcessState_eq_dec : EqDecision ProcessState.
Proof. solve_decision. Defined.

Class WgHost := {
  host_text :: HostText;
  base64_hex : string -> string;             (* QByteArray::fromBase64(_).toHex() *)
  hex_base64 : string -> string;             (* QByteArray::fromHex(_).toBase64() *)
  text_double : string -> Z;                 (* QString::toDouble() as a qint64 *)
  inet_pton : NetworkLayerProtocol -> string -> option (list Z);
  getpid : Z;
  (** What an [in_addr] on the stack holds before it is written. *)
  uninitialised : list Z;
  (** What the bytes of a text hold, as a text, once its array is destroyed. *)
  after_free : list deed -> string -> string;
  tunnel_state : list deed -> ProcessState;  (* m_tunnel.state() *)
  waitForStarted : list deed -> bool;
  (** The socket of [amn0] takes a connection in time. *)
  tunnel_answers : list deed -> bool;
  (** The bytes read when a blank line is among them; [None] when there is no connection or
      the time is over. *)
  uapi_reply : list deed -> string -> option string;
  if_nametoindex : list deed -> string -> Z;
  getGatewayAndIface : list deed -> string;  (* its first part *)
  sendto : list deed -> nlmsghdr -> Z
}.

(** ** Texts of the configuration socket *)

(** Cut at the first [=], when it is not the first character. *)
Fixpoint cut_at (c : ascii) (s : string) : option (string * string) :=
  match s with
  | EmptyString => None
  | String x r =>
      if Ascii.eqb x c then Some (EmptyString, r)
      else (fun p => (String x p.1, p.2)) <$> cut_at c r
  end.

Definition name_value (line : string) : option (string * string) :=
  match cut_at "=" line with
  | Some (EmptyString, _) => None
  | o => o
  end.

Fixpoint uapi_errno_lines (ls : list string) : Z :=
  match ls with
  | [] => EINVAL
  | line :: r =>
      match name_value line with
      | Some (name, v) => if String.eqb name "errno" then str_to_int v else uapi_errno_lines r
      | None => uapi_errno_lines r
      end
  end.

Definition uapiErrno (reply : string) : Z := uapi_errno_lines (split_char LF reply).

(** [out << name << "=" << value << "\n"], when the value is not empty. *)
Definition uapi_line (name v : string) : string := name +:+ "=" +:+ v +:+ nl.
Definition uapi_opt (name v : string) : string := if str_empty v then "" else uapi_line name v.

(** Line feeds are added until the message ends in two; two are enough. *)
Fixpoint ends_with_blank (s : string) : bool :=
  match s with
  | EmptyString => false
  | String a (String b EmptyString) => Ascii.eqb a LF && Ascii.eqb b LF
  | String _ r => ends_with_blank r
  end.
Definition terminated (message : string) : string :=
  let step m := if ends_with_blank m then m else m +:+ nl in step (step message).

Section Wireguard.
Context `{N : Netfilter} `{V : Vault} `{W : WgHost}.

Record LinuxRouteMonitor := mkMonitor { m_nlseq : Z }.

Record WireguardUtilsLinux := mkWg {
  wg_log : list deed;
  m_ifname : QString;
  m_rtmonitor : option LinuxRouteMonitor;
  (** [KillSwitch::instance()], with the firewall. *)
  wg_kill : KillSwitch
}.

#[export] Instance eta_wg : Eta WireguardUtilsLinux := fun s =>
  mkWg (wg_log s) (m_ifname s) (m_rtmonitor s) (wg_kill s).

Definition wgm (A : Type) : Type := WireguardUtilsLinux -> A * WireguardUtilsLinux.

#[export] Instance wgm_ret : MRet wgm := fun A a s => (a, s).
#[export] Instance wgm_bind : MBind wgm := fun A B f m s => let '(a, s) := m s in f a s.

Definition ask {A} (q : list deed -> A) : wgm A := fun s => (q (wg_log s), s).
Definition did (d : deed) : wgm unit := fun s => (tt, s <| wg_log := wg_log s ++ [d] |>).
Definition get {A} (f : WireguardUtilsLinux -> A) : wgm A := fun s => (f s, s).

Definition parse_ip (text : QString) : IPAddress :=
  IPAddress_fromString parseAddress parseSubnet (qs text).

(** ** Routes *)

(** The family, the prefix length and the bytes of the address.  [qPrintable] points into a
    temporary array that is destroyed at the end of its statement: what is parsed is what its
    memory holds then. *)
Definition buildAllowedIp (h : list deed) (prefix : IPAddress) : option (Z * Z * list Z) :=
  let addrString := after_free h (addressText (m_address prefix)) in
  let cidr := (m_prefixLength prefix mod 256)%Z in
  match type prefix with
  | IPv4Protocol => (fun b => (AF_INET, cidr, b)) <$> inet_pton IPv4Protocol addrString
  | IPv6Protocol => (fun b => (AF_INET6, cidr, b)) <$> inet_pton IPv6Protocol addrString
  | UnknownProtocol => None
  end.

Definition buf_size : Z := NLMSG_SPACE rtm_max_size.

(** The message without what depends on the kind of route. *)
Definition route_header (action flags type seq : Z) (ip : Z * Z * list Z) : nlmsghdr :=
  let '(family, cidr, addr) := ip in
  nlmsg_append_attr buf_size RTA_DST addr
    (mkNlmsg (NLMSG_LENGTH sizeof_rtmsg) action flags getpid seq family cidr 0 RTPROT_BOOT 0 type []).

Definition next_seq : wgm Z := fun s =>
  match m_rtmonitor s with
  | Some r => (m_nlseq r, s <| m_rtmonitor := Some (mkMonitor (m_nlseq r + 1)) |>)
  | None => (0%Z, s)
  end.

Definition send_route (m : nlmsghdr) : wgm bool :=
  result ← ask (fun h => sendto h m);
  _ ← did (RouteSent m result);
  mret (result =? nlmsg_len m)%Z.

Definition rtmSendRoute (action flags type : Z) (prefix : IPAddress) : wgm bool :=
  ip ← ask (fun h => buildAllowedIp h prefix);
  match ip with
  | None => mret false
  | Some ip =>
      seq ← next_seq;
      let m := route_header action flags type seq ip in
      if (type =? RTN_UNICAST)%Z then
        index ← ask (fun h => if_nametoindex h "amn0");
        if (index <=? 0)%Z then mret false
        else send_route (nlmsg_append_attr32 buf_size RTA_PRIORITY 1
                           (nlmsg_append_attr32 buf_size RTA_OIF index m))
      else if (type =? RTN_THROW)%Z then
        gateway ← ask getGatewayAndIface;
        if str_empty gateway then mret false
        else
          let ip4 := default uninitialised (inet_pton IPv4Protocol gateway) in
          send_route ((nlmsg_append_attr32 buf_size RTA_PRIORITY 0
                         (nlmsg_append_attr buf_size RTA_GATEWAY ip4 m)) <| rtm_type := RTN_UNICAST |>)
      else send_route m
  end.

Definition new_flags : Z :=
  Z.lor (Z.lor (Z.lor NLM_F_REQUEST NLM_F_CREATE) NLM_F_REPLACE) NLM_F_ACK.
Definition delete_flags : Z := Z.lor NLM_F_REQUEST NLM_F_ACK.

Definition insertRoute : IPAddress -> wgm bool := rtmSendRoute RTM_NEWROUTE new_flags RTN_UNICAST.
Definition deleteRoute : IPAddress -> wgm bool := rtmSendRoute RTM_DELROUTE delete_flags RTN_UNICAST.
Definition monitor_addExclusionRoute : IPAddress -> wgm bool :=
  rtmSendRoute RTM_NEWROUTE new_flags RTN_THROW.
Definition monitor_deleteExclusionRoute : IPAddress -> wgm bool :=
  rtmSendRoute RTM_DELROUTE delete_flags RTN_THROW.

(** Nothing is done without a monitor. *)
Definition monitored (m : wgm bool) : wgm bool :=
  r ← get m_rtmonitor;
  match r with Some _ => m | None => mret false end.

(** The [&&] of C++: the second is not called when the first failed. *)
Definition and_then (m m' : wgm bool) : wgm bool :=
  ok ← m; if (ok : bool) then m' else mret false.

Definition updateRoutePrefix (prefix : IPAddress) : wgm bool :=
  monitored (
    if (0 <? m_prefixLength prefix)%Z then insertRoute prefix
    else match type prefix with
         | IPv4Protocol => and_then (insertRoute (parse_ip (Some "0.0.0.0/1")))
                                    (insertRoute (parse_ip (Some "128.0.0.0/1")))
         | IPv6Protocol => and_then (insertRoute (parse_ip (Some "::/1")))
                                    (insertRoute (parse_ip (Some "8000::/1")))
         | UnknownProtocol => mret false
         end).

(** A prefix that is not empty is inserted here too. *)
Definition deleteRoutePrefix (prefix : IPAddress) : wgm bool :=
  monitored (
    if (0 <? m_prefixLength prefix)%Z then insertRoute prefix
    else match type prefix with
         | IPv4Protocol => and_then (deleteRoute (parse_ip (Some "0.0.0.0/1")))
                                    (deleteRoute (parse_ip (Some "128.0.0.0/1")))
         | IPv6Protocol => and_then (deleteRoute (parse_ip (Some "::/1")))
                                    (deleteRoute (parse_ip (Some "8000::/1")))
         | UnknownProtocol => mret false
         end).

Definition addExclusionRoute (prefix : IPAddress) : wgm bool :=
  monitored (monitor_addExclusionRoute prefix).
Definition deleteExclusionRoute (prefix : IPAddress) : wgm bool :=
  monitored (monitor_deleteExclusionRoute prefix).

Fixpoint insert_routes (result : bool) (routes : list IPAddress) : wgm bool :=
  match routes with
  | [] => mret result
  | p :: rest => ok ← insertRoute p; insert_routes (if (ok : bool) then result else false) rest
  end.

Definition excludeLocalNetworks (routes : list IPAddress) : wgm bool :=
  monitored (insert_routes true routes).

(** ** The configuration socket *)

Definition uapiCommand (command : string) : wgm string :=
  let message := terminated command in
  reply ← ask (fun h => uapi_reply h message);
  _ ← did (UapiSent message reply);
  mret (match reply with Some r => trimmed r | None => "" end).

Definition interface_message (c : InterfaceConfig) : string :=
  bytes (["set=1" +:+ nl;
    uapi_line "private_key" (base64_hex (m_privateKey c));
    "replace_peers=true" +:+ nl;
    uapi_opt "jc" (m_junkPacketCount c);
    uapi_opt "jmin" (m_junkPacketMinSize c);
    uapi_opt "jmax" (m_junkPacketMaxSize c);
    uapi_opt "s1" (m_initPacketJunkSize c);
    uapi_opt "s2" (m_responsePacketJunkSize c);
    uapi_opt "s3" (m_cookieReplyPacketJunkSize c);
    uapi_opt "s4" (m_transportPacketJunkSize c);
    uapi_opt "h1" (m_initPacketMagicHeader c);
    uapi_opt "h2" (m_responsePacketMagicHeader c);
    uapi_opt "h3" (m_underloadPacketMagicHeader c);
    uapi_opt "h4" (m_transportPacketMagicHeader c)]
  ++ map (fun kv => uapi_line (to_lower kv.1) kv.2) (m_specialJunk c)
  ++ [(if str_empty (m_headerProtectionKey c) then ""
       else uapi_line "header_protection_key" (base64_hex (m_headerProtectionKey c)));
    uapi_opt "content_padding_addition" (m_contentPaddingAddition c);
    uapi_opt "rekey_after_time" (m_rekeyAfterTime c);
    uapi_opt "rekey_timeout" (m_rekeyTimeout c);
    uapi_opt "reject_after_time" (m_rejectAfterTime c);
    uapi_opt "keepalive_timeout" (m_keepaliveTimeout c);
    uapi_opt "max_handshake_attempts" (m_maxHandshakeAttempts c);
    (if str_empty (m_randomTrailers c) then ""
     else uapi_line "random_trailers" (awgBoolToUapi (m_randomTrailers c)));
    (if str_empty (m_disableCookies c) then ""
     else uapi_line "disable_cookies" (awgBoolToUapi (m_disableCookies c)))]).

(** [None] when there is no endpoint. *)
Definition peer_message (c : InterfaceConfig) : option string :=
  match (match m_serverIpv4AddrIn c, m_serverIpv6AddrIn c with
         | Some a, _ => Some ("endpoint=" +:+ a +:+ ":")
         | None, Some a => Some ("endpoint=[" +:+ a +:+ "]:")
         | None, None => None
         end) with
  | None => None
  | Some endpoint => Some (bytes (
      ["set=1" +:+ nl;
       uapi_line "public_key" (base64_hex (m_serverPublicKey c));
       (match m_serverPskKey c with
        | Some psk => uapi_line "preshared_key" (base64_hex psk)
        | None => ""
        end);
       endpoint +:+ pretty (m_serverPort c) +:+ nl;
       "replace_allowed_ips=true" +:+ nl;
       uapi_opt "persistent_keepalive_interval" (m_persistentKeepalive c)]
      ++ map (fun ip => uapi_line "allowed_ip" (ip_text ip)) (m_allowedIPAddressRanges c)))
  end.

(** The server itself is reached outside the tunnel. *)
Definition server_routes (c : InterfaceConfig) (f : IPAddress -> wgm bool) : wgm unit :=
  r ← get m_rtmonitor;
  match r with
  | Some _ =>
      if bool_decide (m_hopType c = MultiHopExit) then mret tt
      else _ ← f (parse_ip (m_serverIpv4AddrIn c)); _ ← f (parse_ip (m_serverIpv6AddrIn c)); mret tt
  | None => mret tt
  end.

Definition configured (message : string) : wgm bool :=
  reply ← uapiCommand message; mret (uapiErrno reply =? 0)%Z.

Definition updatePeer (c : InterfaceConfig) : wgm bool :=
  match peer_message c with
  | None => mret false
  | Some message => _ ← server_routes c monitor_addExclusionRoute; configured message
  end.

Definition deletePeer (c : InterfaceConfig) : wgm bool :=
  _ ← server_routes c monitor_deleteExclusionRoute;
  configured (bytes ["set=1" +:+ nl; uapi_line "public_key" (base64_hex (m_serverPublicKey c));
                     "remove=true" +:+ nl]).

(** *** The state of the peers *)

(** The loop: the peer being read, and those before it. *)
Definition peer_line (acc : PeerStatus * list PeerStatus) (line : string)
    : PeerStatus * list PeerStatus :=
  match name_value line with
  | None => acc
  | Some (name, v) =>
      let '(status, peers) := acc in
      let '(status, peers) :=
        if String.eqb name "public_key" then
          (mkPeer (hex_base64 v) 0 0 0, if str_empty (m_pubkey status) then peers else peers ++ [status])
        else (status, peers) in
      let status := if String.eqb name "tx_bytes"
        then mkPeer (m_pubkey status) (m_handshake status) (m_rxBytes status) (text_double v) else status in
      let status := if String.eqb name "rx_bytes"
        then mkPeer (m_pubkey status) (m_handshake status) (text_double v) (m_txBytes status) else status in
      let status := if String.eqb name "last_handshake_time_sec"
        then mkPeer (m_pubkey status) (m_handshake status + default 0 (to_long_long v) * 1000)%Z
               (m_rxBytes status) (m_txBytes status) else status in
      let status := if String.eqb name "last_handshake_time_nsec"
        then mkPeer (m_pubkey status)
               (m_handshake status + Z.quot (default 0 (to_long_long v)) 1000000)%Z
               (m_rxBytes status) (m_txBytes status) else status in
      (status, peers)
  end.

Definition peers_of (reply : string) : list PeerStatus :=
  let '(status, peers) := fold_left peer_line (split_char LF reply) (mkPeer "" 0 0 0, []) in
  if str_empty (m_pubkey status) then peers else peers ++ [status].

Definition getPeerStatus : wgm (list PeerStatus) :=
  reply ← uapiCommand "get=1"; mret (peers_of reply).

(** ** The firewall *)

(** The fields of [FirewallParams] that are used. *)
Record FirewallParams := mkParams {
  dnsServers : list string;
  allowAddrs : list string;
  blockAddrs : list string;
  blockAll : bool;
  allowNets : bool;
  blockNets : bool
}.

Definition firewall_params (c : InterfaceConfig) : FirewallParams :=
  let dns := m_primaryDnsServer c
             :: (if str_empty (m_secondaryDnsServer c) then [] else [m_secondaryDnsServer c]) in
  if bool_decide (parse_ip (Some "0.0.0.0/0") ∈ m_allowedIPAddressRanges c) then
    match m_excludedAddresses c with
    | [] => mkParams dns [] [] true false false
    | nets => mkParams dns nets [] true true false
    end
  else mkParams dns [] (map ip_text (m_allowedIPAddressRanges c)) false false true.

Definition applyFirewallRules (params : FirewallParams) : fw unit :=
  _ ← ensure_installed;
  _ ← ensureRootAnchorPriority Both;
  _ ← set Both "000.allowLoopback" true;
  _ ← set Both "100.blockAll" (blockAll params);
  _ ← set IPv4 "110.allowNets" (allowNets params);
  _ ← updateAllowNets (allowAddrs params);
  _ ← set IPv4 "120.blockNets" (blockNets params);
  _ ← updateBlockNets (blockAddrs params);
  _ ← set IPv4 "200.allowVPN" true;
  _ ← set IPv6 "250.blockIPv6" true;
  _ ← set Both "290.allowDHCP" true;
  _ ← set Both "300.allowLAN" true;
  _ ← set IPv4 "310.blockDNS" true;
  _ ← updateDNSServers (dnsServers params);
  _ ← set IPv4 "320.allowDNS" true;
  set Both "400.allowPIA" true.

Definition on_kill {A} (m : KillSwitch -> A * KillSwitch) : wgm A := fun s =>
  let '(a, k) := m (wg_kill s) in (a, s <| wg_kill := k |>).

(** ** The interface *)

Definition interfaceExists : wgm bool :=
  st ← ask tunnel_state; mret (bool_decide (st = Running)).

Definition waitForTunnelName : wgm QString :=
  ok ← ask tunnel_answers;
  _ ← did (TunnelNamed ok);
  mret (if (ok : bool) then Some "amn0" else None).

Definition addInterface (c : InterfaceConfig) : wgm bool :=
  st ← ask tunnel_state;
  if negb (bool_decide (st = NotRunning)) then mret false
  else
    started ← ask waitForStarted;
    _ ← did (TunnelStarted started);
    if negb started then _ ← did TunnelKilled; mret false
    else
      name ← waitForTunnelName;
      _ ← (fun s => (tt, s <| m_ifname := name |>));
      match name with
      | None => _ ← did TunnelKilled; mret false
      | Some _ =>
          _ ← (fun s => (tt, s <| m_rtmonitor := Some (mkMonitor 0) |>));
          ok ← configured (interface_message c);
          _ ← (if ok && m_killSwitchEnabled c
               then on_kill (on_firewall (applyFirewallRules (firewall_params c)))
               else mret tt);
          mret ok
      end.

Definition deleteInterface : wgm bool :=
  _ ← (fun s => (tt, s <| m_rtmonitor := None |>));
  st ← ask tunnel_state;
  if bool_decide (st = NotRunning) then mret false
  else
    _ ← did TunnelTerminated;
    _ ← on_kill disableKillSwitch;
    mret true.
End Wireguard.
