(* ===== verification/KillSwitchFacts.v ===== *)
(** * The kill switch of the service on Linux: its lemmas

    Lemmas on [KillSwitch] and [WireguardLinux], over the shapes of [LinuxFirewallShape].  What
    the functions do to the anchors is a list of acts ([does]); rules of other programs stay
    ([keeps]); [decision] is what the client's chains say of a packet. *)

From S2P Require Import Prelude Json IpAddress SplitTunneling SecureSettings SecureSettingsFacts.
From S2P Require Import InterfaceConfig Netfilter LinuxFirewall LinuxFirewallFacts.
From S2P Require Import LinuxFirewallShape KillSwitch WireguardLinux.

(** ** Rules of other programs *)

Section Others.
Context `{N : Netfilter}.
Hypothesis Hn : wf_netfilter N.

Definition to_root (r : rule) : Prop := r_target r = Jump kRootChain.
#[export] Instance to_root_dec r : Decision (to_root r).
Proof. unfold to_root. apply _. Defined.

(** The chains that are not the client's, less the jumps to its root chain. *)
Definition foreign (m : chains) : chains :=
  (fun rules => filter (fun r => ~ to_root r) rules) <$> filter (fun kv => ours kv.1 = false) m.

Definition keeps {A} (m : fw A) : Prop := forall s v, foreign (view v (m s).2) = foreign (view v s).

Lemma foreign_insert c rules (m : chains) :
  ours c = true \/
  (exists old, m !! c = Some old /\
     filter (fun r => ~ to_root r) rules = filter (fun r => ~ to_root r) old) ->
  foreign (<[c := rules]> m) = foreign m.
Proof.
  intros H. unfold foreign. destruct (ours c) eqn:Ec.
  - rewrite map_filter_insert_not; [done|]. cbn [fst]. by rewrite Ec.
  - destruct H as [|(old & Hm & E)]; [done|].
    rewrite map_filter_insert_True by done. rewrite fmap_insert, E.
    apply insert_id. rewrite lookup_fmap, map_lookup_filter, Hm. cbn. by rewrite option_guard_True.
Qed.

Lemma foreign_delete c (m : chains) : ours c = true -> foreign (delete c m) = foreign m.
Proof.
  intros Hc. unfold foreign. rewrite map_filter_delete, delete_id; [done|].
  rewrite map_lookup_filter. destruct (m !! c); [|done]. cbn [option_bind mbind]. rewrite option_guard_False; [done|].
  cbn [fst]. by rewrite Hc.
Qed.

Definition chain_of (cmd : command) : string :=
  match cmd with
  | New_chain c | Flush_chain c | Delete_chain c | List_chain c => c
  | Append_rule c _ | Insert_rule c _ | Check_rule c _ | Delete_rule c _ => c
  | Delete_number c _ | Replace_rule c _ _ => c
  end.

Lemma documented_ours accepts cmd m :
  ours (chain_of cmd) = true -> foreign (documented accepts cmd m).2 = foreign m.
Proof.
  intros Hc. destruct cmd; cbn in Hc |- *; repeat case_match; cbn;
    solve [done | apply foreign_insert; by left | by apply foreign_delete].
Qed.

Lemma filter_remove_first r l :
  to_root r -> filter (fun r => ~ to_root r) (remove_first r l) = filter (fun r => ~ to_root r) l.
Proof.
  intros Hr. induction l as [|x l IH]; [done|]. cbn [remove_first].
  destruct (bool_decide (x = r)) eqn:E; bprop.
  - subst. rewrite filter_cons, decide_False by (intros H; by apply H). done.
  - by rewrite !filter_cons, IH.
Qed.

Lemma others_ret {A} (a : A) : keeps (mret a).
Proof. by intros s v. Qed.

Lemma others_bind {A B} (m : fw A) (k : A -> fw B) :
  keeps m -> (forall a, keeps (k a)) -> keeps (m ≫= k).
Proof.
  intros H1 H2 s v. unfold mbind, fw_bind. specialize (H1 s v). destruct (m s) as [a s1].
  cbn in *. by rewrite H2.
Qed.

Lemma keeps_each {A} (f : A -> fw unit) l : (forall a, keeps (f a)) -> keeps (each f l).
Proof.
  intros Hf. induction l as [|x l IH]; [apply others_ret|]. cbn [each]. by apply others_bind.
Qed.

Lemma keeps_if {A} (b : bool) (m m' : fw A) : keeps m -> keeps m' -> keeps (if b then m else m').
Proof. by destruct b. Qed.

Lemma keeps_ipt v t cmd :
  t <> kFilterTable \/ ours (chain_of cmd) = true \/
  cmd = Check_rule kOutputChain (plain (Jump kRootChain)) \/
  cmd = Delete_rule kOutputChain (plain (Jump kRootChain)) -> keeps (ipt v t cmd).
Proof.
  intros H s v'. rewrite (ipt_view Hn). destruct (bool_decide _) eqn:E; [|done]. bprop.
  destruct E as [-> <-]. destruct H as [|[H|[-> | ->]]]; [done|by apply documented_ours|done|].
  cbn. repeat case_match; [|done|done]. cbn. apply foreign_insert. right.
  eexists. split; [done|]. by apply filter_remove_first.
Qed.

Lemma keeps_idle {A} (m : fw A) : idle m -> keeps m.
Proof. intros H s v. by rewrite H. Qed.

Lemma keeps_versions ip (f : version -> fw bool) : (forall v, keeps (f v)) -> keeps (for_versions ip f).
Proof.
  intros Hf. destruct ip; cbn [for_versions]; [apply Hf|apply Hf|].
  apply others_bind; [apply Hf|intros ?]. apply others_bind; [apply Hf|intros ?]. apply others_ret.
Qed.

Lemma keeps_versions_ ip (f : version -> fw unit) :
  (forall v, keeps (f v)) -> keeps (for_versions_ ip f).
Proof.
  intros Hf. destruct ip; cbn [for_versions_]; [apply Hf|apply Hf|].
  apply others_bind; [apply Hf|intros ?; apply Hf].
Qed.

(** The rule that is deleted by its number is a second jump to the root chain. *)
Lemma b_link_first_foreign v m :
  foreign (b_link v kRootChain kOutputChain true m).2 = foreign m.
Proof.
  unfold b_link. destruct (m !! kOutputChain) as [rules|] eqn:Hm.
  2:{ cbn. unfold doc. cbn [documented]. by rewrite Hm. }
  cbn [default from_option id]. destruct (bool_decide _); [done|].
  unfold doc. cbn [documented]. rewrite Hm. destruct (rule_ok _ _ m); [|done].
  rewrite lookup_insert_eq. cbn [default from_option id].
  set (l := plain (Jump kRootChain) :: rules).
  assert (foreign (<[kOutputChain := l]> m) = foreign m) as E.
  { apply foreign_insert. right. eexists. split; [done|]. unfold l.
    rewrite filter_cons, decide_False; [done|]. intros H. by apply H. }
  destruct (later_number _ _) as [n|] eqn:En; [|done].
  destruct (_ && _); cbn [snd]; [|done]. rewrite insert_insert_eq, <- E. rewrite <- (insert_insert_eq m kOutputChain _ l).
  apply foreign_insert. right. exists l. split; [apply lookup_insert_eq|].
  unfold later_number, l in En. cbn [map] in En.
  destruct (list_find _ (map r_target rules)) as [[i x]|] eqn:Ef; [|done].
  apply list_find_Some in Ef as (Hi & -> & _). cbn in En. simplify_eq.
  replace (i + 2 - 1)%nat with (S i) by lia. unfold l.
  change (delete (S i) (plain (Jump kRootChain) :: rules)) with (plain (Jump kRootChain) :: delete i rules).
  apply list_lookup_fmap_Some in Hi as (r & Er & Hi).
  apply list_elem_of_split_length in Hi as (l1 & l2 & -> & ->).
  rewrite delete_middle, !app_comm_cons, !filter_app, (filter_cons _ r), decide_False; [done|].
  unfold to_root. rewrite <- Er. tauto.
Qed.

Lemma keeps_create ip c t : t <> kFilterTable \/ ours c = true -> keeps (createChain ip c t).
Proof.
  intros H. apply keeps_versions. intros v.
  apply others_bind; [apply keeps_ipt; tauto|intros a]. apply keeps_if; [apply others_ret|apply keeps_ipt; tauto].
Qed.

Lemma keeps_delete ip c t : t <> kFilterTable \/ ours c = true -> keeps (deleteChain ip c t).
Proof.
  intros H. apply keeps_versions. intros v.
  apply others_bind; [apply keeps_ipt; tauto|intros a]. apply keeps_if; [|apply others_ret].
  apply others_bind; [apply keeps_ipt; tauto|intros b]. apply keeps_if; [apply keeps_ipt; tauto|apply others_ret].
Qed.

Lemma keeps_list v t c : keeps (list_targets v t c).
Proof. by intros s v'. Qed.

Lemma keeps_link ip c parent first t :
  t <> kFilterTable \/ ours parent = true -> keeps (linkChain ip c parent first t).
Proof.
  intros H. apply keeps_versions. intros v. apply keeps_if.
  - apply others_bind; [apply keeps_list|intros l]. apply keeps_if; [apply others_ret|].
    apply others_bind; [apply keeps_ipt; tauto|intros b]. apply keeps_if; [|apply others_ret].
    apply others_bind; [apply keeps_list|intros l'].
    destruct (later_number _ l'); [apply keeps_ipt; tauto|apply others_ret].
  - apply others_bind; [apply keeps_ipt; tauto|intros b]. apply keeps_if; [apply others_ret|apply keeps_ipt; tauto].
Qed.

Lemma keeps_effect {A} (m : fw A) g : effect m g -> (forall v c, foreign (g v c) = foreign c) -> keeps m.
Proof. intros H Hg s v. by rewrite H. Qed.

Lemma keeps_link_root ip : keeps (linkChain ip kRootChain kOutputChain true kFilterTable).
Proof.
  eapply keeps_effect; [apply (linkChain_effect Hn)|]. intros v c. unfold on_version.
  destruct (covers ip v); [apply b_link_first_foreign|done].
Qed.

Lemma keeps_unlink ip c parent t :
  t <> kFilterTable \/ ours parent = true \/ (parent = kOutputChain /\ c = kRootChain) ->
  keeps (unlinkChain ip c parent t).
Proof.
  intros H. apply keeps_versions. intros v.
  apply others_bind; [apply keeps_ipt; naive_solver|intros b].
  apply keeps_if; [apply keeps_ipt; naive_solver|apply others_ret].
Qed.

Lemma keeps_append v t c rules :
  ours c = true -> keeps (each (fun r => _ ← ipt v t (Append_rule c r); mret tt) rules).
Proof.
  intros Hc. apply keeps_each. intros r.
  apply others_bind; [apply keeps_ipt; by right; left|intros ?; apply others_ret].
Qed.

Lemma keeps_anchor ip a rules t f g : keeps (installAnchor ip a rules t f g).
Proof.
  apply keeps_versions_. intros v. cbv zeta.
  apply others_bind; [apply keeps_create; right; apply Is_true_true, ours_anchor|intros ?].
  apply others_bind; [apply keeps_link; by right|intros ?].
  assert (forall key o, keeps (register key o)) as Hr.
  { intros key o s v'. unfold register. by destruct o, (callback_of key (anchorCallbacks s)). }
  apply others_bind; [apply Hr|intros ?]. apply others_bind; [apply Hr|intros ?].
  apply others_bind; [apply keeps_create; right; apply Is_true_true, ours_actual|intros ?].
  apply keeps_append. apply Is_true_true, ours_actual.
Qed.

Lemma keeps_unanchor ip a t : keeps (uninstallAnchor ip a t).
Proof.
  apply keeps_versions_. intros v. cbv zeta.
  apply others_bind; [apply keeps_unlink; by right; left|intros ?].
  apply others_bind; [apply keeps_delete; right; apply Is_true_true, ours_anchor|intros ?].
  apply others_bind; [apply keeps_delete; right; apply Is_true_true, ours_actual|intros ?]. apply others_ret.
Qed.

Lemma keeps_set ip a b : keeps (set ip a b).
Proof.
  unfold set, setAnchorEnabled. apply others_bind; [|intros _; apply keeps_idle, idle_registered].
  assert (ours (anchorChain a) = true) as Ho by apply Is_true_true, ours_anchor.
  destruct b; apply keeps_versions_; intros v; cbv zeta.
  - apply others_bind; [apply keeps_ipt; tauto|intros x]. apply keeps_if; [apply others_ret|].
    apply others_bind; [apply keeps_ipt; tauto|intros ?; apply others_ret].
  - apply others_bind; [apply keeps_ipt; tauto|intros x]. apply keeps_if; [apply others_ret|].
    apply others_bind; [apply keeps_ipt; tauto|intros ?; apply others_ret].
Qed.

Lemma keeps_refill a rules : keeps (refill (actualChain a) rules).
Proof.
  apply others_bind; [apply keeps_ipt; right; left; apply Is_true_true, ours_actual|intros ?].
  apply keeps_append. apply Is_true_true, ours_actual.
Qed.

(** A command of another table, or of the client's own chains. *)
Ltac keep := first
  [ apply others_ret | apply keeps_set | apply keeps_refill | apply keeps_anchor | apply keeps_unanchor
  | apply keeps_link_root | apply keeps_link; by left
  | apply keeps_create; solve [by left | by right] | apply keeps_delete; solve [by left | by right]
  | apply keeps_unlink; solve [by left | by right; right]
  | apply keeps_idle; solve [apply idle_setup | apply idle_teardown]
  | apply keeps_each; intros ?; case_match; subst; try case_match; subst; keep
  | apply keeps_if; keep
  | apply others_bind; [keep|intros ?; keep] ].

Lemma keeps_uninstall : keeps uninstall.
Proof. unfold uninstall. keep. Qed.

Lemma keeps_install : keeps install.
Proof. unfold install. apply others_bind; [apply keeps_uninstall|intros ?]. keep. Qed.

Lemma keeps_ensure : keeps ensure_installed.
Proof.
  apply others_bind; [apply keeps_ipt; tauto|intros b]. apply keeps_if; [apply keeps_install|apply others_ret].
Qed.
End Others.

(** ** Programs *)

Section Programs.
Context `{N : Netfilter}.
Hypothesis Hn : wf_netfilter N.

Lemma idle_ret {A} (a : A) : idle (mret a).
Proof. by intros s v. Qed.

Lemma idle_if {A} (b : bool) (m m' : fw A) : idle m -> idle m' -> idle (if b then m else m').
Proof. by destruct b. Qed.

Lemma idle_each {A} (f : A -> fw unit) l : (forall a, idle (f a)) -> idle (each f l).
Proof. intros Hf. induction l as [|x l IH]; [apply idle_ret|]. cbn [each]. by apply idle_bind. Qed.

Lemma idle_versions ip (f : version -> fw bool) : (forall v, idle (f v)) -> idle (for_versions ip f).
Proof.
  intros Hf. destruct ip; cbn [for_versions]; [apply Hf|apply Hf|].
  apply idle_bind; [apply Hf|intros ?]. apply idle_bind; [apply Hf|intros ?]. apply idle_ret.
Qed.

Lemma idle_versions_ ip (f : version -> fw unit) : (forall v, idle (f v)) -> idle (for_versions_ ip f).
Proof.
  intros Hf. destruct ip; cbn [for_versions_]; [apply Hf|apply Hf|].
  apply idle_bind; [apply Hf|intros ?; apply Hf].
Qed.

Lemma idle_register key f : idle (register key f).
Proof. intros s v. unfold register. by destruct f, (callback_of key (anchorCallbacks s)). Qed.

(** Commands of another table. *)
Ltac idle_steps := repeat first
  [ apply idle_ret | apply idle_register | apply (effect_ipt_other Hn); done | by intros ? ?
  | apply idle_versions; intros ? | apply idle_versions_; intros ?; cbv zeta
  | apply idle_each; intros ? | apply idle_if | apply idle_bind; [|intros ?]
  | match goal with |- idle (match ?x with _ => _ end) => destruct x end ].

Lemma idle_create ip c t : t <> kFilterTable -> idle (createChain ip c t).
Proof. intros Ht. unfold createChain. idle_steps. Qed.
Lemma idle_delete ip c t : t <> kFilterTable -> idle (deleteChain ip c t).
Proof. intros Ht. unfold deleteChain. idle_steps. Qed.
Lemma idle_link ip c parent first t : t <> kFilterTable -> idle (linkChain ip c parent first t).
Proof. intros Ht. unfold linkChain, list_targets. idle_steps. Qed.
Lemma idle_unlink ip c parent t : t <> kFilterTable -> idle (unlinkChain ip c parent t).
Proof. intros Ht. unfold unlinkChain. idle_steps. Qed.
Lemma idle_anchor ip a rules t f g : t <> kFilterTable -> idle (installAnchor ip a rules t f g).
Proof.
  intros Ht. apply idle_versions_. intros v. cbv zeta.
  apply idle_bind; [by apply idle_create|intros ?]. apply idle_bind; [by apply idle_link|intros ?].
  apply idle_bind; [apply idle_register|intros ?]. apply idle_bind; [apply idle_register|intros ?].
  apply idle_bind; [by apply idle_create|intros ?]. idle_steps.
Qed.
Lemma idle_unanchor ip a t : t <> kFilterTable -> idle (uninstallAnchor ip a t).
Proof.
  intros Ht. apply idle_versions_. intros v. cbv zeta.
  apply idle_bind; [by apply idle_unlink|intros ?]. apply idle_bind; [by apply idle_delete|intros ?].
  apply idle_bind; [by apply idle_delete|intros ?]. apply idle_ret.
Qed.

Ltac other := first
  [ by apply idle_create | by apply idle_delete | by apply idle_link | by apply idle_unlink
  | by apply idle_anchor | by apply idle_unanchor | apply idle_setup | apply idle_teardown ].
Ltac skip_other := repeat (apply effect_bind_id; [other|intros ?]).

Lemma uninstall_effect : effect uninstall b_uninstall.
Proof.
  unfold uninstall. eapply effect_ext; cycle 1.
  - apply effect_bind; [apply (unlinkChain_effect Hn)|intros ?].
    apply effect_bind; [apply (deleteChain_effect Hn)|intros ?]. skip_other.
    apply effect_bind_last.
    + apply (effect_each _ (fun x v c => let '(ip, a) := x in on_version ip (fun v => b_unanchor v a) v c)).
      intros [? ?]. apply (uninstallAnchor_effect Hn).
    + intros ?. do 3 (apply idle_bind; [other|intros ?]). other.
  - intros v c. unfold b_uninstall, unanchor_all, on_version. cbn [covers].
    done.
Qed.

Lemma install_effect : effect install b_install.
Proof.
  unfold install. eapply effect_ext; cycle 1.
  - apply effect_bind; [apply uninstall_effect|intros ?].
    apply effect_bind; [apply (createChain_effect Hn)|intros ?]. skip_other.
    apply effect_bind.
    + apply (effect_each _ (fun x => on_version x.1.1 (fun v => b_anchor v x.1.2 x.2))).
      intros [[? ?] ?]. apply (installAnchor_effect Hn).
    + intros ?. skip_other. apply effect_bind_last; [apply (linkChain_effect Hn)|intros ?].
      do 3 (apply idle_bind; [other|intros ?]). other.
  - intros v c. unfold b_install, anchor_all, on_version. cbn [covers].
    by destruct v.
Qed.
End Programs.

(** ** Acts on the anchors *)

Inductive act :=
  | Turn (ip : IPVersion) (a : string) (b : bool)
  | Fill (a : string) (rules : list rule).

Section Acts.
Context `{N : Netfilter}.
Hypothesis Hn : wf_netfilter N.

(** Nothing of the client in either version's filter table, or all of it in both. *)
Definition clean (s : firewall) : Prop := forall v, absent (view v s).
Definition installed (s : firewall) (P : version -> policy) : Prop :=
  forall v, laid_out v (P v) (view v s).

Definition act_ok (x : act) : Prop :=
  match x with
  | Turn ip a _ => forall v, covers ip v = true -> a ∈ names v
  | Fill a rules => a ∈ names iptables_4 /\ flat rules
  end.

Definition pol_act (v : version) (P : policy) (x : act) : policy :=
  match x with
  | Turn ip a b => if covers ip v then switch a b P else P
  | Fill a rules =>
      match v with
      | iptables_4 => fill_body a (filter (fun r => fillable v r = true) rules) P
      | iptables_6 => P
      end
  end.

Definition pol (l : list act) (v : version) (P : policy) : policy := fold_left (pol_act v) l P.

Record does {A} (m : fw A) (l : list act) : Prop := {
  does_installed : forall s P, installed s P -> installed (m s).2 (fun v => pol l v (P v));
  does_clean : forall s, clean s -> forall v, view v (m s).2 = view v s;
  does_output : forall s v, view v (m s).2 !! kOutputChain = view v s !! kOutputChain
}.

Lemma clean_same s s' : clean s -> (forall v, view v s' = view v s) -> clean s'.
Proof. intros H E v. rewrite E. apply H. Qed.

Lemma does_bind {A B} (m : fw A) (k : A -> fw B) l l' :
  does m l -> (forall a, does (k a) l') -> does (m ≫= k) (l ++ l').
Proof.
  intros [I1 C1 O1] H2. split.
  - intros s P HP. specialize (I1 s P HP). unfold mbind, fw_bind. destruct (m s) as [a s1].
    cbn in I1. pose proof (does_installed _ _ (H2 a) s1 _ I1) as I2. intros v. specialize (I2 v).
    unfold pol in *. by rewrite fold_left_app.
  - intros s Hs v. specialize (C1 s Hs). unfold mbind, fw_bind. destruct (m s) as [a s1].
    cbn in C1. rewrite (does_clean _ _ (H2 a)); [done|]. by apply (clean_same s).
  - intros s v. specialize (O1 s v). unfold mbind, fw_bind. destruct (m s) as [a s1].
    by rewrite (does_output _ _ (H2 a)).
Qed.

Lemma documented_output accepts cmd m :
  chain_of cmd <> kOutputChain -> (documented accepts cmd m).2 !! kOutputChain = m !! kOutputChain.
Proof.
  intros Hc. destruct cmd; cbn in Hc |- *; repeat case_match; cbn;
    solve [done | by rewrite lookup_insert_ne | by rewrite lookup_delete_ne].
Qed.

Lemma b_fill_output v a rules m :
  b_fill v (actualChain a) rules m !! kOutputChain = m !! kOutputChain.
Proof.
  unfold b_fill. revert m. induction rules as [|r rules IH]; intros m; [done|]. cbn [fold_left].
  rewrite IH. by apply documented_output.
Qed.

Lemma does_cons {A B} (m : fw A) (k : A -> fw B) x l :
  does m [x] -> (forall a, does (k a) l) -> does (m ≫= k) (x :: l).
Proof. apply (does_bind m k [x]). Qed.

Lemma does_turn ip a b : act_ok (Turn ip a b) -> does (set ip a b) [Turn ip a b].
Proof.
  intros Ha. pose proof (setAnchorEnabled_effect Hn ip a b) as He. split.
  - intros s P HP v. unfold set. rewrite He. unfold on_version. cbn. specialize (HP v). specialize (Ha v).
    destruct (covers ip v); [|done]. specialize (Ha eq_refl).
    destruct b; [by apply enable_laid_out|by apply disable_laid_out].
  - intros s Hs v. unfold set. rewrite He. unfold on_version. destruct (covers ip v); [|done].
    destruct b; [by apply enable_absent|by apply disable_absent].
  - intros s v. unfold set. rewrite He. unfold on_version. destruct (covers ip v); [|done].
    destruct b; unfold b_enable, b_disable, doc.
    + change (documented _ (Check_rule ?c ?r) ?m) with ((documented (dst_accepts v) (Check_rule c r) m).1, m).
      destruct (documented _ (Check_rule _ _) _).1; [done|by apply documented_output].
    + change (documented _ (Check_rule ?c ?r) ?m) with ((documented (dst_accepts v) (Check_rule c r) m).1, m).
      destruct (documented _ (Check_rule _ _) _).1; [by apply documented_output|done].
Qed.

Lemma does_fill a rules : act_ok (Fill a rules) -> does (refill (actualChain a) rules) [Fill a rules].
Proof.
  intros [Ha Hf]. pose proof (refill_effect Hn (actualChain a) rules) as He. split.
  - intros s P HP v. rewrite He. unfold on_version. cbn. specialize (HP v).
    destruct v; cbn [covers]; [|done]. by apply refill_laid_out.
  - intros s Hs v. rewrite He. unfold on_version. destruct (covers IPv4 v); [|done].
    by apply refill_absent.
  - intros s v. rewrite He. unfold on_version. destruct (covers IPv4 v); [|done].
    rewrite b_fill_output. by apply documented_output.
Qed.

Lemma flat_dns servers : flat (dns_rules servers).
Proof.
  unfold dns_rules, flat. apply Forall_forall. intros r Hr%list_elem_of_In.
  apply in_flat_map in Hr as (x & _ & Hr). apply in_flat_map in Hr as (i & _ & Hr). cbn in Hr.
  by destruct Hr as [<-|[<-|[]]].
Qed.
Lemma flat_accept servers : flat (map accept_dst servers).
Proof. apply Forall_map, Forall_true. done. Qed.
Lemma flat_reject servers : flat (map reject_dst servers).
Proof. apply Forall_map, Forall_true. done. Qed.

(** *** Installation *)

(** The root chain first in [OUTPUT]. *)
Definition on_top (v : version) (s : firewall) : Prop :=
  head (default [] (view v s !! kOutputChain)) = Some (jump kRootChain).

Lemma isInstalled_clean s : clean s -> (isInstalled s).1 = false /\ (forall v, view v (isInstalled s).2 = view v s).
Proof.
  intros Hs. unfold isInstalled. split.
  - rewrite (ipt_status Hn). cbn. specialize (Hs iptables_4). destruct (lo_output _ _ Hs) as [rules Ho].
    rewrite Ho. apply bool_decide_false, no_jump_root. by apply (lo_foreign _ _ Hs kOutputChain).
  - intros v. rewrite (ipt_view Hn). by destruct (bool_decide _) eqn:E; bprop; [destruct E as [-> _]|].
Qed.

Lemma isInstalled_installed s P :
  installed s P -> (isInstalled s).1 = true /\ (forall v, view v (isInstalled s).2 = view v s).
Proof.
  intros Hs. unfold isInstalled. split.
  - rewrite (ipt_status Hn). cbn. specialize (Hs iptables_4).
    destruct (l_output _ _ _ Hs) as (pre & rest & Ho & _). rewrite Ho.
    apply bool_decide_true. set_solver.
  - intros v. rewrite (ipt_view Hn). by destruct (bool_decide _) eqn:E; bprop; [destruct E as [-> _]|].
Qed.

Lemma ensure_clean s :
  clean s -> installed (ensure_installed s).2 fresh_policy /\ forall v, on_top v (ensure_installed s).2.
Proof.
  intros Hs. destruct (isInstalled_clean s Hs) as [E1 E2]. unfold ensure_installed, mbind, fw_bind.
  destruct (isInstalled s) as [b s1]. cbn in E1, E2. subst b. cbn [negb].
  assert (forall v, laid_out v (fresh_policy v) (view v (install s1).2) /\ on_top v (install s1).2) as H.
  { intros v. unfold on_top. rewrite (install_effect Hn). apply (install_laid_out Hn). left.
    rewrite E2. apply Hs. }
  split; intros v; apply H.
Qed.

Lemma ensure_kept s P : installed s P -> forall v, view v (ensure_installed s).2 = view v s.
Proof.
  intros Hs. destruct (isInstalled_installed s P Hs) as [E1 E2]. unfold ensure_installed, mbind, fw_bind.
  destruct (isInstalled s) as [b s1]. cbn in E1, E2. by subst b.
Qed.

Lemma uninstall_clean s : clean s \/ (exists P, installed s P) -> clean (uninstall s).2.
Proof.
  intros H v. rewrite (uninstall_effect Hn). apply b_uninstall_absent.
  destruct H as [H|[P H]]; [by left|right; by eexists].
Qed.

Lemma priority_installed s P :
  installed s P ->
  installed (ensureRootAnchorPriority Both s).2 P /\
  forall v, on_top v (ensureRootAnchorPriority Both s).2.
Proof.
  intros HP.
  assert (forall v, exists pre rest, view v s !! kOutputChain = Some (pre ++ jump kRootChain :: rest) /\
    no_jump pre /\ no_jump rest /\
    view v (ensureRootAnchorPriority Both s).2 =
      <[kOutputChain := jump kRootChain :: pre ++ rest]> (view v s)) as H.
  { intros v. destruct (l_output _ _ _ (HP v)) as (pre & rest & Ho & H1 & H2).
    exists pre, rest. split_and!; [done..|]. unfold ensureRootAnchorPriority.
    rewrite (effect_bind_last _ _ _ (linkChain_effect Hn Both kRootChain kOutputChain true)
               (fun _ => effect_ret tt)).
    unfold on_version. cbn [covers]. rewrite (link_first_spec Hn v _ pre rest); [done..|].
    by rewrite (l_root _ _ _ (HP v)). }
  split.
  - intros v. destruct (H v) as (pre & rest & Ho & H1 & H2 & ->). specialize (HP v).
    pose proof (names_named v) as HN. rewrite Forall_forall in HN.
    assert (forall c, ours c -> <[kOutputChain := jump kRootChain :: pre ++ rest]> (view v s) !! c
      = view v s !! c) as Hc by (intros c Hc; apply lookup_insert_ne; by intros <-).
    split.
    + exists [], (pre ++ rest). rewrite lookup_insert_eq. split_and!; [done|apply no_jump_nil|].
      by apply no_jump_app.
    + rewrite Hc by done. apply (l_root _ _ _ HP).
    + intros a Ha. rewrite Hc by apply ours_anchor. by apply (l_anchor _ _ _ HP).
    + intros a Ha. rewrite Hc by apply ours_actual. by apply (l_actual _ _ _ HP).
    + apply (l_body _ _ _ HP).
    + intros c Ho' Hs. rewrite Hc in Hs by done. by apply (l_ours _ _ _ HP).
    + intros c rules Ho' Hne. rewrite lookup_insert_ne by done. by apply (l_foreign _ _ _ HP).
  - intros v. destruct (H v) as (pre & rest & _ & _ & _ & E). unfold on_top. rewrite E.
    by rewrite lookup_insert_eq.
Qed.

End Acts.

(** ** The decision on a packet *)

Section Walks.
Context `{N : Netfilter}.

(** The first rule that matches and decides. *)
Fixpoint first_match (v : version) (p : packet) (rules : list rule) : option verdict :=
  match rules with
  | [] => None
  | r :: rest =>
      if rule_matches v r p then
        match r_target r with
        | ACCEPT => Some Accepted
        | REJECT => Some Rejected
        | _ => first_match v p rest
        end
      else first_match v p rest
  end.

(** The anchors that are on, in order. *)
Fixpoint decision (v : version) (P : policy) (p : packet) (l : list string) : option verdict :=
  match l with
  | [] => None
  | a :: rest =>
      match (if on P a then first_match v p (body P a) else None) with
      | Some d => Some d
      | None => decision v P p rest
      end
  end.

(** Jumps enough for every chain of a table: the client's need four, and the kernel takes no
    table in which a chain leads back to itself. *)
Definition jumps (m : chains) : nat := 4 + size m.

(** What the client's chains say of a packet that reaches them. *)
Definition client_verdict (v : version) (s : firewall) (p : packet) : option verdict :=
  walk v (jumps (view v s)) (view v s) p [jump kRootChain].

(** What the whole chain [OUTPUT] says. *)
Definition output_verdict (v : version) (s : firewall) (p : packet) : option verdict :=
  walk v (jumps (view v s)) (view v s) p (default [] (view v s !! kOutputChain)).

(** The rules before the client's jump, and what they say: only other programs put rules
    there. *)
Fixpoint before_root (rules : list rule) : list rule :=
  match rules with
  | [] => []
  | r :: rest => if bool_decide (r = jump kRootChain) then [] else r :: before_root rest
  end.

Definition earlier_verdict (v : version) (s : firewall) (p : packet) : option verdict :=
  walk v (jumps (view v s)) (view v s) p (before_root (default [] (view v s !! kOutputChain))).

Lemma walk_nil v d m p : walk v d m p [] = None.
Proof. by destruct d. Qed.

Lemma walk_cons v d m p r rest :
  walk v (S d) m p (r :: rest) =
  if rule_matches v r p then
    match r_target r with
    | ACCEPT => Some Accepted
    | REJECT => Some Rejected
    | Jump c => match walk v d m p (default [] (m !! c)) with
                | Some x => Some x
                | None => walk v (S d) m p rest
                end
    | _ => walk v (S d) m p rest
    end
  else walk v (S d) m p rest.
Proof. done. Qed.

Lemma walk_jump v d m p c rest :
  walk v (S d) m p (jump c :: rest) =
  match walk v d m p (default [] (m !! c)) with Some x => Some x | None => walk v (S d) m p rest end.
Proof. done. Qed.

Lemma walk_flat v d m p rules : flat rules -> walk v (S d) m p rules = first_match v p rules.
Proof.
  intros Hf. induction Hf as [|r rules Hr _ IH]; [done|]. rewrite walk_cons, IH. cbn [first_match].
  destruct (rule_matches v r p); [|done]. by destruct (r_target r).
Qed.

Lemma walk_app v d m p l l' :
  walk v (S d) m p (l ++ l') =
  match walk v (S d) m p l with Some x => Some x | None => walk v (S d) m p l' end.
Proof.
  induction l as [|r l IH]; [done|]. cbn [app]. rewrite !walk_cons, IH.
  destruct (rule_matches v r p); [|done]. destruct (r_target r); try done.
  by destruct (walk v d m p _).
Qed.

Lemma before_root_app pre rest :
  jump kRootChain ∉ pre -> before_root (pre ++ jump kRootChain :: rest) = pre.
Proof.
  induction pre as [|r pre IH]; intros Hr; cbn.
  - by rewrite bool_decide_true.
  - rewrite bool_decide_false by set_solver. by rewrite IH by set_solver.
Qed.

Lemma walk_anchors v P m p l n :
  laid_out v P m -> (forall a, a ∈ l -> a ∈ names v) ->
  walk v (3 + n) m p (map (fun a => jump (anchorChain a)) l) = decision v P p l.
Proof.
  intros H. induction l as [|a l IH]; intros Hl; [done|]. cbn [map decision].
  change (3 + n)%nat with (S (2 + n)) in *. rewrite walk_jump, IH by set_solver. assert (a ∈ names v) as Ha by set_solver.
  rewrite (l_anchor _ _ _ H a Ha). cbn [default from_option id].
  destruct (on P a); [|by rewrite walk_nil].
  change (2 + n)%nat with (S (S n)). rewrite walk_jump, walk_nil, (l_actual _ _ _ H a Ha). cbn [default from_option id].
  rewrite walk_flat by (by apply (l_body _ _ _ H)). by destruct (first_match v p (body P a)).
Qed.

Lemma client_decision v s P p :
  laid_out v P (view v s) -> client_verdict v s p = decision v P p (names v).
Proof.
  intros H. unfold client_verdict, jumps.
  change (4 + ?n)%nat with (S (3 + n)). rewrite walk_jump, walk_nil, (l_root _ _ _ H).
  cbn [default from_option id]. rewrite (walk_anchors v P) by done. by destruct (decision _ _ _ _).
Qed.

(** Without the chains the rules of the others decide. *)
Lemma client_absent v s p : absent (view v s) -> client_verdict v s p = None.
Proof.
  intros H. unfold client_verdict, jumps. cbn [Nat.add]. by rewrite walk_jump, walk_nil, (lo_root _ _ H).
Qed.

Lemma output_on_top v s p :
  on_top v s ->
  output_verdict v s p =
  match client_verdict v s p with
  | Some d => Some d
  | None => walk v (jumps (view v s)) (view v s) p (tail (default [] (view v s !! kOutputChain)))
  end.
Proof.
  unfold on_top, output_verdict, client_verdict, jumps. cbn [Nat.add].
  destruct (default [] (view v s !! kOutputChain)) as [|r rest]; [done|]. intros [= ->].
  rewrite !walk_jump, walk_nil. by destruct (walk v _ _ _ (default [] (_ !! kRootChain))).
Qed.

Lemma earlier_on_top v s p : on_top v s -> earlier_verdict v s p = None.
Proof.
  unfold on_top, earlier_verdict.
  destruct (default [] (view v s !! kOutputChain)) as [|r rest]; [done|]. intros [= ->].
  cbn [before_root]. by rewrite bool_decide_true, walk_nil.
Qed.

(** The rules of the others before the client's jump, the client's chains, the rest. *)
Lemma output_in_order v P s p :
  laid_out v P (view v s) ->
  exists rest, output_verdict v s p =
    match earlier_verdict v s p with
    | Some d => Some d
    | None => match client_verdict v s p with
              | Some d => Some d
              | None => walk v (jumps (view v s)) (view v s) p rest
              end
    end.
Proof.
  intros H. destruct (l_output _ _ _ H) as (pre & rest & Ho & Hp & _). exists rest.
  unfold output_verdict, earlier_verdict, client_verdict. rewrite Ho. cbn [default from_option id].
  rewrite before_root_app.
  2:{ intros Hj. by specialize (Hp _ _ Hj eq_refl). }
  unfold jumps. cbn [Nat.add]. rewrite walk_app. destruct (walk v _ _ _ pre); [done|].
  rewrite !walk_jump, walk_nil. by destruct (walk v _ _ _ (default [] (_ !! kRootChain))).
Qed.

Lemma first_match_uniform v p t rules :
  t = ACCEPT \/ t = REJECT -> Forall (fun r => r_target r = t) rules ->
  first_match v p rules =
  if existsb (fun r => rule_matches v r p) rules
  then Some (match t with ACCEPT => Accepted | _ => Rejected end) else None.
Proof.
  intros Ht Hr. induction Hr as [|r rules E _ IH]; [done|]. cbn [first_match existsb]. rewrite IH, E.
  destruct (rule_matches v r p); [|done]. by destruct Ht as [-> | ->].
Qed.
End Walks.

(** ** What the kill switch does to the anchors *)

(** The anchors whose rules are written again, and those never on for IPv6. *)
Definition filled : list string := ["320.allowDNS"; "110.allowNets"; "120.blockNets"].
Definition off_6 : list string := ["200.allowVPN"; "310.blockDNS"].

Definition blocked_acts : list act :=
  [Turn Both "000.allowLoopback" true; Turn Both "100.blockAll" true; Turn IPv4 "110.allowNets" false;
   Turn IPv4 "120.blockNets" false; Turn Both "130.allowMarkedXray" false; Turn IPv4 "200.allowVPN" false;
   Turn IPv6 "250.blockIPv6" true; Turn Both "290.allowDHCP" false; Turn Both "300.allowLAN" false;
   Turn IPv4 "310.blockDNS" false; Turn IPv4 "320.allowDNS" false; Turn Both "400.allowPIA" false].

Definition opened_acts : list act :=
  [Turn Both "000.allowLoopback" true; Turn Both "100.blockAll" false; Turn IPv4 "110.allowNets" false;
   Turn IPv4 "120.blockNets" false; Turn Both "130.allowMarkedXray" false; Turn IPv4 "200.allowVPN" false;
   Turn IPv6 "250.blockIPv6" false; Turn Both "290.allowDHCP" true; Turn Both "300.allowLAN" true;
   Turn IPv4 "310.blockDNS" false; Turn IPv4 "320.allowDNS" true; Turn Both "400.allowPIA" false].

Definition traffic_acts : list act :=
  [Turn Both "100.blockAll" true; Turn Both "130.allowMarkedXray" false;
   Turn Both "000.allowLoopback" true; Turn IPv6 "250.blockIPv6" true].

Definition nets_acts (ranges : list string) : list act :=
  [Turn IPv4 "110.allowNets" true; Fill "110.allowNets" (map accept_dst ranges)].

Definition enable_acts (k : kill_config) : list act :=
  [Turn Both "000.allowLoopback" true; Turn Both "100.blockAll" (k_blockAll k);
   Turn IPv4 "110.allowNets" (k_allowNets k); Fill "110.allowNets" (map accept_dst (k_allownets k));
   Turn IPv4 "120.blockNets" (k_blockNets k); Fill "120.blockNets" (map reject_dst (k_blocknets k));
   Turn Both "130.allowMarkedXray" true; Turn IPv4 "200.allowVPN" true; Turn IPv6 "250.blockIPv6" true;
   Turn Both "290.allowDHCP" true; Turn Both "300.allowLAN" true; Turn IPv4 "310.blockDNS" true;
   Fill "320.allowDNS" (dns_rules (dns_servers k)); Turn IPv4 "320.allowDNS" true;
   Turn Both "400.allowPIA" true].

Definition wireguard_acts (params : FirewallParams) : list act :=
  [Turn Both "000.allowLoopback" true; Turn Both "100.blockAll" (blockAll params);
   Turn IPv4 "110.allowNets" (allowNets params); Fill "110.allowNets" (map accept_dst (allowAddrs params));
   Turn IPv4 "120.blockNets" (blockNets params); Fill "120.blockNets" (map reject_dst (blockAddrs params));
   Turn IPv4 "200.allowVPN" true; Turn IPv6 "250.blockIPv6" true;
   Turn Both "290.allowDHCP" true; Turn Both "300.allowLAN" true; Turn IPv4 "310.blockDNS" true;
   Fill "320.allowDNS" (dns_rules (dnsServers params)); Turn IPv4 "320.allowDNS" true;
   Turn Both "400.allowPIA" true].

(** Programs that switch and fill anchors, one after the other; [Hn] is the filter's promise. *)
Ltac known := apply (bool_decide_unpack _); vm_compute; done.
Ltac one_act Hn := first
  [ apply (does_turn Hn); intros [] ?; solve [done | known]
  | apply (does_fill Hn); split; [known|solve [apply flat_accept | apply flat_reject | apply flat_dns]] ].
Ltac acts Hn := repeat (apply does_cons; [one_act Hn|intros ?]); one_act Hn.

Section Switch.
Context `{N : Netfilter}.
Hypothesis Hn : wf_netfilter N.

Lemma all_blocked_does : does all_blocked blocked_acts.
Proof. unfold all_blocked, blocked_acts. acts Hn. Qed.

Definition opened : fw unit :=
  _ ← set Both "000.allowLoopback" true;
  _ ← set Both "100.blockAll" false;
  _ ← set IPv4 "110.allowNets" false;
  _ ← set IPv4 "120.blockNets" false;
  _ ← set Both "130.allowMarkedXray" false;
  _ ← set IPv4 "200.allowVPN" false;
  _ ← set IPv6 "250.blockIPv6" false;
  _ ← set Both "290.allowDHCP" true;
  _ ← set Both "300.allowLAN" true;
  _ ← set IPv4 "310.blockDNS" false;
  _ ← set IPv4 "320.allowDNS" true;
  set Both "400.allowPIA" false.

Lemma opened_does : does opened opened_acts.
Proof. unfold opened, opened_acts. acts Hn. Qed.

Lemma nets_does ranges :
  does (_ ← set IPv4 "110.allowNets" true; updateAllowNets ranges) (nets_acts ranges).
Proof. unfold updateAllowNets, nets_acts. acts Hn. Qed.

Lemma traffic_does :
  does (_ ← set Both "100.blockAll" true; _ ← set Both "130.allowMarkedXray" false;
        _ ← set Both "000.allowLoopback" true; set IPv6 "250.blockIPv6" true) traffic_acts.
Proof. unfold traffic_acts. acts Hn. Qed.

Lemma all_open_eq s : all_open s = uninstall (opened s).2.
Proof.
  unfold all_open, opened, mbind, fw_bind.
  repeat match goal with |- context [match set ?ip ?a ?b ?s with _ => _ end] => destruct (set ip a b s) as [] end.
  done.
Qed.

End Switch.

(** *** Anchors with their own rules *)

Section Sane.
Context `{N : Netfilter}.

Record sane (v : version) (P : policy) : Prop := {
  sane_body : forall a, a ∈ names v -> a ∉ filled -> body P a = first_rules v a;
  sane_6 : v = iptables_6 -> forall a, a ∈ off_6 -> on P a = false
}.

Definition act_sane (x : act) : Prop :=
  match x with
  | Turn ip a b => b = true -> a ∈ off_6 -> covers ip iptables_6 = false
  | Fill a _ => a ∈ filled
  end.

Lemma sane_fresh v : sane v (fresh_policy v).
Proof. by split. Qed.

Lemma sane_act v P x : act_sane x -> sane v P -> sane v (pol_act v P x).
Proof.
  intros Hx [Hb Ho]. destruct x as [ip a b|a rules]; cbn in *.
  - destruct (covers ip v) eqn:Ec; [|done]. split; [done|]. intros -> c Hc. cbn.
    destruct (String.eqb_spec c a) as [->|]; [|by apply Ho]. destruct b; [|done].
    specialize (Hx eq_refl Hc). congruence.
  - destruct v; [|done]. split; [|done]. intros c Hc Hn'. cbn.
    destruct (String.eqb_spec c a) as [->|]; [done|by apply Hb].
Qed.

Lemma sane_acts v P l : Forall act_sane l -> sane v P -> sane v (pol l v P).
Proof.
  unfold pol. intros Hl. revert P. induction Hl as [|x l Hx _ IH]; intros P HP; [done|].
  cbn [fold_left]. by apply IH, sane_act.
Qed.

Ltac sane_list := repeat (apply Forall_cons; split;
  [solve [ cbn; intros; solve [done | set_solver] | cbn; unfold filled; set_solver ]|]); apply Forall_nil_2.

Lemma blocked_sane : Forall act_sane blocked_acts.
Proof. unfold blocked_acts, off_6. sane_list. Qed.
Lemma opened_sane : Forall act_sane opened_acts.
Proof. unfold opened_acts. sane_list. Qed.
Lemma traffic_sane : Forall act_sane traffic_acts.
Proof. unfold traffic_acts. sane_list. Qed.
Lemma nets_sane ranges : Forall act_sane (nets_acts ranges).
Proof. unfold nets_acts. sane_list. Qed.
Lemma enable_sane k : Forall act_sane (enable_acts k).
Proof. unfold enable_acts. sane_list. Qed.
Lemma wireguard_sane params : Forall act_sane (wireguard_acts params).
Proof. unfold wireguard_acts. sane_list. Qed.

(** *** Installation first *)

Definition shaped (s : firewall) : Prop :=
  clean s \/ exists P, installed s P /\ forall v, sane v (P v).

(** The anchors as a function leaves them, from some rules of their own. *)
Definition set_up (l : list act) (s : firewall) : Prop :=
  exists P, installed s (fun v => pol l v (P v)) /\ forall v, sane v (P v).

Lemma set_up_shaped l s : Forall act_sane l -> set_up l s -> shaped s.
Proof.
  intros Hl (P & HP & Hs). right. eexists. split; [exact HP|]. intros v. by apply sane_acts.
Qed.

End Sane.

Section Composed.
Context `{N : Netfilter}.
Hypothesis Hn : wf_netfilter N.

Lemma shaped_does {A} (m : fw A) l s :
  does m l -> Forall act_sane l -> shaped s ->
  (clean s /\ clean (m s).2) \/ ((exists P, installed s P) /\ set_up l (m s).2).
Proof.
  intros Hm Hl [Hs|(P & HP & Hs)].
  - left. split; [done|]. apply (clean_same s); [done|]. by apply (does_clean _ _ Hm).
  - right. split; [by eexists|]. exists P. split; [by apply (does_installed _ _ Hm)|done].
Qed.

Lemma ensure_does {A} (k : unit -> fw A) l s :
  (forall a, does (k a) l) -> shaped s ->
  set_up l ((ensure_installed ≫= k) s).2 /\
  (clean s \/ (forall v, on_top v s) -> forall v, on_top v ((ensure_installed ≫= k) s).2).
Proof.
  intros Hk Hs. unfold mbind, fw_bind. destruct Hs as [Hs|(P & HP & Hs)].
  - destruct (ensure_clean Hn s Hs) as [H1 H2]. destruct (ensure_installed s) as [a s1]. cbn in H1, H2.
    split.
    + exists fresh_policy. split; [by apply (does_installed _ _ (Hk a))|]. intros v. apply sane_fresh.
    + intros _ v. unfold on_top. rewrite (does_output _ _ (Hk a)). apply H2.
  - pose proof (ensure_kept Hn s P HP) as H1. destruct (ensure_installed s) as [a s1]. cbn in H1.
    assert (installed s1 P) as HP1 by (intros v; rewrite H1; apply HP). split.
    + exists P. split; [by apply (does_installed _ _ (Hk a))|done].
    + intros Ht v. unfold on_top. rewrite (does_output _ _ (Hk a)), H1.
      destruct Ht as [Hc|Ht]; [|apply Ht]. exfalso.
      destruct (isInstalled_clean Hn s Hc) as [E1 _], (isInstalled_installed Hn s P HP) as [E2 _]. congruence.
Qed.

Lemma priority_does {A} (k : unit -> fw A) l s :
  (forall a, does (k a) l) -> shaped s ->
  let s' := ((_ ← ensure_installed; ensureRootAnchorPriority Both ≫= k) s).2 in
  exists P, installed s' (fun v => pol l v (P v)) /\ (forall v, sane v (P v)) /\
    (clean s -> P = fresh_policy) /\ forall v, on_top v s'.
Proof.
  intros Hk Hs. unfold mbind, fw_bind.
  assert (exists P, installed (ensure_installed s).2 P /\ (forall v, sane v (P v)) /\
    (clean s -> P = fresh_policy)) as (P & HP & HS & Hf).
  { destruct Hs as [Hs|(P & HP & Hs)].
    - exists fresh_policy. split_and!; [by apply (ensure_clean Hn)|intros v; apply sane_fresh|done].
    - exists P. split_and!; [|done|].
      + intros v. rewrite (ensure_kept Hn s P HP). apply HP.
      + intros Hc. destruct (isInstalled_clean Hn s Hc) as [E1 _], (isInstalled_installed Hn s P HP) as [E2 _].
        congruence. }
  destruct (ensure_installed s) as [a s1]. cbn in HP.
  destruct (priority_installed Hn s1 P HP) as [H1 H2].
  destruct (ensureRootAnchorPriority Both s1) as [b s2]. cbn in H1, H2.
  exists P. split_and!; [by apply (does_installed _ _ (Hk b))|done|done|].
  - intros v. unfold on_top. rewrite (does_output _ _ (Hk b)). apply H2.
Qed.

Lemma apply_kill_switch_set_up k s :
  shaped s ->
  set_up (enable_acts k) (apply_kill_switch k s).2 /\
  (clean s \/ (forall v, on_top v s) -> forall v, on_top v (apply_kill_switch k s).2).
Proof.
  apply ensure_does. intros _. unfold enable_acts, updateAllowNets, updateBlockNets, updateDNSServers.
  acts Hn.
Qed.

Lemma wireguard_made params s :
  shaped s ->
  exists P, installed (applyFirewallRules params s).2 (fun v => pol (wireguard_acts params) v (P v)) /\
    (forall v, sane v (P v)) /\ (clean s -> P = fresh_policy) /\
    forall v, on_top v (applyFirewallRules params s).2.
Proof.
  apply priority_does. intros _. unfold wireguard_acts, updateAllowNets, updateBlockNets, updateDNSServers.
  acts Hn.
Qed.

Lemma wireguard_set_up params s :
  shaped s -> set_up (wireguard_acts params) (applyFirewallRules params s).2.
Proof. intros Hs. destruct (wireguard_made params s Hs) as (P & HP & HS & _). by exists P. Qed.
End Composed.
