(* ===== verification/KillSwitchTheorems.v ===== *)
(** * The kill switch of the service on Linux: its theorems

    What the packet filter lets out once the kill switch is on, in strict mode when it is off,
    and that the rules of other programs stay. *)

From S2P Require Import Prelude Json Lines IpAddress SplitTunneling SecureSettings.
From S2P Require Import SecureSettingsFacts SecureSettingsTheorems InterfaceConfig Netfilter.
From S2P Require Import LinuxFirewall LinuxFirewallFacts LinuxFirewallShape KillSwitch.
From S2P Require Import WireguardLinux KillSwitchFacts.

(** ** What is promised *)

Section Promise.
Context `{N : Netfilter}.

Definition loopback (p : packet) : bool := iface_matches "lo+" (p_out p).
Definition in_tunnel (p : packet) : bool := existsb (fun i => iface_matches i (p_out p)) tunnel_ifaces.
Definition is_dns (p : packet) : bool :=
  (String.eqb (p_proto p) "udp" || String.eqb (p_proto p) "tcp") && (p_dport p =? 53)%Z.
(** The packet goes to one of the addresses the texts name; a text the program does not take
    names none. *)
Definition to_any (v : version) (texts : list string) (p : packet) : bool :=
  existsb (fun d => dst_accepts v d && dst_matches v d (p_dst p)) texts.
Definition asks_lease (v : version) (p : packet) : bool :=
  String.eqb (p_proto p) "udp" &&
  match v with
  | iptables_4 => dst_matches v "255.255.255.255" (p_dst p) && (p_sport p =? 68)%Z && (p_dport p =? 67)%Z
  | iptables_6 => dst_matches v "ff00::/8" (p_dst p) && (p_sport p =? 546)%Z && (p_dport p =? 547)%Z
  end.

(** A promise for IPv4: names are asked of [dns] in the tunnel only; the local network, the
    tunnel and marked packets are free; then come the refused and the exempt addresses, and
    the rest. *)
Record promise := mkPromise {
  pr_dns : list string;
  pr_marked : bool;
  pr_blocked : option (list string);
  pr_exempt : option (list string);
  pr_rest : option verdict
}.

Definition promised (v : version) (w : promise) (p : packet) : option verdict :=
  if loopback p then Some Accepted
  else match v with
  | iptables_4 =>
      if is_dns p then Some (if in_tunnel p && to_any v (pr_dns w) p then Accepted else Rejected)
      else if to_any v lan_4 p || asks_lease v p || in_tunnel p
              || (pr_marked w && (p_mark p =? xrayTrafficMark)%Z) then Some Accepted
      else if match pr_blocked w with Some l => to_any v l p | None => false end then Some Rejected
      else if match pr_exempt w with Some l => to_any v l p | None => false end then Some Accepted
      else pr_rest w
  | iptables_6 => Some (if to_any v lan_6 p || asks_lease v p then Accepted else Rejected)
  end.

Definition flag {A} (b : bool) (x : A) : option A := if b then Some x else None.

Definition kill_switch_promise (k : kill_config) : promise :=
  mkPromise (dns_servers k) true (flag (k_blockNets k) (k_blocknets k))
    (flag (k_allowNets k) (k_allownets k)) (flag (k_blockAll k) Rejected).

Definition wireguard_promise (marked : bool) (params : FirewallParams) : promise :=
  mkPromise (dnsServers params) marked (flag (blockNets params) (blockAddrs params))
    (flag (allowNets params) (allowAddrs params)) (flag (blockAll params) Rejected).
End Promise.

(** ** The anchors keep the promise *)

(** What is known of each anchor of a list, rewritten. *)
Ltac take_all := repeat match goal with H : Forall _ (_ :: _) |- _ => apply Forall_cons in H as [-> H] end.

Section Decisions.
Context `{N : Netfilter}.
Hypothesis Hn : wf_netfilter N.

Definition listed_4 : list string :=
  ["000.allowLoopback"; "320.allowDNS"; "310.blockDNS"; "300.allowLAN"; "290.allowDHCP"; "200.allowVPN";
   "130.allowMarkedXray"; "120.blockNets"; "110.allowNets"; "400.allowPIA"; "100.blockAll"].
Definition listed_6 : list string :=
  ["000.allowLoopback"; "310.blockDNS"; "300.allowLAN"; "290.allowDHCP"; "250.blockIPv6"; "200.allowVPN";
   "130.allowMarkedXray"; "400.allowPIA"; "100.blockAll"].

Lemma names_4 : names iptables_4 = listed_4.
Proof. vm_compute. reflexivity. Qed.
Lemma names_6 : names iptables_6 = listed_6.
Proof. vm_compute. reflexivity. Qed.

Ltac same_test := match goal with
  |- (if ?a then _ else _) = (if ?b then _ else _) => assert (a = b) as ->; [|done] end.

Lemma existsb_filter {A} (f g : A -> bool) l :
  existsb f (filter (fun x => g x = true) l) = existsb (fun x => g x && f x) l.
Proof.
  induction l as [|x l IH]; [done|]. rewrite filter_cons. cbn [existsb]. destruct (g x).
  - rewrite decide_True by done. cbn [existsb]. by rewrite IH.
  - rewrite decide_False by done. by rewrite IH.
Qed.

Lemma existsb_map' {A B} (f : B -> bool) (g : A -> B) l :
  existsb f (map g l) = existsb (fun x => f (g x)) l.
Proof. induction l as [|x l IH]; [done|]. cbn. by rewrite IH. Qed.

Lemma first_match_dst v p t (f : string -> rule) texts :
  (forall d, f d = (plain t) <| r_dst := Some d |>) -> t = ACCEPT \/ t = REJECT ->
  first_match v p (filter (fun r => fillable v r = true) (map f texts)) =
  if to_any v texts p then Some (match t with ACCEPT => Accepted | _ => Rejected end) else None.
Proof.
  intros Hf Ht. rewrite (first_match_uniform v p t); [|done|].
  2:{ apply Forall_forall. intros r [_ Hr]%list_elem_of_filter. apply list_elem_of_fmap in Hr as (d & -> & _).
      rewrite Hf. done. }
  same_test. unfold to_any. rewrite existsb_filter, existsb_map'.
  induction texts as [|d texts IH]; [done|]. cbn [existsb]. rewrite IH, Hf. f_equal.
  unfold fillable, rule_matches. destruct Ht as [-> | ->]; cbn; by rewrite !andb_true_r.
Qed.

Lemma first_match_dns v p servers :
  first_match v p (filter (fun r => fillable v r = true) (dns_rules servers)) =
  if is_dns p && in_tunnel p && to_any v servers p then Some Accepted else None.
Proof.
  rewrite (first_match_uniform v p ACCEPT); [|by left|].
  2:{ apply Forall_forall. intros r [_ Hr]%list_elem_of_filter. apply list_elem_of_In in Hr.
      apply in_flat_map in Hr as (x & _ & Hr). apply in_flat_map in Hr as (i & _ & Hr). cbn in Hr.
      by destruct Hr as [<-|[<-|[]]]. }
  same_test. rewrite existsb_filter. unfold to_any.
  induction servers as [|d servers IH]; [by rewrite andb_false_r|].
  unfold dns_rules in *. cbn [flat_map]. rewrite existsb_app, IH. cbn [existsb].
  rewrite andb_orb_distrib_r. f_equal.
  unfold tunnel_ifaces, in_tunnel, is_dns, fillable, rule_matches. cbn [flat_map app existsb tunnel_ifaces].
  cbn [r_target r_dst r_out r_proto r_sport r_dport r_mark r_cgroup accept_dns accept_out plain upd opt_test].
  rewrite (String.eqb_sym "udp"), (String.eqb_sym "tcp"), (Z.eqb_sym 53).
  generalize (iface_matches "amn0+" (p_out p)) as b1, (iface_matches "tun0+" (p_out p)) as b2,
    (iface_matches "tun2+" (p_out p)) as b3, (dst_accepts v d) as b4, (dst_matches v d (p_dst p)) as b5,
    (p_proto p =? "udp")%string as b6, (p_proto p =? "tcp")%string as b7, (p_dport p =? 53)%Z as b8.
  by intros [] [] [] [] [] [] [] [].
Qed.

(** The rules an anchor comes with. *)
Lemma own_rules v Q a rules :
  sane v Q -> a ∈ names v -> a ∉ filled -> first_rules v a = rules -> body Q a = rules.
Proof. intros HQ Ha Hf <-. by apply sane_body. Qed.

Ltac own Hq := apply (own_rules _ _ _ _ Hq);
  [apply (bool_decide_unpack _); vm_compute; exact I|unfold filled; set_solver|vm_compute; reflexivity].

Lemma first_lan v p texts :
  Forall (fun d => dst_accepts v d = true) texts ->
  first_match v p (map accept_dst texts) = if to_any v texts p then Some Accepted else None.
Proof.
  intros Ht. rewrite <- (first_match_dst v p ACCEPT accept_dst) by (done || by left).
  f_equal. symmetry. apply fillable_all. apply Forall_map. eapply Forall_impl; [exact Ht|].
  intros d Hd. cbn. unfold fillable. cbn. done.
Qed.

(** What an IPv4 policy needs for the promise. *)
Record carries (w : promise) (Q : policy) : Prop := {
  c_on : Forall (fun a => on Q a = true) ["000.allowLoopback"; "320.allowDNS"; "310.blockDNS";
           "300.allowLAN"; "290.allowDHCP"; "200.allowVPN"];
  c_marked : on Q "130.allowMarkedXray" = pr_marked w;
  c_dns : body Q "320.allowDNS" = filter (fun r => fillable iptables_4 r = true) (dns_rules (pr_dns w));
  c_blocked : match pr_blocked w with
    | Some l => on Q "120.blockNets" = true /\
        body Q "120.blockNets" = filter (fun r => fillable iptables_4 r = true) (map reject_dst l)
    | None => on Q "120.blockNets" = false
    end;
  c_exempt : match pr_exempt w with
    | Some l => on Q "110.allowNets" = true /\
        body Q "110.allowNets" = filter (fun r => fillable iptables_4 r = true) (map accept_dst l)
    | None => on Q "110.allowNets" = false
    end;
  c_rest : pr_rest w = flag (on Q "100.blockAll") Rejected
}.

Lemma rules_4 Q :
  sane iptables_4 Q ->
  body Q "000.allowLoopback" = [accept_out "lo+"] /\
  body Q "310.blockDNS" = [reject_port "udp" 53; reject_port "tcp" 53] /\
  body Q "300.allowLAN" = map accept_dst lan_4 /\
  body Q "290.allowDHCP" = [dhcp "255.255.255.255" 68 67] /\
  body Q "200.allowVPN" = map accept_out tunnel_ifaces /\
  body Q "130.allowMarkedXray" = [(plain ACCEPT) <| r_mark := Some xrayTrafficMark |>] /\
  body Q "400.allowPIA" = [] /\ body Q "100.blockAll" = [plain REJECT].
Proof. intros HQ. split_and!; own HQ. Qed.

Lemma rules_6 Q :
  sane iptables_6 Q ->
  body Q "000.allowLoopback" = [accept_out "lo+"] /\
  body Q "300.allowLAN" = map accept_dst lan_6 /\
  body Q "290.allowDHCP" = [dhcp "ff00::/8" 546 547] /\
  body Q "250.blockIPv6" = [(plain REJECT) <| r_out := Some (true, "lo+") |>] /\
  body Q "100.blockAll" = [plain REJECT].
Proof. intros HQ. split_and!; own HQ. Qed.

Lemma first_loopback v p :
  first_match v p [accept_out "lo+"] = flag (loopback p) Accepted.
Proof. cbn. unfold loopback, rule_matches. cbn. by rewrite !andb_true_r. Qed.

Lemma first_block_dns v p :
  first_match v p [reject_port "udp" 53; reject_port "tcp" 53] = flag (is_dns p) Rejected.
Proof.
  assert (forall q n, rule_matches v (reject_port q n) p = String.eqb q (p_proto p) && (n =? p_dport p)%Z) as E.
  { intros q n. unfold rule_matches. cbn. by rewrite !andb_true_r. }
  cbn [first_match]. rewrite !E. unfold is_dns.
  rewrite (String.eqb_sym "udp"), (String.eqb_sym "tcp"), (Z.eqb_sym (p_dport p)).
  by destruct (p_proto p =? "udp")%string, (p_proto p =? "tcp")%string, (53 =? p_dport p)%Z.
Qed.

Lemma first_lease v p d sp dp :
  asks_lease v p = String.eqb (p_proto p) "udp" && (dst_matches v d (p_dst p) && (p_sport p =? sp)%Z && (p_dport p =? dp)%Z) ->
  first_match v p [dhcp d sp dp] = flag (asks_lease v p) Accepted.
Proof.
  assert (forall q, rule_matches v ((dhcp d sp dp) <| r_proto := Some q |>) p =
    String.eqb q (p_proto p) && (dst_matches v d (p_dst p) && (sp =? p_sport p)%Z && (dp =? p_dport p)%Z)) as E.
  { intros q. unfold rule_matches. cbn. by rewrite !andb_true_r, !andb_assoc. }
  intros ->. cbn [first_match]. change (dhcp d sp dp) with ((dhcp d sp dp) <| r_proto := Some "udp" |>) at 1.
  by rewrite E, (String.eqb_sym "udp"), (Z.eqb_sym sp), (Z.eqb_sym dp).
Qed.

Lemma first_tunnel v p :
  first_match v p (map accept_out tunnel_ifaces) = flag (in_tunnel p) Accepted.
Proof.
  rewrite (first_match_uniform v p ACCEPT); [|by left|repeat constructor].
  unfold in_tunnel, tunnel_ifaces, flag, rule_matches. cbn. by rewrite !andb_true_r.
Qed.

Lemma first_marked v p :
  first_match v p [(plain ACCEPT) <| r_mark := Some xrayTrafficMark |>]
  = flag (p_mark p =? xrayTrafficMark)%Z Accepted.
Proof. cbn. unfold rule_matches. cbn. by rewrite !andb_true_r, Z.eqb_sym. Qed.

Lemma first_all v p : first_match v p [plain REJECT] = Some Rejected.
Proof. done. Qed.

Lemma decision_4 w Q p :
  sane iptables_4 Q -> carries w Q -> decision iptables_4 Q p (names iptables_4) = promised iptables_4 w p.
Proof.
  intros HQ [Hon Hm Hdns Hbl Hex Hrest]. rewrite names_4. unfold listed_4. cbn [decision].
  take_all.
  destruct (rules_4 Q HQ) as (-> & -> & -> & -> & -> & -> & -> & ->).
  rewrite Hm, Hdns, first_match_dns, first_loopback, first_block_dns, first_tunnel, first_marked, first_all.
  rewrite first_lan by (pose proof (literals_4 _ Hn) as Hl; by apply Forall_cons in Hl as [_ Hl]).
  rewrite first_lease by done. unfold promised. rewrite Hrest. cbn [first_match].
  assert ((if on Q "120.blockNets" then first_match iptables_4 p (body Q "120.blockNets") else None) =
     flag (match pr_blocked w with Some l => to_any iptables_4 l p | None => false end) Rejected) as ->.
  { destruct (pr_blocked w); [destruct Hbl as [-> ->]|by rewrite Hbl].
    by rewrite (first_match_dst _ _ REJECT) by (done || by right). }
  assert ((if on Q "110.allowNets" then first_match iptables_4 p (body Q "110.allowNets") else None) =
     flag (match pr_exempt w with Some l => to_any iptables_4 l p | None => false end) Accepted) as ->.
  { destruct (pr_exempt w); [destruct Hex as [-> ->]|by rewrite Hex].
    by rewrite (first_match_dst _ _ ACCEPT) by (done || by left). }
  unfold flag. destruct (loopback p); [done|].
  destruct (is_dns p), (in_tunnel p), (to_any iptables_4 (pr_dns w) p); try done; cbn [andb orb];
  destruct (to_any iptables_4 lan_4 p), (asks_lease iptables_4 p); try done; cbn [andb orb];
  destruct (pr_marked w), (p_mark p =? xrayTrafficMark)%Z; try done; cbn [andb orb];
  destruct (match pr_blocked w with Some _ => _ | None => _ end); try done;
  destruct (match pr_exempt w with Some _ => _ | None => _ end); try done;
  by destruct (on Q "400.allowPIA"), (on Q "100.blockAll").
Qed.

Lemma first_not_loopback v p :
  first_match v p [(plain REJECT) <| r_out := Some (true, "lo+") |>] = flag (negb (loopback p)) Rejected.
Proof.
  assert (forall i, rule_matches v ((plain REJECT) <| r_out := Some (true, i) |>) p
    = negb (iface_matches i (p_out p))) as E.
  { intros i. unfold rule_matches. cbn. by rewrite !andb_true_r; destruct (iface_matches i (p_out p)). }
  cbn [first_match]. by rewrite E.
Qed.

Lemma decision_6 w Q p :
  sane iptables_6 Q ->
  Forall (fun a => on Q a = true)
    ["000.allowLoopback"; "300.allowLAN"; "290.allowDHCP"; "250.blockIPv6"] ->
  decision iptables_6 Q p (names iptables_6) = promised iptables_6 w p.
Proof.
  intros HQ Hon. rewrite names_6. unfold listed_6. cbn [decision].
  take_all.
  rewrite (sane_6 _ _ HQ eq_refl "310.blockDNS") by (unfold off_6; set_solver).
  destruct (rules_6 Q HQ) as (-> & -> & -> & -> & _).
  rewrite first_loopback, first_not_loopback, first_lan by apply (literals_6 _ Hn).
  rewrite first_lease by done. unfold promised, flag. destruct (loopback p); [done|].
  by destruct (to_any iptables_6 lan_6 p), (asks_lease iptables_6 p).
Qed.
End Decisions.

(** ** The service *)

Section Service.
Context `{N : Netfilter} `{V : Vault}.
Hypothesis Hn : wf_netfilter N.
Hypothesis Hv : wf_vault V.

Definition strict (s : KillSwitch) : bool :=
  toBool (default (VBool false) (contents (m_appSettigns s) !! "Conf/strictKillSwitchEnabled")).

Lemma strict_read s :
  good (m_appSettigns s) ->
  exists settings, isStrictKillSwitchEnabled s = (strict s, s <| m_appSettigns := settings |>) /\
    good settings /\ contents settings = contents (m_appSettigns s).
Proof.
  intros G. unfold isStrictKillSwitchEnabled, strict.
  pose proof (value_ok Hv "Conf/strictKillSwitchEnabled" (VBool false) (m_appSettigns s) G) as H.
  destruct (SecureSettings.value _ _ _) as [x settings]. destruct H as (-> & G' & E & _).
  by exists settings.
Qed.

(** *** Steps *)

(** What the service does. *)
Inductive client_step : KillSwitch -> KillSwitch -> Prop :=
  | step_refresh b s : client_step s (refresh b s).2
  | step_disable s : client_step s (disableKillSwitch s).2
  | step_disable_all s : client_step s (disableAllTraffic s).2
  | step_reset ranges s : client_step s (resetAllowedRange ranges s).2
  | step_add ranges s : client_step s (addAllowedRange ranges s).2
  | step_enable config i s : client_step s (enableKillSwitch config i s).2
  | step_wireguard params s : client_step s (on_firewall (applyFirewallRules params) s).2.

Definition client_jump (r : rule) : Prop :=
  match r_target r with Jump c => ours c = true | _ => False end.
#[export] Instance client_jump_dec r : Decision (client_jump r).
Proof. unfold client_jump. destruct (r_target r); apply _. Defined.

(** What other programs do: they may change all rules and chains but the client's, and jump to
    none of its chains. *)
Record others (m m' : chains) : Prop := {
  o_ours : forall c, ours c = true -> m' !! c = m !! c;
  o_output : forall rules, m !! kOutputChain = Some rules -> exists rules',
    m' !! kOutputChain = Some rules' /\ filter client_jump rules' = filter client_jump rules;
  o_foreign : forall c rules, ours c = false -> c <> kOutputChain -> m' !! c = Some rules -> no_jump rules
}.

Inductive kill_step : KillSwitch -> KillSwitch -> Prop :=
  | by_client s s' : client_step s s' -> kill_step s s'
  | by_others s f :
      (forall v, others (view v (the_firewall s)) (view v f)) -> kill_step s (s <| the_firewall := f |>).

(** From the start of the service, with the filter as an earlier run or nobody left it. *)
Inductive reachable : KillSwitch -> Prop :=
  | started file c calls f :
      good (new_settings file c calls true) -> shaped f -> reachable (init file c calls f).2
  | stepped s s' : reachable s -> kill_step s s' -> reachable s'.

(** *** Others *)

Lemma no_client_jump l : filter client_jump l = [] -> no_jump l.
Proof.
  intros H r c Hr Ht. destruct (ours c) eqn:E; [|done]. exfalso.
  assert (r ∈ filter client_jump l) as Hf
    by (apply list_elem_of_filter; split; [|done]; unfold client_jump; by rewrite Ht, E).
  rewrite H in Hf. set_solver.
Qed.

Lemma no_jump_filter l : no_jump l -> filter client_jump l = [].
Proof.
  intros H. destruct (filter client_jump l) as [|r rest] eqn:E; [done|]. exfalso.
  assert (r ∈ filter client_jump l) as [Hj Hr]%list_elem_of_filter by (rewrite E; set_solver).
  unfold client_jump in Hj. destruct (r_target r) eqn:Et; try done.
  specialize (H r _ Hr Et). congruence.
Qed.

Lemma filter_singleton_split (l : list rule) x :
  filter client_jump l = [x] ->
  exists pre rest, l = pre ++ x :: rest /\ filter client_jump pre = [] /\ filter client_jump rest = [].
Proof.
  induction l as [|y l IH]; [done|]. rewrite filter_cons. destruct (decide (client_jump y)) as [Hy|Hy].
  - intros [= -> E]. by exists [], l.
  - intros E. destruct (IH E) as (pre & rest & -> & H1 & H2). exists (y :: pre), rest.
    by rewrite filter_cons, decide_False.
Qed.

Lemma others_absent m m' : absent m -> others m m' -> absent m'.
Proof.
  intros H [O1 O2 O3]. destruct (lo_output _ _ H) as [rules Ho].
  destruct (O2 rules Ho) as (rules' & Ho' & E).
  split.
  - by rewrite Ho'.
  - rewrite O1 by done. apply (lo_root _ _ H).
  - intros c Hc. rewrite O1 by (by apply Is_true_true). by apply (lo_ours _ _ H).
  - intros a l Ha. set_solver.
  - intros a l Ha. set_solver.
  - intros c l Hc Hl. destruct (decide (c = kOutputChain)) as [->|Hne]; [|by eapply O3].
    simplify_eq. apply no_client_jump. rewrite E. apply no_jump_filter.
    by apply (lo_foreign _ _ H kOutputChain).
Qed.

Lemma others_laid_out v P m m' : laid_out v P m -> others m m' -> laid_out v P m'.
Proof.
  intros H [O1 O2 O3]. destruct (l_output _ _ _ H) as (pre & rest & Ho & Hp & Hr).
  destruct (O2 _ Ho) as (rules' & Ho' & E).
  rewrite filter_app, filter_cons, decide_True in E by done.
  rewrite (no_jump_filter _ Hp), (no_jump_filter _ Hr) in E.
  destruct (filter_singleton_split _ _ E) as (pre' & rest' & -> & Hp' & Hr').
  split.
  - exists pre', rest'. split_and!; [done|by apply no_client_jump|by apply no_client_jump].
  - rewrite O1 by done. apply (l_root _ _ _ H).
  - intros a Ha. rewrite O1 by apply Is_true_true, ours_anchor. by apply (l_anchor _ _ _ H).
  - intros a Ha. rewrite O1 by apply Is_true_true, ours_actual. by apply (l_actual _ _ _ H).
  - apply (l_body _ _ _ H).
  - intros c Hc. rewrite O1 by (by apply Is_true_true). by apply (l_ours _ _ _ H).
  - done.
Qed.

(** *** The invariant *)

Record service_ok (s : KillSwitch) : Prop := {
  ok_settings : good (m_appSettigns s);
  ok_shape : shaped (the_firewall s);
  ok_strict : strict s = true -> exists P, installed (the_firewall s) P
}.

Lemma on_firewall_eq {A} (m : fw A) s :
  on_firewall m s = ((m (the_firewall s)).1, s <| the_firewall := (m (the_firewall s)).2 |>).
Proof. unfold on_firewall. by destruct (m (the_firewall s)). Qed.

Lemma disable_spec s :
  good (m_appSettigns s) ->
  exists settings, good settings /\ contents settings = contents (m_appSettigns s) /\
    disableKillSwitch s =
      (true, mkKillSwitch ((if strict s then all_blocked else all_open) (the_firewall s)).2 [] settings).
Proof.
  intros G. destruct (strict_read s G) as (settings & E & G' & Ec). exists settings. split_and!; [done..|].
  unfold disableKillSwitch. by rewrite E, on_firewall_eq.
Qed.

Definition blocked_traffic : fw unit :=
  _ ← ensure_installed;
  _ ← set Both "100.blockAll" true;
  _ ← set Both "130.allowMarkedXray" false;
  _ ← set Both "000.allowLoopback" true;
  set IPv6 "250.blockIPv6" true.

Lemma disable_all_spec s :
  disableAllTraffic s = (true, mkKillSwitch (blocked_traffic (the_firewall s)).2 [] (m_appSettigns s)).
Proof. unfold disableAllTraffic. by rewrite on_firewall_eq. Qed.

Lemma traffic_set_up f :
  shaped f -> set_up traffic_acts (blocked_traffic f).2 /\
  (clean f \/ (forall v, on_top v f) -> forall v, on_top v (blocked_traffic f).2).
Proof. apply (ensure_does Hn). intros _. apply (traffic_does Hn). Qed.

Lemma set_up_installed l f : set_up l f -> exists P, installed f P.
Proof. intros (P & HP & _). by eexists. Qed.

Lemma service_made f ranges settings s :
  good settings -> contents settings = contents (m_appSettigns s) -> shaped f ->
  (strict s = true -> exists P, installed f P) -> service_ok (mkKillSwitch f ranges settings).
Proof. intros G E Hf Hs. split; [done..|]. unfold strict in *. cbn. by rewrite E. Qed.

Lemma disable_all_ok s :
  good (m_appSettigns s) -> shaped (the_firewall s) -> service_ok (disableAllTraffic s).2.
Proof.
  intros G Hs. rewrite disable_all_spec. destruct (traffic_set_up _ Hs) as [Hu _].
  apply (service_made _ _ _ s); [done..| |].
  - by eapply set_up_shaped, Hu; apply traffic_sane.
  - intros _. by eapply set_up_installed.
Qed.

Lemma disable_ok s :
  good (m_appSettigns s) -> shaped (the_firewall s) ->
  (strict s = true -> exists P, installed (the_firewall s) P) -> service_ok (disableKillSwitch s).2.
Proof.
  intros G Hs Hst. destruct (disable_spec s G) as (settings & G' & E & ->).
  destruct (strict s) eqn:Es; cbn [snd].
  - destruct (Hst eq_refl) as [P HP].
    destruct (shaped_does all_blocked blocked_acts _ (all_blocked_does Hn) blocked_sane Hs) as [[Hc Hc']|[_ Hu]].
    + exfalso. destruct (isInstalled_clean Hn _ Hc) as [E1 _], (isInstalled_installed Hn _ P HP) as [E2 _].
      congruence.
    + apply (service_made _ _ _ s); [done..| |].
      * by eapply set_up_shaped, Hu; apply blocked_sane.
      * intros _. by eapply set_up_installed.
  - apply (service_made _ _ _ s); [done..| |by rewrite Es]. left. rewrite all_open_eq.
    apply (uninstall_clean Hn).
    destruct (shaped_does opened opened_acts _ (opened_does Hn) opened_sane Hs) as [[_ Hc]|[_ Hu]];
      [by left|right; by eapply set_up_installed].
Qed.

Lemma disable_open s :
  good (m_appSettigns s) -> shaped (the_firewall s) -> strict s = false ->
  clean (the_firewall (disableKillSwitch s).2).
Proof.
  intros G Hs Hst. destruct (disable_spec s G) as (settings & G' & E & ->). rewrite Hst. cbn [snd the_firewall].
  rewrite all_open_eq. apply (uninstall_clean Hn).
  destruct (shaped_does opened opened_acts _ (opened_does Hn) opened_sane Hs) as [[_ Hc]|[_ Hu]];
    [by left|right; by eapply set_up_installed].
Qed.

Lemma clean_not_installed f P : clean f -> ~ installed f P.
Proof.
  intros Hc HP.
  destruct (isInstalled_clean Hn _ Hc) as [E1 _], (isInstalled_installed Hn _ P HP) as [E2 _]. congruence.
Qed.

(** A function that only switches and fills anchors. *)
Lemma does_ok {A} (m : fw A) l s ranges :
  does m l -> Forall act_sane l -> service_ok s ->
  service_ok (s <| m_allowedRanges := ranges |> <| the_firewall := (m (the_firewall s)).2 |>).
Proof.
  intros Hm Hl [G Hs Hst].
  destruct (shaped_does m l _ Hm Hl Hs) as [[Hc Hc']|[_ Hu]].
  - apply (service_made _ _ _ s); [done..|by left|]. intros Hx. destruct (Hst Hx) as [P HP].
    destruct (clean_not_installed _ _ Hc HP).
  - apply (service_made _ _ _ s); [done..|by eapply set_up_shaped|]. intros _. by eapply set_up_installed.
Qed.

(** A function after which the anchors are set up. *)
Lemma set_up_ok l f s :
  set_up l f -> Forall act_sane l -> service_ok s -> service_ok (s <| the_firewall := f |>).
Proof.
  intros Hu Hl [G Hs Hst].
  apply (service_made _ _ _ s); [done..|by eapply set_up_shaped|]. intros _. by eapply set_up_installed.
Qed.

Lemma refresh_ok b s :
  good (m_appSettigns s) -> shaped (the_firewall s) ->
  service_ok (refresh b s).2 /\ strict (refresh b s).2 = b /\
  refresh b s = (if b then disableAllTraffic else disableKillSwitch)
    (isStrictKillSwitchEnabled (s <| m_appSettigns :=
       setValue "Conf/strictKillSwitchEnabled" (VBool b) (m_appSettigns s) |>)).2.
Proof.
  intros G Hs. unfold refresh. set (s1 := s <| m_appSettigns := _ |>).
  destruct (setValue_ok Hv "Conf/strictKillSwitchEnabled" (VBool b) _ G (or_intror eq_refl)) as (G1 & E1 & _).
  assert (strict s1 = b) as Hb by (unfold strict, s1; cbn; rewrite E1, lookup_insert_eq; done).
  destruct (strict_read s1 G1) as (settings & E & G2 & E2). rewrite E, Hb. cbn [snd].
  set (s2 := s1 <| m_appSettigns := settings |>).
  assert (strict s2 = b) as Hb2 by (unfold strict, s2 in *; cbn; by rewrite E2, Hb).
  destruct b.
  - split_and!; [apply disable_all_ok; [exact G2|exact Hs]| |done]. rewrite disable_all_spec. exact Hb2.
  - split_and!; [apply disable_ok; [exact G2|exact Hs|by rewrite Hb2]| |done].
    destruct (disable_spec s2 G2) as (st & _ & Ec & ->). cbn [snd]. unfold strict in *. cbn. by rewrite Ec.
Qed.

Lemma init_ok file c calls f :
  good (new_settings file c calls true) -> shaped f -> service_ok (init file c calls f).2.
Proof.
  intros G Hs. unfold init. set (s := mkKillSwitch _ _ _).
  destruct (strict_read s G) as (settings & E & G2 & E2). rewrite E. destruct (strict s) eqn:Es.
  - by apply disable_all_ok.
  - apply (service_made _ _ _ s); [done..|]. by rewrite Es.
Qed.

Lemma reset_ok ranges s : service_ok s -> service_ok (resetAllowedRange ranges s).2.
Proof.
  intros Hs. unfold resetAllowedRange. destruct (negb _); [done|]. rewrite on_firewall_eq.
  exact (does_ok _ _ s ranges (nets_does Hn _) (nets_sane _) Hs).
Qed.

Lemma client_step_ok s s' : service_ok s -> client_step s s' -> service_ok s'.
Proof.
  intros Hs Hst. pose proof Hs as [G Hsh Hx]. destruct Hst as [b s|s|s|ranges s|ranges s|config i s|params s].
  - by apply refresh_ok.
  - by apply disable_ok.
  - by apply disable_all_ok.
  - by apply reset_ok.
  - unfold addAllowedRange. destruct (negb _); [done|]. apply reset_ok. by destruct s, Hs.
  - unfold enableKillSwitch. destruct (negb _); [done|]. rewrite on_firewall_eq.
    eapply set_up_ok; [by apply (apply_kill_switch_set_up Hn)|apply enable_sane|done].
  - rewrite on_firewall_eq.
    eapply set_up_ok; [by apply (wireguard_set_up Hn)|apply wireguard_sane|done].
Qed.

Lemma reachable_ok s : reachable s -> service_ok s.
Proof.
  induction 1 as [file c calls f G Hs|s s' _ IH Hst]; [by apply init_ok|].
  destruct Hst as [s s' Hc|s f Ho]; [by eapply client_step_ok|].
  destruct IH as [G [Hc|(P & HP & Hs)] Hx].
  - apply (service_made _ _ _ s); [done..| |].
    + left. intros v. by eapply others_absent.
    + intros Hy. destruct (Hx Hy) as [P HP]. destruct (clean_not_installed _ _ Hc HP).
  - assert (installed f P) as HP' by (intros v; by eapply others_laid_out).
    apply (service_made _ _ _ s); [done..| |].
    + right. by exists P.
    + intros _. by exists P.
Qed.

(** ** Theorems *)

(** C14: In every state the service can get into, whatever it was asked to do and whatever other
    programs did to their own rules, the client's chains are in the filter tables of both
    versions or in neither: the root chain is in [OUTPUT] exactly once, each anchor is either
    empty or jumps to its rules, and no other chain jumps into them.  In strict mode they are
    there. *)
Theorem filter_tables_consistent s :
  reachable s ->
  (strict s = false /\ forall v, absent (view v (the_firewall s))) \/
  (exists P, forall v, laid_out v (P v) (view v (the_firewall s))).
Proof.
  intros [G [Hc|(P & HP & _)] Hx]%reachable_ok; [|right; by exists P].
  destruct (strict s) eqn:E; [|by left]. right. by apply Hx.
Qed.

Lemma blocked_decision v P p :
  sane v P ->
  decision v (pol blocked_acts v P) p (names v) = Some (if loopback p then Accepted else Rejected).
Proof.
  intros HP. set (Q := pol blocked_acts v P).
  assert (sane v Q) as HQ by (by apply sane_acts; [apply blocked_sane|]). destruct v.
  - assert (Forall (fun a => on Q a = true) ["000.allowLoopback"; "100.blockAll"]) as Hon
      by (repeat (apply Forall_cons; split; [reflexivity|]); apply Forall_nil_2).
    assert (Forall (fun a => on Q a = false) ["320.allowDNS"; "310.blockDNS"; "300.allowLAN";
      "290.allowDHCP"; "200.allowVPN"; "130.allowMarkedXray"; "120.blockNets"; "110.allowNets"; "400.allowPIA"]) as Hoff
      by (repeat (apply Forall_cons; split; [reflexivity|]); apply Forall_nil_2).
    rewrite names_4. unfold listed_4. cbn [decision]. take_all.
    destruct (rules_4 Hn Q HQ) as (-> & _ & _ & _ & _ & _ & _ & ->).
    rewrite first_loopback. unfold flag. by destruct (loopback p).
  - assert (Forall (fun a => on Q a = true) ["000.allowLoopback"; "250.blockIPv6"]) as Hon
      by (repeat (apply Forall_cons; split; [reflexivity|]); apply Forall_nil_2).
    assert (Forall (fun a => on Q a = false) ["300.allowLAN"; "290.allowDHCP"]) as Hoff
      by (repeat (apply Forall_cons; split; [reflexivity|]); apply Forall_nil_2).
    rewrite names_6. unfold listed_6. cbn [decision]. take_all.
    rewrite (sane_6 _ _ HQ eq_refl "310.blockDNS") by (unfold off_6; set_solver).
    destruct (rules_6 Hn Q HQ) as (-> & _ & _ & -> & _).
    rewrite first_loopback, first_not_loopback. unfold flag. by destruct (loopback p).
Qed.

(** C15: In strict mode, over IPv4 and IPv6, the client's chains let nothing but loopback out once
    the kill switch is switched off: the anchors are still there, and only the first and the
    last are on.  Of the whole chain [OUTPUT]: a packet that no rule of another program standing
    before the client's jump decides is let out if it is for loopback and refused otherwise
    (this operation does not move the jump to the first place). *)
Theorem strict_mode_blocks s v p :
  reachable s -> strict s = true ->
  let f := the_firewall (disableKillSwitch s).2 in
  client_verdict v f p = Some (if loopback p then Accepted else Rejected) /\
  output_verdict v f p =
    Some (default (if loopback p then Accepted else Rejected) (earlier_verdict v f p)).
Proof.
  cbv zeta.
  intros [G Hs Hx]%reachable_ok Hst. destruct (disable_spec s G) as (settings & _ & _ & ->).
  rewrite Hst. cbn [snd the_firewall]. destruct (Hx Hst) as [P' HP'].
  destruct (shaped_does all_blocked blocked_acts _ (all_blocked_does Hn) blocked_sane Hs)
    as [[Hc _]|[_ (P & HP & Hs')]]; [destruct (clean_not_installed _ _ Hc HP')|].
  assert (client_verdict v (all_blocked (the_firewall s)).2 p = Some (if loopback p then Accepted else Rejected))
    as Ec by (rewrite (client_decision v _ _ p (HP v)); by apply blocked_decision).
  split; [exact Ec|]. destruct (output_in_order v _ _ p (HP v)) as [rest ->].
  rewrite Ec. by destruct (earlier_verdict _ _ _).
Qed.

Lemma enable_verdict k f P v p :
  installed f (fun v => pol (enable_acts k) v (P v)) -> sane v (P v) ->
  client_verdict v f p = promised v (kill_switch_promise k) p.
Proof.
  intros HP Hs. rewrite (client_decision v _ _ p (HP v)).
  assert (sane v (pol (enable_acts k) v (P v))) as HQ by (by apply sane_acts; [apply enable_sane|]).
  destruct v.
  - apply (decision_4 Hn); [done|]. unfold kill_switch_promise, flag. split; cbn -[dns_rules].
    + repeat (apply Forall_cons; split; [reflexivity|]). apply Forall_nil_2.
    + done.
    + done.
    + by destruct (k_blockNets k).
    + by destruct (k_allowNets k).
    + done.
  - apply (decision_6 Hn); [done|]. repeat (apply Forall_cons; split; [reflexivity|]). apply Forall_nil_2.
Qed.

(** The addresses of a configuration that end up in rules. *)
Definition checked_addresses (k : kill_config) : list string :=
  filter (fun a => a <> "") [k_dns1 k; k_dns2 k] ++ k_allownets k ++ k_blocknets k.

Lemma config_valid_spec k :
  config_valid k = true <-> forall a, a ∈ checked_addresses k -> isValidIpOrCidr a = true.
Proof.
  unfold config_valid, checked_addresses. rewrite !andb_true_iff, !orb_true_iff, !forallb_forall, !str_empty_true.
  setoid_rewrite <- list_elem_of_In. setoid_rewrite elem_of_app. setoid_rewrite elem_of_app.
  setoid_rewrite list_elem_of_filter. setoid_rewrite elem_of_cons. setoid_rewrite list_elem_of_singleton.
  split.
  - intros [[[H1 H2] H3] H4] a [[Hne [->| ->]]|[Ha|Ha]]; auto; tauto.
  - intros Hk. split_and!; auto.
    + destruct (decide (k_dns1 k = "")); auto 7.
    + destruct (decide (k_dns2 k = "")); auto 7.
Qed.

(** C6: Once [enableKillSwitch] has taken a configuration, the client's chains decide on every
    packet exactly as the configuration promises: over IPv4 names are asked of its servers in
    the tunnel only, the local network, the tunnel and marked packets are free, the refused
    addresses come before the exempt ones and the rest is refused if all is; over IPv6 only
    loopback and the local network get through.  A configuration with an address that is not
    one is refused and changes nothing; when the root chain was first in [OUTPUT], or not
    there, no rule of another program comes before the client's. *)
Theorem kill_switch_exact s config i :
  reachable s ->
  let '(ok, s') := enableKillSwitch config i s in
  (ok = true <-> forall a, a ∈ checked_addresses (read_config config) -> isValidIpOrCidr a = true) /\
  (ok = false -> s' = s) /\
  (ok = true ->
     (forall v p, client_verdict v (the_firewall s') p =
                  promised v (kill_switch_promise (read_config config)) p) /\
     (clean (the_firewall s) \/ (forall v, on_top v (the_firewall s)) ->
      forall v p d, promised v (kill_switch_promise (read_config config)) p = Some d ->
        output_verdict v (the_firewall s') p = Some d)).
Proof.
  intros [G Hs Hx]%reachable_ok. unfold enableKillSwitch.
  pose proof (config_valid_spec (read_config config)) as Hc.
  destruct (config_valid (read_config config)) eqn:Ev; cbn [negb]; [|done].
  rewrite on_firewall_eq. split; [exact Hc|]. split; [done|]. intros _.
  destruct (apply_kill_switch_set_up Hn (read_config config) _ Hs) as [(P & HP & Hp) Ht].
  assert (forall v p, client_verdict v (apply_kill_switch (read_config config) (the_firewall s)).2 p =
    promised v (kill_switch_promise (read_config config)) p) as Hv'
    by (intros v p; by eapply enable_verdict).
  split; [exact Hv'|]. intros Htop v p d Hd. cbn [the_firewall snd].
  change (the_firewall (s <| the_firewall := ?f |>)) with f.
  rewrite output_on_top by (by apply Ht). by rewrite Hv', Hd.
Qed.

(** What a tunnel for everything lets out. *)
Definition let_out (config : obj) (v : version) (p : packet) : Prop :=
  loopback p = true \/
  match v with
  | iptables_4 =>
      in_tunnel p = true /\ (is_dns p = true -> to_any v (dns_servers (read_config config)) p = true) \/
      is_dns p = false /\ (to_any v lan_4 p = true \/ asks_lease v p = true \/
        p_mark p = xrayTrafficMark \/ to_any v [to_string (ofind "vpnServer" config)] p = true)
  | iptables_6 => to_any v lan_6 p = true \/ asks_lease v p = true
  end.

Lemma promise_lets_out config v p :
  to_int 0 (ofind "splitTunnelType" config) = 0%Z ->
  promised v (kill_switch_promise (read_config config)) p = Some Rejected \/
  promised v (kill_switch_promise (read_config config)) p = Some Accepted /\ let_out config v p.
Proof.
  intros Hall. unfold let_out, promised, kill_switch_promise.
  generalize (dns_servers (read_config config)) as dns. intros dns.
  unfold read_config. rewrite Hall, Z.eqb_refl.
  cbn [k_blockNets k_allowNets k_blockAll k_allownets pr_marked pr_blocked pr_exempt pr_rest flag andb pr_dns].
  destruct (loopback p); [tauto|]. destruct v.
  - destruct (is_dns p), (in_tunnel p); cbn [andb orb]; try tauto.
    + destruct (to_any iptables_4 dns p); tauto.
    + rewrite !orb_true_r. right. split; [done|]. right. left. done.
    + destruct (to_any iptables_4 lan_4 p), (asks_lease iptables_4 p); cbn [orb]; try tauto.
      destruct (p_mark p =? xrayTrafficMark)%Z eqn:Em; [apply Z.eqb_eq in Em; tauto|].
      destruct (to_any iptables_4 [_] p); tauto.
  - destruct (to_any iptables_6 lan_6 p), (asks_lease iptables_6 p); cbn [orb]; tauto.
Qed.


Ltac keep_steps := repeat first
  [ apply (keeps_set Hn) | apply (keeps_refill Hn) | apply (keeps_ensure Hn) | apply (keeps_uninstall Hn)
  | apply others_ret | apply others_bind; [|intros ?] ].

Lemma blocked_keeps (b : bool) : keeps (if b then all_blocked else all_open).
Proof. destruct b; unfold all_blocked, all_open; keep_steps. Qed.
Lemma traffic_keeps : keeps blocked_traffic.
Proof. unfold blocked_traffic. keep_steps. Qed.
Lemma enable_keeps k : keeps (apply_kill_switch k).
Proof. unfold apply_kill_switch, updateAllowNets, updateBlockNets, updateDNSServers. keep_steps. Qed.
Lemma wireguard_keeps params : keeps (applyFirewallRules params).
Proof.
  unfold applyFirewallRules, ensureRootAnchorPriority, updateAllowNets, updateBlockNets, updateDNSServers.
  apply others_bind; [apply (keeps_ensure Hn)|intros ?].
  apply others_bind; [|intros ?; keep_steps].
  apply others_bind; [apply (keeps_link_root Hn)|intros ?; apply others_ret].
Qed.

Lemma disable_keeps s v :
  foreign (view v (the_firewall (disableKillSwitch s).2)) = foreign (view v (the_firewall s)).
Proof.
  unfold disableKillSwitch, isStrictKillSwitchEnabled.
  destruct (SecureSettings.value _ _ _) as [x settings]. rewrite on_firewall_eq. apply blocked_keeps.
Qed.

Lemma disable_all_keeps s v :
  foreign (view v (the_firewall (disableAllTraffic s).2)) = foreign (view v (the_firewall s)).
Proof. rewrite disable_all_spec. apply traffic_keeps. Qed.

Lemma reset_keeps ranges s v :
  foreign (view v (the_firewall (resetAllowedRange ranges s).2)) = foreign (view v (the_firewall s)).
Proof.
  unfold resetAllowedRange. destruct (negb _); [done|]. rewrite on_firewall_eq.
  assert (keeps (_ ← set IPv4 "110.allowNets" true; updateAllowNets (m_allowedRanges (s <| m_allowedRanges := ranges |>)))) as H
    by (unfold updateAllowNets; keep_steps).
  apply H.
Qed.

(** C17: Whatever the service does, at no time does it change, reorder or take away a rule or a
    chain of another program: outside its own chains the filter tables of both versions stay
    as they were, but for the jump to its root chain. *)
Theorem other_rules_stay s s' v :
  client_step s s' -> foreign (view v (the_firewall s')) = foreign (view v (the_firewall s)).
Proof.
  destruct 1 as [b s|s|s|ranges s|ranges s|config i s|params s].
  - unfold refresh, isStrictKillSwitchEnabled. destruct (SecureSettings.value _ _ _) as [x settings].
    destruct (toBool x); [by rewrite disable_all_keeps|by rewrite disable_keeps].
  - apply disable_keeps.
  - apply disable_all_keeps.
  - apply reset_keeps.
  - unfold addAllowedRange. destruct (negb _); [done|]. by rewrite reset_keeps.
  - unfold enableKillSwitch. destruct (negb _); [done|]. rewrite on_firewall_eq. apply enable_keeps.
  - rewrite on_firewall_eq. apply wireguard_keeps.
Qed.

Lemma absent_foreign m : absent m -> foreign m = m.
Proof.
  intros H. apply map_eq. intros c. unfold foreign. rewrite lookup_fmap.
  destruct (m !! c) as [rules|] eqn:E.
  - destruct (ours c) eqn:Eo; [rewrite (absent_none Hn m c H) in E; [done|by rewrite Eo]|].
    rewrite (map_lookup_filter_Some_2 _ m c rules E Eo). cbn. f_equal.
    assert (Forall (fun r => ~ to_root r) rules) as Hr.
    { apply Forall_forall. intros r Hr Ht. by pose proof (lo_foreign _ _ H c rules Eo E r kRootChain Hr Ht). }
    clear E. induction Hr as [|r rules Hr _ IH]; [done|]. by rewrite filter_cons_True, IH.
  - by rewrite (map_lookup_filter_None_2 _ m c) by by left.
Qed.

(** C40: Outside strict mode, switching the kill switch off leaves nothing of the client behind:
    whatever the state of the service, both filter tables are then exactly what the other
    programs put there, without the client's chains and the jumps to them, so that the
    client's rules decide on no packet any more, and the allowed ranges are forgotten. *)
Theorem disable_leaves_nothing s :
  reachable s -> strict s = false ->
  let '(ok, s') := disableKillSwitch s in
  ok = true /\ m_allowedRanges s' = [] /\
  (forall v c, ours c = true -> view v (the_firewall s') !! c = None) /\
  (forall v, view v (the_firewall s') = foreign (view v (the_firewall s))) /\
  (forall v p, client_verdict v (the_firewall s') p = None).
Proof.
  intros [G Hs Hx]%reachable_ok Hst. pose proof (disable_open s G Hs Hst) as Hc.
  pose proof (fun v => disable_keeps s v) as Hk.
  destruct (disable_spec s G) as (settings & _ & _ & E). rewrite E in *. split_and!; [done|done|..].
  - intros v c Ho. apply (absent_none Hn _ _ (Hc v)); by apply Is_true_true.
  - intros v. rewrite <- Hk. symmetry. apply absent_foreign, Hc.
  - intros v p. apply client_absent, Hc.
Qed.

Lemma wireguard_verdict params f :
  shaped f ->
  exists marked, (clean f -> marked = false) /\
    forall v, on_top v (applyFirewallRules params f).2 /\
      forall p, client_verdict v (applyFirewallRules params f).2 p =
                promised v (wireguard_promise marked params) p.
Proof.
  intros Hs. destruct (wireguard_made Hn params f Hs) as (P & HP & HS & Hf & Ht).
  exists (on (P iptables_4) "130.allowMarkedXray"). split.
  { intros Hc. by rewrite (Hf Hc). }
  intros v. split; [apply Ht|]. intros p. rewrite (client_decision v _ _ p (HP v)).
  assert (sane v (pol (wireguard_acts params) v (P v))) as HQ by (by apply sane_acts; [apply wireguard_sane|]).
  destruct v.
  - apply (decision_4 Hn); [done|]. unfold wireguard_promise, flag. split; cbn -[dns_rules].
    + repeat (apply Forall_cons; split; [reflexivity|]). apply Forall_nil_2.
    + done.
    + done.
    + by destruct (blockNets params).
    + by destruct (allowNets params).
    + done.
  - apply (decision_6 Hn); [done|]. repeat (apply Forall_cons; split; [reflexivity|]). apply Forall_nil_2.
Qed.
End Service.

(** ** A filter that does what the manual page says *)

(** An IPv4 address or range in text. *)
Definition net_of_text (text : string) : option (Z * Z) :=
  match split_char "/" text with
  | addr :: rest =>
      match map digits (split_char "." addr), rest with
      | [Some a; Some b; Some c; Some d], [] => Some (((a * 256 + b) * 256 + c) * 256 + d, 32)%Z
      | [Some a; Some b; Some c; Some d], [n] =>
          n ← digits n; Some (((a * 256 + b) * 256 + c) * 256 + d, n)%Z
      | _, _ => None
      end
  | [] => None
  end.

(** The ranges of IPv6 the client names: the first byte, or the first ten bits. *)
Definition lan_6_matches (text : string) (c : list Z) : bool :=
  let first := default 0%Z (head c) in
  if String.eqb text "fc00::/7" then (first / 2 =? 126)%Z
  else if String.eqb text "ff00::/8" then (first =? 255)%Z
  else if String.eqb text "fe80::/10" then (first =? 254)%Z && (default 0 (c !! 1%nat) / 64 =? 2)%Z
  else false.

Definition plain_filter : Netfilter := {|
  nf := version -> table -> chains;
  chains_of s v t := s v t;
  iptables v t c s :=
    let accepts d := match v with
                     | iptables_4 => bool_decide (is_Some (net_of_text d))
                     | iptables_6 => bool_decide (d ∈ lan_6)
                     end in
    let '(ok, m) := documented accepts c (s v t) in
    (ok, fun v' t' => if bool_decide (v' = v /\ t' = t) then m else s v' t');
  listing v t c s := map r_target (default [] (s v t !! c));
  dst_accepts v d := match v with
                     | iptables_4 => bool_decide (is_Some (net_of_text d))
                     | iptables_6 => bool_decide (d ∈ lan_6)
                     end;
  dst_matches v d a :=
    match v, a with
    | iptables_4, V4 x => match net_of_text d with
                          | Some (base, n) => (x / 2 ^ (32 - n) =? base / 2 ^ (32 - n))%Z
                          | None => false
                          end
    | iptables_6, V6 c => lan_6_matches d c
    | _, _ => false
    end;
  net_cls := true |}.

Lemma plain_filter_wf : wf_netfilter plain_filter.
Proof.
  split.
  - intros v t c s. cbn. by destruct (documented _ c (s v t)).
  - intros v t c s v' t'. cbn. by destruct (documented _ c (s v t)).
  - done.
  - apply (bool_decide_unpack _). vm_compute. done.
  - apply (bool_decide_unpack _). vm_compute. done.
Qed.

(** Another program has a rule of its own. *)
Definition docker_rule : rule := accept_out "docker0".
Definition first_tables : version -> table -> chains := fun _ _ =>
  {["OUTPUT" := [docker_rule]; "INPUT" := []; "FORWARD" := []; "PREROUTING" := []; "POSTROUTING" := []]}.
Definition first_firewall : @firewall plain_filter := @mkFirewall plain_filter first_tables [] [].

Lemma first_clean : @clean plain_filter first_firewall.
Proof.
  intros v. split.
  - by eexists.
  - done.
  - intros c Hc [rules Hr]. exfalso. unfold view, first_firewall in Hr. cbn in Hr. unfold first_tables in Hr.
    repeat (apply lookup_insert_Some in Hr as [[<- <-]|[_ Hr]]; [done|]).
    by apply lookup_singleton_Some in Hr as [<- <-].
  - intros a rules Ha. set_solver.
  - intros a rules Ha. set_solver.
  - intros c rules _ Hr r c' Hin Ht. unfold view, first_firewall in Hr. cbn in Hr. unfold first_tables in Hr.
    repeat (apply lookup_insert_Some in Hr as [[<- <-]|[_ Hr]];
      [first [apply list_elem_of_singleton in Hin as ->; done | set_solver]|]).
    apply lookup_singleton_Some in Hr as [<- <-]. set_solver.
Qed.

(** A service that starts for the first time, in or outside strict mode. *)
Definition first_service (strict_mode : bool) : @KillSwitch plain_filter (toy_vault true) :=
  (@init plain_filter (toy_vault true)
     (if strict_mode then {["Conf/strictKillSwitchEnabled" := VBool true]} else ∅) ∅ 0 first_firewall).2.

Lemma first_reachable strict_mode : @reachable plain_filter (toy_vault true) (first_service strict_mode).
Proof.
  apply started; [|left; apply first_clean].
  assert (forall file, map_Forall (fun _ v => encrypted_part v = None) file ->
    good (@mkSecure (toy_vault true) file ∅ "" "" true ∅ 0)) as H.
  { intros file Hf. split; try done; try (by left).
    - split; by left.
    - intros k v Hk Hx. by rewrite (Hf k v Hk) in Hx.
    - intros k v Hk _. exact (Hf k v Hk).
    - apply map_empty_subseteq. }
  destruct strict_mode; apply H; [apply map_Forall_singleton|apply map_Forall_empty]; done.
Qed.

Definition web_packet : packet := mkPacket "wlan0" "tcp" (V4 3405803781) 40000 443 0.
Definition tunnel_packet : packet := mkPacket "amn0" "tcp" (V4 3405803781) 40000 443 0.
Definition full_tunnel : obj :=
  oof [("splitTunnelType", JInt 0); ("vpnServer", JStr "192.0.2.1"); ("dns1", JStr "1.1.1.1")].

Lemma filter_tables_consistent_witness :
  (strict (first_service true) = false /\ forall v, absent (view v (the_firewall (first_service true)))) \/
  (exists P, forall v, laid_out v (P v) (view v (the_firewall (first_service true)))).
Proof. exact (filter_tables_consistent plain_filter_wf (toy_vault_wf true) _ (first_reachable true)). Defined.

Lemma strict_mode_blocks_witness :
  output_verdict iptables_4 (the_firewall (disableKillSwitch (first_service true)).2) web_packet
  = Some Rejected.
Proof.
  destruct (strict_mode_blocks plain_filter_wf (toy_vault_wf true) _ iptables_4 web_packet (first_reachable true)
           ltac:(vm_compute; reflexivity)) as [_ ->].
  vm_compute. reflexivity.
Defined.

Lemma kill_switch_exact_witness :
  (enableKillSwitch full_tunnel 3 (first_service false)).1 = true /\
  output_verdict iptables_4 (the_firewall (enableKillSwitch full_tunnel 3 (first_service false)).2) web_packet
  = Some Rejected /\
  output_verdict iptables_4 (the_firewall (enableKillSwitch full_tunnel 3 (first_service false)).2) tunnel_packet
  = Some Accepted.
Proof.
  pose proof (kill_switch_exact plain_filter_wf (toy_vault_wf true) (first_service false) full_tunnel 3
    (first_reachable false)) as H.
  assert (Eok : (enableKillSwitch full_tunnel 3 (first_service false)).1 = true) by (vm_compute; reflexivity).
  destruct (enableKillSwitch full_tunnel 3 (first_service false)) as [ok s']. cbn [fst] in Eok.
  destruct H as (_ & _ & H). destruct (H Eok) as [_ H2]. split; [exact Eok|].
  split; apply H2; first [left; exact first_clean | vm_compute; reflexivity].
Defined.


Lemma other_rules_stay_witness :
  foreign (view iptables_4 (the_firewall (enableKillSwitch full_tunnel 3 (first_service false)).2)) !! "OUTPUT"
  = Some [docker_rule].
Proof.
  rewrite (other_rules_stay plain_filter_wf _ _ iptables_4
    (step_enable full_tunnel 3 (first_service false))).
  vm_compute. reflexivity.
Defined.

Lemma disable_leaves_nothing_witness :
  client_verdict iptables_4 (the_firewall (disableKillSwitch (first_service false)).2) web_packet = None.
Proof.
  pose proof (disable_leaves_nothing plain_filter_wf (toy_vault_wf true) (first_service false)
    (first_reachable false) ltac:(vm_compute; reflexivity)) as H.
  destruct (disableKillSwitch (first_service false)) as [ok s']. destruct H as (_ & _ & _ & _ & H). apply H.
Defined.
