(* ===== verification/WireguardLinuxTheorems.v ===== *)
(** * The tunnel of the service on Linux: its theorems

    The tunnel that comes up is filtered, the routes it asks the kernel for, and the state of
    the peers as [amneziawg-go] reports it. *)

From S2P Require Import Prelude Numbers Json Lines IpAddress SplitTunneling SecureSettings.
From S2P Require Import SecureSettingsFacts SecureSettingsTheorems InterfaceConfig.
From S2P Require Import InterfaceConfigFacts Daemon Netfilter LinuxFirewall LinuxFirewallFacts.
From S2P Require Import LinuxFirewallShape KillSwitch WireguardLinux KillSwitchFacts.
From S2P Require Import KillSwitchTheorems.

Section Filtered.
Context `{N : Netfilter} `{V : Vault} `{W : WgHost}.
Hypothesis Hn : wf_netfilter N.
Hypothesis Hv : wf_vault V.

Lemma configured_kill message s : wg_kill (configured message s).2 = wg_kill s.
Proof. done. Qed.

(** C16: A tunnel with the kill switch that comes up is filtered: the client's chains come first in
    [OUTPUT] and decide on every packet as the addresses of the tunnel promise, names asked of
    the tunnel's servers only.  A tunnel that does not come up changes nothing in the filter,
    and neither does one without the kill switch. *)
Theorem tunnel_up_filtered c s :
  reachable (wg_kill s) ->
  let '(ok, s') := addInterface c s in
  if ok && m_killSwitchEnabled c then
    exists marked, (clean (the_firewall (wg_kill s)) -> marked = false) /\
    forall v p,
      client_verdict v (the_firewall (wg_kill s')) p =
        promised v (wireguard_promise marked (firewall_params c)) p /\
      (forall d, client_verdict v (the_firewall (wg_kill s')) p = Some d ->
         output_verdict v (the_firewall (wg_kill s')) p = Some d)
  else wg_kill s' = wg_kill s.
Proof.
  intros [G Hs Hx]%(reachable_ok Hn Hv). unfold addInterface, waitForTunnelName, mbind, wgm_bind, mret, wgm_ret, ask, did.
  cbv beta iota. destruct (negb (bool_decide _)); [done|]. cbv beta iota. destruct (negb (waitForStarted _)); [done|]. cbv beta iota.
  match goal with |- context [tunnel_answers ?x] => destruct (tunnel_answers x) end; [|done].
  cbv beta iota.
  match goal with |- context [configured ?m ?s1] =>
    pose proof (configured_kill m s1) as Hk; destruct (configured m s1) as [ok s2] end.
  cbn in Hk. destruct (ok && m_killSwitchEnabled c) eqn:E; [|by rewrite E].
  unfold on_kill. rewrite on_firewall_eq, Hk. cbv beta iota. rewrite E.
  change (wg_kill (_ <| wg_kill := ?k |>)) with k.
  destruct (wireguard_verdict Hn (firewall_params c) _ Hs) as (marked & Hm & H).
  exists marked. split; [done|]. intros v p. destruct (H v) as [Ht Hd].
  change (the_firewall (_ <| the_firewall := ?f |>)) with f. split; [apply Hd|].
  intros d Hd'. by rewrite (output_on_top _ _ _ Ht), Hd'.
Qed.
End Filtered.

(** ** Routes *)

(** A list of known length, element by element. *)
Ltac spell H := repeat match type of H with
  | length ?l = S _ => destruct l; [discriminate H|cbn [length] in H; injection H as H]
  | length ?l = 0%nat => apply nil_length_inv in H; subst l
  end.

Section Routes.
Context `{N : Netfilter} `{V : Vault} `{W : WgHost}.

(** [inet_pton] yields the bytes of an address of the family, and an [in_addr] has four. *)
Record wf_host : Prop := {
  pton_4 : forall t b, inet_pton IPv4Protocol t = Some b -> length b = 4%nat;
  pton_6 : forall t b, inet_pton IPv6Protocol t = Some b -> length b = 16%nat;
  in_addr_size : length uninitialised = 4%nat
}.
Hypothesis Hw : wf_host.

(** What the kernel takes for the route: all but what to do with it. *)
Definition route_id (m : nlmsghdr) : Z * Z * Z * Z * Z * Z * list (Z * list Z) :=
  (rtm_family m, rtm_dst_len m, rtm_table m, rtm_protocol m, rtm_scope m, rtm_type m, rtattrs m).

(** The route to a prefix, over the tunnel or past it. *)
Definition tunnel_route (index : Z) (ip : Z * Z * list Z) :=
  (ip.1.1, ip.1.2, 0%Z, RTPROT_BOOT, 0%Z, RTN_UNICAST,
   [(RTA_DST, ip.2); (RTA_OIF, le32 index); (RTA_PRIORITY, le32 1)]).
Definition bypass_route (gateway : string) (ip : Z * Z * list Z) :=
  (ip.1.1, ip.1.2, 0%Z, RTPROT_BOOT, 0%Z, RTN_UNICAST,
   [(RTA_DST, ip.2); (RTA_GATEWAY, default uninitialised (inet_pton IPv4Protocol gateway));
    (RTA_PRIORITY, le32 0)]).

Definition message_size (m : nlmsghdr) : Z :=
  (28 + foldr Z.add 0 (map (fun a => RTA_SPACE (Z.of_nat (length a.2))) (rtattrs m)))%Z.

Lemma build_sizes h prefix ip :
  buildAllowedIp h prefix = Some ip -> length ip.2 = 4%nat \/ length ip.2 = 16%nat.
Proof.
  unfold buildAllowedIp. destruct (type prefix); try done; intros (b & Hb & ->)%fmap_Some; cbn.
  - left. by apply (pton_4 Hw _ _ Hb).
  - right. by apply (pton_6 Hw _ _ Hb).
Qed.

(** Two more attributes of four bytes fit after the address. *)
Lemma attributes_fit action flags rtype seq ip t1 d1 t2 d2 :
  length ip.2 = 4%nat \/ length ip.2 = 16%nat -> length d1 = 4%nat -> length d2 = 4%nat ->
  let m := nlmsg_append_attr buf_size t2 d2
             (nlmsg_append_attr buf_size t1 d1 (route_header action flags rtype seq ip)) in
  nlmsg_len m = message_size m /\ (nlmsg_len m <= buf_size)%Z /\
  rtattrs m = [(RTA_DST, ip.2); (t1, d1); (t2, d2)].
Proof.
  destruct ip as [[family cidr] addr]. cbn [snd]. intros Ha H1 H2.
  destruct Ha as [Ha|Ha]; spell H1; spell H2; spell Ha; vm_compute; done.
Qed.

Lemma le32_size z : length (le32 z) = 4%nat.
Proof. done. Qed.

Lemma gateway_size gateway :
  length (default uninitialised (inet_pton IPv4Protocol gateway)) = 4%nat.
Proof.
  destruct (inet_pton IPv4Protocol gateway) eqn:E; [by apply (pton_4 Hw _ _ E)|apply (in_addr_size Hw)].
Qed.

(** The fields of the message that its attributes leave alone. *)
Lemma append_fields maxlen t d m :
  let m' := nlmsg_append_attr maxlen t d m in
  nlmsg_type m' = nlmsg_type m /\ nlmsg_flags m' = nlmsg_flags m /\ rtm_family m' = rtm_family m /\
  rtm_dst_len m' = rtm_dst_len m /\ rtm_table m' = rtm_table m /\ rtm_protocol m' = rtm_protocol m /\
  rtm_scope m' = rtm_scope m /\ rtm_type m' = rtm_type m.
Proof. unfold nlmsg_append_attr. cbv zeta. by destruct (_ <=? _)%Z. Qed.

Lemma next_seq_log s : wg_log (next_seq s).2 = wg_log s.
Proof. unfold next_seq. by destruct (m_rtmonitor s). Qed.

(** What is sent, if anything is. *)
Definition sends (s s' : WireguardUtilsLinux) (action flags : Z)
    (route : Z * Z * Z * Z * Z * Z * list (Z * list Z)) : Prop :=
  exists m r, wg_log s' = wg_log s ++ [RouteSent m r] /\ nlmsg_type m = action /\ nlmsg_flags m = flags /\
    nlmsg_len m = message_size m /\ (nlmsg_len m <= buf_size)%Z /\ route_id m = route.

Lemma send_route_log m s :
  exists r, wg_log (send_route m s).2 = wg_log s ++ [RouteSent m r].
Proof. by eexists. Qed.

Lemma retype m : rtm_type m = RTN_UNICAST -> m <| rtm_type := RTN_UNICAST |> = m.
Proof. destruct m. cbn. by intros ->. Qed.

Lemma append_type maxlen t d m : rtm_type (nlmsg_append_attr maxlen t d m) = rtm_type m.
Proof. apply append_fields. Qed.

Lemma header_type action flags rtype seq ip : rtm_type (route_header action flags rtype seq ip) = rtype.
Proof. destruct ip as [[f c] a]. unfold route_header. by rewrite append_type. Qed.

Lemma send_complete action flags rtype seq ip t1 d1 d2 s s0 :
  length ip.2 = 4%nat \/ length ip.2 = 16%nat -> length d1 = 4%nat -> length d2 = 4%nat ->
  wg_log s = wg_log s0 ->
  sends s0
    (send_route ((nlmsg_append_attr buf_size RTA_PRIORITY d2
       (nlmsg_append_attr buf_size t1 d1 (route_header action flags rtype seq ip)))
         <| rtm_type := RTN_UNICAST |>) s).2
    action flags
    (ip.1.1, ip.1.2, 0%Z, RTPROT_BOOT, 0%Z, RTN_UNICAST, [(RTA_DST, ip.2); (t1, d1); (RTA_PRIORITY, d2)]).
Proof.
  intros Ha H1 H2 Hl. destruct (attributes_fit action flags rtype seq ip t1 d1 RTA_PRIORITY d2 Ha H1 H2)
    as (F1 & F2 & F3).
  set (m0 := route_header action flags rtype seq ip) in *.
  pose proof (append_fields buf_size t1 d1 m0) as (A1 & A2 & A3 & A4 & A5 & A6 & A7 & _).
  set (m1 := nlmsg_append_attr buf_size t1 d1 m0) in *.
  pose proof (append_fields buf_size RTA_PRIORITY d2 m1) as (B1 & B2 & B3 & B4 & B5 & B6 & B7 & _).
  set (m2 := nlmsg_append_attr buf_size RTA_PRIORITY d2 m1) in *.
  destruct (send_route_log (m2 <| rtm_type := RTN_UNICAST |>) s) as [r Er].
  exists (m2 <| rtm_type := RTN_UNICAST |>), r. rewrite Er, Hl.
  assert (nlmsg_type m0 = action /\ nlmsg_flags m0 = flags /\ rtm_family m0 = ip.1.1 /\
    rtm_dst_len m0 = ip.1.2 /\ rtm_table m0 = 0%Z /\ rtm_protocol m0 = RTPROT_BOOT /\ rtm_scope m0 = 0%Z)
    as (C1 & C2 & C3 & C4 & C5 & C6 & C7).
  { unfold m0, route_header. destruct ip as [[f c] a].
    pose proof (append_fields buf_size RTA_DST a (mkNlmsg (NLMSG_LENGTH sizeof_rtmsg) action flags getpid
      seq f c 0 RTPROT_BOOT 0 rtype [])) as (? & ? & ? & ? & ? & ? & ? & _). done. }
  assert (message_size (m2 <| rtm_type := RTN_UNICAST |>) = message_size m2) as E by done.
  split_and!; [done|..].
  - change (nlmsg_type m2 = action). congruence.
  - change (nlmsg_flags m2 = flags). congruence.
  - rewrite E. exact F1.
  - exact F2.
  - unfold route_id. cbn. congruence.
Qed.

Lemma unicast_sent action flags prefix ip s :
  buildAllowedIp (wg_log s) prefix = Some ip -> (0 < if_nametoindex (wg_log s) "amn0")%Z ->
  sends s (rtmSendRoute action flags RTN_UNICAST prefix s).2 action flags
    (tunnel_route (if_nametoindex (wg_log s) "amn0") ip).
Proof.
  intros Hb Hi. unfold rtmSendRoute, mbind, wgm_bind, ask. rewrite Hb. pose proof (next_seq_log s) as Hl.
  destruct (next_seq s) as [seq s1]. cbn in Hl. rewrite Z.eqb_refl. rewrite Hl.
  assert ((if_nametoindex (wg_log s) "amn0" <=? 0)%Z = false) as -> by lia.
  pose proof (send_complete action flags RTN_UNICAST seq ip RTA_OIF (le32 (if_nametoindex (wg_log s) "amn0"))
    (le32 1) s1 s (build_sizes _ _ _ Hb) eq_refl eq_refl Hl) as H.
  rewrite retype in H; [exact H|]. by rewrite !append_type, header_type.
Qed.

Lemma throw_sent action flags prefix ip s :
  buildAllowedIp (wg_log s) prefix = Some ip -> str_empty (getGatewayAndIface (wg_log s)) = false ->
  sends s (rtmSendRoute action flags RTN_THROW prefix s).2 action flags
    (bypass_route (getGatewayAndIface (wg_log s)) ip).
Proof.
  intros Hb Hi. unfold rtmSendRoute, mbind, wgm_bind, ask. rewrite Hb. pose proof (next_seq_log s) as Hl.
  destruct (next_seq s) as [seq s1]. cbn in Hl.
  change (RTN_THROW =? RTN_UNICAST)%Z with false. change (RTN_THROW =? RTN_THROW)%Z with true.
  cbv beta iota. rewrite Hl, Hi.
  apply (send_complete action flags RTN_THROW seq ip RTA_GATEWAY); [by eapply build_sizes|apply gateway_size|done|done].
Qed.

(** Without the interface or the gateway nothing is sent. *)
Lemma unicast_refused action flags prefix s :
  (if_nametoindex (wg_log s) "amn0" <= 0)%Z ->
  (rtmSendRoute action flags RTN_UNICAST prefix s).1 = false /\
  wg_log (rtmSendRoute action flags RTN_UNICAST prefix s).2 = wg_log s.
Proof.
  intros Hi. unfold rtmSendRoute, mbind, wgm_bind, ask. destruct (buildAllowedIp _ _); [|done].
  pose proof (next_seq_log s) as Hl. destruct (next_seq s) as [seq s1]. cbn in Hl. rewrite Z.eqb_refl, Hl.
  assert ((if_nametoindex (wg_log s) "amn0" <=? 0)%Z = true) as -> by lia. done.
Qed.

Lemma throw_refused action flags prefix s :
  str_empty (getGatewayAndIface (wg_log s)) = true ->
  (rtmSendRoute action flags RTN_THROW prefix s).1 = false /\
  wg_log (rtmSendRoute action flags RTN_THROW prefix s).2 = wg_log s.
Proof.
  intros Hi. unfold rtmSendRoute, mbind, wgm_bind, ask. destruct (buildAllowedIp _ _); [|done].
  pose proof (next_seq_log s) as Hl. destruct (next_seq s) as [seq s1]. cbn in Hl.
  change (RTN_THROW =? RTN_UNICAST)%Z with false. change (RTN_THROW =? RTN_THROW)%Z with true.
  cbv beta iota. by rewrite Hl, Hi.
Qed.

(** The family and the length are the prefix's, whatever the memory holds. *)
Lemma build_family h prefix ip :
  buildAllowedIp h prefix = Some ip ->
  ip.1 = (match type prefix with IPv4Protocol => AF_INET | _ => AF_INET6 end, m_prefixLength prefix mod 256)%Z.
Proof. unfold buildAllowedIp. destruct (type prefix); try done; by intros (b & _ & ->)%fmap_Some. Qed.

Lemma tunnel_route_eq i i' ip ip' :
  ip.1 = ip'.1 -> tunnel_route i' ip' = tunnel_route i ip <-> ip'.2 = ip.2 /\ le32 i' = le32 i.
Proof.
  destruct ip as [fc b], ip' as [fc' b']. cbn [fst snd]. intros ->. unfold tunnel_route. cbn [fst snd].
  split; [intros [=]; by unfold le32; cbn [map]; subst; split; [|congruence]|by intros [-> ->]].
Qed.

Lemma bypass_route_eq g g' ip ip' :
  ip.1 = ip'.1 ->
  bypass_route g' ip' = bypass_route g ip <->
  ip'.2 = ip.2 /\ default uninitialised (inet_pton IPv4Protocol g') = default uninitialised (inet_pton IPv4Protocol g).
Proof.
  destruct ip as [fc b], ip' as [fc' b']. cbn [fst snd]. intros ->. unfold bypass_route. cbn [fst snd].
  split; [by intros [= -> ->]|by intros [-> ->]].
Qed.

(** C38: The messages that add a route and, at another time, delete it are complete: all
    attributes fit into the buffer for IPv4 and IPv6, and the length says so.  A route through
    the tunnel names the interface of its time, a route past it the gateway of its time; the
    message that deletes names the very route that was added exactly when the interface (the
    gateway) has not changed in between and the same bytes of the address were read.  Without
    an interface or a gateway nothing is sent and the caller is told. *)
Theorem route_messages_complete prefix s s' ip ip' :
  buildAllowedIp (wg_log s) prefix = Some ip -> buildAllowedIp (wg_log s') prefix = Some ip' ->
  let i := if_nametoindex (wg_log s) "amn0" in
  let i' := if_nametoindex (wg_log s') "amn0" in
  let g := getGatewayAndIface (wg_log s) in
  let g' := getGatewayAndIface (wg_log s') in
  (if (0 <? i)%Z then sends s (insertRoute prefix s).2 RTM_NEWROUTE new_flags (tunnel_route i ip)
   else (insertRoute prefix s).1 = false /\ wg_log (insertRoute prefix s).2 = wg_log s) /\
  (if (0 <? i')%Z then sends s' (deleteRoute prefix s').2 RTM_DELROUTE delete_flags (tunnel_route i' ip')
   else (deleteRoute prefix s').1 = false /\ wg_log (deleteRoute prefix s').2 = wg_log s') /\
  (tunnel_route i' ip' = tunnel_route i ip <-> ip'.2 = ip.2 /\ le32 i' = le32 i) /\
  (if negb (str_empty g)
   then sends s (monitor_addExclusionRoute prefix s).2 RTM_NEWROUTE new_flags (bypass_route g ip)
   else (monitor_addExclusionRoute prefix s).1 = false /\
        wg_log (monitor_addExclusionRoute prefix s).2 = wg_log s) /\
  (if negb (str_empty g')
   then sends s' (monitor_deleteExclusionRoute prefix s').2 RTM_DELROUTE delete_flags (bypass_route g' ip')
   else (monitor_deleteExclusionRoute prefix s').1 = false /\
        wg_log (monitor_deleteExclusionRoute prefix s').2 = wg_log s') /\
  (bypass_route g' ip' = bypass_route g ip <->
   ip'.2 = ip.2 /\ default uninitialised (inet_pton IPv4Protocol g') = default uninitialised (inet_pton IPv4Protocol g)).
Proof.
  intros Hb Hb'. cbv zeta.
  assert (ip.1 = ip'.1) as E by (by rewrite (build_family _ _ _ Hb), (build_family _ _ _ Hb')).
  split_and!.
  1, 2: destruct (0 <? _)%Z eqn:Hi; [apply unicast_sent; [done|lia]|apply unicast_refused; lia].
  - by apply tunnel_route_eq.
  - destruct (str_empty _) eqn:Hg; [by apply throw_refused|by apply throw_sent].
  - destruct (str_empty _) eqn:Hg; [by apply throw_refused|by apply throw_sent].
  - by apply bypass_route_eq.
Qed.

(** Removing the route of a prefix that is not empty adds it. *)
Theorem deleteRoutePrefix_inserts prefix ip s :
  buildAllowedIp (wg_log s) prefix = Some ip -> (0 < m_prefixLength prefix)%Z -> is_Some (m_rtmonitor s) ->
  (0 < if_nametoindex (wg_log s) "amn0")%Z ->
  sends s (deleteRoutePrefix prefix s).2 RTM_NEWROUTE new_flags
    (tunnel_route (if_nametoindex (wg_log s) "amn0") ip).
Proof.
  intros Hb Hp [r Hr] Hi. unfold deleteRoutePrefix, monitored, mbind, wgm_bind, get.
  rewrite Hr. assert ((0 <? m_prefixLength prefix)%Z = true) as -> by lia. by apply unicast_sent.
Qed.
End Routes.

(** ** The state of the peers *)

(** *** The reply *)

(** What [amneziawg-go] reports of a peer. *)
Record uapi_peer := mkUapiPeer {
  u_key : string;             (* hexadecimal *)
  u_other : list string;      (* lines that say nothing of interest *)
  u_sec : Z; u_nsec : Z; u_tx : Z; u_rx : Z
}.

Definition peer_lines (u : uapi_peer) : list string :=
  ("public_key=" +:+ u_key u) :: u_other u ++
  ["last_handshake_time_sec=" +:+ pretty (u_sec u); "last_handshake_time_nsec=" +:+ pretty (u_nsec u);
   "tx_bytes=" +:+ pretty (u_tx u); "rx_bytes=" +:+ pretty (u_rx u)].

(** The reply: the interface, the peers and the end. *)
Definition status_lines (key : string) (others : list string) (us : list uapi_peer) : list string :=
  ("private_key=" +:+ key) :: others ++ flat_map peer_lines us ++ ["errno=0"].

(** Lines whose name is not one that is read. *)
Definition ignored (line : string) : bool :=
  one_line line &&
  match name_value line with
  | Some (name, _) => negb (bool_decide (name ∈ ["public_key"; "tx_bytes"; "rx_bytes";
                        "last_handshake_time_sec"; "last_handshake_time_nsec"]))
  | None => true
  end.

Section Peers.
Context `{N : Netfilter} `{V : Vault} `{W : WgHost}.

Definition peer_ok (u : uapi_peer) : bool :=
  negb (str_empty (hex_base64 (u_key u))) && one_line (u_key u) && forallb ignored (u_other u)
  && (0 <=? u_sec u)%Z && (u_sec u <=? int64_max)%Z && (0 <=? u_nsec u)%Z && (u_nsec u <=? int64_max)%Z
  && (text_double (pretty (u_tx u)) =? u_tx u)%Z && (text_double (pretty (u_rx u)) =? u_rx u)%Z.

Definition status_of (u : uapi_peer) : PeerStatus :=
  mkPeer (hex_base64 (u_key u)) (u_sec u * 1000 + u_nsec u ÷ 1000000)%Z (u_rx u) (u_tx u).

Lemma cut_at_app name v : str_has "=" name = false -> cut_at "=" (name +:+ "=" +:+ v) = Some (name, v).
Proof.
  induction name as [|c name IH]; [done|]. cbn [str_has]. destruct (Ascii.eqb "=" c) eqn:E; [done|]. intros H.
  rewrite string_app_cons. cbn [cut_at]. by rewrite IH, (Ascii.eqb_sym c), E by done.
Qed.

Lemma name_value_app name v :
  str_has "=" name = false -> name <> "" -> name_value (name +:+ "=" +:+ v) = Some (name, v).
Proof. intros H Hne. unfold name_value. rewrite cut_at_app by done. by destruct name. Qed.

Lemma ignored_line acc line : ignored line = true -> peer_line acc line = acc.
Proof.
  unfold ignored, peer_line. intros H. bprop. destruct (name_value line) as [[name v]|]; [|done].
  destruct acc as [status peers]. bprop.
  repeat match goal with |- context [String.eqb name ?t] =>
    destruct (String.eqb_spec name t) as [->|_]; [set_solver|] end.
  done.
Qed.

Lemma ignored_lines acc lines : forallb ignored lines = true -> fold_left peer_line lines acc = acc.
Proof.
  revert acc. induction lines as [|l lines IH]; intros acc H; [done|]. cbn in H. bprop.
  cbn [fold_left]. by rewrite ignored_line, IH.
Qed.

(** The lines of one peer: the peer before it is put away. *)
Lemma peer_lines_read status peers u :
  peer_ok u = true ->
  fold_left peer_line (peer_lines u) (status, peers) =
  (status_of u, if str_empty (m_pubkey status) then peers else peers ++ [status]).
Proof.
  unfold peer_ok. rewrite !andb_true_iff. intros [[[[[[[[H1 H2] H3] H4] H5] H6] H7] H8] H9].
  unfold peer_lines. cbn [fold_left]. rewrite fold_left_app.
  assert (forall acc v, peer_line acc ("public_key=" +:+ v) =
    (mkPeer (hex_base64 v) 0 0 0, if str_empty (m_pubkey acc.1) then acc.2 else acc.2 ++ [acc.1])) as E1.
  { intros [st ps] v. unfold peer_line. change ("public_key=" +:+ v) with ("public_key" +:+ "=" +:+ v).
    by rewrite name_value_app. }
  rewrite E1, (ignored_lines _ (u_other u) H3). cbn [fst snd fold_left].
  assert (forall name v st ps, name ∈ ["last_handshake_time_sec"; "last_handshake_time_nsec"; "tx_bytes"; "rx_bytes"] ->
    peer_line (st, ps) (name +:+ "=" +:+ v) =
    (if String.eqb name "tx_bytes" then mkPeer (m_pubkey st) (m_handshake st) (m_rxBytes st) (text_double v)
     else if String.eqb name "rx_bytes" then mkPeer (m_pubkey st) (m_handshake st) (text_double v) (m_txBytes st)
     else if String.eqb name "last_handshake_time_sec"
     then mkPeer (m_pubkey st) (m_handshake st + default 0 (to_long_long v) * 1000)%Z (m_rxBytes st) (m_txBytes st)
     else mkPeer (m_pubkey st) (m_handshake st + default 0 (to_long_long v) ÷ 1000000)%Z
            (m_rxBytes st) (m_txBytes st), ps)) as E2.
  { intros name v st ps Hin. unfold peer_line.
    repeat (apply elem_of_cons in Hin as [->|Hin]; [by rewrite name_value_app|]). set_solver. }
  change ("last_handshake_time_sec=" +:+ ?v) with ("last_handshake_time_sec" +:+ "=" +:+ v).
  change ("last_handshake_time_nsec=" +:+ ?v) with ("last_handshake_time_nsec" +:+ "=" +:+ v).
  change ("tx_bytes=" +:+ ?v) with ("tx_bytes" +:+ "=" +:+ v).
  change ("rx_bytes=" +:+ ?v) with ("rx_bytes" +:+ "=" +:+ v).
  rewrite !E2 by set_solver. cbn [String.eqb Ascii.eqb Bool.eqb m_pubkey m_handshake m_rxBytes m_txBytes].
  rewrite !to_long_long_pretty by lia. cbn [default from_option id].
  apply Z.eqb_eq in H8 as ->, H9 as ->. done.
Qed.

Lemma peers_read status peers us :
  forallb peer_ok us = true -> m_pubkey status <> "" \/ peers = [] ->
  exists status' peers', fold_left peer_line (flat_map peer_lines us) (status, peers) = (status', peers') /\
    (if str_empty (m_pubkey status') then peers' else peers' ++ [status']) =
    (if str_empty (m_pubkey status) then peers else peers ++ [status]) ++ map status_of us.
Proof.
  revert status peers. induction us as [|u us IH]; intros status peers Hok Hst.
  { exists status, peers. by rewrite app_nil_r. }
  cbn [forallb] in Hok. apply andb_true_iff in Hok as [Hu Hok].
  cbn [flat_map]. rewrite fold_left_app, peer_lines_read by done.
  assert (m_pubkey (status_of u) <> "") as Hne.
  { unfold peer_ok in Hu. rewrite !andb_true_iff in Hu. destruct Hu as [[[[[[[[Hu _] _] _] _] _] _] _] _].
    apply negb_true_iff in Hu. by apply str_empty_false in Hu. }
  destruct (IH (status_of u) (if str_empty (m_pubkey status) then peers else peers ++ [status]) Hok)
    as (st & ps & E & Eq); [by left|].
  exists st, ps. split; [done|]. rewrite Eq. apply str_empty_false in Hne. rewrite Hne.
  cbn [map]. by rewrite <- app_assoc.
Qed.

Lemma status_split key others us :
  forallb one_line (("private_key=" +:+ key) :: others ++ flat_map peer_lines us) = true ->
  split_char LF (trimmed (unlines (status_lines key others us) +:+ nl)) = status_lines key others us.
Proof.
  intros H. unfold status_lines. set (ls := ("private_key=" +:+ key) :: others ++ flat_map peer_lines us) in *.
  change (("private_key=" +:+ key) :: others ++ flat_map peer_lines us ++ ["errno=0"])
    with (("private_key=" +:+ key) :: (others ++ (flat_map peer_lines us ++ ["errno=0"]))).
  assert (("private_key=" +:+ key) :: others ++ flat_map peer_lines us ++ ["errno=0"] = ls ++ ["errno=0"]) as ->
    by (unfold ls; cbn [app]; by rewrite <- app_assoc).
  rewrite unlines_app, string_app_assoc. unfold trimmed.
  assert (drop_spaces (unlines ls +:+ unlines ["errno=0"] +:+ nl) = unlines ls +:+ unlines ["errno=0"] +:+ nl) as ->
    by done.
  rewrite (drop_trailing_app _ _ "errno=0") by done. by rewrite split_unlines.
Qed.

Lemma ignored_one_line ls : forallb ignored ls = true -> forallb one_line ls = true.
Proof.
  rewrite !forallb_forall. intros H l Hl. specialize (H l Hl). unfold ignored in H. by bprop.
Qed.

Lemma one_line_peers us : forallb peer_ok us = true -> forallb one_line (flat_map peer_lines us) = true.
Proof.
  induction us as [|u us IH]; [done|]. cbn [forallb flat_map]. intros [Hu H]%andb_true_iff.
  rewrite forallb_app, IH, andb_true_r by done. unfold peer_ok in Hu. rewrite !andb_true_iff in Hu.
  destruct Hu as [[[[[[[[_ H2] H3] _] _] _] _] _] _]. unfold peer_lines. cbn [forallb]. rewrite forallb_app.
  cbn [forallb]. rewrite !one_line_app, !one_line_pretty, H2.
  by rewrite (ignored_one_line _ H3).
Qed.

(** When [amneziawg-go] reports its peers, each with its key, the time of the last handshake
    and the bytes that went through, whatever other lines it writes, exactly these peers are
    returned, in order. *)
Theorem peer_status_read key others us s :
  one_line key = true -> forallb ignored others = true -> forallb peer_ok us = true ->
  uapi_reply (wg_log s) ("get=1" +:+ nl +:+ nl) = Some (unlines (status_lines key others us) +:+ nl) ->
  (getPeerStatus s).1 = map status_of us.
Proof.
  intros Hk Ho Hu Hr. unfold getPeerStatus, uapiCommand, ask, did, mbind, wgm_bind, mret, wgm_ret.
  change (terminated "get=1") with ("get=1" +:+ nl +:+ nl). rewrite Hr. cbn [fst]. unfold peers_of.
  rewrite status_split.
  2:{ cbn [forallb]. rewrite one_line_app, Hk, forallb_app, one_line_peers, (ignored_one_line _ Ho) by done.
      done. }
  unfold status_lines. cbn [fold_left].
  assert (forall acc, peer_line acc ("private_key=" +:+ key) = acc) as ->.
  { intros acc. unfold peer_line. change ("private_key=" +:+ key) with ("private_key" +:+ "=" +:+ key).
    rewrite name_value_app by done. by destruct acc. }
  rewrite !fold_left_app, (ignored_lines _ others Ho).
  destruct (peers_read (mkPeer "" 0 0 0) [] us Hu (or_intror eq_refl)) as (st & ps & -> & E).
  cbn [fold_left]. rewrite ignored_line by done. exact E.
Qed.
End Peers.

(** ** A machine *)

Definition dotted (a : Z) : string :=
  let byte i := pretty (Z.land (Z.shiftr a (8 * i)) 255) in
  byte 3%Z +:+ "." +:+ byte 2%Z +:+ "." +:+ byte 1%Z +:+ "." +:+ byte 0%Z.

Definition dotted_text : HostText := {|
  parseAddress s := match net_of_text s with Some (a, _) => V4 a | None => NullAddress end;
  parseSubnet s := match net_of_text s with Some (a, n) => (V4 a, n) | None => (NullAddress, -1)%Z end;
  addressText a := match a with V4 a => dotted a | _ => "" end |}.

Definition sample_peer : uapi_peer :=
  mkUapiPeer "0a0b" ["protocol_version=1"; "endpoint=192.0.2.1:51820"] 1700000000 5000000 420 840.

Definition sample_host : WgHost := {|
  host_text := dotted_text;
  base64_hex s := s;
  hex_base64 s := s;
  text_double s := default 0%Z (to_long_long s);
  inet_pton p t := match p, net_of_text t with
                   | IPv4Protocol, Some (a, _) => Some (rev (le32 a))
                   | _, _ => None
                   end;
  getpid := 1;
  uninitialised := [0; 0; 0; 0]%Z;
  after_free _ t := t;
  tunnel_state h := match h with [] => NotRunning | _ => Running end;
  waitForStarted _ := true;
  tunnel_answers _ := true;
  uapi_reply _ message :=
    if starts_with "get" message
    then Some (unlines (status_lines "00" ["listen_port=1"] [sample_peer]) +:+ nl)
    else Some ("errno=0" +:+ nl +:+ nl);
  if_nametoindex _ _ := 7%Z;
  getGatewayAndIface _ := "192.168.1.1";
  sendto _ m := nlmsg_len m |}.

Lemma sample_host_wf : @wf_host sample_host.
Proof.
  split; [|done|done]. intros t b. cbn. destruct (net_of_text t) as [[a n]|]; [|done]. by intros [= <-].
Qed.

Definition idle_wg : @WireguardUtilsLinux plain_filter (toy_vault true) :=
  @mkWg plain_filter (toy_vault true) [] None None (first_service false).
Definition running_wg : @WireguardUtilsLinux plain_filter (toy_vault true) :=
  @mkWg plain_filter (toy_vault true) [TunnelStarted true] (Some "amn0") (Some (mkMonitor 0)) (first_service false).

(** A tunnel for everything but one address. *)
Definition guarded_interface : InterfaceConfig :=
  mkConfig SingleHop "private" (Some "10.8.1.2/32") None "192.0.2.1" "" "peer" (Some "192.0.2.1")
    None None "1.1.1.1" "1.0.0.1" 51820 1376 "25" [mkIP (V4 0) 0] ["192.0.2.1"] [] [] true
    "4" "" "" "" "" "" "" "1-5" "" "" "" [("I1", "<b 0x01>")] "" "" "" "" "" "" "" "" "".

Lemma tunnel_up_filtered_witness :
  (@addInterface plain_filter (toy_vault true) sample_host guarded_interface idle_wg).1 = true /\
  output_verdict iptables_4
    (the_firewall (wg_kill (@addInterface plain_filter (toy_vault true) sample_host guarded_interface idle_wg).2))
    web_packet = Some Rejected.
Proof.
  pose proof (@tunnel_up_filtered plain_filter (toy_vault true) sample_host plain_filter_wf (toy_vault_wf true)
    guarded_interface idle_wg (first_reachable false)) as H.
  assert ((@addInterface plain_filter (toy_vault true) sample_host guarded_interface idle_wg).1 = true) as E
    by (vm_compute; reflexivity).
  destruct (addInterface guarded_interface idle_wg) as [ok s']. cbn [fst snd] in *. subst ok.
  split; [reflexivity|]. cbn [andb m_killSwitchEnabled guarded_interface] in H.
  destruct H as (marked & Hm & H). rewrite (Hm first_clean) in H.
  destruct (H iptables_4 web_packet) as [H1 H2]. apply H2. rewrite H1. vm_compute. reflexivity.
Defined.

Definition lan_prefix : IPAddress := mkIP (V4 3232235520) 16.

Lemma route_messages_complete_witness :
  sends running_wg (@insertRoute plain_filter (toy_vault true) sample_host lan_prefix running_wg).2
    RTM_NEWROUTE new_flags (tunnel_route 7 (AF_INET, 16%Z, [192; 168; 0; 0]%Z)) /\
  sends idle_wg (@deleteRoute plain_filter (toy_vault true) sample_host lan_prefix idle_wg).2
    RTM_DELROUTE delete_flags (tunnel_route 7 (AF_INET, 16%Z, [192; 168; 0; 0]%Z)).
Proof.
  destruct (@route_messages_complete plain_filter (toy_vault true) sample_host sample_host_wf lan_prefix
    running_wg idle_wg (AF_INET, 16%Z, [192; 168; 0; 0]%Z) (AF_INET, 16%Z, [192; 168; 0; 0]%Z))
    as (H1 & H2 & _); [vm_compute; reflexivity..|].
  split; [exact H1|exact H2].
Defined.

Lemma peer_status_read_witness :
  (@getPeerStatus plain_filter (toy_vault true) sample_host running_wg).1
  = [mkPeer "0a0b" 1700000000005 840 420].
Proof.
  exact (@peer_status_read plain_filter (toy_vault true) sample_host "00" ["listen_port=1"] [sample_peer] running_wg
    eq_refl ltac:(vm_compute; reflexivity) ltac:(vm_compute; reflexivity) ltac:(vm_compute; reflexivity)).
Defined.

Lemma deleteRoutePrefix_inserts_witness :
  sends running_wg (@deleteRoutePrefix plain_filter (toy_vault true) sample_host lan_prefix running_wg).2
    RTM_NEWROUTE new_flags (tunnel_route 7 (AF_INET, 16%Z, [192; 168; 0; 0]%Z)).
Proof.
  apply (@deleteRoutePrefix_inserts plain_filter (toy_vault true) sample_host sample_host_wf lan_prefix
    (AF_INET, 16%Z, [192; 168; 0; 0]%Z) running_wg); try (vm_compute; reflexivity). by eexists.
Defined.
