(* ===== verification/VpnConnection.v ===== *)
(** * The connection

    [client/vpnConnection.{h,cpp}], [client/core/protocols/vpnProtocol.{h,cpp}] and
    [wireGuardProtocol.{h,cpp}], as compiled for a desktop system: the object that holds the
    current protocol, the states it shows, and what it asks of the service on the way.

    All of them live in one thread, so that a signal runs its slots before it returns.  While
    the service answers [flushDns] and [clearSavedRoutes], [waitForFinished] runs a nested event
    loop in that thread: what its events do to the connection is [meanwhile] of the class
    [EventLoop], called at each of these places.  The protocol of WireGuard and AmneziaWG owns a
    [LocalSocketController] ([LocalSocket], Module [Client]); what that emits reaches the
    protocol in order.  The other protocols are any that the class [VpnWorld] below describes.
    The code is that of Linux and Windows; logging is left out. *)

From S2P Require Import Prelude Json IpAddress Lines InterfaceConfig Daemon ProtocolConfigs.
From S2P Require Import LocalSocket SplitTunneling Containers.

(** ** Data *)

Module Vpn.
Inductive ConnectionState :=
  | Unknown | Disconnected | Preparing | Connecting | Connected | Disconnecting | Reconnecting | Error.

#[global] Instance ConnectionState_eq_dec : EqDecision ConnectionState.
Proof. solve_decision. Defined.
End Vpn.

(** [ErrorCode], and the one of a connection without a protocol. *)
Definition NoError : Z := 0.
Definition InternalError : Z := 101.

(** Calls of the service. *)
Inductive ipc :=
  | ResetIpStack
  | FlushDns
  | ClearSavedRoutes
  | RouteAddList (gw : string) (ips : list string)
  | RouteDeleteList (gw : string) (ips : list string)
  | RefreshKillSwitch (enabled : bool).

(** What leaves the connection: calls of the service, signals, commands to the daemon, names to
    look up and a single-shot timer of one second. *)
Inductive vout :=
  | Call (c : ipc)
  | connectionStateChanged (state : Vpn.ConnectionState)
  | vpnProtocolError (error : Z)
  | bytesChanged (receivedBytes sentBytes : Z)
  | ToDaemon (o : obj)
  | LookupHost (site : string)
  | SingleShot (routeMode : RouteMode)
  | NullProtocol.   (* a call through the null pointer: the process ends *)

(** The state a signal tells. *)
Definition signal_of (o : vout) : option Vpn.ConnectionState :=
  match o with connectionStateChanged st => Some st | _ => None end.

(** ** Protocols *)

(** Protocols other than those of WireGuard are told apart by a number. *)
Inductive impl := Mz (m_impl : Client.client) | Other (number : nat).

Record VpnProtocol := mkProtocol {
  p_state : Vpn.ConnectionState;
  m_rawConfig : obj;
  m_lastError : Z;
  m_receivedBytes : Z;
  m_sentBytes : Z;
  m_routeGateway : string;
  m_vpnGateway : string;
  m_vpnLocalAddress : string;
  (** Its signals are connected to the connection. *)
  p_wired : bool;
  p_impl : impl
}.

#[export] Instance eta_protocol : Eta VpnProtocol := fun p =>
  mkProtocol (p_state p) (m_rawConfig p) (m_lastError p) (m_receivedBytes p) (m_sentBytes p)
    (m_routeGateway p) (m_vpnGateway p) (m_vpnLocalAddress p) (p_wired p) (p_impl p).

(** What a protocol emits, and what it writes to the daemon.  Nothing is connected to
    [tunnelAddressesUpdated] and [timeoutTimerEvent]. *)
Inductive psignal :=
  | stateChanged (state : Vpn.ConnectionState)
  | protocolError (error : Z)
  | bytesDelta (rx tx : Z)
  | sent (o : obj).

Module Protocol.
Definition new (configuration : obj) (i : impl) : VpnProtocol :=
  mkProtocol Vpn.Unknown configuration NoError 0 0 "" "" "" false i.

Definition setConnectionState (state : Vpn.ConnectionState) (p : VpnProtocol)
    : list psignal * VpnProtocol :=
  if bool_decide (p_state p = state) then ([], p)
  else if bool_decide (p_state p = Vpn.Disconnected) && bool_decide (state = Vpn.Disconnecting)
  then ([], p)
  else
    let p := p <| p_state := state |> in
    let p := if bool_decide (state = Vpn.Disconnected)
             then p <| m_receivedBytes := 0%Z |> <| m_sentBytes := 0%Z |> else p in
    ([stateChanged state], p).

Definition setLastError (lastError : Z) (p : VpnProtocol) : list psignal * VpnProtocol :=
  let p := p <| m_lastError := lastError |> in
  if (lastError =? 0)%Z then ([], p) else setConnectionState Vpn.Error p.

(** [quint64] differences. *)
Definition setBytesChanged (receivedBytes sentBytes : Z) (p : VpnProtocol)
    : list psignal * VpnProtocol :=
  ([bytesDelta ((receivedBytes - m_receivedBytes p) mod 2 ^ 64)%Z ((sentBytes - m_sentBytes p) mod 2 ^ 64)%Z],
   p <| m_receivedBytes := receivedBytes |> <| m_sentBytes := sentBytes |>).
End Protocol.

(** The system, and the other protocols: what [start], with the [prepare] before it, and [stop]
    emit and return. *)
Class VpnWorld := {
  world_text :: HostText;
  (** [NetworkUtilities::getIPAddress]. *)
  getIPAddress : string -> string;
  (** [withInterface] finds the service. *)
  service_ready : list vout -> bool;
  socket_windows : bool;
  var_socket : bool;
  socket_date : string -> option Z;
  other_start : nat -> obj -> list Vpn.ConnectionState * Z;
  other_stop : nat -> list Vpn.ConnectionState
}.

Section Wireguard.
Context `{CompactText} `{VpnWorld}.

(** A signal with the protocol as it is while it is emitted. *)
Definition emission : Type := psignal * VpnProtocol.

Definition tag (r : list psignal * VpnProtocol) : list emission * VpnProtocol :=
  (map (fun e => (e, r.2)) r.1, r.2).

(** One signal of the controller. *)
Definition relay_one (o : Client.output) (p : VpnProtocol) : list psignal * VpnProtocol :=
  match o with
  | Client.Connected _ => Protocol.setConnectionState Vpn.Connected p
  | Client.Disconnected => Protocol.setConnectionState Vpn.Disconnected p
  | Client.StatusUpdated gateway device _ _ =>
      let p := if str_empty gateway then p else p <| m_vpnGateway := gateway |> in
      let p := if str_empty device then p else p <| m_vpnLocalAddress := device |> in
      ([], p)
  | Client.Write o => ([sent o], p)
  | _ => ([], p)
  end.

Fixpoint relay (l : list Client.output) (p : VpnProtocol) : list emission * VpnProtocol :=
  match l with
  | [] => ([], p)
  | o :: r => let '(e, p) := tag (relay_one o p) in let '(e', p) := relay r p in (e ++ e', p)
  end.

(** An operation of the controller, with the signals it emits. *)
Definition on_impl (f : Client.client -> Client.client) (p : VpnProtocol)
    : list emission * VpnProtocol :=
  match p_impl p with
  | Mz c =>
      let c' := f c in
      relay (drop (length (Client.outputs c)) (Client.outputs c')) (p <| p_impl := Mz c' |>)
  | Other _ => ([], p)
  end.

(** A sequence of state changes. *)
Fixpoint states (l : list Vpn.ConnectionState) (p : VpnProtocol) : list emission * VpnProtocol :=
  match l with
  | [] => ([], p)
  | st :: r =>
      let '(e, p) := tag (Protocol.setConnectionState st p) in
      let '(e', p) := states r p in (e ++ e', p)
  end.

(** [startMzImpl]: the host names are resolved. *)
Definition resolved_config (rawConfig : obj) : obj :=
  let protocolName := to_string (ofind "protocol" rawConfig) in
  let vpnConfigData := to_object (ofind (protocolName +:+ "_config_data") rawConfig) in
  let vpnConfigData :=
    oset configKey.hostName (JStr (getIPAddress (to_string (ofind configKey.hostName vpnConfigData)))) vpnConfigData in
  let rawConfig := oset (protocolName +:+ "_config_data") (JObj vpnConfigData) rawConfig in
  oset configKey.hostName (JStr (getIPAddress (to_string (ofind configKey.hostName rawConfig)))) rawConfig.

Definition start (p : VpnProtocol) : list emission * Z * VpnProtocol :=
  match p_impl p with
  | Mz _ =>
      let p := p <| m_rawConfig := resolved_config (m_rawConfig p) |> in
      let '(e, p) := on_impl (Client.activate (m_rawConfig p)) p in (e, NoError, p)
  | Other n =>
      let '(l, err) := other_start n (m_rawConfig p) in
      let '(e, p) := states l p in (e, err, p)
  end.

Definition stop (p : VpnProtocol) : list emission * VpnProtocol :=
  match p_impl p with
  | Mz _ => on_impl Client.deactivate p
  | Other n => states (other_stop n) p
  end.

(** The destructor of the protocol of WireGuard stops it once more. *)
Definition destroy (p : VpnProtocol) : list emission :=
  match p_impl p with Mz _ => (stop p).1 | Other _ => [] end.

Definition new_wireguard (configuration : obj) : list emission * VpnProtocol :=
  on_impl (Client.initialize socket_windows var_socket)
    (Protocol.new configuration (Mz Client.new_client)).

(** [VpnProtocol::factory]; [number] names the object made. *)
Definition factory (container : DockerContainer) (configuration : obj) (number : nat)
    : option VpnProtocol :=
  match container with
  | WireGuard | Awg2 | Awg => Some (new_wireguard configuration).2
  | OpenVpn | Xray | SSXray => Some (Protocol.new configuration (Other number))
  | Ipsec => if socket_windows then Some (Protocol.new configuration (Other number)) else None
  | _ => None
  end.
End Wireguard.

(** ** The connection *)

(** A name being looked up by [addSitesRoutes]; the counter and the flag are shared by the names
    of one call. *)
Record lookup := mkLookup { lk_site : string; lk_gw : string; lk_mode : RouteMode; lk_ips : list string;
                            lk_group : nat }.

Record VpnConnection := mkConnection {
  m_connectionState : Vpn.ConnectionState;
  m_vpnProtocol : option VpnProtocol;
  m_vpnConfiguration : obj;
  m_remoteAddress : string;
  m_appSettings : Settings.settings;
  (** The two repositories are not null. *)
  m_repositories : bool;
  (** The container of the default server, as the repository has it. *)
  m_container : DockerContainer;
  m_lookups : list lookup;
  (** Per call of [addSitesRoutes]: the lookups that remain, and whether to flush. *)
  m_groups : list (Z * bool);
  (** Single-shot timers of the current protocol. *)
  m_timers : list RouteMode;
  m_made : nat;
  vouts : list vout
}.

#[export] Instance eta_connection : Eta VpnConnection := fun s =>
  mkConnection (m_connectionState s) (m_vpnProtocol s) (m_vpnConfiguration s) (m_remoteAddress s)
    (m_appSettings s) (m_repositories s) (m_container s) (m_lookups s) (m_groups s) (m_timers s) (m_made s) (vouts s).

Definition new_connection (settings : Settings.settings) (c : DockerContainer) : VpnConnection :=
  mkConnection Vpn.Disconnected None [] "" settings false c [] [] [] 0 [].

Definition vemit (o : vout) (s : VpnConnection) : VpnConnection := s <| vouts := vouts s ++ [o] |>.

(** What the events that a nested event loop runs do to the connection.  The state has all that
    was emitted, so that the events may be others at every wait.  Events that destroy the protocol
    whose signal is being delivered leave the program with a dangling pointer; here it goes on
    with what the connection then holds. *)
Class EventLoop := { meanwhile : VpnConnection -> VpnConnection }.

Section Connection.
Context `{CompactText} `{VpnWorld} `{EL : EventLoop}.

(** [reply.waitForFinished()]. *)
Definition waitForFinished : VpnConnection -> VpnConnection := meanwhile.

(** [IpcClient::withInterface]: [waitForSource] returns at once for a replica that is valid.  In the
    second it waits for one that is not, nothing is taken to be delivered. *)
Definition withInterface (f : VpnConnection -> VpnConnection) (s : VpnConnection) : VpnConnection :=
  if service_ready (vouts s) then f s else s.

Definition call (c : ipc) : VpnConnection -> VpnConnection := vemit (Call c).

(** *** Routes of sites *)

(** The addresses to route and the names to look up. *)
Definition site_routes (sites : list (string * variant)) : list string * list string :=
  (removeDuplicates (flat_map (fun '(site, v) =>
     if checkIpSubnetFormat site then [site]
     else filter (fun ip => checkIpSubnetFormat ip = true) (Settings.siteIpList v)) sites),
   map fst (filter (fun kv => checkIpSubnetFormat kv.1 = false) sites)).

Definition addSitesRoutes (gw : string) (mode : RouteMode) (s : VpnConnection) : VpnConnection :=
  if negb (m_repositories s) then s else
  let '(ips, sites) := site_routes (Settings.vpnSites mode (m_appSettings s)) in
  let s := withInterface (call (RouteAddList gw ips)) s in
  let group := length (m_groups s) in
  let s := s <| m_groups := m_groups s ++ [(Z.of_nat (length sites), false)] |> in
  fold_left (fun s site =>
    (vemit (LookupHost site) s) <| m_lookups := m_lookups s ++ [mkLookup site gw mode ips group] |>) sites s.

Definition group_of (g : nat) (s : VpnConnection) : Z * bool := default (0%Z, false) (m_groups s !! g).

(** The answer for one name: its IPv4 addresses. *)
Definition looked_up (l : lookup) (resolvedIps : list string) (s : VpnConnection) : VpnConnection :=
  let newIps := filter (fun ip => ip ∉ lk_ips l) (removeDuplicates resolvedIps) in
  let s := fold_left (fun s ip => withInterface (call (RouteAddList (lk_gw l) [ip])) s) newIps s in
  let '(remaining, flush) := group_of (lk_group l) s in
  let '(s, flush) :=
    match newIps with
    | [] => (s, flush)
    | _ => (s <| m_appSettings := (Settings.addVpnSite (lk_mode l) (lk_site l) newIps (m_appSettings s)).2 |>, true)
    end in
  let remaining := (remaining - 1)%Z in
  let s := s <| m_groups := <[lk_group l := (remaining, flush)]> (m_groups s) |> in
  if (0 <? remaining)%Z then s
  else if negb flush then s
  else withInterface (call FlushDns) s.

(** *** States *)

(** The gateways are those of the protocol that is current after the wait. *)
Definition on_connected (container : DockerContainer) (s : VpnConnection) : VpnConnection :=
  let s := waitForFinished (call FlushDns (call ResetIpStack s)) in
  if isAwgContainer container || bool_decide (container = WireGuard) then s
  else
    match m_vpnProtocol s with
    | None => vemit NullProtocol s
    | Some p =>
        let dns1 := to_string (ofind "dns1" (m_vpnConfiguration s)) in
        let dns2 := to_string (ofind "dns2" (m_vpnConfiguration s)) in
        let s := call (RouteAddList (m_vpnGateway p) [dns1; dns2]) s in
        if negb (Settings.isSitesSplitTunnelingEnabled (m_appSettings s)) then s
        else
          let s := call (RouteDeleteList (m_vpnGateway p) ["0.0.0.0"]) s in
          let routeMode := Settings.routeMode (m_appSettings s) in
          if (routeMode =? VpnOnlyForwardSites)%Z then
            (vemit (SingleShot routeMode) s) <| m_timers := m_timers s ++ [routeMode] |>
          else if (routeMode =? VpnAllExceptSites)%Z then
            let s := call (RouteAddList (m_vpnGateway p) ["0.0.0.0/1"]) s in
            let s := call (RouteAddList (m_vpnGateway p) ["128.0.0.0/1"]) s in
            let s := call (RouteAddList (m_routeGateway p) [m_remoteAddress s]) s in
            addSitesRoutes (m_routeGateway p) routeMode s
          else s
    end.

(** The container of the default server is read before the service is asked. *)
Definition onConnectionStateChanged (state : Vpn.ConnectionState) (s : VpnConnection) : VpnConnection :=
  if negb (m_repositories s) then s else
  let container := m_container s in
  withInterface (fun s =>
    match state with
    | Vpn.Connected => on_connected container s
    | Vpn.Disconnected | Vpn.Error =>
        waitForFinished (call ClearSavedRoutes (waitForFinished (call FlushDns s)))
    | _ => s
    end) s.

Definition setConnectionState (state : Vpn.ConnectionState) (s : VpnConnection) : VpnConnection :=
  let s := onConnectionStateChanged state s in
  if bool_decide (state = Vpn.Disconnected) && bool_decide (m_connectionState s = Vpn.Reconnecting)
  then s
  else vemit (connectionStateChanged state) (s <| m_connectionState := state |>).

(** A signal of a protocol; [errors] is whether [protocolError] is still connected.  A protocol
    whose signals were disconnected only writes to the daemon. *)
Definition deliver_one (errors : bool) (s : VpnConnection) (e : emission) : VpnConnection :=
  let s := s <| m_vpnProtocol := (fun _ => e.2) <$> m_vpnProtocol s |> in
  match e.1 with
  | sent o => vemit (ToDaemon o) s
  | stateChanged st => if p_wired e.2 then setConnectionState st s else s
  | protocolError err => if p_wired e.2 && errors then vemit (vpnProtocolError err) s else s
  | bytesDelta rx tx => if p_wired e.2 then vemit (bytesChanged rx tx) s else s
  end.

Definition deliver (errors : bool) (l : list emission) (s : VpnConnection) : VpnConnection :=
  fold_left (deliver_one errors) l s.

(** Run an operation of the current protocol, which may be gone when it returns. *)
Definition on_protocol {A} (errors : bool) (f : VpnProtocol -> list emission * A * VpnProtocol)
    (p : VpnProtocol) (s : VpnConnection) : A * VpnConnection :=
  let '(e, a, p') := f p in
  let s := deliver errors e (s <| m_vpnProtocol := Some p |>) in
  (a, s <| m_vpnProtocol := (fun _ => p') <$> m_vpnProtocol s |>).

Definition stop_ (p : VpnProtocol) : list emission * unit * VpnProtocol :=
  let '(e, p) := stop p in (e, tt, p).

(** The last reference to the protocol goes: the pointer is cleared, then the object destroyed
    with its timers. *)
Definition drop_protocol (errors : bool) (s : VpnConnection) : VpnConnection :=
  match m_vpnProtocol s with
  | None => s
  | Some p => deliver errors (destroy p) (s <| m_vpnProtocol := None |> <| m_timers := [] |>)
  end.

(** *** Slots *)

(** [createProtocolConnections]; what the service reports is an event below. *)
Definition createProtocolConnections (p : VpnProtocol) : VpnProtocol := p <| p_wired := true |>.

(** [start] with what follows it. *)
Definition start_protocol (p : VpnProtocol) (s : VpnConnection) : VpnConnection :=
  let '(err, s) := on_protocol true start p s in
  if (err =? NoError)%Z then s
  else vemit (vpnProtocolError err) (setConnectionState Vpn.Error s).

Definition connectToVpn (container : DockerContainer) (vpnConfiguration : obj) (s : VpnConnection)
    : VpnConnection :=
  if negb (m_repositories s) then setConnectionState Vpn.Error s else
  let s := s <| m_remoteAddress := getIPAddress (to_string (ofind configKey.hostName vpnConfiguration)) |> in
  let s := setConnectionState Vpn.Connecting s in
  let s := s <| m_vpnConfiguration := vpnConfiguration |> in
  let s := match m_vpnProtocol s with
           | Some p => let '(_, s) := on_protocol false stop_ p s in drop_protocol false s
           | None => s
           end in
  let config := SplitTunneling.Connection.connectToVpn_config (m_appSettings s) (m_vpnConfiguration s) in
  let s := s <| m_vpnConfiguration := config |> in
  match factory container config (m_made s) with
  | None => setConnectionState Vpn.Error s
  | Some p => start_protocol (createProtocolConnections p) (s <| m_made := S (m_made s) |>)
  end.

Definition reconnectToVpn (s : VpnConnection) : VpnConnection :=
  match m_vpnProtocol s with
  | None => s
  | Some p =>
      if negb (bool_decide (m_connectionState s = Vpn.Connected)) then s
      else
        let s := setConnectionState Vpn.Reconnecting s in
        let '(_, s) := on_protocol true stop_ p s in
        match m_vpnProtocol s with
        | Some p => start_protocol p s
        | None => s
        end
  end.

Definition disconnectFromVpn (s : VpnConnection) : VpnConnection :=
  match m_vpnProtocol s with
  | None => setConnectionState Vpn.Disconnected s
  | Some p =>
      let s := setConnectionState Vpn.Disconnecting s in
      let '(_, s) := on_protocol true stop_ p s in
      drop_protocol true s
  end.

Definition onKillSwitchModeChanged (enabled : bool) : VpnConnection -> VpnConnection :=
  withInterface (fun s => waitForFinished (call (RefreshKillSwitch enabled) s)).

(** [m_vpnProtocol->disconnect()]. *)
Definition disconnectSlots (s : VpnConnection) : VpnConnection :=
  match m_vpnProtocol s with
  | Some p => s <| m_vpnProtocol := Some (p <| p_wired := false |>) |>
  | None => s
  end.

Definition setRepositories (s : VpnConnection) : VpnConnection := s <| m_repositories := true |>.

Definition lastError (s : VpnConnection) : Z :=
  match m_vpnProtocol s with Some p => m_lastError p | None => InternalError end.

(** *** Events *)

Inductive connection_event :=
  | Connect (container : DockerContainer) (vpnConfiguration : obj)
  | Reconnect                          (* networkChanged or wakeup of the service *)
  | Disconnect
  | KillSwitchMode (enabled : bool)
  | DisconnectSlots
  | SetRepositories
  | Socket (e : Client.client_event)   (* the controller of the current protocol *)
  | OtherState (state : Vpn.ConnectionState)
  | OtherError (error : Z)
  | Bytes (receivedBytes sentBytes : Z)
  | LookedUp (index : nat) (resolvedIps : list string)
  | TimerFired
  | DefaultServer (container : DockerContainer)
  | ChangeSettings (settings : Settings.settings).

(** What happens to the current protocol by itself. *)
Definition protocol_event (f : VpnProtocol -> list emission * VpnProtocol) (s : VpnConnection)
    : VpnConnection :=
  match m_vpnProtocol s with
  | Some p => (on_protocol true (fun p => let '(e, p) := f p in (e, tt, p)) p s).2
  | None => s
  end.

(** The socket, the timer and the daemon, not the operations of the protocol. *)
Definition socket_event (e : Client.client_event) : bool :=
  match e with
  | Client.SocketConnected | Client.SocketError | Client.Timer | Client.Input _ => true
  | _ => false
  end.

Definition is_other (p : VpnProtocol) : bool := match p_impl p with Other _ => true | Mz _ => false end.

Definition connection_step (e : connection_event) (s : VpnConnection) : VpnConnection :=
  match e with
  | Connect container vpnConfiguration => connectToVpn container vpnConfiguration s
  | Reconnect => reconnectToVpn s
  | Disconnect => disconnectFromVpn s
  | KillSwitchMode enabled => onKillSwitchModeChanged enabled s
  | DisconnectSlots => disconnectSlots s
  | SetRepositories => setRepositories s
  | Socket e =>
      if socket_event e
      then protocol_event (on_impl (Client.client_step socket_windows var_socket socket_date e)) s
      else s
  | OtherState st =>
      protocol_event (fun p => if is_other p then tag (Protocol.setConnectionState st p) else ([], p)) s
  | OtherError err =>
      protocol_event (fun p => if is_other p then tag ([protocolError err], p) else ([], p)) s
  | Bytes rx tx => protocol_event (fun p => if is_other p then tag (Protocol.setBytesChanged rx tx p) else ([], p)) s
  | LookedUp i ips =>
      match m_lookups s !! i with
      | Some l => looked_up l ips (s <| m_lookups := delete i (m_lookups s) |>)
      | None => s
      end
  | TimerFired =>
      match m_timers s, m_vpnProtocol s with
      | mode :: rest, Some p => addSitesRoutes (m_vpnGateway p) mode (s <| m_timers := rest |>)
      | _, _ => s
      end
  | DefaultServer c => s <| m_container := c |>
  | ChangeSettings settings => s <| m_appSettings := settings |>
  end.

Definition connection_run (es : list connection_event) (s : VpnConnection) : VpnConnection :=
  fold_left (fun s e => connection_step e s) es s.
End Connection.
