(* ===== verification/VpnConnectionFacts.v ===== *)
(** * Facts of the connection

    What an operation of [VpnConnection] leaves alone, the signals and commands it adds, and what
    a protocol emits when it is stopped.  Used by [VpnConnectionTheorems]. *)

From S2P Require Import Prelude Json IpAddress Lines InterfaceConfig Daemon ProtocolConfigs.
From S2P Require Import LocalSocket SplitTunneling VpnConnection Containers.

(** ** What is seen from outside *)

Definition command_of (o : vout) : option obj :=
  match o with ToDaemon o => Some o | _ => None end.

Definition signals (s : VpnConnection) : list Vpn.ConnectionState := omap signal_of (vouts s).
Definition commands (s : VpnConnection) : list obj := omap command_of (vouts s).

(** ** Side effects: calls of the service, lookups and timers *)

Definition quiet (o : vout) : bool :=
  match o with Call _ | LookupHost _ | SingleShot _ | NullProtocol => true | _ => false end.

Record side (s t : VpnConnection) : Prop := {
  side_state : m_connectionState t = m_connectionState s;
  side_protocol : m_vpnProtocol t = m_vpnProtocol s;
  side_config : m_vpnConfiguration t = m_vpnConfiguration s;
  side_address : m_remoteAddress t = m_remoteAddress s;
  side_repositories : m_repositories t = m_repositories s;
  side_container : m_container t = m_container s;
  side_outs : exists l, vouts t = vouts s ++ l /\ forallb quiet l = true
}.

#[export] Instance side_preorder : PreOrder side.
Proof.
  split.
  - intros s. constructor; try reflexivity. exists []. by rewrite app_nil_r.
  - intros s t u [] []. constructor; try congruence.
    destruct side_outs0 as (l & El & Hl), side_outs1 as (l' & El' & Hl').
    exists (l ++ l'). rewrite El', El, app_assoc, forallb_app, Hl, Hl'. done.
Qed.

Lemma quiet_seen l : forallb quiet l = true -> omap signal_of l = [] /\ omap command_of l = [].
Proof.
  induction l as [|o l IH]; [done|]. cbn [forallb]. intros [Ho Hl]%andb_true_iff.
  destruct (IH Hl) as [E1 E2]. destruct o; try discriminate; cbn; auto.
Qed.

Lemma side_signals s t : side s t -> signals t = signals s.
Proof.
  intros [_ _ _ _ _ _ (l & El & Hl)]. unfold signals.
  rewrite El, omap_app, (proj1 (quiet_seen _ Hl)). apply app_nil_r.
Qed.

Lemma side_commands s t : side s t -> commands t = commands s.
Proof.
  intros [_ _ _ _ _ _ (l & El & Hl)]. unfold commands.
  rewrite El, omap_app, (proj2 (quiet_seen _ Hl)). apply app_nil_r.
Qed.

Lemma side_emit o s : quiet o = true -> side s (vemit o s).
Proof. intros Ho. constructor; try reflexivity. exists [o]. cbn. by rewrite Ho. Qed.

Lemma side_call c s : side s (call c s).
Proof. by apply side_emit. Qed.

Lemma side_fold {A} (f : VpnConnection -> A -> VpnConnection) l :
  (forall s a, side s (f s a)) -> forall s, side s (fold_left f l s).
Proof.
  intros Hf. induction l as [|a l IH]; intros s; [reflexivity|].
  cbn [fold_left]. by transitivity (f s a).
Qed.

Create HintDb side.
#[export] Hint Resolve side_call side_fold : side.

(** While the connection waits for the service nothing happens but side effects: answers of
    lookups and timers may come, but no state, no request and no other protocol. *)
Class Calm `{EventLoop} : Prop := calm : forall s, side s (meanwhile s).

Section Facts.
Context `{CompactText} `{VpnWorld} `{EL : EventLoop}.

Lemma side_with f s : (forall s, side s (f s)) -> side s (withInterface f s).
Proof. intros Hf. unfold withInterface. destruct service_ready; [apply Hf|reflexivity]. Qed.

Lemma side_addSites gw mode s : side s (addSitesRoutes gw mode s).
Proof.
  unfold addSitesRoutes. destruct (negb (m_repositories s)); [reflexivity|].
  destruct (site_routes _) as [ips sites].
  etransitivity; [apply (side_with (call (RouteAddList gw ips))); auto with side|].
  set (t := withInterface _ s).
  transitivity (t <| m_groups := m_groups t ++ [(Z.of_nat (length sites), false)] |>).
  { constructor; try reflexivity. exists []. by rewrite app_nil_r. }
  apply side_fold. intros u site. constructor; try reflexivity. by exists [LookupHost site].
Qed.

Lemma side_looked_up l ips s : side s (looked_up l ips s).
Proof.
  unfold looked_up. set (new := filter _ _).
  set (t := fold_left _ new s).
  assert (Ht : side s t).
  { apply side_fold. intros u ip. apply side_with. auto with side. }
  transitivity t; [done|]. destruct (group_of _ t) as [n flush].
  assert (Hs : forall u fl, side t u -> side t
    (let s0 := u <| m_groups := <[lk_group l := ((n - 1)%Z, fl)]> (m_groups u) |> in
     if (0 <? n - 1)%Z then s0 else if negb fl then s0 else withInterface (call FlushDns) s0)).
  { intros u fl Hu. cbv zeta. set (v := u <| m_groups := _ |>).
    assert (Hv : side t v).
    { destruct Hu. constructor; done. }
    destruct (0 <? n - 1)%Z; [done|]. destruct (negb fl); [done|].
    transitivity v; [done|]. apply side_with. auto with side. }
  destruct new; apply Hs; [reflexivity|]. constructor; try reflexivity.
  exists []. by rewrite app_nil_r.
Qed.

Lemma side_on_connected `{!Calm} c s : side s (on_connected c s).
Proof.
  unfold on_connected, waitForFinished. set (t := meanwhile (call FlushDns (call ResetIpStack s))).
  assert (Ht : side s t) by (do 2 (etransitivity; [apply side_call|]); apply calm).
  transitivity t; [done|]. clearbody t. clear Ht.
  destruct (_ || _); [reflexivity|]. destruct (m_vpnProtocol t) as [p|]; [|by apply side_emit].
  cbv zeta. destruct (negb _); [apply side_call|].
  etransitivity; [apply side_call|]. etransitivity; [apply side_call|].
  destruct (_ =? VpnOnlyForwardSites)%Z.
  { constructor; try reflexivity. by eexists [_]. }
  destruct (_ =? VpnAllExceptSites)%Z; [|reflexivity].
  do 3 (etransitivity; [apply side_call|]). apply side_addSites.
Qed.

(** A change to the state asks the service only: always, when nothing happens meanwhile, and for
    the states that ask it nothing. *)
Class Undisturbed (st : Vpn.ConnectionState) : Prop :=
  side_onChange : forall s, side s (onConnectionStateChanged st s).

#[export] Instance undisturbed_calm `{!Calm} st : Undisturbed st.
Proof.
  intros s. unfold onConnectionStateChanged. destruct (negb _); [reflexivity|]. cbv zeta.
  apply side_with. intros t. destruct st; try reflexivity; try apply side_on_connected;
    unfold waitForFinished; etransitivity; [apply side_call|etransitivity; [apply calm|]| |];
    try (etransitivity; [apply side_call|apply calm]); try apply side_call.
  all: etransitivity; [apply calm|]; etransitivity; [apply side_call|apply calm].
Qed.

Lemma undisturbed_plain st :
  match st with Vpn.Connected | Vpn.Disconnected | Vpn.Error => False | _ => True end -> Undisturbed st.
Proof.
  intros Hst s. unfold onConnectionStateChanged. destruct (negb _); [reflexivity|]. cbv zeta.
  apply side_with. intros t. by destruct st.
Qed.

Lemma undisturbed_connecting : Undisturbed Vpn.Connecting.
Proof. by apply undisturbed_plain. Qed.

(** ** A change of the state *)

(** A [Disconnected] that arrives during a reconnection is not shown. *)
Definition hidden (st : Vpn.ConnectionState) (s : VpnConnection) : bool :=
  bool_decide (st = Vpn.Disconnected) && bool_decide (m_connectionState s = Vpn.Reconnecting).

Section Change.
Variable st : Vpn.ConnectionState.
Context `{!Undisturbed st}.

Lemma change_split s : exists t, side s t /\
  setConnectionState st s =
  if hidden st s then t else vemit (connectionStateChanged st) (t <| m_connectionState := st |>).
Proof.
  exists (onConnectionStateChanged st s). split; [apply side_onChange|].
  unfold setConnectionState, hidden. by rewrite (side_state _ _ (side_onChange s)).
Qed.

Lemma change_protocol s : m_vpnProtocol (setConnectionState st s) = m_vpnProtocol s.
Proof.
  destruct (change_split s) as (t & Ht & ->). destruct (hidden st s); apply (side_protocol _ _ Ht).
Qed.

Lemma change_repositories s : m_repositories (setConnectionState st s) = m_repositories s.
Proof.
  destruct (change_split s) as (t & Ht & ->). destruct (hidden st s); apply (side_repositories _ _ Ht).
Qed.

Lemma change_shown s :
  m_connectionState (setConnectionState st s) = if hidden st s then m_connectionState s else st.
Proof.
  destruct (change_split s) as (t & Ht & ->). destruct (hidden st s); [apply (side_state _ _ Ht)|done].
Qed.

Lemma change_signals s :
  signals (setConnectionState st s) = signals s ++ if hidden st s then [] else [st].
Proof.
  destruct (change_split s) as (t & Ht & ->). destruct (hidden st s).
  - rewrite app_nil_r. by apply side_signals.
  - rewrite <- (side_signals _ _ Ht). unfold signals, vemit. cbn. by rewrite omap_app.
Qed.

(** Any other state is shown. *)
Lemma change_visible s : st <> Vpn.Disconnected ->
  m_connectionState (setConnectionState st s) = st /\ signals (setConnectionState st s) = signals s ++ [st].
Proof.
  intros Hst. rewrite change_shown, change_signals. unfold hidden.
  by rewrite bool_decide_false by done.
Qed.

Lemma change_commands s : commands (setConnectionState st s) = commands s.
Proof.
  destruct (change_split s) as (t & Ht & ->). destruct (hidden st s); [by apply side_commands|].
  rewrite <- (side_commands _ _ Ht). unfold commands, vemit. cbn. rewrite omap_app. apply app_nil_r.
Qed.
End Change.

(** ** What a protocol emits *)

(** The emissions of an operation that takes the protocol from [p] to [q]: its state changes only
    with a signal that says so. *)
Fixpoint follows (p : VpnProtocol) (l : list emission) (q : VpnProtocol) : Prop :=
  match l with
  | [] => p_state q = p_state p /\ p_wired q = p_wired p
  | (e, p') :: r =>
      match e with stateChanged st => p_state p' = st | _ => p_state p' = p_state p end
      /\ p_wired p' = p_wired p /\ follows p' r q
  end.

Lemma follows_app p l q l' u : follows p l q -> follows q l' u -> follows p (l ++ l') u.
Proof.
  revert p. induction l as [|[e p'] l IH]; intros p; cbn [app follows].
  - intros [Hs Hw]. destruct l' as [|[e p'] l']; cbn [follows]; [intuition congruence|].
    rewrite Hs, Hw. auto.
  - intros (He & Hw & Hr) Hl'. eauto.
Qed.

Lemma follows_wired p l q : follows p l q -> p_wired q = p_wired p.
Proof.
  revert p. induction l as [|[e p'] l IH]; intros p; cbn [follows]; [tauto|].
  intros (_ & Hw & Hr). rewrite (IH _ Hr). done.
Qed.

Lemma follows_set st p : let r := tag (Protocol.setConnectionState st p) in follows p r.1 r.2.
Proof.
  unfold Protocol.setConnectionState. case_bool_decide; [done|].
  destruct (_ && _); [done|]. cbv zeta. case_bool_decide; cbn; auto.
Qed.

Lemma follows_relay_one o p : let r := tag (relay_one o p) in follows p r.1 r.2.
Proof.
  destruct o; try apply follows_set; cbn; auto.
  destruct (str_empty _), (str_empty _); cbn; auto.
Qed.

Lemma follows_relay l p : let r := relay l p in follows p r.1 r.2.
Proof.
  revert p. induction l as [|o l IH]; intros p; [done|]. cbn [relay].
  pose proof (follows_relay_one o p) as Ho. destruct (tag (relay_one o p)) as [e q].
  pose proof (IH q) as Hq. destruct (relay l q) as [e' u]. cbn in *. eauto using follows_app.
Qed.

Lemma follows_states l p : let r := states l p in follows p r.1 r.2.
Proof.
  revert p. induction l as [|st l IH]; intros p; [done|]. cbn [states].
  pose proof (follows_set st p) as Ho. destruct (tag _) as [e q].
  pose proof (IH q) as Hq. destruct (states l q) as [e' u]. cbn in *. eauto using follows_app.
Qed.

Lemma follows_from p p' l q :
  p_state p' = p_state p -> p_wired p' = p_wired p -> follows p' l q -> follows p l q.
Proof. intros Hs Hw Hl. apply (follows_app p [] p' l q); done. Qed.

Lemma follows_impl f p : let r := on_impl f p in follows p r.1 r.2.
Proof.
  unfold on_impl. destruct (p_impl p) as [c|n]; [|done]. cbv zeta.
  apply (follows_from p (p <| p_impl := Mz (f c) |>)); [done|done|apply follows_relay].
Qed.

Lemma follows_start p : let r := start p in follows p r.1.1 r.2.
Proof.
  unfold start. destruct (p_impl p) as [c|n].
  - cbv zeta. set (q := p <| m_rawConfig := _ |>).
    pose proof (follows_impl (Client.activate (m_rawConfig q)) q) as Hq.
    destruct (on_impl _ q) as [e u]. cbn in *. by apply (follows_from p q).
  - destruct (other_start _ _) as [l err]. pose proof (follows_states l p) as Hl.
    destruct (states l p). done.
Qed.

Lemma follows_stop p : let r := stop p in follows p r.1 r.2.
Proof.
  unfold stop. destruct (p_impl p); [apply follows_impl|apply follows_states].
Qed.

(** ** Emissions reach the connection *)

Lemma deliver_app errors l l' s : deliver errors (l ++ l') s = deliver errors l' (deliver errors l s).
Proof. apply fold_left_app. Qed.

Lemma deliver_cons errors e l s : deliver errors (e :: l) s = deliver errors l (deliver_one errors s e).
Proof. done. Qed.

Context {HC : Calm}.

(** The same for every state, when nothing happens meanwhile. *)
Lemma set_state_protocol st s : m_vpnProtocol (setConnectionState st s) = m_vpnProtocol s.
Proof. apply change_protocol, _. Qed.
Lemma set_state_repositories st s : m_repositories (setConnectionState st s) = m_repositories s.
Proof. apply change_repositories, _. Qed.
Lemma set_state_shown st s :
  m_connectionState (setConnectionState st s) = if hidden st s then m_connectionState s else st.
Proof. apply change_shown, _. Qed.
Lemma set_state_signals st s :
  signals (setConnectionState st s) = signals s ++ if hidden st s then [] else [st].
Proof. apply change_signals, _. Qed.
Lemma set_state_visible st s : st <> Vpn.Disconnected ->
  m_connectionState (setConnectionState st s) = st /\ signals (setConnectionState st s) = signals s ++ [st].
Proof. apply change_visible, _. Qed.
Lemma set_state_commands st s : commands (setConnectionState st s) = commands s.
Proof. apply change_commands, _. Qed.

(** Neither direction of "shown as connected, the protocol is connected" depends on which. *)
Lemma set_state_connected st s :
  m_connectionState (setConnectionState st s) = Vpn.Connected <-> st = Vpn.Connected.
Proof.
  rewrite set_state_shown. unfold hidden. repeat case_bool_decide; cbn; split; congruence.
Qed.

Lemma deliver_one_shown errors s e p' :
  m_connectionState (deliver_one errors s (e, p')) =
  match e with
  | stateChanged st => if p_wired p' then if hidden st s then m_connectionState s else st
                       else m_connectionState s
  | _ => m_connectionState s
  end.
Proof.
  unfold deliver_one. cbn [fst snd].
  destruct e; try (destruct (p_wired p')); try (destruct errors); try done.
  all: rewrite set_state_shown; reflexivity.
Qed.

(** Shown as connected exactly when the protocol is. *)
Lemma deliver_connected errors l : forall p q s, p_wired p = true -> follows p l q ->
  (m_connectionState s = Vpn.Connected -> p_state p = Vpn.Connected) ->
  m_connectionState (deliver errors l s) = Vpn.Connected -> p_state q = Vpn.Connected.
Proof.
  induction l as [|[e p'] l IH]; intros p q s Hw; cbn [follows].
  - intros [-> _]. auto.
  - intros (He & Hw' & Hr) Hs. rewrite deliver_cons. apply (IH p'); [congruence|done|].
    rewrite deliver_one_shown, Hw', Hw. unfold hidden.
    destruct e; try congruence. all: try (rewrite He; exact Hs).
    repeat case_bool_decide; cbn; congruence.
Qed.

Lemma deliver_shows errors l : forall p q s, p_wired p = true -> follows p l q ->
  (p_state p = Vpn.Connected -> m_connectionState s = Vpn.Connected) ->
  p_state q = Vpn.Connected -> m_connectionState (deliver errors l s) = Vpn.Connected.
Proof.
  induction l as [|[e p'] l IH]; intros p q s Hw; cbn [follows].
  - intros [-> _]. auto.
  - intros (He & Hw' & Hr) Hs. rewrite deliver_cons. apply (IH p'); [congruence|done|].
    rewrite deliver_one_shown, Hw', Hw. unfold hidden.
    destruct e; try congruence. all: try (rewrite He; exact Hs).
    repeat case_bool_decide; cbn; congruence.
Qed.

(** The last signal is the state shown. *)
Definition honest (s : VpnConnection) : Prop :=
  default Vpn.Disconnected (last (signals s)) = m_connectionState s.

Lemma honest_side s t : side s t -> honest s -> honest t.
Proof. intros Ht. unfold honest. by rewrite (side_signals _ _ Ht), (side_state _ _ Ht). Qed.

Lemma honest_set st s : honest s -> honest (setConnectionState st s).
Proof.
  unfold honest. rewrite set_state_signals, set_state_shown. destruct (hidden st s).
  - by rewrite app_nil_r.
  - by rewrite last_snoc.
Qed.

Lemma honest_emit o s : signal_of o = None -> honest s -> honest (vemit o s).
Proof.
  intros Ho. unfold honest, signals, vemit. cbn. rewrite omap_app. cbn. rewrite Ho. by rewrite app_nil_r.
Qed.

Lemma honest_deliver errors l s : honest s -> honest (deliver errors l s).
Proof.
  revert s. induction l as [|[e p] l IH]; intros s Hs; [done|].
  rewrite deliver_cons. apply IH. unfold deliver_one. cbn [fst snd].
  set (t := s <| m_vpnProtocol := _ |>). assert (Ht : honest t) by exact Hs.
  destruct e; try (destruct (p_wired p)); try (destruct errors);
    solve [done | by apply honest_set | by apply honest_emit].
Qed.
End Facts.
