(* ===== verification/VpnConnectionInv.v ===== *)
(** * The invariant of the connection

    What the protocol of WireGuard emits, the daemon's last word as its controller passes it on,
    and the invariant that ties both to the state shown.  Used by [VpnConnectionTheorems]. *)

From S2P Require Import Prelude Json IpAddress Lines InterfaceConfig Daemon ProtocolConfigs.
From S2P Require Import LocalSocket LocalSocketFacts LocalSocketTheorems SplitTunneling.
From S2P Require Import VpnConnection Containers VpnConnectionFacts.

Section Stop.
Context `{CompactText} `{VpnWorld}.

(** ** The protocol of WireGuard *)

Definition deactivate_command : obj := oof [("type", JStr "deactivate")].

(** What is written by [deactivate]. *)
Definition farewell (c : Client.client) : list Client.output :=
  if bool_decide (Client.m_daemonState c = Client.eReady) then [Client.Write deactivate_command] else [].

Lemma relay_keeps l p : p_impl (relay l p).2 = p_impl p /\ m_rawConfig (relay l p).2 = m_rawConfig p.
Proof.
  revert p. induction l as [|o l IH]; intros p; [done|]. cbn [relay].
  destruct (tag (relay_one o p)) as [e q] eqn:E. specialize (IH q). destruct (relay l q).
  cbn [snd] in *. destruct IH as [-> ->]. unfold tag in E. injection E as <- <-.
  destruct o; cbn; unfold Protocol.setConnectionState; repeat case_bool_decide; cbn; try done.
  all: destruct (str_empty _), (str_empty _); done.
Qed.

Lemma relay_impl l p : p_impl (relay l p).2 = p_impl p.
Proof. apply relay_keeps. Qed.

Lemma on_impl_mz f p c : p_impl p = Mz c -> p_impl (on_impl f p).2 = Mz (f c).
Proof. intros E. unfold on_impl. rewrite E, relay_impl. done. Qed.

Lemma deactivate_outputs c :
  Client.outputs (Client.deactivate c) = Client.outputs c ++ farewell c ++ [Client.Disconnected].
Proof.
  unfold Client.deactivate, farewell, Client.write, Client.out. case_bool_decide; cbn; [|done].
  by rewrite <- app_assoc.
Qed.

Lemma deactivate_state c : Client.m_daemonState (Client.deactivate c) = Client.m_daemonState c.
Proof. unfold Client.deactivate, Client.write, Client.out. by destruct (negb _). Qed.

Lemma stop_mz p c : p_impl p = Mz c ->
  stop p = relay (farewell c ++ [Client.Disconnected]) (p <| p_impl := Mz (Client.deactivate c) |>).
Proof.
  intros E. unfold stop, on_impl. rewrite E. cbv zeta. by rewrite deactivate_outputs, drop_app_length.
Qed.

Lemma set_state p st : st <> Vpn.Disconnecting -> p_state (Protocol.setConnectionState st p).2 = st.
Proof.
  intros Hd. unfold Protocol.setConnectionState.
  repeat case_bool_decide; cbn; congruence.
Qed.

Lemma stop_state p c : p_impl p = Mz c -> p_state (stop p).2 = Vpn.Disconnected.
Proof.
  intros E. rewrite (stop_mz _ _ E). unfold farewell. case_bool_decide; cbn [app relay relay_one tag fst snd];
    rewrite ?app_nil_r; apply set_state; done.
Qed.

(** The emissions of [stop] and of the destructor. *)
Lemma stop_emissions p c : p_impl p = Mz c ->
  map fst (stop p).1 =
  (if bool_decide (Client.m_daemonState c = Client.eReady) then [sent deactivate_command] else [])
  ++ (if bool_decide (p_state p = Vpn.Disconnected) then [] else [stateChanged Vpn.Disconnected]).
Proof.
  intros E. rewrite (stop_mz _ _ E). unfold farewell, Protocol.setConnectionState.
  case_bool_decide; cbn [app relay relay_one tag fst snd]; unfold Protocol.setConnectionState; cbn;
    case_bool_decide; try done; cbn.
Qed.

Lemma is_other_mz p : is_other p = false -> exists c, p_impl p = Mz c.
Proof. unfold is_other. destruct (p_impl p); [eauto|done]. Qed.

End Stop.

(** ** The daemon's last word *)

Section Link.
Context `{CompactText} `{VpnWorld}.

(** The controller's outputs only grow. *)
Definition grows (c d : Client.client) : Prop := exists l, Client.outputs d = Client.outputs c ++ l.

Lemma grows_refl c : grows c c.
Proof. exists []. by rewrite app_nil_r. Qed.

Lemma grows_trans c d e : grows c d -> grows d e -> grows c e.
Proof. intros [l El] [l' El']. exists (l ++ l'). by rewrite El', El, app_assoc. Qed.

Ltac grow :=
  first [ exists []; cbn; rewrite app_nil_r; reflexivity
        | unfold grows; cbn; rewrite <- ?app_assoc; eexists; reflexivity ].

Lemma grows_handle date c o d : grows c d -> grows c (Client.handle date o d).
Proof.
  intros Hd. eapply grows_trans; [exact Hd|].
  unfold Client.handle, Client.first_status, Client.checkStatus, Client.disconnectInternal,
    Client.call_back, Client.write, Client.out.
  repeat (case_match; try apply grows_refl); grow.
Qed.

Lemma grows_out o c d : Client.outputs d = Client.outputs c -> grows c (Client.out o d).
Proof. intros E. exists [o]. cbn. by rewrite E. Qed.

Lemma grows_step e c : grows c (Client.client_step socket_windows var_socket socket_date e c).
Proof.
  destruct e; cbn [Client.client_step].
  5: { apply reading_keeps; [intros; by apply grows_handle|done|apply grows_refl]. }
  5: { by apply grows_out. }
  all: unfold Client.initialize, Client.initializeInternal, Client.daemonConnected,
    Client.checkStatus, Client.errorOccurred, Client.timeout, Client.disconnectInternal,
    Client.deactivate, Client.getBackendLogs, Client.cleanupBackendLogs, Client.call_back, Client.write, Client.out;
    repeat (case_match; try apply grows_refl); grow.
Qed.

(** Whether a tunnel is up, as the controller said last. *)
Definition word (o : Client.output) : option bool :=
  match o with Client.Connected _ => Some true | Client.Disconnected => Some false | _ => None end.

Definition up (l : list Client.output) : Prop := last (omap word l) = Some true.

Definition linked (p : VpnProtocol) : Prop :=
  match p_impl p with Mz c => p_state p = Vpn.Connected <-> up (Client.outputs c) | Other _ => True end.

Lemma relay_link l : forall base p,
  (p_state p = Vpn.Connected <-> up base) -> (p_state (relay l p).2 = Vpn.Connected <-> up (base ++ l)).
Proof.
  induction l as [|o l IH]; intros base p Hp; [by rewrite app_nil_r|].
  cbn [relay]. destruct (tag (relay_one o p)) as [e q] eqn:E.
  specialize (IH (base ++ [o]) q). rewrite <- app_assoc in IH. destruct (relay l q) as [e' u].
  apply IH. change q with (e, q).2. rewrite <- E. unfold up. rewrite omap_app.
  destruct o; cbn [tag relay_one snd fst omap list_omap word]; rewrite ?app_nil_r; try exact Hp.
  - rewrite last_snoc, set_state by done. tauto.
  - rewrite last_snoc, set_state by done. split; congruence.
  - destruct (str_empty _), (str_empty _); exact Hp.
Qed.

Lemma linked_impl f p : (forall c, grows c (f c)) -> linked p -> linked (on_impl f p).2.
Proof.
  intros Hf. unfold linked, on_impl. destruct (p_impl p) as [c|n] eqn:E; [|cbn [snd]; by rewrite E].
  intros Hp. cbv zeta. rewrite relay_impl. cbn. destruct (Hf c) as [l El].
  rewrite El, drop_app_length. by apply relay_link.
Qed.

Lemma linked_set st p : is_other p = true -> linked (Protocol.setConnectionState st p).2.
Proof.
  unfold is_other, linked. intros Ho. destruct (p_impl p) eqn:E; [done|].
  unfold Protocol.setConnectionState. repeat case_bool_decide; cbn; by rewrite E.
Qed.

Lemma linked_start p : is_other p = false -> linked p -> linked (start p).2.
Proof.
  intros Ho Hp. destruct (is_other_mz p Ho) as [c Ec]. unfold start. rewrite Ec. cbv zeta.
  set (q := p <| m_rawConfig := _ |>).
  assert (Hq : linked (on_impl (Client.activate (m_rawConfig q)) q).2).
  { apply linked_impl; [|exact Hp]. intros d. apply (grows_step (Client.DoActivate _)). }
  by destruct (on_impl _ q).
Qed.

Lemma linked_stop p : is_other p = false -> linked p -> linked (stop p).2.
Proof.
  intros Ho Hp. destruct (is_other_mz p Ho) as [c Ec]. unfold stop. rewrite Ec.
  apply linked_impl; [|exact Hp]. intros d. apply (grows_step Client.DoDeactivate).
Qed.

Lemma linked_new cfg : linked (new_wireguard cfg).2.
Proof. unfold linked. cbn. split; [done|]. by intros ?. Qed.
End Link.

(** ** The state shown is that of the tunnel *)

Section Shown.
Context `{CompactText} `{VpnWorld} `{EL : EventLoop} {HC : Calm}.

(** WireGuard and AmneziaWG, or a container without a protocol. *)
Definition wg_container (c : DockerContainer) : bool :=
  match c with OpenVpn | Xray | SSXray | Ipsec => false | _ => true end.

(** The application as it runs: [disconnectSlots] is called when it ends. *)
Definition running (e : connection_event) : bool :=
  match e with Connect c _ => wg_container c | DisconnectSlots => false | _ => true end.

(** Nothing is shown as connected but by the protocol, and the reverse. *)
Definition agrees (s : VpnConnection) : Prop :=
  m_connectionState s = Vpn.Connected <->
  exists p, m_vpnProtocol s = Some p /\ p_state p = Vpn.Connected.

Definition live (s : VpnConnection) (p : VpnProtocol) : Prop :=
  p_wired p = true /\ is_other p = false /\ linked p /\ m_repositories s = true.

Record inv (s : VpnConnection) : Prop := {
  inv_agrees : agrees s;
  inv_honest : honest s;
  inv_live : forall p, m_vpnProtocol s = Some p -> live s p
}.

Lemma deliver_repositories errors l s : m_repositories (deliver errors l s) = m_repositories s.
Proof.
  revert s. induction l as [|[e p] l IH]; intros s; [done|]. rewrite deliver_cons.
  rewrite IH. unfold deliver_one. cbn [fst snd].
  destruct e; try (destruct (p_wired p)); try (destruct errors); try done.
  all: by rewrite set_state_repositories.
Qed.

Lemma deliver_none errors l s : m_vpnProtocol s = None -> m_vpnProtocol (deliver errors l s) = None.
Proof.
  revert s. induction l as [|[e p] l IH]; intros s Hs; [done|]. rewrite deliver_cons.
  apply IH. unfold deliver_one. cbn [fst snd].
  destruct e; try (destruct (p_wired p)); try (destruct errors);
    rewrite ?set_state_protocol; cbn; by rewrite Hs.
Qed.

Lemma deliver_some errors l s : is_Some (m_vpnProtocol s) -> is_Some (m_vpnProtocol (deliver errors l s)).
Proof.
  revert s. induction l as [|[e p] l IH]; intros s [q Hq]; [by exists q|]. rewrite deliver_cons.
  apply IH. unfold deliver_one. cbn [fst snd].
  destruct e; try (destruct (p_wired p)); try (destruct errors);
    rewrite ?set_state_protocol; cbn; rewrite Hq; by eexists.
Qed.

(** Under way the protocol stays, so it is the one the operation leaves. *)
Lemma on_protocol_result {A} errors (f : VpnProtocol -> list emission * A * VpnProtocol) p s :
  m_vpnProtocol (on_protocol errors f p s).2 = Some (f p).2.
Proof.
  unfold on_protocol. destruct (f p) as [[e a] q]. cbn [fst snd].
  destruct (deliver_some errors e (s <| m_vpnProtocol := Some p |>)) as [p1 Hp1]; [by eexists|].
  change (m_vpnProtocol (_ <| m_vpnProtocol := ?x |>)) with x. by rewrite Hp1.
Qed.

(** An operation of the protocol, started in a state that does not show too much. *)
Lemma on_protocol_forward {A} errors (f : VpnProtocol -> list emission * A * VpnProtocol) p s :
  p_wired p = true -> follows p (f p).1.1 (f p).2 ->
  (m_connectionState s = Vpn.Connected -> p_state p = Vpn.Connected) ->
  let t := (on_protocol errors f p s).2 in
  m_connectionState t = Vpn.Connected -> p_state (f p).2 = Vpn.Connected.
Proof.
  unfold on_protocol. destruct (f p) as [[e a] q]. cbn. intros Hw Hf Hs.
  by apply (deliver_connected errors e p q _ Hw Hf).
Qed.

Lemma on_protocol_backward {A} errors (f : VpnProtocol -> list emission * A * VpnProtocol) p s :
  p_wired p = true -> follows p (f p).1.1 (f p).2 ->
  (p_state p = Vpn.Connected -> m_connectionState s = Vpn.Connected) ->
  let t := (on_protocol errors f p s).2 in
  p_state (f p).2 = Vpn.Connected -> m_connectionState t = Vpn.Connected.
Proof.
  unfold on_protocol. destruct (f p) as [[e a] q]. cbn. intros Hw Hf Hs.
  by apply (deliver_shows errors e p q _ Hw Hf).
Qed.

Lemma on_protocol_rest {A} errors (f : VpnProtocol -> list emission * A * VpnProtocol) p s :
  let t := (on_protocol errors f p s).2 in
  m_vpnProtocol t = Some (f p).2 /\ m_repositories t = m_repositories s /\ (honest s -> honest t).
Proof.
  cbv zeta. split; [apply on_protocol_result|].
  unfold on_protocol. destruct (f p) as [[e a] q]. cbn [fst snd].
  set (t := deliver errors e _). split.
  - change (m_repositories t = m_repositories s). subst t. by rewrite deliver_repositories.
  - intros Hs. change (honest t). by apply honest_deliver.
Qed.

(** An operation on an agreeing connection leaves one. *)
Lemma on_protocol_inv {A} errors (f : VpnProtocol -> list emission * A * VpnProtocol) p s :
  follows p (f p).1.1 (f p).2 -> is_other (f p).2 = is_other p ->
  (is_other p = false -> linked p -> linked (f p).2) -> live s p -> honest s ->
  (m_connectionState s = Vpn.Connected <-> p_state p = Vpn.Connected) ->
  inv (on_protocol errors f p s).2.
Proof.
  intros Hf Ho Hk (Hw & Hp & Hl & Hr) Hs Ha.
  destruct (on_protocol_rest errors f p s) as (Ep & Er & Hh). constructor; [|by apply Hh|].
  - unfold agrees. rewrite Ep. split.
    + intros Hc. exists (f p).2. split; [done|].
      apply (on_protocol_forward errors f p s Hw Hf (proj1 Ha) Hc).
    + intros (q & [= <-] & Hq). apply (on_protocol_backward errors f p s Hw Hf (proj2 Ha) Hq).
  - rewrite Ep. intros q [= <-]. unfold live. rewrite (follows_wired _ _ _ Hf), Ho, Er. auto.
Qed.

Lemma inv_side s t : side s t -> inv s -> inv t.
Proof.
  intros Ht [Ha Hh Hl]. constructor.
  - unfold agrees in *. by rewrite (side_state _ _ Ht), (side_protocol _ _ Ht).
  - by apply (honest_side s).
  - unfold live in *. rewrite (side_protocol _ _ Ht), (side_repositories _ _ Ht). done.
Qed.

(** Without a protocol. *)
Lemma inv_without s : m_vpnProtocol s = None -> m_connectionState s <> Vpn.Connected -> honest s -> inv s.
Proof.
  intros Hn Hc Hh. constructor; [|done|]; rewrite ?Hn; [|congruence].
  unfold agrees. rewrite Hn. split; [done|]. by intros (p & ? & _).
Qed.

Lemma is_other_impl p q : p_impl p = p_impl q -> is_other p = is_other q.
Proof. unfold is_other. by intros ->. Qed.

Lemma is_other_on_impl f p : is_other (on_impl f p).2 = is_other p.
Proof.
  unfold on_impl. destruct (p_impl p) as [c|n] eqn:E; [|done].
  unfold is_other. rewrite relay_impl. by rewrite E.
Qed.

Lemma is_other_start p : is_other p = false -> is_other (start p).2 = false.
Proof.
  intros Hp. destruct (is_other_mz p Hp) as [c Ec]. unfold start. rewrite Ec. cbv zeta.
  set (q := p <| m_rawConfig := _ |>). pose proof (is_other_on_impl (Client.activate (m_rawConfig q)) q) as Hq.
  destruct (on_impl _ q) as [e u]. cbn [snd] in *. rewrite Hq. exact Hp.
Qed.

Lemma is_other_stop p : is_other p = false -> is_other (stop p).2 = false.
Proof.
  intros Hp. destruct (is_other_mz p Hp) as [c Ec]. unfold stop. rewrite Ec.
  by rewrite is_other_on_impl.
Qed.

(** [stop] of a live protocol on a connection that is not shown as connected. *)
Lemma stop_inv errors p s : live s p -> honest s -> m_connectionState s <> Vpn.Connected ->
  let t := (on_protocol errors stop_ p s).2 in
  inv t /\ m_connectionState t <> Vpn.Connected /\ m_vpnProtocol t = Some (stop p).2.
Proof.
  intros (Hw & Hp & Hk & Hr) Hs Hc. destruct (is_other_mz p Hp) as [c Ec].
  assert (Es : stop_ p = ((stop p).1, tt, (stop p).2)) by (unfold stop_; by destruct (stop p)).
  assert (Hf : follows p (stop_ p).1.1 (stop_ p).2) by (rewrite Es; apply follows_stop).
  pose proof (stop_state p c Ec) as Hd.
  destruct (on_protocol_rest errors stop_ p s) as (Ep & Er & Hh). rewrite Es in Ep. cbn in Ep.
  assert (Hn : m_connectionState (on_protocol errors stop_ p s).2 <> Vpn.Connected).
  { intros Hx. pose proof (on_protocol_forward errors stop_ p s Hw Hf (fun h => False_ind _ (Hc h)) Hx) as Hy.
    rewrite Es in Hy. cbn in Hy. congruence. }
  split; [|done]. constructor; [|by apply Hh|].
  - unfold agrees. rewrite Ep. split; [done|]. intros (q & [= <-] & Hq). congruence.
  - rewrite Ep. intros q [= <-]. unfold live. rewrite Er, (follows_wired _ _ _ (follows_stop p)).
    rewrite is_other_stop by done. auto using linked_stop.
Qed.

Lemma drop_inv errors p s : m_vpnProtocol s = Some p -> live s p -> honest s ->
  m_connectionState s <> Vpn.Connected ->
  let t := drop_protocol errors s in
  inv t /\ m_connectionState t <> Vpn.Connected /\ m_vpnProtocol t = None /\ m_repositories t = true.
Proof.
  intros Es (Hw & Hp & Hk & Hr) Hs Hc. destruct (is_other_mz p Hp) as [c Ec].
  unfold drop_protocol. rewrite Es. unfold destroy. rewrite Ec. cbv zeta.
  set (t := s <| m_vpnProtocol := None |> <| m_timers := [] |>).
  assert (Hn : m_connectionState (deliver errors (stop p).1 t) <> Vpn.Connected).
  { intros Hx. pose proof (deliver_connected errors _ p _ t Hw (follows_stop p) (fun h => False_ind _ (Hc h)) Hx).
    pose proof (stop_state p c Ec). congruence. }
  assert (He : m_vpnProtocol (deliver errors (stop p).1 t) = None) by by apply deliver_none.
  split; [|split; [done|split; [done|by rewrite deliver_repositories]]].
  apply inv_without; [done|done|]. by apply honest_deliver.
Qed.

(** [start] of a live protocol that is not connected, on a connection that is not shown as such. *)
Lemma start_inv p s : live s p -> honest s -> p_state p <> Vpn.Connected ->
  m_connectionState s <> Vpn.Connected -> inv (start_protocol p s).
Proof.
  intros Hl Hs Hp Hc. pose proof Hl as (_ & Ho & _). destruct (is_other_mz p Ho) as [c Ec].
  assert (Hi : inv (on_protocol true start p s).2).
  { apply on_protocol_inv; try done; [apply follows_start|by rewrite is_other_start|apply linked_start]. }
  unfold start_protocol. destruct (on_protocol true start p s) as [err t] eqn:E.
  assert (err = NoError) as ->; [|exact Hi].
  change err with (err, t).1. rewrite <- E. unfold on_protocol, start. rewrite Ec. cbv zeta.
  by destruct (on_impl _ _).
Qed.

Lemma new_wireguard_state cfg :
  let p := (new_wireguard cfg).2 in p_state p = Vpn.Unknown /\ is_other p = false /\ p_wired p = false.
Proof. done. Qed.

Lemma factory_wireguard c cfg n p : wg_container c = true -> factory c cfg n = Some p ->
  p = (new_wireguard cfg).2.
Proof. destruct c; try done; cbn; congruence. Qed.

(** Every event keeps the invariant. *)
Lemma connect_inv c cfg s : wg_container c = true -> inv s -> inv (connectToVpn c cfg s).
Proof.
  intros Hc Hs. unfold connectToVpn. destruct (m_repositories s) eqn:Er; cbn [negb].
  2: { apply inv_without; [|rewrite set_state_connected; done|apply honest_set, (inv_honest s Hs)].
       rewrite set_state_protocol. destruct (m_vpnProtocol s) as [p|] eqn:Ep; [|done].
       destruct (inv_live s Hs p Ep) as (_ & _ & _ & ?). congruence. }
  set (s1 := (setConnectionState Vpn.Connecting _) <| m_vpnConfiguration := cfg |>).
  assert (H1 : honest s1) by (apply honest_set; exact (inv_honest s Hs)).
  assert (C1 : m_connectionState s1 <> Vpn.Connected).
  { intros Hx. by apply set_state_connected in Hx. }
  assert (P1 : m_vpnProtocol s1 = m_vpnProtocol s) by exact (set_state_protocol Vpn.Connecting _).
  assert (R1 : m_repositories s1 = true) by (etransitivity; [exact (set_state_repositories Vpn.Connecting _)|done]).
  set (s2 := match m_vpnProtocol s1 with Some p => _ | None => _ end).
  assert (H2 : honest s2 /\ m_connectionState s2 <> Vpn.Connected /\ m_vpnProtocol s2 = None
               /\ m_repositories s2 = true).
  { unfold s2. rewrite P1. destruct (m_vpnProtocol s) as [p|] eqn:Ep.
    2: by rewrite <- P1.
    destruct (inv_live s Hs p Ep) as (Hw & Ho & Hk & _).
    destruct (stop_inv false p s1 (conj Hw (conj Ho (conj Hk R1))) H1 C1) as (Hi & Hn & Hp).
    destruct (on_protocol false stop_ p s1) as [[] t]. cbn in *.
    destruct (drop_inv false _ t Hp (inv_live _ Hi _ Hp) (inv_honest _ Hi) Hn) as ([] & ? & ? & ?). done. }
  clearbody s2. destruct H2 as (H2 & C2 & P2 & R2). cbv zeta.
  destruct (factory _ _ _) as [p|] eqn:Ef.
  2: { apply inv_without; [by rewrite set_state_protocol|by rewrite set_state_connected|by apply honest_set]. }
  apply factory_wireguard in Ef as ->; [|done]. by apply start_inv.
Qed.

Lemma reconnect_inv s : inv s -> inv (reconnectToVpn s).
Proof.
  intros Hs. unfold reconnectToVpn. destruct (m_vpnProtocol s) as [p|] eqn:Ep; [|done].
  destruct (negb _); [done|]. destruct (inv_live s Hs p Ep) as (Hw & Ho & Hk & Hr).
  set (s1 := setConnectionState Vpn.Reconnecting s).
  assert (L1 : live s1 p) by (unfold live, s1; by rewrite set_state_repositories).
  assert (C1 : m_connectionState s1 <> Vpn.Connected) by (unfold s1; by rewrite set_state_connected).
  destruct (stop_inv true p s1 L1 (honest_set _ _ (inv_honest s Hs)) C1) as (Hi & Hn & Hp).
  destruct (on_protocol true stop_ p s1) as [[] t]. cbn in *. rewrite Hp.
  apply start_inv; [by apply (inv_live t)|apply (inv_honest t Hi)| |done].
  intros Hx. apply Hn, (inv_agrees t Hi). eauto.
Qed.

Lemma disconnect_inv s : inv s -> inv (disconnectFromVpn s).
Proof.
  intros Hs. unfold disconnectFromVpn. destruct (m_vpnProtocol s) as [p|] eqn:Ep.
  2: { apply inv_without; [by rewrite set_state_protocol|by rewrite set_state_connected|].
       apply honest_set, (inv_honest s Hs). }
  destruct (inv_live s Hs p Ep) as (Hw & Ho & Hk & Hr). set (s1 := setConnectionState Vpn.Disconnecting s).
  assert (L1 : live s1 p) by (unfold live, s1; by rewrite set_state_repositories).
  assert (C1 : m_connectionState s1 <> Vpn.Connected) by (unfold s1; by rewrite set_state_connected).
  destruct (stop_inv true p s1 L1 (honest_set _ _ (inv_honest s Hs)) C1) as (Hi & Hn & Hp).
  destruct (on_protocol true stop_ p s1) as [[] t]. cbn in *.
  apply (drop_inv true _ t Hp (inv_live _ Hi _ Hp) (inv_honest _ Hi) Hn).
Qed.

(** What happens to the protocol by itself. *)
Lemma event_inv f s : (forall p, follows p (f p).1 (f p).2) ->
  (forall p, is_other (f p).2 = is_other p) -> (forall p, linked p -> linked (f p).2) -> inv s -> inv (protocol_event f s).
Proof.
  intros Hf Ho Hk Hs. unfold protocol_event. destruct (m_vpnProtocol s) as [p|] eqn:Ep; [|done].
  apply on_protocol_inv.
  - specialize (Hf p). by destruct (f p).
  - specialize (Ho p). by destruct (f p).
  - intros _ Hl. specialize (Hk p Hl). by destruct (f p).
  - by apply (inv_live s).
  - apply (inv_honest s Hs).
  - pose proof (inv_agrees s Hs) as Ha. unfold agrees in Ha. rewrite Ha, Ep. split; [by intros (q & [= <-] & ?)|eauto].
Qed.

Lemma inv_new settings c : inv (new_connection settings c).
Proof. by apply inv_without. Qed.

Lemma inv_same s t : m_connectionState t = m_connectionState s -> m_vpnProtocol t = m_vpnProtocol s ->
  vouts t = vouts s -> (m_repositories s = true -> m_repositories t = true) -> inv s -> inv t.
Proof.
  intros E1 E2 E3 E4 [Ha Hh Hl]. constructor.
  - unfold agrees. by rewrite E1, E2.
  - unfold honest, signals. by rewrite E1, E3.
  - rewrite E2. intros p Hp. destruct (Hl p Hp) as (? & ? & ? & ?). repeat split; auto.
Qed.

Lemma step_inv e s : running e = true -> inv s -> inv (connection_step e s).
Proof.
  intros He Hs. destruct e; cbn [connection_step]; try discriminate.
  - by apply connect_inv.
  - by apply reconnect_inv.
  - by apply disconnect_inv.
  - eapply inv_side; [|exact Hs]. apply side_with. intros t. etransitivity; [|apply calm]. auto with side.
  - by apply (inv_same s).
  - destruct (socket_event _); [|done]. apply event_inv; [apply follows_impl|apply is_other_on_impl| |done].
    intros p. apply linked_impl, grows_step.
  - apply event_inv; [| | |done]; intros p; destruct (is_other p) eqn:Eo; try done;
      [apply follows_set| |intros _; by apply linked_set].
    rewrite <- Eo. cbn. unfold Protocol.setConnectionState. repeat case_bool_decide; done.
  - apply event_inv; [| | |done]; intros p; destruct (is_other p) eqn:Eo; done.
  - apply event_inv; [| | |done]; intros p; destruct (is_other p) eqn:Eo; done.
  - destruct (m_lookups s !! index) as [l|]; [|done].
    eapply inv_side; [apply side_looked_up|]. by apply (inv_same s).
  - destruct (m_timers s) as [|mode rest]; [done|]. destruct (m_vpnProtocol s) eqn:Ep; [|done].
    eapply inv_side; [apply side_addSites|]. by apply (inv_same s).
  - by apply (inv_same s).
  - by apply (inv_same s).
Qed.

Lemma run_inv es s : forallb running es = true -> inv s -> inv (connection_run es s).
Proof.
  revert s. induction es as [|e es IH]; intros s; [done|]. cbn [forallb].
  intros [He Hes]%andb_true_iff Hs. apply IH; [done|]. by apply step_inv.
Qed.
End Shown.
