(* ===== verification/VpnConnectionTheorems.v ===== *)
(** * Theorems of the connection

    The state shown against the daemon's last word, what a connection, a reconnection and a
    disconnection send to the daemon and show, and the lookups of the names of split tunnelling. *)

From S2P Require Import Prelude Json IpAddress Lines InterfaceConfig Daemon ProtocolConfigs.
From S2P Require Import DaemonTheorems LocalSocket LocalSocketFacts LocalSocketTheorems SplitTunneling SplitTunnelingTheorems.
From S2P Require Import VpnConnection Containers VpnConnectionFacts VpnConnectionInv.

(** ** Signals and commands of an operation *)

(** The states shown, from one that is shown. *)
Fixpoint shows (m : Vpn.ConnectionState) (l : list Vpn.ConnectionState)
    : list Vpn.ConnectionState * Vpn.ConnectionState :=
  match l with
  | [] => ([], m)
  | st :: r =>
      if bool_decide (st = Vpn.Disconnected) && bool_decide (m = Vpn.Reconnecting) then shows m r
      else let '(sig, m') := shows st r in (st :: sig, m')
  end.

Definition state_of (e : emission) : option Vpn.ConnectionState :=
  match e.1 with stateChanged st => Some st | _ => None end.

Definition sent_of (e : emission) : option obj :=
  match e.1 with sent o => Some o | _ => None end.

Section Seen.
Context `{CompactText} `{VpnWorld} `{EL : EventLoop}.

Section Undisturbed.
Context {HC : Calm}.

Lemma deliver_commands errors l s : commands (deliver errors l s) = commands s ++ omap sent_of l.
Proof.
  revert s. induction l as [|[e p] l IH]; intros s; [by rewrite app_nil_r|].
  rewrite deliver_cons, IH. unfold deliver_one. cbn [fst snd omap list_omap].
  destruct e; unfold sent_of at 2; cbn [fst].
  - destruct (p_wired p); [by rewrite set_state_commands|done].
  - destruct (_ && _); [|done]. unfold commands, vemit. cbn. by rewrite omap_app, app_nil_r.
  - destruct (p_wired p); [|done]. unfold commands, vemit. cbn. by rewrite omap_app, app_nil_r.
  - unfold commands, vemit. cbn. by rewrite omap_app, <- app_assoc.
Qed.

Lemma deliver_seen errors l : forall p q s, p_wired p = true -> follows p l q ->
  let r := shows (m_connectionState s) (omap state_of l) in
  m_connectionState (deliver errors l s) = r.2 /\ signals (deliver errors l s) = signals s ++ r.1.
Proof.
  induction l as [|[e p'] l IH]; intros p q s Hw; cbn [follows].
  { intros _. cbn. by rewrite app_nil_r. }
  intros (_ & Hw' & Hr). rewrite deliver_cons. cbv zeta.
  assert (Hp' : p_wired p' = true) by congruence.
  specialize (IH p' q (deliver_one errors s (e, p')) Hp' Hr). cbv zeta in IH.
  rewrite deliver_one_shown, Hp' in IH. destruct IH as [-> ->].
  assert (Hsig : signals (deliver_one errors s (e, p')) = signals s ++
    match e with stateChanged st => if hidden st s then [] else [st] | _ => [] end).
  { unfold deliver_one. cbn [fst snd]. rewrite Hp'. destruct e; cbn [andb].
    - by rewrite set_state_signals.
    - destruct errors; [|by rewrite app_nil_r]. unfold signals, vemit. cbn. by rewrite omap_app.
    - unfold signals, vemit. cbn. by rewrite omap_app.
    - unfold signals, vemit. cbn. by rewrite omap_app. }
  rewrite Hsig. destruct e; rewrite ?app_nil_r; try done.
  change (omap state_of (_ :: l)) with (state :: omap state_of l). cbn [shows]. unfold hidden.
  destruct (_ && _); [by rewrite app_nil_r|].
  destruct (shows state (omap state_of l)). cbn. by rewrite <- app_assoc.
Qed.

Lemma on_protocol_seen {A} errors (f : VpnProtocol -> list emission * A * VpnProtocol) p s :
  p_wired p = true -> follows p (f p).1.1 (f p).2 ->
  let t := (on_protocol errors f p s).2 in
  let r := shows (m_connectionState s) (omap state_of (f p).1.1) in
  m_connectionState t = r.2 /\ signals t = signals s ++ r.1 /\
  commands t = commands s ++ omap sent_of (f p).1.1 /\ m_vpnProtocol t = Some (f p).2.
Proof.
  intros Hw Hf. unfold on_protocol. destruct (f p) as [[e a] q]. cbn [fst snd] in *. cbv zeta.
  set (s0 := s <| m_vpnProtocol := Some p |>).
  destruct (deliver_seen errors e p q s0 Hw Hf) as [Hm Hs].
  split; [exact Hm|]. split; [exact Hs|]. split; [exact (deliver_commands errors e s0)|].
  destruct (deliver_some errors e s0) as [p1 Hp1]; [by exists p|]. change (m_vpnProtocol (_ <| m_vpnProtocol := ?x |>)) with x.
  by rewrite Hp1.
Qed.

Lemma omap_fst {A B C} (g : A -> option C) (l : list (A * B)) : omap (fun e => g e.1) l = omap g (map fst l).
Proof. induction l as [|[a b] l IH]; [done|]. cbn. rewrite IH. done. Qed.

(** What [deactivate] of a controller sends. *)
Definition goodbye (c : Client.client) : list obj :=
  if bool_decide (Client.m_daemonState c = Client.eReady) then [deactivate_command] else [].

Lemma stop_seen p c : p_impl p = Mz c ->
  omap sent_of (stop p).1 = goodbye c /\
  omap state_of (stop p).1 = if bool_decide (p_state p = Vpn.Disconnected) then [] else [Vpn.Disconnected].
Proof.
  intros E. pose proof (stop_emissions p c E) as Hs. unfold goodbye. split.
  - etransitivity; [exact (omap_fst (fun e => match e with sent o => Some o | _ => None end) (stop p).1)|].
    rewrite Hs. repeat case_bool_decide; done.
  - etransitivity; [exact (omap_fst (fun e => match e with stateChanged st => Some st | _ => None end) (stop p).1)|].
    rewrite Hs. repeat case_bool_decide; done.
Qed.

Lemma stop_on errors p c s : p_wired p = true -> p_impl p = Mz c ->
  let t := (on_protocol errors stop_ p s).2 in
  let r := shows (m_connectionState s)
             (if bool_decide (p_state p = Vpn.Disconnected) then [] else [Vpn.Disconnected]) in
  m_connectionState t = r.2 /\ signals t = signals s ++ r.1 /\
  commands t = commands s ++ goodbye c /\ m_vpnProtocol t = Some (stop p).2.
Proof.
  intros Hw E. destruct (stop_seen p c E) as [Hc Hs].
  assert (Es : stop_ p = ((stop p).1, tt, (stop p).2)) by (unfold stop_; by destruct (stop p)).
  pose proof (on_protocol_seen errors stop_ p s Hw) as Ht. rewrite Es in Ht. cbn [fst snd] in Ht.
  rewrite <- Hs, <- Hc. apply Ht, follows_stop.
Qed.

Lemma stop_impl p c : p_impl p = Mz c -> p_impl (stop p).2 = Mz (Client.deactivate c).
Proof. intros E. unfold stop. rewrite E. by apply on_impl_mz. Qed.

Lemma goodbye_again c : goodbye (Client.deactivate c) = goodbye c.
Proof. unfold goodbye. by rewrite deactivate_state. Qed.

(** The destruction of a stopped protocol. *)
Lemma drop_seen errors s p c : m_vpnProtocol s = Some p -> p_wired p = true -> p_impl p = Mz c ->
  p_state p = Vpn.Disconnected ->
  let t := drop_protocol errors s in
  m_connectionState t = m_connectionState s /\ signals t = signals s /\
  commands t = commands s ++ goodbye c /\ m_vpnProtocol t = None.
Proof.
  intros Es Hw Ec Hd. unfold drop_protocol. rewrite Es. unfold destroy. rewrite Ec. cbv zeta.
  set (s0 := s <| m_vpnProtocol := None |> <| m_timers := [] |>).
  destruct (stop_seen p c Ec) as [Hc Hst]. rewrite bool_decide_true in Hst by done.
  destruct (deliver_seen errors _ p _ s0 Hw (follows_stop p)) as [Hm Hs]. rewrite Hst in Hm, Hs.
  split; [exact Hm|]. split; [rewrite Hs; apply app_nil_r|].
  split; [rewrite deliver_commands, Hc; done|by apply deliver_none].
Qed.

End Undisturbed.

Lemma activate_outputs raw c :
  Client.outputs (Client.activate raw c) = Client.outputs c ++ [Client.Write (Client.activation raw)].
Proof. done. Qed.

(** The start of a protocol of WireGuard. *)
Definition started_protocol (p : VpnProtocol) (c : Client.client) : VpnProtocol :=
  let raw := resolved_config (m_rawConfig p) in
  p <| m_rawConfig := raw |> <| p_impl := Mz (Client.activate raw c) |>.

Lemma start_mz p c : p_impl p = Mz c ->
  start p = ([(sent (Client.activation (resolved_config (m_rawConfig p))), started_protocol p c)],
             NoError, started_protocol p c).
Proof.
  intros E. unfold start. rewrite E. cbv zeta. unfold on_impl.
  change (p_impl (_ <| m_rawConfig := _ |>)) with (p_impl p). rewrite E. cbv zeta.
  by rewrite activate_outputs, drop_app_length.
Qed.

Lemma start_on p c s : p_wired p = true -> p_impl p = Mz c ->
  let t := start_protocol p s in
  m_connectionState t = m_connectionState s /\ signals t = signals s /\
  commands t = commands s ++ [Client.activation (resolved_config (m_rawConfig p))] /\
  m_vpnProtocol t = Some (started_protocol p c).
Proof.
  intros Hw E. unfold start_protocol, on_protocol. rewrite (start_mz p c E). cbv zeta.
  generalize (started_protocol p c) as q, (Client.activation (resolved_config (m_rawConfig p))) as a. intros a q.
  change (NoError =? NoError)%Z with true. cbv iota. unfold deliver. cbn [fold_left].
  unfold deliver_one, vemit, signals, commands. cbn. by rewrite !omap_app, app_nil_r.
Qed.
End Seen.

(** ** Connecting, reconnecting, disconnecting *)

Section Sessions.
Context `{CompactText} `{VpnWorld} `{EL : EventLoop}.

Lemma connecting_settings s :
  m_appSettings (setConnectionState Vpn.Connecting s) = m_appSettings s.
Proof.
  unfold setConnectionState, onConnectionStateChanged, withInterface.
  destruct (negb _); [done|]. by destruct (service_ready _).
Qed.

(** A connection from rest shows [Connecting] and asks the daemon, with one command, for the
    tunnel of the configuration it was given, the kill switch and the split tunnelling of the
    settings added and the host names resolved. *)
Theorem connect_sends_activation container cfg s :
  container = WireGuard \/ container = Awg \/ container = Awg2 ->
  m_vpnProtocol s = None -> m_repositories s = true ->
  let t := connectToVpn container cfg s in
  m_connectionState t = Vpn.Connecting /\ signals t = signals s ++ [Vpn.Connecting] /\
  commands t = commands s ++
    [Client.activation (resolved_config (Connection.connectToVpn_config (m_appSettings s) cfg))].
Proof.
  intros Hc Hp Hr. unfold connectToVpn. rewrite Hr. cbn [negb].
  set (s0 := s <| m_remoteAddress := _ |>).
  pose proof (connecting_settings s0) as Hset. pose proof undisturbed_connecting as Hu.
  destruct (change_visible Vpn.Connecting s0 ltac:(done)) as [Hm Hsig].
  pose proof (change_commands Vpn.Connecting s0) as Hcmd.
  pose proof (change_protocol Vpn.Connecting s0) as Hpro.
  set (s1 := setConnectionState Vpn.Connecting s0) in *.
  change (m_vpnProtocol (s1 <| m_vpnConfiguration := cfg |>)) with (m_vpnProtocol s1).
  rewrite Hpro, (Hp : m_vpnProtocol s0 = None). cbv zeta.
  change (m_appSettings (s1 <| m_vpnConfiguration := cfg |>)) with (m_appSettings s1).
  change (m_vpnConfiguration (s1 <| m_vpnConfiguration := cfg |>)) with cfg. rewrite Hset.
  change (m_appSettings s0) with (m_appSettings s).
  set (config := Connection.connectToVpn_config (m_appSettings s) cfg).
  set (s2 := _ <| m_vpnConfiguration := config |>).
  assert (Hf : factory container config (m_made s2) = Some (new_wireguard config).2)
    by (by destruct Hc as [->|[->| ->]]).
  rewrite Hf. set (p := createProtocolConnections _).
  destruct (start_on p (Client.initialize socket_windows var_socket Client.new_client)
              (s2 <| m_made := S (m_made s2) |>) eq_refl eq_refl) as (H1 & H2 & H3 & _).
  split; [rewrite H1; exact Hm|]. split; [rewrite H2; exact Hsig|].
  rewrite H3. f_equal. exact Hcmd.
Qed.

Context {HC : Calm}.

Lemma run_cons e es s : connection_run (e :: es) s = connection_run es (connection_step e s).
Proof. done. Qed.

(** What the controller of the current protocol has said. *)
Definition spoken (s : VpnConnection) : list Client.output :=
  match m_vpnProtocol s with
  | Some p => match p_impl p with Mz c => Client.outputs c | Other _ => [] end
  | None => []
  end.

Lemma relay_silent l : forall p, true ∉ omap word l -> p_state p = Vpn.Disconnected ->
  omap state_of (relay l p).1 = [] /\ p_state (relay l p).2 = Vpn.Disconnected.
Proof.
  induction l as [|o l IH]; intros p Hl Hp; [done|].
  assert (Hq : true ∉ omap word l).
  { intros Hx. apply Hl. change (omap word (o :: l)) with (omap word ([o] ++ l)).
    rewrite omap_app. apply elem_of_app. by right. }
  cbn [relay]. destruct (tag (relay_one o p)) as [e q] eqn:E.
  assert (Hoq : omap state_of e = [] /\ p_state q = Vpn.Disconnected).
  { unfold tag in E. injection E as <- <-.
    destruct o; try (split; [done|exact Hp]).
    - exfalso. apply Hl. left.
    - cbn [relay_one]. unfold Protocol.setConnectionState.
      rewrite bool_decide_true by done. split; [done|exact Hp].
    - cbn [relay_one]. destruct (str_empty _), (str_empty _); done. }
  destruct (IH q Hq (proj2 Hoq)) as [H1 H2]. destruct (relay l q) as [e' u]. cbn [fst snd] in *.
  rewrite omap_app, (proj1 Hoq), H1. done.
Qed.

(** One event of the socket, on a stopped protocol. *)
Lemma socket_silent e p c s : m_vpnProtocol s = Some p -> p_wired p = true -> p_impl p = Mz c ->
  p_state p = Vpn.Disconnected ->
  let t := connection_step (Socket e) s in
  true ∉ omap word (drop (length (Client.outputs c)) (spoken t)) ->
  m_connectionState t = m_connectionState s /\ signals t = signals s /\
  exists q d, m_vpnProtocol t = Some q /\ p_wired q = true /\ p_impl q = Mz d /\
    p_state q = Vpn.Disconnected /\ grows c d.
Proof.
  intros Es Hw Ec Hd. cbv zeta. cbn [connection_step]. destruct (socket_event e).
  2: { intros _. split; [done|]. split; [done|]. exists p, c. eauto using grows_refl. }
  unfold protocol_event. rewrite Es.
  set (g := Client.client_step socket_windows var_socket socket_date e).
  set (f := fun p => let '(e, p) := on_impl g p in (e, tt, p)).
  assert (Ef : f p = ((on_impl g p).1, tt, (on_impl g p).2)) by (unfold f; by destruct (on_impl g p)).
  pose proof (on_protocol_seen true f p s Hw) as Ht. cbv zeta in Ht. rewrite Ef in Ht. cbn [fst snd] in Ht.
  destruct (Ht (follows_impl g p)) as (Hm & Hsg & _ & Hp). unfold spoken. rewrite Hp.
  pose proof (on_impl_mz g p c Ec) as Hi. rewrite Hi.
  intros Hsil. set (p1 := p <| p_impl := Mz (g c) |>).
  assert (Hon : on_impl g p = relay (drop (length (Client.outputs c)) (Client.outputs (g c))) p1)
    by (unfold on_impl; by rewrite Ec).
  rewrite Hon in Hm, Hsg. destruct (relay_silent _ p1 Hsil Hd) as [Hst Hq].
  rewrite Hst in Hm, Hsg. cbn in Hm, Hsg. rewrite app_nil_r in Hsg.
  split; [done|]. split; [done|]. exists (on_impl g p).2, (g c).
  split; [done|]. split; [rewrite (follows_wired _ _ _ (follows_impl g p)); done|].
  split; [done|]. split; [rewrite Hon; exact Hq|apply grows_step].
Qed.

Lemma spoken_grows e s p c : m_vpnProtocol s = Some p -> p_impl p = Mz c ->
  exists d q, m_vpnProtocol (connection_step (Socket e) s) = Some q /\ p_impl q = Mz d /\ grows c d.
Proof.
  intros Es Ec. cbn [connection_step]. destruct (socket_event e); [|exists c, p; eauto using grows_refl].
  unfold protocol_event. rewrite Es.
  set (g := Client.client_step socket_windows var_socket socket_date e).
  pose proof (on_impl_mz g p c Ec) as Hi. rewrite on_protocol_result.
  destruct (on_impl g p) as [l q]. cbn [snd] in *.
  exists (g c), q. split; [done|]. split; [done|apply grows_step].
Qed.

Lemma sockets_grow es : forall s p c, m_vpnProtocol s = Some p -> p_impl p = Mz c ->
  exists l, spoken (connection_run (map Socket es) s) = Client.outputs c ++ l.
Proof.
  induction es as [|e es IH]; intros s p c Es Ec; cbn [map].
  { exists []. unfold spoken. cbn. by rewrite Es, Ec, app_nil_r. }
  rewrite run_cons. destruct (spoken_grows e s p c Es Ec) as (d & q & Eq & Ed & [l El]).
  destruct (IH _ q d Eq Ed) as [l' El']. exists (l ++ l'). by rewrite El', El, app_assoc.
Qed.

(** Any number of events of the socket. *)
Lemma sockets_silent es : forall p c s, m_vpnProtocol s = Some p -> p_wired p = true ->
  p_impl p = Mz c -> p_state p = Vpn.Disconnected ->
  let t := connection_run (map Socket es) s in
  true ∉ omap word (drop (length (Client.outputs c)) (spoken t)) ->
  m_connectionState t = m_connectionState s /\ signals t = signals s /\
  exists q d, m_vpnProtocol t = Some q /\ p_wired q = true /\ p_impl q = Mz d /\
    p_state q = Vpn.Disconnected.
Proof.
  induction es as [|e es IH]; intros p c s Es Hw Ec Hd; cbn [map]; cbv zeta.
  { intros _. split; [done|]. split; [done|]. exists p, c. done. }
  rewrite run_cons. intros Hsil.
  destruct (spoken_grows e s p c Es Ec) as (d & q & Eq & Ed & [l El]).
  destruct (sockets_grow es _ q d Eq Ed) as [l' El'].
  rewrite El', El, <- app_assoc, drop_app_length, omap_app, elem_of_app in Hsil.
  destruct (socket_silent e p c s Es Hw Ec Hd) as (Hm & Hs & q' & d' & Eq' & Hw' & Ed' & Hd' & _).
  { unfold spoken. rewrite Eq, Ed, El, drop_app_length. tauto. }
  assert (q' = q) as -> by congruence. assert (d' = d) as -> by congruence.
  rewrite <- Hm, <- Hs. apply (IH q d); try done.
  rewrite El', drop_app_length. tauto.
Qed.


(** C26: a disconnection of a WireGuard or AmneziaWG connection gives the tunnel up: whatever the
    protocol's state, it is gone afterwards.  The daemon is told to deactivate, twice (by [stop]
    and by the destructor), exactly when the controller's state is [eReady], that is once it has
    had the daemon's first status or has given the socket up; before that nothing is sent.  It is
    shown as [Disconnecting] and then, when the protocol had not stopped before, as
    [Disconnected]. *)
Theorem disconnect_exact p c s :
  m_vpnProtocol s = Some p -> p_wired p = true -> p_impl p = Mz c ->
  let t := disconnectFromVpn s in
  m_vpnProtocol t = None /\
  commands t = commands s ++
    (if bool_decide (Client.m_daemonState c = Client.eReady)
     then [deactivate_command; deactivate_command] else []) /\
  (p_state p <> Vpn.Disconnected -> m_connectionState t = Vpn.Disconnected /\
     signals t = signals s ++ [Vpn.Disconnecting; Vpn.Disconnected]) /\
  (p_state p = Vpn.Disconnected -> m_connectionState t = Vpn.Disconnecting /\
     signals t = signals s ++ [Vpn.Disconnecting]).
Proof.
  intros Ep Hw Ec. unfold disconnectFromVpn. rewrite Ep. cbv zeta.
  destruct (set_state_visible Vpn.Disconnecting s ltac:(done)) as [Hm Hs].
  pose proof (set_state_commands Vpn.Disconnecting s) as Hc.
  set (s1 := setConnectionState Vpn.Disconnecting s) in *.
  destruct (stop_on true p c s1 Hw Ec) as (Hm1 & Hs1 & Hc1 & Hp1).
  destruct (on_protocol true stop_ p s1) as [[] s2]. cbn [snd] in *.
  destruct (drop_seen true s2 _ (Client.deactivate c) Hp1) as (Hm2 & Hs2 & Hc2 & Hp2);
    [by rewrite (follows_wired _ _ _ (follows_stop p))|by apply stop_impl|by apply (stop_state p c)|].
  rewrite goodbye_again in Hc2. split; [exact Hp2|].
  split; [rewrite Hc2, Hc1, Hc; unfold goodbye; destruct (bool_decide (Client.m_daemonState c = _));
    [by rewrite <- app_assoc|by rewrite !app_nil_r]|].
  rewrite Hm2, Hs2, Hm1, Hs1, Hm, Hs. split; intros Hd.
  - rewrite bool_decide_false by done. cbn. by rewrite <- app_assoc.
  - rewrite bool_decide_true by done. cbn. by rewrite app_nil_r.
Qed.

Lemma reconnect_on p c s : m_connectionState s = Vpn.Connected ->
  m_vpnProtocol s = Some p -> p_wired p = true -> p_impl p = Mz c ->
  let t := reconnectToVpn s in
  m_connectionState t = Vpn.Reconnecting /\ signals t = signals s ++ [Vpn.Reconnecting] /\
  commands t = commands s ++ goodbye c ++ [Client.activation (resolved_config (m_rawConfig p))] /\
  exists q, m_vpnProtocol t = Some q /\ p_wired q = true /\ p_state q = Vpn.Disconnected /\
    p_impl q = Mz (Client.activate (resolved_config (m_rawConfig p)) (Client.deactivate c)).
Proof.
  intros Hst Ep Hw Ec. unfold reconnectToVpn. rewrite Ep, bool_decide_true by done.
  cbn [negb]. cbv zeta.
  destruct (set_state_visible Vpn.Reconnecting s ltac:(done)) as [Hm Hs].
  pose proof (set_state_commands Vpn.Reconnecting s) as Hc.
  set (s1 := setConnectionState Vpn.Reconnecting s) in *.
  destruct (stop_on true p c s1 Hw Ec) as (Hm1 & Hs1 & Hc1 & Hp1).
  destruct (on_protocol true stop_ p s1) as [[] s2]. cbn [snd] in *. rewrite Hp1.
  set (q := (stop p).2). assert (Hq : p_wired q = true)
    by (unfold q; by rewrite (follows_wired _ _ _ (follows_stop p))).
  pose proof (stop_impl p c Ec) as Hi. fold q in Hi.
  pose proof (stop_state p c Ec) as Hd. fold q in Hd.
  assert (Hraw : m_rawConfig q = m_rawConfig p).
  { unfold q. rewrite (stop_mz p c Ec). etransitivity; [apply relay_keeps|done]. }
  destruct (start_on q _ s2 Hq Hi) as (Hm2 & Hs2 & Hc2 & Hp2). rewrite Hraw in Hc2.
  assert (Hsil : shows Vpn.Reconnecting
    (if bool_decide (p_state p = Vpn.Disconnected) then [] else [Vpn.Disconnected]) = ([], Vpn.Reconnecting))
    by (by case_bool_decide).
  rewrite Hm, Hsil in Hm1, Hs1. cbn [fst snd] in Hm1, Hs1. rewrite app_nil_r in Hs1.
  split; [congruence|]. split; [congruence|]. split; [rewrite Hc2, Hc1, Hc, app_assoc; done|].
  eexists. split; [exact Hp2|]. unfold started_protocol. rewrite Hraw. done.
Qed.

(** A reconnection, of a change of the network or a wake-up, shows [Reconnecting] once, stops
    the tunnel and asks the daemon for it again with the same configuration, its host names
    resolved anew; and from then on, whatever the socket brings, nothing more is shown until the
    daemon says "connected". *)
Theorem reconnect_waits p c es s :
  m_connectionState s = Vpn.Connected ->
  m_vpnProtocol s = Some p -> p_wired p = true -> p_impl p = Mz c ->
  let t := reconnectToVpn s in
  let u := connection_run (map Socket es) t in
  signals t = signals s ++ [Vpn.Reconnecting] /\
  commands t = commands s ++ goodbye c ++ [Client.activation (resolved_config (m_rawConfig p))] /\
  (true ∉ omap word (drop (length (spoken t)) (spoken u)) ->
   m_connectionState u = Vpn.Reconnecting /\ signals u = signals t).
Proof.
  intros Hst Ep Hw Ec. cbv zeta.
  destruct (reconnect_on p c s Hst Ep Hw Ec) as (Hm & Hs & Hc & q & Eq & Hq & Hd & Hi).
  split; [done|]. split; [done|]. intros Hsil.
  destruct (sockets_silent es q _ (reconnectToVpn s) Eq Hq Hi Hd) as (Hm' & Hs' & _); [|by rewrite Hm'].
  unfold spoken in Hsil at 1. rewrite Eq, Hi in Hsil. exact Hsil.
Qed.

Lemma disconnect_stopped p c s : m_vpnProtocol s = Some p -> p_wired p = true -> p_impl p = Mz c ->
  p_state p = Vpn.Disconnected -> m_connectionState (disconnectFromVpn s) = Vpn.Disconnecting.
Proof.
  intros Ep Hw Ec Hd. unfold disconnectFromVpn. rewrite Ep. cbv zeta.
  destruct (set_state_visible Vpn.Disconnecting s ltac:(done)) as [Hm _].
  set (s1 := setConnectionState Vpn.Disconnecting s) in *.
  destruct (stop_on true p c s1 Hw Ec) as (Hm1 & _ & _ & Hp1).
  destruct (on_protocol true stop_ p s1) as [[] s2]. cbn [snd] in *.
  destruct (drop_seen true s2 _ (Client.deactivate c) Hp1) as (Hm2 & _);
    [by rewrite (follows_wired _ _ _ (follows_stop p))|by apply stop_impl|by apply (stop_state p c)|].
  rewrite Hm2, Hm1, Hm. by rewrite bool_decide_true by done.
Qed.

(** A reconnection the daemon does not complete is never reported, and giving it up leaves
    [Disconnecting] on show with no protocol left to end it. *)
Theorem failed_reconnect_hangs p c es s :
  m_connectionState s = Vpn.Connected ->
  m_vpnProtocol s = Some p -> p_wired p = true -> p_impl p = Mz c ->
  let t := reconnectToVpn s in
  let u := connection_run (map Socket es) t in
  true ∉ omap word (drop (length (spoken t)) (spoken u)) ->
  m_connectionState (disconnectFromVpn u) = Vpn.Disconnecting.
Proof.
  intros Hst Ep Hw Ec. cbv zeta.
  destruct (reconnect_on p c s Hst Ep Hw Ec) as (_ & _ & _ & q & Eq & Hq & Hd & Hi). intros Hsil.
  destruct (sockets_silent es q _ (reconnectToVpn s) Eq Hq Hi Hd) as (_ & _ & q' & d & Eq' & Hw' & Ed & Hd').
  { unfold spoken in Hsil at 1. rewrite Eq, Hi in Hsil. exact Hsil. }
  by apply (disconnect_stopped q' d).
Qed.

(** A connection asked for while another one is up is shown as [Disconnected]: the slot of the old
    protocol's last signal is still connected. *)
Theorem connect_over_live_shows_disconnected container cfg p c s :
  container = WireGuard \/ container = Awg \/ container = Awg2 -> m_repositories s = true ->
  m_vpnProtocol s = Some p -> p_wired p = true -> p_impl p = Mz c -> p_state p = Vpn.Connected ->
  let t := connectToVpn container cfg s in
  m_connectionState t = Vpn.Disconnected /\ signals t = signals s ++ [Vpn.Connecting; Vpn.Disconnected].
Proof.
  intros Hc Hr Ep Hw Ec Hd. unfold connectToVpn. rewrite Hr. cbn [negb].
  set (s0 := s <| m_remoteAddress := _ |>).
  destruct (set_state_visible Vpn.Connecting s0 ltac:(done)) as [Hm Hs].
  pose proof (set_state_protocol Vpn.Connecting s0) as Hp.
  set (s1 := (setConnectionState Vpn.Connecting s0) <| m_vpnConfiguration := cfg |>).
  change (m_vpnProtocol s1) with (m_vpnProtocol (setConnectionState Vpn.Connecting s0)).
  rewrite Hp, (Ep : m_vpnProtocol s0 = Some p). cbv zeta.
  destruct (stop_on false p c s1 Hw Ec) as (Hm1 & Hs1 & _ & Hp1).
  destruct (on_protocol false stop_ p s1) as [[] s2]. cbn [snd] in *.
  rewrite bool_decide_false in Hm1, Hs1 by congruence.
  rewrite (Hm : m_connectionState s1 = Vpn.Connecting) in Hm1, Hs1. cbn [shows bool_decide andb fst snd] in Hm1, Hs1.
  rewrite (Hs : signals s1 = signals s0 ++ [Vpn.Connecting]) in Hs1.
  destruct (drop_seen false s2 _ (Client.deactivate c) Hp1) as (Hm2 & Hs2 & _);
    [by rewrite (follows_wired _ _ _ (follows_stop p))|by apply stop_impl|by apply (stop_state p c)|].
  set (s3 := drop_protocol false s2) in *.
  set (config := Connection.connectToVpn_config _ _).
  assert (Hf : factory container config (m_made (s3 <| m_vpnConfiguration := config |>))
               = Some (new_wireguard config).2) by (by destruct Hc as [->|[->| ->]]).
  rewrite Hf. set (q := createProtocolConnections _). set (s4 := _ <| m_made := _ |>).
  destruct (start_on q (Client.initialize socket_windows var_socket Client.new_client) s4 eq_refl eq_refl)
    as (H1 & H2 & _).
  rewrite H1, H2. change (m_connectionState s4) with (m_connectionState s3).
  change (signals s4) with (signals s3). rewrite Hm2, Hs2, Hs1, Hm1, <- app_assoc. done.
Qed.
End Sessions.

(** ** The names of split tunnelling *)

Section Lookups.
Context `{CompactText} `{VpnWorld}.

(** The addresses of an answer that are not routed yet, and the routes they get. *)
Definition new_ips (l : lookup) (r : list string) : list string :=
  filter (fun ip => ip ∉ lk_ips l) (removeDuplicates r).

Definition added (a : lookup * list string) : list vout :=
  map (fun ip => Call (RouteAddList (lk_gw a.1) [ip])) (new_ips a.1 a.2).

Definition answer (s : VpnConnection) (a : lookup * list string) : VpnConnection := looked_up a.1 a.2 s.

Context (ready : forall l, service_ready l = true).

Lemma with_ready f s : withInterface f s = f s.
Proof. unfold withInterface. by rewrite ready. Qed.

Lemma fold_routes gw l s :
  let t := fold_left (fun s ip => withInterface (call (RouteAddList gw [ip])) s) l s in
  vouts t = vouts s ++ map (fun ip => Call (RouteAddList gw [ip])) l /\ m_groups t = m_groups s.
Proof.
  revert s. induction l as [|ip l IH]; intros s; [by rewrite app_nil_r|].
  cbn [fold_left map]. destruct (IH (withInterface (call (RouteAddList gw [ip])) s)) as [-> ->].
  rewrite with_ready. cbn. by rewrite <- app_assoc.
Qed.

(** One answer of a group with [n] lookups left. *)
Lemma answer_one a n fl s : m_groups s !! lk_group a.1 = Some (n, fl) ->
  let fl' := fl || negb (bool_decide (added a = [])) in
  vouts (answer s a) = vouts s ++ added a ++ (if (0 <? n - 1)%Z then [] else if fl' then [Call FlushDns] else [])
  /\ m_groups (answer s a) !! lk_group a.1 = Some ((n - 1)%Z, fl').
Proof.
  intros Hg. cbv zeta. destruct a as [l r]. unfold answer, looked_up, added. cbn [fst snd] in *.
  change (filter _ (removeDuplicates r)) with (new_ips l r).
  destruct (fold_routes (lk_gw l) (new_ips l r) s) as [Ho Hgr].
  set (t := fold_left _ (new_ips l r) s) in *. unfold group_of. rewrite Hgr, Hg.
  cbv beta iota delta [default id].
  assert (Hins : forall v, <[lk_group l := v]> (m_groups t) !! lk_group l = Some v).
  { intros v. apply list_lookup_insert_eq. rewrite Hgr. by eapply lookup_lt_Some. }
  rewrite (app_assoc (vouts s)), <- Ho. clearbody t. clear Ho.
  destruct (new_ips l r) as [|ip ips]; cbn [map].
  - rewrite bool_decide_true by done. rewrite orb_false_r. cbv beta iota.
    destruct (0 <? n - 1)%Z, fl; cbn [negb]; rewrite ?with_ready;
      split; solve [exact (Hins _) | by rewrite ?app_nil_r].
  - rewrite bool_decide_false by done. rewrite orb_true_r. cbv beta iota. cbn [negb].
    destruct (0 <? n - 1)%Z; rewrite ?with_ready;
      split; solve [exact (Hins _) | by rewrite ?app_nil_r].
Qed.

Lemma answers_all g : forall answers fl s, answers <> [] ->
  m_groups s !! g = Some (Z.of_nat (length answers), fl) ->
  Forall (fun a => lk_group a.1 = g) answers ->
  vouts (fold_left answer answers s) = vouts s ++ flat_map added answers ++
    (if fl || negb (bool_decide (flat_map added answers = [])) then [Call FlushDns] else []).
Proof.
  induction answers as [|a l IH]; intros fl s Hn Hg Hl; [done|]. clear Hn.
  apply Forall_cons in Hl as [Ha Hl]. cbn [fold_left flat_map]. rewrite <- Ha in Hg.
  destruct (answer_one a _ fl s Hg) as [Ho Hg']. cbn [length] in *.
  destruct l as [|b l].
  - cbn [fold_left flat_map]. rewrite Ho, app_nil_r. reflexivity.
  - rewrite (IH (fl || negb (bool_decide (added a = [])))) by
      (try done; rewrite <- Ha, Hg'; f_equal; f_equal; cbn [length]; lia).
    rewrite Ho. replace (0 <? Z.of_nat (S (length (b :: l))) - 1)%Z with true
      by (symmetry; apply Z.ltb_lt; cbn [length]; lia).
    rewrite app_nil_r, <- !app_assoc. do 3 f_equal. rewrite <- orb_assoc.
    destruct (added a) as [|x y]; [done|]. cbn [app].
    rewrite (bool_decide_false (x :: y = [])), (bool_decide_false (x :: _ = [])) by done. done.
Qed.

(** The lookups a call makes. *)
Lemma addSites_made gw mode s : m_repositories s = true ->
  let t := addSitesRoutes gw mode s in
  let ips := (site_routes (Settings.vpnSites mode (m_appSettings s))).1 in
  let sites := (site_routes (Settings.vpnSites mode (m_appSettings s))).2 in
  m_lookups t = m_lookups s ++ map (fun site => mkLookup site gw mode ips (length (m_groups s))) sites /\
  m_groups t = m_groups s ++ [(Z.of_nat (length sites), false)] /\
  vouts t = vouts s ++ Call (RouteAddList gw ips) :: map LookupHost sites.
Proof.
  intros Hr. unfold addSitesRoutes. rewrite Hr. cbn [negb].
  destruct (site_routes _) as [ips sites]. cbv zeta. cbn [fst snd]. rewrite with_ready.
  set (s1 := (call (RouteAddList gw ips) s) <| m_groups := _ |>).
  change (m_groups (call (RouteAddList gw ips) s)) with (m_groups s).
  assert (E : forall l u, let t := fold_left (fun s0 site => (vemit (LookupHost site) s0) <| m_lookups :=
      m_lookups s0 ++ [mkLookup site gw mode ips (length (m_groups s))] |>) l u in
    m_lookups t = m_lookups u ++ map (fun site => mkLookup site gw mode ips (length (m_groups s))) l /\
    m_groups t = m_groups u /\ vouts t = vouts u ++ map LookupHost l).
  { induction l as [|site l IH]; intros u; [by rewrite !app_nil_r|]. cbv zeta. cbn [fold_left map].
    edestruct IH as (-> & -> & ->). cbn. by rewrite <- !app_assoc. }
  destruct (E sites s1) as (-> & -> & ->). cbn. by rewrite <- app_assoc.
Qed.

(** the routes of the sites.  The addresses of the sites are routed at once; each name is
    looked up, and however the answers are ordered, every address that was not known is routed
    when its answer arrives, and the DNS cache is flushed once, after the last answer, and only
    when a new address was found. *)
Theorem lookups_flush_once gw mode s answers : m_repositories s = true ->
  let t := addSitesRoutes gw mode s in
  map fst answers ≡ₚ drop (length (m_lookups s)) (m_lookups t) ->
  let routes := flat_map added answers in
  vouts t = vouts s ++ Call (RouteAddList gw (site_routes (Settings.vpnSites mode (m_appSettings s))).1)
              :: map (fun l => LookupHost (lk_site l)) (drop (length (m_lookups s)) (m_lookups t)) /\
  vouts (fold_left answer answers t) =
    vouts t ++ routes ++ (if bool_decide (routes = []) then [] else [Call FlushDns]).
Proof.
  intros Hr. cbv zeta. destruct (addSites_made gw mode s Hr) as (El & Eg & Eo).
  set (t := addSitesRoutes gw mode s) in *. set (sites := (site_routes _).2) in *.
  rewrite El, drop_app_length. intros Hp. split; [rewrite map_map; exact Eo|].
  destruct (decide (answers = [])) as [->|Hn]; [by rewrite !app_nil_r|].
  rewrite (answers_all (length (m_groups s)) answers false); [by case_bool_decide|done| |].
  - rewrite Eg, list_lookup_middle by done. apply Permutation_length in Hp.
    rewrite !length_map in Hp. by rewrite Hp.
  - apply Forall_forall. intros a Ha. apply (list_elem_of_fmap_2 fst) in Ha.
    change (fst <$> answers) with (map fst answers) in Ha. rewrite Hp in Ha.
    apply list_elem_of_fmap in Ha as (? & -> & _). done.
Qed.
End Lookups.

(** ** Witnesses *)

Definition sample_world : VpnWorld :=
  {| world_text := site_text; getIPAddress := fun name => name; service_ready := fun _ => true;
     socket_windows := false; var_socket := true; socket_date := fun _ => None;
     other_start := fun _ _ => ([], NoError); other_stop := fun _ => [] |}.

(** Nothing happens while the service answers. *)
Definition calm_loop : EventLoop := {| meanwhile := fun s => s |}.

Lemma calm_loop_calm : @Calm calm_loop.
Proof. intros s. reflexivity. Qed.

#[local] Existing Instance compact_model.
#[local] Existing Instance sample_world.
#[local] Existing Instance calm_loop.
#[local] Existing Instance calm_loop_calm.

(** The daemon's first status and its answer to an activation. *)
Definition idle_status : obj := oof [("type", JStr "status"); ("connected", JBool false)].
Definition connected_message : obj := oof [("type", JStr "connected"); ("pubkey", JStr "peer")].

Definition sample_session : list connection_event :=
  [SetRepositories; Connect Awg whole_config; Socket Client.SocketConnected;
   Socket (Client.Input (frame idle_status));
   Socket (Client.Input (frame connected_message))].

Definition sample_connected : VpnConnection :=
  connection_run sample_session (new_connection empty_settings Awg).

Definition sample_protocol : VpnProtocol :=
  default (Protocol.new [] (Other 0)) (m_vpnProtocol sample_connected).
Definition sample_controller : Client.client :=
  match p_impl sample_protocol with Mz c => c | Other _ => Client.new_client end.

Lemma sample_connected_facts :
  m_connectionState sample_connected = Vpn.Connected /\
  m_vpnProtocol sample_connected = Some sample_protocol /\ p_wired sample_protocol = true /\
  p_impl sample_protocol = Mz sample_controller.
Proof. split_and!; vm_compute; reflexivity. Qed.


Lemma connect_sends_activation_witness :
  let s := setRepositories (new_connection empty_settings Awg) in
  commands (connectToVpn Awg whole_config s) =
    [Client.activation (resolved_config
       (Connection.connectToVpn_config empty_settings whole_config))].
Proof.
  apply (connect_sends_activation Awg whole_config
           (setRepositories (new_connection empty_settings Awg)));
    [right; left; reflexivity|reflexivity|reflexivity].
Defined.

Lemma disconnect_exact_witness :
  let t := disconnectFromVpn sample_connected in
  m_vpnProtocol t = None /\ m_connectionState t = Vpn.Disconnected /\
  commands t = commands sample_connected ++ [deactivate_command; deactivate_command].
Proof.
  destruct sample_connected_facts as (_ & Ep & Hw & Ec).
  destruct (disconnect_exact _ _ _ Ep Hw Ec) as (H1 & H2 & H3 & _).
  split; [exact H1|]. split; [apply H3; vm_compute; discriminate|]. rewrite H2. f_equal.
Defined.

(** A connection that is given up before the daemon's first status: the activation is written,
    the socket is there, and nothing takes the activation back. *)
Theorem early_disconnect_leaves_activation :
  let s := connection_run [SetRepositories; Connect Awg whole_config; Socket Client.SocketConnected; Disconnect]
             (new_connection empty_settings Awg) in
  m_connectionState s = Vpn.Disconnected /\ m_vpnProtocol s = None /\
  commands s = [Client.activation (resolved_config (Connection.connectToVpn_config empty_settings whole_config));
                oof [("type", JStr "status")]].
Proof. split_and!; vm_compute; reflexivity. Qed.

(** The request to disconnect is delivered while the connection waits for the service to flush the
    names of the tunnel that has come up. *)
Definition disconnect_loop : EventLoop := {| meanwhile := fun s =>
  match rev (vouts s) with
  | Call FlushDns :: Call ResetIpStack :: _ => @disconnectFromVpn sample_world calm_loop s
  | _ => s
  end |}.

(** The connection is then given up, the daemon told to deactivate and [Disconnected] signalled,
    and yet [Connected] is shown, without a protocol, from then on. *)
Theorem disconnect_meanwhile_overwritten :
  let s := @connection_run _ _ disconnect_loop sample_session (new_connection empty_settings Awg) in
  m_vpnProtocol s = None /\ m_connectionState s = Vpn.Connected /\
  signals s = [Vpn.Connecting; Vpn.Disconnecting; Vpn.Disconnected; Vpn.Connected] /\
  last (commands s) = Some deactivate_command.
Proof. split_and!; vm_compute; reflexivity. Qed.

Definition disconnected_message : obj := oof [("type", JStr "disconnected")].

Definition sample_failure : list Client.client_event := [Client.Input (frame disconnected_message)].

Lemma reconnect_waits_witness :
  signals (reconnectToVpn sample_connected) = signals sample_connected ++ [Vpn.Reconnecting] /\
  m_connectionState (connection_run (map Socket sample_failure) (reconnectToVpn sample_connected))
    = Vpn.Reconnecting.
Proof.
  destruct sample_connected_facts as (Hc & Ep & Hw & Ec).
  pose proof (reconnect_waits _ _ sample_failure _ Hc Ep Hw Ec) as Hx. cbv zeta in Hx.
  destruct Hx as (H1 & _ & H3). split; [exact H1|]. refine (proj1 (H3 _)).
  apply (bool_decide_eq_true_1 (not (true ∈ _))). vm_compute. reflexivity.
Defined.

(** One name, whose answer brings two addresses. *)
Definition named_settings : Settings.settings :=
  (Settings.addVpnSite 2 "example.com" [] empty_settings).2.
Definition named_connection : VpnConnection := setRepositories (new_connection named_settings OpenVpn).
Definition sample_answers : list (lookup * list string) :=
  [(mkLookup "example.com" "10.8.0.1" 2 [] 0, ["203.0.113.9"; "203.0.113.10"; "203.0.113.9"])].

Lemma lookups_flush_once_witness :
  let t := addSitesRoutes "10.8.0.1" 2 named_connection in
  vouts (fold_left (answer) sample_answers t) =
  vouts t ++ [Call (RouteAddList "10.8.0.1" ["203.0.113.9"]);
              Call (RouteAddList "10.8.0.1" ["203.0.113.10"]); Call FlushDns].
Proof.
  assert (Hr : forall l, service_ready l = true) by reflexivity.
  destruct (lookups_flush_once Hr "10.8.0.1" 2 named_connection sample_answers)
    as [_ H2]; [reflexivity|vm_compute; reflexivity|].
  exact H2.
Defined.
