(* ===== verification/Obfuscation.v ===== *)
(** * Packets that look like DNS

    [client/core/utils/tunnelCoreObfuscation.h], which writes the expressions I1 to I5 that
    AmneziaWG sends before a handshake, and their use in [connectionController.cpp]
    ([replaceAwgNativeParameter], [applyTunnelCoreDynamicObfuscation]).

    A [QByteArray] is a string of bytes.  The random generator and SHA-256 are the class [Chance].
    The regular expressions of [replaceAwgNativeParameter] are written out as the scan they
    stand for: leading blanks, which may span lines, belong to the match. *)

From S2P Require Import Prelude Json Lines ProtocolConfigs.

(** [bounded i n] is the [i]-th number drawn from [QRandomGenerator::system()], with
    [bounded(n)]. *)
Class Chance := {
  bounded : nat -> Z -> Z;
  bounded_range : forall i n, (0 < n)%Z -> (0 <= bounded i n < n)%Z;
  sha256_bytes : string -> string
}.

(** ** Hexadecimal *)

Definition hex_digit (n : N) : ascii :=
  if (n <? 10)%N then ascii_of_N (48 + n) else ascii_of_N (87 + n).

(** [QByteArray::toHex]. *)
Fixpoint toHex (s : string) : string :=
  match s with
  | EmptyString => ""
  | String c r =>
      let n := N_of_ascii c in String (hex_digit (n / 16)) (String (hex_digit (n mod 16)) (toHex r))
  end.

Definition byte (n : Z) : ascii := ascii_of_N (Z.to_N (n mod 256)).

Definition hexU16 (value : Z) : string :=
  let v := (value mod 2 ^ 16)%Z in
  toHex (String (byte (Z.land (Z.shiftr v 8) 255)) (String (byte (Z.land v 255)) "")).

(** ** Queries *)

(** A label is preceded by its length; an empty or a long one makes the name invalid. *)
Fixpoint encode_labels (labels : list string) : option string :=
  match labels with
  | [] => Some ""
  | label :: r =>
      if str_empty label || (63 <? String.length label)%nat then None
      else match encode_labels r with
           | Some e => Some (String (byte (Z.of_nat (String.length label))) (label +:+ e))
           | None => None
           end
  end.

Definition dnsNameHex (domain : string) : string :=
  match encode_labels (split_char "." domain) with
  | None => ""
  | Some encoded => toHex (encoded +:+ String (byte 0) "")
  end.

Definition dnsQueryExpression (domain : string) (ipv6 : bool) (paddingBytes : Z) : string :=
  let qname := dnsNameHex domain in
  if str_empty qname then ""
  else
    let queryType := if ipv6 then "001c" else "0001" in
    let rdLength := hexU16 (4 + paddingBytes) in
    let paddingLength := hexU16 paddingBytes in
    "<r 2><b 0x01000001000000000001" +:+ qname +:+ queryType +:+ "000100002904d000000000"
    +:+ rdLength +:+ "000c" +:+ paddingLength +:+ "><r " +:+ pretty paddingBytes +:+ ">".

(** ** Profiles *)

Record PacketSet := mkPacketSet { ps_profile : string; ps_sourceDomain : string; packets : list string }.

Record DnsProfile := mkDnsProfile { dp_key : string; dp_sourceDomain : string; domains : list string }.

Definition profiles : list DnsProfile :=
  [mkDnsProfile "mail_dns" "mail.ru" ["mail.ru"; "cloud.mail.ru"; "id.mail.ru"; "auth.mail.ru"; "api.mail.ru"];
   mkDnsProfile "yandex_dns" "yandex.ru"
     ["yandex.ru"; "mail.yandex.ru"; "passport.yandex.ru"; "disk.yandex.ru"; "api.yandex.ru"];
   mkDnsProfile "vk_dns" "vk.com" ["vk.com"; "api.vk.com"; "id.vk.com"; "static.vk.com"; "oauth.vk.com"]].

Section Generate.
Context `{Chance}.

(** The first four bytes of the digest as a [quint32]. *)
Fixpoint digest_value (n : nat) (value : Z) (digest : string) : Z :=
  match n, digest with
  | S n, String c r => digest_value n (Z.lor (wrap32 (Z.shiftl value 8)) (Z.of_N (N_of_ascii c))) r
  | _, _ => value
  end.

Definition stableProfileIndex (stableProfileKey : string) (profileCount : Z) : Z :=
  if str_empty stableProfileKey || (profileCount <=? 0)%Z then -1
  else digest_value 4 0 (sha256_bytes stableProfileKey) mod profileCount.

Fixpoint profile_index (i : nat) (requested : string) (l : list DnsProfile) : option nat :=
  match l with
  | [] => None
  | p :: r => if String.eqb requested (dp_key p) then Some i else profile_index (S i) requested r
  end.

(** The profile, and how many numbers were drawn. *)
Definition choose_profile (requestedProfile stableProfileKey : string) : nat * nat :=
  let requested := to_lower (trimmed requestedProfile) in
  match (if negb (str_empty requested) && negb (String.eqb requested "auto")
         then profile_index 0 requested profiles else None) with
  | Some i => (i, 0)
  | None =>
      let pinnedIndex := stableProfileIndex stableProfileKey (Z.of_nat (length profiles)) in
      if (0 <=? pinnedIndex)%Z then (Z.to_nat pinnedIndex, 0)
      else (Z.to_nat (bounded 0 (Z.of_nat (length profiles))), 1)
  end.

Definition minPadding (i : nat) : Z := 24 + Z.of_nat i * 7.
Definition maxPaddingExclusive (i : nat) : Z := 72 + Z.of_nat i * 11.

(** The [i]-th packet; [drawn] numbers were drawn before it. *)
Definition packet (l : list string) (domainOffset : Z) (drawn i : nat) : string :=
  let domain := default "" (l !! Z.to_nat ((domainOffset + Z.of_nat i) mod Z.of_nat (length l))) in
  let ipv6 := (bounded drawn 2 =? 1)%Z in
  let paddingBytes := (minPadding i + bounded (S drawn) (maxPaddingExclusive i - minPadding i))%Z in
  dnsQueryExpression domain ipv6 paddingBytes.

Definition generate (requestedProfile stableProfileKey : string) : PacketSet :=
  let '(profileIndex, drawn) := choose_profile requestedProfile stableProfileKey in
  let profile := default (mkDnsProfile "" "" []) (profiles !! profileIndex) in
  let domainOffset := bounded drawn (Z.of_nat (length (domains profile))) in
  mkPacketSet (dp_key profile) (dp_sourceDomain profile)
    (map (fun i => packet (domains profile) domainOffset (S drawn + 2 * i) i) (seq 0 5)).
End Generate.

(** ** The configuration that gets them *)

(** The text after [key], if the string starts with it in any case. *)
Fixpoint after_ci (key s : string) : option string :=
  match key, s with
  | EmptyString, _ => Some s
  | String k key, String c s =>
      if Ascii.eqb (lower_char k) (lower_char c) then after_ci key s else None
  | _, _ => None
  end.

(** The rest of the text from the end of the line on. *)
Fixpoint to_line_end (s : string) : string :=
  match s with
  | String c r => if Ascii.eqb c LF then s else to_line_end r
  | EmptyString => ""
  end.

(** [^\s*key\s*=.*$] at the start of a line: the text after the match. *)
Definition match_parameter (key s : string) : option string :=
  match after_ci key (drop_spaces s) with
  | Some r => match drop_spaces r with
              | String "=" r => Some (to_line_end r)
              | _ => None
              end
  | None => None
  end.

(** Blanks up to the end of the line. *)
Fixpoint blank_line (s : string) : bool :=
  match s with
  | String c r => Ascii.eqb c LF || (is_space c && blank_line r)
  | EmptyString => true
  end.

(** [^\s*\[Peer\]\s*$] at the start of a line. *)
Definition match_peer (s : string) : bool :=
  match after_ci "[Peer]" (drop_spaces s) with Some r => blank_line r | None => false end.

(** [QString::replace(expression, replacement)]; [line] is whether a line starts here. *)
Fixpoint replace_all (fuel : nat) (key replacement : string) (line : bool) (s : string) : string :=
  match fuel with
  | O => s
  | S fuel =>
      match (if line then match_parameter key s else None) with
      | Some rest => replacement +:+ replace_all fuel key replacement false rest
      | None =>
          match s with
          | EmptyString => ""
          | String c r => String c (replace_all fuel key replacement (Ascii.eqb c LF) r)
          end
      end
  end.

Fixpoint has_parameter (key : string) (line : bool) (s : string) : bool :=
  (line && match match_parameter key s with Some _ => true | None => false end)
  || match s with EmptyString => false | String c r => has_parameter key (Ascii.eqb c LF) r end.

(** The text before and from the first peer. *)
Fixpoint split_peer (line : bool) (s : string) : option (string * string) :=
  if line && match_peer s then Some ("", s)
  else match s with
       | EmptyString => None
       | String c r => match split_peer (Ascii.eqb c LF) r with
                       | Some (a, b) => Some (String c a, b)
                       | None => None
                       end
       end.

Fixpoint ends_with_newline (s : string) : bool :=
  match s with
  | EmptyString => false
  | String c EmptyString => Ascii.eqb c LF
  | String _ r => ends_with_newline r
  end.

Definition replaceAwgNativeParameter (nativeConfig key value : string) : string :=
  if str_empty nativeConfig || str_empty value then nativeConfig
  else
    let replacement := key +:+ " = " +:+ value in
    if has_parameter key true nativeConfig
    then replace_all (S (String.length nativeConfig)) key replacement true nativeConfig
    else
      match split_peer true nativeConfig with
      | Some (a, b) => a +:+ replacement +:+ nl +:+ b
      | None => (if ends_with_newline nativeConfig then nativeConfig else nativeConfig +:+ nl)
                +:+ replacement +:+ nl
      end.

(** [applyTunnelCoreDynamicObfuscation] on the container's protocol configuration of AmneziaWG;
    [None] is the return of false. *)
Definition applyTunnelCoreDynamicObfuscation `{Chance} (awg : option AwgProtocolConfig.AwgProtocolConfig)
    (requestedProfile stableProfileKey : string) : option AwgProtocolConfig.AwgProtocolConfig :=
  match awg with
  | Some awg =>
      match AwgProtocolConfig.clientConfig awg with
      | Some client =>
          match packets (generate requestedProfile stableProfileKey) with
          | [p1; p2; p3; p4; p5] as ps =>
              if existsb str_empty ps then None
              else
                let client := client <| AwgClientConfig.specialJunk1 := p1 |>
                  <| AwgClientConfig.specialJunk2 := p2 |> <| AwgClientConfig.specialJunk3 := p3 |>
                  <| AwgClientConfig.specialJunk4 := p4 |> <| AwgClientConfig.specialJunk5 := p5 |> in
                let native := AwgClientConfig.nativeConfig client in
                let native := replaceAwgNativeParameter native "I1" p1 in
                let native := replaceAwgNativeParameter native "I2" p2 in
                let native := replaceAwgNativeParameter native "I3" p3 in
                let native := replaceAwgNativeParameter native "I4" p4 in
                let native := replaceAwgNativeParameter native "I5" p5 in
                Some (awg <| AwgProtocolConfig.clientConfig :=
                  Some (client <| AwgClientConfig.nativeConfig := native |>) |>)
          | _ => None
          end
      | None => None
      end
  | None => None
  end.
