(* ===== verification/ObfuscationTheorems.v ===== *)
(** * Theorems of the packets that look like DNS

    A reader of DNS queries (RFC 1035, with the padding option of RFC 7830 in the record of
    RFC 6891) and the two tags of AmneziaWG's expressions that are used; every generated packet,
    whatever random bytes the tags become, is read as a query for the name it was made for. *)

From S2P Require Import Prelude Numbers Json Lines ProtocolConfigs Obfuscation.

(** ** The expressions *)

Definition hex_value (c : ascii) : option N :=
  let n := N_of_ascii c in
  if (48 <=? n)%N && (n <=? 57)%N then Some (n - 48)%N
  else if (97 <=? n)%N && (n <=? 102)%N then Some (n - 87)%N else None.

Fixpoint fromHex (s : string) : option string :=
  match s with
  | EmptyString => Some ""
  | String a (String b r) =>
      match hex_value a, hex_value b, fromHex r with
      | Some x, Some y, Some t => Some (String (ascii_of_N (x * 16 + y)) t)
      | _, _, _ => None
      end
  | _ => None
  end.

(** Fixed bytes, [<b 0x...>], and random ones, [<r n>]. *)
Inductive tag := Fixed (b : string) | Random (n : nat).

Fixpoint take_until (sep : ascii) (s : string) : option (string * string) :=
  match s with
  | EmptyString => None
  | String c r =>
      if Ascii.eqb c sep then Some ("", r)
      else match take_until sep r with Some (a, b) => Some (String c a, b) | None => None end
  end.

(** One tag without its closing bracket. *)
Definition read_tag (s : string) : option tag :=
  match s with
  | String "<" (String "b" (String " " (String "0" (String "x" h)))) => Fixed <$> fromHex h
  | String "<" (String "r" (String " " n)) => (fun z => Random (Z.to_nat z)) <$> digits n
  | _ => None
  end.

Fixpoint read_tags (fuel : nat) (s : string) : option (list tag) :=
  match fuel, s with
  | _, EmptyString => Some []
  | O, _ => None
  | S fuel, _ =>
      match take_until ">" s with
      | Some (t, r) => match read_tag t, read_tags fuel r with
                       | Some t, Some l => Some (t :: l)
                       | _, _ => None
                       end
      | None => None
      end
  end.

(** The bytes sent; [random i n] are the random ones of the [i]-th tag. *)
Fixpoint send (random : nat -> nat -> string) (i : nat) (l : list tag) : string :=
  match l with
  | [] => ""
  | Fixed b :: r => b +:+ send random (S i) r
  | Random n :: r => random i n +:+ send random (S i) r
  end.

(** What an expression becomes on the wire. *)
Definition wire (random : nat -> nat -> string) (e : string) : option string :=
  send random 0 <$> read_tags (String.length e) e.

(** ** DNS *)

Definition byte_value (c : ascii) : Z := Z.of_N (N_of_ascii c).

Definition u16 (s : string) : option (Z * string) :=
  match s with
  | String a (String b r) => Some ((byte_value a * 256 + byte_value b)%Z, r)
  | _ => None
  end.

Fixpoint take_bytes (n : nat) (s : string) : option (string * string) :=
  match n, s with
  | O, _ => Some ("", s)
  | S n, String c r => match take_bytes n r with Some (a, b) => Some (String c a, b) | None => None end
  | S _, EmptyString => None
  end.

Fixpoint read_name (fuel : nat) (s : string) : option (list string * string) :=
  match fuel, s with
  | S fuel, String c r =>
      if (byte_value c =? 0)%Z then Some ([], r)
      else if (63 <? byte_value c)%Z then None
      else match take_bytes (Z.to_nat (byte_value c)) r with
           | Some (label, r) => match read_name fuel r with
                                | Some (l, r) => Some (label :: l, r)
                                | None => None
                                end
           | None => None
           end
  | _, _ => None
  end.

Record dns_query := mkQuery { q_id : Z; q_name : list string; q_type : Z; q_padding : string }.

(** A field with a fixed value. *)
Definition expect (v : Z) (s : string) : option string :=
  match u16 s with Some (x, r) => if (x =? v)%Z then Some r else None | None => None end.

Fixpoint expects (l : list Z) (s : string) : option string :=
  match l with [] => Some s | v :: r => match expect v s with Some s => expects r s | None => None end end.

(** A standard query with recursion desired: one question of class IN, and one additional record:
    of type OPT (41) for the root, with a payload size of 1232, the padding option (12) alone, and
    nothing behind. *)
Definition dns_read (s : string) : option dns_query :=
  '(id, s) ← u16 s;
  s ← expects [256; 1; 0; 0; 1]%Z s;
  '(name, s) ← read_name (String.length s) s;
  '(type, s) ← u16 s;
  s ← expects [1%Z] s;
  match s with
  | String root s =>
      if negb (byte_value root =? 0)%Z then None
      else
        s ← expects [41; 1232; 0; 0]%Z s;
        s ← expects [Z.of_nat (String.length s) - 2]%Z s;
        s ← expects [12%Z] s;
        s ← expects [Z.of_nat (String.length s) - 2]%Z s;
        Some (mkQuery id name type s)
  | EmptyString => None
  end.

(** ** Hexadecimal texts *)

Lemma hex_pair c : let n := N_of_ascii c in
  hex_value (hex_digit (n / 16)) = Some (n / 16)%N /\ hex_value (hex_digit (n mod 16)) = Some (n mod 16)%N /\
  ascii_of_N (n / 16 * 16 + n mod 16) = c /\
  Ascii.eqb (hex_digit (n / 16)) ">" = false /\ Ascii.eqb (hex_digit (n mod 16)) ">" = false.
Proof. destruct c as [[] [] [] [] [] [] [] []]; vm_compute; split_and!; reflexivity. Qed.

Lemma fromHex_toHex s : fromHex (toHex s) = Some s.
Proof.
  induction s as [|c s IH]; [done|]. cbn [toHex fromHex].
  destruct (hex_pair c) as (-> & -> & E & _). rewrite IH, E. done.
Qed.

Lemma toHex_app a b : toHex (a +:+ b) = toHex a +:+ toHex b.
Proof. induction a as [|c a IH]; [done|]. rewrite string_app_cons. cbn [toHex]. by rewrite IH, !string_app_cons. Qed.

Lemma take_until_app t r : str_has ">" t = false -> take_until ">" (t +:+ String ">" r) = Some (t, r).
Proof.
  induction t as [|c t IH]; [done|]. cbn [str_has]. intros [Hc Ht]%orb_false_iff.
  rewrite string_app_cons. cbn [take_until]. by rewrite Ascii.eqb_sym, Hc, IH.
Qed.

Lemma hex_no_close s : str_has ">" (toHex s) = false.
Proof.
  induction s as [|c s IH]; [done|]. cbn [toHex str_has].
  destruct (hex_pair c) as (_ & _ & _ & H1 & H2). rewrite Ascii.eqb_sym, H1, Ascii.eqb_sym, H2. exact IH.
Qed.

Lemma digits_no_close s : str_forall is_digit s = true -> str_has ">" s = false.
Proof.
  induction s as [|c s IH]; [done|]. cbn [str_forall str_has]. intros [Hc Hs]%andb_true_iff.
  rewrite IH by done. by destruct c as [[] [] [] [] [] [] [] []].
Qed.

(** ** Names *)

Lemma byte_value_byte n : (0 <= n < 256)%Z -> byte_value (byte n) = n.
Proof.
  intros Hn. unfold byte_value, byte. rewrite Z.mod_small by lia.
  rewrite N_ascii_embedding by lia. lia.
Qed.

Lemma take_bytes_app a r : take_bytes (String.length a) (a +:+ r) = Some (a, r).
Proof. induction a as [|c a IH]; [done|]. rewrite string_app_cons. cbn [take_bytes String.length]. by rewrite IH. Qed.

Lemma read_encoded labels : forall e fuel r, encode_labels labels = Some e ->
  (length labels < fuel)%nat -> read_name fuel (e +:+ String (byte 0) r) = Some (labels, r).
Proof.
  induction labels as [|l labels IH]; intros e fuel r; cbn [encode_labels].
  { intros [= <-]. destruct fuel; [cbn; lia|done]. }
  destruct (str_empty l) eqn:El; cbn [orb]; [done|].
  destruct (63 <? String.length l)%nat eqn:E6; [done|]. apply Nat.ltb_ge in E6.
  destruct (encode_labels labels) as [e'|] eqn:Ee; [|done]. intros [= <-].
  destruct fuel as [|fuel]; cbn [length]; [lia|]. intros Hf.
  assert (0 < String.length l)%nat by (destruct l; [done|cbn; lia]).
  rewrite string_app_cons. cbn [read_name]. rewrite byte_value_byte by lia.
  destruct (Z.eqb_spec (Z.of_nat (String.length l)) 0); [lia|].
  destruct (Z.ltb_spec 63 (Z.of_nat (String.length l))); [lia|].
  rewrite Nat2Z.id, string_app_assoc, take_bytes_app, (IH e') by (done || lia). done.
Qed.

Lemma encode_length labels e : encode_labels labels = Some e -> (length labels <= String.length e)%nat.
Proof.
  revert e. induction labels as [|l labels IH]; intros e; cbn [encode_labels]; [cbn; lia|].
  destruct (_ || _); [done|]. destruct (encode_labels labels) as [e'|]; [|done]. intros [= <-].
  specialize (IH e' eq_refl). cbn [String.length length]. rewrite string_length_app. lia.
Qed.

(** ** A query *)

Definition random_ok (random : nat -> nat -> string) : Prop := forall i n, String.length (random i n) = n.

(** The fixed bytes between the identifier and the padding. *)
Definition two (v : Z) : string :=
  String (byte (Z.land (Z.shiftr (v mod 2 ^ 16) 8) 255)) (String (byte (Z.land (v mod 2 ^ 16) 255)) "").

Definition header : string :=
  bytes [two 256; two 1; two 0; two 0; two 1].

Definition opt_record : string := bytes [two 1; String (byte 0) ""; two 41; two 1232; two 0; two 0].

Definition body (encoded : string) (ipv6 : bool) (n : Z) : string :=
  header +:+ (encoded +:+ String (byte 0) "") +:+ two (if ipv6 then 28 else 1) +:+ opt_record +:+
  two (4 + n) +:+ two 12 +:+ two n.

Lemma expression_tags domain encoded ipv6 n :
  encode_labels (split_char "." domain) = Some encoded ->
  dnsQueryExpression domain ipv6 n =
  "<r 2>" +:+ "<b 0x" +:+ toHex (body encoded ipv6 n) +:+ String ">" ("<r " +:+ pretty n +:+ String ">" "").
Proof.
  intros E. unfold dnsQueryExpression, dnsNameHex. rewrite E.
  assert (str_empty (toHex (encoded +:+ String (byte 0) "")) = false) as -> by (by destruct encoded).
  unfold body. rewrite !toHex_app, !string_app_assoc.
  change (toHex header) with "01000001000000000001".
  change (toHex opt_record) with "000100002904d000000000".
  change (toHex (two 12)) with "000c". change (toHex (two (4 + n))) with (hexU16 (4 + n)).
  change (toHex (two n)) with (hexU16 n).
  assert (toHex (two (if ipv6 then 28 else 1)) = (if ipv6 then "001c" else "0001"))
    as -> by (by destruct ipv6).
  reflexivity.
Qed.

Lemma read_tags_cons fuel t r v : str_has ">" t = false -> read_tag t = Some v ->
  read_tags (S fuel) (t +:+ String ">" r) = cons v <$> read_tags fuel r.
Proof.
  intros Ht Hv. pose proof (take_until_app t r Ht) as Hu. cbn [read_tags].
  destruct (t +:+ String ">" r) eqn:E; [by destruct t|].
  rewrite Hu, Hv. by destruct (read_tags fuel r).
Qed.

Lemma expression_wire random domain encoded ipv6 n : (0 <= n)%Z ->
  encode_labels (split_char "." domain) = Some encoded ->
  wire random (dnsQueryExpression domain ipv6 n) =
  Some (random 0 2 +:+ body encoded ipv6 n +:+ random 2 (Z.to_nat n)).
Proof.
  intros Hn E. rewrite (expression_tags _ _ _ _ E). unfold wire.
  set (b := body encoded ipv6 n). set (h := toHex b).
  destruct (pretty_digits n Hn) as (Hd & Hall & Hne).
  set (r2 := "<r " +:+ pretty n +:+ String ">" ""). set (r1 := "<b 0x" +:+ h +:+ String ">" r2).
  assert (Hf : exists k, String.length ("<r 2>" +:+ r1) = S (S (S k))) by (eexists; reflexivity).
  destruct Hf as [k ->].
  change ("<r 2>" +:+ r1) with ("<r 2" +:+ String ">" r1).
  rewrite (read_tags_cons _ "<r 2" r1 (Random 2)) by done.
  assert (r1 = ("<b 0x" +:+ h) +:+ String ">" r2) as -> by (unfold r1; by rewrite string_app_assoc).
  rewrite (read_tags_cons _ _ r2 (Fixed b)).
  2: { rewrite str_has_app. unfold h. by rewrite (hex_no_close b). }
  2: { change (read_tag ("<b 0x" +:+ h)) with (Fixed <$> fromHex h). unfold h. by rewrite fromHex_toHex. }
  assert (r2 = ("<r " +:+ pretty n) +:+ String ">" "") as -> by (unfold r2; by rewrite string_app_assoc).
  rewrite (read_tags_cons _ _ "" (Random (Z.to_nat n))).
  2: { rewrite str_has_app. by rewrite (digits_no_close (pretty n)). }
  2: { change (read_tag ("<r " +:+ pretty n)) with ((fun z => Random (Z.to_nat z)) <$> digits (pretty n)).
       unfold digits. destruct (pretty n); [done|]. by rewrite Hd. }
  assert (read_tags k "" = Some []) as -> by (by destruct k).
  cbn. by rewrite string_app_nil_r.
Qed.

Lemma u16_two v r : (0 <= v < 2 ^ 16)%Z -> u16 (two v +:+ r) = Some (v, r).
Proof.
  intros Hv. unfold two. rewrite !string_app_cons. cbn [u16]. rewrite Z.mod_small by done.
  change 255%Z with (Z.ones 8). rewrite !Z.land_ones, Z.shiftr_div_pow2 by lia.
  change (2 ^ 8)%Z with 256%Z.
  assert (0 <= v / 256 < 256)%Z by (split; [apply Z.div_pos; lia|apply Z.div_lt_upper_bound; lia]).
  rewrite (Z.mod_small (v / 256)) by done.
  pose proof (Z.mod_pos_bound v 256 ltac:(lia)). rewrite !byte_value_byte by done.
  do 2 f_equal. rewrite (Z.div_mod v 256) at 3 by lia. lia.
Qed.

Lemma expects_two l v r : (0 <= v < 2 ^ 16)%Z -> expects (v :: l) (two v +:+ r) = expects l r.
Proof. intros Hv. cbn [expects]. unfold expect. rewrite u16_two, Z.eqb_refl by done. done. Qed.

Lemma string_nil_app s : "" +:+ s = s.
Proof. done. Qed.

Lemma expects_nil s : expects [] s = Some s.
Proof. done. Qed.

Lemma two_length v : String.length (two v) = 2.
Proof. done. Qed.

(** Go on after a field that was read. *)
Ltac next := rewrite ?expects_nil; cbn [mbind option_bind]; cbv beta iota.

(** The bytes of an expression are read as its query. *)
Lemma body_read id padding encoded labels ipv6 n :
  encode_labels labels = Some encoded -> (0 <= n <= 65531)%Z ->
  String.length id = 2 -> String.length padding = Z.to_nat n ->
  exists i, dns_read (id +:+ body encoded ipv6 n +:+ padding) =
    Some (mkQuery i labels (if ipv6 then 28 else 1) padding).
Proof.
  intros He Hn Hid Hp. destruct id as [|a [|b [|]]]; try done.
  exists (byte_value a * 256 + byte_value b)%Z. unfold dns_read, body, header, opt_record, bytes.
  cbn [foldr]. rewrite !string_app_assoc, !string_app_cons, !string_nil_app.
  cbn [u16]. next. rewrite !expects_two by lia. next. 
  rewrite (read_encoded labels encoded) by
    (try done; pose proof (encode_length _ _ He); rewrite string_length_app; cbn [String.length]; lia).
  next. rewrite u16_two by (by destruct ipv6). next.
  rewrite expects_two by lia. next.
  rewrite byte_value_byte by lia. cbn [Z.eqb negb].
  rewrite !expects_two by lia. next.
  rewrite !string_length_app, !two_length, Hp.
  replace (Z.of_nat _ - 2)%Z with (4 + n)%Z by lia.
  rewrite expects_two by lia. next.
  rewrite expects_two by lia. next.
  rewrite string_length_app, two_length, Hp.
  replace (Z.of_nat _ - 2)%Z with n by lia.
  rewrite expects_two by lia. reflexivity.
Qed.

(** Some bytes. *)
Fixpoint filler (n : nat) : string := match n with O => "" | S n => String "a" (filler n) end.

Definition sample_random (i n : nat) : string := filler n.

Lemma sample_random_ok : random_ok sample_random.
Proof. intros i n. unfold sample_random. induction n as [|n IH]; [done|]. cbn [filler String.length]. by rewrite IH. Qed.

(** ** The generator *)

Section Generator.
Context `{Chance}.

Lemma profile_index_spec r l : forall i j, profile_index i r l = Some j ->
  exists p, (i <= j)%nat /\ l !! (j - i)%nat = Some p /\ dp_key p = r.
Proof.
  induction l as [|p l IH]; intros i j; cbn [profile_index]; [done|].
  destruct (String.eqb_spec r (dp_key p)) as [->|Hne].
  - intros [= <-]. exists p. by rewrite Nat.sub_diag.
  - intros (q & Hij & Hq & Hk)%IH. exists q. split; [lia|]. split; [|done].
    replace (j - i)%nat with (S (j - S i)) by lia. done.
Qed.

Lemma profile_index_found p : p ∈ profiles ->
  exists i, profile_index 0 (dp_key p) profiles = Some i /\ profiles !! i = Some p.
Proof.
  intros Hp. apply list_elem_of_In in Hp. cbn in Hp.
  destruct Hp as [<-|[<-|[<-|[]]]]; [exists 0|exists 1|exists 2]; split; reflexivity.
Qed.

Lemma stable_range key : key <> "" ->
  (0 <= stableProfileIndex key (Z.of_nat (length profiles)) < 3)%Z.
Proof.
  intros Hk. unfold stableProfileIndex. apply str_empty_false in Hk as ->. cbn [orb].
  change (Z.of_nat (length profiles) <=? 0)%Z with false. cbv iota. apply Z.mod_pos_bound. done.
Qed.

Lemma choose_range req key : ((choose_profile req key).1 < 3)%nat.
Proof.
  unfold choose_profile. set (r := to_lower (trimmed req)).
  set (ask := negb (str_empty r) && negb (String.eqb r "auto")).
  destruct (if ask then profile_index 0 r profiles else None) as [i|] eqn:E.
  - cbn [fst]. destruct ask; [|done]. apply profile_index_spec in E as (p & _ & Hp & _).
    apply lookup_lt_Some in Hp. cbn in Hp. lia.
  - cbv zeta. destruct (decide (key = "")) as [->|Hk].
    + change (0 <=? stableProfileIndex "" _)%Z with false. cbn [fst].
      pose proof (bounded_range 0 3 ltac:(lia)). change (Z.of_nat (length profiles)) with 3%Z. lia.
    + pose proof (stable_range key Hk). destruct (Z.leb_spec 0 (stableProfileIndex key (Z.of_nat (length profiles)))).
      * cbn [fst]. lia.
      * lia.
Qed.

(** The names of the profiles can be asked for. *)
Definition askable (d : string) : bool :=
  match encode_labels (split_char "." d) with
  | Some e => (String.length e <=? 20)%nat
  | None => false
  end.

Lemma names_askable p d : p ∈ profiles -> d ∈ domains p ->
  exists e, encode_labels (split_char "." d) = Some e /\ (String.length e <= 20)%nat.
Proof.
  intros Hp Hd.
  assert (Hall : forallb (fun p => forallb askable (domains p)) profiles = true) by (vm_compute; reflexivity).
  rewrite forallb_forall in Hall. specialize (Hall p (proj1 (list_elem_of_In _ _) Hp)).
  rewrite forallb_forall in Hall. specialize (Hall d (proj1 (list_elem_of_In _ _) Hd)).
  unfold askable in Hall. destruct (encode_labels _) as [e|]; [|done]. exists e. split; [done|].
  by apply Nat.leb_le.
Qed.

Lemma five_names p : p ∈ profiles -> length (domains p) = 5 /\ NoDup (domains p).
Proof.
  intros Hp. apply list_elem_of_In in Hp. cbn in Hp.
  destruct Hp as [<-|[<-|[<-|[]]]]; (split; [reflexivity|]); apply (bool_decide_unpack _); vm_compute; exact I.
Qed.

(** One packet. *)
Lemma packet_is_query random p offset drawn i : random_ok random -> p ∈ profiles ->
  (0 <= offset)%Z -> (i < 5)%nat ->
  exists d w id type padding,
    domains p !! ((Z.to_nat offset + i) mod 5)%nat = Some d /\
    wire random (packet (domains p) offset drawn i) = Some w /\
    dns_read w = Some (mkQuery id (split_char "." d) type padding) /\
    (type = 1 \/ type = 28)%Z /\
    (minPadding i <= Z.of_nat (String.length padding) < maxPaddingExclusive i)%Z /\
    (String.length w <= 200)%nat.
Proof.
  intros Hr Hp Ho Hi. destruct (five_names p Hp) as [H5 _].
  set (j := ((Z.to_nat offset + i) mod 5)%nat).
  assert (Hj : (j < length (domains p))%nat) by (rewrite H5; apply Nat.mod_upper_bound; lia).
  destruct (lookup_lt_is_Some_2 _ _ Hj) as [d Hd]. destruct (names_askable p d Hp) as (e & He & Hl).
  { by eapply list_elem_of_lookup_2. }
  unfold packet. rewrite H5.
  replace (Z.to_nat ((offset + Z.of_nat i) mod Z.of_nat 5)) with j.
  2: { unfold j. rewrite <- (Nat2Z.id ((Z.to_nat offset + i) mod 5)), Nat2Z.inj_mod. do 2 f_equal. lia. }
  rewrite Hd. cbn [default]. cbv zeta.
  set (m := bounded (S drawn) (maxPaddingExclusive i - minPadding i)).
  assert (Hm : (0 <= m < maxPaddingExclusive i - minPadding i)%Z).
  { apply bounded_range. unfold minPadding, maxPaddingExclusive. lia. }
  set (n := (minPadding i + m)%Z). assert (Hn : (24 <= n <= 115)%Z).
  { unfold n, minPadding, maxPaddingExclusive in *. lia. }
  set (v6 := (bounded drawn 2 =? 1)%Z). exists d, (random 0 2 +:+ body e v6 n +:+ random 2 (Z.to_nat n)).
  destruct (body_read (random 0 2) (random 2 (Z.to_nat n)) e (split_char "." d) v6 n He ltac:(lia)
              (Hr _ _) (Hr _ _)) as [id Hid].
  exists id, (if v6 then 28 else 1)%Z, (random 2 (Z.to_nat n)). split; [done|].
  split; [apply expression_wire; [lia|done]|]. split; [exact Hid|]. split; [destruct v6; auto|].
  rewrite Hr. split; [unfold n in *; lia|].
  unfold body. rewrite !string_length_app, !Hr, !two_length.
  change (String.length header) with 10. change (String.length opt_record) with 11. cbn [String.length]. lia.
Qed.

(** The profile that is used. *)
Definition family (req key : string) : DnsProfile :=
  default (mkDnsProfile "" "" []) (profiles !! (choose_profile req key).1).

Lemma family_known req key : family req key ∈ profiles.
Proof.
  unfold family. pose proof (choose_range req key).
  destruct (lookup_lt_is_Some_2 profiles (choose_profile req key).1) as [p Hp]; [done|].
  rewrite Hp. by eapply list_elem_of_lookup_2.
Qed.

Lemma family_asked req key p : p ∈ profiles -> to_lower (trimmed req) = dp_key p -> family req key = p.
Proof.
  intros Hp Hr. unfold family, choose_profile. rewrite Hr.
  destruct (profile_index_found p Hp) as (i & Hi & Hl).
  assert (negb (str_empty (dp_key p)) && negb (String.eqb (dp_key p) "auto") = true) as ->.
  { apply list_elem_of_In in Hp. cbn in Hp. by destruct Hp as [<-|[<-|[<-|[]]]]. }
  rewrite Hi. cbn [fst]. by rewrite Hl.
Qed.

Lemma generate_unfold req key : exists drawn offset, (0 <= offset)%Z /\
  generate req key = mkPacketSet (dp_key (family req key)) (dp_sourceDomain (family req key))
    (map (fun i => packet (domains (family req key)) offset (drawn + 2 * i) i) (seq 0 5)).
Proof.
  pose proof (five_names _ (family_known req key)) as [H5 _]. unfold generate.
  destruct (choose_profile req key) as [i drawn] eqn:E.
  assert (Ef : default (mkDnsProfile "" "" []) (profiles !! i) = family req key)
    by (unfold family; by rewrite E).
  cbv zeta. rewrite Ef, H5. exists (S drawn), (bounded drawn 5).
  split; [apply bounded_range; lia|done].
Qed.

(** C18: the packets sent before a handshake pass for name queries.  Whatever is requested and
    drawn, the generator makes five expressions of one family of names; whatever random bytes
    AmneziaWG puts in, the i-th is read as one complete DNS query, for the i-th name of the family
    from some offset on, of type A or AAAA, with a padding option of its own range of lengths and
    nothing behind it, in at most 200 bytes.  A family asked for by name is the one used. *)
Theorem generated_packets_are_queries random req key : random_ok random ->
  exists p offset, p ∈ profiles /\ NoDup (domains p) /\
    ps_profile (generate req key) = dp_key p /\
    ps_sourceDomain (generate req key) = dp_sourceDomain p /\
    (forall q, q ∈ profiles -> to_lower (trimmed req) = dp_key q -> p = q) /\
    length (packets (generate req key)) = 5 /\
    forall i, (i < 5)%nat -> exists e d w id type padding,
      packets (generate req key) !! i = Some e /\
      domains p !! ((offset + i) mod 5)%nat = Some d /\
      wire random e = Some w /\
      dns_read w = Some (mkQuery id (split_char "." d) type padding) /\
      (type = 1 \/ type = 28)%Z /\
      (minPadding i <= Z.of_nat (String.length padding) < maxPaddingExclusive i)%Z /\
      (String.length w <= 200)%nat.
Proof.
  intros Hr. destruct (generate_unfold req key) as (drawn & offset & Ho & ->).
  exists (family req key), (Z.to_nat offset). pose proof (family_known req key) as Hf.
  split; [done|]. split; [by apply five_names|]. split; [done|]. split; [done|].
  split; [intros q Hq Hk; by apply family_asked|]. split; [done|]. intros i Hi.
  destruct (packet_is_query random _ offset (drawn + 2 * i) i Hr Hf Ho Hi)
    as (d & w & id & type & padding & Hx).
  exists (packet (domains (family req key)) offset (drawn + 2 * i) i), d, w, id, type, padding.
  split; [|exact Hx]. cbn [packets]. rewrite list_lookup_fmap.
  rewrite lookup_seq_lt by done. done.
Qed.

(** No packet is empty, so that the configuration always gets them. *)
Lemma packets_there req key : exists p1 p2 p3 p4 p5,
  packets (generate req key) = [p1; p2; p3; p4; p5] /\
  existsb str_empty [p1; p2; p3; p4; p5] = false.
Proof.
  destruct (generate_unfold req key) as (drawn & offset & Ho & ->). cbn [packets map seq].
  do 5 eexists. split; [reflexivity|].
  assert (Hp : forall i, (i < 5)%nat ->
    str_empty (packet (domains (family req key)) offset (drawn + 2 * i) i) = false).
  { intros i Hi.
    destruct (packet_is_query sample_random _ offset (drawn + 2 * i) i sample_random_ok (family_known req key) Ho Hi)
      as (d & w & id & type & padding & _ & Hw & Hd & _).
    apply str_empty_false. intros E. rewrite E in Hw. cbn in Hw. injection Hw as <-. done. }
  cbn [existsb]. rewrite !Hp by lia. done.
Qed.
End Generator.

(** The family does not depend on what is drawn when the account has a key: reconnections stay
    with it. *)
Theorem family_stable (c1 c2 : Chance) req key : key <> "" ->
  @sha256_bytes c1 key = @sha256_bytes c2 key -> @family c1 req key = @family c2 req key.
Proof.
  intros Hk Hs. unfold family, choose_profile, stableProfileIndex. rewrite <- Hs.
  match goal with |- context [if ?b then profile_index ?i ?r ?l else None] =>
    destruct (if b then profile_index i r l else None) end; [done|].
  apply str_empty_false in Hk as ->. cbn [orb].
  change (Z.of_nat (length profiles) <=? 0)%Z with false. cbv iota zeta.
  set (x := (_ mod _)%Z). assert (0 <= x)%Z by (apply Z.mod_pos_bound; done).
  by rewrite (proj2 (Z.leb_le 0 x)) by done.
Qed.

(** A client configuration of AmneziaWG gets the five packets, in its fields and in its text, and
    keeps the rest; the static ones are never fallen back to. *)
Theorem dynamic_obfuscation_applied `{Chance} awg client req key :
  AwgProtocolConfig.clientConfig awg = Some client ->
  exists p1 p2 p3 p4 p5 client',
    packets (generate req key) = [p1; p2; p3; p4; p5] /\
    applyTunnelCoreDynamicObfuscation (Some awg) req key =
      Some (awg <| AwgProtocolConfig.clientConfig := Some client' |>) /\
    client' = client <| AwgClientConfig.specialJunk1 := p1 |> <| AwgClientConfig.specialJunk2 := p2 |>
      <| AwgClientConfig.specialJunk3 := p3 |> <| AwgClientConfig.specialJunk4 := p4 |>
      <| AwgClientConfig.specialJunk5 := p5 |>
      <| AwgClientConfig.nativeConfig := AwgClientConfig.nativeConfig client' |>.
Proof.
  intros Hc. destruct (packets_there req key) as (p1 & p2 & p3 & p4 & p5 & Hp & He).
  unfold applyTunnelCoreDynamicObfuscation. rewrite Hc, Hp, He. cbv zeta iota.
  do 6 eexists. split; [reflexivity|]. split; [reflexivity|]. reflexivity.
Qed.

(** ** Witnesses *)

Definition sample_chance : Chance.
Proof.
  refine {| bounded := fun _ n => (n - 1)%Z; sha256_bytes := fun s => s |}. intros _ n Hn. lia.
Defined.

#[local] Existing Instance sample_chance.

Lemma generated_packets_are_queries_witness :
  exists p offset, p ∈ profiles /\ ps_profile (generate " VK_dns " "") = dp_key p /\ dp_key p = "vk_dns" /\
    exists e d w id type padding, packets (generate " VK_dns " "") !! 0 = Some e /\
      domains p !! ((offset + 0) mod 5)%nat = Some d /\ wire sample_random e = Some w /\
      dns_read w = Some (mkQuery id (split_char "." d) type padding).
Proof.
  destruct (generated_packets_are_queries sample_random " VK_dns " "" sample_random_ok)
    as (p & offset & Hp & _ & Hk & _ & Hq & _ & Hi).
  exists p, offset. split; [exact Hp|]. split; [exact Hk|].
  split; [rewrite <- Hk; vm_compute; reflexivity|].
  destruct (Hi 0 ltac:(lia)) as (e & d & w & id & type & padding & H1 & H2 & H3 & H4 & _).
  exists e, d, w, id, type, padding. split_and!; assumption.
Defined.
