(* ===== verification/Router.v ===== *)
(** * The router of the service on Linux

    [service/server/router.cpp], [service/server/router_linux.{h,cpp}] and the part of
    [ipc/ipcserver.cpp] that passes the connection's calls on to them: routes through [ioctl],
    programs run with [QProcess], and the removal of a device through netlink.  The addresses in
    texts are those of [client/core/utils/networkUtilities.cpp].  Logging and the resolvers
    ([DnsUtilsLinux]) are left out. *)

From S2P Require Import Prelude Numbers Lines IpAddress InterfaceConfig SplitTunneling VpnConnection.

(** ** Addresses in texts *)

Definition netMaskFromIpWithSubnet (ip : string) : string :=
  if negb (str_contains "/" ip) then "255.255.255.255"
  else match split_char "/" ip with
       | _ :: p :: _ =>
           match text_to_int p with
           | Some prefix =>
               if (prefix <? 0)%Z || (32 <? prefix)%Z then "255.255.255.255"
               else
                 let mask := (if prefix =? 0 then 0 else wrap32 (Z.shiftl 4294967295 (32 - prefix)))%Z in
                 pretty (Z.shiftr mask 24) +:+ "." +:+ pretty (Z.land (Z.shiftr mask 16) 255) +:+ "."
                 +:+ pretty (Z.land (Z.shiftr mask 8) 255) +:+ "." +:+ pretty (Z.land mask 255)
           | None => "255.255.255.255"
           end
       | _ => "255.255.255.255"
       end.

Definition ipAddressFromIpWithSubnet (ip : string) : string :=
  if negb (Nat.eqb (count_char "." ip) 3) then ""
  else default "" (head (split_char "/" ip)).

(** ** The system *)

(** [struct rtentry] with [RTF_UP | RTF_GATEWAY] and metric 0, as [inet_addr] fills it. *)
Record rtentry := mkRoute { rt_dst : Z; rt_genmask : Z; rt_gateway : Z }.

#[export] Instance rtentry_eq_dec : EqDecision rtentry.
Proof. solve_decision. Defined.

#[export] Instance rtentry_countable : Countable rtentry.
Proof.
  refine (inj_countable' (fun r => (rt_dst r, rt_genmask r, rt_gateway r))
            (fun '(d, m, g) => mkRoute d m g) _). by intros [].
Defined.

(** What became of a program: [waitForStarted] or [waitForFinished] timed out or failed, or it
    ended with a code.  [exitCode] of a program that was never started is 0. *)
Inductive outcome := NotStarted | NotFinished | Finished (code : Z).

Definition exitCode (o : outcome) : Z := match o with Finished c => c | _ => 0 end.

(** The kernel's table is a set of routes.  [SIOCADDRT] refuses a route it has, and may refuse any
    other ([accepts]); [SIOCDELRT] removes a route it has.  [sockets] and [programs] tell, from what
    was done before, whether a socket opens and what a program does. *)
Class RouterHost := {
  router_text :: HostText;
  inet_addr : string -> Z;
  accepts : gset rtentry -> rtentry -> bool;
  sockets : list (list string) -> bool;
  programs : list (list string) -> list string -> outcome;
  netlink_sends : list (list string) -> Z
}.

(** ** State *)

Record router := mkRouter {
  kernel : gset rtentry;
  m_addedRoutes : list (string * string);     (* dst, gw *)
  ran : list (list string)                    (* programs and messages, in order *)
}.

#[export] Instance eta_router : Eta router := fun r => mkRouter (kernel r) (m_addedRoutes r) (ran r).

Section Router.
Context `{RouterHost}.

(** The route of two texts. *)
Definition route_of (ipWithSubnet gw : string) : rtentry :=
  mkRoute (inet_addr (ipAddressFromIpWithSubnet ipWithSubnet))
          (inet_addr (netMaskFromIpWithSubnet ipWithSubnet)) (inet_addr gw).

Definition valid_route (ipWithSubnet gw : string) : bool :=
  checkIPv4Format (ipAddressFromIpWithSubnet ipWithSubnet) && checkIPv4Format gw.

Definition SIOCADDRT (sock : bool) (r : rtentry) (s : router) : bool * router :=
  if sock && accepts (kernel s) r && negb (bool_decide (r ∈ kernel s))
  then (true, s <| kernel := {[r]} ∪ kernel s |>) else (false, s).

Definition SIOCDELRT (sock : bool) (r : rtentry) (s : router) : bool * router :=
  if sock && bool_decide (r ∈ kernel s) then (true, s <| kernel := kernel s ∖ {[r]} |>) else (false, s).

(** ** Routes *)

Definition routeAdd (ipWithSubnet gw : string) (sock : bool) (s : router) : bool * router :=
  if negb (valid_route ipWithSubnet gw) then (false, s)
  else
    let '(ok, s) := SIOCADDRT sock (route_of ipWithSubnet gw) s in
    if ok then (true, s <| m_addedRoutes := m_addedRoutes s ++ [(ipWithSubnet, gw)] |>) else (false, s).

Definition routeDelete (ipWithSubnet gw : string) (sock : bool) (s : router) : bool * router :=
  if negb (valid_route ipWithSubnet gw) then (false, s)
  else if String.eqb ipWithSubnet "0.0.0.0/0" then (true, s)
  else SIOCDELRT sock (route_of ipWithSubnet gw) s.

(** Apply [f] to each and count the successes. *)
Fixpoint counting {A} (f : A -> router -> bool * router) (l : list A) (s : router) : Z * router :=
  match l with
  | [] => (0%Z, s)
  | x :: l =>
      let '(ok, s) := f x s in
      let '(n, s) := counting f l s in
      ((if ok then 1 else 0) + n, s)%Z
  end.

Definition routeAddList (gw : string) (ips : list string) (s : router) : Z * router :=
  let temp_sock := sockets (ran s) in
  counting (fun ip => routeAdd ip gw temp_sock) ips s.

Definition clearSavedRoutes (s : router) : bool * router :=
  let temp_sock := sockets (ran s) in
  let '(cnt, s') := counting (fun '(dst, gw) => routeDelete dst gw temp_sock) (m_addedRoutes s) s in
  ((cnt =? Z.of_nat (length (m_addedRoutes s)))%Z, s' <| m_addedRoutes := [] |>).

(** The count, returned as a [bool]. *)
Definition routeDeleteList (gw : string) (ips : list string) (s : router) : bool * router :=
  let temp_sock := sockets (ran s) in
  let '(cnt, s) := counting (fun ip => routeDelete ip gw temp_sock) ips s in
  (negb (cnt =? 0)%Z, s).

(** ** Programs *)

Definition run_program (argv : list string) (s : router) : outcome * router :=
  (programs (ran s) argv, s <| ran := ran s ++ [argv] |>).

Definition isServiceActive (serviceName : string) (s : router) : bool * router :=
  let '(o, s) := run_program ["systemctl"; "is-active"; "--quiet"; serviceName] s in
  ((exitCode o =? 0)%Z, s).

Definition flushDns (s : router) : bool * router :=
  let '(nscd, s) := isServiceActive "nscd.service" s in
  if nscd then (true, (run_program ["systemctl"; "restart"; "nscd"] s).2)
  else
    let '(resolved, s) := isServiceActive "systemd-resolved.service" s in
    if resolved then (true, (run_program ["systemctl"; "restart"; "systemd-resolved"] s).2)
    else (false, s).

(** Started within a second and finished within two, whatever its code. *)
Definition sudo (argv : list string) (s : router) : bool * router :=
  let '(o, s) := run_program ("sudo" :: argv) s in
  (match o with Finished _ => true | _ => false end, s).

(** One after the other, up to the first that fails. *)
Fixpoint all_sudo (l : list (list string)) (s : router) : bool * router :=
  match l with
  | [] => (true, s)
  | argv :: l => let '(ok, s) := sudo argv s in if ok then all_sudo l s else (false, s)
  end.

Definition createTun (dev subnet : string) : router -> bool * router :=
  all_sudo [["ip"; "tuntap"; "add"; "mode"; "tun"; "dev"; dev];
            ["ip"; "addr"; "add"; subnet +:+ "/24"; "dev"; dev];
            ["ip"; "link"; "set"; "dev"; dev; "up"]].

Definition StartRoutingIpv6 : router -> bool * router :=
  all_sudo [["sysctl"; "-w"; "net.ipv6.conf.all.disable_ipv6=0"];
            ["sysctl"; "-w"; "net.ipv6.conf.default.disable_ipv6=0"]].

Definition StopRoutingIpv6 : router -> bool * router :=
  all_sudo [["sysctl"; "-w"; "net.ipv6.conf.all.disable_ipv6=1"];
            ["sysctl"; "-w"; "net.ipv6.conf.default.disable_ipv6=1"]].

(** The message: a header of 16 bytes, [struct ifinfomsg] of 16 and the attribute of 20. *)
Definition dellink_length : Z := 52.

Definition deleteTun (dev : string) (s : router) : bool * router :=
  if negb (sockets (ran s)) then (true, s)
  else ((netlink_sends (ran s) =? dellink_length)%Z, s <| ran := ran s ++ [["RTM_DELLINK"; dev]] |>).

(** ** What the connection asks for *)

(** [IpcServer] and [Router]; the kill switch is not the router's, and [resetIpStack] does nothing
    on Linux. *)
Definition serve (c : ipc) (s : router) : router :=
  match c with
  | ResetIpStack => s
  | FlushDns => (flushDns s).2
  | ClearSavedRoutes => (clearSavedRoutes s).2
  | RouteAddList gw ips => (routeAddList gw ips s).2
  | RouteDeleteList gw ips => (routeDeleteList gw ips s).2
  | RefreshKillSwitch _ => s
  end.

(** The calls among what a connection emitted. *)
Definition call_of (o : vout) : option ipc := match o with Call c => Some c | _ => None end.

Definition serve_all (l : list vout) (s : router) : router :=
  fold_left (fun s c => serve c s) (omap call_of l) s.
End Router.
