(* ===== verification/RouterTheorems.v ===== *)
(** * Theorems on the router

    Routes added for a connection are taken back when it ends, and the kernel's own routes stay;
    what the answers of the router's programs say. *)

From S2P Require Import Prelude Numbers Json Lines IpAddress InterfaceConfig Daemon ProtocolConfigs.
From S2P Require Import LocalSocket LocalSocketTheorems SplitTunneling SplitTunnelingTheorems WireguardLinuxTheorems.
From S2P Require Import Containers VpnConnection VpnConnectionTheorems Router.

Section Restored.
Context `{RouterHost}.

(** The routes the kernel had before. *)
Variable before : gset rtentry.

(** The route of the text that is never removed. *)
Definition leftover (r : rtentry) : Prop := exists gw, r = route_of "0.0.0.0/0" gw.

(** Every other route was added through the router, which remembers it. *)
Definition accounted (s : router) : Prop :=
  (forall r, r ∈ kernel s -> r ∈ before \/ leftover r \/
     exists d gw, (d, gw) ∈ m_addedRoutes s /\ r = route_of d gw) /\
  (forall d gw, (d, gw) ∈ m_addedRoutes s -> valid_route d gw = true).

(** The kernel's own routes are there, and none of them is remembered as added. *)
Definition untouched (s : router) : Prop :=
  before ⊆ kernel s /\ forall d gw, (d, gw) ∈ m_addedRoutes s -> route_of d gw ∉ before.

Lemma counting_ind {A} (P : router -> Prop) (f : A -> router -> bool * router) l :
  (forall x s, x ∈ l -> P s -> P (f x s).2) -> forall s, P s -> P (counting f l s).2.
Proof.
  induction l as [|x l IH]; intros Hf s Hs; [done|]. cbn [counting].
  pose proof (Hf x s ltac:(set_solver) Hs) as Hx. destruct (f x s) as [ok s1].
  specialize (IH ltac:(set_solver) s1 Hx). by destruct (counting f l s1).
Qed.

Lemma add_accounted ip gw sock s : accounted s -> accounted (routeAdd ip gw sock s).2.
Proof.
  intros [Hk Hv]. unfold routeAdd. destruct (valid_route ip gw) eqn:Ev; [|done]. cbn [negb]. unfold SIOCADDRT.
  destruct (sock && _ && _); [|done]. split; cbn.
  - intros r [->%elem_of_singleton|Hr]%elem_of_union; [right; right; exists ip, gw; set_solver|].
    destruct (Hk r Hr) as [?|[?|(d & g & Hin & ->)]]; [by left|by right; left|]. right. right. exists d, g. set_solver.
  - intros d g [Hin|Hin%list_elem_of_singleton]%elem_of_app; [by apply Hv|by simplify_eq].
Qed.

Lemma delete_accounted ip gw sock s : accounted s -> accounted (routeDelete ip gw sock s).2.
Proof.
  intros [Hk Hv]. unfold routeDelete, SIOCDELRT. repeat case_match; try done. split; cbn; [|done].
  intros r [Hr _]%elem_of_difference. by apply Hk.
Qed.

Lemma add_untouched ip gw sock s : untouched s -> untouched (routeAdd ip gw sock s).2.
Proof.
  intros [Hb Ha]. unfold routeAdd. destruct (negb _); [done|]. unfold SIOCADDRT.
  destruct (sock && accepts _ _) eqn:E1; cbn [andb]; [|done]. case_bool_decide as E2; cbn [negb]; [done|].
  split; cbn; [set_solver|]. intros d g [Hin|Hin%list_elem_of_singleton]%elem_of_app; [by apply Ha|].
  simplify_eq. set_solver.
Qed.

Lemma delete_untouched ip gw sock s : route_of ip gw ∉ before -> untouched s -> untouched (routeDelete ip gw sock s).2.
Proof.
  intros Hr [Hb Ha]. unfold routeDelete, SIOCDELRT. repeat case_match; try done. split; cbn; [set_solver|done].
Qed.

(** Deleting only removes, and leaves no route of the list. *)
Lemma delete_all l : (forall d gw, (d, gw) ∈ l -> valid_route d gw = true) -> forall s,
  let s' := (counting (fun '(d, gw) => routeDelete d gw true) l s).2 in
  kernel s' ⊆ kernel s /\ m_addedRoutes s' = m_addedRoutes s /\ ran s' = ran s /\
  forall d gw, (d, gw) ∈ l -> d = "0.0.0.0/0" \/ route_of d gw ∉ kernel s'.
Proof.
  induction l as [|[d gw] l IH]; intros Hv s; cbn [counting]; [set_solver|].
  assert (Hd : let s1 := (routeDelete d gw true s).2 in kernel s1 ⊆ kernel s /\ m_addedRoutes s1 = m_addedRoutes s /\
    ran s1 = ran s /\ (d = "0.0.0.0/0" \/ route_of d gw ∉ kernel s1)).
  { unfold routeDelete. rewrite Hv by set_solver. cbn [negb]. destruct (String.eqb_spec d "0.0.0.0/0"); [cbn; auto|].
    unfold SIOCDELRT. cbn [andb]. case_bool_decide; cbn; split_and!; try done; [set_solver|right; set_solver|by right]. }
  destruct (routeDelete d gw true s) as [ok s1]. cbn [snd] in Hd. destruct Hd as (H1 & H2 & H3 & H4).
  destruct (IH ltac:(set_solver) s1) as (I1 & I2 & I3 & I4). destruct (counting _ l s1) as [n s2]. cbn [snd] in *.
  split_and!; [set_solver|congruence|congruence|].
  intros d' gw' [[= -> ->]|Hin]%elem_of_cons; [|by apply I4]. destruct H4 as [?|H4]; [by left|right; set_solver].
Qed.

Lemma clear_untouched s : untouched s -> untouched (clearSavedRoutes s).2.
Proof.
  intros Hu. unfold clearSavedRoutes.
  pose proof (counting_ind untouched (fun '(d, gw) => routeDelete d gw (sockets (ran s))) (m_addedRoutes s)) as Hc.
  specialize (Hc ltac:(intros [d gw] s1 Hin; apply delete_untouched; by apply Hu) s Hu).
  destruct (counting _ _ s) as [n s']. cbn [snd] in *. split; [apply Hc|]. cbn. by intros d gw ?%not_elem_of_nil.
Qed.

Lemma flush_kernel s : kernel (flushDns s).2 = kernel s /\ m_addedRoutes (flushDns s).2 = m_addedRoutes s.
Proof. unfold flushDns, isServiceActive, run_program. by repeat case_match. Qed.

Lemma flush_accounted s : accounted s -> accounted (flushDns s).2.
Proof. destruct (flush_kernel s) as [Hk Ha]. unfold accounted. by rewrite Hk, Ha. Qed.

Lemma flush_untouched s : untouched s -> untouched (flushDns s).2.
Proof. destruct (flush_kernel s) as [Hk Ha]. unfold untouched. by rewrite Hk, Ha. Qed.

(** A call that removes none of the kernel's own routes. *)
Definition spares (c : ipc) : Prop :=
  match c with RouteDeleteList gw ips => forall ip, ip ∈ ips -> route_of ip gw ∉ before | _ => True end.

Lemma serve_untouched c s : spares c -> untouched s -> untouched (serve c s).
Proof.
  intros Hc Hs. destruct c; cbn [serve]; [done|by apply flush_untouched|by apply clear_untouched| | |done].
  - unfold routeAddList. apply counting_ind; [|done]. intros; by apply add_untouched.
  - unfold routeDeleteList. pose proof (counting_ind untouched (fun ip => routeDelete ip gw (sockets (ran s))) ips) as Hd.
    specialize (Hd ltac:(intros; apply delete_untouched; auto) s Hs). by destruct (counting _ _ s).
Qed.

Lemma serve_all_app a b s : serve_all (a ++ b) s = serve_all b (serve_all a s).
Proof. unfold serve_all. by rewrite omap_app, fold_left_app. Qed.

Lemma serve_all_untouched l s : (forall c, Call c ∈ l -> spares c) -> untouched s -> untouched (serve_all l s).
Proof.
  intros Hl. unfold serve_all.
  assert (Hc : forall c, c ∈ omap call_of l -> spares c).
  { intros c (o & Ho & Hc)%list_elem_of_omap. destruct o; simplify_eq/=. by apply Hl. }
  clear Hl. revert s. induction (omap call_of l) as [|c cs IH]; intros s Hs; [done|].
  apply IH; [set_solver|]. apply serve_untouched; [set_solver|done].
Qed.

Lemma fresh_accounted : accounted (mkRouter before [] []).
Proof. split; cbn; [auto|]. by intros d gw ?%not_elem_of_nil. Qed.

Lemma fresh_untouched : untouched (mkRouter before [] []).
Proof. split; cbn; [done|]. by intros d gw ?%not_elem_of_nil. Qed.

Hypothesis Hsock : forall l, sockets l = true.

Lemma clear_forgets s : accounted s -> let s' := (clearSavedRoutes s).2 in
  m_addedRoutes s' = [] /\ forall r, r ∈ kernel s' -> r ∈ before \/ leftover r.
Proof.
  intros [Hk Hv]. unfold clearSavedRoutes. rewrite Hsock.
  pose proof (delete_all (m_addedRoutes s) Hv s) as Hd. cbv zeta in Hd.
  destruct (counting _ _ s) as [n s']. cbn [snd] in *. destruct Hd as (H1 & _ & _ & H4). split; [done|].
  cbn. intros r Hr. destruct (Hk r (H1 r Hr)) as [?|[?|(d & gw & Hin & ->)]]; [by left|by right|].
  destruct (H4 d gw Hin) as [->|Hn]; [right; by exists gw|done].
Qed.

Lemma serve_accounted c s : accounted s -> accounted (serve c s).
Proof.
  intros Hs. destruct c; cbn [serve]; [done|by apply flush_accounted| | | |done].
  - destruct (clear_forgets s Hs) as [He Hk]. split; [|rewrite He; by intros d gw ?%not_elem_of_nil].
    intros r Hr. destruct (Hk r Hr); auto.
  - unfold routeAddList. apply counting_ind; [|done]. intros; by apply add_accounted.
  - unfold routeDeleteList. pose proof (counting_ind accounted (fun ip => routeDelete ip gw (sockets (ran s))) ips) as Hc.
    specialize (Hc ltac:(intros; by apply delete_accounted) s Hs). by destruct (counting _ _ s).
Qed.

Lemma serve_all_accounted l s : accounted s -> accounted (serve_all l s).
Proof. unfold serve_all. revert s. induction (omap call_of l); intros s Hs; [done|]. by apply IHl0, serve_accounted. Qed.
End Restored.

(** C19: a connection that is taken down leaves no routes behind.  Whatever it has asked of the
    service before, once it is disconnected or has failed, with its repositories set, the service
    there, its sockets opening, and no other call of the service made while it waits for these,
    the service remembers no route any more, and every route of the kernel was there before the
    service started, but for the route of the text 0.0.0.0/0, which the service never removes;
    and the kernel's own routes are all still there, if the connection asked to delete none of
    them.  What an answer to a lookup adds after that moment is not covered
    ([late_answer_adds_route]). *)
Theorem routes_restored `{CompactText} `{VpnWorld} `{EL : EventLoop} `{RouterHost} before st s :
  (forall l, sockets l = true) -> st = Vpn.Disconnected \/ st = Vpn.Error ->
  m_repositories s = true -> service_ready (vouts s) = true ->
  (forall s, exists l, vouts (meanwhile s) = vouts s ++ l /\ omap call_of l = []) ->
  let k := serve_all (vouts (setConnectionState st s)) (mkRouter before [] []) in
  m_addedRoutes k = [] /\
  (forall r, r ∈ kernel k -> r ∈ before \/ exists gw, r = route_of "0.0.0.0/0" gw) /\
  ((forall gw ips ip, Call (RouteDeleteList gw ips) ∈ vouts s -> ip ∈ ips -> route_of ip gw ∉ before) ->
   before ⊆ kernel k).
Proof.
  intros Hs Hst Hr Hi Hm. cbv zeta.
  assert (Hv : omap call_of (vouts (setConnectionState st s)) = omap call_of (vouts s) ++ [FlushDns; ClearSavedRoutes]).
  { unfold setConnectionState, onConnectionStateChanged, withInterface, waitForFinished. rewrite Hr. cbn [negb]. cbv zeta.
    rewrite Hi. assert (Hc : omap call_of (vouts (meanwhile (call ClearSavedRoutes (meanwhile (call FlushDns s)))))
      = omap call_of (vouts s) ++ [FlushDns; ClearSavedRoutes]).
    { destruct (Hm (call ClearSavedRoutes (meanwhile (call FlushDns s)))) as (l2 & -> & N2).
      destruct (Hm (call FlushDns s)) as (l1 & E1 & N1). unfold call, vemit in *. cbn in *. rewrite E1.
      rewrite !omap_app, N1, N2, !app_nil_r. cbn. by rewrite <- app_assoc. }
    destruct Hst as [-> | ->]; cbv iota; destruct (_ && _); try exact Hc;
      unfold vemit at 1; cbn [vouts upd setter]; by rewrite omap_app, Hc, app_nil_r. }
  unfold serve_all. rewrite Hv, fold_left_app. fold (serve_all (vouts s) (mkRouter before [] [])).
  set (k0 := serve_all (vouts s) (mkRouter before [] [])). cbn [fold_left serve].
  assert (Ha : accounted before k0) by (apply (serve_all_accounted before Hs), fresh_accounted).
  destruct (clear_forgets before Hs _ (flush_accounted before k0 Ha)) as [He Hk].
  split_and!; [done|exact Hk|]. intros Hsp.
  assert (Hu : untouched before k0).
  { apply (serve_all_untouched before (vouts s)); [|apply (fresh_untouched before)]. intros c Hc. destruct c; try done. intros ip Hin. exact (Hsp gw ips ip Hc Hin). }
  apply (clear_untouched before), flush_untouched, Hu.
Qed.

(** ** What the answers say *)

(** The routes that could not be removed because no socket opened are forgotten all the same. *)
Theorem failed_clear_forgets `{RouterHost} s :
  sockets (ran s) = false -> (forall d gw, (d, gw) ∈ m_addedRoutes s -> d <> "0.0.0.0/0") ->
  (clearSavedRoutes s).2 = s <| m_addedRoutes := [] |> /\
  ((clearSavedRoutes s).1 = true <-> m_addedRoutes s = []).
Proof.
  intros Hs Hd. unfold clearSavedRoutes. rewrite Hs.
  assert (Hc : forall l, (forall d gw, (d, gw) ∈ l -> d <> "0.0.0.0/0") ->
    counting (fun '(d, gw) => routeDelete d gw false) l s = (0%Z, s)).
  { induction l as [|[d gw] l IH]; intros Hl; [done|]. cbn [counting]. unfold routeDelete at 1.
    destruct (String.eqb_spec d "0.0.0.0/0") as [->|_]; [exfalso; by eapply (Hl "0.0.0.0/0" gw); [set_solver|]|].
    destruct (negb _); cbn [SIOCDELRT andb]; rewrite IH by (intros d' gw' Hin; apply (Hl d' gw'); set_solver); done. }
  rewrite Hc by done. split; [done|]. cbn [fst]. destruct (m_addedRoutes s); cbn [length]; split; try done; intros.
  all: bprop; lia.
Qed.

(** Without a socket the device is reported as deleted. *)
Theorem deleteTun_without_socket `{RouterHost} dev s : sockets (ran s) = false -> deleteTun dev s = (true, s).
Proof. intros Hs. unfold deleteTun. by rewrite Hs. Qed.

(** Without [systemctl] the names are reported as flushed. *)
Theorem flushDns_without_systemctl `{RouterHost} s : (forall l argv, programs l argv = NotStarted) -> (flushDns s).1 = true.
Proof. intros Hp. unfold flushDns, isServiceActive, run_program. by rewrite Hp. Qed.

(** An answer to a lookup adds its route whatever the state is by then, so also after the
    connection has ended and its routes have been removed. *)
Theorem late_answer_adds_route `{CompactText} `{VpnWorld} l ip s :
  service_ready (vouts s) = true -> ip ∉ lk_ips l ->
  Call (RouteAddList (lk_gw l) [ip]) ∈ vouts (looked_up l [ip] s).
Proof.
  intros Hr Hip. unfold looked_up. change (removeDuplicates [ip]) with [ip]. rewrite filter_cons_True by done.
  cbn [filter list_filter fold_left]. set (s1 := withInterface (call _) s).
  assert (Hin : Call (RouteAddList (lk_gw l) [ip]) ∈ vouts s1).
  { unfold s1, withInterface. rewrite Hr. cbn. set_solver. }
  destruct (group_of (lk_group l) s1) as [n fl]. destruct (0 <? n - 1)%Z; [done|].
  cbn [negb]. unfold withInterface. case_match; [|exact Hin].
  apply elem_of_app. by left.
Qed.

(** ** Witness *)

#[local] Existing Instance compact_model.
#[local] Existing Instance VpnConnectionTheorems.sample_world.
#[local] Existing Instance VpnConnectionTheorems.calm_loop.

Definition sample_host : RouterHost :=
  {| router_text := dotted_text; inet_addr := fun s => fold_left (fun a p => (a * 256 + Numbers.toInt p)%Z) (split_char "." s) 0%Z;
     accepts := fun _ _ => true; sockets := fun _ => true;
     programs := fun _ _ => Finished 0; netlink_sends := fun _ => dellink_length |}.

#[local] Existing Instance sample_host.

(** A connection that has had two routes added; the kernel has a default route. *)
Definition sample_routed : VpnConnection :=
  call (RouteAddList "10.8.1.1" ["192.0.2.7"; "198.51.100.0/24"])
    (connection_run [SetRepositories] (new_connection empty_settings OpenVpn)).

Definition sample_before : gset rtentry := {[mkRoute 0 0 (inet_addr "192.168.1.1")]}.

Lemma routes_restored_witness :
  (size (kernel (serve_all (vouts sample_routed) (mkRouter sample_before [] []))) = 3)%nat /\
  m_addedRoutes (serve_all (vouts (setConnectionState Vpn.Disconnected sample_routed)) (mkRouter sample_before [] [])) = [] /\
  sample_before ⊆ kernel (serve_all (vouts (setConnectionState Vpn.Disconnected sample_routed))
    (mkRouter sample_before [] [])).
Proof.
  split; [vm_compute; reflexivity|].
  destruct (routes_restored sample_before Vpn.Disconnected sample_routed) as (He & _ & Hb);
    [done|by left|vm_compute; reflexivity|done|intros t; exists []; by rewrite app_nil_r|].
  split; [exact He|]. apply Hb. intros gw ips ip Hin.
  assert (Hv : vouts sample_routed = [Call (RouteAddList "10.8.1.1" ["192.0.2.7"; "198.51.100.0/24"])])
    by (vm_compute; reflexivity).
  rewrite Hv in Hin. by apply list_elem_of_singleton in Hin.
Defined.
