(* ===== verification/Import.v ===== *)
(** * Importing configurations

    [client/core/controllers/selfhosted/importController.{h,cpp}] and what
    [client/ui/controllers/importUiController.cpp] adds to it: a text, a file or a series of QR
    codes becomes the JSON object of a server, and the object becomes the default server of the
    repository.  The configuration that the account's service delivers ([TunnelCore]) takes this
    way too, as the one managed profile.

    Texts are UTF-8 byte strings.  Library code is the class [ImportWorld]; so are the readers of
    share links (vless, vmess, trojan, ss, ssd), of which nothing is assumed.  Logging and the
    camera of a phone are left out; the desktop constants of [protocolConstants.h] are used. *)

From S2P Require Import Prelude Numbers Json Lines ServerConfig ProtocolConfigs ServersRepository.
From S2P Require Import Containers QrCode.

(** ** Data *)

Module ConfigTypes.
Inductive t := Amnezia | OpenVpn | WireGuard | Awg | Xray | ShadowSocks | Backup | Invalid.

#[global] Instance t_eq_dec : EqDecision t.
Proof. solve_decision. Defined.
End ConfigTypes.

Module ErrorCode.
Inductive t :=
  | NoError | ImportInvalidConfigError | ImportOpenConfigError | ImportBackupFileUseRestoreInstead
  | LegacyApiV1NotSupportedError | ApiConfigAlreadyAdded.

#[global] Instance t_eq_dec : EqDecision t.
Proof. solve_decision. Defined.
End ErrorCode.

(** [configKeys.h], [apiKeys.h] and [protocolConstants.h]. *)
Module importKey.
Definition defaultContainer := "defaultContainer".
Definition dns1 := "dns1".
Definition dns2 := "dns2".
Definition openvpn := "openvpn".
Definition wireguard := "wireguard".
Definition awg := "awg".
Definition xray := "xray".
Definition ssxray := "ssxray".
Definition crc := "crc".
Definition amneziaOpenvpn := "amnezia-openvpn".
Definition amneziaWireguard := "amnezia-wireguard".
Definition amneziaAwg := "amnezia-awg".
Definition amneziaXray := "amnezia-xray".
Definition amneziaSsxray := "amnezia-ssxray".
Definition managedProfileId := "managedProfileId".
Definition managedProfileKey := "managedProfileKey".
Definition managedObfuscationMode := "managedObfuscationMode".
Definition managedObfuscationProfile := "managedObfuscationProfile".
Definition vpnKey := "vpn_key".
Definition inbounds := "inbounds".
Definition outbounds := "outbounds".
Definition defaultMtu := "1376".
Definition wireguardDefaultPort := "51820".
Definition defaultTransportProto := "udp".
Definition defaultSpecialJunk1 :=
  "<r 2><b 0x858000010001000000000669636c6f756403636f6d0000010001c00c000100010000105a00044d583737>".
Definition tunnelCoreManagedProfileId := "tunnelcore-vpn".
End importKey.

Record ImportResult := mkResult {
  errorCode : ErrorCode.t;
  config : obj;
  configFileName : string;
  maliciousWarningText : string;
  configType : ConfigTypes.t;
  isNativeWireGuardConfig : bool
}.

#[export] Instance eta_result : Eta ImportResult := fun r =>
  mkResult (errorCode r) (config r) (configFileName r) (maliciousWarningText r) (configType r)
    (isNativeWireGuardConfig r).

Definition no_result : ImportResult := mkResult ErrorCode.NoError [] "" "" ConfigTypes.Invalid false.

(** Library code: Qt's documents, its [fromUtf8] (which replaces what is not UTF-8), its
    decompression (empty when the data are not compressed), [QUrl::fromUserInput] (an empty host
    when it is not valid, port -1 when there is none), its checksum, and the share links, whose
    readers get the name read so far and give an object and a name. *)
Class ImportWorld := {
  import_text :: JsonText;
  json_compact : json -> string;
  fromUtf8 : string -> string;
  qUncompress : string -> string;
  url_host : string -> string;
  url_port : string -> Z;
  qChecksum : string -> Z;
  vless_Deserialize : string -> string -> obj * string;
  vmess_new_Deserialize : string -> string -> obj * string;
  vmess_Deserialize : string -> string -> obj * string;
  trojan_Deserialize : string -> string -> obj * string;
  ss_Deserialize : string -> string -> obj * string;
  ssd_Deserialize : string -> list (string * obj);
  createUuid : nat -> string;
  freeV2Endpoint : string;
  premiumV1Endpoint : string
}.

(** ** Texts *)

(** [QString::endsWith] of one character. *)
Fixpoint ends_with_char (c : ascii) (s : string) : bool :=
  match s with
  | "" => false
  | String d "" => Ascii.eqb c d
  | String _ r => ends_with_char c r
  end.

(** [indexOf(c)], [left] and [mid]: the text before the first [c] and the text after it. *)
Fixpoint split_first (c : ascii) (s : string) : option (string * string) :=
  match s with
  | "" => None
  | String d r =>
      if Ascii.eqb d c then Some ("", r)
      else match split_first c r with Some (a, b) => Some (String d a, b) | None => None end
  end.

(** [QString::replace(needle, "")]. *)
Fixpoint remove_all (fuel : nat) (needle s : string) : string :=
  match fuel with
  | O => s
  | S fuel =>
      match s with
      | "" => ""
      | String c r =>
          if String.prefix needle s then remove_all fuel needle (drop_bytes (String.length needle) s)
          else String c (remove_all fuel needle r)
      end
  end.

(** Every backslash becomes a slash. *)
Definition slashes (s : string) : string :=
  str_map (fun c => if Ascii.eqb c "\" then "/"%char else c) s.

(** [QFileInfo::fileName]: what follows the last slash. *)
Definition fileName (path : string) : string := default "" (last (split_char "/" path)).

(** [QFileInfo::completeBaseName]: the file name up to its last dot. *)
Definition completeBaseName (path : string) : string :=
  let name := fileName path in
  match rev (split_char "." name) with
  | [] | [_] => name
  | _ :: before => String.concat "." (rev before)
  end.

(** ** Regular expressions *)

Definition is_word (c : ascii) : bool :=
  let n := N_of_ascii c in
  (is_digit c || (65 <=? n) && (n <=? 90) || (97 <=? n) && (n <=? 122) || (n =? 95))%N.

(** The longest prefix of characters that satisfy [p], and the rest. *)
Fixpoint span (p : ascii -> bool) (s : string) : string * string :=
  match s with
  | String c r => if p c then let '(a, b) := span p r in (String c a, b) else ("", s)
  | "" => ("", "")
  end.

(** The first position at which [m] matches. *)
Fixpoint search {A} (m : string -> option A) (s : string) : option A :=
  match m s with
  | Some a => Some a
  | None => match s with "" => None | String _ r => search m r end
  end.

(** A literal, and what follows it. *)
Definition literal (l s : string) : option string :=
  if String.prefix l s then Some (drop_bytes (String.length l) s) else None.

(** [\d{1,3}]: what follows it here is never a digit, so that it takes the whole run. *)
Definition three_digits (s : string) : option (string * string) :=
  let '(d, r) := span is_digit s in
  if (1 <=? String.length d)%nat && (String.length d <=? 3)%nat then Some (d, r) else None.

(** [\b\d{1,3}\.\d{1,3}\.\d{1,3}\.\d{1,3}\b] after a character that is not of a word. *)
Definition match_ip (s : string) : option (string * string) :=
  '(a, s) ← three_digits s; s ← literal "." s;
  '(b, s) ← three_digits s; s ← literal "." s;
  '(c, s) ← three_digits s; s ← literal "." s;
  '(d, s) ← three_digits s;
  match s with
  | String x _ => if is_word x then None else Some (a +:+ "." +:+ b +:+ "." +:+ c +:+ "." +:+ d, s)
  | "" => Some (a +:+ "." +:+ b +:+ "." +:+ c +:+ "." +:+ d, s)
  end.

(** [remote\s+([^\s]+)]. *)
Definition match_remote (s : string) : option string :=
  s ← literal "remote" s;
  let '(blanks, s) := span is_space s in
  let '(host, _) := span (fun c => negb (is_space c)) s in
  if str_empty blanks || str_empty host then None else Some host.

(** ["address":\s*"([^"]+)]; the quotation mark is character 34. *)
Definition quote : ascii := ascii_of_N 34.

Definition match_address (s : string) : option string :=
  s ← literal (String quote ("address" +:+ String quote ":")) s;
  let '(_, s) := span is_space s in
  s ← literal (String quote "") s;
  let '(host, _) := span (fun c => negb (Ascii.eqb c quote)) s in
  if str_empty host then None else Some host.

(** [dhcp-option DNS (ip)], every match in turn. *)
Definition match_dhcp (s : string) : option (string * string) :=
  s ← literal "dhcp-option DNS " s; match_ip s.

Fixpoint globalMatch (fuel : nat) (s : string) : list string :=
  match fuel with
  | O => []
  | S fuel =>
      match search match_dhcp s with
      | Some (ip, rest) => ip :: globalMatch fuel rest
      | None => []
      end
  end.

(** [.*(ip)]: the last address of the line that starts a word; [word] tells whether the character
    before [s] is of a word. *)
Fixpoint last_ip (word : bool) (s : string) : option string :=
  match s with
  | "" => None
  | String c r =>
      if Ascii.eqb c LF then None
      else match last_ip (is_word c) r with
           | Some ip => Some ip
           | None => if word then None else fst <$> match_ip s
           end
  end.

(** [DNS = (ip).*(ip)]. *)
Definition match_dns (s : string) : option (string * string) :=
  s ← literal "DNS = " s;
  '(ip1, s) ← match_ip s;
  ip2 ← last_ip true s;
  Some (ip1, ip2).

(** ** From a text to an object *)

Definition checkConfigFormat (config : string) : ConfigTypes.t :=
  let contains p := str_contains p config in
  if contains "Servers/serversList" then ConfigTypes.Backup
  else if contains "containers" || contains "api_key" || contains "auth_data"
          || (contains "hostName" && contains "userName" && contains "password")
  then ConfigTypes.Amnezia
  else if contains "[Interface]" && contains "[Peer]" then ConfigTypes.WireGuard
  else if contains "inbounds" && contains "outbounds" then ConfigTypes.Xray
  else if contains "client" && (contains "dev tun" || contains "dev tap") then ConfigTypes.OpenVpn
  else ConfigTypes.Invalid.

(** [obj[k] = v] when [v] is not empty. *)
Definition put_nonempty (k v : string) (o : obj) : obj := if str_empty v then o else oset k (JStr v) o.

(** The settings of a WireGuard text; a later line of the same name replaces an earlier one. *)
Definition read_line (configMap : gmap string string) (line : string) : gmap string string :=
  let trimmedLine := trimmed line in
  if starts_with "[" trimmedLine && ends_with_char "]" trimmedLine then configMap
  else match split_first "=" trimmedLine with
       | Some (before, after) =>
           if str_empty before then configMap else <[trimmed before := trimmed after]> configMap
       | None => configMap
       end.

Definition readSettings (data : string) : gmap string string :=
  fold_left read_line (split_char LF data) ∅.

Definition value (m : gmap string string) (k : string) : string := default "" (m !! k).

(** [split(QRegularExpression("\s*,\s*"), Qt::SkipEmptyParts)] of a trimmed text: a separator
    takes the blanks on both its sides. *)
Definition split_commas (s : string) : list string :=
  filter (fun p => str_empty p = false) (map trimmed (split_char "," s)).

Section Extracting.
Context {IW : ImportWorld}.

Abbreviation kindOf := (configTypeFromJson freeV2Endpoint premiumV1Endpoint).

(** The name a new server gets; the search always ends within one try more than there are
    servers. *)
Definition nextName (r : repo) : string :=
  default "" (nextAvailableServerName freeV2Endpoint premiumV1Endpoint (S (serversCount r)) r).

Definition extractOpenVpnConfig (r : repo) (data : string) : obj :=
  let openVpnConfig := oset configKey.config (JStr data) [] in
  let lastConfig := oset configKey.lastConfig (JStr (json_print (JObj openVpnConfig))) [] in
  let lastConfig := oset configKey.isThirdPartyConfig (JBool true) lastConfig in
  let containers := oset Key.container (JStr importKey.amneziaOpenvpn) [] in
  let containers := oset importKey.openvpn (JObj lastConfig) containers in
  let hostName := default "" (search match_remote data) in
  let config := oset Key.containers (JArr [JObj containers]) [] in
  let config := oset importKey.defaultContainer (JStr importKey.amneziaOpenvpn) config in
  let config := oset Key.description (JStr (nextName r)) config in
  let config :=
    match globalMatch (String.length data) data with
    | dns1 :: rest =>
        let config := oset importKey.dns1 (JStr dns1) config in
        match rest with dns2 :: _ => oset importKey.dns2 (JStr dns2) config | [] => config end
    | [] => config
    end in
  oset Key.hostName (JStr hostName) config.

(** The client's part of a WireGuard or AmneziaWG configuration, with whether it is of AmneziaWG;
    [None] when the endpoint or one of the keys is missing. *)
Definition lastConfigOf (data : string) : option (obj * string * string * bool) :=
  let configMap := readSettings data in
  let get := value configMap in
  let lastConfig := oset configKey.config (JStr data) [] in
  let hostName := url_host (get "Endpoint") in
  if str_empty hostName then None
  else
    let port := if negb (url_port (get "Endpoint") =? -1)%Z then pretty (url_port (get "Endpoint"))
                else importKey.wireguardDefaultPort in
    let lastConfig := oset configKey.hostName (JStr hostName) lastConfig in
    let lastConfig := oset configKey.port (JInt (toInt port)) lastConfig in
    if negb (str_empty (get "PrivateKey")) && negb (str_empty (get "Address"))
       && negb (str_empty (get "PublicKey"))
    then
      let lastConfig := oset configKey.clientPrivKey (JStr (get "PrivateKey")) lastConfig in
      let lastConfig := oset configKey.clientIp (JStr (get "Address")) lastConfig in
      let lastConfig :=
        if negb (str_empty (get "PresharedKey"))
        then oset configKey.pskKey (JStr (get "PresharedKey")) lastConfig
        else if negb (str_empty (get "PreSharedKey"))
        then oset configKey.pskKey (JStr (get "PreSharedKey")) lastConfig
        else lastConfig in
      let lastConfig := oset configKey.serverPubKey (JStr (get "PublicKey")) lastConfig in
      let lastConfig := put_nonempty configKey.mtu (get "MTU") lastConfig in
      let lastConfig := put_nonempty configKey.persistentKeepAlive (get "PersistentKeepalive") lastConfig in
      let lastConfig :=
        oset configKey.allowedIps (JArr (map JStr (split_commas (get "AllowedIPs")))) lastConfig in
      let hasAwgKeys := existsb (fun field => negb (str_empty (get field))) configKey.awgProtocolKeys in
      let lastConfig :=
        if hasAwgKeys
        then fold_left (fun o key => put_nonempty key (get key) o) configKey.awgProtocolKeys lastConfig
        else lastConfig in
      let lastConfig :=
        oset configKey.mtu
          (JStr (if negb (str_empty (get "MTU")) then get "MTU" else importKey.defaultMtu)) lastConfig in
      Some (lastConfig, hostName, port, hasAwgKeys)
    else None.

(** The object, empty when the text is not complete, and the type found. *)
Definition extractWireGuardConfig (r : repo) (data : string) (configType : ConfigTypes.t)
    : obj * ConfigTypes.t :=
  match lastConfigOf data with
  | None => ([], configType)
  | Some (lastConfig, hostName, port, hasAwgKeys) =>
      let protocolName := if hasAwgKeys then importKey.awg else importKey.wireguard in
      let wireguardConfig := oset configKey.lastConfig (JStr (json_print (JObj lastConfig))) [] in
      let wireguardConfig := oset configKey.isThirdPartyConfig (JBool true) wireguardConfig in
      let wireguardConfig := oset configKey.port (JStr port) wireguardConfig in
      let wireguardConfig :=
        oset configKey.transportProto (JStr importKey.defaultTransportProto) wireguardConfig in
      let containerName := if hasAwgKeys then importKey.amneziaAwg else importKey.amneziaWireguard in
      let containers := oset Key.container (JStr containerName) [] in
      let containers := oset protocolName (JObj wireguardConfig) containers in
      let config := oset Key.containers (JArr [JObj containers]) [] in
      let config := oset importKey.defaultContainer (JStr containerName) config in
      let config := oset Key.description (JStr (nextName r)) config in
      let config :=
        match search match_dns data with
        | Some (dns1, dns2) => oset importKey.dns2 (JStr dns2) (oset importKey.dns1 (JStr dns1) config)
        | None => config
        end in
      (oset Key.hostName (JStr hostName) config,
       if hasAwgKeys then ConfigTypes.Awg else ConfigTypes.WireGuard)
  end.

Definition extractXrayConfig (r : repo) (data : string) (configType : ConfigTypes.t) (description : string)
    : obj :=
  match json_parse data with
  | Some (JObj parsedConfig) =>
      if negb (is_array (ofind importKey.inbounds parsedConfig))
         || negb (is_array (ofind importKey.outbounds parsedConfig)) then []
      else
        let serializedConfig := json_print (JObj parsedConfig) in
        let lastConfig := oset configKey.lastConfig (JStr serializedConfig) [] in
        let lastConfig := oset configKey.isThirdPartyConfig (JBool true) lastConfig in
        let shadowSocks := bool_decide (configType = ConfigTypes.ShadowSocks) in
        let containerName := if shadowSocks then importKey.amneziaSsxray else importKey.amneziaXray in
        let containers :=
          oset (if shadowSocks then importKey.ssxray else importKey.xray) (JObj lastConfig)
            (oset Key.container (JStr containerName) []) in
        let hostName := default "" (search match_address data) in
        let config := oset Key.containers (JArr [JObj containers]) [] in
        let config := oset importKey.defaultContainer (JStr containerName) config in
        let config :=
          oset Key.description (JStr (if str_empty description then nextName r else description)) config in
        oset Key.hostName (JStr hostName) config
  | _ => []
  end.

(** *** Warnings *)

Definition dangerousTags : list string :=
  ["up"; "tls-verify"; "ipchange"; "client-connect"; "route-up"; "route-pre-down";
   "client-disconnect"; "down"; "learn-address"; "auth-user-pass-verify"].

(** [section(' ', 0, 0, QString::SectionSkipEmpty)]. *)
Definition first_section (line : string) : string :=
  default "" (head (filter (fun p => str_empty p = false) (split_char " " line))).

(** [dangerousTags.contains(command, Qt::CaseInsensitive)] of the trimmed line. *)
Definition is_malicious (rawLine : string) : bool :=
  existsb (fun tag => ci_eqb tag (first_section (trimmed rawLine))) dangerousTags.

Definition openVpnText (container : obj) : string :=
  let protocolConfig :=
    to_string (ofind configKey.lastConfig (to_object (ofind importKey.openvpn container))) in
  to_string (ofind configKey.config (doc_object (json_parse protocolConfig))).

Definition maliciousStrings (text : string) : list string :=
  filter (fun l => is_malicious l = true) (filter (fun l => str_empty l = false) (split_char LF text)).

Definition warning_intro : string :=
  "This configuration contains an OpenVPN setup. OpenVPN configurations can include malicious " +:+
  "scripts, so only add it if you fully trust the provider of this config. ".

Definition warning_of (text : string) : string :=
  match maliciousStrings text with
  | [] => warning_intro
  | l => fold_left (fun w s => w +:+ "<br><i>" +:+ s +:+ "</i>") l
           (warning_intro +:+ "<br>In the imported configuration, potentially dangerous lines were found:")
  end.

(** Each OpenVPN container sets the text anew. *)
Definition checkForMaliciousStrings (serverConfig : obj) (warningText : string) : string :=
  fold_left (fun warningText container =>
    let containerConfig := to_object (Some container) in
    if String.eqb (to_string (ofind Key.container containerConfig)) (containerToString OpenVpn)
    then warning_of (openVpnText containerConfig) else warningText)
    (to_array (ofind Key.containers serverConfig)) warningText.

(** *** The application's own objects *)

(** [containerTypeToProtocolString] of the containers below. *)
Definition protocolString (c : DockerContainer) : string :=
  if isAwgContainer c then importKey.awg else importKey.wireguard.

(** The loop from index [i]; [rest] is what [containers] holds from there on.  A container
    without a client's configuration ends it. *)
Fixpoint process_from (i : nat) (rest containers : list json) (config : obj) : obj :=
  match rest with
  | [] => config
  | c :: rest =>
      let container := to_object (Some c) in
      let dockerContainer := containerFromString (to_string (ofind Key.container container)) in
      if isAwgContainer dockerContainer || bool_decide (dockerContainer = WireGuard) then
        let key := protocolString dockerContainer in
        let containerConfig := to_object (ofind key container) in
        let protocolConfig := to_string (ofind configKey.lastConfig containerConfig) in
        if str_empty protocolConfig then config
        else
          let jsonConfig := doc_object (json_parse protocolConfig) in
          let jsonConfig :=
            if str_empty (trimmed (to_string (ofind configKey.mtu jsonConfig)))
            then oset configKey.mtu (JStr importKey.defaultMtu) jsonConfig else jsonConfig in
          let containerConfig :=
            oset configKey.lastConfig (JStr (json_print (JObj jsonConfig))) containerConfig in
          let container := oset key (JObj containerConfig) container in
          let containers := <[i := JObj container]> containers in
          process_from (S i) rest containers (oset Key.containers (JArr containers) config)
      else process_from (S i) rest containers config
  end.

Definition processAmneziaConfig (config : obj) : obj :=
  let containers := to_array (ofind Key.containers config) in
  process_from 0 containers containers config.

(** [junk] is the random [bounded(4, 7)]. *)
Definition processNativeWireGuardConfig (junk : Z) (config : obj) : obj :=
  match to_array (ofind Key.containers config) with
  | [] => config
  | first :: others =>
      let container := to_object (Some first) in
      let serverProtocolConfig := to_object (ofind importKey.wireguard container) in
      let clientProtocolConfig :=
        doc_object (json_parse (to_string (ofind configKey.lastConfig serverProtocolConfig))) in
      let clientProtocolConfig :=
        fold_left (fun o kv => oset kv.1 (JStr kv.2) o)
          [(configKey.junkPacketCount, pretty junk); (configKey.junkPacketMinSize, "10");
           (configKey.junkPacketMaxSize, "50"); (configKey.initPacketJunkSize, "0");
           (configKey.responsePacketJunkSize, "0"); (configKey.initPacketMagicHeader, "1");
           (configKey.responsePacketMagicHeader, "2"); (configKey.underloadPacketMagicHeader, "3");
           (configKey.transportPacketMagicHeader, "4"); (configKey.cookieReplyPacketJunkSize, "0");
           (configKey.transportPacketJunkSize, "0");
           (configKey.specialJunk1, importKey.defaultSpecialJunk1)]
          clientProtocolConfig in
      let clientProtocolConfig := oset configKey.isObfuscationEnabled (JBool true) clientProtocolConfig in
      let serverProtocolConfig :=
        oset configKey.lastConfig (JStr (json_print (JObj clientProtocolConfig))) serverProtocolConfig in
      let container := oset importKey.wireguard (JObj serverProtocolConfig) container in
      oset Key.containers (JArr (JObj container :: others)) config
  end.

(** *** The whole extraction *)

(** A share link of a known scheme that can be read. *)
Definition extractShareLink (r : repo) (data fileName : string) : option ImportResult :=
  let result configType config :=
    match config with
    | [] => None
    | _ => Some (mkResult ErrorCode.NoError config fileName "" configType false)
    end in
  let read configType (link : obj * string) :=
    result configType (extractXrayConfig r (json_compact (JObj link.1)) configType link.2) in
  if starts_with "vless://" data then read ConfigTypes.Xray (vless_Deserialize data "")
  else if starts_with "vmess://" data then
    let new := if str_contains "@" data then Some (vmess_new_Deserialize data "") else None in
    match new ≫= read ConfigTypes.Xray with
    | Some x => Some x
    | None => read ConfigTypes.Xray (vmess_Deserialize data (from_option snd "" new))
    end
  else if starts_with "trojan://" data then read ConfigTypes.Xray (trojan_Deserialize data "")
  else if starts_with "ss://" data && negb (str_contains "plugin=" data)
  then read ConfigTypes.ShadowSocks (ss_Deserialize data "")
  else if starts_with "ssd://" data then
    match ssd_Deserialize data with
    | (first, _) :: _ => result ConfigTypes.ShadowSocks (extractXrayConfig r first ConfigTypes.ShadowSocks "")
    | [] => None
    end
  else None.

(** A text of no known format may be one in Base64, compressed or not. *)
Definition decode_config (data : string) : string * ConfigTypes.t :=
  let configType := checkConfigFormat data in
  if bool_decide (configType = ConfigTypes.Invalid) then
    let config := remove_all (S (String.length data)) "vpn://" data in
    let ba := fromBase64 config in
    let baUncompressed := qUncompress ba in
    let ba := if str_empty baUncompressed then ba else baUncompressed in
    let config := fromUtf8 ba in
    (config, checkConfigFormat config)
  else (data, configType).

Definition failed (e : ErrorCode.t) (result : ImportResult) : ImportResult := result <| errorCode := e |>.

(** The name of the file without its directories and its last suffix. *)
Definition connectionName (configFileName : string) : string :=
  trimmed (completeBaseName (fileName (slashes configFileName))).

Definition extract_wireguard (r : repo) (text : string) (result : ImportResult) : ImportResult :=
  let '(o, t) := extractWireGuardConfig r text (configType result) in
  let result := result <| config := o |> <| configType := t |>
                       <| isNativeWireGuardConfig := bool_decide (t = ConfigTypes.WireGuard) |> in
  match o with
  | [] => failed ErrorCode.ImportInvalidConfigError result
  | _ =>
      let name := connectionName (configFileName result) in
      if str_empty name then result else result <| config := oset Key.description (JStr name) o |>
  end.

Definition extract_amnezia (data text : string) (result : ImportResult) : ImportResult :=
  let o := doc_object (json_parse text) in
  let o :=
    if isServerFromApi o
    then oset Key.apiConfig
           (JObj (oset importKey.vpnKey (JStr data) (to_object (ofind Key.apiConfig o)))) o
    else o in
  if isLegacyApiSubscription (kindOf o)
  then failed ErrorCode.LegacyApiV1NotSupportedError (result <| config := [] |>)
  else
    let o := processAmneziaConfig o in
    let result := result <| config := o |> in
    match o with
    | [] => failed ErrorCode.ImportInvalidConfigError result
    | _ => result <| maliciousWarningText := checkForMaliciousStrings o "" |>
    end.

Definition extractConfigFromData (r : repo) (data name : string) : ImportResult :=
  match extractShareLink r data name with
  | Some result => result
  | None =>
      let '(text, t) := decode_config data in
      let result := mkResult ErrorCode.NoError [] name "" t false in
      match t with
      | ConfigTypes.OpenVpn =>
          let o := extractOpenVpnConfig r text in
          let result := result <| config := o |> in
          match o with
          | [] => failed ErrorCode.ImportInvalidConfigError result
          | _ => result <| maliciousWarningText := checkForMaliciousStrings o "" |>
          end
      | ConfigTypes.Awg | ConfigTypes.WireGuard => extract_wireguard r text result
      | ConfigTypes.Xray | ConfigTypes.ShadowSocks =>
          let o := extractXrayConfig r text t "" in
          let result := result <| config := o |> in
          match o with [] => failed ErrorCode.ImportInvalidConfigError result | _ => result end
      | ConfigTypes.Amnezia => extract_amnezia data text result
      | ConfigTypes.Backup => failed ErrorCode.ImportBackupFileUseRestoreInstead result
      | ConfigTypes.Invalid =>
          failed ErrorCode.ImportInvalidConfigError (result <| configFileName := "" |>)
      end
  end.

(** An object read from a scanned document; an empty one is an error. *)
Definition scanned (o : obj) : ImportResult :=
  match o with
  | [] => no_result <| errorCode := ErrorCode.ImportInvalidConfigError |>
  | _ => no_result <| config := o |> <| configType := ConfigTypes.Amnezia |>
  end.

Definition extractConfigFromQr (r : repo) (data : string) : ImportResult :=
  let dataStr := fromUtf8 data in
  if negb (bool_decide (checkConfigFormat dataStr = ConfigTypes.Invalid))
  then extractConfigFromData r dataStr ""
  else match doc_object (json_parse data) with
  | (_ :: _) as dataObj => scanned dataObj
  | [] =>
      let ba_uncompressed := qUncompress data in
      if negb (str_empty ba_uncompressed) then scanned (doc_object (json_parse ba_uncompressed))
      else
        let ba := fromBase64 data in
        let baUncompressed := qUncompress ba in
        let ba := if str_empty baUncompressed then ba else baUncompressed in
        if negb (str_empty ba) then scanned (doc_object (json_parse ba))
        else no_result <| errorCode := ErrorCode.ImportInvalidConfigError |>
  end.
End Extracting.

(** ** The controllers *)

Inductive import_signal :=
  | importFinished
  | importErrorOccurred (e : ErrorCode.t) (goToPageHome : bool)
  | importConfigChanged
  | qrDecodingFinished.

(** [ImportController] with the repository it holds, and [ImportUiController]. *)
Record importer := mkImporter {
  im_repo : repo;
  m_qrCodeChunks : gmap Z string;
  m_isQrCodeProcessed : bool;
  m_totalQrCodeChunksCount : Z;
  m_receivedQrCodeChunksCount : Z;
  m_config : obj;
  m_configFileName : string;
  m_maliciousWarningText : string;
  m_isNativeWireGuardConfig : bool;
  im_signals : list import_signal
}.

#[export] Instance eta_importer : Eta importer := fun s =>
  mkImporter (im_repo s) (m_qrCodeChunks s) (m_isQrCodeProcessed s) (m_totalQrCodeChunksCount s)
    (m_receivedQrCodeChunksCount s) (m_config s) (m_configFileName s) (m_maliciousWarningText s)
    (m_isNativeWireGuardConfig s) (im_signals s).

Definition new_importer (r : repo) : importer := mkImporter r ∅ false 0 0 [] "" "" false [].

Definition signal (e : import_signal) (s : importer) : importer := s <| im_signals := im_signals s ++ [e] |>.

Record QrParseResult := mkParse {
  success : bool;
  importResult : ImportResult;
  chunksReceived : Z;
  chunksTotal : Z
}.

(** [ServerCredentials::isValid] of the object's credentials. *)
Definition credentials_valid (config : obj) : bool :=
  negb (str_empty (to_string (ofind Key.hostName config)))
  && negb (str_empty (to_string (ofind Key.userName config)))
  && negb (str_empty (to_string (ofind Key.password config)))
  && (0 <? to_int 0 (ofind Key.port config))%Z.

Section Controllers.
Context {IW : ImportWorld}.

Abbreviation kindOf := (configTypeFromJson freeV2Endpoint premiumV1Endpoint).

(** *** Scanning *)

Definition startDecodingQr (s : importer) : importer :=
  s <| m_qrCodeChunks := ∅ |> <| m_totalQrCodeChunksCount := 0%Z |>
    <| m_receivedQrCodeChunksCount := 0%Z |> <| m_isQrCodeProcessed := true |>.

(** The chunks in order, a missing one empty. *)
Definition assembled (chunks : gmap Z string) (total : Z) : string :=
  joined (map (fun i => default "" (chunks !! Z.of_nat i)) (seq 0 (Z.to_nat total))).

(** A chunk of a series; [s] is the stream after the magic number. *)
Definition parse_chunk (s : string) (c : importer) : QrParseResult * importer :=
  let '(chunksCount, s) := read_number 1 s in
  let c := if negb (m_totalQrCodeChunksCount c =? chunksCount)%Z then c <| m_qrCodeChunks := ∅ |> else c in
  let c := c <| m_totalQrCodeChunksCount := chunksCount |> in
  let '(chunkId, s) := read_number 1 s in
  let c := c <| m_qrCodeChunks := <[chunkId := read_bytes s]> (m_qrCodeChunks c) |> in
  let c := c <| m_receivedQrCodeChunksCount := Z.of_nat (size (m_qrCodeChunks c)) |> in
  let parseResult := mkParse false no_result (m_receivedQrCodeChunksCount c) (m_totalQrCodeChunksCount c) in
  if (Z.of_nat (size (m_qrCodeChunks c)) =? m_totalQrCodeChunksCount c)%Z then
    let data := assembled (m_qrCodeChunks c) (m_totalQrCodeChunksCount c) in
    let result := extractConfigFromQr (im_repo c) data in
    if bool_decide (errorCode result = ErrorCode.NoError)
    then (mkParse true result (chunksReceived parseResult) (chunksTotal parseResult),
          c <| m_isQrCodeProcessed := false |>)
    else (parseResult, c <| m_qrCodeChunks := ∅ |> <| m_totalQrCodeChunksCount := 0%Z |>
                         <| m_receivedQrCodeChunksCount := 0%Z |>)
  else (parseResult, c).

Definition parseQrCodeChunk (code : string) (c : importer) : QrParseResult * importer :=
  let parseResult := mkParse false no_result (m_receivedQrCodeChunksCount c) (m_totalQrCodeChunksCount c) in
  if negb (m_isQrCodeProcessed c) then (parseResult, c)
  else
    let ba := fromBase64 code in
    let '(magic, s) := read_number 2 ba in
    if (magic =? qrMagicCode)%Z then parse_chunk s c
    else
      let result := extractConfigFromQr (im_repo c) code in
      let result :=
        if bool_decide (errorCode result = ErrorCode.NoError) then result
        else extractConfigFromQr (im_repo c) ba in
      if bool_decide (errorCode result = ErrorCode.NoError)
      then (mkParse true result (chunksReceived parseResult) (chunksTotal parseResult),
            c <| m_isQrCodeProcessed := false |>)
      else (parseResult, c).

(** *** Adding to the repository *)

Definition nativeConfig (r : repo) (id : string) : option obj :=
  configOfKind freeV2Endpoint premiumV1Endpoint (isKind Native) r id.

(** The loop of [importConfig] over the servers: the id of the server of that profile and, up to
    there, of one without a profile that has the same description. *)
Fixpoint find_profile (r : repo) (profileId description : string) (ids : list string) (legacyServerId : string)
    : string * string :=
  match ids with
  | [] => ("", legacyServerId)
  | serverId :: ids =>
      match nativeConfig r serverId with
      | None => find_profile r profileId description ids legacyServerId
      | Some o =>
          let managed := to_string (ofind importKey.managedProfileId o) in
          if String.eqb managed profileId then (serverId, legacyServerId)
          else
            let legacy :=
              str_empty managed && negb (str_empty description)
              && String.eqb (to_string (ofind Key.description o)) description
              && (str_empty legacyServerId || String.eqb serverId (m_defaultServerId r)) in
            find_profile r profileId description ids (if legacy then serverId else legacyServerId)
      end
  end.

(** The server an import replaces, empty when it adds one. *)
Definition target (r : repo) (config : obj) : string :=
  let managedProfileId := trimmed (to_string (ofind importKey.managedProfileId config)) in
  let '(managedServerId, legacyServerId) :=
    if negb (str_empty managedProfileId) && bool_decide (kindOf config = Native)
    then find_profile r managedProfileId (trimmed (to_string (ofind Key.description config)))
           (m_orderedServerIds r) ""
    else ("", "") in
  if str_empty managedServerId then legacyServerId else managedServerId.

(** The description of the server replaced stays. *)
Definition updated (r : repo) (id : string) (config : obj) : obj :=
  match nativeConfig r id with
  | Some previous =>
      let d := to_string (ofind Key.description previous) in
      if str_empty d then config else oset Key.description (JStr d) config
  | None => config
  end.

Definition add (config : obj) (r : repo) : repo * string :=
  addServer createUuid freeV2Endpoint premiumV1Endpoint "" config (kindOf config) r.

Definition store (config : obj) (r : repo) : repo :=
  let managedServerId := target r config in
  let '(r, managedServerId) :=
    if negb (str_empty managedServerId)
    then (editServer freeV2Endpoint premiumV1Endpoint managedServerId (updated r managedServerId config)
            (kindOf config) r, managedServerId)
    else add config r in
  setDefaultServer managedServerId r.

Definition importConfig (config : obj) (s : importer) : importer :=
  if credentials_valid config || ocontains Key.containers config
  then signal importFinished (s <| im_repo := store config (im_repo s) |>)
  else if ocontains Key.configVersion config then
    let crc := (qChecksum (json_print (JObj config)) mod 2 ^ 16)%Z in
    let hasServerWithCrc :=
      existsb (fun id =>
        match configOfKind freeV2Endpoint premiumV1Endpoint isApiV2Subscription (im_repo s) id with
        | Some apiV2 => (to_int 0 (ofind importKey.crc apiV2) mod 2 ^ 16 =? crc)%Z
        | None => false
        end) (m_orderedServerIds (im_repo s)) in
    if hasServerWithCrc then signal (importErrorOccurred ErrorCode.ApiConfigAlreadyAdded true) s
    else
      let '(r, serverId) := add (oset importKey.crc (JInt crc) config) (im_repo s) in
      signal importFinished (s <| im_repo := setDefaultServer serverId r |>)
  else signal (importErrorOccurred ErrorCode.ImportInvalidConfigError false) s.

(** The first server of the profile with that key, with a container. *)
Definition has_profile (r : repo) (profileKey id : string) : bool :=
  match nativeConfig r id with
  | Some o =>
      String.eqb (to_string (ofind importKey.managedProfileId o)) importKey.tunnelCoreManagedProfileId
      && String.eqb (to_string (ofind importKey.managedProfileKey o)) profileKey
      && match to_array (ofind Key.containers o) with [] => false | _ => true end
  | None => false
  end.

Definition activateTunnelCoreProfile (profileKey : string) (s : importer) : importer * bool :=
  if str_empty profileKey then (s, false)
  else match List.find (has_profile (im_repo s) profileKey) (m_orderedServerIds (im_repo s)) with
       | Some id => (s <| im_repo := setDefaultServer id (im_repo s) |>, true)
       | None => (s, false)
       end.

(** *** The interface's part *)

(** What every successful extraction leaves in the interface's controller. *)
Definition accept (result : ImportResult) (s : importer) : importer :=
  signal importConfigChanged
    (s <| m_config := config result |> <| m_configFileName := configFileName result |>
       <| m_maliciousWarningText := maliciousWarningText result |>
       <| m_isNativeWireGuardConfig := isNativeWireGuardConfig result |>).

Definition take_result (result : ImportResult) (s : importer) : importer * bool :=
  if negb (bool_decide (errorCode result = ErrorCode.NoError))
  then (signal (importErrorOccurred (errorCode result) false) s, false)
  else (accept result s, true).

(** [ImportUiController::extractConfigFromData]: the name never carries a path. *)
Definition ui_extractConfigFromData (data name : string) (s : importer) : importer * bool :=
  take_result (extractConfigFromData (im_repo s) data (fileName (slashes name))) s.

(** [content] is what [SystemController::readFile] reads, [None] when it cannot. *)
Definition extractConfigFromFile (path : string) (content : option string) (s : importer) : importer * bool :=
  match content with
  | None => (signal (importErrorOccurred ErrorCode.ImportOpenConfigError false) s, false)
  | Some data => take_result (extractConfigFromData (im_repo s) data (fileName path)) s
  end.

Definition extractTunnelCoreConfigFromData (data name : string) (s : importer) : importer * bool :=
  let '(s, ok) := ui_extractConfigFromData data name s in
  if negb ok then (s, false)
  else (signal importConfigChanged
          (s <| m_config := oset importKey.managedProfileId (JStr importKey.tunnelCoreManagedProfileId)
                              (m_config s) |>), true).

Definition ui_importConfig (s : importer) : importer :=
  let s := importConfig (m_config s) s in
  signal importConfigChanged
    (s <| m_config := [] |> <| m_configFileName := "" |> <| m_maliciousWarningText := "" |>
       <| m_isNativeWireGuardConfig := false |>).

(** The key and the obfuscation of the account's profile. *)
Definition with_profile (profileKey obfuscationMode obfuscationProfile : string) (config : obj) : obj :=
  let config := oset importKey.managedProfileKey (JStr profileKey) config in
  let normalizedProfile := to_lower (trimmed obfuscationProfile) in
  if String.eqb (to_lower (trimmed obfuscationMode)) "client_dynamic" then
    let config := oset importKey.managedObfuscationMode (JStr "client_dynamic") config in
    oset importKey.managedObfuscationProfile
      (JStr (if str_empty normalizedProfile then "auto" else normalizedProfile)) config
  else
    let config := oset importKey.managedObfuscationMode (JStr "static") config in
    if negb (str_empty (trimmed obfuscationProfile))
    then oset importKey.managedObfuscationProfile (JStr normalizedProfile) config else config.

Definition importTunnelCoreConfig (data name profileKey obfuscationMode obfuscationProfile : string)
    (s : importer) : importer :=
  let '(s, ok) := extractTunnelCoreConfigFromData data name s in
  if negb ok then s
  else ui_importConfig
         (s <| m_config := with_profile profileKey obfuscationMode obfuscationProfile (m_config s) |>).

Definition ui_extractConfigFromQr (data : string) (s : importer) : importer * bool :=
  take_result (extractConfigFromQr (im_repo s) data) s.

Definition ui_processNativeWireGuardConfig (junk : Z) (s : importer) : importer :=
  signal importConfigChanged (s <| m_config := processNativeWireGuardConfig junk (m_config s) |>).

Definition clearConfigFileName (s : importer) : importer :=
  signal importConfigChanged (s <| m_configFileName := "" |>).

Definition ui_parseQrCodeChunk (code : string) (s : importer) : importer * bool :=
  let '(parseResult, s) := parseQrCodeChunk code s in
  if success parseResult then (signal qrDecodingFinished (accept (importResult parseResult) s), true)
  else (s, false).

(** Each code the camera of a phone reads. *)
Definition decodeQrCode (code : string) (s : importer) : importer * bool :=
  ui_parseQrCodeChunk code (if negb (m_isQrCodeProcessed s) then startDecodingQr s else s).
End Controllers.
