(* ===== verification/ImportFacts.v ===== *)
(** * Lemmas on imports

    A series of QR codes as the scanner takes it in, chunk by chunk; the settings of a WireGuard
    text; and the server an import replaces or adds. *)

From S2P Require Import Prelude Numbers Json Lines ServerConfig ProtocolConfigs ServersRepository.
From S2P Require Import Containers QrCode Import.

(** ** Scanning a series *)

(** The chunks held once the codes at the positions [l] of a series have been scanned. *)
Definition chunk_map (ps : list string) (l : list nat) : gmap Z string :=
  fold_left (fun m i => <[Z.of_nat i := default "" (ps !! i)]> m) l ∅.

Lemma chunk_map_snoc ps l x :
  chunk_map ps (l ++ [x]) = <[Z.of_nat x := default "" (ps !! x)]> (chunk_map ps l).
Proof. unfold chunk_map. by rewrite fold_left_app. Qed.

Lemma chunk_map_lookup ps l (i : nat) :
  chunk_map ps l !! Z.of_nat i = if bool_decide (i ∈ l) then Some (default "" (ps !! i)) else None.
Proof.
  induction l as [|x l IH] using rev_ind; [by rewrite bool_decide_eq_false_2 by apply not_elem_of_nil|].
  rewrite chunk_map_snoc. destruct (decide (i = x)) as [->|Hne].
  - rewrite lookup_insert_eq, bool_decide_eq_true_2; [done|]. set_solver.
  - rewrite lookup_insert_ne by lia. rewrite IH. repeat case_bool_decide; set_solver.
Qed.

Lemma chunk_map_dom ps l : dom (chunk_map ps l) = list_to_set (C := gset Z) (Z.of_nat <$> remove_dups l).
Proof.
  apply set_eq. intros z. rewrite elem_of_list_to_set, list_elem_of_fmap. induction l as [|x l IH] using rev_ind.
  - cbn. rewrite dom_empty. set_solver.
  - rewrite chunk_map_snoc, dom_insert, elem_of_union, elem_of_singleton, IH. setoid_rewrite elem_of_remove_dups.
    set_solver.
Qed.

(** How many different codes have been scanned. *)
Lemma chunk_map_size ps l : size (chunk_map ps l) = length (remove_dups l).
Proof.
  rewrite <- size_dom, chunk_map_dom, size_list_to_set; [by rewrite length_fmap|].
  apply NoDup_fmap_2; [intros a b; lia|apply NoDup_remove_dups].
Qed.

Lemma remove_dups_range l n : (forall i, i ∈ l -> i < n) -> (length (remove_dups l) <= n)%nat /\
  (length (remove_dups l) = n -> forall i, i < n -> i ∈ l).
Proof.
  intros Hl. assert (Hsub : remove_dups l ⊆+ seq 0 n).
  { apply NoDup_submseteq; [apply NoDup_remove_dups|]. intros i. rewrite elem_of_remove_dups.
    intros Hi. apply elem_of_seq. specialize (Hl _ Hi). lia. }
  split; [apply submseteq_length in Hsub; by rewrite length_seq in Hsub|]. intros Hn i Hi.
  assert (Hp : remove_dups l ≡ₚ seq 0 n) by (apply submseteq_length_Permutation; [done|rewrite length_seq; lia]).
  rewrite <- elem_of_remove_dups, Hp. apply elem_of_seq. lia.
Qed.

(** With all of them there, the data are complete. *)
Lemma assembled_all ps l : (forall i, i ∈ l -> i < length ps) -> length (remove_dups l) = length ps ->
  assembled (chunk_map ps l) (Z.of_nat (length ps)) = joined ps.
Proof.
  intros Hl Hn. unfold assembled. f_equal. rewrite Nat2Z.id. change (map ?f ?l) with (f <$> l).
  apply list_eq. intros i. rewrite list_lookup_fmap. destruct (decide (i < length ps)) as [Hi|Hi].
  - rewrite lookup_seq_lt by done. cbn. rewrite chunk_map_lookup, bool_decide_eq_true_2
      by (eapply remove_dups_range; eauto). cbn. destruct (lookup_lt_is_Some_2 ps i Hi) as [p ->]. done.
  - rewrite lookup_seq_ge by lia. symmetry. apply lookup_ge_None_2. lia.
Qed.

Section Scanning.
Context `{ImportWorld} `{QrSymbols}.

(** The codes at the positions [l] of a series, one after the other. *)
Definition scan_codes (codes : list string) (l : list nat) (c : importer) : importer :=
  fold_left (fun c i => (parseQrCodeChunk (default "" (codes !! i)) c).2) l c.

(** The scanner with the chunks of [l], as long as some are missing. *)
Definition scanning (ps : list string) (l : list nat) (c : importer) : importer :=
  c <| m_isQrCodeProcessed := true |> <| m_qrCodeChunks := chunk_map ps l |>
    <| m_totalQrCodeChunksCount := match l with [] => 0%Z | _ => Z.of_nat (length ps) end |>
    <| m_receivedQrCodeChunksCount := Z.of_nat (length (remove_dups l)) |>.

Definition codes_of (ps : list string) : list string :=
  imap (fun i p => chunk_text (Z.of_nat (length ps)) (Z.of_nat i) p) ps.

Variable ps : list string.
Hypothesis Hcount : (length ps < 256)%nat.
Hypothesis Hshort : forall p, p ∈ ps -> (String.length p <= chunk_size)%nat.

Lemma scanning_step l x c : x < length ps ->
  parseQrCodeChunk (default "" (codes_of ps !! x)) (scanning ps l c) =
  parse_chunk (put_number 1 (Z.of_nat (length ps)) +:+ put_number 1 (Z.of_nat x) +:+ put_bytes (default "" (ps !! x)))
    (scanning ps l c).
Proof.
  intros Hx. destruct (lookup_lt_is_Some_2 ps x Hx) as [p Hp]. unfold codes_of. rewrite list_lookup_imap, Hp. cbn [fmap option_fmap option_map default from_option id]. unfold id.
  unfold parseQrCodeChunk, chunk_text. cbn [m_isQrCodeProcessed scanning upd setter negb].
  rewrite fromBase64_toBase64. cbv zeta. rewrite read_put_number by done. done.
Qed.

(** One more code: the chunk is kept; the last missing one completes the data. *)
Lemma scanning_next l x c : (forall i, i ∈ l -> i < length ps) -> x < length ps ->
  let '(p, c') := parseQrCodeChunk (default "" (codes_of ps !! x)) (scanning ps l c) in
  let result := extractConfigFromQr (im_repo c) (joined ps) in
  let seen := length (remove_dups (l ++ [x])) in
  chunksReceived p = Z.of_nat seen /\ chunksTotal p = Z.of_nat (length ps) /\
  (if bool_decide (seen = length ps)
   then if bool_decide (errorCode result = ErrorCode.NoError)
        then success p = true /\ importResult p = result else success p = false
   else success p = false /\ c' = scanning ps (l ++ [x]) c).
Proof.
  intros Hl Hx. rewrite scanning_step by done. unfold parse_chunk.
  rewrite read_put_number by (cbn; lia). rewrite read_put_number by (cbn; lia).
  rewrite read_put_bytes.
  2: { destruct (lookup_lt_is_Some_2 ps x Hx) as [p Hp]. rewrite Hp. cbn.
       apply list_elem_of_lookup_2, Hshort in Hp. unfold chunk_size in Hp. lia. }
  set (c0 := if negb _ then _ else _).
  assert (Hc0 : c0 = scanning ps l c <| m_qrCodeChunks := chunk_map ps l |>).
  { unfold c0. destruct l as [|y l]; [|by rewrite Z.eqb_refl]. cbn -[Z.of_nat Z.eqb]. by destruct (_ =? _)%Z. }
  rewrite Hc0. clear c0 Hc0. cbn -[Z.of_nat Z.eqb extractConfigFromQr assembled remove_dups chunk_map].
  rewrite <- chunk_map_snoc, chunk_map_size.
  destruct (Z.eqb_spec (Z.of_nat (length (remove_dups (l ++ [x])))) (Z.of_nat (length ps))) as [E|E].
  - rewrite (bool_decide_eq_true_2 (_ = length ps)) by lia. rewrite assembled_all by (set_solver || lia).
    case_bool_decide; done.
  - rewrite (bool_decide_eq_false_2 (_ = length ps)) by lia. do 3 (split; [done|]).
    unfold scanning. destruct (l ++ [x]) eqn:El; [by apply app_eq_nil in El as [_ ?]|]. done.
Qed.

Lemma remove_dups_snoc (l : list nat) x : (length (remove_dups l) <= length (remove_dups (l ++ [x])))%nat.
Proof.
  apply submseteq_length, NoDup_submseteq; [apply NoDup_remove_dups|].
  intros i. rewrite !elem_of_remove_dups. set_solver.
Qed.

(** As long as some codes are missing, the scanner holds the chunks of those scanned. *)
Lemma scan_codes_partial l c : (forall i, i ∈ l -> i < length ps) -> (length (remove_dups l) < length ps)%nat ->
  scan_codes (codes_of ps) l (startDecodingQr c) = scanning ps l c.
Proof.
  induction l as [|x l IH] using rev_ind; intros Hl Hn; [done|].
  pose proof (remove_dups_snoc l x) as Hle. unfold scan_codes in *. rewrite fold_left_app. cbn [fold_left].
  rewrite IH by (set_solver || lia). pose proof (scanning_next l x c) as Hs.
  destruct (parseQrCodeChunk _ _) as [p c']. cbn [snd].
  destruct Hs as (_ & _ & Hs); [set_solver|apply Hl; set_solver|].
  rewrite bool_decide_eq_false_2 in Hs by lia. apply Hs.
Qed.
End Scanning.

(** ** Kinds *)

(** The members the classification looks at. *)
Definition probed : list string :=
  [Key.configVersion; Key.apiConfig; Key.apiEndpoint; Key.containers; Key.userName; Key.password; Key.port].

Lemma kind_ext f p o o' : (forall k, k ∈ probed -> ofind k o = ofind k o') ->
  configTypeFromJson f p o = configTypeFromJson f p o'.
Proof.
  intros Ho. unfold configTypeFromJson, telegramType, gatewayType, hasThirdPartyConfig, adminProbe_hasCredentials,
    ocontains. rewrite !Ho by (unfold probed; set_solver). done.
Qed.

Lemma kind_oset f p k v o : k ∉ probed -> configTypeFromJson f p (oset k v o) = configTypeFromJson f p o.
Proof. intros Hk. apply kind_ext. intros k' Hk'. apply ofind_oset_ne. congruence. Qed.

Lemma kind_strip f p o : configTypeFromJson f p (withoutStorageServerId o) = configTypeFromJson f p o.
Proof.
  apply kind_ext. intros k Hk. unfold withoutStorageServerId. rewrite ofind_oremove.
  destruct (String.eqb_spec k Key.storageServerId) as [->|]; [|done].
  exfalso. unfold probed in Hk. by repeat (apply elem_of_cons in Hk as [Hk|Hk]; [done|]); apply not_elem_of_nil in Hk.
Qed.

(** ** The server an import replaces or adds *)

Definition choose (id : string) (v : view) : view := mkView (entries v) id.

Lemma set_default_refines id r : inv r -> id ∈ m_orderedServerIds r ->
  abs (setDefaultServer id r) = choose id (abs r).
Proof.
  intros [Hc Hd] Hid. unfold setDefaultServer. destruct (m_orderedServerIds r) as [|a l] eqn:El.
  { by apply not_elem_of_nil in Hid. }
  rewrite <- El in *. assert (Hh : has r id = true) by (apply has_true, Hc, Hid). rewrite Hh. cbn [negb].
  unfold indexOfServerId. destruct (index_of_is_Some _ _ Hid) as [i ->].
  destruct (String.eqb_spec (m_defaultServerId r) id) as [<-|Hne]; [by destruct r|].
  unfold persistDefaultServerFields. cbn. rewrite El. rewrite <- El.
  rewrite bool_decide_eq_true_2 by done. done.
Qed.

Section Store.
Context `{ImportWorld}.

Abbreviation kindOf := (configTypeFromJson freeV2Endpoint premiumV1Endpoint).

Lemma native_ordered r id o : inv r -> nativeConfig r id = Some o -> id ∈ m_orderedServerIds r.
Proof.
  intros [Hc _] Ho. apply Hc. unfold nativeConfig, configOfKind in Ho. by destruct (m_serverJsonById r !! id).
Qed.

(** The server found is one of the servers, and of that profile; when none is, no server is. *)
Lemma find_profile_spec r pid d ids : forall legacy managed legacy',
  find_profile r pid d ids legacy = (managed, legacy') ->
  (managed <> "" -> managed ∈ ids) /\
  (managed <> "" -> exists o, nativeConfig r managed = Some o /\ to_string (ofind importKey.managedProfileId o) = pid) /\
  (managed = "" -> "" ∉ ids -> forall id o, id ∈ ids -> nativeConfig r id = Some o ->
     to_string (ofind importKey.managedProfileId o) <> pid) /\
  (legacy' = legacy \/ (legacy' ∈ ids /\ exists o, nativeConfig r legacy' = Some o /\
     to_string (ofind importKey.managedProfileId o) = "" /\ to_string (ofind Key.description o) = d /\ d <> "")).
Proof.
  induction ids as [|x ids IH]; intros legacy managed legacy' Hf; cbn [find_profile] in Hf.
  - simplify_eq. split_and!; try done; [|by left]. by intros _ _ id o ?%not_elem_of_nil.
  - destruct (nativeConfig r x) as [o|] eqn:Eo.
    + destruct (String.eqb_spec (to_string (ofind importKey.managedProfileId o)) pid) as [Ep|Ep].
      * simplify_eq. split_and!; [set_solver|eauto| |by left]. intros ->. set_solver.
      * apply IH in Hf as (H1 & H2 & H3 & H4). split_and!; [set_solver|done| |].
        -- intros Hm Hne id o' [->|Hid]%elem_of_cons Ho'; [by simplify_eq|]. eapply H3; eauto. set_solver.
        -- destruct H4 as [H4|(H4 & H5)]; [|right; split; [set_solver|done]].
           destruct (_ && _ && _ && _) eqn:El; [|by left]. right. subst.
           rewrite !andb_true_iff, negb_true_iff, str_empty_true, str_empty_false, String.eqb_eq in El.
           destruct El as [[[Ea Eb] Ec] _]. split; [set_solver|]. by exists o.
    + apply IH in Hf as (H1 & H2 & H3 & H4). split_and!; [set_solver|done| |].
      * intros Hm Hne id o' [->|Hid]%elem_of_cons Ho'; [congruence|]. eapply H3; eauto. set_solver.
      * destruct H4 as [H4|(H4 & H5)]; [by left|right; split; [set_solver|done]].
Qed.

Lemma target_server r o : inv r -> target r o <> "" ->
  target r o ∈ m_orderedServerIds r /\ kindOf o = Native /\ exists old, nativeConfig r (target r o) = Some old.
Proof.
  intros Hi. unfold target. set (pid := trimmed _). set (d := trimmed _).
  destruct (negb (str_empty pid) && bool_decide (kindOf o = Native)) eqn:Ek; [|done].
  destruct (find_profile r pid d (m_orderedServerIds r) "") as [managed legacy] eqn:Ef.
  apply andb_true_iff in Ek as [_ Ek%bool_decide_eq_true].
  apply find_profile_spec in Ef as (F1 & F2 & _ & F4). destruct (str_empty managed) eqn:Em; intros Hne.
  - destruct F4 as [->|(Hin & old & Ho & _)]; [done|]. split_and!; eauto.
  - apply str_empty_false in Em. destruct (F2 Em) as (old & Ho & _). split_and!; eauto.
Qed.

Lemma kind_updated r id o : kindOf (updated r id o) = kindOf o.
Proof.
  unfold updated. destruct (nativeConfig r id) as [old|]; [|done]. destruct (str_empty _); [done|].
  apply kind_oset. unfold probed. set_unfold. naive_solver.
Qed.

Lemma ordered_entries r : m_orderedServerIds r = fst <$> entries (abs r).
Proof. symmetry. apply fst_entries. Qed.

(** The id of a server that is added. *)
Definition stored_id (r : repo) (o : obj) : string :=
  if str_empty (target r o) then createUuid (m_uuids r) else target r o.

Definition spec_store (r : repo) (o : obj) : view :=
  let id := stored_id r o in
  choose id (if str_empty (target r o) then spec_add id (withoutStorageServerId o) (abs r)
             else spec_edit id (withoutStorageServerId (updated r id o)) (abs r)).

Hypothesis Huuid : forall n, createUuid n <> "" /\ trimmed (createUuid n) = createUuid n.

Lemma add_spec r o : inv r -> has r (createUuid (m_uuids r)) = false ->
  let '(r', id) := add o r in
  inv r' /\ id = createUuid (m_uuids r) /\ abs r' = spec_add id (withoutStorageServerId o) (abs r).
Proof.
  intros Hi Hf. pose proof (add_inv createUuid freeV2Endpoint premiumV1Endpoint Huuid "" o (kindOf o) r Hi) as Hinv.
  pose proof (add_refines createUuid freeV2Endpoint premiumV1Endpoint Huuid "" o (kindOf o) r Hi) as Habs.
  unfold add. destruct (addServer _ _ _ _ _ _ _) as [r' id] eqn:E. cbn [fst] in Hinv.
  assert (Hid : id = createUuid (m_uuids r)).
  { unfold addServer, normalizedOrGeneratedServerId in E. cbn [trimmed drop_spaces drop_trailing_spaces str_empty negb andb] in E.
    by repeat (case_match; simplify_eq). }
  subst id. rewrite Hf, kind_strip, bool_decide_eq_true_2 in Habs by done. done.
Qed.

(** An import replaces the server of its profile, where there is one, and adds one otherwise;
    nothing else changes but the chosen server. *)
Lemma store_refines r o : inv r -> has r (createUuid (m_uuids r)) = false ->
  inv (store o r) /\ abs (store o r) = spec_store r o.
Proof.
  intros Hi Hf. unfold store, spec_store, stored_id. destruct (str_empty (target r o)) eqn:Et; cbn [negb].
  - pose proof (add_spec r o Hi Hf) as Ha. destruct (add o r) as [r' id]. destruct Ha as (Hi' & -> & Ha).
    split; [by apply set_default_inv|]. rewrite set_default_refines, Ha; [done..|].
    rewrite ordered_entries, Ha. unfold spec_add. cbn. rewrite fmap_app. set_solver.
  - apply str_empty_false in Et. destruct (target_server r o Hi Et) as (Hin & Hk & _).
    pose proof (edit_refines freeV2Endpoint premiumV1Endpoint (target r o) (updated r (target r o) o) (kindOf o) r Hi) as Ha.
    rewrite kind_strip, kind_updated, !bool_decide_eq_true_2 in Ha by done. cbn [andb] in Ha.
    pose proof (edit_inv freeV2Endpoint premiumV1Endpoint (target r o) (updated r (target r o) o) (kindOf o) r Hi) as Hi'.
    split; [by apply set_default_inv|]. rewrite set_default_refines, Ha; [done..|].
    rewrite ordered_entries, Ha. unfold spec_edit. cbn [entries]. rewrite <- list_fmap_compose.
    rewrite ordered_entries in Hin. apply list_elem_of_fmap in Hin as (e & He & Hin).
    apply list_elem_of_fmap. exists e. split; [|done]. cbn. by rewrite He, String.eqb_refl.
Qed.

(** The server chosen after an import, and the others. *)
Definition stored_payload (r : repo) (o : obj) : obj :=
  withoutStorageServerId (if str_empty (target r o) then o else updated r (target r o) o).

Lemma store_chosen r o : inv r -> has r (createUuid (m_uuids r)) = false ->
  m_defaultServerId (store o r) = stored_id r o /\
  (stored_id r o, stored_payload r o) ∈ entries (abs (store o r)) /\
  forall j x, j <> stored_id r o -> (j, x) ∈ entries (abs (store o r)) <-> (j, x) ∈ entries (abs r).
Proof.
  intros Hi Hf. destruct (store_refines r o Hi Hf) as [Hi' Ha].
  split; [exact (f_equal chosen Ha)|]. rewrite Ha. unfold spec_store, stored_payload, stored_id.
  destruct (str_empty (target r o)) eqn:Et; cbn [choose spec_add spec_edit entries].
  - split; [set_solver|]. intros j x Hne. rewrite elem_of_app, list_elem_of_singleton. naive_solver.
  - apply str_empty_false in Et. destruct (target_server r o Hi Et) as (Hin & _ & _). split.
    + rewrite ordered_entries in Hin. apply list_elem_of_fmap in Hin as (e & He & Hin).
      apply list_elem_of_fmap. exists e. by rewrite He, String.eqb_refl.
    + intros j x Hne. rewrite list_elem_of_fmap. split.
      * intros ([j' x'] & Hjx & Hin'). cbn in Hjx. destruct (String.eqb_spec j' (target r o)); by simplify_eq.
      * intros Hin'. exists (j, x). cbn. by destruct (String.eqb_spec j (target r o)).
Qed.

(** *** One managed profile *)

Definition managed_payload (o : obj) : bool :=
  bool_decide (kindOf o = Native) &&
  String.eqb (to_string (ofind importKey.managedProfileId o)) importKey.tunnelCoreManagedProfileId.

Definition is_managed (r : repo) (id : string) : bool :=
  match nativeConfig r id with
  | Some o => String.eqb (to_string (ofind importKey.managedProfileId o)) importKey.tunnelCoreManagedProfileId
  | None => false
  end.

(** At most one server is the account's. *)
Definition profile_unique (r : repo) : Prop :=
  forall i j, is_managed r i = true -> is_managed r j = true -> i = j.

Lemma native_entry r id o : inv r ->
  nativeConfig r id = Some o <-> (id, o) ∈ entries (abs r) /\ kindOf o = Native.
Proof.
  intros [Hc _]. unfold nativeConfig, configOfKind, abs, isKind. cbn [entries].
  rewrite list_elem_of_fmap. unfold entry_of. split.
  - destruct (m_serverJsonById r !! id) as [j|] eqn:Ej; [|done]. case_bool_decide as Hk; [|done]. intros [= <-].
    split; [|done]. exists id. rewrite Ej. split; [done|]. apply Hc. eauto.
  - intros [(id' & [= <- ->] & Hin) Hk]. apply Hc in Hin as [j Hj]. rewrite Hj in *. cbn in *.
    by rewrite bool_decide_eq_true_2.
Qed.

Lemma managed_entry r id : inv r ->
  is_managed r id = true <-> exists o, (id, o) ∈ entries (abs r) /\ managed_payload o = true.
Proof.
  intros Hi. unfold is_managed, managed_payload. split.
  - destruct (nativeConfig r id) as [o|] eqn:Eo; [|done]. intros Hm. apply native_entry in Eo as [He Hk]; [|done].
    exists o. by rewrite bool_decide_eq_true_2.
  - intros (o & He & [Hk%bool_decide_eq_true Hm]%andb_true_iff).
    assert (Ho : nativeConfig r id = Some o) by (apply native_entry; auto). by rewrite Ho.
Qed.

Lemma payload_strip o : managed_payload (withoutStorageServerId o) = managed_payload o.
Proof.
  unfold managed_payload. rewrite kind_strip. unfold withoutStorageServerId. by rewrite ofind_oremove.
Qed.

Lemma payload_updated r id o : managed_payload (updated r id o) = managed_payload o.
Proof.
  unfold managed_payload. rewrite kind_updated. unfold updated. destruct (nativeConfig r id); [|done].
  destruct (str_empty _); [done|]. by rewrite ofind_oset_ne.
Qed.

(** An object of the account's profile replaces the server that has it, if there is one. *)
Lemma target_managed r o : inv r -> managed_payload o = true ->
  forall j, is_managed r j = true -> target r o <> "" /\ is_managed r (target r o) = true.
Proof.
  intros Hi Hm j Hj. unfold managed_payload in Hm. apply andb_true_iff in Hm as [Hk Hp%String.eqb_eq].
  unfold target. rewrite Hp, Hk. change (trimmed importKey.tunnelCoreManagedProfileId) with importKey.tunnelCoreManagedProfileId.
  cbn [negb andb str_empty importKey.tunnelCoreManagedProfileId]. fold importKey.tunnelCoreManagedProfileId.
  destruct (find_profile _ _ _ _ _) as [managed legacy] eqn:Ef. apply find_profile_spec in Ef as (F1 & F2 & F3 & _).
  destruct (str_empty managed) eqn:Em.
  - exfalso. apply str_empty_true in Em. unfold is_managed in Hj. destruct (nativeConfig r j) as [o'|] eqn:Eo; [|done].
    apply String.eqb_eq in Hj. eapply (F3 Em); [|by eapply native_ordered|exact Eo|exact Hj].
    intros Hin. by apply (core_ids r) in Hin as [? _]; [|apply Hi].
  - apply str_empty_false in Em. split; [done|]. destruct (F2 Em) as (o' & Ho' & Hp'). unfold is_managed.
    by rewrite Ho', Hp'.
Qed.

(** Whatever is imported, there is at most one such server afterwards. *)
Lemma unique_edit r o : inv r -> profile_unique r -> target r o <> "" ->
  forall r', inv r' -> entries (abs r') =
    entries (spec_edit (target r o) (withoutStorageServerId (updated r (target r o) o)) (abs r)) -> profile_unique r'.
Proof.
  intros Hi Hu Ht r' Hi' He i j Hmi Hmj.
  assert (Hent : forall k, is_managed r' k = true ->
    (k = target r o /\ managed_payload o = true) \/ (k <> target r o /\ is_managed r k = true)).
  { intros k. rewrite managed_entry, He by done. intros (x & Hx & Hm). unfold spec_edit in Hx. cbn in Hx.
    apply list_elem_of_fmap in Hx as ([k' x'] & Hkx & Hin). cbn in Hkx.
    destruct (String.eqb_spec k' (target r o)) as [->|Hne]; simplify_eq.
    - left. rewrite payload_strip, payload_updated in Hm. done.
    - right. split; [done|]. apply managed_entry; eauto. }
  destruct (Hent i Hmi) as [[-> Hm]|[Hni Hri]], (Hent j Hmj) as [[-> Hm']|[Hnj Hrj]]; [done|..|by apply Hu].
  - exfalso. apply Hnj. apply Hu; [done|]. by eapply target_managed.
  - exfalso. apply Hni. apply Hu; [done|]. by eapply target_managed.
Qed.

Lemma unique_same r r' : inv r -> inv r' -> entries (abs r') = entries (abs r) -> profile_unique r -> profile_unique r'.
Proof. intros Hi Hi' He Hu i j. rewrite !managed_entry, He by done. rewrite <- !managed_entry by done. apply Hu. Qed.

Lemma unique_add r o id r' : inv r -> inv r' -> profile_unique r ->
  (managed_payload o = true -> forall j, is_managed r j = false) ->
  entries (abs r') = entries (abs r) ++ [(id, withoutStorageServerId o)] -> profile_unique r'.
Proof.
  intros Hi Hi' Hu Hnone He.
  assert (Hent : forall k, is_managed r' k = true ->
    (k = id /\ managed_payload o = true) \/ is_managed r k = true).
  { intros k. rewrite managed_entry, He by done. intros (x & [Hx|Hx%list_elem_of_singleton]%elem_of_app & Hm).
    - right. apply managed_entry; eauto.
    - simplify_eq. left. by rewrite payload_strip in Hm. }
  intros i j Hmi Hmj. destruct (Hent i Hmi) as [[-> Hm]|Hri], (Hent j Hmj) as [[-> Hm']|Hrj]; [done|..|by apply Hu].
  - by rewrite Hnone in Hrj.
  - by rewrite Hnone in Hri.
Qed.

Definition good (r : repo) : Prop := inv r /\ profile_unique r.

Lemma set_default_entries id r : inv r -> entries (abs (setDefaultServer id r)) = entries (abs r).
Proof.
  intros Hi. destruct (decide (id ∈ m_orderedServerIds r)) as [Hin|Hin]; [by rewrite set_default_refines|].
  assert (Hh : has r id = false).
  { apply not_true_iff_false. intros Hh%has_true. apply Hin. by apply (core_dom r (proj1 Hi)). }
  unfold setDefaultServer. rewrite Hh. by destruct (m_orderedServerIds r).
Qed.

Lemma good_set_default id r : good r -> good (setDefaultServer id r).
Proof.
  intros [Hi Hu]. assert (Hi' := set_default_inv id r Hi). split; [done|].
  apply (unique_same r); [done|done|by apply set_default_entries|done].
Qed.

Lemma good_add r o : good r -> (managed_payload o = true -> forall j, is_managed r j = false) -> good (add o r).1.
Proof.
  intros [Hi Hu] Hnone.
  pose proof (add_inv createUuid freeV2Endpoint premiumV1Endpoint Huuid "" o (kindOf o) r Hi) as Hi'.
  pose proof (add_refines createUuid freeV2Endpoint premiumV1Endpoint Huuid "" o (kindOf o) r Hi) as Ha.
  unfold add. destruct (addServer _ _ _ _ _ _ _) as [r' id]. cbn [fst] in *. split; [done|].
  destruct (negb (has r id) && _) in Ha.
  - apply (unique_add r o id r' Hi Hi' Hu Hnone). by rewrite Ha.
  - apply (unique_same r r' Hi Hi'); [by rewrite Ha|done].
Qed.

Lemma no_target_no_profile r o : inv r -> target r o = "" ->
  managed_payload o = true -> forall j, is_managed r j = false.
Proof.
  intros Hi Ht Hm j. destruct (is_managed r j) eqn:Ej; [|done]. by destruct (target_managed r o Hi Hm j Ej).
Qed.

Lemma good_stored r o : good r -> good (store o r).
Proof.
  intros Hg. unfold store. destruct (str_empty (target r o)) eqn:Et; cbn [negb].
  - apply str_empty_true in Et. pose proof (good_add r o Hg) as Ha. destruct (add o r) as [r' id].
    apply good_set_default, Ha. intros Hm. apply (no_target_no_profile r o); [apply Hg|done..].
  - apply str_empty_false in Et. destruct Hg as [Hi Hu]. apply good_set_default.
    destruct (target_server r o Hi Et) as (Hin & Hk & _).
    pose proof (edit_refines freeV2Endpoint premiumV1Endpoint (target r o) (updated r (target r o) o) (kindOf o) r Hi) as Ha.
    rewrite kind_strip, kind_updated, !bool_decide_eq_true_2 in Ha by done. cbn [andb] in Ha.
    pose proof (edit_inv freeV2Endpoint premiumV1Endpoint (target r o) (updated r (target r o) o) (kindOf o) r Hi) as Hi'.
    split; [done|]. apply (unique_edit r o Hi Hu Et); [done|]. by rewrite Ha.
Qed.

(** An object without containers is not a native server. *)
Lemma no_containers o : ocontains Key.containers o = false -> managed_payload o = false.
Proof.
  unfold ocontains, managed_payload. intros Ho. destruct (ofind Key.containers o) eqn:E; [done|].
  rewrite bool_decide_eq_false_2; [done|]. unfold configTypeFromJson, telegramType, gatewayType, hasThirdPartyConfig.
  rewrite E. cbn [to_array existsb]. by repeat case_match; simplify_eq.
Qed.

Lemma good_import o s : good (im_repo s) -> good (im_repo (importConfig o s)).
Proof.
  intros Hg. unfold importConfig. destruct (credentials_valid o || ocontains Key.containers o) eqn:Ec.
  { by apply good_stored. }
  apply orb_false_iff in Ec as [_ Ec]. destruct (ocontains Key.configVersion o); [|done].
  case_match; [done|]. pose proof (good_add (im_repo s) (oset importKey.crc (JInt (qChecksum (json_print (JObj o)) mod 2 ^ 16)) o) Hg) as Ha.
  destruct (add _ _) as [r' id]. apply good_set_default, Ha. rewrite no_containers; [done|].
  unfold ocontains in *. by rewrite ofind_oset_ne.
Qed.

Lemma good_remove id r : good r -> good (removeServer id r).
Proof.
  intros [Hi Hu]. assert (Hi' := remove_inv id r Hi). split; [done|].
  pose proof (remove_refines createUuid Huuid id r Hi) as Ha. intros i j. rewrite !managed_entry, Ha by done. case_bool_decide.
  - cbn. intros (o & [_ Ho]%list_elem_of_filter & Hm) (o' & [_ Ho']%list_elem_of_filter & Hm').
    apply Hu; apply managed_entry; eauto.
  - rewrite <- !managed_entry by done. apply Hu.
Qed.

Lemma good_clear r : good (clearServers r).
Proof.
  split; [apply clear_inv|]. intros i j. unfold is_managed, nativeConfig, configOfKind.
  unfold clearServers, syncToStorage, persistDefaultServerFields. cbn. by rewrite !lookup_empty.
Qed.
End Store.

(** ** Runs *)

(** What the user, the account's page and the camera of a phone do. *)
Inductive action :=
  | ImportAccount (data name profileKey obfuscationMode obfuscationProfile : string)
  | ActivateAccount (profileKey : string)
  | ExtractFile (path : string) (content : option string)
  | Extract (data name : string)
  | ExtractQr (data : string)
  | ScanCode (code : string)
  | ProcessNative (junk : Z)
  | ConfirmImport
  | RemoveServer (id : string)
  | SetDefault (id : string)
  | ClearAll.

Section Runs.
Context `{ImportWorld}.

Definition act (s : importer) (a : action) : importer :=
  match a with
  | ImportAccount data name key mode profile => importTunnelCoreConfig data name key mode profile s
  | ActivateAccount key => (activateTunnelCoreProfile key s).1
  | ExtractFile path content => (extractConfigFromFile path content s).1
  | Extract data name => (ui_extractConfigFromData data name s).1
  | ExtractQr data => (ui_extractConfigFromQr data s).1
  | ScanCode code => (decodeQrCode code s).1
  | ProcessNative junk => ui_processNativeWireGuardConfig junk s
  | ConfirmImport => ui_importConfig s
  | RemoveServer id => s <| im_repo := removeServer id (im_repo s) |>
  | SetDefault id => s <| im_repo := setDefaultServer id (im_repo s) |>
  | ClearAll => s <| im_repo := clearServers (im_repo s) |>
  end.

Definition acts (l : list action) (s : importer) : importer := fold_left act l s.

(** Extracting and scanning leave the servers alone. *)
Lemma take_repo result s : im_repo (take_result result s).1 = im_repo s.
Proof. unfold take_result. by destruct (negb _). Qed.

Lemma extract_account_repo data name s : im_repo (extractTunnelCoreConfigFromData data name s).1 = im_repo s.
Proof.
  unfold extractTunnelCoreConfigFromData, ui_extractConfigFromData.
  pose proof (take_repo (extractConfigFromData (im_repo s) data (fileName (slashes name))) s) as Ht.
  destruct (take_result _ _) as [s1 ok]. by destruct (negb ok).
Qed.

Lemma parse_repo code s : im_repo (parseQrCodeChunk code s).2 = im_repo s.
Proof.
  unfold parseQrCodeChunk, parse_chunk. destruct (m_isQrCodeProcessed s); cbn [negb]; [|done].
  destruct (read_number 2 _) as [m t], (_ =? _)%Z; [|by repeat case_match].
  destruct (read_number 1 t) as [n t1], (read_number 1 t1) as [i t2].
  destruct (negb (m_totalQrCodeChunksCount s =? n)%Z); repeat case_match; done.
Qed.

Lemma decode_repo code s : im_repo (decodeQrCode code s).1 = im_repo s.
Proof.
  unfold decodeQrCode, ui_parseQrCodeChunk. set (s0 := if negb _ then _ else _).
  assert (Hs0 : im_repo s0 = im_repo s) by (unfold s0; by destruct (negb _)).
  pose proof (parse_repo code s0) as Hp. destruct (parseQrCodeChunk code s0) as [p s1]. cbn [snd] in Hp.
  destruct (success p); cbn; congruence.
Qed.

Hypothesis Huuid : forall n, createUuid n <> "" /\ trimmed (createUuid n) = createUuid n.

Lemma good_act s a : good (im_repo s) -> good (im_repo (act s a)).
Proof.
  intros Hg. destruct a; cbn [act].
  - unfold importTunnelCoreConfig. pose proof (extract_account_repo data name s) as He.
    destruct (extractTunnelCoreConfigFromData data name s) as [s1 ok]. cbn [fst] in He.
    destruct (negb ok); [by rewrite He|]. apply (good_import Huuid). cbn. by rewrite He.
  - unfold activateTunnelCoreProfile. repeat case_match; [done| |done]. by apply good_set_default.
  - unfold extractConfigFromFile. destruct content; [by rewrite take_repo|done].
  - unfold ui_extractConfigFromData. by rewrite take_repo.
  - unfold ui_extractConfigFromQr. by rewrite take_repo.
  - by rewrite decode_repo.
  - done.
  - by apply (good_import Huuid).
  - by apply (good_remove Huuid).
  - by apply good_set_default.
  - apply good_clear.
Qed.

Lemma good_acts l s : good (im_repo s) -> good (im_repo (acts l s)).
Proof. revert s. induction l as [|a l IH]; intros s Hg; [done|]. by apply IH, good_act. Qed.
End Runs.

(** ** WireGuard texts *)

(** What the application keeps of a text, setting by setting. *)
Definition text_config (data host : string) (port : Z) : AwgClientConfig.AwgClientConfig :=
  let get := value (readSettings data) in
  {| AwgClientConfig.nativeConfig := data;
     AwgClientConfig.hostName := host;
     AwgClientConfig.port := port;
     AwgClientConfig.clientIp := get "Address";
     AwgClientConfig.clientPrivateKey := get "PrivateKey";
     AwgClientConfig.clientPublicKey := "";
     AwgClientConfig.serverPublicKey := get "PublicKey";
     AwgClientConfig.presharedKey := orElse (get "PresharedKey") (get "PreSharedKey");
     AwgClientConfig.clientId := "";
     AwgClientConfig.allowedIps := split_commas (get "AllowedIPs");
     AwgClientConfig.persistentKeepAlive := get "PersistentKeepalive";
     AwgClientConfig.mtu := orElse (get "MTU") "1376";
     AwgClientConfig.junkPacketCount := get "Jc";
     AwgClientConfig.junkPacketMinSize := get "Jmin";
     AwgClientConfig.junkPacketMaxSize := get "Jmax";
     AwgClientConfig.initPacketJunkSize := get "S1";
     AwgClientConfig.responsePacketJunkSize := get "S2";
     AwgClientConfig.cookieReplyPacketJunkSize := get "S3";
     AwgClientConfig.transportPacketJunkSize := get "S4";
     AwgClientConfig.initPacketMagicHeader := get "H1";
     AwgClientConfig.responsePacketMagicHeader := get "H2";
     AwgClientConfig.underloadPacketMagicHeader := get "H3";
     AwgClientConfig.transportPacketMagicHeader := get "H4";
     AwgClientConfig.specialJunk1 := get "I1";
     AwgClientConfig.specialJunk2 := get "I2";
     AwgClientConfig.specialJunk3 := get "I3";
     AwgClientConfig.specialJunk4 := get "I4";
     AwgClientConfig.specialJunk5 := get "I5";
     AwgClientConfig.headerProtectionKey := get "HeaderProtectionKey";
     AwgClientConfig.contentPaddingAddition := get "ContentPaddingAddition";
     AwgClientConfig.rekeyAfterTime := get "RekeyAfterTime";
     AwgClientConfig.rekeyTimeout := get "RekeyTimeout";
     AwgClientConfig.rejectAfterTime := get "RejectAfterTime";
     AwgClientConfig.keepaliveTimeout := get "KeepaliveTimeout";
     AwgClientConfig.maxHandshakeAttempts := get "MaxHandshakeAttempts";
     AwgClientConfig.randomTrailers := get "RandomTrailers";
     AwgClientConfig.disableCookies := get "DisableCookies" |}.

Lemma ofind_put_nonempty k k' v o :
  ofind k (put_nonempty k' v o) = if String.eqb k k' && negb (str_empty v) then Some (JStr v) else ofind k o.
Proof.
  unfold put_nonempty. destruct (str_empty v); [by rewrite andb_false_r|]. rewrite ofind_oset, andb_true_r. done.
Qed.

Lemma ofind_put_keys get keys : forall k o,
  ofind k (fold_left (fun o key => put_nonempty key (get key) o) keys o) =
  if bool_decide (k ∈ keys) && negb (str_empty (get k)) then Some (JStr (get k)) else ofind k o.
Proof.
  induction keys as [|key keys IH]; intros k o; [done|]. cbn [fold_left]. rewrite IH, ofind_put_nonempty.
  destruct (String.eqb_spec k key) as [->|Hne].
  - rewrite (bool_decide_eq_true_2 (key ∈ key :: keys)) by set_solver. case_bool_decide; cbn [andb];
      by destruct (negb (str_empty (get key))).
  - cbn [andb]. repeat case_bool_decide; set_solver.
Qed.

(** The settings of AmneziaWG are there exactly when one of them is. *)
Lemma ofind_awg_keys get keys k o : ofind k o = None -> k ∈ keys ->
  to_string (ofind k (if existsb (fun field => negb (str_empty (get field))) keys
                      then fold_left (fun o key => put_nonempty key (get key) o) keys o else o)) = get k.
Proof.
  intros Ho Hk. destruct (existsb _ keys) eqn:E.
  - rewrite ofind_put_keys, bool_decide_eq_true_2, Ho by done. cbn [andb].
    destruct (str_empty (get k)) eqn:Ek; [|done]. apply str_empty_true in Ek. by rewrite Ek.
  - rewrite Ho. symmetry. cbn. apply str_empty_true. destruct (str_empty (get k)) eqn:Ek; [done|]. exfalso.
    apply not_true_iff_false in E. apply E, existsb_exists. exists k. split; [by apply list_elem_of_In|by rewrite Ek].
Qed.

Lemma ofind_other_keys (get : string -> string) keys k (b : bool) o : k ∉ keys ->
  ofind k (if b then fold_left (fun o key => put_nonempty key (get key) o) keys o else o) = ofind k o.
Proof. intros Hk. destruct b; [|done]. by rewrite ofind_put_keys, bool_decide_eq_false_2. Qed.

(** Look a closed key up in an object written with closed keys. *)
Ltac look :=
  repeat (first [rewrite ofind_oset | rewrite ofind_put_nonempty];
          match goal with
          | |- context [String.eqb ?a ?b] =>
              let r := eval vm_compute in (String.eqb a b) in change (String.eqb a b) with r
          end; cbn [andb]).

#[local] Opaque configKey.awgProtocolKeys.

Section Text.
Context `{ImportWorld}.

Lemma lastConfigOf_inv data c host port awg : lastConfigOf data = Some (c, host, port, awg) ->
  let get := value (readSettings data) in
  host = url_host (get "Endpoint") /\ host <> "" /\
  port = (if negb (url_port (get "Endpoint") =? -1)%Z then pretty (url_port (get "Endpoint")) else "51820") /\
  awg = existsb (fun field => negb (str_empty (get field))) configKey.awgProtocolKeys /\
  AwgClientConfig.fromJson c = text_config data host (toInt port).
Proof.
  unfold lastConfigOf, text_config. set (get := value (readSettings data)). cbv zeta.
  destruct (str_empty (url_host (get "Endpoint"))) eqn:Eh; [done|]. apply str_empty_false in Eh.
  destruct (_ && _ && _); [|done]. intros [= <- <- <- <-].
  split_and!; [done..|]. unfold AwgClientConfig.fromJson. set (b := oset configKey.allowedIps _ _).
  assert (Hawg : forall k, k ∈ configKey.awgProtocolKeys -> ofind k b = None).
  { intros k Hk. with_strategy transparent [configKey.awgProtocolKeys] (unfold configKey.awgProtocolKeys in Hk). unfold b.
    repeat (apply elem_of_cons in Hk as [->|Hk]; [look; repeat case_match; look; done|]).
    by apply not_elem_of_nil in Hk. }
  f_equal; rewrite ofind_oset;
    match goal with |- context [String.eqb ?a ?b] =>
      let r := eval vm_compute in (String.eqb a b) in change (String.eqb a b) with r end; cbv iota;
    try (apply ofind_awg_keys; [apply Hawg|]; apply (bool_decide_unpack _); vm_compute; exact I);
    try (rewrite ofind_other_keys by (apply (bool_decide_unpack _); vm_compute; exact I); unfold b; look).
  all: try (repeat case_match; done).
  - destruct (negb (str_empty (get "PresharedKey"))), (negb (str_empty (get "PreSharedKey")));
      cbn -[toInt in_int32 pretty]; by rewrite toInt_range.
  - unfold orElse. destruct (str_empty (get "PresharedKey")); [|done]. cbn [negb].
    destruct (str_empty (get "PreSharedKey")) eqn:E; [|done]. apply str_empty_true in E. by rewrite E.
  - unfold to_strings. cbn [to_array]. rewrite map_map. apply map_id.
  - destruct (str_empty (get "PersistentKeepalive")) eqn:E; [|done]. apply str_empty_true in E. rewrite E.
    by repeat case_match.
  - unfold orElse. by destruct (str_empty (get "MTU")).
Qed.

(** The container of a text. *)
Definition container_of (c : obj) (port : string) (awg : bool) : obj :=
  let wireguardConfig :=
    oset configKey.transportProto (JStr importKey.defaultTransportProto)
      (oset configKey.port (JStr port)
        (oset configKey.isThirdPartyConfig (JBool true)
          (oset configKey.lastConfig (JStr (json_print (JObj c))) []))) in
  oset (if awg then importKey.awg else importKey.wireguard) (JObj wireguardConfig)
    (oset Key.container (JStr (if awg then importKey.amneziaAwg else importKey.amneziaWireguard)) []).

(** An object of one third-party container is a native server. *)
Definition holds (cont o : obj) : Prop :=
  configTypeFromJson freeV2Endpoint premiumV1Endpoint o = Native /\
  ofind Key.containers o = Some (JArr [JObj cont]).

Lemma holds_oset cont k v o : k ∉ probed -> holds cont o -> holds cont (oset k v o).
Proof.
  intros Hk [Hn Hc]. split; [by rewrite kind_oset|]. rewrite ofind_oset_ne; [done|].
  intros <-. apply Hk. unfold probed. set_solver.
Qed.

Lemma holds_new c port awg : holds (container_of c port awg) (oset Key.containers (JArr [JObj (container_of c port awg)]) []).
Proof. by destruct awg. Qed.

Ltac not_probed := apply (bool_decide_unpack _); vm_compute; exact I.

Lemma extract_text r data name c host port awg :
  extractShareLink r data name = None -> checkConfigFormat data = ConfigTypes.WireGuard ->
  lastConfigOf data = Some (c, host, port, awg) ->
  let result := extractConfigFromData r data name in
  errorCode result = ErrorCode.NoError /\ holds (container_of c port awg) (config result).
Proof.
  intros Hs Hf Hc. unfold extractConfigFromData, decode_config. rewrite Hs, Hf. cbn [bool_decide].
  rewrite bool_decide_eq_false_2 by done. unfold extract_wireguard, extractWireGuardConfig. rewrite Hc.
  set (o := oset Key.hostName (JStr host) _).
  assert (Ho : holds (container_of c port awg) o).
  { unfold o. apply holds_oset; [not_probed|]. destruct (search match_dns data) as [[d1 d2]|];
      repeat (apply holds_oset; [not_probed|]); apply holds_new. }
  clearbody o. destruct o as [|kv o]; [by destruct Ho|].
  destruct (str_empty _); (split; [done|]); [done|].
  refine (holds_oset _ Key.description (JStr (connectionName name)) (kv :: o) _ Ho). not_probed.
Qed.

(** The object the account's configuration becomes. *)
Definition account_object (key mode profile : string) (o : obj) : obj :=
  with_profile key mode profile (oset importKey.managedProfileId (JStr importKey.tunnelCoreManagedProfileId) o).

Lemma holds_account cont key mode profile o : holds cont o -> holds cont (account_object key mode profile o).
Proof.
  intros Ho. unfold account_object, with_profile. repeat case_match; repeat (apply holds_oset; [not_probed|]); done.
Qed.

Lemma account_fields key mode profile o :
  let o' := account_object key mode profile o in
  to_string (ofind importKey.managedProfileId o') = importKey.tunnelCoreManagedProfileId /\
  to_string (ofind importKey.managedProfileKey o') = key /\
  to_string (ofind importKey.managedObfuscationMode o') =
    (if String.eqb (to_lower (trimmed mode)) "client_dynamic" then "client_dynamic" else "static").
Proof.
  cbv zeta. unfold account_object, with_profile. destruct (String.eqb _ _); [|case_match]; look; done.
Qed.

Lemma import_containers cont o s : holds cont o ->
  importConfig o s = signal importFinished (s <| im_repo := store o (im_repo s) |>).
Proof. intros [_ Hc]. unfold importConfig, ocontains. by rewrite Hc, orb_true_r. Qed.

Lemma import_account data name key mode profile s cont :
  let result := extractConfigFromData (im_repo s) data (fileName (slashes name)) in
  errorCode result = ErrorCode.NoError -> holds cont (config result) ->
  let s' := importTunnelCoreConfig data name key mode profile s in
  im_repo s' = store (account_object key mode profile (config result)) (im_repo s) /\
  im_signals s' = im_signals s ++ [importConfigChanged; importConfigChanged; importFinished; importConfigChanged].
Proof.
  cbv zeta. intros He Ho. unfold importTunnelCoreConfig, extractTunnelCoreConfigFromData, ui_extractConfigFromData,
    take_result. rewrite He, bool_decide_eq_true_2 by done. cbn [negb].
  unfold ui_importConfig.
  rewrite (import_containers cont) by exact (holds_account cont key mode profile _ Ho).
  split; [done|]. unfold accept, signal. cbn [im_signals upd setter]. by rewrite <- !app_assoc.
Qed.
End Text.
