(* ===== verification/ImportTheorems.v ===== *)
(** * Theorems on imports *)

From S2P Require Import Prelude Numbers Json Lines ServerConfig ProtocolConfigs ServersRepository.
From S2P Require Import Containers QrCode Import ImportFacts.

(** ** QR codes *)

(** C27: a configuration of at most 255 pieces of 850 bytes is drawn as that many symbols, each of
    which fits; scanned in any order and with any repetitions, they are reassembled to exactly the
    bytes that were drawn.  Each scan reports how many different codes have been seen, and the
    one that completes the series, and no other, gives the configuration these bytes hold. *)
Theorem qr_series_roundtrip `{ImportWorld} `{QrSymbols} data c :
  (0 < chunks_count data <= 255)%Z ->
  exists imgs, generateQrCodeImageSeries data = Some imgs /\ Z.of_nat (length imgs) = chunks_count data /\
  forall l x, (forall i, i ∈ l ++ [x] -> i < length imgs) -> (length (remove_dups l) < length imgs)%nat ->
    let codes := scan <$> imgs in
    let p := (parseQrCodeChunk (default "" (codes !! x)) (scan_codes codes l (startDecodingQr c))).1 in
    let result := extractConfigFromQr (im_repo c) data in
    let seen := length (remove_dups (l ++ [x])) in
    chunksReceived p = Z.of_nat seen /\ chunksTotal p = chunks_count data /\
    success p = bool_decide (seen = length imgs) && bool_decide (errorCode result = ErrorCode.NoError) /\
    (success p = true -> importResult p = result).
Proof.
  intros Hd. set (ps := pieces_of data).
  assert (Hn : Z.of_nat (length ps) = chunks_count data) by (apply pieces_count; lia).
  assert (Hj : joined ps = data) by (apply joined_pieces; lia).
  destruct (series_texts (chunks_count data) (String.length data) 0 data) as (imgs & Hs & Hcodes).
  assert (Hc : scan <$> imgs = codes_of ps) by (unfold codes_of; rewrite Hn; exact Hcodes).
  assert (Hlen : length imgs = length ps).
  { apply (f_equal length) in Hc. unfold codes_of in Hc. by rewrite length_fmap, length_imap in Hc. }
  exists imgs. split; [|split; [lia|]].
  { unfold generateQrCodeImageSeries. destruct (Z.ltb_spec 255 (chunks_count data)); [lia|done]. }
  rewrite Hlen, Hc. intros l x Hl Hpart. cbv zeta.
  rewrite scan_codes_partial; [|lia|intros p; apply pieces_short|set_solver|done].
  assert (Hx : x < length ps) by (apply Hl; set_solver).
  pose proof (scanning_next ps ltac:(lia) (pieces_short _ _) l x c ltac:(set_solver) Hx) as Hnext.
  destruct (parseQrCodeChunk _ _) as [p c']. cbn [fst]. rewrite Hj in Hnext.
  destruct Hnext as (-> & -> & Hr). rewrite Hn. split; [done|]. split; [done|].
  repeat case_bool_decide; cbn [andb]; first [rewrite Hr; done | destruct Hr as [-> Hr]; done].
Qed.

(** ** The account's configuration *)

Section Account.
Context `{ImportWorld}.
Hypothesis Huuid : forall n, createUuid n <> "" /\ trimmed (createUuid n) = createUuid n.

(** What an import leaves of the fields the payload is stored with. *)
Lemma stored_field r o k : k <> Key.storageServerId -> k <> Key.description ->
  ofind k (stored_payload r o) = ofind k o.
Proof.
  intros H1 H2. unfold stored_payload, withoutStorageServerId. rewrite ofind_oremove.
  destruct (String.eqb_spec k Key.storageServerId); [done|]. destruct (str_empty _); [done|].
  unfold updated. destruct (nativeConfig _ _); [|done]. destruct (str_empty _); [done|]. by rewrite ofind_oset_ne.
Qed.

Lemma stored_native r o : inv r -> has r (createUuid (m_uuids r)) = false ->
  configTypeFromJson freeV2Endpoint premiumV1Endpoint o = Native ->
  nativeConfig (store o r) (stored_id r o) = Some (stored_payload r o).
Proof.
  intros Hi Hf Hk. destruct (store_refines Huuid r o Hi Hf) as [Hi' _].
  destruct (store_chosen Huuid r o Hi Hf) as (_ & Hin & _). apply native_entry; [done|]. split; [done|].
  unfold stored_payload. rewrite kind_strip. destruct (str_empty _); [done|]. by rewrite kind_updated.
Qed.

(** The protocol's object of a container, and the client's settings in it. *)
Definition protocol_object (awg : bool) (o : obj) : obj :=
  match to_array (ofind Key.containers o) with
  | c :: _ => to_object (ofind (if awg then importKey.awg else importKey.wireguard) (to_object (Some c)))
  | [] => []
  end.

Definition client_object (awg : bool) (o : obj) : obj :=
  doc_object (json_parse (to_string (ofind configKey.lastConfig (protocol_object awg o)))).

Lemma client_of_container c port awg o : ofind Key.containers o = Some (JArr [JObj (container_of c port awg)]) ->
  client_object awg o = c /\
  AwgProtocolConfig.clientConfig (AwgProtocolConfig.fromJson (protocol_object awg o)) = Some (AwgClientConfig.fromJson c).
Proof.
  intros Ho. unfold client_object, protocol_object. rewrite Ho. cbn [to_array to_object].
  unfold container_of. look. destruct awg; unfold AwgProtocolConfig.fromJson; cbn [to_object];
    look; cbn [AwgProtocolConfig.clientConfig to_string]; rewrite json_parse_print;
    destruct (str_empty (json_print (JObj c))) eqn:E; try done;
    by apply str_empty_true, json_print_nonempty in E.
Qed.

(** A text with an endpoint and the three keys. *)
Definition setting (data k : string) : string := value (readSettings data) k.

Definition text_complete (data : string) : bool :=
  negb (str_empty (url_host (setting data "Endpoint"))) && negb (str_empty (setting data "PrivateKey"))
  && negb (str_empty (setting data "Address")) && negb (str_empty (setting data "PublicKey")).

Definition text_port (data : string) : Z :=
  let p := url_port (setting data "Endpoint") in if (p =? -1)%Z then 51820%Z else p.

(** Whether one of the settings of AmneziaWG is given. *)
Definition text_awg (data : string) : bool :=
  existsb (fun field => negb (str_empty (setting data field))) configKey.awgProtocolKeys.

Lemma complete_text data : text_complete data = true -> (-1 <= url_port (setting data "Endpoint") <= 65535)%Z ->
  exists c port, lastConfigOf data = Some (c, url_host (setting data "Endpoint"), port, text_awg data) /\
    AwgClientConfig.fromJson c = text_config data (url_host (setting data "Endpoint")) (text_port data).
Proof.
  intros Hc Hp. assert (Hs : exists c host port awg, lastConfigOf data = Some (c, host, port, awg)).
  { unfold text_complete, setting in Hc. rewrite !andb_true_iff in Hc. destruct Hc as [[[H1 H2] H3] H4].
    unfold lastConfigOf. rewrite H2, H3, H4. apply negb_true_iff in H1. rewrite H1. cbn [andb]. eauto. }
  destruct Hs as (c & host & port & awg & Hs). exists c, port.
  destruct (lastConfigOf_inv _ _ _ _ _ Hs) as (Hhost & _ & Hport & Hawg & Hcfg). subst host awg. split; [exact Hs|].
  rewrite Hcfg. f_equal. unfold text_port, setting in *. rewrite Hport. destruct (Z.eqb_spec (url_port (value (readSettings data) "Endpoint")) (-1)); cbn [negb].
  - reflexivity.
  - apply toInt_pretty. unfold int32_max. lia.
Qed.
(** The server that the import of an account's text leaves: its id, what is stored of it, and the
    client's settings it was made from. *)
Lemma account_stored data name key mode profile s :
  inv (im_repo s) -> has (im_repo s) (createUuid (m_uuids (im_repo s))) = false ->
  extractShareLink (im_repo s) data (fileName (slashes name)) = None ->
  checkConfigFormat data = ConfigTypes.WireGuard ->
  text_complete data = true -> (-1 <= url_port (setting data "Endpoint") <= 65535)%Z ->
  let s' := importTunnelCoreConfig data name key mode profile s in
  let r := im_repo s in
  let o := account_object key mode profile (config (extractConfigFromData r data (fileName (slashes name)))) in
  exists c port, lastConfigOf data = Some (c, url_host (setting data "Endpoint"), port, text_awg data) /\
    AwgClientConfig.fromJson c = text_config data (url_host (setting data "Endpoint")) (text_port data) /\
    holds (container_of c port (text_awg data)) o /\
    im_repo s' = store o r /\ m_defaultServerId (store o r) = stored_id r o /\
    nativeConfig (store o r) (stored_id r o) = Some (stored_payload r o) /\
    (forall j x, j <> stored_id r o -> (j, x) ∈ entries (abs (store o r)) <-> (j, x) ∈ entries (abs r)) /\
    im_signals s' = im_signals s ++ [importConfigChanged; importConfigChanged; importFinished; importConfigChanged].
Proof.
  intros Hi Hf Hs Ht Hc Hp. cbv zeta.
  destruct (complete_text data Hc Hp) as (c & port & Hl & Hcfg).
  destruct (extract_text _ _ _ _ _ _ _ Hs Ht Hl) as [He Ho].
  destruct (import_account data name key mode profile s _ He Ho) as [-> ->].
  set (o := account_object key mode profile _). set (r := im_repo s).
  assert (Hho : holds (container_of c port (text_awg data)) o) by (by apply holds_account).
  destruct (store_chosen Huuid r o Hi Hf) as (Hid & Hin & Hothers).
  exists c, port. split_and!; try done. exact (stored_native r o Hi Hf (proj1 Hho)).
Qed.
End Account.

(** C11: what the account's service delivers is what the application will connect with.  A complete
    WireGuard text (an endpoint and the three keys) always becomes the default server: a native
    server that carries the profile's id and key, in whose container every setting of the text
    stands in the field that the AmneziaWG configuration reads it from, with the documented default
    where the text has none; the next activation of this key finds it.  All other servers stay as
    they were, and the page is told that the import has finished. *)
Theorem account_config_becomes_default `{ImportWorld} data name key mode profile s :
  (forall n, createUuid n <> "" /\ trimmed (createUuid n) = createUuid n) ->
  inv (im_repo s) -> has (im_repo s) (createUuid (m_uuids (im_repo s))) = false ->
  extractShareLink (im_repo s) data (fileName (slashes name)) = None ->
  checkConfigFormat data = ConfigTypes.WireGuard ->
  text_complete data = true -> (-1 <= url_port (setting data "Endpoint") <= 65535)%Z ->
  let s' := importTunnelCoreConfig data name key mode profile s in
  let id := m_defaultServerId (im_repo s') in
  let expected := text_config data (url_host (setting data "Endpoint")) (text_port data) in
  exists o, nativeConfig (im_repo s') id = Some o /\
    to_string (ofind importKey.managedProfileId o) = importKey.tunnelCoreManagedProfileId /\
    to_string (ofind importKey.managedProfileKey o) = key /\
    AwgClientConfig.fromJson (client_object (text_awg data) o) = expected /\
    AwgProtocolConfig.clientConfig (AwgProtocolConfig.fromJson (protocol_object (text_awg data) o)) = Some expected /\
    has_profile (im_repo s') key id = true /\
    (forall j x, j <> id -> (j, x) ∈ entries (abs (im_repo s')) <-> (j, x) ∈ entries (abs (im_repo s))) /\
    im_signals s' = im_signals s ++ [importConfigChanged; importConfigChanged; importFinished; importConfigChanged].
Proof.
  intros Hu Hi Hf Hs Ht Hc Hp. cbv zeta.
  destruct (account_stored Hu data name key mode profile s Hi Hf Hs Ht Hc Hp)
    as (c & port & _ & Hcfg & Hho & -> & -> & Hn & Hothers & ->).
  set (o := account_object key mode profile _) in *. set (r := im_repo s) in *.
  assert (Hcont : ofind Key.containers (stored_payload r o) = Some (JArr [JObj (container_of c port (text_awg data))])).
  { rewrite stored_field by done. apply Hho. }
  destruct (client_of_container _ _ _ _ Hcont) as [Hcl Hpr].
  destruct (account_fields key mode profile (config (extractConfigFromData r data (fileName (slashes name)))))
    as (Hid & Hkey & _). change (account_object _ _ _ _) with o in Hid, Hkey.
  exists (stored_payload r o). rewrite Hcl, Hpr, Hcfg, !stored_field by done. split_and!; try done.
  unfold has_profile. rewrite Hn, !stored_field, Hid, Hkey, !String.eqb_refl by done.
  by rewrite (proj2 Hho).
Qed.

(** C13: whatever the user imports, scans, chooses or removes, and whatever the account delivers, the
    repository stays well formed and holds at most one server of the account's profile; when it
    holds one for a key, activating the key chooses that server. *)
Theorem managed_profile_unique `{ImportWorld} l s :
  (forall n, createUuid n <> "" /\ trimmed (createUuid n) = createUuid n) ->
  inv (im_repo s) -> profile_unique (im_repo s) ->
  let s' := acts l s in
  inv (im_repo s') /\ profile_unique (im_repo s') /\
  forall key id, key <> "" -> has_profile (im_repo s') key id = true ->
    activateTunnelCoreProfile key s' = (s' <| im_repo := setDefaultServer id (im_repo s') |>, true).
Proof.
  intros Hu Hi Hp. destruct (good_acts Hu l s (conj Hi Hp)) as [Hi' Hp']. cbv zeta.
  set (s' := acts l s) in *. split_and!; [done..|]. intros key id Hkey Hid. unfold activateTunnelCoreProfile.
  rewrite (proj2 (str_empty_false key) Hkey).
  assert (Hm : forall j, has_profile (im_repo s') key j = true -> is_managed (im_repo s') j = true).
  { intros j. unfold has_profile, is_managed. destruct (nativeConfig _ j); [|done]. by intros [[Hj _]%andb_true_iff _]%andb_true_iff. }
  destruct (List.find _ _) as [j|] eqn:Ef.
  - apply find_some in Ef as [_ Hj]. by rewrite (Hp' j id (Hm j Hj) (Hm id Hid)).
  - apply (find_none _ _) with (x := id) in Ef; [congruence|]. apply list_elem_of_In.
    unfold has_profile in Hid. destruct (nativeConfig (im_repo s') id) as [o|] eqn:Eo; [|done].
    by eapply native_ordered.
Qed.

(** ** Dangerous configurations *)

Lemma contains_prefix n b : str_contains n (n +:+ b) = true.
Proof. pose proof (prefix_app n b) as Hp. destruct (n +:+ b); cbn [str_contains]; by rewrite Hp. Qed.

Lemma contains_app n a b : str_contains n b = true -> str_contains n (a +:+ b) = true.
Proof.
  intros Hb. induction a as [|c a IH]; [done|]. rewrite string_app_cons. cbn [str_contains].
  by rewrite IH, orb_true_r.
Qed.

Definition listed (line : string) : string := "<br><i>" +:+ line +:+ "</i>".

Lemma fold_listed l : forall w, exists t, fold_left (fun w s => w +:+ "<br><i>" +:+ s +:+ "</i>") l w = w +:+ t /\
  forall line, line ∈ l -> str_contains (listed line) t = true.
Proof.
  induction l as [|x l IH]; intros w; cbn [fold_left].
  - exists "". rewrite string_app_nil_r. split; [done|]. by intros ? ?%not_elem_of_nil.
  - destruct (IH (w +:+ listed x)) as (t & Ht & Hl). exists (listed x +:+ t). split.
    + change (w +:+ "<br><i>" +:+ x +:+ "</i>") with (w +:+ listed x). by rewrite Ht, string_app_assoc.
    + intros line [->|Hin]%elem_of_cons; [apply contains_prefix|]. by apply contains_app, Hl.
Qed.

Lemma warning_lists text line : line ∈ maliciousStrings text -> str_contains (listed line) (warning_of text) = true.
Proof.
  unfold warning_of. destruct (maliciousStrings text) as [|x l]; [by intros ?%not_elem_of_nil|]. intros Hin.
  destruct (fold_listed (x :: l) (warning_intro +:+
    "<br>In the imported configuration, potentially dangerous lines were found:")) as (t & -> & Hl).
  by apply contains_app, Hl.
Qed.

Lemma warning_begins text : starts_with warning_intro (warning_of text) = true.
Proof.
  unfold warning_of, starts_with. destruct (maliciousStrings text) as [|x l].
  - rewrite <- (string_app_nil_r warning_intro) at 2. apply prefix_app.
  - destruct (fold_listed (x :: l) (warning_intro +:+
      "<br>In the imported configuration, potentially dangerous lines were found:")) as (t & -> & _).
    rewrite string_app_assoc. apply prefix_app.
Qed.

Lemma openvpn_warning `{ImportWorld} r data :
  checkForMaliciousStrings (extractOpenVpnConfig r data) "" = warning_of data /\ extractOpenVpnConfig r data <> [].
Proof.
  assert (Hc : ofind Key.containers (extractOpenVpnConfig r data) =
    Some (JArr [JObj (oset importKey.openvpn (JObj (oset configKey.isThirdPartyConfig (JBool true)
      (oset configKey.lastConfig (JStr (json_print (JObj (oset configKey.config (JStr data) [])))) [])))
      (oset Key.container (JStr importKey.amneziaOpenvpn) []))])).
  { unfold extractOpenVpnConfig. rewrite ofind_oset_ne by done.
    destruct (globalMatch _ _) as [|d1 [|d2 l]]; look; done. }
  split; [|by intros E; rewrite E in Hc].
  unfold checkForMaliciousStrings. rewrite Hc. cbn [to_array fold_left to_object]. look.
  change (String.eqb (to_string (Some (JStr importKey.amneziaOpenvpn))) (containerToString OpenVpn)) with true.
  cbv iota. f_equal. unfold openVpnText. look. cbn [to_object to_string]. look. cbn [to_string].
  rewrite json_parse_print. cbn. done.
Qed.

Definition solid (s : string) : bool := str_forall (fun c => negb (is_space c)) s.

Lemma drop_spaces_app pre s : str_forall is_space pre = true -> drop_spaces (pre +:+ s) = drop_spaces s.
Proof.
  induction pre as [|c pre IH]; [done|]. cbn [str_forall]. rewrite andb_true_iff. intros [Hc Hp].
  rewrite string_app_cons. cbn [drop_spaces]. rewrite Hc. by apply IH.
Qed.

Lemma drop_trailing_solid a b : solid a = true -> drop_trailing_spaces (a +:+ b) = a +:+ drop_trailing_spaces b.
Proof.
  unfold solid. induction a as [|c a IH]; [done|]. cbn [str_forall]. rewrite andb_true_iff, negb_true_iff. intros [Hc Ha].
  rewrite !string_app_cons. cbn [drop_trailing_spaces]. rewrite IH, Hc by done. by destruct (a +:+ drop_trailing_spaces b).
Qed.

Lemma first_section_word cmd rest : solid cmd = true -> cmd <> "" -> (rest = "" \/ exists r, rest = String " " r) ->
  first_section (cmd +:+ rest) = cmd.
Proof.
  intros Hs Hne Hr. unfold first_section.
  assert (Hsplit : exists l, split_char " " (cmd +:+ rest) = cmd :: l).
  { clear Hne. induction cmd as [|c cmd IH].
    - destruct Hr as [->|[r ->]]; [by exists []|]. exists (split_char " " r). done.
    - unfold solid in *. cbn [str_forall] in Hs. apply andb_true_iff in Hs as [Hc Hs].
      destruct (IH Hs) as [l Hl]. exists l. rewrite string_app_cons. cbn [split_char]. rewrite Hl.
      destruct (Ascii.eqb_spec c " ") as [->|]; [by vm_compute in Hc|done]. }
  destruct Hsplit as [l ->]. rewrite filter_cons_True by (by apply str_empty_false). done.
Qed.

(** A command in any case, with blanks before it, and nothing but blanks or an argument behind a
    space after it. *)
Lemma command_found pre cmd rest : str_forall is_space pre = true -> to_lower cmd ∈ dangerousTags ->
  (drop_trailing_spaces rest = "" \/ exists r, rest = String " " r) -> is_malicious (pre +:+ cmd +:+ rest) = true.
Proof.
  intros Hp Hc Hr.
  assert (Hlow : forall s, solid s = solid (to_lower s)).
  { unfold solid, to_lower. induction s as [|c s IH]; [done|]. cbn [str_forall str_map]. by rewrite lower_char_space, IH. }
  assert (Hs : solid cmd = true /\ cmd <> "").
  { rewrite Hlow. split; [|by intros ->; vm_compute in Hc; set_unfold; naive_solver].
    unfold dangerousTags in Hc. by repeat (apply elem_of_cons in Hc as [->|Hc]; [done|]); apply not_elem_of_nil in Hc. }
  destruct Hs as [Hs Hne].
  assert (Ht : trimmed (pre +:+ cmd +:+ rest) = cmd +:+ drop_trailing_spaces rest).
  { unfold trimmed. rewrite drop_spaces_app by done. rewrite <- drop_trailing_solid by done. f_equal.
    destruct cmd as [|c cmd]; [done|]. rewrite string_app_cons. unfold solid in Hs. cbn [str_forall] in Hs.
    apply andb_true_iff in Hs as [Hc' _]. cbn [drop_spaces]. apply negb_true_iff in Hc'. by rewrite Hc'. }
  unfold is_malicious. rewrite Ht, first_section_word; [|done|done|].
  - apply existsb_exists. exists (to_lower cmd). split; [by apply list_elem_of_In|]. unfold ci_eqb, to_lower.
    rewrite str_map_idem by apply lower_char_idem. apply String.eqb_refl.
  - destruct Hr as [->|[r ->]]; [by left|]. cbn [drop_trailing_spaces].
    destruct (drop_trailing_spaces r) eqn:E; [by left|right; by eexists].
Qed.

(** C29: a plain OpenVPN text that [extractConfigFromData] reads (from a file, the clipboard or a
    scanned text, and no share link) comes with the warning, and every line of it that begins with
    one of the ten commands the code lists, in any case, with any blanks before it and its
    argument behind a space, stands in the warning as it is written. *)
Theorem dangerous_lines_shown `{ImportWorld} r data name :
  extractShareLink r data name = None -> checkConfigFormat data = ConfigTypes.OpenVpn ->
  let result := extractConfigFromData r data name in
  errorCode result = ErrorCode.NoError /\ starts_with warning_intro (maliciousWarningText result) = true /\
  forall pre cmd rest, pre +:+ cmd +:+ rest ∈ split_char LF data ->
    str_forall is_space pre = true -> to_lower cmd ∈ dangerousTags ->
    (drop_trailing_spaces rest = "" \/ exists r, rest = String " " r) ->
    str_contains (listed (pre +:+ cmd +:+ rest)) (maliciousWarningText result) = true.
Proof.
  intros Hs Hf. cbv zeta. unfold extractConfigFromData, decode_config. rewrite Hs, Hf.
  rewrite bool_decide_eq_false_2 by done. destruct (openvpn_warning r data) as [Hw Hne].
  destruct (extractOpenVpnConfig r data) as [|kv o]; [done|].
  cbn -[checkForMaliciousStrings warning_of warning_intro split_char str_contains is_malicious listed starts_with drop_trailing_spaces dangerousTags to_lower].
  rewrite Hw. split_and!; [done|apply warning_begins|].
  intros pre cmd rest Hl Hp Hc Hr. apply warning_lists. unfold maliciousStrings.
  rewrite !list_elem_of_filter. split_and!; [by apply command_found| |done].
  apply str_empty_false. intros E. pose proof (command_found pre cmd rest Hp Hc Hr) as Hm. rewrite E in Hm. by vm_compute in Hm.
Qed.

(** A configuration that is scanned as an object, plain or compressed, is taken over without the
    check: whatever its OpenVPN containers hold, there is no warning. *)
Theorem scanned_object_unwarned `{ImportWorld} r data :
  checkConfigFormat (fromUtf8 data) = ConfigTypes.Invalid ->
  maliciousWarningText (extractConfigFromQr r data) = "" /\
  (doc_object (json_parse data) <> [] ->
   errorCode (extractConfigFromQr r data) = ErrorCode.NoError /\
   config (extractConfigFromQr r data) = doc_object (json_parse data)).
Proof.
  intros Hf. unfold extractConfigFromQr, scanned. rewrite Hf, bool_decide_eq_true_2 by done. cbn [negb].
  destruct (doc_object (json_parse data)) as [|kv o]; [|split; [reflexivity|]; intros _; split; reflexivity].
  split; [|done]. repeat case_match; reflexivity.
Qed.

(** Only the last OpenVPN container is warned about: what was found in the others is dropped. *)
Theorem last_container_warned `{ImportWorld} o l c w :
  ofind Key.containers o = Some (JArr (l ++ [JObj c])) ->
  to_string (ofind Key.container c) = importKey.amneziaOpenvpn ->
  checkForMaliciousStrings o w = warning_of (openVpnText c).
Proof.
  intros Ho Hc. unfold checkForMaliciousStrings. rewrite Ho. cbn [to_array]. rewrite fold_left_app.
  cbn [fold_left to_object]. by rewrite Hc.
Qed.

(** A tabulator after the command hides the line from the check. *)
Theorem tab_hides_command : is_malicious ("up" +:+ chr 9 +:+ "/tmp/run.sh") = false /\
  is_malicious "up /tmp/run.sh" = true.
Proof. done. Qed.

(** ** Texts that are written line by line *)

Inductive item := SectionLine (title : string) | SettingLine (k v : string).

Definition item_text (i : item) : string :=
  match i with SectionLine t => "[" +:+ t +:+ "]" | SettingLine k v => k +:+ " = " +:+ v end.

(** A name without [=] that does not look like a section, and a value, both on one line and
    without blanks around them. *)
Definition item_ok (i : item) : bool :=
  match i with
  | SectionLine t => one_line t
  | SettingLine k v =>
      negb (str_empty k) && String.eqb (trimmed k) k && negb (str_has "=" k) && one_line k
      && negb (starts_with "[" k) && negb (str_empty v) && String.eqb (trimmed v) v && one_line v
  end.

Definition wg_text (l : list item) : string := unlines (map item_text l).

(** The value of the last line with that name. *)
Definition last_value (k : string) (l : list item) : string :=
  fold_left (fun w i => match i with SettingLine k' v => if String.eqb k k' then v else w | _ => w end) l "".

Lemma trimmed_head s : trimmed s = s -> s <> "" -> exists c r, s = String c r /\ is_space c = false.
Proof.
  unfold trimmed. intros Hs Hne. destruct (drop_spaces_head s) as [E|(c & r & E & Hc)]; rewrite E in Hs; [by subst|].
  destruct (drop_trailing_spaces_head c r Hc) as [r' Hr']. rewrite Hr' in Hs. eauto.
Qed.

Lemma trimmed_tail s : trimmed s = s -> drop_trailing_spaces s = s.
Proof.
  intros Hs. destruct s as [|c0 s0] eqn:Es; [done|]. rewrite <- Es in *.
  destruct (trimmed_head s Hs) as (c & r & -> & Hc); [by subst|].
  unfold trimmed in Hs. cbn [drop_spaces] in Hs. by rewrite Hc in Hs.
Qed.

(** A text between two trimmed ones is not trimmed. *)
Lemma trimmed_between a m b : trimmed a = a -> a <> "" -> trimmed b = b -> b <> "" ->
  trimmed (a +:+ m +:+ b) = a +:+ m +:+ b.
Proof.
  intros Ha Hna Hb Hnb. destruct (trimmed_head a Ha Hna) as (c & r & -> & Hc).
  unfold trimmed at 1. rewrite !string_app_cons. cbn [drop_spaces]. rewrite Hc.
  rewrite <- !string_app_cons, <- !string_app_assoc. apply drop_trailing_app; [|done]. by apply trimmed_tail.
Qed.

Lemma trimmed_space_after a : trimmed a = a -> trimmed (a +:+ " ") = a.
Proof.
  intros Ha. destruct a as [|c0 a0] eqn:Ea; [done|]. rewrite <- Ea in *.
  destruct (trimmed_head a Ha) as (c & r & Er & Hc); [by subst|]. unfold trimmed. rewrite Er, string_app_cons.
  cbn [drop_spaces]. rewrite Hc, <- string_app_cons, <- Er. pose proof (trimmed_tail a Ha) as Ht. clear -Ht.
  rewrite <- Ht at 2. clear Ht. induction a as [|c a IH]; [done|]. rewrite string_app_cons. cbn [drop_trailing_spaces].
  by rewrite IH.
Qed.

Lemma trimmed_space_before a : trimmed a = a -> trimmed (" " +:+ a) = a.
Proof. intros Ha. exact Ha. Qed.

Lemma split_first_app c a b : str_has c a = false -> split_first c (a +:+ String c b) = Some (a, b).
Proof.
  induction a as [|x a IH]; intros Ha.
  - change ("" +:+ String c b) with (String c b). cbn [split_first]. by rewrite Ascii.eqb_refl.
  - cbn [str_has] in Ha. apply orb_false_iff in Ha as [Hx Ha]. rewrite string_app_cons. cbn [split_first].
    by rewrite Ascii.eqb_sym, Hx, IH.
Qed.

Lemma ends_with_snoc c a : ends_with_char c (a +:+ String c "") = true.
Proof.
  induction a as [|x a IH]; [cbn; apply Ascii.eqb_refl|]. rewrite string_app_cons. cbn [ends_with_char].
  rewrite IH. by destruct (a +:+ String c "") eqn:E; [destruct a|].
Qed.

Lemma read_item m i : item_ok i = true ->
  read_line m (item_text i) = match i with SettingLine k v => <[k := v]> m | SectionLine _ => m end.
Proof.
  destruct i as [t|k v]; cbn [item_ok item_text]; intros Hok; unfold read_line.
  - rewrite (trimmed_between "[" t "]") by done.
    rewrite <- string_app_assoc, ends_with_snoc, string_app_assoc.
    unfold starts_with. by rewrite (prefix_app "[" (t +:+ "]")).
  - rewrite !andb_true_iff, !negb_true_iff, !str_empty_false, !String.eqb_eq in Hok.
    destruct Hok as [[[[[[[Hk Hkt] Hke] _] Hkb] Hv] Hvt] _]. rewrite trimmed_between by done.
    assert (Hb : starts_with "[" (k +:+ " = " +:+ v) = false).
    { destruct k as [|c k]; [done|]. rewrite string_app_cons. unfold starts_with in *. cbn [String.prefix] in *.
      destruct (ascii_dec "[" c); [by destruct k|done]. }
    rewrite Hb. cbn [andb]. replace (k +:+ " = " +:+ v) with ((k +:+ " ") +:+ String "=" (" " +:+ v))
      by (by rewrite !string_app_assoc).
    rewrite split_first_app by (by rewrite str_has_app, Hke). rewrite trimmed_space_after, trimmed_space_before by done.
    by destruct k.
Qed.

Lemma read_items l : forall m k, forallb item_ok l = true ->
  value (fold_left read_line (map item_text l) m) k =
  fold_left (fun w i => match i with SettingLine k' v => if String.eqb k k' then v else w | _ => w end) l (value m k).
Proof.
  induction l as [|i l IH]; intros m k Hl; [done|]. cbn [forallb] in Hl. apply andb_true_iff in Hl as [Hi Hl].
  cbn [map fold_left]. rewrite read_item, IH by done. f_equal. destruct i as [t|k' v]; [done|]. unfold value.
  destruct (String.eqb_spec k k') as [->|Hne]; [by rewrite lookup_insert_eq|by rewrite lookup_insert_ne].
Qed.

Lemma items_one_line l : forallb item_ok l = true -> forallb one_line (map item_text l) = true.
Proof.
  induction l as [|i l IH]; [done|]. cbn [forallb map]. rewrite !andb_true_iff. intros [Hi Hl]. split; [|by apply IH].
  destruct i as [t|k v]; cbn [item_ok item_text] in *; rewrite !one_line_app.
  - by rewrite Hi.
  - rewrite !andb_true_iff in Hi. destruct Hi as [[[[[_ Hk] _] _] _] Hv]. by rewrite Hk, Hv.
Qed.

(** C28: a WireGuard text is read as it is written: after sections and settings of any names and in
    any order, each name has the value of its last line, and no other name has one. *)
Theorem wireguard_text_read l k : forallb item_ok l = true ->
  value (readSettings (wg_text l)) k = last_value k l.
Proof.
  intros Hl. unfold readSettings, wg_text. rewrite <- (string_app_nil_r (unlines _)), split_unlines by (by apply items_one_line).
  rewrite fold_left_app. cbn [split_char fold_left]. change (read_line ?m "") with m. by rewrite read_items.
Qed.

(** ** Witnesses *)

(** A world without share links and compression, in which an endpoint is a host, a colon and a
    port. *)
Definition import_world : ImportWorld :=
  {| import_text := json_text_model;
     json_compact := @json_print json_text_model;
     fromUtf8 := fun s => s;
     qUncompress := fun _ => "";
     url_host := fun s => from_option fst s (split_first ":" s);
     url_port := fun s => from_option (fun p => toInt p.2) (-1)%Z (split_first ":" s);
     qChecksum := fun s => Z.of_nat (String.length s);
     vless_Deserialize := fun _ _ => ([], "");
     vmess_new_Deserialize := fun _ _ => ([], "");
     vmess_Deserialize := fun _ _ => ([], "");
     trojan_Deserialize := fun _ _ => ([], "");
     ss_Deserialize := fun _ _ => ([], "");
     ssd_Deserialize := fun _ => [];
     createUuid := sample_uuid;
     freeV2Endpoint := "free";
     premiumV1Endpoint := "prem" |}.

#[local] Existing Instance import_world.

Definition sample_symbols : QrSymbols.
Proof.
  refine {| image := string; encodeText := fun t => Some t; scan := fun i => i |}. eauto.
Defined.

#[local] Existing Instance sample_symbols.

Definition empty_repo : repo := SecureServersRepository createUuid freeV2Endpoint premiumV1Endpoint (mkSettings "" "" 0).

Lemma empty_repo_inv : inv empty_repo.
Proof. apply (reach_inv sample_uuid "free" "prem" sample_uuid_text). constructor. Qed.

Lemma empty_repo_unique : profile_unique empty_repo.
Proof. intros i j Hi. vm_compute in Hi. done. Qed.

Fixpoint repeated (n : nat) : string := match n with O => "" | S n => String "a" (repeated n) end.

(** Two pieces, the second one first and twice. *)
Lemma qr_series_roundtrip_witness :
  exists imgs, generateQrCodeImageSeries (repeated 900) = Some imgs /\ length imgs = 2%nat /\
    chunksReceived (parseQrCodeChunk (default "" ((scan <$> imgs) !! 0%nat))
      (scan_codes (scan <$> imgs) [1; 1] (startDecodingQr (new_importer empty_repo)))).1 = 2%Z.
Proof.
  assert (Hc : chunks_count (repeated 900) = 2%Z) by (vm_compute; reflexivity).
  destruct (qr_series_roundtrip (repeated 900) (new_importer empty_repo)) as (imgs & Hs & Hn & Hscan).
  { rewrite Hc. lia. }
  rewrite Hc in Hn. exists imgs. split; [exact Hs|]. split; [lia|].
  destruct (Hscan [1; 1]%nat 0%nat) as (Hr & _).
  - intros i Hi. assert (i = 0 \/ i = 1)%nat by set_solver. lia.
  - change (length (remove_dups [1; 1]%nat)) with 1%nat. lia.
  - exact Hr.
Defined.

Definition sample_items : list item :=
  [SectionLine "Interface"; SettingLine "PrivateKey" "cHJpdg=="; SettingLine "Address" "10.8.1.2/32";
   SettingLine "Jc" "4"; SectionLine "Peer"; SettingLine "PublicKey" "cHViCg==";
   SettingLine "Endpoint" "vpn.example:4500"; SettingLine "AllowedIPs" "0.0.0.0/0, ::/0"].

Lemma wireguard_text_read_witness :
  value (readSettings (wg_text sample_items)) "Endpoint" = "vpn.example:4500".
Proof. rewrite (wireguard_text_read sample_items "Endpoint"); vm_compute; reflexivity. Defined.

Lemma account_config_becomes_default_witness :
  let s' := importTunnelCoreConfig (wg_text sample_items) "amsterdam.conf" "key-1" "client_dynamic" ""
              (new_importer empty_repo) in
  exists o, nativeConfig (im_repo s') (m_defaultServerId (im_repo s')) = Some o /\
    to_string (ofind importKey.managedProfileKey o) = "key-1" /\
    AwgClientConfig.hostName (AwgClientConfig.fromJson (client_object true o)) = "vpn.example".
Proof.
  destruct (account_config_becomes_default (wg_text sample_items) "amsterdam.conf" "key-1" "client_dynamic" ""
              (new_importer empty_repo)) as (o & Hn & _ & Hk & Hc & _).
  - exact sample_uuid_text.
  - exact empty_repo_inv.
  - vm_compute. reflexivity.
  - vm_compute. reflexivity.
  - vm_compute. reflexivity.
  - vm_compute. reflexivity.
  - vm_compute. split; discriminate.
  - exists o. split; [exact Hn|]. split; [exact Hk|].
    replace true with (text_awg (wg_text sample_items)) by (vm_compute; reflexivity). rewrite Hc.
    vm_compute. reflexivity.
Defined.

Lemma managed_profile_unique_witness :
  profile_unique (im_repo (acts [ImportAccount (wg_text sample_items) "a.conf" "key-1" "static" "";
    ImportAccount (wg_text sample_items) "b.conf" "key-2" "static" ""] (new_importer empty_repo))).
Proof.
  apply (managed_profile_unique [ImportAccount (wg_text sample_items) "a.conf" "key-1" "static" "";
    ImportAccount (wg_text sample_items) "b.conf" "key-2" "static" ""] (new_importer empty_repo));
    [exact sample_uuid_text|exact empty_repo_inv|exact empty_repo_unique].
Defined.

Definition sample_openvpn : string :=
  "client" +:+ nl +:+ "dev tun" +:+ nl +:+ "remote vpn.example 1194" +:+ nl +:+ "  Up /tmp/run.sh" +:+ nl.

Lemma dangerous_lines_shown_witness :
  str_contains (listed "  Up /tmp/run.sh")
    (maliciousWarningText (extractConfigFromData empty_repo sample_openvpn "")) = true.
Proof.
  destruct (dangerous_lines_shown empty_repo sample_openvpn "") as (_ & _ & Hl);
    [vm_compute; reflexivity|vm_compute; reflexivity|].
  apply (Hl "  " "Up" " /tmp/run.sh"); [apply (bool_decide_unpack _); vm_compute; exact I|reflexivity
    |apply (bool_decide_unpack _); vm_compute; exact I|right; exists "/tmp/run.sh"; reflexivity].
Defined.
