(* ===== verification/Connecting.v ===== *)
(** * From a server to a connection

    The models of the servers that can be connected to ([client/core/models/selfhosted/],
    [models/api/apiV2ServerConfig.cpp], [models/containerConfig.cpp], [models/protocolConfig.cpp]),
    [client/core/controllers/connectionController.cpp] and
    [client/ui/controllers/connectionUiController.cpp], with the part of
    [coreSignalHandlers.cpp] that joins them: what happens between the press of the button and
    the call of [VpnConnection::connectToVpn].

    The connection lives in a thread of its own ([amneziaApplication.cpp]), so that the requests
    to it and the states it reports are queued; [application] has both queues, and [app_step] the
    events of the two threads in any order.  A request that the nested event loop of a waiting
    connection delivers is part of [meanwhile] ([VpnConnection]); [DeliverRequest] delivers the
    others.  The configurations of WireGuard and AmneziaWG are
    those of [ProtocolConfigs]; of the other protocols, the class [OtherProtocols] gives what the
    connection takes from them. *)

From S2P Require Import Prelude Json IpAddress Lines InterfaceConfig Daemon Containers ServerConfig.
From S2P Require Import ProtocolConfigs ServersRepository LocalSocket SplitTunneling VpnConnection Obfuscation.

(** ** Protocols *)

Module Proto.
Inductive t :=
  | Unknown | OpenVpn | WireGuard | Awg | Ikev2 | Xray | SSXray
  | TorWebSite | Dns | Sftp | Socks5Proxy | MtProxy | Telemt | TProxy.

#[global] Instance t_eq_dec : EqDecision t.
Proof. solve_decision. Defined.
End Proto.

Module ServiceType.
Inductive t := None_ | Vpn | Other.

#[global] Instance t_eq_dec : EqDecision t.
Proof. solve_decision. Defined.
End ServiceType.

Definition protoToString (p : Proto.t) : string :=
  match p with
  | Proto.Unknown => "" | Proto.OpenVpn => "openvpn" | Proto.WireGuard => "wireguard" | Proto.Awg => "awg"
  | Proto.Ikev2 => "ikev2" | Proto.Xray => "xray" | Proto.SSXray => "ssxray"
  | Proto.TorWebSite => "torwebsite" | Proto.Dns => "dns" | Proto.Sftp => "sftp"
  | Proto.Socks5Proxy => "socks5proxy" | Proto.MtProxy => "mtproxy" | Proto.Telemt => "telemt"
  | Proto.TProxy => "tproxy"
  end.

Definition key_proto_config_data (p : Proto.t) : string := protoToString p +:+ "_config_data".

Definition protocolService (p : Proto.t) : ServiceType.t :=
  match p with
  | Proto.Unknown | Proto.SSXray => ServiceType.None_
  | Proto.OpenVpn | Proto.WireGuard | Proto.Awg | Proto.Ikev2 | Proto.Xray => ServiceType.Vpn
  | _ => ServiceType.Other
  end.

Definition defaultProtocol (c : DockerContainer) : Proto.t :=
  match c with
  | None_ | Cloak | ShadowSocks => Proto.Unknown
  | OpenVpn => Proto.OpenVpn
  | WireGuard => Proto.WireGuard
  | Awg2 | Awg => Proto.Awg
  | Xray => Proto.Xray
  | Ipsec => Proto.Ikev2
  | SSXray => Proto.SSXray
  | TorWebSite => Proto.TorWebSite
  | Dns_ => Proto.Dns
  | Sftp => Proto.Sftp
  | Socks5Proxy => Proto.Socks5Proxy
  | MtProxy => Proto.MtProxy
  | Telemt => Proto.Telemt
  | TProxy => Proto.TProxy
  end.

Definition isUnsupportedContainer (c : DockerContainer) : bool :=
  match c with Cloak | ShadowSocks => true | _ => false end.

Definition containerService (c : DockerContainer) : ServiceType.t :=
  if isUnsupportedContainer c then ServiceType.Vpn else protocolService (defaultProtocol c).

(** [ContainerUtils::isSupportedByCurrentPlatform], on Windows and on Linux. *)
Definition isSupportedByCurrentPlatform (windows : bool) (c : DockerContainer) : bool :=
  windows || match c with Ipsec => false | _ => true end.

(** ** Configurations *)

Record DnsSettings := mkDns { primaryDns : string; secondaryDns : string }.

Record ConnectionSettings := mkSettings_ {
  dns : DnsSettings;
  isApiConfig : bool;
  isSitesSplitTunnelingEnabled : bool;
  routeMode : RouteMode
}.

(** The variant of [ProtocolConfig]; the data of a protocol other than the two is the object it is
    read from. *)
Inductive ProtocolConfig :=
  | PAwg (data : AwgProtocolConfig.AwgProtocolConfig)
  | PWireGuard (data : WireGuardProtocolConfig.WireGuardProtocolConfig)
  | POther (p : Proto.t) (json : obj).

(** [getClientConfigJson] after the configurator's [processConfigWithLocalSettings], and
    [clientId], of the other protocols. *)
Class OtherProtocols := {
  other_client : Proto.t -> ConnectionSettings -> obj -> obj;
  other_clientId : Proto.t -> obj -> string
}.

(** [QString::replace(before, after)]: every occurrence, from the left. *)
Fixpoint replace_from (fuel : nat) (before after s : string) : string :=
  match fuel, s with
  | S fuel, String c r =>
      if String.prefix before s then after +:+ replace_from fuel before after (str_drop (String.length before) s)
      else String c (replace_from fuel before after r)
  | _, _ => s
  end.

Definition str_replace (before after s : string) : string := replace_from (String.length s) before after s.

Record ContainerConfig := mkContainer { cc_container : DockerContainer; protocolConfig : ProtocolConfig }.

#[export] Instance eta_container : Eta ContainerConfig := fun c => mkContainer (cc_container c) (protocolConfig c).

(** A [QMap] from containers; the order does not matter here. *)
Definition container_map := list (DockerContainer * ContainerConfig).

Definition cinsert (k : DockerContainer) (v : ContainerConfig) (m : container_map) : container_map :=
  (k, v) :: filter (fun kv => kv.1 <> k) m.

Fixpoint cfind (k : DockerContainer) (m : container_map) : option ContainerConfig :=
  match m with
  | [] => None
  | (k', v) :: r => if bool_decide (k = k') then Some v else cfind k r
  end.

(** What the four models have in common. *)
Record ServerModel := mkServer {
  description : string;
  hostName : string;
  containers : container_map;
  defaultContainer : DockerContainer;
  dns1 : string;
  dns2 : string
}.

(** What a native server of the account adds. *)
Record ManagedProfile := mkManaged {
  managedProfileId : string;
  managedProfileKey : string;
  managedObfuscationMode : string;
  managedObfuscationProfile : string
}.

Definition no_protocol : AwgProtocolConfig.AwgProtocolConfig :=
  {| AwgProtocolConfig.serverConfig := AwgServerConfig.fromJson []; AwgProtocolConfig.clientConfig := None |}.

Section Models.
Context {JT : JsonText}.

Definition ProtocolConfig_fromJson (json : obj) (type : Proto.t) : ProtocolConfig :=
  match type with
  | Proto.Awg => PAwg (AwgProtocolConfig.fromJson json)
  | Proto.WireGuard => PWireGuard (WireGuardProtocolConfig.fromJson json)
  | Proto.Unknown => PAwg no_protocol
  | p => POther p json
  end.

Definition ContainerConfig_fromJson (json : obj) : ContainerConfig :=
  let container := containerFromString (to_string (ofind Key.container json)) in
  let protoType := defaultProtocol container in
  mkContainer container
    (ProtocolConfig_fromJson (to_object (ofind (protoToString protoType) json)) protoType).

(** The loop over the array, which [fromJson] of all four models has; a later object of the same
    container replaces the earlier one. *)
Definition read_containers (a : list json) : container_map :=
  fold_left (fun m val =>
    let containerObj := to_object (Some val) in
    cinsert (containerFromString (to_string (ofind Key.container containerObj)))
      (ContainerConfig_fromJson containerObj) m) a [].

Definition ServerModel_fromJson (json : obj) : ServerModel :=
  {| description := to_string (ofind Key.description json);
     hostName := to_string (ofind Key.hostName json);
     containers := read_containers (to_array (ofind Key.containers json));
     defaultContainer := containerFromString (to_string (ofind "defaultContainer" json));
     dns1 := to_string (ofind "dns1" json);
     dns2 := to_string (ofind "dns2" json) |}.

Definition ManagedProfile_fromJson (json : obj) : ManagedProfile :=
  {| managedProfileId := to_string (ofind "managedProfileId" json);
     managedProfileKey := to_string (ofind "managedProfileKey" json);
     managedObfuscationMode := to_string (ofind "managedObfuscationMode" json);
     managedObfuscationProfile := to_string (ofind "managedObfuscationProfile" json) |}.
End Models.

Definition containerConfig (c : DockerContainer) (s : ServerModel) : ContainerConfig :=
  default (mkContainer None_ (PAwg no_protocol)) (cfind c (containers s)).

Definition getDnsPair `{HostText} (primaryDns secondaryDns : string) (s : ServerModel) : DnsSettings :=
  mkDns (if str_empty (dns1 s) || negb (checkIPv4Format (dns1 s)) then primaryDns else dns1 s)
        (if str_empty (dns2 s) || negb (checkIPv4Format (dns2 s)) then secondaryDns else dns2 s).

(** [SelfHostedAdminServerConfig::getDnsPair]: a server with a DNS container can serve as DNS. *)
Definition admin_getDnsPair `{HostText} (isAmneziaDnsEnabled : bool) (primaryDns secondaryDns : string)
    (s : ServerModel) : DnsSettings :=
  let dnsOnServer := match cfind Dns_ (containers s) with Some _ => true | None => false end in
  getDnsPair (if isAmneziaDnsEnabled && dnsOnServer then Client.amneziaDnsIp else primaryDns) secondaryDns s.

(** [ProtocolConfig::nativeConfig] and [setNativeConfig]. *)
Definition nativeConfig (c : ProtocolConfig) : string :=
  match c with
  | PAwg d => from_option AwgClientConfig.nativeConfig "" (AwgProtocolConfig.clientConfig d)
  | PWireGuard d => from_option WireGuardClientConfig.nativeConfig "" (WireGuardProtocolConfig.clientConfig d)
  | POther _ _ => ""
  end.

Definition setNativeConfig (config : string) (c : ProtocolConfig) : ProtocolConfig :=
  match c with
  | PAwg d => PAwg (d <| AwgProtocolConfig.clientConfig :=
      (fun cl => cl <| AwgClientConfig.nativeConfig := config |>) <$> AwgProtocolConfig.clientConfig d |>)
  | PWireGuard d => PWireGuard (d <| WireGuardProtocolConfig.clientConfig :=
      (fun cl => cl <| WireGuardClientConfig.nativeConfig := config |>) <$> WireGuardProtocolConfig.clientConfig d |>)
  | POther _ _ => c
  end.

Definition clientId `{OtherProtocols} (c : ProtocolConfig) : string :=
  match c with
  | PAwg d => from_option AwgClientConfig.clientId "" (AwgProtocolConfig.clientConfig d)
  | PWireGuard d => from_option WireGuardClientConfig.clientId "" (WireGuardProtocolConfig.clientConfig d)
  | POther p json => other_clientId p json
  end.

Definition applyDnsToNativeConfig (dns : DnsSettings) (c : ProtocolConfig) : ProtocolConfig :=
  let config := nativeConfig c in
  let config := str_replace "$PRIMARY_DNS" (primaryDns dns) config in
  let config := str_replace "$SECONDARY_DNS" (secondaryDns dns) config in
  setNativeConfig config c.

(** [processConfigWithLocalSettings] and [getClientConfigJson].  A configurator of another protocol
    meets a configuration of AmneziaWG only when the server has no such container; there is no
    client then, and nothing to change. *)
Definition processed_client `{OtherProtocols} (settings : ConnectionSettings) (c : ProtocolConfig) : obj :=
  match c with
  | POther p json => other_client p settings json
  | _ =>
      match applyDnsToNativeConfig (dns settings) c with
      | PAwg d => from_option AwgClientConfig.toJson [] (AwgProtocolConfig.clientConfig d)
      | PWireGuard d => from_option WireGuardClientConfig.toJson [] (WireGuardProtocolConfig.clientConfig d)
      | POther _ _ => []
      end
  end.

(** ** The controller of the connection *)

Module ConnectError.
Inductive t :=
  | NoError | InternalError | AmneziaServiceNotRunning | LegacyApiV1NotSupportedError
  | NoInstalledContainersError | LegacyContainerNotSupportedError | NotSupportedOnThisPlatform.

#[global] Instance t_eq_dec : EqDecision t.
Proof. solve_decision. Defined.
End ConnectError.

(** The settings of the application the connection reads. *)
Definition settings_primaryDns (s : Settings.settings) : string :=
  variant_text (Settings.value "Conf/primaryDns" (VStr "1.1.1.1") s).
Definition settings_secondaryDns (s : Settings.settings) : string :=
  variant_text (Settings.value "Conf/secondaryDns" (VStr "1.0.0.1") s).
Definition useAmneziaDns (s : Settings.settings) : bool :=
  toBool (Settings.value "Conf/useAmneziaDns" (VBool true) s).

(** [ErrorCode] with the configuration; a call through the null pointer [ConfiguratorBase::create]
    gives for no protocol is a crash. *)
Inductive prepared :=
  | PrepareError (e : ConnectError.t)
  | Prepared (vpnConfiguration : obj) (container : DockerContainer)
  | NullConfigurator.

Definition tunnelCoreManagedProfileId : string := "tunnelcore-vpn".
Definition defaultMtu : string := "1376".

Section Controller.
Context {JT : JsonText} `{HostText} `{Chance} `{OtherProtocols}.
Variables freeV2Endpoint premiumV1Endpoint : string.

Abbreviation kindOf := (serverKind freeV2Endpoint premiumV1Endpoint).
Abbreviation config := (configOfKind freeV2Endpoint premiumV1Endpoint).

(** The default container as the model of the server's kind has it. *)
Definition container_of_kind (p : ConfigType -> bool) (r : repo) (serverId : string)
    : ConnectError.t * DockerContainer :=
  match config p r serverId with
  | Some o => (ConnectError.NoError, defaultContainer (ServerModel_fromJson o))
  | None => (ConnectError.InternalError, None_)
  end.

Definition defaultContainerForServer (r : repo) (serverId : string) : ConnectError.t * DockerContainer :=
  match kindOf r serverId with
  | SelfHostedAdmin => container_of_kind (isKind SelfHostedAdmin) r serverId
  | SelfHostedUser => container_of_kind (isKind SelfHostedUser) r serverId
  | Native => container_of_kind (isKind Native) r serverId
  | AmneziaPremiumV2 | AmneziaFreeV3 | ExternalPremium => container_of_kind isApiV2Subscription r serverId
  | AmneziaPremiumV1 | AmneziaFreeV2 => (ConnectError.LegacyApiV1NotSupportedError, None_)
  | SelfHosted | Invalid => (ConnectError.InternalError, None_)
  end.

(** [ServersController::getDefaultContainer], and the switch of [VpnConnection]: the model of a
    legacy subscription never reads one. *)
Definition getDefaultContainer (r : repo) (serverId : string) : DockerContainer :=
  (defaultContainerForServer r serverId).2.

(** [ready] is whether the process of the service runs. *)
Definition isConnectionSupported (windows ready : bool) (r : repo) (serverId : string) : ConnectError.t :=
  if str_empty serverId then ConnectError.InternalError
  else if negb ready then ConnectError.AmneziaServiceNotRunning
  else
    let kind := kindOf r serverId in
    if isLegacyApiSubscription kind then ConnectError.LegacyApiV1NotSupportedError
    else
      let '(errorCode, container) := defaultContainerForServer r serverId in
      if negb (bool_decide (errorCode = ConnectError.NoError)) then errorCode
      else if bool_decide (container = None_) then
        if isApiV2Subscription kind then ConnectError.NoError else ConnectError.NoInstalledContainersError
      else if isUnsupportedContainer container then ConnectError.LegacyContainerNotSupportedError
      else if negb (isSupportedByCurrentPlatform windows container) then ConnectError.NotSupportedOnThisPlatform
      else ConnectError.NoError.

(** [ConfiguratorBase::create] gives an object. *)
Definition has_configurator (p : Proto.t) : bool :=
  match p with
  | Proto.OpenVpn | Proto.WireGuard | Proto.Awg | Proto.Ikev2 | Proto.Xray | Proto.SSXray => true
  | _ => false
  end.

(** [None] is the call through the null pointer. *)
Definition createConnectionConfiguration (app : Settings.settings) (dns : DnsSettings) (isApiConfig : bool)
    (hostName description : string) (configVersion : Z) (containerConfig : ContainerConfig)
    (container : DockerContainer) : option obj :=
  if bool_decide (containerService container = ServiceType.Other) then Some []
  else
    let proto := defaultProtocol container in
    let connectionSettings :=
      mkSettings_ dns isApiConfig (Settings.isSitesSplitTunnelingEnabled app) (Settings.routeMode app) in
    if negb (has_configurator proto) then None
    else
      let vpnConfigData := processed_client connectionSettings (protocolConfig containerConfig) in
      let vpnConfigData :=
        if (isAwgContainer container || bool_decide (container = WireGuard))
           && str_empty (to_string (ofind configKey.mtu vpnConfigData))
        then oset configKey.mtu (JStr defaultMtu) vpnConfigData else vpnConfigData in
      let vpnConfiguration := oset (key_proto_config_data proto) (JObj vpnConfigData) [] in
      let vpnConfiguration := oset "protocol" (JStr (protoToString proto)) vpnConfiguration in
      let vpnConfiguration := oset "dns1" (JStr (primaryDns dns)) vpnConfiguration in
      let vpnConfiguration := oset "dns2" (JStr (secondaryDns dns)) vpnConfiguration in
      let vpnConfiguration := oset Key.hostName (JStr hostName) vpnConfiguration in
      let vpnConfiguration := oset Key.description (JStr description) vpnConfiguration in
      Some (oset Key.configVersion (JInt configVersion) vpnConfiguration).

(** The configuration of a native server's container: for the account's profile, with packets made
    on this device; those of the configuration stay when that fails. *)
Definition native_container (o : obj) (container : DockerContainer) (c : ContainerConfig) : ContainerConfig :=
  let m := ManagedProfile_fromJson o in
  if String.eqb (managedProfileId m) tunnelCoreManagedProfileId
     && ci_eqb (managedObfuscationMode m) "client_dynamic" && isAwgContainer container
  then
    match applyTunnelCoreDynamicObfuscation
            (match protocolConfig c with PAwg d => Some d | _ => None end)
            (managedObfuscationProfile m) (managedProfileKey m) with
    | Some d => c <| protocolConfig := PAwg d |>
    | None => c
    end
  else c.

Definition finish (app : Settings.settings) (dns : DnsSettings) (isApiConfig : bool) (s : ServerModel)
    (configVersion : Z) (c : ContainerConfig) : prepared :=
  match createConnectionConfiguration app dns isApiConfig (hostName s) (description s) configVersion c
          (defaultContainer s) with
  | Some vpnConfiguration => Prepared vpnConfiguration (defaultContainer s)
  | None => NullConfigurator
  end.

Definition prepareConnection (app : Settings.settings) (r : repo) (serverId : string) : prepared :=
  let primaryDns := settings_primaryDns app in
  let secondaryDns := settings_secondaryDns app in
  let with_config (p : ConfigType -> bool) (k : obj -> ServerModel -> prepared) :=
    match config p r serverId with
    | Some o => k o (ServerModel_fromJson o)
    | None => PrepareError ConnectError.InternalError
    end in
  let stored (s : ServerModel) := containerConfig (defaultContainer s) s in
  match kindOf r serverId with
  | SelfHostedAdmin => with_config (isKind SelfHostedAdmin) (fun _ s =>
      finish app (admin_getDnsPair (useAmneziaDns app) primaryDns secondaryDns s) false s 0 (stored s))
  | SelfHostedUser => with_config (isKind SelfHostedUser) (fun _ s =>
      finish app (getDnsPair primaryDns secondaryDns s) false s 0 (stored s))
  | Native => with_config (isKind Native) (fun o s =>
      finish app (getDnsPair primaryDns secondaryDns s) false s 0
        (native_container o (defaultContainer s) (stored s)))
  | AmneziaPremiumV2 | AmneziaFreeV3 | ExternalPremium => with_config isApiV2Subscription (fun _ s =>
      finish app (getDnsPair primaryDns secondaryDns s) true s AmneziaGateway (stored s))
  | AmneziaPremiumV1 | AmneziaFreeV2 | SelfHosted | Invalid => PrepareError ConnectError.InternalError
  end.

(** The packets [PayloadSender::sendAll] is given before the connection opens. *)
Definition payload (r : repo) (serverId : string) : list json :=
  match config isApiV2Subscription r serverId with
  | Some o => to_array (ofind "send_payload" o)
  | None => []
  end.
End Controller.

(** ** The controller of the button *)

(** [connectionErrorOccurred] after a state reports what [lastConnectionError] gives at that
    moment: [None]. *)
Inductive ui_signal :=
  | uiStateChanged
  | connectionErrorOccurred (e : option ConnectError.t)
  | preparingConfig
  | prepareConfig
  | unsupportedConnectDrawerRequested
  | noInstalledContainers.

Record ConnectionUi := mkUi {
  m_state : Vpn.ConnectionState;
  m_isConnected : bool;
  m_isConnectionInProgress : bool;
  m_connectionStateText : string;
  ui_signals : list ui_signal
}.

#[export] Instance eta_ui : Eta ConnectionUi := fun u =>
  mkUi (m_state u) (m_isConnected u) (m_isConnectionInProgress u) (m_connectionStateText u) (ui_signals u).

Definition new_ui : ConnectionUi := mkUi Vpn.Disconnected false false "Connect" [].

Definition ui_emit (e : ui_signal) (u : ConnectionUi) : ConnectionUi := u <| ui_signals := ui_signals u ++ [e] |>.

(** The fields [ConnectionUiController::onConnectionStateChanged] sets. *)
Definition ui_page (state : Vpn.ConnectionState) (u : ConnectionUi) : ConnectionUi :=
  let u := u <| m_state := state |> <| m_isConnected := false |> <| m_connectionStateText := "Connecting..." |> in
  match state with
  | Vpn.Connected =>
      u <| m_isConnectionInProgress := false |> <| m_isConnected := true |>
        <| m_connectionStateText := "Connected" |>
  | Vpn.Connecting => u <| m_isConnectionInProgress := true |>
  | Vpn.Reconnecting =>
      u <| m_isConnectionInProgress := true |> <| m_connectionStateText := "Reconnecting..." |>
  | Vpn.Disconnecting =>
      u <| m_isConnectionInProgress := true |> <| m_connectionStateText := "Disconnecting..." |>
  | Vpn.Preparing => u <| m_isConnectionInProgress := true |> <| m_connectionStateText := "Preparing..." |>
  | Vpn.Disconnected | Vpn.Error | Vpn.Unknown =>
      u <| m_isConnectionInProgress := false |> <| m_connectionStateText := "Connect" |>
  end.

(** The slot of [connectionErrorOccurred] ([CoreSignalHandlers::initErrorMessagesHandler]), which
    runs within the signal: the page is told of [Disconnected], which is no error. *)
Definition error_occurred (e : option ConnectError.t) (u : ConnectionUi) : ConnectionUi :=
  ui_emit uiStateChanged (ui_page Vpn.Disconnected (ui_emit (connectionErrorOccurred e) u)).

(** [ConnectionUiController::onConnectionStateChanged]. *)
Definition ui_onConnectionStateChanged (state : Vpn.ConnectionState) (u : ConnectionUi) : ConnectionUi :=
  let u := ui_page state u in
  let u := match state with
           | Vpn.Error | Vpn.Unknown => error_occurred None u
           | _ => u
           end in
  ui_emit uiStateChanged u.

Definition onTranslationsUpdated (u : ConnectionUi) : ConnectionUi := ui_onConnectionStateChanged (m_state u) u.

Definition notifyConnectionBlocked (errorCode : ConnectError.t) : ConnectionUi -> ConnectionUi :=
  match errorCode with
  | ConnectError.LegacyApiV1NotSupportedError => ui_emit unsupportedConnectDrawerRequested
  | ConnectError.NoInstalledContainersError => ui_emit noInstalledContainers
  | e => error_occurred (Some e)
  end.

(** ** The two threads *)

(** What [ConnectionController] queues for the thread of the connection. *)
Inductive request :=
  | openConnectionRequested (serverId : string) (container : DockerContainer) (vpnConfiguration : obj)
  | closeConnectionRequested
  | killSwitchModeChangedRequested (enabled : bool).

Record application := mkApplication {
  a_ui : ConnectionUi;
  a_repo : repo;
  a_conn : VpnConnection;
  (** Requests not yet delivered to the connection, and states not yet delivered to the page. *)
  a_requests : list request;
  a_states : list Vpn.ConnectionState;
  (** Validations that have not answered, the payloads sent, and whether the process has ended
      with a call through a null pointer. *)
  a_validations : nat;
  a_payloads : list (list json);
  a_crashed : bool
}.

#[export] Instance eta_application : Eta application := fun a =>
  mkApplication (a_ui a) (a_repo a) (a_conn a) (a_requests a) (a_states a) (a_validations a) (a_payloads a)
    (a_crashed a).

Inductive app_event :=
  | Click (ready : bool)                (* toggleConnection; [ready]: the service runs *)
  | TrayConnect
  | TrayDisconnect
  | Validated (isValid : bool)          (* configValidated of either controller *)
  | TranslationsUpdated
  | KillSwitchChanged (enabled : bool)
  | RepositoryChanged (r : repo)        (* by any other controller *)
  | DeliverRequest
  | DeliverState
  | InConnection (e : connection_event).

Section Application.
(** [JT] is the text of the stored configurations, which need not be that of the commands. *)
Context `{CompactText} {JT : JsonText} `{VpnWorld} `{EL : EventLoop} `{Chance} `{OtherProtocols}.
Variables freeV2Endpoint premiumV1Endpoint : string.

(** [ConnectionController::setConnectionState]: the page has it at once. *)
Definition show (state : Vpn.ConnectionState) (a : application) : application :=
  a <| a_ui := ui_onConnectionStateChanged state (a_ui a) |>.

Definition post (q : request) (a : application) : application := a <| a_requests := a_requests a ++ [q] |>.

(** [ConnectionController::openConnection]; the code is of no use after a crash. *)
Definition controller_openConnection (serverId : string) (a : application) : application * ConnectError.t :=
  match prepareConnection (JT := JT) freeV2Endpoint premiumV1Endpoint (m_appSettings (a_conn a)) (a_repo a) serverId with
  | PrepareError e => (a, e)
  | NullConfigurator => (a <| a_crashed := true |>, ConnectError.NoError)
  | Prepared vpnConfiguration container =>
      let a := match payload freeV2Endpoint premiumV1Endpoint (a_repo a) serverId with
               | [] => a
               | p => a <| a_payloads := a_payloads a ++ [p] |>
               end in
      (post (openConnectionRequested serverId container vpnConfiguration) a, ConnectError.NoError)
  end.

(** [ConnectionUiController::openConnection]. *)
Definition openConnection (a : application) : application :=
  let serverId := m_defaultServerId (a_repo a) in
  if str_empty serverId then show Vpn.Disconnected a
  else
    let '(a, errorCode) := controller_openConnection serverId a in
    if negb (bool_decide (errorCode = ConnectError.NoError))
    then a <| a_ui := notifyConnectionBlocked errorCode (a_ui a) |> else a.

Definition closeConnection : application -> application := post closeConnectionRequested.

(** The slot of [prepareConfig]: which of the two validations runs does not matter here. *)
Definition on_prepareConfig (a : application) : application :=
  let a := show Vpn.Preparing a in
  if str_empty (m_defaultServerId (a_repo a)) then show Vpn.Disconnected a
  else a <| a_validations := S (a_validations a) |>.

Definition toggleConnection (ready : bool) (a : application) : application :=
  let u := a_ui a in
  if bool_decide (m_state u = Vpn.Preparing) then a <| a_ui := ui_emit preparingConfig u |>
  else if m_isConnectionInProgress u then closeConnection a
  else if m_isConnected u then closeConnection a
  else
    let serverId := m_defaultServerId (a_repo a) in
    if str_empty serverId then a
    else
      let errorCode := isConnectionSupported (JT := JT) freeV2Endpoint premiumV1Endpoint socket_windows ready (a_repo a) serverId in
      if negb (bool_decide (errorCode = ConnectError.NoError))
      then a <| a_ui := notifyConnectionBlocked errorCode u |>
      else on_prepareConfig (a <| a_ui := ui_emit prepareConfig u |>).

(** The slot of [configValidated]. *)
Definition on_configValidated (isValid : bool) (a : application) : application :=
  if negb isValid then show Vpn.Disconnected a else openConnection a.

(** Run the connection; the states it reports are queued for the page. *)
Definition in_connection (f : VpnConnection -> VpnConnection) (a : application) : application :=
  let v := f (a_conn a) in
  a <| a_conn := v |>
    <| a_states := a_states a ++ omap signal_of (drop (length (vouts (a_conn a))) (vouts v)) |>.

Definition run_request (q : request) : VpnConnection -> VpnConnection :=
  match q with
  | openConnectionRequested _ container vpnConfiguration => connectToVpn container vpnConfiguration
  | closeConnectionRequested => disconnectFromVpn
  | killSwitchModeChangedRequested enabled => onKillSwitchModeChanged enabled
  end.

(** The container of the default server, as the connection reads it from the repository. *)
Definition repository_changed (r : repo) (a : application) : application :=
  a <| a_repo := r |>
    <| a_conn := (a_conn a) <| m_container :=
         getDefaultContainer (JT := JT) freeV2Endpoint premiumV1Endpoint r (m_defaultServerId r) |> |>.

Definition app_step (e : app_event) (a : application) : application :=
  if a_crashed a then a else
  match e with
  | Click ready => toggleConnection ready a
  | TrayConnect => openConnection a
  | TrayDisconnect => closeConnection a
  | Validated isValid =>
      match a_validations a with
      | S n => on_configValidated isValid (a <| a_validations := n |>)
      | O => a
      end
  | TranslationsUpdated => a <| a_ui := onTranslationsUpdated (a_ui a) |>
  | KillSwitchChanged enabled => post (killSwitchModeChangedRequested enabled) a
  | RepositoryChanged r => repository_changed r a
  | DeliverRequest =>
      match a_requests a with
      | q :: rest => in_connection (run_request q) (a <| a_requests := rest |>)
      | [] => a
      end
  | DeliverState =>
      match a_states a with
      | st :: rest => (show st a) <| a_states := rest |>
      | [] => a
      end
  | InConnection e => in_connection (connection_step e) a
  end.

Definition app_run (es : list app_event) (a : application) : application :=
  fold_left (fun a e => app_step e a) es a.

Definition new_application (settings : Settings.settings) (r : repo) : application :=
  repository_changed r
    (mkApplication new_ui r (setRepositories (new_connection settings None_)) [] [] 0 [] false).

(** [ConnectionUiController::isRevokeBlockedDuringActiveConnection]. *)
Definition isRevokeBlocked (serverId : string) (container : DockerContainer) (client : string) (a : application)
    : bool :=
  let u := a_ui a in
  if str_empty client || (negb (m_isConnected u) && negb (m_isConnectionInProgress u)) then false
  else if negb (String.eqb (m_defaultServerId (a_repo a)) serverId) then false
  else if negb (bool_decide (getDefaultContainer (JT := JT) freeV2Endpoint premiumV1Endpoint (a_repo a) serverId = container))
  then false
  else
    match configOfKind freeV2Endpoint premiumV1Endpoint (isKind SelfHostedAdmin) (a_repo a) serverId with
    | None => false
    | Some o =>
        let connectionClientId :=
          clientId (protocolConfig (containerConfig container (ServerModel_fromJson (JT := JT) o))) in
        if str_empty connectionClientId then false
        else String.eqb connectionClientId client || str_contains client connectionClientId
    end.
End Application.
