(* ===== verification/ConnectingFacts.v ===== *)
(** * Facts of connecting

    What every operation of the connection adds to what it has told, whatever the protocol, and
    how the settings of an imported text pass through the server's model, the configuration of
    the connection and the request to the daemon.  Used by [ConnectingTheorems]. *)

From S2P Require Import Prelude Json IpAddress Lines InterfaceConfig Daemon Containers ServerConfig.
From S2P Require Import ProtocolConfigs ServersRepository LocalSocket LocalSocketFacts SplitTunneling.
From S2P Require Import VpnConnection VpnConnectionFacts Obfuscation ObfuscationTheorems Connecting.

(** ** What the connection tells *)

(** The state of [t] is the last one told since [s]. *)
Definition grown (s t : VpnConnection) : Prop :=
  exists l, vouts t = vouts s ++ l /\ m_connectionState t = List.last (omap signal_of l) (m_connectionState s).

Lemma last_cons_default {A} (x : A) l d : List.last (x :: l) d = List.last l x.
Proof.
  revert x d. induction l as [|y l IH]; intros x d; [done|]. change (List.last (x :: y :: l) d) with (List.last (y :: l) d).
  by rewrite !IH.
Qed.

Lemma last_app_default {A} (l m : list A) d : List.last (l ++ m) d = List.last m (List.last l d).
Proof.
  revert d. induction l as [|x l IH]; intros d; [done|]. rewrite <- app_comm_cons, !last_cons_default. apply IH.
Qed.

#[export] Instance grown_preorder : PreOrder grown.
Proof.
  split.
  - intros s. exists []. by rewrite app_nil_r.
  - intros s t u (l & Hl & El) (m & Hm & Em). exists (l ++ m). split; [by rewrite Hm, Hl, app_assoc|].
    by rewrite omap_app, last_app_default, <- El.
Qed.

(** What happens while the connection waits for the service is told like everything else; the
    connection's own events are ([grown_step] below). *)
Class Telling `{EventLoop} : Prop := telling : forall s, grown s (meanwhile s).

Section Grown.
Context `{CompactText} `{VpnWorld} `{EL : EventLoop} {HT : Telling}.

(** Nothing told, the state as it was. *)
Lemma grown_same s t : vouts t = vouts s -> m_connectionState t = m_connectionState s -> grown s t.
Proof. intros Hv Hs. exists []. by rewrite app_nil_r. Qed.

Lemma grown_side s t : side s t -> grown s t.
Proof.
  intros Ht. destruct (side_outs _ _ Ht) as (l & Hl & Hq). exists l. split; [done|].
  by rewrite (proj1 (quiet_seen _ Hq)), (side_state _ _ Ht).
Qed.

Lemma grown_emit o s : signal_of o = None -> grown s (vemit o s).
Proof. intros Ho. exists [o]. cbn. by rewrite Ho. Qed.

Lemma grown_call c s : grown s (call c s).
Proof. apply grown_side, side_call. Qed.

Lemma grown_with f s : (forall s, grown s (f s)) -> grown s (withInterface f s).
Proof. intros Hf. unfold withInterface. destruct service_ready; [apply Hf|reflexivity]. Qed.

Lemma grown_on_connected c s : grown s (on_connected c s).
Proof.
  unfold on_connected, waitForFinished. set (t := meanwhile (call FlushDns (call ResetIpStack s))).
  assert (Ht : grown s t) by (do 2 (etransitivity; [apply grown_call|]); apply telling).
  transitivity t; [done|]. clearbody t. clear Ht.
  destruct (_ || _); [reflexivity|]. destruct (m_vpnProtocol t) as [p|]; [|by apply grown_emit].
  cbv zeta. destruct (negb _); [apply grown_call|].
  etransitivity; [apply grown_call|]. etransitivity; [apply grown_call|].
  destruct (_ =? VpnOnlyForwardSites)%Z; [by eexists [_]|].
  destruct (_ =? VpnAllExceptSites)%Z; [|reflexivity].
  do 3 (etransitivity; [apply grown_call|]). apply grown_side, side_addSites.
Qed.

Lemma grown_onChange st s : grown s (onConnectionStateChanged st s).
Proof.
  unfold onConnectionStateChanged. destruct (negb _); [reflexivity|]. cbv zeta. apply grown_with. intros t.
  assert (Hc : grown t (waitForFinished (call ClearSavedRoutes (waitForFinished (call FlushDns t))))).
  { unfold waitForFinished. etransitivity; [apply (grown_call FlushDns)|]. etransitivity; [apply telling|].
    etransitivity; [apply (grown_call ClearSavedRoutes)|]. apply telling. }
  destruct st; solve [reflexivity | exact Hc | apply grown_on_connected].
Qed.

Lemma grown_set st s : grown s (setConnectionState st s).
Proof.
  unfold setConnectionState. set (t := onConnectionStateChanged st s).
  transitivity t; [apply grown_onChange|]. destruct (_ && _); [reflexivity|].
  by exists [connectionStateChanged st].
Qed.

Lemma grown_deliver errors l s : grown s (deliver errors l s).
Proof.
  revert s. induction l as [|e l IH]; intros s; [reflexivity|]. cbn [deliver fold_left].
  etransitivity; [|apply IH]. unfold deliver_one. set (t := s <| m_vpnProtocol := _ |>).
  transitivity t; [by apply grown_same|]. destruct e as [[] p]; cbn [fst snd]; repeat case_match;
    solve [reflexivity | apply grown_set | by apply grown_emit].
Qed.

Lemma grown_on_protocol {A} errors (f : VpnProtocol -> list emission * A * VpnProtocol) p s :
  grown s (on_protocol errors f p s).2.
Proof.
  unfold on_protocol. destruct (f p) as [[e a] p']. cbn [snd].
  transitivity (s <| m_vpnProtocol := Some p |>); [by apply grown_same|].
  etransitivity; [apply (grown_deliver errors e)|]. by apply grown_same.
Qed.

Lemma grown_drop errors s : grown s (drop_protocol errors s).
Proof.
  unfold drop_protocol. destruct (m_vpnProtocol s); [|reflexivity].
  etransitivity; [|apply grown_deliver]. by apply grown_same.
Qed.

Lemma grown_start p s : grown s (start_protocol p s).
Proof.
  unfold start_protocol. pose proof (grown_on_protocol true start p s) as Hg.
  destruct (on_protocol true start p s) as [err t]. cbn [snd] in Hg. destruct (_ =? _)%Z; [done|].
  etransitivity; [exact Hg|]. etransitivity; [apply grown_set|]. by apply grown_emit.
Qed.

Lemma grown_stop errors p s : grown s (on_protocol errors stop_ p s).2.
Proof. apply grown_on_protocol. Qed.

Lemma grown_connect container cfg s : grown s (connectToVpn container cfg s).
Proof.
  unfold connectToVpn. destruct (negb _); [apply grown_set|]. cbv zeta. set (s0 := s <| m_remoteAddress := _ |>).
  transitivity s0; [by apply grown_same|]. transitivity (setConnectionState Vpn.Connecting s0); [apply grown_set|].
  set (s1 := _ <| m_vpnConfiguration := cfg |>). transitivity s1; [by apply grown_same|].
  set (s2 := match m_vpnProtocol s1 with Some p => _ | None => s1 end).
  transitivity s2.
  { unfold s2. destruct (m_vpnProtocol s1) as [p|]; [|reflexivity].
    pose proof (grown_stop false p s1) as Hg. destruct (on_protocol false stop_ p s1) as [u t].
    etransitivity; [exact Hg|]. apply grown_drop. }
  set (s3 := s2 <| m_vpnConfiguration := _ |>). transitivity s3; [by apply grown_same|].
  destruct (factory _ _ _); [|apply grown_set]. etransitivity; [|apply grown_start]. by apply grown_same.
Qed.

Lemma grown_disconnect s : grown s (disconnectFromVpn s).
Proof.
  unfold disconnectFromVpn. destruct (m_vpnProtocol s) as [p|]; [|apply grown_set].
  set (s1 := setConnectionState _ s). pose proof (grown_stop true p s1) as Hg.
  destruct (on_protocol true stop_ p s1) as [u t]. etransitivity; [apply grown_set|].
  etransitivity; [exact Hg|]. apply grown_drop.
Qed.

Lemma grown_reconnect s : grown s (reconnectToVpn s).
Proof.
  unfold reconnectToVpn. destruct (m_vpnProtocol s) as [p|]; [|reflexivity]. destruct (negb _); [reflexivity|].
  set (s1 := setConnectionState _ s). pose proof (grown_stop true p s1) as Hg.
  destruct (on_protocol true stop_ p s1) as [u t]. transitivity t; [etransitivity; [apply grown_set|exact Hg]|].
  destruct (m_vpnProtocol t); [apply grown_start|reflexivity].
Qed.

Lemma grown_event f s : grown s (protocol_event f s).
Proof. unfold protocol_event. destruct (m_vpnProtocol s); [apply grown_on_protocol|reflexivity]. Qed.

Lemma grown_kill_switch enabled s : grown s (onKillSwitchModeChanged enabled s).
Proof. apply grown_with. intros t. etransitivity; [apply grown_call|]. apply telling. Qed.

Lemma grown_step e s : grown s (connection_step e s).
Proof.
  destruct e; cbn [connection_step].
  - apply grown_connect.
  - apply grown_reconnect.
  - apply grown_disconnect.
  - apply grown_kill_switch.
  - unfold disconnectSlots. destruct (m_vpnProtocol s); by apply grown_same.
  - by apply grown_same.
  - destruct (socket_event _); [apply grown_event|reflexivity].
  - apply grown_event.
  - apply grown_event.
  - apply grown_event.
  - destruct (m_lookups s !! index); [|reflexivity]. etransitivity; [|apply grown_side, side_looked_up].
    by apply grown_same.
  - destruct (m_timers s), (m_vpnProtocol s); try reflexivity.
    etransitivity; [|apply grown_side, side_addSites]. by apply grown_same.
  - by apply grown_same.
  - by apply grown_same.
Qed.

Lemma grown_request q s : grown s (run_request q s).
Proof. destruct q; [apply grown_connect|apply grown_disconnect|apply grown_kill_switch]. Qed.
End Grown.

(** ** From the server's object to the request *)

(** An element of a list that is written out. *)
Ltac listed := repeat first [apply list_elem_of_here | apply list_elem_of_further].

(** A text of the client's configuration. *)
Lemma to_string_lookup k x client : PutStr k x ∈ AwgClientConfig.fields client ->
  to_string (ofind k (AwgClientConfig.toJson client)) = x.
Proof.
  intros Hin. apply AwgClientConfig.awg_client_lookup in Hin. cbn [write_key write_value] in Hin. rewrite Hin.
  by destruct x.
Qed.

Section Path.
Context `{JT : JsonText} `{HT : HostText} `{Chance} `{OtherProtocols}.

(** A server of one container of AmneziaWG, as an import stores it. *)
Record awg_server (o : obj) (c : obj) : Prop := {
  awg_default : ofind "defaultContainer" o = Some (JStr "amnezia-awg");
  awg_container : exists cont data, ofind Key.containers o = Some (JArr [JObj cont]) /\
    ofind Key.container cont = Some (JStr "amnezia-awg") /\ ofind "awg" cont = Some (JObj data) /\
    AwgProtocolConfig.clientConfig (AwgProtocolConfig.fromJson data) = Some (AwgClientConfig.fromJson c)
}.

Lemma awg_model o c : awg_server o c ->
  defaultContainer (ServerModel_fromJson o) = Awg /\
  exists data, containerConfig Awg (ServerModel_fromJson o) = mkContainer Awg (PAwg data) /\
    AwgProtocolConfig.clientConfig data = Some (AwgClientConfig.fromJson c).
Proof.
  intros [Hd (cont & data & Hcs & Hc & Hp & Hcl)]. unfold ServerModel_fromJson, containerConfig.
  cbn [defaultContainer containers]. rewrite Hd, Hcs. cbn [to_string to_array].
  change (containerFromString "amnezia-awg") with Awg. split; [done|]. exists (AwgProtocolConfig.fromJson data).
  split; [|done]. unfold read_containers. cbn [fold_left]. unfold cinsert, ContainerConfig_fromJson.
  cbn [to_object filter list_filter cfind]. rewrite Hc. cbn [to_string].
  change (containerFromString "amnezia-awg") with Awg. cbn [defaultProtocol protoToString].
  rewrite Hp. cbn [to_object ProtocolConfig_fromJson]. by rewrite bool_decide_eq_true_2.
Qed.

(** Two configurations of the same tunnel, up to the packets before the handshake and the text. *)
Definition same_tunnel (c d : AwgClientConfig.AwgClientConfig) : Prop :=
  d = c <| AwgClientConfig.nativeConfig := AwgClientConfig.nativeConfig d |>
        <| AwgClientConfig.specialJunk1 := AwgClientConfig.specialJunk1 d |>
        <| AwgClientConfig.specialJunk2 := AwgClientConfig.specialJunk2 d |>
        <| AwgClientConfig.specialJunk3 := AwgClientConfig.specialJunk3 d |>
        <| AwgClientConfig.specialJunk4 := AwgClientConfig.specialJunk4 d |>
        <| AwgClientConfig.specialJunk5 := AwgClientConfig.specialJunk5 d |>.

Definition junk (c : AwgClientConfig.AwgClientConfig) : list string :=
  [AwgClientConfig.specialJunk1 c; AwgClientConfig.specialJunk2 c; AwgClientConfig.specialJunk3 c;
   AwgClientConfig.specialJunk4 c; AwgClientConfig.specialJunk5 c].

(** A server of the account whose packets this device makes. *)
Definition dynamic (o : obj) : bool :=
  String.eqb (to_string (ofind "managedProfileId" o)) "tunnelcore-vpn"
  && ci_eqb (to_string (ofind "managedObfuscationMode" o)) "client_dynamic".

Definition packets_of (o : obj) : list string :=
  packets (generate (to_string (ofind "managedObfuscationProfile" o)) (to_string (ofind "managedProfileKey" o))).

Lemma native_container_awg o data client :
  AwgProtocolConfig.clientConfig data = Some client ->
  exists data' client', native_container o Awg (mkContainer Awg (PAwg data)) = mkContainer Awg (PAwg data') /\
    AwgProtocolConfig.clientConfig data' = Some client' /\ same_tunnel client client' /\
    junk client' = if dynamic o then packets_of o else junk client.
Proof.
  intros Hc. unfold native_container, dynamic, packets_of. cbn [managedProfileId managedObfuscationMode
    managedObfuscationProfile managedProfileKey ManagedProfile_fromJson].
  change (isAwgContainer Awg) with true. rewrite andb_true_r.
  unfold tunnelCoreManagedProfileId. destruct (_ && _).
  - cbn [protocolConfig]. set (req := to_string (ofind "managedObfuscationProfile" o)).
    destruct (dynamic_obfuscation_applied data client req (to_string (ofind "managedProfileKey" o)) Hc)
      as (p1 & p2 & p3 & p4 & p5 & client' & -> & -> & E).
    exists (data <| AwgProtocolConfig.clientConfig := Some client' |>), client'. split_and!; try done; by rewrite E.
  - exists data, client. split_and!; try done. by destruct client.
Qed.

Lemma processed_awg settings data client : AwgProtocolConfig.clientConfig data = Some client ->
  exists client', processed_client settings (PAwg data) = AwgClientConfig.toJson client' /\
    same_tunnel client client' /\ junk client' = junk client.
Proof.
  intros Hc. unfold processed_client, applyDnsToNativeConfig, setNativeConfig.
  cbn [AwgProtocolConfig.clientConfig upd setter]. rewrite Hc. cbn [fmap option_fmap option_map from_option].
  eexists. split; [reflexivity|]. by destruct client.
Qed.

Lemma same_tunnel_trans a b c : same_tunnel a b -> same_tunnel b c -> same_tunnel a c.
Proof. unfold same_tunnel. intros -> ->. by destruct a. Qed.

(** The configuration of the connection of such a server. *)
Lemma prepared_awg free premium app r id o c :
  serverKind free premium r id = Native -> configOfKind free premium (isKind Native) r id = Some o ->
  awg_server o c -> AwgClientConfig.mtu (AwgClientConfig.fromJson c) <> "" ->
  let client := AwgClientConfig.fromJson c in
  let dns := getDnsPair (settings_primaryDns app) (settings_secondaryDns app) (ServerModel_fromJson o) in
  exists vc client', prepareConnection free premium app r id = Prepared vc Awg /\
    ofind "protocol" vc = Some (JStr "awg") /\
    ofind "awg_config_data" vc = Some (JObj (AwgClientConfig.toJson client')) /\
    ofind "dns1" vc = Some (JStr (primaryDns dns)) /\ ofind "dns2" vc = Some (JStr (secondaryDns dns)) /\
    same_tunnel client client' /\ junk client' = if dynamic o then packets_of o else junk client.
Proof.
  intros Hk Ho Hs Hmtu. destruct (awg_model o c Hs) as (Hd & data & Hcont & Hcl). cbv zeta.
  destruct (native_container_awg o data _ Hcl) as (data' & client' & Hnat & Hcl' & Hsame & Hjunk).
  unfold prepareConnection. rewrite Hk, Ho. unfold finish. rewrite Hd, Hcont, Hnat.
  unfold createConnectionConfiguration. change (containerService Awg) with ServiceType.Vpn.
  rewrite bool_decide_eq_false_2 by done. cbn [protocolConfig defaultProtocol has_configurator negb].
  set (settings := mkSettings_ _ _ _ _).
  destruct (processed_awg settings data' client' Hcl') as (client'' & -> & Hsame' & Hjunk').
  assert (Em : AwgClientConfig.mtu client'' = AwgClientConfig.mtu (AwgClientConfig.fromJson c))
    by (rewrite (same_tunnel_trans _ _ _ Hsame Hsame'); done).
  rewrite (to_string_lookup configKey.mtu (AwgClientConfig.mtu client'')) by (unfold AwgClientConfig.fields; listed).
  rewrite (proj2 (str_empty_false _)) by (by rewrite Em). rewrite andb_false_r.
  do 2 eexists. split; [reflexivity|].
  split_and!; [done| |done|done|by eapply same_tunnel_trans|by rewrite Hjunk']. done.
Qed.
End Path.

Section Request.
Context `{VpnWorld}.

(** The keys of the configuration and of the client's part that starting a tunnel may change. *)
Definition start_keys : list string :=
  ["awg_config_data"; "splitTunnelApps"; "appSplitTunnelType"; "splitTunnelSites"; "splitTunnelType";
   "allowedDnsServers"; "killSwitchOption"; configKey.hostName].

Definition client_keys : list string := [configKey.allowedIps; configKey.persistentKeepAlive; configKey.hostName].

Lemma oset_other k k' v o : k <> k' -> ofind k (oset k' v o) = ofind k o.
Proof. intros Hk. by rewrite ofind_oset_ne. Qed.

Lemma with_old_forms k o : k <> configKey.allowedIps -> k <> configKey.persistentKeepAlive ->
  ofind k (Connection.with_keep_alive (Connection.with_allowed_ips o)) = ofind k o.
Proof.
  intros H1 H2. unfold Connection.with_keep_alive, Connection.with_allowed_ips.
  repeat case_match; by rewrite ?ofind_oset_ne.
Qed.

(** [upgraded] of a configuration of AmneziaWG. *)
Lemma upgraded_awg o data : ofind "protocol" o = Some (JStr "awg") -> ofind "awg_config_data" o = Some (JObj data) ->
  (forall k, k <> "awg_config_data" -> ofind k (Connection.upgraded o).1 = ofind k o) /\
  exists data', ofind "awg_config_data" (Connection.upgraded o).1 = Some (JObj data') /\
    forall k, k <> configKey.allowedIps -> k <> configKey.persistentKeepAlive -> ofind k data' = ofind k data.
Proof.
  intros Hp Hd. unfold Connection.upgraded. rewrite Hp. cbn [to_string].
  change (String.eqb "awg" "awg" || String.eqb "awg" "wireguard") with true. cbv iota zeta.
  change ("awg" +:+ "_config_data") with "awg_config_data". rewrite Hd. cbn [to_object fst].
  case_bool_decide as E.
  - split; [done|]. exists data. done.
  - split; [intros k Hk; by rewrite ofind_oset_ne|].
    eexists. rewrite ofind_oset_eq. split; [reflexivity|]. intros k. apply with_old_forms.
Qed.

Lemma started_awg app o data : ofind "protocol" o = Some (JStr "awg") -> ofind "awg_config_data" o = Some (JObj data) ->
  let raw := Connection.connectToVpn_config app o in
  (forall k, k ∉ start_keys -> ofind k raw = ofind k o) /\
  exists data', ofind "awg_config_data" raw = Some (JObj data') /\
    forall k, k <> configKey.allowedIps -> k <> configKey.persistentKeepAlive -> ofind k data' = ofind k data.
Proof.
  intros Hp Hd. cbv zeta. unfold Connection.connectToVpn_config, Connection.appendSplitTunnelingConfig.
  set (o' := Connection.appendKillSwitchConfig app o).
  assert (Ho : forall k, k <> "allowedDnsServers" -> k <> "killSwitchOption" -> ofind k o' = ofind k o).
  { intros k H1 H2. unfold o', Connection.appendKillSwitchConfig. by rewrite !ofind_oset_ne. }
  destruct (upgraded_awg o' data) as [Hk (data' & Hd' & Hdata)]; [by rewrite Ho|by rewrite Ho|].
  destruct (Connection.upgraded o') as [u b]. cbn [fst] in *.
  destruct (Connection.split_sites app b u), (Connection.split_apps app). split.
  - intros k Hn. unfold start_keys in Hn. rewrite !not_elem_of_cons in Hn.
    destruct Hn as (? & ? & ? & ? & ? & ? & ? & _). rewrite !ofind_oset_ne by done. by rewrite Hk, Ho.
  - exists data'. split; [|done]. by rewrite !ofind_oset_ne.
Qed.

Lemma request_awg app o data : ofind "protocol" o = Some (JStr "awg") -> ofind "awg_config_data" o = Some (JObj data) ->
  let raw := resolved_config (Connection.connectToVpn_config app o) in
  (forall k, k ∉ start_keys -> ofind k raw = ofind k o) /\
  exists data', to_object (ofind (to_string (ofind "protocol" raw) +:+ "_config_data") raw) = data' /\
    ofind configKey.hostName data' = Some (JStr (getIPAddress (to_string (ofind configKey.hostName data)))) /\
    forall k, k ∉ client_keys -> ofind k data' = ofind k data.
Proof.
  intros Hp Hd. destruct (started_awg app o data Hp Hd) as [Hk (data' & Hd' & Hdata)]. cbv zeta in Hk, Hd' |- *.
  set (raw := Connection.connectToVpn_config app o) in *.
  assert (Hp' : ofind "protocol" raw = Some (JStr "awg"))
    by (rewrite Hk; [done|apply (bool_decide_unpack _); vm_compute; exact I]).
  assert (Hr : forall k, k ∉ start_keys -> ofind k (resolved_config raw) = ofind k raw).
  { intros k Hn. unfold start_keys in Hn. rewrite !not_elem_of_cons in Hn. destruct Hn as (? & _ & _ & _ & _ & _ & _ & ? & _).
    unfold resolved_config. rewrite Hp'. cbn [to_string]. change ("awg" +:+ "_config_data") with "awg_config_data".
    by rewrite !ofind_oset_ne. }
  split; [intros k Hn; by rewrite Hr, Hk|]. eexists. split; [reflexivity|].
  rewrite (Hr "protocol") by (apply (bool_decide_unpack _); vm_compute; exact I). rewrite Hp'. unfold resolved_config. rewrite Hp'.
  cbn [to_string]. change ("awg" +:+ "_config_data") with "awg_config_data". rewrite Hd'. cbn [to_object].
  rewrite ofind_oset_ne by done. rewrite ofind_oset_eq. cbn [to_object]. split.
  - rewrite ofind_oset_eq. by rewrite Hdata.
  - intros k Hn. unfold client_keys in Hn. rewrite !not_elem_of_cons in Hn. destruct Hn as (? & ? & ? & _).
    by rewrite ofind_oset_ne, Hdata.
Qed.

(** What the request to the daemon says of such a configuration. *)
Lemma activation_awg app o client :
  ofind "protocol" o = Some (JStr "awg") -> ofind "awg_config_data" o = Some (JObj (AwgClientConfig.toJson client)) ->
  let cmd := Client.activation (resolved_config (Connection.connectToVpn_config app o)) in
  let text x := if str_empty x then None else Some (JStr x) in
  ofind "type" cmd = Some (JStr "activate") /\
  ofind "privateKey" cmd = text (AwgClientConfig.clientPrivateKey client) /\
  ofind "deviceIpv4Address" cmd = text (AwgClientConfig.clientIp client) /\
  ofind "serverPublicKey" cmd = text (AwgClientConfig.serverPublicKey client) /\
  ofind "serverPskKey" cmd = text (AwgClientConfig.presharedKey client) /\
  ofind "deviceMTU" cmd = text (AwgClientConfig.mtu client) /\
  ofind "serverIpv4AddrIn" cmd = Some (JStr (getIPAddress (AwgClientConfig.hostName client))) /\
  ofind "serverPort" cmd = Some (JInt (to_int 0 (ofind configKey.port (AwgClientConfig.toJson client)))) /\
  ofind "primaryDnsServer" cmd = ofind "dns1" o /\
  forall k x, k ∈ configKey.awgProtocolKeys -> PutStr k x ∈ AwgClientConfig.fields client -> ofind k cmd = text x.
Proof.
  intros Hp Hd. destruct (request_awg app o _ Hp Hd) as [Hk (data & Hdata & Hhost & Hother)].
  cbv zeta in *. set (raw := resolved_config _) in *.
  assert (Hf : forall k x, k ∉ client_keys -> PutStr k x ∈ AwgClientConfig.fields client ->
    ofind k data = if str_empty x then None else Some (JStr x)).
  { intros k x Hn Hin. rewrite Hother by done. apply AwgClientConfig.awg_client_lookup in Hin. exact Hin. }
  assert (Hi : forall k v, (k, v) ∈ Client.insertions raw -> ofind k (Client.activation raw) = v)
    by (intros k v; apply ofind_activation).
  split_and!.
  1-9: erewrite Hi by (unfold Client.insertions; rewrite Hdata; apply elem_of_app; left; listed).
  all: try done.
  all: try (apply Hf; [apply (bool_decide_unpack _); vm_compute; exact I|unfold AwgClientConfig.fields; listed]).
  - rewrite Hhost. do 2 f_equal. f_equal. apply to_string_lookup. unfold AwgClientConfig.fields. listed.
  - rewrite Hother by (apply (bool_decide_unpack _); vm_compute; exact I). done.
  - apply Hk. apply (bool_decide_unpack _). vm_compute. exact I.
  - intros k x Hkey Hin. erewrite Hi by (unfold Client.insertions; rewrite Hdata; apply elem_of_app; right;
      apply list_elem_of_fmap; exists k; split; [reflexivity|done]).
    rewrite (Hf k x); [by destruct x| |done].
    assert (Ha : forallb (fun k => bool_decide (k ∉ client_keys)) configKey.awgProtocolKeys = true)
      by (vm_compute; reflexivity).
    rewrite forallb_forall in Ha. apply (bool_decide_unpack _). rewrite Ha by (by apply list_elem_of_In). exact I.
Qed.
End Request.
