(* ===== verification/ConnectingTheorems.v ===== *)
(** * Theorems of connecting

    What an imported text becomes in the request to the daemon, from the press of the button on;
    what the button shows while the two threads run in any order; and which servers can be
    connected to. *)

From S2P Require Import Prelude Json IpAddress Lines InterfaceConfig Daemon Containers ServerConfig.
From S2P Require Import ProtocolConfigs ServersRepository LocalSocket LocalSocketFacts LocalSocketTheorems SplitTunneling SplitTunnelingTheorems.
From S2P Require Import VpnConnection VpnConnectionFacts VpnConnectionTheorems Obfuscation ObfuscationTheorems.
From S2P Require Import Connecting ConnectingFacts Numbers Import ImportFacts ImportTheorems.

(** ** The account's text *)

Section AccountServer.
Context `{ImportWorld}.
Hypothesis Huuid : forall n, createUuid n <> "" /\ trimmed (createUuid n) = createUuid n.

(** What the object of an extracted text says of the container and of DNS. *)
Lemma extracted_fields r data name c host port awg :
  extractShareLink r data name = None -> checkConfigFormat data = ConfigTypes.WireGuard ->
  lastConfigOf data = Some (c, host, port, awg) ->
  let o := config (extractConfigFromData r data name) in
  ofind "defaultContainer" o = Some (JStr (if awg then importKey.amneziaAwg else importKey.amneziaWireguard)) /\
  ofind "dns1" o = (fun d => JStr d.1) <$> search match_dns data /\
  ofind "dns2" o = (fun d => JStr d.2) <$> search match_dns data.
Proof.
  intros Hs Hf Hc. unfold extractConfigFromData, decode_config. rewrite Hs, Hf. cbn [bool_decide].
  rewrite bool_decide_eq_false_2 by done. unfold extract_wireguard, extractWireGuardConfig. rewrite Hc.
  set (o := oset Key.hostName (JStr host) _).
  assert (Ho : ofind "defaultContainer" o = Some (JStr (if awg then importKey.amneziaAwg else importKey.amneziaWireguard)) /\
    ofind "dns1" o = (fun d => JStr d.1) <$> search match_dns data /\
    ofind "dns2" o = (fun d => JStr d.2) <$> search match_dns data).
  { unfold o. destruct (search match_dns data) as [[d1 d2]|]; destruct awg; look; done. }
  clearbody o. destruct o as [|kv o]; [by destruct Ho|]. destruct (str_empty _); [done|].
  cbn [config upd setter]. rewrite !ofind_oset_ne by done. done.
Qed.

(** The account's fields, and what its object keeps. *)
Lemma account_other key mode profile o k : k ∉ [importKey.managedProfileId; importKey.managedProfileKey;
    importKey.managedObfuscationMode; importKey.managedObfuscationProfile] ->
  ofind k (account_object key mode profile o) = ofind k o.
Proof.
  rewrite !not_elem_of_cons. intros (H1 & H2 & H3 & H4 & _). unfold account_object, with_profile.
  repeat case_match; by rewrite !ofind_oset_ne.
Qed.

Lemma account_profile key mode profile o : String.eqb (to_lower (trimmed mode)) "client_dynamic" = true ->
  to_string (ofind importKey.managedObfuscationProfile (account_object key mode profile o)) =
  orElse (to_lower (trimmed profile)) "auto".
Proof. intros Hm. unfold account_object, with_profile. rewrite Hm. look. by unfold orElse. Qed.

Lemma native_kind r id o : Import.nativeConfig r id = Some o -> serverKind freeV2Endpoint premiumV1Endpoint r id = Native.
Proof.
  unfold Import.nativeConfig, configOfKind, serverKind. destruct (m_serverJsonById r !! id); [|done].
  unfold isKind. case_bool_decide; [done|discriminate].
Qed.

Lemma container_awg c port : exists data, ofind Key.container (container_of c port true) = Some (JStr "amnezia-awg") /\
  ofind "awg" (container_of c port true) = Some (JObj data) /\
  AwgProtocolConfig.clientConfig (AwgProtocolConfig.fromJson data) = Some (AwgClientConfig.fromJson c).
Proof.
  set (cont := container_of c port true). exists (protocol_object true (oset Key.containers (JArr [JObj cont]) [])).
  split; [unfold cont, container_of; look; done|]. split; [unfold cont, container_of; look; done|].
  apply (client_of_container c port true). by rewrite ofind_oset_eq.
Qed.

(** Such a server is one of AmneziaWG, and the account's fields say how its packets are made. *)
Lemma account_server data name key mode profile s :
  inv (im_repo s) -> has (im_repo s) (createUuid (m_uuids (im_repo s))) = false ->
  extractShareLink (im_repo s) data (fileName (slashes name)) = None ->
  checkConfigFormat data = ConfigTypes.WireGuard ->
  text_complete data = true -> (-1 <= url_port (setting data "Endpoint") <= 65535)%Z -> text_awg data = true ->
  let s' := importTunnelCoreConfig data name key mode profile s in
  let id := m_defaultServerId (im_repo s') in
  let asked := String.eqb (to_lower (trimmed mode)) "client_dynamic" in
  exists o c, id <> "" /\ serverKind freeV2Endpoint premiumV1Endpoint (im_repo s') id = Native /\
    Import.nativeConfig (im_repo s') id = Some o /\ awg_server o c /\
    AwgClientConfig.fromJson c = text_config data (url_host (setting data "Endpoint")) (text_port data) /\
    dynamic o = asked /\ to_string (ofind "managedProfileKey" o) = key /\
    (asked = true -> to_string (ofind "managedObfuscationProfile" o) =
      orElse (to_lower (trimmed profile)) "auto") /\
    to_string (ofind "dns1" o) = default "" (fst <$> search match_dns data) /\
    to_string (ofind "dns2" o) = default "" (snd <$> search match_dns data).
Proof.
  intros Hi Hf Hs Ht Hc Hp Hawg. cbv zeta.
  destruct (account_stored Huuid data name key mode profile s Hi Hf Hs Ht Hc Hp)
    as (c & port & Hl & Hcfg & Hho & -> & Hid & Hn & _).
  rewrite Hid. set (r := im_repo s) in *. set (result := extractConfigFromData r data _) in *.
  set (o := account_object key mode profile (config result)) in *. rewrite Hawg in *.
  destruct (extracted_fields r data _ c _ port true Hs Ht Hl) as (Hd & H1 & H2). fold result in Hd, H1, H2.
  destruct (account_fields key mode profile (config result)) as (Hpid & Hkey & Hmode). fold o in Hpid, Hkey, Hmode.
  exists (stored_payload r o), c. split_and!; try done.
  - unfold stored_id. destruct (str_empty (target r o)) eqn:E; [apply Huuid|by apply str_empty_false].
  - by eapply native_kind.
  - destruct (container_awg c port) as (d & ? & ? & ?). split.
    + rewrite stored_field by done. unfold o. rewrite account_other; [done|]. apply (bool_decide_unpack _). vm_compute. exact I.
    + exists (container_of c port true), d. rewrite stored_field by done. split; [apply Hho|done].
  - unfold dynamic. rewrite !stored_field by done.
    rewrite (Hpid : to_string (ofind "managedProfileId" o) = _), (Hmode : to_string (ofind "managedObfuscationMode" o) = _).
    by destruct (String.eqb _ "client_dynamic").
  - by rewrite stored_field.
  - intros Hm. rewrite stored_field by done. by apply account_profile.
  - rewrite stored_field by done. unfold o. rewrite account_other; [rewrite H1; by destruct (search _ _)|].
    apply (bool_decide_unpack _). vm_compute. exact I.
  - rewrite stored_field by done. unfold o. rewrite account_other; [rewrite H2; by destruct (search _ _)|].
    apply (bool_decide_unpack _). vm_compute. exact I.
Qed.
End AccountServer.

(** ** From the button to the daemon *)

Section Button.
Context `{CompactText} {JT : JsonText} `{VpnWorld} `{EL : EventLoop} `{Chance} `{OtherProtocols}.
Variables free premium : string.

Abbreviation run := (app_run (JT := JT) free premium).

(** Nothing is open and nothing is under way. *)
Record at_rest (a : application) : Prop := {
  rest_state : m_state (a_ui a) = Vpn.Disconnected;
  rest_connected : m_isConnected (a_ui a) = false;
  rest_progress : m_isConnectionInProgress (a_ui a) = false;
  rest_requests : a_requests a = [];
  rest_crashed : a_crashed a = false;
  rest_protocol : m_vpnProtocol (a_conn a) = None;
  rest_repositories : m_repositories (a_conn a) = true
}.

(** A server with a native AmneziaWG container can be connected to. *)
Lemma supported_awg r id o c : id <> "" -> serverKind free premium r id = Native ->
  configOfKind free premium (isKind Native) r id = Some o -> awg_server o c ->
  isConnectionSupported free premium socket_windows true r id = ConnectError.NoError.
Proof.
  intros Hid Hk Ho Hs. destruct (awg_model o c Hs) as (Hd & _). unfold isConnectionSupported.
  rewrite (proj2 (str_empty_false id) Hid). cbn [negb]. rewrite Hk. cbn [isLegacyApiSubscription].
  unfold defaultContainerForServer. rewrite Hk. unfold container_of_kind. rewrite Ho, Hd.
  rewrite bool_decide_eq_true_2, bool_decide_eq_false_2 by done. cbn [negb isUnsupportedContainer].
  unfold isSupportedByCurrentPlatform. by rewrite orb_true_r.
Qed.

(** Nothing is sent to a server that is no subscription. *)
Lemma payload_native r id : serverKind free premium r id = Native -> payload free premium r id = [].
Proof.
  unfold payload, configOfKind, serverKind. destruct (m_serverJsonById r !! id); [|done]. by intros ->.
Qed.

(** The press of the button at rest opens the default server's connection, once it is validated and
    the request is delivered. *)
Lemma press_opens a r id o c vc : at_rest a -> m_defaultServerId r = id -> id <> "" ->
  serverKind free premium r id = Native -> configOfKind free premium (isKind Native) r id = Some o -> awg_server o c ->
  prepareConnection (JT := JT) free premium (m_appSettings (a_conn a)) r id = Prepared vc Awg ->
  let a' := run [RepositoryChanged r; Click true; Validated true; DeliverRequest] a in
  exists v, a_conn a' = connectToVpn Awg vc v /\ commands v = commands (a_conn a) /\
    m_appSettings v = m_appSettings (a_conn a) /\ m_vpnProtocol v = None /\ m_repositories v = true.
Proof.
  intros [Hst Hcn Hpr Hrq Hcr Hp Hr] Hid Hne Hk Ho Hs Hprep. cbv zeta. unfold app_run. cbn [fold_left].
  set (a1 := app_step free premium (RepositoryChanged r) a).
  assert (E1 : a1 = repository_changed (JT := JT) free premium r a) by (unfold a1, app_step; by rewrite Hcr).
  assert (E2 : app_step (JT := JT) free premium (Click true) a1 =
    (show Vpn.Preparing (a1 <| a_ui := ui_emit prepareConfig (a_ui a1) |>)) <| a_validations := S (a_validations a1) |>).
  { unfold app_step. rewrite E1. change (a_crashed (repository_changed _ _ _ a)) with (a_crashed a). rewrite Hcr.
    unfold toggleConnection. change (a_ui (repository_changed _ _ _ a)) with (a_ui a).
    change (a_repo (repository_changed _ _ _ a)) with r. rewrite Hst, Hcn, Hpr, Hid, bool_decide_eq_false_2 by done.
    rewrite (proj2 (str_empty_false id) Hne), (supported_awg r id o c), bool_decide_eq_true_2 by done. cbn [negb].
    unfold on_prepareConfig. cbv zeta.
    change (a_repo (show _ (_ <| a_ui := _ |>))) with r. by rewrite Hid, (proj2 (str_empty_false id) Hne). }
  rewrite E2. set (a2 := _ <| a_validations := S _ |>). set (b := a2 <| a_validations := a_validations a1 |>).
  assert (E3 : app_step (JT := JT) free premium (Validated true) a2 = post (openConnectionRequested id Awg vc) b).
  { unfold app_step. change (a_crashed a2) with (a_crashed a1). rewrite E1.
    change (a_crashed (repository_changed _ _ _ a)) with (a_crashed a). rewrite Hcr.
    change (a_validations a2) with (S (a_validations a1)). cbv iota. fold b.
    unfold on_configValidated, openConnection, controller_openConnection. cbn [negb].
    change (a_repo b) with (a_repo a1). change (m_appSettings (a_conn b)) with (m_appSettings (a_conn a1)).
    rewrite E1. change (a_repo (repository_changed _ _ _ a)) with r.
    change (m_appSettings (a_conn (repository_changed _ _ _ a))) with (m_appSettings (a_conn a)).
    rewrite Hid, (proj2 (str_empty_false id) Hne), Hprep, payload_native, bool_decide_eq_true_2 by done. done. }
  rewrite E3. set (v := a_conn a1). exists v.
  assert (Hv : v = (a_conn a) <| m_container := getDefaultContainer (JT := JT) free premium r (m_defaultServerId r) |>)
    by (unfold v; by rewrite E1).
  split_and!; [|by rewrite Hv..].
  unfold app_step. change (a_crashed (post _ b)) with (a_crashed a1). rewrite E1.
  change (a_crashed (repository_changed _ _ _ a)) with (a_crashed a). rewrite Hcr.
  change (a_requests (post _ b)) with (a_requests a1 ++ [openConnectionRequested id Awg vc]). rewrite E1.
  change (a_requests (repository_changed _ _ _ a)) with (a_requests a). rewrite Hrq. cbn [app]. done.
Qed.
End Button.

Definition junk_keys : list string := ["I1"; "I2"; "I3"; "I4"; "I5"].

(** A text as the request has it: an empty one is left out. *)
Definition sent_text (x : string) : option json := if str_empty x then None else Some (JStr x).

(** The five packets in their keys. *)
Lemma junk_fields client i k p : junk_keys !! i = Some k -> junk client !! i = Some p ->
  k ∈ configKey.awgProtocolKeys /\ PutStr k p ∈ AwgClientConfig.fields client.
Proof.
  intros Hk Hp. unfold junk_keys, junk in *. split.
  - apply list_elem_of_lookup_2 in Hk. unfold configKey.awgProtocolKeys.
    repeat (apply elem_of_cons in Hk as [->|Hk]; [listed|]). by apply elem_of_nil in Hk.
  - do 5 (destruct i as [|i]; [injection Hk as <-; injection Hp as <-; unfold AwgClientConfig.fields; listed|]). done.
Qed.

(** The settings of AmneziaWG of a text, each in its field. *)
Lemma text_fields data host port client k : k ∈ configKey.awgProtocolKeys ->
  same_tunnel (text_config data host port) client ->
  k ∉ junk_keys \/ junk client = junk (text_config data host port) ->
  PutStr k (setting data k) ∈ AwgClientConfig.fields client.
Proof.
  intros Hk Hs Hj. unfold same_tunnel in Hs. rewrite Hs.
  assert (Hjk : k ∈ junk_keys -> AwgClientConfig.specialJunk1 client = setting data "I1" /\
    AwgClientConfig.specialJunk2 client = setting data "I2" /\ AwgClientConfig.specialJunk3 client = setting data "I3" /\
    AwgClientConfig.specialJunk4 client = setting data "I4" /\ AwgClientConfig.specialJunk5 client = setting data "I5").
  { intros Hin. destruct Hj as [Hj|Hj]; [done|]. unfold junk in Hj. by injection Hj. }
  unfold configKey.awgProtocolKeys in Hk.
  repeat (apply elem_of_cons in Hk as [->|Hk];
    [try (destruct Hjk as (E1 & E2 & E3 & E4 & E5); [unfold junk_keys; solve [listed]|rewrite ?E1, ?E2, ?E3, ?E4, ?E5]);
     unfold AwgClientConfig.fields; listed|]).
  by apply elem_of_nil in Hk.
Qed.

Lemma text_port_range `{ImportWorld} data : (-1 <= url_port (setting data "Endpoint") <= 65535)%Z -> (0 <= text_port data <= 65535)%Z.
Proof. unfold text_port. destruct (Z.eqb_spec (url_port (setting data "Endpoint")) (-1)); lia. Qed.

Lemma port_read client : (0 <= AwgClientConfig.port client <= 65535)%Z ->
  to_int 0 (ofind configKey.port (AwgClientConfig.toJson client)) = AwgClientConfig.port client.
Proof.
  intros Hr. assert (Hin : PutPort configKey.port (AwgClientConfig.port client) ∈ AwgClientConfig.fields client)
    by (unfold AwgClientConfig.fields; listed).
  apply AwgClientConfig.awg_client_lookup in Hin. cbn [write_key write_value] in Hin. rewrite Hin.
  destruct (Z.ltb_spec 0 (AwgClientConfig.port client)); cbn [to_int]; [|lia].
  assert (in_int32 (AwgClientConfig.port client) = true) as ->; [|done]. unfold in_int32, int32_min, int32_max. lia.
Qed.

(** C12: what the account delivers is what the daemon is asked for.  A complete AmneziaWG text that
    the account's service delivers is imported, becomes the default server and, when the button is
    pressed at rest, the service runs and the server is found valid, is sent to the daemon as one
    request to activate: with the keys, the address, the preshared key and the MTU of the text, its
    endpoint resolved, its first DNS server (or that of the settings when it has none), and every
    setting of AmneziaWG under its own name.  The five packets before the handshake are those of
    the text, or five made on this device from the profile and its key when the account asks for
    that. *)
Theorem account_text_reaches_daemon `{IW : ImportWorld} `{CompactText} `{VpnWorld} `{EL : EventLoop} `{Chance}
    `{OtherProtocols}
    data name key mode profile s a :
  (forall n, createUuid n <> "" /\ trimmed (createUuid n) = createUuid n) ->
  inv (im_repo s) -> has (im_repo s) (createUuid (m_uuids (im_repo s))) = false ->
  extractShareLink (im_repo s) data (fileName (slashes name)) = None ->
  checkConfigFormat data = ConfigTypes.WireGuard ->
  text_complete data = true -> (-1 <= url_port (setting data "Endpoint") <= 65535)%Z ->
  text_awg data = true -> at_rest a ->
  let r := im_repo (importTunnelCoreConfig data name key mode profile s) in
  let asked := String.eqb (to_lower (trimmed mode)) "client_dynamic" in
  let a' := app_run (JT := import_text) freeV2Endpoint premiumV1Endpoint
              [RepositoryChanged r; Click true; Validated true; DeliverRequest] a in
  let dns := default "" (fst <$> search match_dns data) in
  exists cmd, commands (a_conn a') = commands (a_conn a) ++ [cmd] /\
    m_connectionState (a_conn a') = Vpn.Connecting /\
    ofind "type" cmd = Some (JStr "activate") /\
    ofind "privateKey" cmd = Some (JStr (setting data "PrivateKey")) /\
    ofind "deviceIpv4Address" cmd = Some (JStr (setting data "Address")) /\
    ofind "serverPublicKey" cmd = Some (JStr (setting data "PublicKey")) /\
    ofind "serverPskKey" cmd = sent_text (orElse (setting data "PresharedKey") (setting data "PreSharedKey")) /\
    ofind "deviceMTU" cmd = Some (JStr (orElse (setting data "MTU") "1376")) /\
    ofind "serverIpv4AddrIn" cmd = Some (JStr (getIPAddress (url_host (setting data "Endpoint")))) /\
    ofind "serverPort" cmd = Some (JInt (text_port data)) /\
    ofind "primaryDnsServer" cmd =
      Some (JStr (if checkIPv4Format dns then dns else settings_primaryDns (m_appSettings (a_conn a)))) /\
    (forall k, k ∈ configKey.awgProtocolKeys -> k ∉ junk_keys \/ asked = false ->
       ofind k cmd = sent_text (setting data k)) /\
    (asked = true -> forall i k p, junk_keys !! i = Some k ->
       packets (generate (orElse (to_lower (trimmed profile)) "auto") key) !! i = Some p ->
       ofind k cmd = Some (JStr p)).
Proof.
  intros Hu Hi Hf Hs Ht Hc Hp Hawg Hrest. cbv zeta.
  destruct (account_server Hu data name key mode profile s Hi Hf Hs Ht Hc Hp Hawg)
    as (o & c & Hid & Hk & Ho & Hsrv & Hcfg & Hdyn & Hkey & Hprof & Hd1 & _).
  set (r := im_repo (importTunnelCoreConfig _ _ _ _ _ _)) in *. set (id := m_defaultServerId r) in *.
  set (text := text_config data _ _) in *.
  assert (Hmtu : AwgClientConfig.mtu (AwgClientConfig.fromJson c) = orElse (setting data "MTU") "1376") by (by rewrite Hcfg).
  destruct (prepared_awg (HT := world_text) freeV2Endpoint premiumV1Endpoint (m_appSettings (a_conn a)) r id o c Hk Ho Hsrv)
    as (vc & client & Hprep & Hproto & Hdata & Hdns & _ & Hsame & Hjunk).
  { rewrite Hmtu. unfold orElse. destruct (str_empty _) eqn:E; [done|by apply str_empty_false]. }
  rewrite Hcfg in Hsame, Hjunk.
  destruct (press_opens freeV2Endpoint premiumV1Endpoint a r id o c vc Hrest eq_refl Hid Hk Ho Hsrv Hprep)
    as (v & -> & Hcmd & Hset & Hpro & Hrep).
  destruct (connect_sends_activation Awg vc v ltac:(tauto) Hpro Hrep) as (Hstate & _ & Hsent).
  destruct (activation_awg (m_appSettings v) vc client Hproto Hdata)
    as (Htype & Hpriv & Hip & Hpub & Hpsk & Hm & Hhost & Hport & Hdns' & Hawgk).
  unfold text_complete in Hc. rewrite !andb_true_iff, !negb_true_iff in Hc. destruct Hc as (((_ & N1) & N2) & N3).
  eexists. rewrite Hsent, Hcmd. split; [reflexivity|]. split; [exact Hstate|]. split; [exact Htype|].
  rewrite Hpriv, Hip, Hpub, Hpsk, Hm, Hhost, Hport, Hdns', Hdns.
  split_and!.
  - rewrite (eq_trans (f_equal AwgClientConfig.clientPrivateKey Hsame) eq_refl : _ = setting data "PrivateKey"). by rewrite N1.
  - rewrite (eq_trans (f_equal AwgClientConfig.clientIp Hsame) eq_refl : _ = setting data "Address"). by rewrite N2.
  - rewrite (eq_trans (f_equal AwgClientConfig.serverPublicKey Hsame) eq_refl : _ = setting data "PublicKey"). by rewrite N3.
  - by rewrite Hsame.
  - rewrite (eq_trans (f_equal AwgClientConfig.mtu Hsame) eq_refl : _ = orElse (setting data "MTU") "1376").
    unfold orElse. destruct (str_empty (setting data "MTU")) eqn:E; [done|]. by rewrite E.
  - by rewrite Hsame.
  - rewrite (port_read client) by (rewrite Hsame; by apply text_port_range). by rewrite Hsame.
  - unfold getDnsPair. cbn [Connecting.primaryDns Connecting.dns1 ServerModel_fromJson]. rewrite Hd1.
    destruct (checkIPv4Format _) eqn:E; [|by rewrite orb_true_r].
    set (d := default "" _) in *. destruct (str_empty d) eqn:E2; [|done].
    unfold checkIPv4Format in E. by rewrite E2 in E.
  - intros k Hk' Hj. apply Hawgk; [done|]. eapply text_fields; [done|exact Hsame|].
    destruct Hj as [?|Hj]; [by left|right]. by rewrite Hjunk, Hdyn, Hj.
  - intros Hask i k p Hik Hpk. rewrite Hdyn, Hask in Hjunk. unfold packets_of in Hjunk.
    rewrite (Hprof Hask), Hkey in Hjunk. rewrite <- Hjunk in Hpk.
    destruct (junk_fields client i k p Hik Hpk) as [Hin1 Hin2]. rewrite (Hawgk k p Hin1 Hin2).
    destruct (packets_there (orElse (to_lower (trimmed profile)) "auto") key) as (p1 & p2 & p3 & p4 & p5 & Hps & He).
    rewrite <- Hps, <- Hjunk in He. destruct (str_empty p) eqn:Ep; [|done].
    exfalso. apply not_true_iff_false in He. apply He, existsb_exists. exists p. split; [|done].
    by apply list_elem_of_In, list_elem_of_lookup_2 with i.
Qed.

(** ** What the button shows *)

Section Shown.
Context `{CompactText} {JT : JsonText} `{VpnWorld} `{EL : EventLoop} {HT : Telling} `{Chance} `{OtherProtocols}.
Variables free premium : string.

Abbreviation step := (app_step (JT := JT) free premium).

(** The flags and the text of a state. *)
Definition shows (u : ConnectionUi) : Prop :=
  m_isConnected u = bool_decide (m_state u = Vpn.Connected) /\
  m_isConnectionInProgress u =
    bool_decide (m_state u ∈ [Vpn.Preparing; Vpn.Connecting; Vpn.Reconnecting; Vpn.Disconnecting]) /\
  m_state u <> Vpn.Error /\ m_state u <> Vpn.Unknown.

(** The states under way end with the one the connection is in; the page lags behind it by these
    only, except for the states it shows on its own account. *)
Record told (a : application) : Prop := {
  told_flags : shows (a_ui a);
  told_queue : forall st, a_states a <> [] -> List.last (a_states a) st = m_connectionState (a_conn a);
  told_connected : m_state (a_ui a) = Vpn.Connected ->
    List.last (a_states a) Vpn.Connected = m_connectionState (a_conn a)
}.

(** The state the page is in once it was told of one: an error is one of no connection. *)
Definition page_state (st : Vpn.ConnectionState) : Vpn.ConnectionState :=
  match st with Vpn.Error | Vpn.Unknown => Vpn.Disconnected | _ => st end.

Lemma shows_changed st u :
  shows (ui_onConnectionStateChanged st u) /\ m_state (ui_onConnectionStateChanged st u) = page_state st.
Proof. by destruct st. Qed.

Lemma page_connected st : page_state st = Vpn.Connected -> st = Vpn.Connected.
Proof. by destruct st. Qed.

(** A change that leaves the page's flags, the states under way and the connection's state. *)
Lemma told_same a b : m_state (a_ui b) = m_state (a_ui a) -> m_isConnected (a_ui b) = m_isConnected (a_ui a) ->
  m_isConnectionInProgress (a_ui b) = m_isConnectionInProgress (a_ui a) -> a_states b = a_states a ->
  m_connectionState (a_conn b) = m_connectionState (a_conn a) -> told a -> told b.
Proof.
  intros E1 E2 E3 E4 E5 [Hf Hq Hc]. constructor.
  - unfold shows in *. by rewrite E1, E2, E3.
  - by rewrite E4, E5.
  - by rewrite E1, E4, E5.
Qed.

(** A state the page shows on its own account. *)
Lemma told_show st a : st <> Vpn.Connected -> told a -> told (show st a).
Proof.
  intros Hst [Hf Hq Hc]. destruct (shows_changed st (a_ui a)) as [Hs Hm]. constructor; [exact Hs|exact Hq|].
  change (m_state (a_ui (show st a))) with (m_state (ui_onConnectionStateChanged st (a_ui a))). rewrite Hm.
  by intros ->%page_connected.
Qed.

Lemma told_connection f a : grown (a_conn a) (f (a_conn a)) -> told a -> told (in_connection f a).
Proof.
  intros (l & Hv & Hs) [Hf Hq Hc]. unfold in_connection. rewrite Hv, drop_app_length.
  set (news := omap signal_of l) in *.
  assert (Hlast : forall st, List.last (a_states a) st = m_connectionState (a_conn a) ->
    List.last (a_states a ++ news) st = m_connectionState (f (a_conn a))).
  { intros st E. rewrite last_app_default, E. by rewrite Hs. }
  constructor; [exact Hf| |].
  - change (a_states (_ <| a_states := ?x |>)) with x. intros st Hn.
    transitivity (m_connectionState (f (a_conn a))); [|done].
    destruct (a_states a) as [|s0 ss] eqn:Ea; [|by apply Hlast, Hq].
    rewrite Hs. destruct news as [|x news']; [done|]. cbn [app]. by rewrite !last_cons_default.
  - intros Hm. apply Hlast, Hc, Hm.
Qed.

Lemma told_deliver st rest a : a_states a = st :: rest -> told a -> told ((show st a) <| a_states := rest |>).
Proof.
  intros Ea [Hf Hq Hc]. destruct (shows_changed st (a_ui a)) as [Hs Hm]. rewrite Ea in Hq.
  constructor; [exact Hs| |].
  - change (a_states (_ <| a_states := rest |>)) with rest. intros st' Hn.
    transitivity (List.last (st :: rest) st'); [|by apply Hq]. rewrite last_cons_default.
    destruct rest as [|x rest]; [done|]. by rewrite !last_cons_default.
  - change (m_state (a_ui (_ <| a_states := rest |>))) with (m_state (ui_onConnectionStateChanged st (a_ui a))).
    change (a_states (_ <| a_states := rest |>)) with rest. rewrite Hm.
    intros ->%page_connected. rewrite <- last_cons_default with (d := Vpn.Connected). by apply Hq.
Qed.

(** A server that cannot be connected to. *)
Lemma told_blocked e a : told a -> told (a <| a_ui := notifyConnectionBlocked e (a_ui a) |>).
Proof.
  intros Ht. pose proof Ht as [Hf Hq Hc].
  destruct e; try (by apply (told_same a)); by constructor.
Qed.

Lemma told_open a : told a -> told (openConnection (JT := JT) free premium a).
Proof.
  intros Ht. unfold openConnection, controller_openConnection. destruct (str_empty _); [by apply told_show|].
  destruct (prepareConnection _ _ _ _ _) as [e|vc container|].
  - destruct (negb _); [by apply told_blocked|done].
  - rewrite bool_decide_eq_true_2 by done. apply (told_same a); try done; by destruct (payload _ _ _ _).
  - by apply (told_same a).
Qed.

Lemma told_toggle ready a : told a -> told (toggleConnection (JT := JT) free premium ready a).
Proof.
  intros Ht. unfold toggleConnection, closeConnection, post. cbv zeta.
  repeat case_match; try (by apply (told_same a)); [by apply told_blocked|].
  unfold on_prepareConfig. set (b := a <| a_ui := _ |>). assert (Hb : told b) by (by apply (told_same a)).
  cbv zeta. destruct (str_empty _); [by apply told_show, told_show|].
  apply (told_same (show Vpn.Preparing b)); try done. by apply told_show.
Qed.

Lemma told_step e a : told a -> told (step e a).
Proof.
  intros Ht. unfold app_step. destruct (a_crashed a); [done|]. destruct e.
  - by apply told_toggle.
  - by apply told_open.
  - by apply (told_same a).
  - destruct (a_validations a) as [|n]; [done|]. set (b := a <| a_validations := n |>).
    assert (Hb : told b) by (by apply (told_same a)). unfold on_configValidated.
    destruct (negb isValid); [by apply told_show|by apply told_open].
  - destruct Ht as [Hf Hq Hc]. destruct (shows_changed (m_state (a_ui a)) (a_ui a)) as [Hs Hm].
    constructor; [exact Hs|exact Hq|]. intros Hst. apply Hc, page_connected. by rewrite <- Hm.
  - by apply (told_same a).
  - by apply (told_same a).
  - destruct (a_requests a) as [|q rest]; [done|]. apply told_connection; [apply grown_request|]. by apply (told_same a).
  - destruct (a_states a) as [|st rest] eqn:Ea; [done|]. by apply told_deliver.
  - apply told_connection; [apply grown_step|done].
Qed.

Lemma told_run es a : told a -> told (app_run (JT := JT) free premium es a).
Proof. revert a. induction es as [|e es IH]; intros a Ht; [done|]. by apply IH, told_step. Qed.

Lemma told_new settings r : told (new_application (JT := JT) free premium settings r).
Proof. by split. Qed.
End Shown.

(** C24: the button never shows a connection that there is not.  The page and the connection live in
    two threads; whatever is pressed, validated, delivered late or told by the daemon, in whatever
    order, and whatever else the connection does while it waits for the service as long as it
    tells it, the page shows "connected" and "in progress" exactly as the state it is in has them,
    it never shows both, an error takes it back to "Disconnected", and when it shows "connected"
    and no state is under way, the connection is connected.  States are under way in order: the
    last one is that of the connection. *)
Theorem button_shows_connection `{CompactText} {JT : JsonText} `{VpnWorld} `{EL : EventLoop} `{Chance} `{OtherProtocols}
    free premium settings r es :
  (forall s, grown s (meanwhile s)) ->
  let a := app_run (JT := JT) free premium es (new_application (JT := JT) free premium settings r) in
  m_isConnected (a_ui a) = bool_decide (m_state (a_ui a) = Vpn.Connected) /\
  m_isConnectionInProgress (a_ui a) =
    bool_decide (m_state (a_ui a) ∈ [Vpn.Preparing; Vpn.Connecting; Vpn.Reconnecting; Vpn.Disconnecting]) /\
  m_isConnected (a_ui a) && m_isConnectionInProgress (a_ui a) = false /\
  (m_state (a_ui a) <> Vpn.Error /\ m_state (a_ui a) <> Vpn.Unknown) /\
  (m_isConnected (a_ui a) = true -> a_states a = [] -> m_connectionState (a_conn a) = Vpn.Connected) /\
  (forall st, a_states a <> [] -> List.last (a_states a) st = m_connectionState (a_conn a)).
Proof.
  intros HT. cbv zeta. set (a := app_run _ _ _ _).
  destruct (told_run (HT := HT) free premium es _ (told_new free premium settings r)) as [(Hc & Hp & He) Hq Hs].
  fold a in Hc, Hp, Hq, Hs, He. split; [done|]. split; [done|]. split; [|split; [done|split; [|done]]].
  - rewrite Hc, Hp. by destruct (m_state (a_ui a)).
  - rewrite Hc. intros Hm%bool_decide_eq_true_1 Hn. by rewrite <- Hs, Hn.
Qed.

(** ** Which servers can be connected to *)

(** The kinds that have a model to connect with, and the containers that have no protocol. *)
Definition connectable (k : ConfigType) : bool :=
  match k with AmneziaPremiumV1 | AmneziaFreeV2 | SelfHosted | Invalid => false | _ => true end.

Definition without_protocol (c : DockerContainer) : bool :=
  match c with None_ | Cloak | ShadowSocks => true | _ => false end.

Section Preparation.
Context {JT : JsonText} `{HostText} `{Chance} `{OtherProtocols}.
Variables free premium : string.

(** A server of a kind has its model. *)
Lemma config_there r id k p : serverKind free premium r id = k -> k <> Invalid -> p k = true ->
  exists o, configOfKind free premium p r id = Some o.
Proof.
  unfold serverKind, configOfKind. intros <- Hi Hp. destruct (m_serverJsonById r !! id); [|done].
  rewrite Hp. eauto.
Qed.

Lemma oset_not_nil k v o : oset k v o <> [].
Proof. intros E. pose proof (ofind_oset_eq k v o) as F. by rewrite E in F. Qed.

Lemma finish_exact app dns api s version c :
  if without_protocol (defaultContainer s) then finish app dns api s version c = NullConfigurator
  else exists vc, finish app dns api s version c = Prepared vc (defaultContainer s) /\
    (vc = [] <-> containerService (defaultContainer s) = ServiceType.Other).
Proof.
  unfold finish, createConnectionConfiguration. destruct (defaultContainer s); cbn [without_protocol].
  all: rewrite ?bool_decide_eq_false_2, ?bool_decide_eq_true_2 by done; cbn [defaultProtocol has_configurator negb];
    try done; eexists; (split; [reflexivity|]); split; try done; by intros ?%oset_not_nil.
Qed.

(** Either the kind has no model, or everything is up to the default container. *)
Lemma prepare_cases app r id :
  if connectable (serverKind free premium r id) then
    exists o dns api version c, let s := ServerModel_fromJson o in
      prepareConnection free premium app r id = finish app dns api s version c /\
      defaultContainerForServer free premium r id = (ConnectError.NoError, defaultContainer s)
  else prepareConnection free premium app r id = PrepareError ConnectError.InternalError.
Proof.
  unfold prepareConnection, defaultContainerForServer, container_of_kind.
  destruct (serverKind free premium r id) eqn:Ek; cbn [connectable]; try done;
    match goal with |- context [configOfKind _ _ ?p _ _] => destruct (config_there r id _ p Ek) as [o ->]; [done|done|] end;
    by eauto 10.
Qed.
End Preparation.

(** C25: exactly which servers a connection is prepared for.  A server of a kind without a model is
    refused; one whose default container has no protocol makes the controller call through a null
    pointer; every other one yields a configuration for its container, empty for a service that is
    no VPN.  The check made when the button is pressed lets no server of the first sort pass, and
    of the second only a subscription whose container is still to come. *)
Theorem preparation_exact {JT : JsonText} `{HostText} `{Chance} `{OtherProtocols} free premium app r id :
  let k := serverKind free premium r id in
  let c := getDefaultContainer free premium r id in
  (if negb (connectable k) then
     prepareConnection free premium app r id = PrepareError ConnectError.InternalError
   else if without_protocol c then prepareConnection free premium app r id = NullConfigurator
   else exists vc, prepareConnection free premium app r id = Prepared vc c /\
     (vc = [] <-> containerService c = ServiceType.Other)) /\
  (forall windows ready, isConnectionSupported free premium windows ready r id = ConnectError.NoError ->
     connectable k = true /\ (without_protocol c = true -> c = None_ /\ isApiV2Subscription k = true)).
Proof.
  cbv zeta. pose proof (prepare_cases free premium app r id) as Hp. split.
  - destruct (connectable _); cbn [negb]; [|done]. destruct Hp as (o & dns & api & version & c & Hp & Hd). cbv zeta in Hp, Hd.
    unfold getDefaultContainer. rewrite Hd, Hp. cbn [snd]. apply finish_exact.
  - intros windows ready. unfold isConnectionSupported, getDefaultContainer. destruct (str_empty id); [done|].
    destruct (negb ready); [done|]. destruct (connectable _) eqn:Ec.
    + destruct Hp as (o & dns & api & version & c & _ & Hd). cbv zeta in Hd. rewrite Hd. cbn [snd].
      rewrite bool_decide_eq_true_2 by done. cbn [negb]. destruct (isLegacyApiSubscription _); [done|].
      intros Hs. split; [done|]. intros Hw. destruct (defaultContainer (ServerModel_fromJson o)); try done.
      rewrite bool_decide_eq_true_2 in Hs by done. by destruct (isApiV2Subscription _).
    + unfold defaultContainerForServer. destruct (serverKind free premium r id); try done.
Qed.

(** ** The theorems at work *)

#[local] Existing Instance compact_model.
#[local] Existing Instance VpnConnectionTheorems.sample_world.
#[local] Existing Instance VpnConnectionTheorems.calm_loop.
#[local] Existing Instance sample_chance.
#[local] Existing Instance import_world.

Definition no_others : OtherProtocols :=
  {| other_client := fun _ _ _ => []; other_clientId := fun _ _ => "" |}.
#[local] Existing Instance no_others.

Abbreviation sample_run := (app_run (JT := import_text) freeV2Endpoint premiumV1Endpoint).
Definition sample_app : application :=
  new_application (JT := import_text) freeV2Endpoint premiumV1Endpoint empty_settings empty_repo.

Lemma account_text_reaches_daemon_witness :
  let r := im_repo (importTunnelCoreConfig (wg_text sample_items) "amsterdam.conf" "key-1" "client_dynamic" ""
                      (new_importer empty_repo)) in
  exists cmd, commands (a_conn (sample_run [RepositoryChanged r; Click true; Validated true; DeliverRequest] sample_app))
      = [cmd] /\
    ofind "privateKey" cmd = Some (JStr "cHJpdg==") /\ ofind "Jc" cmd = Some (JStr "4") /\
    ofind "I1" cmd = Some (JStr (default "" (head (packets (generate "auto" "key-1"))))).
Proof.
  cbv zeta.
  destruct (account_text_reaches_daemon (wg_text sample_items) "amsterdam.conf" "key-1" "client_dynamic" ""
              (new_importer empty_repo) sample_app)
    as (cmd & Hcmd & _ & _ & Hpriv & _ & _ & _ & _ & _ & _ & _ & Hkeys & Hjunk).
  - exact sample_uuid_text.
  - exact empty_repo_inv.
  - vm_compute. reflexivity.
  - vm_compute. reflexivity.
  - vm_compute. reflexivity.
  - vm_compute. reflexivity.
  - vm_compute. split; discriminate.
  - vm_compute. reflexivity.
  - split; reflexivity.
  - exists cmd. split; [exact Hcmd|]. split; [rewrite Hpriv; vm_compute; reflexivity|]. split.
    + rewrite Hkeys; [vm_compute; reflexivity| |left]; apply (bool_decide_unpack _); vm_compute; exact I.
    + apply (Hjunk eq_refl 0%nat); [reflexivity|vm_compute; reflexivity].
Defined.

(** The server [InstallController::addEmptyServer] adds: credentials, and no container. *)
Definition empty_server : obj :=
  oof [(Key.description, JStr "Server 1"); (Key.hostName, JStr "192.0.2.1"); (Key.userName, JStr "root");
       (Key.password, JStr "secret"); (Key.port, JInt 22)].

Definition empty_server_repo : repo :=
  (addServer createUuid freeV2Endpoint premiumV1Endpoint "" empty_server SelfHostedAdmin empty_repo).1.

(** The button refuses such a server, but the entry of the tray, which does not ask first, has the
    process call through a null pointer. *)
Theorem tray_connect_crashes :
  ui_signals (a_ui (sample_run [RepositoryChanged empty_server_repo; Click true] sample_app)) = [noInstalledContainers] /\
  a_crashed (sample_run [RepositoryChanged empty_server_repo; TrayConnect] sample_app) = true.
Proof. split; vm_compute; reflexivity. Qed.

(** The account's server, connected. *)
Definition sample_connecting : list app_event :=
  [RepositoryChanged (im_repo (importTunnelCoreConfig (wg_text sample_items) "a.conf" "key-1" "static" ""
                        (new_importer empty_repo))); Click true; Validated true; DeliverRequest;
   InConnection (Socket Client.SocketConnected); InConnection (Socket (Client.Input (frame idle_status)));
   InConnection (Socket (Client.Input (frame connected_message)));
   DeliverState; DeliverState].

Lemma button_shows_connection_witness :
  m_connectionState (a_conn (sample_run sample_connecting sample_app)) = Vpn.Connected.
Proof.
  destruct (button_shows_connection (JT := import_text) freeV2Endpoint premiumV1Endpoint empty_settings empty_repo
              sample_connecting) as (_ & _ & _ & _ & Hc & _); [intros s; reflexivity|].
  apply Hc; vm_compute; reflexivity.
Defined.

Lemma preparation_exact_witness :
  prepareConnection (JT := import_text) freeV2Endpoint premiumV1Endpoint empty_settings empty_server_repo
    (m_defaultServerId empty_server_repo) = NullConfigurator.
Proof.
  exact (proj1 (preparation_exact (JT := import_text) freeV2Endpoint premiumV1Endpoint empty_settings empty_server_repo
           (m_defaultServerId empty_server_repo))).
Defined.
